(* ===== verification/_CoqProject ===== *)
-Q . S2P
Prelude.v
MkList.v
MkListSpec.v
Queues.v
MkListRev.v
Mem.v
PrioQueue.v
BucketQueue.v
MkEvent.v
EventLoop.v
Codes.v
Task.v
Utf8.v
Bytes.v
Encoder.v
Time.v
Structs.v
Layout.v
Layouts.v
LayoutSpec.v
Fields.v
Plugins.v
Runtime.v
RuntimeSpec.v
Offsets.v
Output.v
OutputSpec.v
Logs.v
Lifecycle.v
LogsLife.v
Telemetry.v
TelemetryLife.v
Sleep.v
Engine.v
EngineSim.v
EngineStep.v
EngineSpec.v
Input.v
InputSpec.v
Collect.v
CollectSim.v
CollectSpec.v
Stream.v
Iov.v
Log.v
PluginLog.v
Subnet.v
Locale.v
Compat.v
Constants.v
Lua.v
Platform.v
Version.v
