(* ===== verification/Prelude.v ===== *)
(** * Fluent Bit agent headers: a verification development

    The C code of this repository is the set of headers of the Fluent Bit
    agent (2.1.9, 64-bit Windows) in
    [src/agents/Fluentbit/fluentbit/include/]; file names below are relative
    to it, [F/] standing for [fluent-bit/] and [M/] for [monkey/mk_core/].
    Their inline functions and macros hold the logic that is compiled into
    every plugin.  The rest of the repository configures machines.

    ** How the parts work together

    The engine wraps a chunk of records in a task, with a route for each
    output the chunk goes to.  For each route it creates a flush: a context, a
    coroutine and its stack, started up to its first switch.  Resuming the
    coroutine runs the callback of the plugin, which may sleep, and which ends
    by telling the engine the result through a pipe, in one 64-bit integer;
    the context is then handed over and destroyed.  Inputs collect records in
    coroutines of the same kind.  The event loop serves what arrives on the
    pipes by priority, from a bucket queue.  All objects are linked in
    circular lists and live in blocks of the C allocator.

    ** The files

    Shared ground:
    - [Prelude] (this file): machine integers with their wrap-around, C
      truth values, addresses, bit fields, [evaluate];
    - [MkList] ([M/mk_list.h]): the heap of list nodes, every operation and
      traversal, the well-formedness predicate [dll] and the loop rules;
      [MkListSpec]: disjoint sequences as abstract state, and the refinement;
      [MkListRev]: the reverse traversals, by symmetry; [Queues]: lists of
      objects that move from one queue to another;
    - [Mem] ([F/flb_mem.h]): blocks of bytes, allocation with an oracle for
      want of memory, the wrappers of the allocator;
    - [Layout], [Layouts], [LayoutSpec], [Offsets]: the structures of the
      headers as declared, their layout, that it is sound, and that the sizes
      and offsets written as numbers elsewhere are the declared ones;
      [Fields]: the accessors of one field, over these layouts;
    - [Structs]: the values of the structures the runtime reads.

    The engine:
    - [PrioQueue]: the contract of a priority queue, a class; [BucketQueue]
      ([F/flb_bucket_queue.h]) implements it; [EventLoop]
      ([F/flb_event_loop.h], over [MkEvent]: [M/mk_event.h]) uses it;
    - [Codes] ([F/flb_bits.h], [F/flb_engine_macros.h], [F/flb_task.h]): the
      integers that travel through the pipes;
    - [Task] ([F/flb_task.h]): locks, users and routes of a task;
    - [Plugins] ([F/flb_plugins.h]): registration of the 88 plugins;
    - [Log], [PluginLog] ([F/flb_log.h], [F/flb_router.h], the five
      [F/flb_*_plugin.h]): which messages are printed, which are held back.

    Coroutines:
    - [Runtime] ([F/flb_coro.h]): the state of the world (memory, lists,
      tasks, objects by type and address, cothreads, events), the monad the
      operations are written in, and coroutines over libco; [RuntimeSpec]:
      facts about them, and what is assumed of libco ([libco_ok]);
    - [Output] ([F/flb_output.h]): creating, processing, starting, resuming,
      returning from and destroying a flush, for outputs with or without
      threads; [OutputSpec], [Logs] and [Telemetry] (the branches for an
      output with a processor), [Lifecycle], [LogsLife] and [TelemetryLife]
      (the composition) state what it promises;
    - [Engine]: the steps the engine takes with any number of flushes (create,
      resume, drop a route, destroy), over the operations of [Output], and an
      abstract machine that knows only the phase of each flush and the two
      lists of each output; [EngineSim]: the relation between the two, and
      that turns of coroutines, resuming and dropping keep it; [EngineStep]:
      creation, destruction, and that each step follows a step of the
      abstract machine; [EngineSpec]: what follows from that;
    - [Input], [InputSpec] ([F/flb_input.h]): collections, one by one;
      [Collect], [CollectSim], [CollectSpec]: any number of them, as for the
      engine;
    - [Sleep] ([F/flb_time_utils.h]): sleeping coroutines.

    Data:
    - [Utf8] ([F/flb_utf8.h]), [Bytes] ([F/flb_byteswap.h], [F/flb_sds.h],
      [F/flb_str.h]), [Time] ([F/flb_time.h], [F/flb_parser.h]), [Encoder]
      ([F/flb_log_event_encoder*.h]), [Stream] ([F/flb_stream.h],
      [F/flb_io.h]), [Iov] ([M/mk_iov.h], [M/mk_memory.h]), [Subnet]
      ([M/mk_macros.h]), [Locale] ([F/flb_langinfo.h]), [Compat] (helpers of
      several headers), [Constants] (the constants no other file needs), [Lua]
      ([luajit/*.h]: constants, macros, buffers), [Platform] (what lies between the program and the system), [Version].

    Definitions keep the names of the functions and macros; the fields of a
    structure carry a prefix.  Where one C function is cut in several
    definitions (a loop, the part of a coroutine before and after a switch, a
    branch), the comment of each says which part it is.

    ** What the theorems show

    - The engine: from any world that implements an abstract state, whatever
      the order of the steps, the world reached implements a state the
      abstract machine reaches; a callback starts at most once and a flush
      reports exactly when it has returned; the chunk a flush will deliver
      lives until then and no block or chunk leaks; no step gets stuck, but
      for resuming a flush that was recorded without having been started (its
      parameters could not be allocated), which never reports; a
      flush whose plugin makes progress completes; one message, with the right
      numbers, is attempted for each flush that has reported, and the pipes
      hold those whose write succeeded.  The
      outputs may have threads of their own and processors, for chunks of
      every kind; what is assumed is in [setting]: plugins leave the objects
      of the engine alone, processors write the logs they keep in a block of
      their own ([copies]; where they do not, creation may release the records
      of the task, as [Logs] shows), and metrics and traces can be decoded and
      do not exceed the range of [size_t] ([telemetry_fits]).
    - Collections: refinement, safety, progress, completion and messages, as
      above, creation being undefined exactly when there is no memory for the
      stack of the coroutine; they also show that every
      collection makes the former parameters of its thread unreachable, since
      it creates the key again, and that another thread doing so at the wrong
      moment makes a coroutine start with nothing.
    - Flushes and collections: for every pattern of allocation failures,
      creation either undoes what it had done or leaves a context whose
      coroutine waits with its own parameters, other coroutines keeping
      theirs; resuming runs the callback once, with the route active, unless
      the route was dropped; returning reports the right result for the right
      task and output; destroying gives back exactly the blocks; a whole life
      leaves the world as it was ([Lifecycle]).  A callback that sleeps is
      suspended exactly when the timer was had, and goes on where it was when
      the timer fires, else at once ([Sleep]).
    - Processors: on logs, creation gives everything back or leaves a flush
      that delivers what the processors left, and the life of such a flush
      leaves the world as it was; it gives back too much, the records of the
      task, when the processors changed nothing and the flush cannot start.
      On metrics and traces every write stays inside the growing buffer,
      which begins with the serialisation of the accepted contexts; whatever
      allocation fails everything is given back, but for the contexts that
      were rejected, which are never destroyed.
    - Lists, queue and event loop: refinement of abstract sequences and
      buckets; what is queued comes out sorted and first in first out;
      loading queues exactly the fired events; the live loop of the events
      serves, at each turn, the first of the lowest non-empty priority of all
      that has fired or been injected so far, and ends when nothing is left,
      when the body breaks or at its bound.
    - Tasks and plugins: routes are a store keyed by output; registration and
      its undoing leave memory as it was.
    - Streams: mutual exclusion, over the laws of a mutex.
    - Data: the UTF-8 decoder accepts exactly the well-formed sequences; codes
      and encodings round-trip; replacing a field of a record leaves the given
      value alone in it, or what it exposed before, or nothing; trimming a
      string copies it without its trailing run, and reads before it when that
      is all of it; a count of nanoseconds is converted rightly exactly below
      one second; the sub-net macros compute sub-nets; flags that go together share no bit.
    - Lua: a buffer holds what was added to it, however often its array is
      emptied, and is never overrun; the macros do to the stack, the types and
      the errors what the manual says.
    - Platform: both kinds of thread-local storage give each thread a variable;
      every back end visits the fired events alike.
    Several theorems state precisely where the code departs from what it
    means to do; their comments say so.

    ** Conventions and bounds

    An operation that has undefined behaviour in C (a bad address, a signed
    overflow, a lock taken twice by one thread, reading unset memory) has no
    result: it is [None], and a theorem that gives a result also shows that
    this does not happen.  Loops over lists carry as fuel the number of cells
    of the heap, and a list has fewer nodes ([dll_fuel]); loops over strings
    carry the size of the block; the loop of the encoders, the queue and the
    vectors carries the bound of the loop itself.  Theorems prove the result,
    never only what holds if there is one.  Coroutines are modelled from switch
    to switch: a turn that does not come back to the thread that started it
    has no result.

    Functions the headers only declare are parameters (records or classes
    where there are many), with what is documented of them as named
    hypotheses; each theorem with such a hypothesis is applied to a concrete
    instance by its witness.

    ** Not modelled

    The library behind the prototypes (its source is not in the repository),
    LuaJIT and the other libraries it uses; what a macro of [mk_macros.h]
    says to the compiler; stack traces and error messages, which only call the
    system; the playbooks and scripts that administer hosts.  [Layouts]
    describes the structures of headers whose functions are in the library. *)
From stdpp Require Export prelude gmap list fin_maps.

#[global] Open Scope Z_scope.

(** * Machine integers

    A [w]-bit unsigned integer is a [Z] in [0 .. 2^w), a signed one a [Z]
    in [-2^(w-1) .. 2^(w-1)).  [wrap] and [swrap] are the conversions. *)

Definition wrap (w z : Z) : Z := z mod 2 ^ w.
Definition swrap (w z : Z) : Z := (z + 2 ^ (w - 1)) mod 2 ^ w - 2 ^ (w - 1).

Abbreviation u8 := (wrap 8).
Abbreviation u16 := (wrap 16).
Abbreviation u32 := (wrap 32).
Abbreviation u64 := (wrap 64).
Abbreviation size_t := (wrap 64).
Abbreviation s8 := (swrap 8).
Abbreviation s32 := (swrap 32).
Abbreviation s64 := (swrap 64).

Definition is_byte (b : Z) : Prop := 0 ≤ b < 256.

(** Signed 32-bit addition; overflow is undefined behaviour. *)
Definition int_add (a b : Z) : option Z :=
  if decide (- 2 ^ 31 ≤ a + b < 2 ^ 31) then Some (a + b) else None.

Lemma int_add_Some a b : - 2 ^ 31 ≤ a + b < 2 ^ 31 → int_add a b = Some (a + b).
Proof. intros. unfold int_add. by rewrite decide_True. Qed.

(** The C conventions of [flb_macros.h] / [mk_macros.h]. *)
Definition FLB_FALSE : Z := 0.
Definition FLB_TRUE : Z := 1.
Definition FLB_ERROR : Z := 0.
Definition FLB_OK : Z := 1.
Definition FLB_RETRY : Z := 2.

(** C truth of a boolean expression used as an [int]. *)
Definition c_bool (b : bool) : Z := if b then 1 else 0.

(** Addresses; [NULL] is never a valid address. *)
Abbreviation ptr := Z (only parsing).
Definition NULL : ptr := 0.

(** Close a decidable goal by evaluating its decision procedure. *)
Ltac evaluate := apply (bool_decide_unpack _); vm_compute; exact I.

(** * Bit fields *)

Lemma testbit_above b n i : 0 ≤ b < 2 ^ n → n ≤ i → Z.testbit b i = false.
Proof.
  intros Hb Hi. destruct (decide (0 ≤ n)).
  - rewrite <- (Z.mod_small b (2 ^ n)) by done. by apply Z.mod_pow2_bits_high.
  - rewrite Z.pow_neg_r in Hb by lia. lia.
Qed.

(** Disjoint fields add up. *)
Lemma lor_shiftl_add a b n : 0 ≤ n → 0 ≤ b < 2 ^ n → Z.lor (Z.shiftl a n) b = a * 2 ^ n + b.
Proof.
  intros Hn Hb. assert (Hl : Z.land (Z.shiftl a n) b = 0).
  { apply Z.bits_inj'. intros i Hi. rewrite Z.land_spec, Z.bits_0.
    destruct (decide (i < n)).
    - by rewrite Z.shiftl_spec_low.
    - rewrite (testbit_above b n i) by lia. apply andb_false_r. }
  rewrite <- Z.lxor_lor, <- Z.add_nocarry_lxor by done. by rewrite Z.shiftl_mul_pow2.
Qed.

(** * Simulation *)

Section simulation.
Context {C A : Type} (cstep : C → C → Prop) (astep : A → A → Prop) (R : C → A → Prop).
Context (Hstep : ∀ w a w', R w a → cstep w w' → ∃ a', astep a a' ∧ R w' a').

(** A relation that every concrete step keeps, with a step of the abstract
    machine, is kept by runs. *)
Lemma simulation w a w' : R w a → rtc cstep w w' → ∃ a', rtc astep a a' ∧ R w' a'.
Proof.
  intros HR Hrun. revert a HR. induction Hrun as [w|w w1 w2 Hs _ IH]; intros a HR; [by exists a|].
  destruct (Hstep w a w1 HR Hs) as (a1 & Hs1 & HR1). destruct (IH a1 HR1) as (a2 & Hs2 & HR2).
  exists a2. split; [by apply (rtc_l _ _ a1)|done].
Qed.
End simulation.
