(* ===== verification/MkList.v ===== *)
(** [monkey/mk_core/mk_list.h]: the circular doubly linked list that every
    other component threads through its structures.

    The heap holds the two pointer fields of every [struct mk_list] that has
    been written; reading a field that was never written, and touching the
    null address, is undefined behaviour and makes an operation return
    [None].  Loops carry the number of cells of the heap as fuel. *)
From S2P Require Import Prelude.

(** * The store *)

(** [struct mk_list { prev; next }], field by field. *)
Record lheap := LHeap { lh_next : gmap Z Z; lh_prev : gmap Z Z }.

Definition lempty : lheap := LHeap ∅ ∅.

Definition ld_next (h : lheap) (p : ptr) : option ptr :=
  if decide (p = NULL) then None else lh_next h !! p.

Definition ld_prev (h : lheap) (p : ptr) : option ptr :=
  if decide (p = NULL) then None else lh_prev h !! p.

Definition st_next (h : lheap) (p v : ptr) : option lheap :=
  if decide (p = NULL) then None
  else Some (LHeap (<[p := v]> (lh_next h)) (lh_prev h)).

Definition st_prev (h : lheap) (p v : ptr) : option lheap :=
  if decide (p = NULL) then None
  else Some (LHeap (lh_next h) (<[p := v]> (lh_prev h))).

(** [sizeof(struct mk_list)] with 64-bit pointers. *)
Definition sizeof_mk_list : Z := 16.

(** [container_of]: the structure whose field at offset [off] is at [p]. *)
Definition container_of (p : ptr) (off : Z) : ptr := p - off.

Definition mk_list_entry (p : ptr) (off : Z) : ptr := container_of p off.

(** * Operations *)

Definition mk_list_init (list : ptr) (h : lheap) : option lheap :=
  h ← st_next h list list;
  st_prev h list list.

Definition __mk_list_add (new prev next : ptr) (h : lheap) : option lheap :=
  h ← st_prev h next new;
  h ← st_next h new next;
  h ← st_prev h new prev;
  st_next h prev new.

Definition mk_list_add (new head : ptr) (h : lheap) : option lheap :=
  prev ← ld_prev h head;
  __mk_list_add new prev head h.

Definition mk_list_add_after (new prev head : ptr) (h : lheap) : option lheap :=
  hp ← ld_prev h head;
  hn ← ld_next h head;
  if decide (hp = hn \/ hp = prev) then mk_list_add new head h
  else
    next ← ld_next h prev;
    h ← st_next h new next;
    h ← st_prev h new prev;
    h ← st_next h prev new;
    st_prev h next new.

(** Returns 0 when the list is empty and -1 otherwise. *)
Definition mk_list_is_empty (head : ptr) (h : lheap) : option Z :=
  n ← ld_next h head;
  Some (if decide (n = head) then 0 else -1).

Definition mk_list_add_before (new next head : ptr) (h : lheap) : option lheap :=
  if decide (new = NULL \/ next = NULL \/ head = NULL) then Some h
  else
    e ← mk_list_is_empty head h;
    if decide (e = 0 \/ next = head) then mk_list_add new head h
    else
      prev ← ld_prev h next;
      h ← st_next h new next;
      h ← st_prev h new prev;
      h ← st_next h prev new;
      st_prev h next new.

Definition mk_list_append (new head : ptr) (h : lheap) : option lheap :=
  e ← mk_list_is_empty head h;
  prev ← ld_prev h head;
  if decide (e = 0) then __mk_list_add new prev head h
  else mk_list_add_after new prev head h.

Definition mk_list_prepend (new head : ptr) (h : lheap) : option lheap :=
  e ← mk_list_is_empty head h;
  if decide (e = 0) then prev ← ld_prev h head; __mk_list_add new prev head h
  else next ← ld_next h head; mk_list_add_before new next head h.

Definition __mk_list_del (prev next : ptr) (h : lheap) : option lheap :=
  h ← st_next h prev next;
  st_prev h next prev.

Definition mk_list_del (entry : ptr) (h : lheap) : option lheap :=
  p ← ld_prev h entry;
  n ← ld_next h entry;
  h ← __mk_list_del p n h;
  h ← st_prev h entry NULL;
  st_next h entry NULL.

Definition mk_list_is_set (head : ptr) (h : lheap) : option Z :=
  n ← ld_next h head;
  if decide (n = NULL) then Some (-1)
  else
    p ← ld_prev h head;
    Some (if decide (p = NULL) then -1 else 0).

Fixpoint mk_list_size_loop (fuel : nat) (h : lheap) (head it : ptr) (ret : Z)
  : option Z :=
  match fuel with
  | O => None
  | S fuel =>
      if decide (it = head) then Some ret
      else
        nx ← ld_next h it;
        ret ← int_add ret 1;
        mk_list_size_loop fuel h head nx ret
  end.

(** A traversal that ends visits pairwise distinct cells, so one more step
    than there are cells is enough; running out of fuel is divergence. *)
Definition lh_fuel (h : lheap) : nat := S (size (lh_next h)).
Arguments lh_fuel : simpl never.

Definition mk_list_size (head : ptr) (h : lheap) : option Z :=
  it ← ld_next h head;
  mk_list_size_loop (lh_fuel h) h head it 0.

Definition mk_list_entry_init (list : ptr) (h : lheap) : option lheap :=
  h ← st_next h list NULL;
  st_prev h list NULL.

Definition mk_list_entry_is_orphan (head : ptr) (h : lheap) : option Z :=
  n ← ld_next h head;
  if decide (n = NULL) then Some 1
  else
    p ← ld_prev h head;
    Some (if decide (p = NULL) then 1 else 0).

Definition mk_list_entry_orphan (head : ptr) (h : lheap) : option Z :=
  n ← ld_next h head;
  if decide (n = NULL) then Some (-1)
  else
    p ← ld_prev h head;
    Some (if decide (p = NULL) then -1 else 0).

Definition mk_list_cat (list head : ptr) (h : lheap) : option lheap :=
  last ← ld_prev h head;
  ln ← ld_next h list;
  h ← st_next h last ln;
  ln ← ld_next h list;
  h ← st_prev h ln last;
  lp ← ld_prev h list;
  h ← st_next h lp head;
  lp ← ld_prev h list;
  st_prev h head lp.

(** [mk_list_entry_first] / [_last] / [_next]. *)
Definition mk_list_entry_first (p : ptr) (off : Z) (h : lheap) : option ptr :=
  n ← ld_next h p;
  Some (container_of n off).

Definition mk_list_entry_last (p : ptr) (off : Z) (h : lheap) : option ptr :=
  n ← ld_prev h p;
  Some (container_of n off).

Definition mk_list_entry_next (p : ptr) (off : Z) (head : ptr) (h : lheap)
  : option ptr :=
  n ← ld_next h p;
  if decide (n = head) then f ← ld_next h head; Some (container_of f off)
  else Some (container_of n off).

(** [mk_list_foreach(curr, head)] with a body over a state that contains the
    heap: the body may stop the loop (C's [break]) by returning [true]. *)
Section foreach.
Context {S : Type} (lh : S → lheap).

Fixpoint mk_list_foreach_loop (fuel : nat) (head curr : ptr)
    (body : ptr → S → option (bool * S)) (s : S) : option S :=
  match fuel with
  | O => None
  | Datatypes.S fuel =>
      if decide (curr = head) then Some s
      else
        '(brk, s) ← body curr s;
        if (brk : bool) then Some s
        else
          nx ← ld_next (lh s) curr;
          mk_list_foreach_loop fuel head nx body s
  end.

Definition mk_list_foreach (head : ptr) (body : ptr → S → option (bool * S))
    (s : S) : option S :=
  curr ← ld_next (lh s) head;
  mk_list_foreach_loop (lh_fuel (lh s)) head curr body s.

(** [mk_list_foreach_safe(curr, n, head)]: the successor is read before the
    body runs, so the body may unlink and free the current node. *)
Fixpoint mk_list_foreach_safe_loop (fuel : nat) (head curr n : ptr)
    (body : ptr → S → option S) (s : S) : option S :=
  match fuel with
  | O => None
  | Datatypes.S fuel =>
      if decide (curr = head) then Some s
      else
        s ← body curr s;
        nx ← ld_next (lh s) n;
        mk_list_foreach_safe_loop fuel head n nx body s
  end.

Definition mk_list_foreach_safe (head : ptr) (body : ptr → S → option S)
    (s : S) : option S :=
  curr ← ld_next (lh s) head;
  n ← ld_next (lh s) curr;
  mk_list_foreach_safe_loop (lh_fuel (lh s)) head curr n body s.

End foreach.

(** * Well-formed lists *)

(** [a] and [b] are neighbours: each points to the other. *)
Definition linked (h : lheap) (a b : ptr) : Prop :=
  a ≠ NULL ∧ b ≠ NULL ∧ lh_next h !! a = Some b ∧ lh_prev h !! b = Some a.

(** Consecutive nodes of [c] are neighbours. *)
Fixpoint path (h : lheap) (c : list ptr) : Prop :=
  match c with
  | x :: ((y :: _) as t) => linked h x y ∧ path h t
  | _ => True
  end.

(** The ring through [head] and back. *)
Definition ring (head : ptr) (l : list ptr) : list ptr := head :: l ++ [head].

(** [head] is the head of a list whose entries are [l], in order. *)
Definition dll (h : lheap) (head : ptr) (l : list ptr) : Prop :=
  path h (ring head l) ∧ NoDup (head :: l).

#[export] Instance linked_dec h a b : Decision (linked h a b).
Proof. unfold linked. apply _. Defined.

#[export] Instance path_dec h c : Decision (path h c).
Proof.
  induction c as [|x [|y c] IH]; [left; exact I..|].
  change (Decision (linked h x y ∧ path h (y :: c))). apply _.
Defined.

#[export] Instance dll_dec h head l : Decision (dll h head l).
Proof. unfold dll. apply _. Defined.

(** [h'] and [h] have the same cells outside [X]. *)
Definition agree_outside (X : list ptr) (h h' : lheap) : Prop :=
  ∀ p, p ∉ X → lh_next h' !! p = lh_next h !! p ∧ lh_prev h' !! p = lh_prev h !! p.

(** Make [a] and [b] neighbours. *)
Definition link (a b : ptr) (h : lheap) : lheap :=
  LHeap (<[a := b]> (lh_next h)) (<[b := a]> (lh_prev h)).

Lemma ld_next_Some h p n : p ≠ NULL → lh_next h !! p = Some n → ld_next h p = Some n.
Proof. intros. unfold ld_next. by rewrite decide_False. Qed.

Lemma ld_prev_Some h p n : p ≠ NULL → lh_prev h !! p = Some n → ld_prev h p = Some n.
Proof. intros. unfold ld_prev. by rewrite decide_False. Qed.

Lemma st_next_ok h p v :
  p ≠ NULL → st_next h p v = Some (LHeap (<[p := v]> (lh_next h)) (lh_prev h)).
Proof. intros. unfold st_next. by rewrite decide_False. Qed.

Lemma st_prev_ok h p v :
  p ≠ NULL → st_prev h p v = Some (LHeap (lh_next h) (<[p := v]> (lh_prev h))).
Proof. intros. unfold st_prev. by rewrite decide_False. Qed.

Lemma linked_link a b h : a ≠ NULL → b ≠ NULL → linked (link a b h) a b.
Proof. intros. split_and!; simpl; simplify_map_eq; done. Qed.

Lemma linked_link_ne a b x y h :
  x ≠ a → y ≠ b → linked h x y → linked (link a b h) x y.
Proof. intros ?? (?&?&?&?). split_and!; simpl; simplify_map_eq; done. Qed.

Lemma path_cons h x y c : path h (x :: y :: c) ↔ linked h x y ∧ path h (y :: c).
Proof. done. Qed.

Lemma path_app h xs x ys :
  path h (xs ++ x :: ys) ↔ path h (xs ++ [x]) ∧ path h (x :: ys).
Proof.
  induction xs as [|y xs IH]; [simpl; tauto|].
  destruct xs as [|z xs]; [simpl; tauto|].
  change ((y :: z :: xs) ++ x :: ys) with (y :: z :: (xs ++ x :: ys)).
  change ((y :: z :: xs) ++ [x]) with (y :: z :: (xs ++ [x])).
  rewrite !path_cons.
  change (z :: xs ++ x :: ys) with ((z :: xs) ++ x :: ys).
  change (z :: xs ++ [x]) with ((z :: xs) ++ [x]). tauto.
Qed.

Lemma path_mid h xs p n ys :
  path h (xs ++ p :: n :: ys) ↔ path h (xs ++ [p]) ∧ linked h p n ∧ path h (n :: ys).
Proof. rewrite path_app, path_cons. tauto. Qed.

Lemma path_mono h h' c :
  (∀ x, x ∈ removelast c → lh_next h' !! x = lh_next h !! x) →
  (∀ x, x ∈ tail c → lh_prev h' !! x = lh_prev h !! x) →
  path h c → path h' c.
Proof.
  induction c as [|x [|y c] IH]; [done..|].
  intros Hn Hp [(?&?&Hx&Hy) Hc]. rewrite path_cons. split.
  - split_and!; [done..| |].
    + rewrite Hn; [done|]. simpl. apply list_elem_of_here.
    + rewrite Hp; [done|]. simpl. apply list_elem_of_here.
  - apply IH; [| |done].
    + intros z Hz. apply Hn. change (removelast (x :: y :: c)) with (x :: removelast (y :: c)).
      by apply list_elem_of_further.
    + intros z Hz. apply Hp. simpl in *. by apply list_elem_of_further.
Qed.

Lemma path_link_ne a b h c :
  a ∉ removelast c → b ∉ tail c → path h c → path (link a b h) c.
Proof.
  intros Ha Hb. apply path_mono; intros x Hx; simpl; rewrite lookup_insert_ne; set_solver.
Qed.

Lemma ring_removelast head l : removelast (ring head l) = head :: l.
Proof. unfold ring. rewrite app_comm_cons. apply removelast_last. Qed.

Lemma removelast_mid xs (p n : ptr) ys :
  removelast (xs ++ p :: n :: ys) = xs ++ p :: removelast (n :: ys).
Proof. rewrite removelast_app; done. Qed.

Lemma elem_of_removelast (x : ptr) c : x ∈ removelast c → x ∈ c.
Proof. destruct c using rev_ind; [done|]. rewrite removelast_last. set_solver. Qed.

Lemma path_agree X h h' c :
  agree_outside X h h' → (∀ x, x ∈ c → x ∉ X) → path h c → path h' c.
Proof.
  intros HX Hd. apply path_mono; intros x Hx; apply HX, Hd.
  - by apply elem_of_removelast.
  - destruct c; [done|]. set_solver.
Qed.

(** Framing: a list none of whose nodes changed is still the same list. *)
Lemma dll_agree X h h' head l :
  agree_outside X h h' → (∀ x, x ∈ head :: l → x ∉ X) → dll h head l → dll h' head l.
Proof.
  intros HX Hd [Hp Hnd]. split; [|done]. eapply path_agree; [done| |done].
  unfold ring. set_solver.
Qed.

Lemma agree_outside_weaken X Y h h' :
  X ⊆ Y → agree_outside X h h' → agree_outside Y h h'.
Proof. intros HXY H p Hp. apply H. set_solver. Qed.

Lemma agree_outside_trans X h1 h2 h3 :
  agree_outside X h1 h2 → agree_outside X h2 h3 → agree_outside X h1 h3.
Proof. intros H1 H2 p Hp. destruct (H1 p Hp), (H2 p Hp). split; congruence. Qed.

Lemma agree_outside_refl X h : agree_outside X h h.
Proof. done. Qed.

Lemma agree_link X a b h : a ∈ X → b ∈ X → agree_outside X h (link a b h).
Proof. intros ?? p Hp; split; simpl; rewrite lookup_insert_ne; set_solver. Qed.

(** Reading a pair of neighbours. *)
Lemma linked_ld h a b : linked h a b → ld_next h a = Some b ∧ ld_prev h b = Some a.
Proof. intros (?&?&?&?). split; [by apply ld_next_Some|by apply ld_prev_Some]. Qed.

Lemma dll_linked h head l xs p n ys :
  dll h head l → ring head l = xs ++ p :: n :: ys → linked h p n.
Proof. intros [Hp _] E. rewrite E in Hp. apply path_mid in Hp. tauto. Qed.

Lemma dll_nonnull h head l x : dll h head l → x ∈ head :: l → x ≠ NULL.
Proof.
  intros [Hp _] Hx. unfold ring in Hp. rewrite app_comm_cons in Hp.
  apply list_elem_of_split in Hx as (xs & ys & E). rewrite E in Hp.
  rewrite <- app_assoc in Hp. simpl in Hp.
  destruct ys; simpl in Hp; apply path_mid in Hp; destruct Hp as [_ [(?&_) _]]; done.
Qed.

(** Inserting [x] between the neighbours [p] and [n]. *)
Definition ins (p x n : ptr) (h : lheap) : lheap := link p x (link x n h).

Lemma ring_nodup_mid h head l xs p n ys :
  dll h head l → ring head l = xs ++ p :: n :: ys →
  NoDup (xs ++ p :: removelast (n :: ys)) ∧ NoDup (tail (xs ++ [p]) ++ n :: ys).
Proof.
  intros [_ Hnd] E. split.
  - rewrite <- removelast_mid, <- E, ring_removelast. done.
  - assert (tail (xs ++ [p]) ++ n :: ys = tail (ring head l)) as ->.
    { rewrite E. destruct xs; simpl; [done|]. by rewrite <- app_assoc. }
    unfold ring. simpl. rewrite (Permutation_app_comm l [head]). done.
Qed.

Lemma path_ins h head l xs p n ys x :
  dll h head l → ring head l = xs ++ p :: n :: ys →
  x ≠ NULL → x ∉ ring head l → path (ins p x n h) (xs ++ p :: x :: n :: ys).
Proof.
  intros Hd E Hx Hxl.
  destruct (ring_nodup_mid _ _ _ _ _ _ _ Hd E) as [Hn Hp].
  pose proof (proj1 Hd) as Hpath. rewrite E in Hpath, Hxl.
  apply path_mid in Hpath as (Hxs & (Hpn&Hnn&_) & Hys).
  apply NoDup_app in Hn as (_ & Hpxs & Hn2). apply NoDup_cons in Hn2 as [Hpys _].
  apply NoDup_app in Hp as (_ & Hnxs & Hp2). apply NoDup_cons in Hp2 as [Hnys _].
  rewrite path_mid. split_and!.
  - unfold ins. apply path_link_ne; [rewrite removelast_last; set_solver| |].
    { destruct xs; set_solver. }
    apply path_link_ne; [rewrite removelast_last; set_solver| |done].
    intros Hin. apply (Hnxs _ Hin). left.
  - unfold ins. by apply linked_link.
  - rewrite path_cons. split.
    + unfold ins. apply linked_link_ne; [set_solver..|]. by apply linked_link.
    + unfold ins. apply path_link_ne; [done| set_solver|].
      apply path_link_ne; [|done|done]. intros Hin%elem_of_removelast. set_solver.
Qed.

Lemma dll_ins h head l l' xs p n ys x :
  dll h head l → ring head l = xs ++ p :: n :: ys →
  ring head l' = xs ++ p :: x :: n :: ys →
  x ≠ NULL → x ∉ head :: l → dll (ins p x n h) head l'.
Proof.
  intros Hd E E' Hx Hxl. split.
  - rewrite E'. eapply path_ins; [done..|]. unfold ring. set_solver.
  - rewrite <- ring_removelast, E', removelast_mid.
    change (removelast (x :: n :: ys)) with (x :: removelast (n :: ys)).
    assert (xs ++ p :: x :: removelast (n :: ys) ≡ₚ x :: head :: l) as ->.
    { rewrite <- (ring_removelast head l), E, removelast_mid. solve_Permutation. }
    apply NoDup_cons. split; [done|apply Hd].
Qed.

Lemma agree_ins X p x n h :
  p ∈ X → x ∈ X → n ∈ X → agree_outside X h (ins p x n h).
Proof.
  intros. unfold ins. eapply agree_outside_trans; by apply agree_link.
Qed.

(** Unlinking the node between [p] and [n]. *)
Lemma dll_unlink h head l l' xs p x n ys :
  dll h head l → ring head l = xs ++ p :: x :: n :: ys →
  ring head l' = xs ++ p :: n :: ys → dll (link p n h) head l'.
Proof.
  intros Hd E E'.
  destruct (ring_nodup_mid _ _ _ _ _ _ _ Hd E) as [Hn Hp].
  change (removelast (x :: n :: ys)) with (x :: removelast (n :: ys)) in Hn.
  pose proof (proj1 Hd) as Hpath. rewrite E in Hpath.
  apply path_mid in Hpath as (Hxs & (Hpn&_&_) & Hys).
  rewrite path_cons in Hys. destruct Hys as [(_&Hnn&_) Hys].
  split.
  - rewrite E', path_mid. apply NoDup_app in Hn as (_ & Hpxs & Hn2).
    apply NoDup_app in Hp as (_ & Hnxs & Hp2).
    rewrite !NoDup_cons in Hn2, Hp2.
    split_and!; [|by apply linked_link|]; apply path_link_ne; try done.
    + rewrite removelast_last. intros Hin. apply (Hpxs _ Hin). left.
    + intros Hin. apply (Hnxs _ Hin). right. left.
    + set_solver.
    + set_solver.
  - rewrite <- ring_removelast, E', removelast_mid.
    eapply sublist_NoDup; [apply Hn|]. apply sublist_app; [done|]. by do 2 constructor.
Qed.

(** Breaking a ring where a node sits. *)
Lemma ring_last head (l : list ptr) :
  ∃ xs p, head :: l = xs ++ [p] ∧ ring head l = xs ++ [p; head].
Proof.
  destruct (exists_last (l := head :: l)) as (xs & p & E); [done|].
  exists xs, p. split; [done|]. unfold ring. rewrite app_comm_cons, E. by rewrite <- app_assoc.
Qed.

Lemma ring_snoc head (l xs : list ptr) p x :
  head :: l = xs ++ [p] → ring head (l ++ [x]) = xs ++ [p; x; head].
Proof.
  intros E. unfold ring. rewrite !app_comm_cons, E. by rewrite <- !app_assoc.
Qed.

Lemma ring_elem head (l : list ptr) x : x ∈ ring head l ↔ x ∈ head :: l.
Proof. unfold ring. set_solver. Qed.

(** A node in the middle of the list, with its neighbours. *)
Lemma ring_split head (l1 l2 : list ptr) :
  ∃ xs p n ys, head :: l1 = xs ++ [p] ∧ l2 ++ [head] = n :: ys ∧
    ring head (l1 ++ l2) = xs ++ p :: n :: ys ∧
    ∀ x, ring head (l1 ++ x :: l2) = xs ++ p :: x :: n :: ys.
Proof.
  destruct (exists_last (l := head :: l1)) as (xs & p & E); [done|].
  destruct (l2 ++ [head]) as [|n ys] eqn:E2; [by destruct l2|].
  exists xs, p, n, ys. split_and!; [done..| |intros x]; unfold ring;
    rewrite <- app_assoc, app_comm_cons, E, <- app_assoc; simpl; by rewrite E2.
Qed.

(** * The operations on well-formed lists *)

(** Everything an operation on the list [head] holding [l] may touch. *)
Abbreviation cells head l := (head :: l) (only parsing).

Lemma __mk_list_add_dll h head l l' xs p n ys x :
  dll h head l → ring head l = xs ++ p :: n :: ys →
  ring head l' = xs ++ p :: x :: n :: ys → x ≠ NULL → x ∉ head :: l →
  __mk_list_add x p n h = Some (ins p x n h) ∧
  dll (ins p x n h) head l' ∧ agree_outside (x :: head :: l) h (ins p x n h).
Proof.
  intros Hd E E' Hx Hxl.
  destruct (dll_linked _ _ _ _ _ _ _ Hd E) as (Hp & Hn & _).
  assert (p ∈ head :: l ∧ n ∈ head :: l) as [Hpl Hnl].
  { rewrite <- !ring_elem, E. set_solver. }
  split_and!.
  - unfold __mk_list_add. rewrite st_prev_ok by done. simpl.
    rewrite st_next_ok by done. simpl. rewrite st_prev_ok by done. simpl.
    by rewrite st_next_ok.
  - by eapply dll_ins.
  - apply agree_ins; set_solver.
Qed.

(** The other order of the four stores, used by the positional inserts. *)
Lemma ins_alt p x n h :
  p ≠ NULL → x ≠ NULL → n ≠ NULL → x ≠ n →
  (h1 ← st_next h x n; h2 ← st_prev h1 x p; h3 ← st_next h2 p x; st_prev h3 n x)
  = Some (ins p x n h).
Proof.
  intros. rewrite st_next_ok by done. simpl. rewrite st_prev_ok by done. simpl.
  rewrite st_next_ok by done. simpl. rewrite st_prev_ok by done.
  unfold ins, link. simpl. by rewrite (insert_insert_ne _ x n).
Qed.

(** [mk_list_add] appends at the tail. *)
Lemma mk_list_add_dll h head l x :
  dll h head l → x ≠ NULL → x ∉ head :: l →
  ∃ h', mk_list_add x head h = Some h' ∧ dll h' head (l ++ [x]) ∧
        agree_outside (x :: head :: l) h h'.
Proof.
  intros Hd Hx Hxl. destruct (ring_last head l) as (xs & p & E & Er).
  pose proof (ring_snoc _ _ _ _ x E) as Er'.
  unfold mk_list_add.
  destruct (linked_ld _ _ _ (dll_linked _ _ _ _ _ _ _ Hd Er)) as [_ ->]. simpl.
  eexists. by eapply __mk_list_add_dll.
Qed.

Lemma mk_list_is_empty_dll h head l :
  dll h head l → mk_list_is_empty head h = Some (if decide (l = []) then 0 else -1).
Proof.
  intros Hd. unfold mk_list_is_empty.
  destruct l as [|y l].
  - destruct (linked_ld _ _ _ (dll_linked _ _ [] [] head head [] Hd eq_refl)) as [-> _].
    simpl. by rewrite decide_True.
  - destruct (linked_ld _ _ _ (dll_linked _ _ (y :: l) [] head y (l ++ [head]) Hd eq_refl)) as [-> _].
    simpl. rewrite decide_False; [done|]. intros ->. destruct Hd as [_ Hnd].
    apply NoDup_cons in Hnd. set_solver.
Qed.

Lemma mk_list_init_dll h head :
  head ≠ NULL →
  ∃ h', mk_list_init head h = Some h' ∧ dll h' head [] ∧ agree_outside [head] h h'.
Proof.
  intros Hn. unfold mk_list_init. rewrite st_next_ok by done. simpl. rewrite st_prev_ok by done.
  exists (link head head h). split_and!; [done| |apply agree_link; set_solver].
  split; [|apply NoDup_singleton]. simpl. split; [|done]. by apply linked_link.
Qed.

(** A node between two others: what lies around it. *)
Lemma dll_around h head l1 x l2 :
  dll h head (l1 ++ x :: l2) →
  ∃ p n, ld_prev h x = Some p ∧ ld_next h x = Some n ∧
    (head :: l1) !! length l1 = Some p ∧ (l2 ++ [head]) !! 0%nat = Some n ∧
    p ≠ NULL ∧ n ≠ NULL ∧ x ≠ NULL ∧ p ≠ x ∧ n ≠ x.
Proof.
  intros Hd. destruct (ring_split head l1 l2) as (xs & p & n & ys & E1 & E2 & _ & Ex).
  specialize (Ex x). pose proof (dll_linked _ _ _ _ _ _ _ Hd Ex) as Hpx.
  assert (Hxn : linked h x n).
  { eapply (dll_linked _ _ _ (xs ++ [p])); [done|]. by rewrite Ex, <- app_assoc. }
  assert (Hnd := proj2 Hd). rewrite app_comm_cons in Hnd.
  apply NoDup_app in Hnd as (Hnd1 & Hdis & Hnd2). apply NoDup_cons in Hnd2 as [Hx2 _].
  assert (x ∉ head :: l1) by (intros Hin; apply (Hdis _ Hin); left).
  exists p, n. split_and!.
  - by apply linked_ld.
  - by apply linked_ld.
  - rewrite E1. assert (length l1 = length xs) as ->.
    { apply (f_equal length) in E1. rewrite length_app in E1. simpl in E1. lia. }
    by rewrite list_lookup_middle.
  - by rewrite E2.
  - apply Hpx.
  - apply Hxn.
  - apply Hpx.
  - intros ->. assert (x ∈ head :: l1); [rewrite E1|]; set_solver.
  - intros ->. assert (x ∈ l2 ++ [head]) by (rewrite E2; set_solver). set_solver.
Qed.

(** [mk_list_del] unlinks the node and leaves it an orphan. *)
Lemma mk_list_del_dll h head l1 x l2 :
  dll h head (l1 ++ x :: l2) →
  ∃ h', mk_list_del x h = Some h' ∧ dll h' head (l1 ++ l2) ∧
        lh_next h' !! x = Some NULL ∧ lh_prev h' !! x = Some NULL ∧
        agree_outside (head :: l1 ++ x :: l2) h h'.
Proof.
  intros Hd.
  destruct (ring_split head l1 l2) as (xs & p & n & ys & E1 & E2 & Er & Ex).
  specialize (Ex x).
  destruct (dll_around _ _ _ _ _ Hd) as (p' & n' & Hp & Hn & Lp & Ln & ?&?&?&?&?).
  assert (p' = p) as ->.
  { rewrite E1 in Lp. assert (length l1 = length xs) as Hl.
    { apply (f_equal length) in E1. rewrite length_app in E1. simpl in E1. lia. }
    rewrite Hl, list_lookup_middle in Lp by done. congruence. }
  assert (n' = n) as -> by (rewrite E2 in Ln; simpl in Ln; congruence).
  unfold mk_list_del. rewrite Hp, Hn. simpl. unfold __mk_list_del.
  rewrite st_next_ok by done. simpl. rewrite st_prev_ok by done. simpl.
  rewrite st_prev_ok by done. simpl. rewrite st_next_ok by done.
  assert (p ∈ head :: l1 ++ x :: l2 ∧ n ∈ head :: l1 ++ x :: l2) as [Hpl Hnl].
  { rewrite <- !ring_elem, Ex. set_solver. }
  eexists. split; [reflexivity|]. split_and!.
  - assert (Hd' := dll_unlink _ _ _ (l1 ++ l2) _ _ _ _ _ Hd Ex Er).
    eapply (dll_agree [x]); [|clear Hpl Hnl|exact Hd'].
    + intros q Hq. simpl. rewrite !(lookup_insert_ne _ x q) by set_solver. done.
    + destruct Hd as [_ Hnd]. assert (head :: l1 ++ x :: l2 ≡ₚ x :: head :: l1 ++ l2) as HP
        by solve_Permutation. rewrite HP in Hnd. apply NoDup_cons in Hnd as [Hxn _].
      intros q Hq ->%list_elem_of_singleton. done.
  - simpl. by rewrite lookup_insert_eq.
  - simpl. by rewrite lookup_insert_eq.
  - intros q Hq. simpl. rewrite !lookup_insert_ne by set_solver. done.
Qed.

(** ** Positional inserts *)

(** The sequences the positional inserts compute. *)
Fixpoint insert_after (p x : ptr) (c : list ptr) : list ptr :=
  match c with
  | [] => []
  | y :: c => if decide (y = p) then y :: x :: c else y :: insert_after p x c
  end.

Fixpoint insert_before (n x : ptr) (c : list ptr) : list ptr :=
  match c with
  | [] => []
  | y :: c => if decide (y = n) then x :: y :: c else y :: insert_before n x c
  end.

(** [mk_list_add_after] appends when the list has at most one entry. *)
Definition seq_add_after (x p head : ptr) (l : list ptr) : list ptr :=
  if decide ((length l ≤ 1)%nat ∨ List.last (head :: l) head = p) then l ++ [x]
  else tail (insert_after p x (head :: l)).

Definition seq_add_before (x n head : ptr) (l : list ptr) : list ptr :=
  if decide (l = [] ∨ n = head) then l ++ [x] else insert_before n x l.

Lemma insert_after_split p x c1 c2 :
  p ∉ c1 → insert_after p x (c1 ++ p :: c2) = c1 ++ p :: x :: c2.
Proof.
  induction c1 as [|y c1 IH]; simpl; intros Hp.
  - by rewrite decide_True.
  - rewrite decide_False by set_solver. by rewrite IH by set_solver.
Qed.

Lemma insert_before_split n x c1 c2 :
  n ∉ c1 → insert_before n x (c1 ++ n :: c2) = c1 ++ x :: n :: c2.
Proof.
  induction c1 as [|y c1 IH]; simpl; intros Hp.
  - by rewrite decide_True.
  - rewrite decide_False by set_solver. by rewrite IH by set_solver.
Qed.

(** The two ends of the list as the head sees them. *)
Lemma dll_ends h head l :
  dll h head l →
  ld_prev h head = Some (List.last (head :: l) head) ∧
  ld_next h head = Some (hd head l).
Proof.
  intros Hd. split.
  - destruct (ring_last head l) as (xs & p & E & Er).
    destruct (linked_ld _ _ _ (dll_linked _ _ _ _ _ _ _ Hd Er)) as [_ ->].
    by rewrite E, List.last_last.
  - destruct l as [|y l].
    + by destruct (linked_ld _ _ _ (dll_linked _ _ [] [] head head [] Hd eq_refl)) as [-> _].
    + by destruct (linked_ld _ _ _ (dll_linked _ _ (y :: l) [] head y (l ++ [head]) Hd eq_refl)) as [-> _].
Qed.

(** Both ends coincide exactly when there is at most one entry. *)
Lemma ends_eq h head l :
  dll h head l → List.last (head :: l) head = hd head l ↔ (length l ≤ 1)%nat.
Proof.
  intros [_ Hnd]. destruct l as [|a [|b l]]; [simpl; split; [lia|done]..|].
  split; [|simpl; lia]. intros E. exfalso.
  assert (List.last (b :: l) head ∈ b :: l).
  { destruct (exists_last (l := b :: l)) as (xs & p & ->); [done|].
    rewrite List.last_last. set_solver. }
  change (List.last (b :: l) head = a) in E.
  rewrite E in H. apply NoDup_cons in Hnd as [_ Hnd]. apply NoDup_cons in Hnd as [? _]. done.
Qed.

Lemma mk_list_add_after_dll h head l x p :
  dll h head l → x ≠ NULL → x ∉ head :: l → p ∈ head :: l →
  ∃ h', mk_list_add_after x p head h = Some h' ∧
        dll h' head (seq_add_after x p head l) ∧ agree_outside (x :: head :: l) h h'.
Proof.
  intros Hd Hx Hxl Hp. destruct (dll_ends _ _ _ Hd) as [E1 E2].
  unfold mk_list_add_after, seq_add_after. rewrite E1, E2. simpl.
  change (match l with [] => head | _ :: _ => List.last l head end)
    with (List.last (head :: l) head).
  destruct (decide (List.last (head :: l) head = hd head l ∨ List.last (head :: l) head = p))
    as [Hc|Hc]; rewrite (ends_eq _ _ _ Hd) in Hc.
  { rewrite decide_True by done. by apply mk_list_add_dll. }
  rewrite decide_False by done. apply Decidable.not_or in Hc as [Hl Hlast].
  apply list_elem_of_split_l in Hp as (c1 & c2 & E & Hpc1).
  destruct c2 as [|n c2].
  { exfalso. apply Hlast. rewrite E. by rewrite List.last_last. }
  assert (Er : ring head l = c1 ++ p :: n :: (c2 ++ [head])).
  { unfold ring. rewrite app_comm_cons, E, <- app_assoc. done. }
  destruct (dll_linked _ _ _ _ _ _ _ Hd Er) as (Hpn & Hnn & Hnx & _).
  assert (n ∈ head :: l) by (rewrite E; set_solver).
  rewrite (ld_next_Some _ _ _ Hpn Hnx). simpl.
  rewrite ins_alt by (try done; congruence). eexists. split; [done|].
  eapply __mk_list_add_dll; [done|exact Er| |done..].
  change (if decide (head = p) then head :: x :: l else head :: insert_after p x l)
    with (insert_after p x (head :: l)).
  rewrite E, insert_after_split by done. unfold ring.
  destruct c1; simpl in *; simplify_eq; by rewrite <- ?app_assoc.
Qed.

Lemma mk_list_add_before_dll h head l x n :
  dll h head l → x ≠ NULL → x ∉ head :: l → n ∈ head :: l →
  ∃ h', mk_list_add_before x n head h = Some h' ∧
        dll h' head (seq_add_before x n head l) ∧ agree_outside (x :: head :: l) h h'.
Proof.
  intros Hd Hx Hxl Hn. unfold mk_list_add_before, seq_add_before.
  assert (Hnn := dll_nonnull _ _ _ _ Hd Hn).
  assert (Hhn : head ≠ NULL) by (eapply dll_nonnull; [done|left]).
  rewrite decide_False by tauto. rewrite (mk_list_is_empty_dll _ _ _ Hd). simpl.
  destruct (decide (l = [] ∨ n = head)) as [Hc|Hc].
  { rewrite decide_True by (destruct (decide (l = [])); tauto). by apply mk_list_add_dll. }
  apply Decidable.not_or in Hc as [Hl Hnh].
  rewrite decide_False by (rewrite decide_False by done; intros [?|?]; done).
  apply elem_of_cons in Hn as [?|Hn]; [done|].
  apply list_elem_of_split_l in Hn as (c1 & c2 & -> & Hnc).
  rewrite insert_before_split by done.
  destruct (ring_split head c1 (n :: c2)) as (xs & p & n' & ys & E1 & E2 & Er & Ex).
  simpl in E2. injection E2 as <- E2.
  destruct (dll_linked _ _ _ _ _ _ _ Hd Er) as (Hpn & _ & _ & Hpr).
  rewrite (ld_prev_Some _ _ _ Hnn Hpr). simpl.
  rewrite ins_alt by (try done; set_solver). eexists. split; [done|].
  eapply __mk_list_add_dll; [done|exact Er|apply Ex|done..].
Qed.

(** [mk_list_append] is [mk_list_add]; [mk_list_prepend] adds at the front. *)
Lemma mk_list_append_dll h head l x :
  dll h head l → x ≠ NULL → x ∉ head :: l →
  ∃ h', mk_list_append x head h = Some h' ∧ dll h' head (l ++ [x]) ∧
        agree_outside (x :: head :: l) h h'.
Proof.
  intros Hd Hx Hxl. unfold mk_list_append. rewrite (mk_list_is_empty_dll _ _ _ Hd). simpl.
  destruct (dll_ends _ _ _ Hd) as [E1 _]. rewrite E1. cbn [mbind option_bind].
  destruct (decide (l = [])) as [->|Hl].
  - rewrite decide_True by done.
    pose proof (mk_list_add_dll _ _ _ _ Hd Hx Hxl) as H. unfold mk_list_add in H.
    rewrite E1 in H. exact H.
  - rewrite decide_False by done.
    destruct (mk_list_add_after_dll _ _ _ x (List.last (head :: l) head) Hd Hx Hxl)
      as (h' & ? & H & ?).
    { destruct (ring_last head l) as (xs & p & E & _). rewrite E at 2.
      rewrite E, List.last_last. set_solver. }
    unfold seq_add_after in H. rewrite decide_True in H by tauto. by exists h'.
Qed.

Lemma mk_list_prepend_dll h head l x :
  dll h head l → x ≠ NULL → x ∉ head :: l →
  ∃ h', mk_list_prepend x head h = Some h' ∧ dll h' head (x :: l) ∧
        agree_outside (x :: head :: l) h h'.
Proof.
  intros Hd Hx Hxl. unfold mk_list_prepend. rewrite (mk_list_is_empty_dll _ _ _ Hd). simpl.
  destruct (dll_ends _ _ _ Hd) as [E1 E2]. rewrite E1, E2. cbn [mbind option_bind].
  destruct l as [|y l].
  - rewrite !decide_True by done.
    pose proof (mk_list_add_dll _ _ _ _ Hd Hx Hxl) as H. unfold mk_list_add in H.
    rewrite E1 in H. exact H.
  - rewrite (decide_False (P := y :: l = [])) by done. rewrite decide_False by done.
    destruct (mk_list_add_before_dll _ _ _ x y Hd Hx Hxl) as (h' & ? & H & ?); [set_solver|].
    exists h'. split_and!; [done| |done]. unfold seq_add_before in H.
    destruct Hd as [_ Hnd]. apply NoDup_cons in Hnd as [Hh _].
    rewrite decide_False in H by (intros [?| ->]; set_solver).
    simpl in H. by rewrite decide_True in H.
Qed.

(** ** Concatenation *)

Lemma ld_next_ok h p : p ≠ NULL → ld_next h p = lh_next h !! p.
Proof. intros. unfold ld_next. by rewrite decide_False. Qed.

Lemma ld_prev_ok h p : p ≠ NULL → ld_prev h p = lh_prev h !! p.
Proof. intros. unfold ld_prev. by rewrite decide_False. Qed.

(** Joining two chains end to end. *)
Lemma path_join h c1 a b c2 :
  path h (c1 ++ [a]) → path h (b :: c2) → a ≠ NULL → b ≠ NULL →
  a ∉ c1 → a ∉ removelast (b :: c2) → b ∉ tail (c1 ++ [a]) → b ∉ c2 →
  path (link a b h) (c1 ++ a :: b :: c2).
Proof.
  intros H1 H2 ?? Ha1 Ha2 Hb1 Hb2. rewrite path_mid. split_and!.
  - apply path_link_ne; [by rewrite removelast_last|done..].
  - by apply linked_link.
  - by apply path_link_ne.
Qed.

(** Catting an empty list leaves [head] alone (but not the donor head). *)
Lemma mk_list_cat_nil h head l list :
  dll h head l → dll h list [] → list ∉ head :: l →
  ∃ h', mk_list_cat list head h = Some h' ∧ dll h' head l ∧
        agree_outside (list :: head :: l) h h'.
Proof.
  intros Hd Hm Hdis. destruct (dll_ends _ _ _ Hd) as [E1 _].
  destruct (dll_ends _ _ _ Hm) as [_ M2]. simpl in M2.
  destruct (ring_last head l) as (xs & la & El & Er).
  rewrite El, List.last_last in E1.
  destruct (dll_linked _ _ _ _ _ _ _ Hd Er) as (Hla & Hhd & Hlan & Hlap).
  assert (Hli : list ≠ NULL) by (eapply dll_nonnull; [exact Hm|left]).
  assert (Hin : la ∈ head :: l) by (rewrite El; set_solver).
  assert (Hll : la ≠ list) by (intros ->; done).
  rewrite ld_next_ok in M2 by done.
  unfold mk_list_cat. rewrite E1. simpl. rewrite (ld_next_ok h) by done. rewrite M2. simpl.
  rewrite st_next_ok by done. simpl. rewrite ld_next_ok by done. simpl.
  rewrite lookup_insert_ne by done. rewrite M2. simpl.
  rewrite st_prev_ok by done. simpl. rewrite !ld_prev_ok by done. simpl.
  rewrite lookup_insert_eq. simpl. rewrite st_next_ok by done. simpl.
  rewrite ld_prev_ok by done. simpl. rewrite lookup_insert_eq. simpl.
  rewrite st_prev_ok by done. eexists. split; [reflexivity|]. split.
  - eapply (dll_agree [list]); [| |exact Hd].
    + intros q Hq. simpl. rewrite insert_insert_eq. split.
      * destruct (decide (q = la)) as [->|]; [by rewrite lookup_insert_eq|].
        by rewrite lookup_insert_ne.
      * destruct (decide (q = head)) as [->|]; [by rewrite lookup_insert_eq|].
        rewrite !lookup_insert_ne by set_solver. done.
    + intros q Hq ->%list_elem_of_singleton. done.
  - intros q Hq. simpl. rewrite !lookup_insert_ne by set_solver. done.
Qed.

Lemma mk_list_cat_cons h head l list y m :
  dll h head l → dll h list (y :: m) → (∀ x, x ∈ head :: l → x ∉ list :: y :: m) →
  ∃ h', mk_list_cat list head h = Some h' ∧ dll h' head (l ++ y :: m) ∧
        agree_outside ((head :: l) ++ list :: y :: m) h h'.
Proof.
  intros Hd Hm Hdis. destruct (dll_ends _ _ _ Hd) as [E1 _].
  destruct (dll_ends _ _ _ Hm) as [M1 M2]. simpl in M2.
  destruct (ring_last head l) as (xs & la & El & Er).
  rewrite El, List.last_last in E1.
  destruct (exists_last (l := y :: m)) as (ms & z & Em); [done|].
  assert (Hz : List.last (list :: y :: m) list = z).
  { rewrite Em, app_comm_cons. apply List.last_last. }
  rewrite Hz in M1. clear Hz.
  assert (la ∈ head :: l) by (rewrite El; set_solver).
  assert (z ∈ y :: m) by (rewrite Em; set_solver).
  assert (NNh : ∀ q, q ∈ head :: l → q ≠ NULL) by (intros q; apply (dll_nonnull _ _ _ _ Hd)).
  assert (NNm : ∀ q, q ∈ list :: y :: m → q ≠ NULL)
    by (intros q; apply (dll_nonnull _ _ _ _ Hm)).
  assert (la ≠ NULL ∧ head ≠ NULL) as [??]
    by (split; apply NNh; [done|left]).
  assert (z ≠ NULL ∧ y ≠ NULL ∧ list ≠ NULL) as (?&?&?)
    by (split_and!; apply NNm; [by right|right; left|left]).
  assert (la ≠ list) by (intros ->; apply (Hdis list); set_solver).
  assert (y ≠ list) by (intros ->; destruct Hm as [_ Hm]; apply NoDup_cons in Hm; set_solver).
  rewrite ld_next_ok in M2 by done. rewrite ld_prev_ok in M1 by done.
  unfold mk_list_cat. rewrite E1. simpl. rewrite (ld_next_ok h) by done. rewrite M2. simpl.
  rewrite st_next_ok by done. simpl. rewrite ld_next_ok by done. simpl.
  rewrite lookup_insert_ne by done. rewrite M2. simpl.
  rewrite st_prev_ok by done. simpl. rewrite !ld_prev_ok by done. simpl.
  rewrite lookup_insert_ne by done. rewrite M1. simpl. rewrite st_next_ok by done. simpl.
  rewrite ld_prev_ok by done. simpl. rewrite lookup_insert_ne by done. rewrite M1. simpl.
  rewrite st_prev_ok by done. exists (link z head (link la y h)). split; [done|]. split.
  - assert (Hnd : NoDup (head :: l ++ y :: m)).
    { rewrite app_comm_cons. apply NoDup_app. split_and!; [apply Hd|set_solver|].
      destruct Hm as [_ Hnd]. apply NoDup_cons in Hnd. tauto. }
    split; [|done].
    pose proof (proj1 Hd) as Pd. rewrite Er in Pd. apply path_mid in Pd as (Pd & _ & _).
    pose proof (proj1 Hm) as Pm. change (ring list (y :: m)) with (list :: y :: m ++ [list]) in Pm.
    rewrite path_cons in Pm. destruct Pm as [_ Pm].
    change (y :: m ++ [list]) with ((y :: m) ++ [list]) in Pm.
    assert (Pm' : path h (y :: m)).
    { destruct (exists_last (l := y :: m)) as (? & ? & E); [done|]. rewrite E in Pm |- *.
      rewrite <- app_assoc in Pm. apply path_app in Pm. tauto. }
    assert (E : head :: l ++ y :: m = xs ++ la :: y :: m)
      by (rewrite app_comm_cons, El, <- app_assoc; done).
    assert (E' : head :: l ++ y :: m = (head :: l ++ ms) ++ [z]).
    { rewrite Em, app_comm_cons, app_assoc. done. }
    assert (P : path (link la y h) (head :: l ++ y :: m)).
    { rewrite E in Hnd |- *. apply NoDup_app in Hnd as (Hxs & Hx & Hnd).
      apply NoDup_cons in Hnd as [Hla Hnd]. apply NoDup_cons in Hnd as [Hy _].
      apply path_join; try done.
      - intros Hin. apply (Hx _ Hin). left.
      - intros Hin%elem_of_removelast. done.
      - destruct xs; [set_solver|]. simpl. set_solver. }
    assert (ring head (l ++ y :: m) = (head :: l ++ ms) ++ z :: [head]) as ->.
    { unfold ring. rewrite app_comm_cons, E', <- app_assoc. done. }
    rewrite E' in P, Hnd.
    apply path_join; [exact P|done..| | |simpl|]; try apply not_elem_of_nil.
    + apply NoDup_app in Hnd as (_ & Hx & _). intros Hin. apply (Hx _ Hin). left.
    + simpl in Hnd. apply NoDup_cons in Hnd. tauto.
  - intros q Hq. simpl. rewrite !lookup_insert_ne by set_solver. done.
Qed.

Lemma mk_list_cat_dll h head l list m :
  dll h head l → dll h list m → (∀ x, x ∈ head :: l → x ∉ list :: m) →
  ∃ h', mk_list_cat list head h = Some h' ∧ dll h' head (l ++ m) ∧
        agree_outside ((head :: l) ++ list :: m) h h'.
Proof.
  intros Hd Hm Hdis. destruct m as [|y m]; [|by apply mk_list_cat_cons].
  destruct (mk_list_cat_nil _ _ _ _ Hd Hm) as (h' & ? & ? & ?).
  { intros Hin. apply (Hdis _ Hin). left. }
  exists h'. rewrite app_nil_r. split_and!; [done..|].
  eapply agree_outside_weaken; [|done]. set_solver.
Qed.

(** ** Traversals *)

(** Every cell of a list has a successor. *)
Lemma dll_next h head l x : dll h head l → x ∈ head :: l → is_Some (lh_next h !! x).
Proof.
  intros [Hp _] Hx. apply list_elem_of_split in Hx as (xs & ys & E). unfold ring in Hp.
  rewrite app_comm_cons, E, <- app_assoc in Hp.
  destruct ys; simpl in Hp; apply path_mid in Hp as (_ & (?&?&Hn&?) & _); by eexists.
Qed.

(** A well-formed list has fewer entries than a traversal has fuel. *)
Lemma dll_fuel h head l : dll h head l → (length l < lh_fuel h)%nat.
Proof.
  intros Hd. unfold lh_fuel. rewrite <- size_dom.
  assert (list_to_set (head :: l) ⊆@{gset ptr} dom (lh_next h)) as Hsub.
  { intros x Hx%elem_of_list_to_set. apply elem_of_dom. by eapply dll_next. }
  destruct Hd as [_ Hnd].
  apply subseteq_size in Hsub. rewrite size_list_to_set in Hsub by done. simpl in Hsub. lia.
Qed.

Lemma path_ld_next h s head :
  path h (s ++ [head]) → match s with
  | [] => True | x :: s' => ld_next h x = Some (List.hd head s') ∧ path h (s' ++ [head]) end.
Proof.
  destruct s as [|x s]; [done|].
  destruct s as [|y s]; intros [Hl Hp]; split; try done; by apply linked_ld in Hl as [-> _].
Qed.

Lemma mk_list_size_loop_path h head s fuel ret :
  path h (s ++ [head]) → head ∉ s → (length s < fuel)%nat →
  0 ≤ ret → ret + Z.of_nat (length s) < 2 ^ 31 →
  mk_list_size_loop fuel h head (List.hd head s) ret = Some (ret + Z.of_nat (length s)).
Proof.
  revert fuel ret. induction s as [|x s IH]; intros [|fuel] ret Hp Hh Hf Hr Hb;
    simpl in Hf, Hb; try lia.
  - simpl. rewrite decide_True by done. by rewrite Z.add_0_r.
  - simpl. rewrite decide_False by set_solver.
    apply path_ld_next in Hp as [-> Hp]. simpl. rewrite int_add_Some by lia. simpl.
    rewrite IH; [f_equal; lia|done|set_solver|lia..].
Qed.

Lemma dll_tail_path h head l : dll h head l → path h (l ++ [head]).
Proof. intros [Hp _]. destruct l; [done|]. apply Hp. Qed.

Lemma mk_list_size_dll h head l :
  dll h head l → Z.of_nat (length l) < 2 ^ 31 →
  mk_list_size head h = Some (Z.of_nat (length l)).
Proof.
  intros Hd Hb. unfold mk_list_size. destruct (dll_ends _ _ _ Hd) as [_ ->]. cbn [mbind option_bind].
  rewrite mk_list_size_loop_path; [done|by apply dll_tail_path| |by eapply dll_fuel|lia..].
  destruct Hd as [_ Hnd]. apply NoDup_cons in Hnd. tauto.
Qed.

Lemma list_snoc_eq {A} (dn : list A) x s : dn ++ x :: s = (dn ++ [x]) ++ s.
Proof. by rewrite <- app_assoc. Qed.

(** Loop rules.  [I done s] holds when the entries [done] have been visited;
    a body that breaks leaves the loop with [Q]. *)
Section foreach_rules.
Context {S : Type} (lh : S → lheap) (head : ptr) (l : list ptr).
Context (I : list ptr → S → Prop) (Q : S → Prop).

Lemma mk_list_foreach_rule (body : ptr → S → option (bool * S)) s :
  (∀ dn s, I dn s → dll (lh s) head l) →
  (∀ dn x rest s, l = dn ++ x :: rest → I dn s →
     ∃ brk s', body x s = Some (brk, s') ∧ if brk : bool then Q s' else I (dn ++ [x]) s') →
  I [] s →
  ∃ s', mk_list_foreach lh head body s = Some s' ∧ (I l s' ∨ Q s').
Proof.
  intros Hdll Hbody HI. unfold mk_list_foreach.
  pose proof (Hdll _ _ HI) as Hd. destruct (dll_ends _ _ _ Hd) as [_ ->]. cbn [mbind option_bind].
  assert (Hh : head ∉ l) by (destruct Hd as [_ Hnd]; apply NoDup_cons in Hnd; tauto).
  apply dll_fuel in Hd. revert Hd. generalize (lh_fuel (lh s)) as fuel.
  cut (∀ dn rest fuel s, l = dn ++ rest → I dn s → (length rest < fuel)%nat →
    ∃ s', mk_list_foreach_loop lh fuel head (List.hd head rest) body s = Some s' ∧
          (I l s' ∨ Q s')).
  { intros Hloop fuel Hf. by apply (Hloop []). }
  clear HI s. intros dn rest. revert dn.
  induction rest as [|x rest IH]; intros dn [|fuel] s E HI Hf; simpl in Hf; try lia; simpl.
  - rewrite decide_True by done. rewrite app_nil_r in E. subst. eauto.
  - rewrite decide_False by (intros ->; apply Hh; rewrite E; set_solver).
    destruct (Hbody _ _ _ _ E HI) as ([] & s' & -> & H); simpl; [eauto|].
    assert (Hp := dll_tail_path _ _ _ (Hdll _ _ H)). rewrite E, <- app_assoc in Hp.
    apply path_app in Hp as [_ Hp]. apply (path_ld_next _ (x :: rest)) in Hp as [-> _]. simpl.
    apply (IH (dn ++ [x])); [by rewrite <- list_snoc_eq|done|lia].
Qed.

(** For the safe traversal only what lies ahead has to stay linked. *)
Lemma mk_list_foreach_safe_rule (body : ptr → S → option S) s :
  dll (lh s) head l →
  (∀ dn rest s, l = dn ++ rest → I dn s →
     path (lh s) (rest ++ [head]) ∧ is_Some (ld_next (lh s) head)) →
  (∀ dn x rest s, l = dn ++ x :: rest → I dn s →
     ∃ s', body x s = Some s' ∧ I (dn ++ [x]) s') →
  I [] s →
  ∃ s', mk_list_foreach_safe lh head body s = Some s' ∧ I l s'.
Proof.
  clear Q. intros Hd Hpath Hbody HI. unfold mk_list_foreach_safe.
  destruct (dll_ends _ _ _ Hd) as [_ ->]. cbn [mbind option_bind].
  assert (Hh : head ∉ l) by (destruct Hd as [_ Hnd]; apply NoDup_cons in Hnd; tauto).
  apply dll_fuel in Hd. revert Hd. generalize (lh_fuel (lh s)) as fuel.
  cut (∀ dn rest fuel s, l = dn ++ rest → I dn s → (length rest < fuel)%nat →
    ∃ n s', ld_next (lh s) (List.hd head rest) = Some n ∧
      mk_list_foreach_safe_loop lh fuel head (List.hd head rest) n body s = Some s' ∧
      I l s').
  { intros Hloop fuel Hf. destruct (Hloop [] l fuel s eq_refl HI Hf) as (n & s' & -> & ?).
    simpl. eauto. }
  clear HI s. intros dn rest. revert dn.
  induction rest as [|x rest IH]; intros dn [|fuel] s E HI Hf; simpl in Hf; try lia;
    destruct (Hpath _ _ _ E HI) as [Hp [n Hn]].
  - exists n, s. simpl. rewrite decide_True by done. rewrite app_nil_r in E. by subst.
  - apply (path_ld_next _ (x :: rest)) in Hp as [Hx _].
    destruct (Hbody _ _ _ _ E HI) as (s' & Hs & H).
    destruct (IH (dn ++ [x]) fuel s') as (n' & s'' & Hn' & Hl & ?);
      [by rewrite <- list_snoc_eq|done|lia|].
    eexists _, s''. split; [exact Hx|]. simpl.
    rewrite decide_False by (intros ->; apply Hh; rewrite E; set_solver).
    rewrite Hs. simpl. rewrite Hn'. simpl. done.
Qed.

End foreach_rules.
