(* ===== verification/MkListSpec.v ===== *)
(** Abstract specification of [mk_list.h]: a world of disjoint sequences,
    one per list head, and the refinement of every operation to it. *)
From S2P Require Import Prelude MkList.

(** * Operations as data *)

Inductive list_op :=
| OInit (head : ptr)
| OAdd (x head : ptr)
| OAddAfter (x prev head : ptr)
| OAddBefore (x next head : ptr)
| OAppend (x head : ptr)
| OPrepend (x head : ptr)
| ODel (x : ptr)
| OCat (list head : ptr).

(** What the code does. *)
Definition exec_op (o : list_op) : lheap → option lheap :=
  match o with
  | OInit head => mk_list_init head
  | OAdd x head => mk_list_add x head
  | OAddAfter x prev head => mk_list_add_after x prev head
  | OAddBefore x next head => mk_list_add_before x next head
  | OAppend x head => mk_list_append x head
  | OPrepend x head => mk_list_prepend x head
  | ODel x => mk_list_del x
  | OCat list head => mk_list_cat list head
  end.

Fixpoint exec_ops (os : list list_op) (h : lheap) : option lheap :=
  match os with
  | [] => Some h
  | o :: os => h ← exec_op o h; exec_ops os h
  end.

(** * The abstract world *)

Abbreviation world := (gmap Z (list ptr)).

(** [x] is a list head or an entry of some list. *)
Definition in_use (w : world) (x : ptr) : Prop :=
  ∃ hd l, w !! hd = Some l ∧ x ∈ hd :: l.

(** A node may be inserted when it is a non-null node of no list. *)
Definition fresh_node (w : world) (x : ptr) : Prop := x ≠ NULL ∧ ¬ in_use w x.

Definition nodes (w : world) : list ptr :=
  mjoin ((λ '(hd, l), hd :: l) <$> map_to_list w).

Lemma in_use_nodes w x : in_use w x ↔ x ∈ nodes w.
Proof.
  unfold nodes. rewrite list_elem_of_join. split.
  - intros (hd & l & Hl & Hx). exists (hd :: l). split; [done|].
    apply list_elem_of_fmap. exists (hd, l). by rewrite elem_of_map_to_list.
  - intros (c & Hx & ([hd l] & -> & Hl)%list_elem_of_fmap). exists hd, l.
    by rewrite <- elem_of_map_to_list.
Qed.

#[export] Instance fresh_node_dec w x : Decision (fresh_node w x).
Proof.
  refine (cast_if (decide (x ≠ NULL ∧ x ∉ nodes w)));
    abstract (unfold fresh_node; by rewrite in_use_nodes).
Defined.

Inductive abs_step (w : world) : list_op → world → Prop :=
| abs_init head : fresh_node w head → abs_step w (OInit head) (<[head := []]> w)
| abs_add x head l : w !! head = Some l → fresh_node w x →
    abs_step w (OAdd x head) (<[head := l ++ [x]]> w)
| abs_add_after x p head l : w !! head = Some l → fresh_node w x → p ∈ head :: l →
    abs_step w (OAddAfter x p head) (<[head := seq_add_after x p head l]> w)
| abs_add_before x n head l : w !! head = Some l → fresh_node w x → n ∈ head :: l →
    abs_step w (OAddBefore x n head) (<[head := seq_add_before x n head l]> w)
| abs_append x head l : w !! head = Some l → fresh_node w x →
    abs_step w (OAppend x head) (<[head := l ++ [x]]> w)
| abs_prepend x head l : w !! head = Some l → fresh_node w x →
    abs_step w (OPrepend x head) (<[head := x :: l]> w)
| abs_del head l1 x l2 : w !! head = Some (l1 ++ x :: l2) →
    abs_step w (ODel x) (<[head := l1 ++ l2]> w)
| abs_cat list head l m : list ≠ head → w !! head = Some l → w !! list = Some m →
    abs_step w (OCat list head) (delete list (<[head := l ++ m]> w)).

Inductive abs_steps : world → list list_op → world → Prop :=
| abs_steps_nil w : abs_steps w [] w
| abs_steps_cons w o w' os w'' :
    abs_step w o w' → abs_steps w' os w'' → abs_steps w (o :: os) w''.

(** * Representation *)

Definition disjoint_lists (w : world) : Prop :=
  ∀ a b la lb x, a ≠ b → w !! a = Some la → w !! b = Some lb →
    x ∈ a :: la → x ∉ b :: lb.

Definition represents (h : lheap) (w : world) : Prop :=
  (∀ hd l, w !! hd = Some l → dll h hd l) ∧ disjoint_lists w.

Lemma represents_update h h' w hd l' X :
  represents h w → dll h' hd l' → agree_outside X h h' →
  (∀ b lb y, b ≠ hd → w !! b = Some lb → y ∈ b :: lb → y ∉ X ∧ y ∉ hd :: l') →
  represents h' (<[hd := l']> w).
Proof.
  intros [Hd Hw] Hl HX Hdis. split.
  - intros a la Ha. destruct (decide (a = hd)) as [->|Hne].
    + rewrite lookup_insert_eq in Ha. by simplify_eq.
    + rewrite lookup_insert_ne in Ha by done. eapply dll_agree; [exact HX| |by apply Hd].
      intros y Hy. by eapply Hdis.
  - intros a b la lb x Hab Ha Hb Hxa Hxb.
    destruct (decide (a = hd)) as [->|]; destruct (decide (b = hd)) as [->|]; [done|..].
    + rewrite lookup_insert_eq in Ha. rewrite lookup_insert_ne in Hb by done. simplify_eq.
      by apply (Hdis b lb x).
    + rewrite lookup_insert_eq in Hb. rewrite lookup_insert_ne in Ha by done. simplify_eq.
      by apply (Hdis a la x).
    + rewrite !lookup_insert_ne in Ha, Hb by done. by apply (Hw a b la lb x).
Qed.

Lemma represents_delete h w hd : represents h w → represents h (delete hd w).
Proof.
  intros [Hd Hw]. split.
  - intros a la [_ ?]%lookup_delete_Some. by apply Hd.
  - intros a b la lb x ? [_ ?]%lookup_delete_Some [_ ?]%lookup_delete_Some. by apply Hw.
Qed.

(** Inserting a fresh node keeps the world represented. *)
Lemma represents_fresh h h' w head l l' x :
  represents h w → w !! head = Some l → fresh_node w x → dll h' head l' →
  (∀ y, y ∈ head :: l' → y ∈ x :: head :: l) →
  agree_outside (x :: head :: l) h h' → represents h' (<[head := l']> w).
Proof.
  intros Hr Hl [_ Hx] Hd' Hsub HX. eapply represents_update; [done..|].
  intros b lb y Hb Hlb Hy.
  assert (y ∉ x :: head :: l) as Hout.
  { intros [->|Hin]%elem_of_cons.
    - apply Hx. by exists b, lb.
    - by apply (proj2 Hr b head lb l y Hb). }
  split; [done|]. intros Hin. by apply Hout, Hsub.
Qed.

Lemma elem_of_insert_after p x y c : y ∈ insert_after p x c → y ∈ x :: c.
Proof. induction c; simpl; [|case_decide]; set_solver. Qed.

Lemma elem_of_insert_before n x y c : y ∈ insert_before n x c → y ∈ x :: c.
Proof. induction c; simpl; [|case_decide]; set_solver. Qed.

Lemma elem_of_seq_add_after x p head l y :
  y ∈ head :: seq_add_after x p head l → y ∈ x :: head :: l.
Proof.
  unfold seq_add_after. case_decide; [set_solver|].
  intros [->|Hy]%elem_of_cons; [set_solver|]. apply (elem_of_insert_after p).
  destruct (insert_after _ _ _); set_solver.
Qed.

Lemma elem_of_seq_add_before x n head l y :
  y ∈ head :: seq_add_before x n head l → y ∈ x :: head :: l.
Proof.
  unfold seq_add_before. case_decide; [set_solver|].
  intros [->|Hy]%elem_of_cons; [set_solver|].
  apply elem_of_insert_before in Hy. set_solver.
Qed.

(** One step of the code follows one step of the specification. *)
Lemma exec_op_sim h w o w' :
  represents h w → abs_step w o w' → ∃ h', exec_op o h = Some h' ∧ represents h' w'.
Proof.
  intros Hr Hs. pose proof (proj1 Hr) as Hd.
  assert (Hfr : ∀ x head l, w !! head = Some l → fresh_node w x → x ≠ NULL ∧ x ∉ head :: l).
  { intros x head l Hl [? Hx]. split; [done|]. intros Hin. apply Hx. by exists head, l. }
  destruct Hs as [head Hf|x head l Hl Hf|x p head l Hl Hf Hp|x n head l Hl Hf Hn
    |x head l Hl Hf|x head l Hl Hf|head l1 x l2 Hl|list head l m Hne Hl Hm]; simpl.
  - destruct (mk_list_init_dll h head) as (h' & ? & ? & HX); [apply Hf|].
    exists h'. split; [done|]. eapply represents_update; [done..|].
    intros b lb y Hb Hlb Hy. assert (y ≠ head); [|set_solver].
    intros ->. apply (proj2 Hf). by exists b, lb.
  - destruct (Hfr _ _ _ Hl Hf). destruct (mk_list_add_dll h head l x) as (h' & ? & ? & ?); auto.
    exists h'. split; [done|]. eapply represents_fresh; [done..| |done]. set_solver.
  - destruct (Hfr _ _ _ Hl Hf).
    destruct (mk_list_add_after_dll h head l x p) as (h' & ? & ? & ?); auto.
    exists h'. split; [done|]. eapply represents_fresh; [done..| |done].
    apply elem_of_seq_add_after.
  - destruct (Hfr _ _ _ Hl Hf).
    destruct (mk_list_add_before_dll h head l x n) as (h' & ? & ? & ?); auto.
    exists h'. split; [done|]. eapply represents_fresh; [done..| |done].
    apply elem_of_seq_add_before.
  - destruct (Hfr _ _ _ Hl Hf). destruct (mk_list_append_dll h head l x) as (h' & ? & ? & ?); auto.
    exists h'. split; [done|]. eapply represents_fresh; [done..| |done]. set_solver.
  - destruct (Hfr _ _ _ Hl Hf). destruct (mk_list_prepend_dll h head l x) as (h' & ? & ? & ?); auto.
    exists h'. split; [done|]. eapply represents_fresh; [done..| |done]. set_solver.
  - destruct (mk_list_del_dll h head l1 x l2) as (h' & ? & ? & _ & _ & ?); [by apply Hd|].
    exists h'. split; [done|]. eapply represents_update; [done..|].
    intros b lb y Hb Hlb Hy. pose proof (proj2 Hr b head lb _ y Hb Hlb Hl Hy). set_solver.
  - destruct (mk_list_cat_dll h head l list m) as (h' & ? & ? & ?); [by apply Hd..| |].
    { intros x. by apply (proj2 Hr head list). }
    exists h'. split; [done|]. rewrite delete_insert_ne by done.
    eapply represents_update; [by apply represents_delete|done..|].
    intros b lb y Hb [? Hlb]%lookup_delete_Some Hy.
    pose proof (proj2 Hr b head lb _ y Hb Hlb Hl Hy).
    pose proof (proj2 Hr b list lb _ y (not_eq_sym H2) Hlb Hm Hy). set_solver.
Qed.

(** * Theorems *)

(** C24. Refinement: whatever sequence of list operations the abstract
    world of disjoint sequences allows, the pointer code runs it without
    touching a null or unwritten pointer and ends in a heap that represents
    the abstract result; in particular no operation disturbs another list. *)
Theorem mk_list_refinement h w os w' :
  represents h w → abs_steps w os w' →
  ∃ h', exec_ops os h = Some h' ∧ represents h' w'.
Proof.
  intros Hr Hs. revert h Hr. induction Hs as [w|w o w' os w'' Ho _ IH]; intros h Hr; [by eauto|].
  destruct (exec_op_sim _ _ _ _ Hr Ho) as (h1 & E & Hr1). simpl. rewrite E. by apply IH.
Qed.

(** The nodes met by [mk_list_foreach], in order. *)
Definition visit (x : ptr) (s : list ptr * lheap) : option (bool * (list ptr * lheap)) :=
  Some (false, (s.1 ++ [x], s.2)).

(** What the read-only operations report of a well-formed list is its
    sequence: [mk_list_is_empty], [mk_list_is_set], [mk_list_size] (below
    [INT_MAX] entries) and the nodes [mk_list_foreach] visits, in order; the
    traversals terminate. *)
Theorem mk_list_observations h w head l :
  represents h w → w !! head = Some l →
  mk_list_is_empty head h = Some (if decide (l = []) then 0 else -1) ∧
  mk_list_is_set head h = Some 0 ∧
  (Z.of_nat (length l) < 2 ^ 31 → mk_list_size head h = Some (Z.of_nat (length l))) ∧
  mk_list_foreach snd head visit ([], h) = Some (l, h).
Proof.
  intros [Hr _] Hl. specialize (Hr _ _ Hl). split_and!.
  - by apply mk_list_is_empty_dll.
  - unfold mk_list_is_set. destruct (dll_ends _ _ _ Hr) as [-> ->]. cbn [mbind option_bind].
    rewrite decide_False; [rewrite decide_False; [done|]|]; apply (dll_nonnull _ _ _ _ Hr).
    + destruct (ring_last head l) as (xs & p & E & _). rewrite E, List.last_last. set_solver.
    + destruct l; simpl; set_solver.
  - intros. by apply mk_list_size_dll.
  - destruct (mk_list_foreach_rule snd head l (λ dn s, s = (dn, h)) (λ _, False) visit ([], h))
      as (s' & E & [->|[]]); [by intros ? ? ->| |done|done].
    intros dn x rest s _ ->. by eexists _, _.
Qed.

(** Deleting every visited node empties the list and nothing else. *)
Lemma mk_list_drain_run h w head l :
  represents h w → w !! head = Some l →
  ∃ h', mk_list_foreach_safe id head mk_list_del h = Some h' ∧
    represents h' (<[head := []]> w) ∧
    ∀ x, x ∈ l → x ≠ NULL ∧ lh_next h' !! x = Some NULL ∧ lh_prev h' !! x = Some NULL.
Proof.
  intros Hr Hl. pose proof (proj1 Hr _ _ Hl) as Hd.
  assert (NN : ∀ x, x ∈ l → x ≠ NULL).
  { intros x Hx. apply (dll_nonnull _ _ _ _ Hd). by right. }
  destruct (mk_list_foreach_safe_rule id head l
    (λ dn h1, ∃ rest, l = dn ++ rest ∧ dll h1 head rest ∧ agree_outside (head :: l) h h1 ∧
      ∀ x, x ∈ dn → lh_next h1 !! x = Some NULL ∧ lh_prev h1 !! x = Some NULL) mk_list_del h)
    as (h' & E & rest & El & Hd' & HX & Ho); [done|..].
  - intros dn rest h1 E (rest' & E' & Hd1 & _). rewrite E in E'. simplify_list_eq.
    split; [by apply dll_tail_path|]. destruct (dll_ends _ _ _ Hd1) as [_ ->]. done.
  - intros dn x rest h1 E (rest' & E' & Hd1 & HX & Ho). rewrite E in E'. simplify_list_eq.
    destruct (mk_list_del_dll h1 head [] x rest Hd1) as (h2 & ? & ? & Hx & Hx' & HX').
    exists h2. split; [done|]. exists rest. split_and!; [by rewrite <- app_assoc|done|..].
    + eapply agree_outside_trans; [done|]. eapply agree_outside_weaken; [|done]. set_solver.
    + intros y [Hy| ->%list_elem_of_singleton]%elem_of_app; [|done].
      destruct (HX' y) as [-> ->]; [|by apply Ho]. destruct Hd as [_ Hnd].
      rewrite NoDup_cons, NoDup_app in Hnd. set_solver.
  - exists l. split_and!; [done..|]. set_solver.
  - assert (rest = []) as -> by (apply (app_inv_head l); by rewrite app_nil_r).
    exists h'. split_and!; [done| |].
    + eapply represents_update; [done..|]. intros b lb y Hb Hlb Hy.
      pose proof (proj2 Hr b head lb l y Hb Hlb Hl Hy). set_solver.
    + intros x Hx. split; [by apply NN|by apply Ho].
Qed.

(** [mk_list_foreach_safe] tolerates a body that deletes the visited
    node: deleting them all terminates, leaves the list empty, every former
    entry an orphan, and every other list as it was. *)
Theorem mk_list_drain h w head l :
  represents h w → w !! head = Some l →
  ∃ h', mk_list_foreach_safe id head mk_list_del h = Some h' ∧
    represents h' (<[head := []]> w) ∧
    ∀ x, x ∈ l → mk_list_entry_is_orphan x h' = Some 1.
Proof.
  intros Hr Hl. destruct (mk_list_drain_run h w head l Hr Hl) as (h' & E & Hr' & Ho).
  exists h'. split_and!; [done..|]. intros x Hx. destruct (Ho x Hx) as (Hn & En & _).
  unfold mk_list_entry_is_orphan, ld_next. by rewrite decide_False, En by done.
Qed.

(** ** The theorems at work: two heads at 16 and 32, nodes at 48, 64, 80. *)

Definition demo_ops : list list_op :=
  [OInit 16; OInit 32; OAdd 48 16; OAddAfter 64 16 16; OPrepend 80 32;
   OCat 32 16; ODel 64].

Lemma demo_steps : abs_steps ∅ demo_ops {[ 16 := [48; 80] ]}.
Proof.
  eapply abs_steps_cons; [apply abs_init; evaluate|].
  eapply abs_steps_cons; [apply abs_init; evaluate|].
  eapply abs_steps_cons; [apply (abs_add _ _ _ []); [done|evaluate]|].
  eapply abs_steps_cons; [apply (abs_add_after _ _ _ _ [48]); [done|evaluate|set_solver]|].
  eapply abs_steps_cons; [apply (abs_prepend _ _ _ []); [done|evaluate]|].
  eapply abs_steps_cons; [apply (abs_cat _ _ _ [48; 64] [80]); done|].
  eapply abs_steps_cons; [apply (abs_del _ 16 [48] 64 [80]); done|].
  match goal with |- abs_steps ?w _ _ =>
    assert (w = {[ 16 := [48; 80] ]}) as -> by (vm_compute; done) end.
  apply abs_steps_nil.
Qed.

Lemma represents_empty : represents lempty ∅.
Proof. split; [intros ? ? ?|intros ? ? ? ? ? _ ?]; by simplify_map_eq. Qed.

Lemma mk_list_refinement_witness :
  ∃ h', exec_ops demo_ops lempty = Some h' ∧ represents h' {[ 16 := [48; 80] ]}.
Proof. exact (mk_list_refinement _ _ _ _ represents_empty demo_steps). Defined.

Definition demo_heap : lheap :=
  default lempty (exec_ops demo_ops lempty).

Lemma demo_heap_represents : represents demo_heap {[ 16 := [48; 80] ]}.
Proof.
  assert (Hd : dll demo_heap 16 [48; 80]) by evaluate.
  split.
  - intros hd l [<- <-]%lookup_singleton_Some. done.
  - intros a b la lb x Hab [<- <-]%lookup_singleton_Some [<- <-]%lookup_singleton_Some. done.
Qed.

Lemma mk_list_observations_witness :
  represents demo_heap {[ 16 := [48; 80] ]} ∧
  mk_list_foreach snd 16 visit ([], demo_heap) = Some ([48; 80], demo_heap).
Proof.
  split; [exact demo_heap_represents|].
  exact (proj2 (proj2 (proj2 (mk_list_observations _ _ 16 [48; 80] demo_heap_represents
    (lookup_singleton_eq _ _))))).
Defined.

Lemma mk_list_drain_witness :
  ∃ h', mk_list_foreach_safe id 16 mk_list_del demo_heap = Some h' ∧
    represents h' (<[16 := []]> {[ 16 := [48; 80] ]}) ∧
    ∀ x, x ∈ [48; 80] → mk_list_entry_is_orphan x h' = Some 1.
Proof.
  exact (mk_list_drain _ _ 16 [48; 80] demo_heap_represents (lookup_singleton_eq _ _)).
Defined.
