(* ===== verification/Queues.v ===== *)
(** Two lists per keeper, for flushes and for collections alike: those under
    way, in order of creation, and those that are finished, in order of
    completion; and families of linked lists that share no node. *)
From S2P Require Import Prelude MkList MkListSpec.

(** * The two lists of a keeper *)

Section queues.
Context {K : Type} `{Countable K} {B : Type} (own : B → K) (fin : B → Prop).

(** Everything known is in the list of its keeper that says how far it is. *)
Record queues_ok (F : gmap Z B) (Q D : gmap K (list ptr)) : Prop := {
  qo_queue q r : r ∈ Q !!! q ↔ ∃ a, F !! r = Some a ∧ own a = q ∧ ¬ fin a;
  qo_done q r : r ∈ D !!! q ↔ ∃ a, F !! r = Some a ∧ own a = q ∧ fin a
}.

Definition enqueue (q : K) (r : ptr) (Q : gmap K (list ptr)) : gmap K (list ptr) := <[q := Q !!! q ++ [r]]> Q.
Definition dequeue (q : K) (r : ptr) (Q : gmap K (list ptr)) : gmap K (list ptr) :=
  <[q := filter (λ x, x ≠ r) (Q !!! q)]> Q.

Lemma elem_of_enqueue q r Q q' r' : r' ∈ enqueue q r Q !!! q' ↔ r' ∈ Q !!! q' ∨ q' = q ∧ r' = r.
Proof.
  unfold enqueue. destruct (decide (q' = q)) as [->|Hne].
  - rewrite lookup_total_insert_eq, elem_of_app, list_elem_of_singleton. tauto.
  - rewrite lookup_total_insert_ne by done. split; [by left|by intros [?|[]]].
Qed.

Lemma elem_of_dequeue q r Q q' r' : r' ∈ dequeue q r Q !!! q' ↔ r' ∈ Q !!! q' ∧ (q' = q → r' ≠ r).
Proof.
  unfold dequeue. destruct (decide (q' = q)) as [->|Hne].
  - rewrite lookup_total_insert_eq, list_elem_of_filter. tauto.
  - rewrite lookup_total_insert_ne by done. split; [done|by intros [? _]].
Qed.

Context (F : gmap Z B) (Q D : gmap K (list ptr)) (Hok : queues_ok F Q D).

Lemma queues_create r a : F !! r = None → ¬ fin a → queues_ok (<[r := a]> F) (enqueue (own a) r Q) D.
Proof.
  destruct Hok as [Hq Hd]. intros Hn Ha. split; intros q r'; rewrite ?elem_of_enqueue, ?Hq, ?Hd;
    (destruct (decide (r' = r)) as [->|Hne]; [rewrite lookup_insert_eq, Hn|rewrite lookup_insert_ne by done]); clear Hok Hq Hd; naive_solver.
Qed.

(** One of those under way changes. *)
Lemma queues_update r a a' :
  F !! r = Some a → own a' = own a → ¬ fin a → ¬ fin a' → queues_ok (<[r := a']> F) Q D.
Proof.
  destruct Hok as [Hq Hd]. intros Ha Ho Hf Hf'. split; intros q r'; rewrite ?Hq, ?Hd;
    (destruct (decide (r' = r)) as [->|Hne]; [rewrite lookup_insert_eq, Ha|rewrite lookup_insert_ne by done]); clear Hok Hq Hd; naive_solver.
Qed.

(** It goes from one list to the other. *)
Lemma queues_finish r a a' :
  F !! r = Some a → own a' = own a → fin a' → 
  ¬ fin a → queues_ok (<[r := a']> F) (dequeue (own a) r Q) (enqueue (own a) r D).
Proof.
  destruct Hok as [Hq Hd]. intros Ha Ho Hf' Hf. split; intros q r'; rewrite ?elem_of_enqueue, ?elem_of_dequeue, ?Hq, ?Hd;
    (destruct (decide (r' = r)) as [->|Hne]; [rewrite lookup_insert_eq, Ha|rewrite lookup_insert_ne by done]); clear Hok Hq Hd; naive_solver.
Qed.

Lemma queues_destroy r a : F !! r = Some a → fin a → queues_ok (delete r F) Q (dequeue (own a) r D).
Proof.
  destruct Hok as [Hq Hd]. intros Ha Hf. split; intros q r'; rewrite ?elem_of_dequeue, ?Hq, ?Hd;
    (destruct (decide (r' = r)) as [->|Hne]; [rewrite lookup_delete_eq, Ha|rewrite lookup_delete_ne by done]); clear Hok Hq Hd; naive_solver.
Qed.
End queues.

Arguments qo_queue {_ _ _ _ _ _ _ _ _}.
Arguments qo_done {_ _ _ _ _ _ _ _ _}.

(** * Families of linked lists *)

(** A node that is taken out of a list and added to another one. *)
Lemma moved_dll h a b n l1 l2 dl :
  dll h a (l1 ++ n :: l2) → dll h b dl → (∀ y, y ∈ b :: dl → y ∉ a :: l1 ++ n :: l2) →
  ∃ h', (h ← mk_list_del n h; mk_list_add n b h) = Some h' ∧ dll h' a (l1 ++ l2) ∧ dll h' b (dl ++ [n]) ∧
    agree_outside ((a :: l1 ++ n :: l2) ++ b :: dl) h h'.
Proof.
  intros Hd Hdl Hap.
  destruct (mk_list_del_dll _ _ _ _ _ Hd) as (h1 & E1 & Hd1 & _ & _ & Hag1). rewrite E1. simpl.
  pose proof (proj2 Hd) as Hnd.
  rewrite app_comm_cons in Hnd. apply NoDup_app in Hnd as (_ & Hnh & [Hnl _]%NoDup_cons).
  assert (Hn : n ∉ b :: dl) by (clear -Hap; intros Hin; apply (Hap n Hin); set_solver).
  assert (Hdl1 : dll h1 b dl) by (apply (dll_agree _ _ _ _ _ Hag1); [exact Hap|exact Hdl]).
  assert (Hn0 : n ≠ NULL) by (apply (dll_nonnull _ _ _ n Hd); set_solver).
  destruct (mk_list_add_dll h1 b dl n Hdl1 Hn0 Hn) as (h2 & E2 & Hd2 & Hag2).
  exists h2. split; [exact E2|]. split; [|split; [exact Hd2|]].
  - apply (dll_agree _ _ _ _ _ Hag2); [|exact Hd1]. intros y Hy Hin.
    apply elem_of_cons in Hin as [->|Hin]; [|apply (Hap y Hin)]; clear Hap Hd Hdl Hag1 Hag2.
    + rewrite app_comm_cons, elem_of_app in Hy. destruct Hy as [Hy|Hy]; [|done]. apply (Hnh n Hy). by left.
    + set_solver.
  - intros p. rewrite app_comm_cons. intros [H1 H2]%not_elem_of_app. destruct (Hag1 p H1) as [<- <-]. apply Hag2.
    apply not_elem_of_cons. split; [|exact H2]. intros ->. apply H1. clear. apply elem_of_cons. right. apply elem_of_app. right. by left.
Qed.

(** Taking one out of a list. *)
Lemma filter_out {A} `{EqDecision A} (x : A) (l : list A) : x ∉ l → filter (λ y, y ≠ x) l = l.
Proof.
  induction l as [|y l IH]; [done|]. intros [Hx Hl]%not_elem_of_cons.
  rewrite filter_cons_True by (intros ->; by apply Hx). by rewrite IH.
Qed.

Lemma filter_mid {A} `{EqDecision A} (x : A) l1 l2 :
  NoDup (l1 ++ x :: l2) → filter (λ y, y ≠ x) (l1 ++ x :: l2) = l1 ++ l2.
Proof.
  intros (H1 & H2 & [Hx H3]%NoDup_cons)%NoDup_app. rewrite filter_app, filter_cons_False by (intros H; by apply H).
  f_equal; apply filter_out; [|done]. intros Hin. apply (H2 x Hin). by left.
Qed.

Section family.
Context {K : Type} `{EqDecision K} (head : K → option ptr).

(** The lists of a family hold what is said of them; no two share a node. *)
Definition lists_hold (h : lheap) (content : K → list ptr) : Prop :=
  ∀ k b, head k = Some b → dll h b (content k).

Definition lists_apart (content : K → list ptr) : Prop :=
  ∀ k k' b b' x, head k = Some b → head k' = Some b' → k ≠ k' → x ∈ b :: content k → x ∉ b' :: content k'.

(** The nodes of two of the lists, and perhaps one more, change. *)
Lemma lists_moved h h' c c' kq kd bq bd :
  lists_apart c → lists_hold h c → head kq = Some bq → head kd = Some bd →
  dll h' bq (c' kq) → dll h' bd (c' kd) → agree_outside ((bq :: c kq) ++ bd :: c kd) h h' →
  (∀ k, k ≠ kq → k ≠ kd → c' k = c k) → lists_hold h' c'.
Proof.
  intros Hap Hh Hq Hd Hq' Hd' Hag Hc k b Hk.
  destruct (decide (k = kq)) as [->|Hnq]; [by replace b with bq by congruence|].
  destruct (decide (k = kd)) as [->|Hnd]; [by replace b with bd by congruence|].
  rewrite Hc by done. eapply (dll_agree _ _ _ _ _ Hag); [|by apply Hh].
  intros y Hy. rewrite elem_of_app. intros [Hin|Hin]; [by apply (Hap k kq b bq y)|by apply (Hap k kd b bd y)].
Qed.

Lemma lists_changed h h' c c' kq bq n :
  lists_apart c → lists_hold h c → head kq = Some bq → dll h' bq (c' kq) →
  agree_outside (n :: bq :: c kq) h h' → (∀ k b, head k = Some b → n ∉ b :: c k) →
  (∀ k, k ≠ kq → c' k = c k) → lists_hold h' c'.
Proof.
  intros Hap Hh Hq Hq' Hag Hn Hc k b Hk.
  destruct (decide (k = kq)) as [->|Hnq]; [by replace b with bq by congruence|].
  rewrite Hc by done. eapply (dll_agree _ _ _ _ _ Hag); [|by apply Hh].
  intros y Hy [->|Hin]%elem_of_cons; [by apply (Hn k b)|]. by apply (Hap k kq b bq y).
Qed.
End family.
