(* ===== verification/MkListRev.v ===== *)
(** The two reverse traversals of [mk_list.h], by symmetry: a list read
    backwards is the reversed list of the heap with its two pointer fields
    exchanged. *)
From S2P Require Import Prelude MkList MkListSpec.

(** The same cells, each with its two pointers exchanged. *)
Definition flip_heap (h : lheap) : lheap := LHeap (lh_prev h) (lh_next h).

(** * [mk_list_foreach_r(curr, head)] and [mk_list_foreach_safe_r(curr, n, head)] *)

Section foreach_r.
Context {S : Type} (lh : S → lheap).

Fixpoint mk_list_foreach_r_loop (fuel : nat) (head curr : ptr)
    (body : ptr → S → option (bool * S)) (s : S) : option S :=
  match fuel with
  | O => None
  | Datatypes.S fuel =>
      if decide (curr = head) then Some s
      else
        '(brk, s) ← body curr s;
        if (brk : bool) then Some s
        else
          pv ← ld_prev (lh s) curr;
          mk_list_foreach_r_loop fuel head pv body s
  end.

Definition mk_list_foreach_r (head : ptr) (body : ptr → S → option (bool * S)) (s : S) : option S :=
  curr ← ld_prev (lh s) head;
  mk_list_foreach_r_loop (lh_fuel (flip_heap (lh s))) head curr body s.

Fixpoint mk_list_foreach_safe_r_loop (fuel : nat) (head curr n : ptr)
    (body : ptr → S → option S) (s : S) : option S :=
  match fuel with
  | O => None
  | Datatypes.S fuel =>
      if decide (curr = head) then Some s
      else
        s ← body curr s;
        pv ← ld_prev (lh s) n;
        mk_list_foreach_safe_r_loop fuel head n pv body s
  end.

Definition mk_list_foreach_safe_r (head : ptr) (body : ptr → S → option S) (s : S) : option S :=
  curr ← ld_prev (lh s) head;
  n ← ld_prev (lh s) curr;
  mk_list_foreach_safe_r_loop (lh_fuel (flip_heap (lh s))) head curr n body s.

(** They are the forward traversals of the flipped heap. *)
Lemma foreach_r_flip head body s :
  mk_list_foreach_r head body s = mk_list_foreach (λ s, flip_heap (lh s)) head body s.
Proof.
  unfold mk_list_foreach_r, mk_list_foreach. change (ld_next (flip_heap (lh s)) head) with (ld_prev (lh s) head).
  destruct (ld_prev (lh s) head) as [curr|]; [|done]. cbn [mbind option_bind].
  generalize (lh_fuel (flip_heap (lh s))) as fuel. intros fuel. revert curr s.
  induction fuel as [|fuel IH]; intros curr s; [done|]. simpl. case_decide; [done|].
  destruct (body curr s) as [[[] s']|]; [done| |done]. simpl.
  change (ld_next (flip_heap (lh s')) curr) with (ld_prev (lh s') curr).
  destruct (ld_prev (lh s') curr); [apply IH|done].
Qed.

Lemma foreach_safe_r_flip head body s :
  mk_list_foreach_safe_r head body s = mk_list_foreach_safe (λ s, flip_heap (lh s)) head body s.
Proof.
  unfold mk_list_foreach_safe_r, mk_list_foreach_safe.
  change (ld_next (flip_heap (lh s)) head) with (ld_prev (lh s) head).
  destruct (ld_prev (lh s) head) as [curr|]; [|done]. cbn [mbind option_bind].
  change (ld_next (flip_heap (lh s)) curr) with (ld_prev (lh s) curr).
  destruct (ld_prev (lh s) curr) as [n|]; [|done]. cbn [mbind option_bind].
  generalize (lh_fuel (flip_heap (lh s))) as fuel. intros fuel. revert curr n s.
  induction fuel as [|fuel IH]; intros curr n s; [done|]. simpl. case_decide; [done|].
  destruct (body curr s) as [s'|]; [|done]. simpl.
  change (ld_next (flip_heap (lh s')) n) with (ld_prev (lh s') n).
  destruct (ld_prev (lh s') n); [apply IH|done].
Qed.
End foreach_r.

(** * Symmetry *)

Lemma flip_twice h : flip_heap (flip_heap h) = h.
Proof. by destruct h. Qed.

Lemma path_flip h c : path h c → path (flip_heap h) (reverse c).
Proof.
  induction c as [|x [|y c] IH]; [done..|]. intros [(?&?&?&?) Hc].
  rewrite !reverse_cons, <- app_assoc. simpl. rewrite path_mid. split_and!; [|done..].
  rewrite <- reverse_cons. by apply IH.
Qed.

Lemma dll_flip h head l : dll h head l → dll (flip_heap h) head (reverse l).
Proof.
  intros [Hp Hnd]. split.
  - replace (ring head (reverse l)) with (reverse (ring head l)); [by apply path_flip|].
    unfold ring. by rewrite reverse_cons, reverse_app.
  - apply NoDup_cons in Hnd as [Hh Hl]. apply NoDup_cons. rewrite elem_of_reverse.
    split; [done|]. by rewrite (reverse_Permutation l).
Qed.

(** Deletion does not see the difference. *)
Lemma mk_list_del_flip x h : mk_list_del x (flip_heap h) = flip_heap <$> mk_list_del x h.
Proof.
  destruct h as [n p]. unfold mk_list_del, __mk_list_del, flip_heap, ld_next, ld_prev, st_next, st_prev.
  simpl. repeat (case_decide; simpl; [done|]). destruct (p !! x) as [a|], (n !! x) as [b|]; simpl; try done.
  repeat (case_decide; simpl; try done).
Qed.

Lemma represents_flip h w : represents h w → represents (flip_heap h) (reverse <$> w).
Proof.
  intros [Hr Hd]. split.
  - intros head l Hl. apply lookup_fmap_Some in Hl as (l' & <- & Hl). by apply dll_flip, Hr.
  - intros a b la lb x Hab Ha Hb. apply lookup_fmap_Some in Ha as (la' & <- & Ha).
    apply lookup_fmap_Some in Hb as (lb' & <- & Hb). intros Hx Hx'.
    apply (Hd a b la' lb' x Hab Ha Hb); revert Hx Hx'; rewrite !elem_of_cons, !elem_of_reverse; tauto.
Qed.

(** Deleting while traversing the flipped heap is deleting while traversing. *)
Lemma foreach_safe_flip head h :
  mk_list_foreach_safe flip_heap head mk_list_del h =
  flip_heap <$> mk_list_foreach_safe id head mk_list_del (flip_heap h).
Proof.
  unfold mk_list_foreach_safe, id. destruct (ld_next (flip_heap h) head) as [curr|]; [|done]. cbn [mbind option_bind].
  destruct (ld_next (flip_heap h) curr) as [n|]; [|done]. cbn [mbind option_bind].
  generalize (lh_fuel (flip_heap h)) as fuel. intros fuel. revert curr n h.
  induction fuel as [|fuel IH]; intros curr n h; [done|]. simpl.
  case_decide; simpl; [by rewrite flip_twice|].
  rewrite mk_list_del_flip. destruct (mk_list_del curr h) as [h'|]; [|done]. simpl.
  destruct (ld_next (flip_heap h') n); [apply IH|done].
Qed.

(** C32. Traversed backwards, a list gives its entries in the opposite order;
    and a body that deletes the visited entries in that order terminates,
    empties the list, leaves every former entry an orphan and every other list
    as it was. *)
Theorem mk_list_reverse_traversal h w head l :
  represents h w → w !! head = Some l →
  mk_list_foreach_r snd head visit ([], h) = Some (reverse l, h) ∧
  ∃ h', mk_list_foreach_safe_r id head mk_list_del h = Some h' ∧
    represents h' (<[head := []]> w) ∧ ∀ x, x ∈ l → mk_list_entry_is_orphan x h' = Some 1.
Proof.
  intros Hr Hl. pose proof (proj1 Hr _ _ Hl) as Hd. split.
  - rewrite foreach_r_flip.
    destruct (mk_list_foreach_rule (λ s : list ptr * lheap, flip_heap s.2) head (reverse l)
      (λ dn s, s = (dn, h)) (λ _, False) visit ([], h)) as (s' & E & [->|[]]);
      [intros ? ? ->; by apply dll_flip| |done|done].
    intros dn x rest s _ ->. by eexists _, _.
  - destruct (mk_list_drain_run (flip_heap h) (reverse <$> w) head (reverse l)) as (h1 & E & Hr1 & Ho);
      [by apply represents_flip|by rewrite lookup_fmap, Hl|].
    exists (flip_heap h1). split.
    { rewrite foreach_safe_r_flip. etrans; [apply (foreach_safe_flip head h)|]. by rewrite E. }
    split.
    + apply represents_flip in Hr1. rewrite fmap_insert, <- map_fmap_compose in Hr1.
      by rewrite (map_fmap_ext _ id), map_fmap_id in Hr1 by (intros; apply reverse_involutive).
    + intros x Hx. destruct (Ho x) as (Hn & En & Ep); [by apply elem_of_reverse|].
      unfold mk_list_entry_is_orphan, ld_next. simpl. by rewrite decide_False, Ep by done.
Qed.

(** ** The theorem at work *)
Lemma mk_list_reverse_traversal_witness :
  mk_list_foreach_r snd 16 visit ([], demo_heap) = Some ([80; 48], demo_heap).
Proof.
  exact (proj1 (mk_list_reverse_traversal _ _ 16 [48; 80] demo_heap_represents (lookup_singleton_eq _ _))).
Defined.
