(* ===== verification/Mem.v ===== *)
(** [flb_mem.h]: the allocator wrappers, over a model of the C allocator.

    A block is known by its base address and holds its bytes, [None] being a
    byte that was never written.  Whether an allocation succeeds is decided
    by an oracle, so a theorem about all oracles covers every pattern of
    out-of-memory failures.  Using an address that is not the base of a live
    block, or going past the end of the block, makes an operation [None]. *)
From S2P Require Import Prelude MkList.

(** * The C allocator *)

Record mem := Mem {
  mm_blocks : gmap Z (list (option Z));
  mm_brk : Z;                 (** next address never handed out *)
  mm_oracle : list bool       (** outcomes of the coming allocations; [[]]: success *)
}.

Definition align_up (n : Z) : Z := (n + 15) / 16 * 16.

Definition oracle_next (m : mem) : bool * list bool :=
  match mm_oracle m with [] => (true, []) | b :: o => (b, o) end.

Definition alloc (bs : list (option Z)) (m : mem) : ptr * mem :=
  let '(ok, o) := oracle_next m in
  if ok then
    (mm_brk m, Mem (<[mm_brk m := bs]> (mm_blocks m))
                   (mm_brk m + 16 + align_up (Z.of_nat (length bs))) o)
  else (NULL, Mem (mm_blocks m) (mm_brk m) o).

Definition malloc (size : Z) (m : mem) : ptr * mem :=
  alloc (replicate (Z.to_nat size) None) m.

(** [calloc] fails when the product does not fit [size_t]. *)
Definition calloc (n size : Z) (m : mem) : ptr * mem :=
  if decide (2 ^ 64 ≤ n * size) then (NULL, m)
  else alloc (replicate (Z.to_nat (n * size)) (Some 0)) m.

Definition free (p : ptr) (m : mem) : option mem :=
  if decide (p = NULL) then Some m
  else
    _ ← mm_blocks m !! p;
    Some (Mem (delete p (mm_blocks m)) (mm_brk m) (mm_oracle m)).

(** A new block with the common prefix, then the old one is released; a size
    of zero releases the block and returns NULL, as the Windows C runtime
    documents.  The block always moves; a C library may also extend it where
    it is, which a caller that drops the old address cannot tell. *)
Definition realloc (p : ptr) (size : Z) (m : mem) : option (ptr * mem) :=
  if decide (p = NULL) then Some (malloc size m)
  else
    old ← mm_blocks m !! p;
    if decide (size = 0) then m ← free p m; Some (NULL, m)
    else
      let n := Z.to_nat size in
      let '(q, m) := alloc (take n old ++ replicate (n - length old) None) m in
      if decide (q = NULL) then Some (NULL, m)
      else m ← free p m; Some (q, m).

(** The [n] bytes of the block at [p] from [off], written or not. *)
Definition mem_slice (p : ptr) (off n : Z) (m : mem) : option (list (option Z)) :=
  b ← mm_blocks m !! p;
  if decide (0 ≤ off ∧ 0 ≤ n ∧ off + n ≤ Z.of_nat (length b)) then
    Some (take (Z.to_nat n) (drop (Z.to_nat off) b))
  else None.

(** Using the value of a byte that was never written is undefined. *)
Definition mem_load (p : ptr) (off n : Z) (m : mem) : option (list Z) :=
  bs ← mem_slice p off n m;
  mapM id bs.

Definition splice {A} (off : nat) (bs b : list A) : list A :=
  take off b ++ bs ++ drop (off + length bs) b.

Definition mem_write (p : ptr) (off : Z) (bs : list (option Z)) (m : mem) : option mem :=
  b ← mm_blocks m !! p;
  if decide (0 ≤ off ∧ off + Z.of_nat (length bs) ≤ Z.of_nat (length b)) then
    Some (Mem (<[p := splice (Z.to_nat off) bs b]> (mm_blocks m))
              (mm_brk m) (mm_oracle m))
  else None.

Definition mem_store (p : ptr) (off : Z) (bs : list Z) (m : mem) : option mem :=
  mem_write p off (Some <$> bs) m.

Definition memset (p : ptr) (off v n : Z) (m : mem) : option mem :=
  mem_store p off (replicate (Z.to_nat n) (u8 v)) m.

(** [memcpy] between two distinct blocks; copying a byte never written is
    allowed. *)
Definition memcpy (dst : ptr) (doff : Z) (src : ptr) (soff n : Z) (m : mem)
  : option mem :=
  bs ← mem_slice src soff n m;
  mem_write dst doff bs m.

(** * [flb_mem.h] *)

Definition flb_malloc (size : Z) (m : mem) : ptr * mem :=
  if decide (size = 0) then (NULL, m) else malloc size m.

Definition flb_calloc (n size : Z) (m : mem) : ptr * mem :=
  if decide (size = 0) then (NULL, m) else calloc n size m.

Definition flb_realloc (p : ptr) (size : Z) (m : mem) : option (ptr * mem) :=
  realloc p size m.

Definition flb_realloc_z (p : ptr) (old_size new_size : Z) (m : mem)
  : option (ptr * mem) :=
  '(tmp, m) ← flb_realloc p new_size m;
  if decide (tmp = NULL) then Some (NULL, m)
  else if decide (old_size < new_size) then
    let diff := new_size - old_size in
    m ← memset tmp old_size 0 diff m;
    Some (tmp, m)
  else Some (tmp, m).

Definition flb_free (p : ptr) (m : mem) : option mem := free p m.

(** * The machine: list cells and memory *)

Record machine := Machine { mc_list : lheap; mc_mem : mem }.

(** Releasing a block also ends the life of the list nodes inside it. *)
Definition lh_clear (lo hi : Z) (h : lheap) : lheap :=
  LHeap (filter (λ kv, ¬ (lo ≤ kv.1 < hi)) (lh_next h))
        (filter (λ kv, ¬ (lo ≤ kv.1 < hi)) (lh_prev h)).

Definition block_size (p : ptr) (m : mem) : Z :=
  Z.of_nat (length (default [] (mm_blocks m !! p))).

Definition mc_free (p : ptr) (s : machine) : option machine :=
  m ← flb_free p (mc_mem s);
  Some (Machine (lh_clear p (p + block_size p (mc_mem s)) (mc_list s)) m).

(** * Well-formed memories *)

(** Every live block lies between 16 and the break. *)
Definition mem_ok (m : mem) : Prop :=
  16 ≤ mm_brk m ∧
  ∀ p b, mm_blocks m !! p = Some b →
    16 ≤ p ∧ p + Z.of_nat (length b) < mm_brk m.

(** No two blocks overlap. *)
Definition mem_disjoint (m : mem) : Prop :=
  ∀ p q b c, p ≠ q → mm_blocks m !! p = Some b → mm_blocks m !! q = Some c →
    p + Z.of_nat (length b) < q ∨ q + Z.of_nat (length c) < p.

Definition mem_wf (m : mem) : Prop := mem_ok m ∧ mem_disjoint m.

Definition mem_init (oracle : list bool) : mem := Mem ∅ 16 oracle.

Lemma mem_init_wf o : mem_wf (mem_init o).
Proof.
  split; [split; [simpl; lia|]|]; repeat intro; simplify_map_eq.
Qed.

(** Blocks laid out one after the other, with a gap between two of them. *)
Fixpoint laid_out (lo : Z) (l : list (Z * list (option Z))) (hi : Z) : bool :=
  match l with
  | [] => bool_decide (lo ≤ hi)
  | (p, b) :: l => bool_decide (lo ≤ p) && laid_out (p + Z.of_nat (length b) + 1) l hi
  end.

Lemma laid_out_bounds l lo hi p b :
  laid_out lo l hi = true → (p, b) ∈ l → lo ≤ p ∧ p + Z.of_nat (length b) < hi.
Proof.
  revert lo. induction l as [|[q c] l IH]; intros lo; simpl; [by intros _ ?%elem_of_nil|].
  intros [?%bool_decide_eq_true Hl]%andb_true_iff [[= -> ->]|Hin]%elem_of_cons.
  - split; [done|]. clear IH. revert Hl. generalize (q + Z.of_nat (length c)).
    induction l as [|[r d] l IHl]; intros z; simpl; [intros ?%bool_decide_eq_true; lia|].
    intros [?%bool_decide_eq_true Hl]%andb_true_iff. apply IHl in Hl. lia.
  - destruct (IH _ Hl Hin). lia.
Qed.

Lemma laid_out_apart l lo hi p b q c :
  laid_out lo l hi = true → (p, b) ∈ l → (q, c) ∈ l → p ≠ q →
  p + Z.of_nat (length b) < q ∨ q + Z.of_nat (length c) < p.
Proof.
  revert lo. induction l as [|[r d] l IH]; intros lo; simpl; [by intros _ ?%elem_of_nil|].
  intros [_ Hl]%andb_true_iff [[= <- <-]|Hp]%elem_of_cons [[= <- <-]|Hq]%elem_of_cons Hne.
  - done.
  - left. apply (laid_out_bounds _ _ _ _ _ Hl) in Hq. lia.
  - right. apply (laid_out_bounds _ _ _ _ _ Hl) in Hp. lia.
  - by eapply IH.
Qed.

Lemma laid_out_wf l hi o :
  laid_out 16 l hi = true → mem_wf (Mem (list_to_map l) hi o).
Proof.
  intros Hl. split; [split; simpl|]; simpl.
  - destruct l as [|[p b] l]; [by apply bool_decide_eq_true in Hl|].
    destruct (laid_out_bounds _ _ _ p b Hl) as [? ?]; [by left|lia].
  - intros p b Hp%elem_of_list_to_map_2. by apply (laid_out_bounds _ _ _ _ _ Hl).
  - intros p q b c Hne Hp%elem_of_list_to_map_2 Hq%elem_of_list_to_map_2. by eapply laid_out_apart.
Qed.

Lemma align_up_ge n : n ≤ align_up n.
Proof. unfold align_up. pose proof (Z.mul_div_le (n + 15) 16). 
  pose proof (Z.mod_pos_bound (n + 15) 16). pose proof (Z.div_mod (n + 15) 16). lia. Qed.

Lemma mem_wf_not_null m p b : mem_wf m → mm_blocks m !! p = Some b → p ≠ NULL.
Proof. intros [[_ H] _] Hp. apply H in Hp. unfold NULL. lia. Qed.

(** An allocation either fails and changes no block, or yields a new one. *)
Lemma alloc_cases bs m p m' :
  mem_wf m → alloc bs m = (p, m') →
  mem_wf m' ∧
  ((p = NULL ∧ mm_blocks m' = mm_blocks m) ∨
   (p ≠ NULL ∧ mm_blocks m !! p = None ∧ mm_blocks m' = <[p := bs]> (mm_blocks m))).
Proof.
  intros [[Hb Ho] Hd]. unfold alloc. destruct (oracle_next m) as [[] o]; intros [= <- <-].
  2:{ split; [by split|by left]. }
  pose proof (align_up_ge (Z.of_nat (length bs))).
  assert (Hn : mm_blocks m !! mm_brk m = None).
  { destruct (mm_blocks m !! mm_brk m) eqn:E; [|done]. apply Ho in E. lia. }
  split; [|right; split_and!; [unfold NULL; lia|done|done]].
  split; [split; simpl; [lia|]|].
  - intros p b. destruct (decide (p = mm_brk m)) as [->|].
    + rewrite lookup_insert_eq. intros [= ->]. lia.
    + rewrite lookup_insert_ne by done. intros Hp%Ho. lia.
  - intros p q b c Hpq; simpl.
    destruct (decide (p = mm_brk m)) as [->|]; destruct (decide (q = mm_brk m)) as [->|]; [done|..].
    + rewrite lookup_insert_eq, lookup_insert_ne by done. intros _ Hq%Ho. lia.
    + rewrite lookup_insert_eq, lookup_insert_ne by done. intros Hp%Ho _. lia.
    + rewrite !lookup_insert_ne by done. by apply Hd.
Qed.

(** New blocks are taken above everything handed out so far. *)
Lemma alloc_brk bs m p m' :
  alloc bs m = (p, m') → mm_brk m ≤ mm_brk m' ∧ (p ≠ NULL → p = mm_brk m).
Proof.
  unfold alloc. destruct (oracle_next m) as [[] o]; intros [= <- <-]; simpl.
  - pose proof (align_up_ge (Z.of_nat (length bs))). split; [lia|done].
  - split; [lia|done].
Qed.

Lemma flb_malloc_cases n m p m' :
  mem_wf m → flb_malloc n m = (p, m') →
  mem_wf m' ∧ mm_brk m ≤ mm_brk m' ∧
  ((p = NULL ∧ mm_blocks m' = mm_blocks m) ∨
   (n ≠ 0 ∧ p ≠ NULL ∧ p = mm_brk m ∧ mm_blocks m !! p = None ∧
    mm_blocks m' = <[p := replicate (Z.to_nat n) None]> (mm_blocks m))).
Proof.
  intros Hwf. unfold flb_malloc, malloc. case_decide as Hn.
  - intros [= <- <-]. split_and!; [done|lia|by left].
  - intros Ha. destruct (alloc_brk _ _ _ _ Ha) as [? Hp].
    destruct (alloc_cases _ _ _ _ Hwf Ha) as [? [[??]|(?&?&?)]].
    + split_and!; [done..|by left].
    + split_and!; [done..|]. right. split_and!; auto.
Qed.

Lemma free_wf p m m' : mem_wf m → free p m = Some m' → mem_wf m'.
Proof.
  intros [[Hb Ho] Hd]. unfold free. case_decide; [intros [= <-]; by split|].
  destruct (mm_blocks m !! p) eqn:E; simpl; [|done]. intros [= <-]. split; [split; [done|]|].
  - intros q c; simpl; intros [_ Hq]%lookup_delete_Some. by apply Ho.
  - intros q r c d Hqr; simpl; intros [_ Hq]%lookup_delete_Some [_ Hr]%lookup_delete_Some. by eapply Hd.
Qed.

Lemma free_live p b m :
  p ≠ NULL → mm_blocks m !! p = Some b →
  free p m = Some (Mem (delete p (mm_blocks m)) (mm_brk m) (mm_oracle m)).
Proof. intros. unfold free. rewrite decide_False by done. by simplify_option_eq. Qed.

Lemma splice_length {A} off (bs b : list A) :
  (off + length bs ≤ length b)%nat → length (splice off bs b) = length b.
Proof. intros. unfold splice. rewrite !length_app, length_take, length_drop. lia. Qed.

Lemma mem_write_ok p off bs m b :
  mm_blocks m !! p = Some b → 0 ≤ off → off + Z.of_nat (length bs) ≤ Z.of_nat (length b) →
  mem_write p off bs m =
  Some (Mem (<[p := splice (Z.to_nat off) bs b]> (mm_blocks m)) (mm_brk m) (mm_oracle m)).
Proof. intros Hb ??. unfold mem_write. rewrite Hb. simpl. by rewrite decide_True. Qed.

Lemma mem_write_wf p off bs m m' : mem_wf m → mem_write p off bs m = Some m' → mem_wf m'.
Proof.
  intros [[Hb Ho] Hd]. unfold mem_write. destruct (mm_blocks m !! p) as [b|] eqn:E; [|done].
  simpl. case_decide as Hr; [|done]. intros [= <-].
  assert (Hl : length (splice (Z.to_nat off) bs b) = length b) by (apply splice_length; lia).
  split; [split; [done|]|].
  - intros q c; simpl; intros [[<- <-]|[? Hq]]%lookup_insert_Some; [rewrite Hl; by apply Ho|by apply Ho].
  - intros q r c d Hqr; simpl; intros [[<- <-]|[? Hq]]%lookup_insert_Some
      [[<- <-]|[? Hr']]%lookup_insert_Some; rewrite ?Hl; try done; by eapply Hd.
Qed.

Lemma mem_slice_ok p off n m b :
  mm_blocks m !! p = Some b → 0 ≤ off → 0 ≤ n → off + n ≤ Z.of_nat (length b) →
  mem_slice p off n m = Some (take (Z.to_nat n) (drop (Z.to_nat off) b)).
Proof. intros Hb ???. unfold mem_slice. rewrite Hb. simpl. by rewrite decide_True. Qed.

Lemma mem_load_values p off n m b vs :
  mm_blocks m !! p = Some b → 0 ≤ off → 0 ≤ n → off + n ≤ Z.of_nat (length b) →
  take (Z.to_nat n) (drop (Z.to_nat off) b) = Some <$> vs →
  mem_load p off n m = Some vs.
Proof.
  intros Hb ??? E. unfold mem_load. rewrite (mem_slice_ok _ _ _ _ _ Hb) by done. simpl.
  rewrite E. by apply mapM_fmap_Some.
Qed.

Lemma mem_load_length p off n m vs :
  mem_load p off n m = Some vs → length vs = Z.to_nat n.
Proof.
  unfold mem_load, mem_slice. destruct (mm_blocks m !! p) as [b|]; [|done]. simpl.
  case_decide as Hr; [|done]. simpl. intros E%mapM_Some%Forall2_length.
  rewrite <- E, length_take, length_drop. lia.
Qed.

(** * Theorems *)

Lemma memset_zero_tail q old n m b :
  mm_blocks m !! q = Some (b ++ replicate n None) → old = Z.of_nat (length b) →
  memset q old 0 (Z.of_nat n) m =
  Some (Mem (<[q := b ++ replicate n (Some 0)]> (mm_blocks m)) (mm_brk m) (mm_oracle m)).
Proof.
  intros Hq ->. unfold memset. rewrite Nat2Z.id.
  unfold mem_store.
  erewrite mem_write_ok; [|done|lia|rewrite length_fmap, length_replicate, length_app, length_replicate; lia].
  do 3 f_equal. unfold splice. rewrite Nat2Z.id, fmap_replicate, length_replicate.
  rewrite take_app_length. rewrite drop_ge; [by rewrite app_nil_r|].
  rewrite length_app, length_replicate. lia.
Qed.

(** C38. [flb_realloc_z]: called with the true size of a live block, it either
    fails (NULL, every block as it was) or moves the block: the common prefix
    is kept, what was added reads as zero, the old block is gone and no other
    block changed.  A new size of zero is the exception: NULL is returned as
    for a failure, but the block has been released. *)
Theorem flb_realloc_z_spec m p b new_size :
  mem_wf m → mm_blocks m !! p = Some b → 0 ≤ new_size →
  ∃ q m', flb_realloc_z p (Z.of_nat (length b)) new_size m = Some (q, m') ∧ mem_wf m' ∧
    if decide (new_size = 0) then q = NULL ∧ mm_blocks m' = delete p (mm_blocks m)
    else (q = NULL ∧ mm_blocks m' = mm_blocks m) ∨
         (q ≠ NULL ∧ mm_blocks m !! q = None ∧
          mm_blocks m' =
            delete p (<[q := take (Z.to_nat new_size) b ++
                             replicate (Z.to_nat new_size - length b) (Some 0)]> (mm_blocks m))).
Proof.
  intros Hwf Hp Hn. pose proof (mem_wf_not_null _ _ _ Hwf Hp) as Hnn.
  unfold flb_realloc_z, flb_realloc, realloc. rewrite decide_False by done. rewrite Hp. simpl.
  rewrite (free_live _ _ _ Hnn Hp). simpl.
  destruct (decide (new_size = 0)) as [->|Hz]; simpl.
  { eexists _, _. split; [done|]. split; [|done].
    eapply free_wf; [exact Hwf|]. by eapply free_live. }
  destruct (alloc _ m) as [q m1] eqn:Ea.
  destruct (alloc_cases _ _ _ _ Hwf Ea) as [Hwf1 [[-> Hm1]|(Hq & Hqn & Hm1)]].
  { simpl.
    eexists _, _. split; [done|]. split; [done|]. by left. }
  assert (Hpq : p ≠ q) by congruence.
  assert (Hp1 : mm_blocks m1 !! p = Some b) by (rewrite Hm1, lookup_insert_ne; done).
  rewrite decide_False by done. rewrite (free_live _ _ _ Hnn Hp1). simpl.
  rewrite decide_False by done.
  set (m2 := Mem (delete p (mm_blocks m1)) (mm_brk m1) (mm_oracle m1)).
  assert (Hwf2 : mem_wf m2) by (eapply free_wf, free_live; [exact Hwf1|done..]).
  case_decide as Hlt.
  - rewrite take_ge in Hm1 by lia. rewrite take_ge by lia.
    assert (Hq2 : mm_blocks m2 !! q = Some (b ++ replicate (Z.to_nat new_size - length b) None)).
    { simpl. rewrite lookup_delete_ne, Hm1 by done. apply lookup_insert_eq. }
    assert (new_size - Z.of_nat (length b) = Z.of_nat (Z.to_nat new_size - length b)) as -> by lia.
    rewrite (memset_zero_tail _ _ _ _ _ Hq2) by done. simpl.
    eexists _, _. split; [done|]. split.
    + eapply (mem_write_wf q (Z.of_nat (length b)) (Some <$> replicate _ (u8 0)) m2); [done|].
      pose proof (memset_zero_tail _ _ _ _ _ Hq2 eq_refl) as H. unfold memset in H.
      rewrite Nat2Z.id in H. exact H.
    + right. split_and!; [done..|]. simpl. rewrite Hm1, <- delete_insert_ne by done.
      by rewrite insert_insert_eq.
  - eexists _, _. split; [done|]. split; [done|]. right. split_and!; [done..|].
    simpl. rewrite Hm1. by replace (Z.to_nat new_size - length b)%nat with 0%nat by lia.
Qed.

(** Growing a two-byte block to five bytes. *)
Definition demo_mem : mem := Mem {[ 16 := [Some 7; Some 8] ]} 64 [].

Lemma demo_mem_wf : mem_wf demo_mem.
Proof.
  split; [split; [simpl; lia|]|].
  - intros p b; simpl; intros [<- <-]%lookup_singleton_Some. simpl. lia.
  - intros p q b c Hpq; simpl; intros [<- <-]%lookup_singleton_Some [<- <-]%lookup_singleton_Some. done.
Qed.

Lemma flb_realloc_z_spec_witness :
  mm_blocks demo_mem !! 16 = Some [Some 7; Some 8] ∧
  ∃ q m', flb_realloc_z 16 (Z.of_nat (length [Some 7; Some 8])) 5 demo_mem = Some (q, m') ∧
    mem_wf m' ∧
    if decide (5 = 0) then q = NULL ∧ mm_blocks m' = delete 16 (mm_blocks demo_mem)
    else (q = NULL ∧ mm_blocks m' = mm_blocks demo_mem) ∨
         (q ≠ NULL ∧ mm_blocks demo_mem !! q = None ∧
          mm_blocks m' =
            delete 16 (<[q := take (Z.to_nat 5) [Some 7; Some 8] ++
              replicate (Z.to_nat 5 - length [Some 7; Some 8]) (Some 0)]> (mm_blocks demo_mem))).
Proof.
  assert (H : mm_blocks demo_mem !! 16 = Some [Some 7; Some 8]) by (vm_compute; reflexivity).
  split; [exact H|]. apply (flb_realloc_z_spec _ _ _ _ demo_mem_wf H). lia.
Defined.
