(* ===== verification/PrioQueue.v ===== *)
(** The contract a bounded priority queue of list nodes offers its clients
    (the event loop): a bucket of nodes per priority, first-in first-out
    inside a bucket, lowest priority number first. *)
From S2P Require Import Prelude.

(** Remove the first entry of the first non-empty bucket. *)
Fixpoint drop_min (b : list (list ptr)) : list (list ptr) :=
  match b with
  | [] => []
  | [] :: b => [] :: drop_min b
  | (_ :: l) :: b => l :: b
  end.

(** The entry a pop returns, [NULL] when there is none. *)
Definition min_item (b : list (list ptr)) : ptr := List.hd NULL (mjoin b).

(** [pq_rel s b F]: in state [s] the queue holds the buckets [b], and the
    nodes of [F] are known not to be queued. *)
Class PrioQueue (S : Type) := {
  pq_add : ptr → Z → S → option (Z * S);
  pq_find_min : S → option (ptr * S);
  pq_pop_min : S → option (ptr * S);
  pq_prev : ptr → S → option ptr;
  pq_rel : S → list (list ptr) → gset Z → Prop;
  pq_add_ok s b F x p l :
    pq_rel s b F → x ∈ F → 0 ≤ p → b !! Z.to_nat p = Some l →
    ∃ s', pq_add x p s = Some (0, s') ∧
          pq_rel s' (<[Z.to_nat p := l ++ [x]]> b) (F ∖ {[x]});
  pq_add_range s b F x p :
    pq_rel s b F → Z.of_nat (length b) ≤ p → pq_add x p s = Some (-1, s);
  pq_find_min_ok s b F :
    pq_rel s b F → ∃ s', pq_find_min s = Some (min_item b, s') ∧ pq_rel s' b F;
  pq_pop_min_ok s b F :
    pq_rel s b F →
    ∃ s', pq_pop_min s = Some (min_item b, s') ∧
          pq_rel s' (drop_min b) (F ∪ list_to_set (take 1 (mjoin b)));
  pq_prev_free s b F x : pq_rel s b F → x ∈ F → pq_prev x s = Some NULL;
  pq_prev_queued s b F x :
    pq_rel s b F → x ∈ mjoin b → ∃ p, pq_prev x s = Some p ∧ p ≠ NULL;
  pq_items s b F x : pq_rel s b F → x ∈ mjoin b → x ≠ NULL ∧ x ∉ F;
  pq_nodup s b F : pq_rel s b F → NoDup (mjoin b)
}.

(** ** Facts about buckets *)

Lemma drop_min_length b : length (drop_min b) = length b.
Proof. induction b as [|[|x l] b IH]; simpl; congruence. Qed.

Lemma drop_min_mjoin b : mjoin (drop_min b) = tail (mjoin b).
Proof. induction b as [|[|x l] b IH]; simpl; done. Qed.

Lemma mjoin_insert (b : list (list ptr)) i l l' :
  b !! i = Some l →
  ∃ pre post, mjoin b = pre ++ l ++ post ∧ mjoin (<[i := l']> b) = pre ++ l' ++ post.
Proof.
  intros Hi. exists (mjoin (take i b)), (mjoin (drop (S i) b)). split.
  - rewrite <- (take_drop_middle b i l Hi) at 1. by rewrite join_app.
  - rewrite insert_take_drop by (by eapply lookup_lt_Some). by rewrite join_app.
Qed.

(** * Operations in sequence *)

Inductive pq_op := PAdd (x : ptr) (prio : Z) | PFind | PPop.

(** The specification: the buckets and the nodes known to be free.  An
    in-range insertion needs a free node. *)
Abbreviation pq_spec := (list (list ptr) * gset Z)%type.

Definition spec_op (o : pq_op) (a : pq_spec) : option (Z * pq_spec) :=
  let '(b, F) := a in
  match o with
  | PAdd x p =>
      if decide (Z.of_nat (length b) ≤ p) then Some (-1, a)
      else if decide (0 ≤ p ∧ x ∈ F) then
        l ← b !! Z.to_nat p;
        Some (0, (<[Z.to_nat p := l ++ [x]]> b, F ∖ {[x]}))
      else None
  | PFind => Some (min_item b, a)
  | PPop => Some (min_item b, (drop_min b, F ∪ list_to_set (take 1 (mjoin b))))
  end.

Fixpoint spec_ops (os : list pq_op) (a : pq_spec) : option (list Z * pq_spec) :=
  match os with
  | [] => Some ([], a)
  | o :: os =>
      '(r, a) ← spec_op o a;
      '(rs, a) ← spec_ops os a;
      Some (r :: rs, a)
  end.

Section client.
Context {Q : Type} `{PrioQueue Q}.

Definition pq_run_op (o : pq_op) (s : Q) : option (Z * Q) :=
  match o with
  | PAdd x p => pq_add x p s
  | PFind => pq_find_min s
  | PPop => pq_pop_min s
  end.

Fixpoint pq_run_ops (os : list pq_op) (s : Q) : option (list Z * Q) :=
  match os with
  | [] => Some ([], s)
  | o :: os =>
      '(r, s) ← pq_run_op o s;
      '(rs, s) ← pq_run_ops os s;
      Some (r :: rs, s)
  end.

Lemma pq_run_op_sim o s a r a' :
  pq_rel s a.1 a.2 → spec_op o a = Some (r, a') →
  ∃ s', pq_run_op o s = Some (r, s') ∧ pq_rel s' a'.1 a'.2.
Proof.
  destruct a as [b F]; simpl. intros Hr. destruct o as [x p| |]; simpl.
  - case_decide as Hp; [intros [= <- <-]; exists s; by rewrite (pq_add_range _ _ _ _ _ Hr Hp)|].
    case_decide as Hx; [|done]. destruct (b !! Z.to_nat p) as [l|] eqn:E; [|done].
    destruct Hx. intros [= <- <-]. by apply pq_add_ok.
  - intros [= <- <-]. by apply pq_find_min_ok.
  - intros [= <- <-]. by apply pq_pop_min_ok.
Qed.

Lemma pq_run_ops_sim os s a rs a' :
  pq_rel s a.1 a.2 → spec_ops os a = Some (rs, a') →
  ∃ s', pq_run_ops os s = Some (rs, s') ∧ pq_rel s' a'.1 a'.2.
Proof.
  revert s a rs. induction os as [|o os IH]; simpl; intros s a rs Hr.
  - intros [= <- <-]. by exists s.
  - destruct (spec_op o a) as [[r a1]|] eqn:E; [|done]. simpl.
    destruct (spec_ops os a1) as [[rs' a2]|] eqn:E2; [|done]. simpl. intros [= <- <-].
    destruct (pq_run_op_sim _ _ _ _ _ Hr E) as (s1 & -> & Hr1). simpl.
    destruct (IH _ _ _ Hr1 E2) as (s2 & -> & Hr2). simpl. by exists s2.
Qed.
End client.

(** ** Sorting: insert everything, then pop everything *)

(** The nodes of priority [i], in order of insertion. *)
Definition of_prio (xs : list (ptr * nat)) (i : nat) : list ptr :=
  fst <$> filter (λ e, e.2 = i) xs.

Definition buckets_of (n : nat) (xs : list (ptr * nat)) : list (list ptr) :=
  of_prio xs <$> seq 0 n.

Lemma buckets_of_lookup n xs p :
  (p < n)%nat → buckets_of n xs !! p = Some (of_prio xs p).
Proof. intros. unfold buckets_of. by rewrite list_lookup_fmap, lookup_seq_lt. Qed.

Lemma buckets_of_snoc n xs x p :
  (p < n)%nat →
  <[p := of_prio xs p ++ [x]]> (buckets_of n xs) = buckets_of n (xs ++ [(x, p)]).
Proof.
  intros Hp. apply list_eq. intros i. unfold buckets_of.
  assert (Hlen : length (of_prio xs <$> seq 0 n) = n) by by rewrite length_fmap, length_seq.
  destruct (decide (i = p)) as [->|Hne].
  - rewrite list_lookup_insert_eq by by rewrite Hlen.
    rewrite list_lookup_fmap, lookup_seq_lt by done. simpl.
    unfold of_prio. rewrite filter_app, fmap_app. simpl. by rewrite filter_cons_True by done.
  - rewrite list_lookup_insert_ne by done. rewrite !list_lookup_fmap.
    destruct (seq 0 n !! i) as [j|] eqn:E; [|done]. apply lookup_seq in E as [-> _]. simpl.
    unfold of_prio. rewrite filter_app, fmap_app. simpl.
    rewrite filter_cons_False by (simpl; lia). by rewrite app_nil_r.
Qed.

Lemma spec_adds n xs ys (F : gset Z) :
  Forall (λ e, (e.2 < n)%nat) ys → NoDup (fst <$> ys) → (∀ x, x ∈ fst <$> ys → x ∈ F) →
  spec_ops ((λ e, PAdd e.1 (Z.of_nat e.2)) <$> ys) (buckets_of n xs, F) =
  Some (replicate (length ys) 0, (buckets_of n (xs ++ ys), F ∖ list_to_set (fst <$> ys))).
Proof.
  revert xs F. induction ys as [|[x p] ys IH]; intros xs F Hp Hnd HF; simpl.
  { rewrite app_nil_r. by rewrite difference_empty_L. }
  apply Forall_cons in Hp as [Hp Hps]. simpl in *. apply NoDup_cons in Hnd as [Hx Hnd].
  assert (length (buckets_of n xs) = n) as Hlen
    by (unfold buckets_of; by rewrite length_fmap, length_seq).
  rewrite Hlen. rewrite decide_False by lia.
  rewrite decide_True by (split; [lia|apply HF; left]). rewrite Nat2Z.id.
  rewrite buckets_of_lookup by done. simpl.
  rewrite buckets_of_snoc by done. rewrite IH; [|done..|].
  - simpl. rewrite <- app_assoc. by rewrite difference_difference_l_L.
  - intros y Hy. apply elem_of_difference. split; [apply HF; by right|].
    intros ->%elem_of_singleton. done.
Qed.

Lemma spec_pops b F :
  ∃ a', spec_ops (replicate (length (mjoin b)) PPop) (b, F) = Some (mjoin b, a').
Proof.
  remember (mjoin b) as l eqn:E. revert b F E. induction l as [|x l IH]; intros b F E; simpl.
  { by eexists. }
  destruct (IH (drop_min b) (F ∪ list_to_set (take 1 (mjoin b)))) as [a' ->].
  { by rewrite drop_min_mjoin, <- E. }
  simpl. unfold min_item. rewrite <- E. by eexists.
Qed.

Lemma spec_ops_app os1 os2 a rs1 a1 rs2 a2 :
  spec_ops os1 a = Some (rs1, a1) → spec_ops os2 a1 = Some (rs2, a2) →
  spec_ops (os1 ++ os2) a = Some (rs1 ++ rs2, a2).
Proof.
  revert a rs1. induction os1 as [|o os1 IH]; simpl; intros a rs1.
  - by intros [= <- <-].
  - destruct (spec_op o a) as [[r a']|]; [|done]. simpl.
    destruct (spec_ops os1 a') as [[rs a'']|] eqn:E; [|done]. simpl.
    intros [= <- <-] H2. by rewrite (IH _ _ E H2).
Qed.

Lemma mjoin_buckets_length n xs :
  Forall (λ e, (e.2 < n)%nat) xs → length (mjoin (buckets_of n xs)) = length xs.
Proof.
  induction xs as [|[x p] xs IH] using rev_ind; intros Hf.
  - clear Hf. unfold buckets_of. generalize 0%nat. induction n; intros k; simpl; [done|apply IHn].
  - apply Forall_app in Hf as [Hf Hp]. apply Forall_inv in Hp. simpl in Hp.
    rewrite <- (buckets_of_snoc n xs x p Hp).
    destruct (mjoin_insert (buckets_of n xs) p (of_prio xs p) (of_prio xs p ++ [x]))
      as (pre & post & E1 & E2).
    { by apply buckets_of_lookup. }
    specialize (IH Hf). rewrite E1 in IH. rewrite E2. rewrite !length_app in *. simpl. lia.
Qed.
