(* ===== verification/BucketQueue.v ===== *)
(** [flb_bucket_queue.h]: a priority queue with one list per priority and a
    cached lowest non-empty bucket. *)
From S2P Require Import Prelude MkList MkListSpec Mem PrioQueue.

(** * State and operations *)

(** [struct flb_bucket_queue]; [bq_buckets] is the address of an array of
    [struct mk_list] and [bq_top] points into it, or one past its end. *)
Record flb_bucket_queue := BucketQueue {
  bq_buckets : ptr;
  bq_n_buckets : Z;
  bq_top : ptr;
  bq_n_items : Z
}.

Definition sizeof_bucket_queue : Z := 32.

Abbreviation bq_state := (flb_bucket_queue * lheap)%type.

Definition set_top (t : ptr) (q : flb_bucket_queue) : flb_bucket_queue :=
  BucketQueue (bq_buckets q) (bq_n_buckets q) t (bq_n_items q).

Definition set_n_items (n : Z) (q : flb_bucket_queue) : flb_bucket_queue :=
  BucketQueue (bq_buckets q) (bq_n_buckets q) (bq_top q) n.

(** [&q->buckets[i]] *)
Definition bucket_addr (q : flb_bucket_queue) (i : Z) : ptr :=
  bq_buckets q + sizeof_mk_list * i.

(** The initialisation loop; a store outside the array is undefined. *)
Fixpoint init_buckets (n : nat) (i : Z) (buckets : ptr) (size : Z) (h : lheap)
  : option lheap :=
  match n with
  | O => Some h
  | S n =>
      if decide (sizeof_mk_list * (i + 1) ≤ size) then
        h ← mk_list_init (buckets + sizeof_mk_list * i) h;
        init_buckets n (i + 1) buckets size h
      else None
  end.

(** Returns the address of the structure and its contents. *)
Definition flb_bucket_queue_create (priorities : Z) (s : machine)
  : option (ptr * option flb_bucket_queue * machine) :=
  let '(bq, m) := flb_malloc sizeof_bucket_queue (mc_mem s) in
  if decide (bq = NULL) then Some (NULL, None, Machine (mc_list s) m)
  else
    let '(buckets, m) := flb_malloc (size_t (sizeof_mk_list * priorities)) m in
    if decide (buckets = NULL) then
      s ← mc_free bq (Machine (mc_list s) m);
      Some (NULL, None, s)
    else
      h ← init_buckets (Z.to_nat priorities) 0 buckets (block_size buckets m) (mc_list s);
      Some (bq,
            Some (BucketQueue buckets priorities
                    (buckets + sizeof_mk_list * priorities) 0),
            Machine h m).

Definition flb_bucket_queue_is_empty (q : flb_bucket_queue) : Z :=
  c_bool (bool_decide (bq_top q = bq_buckets q + sizeof_mk_list * bq_n_buckets q)).

Fixpoint seek_loop (fuel : nat) (q : flb_bucket_queue) (h : lheap)
  : option flb_bucket_queue :=
  match fuel with
  | O => None
  | S fuel =>
      if decide (flb_bucket_queue_is_empty q = 0) then
        e ← mk_list_is_empty (bq_top q) h;
        if decide (e = 0) then seek_loop fuel (set_top (bq_top q + sizeof_mk_list) q) h
        else Some q
      else Some q
  end.

(** At most one step per bucket: fuel [n_buckets + 1]. *)
Definition flb_bucket_queue_seek (q : flb_bucket_queue) (h : lheap)
  : option flb_bucket_queue :=
  seek_loop (S (Z.to_nat (bq_n_buckets q))) q h.

Definition flb_bucket_queue_add (item : ptr) (priority : Z) (s : bq_state)
  : option (Z * bq_state) :=
  let '(q, h) := s in
  if decide (bq_n_buckets q ≤ priority) then Some (-1, s)
  else
    q ← flb_bucket_queue_seek q h;
    let bucket := bucket_addr q priority in
    h ← mk_list_add item bucket h;
    let q := if decide (bucket < bq_top q) then set_top bucket q else q in
    Some (0, (set_n_items (size_t (bq_n_items q + 1)) q, h)).

Definition flb_bucket_queue_find_min (s : bq_state) : option (ptr * bq_state) :=
  let '(q, h) := s in
  q ← flb_bucket_queue_seek q h;
  if decide (flb_bucket_queue_is_empty q = 0) then
    n ← ld_next h (bq_top q);
    Some (n, (q, h))
  else Some (NULL, (q, h)).

Definition flb_bucket_queue_delete_min (s : bq_state) : option bq_state :=
  let '(q, h) := s in
  q ← flb_bucket_queue_seek q h;
  if decide (flb_bucket_queue_is_empty q = 0) then
    n ← ld_next h (bq_top q);
    h ← mk_list_del n h;
    q ← flb_bucket_queue_seek q h;
    Some (set_n_items (size_t (bq_n_items q - 1)) q, h)
  else Some (q, h).

Definition flb_bucket_queue_pop_min (s : bq_state) : option (ptr * bq_state) :=
  '(item, s) ← flb_bucket_queue_find_min s;
  s ← flb_bucket_queue_delete_min s;
  Some (item, s).

(** [bq] is the address of the structure. *)
Definition flb_bucket_queue_destroy (bq : ptr) (q : flb_bucket_queue) (s : machine)
  : option (Z * flb_bucket_queue * machine) :=
  q ← flb_bucket_queue_seek q (mc_list s);
  if decide (flb_bucket_queue_is_empty q = 0) then Some (-1, q, s)
  else
    s ← mc_free (bq_buckets q) s;
    s ← mc_free bq s;
    Some (0, q, s).

(** * Invariant *)

(** Index of the first non-empty bucket. *)
Fixpoint first_busy (b : list (list ptr)) : nat :=
  match b with
  | [] :: b => S (first_busy b)
  | _ => 0
  end.

(** The structure of the queue: the buckets hold [b] in the list world [w],
    and no bucket below [top] has entries. *)
Record bq_shape (q : flb_bucket_queue) (h : lheap) (b : list (list ptr))
    (w : gmap Z (list ptr)) : Prop := {
  bs_count : bq_n_buckets q = Z.of_nat (length b);
  bs_rep : represents h w;
  bs_buckets : ∀ i l, b !! i = Some l → w !! bucket_addr q (Z.of_nat i) = Some l;
  bs_top : ∃ t : nat, (t ≤ first_busy b)%nat ∧ bq_top q = bucket_addr q (Z.of_nat t)
}.

Definition bq_rel (s : bq_state) (b : list (list ptr)) (F : gset Z) : Prop :=
  ∃ w, bq_shape s.1 s.2 b w ∧
    bq_n_items s.1 = size_t (Z.of_nat (length (mjoin b))) ∧
    ∀ x, x ∈ F → fresh_node w x ∧ lh_prev s.2 !! x = Some NULL.

Lemma first_busy_le b : (first_busy b ≤ length b)%nat.
Proof. induction b as [|[|x l] b IH]; simpl; lia. Qed.

Lemma first_busy_lookup b :
  match b !! first_busy b with
  | Some l => l ≠ [] ∧ ∃ x l', l = x :: l' ∧ mjoin b = x :: l' ++ mjoin (drop (S (first_busy b)) b) ∧
      drop_min b = <[first_busy b := l']> b
  | None => first_busy b = length b ∧ mjoin b = [] ∧ drop_min b = b
  end.
Proof.
  induction b as [|[|x l] b IH]; simpl; [done| |].
  - destruct (b !! first_busy b) as [l|].
    + destruct IH as (? & x & l' & -> & ? & ?). split; [done|]. exists x, l'.
      split_and!; [done..|]. by f_equal.
    + destruct IH as (? & ? & ?). split_and!; [lia|done|]. by f_equal.
  - split; [done|]. by exists x, l.
Qed.

Lemma first_busy_below b i l : b !! i = Some l → (i < first_busy b)%nat → l = [].
Proof.
  revert i. induction b as [|[|x l'] b IH]; intros [|i]; simpl; try done; try lia.
  - by intros [= <-].
  - intros ? ?. apply (IH i); [done|lia].
Qed.

Lemma first_busy_insert_app b i l x :
  b !! i = Some l → first_busy (<[i := l ++ [x]]> b) = Nat.min i (first_busy b).
Proof.
  revert i. induction b as [|[|y l'] b IH]; intros [|i]; simpl; try done.
  - intros [= <-]. done.
  - intros Hi. by rewrite (IH i).
  - intros [= <-]. done.
Qed.

Lemma bq_is_empty_top q h b w t :
  bq_shape q h b w → bq_top q = bucket_addr q (Z.of_nat t) →
  flb_bucket_queue_is_empty q = c_bool (bool_decide (t = length b)).
Proof.
  intros Hs Ht. unfold flb_bucket_queue_is_empty. rewrite Ht, (bs_count _ _ _ _ Hs).
  unfold bucket_addr, sizeof_mk_list. f_equal. apply bool_decide_ext. lia.
Qed.

Lemma bq_shape_set_top q h b w t :
  bq_shape q h b w → (t ≤ first_busy b)%nat →
  bq_shape (set_top (bucket_addr q (Z.of_nat t)) q) h b w.
Proof.
  intros [Hc Hr Hb _] Ht. split; [done..|]. by exists t.
Qed.

Lemma seek_loop_ok fuel q h b w t :
  bq_shape q h b w → bq_top q = bucket_addr q (Z.of_nat t) → (t ≤ first_busy b)%nat →
  (first_busy b - t < fuel)%nat →
  seek_loop fuel q h = Some (set_top (bucket_addr q (Z.of_nat (first_busy b))) q).
Proof.
  revert q t. induction fuel as [|fuel IH]; intros q t Hs Ht Hle Hf; [lia|]. simpl.
  rewrite (bq_is_empty_top _ _ _ _ _ Hs Ht). pose proof (first_busy_lookup b) as Hl.
  pose proof (first_busy_le b).
  destruct (decide (t = first_busy b)) as [->|Hne].
  - rewrite <- Ht. replace (set_top (bq_top q) q) with q by by destruct q.
    destruct (b !! first_busy b) as [l|] eqn:E.
    + destruct Hl as [Hl _]. rewrite bool_decide_eq_false_2 by (apply lookup_lt_Some in E; lia).
      simpl. apply (bs_buckets _ _ _ _ Hs) in E. apply (proj1 (bs_rep _ _ _ _ Hs)) in E.
      rewrite <- Ht in E. rewrite (mk_list_is_empty_dll _ _ _ E). simpl.
      by rewrite (decide_False (P := l = [])).
    + rewrite bool_decide_eq_true_2 by tauto. done.
  - rewrite bool_decide_eq_false_2 by lia. simpl.
    destruct (lookup_lt_is_Some_2 b t ltac:(lia)) as [l E].
    assert (l = []) as -> by (eapply first_busy_below; [done|lia]).
    apply (bs_buckets _ _ _ _ Hs) in E. apply (proj1 (bs_rep _ _ _ _ Hs)) in E.
    rewrite <- Ht in E. rewrite (mk_list_is_empty_dll _ _ _ E). simpl.
    assert (Hn : bq_top q + sizeof_mk_list = bucket_addr q (Z.of_nat (S t))).
    { rewrite Ht. unfold bucket_addr, sizeof_mk_list. lia. }
    rewrite Hn. rewrite (IH _ (S t)); [done| |done|lia|lia].
    apply bq_shape_set_top; [done|lia].
Qed.

(** [seek] moves [top] to the first non-empty bucket. *)
Lemma seek_ok q h b w :
  bq_shape q h b w →
  flb_bucket_queue_seek q h = Some (set_top (bucket_addr q (Z.of_nat (first_busy b))) q) ∧
  bq_shape (set_top (bucket_addr q (Z.of_nat (first_busy b))) q) h b w.
Proof.
  intros Hs. destruct (bs_top _ _ _ _ Hs) as (t & Hle & Ht). split.
  - unfold flb_bucket_queue_seek. eapply seek_loop_ok; [done..|].
    rewrite (bs_count _ _ _ _ Hs), Nat2Z.id. pose proof (first_busy_le b). lia.
  - by apply bq_shape_set_top.
Qed.

(** ** The operations keep the queue related *)

Lemma bq_shape_set_n_items n q h b w :
  bq_shape q h b w → bq_shape (set_n_items n q) h b w.
Proof. intros [? ? ? ?]. by split. Qed.

(** Replacing one bucket in the heap and in the model. *)
Lemma bq_shape_insert q h h' b w i l l' t :
  bq_shape q h b w → b !! i = Some l →
  represents h' (<[bucket_addr q (Z.of_nat i) := l']> w) →
  (t ≤ first_busy (<[i := l']> b))%nat →
  bq_shape (set_top (bucket_addr q (Z.of_nat t)) q) h' (<[i := l']> b)
    (<[bucket_addr q (Z.of_nat i) := l']> w).
Proof.
  intros Hs Hi Hr Ht. split; simpl.
  - by rewrite length_insert, (bs_count _ _ _ _ Hs).
  - done.
  - intros j lj Hj. change (bucket_addr (set_top _ q) ?z) with (bucket_addr q z).
    destruct (decide (i = j)) as [->|Hne].
    + rewrite list_lookup_insert_eq in Hj by (by eapply lookup_lt_Some).
      simplify_eq. apply lookup_insert_eq.
    + rewrite list_lookup_insert_ne in Hj by done.
      rewrite lookup_insert_ne by (unfold bucket_addr, sizeof_mk_list; lia).
      by apply (bs_buckets _ _ _ _ Hs).
  - by exists t.
Qed.

Lemma bucket_dll q h b w i l :
  bq_shape q h b w → b !! i = Some l → dll h (bucket_addr q (Z.of_nat i)) l.
Proof.
  intros Hs Hi. apply (proj1 (bs_rep _ _ _ _ Hs)). by apply (bs_buckets _ _ _ _ Hs).
Qed.

Lemma in_use_insert (w : gmap Z (list ptr)) head l' y :
  in_use (<[head := l']> w) y → in_use w y ∨ y ∈ head :: l'.
Proof.
  intros (a & la & [[<- <-]|[? Ha]]%lookup_insert_Some & Hy); [by right|].
  left. by exists a, la.
Qed.

Lemma bq_elem_in_use q h b w x :
  bq_shape q h b w → x ∈ mjoin b → in_use w x.
Proof.
  intros Hs (l & Hx & (i & Hi)%list_elem_of_lookup)%list_elem_of_join.
  exists (bucket_addr q (Z.of_nat i)), l. split; [by apply (bs_buckets _ _ _ _ Hs)|by right].
Qed.

Lemma first_busy_insert_nil b i l' :
  (first_busy b ≤ first_busy (<[first_busy b := l']> b))%nat ∧
  (b !! i = Some [] → (first_busy b ≤ first_busy (<[i := []]> b))%nat).
Proof.
  split.
  - induction b as [|[|x l] b IH]; simpl; [done|lia|lia].
  - revert i. induction b as [|[|x l] b IH]; intros [|i]; simpl; try done; try lia.
    intros Hi. specialize (IH i Hi). lia.
Qed.

Lemma bq_add_rel s b F x p l :
  bq_rel s b F → x ∈ F → 0 ≤ p → b !! Z.to_nat p = Some l →
  ∃ s', flb_bucket_queue_add x p s = Some (0, s') ∧
        bq_rel s' (<[Z.to_nat p := l ++ [x]]> b) (F ∖ {[x]}).
Proof.
  destruct s as [q h]. intros (w & Hs & Hn & HF) Hx Hp Hl. simpl in *.
  destruct (HF _ Hx) as [Hfr _].
  assert (∃ i, p = Z.of_nat i) as [i ->] by (exists (Z.to_nat p); lia).
  rewrite Nat2Z.id in *. clear Hp.
  assert (Hlt := lookup_lt_Some _ _ _ Hl).
  rewrite decide_False by (rewrite (bs_count _ _ _ _ Hs); lia).
  destruct (seek_ok _ _ _ _ Hs) as [-> Hs1]. simpl.
  change (bucket_addr (set_top _ q) ?z) with (bucket_addr q z).
  pose proof (bs_buckets _ _ _ _ Hs _ _ Hl) as Hw.
  assert (Hxl : x ∉ bucket_addr q (Z.of_nat i) :: l).
  { intros Hin. apply (proj2 Hfr). by eexists _, _. }
  destruct (mk_list_add_dll _ _ _ x (bucket_dll _ _ _ _ _ _ Hs Hl)) as (h' & -> & Hd' & HX);
    [apply Hfr|done|]. simpl.
  assert (Hr' := represents_fresh _ _ _ _ _ _ _ (bs_rep _ _ _ _ Hs) Hw Hfr Hd'
    ltac:(set_solver) HX).
  eexists. split; [reflexivity|].
  exists (<[bucket_addr q (Z.of_nat i) := l ++ [x]]> w). split_and!; simpl.
  - apply bq_shape_set_n_items.
    assert (Ht := first_busy_insert_app b i l x Hl).
    case_decide as Hlow.
    + apply (bq_shape_insert q h h' b w i l (l ++ [x]) i Hs Hl Hr').
      rewrite Ht. unfold bucket_addr, sizeof_mk_list in Hlow. lia.
    + apply (bq_shape_insert q h h' b w i l (l ++ [x]) (first_busy b) Hs Hl Hr').
      rewrite Ht. unfold bucket_addr, sizeof_mk_list in Hlow. lia.
  - destruct (mjoin_insert b i l (l ++ [x]) Hl) as (pre & post & E1 & E2).
    rewrite E2, E1 in *. rewrite !length_app in *. simpl.
    case_decide; simpl; rewrite Hn; unfold wrap; rewrite Zplus_mod_idemp_l; f_equal; lia.
  - intros y [Hy Hyx]%elem_of_difference. destruct (HF _ Hy) as [[Hy0 Hyu] Hyp].
    assert (y ≠ x) by set_solver.
    assert (y ∉ bucket_addr q (Z.of_nat i) :: l) by (intros Hin; apply Hyu; by eexists _, _).
    split; [split; [done|]|].
    + intros [?|Hin]%in_use_insert; [done|set_solver].
    + destruct (HX y) as [_ ->]; [set_solver|done].
Qed.

Lemma bq_find_min_rel s b F :
  bq_rel s b F → ∃ s', flb_bucket_queue_find_min s = Some (min_item b, s') ∧ bq_rel s' b F.
Proof.
  destruct s as [q h]. intros (w & Hs & Hn & HF). simpl in *.
  destruct (seek_ok _ _ _ _ Hs) as [-> Hs1]. simpl.
  rewrite (bq_is_empty_top _ _ _ _ (first_busy b) Hs1) by done.
  pose proof (first_busy_lookup b) as Hl. unfold min_item.
  destruct (b !! first_busy b) as [l|] eqn:E.
  - destruct Hl as (_ & x & l' & -> & -> & _).
    rewrite bool_decide_eq_false_2 by (apply lookup_lt_Some in E; lia). simpl.
    destruct (dll_ends _ _ _ (bucket_dll _ _ _ _ _ _ Hs E)) as [_ ->]. simpl.
    eexists. split; [done|]. by exists w.
  - destruct Hl as (Hl & -> & _). rewrite bool_decide_eq_true_2 by done. simpl.
    eexists. split; [done|]. by exists w.
Qed.

Lemma bq_delete_min_rel s b F :
  bq_rel s b F → ∃ s', flb_bucket_queue_delete_min s = Some s' ∧
    bq_rel s' (drop_min b) (F ∪ list_to_set (take 1 (mjoin b))).
Proof.
  destruct s as [q h]. intros (w & Hs & Hn & HF). simpl in *.
  destruct (seek_ok _ _ _ _ Hs) as [-> Hs1]. simpl.
  rewrite (bq_is_empty_top _ _ _ _ (first_busy b) Hs1) by done.
  pose proof (first_busy_lookup b) as Hl.
  destruct (b !! first_busy b) as [l|] eqn:E.
  2:{ destruct Hl as (Hl & Ej & ->). rewrite bool_decide_eq_true_2 by done. simpl.
      eexists. split; [done|]. rewrite Ej. simpl. rewrite union_empty_r_L.
      by exists w. }
  destruct Hl as (_ & x & l' & -> & Ej & ->).
  rewrite bool_decide_eq_false_2 by (apply lookup_lt_Some in E; lia). simpl.
  pose proof (bucket_dll _ _ _ _ _ _ Hs E) as Hd.
  pose proof (bs_buckets _ _ _ _ Hs _ _ E) as Hw.
  destruct (dll_ends _ _ _ Hd) as [_ ->]. simpl.
  destruct (mk_list_del_dll _ _ [] x l' Hd) as (h' & -> & Hd' & _ & Hxp & HX). simpl.
  set (a := bucket_addr q (Z.of_nat (first_busy b))) in *.
  assert (Hr' : represents h' (<[a := l']> w)).
  { eapply represents_update; [apply (bs_rep _ _ _ _ Hs)|exact Hd'|exact HX|]. intros c lc y Hc Hlc Hy.
    pose proof (proj2 (bs_rep _ _ _ _ Hs) c a lc _ y Hc Hlc Hw Hy). set_solver. }
  assert (Hs2 := bq_shape_insert q h h' b w _ _ l' (first_busy b) Hs E Hr'
    (proj1 (first_busy_insert_nil b 0 l'))).
  fold a in Hs2. destruct (seek_ok _ _ _ _ Hs2) as [-> Hs3]. simpl.
  eexists. split; [reflexivity|]. exists (<[a := l']> w). split_and!; simpl.
  - by apply bq_shape_set_n_items.
  - destruct (mjoin_insert b _ _ l' E) as (pre & post & E1 & E2).
    rewrite E2, E1 in *. rewrite !length_app in *. simpl in *.
    rewrite Hn. unfold wrap. rewrite Zminus_mod_idemp_l. f_equal. lia.
  - rewrite Ej. simpl. intros y Hy.
    assert (Hax : x ≠ a ∧ x ∉ l').
    { destruct Hd as [_ Hnd]. rewrite !NoDup_cons in Hnd. set_solver. }
    destruct (decide (y = x)) as [->|Hyx].
    + split; [|done]. split; [eapply dll_nonnull; [exact Hd|set_solver]|].
      intros (c & lc & [[<- <-]|[Hc Hlc]]%lookup_insert_Some & Hin); [set_solver|].
      apply (proj2 (bs_rep _ _ _ _ Hs) c a lc _ x (not_eq_sym Hc) Hlc Hw Hin). set_solver.
    + assert (y ∈ F) as Hy' by set_solver. destruct (HF _ Hy') as [[Hy0 Hyu] Hyp].
      assert (y ∉ a :: x :: l') by (intros Hin; apply Hyu; by eexists _, _).
      split; [split; [done|]|].
      * intros [?|Hin]%in_use_insert; [done|set_solver].
      * destruct (HX y) as [_ ->]; [set_solver|done].
Qed.

(** ** The queue implements the contract *)

Lemma bq_items_ok q h b w x :
  bq_shape q h b w → x ∈ mjoin b →
  x ≠ NULL ∧ ∃ p, ld_prev h x = Some p ∧ p ≠ NULL.
Proof.
  intros Hs (l & Hx & (i & Hi)%list_elem_of_lookup)%list_elem_of_join.
  apply list_elem_of_split in Hx as (l1 & l2 & ->).
  destruct (dll_around _ _ _ _ _ (bucket_dll _ _ _ _ _ _ Hs Hi))
    as (p & n & Hp & _ & _ & _ & ? & _ & ? & _).
  split; [done|]. by exists p.
Qed.

Lemma NoDup_mjoin (b : list (list ptr)) :
  (∀ i l, b !! i = Some l → NoDup l) →
  (∀ i j l l' x, i ≠ j → b !! i = Some l → b !! j = Some l' → x ∈ l → x ∉ l') →
  NoDup (mjoin b).
Proof.
  induction b as [|l b IH]; intros Hn Hd; [constructor|]. simpl. apply NoDup_app. split_and!.
  - by apply (Hn 0%nat).
  - intros x Hx (l' & Hx' & (j & Hj)%list_elem_of_lookup)%list_elem_of_join.
    by apply (Hd 0%nat (S j) l l' x).
  - apply IH; [intros i; apply (Hn (S i))|]. intros i j l1 l2 x Hij.
    apply (Hd (S i) (S j)); lia.
Qed.

Lemma bq_nodup q h b w : bq_shape q h b w → NoDup (mjoin b).
Proof.
  intros Hs. apply NoDup_mjoin.
  - intros i l Hi. destruct (bucket_dll _ _ _ _ _ _ Hs Hi) as [_ Hn].
    by apply NoDup_cons in Hn as [_ Hn].
  - intros i j l l' x Hij Hi Hj Hx Hx'.
    eapply (proj2 (bs_rep _ _ _ _ Hs)); [|exact (bs_buckets _ _ _ _ Hs _ _ Hi)|
      exact (bs_buckets _ _ _ _ Hs _ _ Hj)|right; exact Hx|right; exact Hx'].
    unfold bucket_addr, sizeof_mk_list. lia.
Qed.

Lemma bq_pop_min_rel s b F :
  bq_rel s b F → ∃ s', flb_bucket_queue_pop_min s = Some (min_item b, s') ∧
    bq_rel s' (drop_min b) (F ∪ list_to_set (take 1 (mjoin b))).
Proof.
  intros Hr. destruct (bq_find_min_rel _ _ _ Hr) as (s1 & E1 & Hr1).
  destruct (bq_delete_min_rel _ _ _ Hr1) as (s2 & E2 & Hr2).
  exists s2. unfold flb_bucket_queue_pop_min. rewrite E1. simpl. by rewrite E2.
Qed.

#[export] Program Instance bucket_queue_prio : PrioQueue bq_state := {|
  pq_add := flb_bucket_queue_add;
  pq_find_min := flb_bucket_queue_find_min;
  pq_pop_min := flb_bucket_queue_pop_min;
  pq_prev x s := ld_prev s.2 x;
  pq_rel := bq_rel
|}.
Next Obligation. exact bq_add_rel. Qed.
Next Obligation.
  intros [q h] b F x p (w & Hs & _) Hp. simpl. apply bs_count in Hs. simpl in Hs.
  by rewrite decide_True by lia.
Qed.
Next Obligation. exact bq_find_min_rel. Qed.
Next Obligation. exact bq_pop_min_rel. Qed.
Next Obligation.
  intros s b F x (w & _ & _ & HF) [[? _] Hp]%HF. by rewrite ld_prev_ok.
Qed.
Next Obligation. intros s b F x (w & Hs & _) Hx. by eapply bq_items_ok. Qed.
Next Obligation.
  intros s b F x (w & Hs & _ & HF) Hx. split; [by eapply bq_items_ok|].
  intros [[_ Hu] _]%HF. apply Hu. by eapply bq_elem_in_use.
Qed.
Next Obligation. intros s b F (w & Hs & _). by eapply bq_nodup. Qed.

(** ** Creation and destruction *)

Lemma init_buckets_ok n i base size h w :
  represents h w → 0 < base → 0 ≤ i →
  (∀ x, in_use w x → x < base + sizeof_mk_list * i) →
  sizeof_mk_list * (i + Z.of_nat n) ≤ size →
  ∃ h' w', init_buckets n i base size h = Some h' ∧ represents h' w' ∧
    (∀ j, i ≤ j < i + Z.of_nat n → w' !! (base + sizeof_mk_list * j) = Some []) ∧
    (∀ a, a < base + sizeof_mk_list * i → w' !! a = w !! a).
Proof.
  unfold sizeof_mk_list. revert i h w. induction n as [|n IH]; intros i h w Hr Hb Hi Hu Hs.
  { exists h, w. split_and!; [done..|intros; lia|done]. }
  simpl. unfold sizeof_mk_list. rewrite decide_True by lia.
  assert (Hf : fresh_node w (base + 16 * i)).
  { split; [unfold NULL; lia|]. intros ?%Hu. lia. }
  destruct (exec_op_sim h w (OInit (base + 16 * i)) _ Hr (abs_init _ _ Hf)) as (h1 & E & Hr1).
  simpl in E. rewrite E. simpl.
  destruct (IH (i + 1) h1 _ Hr1) as (h' & w' & -> & Hr' & Hw1 & Hw2); [done|lia| |lia|].
  { intros x [?%Hu|Hx]%in_use_insert; [lia|]. apply list_elem_of_singleton in Hx. lia. }
  exists h', w'. split_and!; [done..| |].
  - intros j Hj. destruct (decide (j = i)) as [->|]; [|apply Hw1; lia].
    rewrite Hw2 by lia. apply lookup_insert_eq.
  - intros a Ha. rewrite Hw2 by lia. rewrite lookup_insert_ne; [done|lia].
Qed.

Lemma lh_clear_agree lo hi h X :
  (∀ p, lo ≤ p < hi → p ∈ X) → agree_outside X h (lh_clear lo hi h).
Proof.
  intros HX p Hp. assert (¬ (lo ≤ p < hi)) by auto.
  unfold lh_clear; simpl. rewrite !map_lookup_filter. split.
  - destruct (lh_next h !! p); simpl; [by rewrite option_guard_True|done].
  - destruct (lh_prev h !! p); simpl; [by rewrite option_guard_True|done].
Qed.

(** Releasing memory that holds no list node. *)
Lemma represents_clear lo hi h w :
  represents h w → (∀ x, in_use w x → x < lo ∨ hi ≤ x) → represents (lh_clear lo hi h) w.
Proof.
  intros [Hd Hw] Hu. split; [|done]. intros a l Ha.
  eapply (dll_agree (seqZ lo (hi - lo)) h); [| |by apply Hd].
  - apply lh_clear_agree. intros p Hp. apply elem_of_seqZ. lia.
  - intros x Hx Hin%elem_of_seqZ. destruct (Hu x); [by exists a, l|lia..].
Qed.

Lemma mc_free_ok p b s :
  p ≠ NULL → mm_blocks (mc_mem s) !! p = Some b →
  mc_free p s = Some (Machine (lh_clear p (p + Z.of_nat (length b)) (mc_list s))
    (Mem (delete p (mm_blocks (mc_mem s))) (mm_brk (mc_mem s)) (mm_oracle (mc_mem s)))).
Proof.
  intros Hp Hb. unfold mc_free, flb_free. rewrite (free_live _ _ _ Hp Hb). simpl.
  unfold block_size. by rewrite Hb.
Qed.

Lemma bq_shape_fresh buckets n h w :
  represents h w → (∀ j, 0 ≤ j < Z.of_nat n → w !! (buckets + sizeof_mk_list * j) = Some []) →
  bq_shape (BucketQueue buckets (Z.of_nat n) (buckets + sizeof_mk_list * Z.of_nat n) 0) h
    (replicate n []) w.
Proof.
  intros Hr Hw. split; simpl; [by rewrite length_replicate|done| |].
  - intros i l [-> Hi]%lookup_replicate. apply Hw. lia.
  - exists n. split; [|done]. clear. induction n; simpl; lia.
Qed.

Lemma mjoin_replicate_nil n : mjoin (replicate n []) = ([] : list ptr).
Proof. by induction n. Qed.

(** Destroying an empty queue releases its two blocks. *)
Lemma destroy_empty_ok p q s b w bs bp :
  bq_shape q (mc_list s) b w → mjoin b = [] → p ≠ NULL → bq_buckets q ≠ NULL →
  p ≠ bq_buckets q →
  mm_blocks (mc_mem s) !! bq_buckets q = Some bs → mm_blocks (mc_mem s) !! p = Some bp →
  ∃ q' s', flb_bucket_queue_destroy p q s = Some (0, q', s') ∧
    mm_blocks (mc_mem s') = delete p (delete (bq_buckets q) (mm_blocks (mc_mem s))).
Proof.
  intros Hs Hj Hp Hbk Hne Hbs Hbp. unfold flb_bucket_queue_destroy.
  destruct (seek_ok _ _ _ _ Hs) as [-> Hs1]. simpl.
  rewrite (bq_is_empty_top _ _ _ _ (first_busy b) Hs1) by done.
  pose proof (first_busy_lookup b) as Hl. destruct (b !! first_busy b).
  { destruct Hl as (_ & x & l' & _ & E & _). by rewrite Hj in E. }
  rewrite bool_decide_eq_true_2 by tauto. simpl.
  rewrite (mc_free_ok _ _ _ Hbk Hbs). simpl.
  erewrite mc_free_ok; [|done|simpl; by rewrite lookup_delete_ne]. simpl. eauto.
Qed.

Lemma create_ok s w pr :
  mem_wf (mc_mem s) → represents (mc_list s) w →
  (∀ x, in_use w x → x < mm_brk (mc_mem s)) → 0 ≤ pr → sizeof_mk_list * pr < 2 ^ 64 →
  ∃ p oq s', flb_bucket_queue_create pr s = Some (p, oq, s') ∧
    match oq with
    | None => p = NULL ∧ mm_blocks (mc_mem s') = mm_blocks (mc_mem s) ∧
              represents (mc_list s') w
    | Some q =>
        p ≠ NULL ∧ bq_buckets q ≠ NULL ∧ p ≠ bq_buckets q ∧ 0 < pr ∧ bq_n_items q = 0 ∧
        mm_blocks (mc_mem s) !! p = None ∧ mm_blocks (mc_mem s) !! bq_buckets q = None ∧
        (∃ b1 b2, mm_blocks (mc_mem s') =
           <[bq_buckets q := b1]> (<[p := b2]> (mm_blocks (mc_mem s)))) ∧
        ∃ w', bq_shape q (mc_list s') (replicate (Z.to_nat pr) []) w' ∧ w ⊆ w'
    end.
Proof.
  intros Hwf Hr Hu Hpr Hsz. unfold flb_bucket_queue_create.
  destruct (flb_malloc _ (mc_mem s)) as [p m1] eqn:E1.
  destruct (flb_malloc_cases _ _ _ _ Hwf E1)
    as (Hwf1 & Hbrk1 & [[-> Hm1]|(_ & Hp & Hpb & Hpn & Hm1)]).
  { simpl. do 3 eexists. split; [reflexivity|]. done. }
  rewrite decide_False by done.
  destruct (flb_malloc _ m1) as [bk m2] eqn:E2.
  destruct (flb_malloc_cases _ _ _ _ Hwf1 E2)
    as (Hwf2 & Hbrk2 & [[-> Hm2]|(Hn & Hk & Hkb & Hkn & Hm2)]).
  { simpl. erewrite mc_free_ok; [|done|simpl; rewrite Hm2, Hm1; apply lookup_insert_eq].
    simpl. do 3 eexists. split; [reflexivity|]. split_and!; [done|simpl|].
    - rewrite Hm2, Hm1. by rewrite delete_insert_id.
    - simpl. apply represents_clear; [done|]. intros x Hx%Hu. lia. }
  rewrite decide_False by done. unfold sizeof_mk_list in *.
  assert (Hw : size_t (16 * pr) = 16 * pr) by (unfold wrap; rewrite Z.mod_small; lia).
  rewrite Hw in *.
  assert (Hbs : block_size bk m2 = 16 * pr).
  { unfold block_size. rewrite Hm2, lookup_insert_eq. simpl. rewrite length_replicate. lia. }
  assert (0 < bk).
  { rewrite Hkb. destruct Hwf as [[? _] _]. lia. }
  destruct (init_buckets_ok (Z.to_nat pr) 0 bk (block_size bk m2) (mc_list s) w Hr)
    as (h' & w' & -> & Hr' & Hw1 & Hw2); [done|lia| |unfold sizeof_mk_list; lia|].
  { intros x Hx%Hu. unfold sizeof_mk_list. lia. }
  simpl. do 3 eexists. split; [reflexivity|]. simpl.
  assert (Hpk : p ≠ bk).
  { intros ->. rewrite Hm1, lookup_insert_eq in Hkn. done. }
  split_and!; try done; [lia| |by eexists _, _; rewrite Hm2, Hm1|].
  - rewrite Hm1, lookup_insert_ne in Hkn; done.
  - exists w'. split.
    + replace pr with (Z.of_nat (Z.to_nat pr)) at 1 2 by lia.
      apply bq_shape_fresh; [done|]. intros j Hj. apply Hw1. lia.
    + apply map_subseteq_spec. intros a l Ha. rewrite Hw2; [done|].
      unfold sizeof_mk_list. assert (in_use w a) by (exists a, l; set_solver).
      apply Hu in H0. lia.
Qed.

(** * Theorems *)

(** C25. Refinement: any sequence of insertions, look-ups and pops that the
    bucket specification allows is run by the pointer code, which returns
    the specification's results (0 / -1 for insertions, the served node or
    NULL otherwise) and ends related to the specification's state: pops serve
    the lowest non-empty priority, first in first out. *)
Theorem flb_bucket_queue_refinement s b F os rs b' F' :
  bq_rel s b F → spec_ops os (b, F) = Some (rs, (b', F')) →
  ∃ s', pq_run_ops os s = Some (rs, s') ∧ bq_rel s' b' F'.
Proof. exact (pq_run_ops_sim (Q := bq_state) os s (b, F) rs (b', F')). Qed.

(** C29. Inserting distinct free nodes with in-range priorities into an empty
    queue and popping as many times serves all of them, sorted by priority
    and in insertion order inside each priority. *)
Theorem flb_bucket_queue_sorts s n F (xs : list (ptr * nat)) :
  bq_rel s (replicate n []) F →
  Forall (λ e, (e.2 < n)%nat) xs → NoDup (fst <$> xs) → (∀ x, x ∈ fst <$> xs → x ∈ F) →
  ∃ s', pq_run_ops (((λ e, PAdd e.1 (Z.of_nat e.2)) <$> xs) ++ replicate (length xs) PPop) s =
        Some (replicate (length xs) 0 ++ mjoin (of_prio xs <$> seq 0 n), s').
Proof.
  intros Hr Hp Hnd HF.
  assert (replicate n [] = buckets_of n []) as Hb.
  { unfold buckets_of, of_prio. simpl. clear. generalize 0%nat.
    induction n; intros k; simpl; [done|]. by f_equal. }
  rewrite Hb in Hr. destruct (spec_pops (buckets_of n xs) (F ∖ list_to_set (fst <$> xs)))
    as [a2 E2]. rewrite mjoin_buckets_length in E2 by done.
  pose proof (spec_ops_app _ _ _ _ _ _ _ (spec_adds n [] xs F Hp Hnd HF) E2) as E.
  destruct (pq_run_ops_sim (H := bucket_queue_prio) _ s (buckets_of n [], F) _ a2 Hr E)
    as (s' & E' & _). by exists s'.
Qed.

(** Life cycle.  Creation either fails (NULL, no block leaked, no list
    disturbed) or returns an empty queue of the requested number of
    priorities, which is then positive; destroying that queue gives both
    blocks back.  The array size must not wrap around. *)
Theorem flb_bucket_queue_lifecycle s w pr :
  mem_wf (mc_mem s) → represents (mc_list s) w →
  (∀ x, in_use w x → x < mm_brk (mc_mem s)) → 0 ≤ pr → sizeof_mk_list * pr < 2 ^ 64 →
  ∃ p oq s', flb_bucket_queue_create pr s = Some (p, oq, s') ∧
    match oq with
    | None => p = NULL ∧ mm_blocks (mc_mem s') = mm_blocks (mc_mem s) ∧
              represents (mc_list s') w
    | Some q => p ≠ NULL ∧ 0 < pr ∧ bq_rel (q, mc_list s') (replicate (Z.to_nat pr) []) ∅ ∧
        ∃ q' s'', flb_bucket_queue_destroy p q s' = Some (0, q', s'') ∧
                  mm_blocks (mc_mem s'') = mm_blocks (mc_mem s)
    end.
Proof.
  intros Hwf Hr Hu Hpr Hsz.
  destruct (create_ok s w pr Hwf Hr Hu Hpr Hsz) as (p & oq & s' & E & H).
  exists p, oq, s'. split; [done|]. destruct oq as [q|]; [|done].
  destruct H as (Hp & Hk & Hne & Hpos & Hn & Hpn & Hkn & (b1 & b2 & Hm) & w' & Hs & _).
  split_and!; [done..| |].
  - exists w'. split_and!; [done|by rewrite mjoin_replicate_nil|set_solver].
  - destruct (destroy_empty_ok p q s' _ w' b1 b2 Hs) as (q' & s'' & Ed & Em); try done.
    + apply mjoin_replicate_nil.
    + rewrite Hm. apply lookup_insert_eq.
    + rewrite Hm, lookup_insert_ne by done. apply lookup_insert_eq.
    + exists q', s''. split; [done|]. rewrite Em, Hm, delete_insert_id by (by rewrite lookup_insert_ne).
      by rewrite delete_insert_id.
Qed.

(** Destroying a queue that still has entries is refused: -1 is returned,
    no memory is released and the queue keeps its contents. *)
Theorem flb_bucket_queue_destroy_busy p q s b F :
  bq_rel (q, mc_list s) b F → mjoin b ≠ [] →
  ∃ q', flb_bucket_queue_destroy p q s = Some (-1, q', s) ∧ bq_rel (q', mc_list s) b F.
Proof.
  intros (w & Hs & Hn & HF) Hj. unfold flb_bucket_queue_destroy. simpl in *.
  destruct (seek_ok _ _ _ _ Hs) as [-> Hs1]. simpl.
  rewrite (bq_is_empty_top _ _ _ _ (first_busy b) Hs1) by done.
  pose proof (first_busy_lookup b) as Hl. destruct (b !! first_busy b) as [l|] eqn:E.
  - rewrite bool_decide_eq_false_2 by (apply lookup_lt_Some in E; lia). simpl.
    eexists. split; [done|]. by exists w.
  - destruct Hl as (_ & ? & _). done.
Qed.

(** Removing a queued node directly with [mk_list_del], which the header
    comment allows, keeps the buckets right but leaves [n_items] one too
    high. *)
Theorem flb_bucket_queue_direct_del q h b F i l1 x l2 :
  bq_rel (q, h) b F → b !! i = Some (l1 ++ x :: l2) →
  ∃ h' w', mk_list_del x h = Some h' ∧
    bq_shape q h' (<[i := l1 ++ l2]> b) w' ∧
    bq_n_items q = size_t (Z.of_nat (length (mjoin (<[i := l1 ++ l2]> b))) + 1).
Proof.
  intros (w & Hs & Hn & HF) Hi. simpl in *.
  destruct (mk_list_del_dll _ _ l1 x l2 (bucket_dll _ _ _ _ _ _ Hs Hi))
    as (h' & E & Hd' & _ & _ & HX).
  pose proof (bs_buckets _ _ _ _ Hs _ _ Hi) as Hw.
  exists h', (<[bucket_addr q (Z.of_nat i) := l1 ++ l2]> w). split_and!; [done| |].
  - destruct (bs_top _ _ _ _ Hs) as (t & Ht & Etop).
    replace q with (set_top (bucket_addr q (Z.of_nat t)) q) at 1 by (rewrite <- Etop; by destruct q).
    eapply bq_shape_insert; [done..| |].
    + eapply represents_update; [apply (bs_rep _ _ _ _ Hs)|exact Hd'|exact HX|].
      intros c lc y Hc Hlc Hy.
      pose proof (proj2 (bs_rep _ _ _ _ Hs) c _ lc _ y Hc Hlc Hw Hy). set_solver.
    + etrans; [exact Ht|]. clear -Hi. revert i Hi.
      induction b as [|[|y l] b IH]; intros [|i]; simpl; try done; try lia.
      * intros [= E]. by destruct l1.
      * intros Hi. specialize (IH i Hi). lia.
  - destruct (mjoin_insert b i _ (l1 ++ l2) Hi) as (pre & post & E1 & E2).
    rewrite Hn, E1, E2, !length_app. simpl. f_equal. lia.
Qed.

(** ** The theorems at work *)

Definition demo_queue_machine : machine := Machine lempty (mem_init []).

(** The queue of eight priorities the event loop creates. *)
Definition demo_queue : flb_bucket_queue :=
  match flb_bucket_queue_create 8 demo_queue_machine with
  | Some (_, Some q, _) => q
  | _ => BucketQueue 0 0 0 0
  end.

(** Its heap, with three unlinked nodes at 1048, 1148 and 1248. *)
Definition demo_queue_heap : lheap :=
  let h := match flb_bucket_queue_create 8 demo_queue_machine with
           | Some (_, _, s) => mc_list s | None => lempty end in
  default lempty (h ← mk_list_entry_init 1048 h; h ← mk_list_entry_init 1148 h;
                  mk_list_entry_init 1248 h).

Definition demo_queue_world : gmap Z (list ptr) :=
  list_to_map ((λ i, (bucket_addr demo_queue i, [])) <$> seqZ 0 8).

Lemma demo_queue_represents : represents demo_queue_heap demo_queue_world.
Proof.
  split.
  - intros a l Ha. assert (map_Forall (λ a l, l = [] ∧ lh_next demo_queue_heap !! a = Some a ∧
      lh_prev demo_queue_heap !! a = Some a ∧ a ≠ 0) demo_queue_world) as Hall by evaluate.
    destruct (Hall _ _ Ha) as (-> & ? & ? & ?). split; [|apply NoDup_singleton]. by repeat split.
  - intros a b la lb x Hab Ha Hb Hxa Hxb.
    assert (map_Forall (λ _ l, l = []) demo_queue_world) as Hall by evaluate.
    rewrite (Hall _ _ Ha) in Hxa. rewrite (Hall _ _ Hb) in Hxb.
    apply list_elem_of_singleton in Hxa, Hxb. congruence.
Qed.

Lemma demo_queue_rel :
  bq_rel (demo_queue, demo_queue_heap) (replicate 8 []) {[ 1048; 1148; 1248 ]}.
Proof.
  exists demo_queue_world. split_and!; [split| |].
  - by vm_compute.
  - exact demo_queue_represents.
  - intros i l [-> Hi]%lookup_replicate.
    do 8 (destruct i as [|i]; [by vm_compute|]). lia.
  - exists 8%nat. split; [simpl; lia|by vm_compute].
  - by vm_compute.
  - intros x Hx. assert (set_Forall (λ x, fresh_node demo_queue_world x ∧
      lh_prev demo_queue_heap !! x = Some NULL) ({[ 1048; 1148; 1248 ]} : gset Z)) as Hall
      by evaluate. by apply Hall.
Qed.

Lemma flb_bucket_queue_refinement_witness :
  ∃ s', pq_run_ops [PAdd 1048 6; PAdd 1148 0; PAdd 1248 9; PPop; PFind]
          (demo_queue, demo_queue_heap) = Some ([0; 0; -1; 1148; 1048], s') ∧
        bq_rel s' [[]; []; []; []; []; []; [1048]; []] {[ 1148; 1248 ]}.
Proof.
  apply (flb_bucket_queue_refinement _ _ _ _ _ _ _ demo_queue_rel).
  vm_compute. reflexivity.
Defined.

Lemma flb_bucket_queue_sorts_witness :
  ∃ s', pq_run_ops (((λ e, PAdd e.1 (Z.of_nat e.2)) <$> [(1048, 6%nat); (1148, 0%nat); (1248, 6%nat)])
                    ++ replicate 3 PPop) (demo_queue, demo_queue_heap) =
        Some ([0; 0; 0; 1148; 1048; 1248], s').
Proof.
  apply (flb_bucket_queue_sorts _ 8 _ [(1048, 6%nat); (1148, 0%nat); (1248, 6%nat)] demo_queue_rel).
  - repeat constructor; simpl; lia.
  - by apply (bool_decide_unpack _).
  - simpl. set_solver.
Defined.

Lemma flb_bucket_queue_lifecycle_witness :
  ∃ p oq s', flb_bucket_queue_create 8 demo_queue_machine = Some (p, oq, s') ∧
    match oq with
    | None => p = NULL ∧ mm_blocks (mc_mem s') = mm_blocks (mc_mem demo_queue_machine) ∧
              represents (mc_list s') ∅
    | Some q => p ≠ NULL ∧ 0 < 8 ∧ bq_rel (q, mc_list s') (replicate (Z.to_nat 8) []) ∅ ∧
        ∃ q' s'', flb_bucket_queue_destroy p q s' = Some (0, q', s'') ∧
                  mm_blocks (mc_mem s'') = mm_blocks (mc_mem demo_queue_machine)
    end.
Proof.
  apply (flb_bucket_queue_lifecycle demo_queue_machine _ 8 (mem_init_wf []) represents_empty).
  - intros x (a & l & Ha & _). by rewrite lookup_empty in Ha.
  - lia.
  - vm_compute. reflexivity.
Defined.

(** The demo queue with one node queued at priority 6. *)
Definition demo_busy : bq_state :=
  match flb_bucket_queue_add 1048 6 (demo_queue, demo_queue_heap) with
  | Some (_, s) => s
  | None => (demo_queue, demo_queue_heap)
  end.

Lemma demo_busy_rel :
  bq_rel demo_busy [[]; []; []; []; []; []; [1048]; []] {[ 1148; 1248 ]}.
Proof.
  destruct (bq_add_rel _ _ _ 1048 6 [] demo_queue_rel) as (s' & E & Hr); [set_solver|lia|done|].
  unfold demo_busy. rewrite E.
  replace {[1148; 1248]} with ({[1048; 1148; 1248]} ∖ {[1048]} : gset Z)
    by (vm_compute; done). exact Hr.
Qed.

Lemma flb_bucket_queue_destroy_busy_witness :
  ∃ q', flb_bucket_queue_destroy 16 (demo_busy.1) (Machine (demo_busy.2) (mem_init [])) =
        Some (-1, q', Machine (demo_busy.2) (mem_init [])) ∧
        bq_rel (q', demo_busy.2) [[]; []; []; []; []; []; [1048]; []] {[ 1148; 1248 ]}.
Proof.
  apply (flb_bucket_queue_destroy_busy 16 _ (Machine (demo_busy.2) (mem_init [])) _ _ demo_busy_rel).
  discriminate.
Defined.

Lemma flb_bucket_queue_direct_del_witness :
  ∃ h' w', mk_list_del 1048 (demo_busy.2) = Some h' ∧
    bq_shape (demo_busy.1) h' [[]; []; []; []; []; []; []; []] w' ∧
    bq_n_items (demo_busy.1) = size_t (0 + 1).
Proof.
  apply (flb_bucket_queue_direct_del (demo_busy.1) (demo_busy.2) _ _ 6%nat [] 1048 [] demo_busy_rel).
  reflexivity.
Defined.
