(* ===== verification/MkEvent.v ===== *)
(** [monkey/mk_core/mk_event.h] and its libevent backend header: events and
    the array of fired events an event loop exposes. *)
From S2P Require Import Prelude.

(** * Constants *)

Definition MK_EVENT_UNMODIFIED : Z := -1.
Definition MK_EVENT_NOTIFICATION : Z := 0.
Definition MK_EVENT_LISTENER : Z := 1.
Definition MK_EVENT_FIFO : Z := 2.
Definition MK_EVENT_CONNECTION : Z := 3.
Definition MK_EVENT_CUSTOM : Z := 4.
Definition MK_EVENT_THREAD : Z := 5.

Definition MK_EVENT_EMPTY : Z := 0.
Definition MK_EVENT_READ : Z := 1.
Definition MK_EVENT_WRITE : Z := 4.
Definition MK_EVENT_SLEEP : Z := 8.
Definition MK_EVENT_CLOSE : Z := Z.lor 16 (Z.lor 8 8192).
Definition MK_EVENT_IDLE : Z := Z.lor 16 8.

Definition MK_EVENT_QUEUE_SIZE : Z := 256.
Definition MK_EVENT_LEVEL : Z := 256.
Definition MK_EVENT_EDGE : Z := 512.

Definition MK_EVENT_NONE : Z := 1.
Definition MK_EVENT_REGISTERED : Z := 2.
Definition MK_EVENT_PRIORITY_DEFAULT : Z := 6.

(** * Structures *)

(** [struct mk_event], less the two list nodes, which live in the list heap
    at [ev + ev_head_off] and [ev + ev_priority_head_off].  [priority] is a
    C [char]: a signed byte. *)
Record mk_event := MkEvent {
  ev_fd : Z;
  ev_type : Z;
  ev_mask : Z;
  ev_status : Z;
  ev_data : ptr;
  ev_handler : ptr;
  ev_priority : Z
}.

Definition ev_head_off : Z := 32.
Definition ev_priority_head_off : Z := 48.
Definition sizeof_mk_event : Z := 72.

(** [struct mk_event_loop]; with the libevent backend, [data] leads to a
    context whose [fired] array holds the reported events. *)
Record mk_event_ctx := MkEventCtx {
  ctx_queue_size : Z;
  ctx_fired_count : Z;
  ctx_base : ptr;
  ctx_fired : list ptr       (** the [data] pointer of each slot *)
}.

Record mk_event_loop := MkEventLoop {
  evl_size : Z;
  evl_n_events : Z;
  evl_events : ptr;
  evl_ctx : mk_event_ctx
}.

(** * Operations *)

Definition MK_EVENT_IS_REGISTERED (ev : mk_event) : bool :=
  bool_decide (Z.land (ev_status ev) MK_EVENT_REGISTERED ≠ 0).

Definition MK_EVENT_INIT (fd : Z) (data callback : ptr) (ev : mk_event) : mk_event :=
  MkEvent fd MK_EVENT_CUSTOM MK_EVENT_EMPTY MK_EVENT_NONE data callback (ev_priority ev).

Definition MK_EVENT_ZERO (ev : mk_event) : mk_event := MK_EVENT_INIT (-1) NULL NULL ev.

Definition MK_EVENT_NEW (ev : mk_event) : mk_event :=
  MkEvent (ev_fd ev) (ev_type ev) MK_EVENT_EMPTY MK_EVENT_NONE (ev_data ev)
    (ev_handler ev) (ev_priority ev).

(** [mk_event_foreach(event, evl)], for a body that leaves the array and the
    count alone: slot [i] for [i = 0 .. n_events - 1]; reading past the array
    is undefined. *)
Section foreach.
Context {S : Type} (body : Z → ptr → S → option S).

Fixpoint mk_event_foreach_loop (k : nat) (i : Z) (fired : list ptr) (s : S)
  : option S :=
  match k with
  | O => Some s
  | Datatypes.S k =>
      event ← fired !! Z.to_nat i;
      s ← body i event s;
      mk_event_foreach_loop k (i + 1) fired s
  end.

Definition mk_event_foreach (evl : mk_event_loop) (s : S) : option S :=
  mk_event_foreach_loop (Z.to_nat (evl_n_events evl)) 0 (ctx_fired (evl_ctx evl)) s.
End foreach.

(** A traversal of [n] slots is a fold over the first [n] entries. *)
Lemma mk_event_foreach_rule {S} (I : nat → S → Prop) body evl s :
  (Z.to_nat (evl_n_events evl) ≤ length (ctx_fired (evl_ctx evl)))%nat →
  I 0%nat s →
  (∀ i ev s, (i < Z.to_nat (evl_n_events evl))%nat → ctx_fired (evl_ctx evl) !! i = Some ev →
     I i s → ∃ s', body (Z.of_nat i) ev s = Some s' ∧ I (i + 1)%nat s') →
  ∃ s', mk_event_foreach body evl s = Some s' ∧ I (Z.to_nat (evl_n_events evl)) s'.
Proof.
  unfold mk_event_foreach. set (n := Z.to_nat (evl_n_events evl)).
  set (fired := ctx_fired (evl_ctx evl)). intros Hlen HI Hbody.
  cut (∀ k i s, (i + k = n)%nat → I i s →
    ∃ s', mk_event_foreach_loop body k (Z.of_nat i) fired s = Some s' ∧ I n s').
  { intros Hc. by apply (Hc n 0%nat). }
  clear s HI. induction k as [|k IH]; intros i s Hik HI; simpl.
  - exists s. split; [done|]. by replace n with i by lia.
  - rewrite Nat2Z.id. destruct (lookup_lt_is_Some_2 fired i ltac:(lia)) as [ev Hev].
    rewrite Hev. simpl. destruct (Hbody i ev s ltac:(lia) Hev HI) as (s1 & -> & HI1). simpl.
    replace (Z.of_nat i + 1) with (Z.of_nat (i + 1)) by lia. apply IH; [lia|done].
Qed.
