(* ===== verification/EventLoop.v ===== *)
(** [flb_event_loop.h]: the priority event loop.  Fired events are loaded
    into the priority queue and served one at a time, the queue being
    refilled between two events.  The queue is used through its contract. *)
From S2P Require Import Prelude MkList Mem PrioQueue BucketQueue MkEvent.

Section event_loop.
Context {Q : Type} `{!PrioQueue Q}.

(** * Operations *)

(** The queue node embedded in an event, and back. *)
Definition priority_head (event : ptr) : ptr := event + ev_priority_head_off.
Definition event_of_node (node : ptr) : ptr := node - ev_priority_head_off.

(** What the loop works on: the queue (with its list heap), the event
    structures and the event loop. *)
Record loop_state := LoopState {
  ls_q : Q;
  ls_events : gmap Z mk_event;
  ls_evl : mk_event_loop
}.

Definition set_q (q : Q) (s : loop_state) : loop_state :=
  LoopState q (ls_events s) (ls_evl s).

Definition flb_event_load_bucket_queue_event (event : ptr) (s : loop_state)
  : option loop_state :=
  prev ← pq_prev (priority_head event) (ls_q s);
  if decide (prev = NULL) then
    ev ← ls_events s !! event;
    (* a [char] converted to [size_t] *)
    '(_, q) ← pq_add (priority_head event) (size_t (s8 (ev_priority ev))) (ls_q s);
    Some (set_q q s)
  else Some s.

Definition flb_event_load_bucket_queue (s : loop_state) : option loop_state :=
  mk_event_foreach (λ _ event s,
    ev ← ls_events s !! event;
    if decide (ev_status ev ≠ MK_EVENT_NONE) then
      flb_event_load_bucket_queue_event event s
    else Some s) (ls_evl s) s.

Definition flb_event_load_injected_events (n_events_initial : Z) (s : loop_state)
  : option loop_state :=
  if decide (evl_n_events (ls_evl s) < n_events_initial) then Some s
  else if decide (evl_n_events (ls_evl s) > n_events_initial) then
    mk_event_foreach (λ i event s,
      if decide (i >= n_events_initial) then flb_event_load_bucket_queue_event event s
      else Some s) (ls_evl s) s
  else Some s.

(** [event = find_min(bktq) ? mk_list_entry(pop_min(bktq), ...) : NULL] *)
Definition next_event (s : loop_state) : option (ptr * loop_state) :=
  '(n, q) ← pq_find_min (ls_q s);
  if decide (n ≠ NULL) then
    '(n, q) ← pq_pop_min q;
    Some (event_of_node n, set_q q s)
  else Some (NULL, set_q q s).

(** [flb_event_priority_live_foreach(event, bktq, evl, max_iter) body].
    [wait] is [mk_event_wait_2(evl, 0)], a library call: it may change the
    event loop and the events.  The body tells whether it breaks out of the
    loop, and so does the result.  The counter starts at 0 and stops at
    [max_iter]; with [max_iter = -1] the loop runs until nothing is ready. *)
Section live_foreach.
Context (wait : loop_state → loop_state) (body : ptr → loop_state → option (bool * loop_state)).

Fixpoint live_foreach_loop (fuel : nat) (max_iter iter n_events : Z) (event : ptr)
    (s : loop_state) : option (ptr * Z * bool * loop_state) :=
  match fuel with
  | O => None
  | S fuel =>
      if decide (event ≠ NULL ∧ (iter < max_iter ∨ max_iter = -1)) then
        '(break, s) ← body event s;
        if (break : bool) then Some (event, iter, true, s)
        else
          iter ← int_add iter 1;
          s ← flb_event_load_injected_events n_events s;
          let s := wait s in
          let n_events := evl_n_events (ls_evl s) in
          s ← flb_event_load_bucket_queue s;
          '(event, s) ← next_event s;
          live_foreach_loop fuel max_iter iter n_events event s
      else Some (event, iter, false, s)
  end.

Definition flb_event_priority_live_foreach (fuel : nat) (max_iter : Z) (s : loop_state)
  : option (ptr * Z * bool * loop_state) :=
  let n_events := evl_n_events (ls_evl s) in
  s ← flb_event_load_bucket_queue s;
  '(event, s) ← next_event s;
  live_foreach_loop fuel max_iter 0 n_events event s.
End live_foreach.

(** * Invariant *)

(** The priority an insertion uses. *)
Definition load_prio (ev : mk_event) : Z := size_t (s8 (ev_priority ev)).

(** The buckets only grow, each at its end. *)
Definition grows (b b' : list (list ptr)) : Prop :=
  length b' = length b ∧ ∀ i l, b !! i = Some l → ∃ l', b' !! i = Some (l ++ l').

(** A node the loop may ask about: queued, or known to be free. *)
Definition known (b : list (list ptr)) (F : gset Z) (x : ptr) : Prop :=
  x ∈ mjoin b ∨ x ∈ F.

Definition fired_events (s : loop_state) : list ptr :=
  take (Z.to_nat (evl_n_events (ls_evl s))) (ctx_fired (evl_ctx (ls_evl s))).

(** The queue is well formed, the fired array holds [n_events] slots, each
    pointing to an event whose node is known. *)
Record loop_ok (s : loop_state) (b : list (list ptr)) (F : gset Z) : Prop := {
  lo_rel : pq_rel (ls_q s) b F;
  lo_len : (Z.to_nat (evl_n_events (ls_evl s)) ≤ length (ctx_fired (evl_ctx (ls_evl s))))%nat;
  lo_events : ∀ e, e ∈ fired_events s →
    is_Some (ls_events s !! e) ∧ known b F (priority_head e)
}.

Lemma grows_refl b : grows b b.
Proof. split; [done|]. intros i l ?. exists []. by rewrite app_nil_r. Qed.

Lemma grows_trans b1 b2 b3 : grows b1 b2 → grows b2 b3 → grows b1 b3.
Proof.
  intros [L1 G1] [L2 G2]. split; [congruence|]. intros i l (l1 & (l2 & H)%G2)%G1.
  exists (l1 ++ l2). by rewrite app_assoc.
Qed.

Lemma grows_insert b i l x : b !! i = Some l → grows b (<[i := l ++ [x]]> b).
Proof.
  intros Hi. split; [by rewrite length_insert|]. intros j lj Hj.
  destruct (decide (i = j)) as [->|].
  - simplify_eq. exists [x]. apply list_lookup_insert_eq. by eapply lookup_lt_Some.
  - exists []. by rewrite list_lookup_insert_ne, app_nil_r.
Qed.

Lemma mjoin_insert_elem (b : list (list ptr)) i l x y :
  b !! i = Some l → y ∈ mjoin (<[i := l ++ [x]]> b) ↔ y ∈ mjoin b ∨ y = x.
Proof.
  intros Hi. destruct (mjoin_insert b i l (l ++ [x]) Hi) as (pre & post & -> & ->).
  set_solver.
Qed.

(** ** Loading *)

(** The bucket in which a node is. *)
Definition in_bucket (b : list (list ptr)) (i : nat) (x : ptr) : Prop := ∃ l, b !! i = Some l ∧ x ∈ l.

Lemma load_event_ok s b F e ev :
  pq_rel (ls_q s) b F → ls_events s !! e = Some ev → known b F (priority_head e) →
  ∃ q' b' F', flb_event_load_bucket_queue_event e s = Some (set_q q' s) ∧
    pq_rel q' b' F' ∧ grows b b' ∧
    (∀ x, x ∈ mjoin b' ↔ x ∈ mjoin b ∨
       (x = priority_head e ∧ load_prio ev < Z.of_nat (length b))) ∧
    (∀ x, known b F x → known b' F' x) ∧
    ∀ i x, in_bucket b' i x → in_bucket b i x ∨ x = priority_head e ∧ load_prio ev = Z.of_nat i.
Proof.
  intros Hr Hev Hk. unfold flb_event_load_bucket_queue_event.
  assert (Hp : 0 ≤ load_prio ev) by (apply Z.mod_pos_bound; lia).
  destruct (decide (priority_head e ∈ mjoin b)) as [Hin|Hin].
  - destruct (pq_prev_queued _ _ _ _ Hr Hin) as (p & -> & Hpn). simpl.
    rewrite decide_False by done. exists (ls_q s), b, F.
    split_and!; [by destruct s|done|apply grows_refl| |done|by left].
    intros x. split; [by left|]. by intros [?|[-> _]].
  - destruct Hk as [?|HF]; [done|]. rewrite (pq_prev_free _ _ _ _ Hr HF). simpl.
    rewrite Hev. simpl. change (size_t _) with (load_prio ev).
    destruct (decide (Z.of_nat (length b) ≤ load_prio ev)) as [Hge|Hlt].
    + rewrite (pq_add_range _ _ _ _ _ Hr Hge). simpl. exists (ls_q s), b, F.
      split_and!; [done..|apply grows_refl| |done|by left].
      intros x. split; [by left|]. intros [?|[_ ?]]; [done|lia].
    + destruct (lookup_lt_is_Some_2 b (Z.to_nat (load_prio ev)) ltac:(lia)) as [l Hl].
      destruct (pq_add_ok _ _ _ _ _ _ Hr HF Hp Hl) as (q' & -> & Hr'). simpl.
      eexists _, _, _. split_and!; [done|exact Hr'|by apply grows_insert| | |].
      * intros x. rewrite mjoin_insert_elem by done. split; (intros [?|?]; [by left|right]).
        -- split; [done|lia].
        -- tauto.
      * intros x [Hx|Hx]; [left; rewrite mjoin_insert_elem by done; by left|].
        destruct (decide (x = priority_head e)) as [->|].
        -- left. rewrite mjoin_insert_elem by done. by right.
        -- right. set_solver.
      * intros i x (l' & Hl' & Hx). destruct (decide (i = Z.to_nat (load_prio ev))) as [->|Hne].
        -- rewrite list_lookup_insert_eq in Hl' by (by eapply lookup_lt_Some). injection Hl' as <-.
           apply elem_of_app in Hx as [Hx|Hx%list_elem_of_singleton]; [left; by exists l|right; split; [done|lia]].
        -- rewrite list_lookup_insert_ne in Hl' by done. left. by exists l'.
Qed.

(** Loading the slots a predicate selects. *)
Definition selected (s : loop_state) (sel : nat → mk_event → bool) (k : nat)
    (len : nat) (x : ptr) : Prop :=
  ∃ i e ev, (i < k)%nat ∧ ctx_fired (evl_ctx (ls_evl s)) !! i = Some e ∧
    ls_events s !! e = Some ev ∧ sel i ev = true ∧
    load_prio ev < Z.of_nat len ∧ x = priority_head e.

(** The same, of the priority [i]. *)
Definition selected_at (s : loop_state) (sel : nat → mk_event → bool) (k : nat) (i : nat) (x : ptr) : Prop :=
  ∃ j e ev, (j < k)%nat ∧ ctx_fired (evl_ctx (ls_evl s)) !! j = Some e ∧
    ls_events s !! e = Some ev ∧ sel j ev = true ∧ load_prio ev = Z.of_nat i ∧ x = priority_head e.

Lemma load_selected_ok sel body s b F :
  loop_ok s b F →
  (∀ i e ev s', ls_events s' = ls_events s → ls_events s !! e = Some ev →
     body (Z.of_nat i) e s' =
     if sel i ev : bool then flb_event_load_bucket_queue_event e s' else Some s') →
  ∃ q' b' F', mk_event_foreach body (ls_evl s) s = Some (set_q q' s) ∧
    loop_ok (set_q q' s) b' F' ∧ grows b b' ∧
    (∀ x, known b F x → known b' F' x) ∧
    (∀ x, x ∈ mjoin b' ↔ x ∈ mjoin b ∨
      selected s sel (Z.to_nat (evl_n_events (ls_evl s))) (length b) x) ∧
    ∀ i x, in_bucket b' i x → in_bucket b i x ∨ selected_at s sel (Z.to_nat (evl_n_events (ls_evl s))) i x.
Proof.
  intros [Hr Hlen Hev] Hbody.
  destruct (mk_event_foreach_rule (λ k s', ∃ q' b' F', s' = set_q q' s ∧ pq_rel q' b' F' ∧
      grows b b' ∧ (∀ x, known b F x → known b' F' x) ∧
      (∀ x, x ∈ mjoin b' ↔ x ∈ mjoin b ∨ selected s sel k (length b) x) ∧
      ∀ i x, in_bucket b' i x → in_bucket b i x ∨ selected_at s sel k i x) body (ls_evl s) s)
    as (s' & E & q' & b' & F' & -> & Hr' & Hg & Hk & Hx & Hp); [done| | |].
  - exists (ls_q s), b, F. split_and!; [by destruct s|done|apply grows_refl|done| |by left].
    intros x. split; [by left|]. intros [?|(i & ? & ? & ? & _)]; [done|lia].
  - intros i e s' Hi He (q' & b' & F' & -> & Hr' & Hg & Hk & Hx & Hp).
    assert (Hmono : ∀ j x, selected_at s sel i j x → selected_at s sel (i + 1) j x).
    { intros j x (j' & e' & ev' & Hj & Hrest). exists j', e', ev'. split; [lia|done]. }
    destruct (Hev e) as [[ev Hv] Hkn].
    { unfold fired_events. apply list_elem_of_lookup. exists i. by rewrite lookup_take_lt. }
    rewrite (Hbody i e ev) by done.
    assert (Hstep : ∀ x, selected s sel (i + 1) (length b) x ↔ selected s sel i (length b) x ∨
      (sel i ev = true ∧ x = priority_head e ∧ load_prio ev < Z.of_nat (length b))).
    { intros x. split.
      - intros (j & e' & ev' & Hj & He' & Hv' & Hs & Hp' & ->).
        destruct (decide (j = i)) as [->|]; [right; by simplify_eq|].
        left. exists j, e', ev'. split_and!; [lia|done..].
      - intros [(j & e' & ev' & Hj & ?)|(Hs & -> & Hp')].
        + exists j, e', ev'. split; [lia|done].
        + exists i, e, ev. split_and!; [lia|done..]. }
    destruct (sel i ev) eqn:Hs.
    + destruct (load_event_ok (set_q q' s) b' F' e ev Hr' Hv (Hk _ Hkn))
        as (q2 & b2 & F2 & -> & Hr2 & Hg2 & Hx2 & Hk2 & Hp2).
      eexists. split; [done|]. exists q2, b2, F2. split_and!; [done..|by eapply grows_trans| | |].
      * intros x ?. by apply Hk2, Hk.
      * intros x. rewrite Hx2, Hx, Hstep, (proj1 Hg). tauto.
      * intros j x [[?|?%Hmono]%Hp|[-> E]]%Hp2; [by left|by right|].
        right. exists i, e, ev. split_and!; [lia|done..].
    + eexists. split; [done|]. exists q', b', F'. split_and!; [done..| |].
      * intros x. rewrite Hx, Hstep. intuition discriminate.
      * intros j x [?|?%Hmono]%Hp; [by left|by right].
  - exists q', b', F'. split_and!; [done| |done..]. split; [done..|].
    intros e He. destruct (Hev e He) as [? ?]. auto.
Qed.

(** Not a deleted event. *)
Definition undeleted (_ : nat) (ev : mk_event) : bool := bool_decide (ev_status ev ≠ MK_EVENT_NONE).

Lemma load_bucket_queue_ok s b F :
  loop_ok s b F →
  ∃ q' b' F', flb_event_load_bucket_queue s = Some (set_q q' s) ∧
    loop_ok (set_q q' s) b' F' ∧ grows b b' ∧ (∀ x, known b F x → known b' F' x) ∧
    (∀ x, x ∈ mjoin b' ↔ x ∈ mjoin b ∨
      selected s undeleted (Z.to_nat (evl_n_events (ls_evl s))) (length b) x) ∧
    ∀ i x, in_bucket b' i x → in_bucket b i x ∨ selected_at s undeleted (Z.to_nat (evl_n_events (ls_evl s))) i x.
Proof.
  intros Hok. apply load_selected_ok; [done|]. intros i e ev s' Hs Hev. rewrite Hs, Hev.
  cbn [mbind option_bind]. unfold undeleted, bool_decide, decide, not_dec. by destruct (decide_rel _ _ _).
Qed.

Lemma load_injected_ok n0 s b F :
  loop_ok s b F →
  ∃ q' b' F', flb_event_load_injected_events n0 s = Some (set_q q' s) ∧
    loop_ok (set_q q' s) b' F' ∧ grows b b' ∧ (∀ x, known b F x → known b' F' x) ∧
    ∀ x, x ∈ mjoin b' ↔ x ∈ mjoin b ∨
      (evl_n_events (ls_evl s) > n0 ∧
       selected s (λ i _, bool_decide (Z.of_nat i >= n0))
        (Z.to_nat (evl_n_events (ls_evl s))) (length b) x).
Proof.
  intros Hok. unfold flb_event_load_injected_events.
  assert (Hsame : ¬ evl_n_events (ls_evl s) > n0 →
    ∃ q' b' F', Some s = Some (set_q q' s) ∧ loop_ok (set_q q' s) b' F' ∧ grows b b' ∧
      (∀ x, known b F x → known b' F' x) ∧ ∀ x, x ∈ mjoin b' ↔ x ∈ mjoin b ∨
      (evl_n_events (ls_evl s) > n0 ∧
       selected s (λ i _, bool_decide (Z.of_nat i >= n0))
        (Z.to_nat (evl_n_events (ls_evl s))) (length b) x)).
  { intros Hn. exists (ls_q s), b, F. replace (set_q (ls_q s) s) with s by by destruct s.
    split_and!; [done..|apply grows_refl|done|]. tauto. }
  case_decide; [apply Hsame; lia|]. case_decide; [|by apply Hsame].
  destruct (load_selected_ok (λ i _, bool_decide (Z.of_nat i >= n0))
    (λ i event s, if decide (i >= n0) then flb_event_load_bucket_queue_event event s
      else Some s) s b F Hok) as (q' & b' & F' & E & Ho & Hg & Hk & Hx & _).
  { intros i e ev s' _ _. simpl. unfold bool_decide. by repeat case_decide. }
  exists q', b', F'. split_and!; [done..|]. intros x. rewrite Hx. tauto.
Qed.

(** ** Serving *)

Lemma priority_head_inv n : priority_head (event_of_node n) = n.
Proof. unfold priority_head, event_of_node. lia. Qed.

Lemma next_event_ok s b F :
  loop_ok s b F →
  ∃ q' F', next_event s = Some (if decide (mjoin b = []) then NULL
                                else event_of_node (min_item b), set_q q' s) ∧
    loop_ok (set_q q' s) (drop_min b) F' ∧ (∀ x, known b F x → known (drop_min b) F' x).
Proof.
  intros [Hr Hlen Hev]. unfold next_event.
  destruct (pq_find_min_ok _ _ _ Hr) as (q1 & -> & Hr1). simpl.
  destruct (mjoin b) as [|x l] eqn:E.
  - assert (min_item b = NULL) as -> by (unfold min_item; by rewrite E). simpl. exists q1, F.
    assert (drop_min b = b) as ->.
    { clear -E. induction b as [|[|y m] b IH]; simpl in *; try done. by rewrite IH. }
    split_and!; [done|by split|done].
  - assert (x ∈ mjoin b) as Hx by (rewrite E; left).
    destruct (pq_items _ _ _ _ Hr Hx) as [Hxn _].
    assert (min_item b = x) as -> by (unfold min_item; by rewrite E).
    rewrite decide_True by done.
    destruct (pq_pop_min_ok _ _ _ Hr1) as (q2 & -> & Hr2). simpl.
    assert (min_item b = x) as -> by (unfold min_item; by rewrite E).
    assert (Hk : ∀ y, known b F y → known (drop_min b) (F ∪ list_to_set (take 1 (mjoin b))) y).
    { intros y [Hy|Hy]; [|right; set_solver]. rewrite E in Hy. unfold known.
      rewrite drop_min_mjoin, E. simpl. set_solver. }
    eexists _, _. split_and!; [done| |exact Hk]. split; [done..|].
    intros e He. destruct (Hev e He). auto.
Qed.

(** ** No event is queued twice *)

Lemma grows_same_length b b' :
  grows b b' → length (mjoin b') = length (mjoin b) → b' = b.
Proof.
  intros [Hl Hg]. revert b' Hl Hg. induction b as [|l b IH]; intros [|l' b'] Hl Hg; try done.
  simpl in *. rewrite !length_app. intros Hlen.
  destruct (Hg 0%nat l eq_refl) as [t Ht]. simpl in Ht. injection Ht as ->.
  assert (Hg' : grows b b').
  { split; [lia|]. intros i m Hm. destruct (Hg (S i) m Hm) as [t' Ht']. by exists t'. }
  assert (length (mjoin b) ≤ length (mjoin b'))%nat as Hle.
  { clear -Hg'. destruct Hg' as [Hl Hg]. revert b' Hl Hg.
    induction b as [|m b IH]; intros [|m' b'] Hl Hg; simpl in *; try lia.
    rewrite !length_app. destruct (Hg 0%nat m eq_refl) as [t Ht]. simpl in Ht.
    injection Ht as ->. rewrite length_app.
    assert (length (mjoin b) ≤ length (mjoin b'))%nat; [|lia].
    apply IH; [lia|]. intros i n Hn. by apply (Hg (S i)). }
  rewrite length_app in Hlen. assert (t = []) as -> by (destruct t; simpl in *; [done|lia]).
  rewrite app_nil_r. f_equal. apply IH; [lia|apply Hg'|]. simpl in *. lia.
Qed.

Lemma reload_same s b F q' b' F' :
  pq_rel (ls_q s) b F → pq_rel q' b' F' → grows b b' →
  (∀ x, x ∈ mjoin b' ↔ x ∈ mjoin b) → b' = b.
Proof.
  intros Hr Hr' Hg Hx. apply grows_same_length; [done|].
  apply Permutation_length, NoDup_Permutation; [by eapply pq_nodup..|done].
Qed.

(** * Theorems *)

(** C26. Loading queues exactly the fired events that are not marked deleted
    and whose priority is in range, on top of what was queued: earlier
    entries keep their place, no event is queued twice, and loading again
    changes no bucket. *)
Theorem flb_event_load_bucket_queue_exact s b F :
  loop_ok s b F →
  ∃ q' b' F', flb_event_load_bucket_queue s = Some (set_q q' s) ∧
    loop_ok (set_q q' s) b' F' ∧ grows b b' ∧ NoDup (mjoin b') ∧
    (∀ x, x ∈ mjoin b' ↔ x ∈ mjoin b ∨
      selected s (λ _ ev, bool_decide (ev_status ev ≠ MK_EVENT_NONE))
        (Z.to_nat (evl_n_events (ls_evl s))) (length b) x) ∧
    ∃ q'' F'', flb_event_load_bucket_queue (set_q q' s) = Some (set_q q'' s) ∧
      loop_ok (set_q q'' s) b' F''.
Proof.
  intros Hok. destruct (load_bucket_queue_ok _ _ _ Hok) as (q' & b' & F' & E & Hok' & Hg & _ & Hx & _).
  destruct (load_bucket_queue_ok _ _ _ Hok') as (q2 & b2 & F2 & E2 & Hok2 & Hg2 & _ & Hx2 & _).
  exists q', b', F'. split_and!; [done..|by eapply pq_nodup, Hok'|done|].
  assert (b2 = b') as ->.
  { apply (reload_same (set_q q' s) b' F' q2 b2 F2); [apply Hok'|apply Hok2|done|].
    intros x. rewrite Hx2. simpl. rewrite (proj1 Hg), Hx. simpl. tauto. }
  by exists q2, F2.
Qed.

(** The next event is the oldest one of the lowest non-empty priority,
    and it leaves the queue; NULL is returned when nothing is queued. *)
Theorem next_event_min s b F :
  loop_ok s b F →
  ∃ e q' F', next_event s = Some (e, set_q q' s) ∧ loop_ok (set_q q' s) (drop_min b) F' ∧
    match mjoin b with
    | [] => e = NULL
    | _ => priority_head e ∉ mjoin (drop_min b) ∧
           ∃ i l, b !! i = Some (priority_head e :: l) ∧
                  ∀ j, (j < i)%nat → b !! j = Some []
    end.
Proof.
  intros Hok. destruct (next_event_ok _ _ _ Hok) as (q' & F' & E & Hok' & _).
  eexists _, q', F'. split; [exact E|]. split; [done|].
  destruct (mjoin b) as [|x l] eqn:Ej; [by rewrite decide_True|].
  rewrite decide_False by done. rewrite priority_head_inv.
  assert (min_item b = x) as -> by (unfold min_item; by rewrite Ej). split.
  - pose proof (pq_nodup _ _ _ (lo_rel _ _ _ Hok)) as Hnd. rewrite drop_min_mjoin, Ej in *.
    by apply NoDup_cons in Hnd as [? _].
  - clear -Ej. induction b as [|[|y m] b IH]; simpl in *; try done.
    + destruct (IH Ej) as (i & l' & Hi & Hj). exists (S i), l'. split; [done|].
      intros [|j] Hlt; [done|]. apply Hj. lia.
    + injection Ej as -> _. exists 0%nat, m. split; [done|lia].
Qed.

(** ** The live loop *)

Section live_run.
Context (wait : loop_state → loop_state) (body : ptr → loop_state → option (bool * loop_state)) (max_iter : Z).

(** The nodes that compete for the next turn: those queued, and those of the
    fired events that are not deleted and whose priority is in range. *)
Definition ready (s : loop_state) (b : list (list ptr)) (x : ptr) : Prop :=
  x ∈ mjoin b ∨ selected s undeleted (Z.to_nat (evl_n_events (ls_evl s))) (length b) x.

(** The event [e] is served, and [b'] stays: of what is ready, it is the oldest
    of the lowest priority, queued nodes keeping their place and fired events
    going to the end of the bucket of their priority. *)
Definition serves (s : loop_state) (b : list (list ptr)) (e : ptr) (b' : list (list ptr)) : Prop :=
  ∃ b1 i l, grows b b1 ∧ NoDup (mjoin b1) ∧ (∀ x, x ∈ mjoin b1 ↔ ready s b x) ∧
    (∀ i x, in_bucket b1 i x → in_bucket b i x ∨
       selected_at s undeleted (Z.to_nat (evl_n_events (ls_evl s))) i x) ∧
    b1 !! i = Some (priority_head e :: l) ∧ (∀ j, (j < i)%nat → b1 !! j = Some []) ∧ b' = <[i := l]> b1.

(** The events injected by the body of a turn, which go to the queue: those
    past the first [n0]. *)
Definition injected (n0 : Z) (s : loop_state) (b : list (list ptr)) (x : ptr) : Prop :=
  evl_n_events (ls_evl s) > n0 ∧
  selected s (λ i _, bool_decide (Z.of_nat i >= n0)) (Z.to_nat (evl_n_events (ls_evl s))) (length b) x.

(** Well formed, and no event is at the address NULL. *)
Definition live_ok (s : loop_state) (b : list (list ptr)) (F : gset Z) : Prop :=
  loop_ok s b F ∧ ls_events s !! NULL = None ∧ ∀ x, x ∈ mjoin b → event_of_node x ≠ NULL.

(** A run of the loop, from the [iter]-th turn: the events served, how it ends
    and what is queued then.  It ends because nothing is ready, because of
    the bound, with an event that is not served, or because the body breaks. *)
Inductive live_run : Z → loop_state → list (list ptr) → list ptr → ptr * Z * bool * loop_state → list (list ptr) → Prop :=
| run_idle iter s b q F : (∀ x, ¬ ready s b x) → live_ok (set_q q s) b F →
    live_run iter s b [] (NULL, iter, false, set_q q s) b
| run_bound iter s b e q b' F : serves s b e b' → max_iter ≤ iter → live_ok (set_q q s) b' F →
    live_run iter s b [] (e, iter, false, set_q q s) b'
| run_break iter s b e q b' F s1 b1 F1 : serves s b e b' → iter < max_iter → live_ok (set_q q s) b' F →
    body e (set_q q s) = Some (true, s1) → live_ok s1 b1 F1 →
    live_run iter s b [e] (e, iter, true, s1) b1
| run_next iter s b e q b' F s1 b1 F1 q2 b2 F2 es r bf : serves s b e b' → iter < max_iter → live_ok (set_q q s) b' F →
    body e (set_q q s) = Some (false, s1) → live_ok s1 b1 F1 →
    grows b1 b2 → (∀ x, x ∈ mjoin b2 ↔ x ∈ mjoin b1 ∨ injected (evl_n_events (ls_evl s)) s1 b1 x) →
    live_ok (set_q q2 s1) b2 F2 → live_run (iter + 1) (wait (set_q q2 s1)) b2 es r bf →
    live_run iter s b (e :: es) r bf.

Lemma drop_min_insert b x m :
  mjoin b = x :: m → ∃ i l, b !! i = Some (x :: l) ∧ (∀ j, (j < i)%nat → b !! j = Some []) ∧ drop_min b = <[i := l]> b.
Proof using.
  induction b as [|[|y l] b IH]; simpl; [done| |].
  - intros Ej. destruct (IH Ej) as (i & l' & Hi & Hj & E). exists (S i), l'. split; [done|]. split; [|by rewrite E].
    intros [|j] Hlt; [done|]. apply Hj. lia.
  - intros [= -> _]. exists 0%nat, l. split; [done|]. split; [lia|done].
Qed.

Lemma selected_event s sel k len x : ls_events s !! NULL = None → selected s sel k len x → event_of_node x ≠ NULL.
Proof using.
  intros Hn (j & e & ev & _ & _ & He & _ & _ & ->). unfold event_of_node, priority_head.
  replace (e + ev_priority_head_off - ev_priority_head_off) with e by lia. congruence.
Qed.

(** One turn of the loading and the serving. *)
Lemma next_turn s b F :
  live_ok s b F →
  ∃ s1 e q b' F', flb_event_load_bucket_queue s = Some s1 ∧ next_event s1 = Some (e, set_q q s) ∧
    live_ok (set_q q s) b' F' ∧
    (e = NULL ∧ b' = b ∧ (∀ x, ¬ ready s b x) ∨ e ≠ NULL ∧ serves s b e b').
Proof using.
  intros (Hok & Hnull & Hnode). destruct (load_bucket_queue_ok _ _ _ Hok) as (q1 & b1 & F1 & E1 & Hok1 & Hg & _ & Hx & Hp).
  destruct (next_event_ok _ _ _ Hok1) as (q2 & F2 & E2 & Hok2 & _).
  assert (Hnode1 : ∀ x, x ∈ mjoin b1 → event_of_node x ≠ NULL)
    by (intros x [?|?]%Hx; [by apply Hnode|by eapply selected_event]).
  destruct (mjoin b1) as [|x m] eqn:Ej.
  - exists (set_q q1 s), NULL, q2, b, F2. split; [done|]. split; [by rewrite E2|].
    assert (b1 = b) as ->.
    { apply grows_same_length; [done|]. rewrite Ej. destruct (mjoin b) as [|y m]; [done|].
      exfalso. apply (not_elem_of_nil y). rewrite Hx. left. by left. }
    assert (drop_min b = b) as Ed.
    { clear -Ej. induction b as [|[|y m] b IH]; simpl in *; try done. by rewrite IH. }
    rewrite Ed in Hok2. split; [done|]. left. split; [done|]. split; [done|]. intros x Hr. apply (not_elem_of_nil x). by apply Hx.
  - destruct (drop_min_insert b1 x m Ej) as (i & l & Hi & Hj & Ed).
    assert (min_item b1 = x) as Emin by (unfold min_item; by rewrite Ej). rewrite decide_False, Emin in E2 by done.
    exists (set_q q1 s), (event_of_node x), q2, (drop_min b1), F2. do 2 (split; [done|]). split.
    + split; [done|]. split; [done|]. intros y. rewrite drop_min_mjoin, Ej. simpl. intros Hy. apply Hnode1. by right.
    + right. split; [apply Hnode1; by left|]. exists b1, i, l. split_and!; try done; [by apply (pq_nodup _ _ _ (lo_rel _ _ _ Hok1))| |by rewrite priority_head_inv].
      intros y. by rewrite Ej, Hx.
Qed.

Lemma injected_turn n0 s b F :
  live_ok s b F →
  ∃ q b' F', flb_event_load_injected_events n0 s = Some (set_q q s) ∧ live_ok (set_q q s) b' F' ∧ grows b b' ∧
    ∀ x, x ∈ mjoin b' ↔ x ∈ mjoin b ∨ injected n0 s b x.
Proof using.
  intros (Hok & Hnull & Hnode). destruct (load_injected_ok n0 _ _ _ Hok) as (q & b' & F' & E & Hok' & Hg & _ & Hx).
  exists q, b', F'. split; [done|]. split; [|done]. split; [done|]. split; [done|].
  intros x [?|[_ ?]]%Hx; [by apply Hnode|by eapply selected_event].
Qed.

(** What the poll and the body must keep. *)
Context (Hwait : ∀ s b F, live_ok s b F → ∃ F', live_ok (wait s) b F').
Context (Hbody : ∀ e s b F, live_ok s b F → e ≠ NULL → ∃ stop s' b' F', body e s = Some (stop, s') ∧ live_ok s' b' F').

(** The loop from a state before loading. *)
Abbreviation live_from fuel iter s :=
  (s1 ← flb_event_load_bucket_queue s; '(e, s2) ← next_event s1;
   live_foreach_loop wait body fuel max_iter iter (evl_n_events (ls_evl s)) e s2).

Lemma live_loop k iter s b F :
  0 ≤ iter → iter + Z.of_nat k = max_iter → max_iter < 2 ^ 31 → live_ok s b F →
  ∃ r served b', live_from (S k) iter s = Some r ∧ live_run iter s b served r b'.
Proof using All.
  revert iter s b F. induction k as [|k IH]; intros iter s b F Hi Hk Hm Hok;
    destruct (next_turn s b F Hok) as (s1 & e & q & b' & F' & -> & E & Hok' & Hcase);
    cbn [mbind option_bind]; rewrite E; cbn [mbind option_bind live_foreach_loop];
    destruct Hcase as [(-> & -> & Hidle)|[He Hs]].
  - rewrite decide_False by tauto. eexists _, [], b. split; [done|by eapply run_idle].
  - rewrite decide_False by lia. eexists _, [], b'. split; [done|]. eapply run_bound; [done|lia|done].
  - rewrite decide_False by tauto. eexists _, [], b. split; [done|by eapply run_idle].
  - rewrite decide_True by (split; [done|lia]).
    destruct (Hbody e _ _ _ Hok' He) as (stop & s2 & b2 & F2 & Eb & Hok2). rewrite Eb. cbn [mbind option_bind].
    destruct stop; [eexists _, [e], b2; split; [done|]; eapply run_break; try done; lia|].
    rewrite int_add_Some by lia. cbn [mbind option_bind].
    destruct (injected_turn (evl_n_events (ls_evl s)) _ _ _ Hok2) as (q3 & b3 & F3 & -> & Hok3 & Hg3 & Hx3). cbn [mbind option_bind].
    destruct (Hwait _ _ _ Hok3) as [F4 Hok4].
    destruct (IH (iter + 1) _ _ _ ltac:(lia) ltac:(lia) Hm Hok4) as (r & served & bf & Er & Hr).
    exists r, (e :: served), bf. split; [exact Er|]. eapply run_next; try done; lia.
Qed.

Lemma live_run_counts iter s b served r bf :
  live_run iter s b served r bf → 0 ≤ iter ≤ max_iter →
  let '(e, n, stop, s') := r in
  n = iter + Z.of_nat (length served) - (if stop then 1 else 0) ∧ iter + Z.of_nat (length served) ≤ max_iter ∧
  (stop = true → last served = Some e) ∧
  (stop = false → n < max_iter → e = NULL ∧ ∀ x, ¬ ready s' bf x).
Proof using.
  induction 1 as [iter s b q F Hidle|iter s b e q b' F Hs Hlt|iter s b e q b' F s1 b1 F1 Hs Hlt
    |iter s b e q b' F s1 b1 F1 q2 b2 F2 es [[[e' n] stop] s'] bf Hs Hlt _ _ _ _ _ _ _ IH]; intros Hi; simpl.
  - split_and!; [lia|lia|done|]. intros _ _. split; [done|]. exact Hidle.
  - split_and!; [lia|lia|done|lia].
  - split_and!; [lia|lia|done|done].
  - destruct IH as (-> & ? & Hl & Hr); [lia|]. split_and!; [lia|lia| |exact Hr].
    intros Hstop. rewrite last_cons, Hl by done. done.
Qed.
End live_run.

(** C27. The live loop over a priority queue, with a bound [max_iter >= 0], for
    any body, which may break out of it, delete, inject or change events, and
    any poll, which may fire new ones, as long as they keep the queue and the
    fired array well formed and the poll leaves what is queued.  The loop ends.
    It serves, one at a time, what is ready at that time: the oldest event of
    the lowest priority among those queued, those that were injected by the
    body since, and those that are fired and not deleted.  It runs the body at
    most [max_iter] times; when the body has not broken out of it and the
    bound is not reached, nothing is left: nothing is queued, and no
    fired event that is not deleted has a priority in range. *)
Theorem flb_event_priority_live_foreach_serves wait body max_iter s b F :
  (∀ s b F, live_ok s b F → ∃ F', live_ok (wait s) b F') →
  (∀ e s b F, live_ok s b F → e ≠ NULL → ∃ stop s' b' F', body e s = Some (stop, s') ∧ live_ok s' b' F') →
  0 ≤ max_iter < 2 ^ 31 → live_ok s b F →
  ∃ e iter stop s' served b',
    flb_event_priority_live_foreach wait body (S (Z.to_nat max_iter)) max_iter s = Some (e, iter, stop, s') ∧
    live_run wait body max_iter 0 s b served (e, iter, stop, s') b' ∧
    Z.of_nat (length served) ≤ max_iter ∧
    (if stop : bool then last served = Some e
     else iter = Z.of_nat (length served) ∧
       (iter < max_iter → e = NULL ∧ mjoin b' = [] ∧
          ∀ x, ¬ selected s' undeleted (Z.to_nat (evl_n_events (ls_evl s'))) (length b') x)).
Proof.
  intros Hwait Hbody Hmax Hok.
  destruct (live_loop wait body max_iter Hwait Hbody (Z.to_nat max_iter) 0 s b F ltac:(lia) ltac:(lia) ltac:(lia) Hok)
    as ([[[e iter] stop] s'] & served & b' & E & Hr).
  destruct (live_run_counts _ _ _ _ _ _ _ _ _ Hr ltac:(lia)) as (En & Hlen & Hstop & Hidle).
  exists e, iter, stop, s', served, b'. split; [exact E|]. split; [exact Hr|]. split; [lia|].
  destruct stop; [by apply Hstop|]. split; [lia|]. intros Hlt. destruct (Hidle eq_refl Hlt) as [-> Hno]. split; [done|]. split.
  - destruct (mjoin b') as [|x m] eqn:Ej; [done|]. destruct (Hno x). left. rewrite Ej. by left.
  - intros x Hx. apply (Hno x). by right.
Qed.

End event_loop.

Arguments loop_state : clear implicits.
Arguments LoopState {Q}.

(** ** The theorems at work: the event loop over the bucket queue, with three
    fired events, one of them deleted. *)

Definition demo_event (status prio : Z) : mk_event :=
  MkEvent 7 MK_EVENT_CUSTOM MK_EVENT_READ status NULL NULL prio.

Definition demo_loop : loop_state bq_state :=
  LoopState (demo_queue, demo_queue_heap)
    {[ 1000 := demo_event MK_EVENT_REGISTERED 6;
       1100 := demo_event MK_EVENT_REGISTERED 0;
       1200 := demo_event MK_EVENT_NONE 0 ]}
    (MkEventLoop 256 3 NULL (MkEventCtx 256 3 NULL [1000; 1100; 1200])).

Lemma demo_loop_ok :
  loop_ok demo_loop (replicate 8 []) {[ 1048; 1148; 1248 ]}.
Proof.
  split; [exact demo_queue_rel|simpl; lia|].
  assert (Forall (λ e, is_Some (ls_events demo_loop !! e) ∧
    priority_head e ∈ ({[ 1048; 1148; 1248 ]} : gset Z)) (fired_events demo_loop)) as Hall
    by evaluate.
  intros e He. rewrite Forall_forall in Hall. destruct (Hall e He) as [? ?].
  split; [done|by right].
Qed.

Lemma flb_event_load_bucket_queue_exact_witness :
  loop_ok demo_loop (replicate 8 []) {[ 1048; 1148; 1248 ]} ∧
  ∃ q' b' F', flb_event_load_bucket_queue demo_loop = Some (set_q q' demo_loop) ∧
    loop_ok (set_q q' demo_loop) b' F'.
Proof.
  split; [exact demo_loop_ok|].
  destruct (flb_event_load_bucket_queue_exact _ _ _ demo_loop_ok) as (q' & b' & F' & ? & ? & _).
  exists q', b', F'. split; assumption.
Defined.

Lemma next_event_min_witness :
  ∃ e q' F', next_event demo_loop = Some (e, set_q q' demo_loop) ∧
    loop_ok (set_q q' demo_loop) (replicate 8 []) F' ∧ e = NULL.
Proof. exact (next_event_min _ _ _ demo_loop_ok). Defined.

(** A poll that finds nothing more: the fired array is empty. *)
Definition demo_poll (s : loop_state bq_state) : loop_state bq_state :=
  LoopState (ls_q s) (ls_events s) (MkEventLoop 256 0 NULL (MkEventCtx 256 3 NULL [])).

Lemma flb_event_priority_live_foreach_serves_witness :
  ∃ s' served b',
    flb_event_priority_live_foreach demo_poll (λ _ s, Some (false, s)) 6 5 demo_loop = Some (NULL, 2, false, s') ∧
    live_run demo_poll (λ _ s, Some (false, s)) 5 0 demo_loop (replicate 8 []) served (NULL, 2, false, s') b' ∧
    Z.of_nat (length served) = 2 ∧ mjoin b' = [].
Proof.
  destruct (flb_event_priority_live_foreach_serves demo_poll (λ _ s, Some (false, s)) 5 demo_loop (replicate 8 [])
    {[ 1048; 1148; 1248 ]}) as (e & iter & stop & s' & served & b' & E & Hr & _ & Hc).
  - intros s b F ([H1 H2 H3] & H4 & H5). exists F. split; [|split; [exact H4|exact H5]].
    split; [exact H1|simpl; lia|]. intros e He. apply not_elem_of_nil in He. destruct He.
  - intros e s b F H _. exists false, s, b, F. split; [reflexivity|exact H].
  - lia.
  - split; [exact demo_loop_ok|]. split; [reflexivity|]. intros x Hx. apply not_elem_of_nil in Hx. destruct Hx.
  - assert (E' : (λ r, (r.1.1.1, r.1.1.2, r.1.2)) <$>
      flb_event_priority_live_foreach demo_poll (λ _ s, Some (false, s)) 6 5 demo_loop = Some (NULL, 2, false))
      by (vm_compute; reflexivity).
    pose proof (eq_trans (eq_sym (f_equal (fmap (λ r, (r.1.1.1, r.1.1.2, r.1.2))) E)) E') as E2.
    simpl in E2. injection E2 as -> -> ->. destruct Hc as [Hn Hi]. destruct (Hi ltac:(lia)) as (_ & Hj & _).
    exists s', served, b'. split; [exact E|]. split; [exact Hr|]. split; [symmetry; exact Hn|exact Hj].
Defined.
