(* ===== verification/Codes.v ===== *)
(** [flb_bits.h], [flb_engine_macros.h] and the packed return codes of
    [flb_task.h]: values several fields of which travel in one integer. *)
From S2P Require Import Prelude MkEvent.

(** * [flb_bits.h] *)

(** [b] is an [int] or unsigned operand converted to 64 bits. *)
Definition FLB_BITS_U64_SET (a b : Z) : Z := Z.lor (u64 (Z.shiftl (u64 a) 32)) (u64 b).
Definition FLB_BITS_U64_HIGH (val : Z) : Z := Z.shiftr (u64 val) 32.
Definition FLB_BITS_U64_LOW (val : Z) : Z := Z.land (u64 val) 4294967295.

(** [val & ~(1 << n)] on 32-bit integers. *)
Definition FLB_BITS_CLEAR (val n : Z) : option Z :=
  if decide (0 ≤ n < 32) then Some (Z.land val (Z.lnot (s32 (Z.shiftl 1 n)))) else None.

(** [FLB_BIT_MASK(T, n)] for an unsigned [w]-bit type [T]; shifting by the
    width or more is undefined. *)
Definition FLB_BIT_MASK (w n : Z) : option Z :=
  let sh := w - n in
  if decide (0 ≤ sh < w) then
    Some (Z.land (wrap w (- c_bool (bool_decide (n ≠ 0)))) (Z.shiftr (wrap w (-1)) sh))
  else None.

(** * [flb_engine_macros.h] *)

Definition FLB_ENGINE_EV_CORE : Z := MK_EVENT_NOTIFICATION.
Definition FLB_ENGINE_EV_CUSTOM : Z := MK_EVENT_CUSTOM.
Definition FLB_ENGINE_EV_THREAD : Z := 1024.
Definition FLB_ENGINE_EV_SCHED : Z := 2048.
Definition FLB_ENGINE_EV_SCHED_FRAME : Z := FLB_ENGINE_EV_SCHED + 4096.
Definition FLB_ENGINE_EV_INPUT : Z := 8192.
Definition FLB_ENGINE_EV_THREAD_INPUT : Z := 16384.
Definition FLB_ENGINE_EV_OUTPUT : Z := 32768.
Definition FLB_ENGINE_EV_THREAD_OUTPUT : Z := 65536.
Definition FLB_ENGINE_EV_THREAD_ENGINE : Z := 131072.

Definition FLB_ENGINE_EV_STARTED : Z := FLB_BITS_U64_SET 1 1.
Definition FLB_ENGINE_EV_FAILED : Z := FLB_BITS_U64_SET 1 2.
Definition FLB_ENGINE_EV_STOP : Z := FLB_BITS_U64_SET 1 3.
Definition FLB_ENGINE_EV_SHUTDOWN : Z := FLB_BITS_U64_SET 1 4.
Definition FLB_ENGINE_STARTED : Z := FLB_BITS_U64_LOW FLB_ENGINE_EV_STARTED.
Definition FLB_ENGINE_FAILED : Z := FLB_BITS_U64_LOW FLB_ENGINE_EV_FAILED.
Definition FLB_ENGINE_STOP : Z := FLB_BITS_U64_LOW FLB_ENGINE_EV_STOP.
Definition FLB_ENGINE_SHUTDOWN : Z := FLB_BITS_U64_LOW FLB_ENGINE_EV_SHUTDOWN.

Definition FLB_ENGINE_TASK : Z := 2.
Definition FLB_ENGINE_IN_CORO : Z := 3.
Definition FLB_ENGINE_LOOP_MAX_ITER : Z := 10.

Definition FLB_ENGINE_PRIORITY_DEFAULT : Z := MK_EVENT_PRIORITY_DEFAULT.
Definition FLB_ENGINE_PRIORITY_COUNT : Z := 8.
Definition FLB_ENGINE_PRIORITY_TOP : Z := 0.
Definition FLB_ENGINE_PRIORITY_BOTTOM : Z := FLB_ENGINE_PRIORITY_COUNT - 1.
Definition FLB_ENGINE_PRIORITY_NETWORK : Z := 1.
Definition FLB_ENGINE_PRIORITY_CB_SCHED : Z := FLB_ENGINE_PRIORITY_TOP.
Definition FLB_ENGINE_PRIORITY_CB_TIMER : Z := FLB_ENGINE_PRIORITY_TOP.
Definition FLB_ENGINE_PRIORITY_SHUTDOWN : Z := FLB_ENGINE_PRIORITY_TOP.
Definition FLB_ENGINE_PRIORITY_FLUSH : Z := FLB_ENGINE_PRIORITY_NETWORK + 1.
Definition FLB_ENGINE_PRIORITY_DNS : Z := FLB_ENGINE_PRIORITY_NETWORK.
Definition FLB_ENGINE_PRIORITY_CONNECT : Z := FLB_ENGINE_PRIORITY_NETWORK.
Definition FLB_ENGINE_PRIORITY_SEND_RECV : Z := FLB_ENGINE_PRIORITY_NETWORK.
Definition FLB_ENGINE_PRIORITY_THREAD : Z := FLB_ENGINE_PRIORITY_DEFAULT.

(** * The packed return value of [flb_task.h]

    [val] is an unsigned 32-bit integer: 4 bits of return value, 14 bits of
    task id, 14 bits of output id.  [ret << 28] is computed as an [int]: from
    [ret = 8] on it is beyond its range, which C leaves undefined; the value
    here is that of the two's complement shift compilers make.  The results of
    the program are 0, 1 and 2. *)
Definition FLB_TASK_RET (val : Z) : Z := Z.shiftr val 28.
Definition FLB_TASK_ID (val : Z) : Z := Z.shiftr (u32 (Z.land val 268419072)) 14.
Definition FLB_TASK_OUT (val : Z) : Z := Z.land val 16383.
Definition FLB_TASK_SET (ret task_id out_id : Z) : Z :=
  u32 (Z.lor (Z.lor (Z.shiftl ret 28) (Z.shiftl task_id 14)) out_id).

(** * Facts on packing *)

Lemma FLB_TASK_ID_mod val : FLB_TASK_ID val = (val / 2 ^ 14) mod 2 ^ 14.
Proof.
  unfold FLB_TASK_ID, wrap. rewrite <- (Z.land_ones _ 32), !Z.shiftr_land by lia.
  rewrite <- Z.land_assoc. change (Z.land _ _) with (Z.ones 14) at 2.
  by rewrite Z.land_ones, Z.shiftr_div_pow2 by lia.
Qed.

Lemma FLB_TASK_OUT_mod val : FLB_TASK_OUT val = val mod 2 ^ 14.
Proof. unfold FLB_TASK_OUT. change 16383 with (Z.ones 14). by rewrite Z.land_ones by lia. Qed.

Lemma FLB_TASK_RET_div val : FLB_TASK_RET val = val / 2 ^ 28.
Proof. unfold FLB_TASK_RET. by rewrite Z.shiftr_div_pow2 by lia. Qed.

Lemma FLB_TASK_SET_add ret task_id out_id :
  0 ≤ ret < 2 ^ 4 → 0 ≤ task_id < 2 ^ 14 → 0 ≤ out_id < 2 ^ 14 →
  FLB_TASK_SET ret task_id out_id = ret * 2 ^ 28 + task_id * 2 ^ 14 + out_id.
Proof.
  intros. unfold FLB_TASK_SET. rewrite (lor_shiftl_add ret (Z.shiftl task_id 14) 28)
    by (rewrite ?Z.shiftl_mul_pow2; lia).
  rewrite Z.shiftl_mul_pow2 by lia.
  replace (ret * 2 ^ 28 + task_id * 2 ^ 14) with (Z.shiftl (ret * 2 ^ 14 + task_id) 14)
    by (rewrite Z.shiftl_mul_pow2; lia).
  rewrite lor_shiftl_add, Z.shiftl_mul_pow2 by lia. unfold wrap. rewrite Z.mod_small; lia.
Qed.

Lemma FLB_BITS_U64_SET_add a b :
  0 ≤ a < 2 ^ 32 → 0 ≤ b < 2 ^ 32 → FLB_BITS_U64_SET a b = a * 2 ^ 32 + b.
Proof.
  intros. unfold FLB_BITS_U64_SET, wrap. rewrite (Z.mod_small a), (Z.mod_small b) by lia.
  rewrite (Z.mod_small (Z.shiftl a 32)) by (rewrite Z.shiftl_mul_pow2; lia).
  by rewrite lor_shiftl_add by lia.
Qed.

Lemma FLB_BITS_U64_HIGH_div v : 0 ≤ v < 2 ^ 64 → FLB_BITS_U64_HIGH v = v / 2 ^ 32.
Proof.
  intros. unfold FLB_BITS_U64_HIGH, wrap. rewrite Z.mod_small by lia.
  by rewrite Z.shiftr_div_pow2 by lia.
Qed.

Lemma FLB_BITS_U64_LOW_mod v : 0 ≤ v < 2 ^ 64 → FLB_BITS_U64_LOW v = v mod 2 ^ 32.
Proof.
  intros. unfold FLB_BITS_U64_LOW, wrap. rewrite Z.mod_small by lia.
  change 4294967295 with (Z.ones 32). by rewrite Z.land_ones by lia.
Qed.

(** * Theorems *)

(** C37. Packing and unpacking are inverse both ways: each field in range is
    read back, and every 32-bit value is the packing of its fields; hence
    distinct results never share a code.  (A result of 8 or more, which the
    program has not, overflows the [int] that is shifted.) *)
Theorem flb_task_code_roundtrip ret task_id out_id val :
  0 ≤ ret < 2 ^ 4 → 0 ≤ task_id < 2 ^ 14 → 0 ≤ out_id < 2 ^ 14 → 0 ≤ val < 2 ^ 32 →
  FLB_TASK_RET (FLB_TASK_SET ret task_id out_id) = ret ∧
  FLB_TASK_ID (FLB_TASK_SET ret task_id out_id) = task_id ∧
  FLB_TASK_OUT (FLB_TASK_SET ret task_id out_id) = out_id ∧
  FLB_TASK_SET (FLB_TASK_RET val) (FLB_TASK_ID val) (FLB_TASK_OUT val) = val.
Proof.
  intros Hr Ht Ho Hv. rewrite (FLB_TASK_SET_add ret) by done.
  rewrite !FLB_TASK_RET_div, !FLB_TASK_ID_mod, !FLB_TASK_OUT_mod.
  split_and!; [Z.div_mod_to_equations; lia..|].
  rewrite FLB_TASK_SET_add; Z.div_mod_to_equations; lia.
Qed.

(** The two halves of an engine event round-trip when both fit 32 bits;
    a negative [int] low half overwrites the high half with ones, so the
    event type is lost. *)
Theorem flb_bits_u64_roundtrip a b :
  0 ≤ a < 2 ^ 32 → - 2 ^ 31 ≤ b < 2 ^ 32 →
  FLB_BITS_U64_LOW (FLB_BITS_U64_SET a b) = u32 b ∧
  FLB_BITS_U64_HIGH (FLB_BITS_U64_SET a b) = if decide (0 ≤ b) then a else 2 ^ 32 - 1.
Proof.
  intros Ha Hb. destruct (decide (0 ≤ b)) as [Hp|Hn].
  - rewrite FLB_BITS_U64_SET_add by lia.
    rewrite FLB_BITS_U64_LOW_mod, FLB_BITS_U64_HIGH_div by lia. unfold wrap.
    split; Z.div_mod_to_equations; lia.
  - assert (E : FLB_BITS_U64_SET a b = Z.lor (Z.shiftl (2 ^ 32 - 1) 32) (b + 2 ^ 32)).
    { unfold FLB_BITS_U64_SET, wrap. rewrite (Z.mod_small a) by lia.
      rewrite (Z.mod_small (Z.shiftl a 32)) by (rewrite Z.shiftl_mul_pow2; lia).
      replace (b mod 2 ^ 64) with ((2 ^ 32 - 1) * 2 ^ 32 + (b + 2 ^ 32))
        by (Z.div_mod_to_equations; lia).
      rewrite <- lor_shiftl_add, Z.lor_assoc by lia. f_equal.
      rewrite <- Z.shiftl_lor. f_equal. change (2 ^ 32 - 1) with (Z.ones 32).
      apply Z.lor_ones_low; [lia|]. destruct (decide (a = 0)) as [->|]; [done|].
      apply Z.log2_lt_pow2; lia. }
    rewrite E, lor_shiftl_add by lia.
    rewrite FLB_BITS_U64_LOW_mod, FLB_BITS_U64_HIGH_div by lia. unfold wrap.
    split; Z.div_mod_to_equations; lia.
Qed.

(** [FLB_BIT_MASK] is the number with the [n] low bits set for [n] from 1
    to the width of the type.  For [n = 0] it shifts by the whole width, which
    C leaves undefined, before the guard on [n] can mask the result. *)
Theorem flb_bit_mask_ones w n :
  0 < w → 0 ≤ n ≤ w → FLB_BIT_MASK w n = if decide (n = 0) then None else Some (Z.ones n).
Proof.
  intros Hw Hn. unfold FLB_BIT_MASK. destruct (decide (n = 0)) as [->|Hz].
  - rewrite decide_False by lia. done.
  - rewrite decide_True by lia. rewrite bool_decide_eq_true_2 by done. simpl.
    assert (Hm : wrap w (-1) = Z.ones w).
    { unfold wrap. rewrite Z.ones_equiv. symmetry. apply Z.mod_unique with (-1); [|lia].
      left. pose proof (Z.pow_pos_nonneg 2 w). lia. }
    change (- (1)) with (-1). rewrite Hm. f_equal.
    rewrite Z.shiftr_div_pow2 by lia. rewrite Z.ones_div_pow2 by lia.
    replace (w - (w - n)) with n by lia. rewrite Z.land_comm.
    rewrite Z.land_ones by lia. rewrite Z.mod_small; [done|].
    rewrite Z.ones_equiv. pose proof (Z.pow_pos_nonneg 2 n).
    pose proof (Z.pow_le_mono_r 2 n w). lia.
Qed.

Lemma flb_task_code_roundtrip_witness :
  FLB_TASK_RET (FLB_TASK_SET 2 77 9) = 2 ∧ FLB_TASK_ID (FLB_TASK_SET 2 77 9) = 77 ∧
  FLB_TASK_OUT (FLB_TASK_SET 2 77 9) = 9 ∧
  FLB_TASK_SET (FLB_TASK_RET 4294967295) (FLB_TASK_ID 4294967295) (FLB_TASK_OUT 4294967295)
    = 4294967295.
Proof. apply (flb_task_code_roundtrip 2 77 9 4294967295); lia. Defined.

Lemma flb_bits_u64_roundtrip_witness :
  FLB_BITS_U64_LOW (FLB_BITS_U64_SET 2 (-1)) = u32 (-1) ∧
  FLB_BITS_U64_HIGH (FLB_BITS_U64_SET 2 (-1)) = 2 ^ 32 - 1.
Proof. apply (flb_bits_u64_roundtrip 2 (-1)); lia. Defined.

Lemma flb_bit_mask_ones_witness : FLB_BIT_MASK 64 5 = Some (Z.ones 5).
Proof. apply (flb_bit_mask_ones 64 5); lia. Defined.
