(* ===== verification/Task.v ===== *)
(** [flb_task.h]: the unit of work of the engine.  A task keeps the list of
    its routes, each bound to an output instance with a status, a count of
    users and the list of pending retries. *)
From S2P Require Import Prelude MkList.

(** * Constants *)

Definition FLB_TASK_NEW : Z := 0.
Definition FLB_TASK_RUNNING : Z := 1.

Definition FLB_TASK_ROUTE_INACTIVE : Z := 0.
Definition FLB_TASK_ROUTE_ACTIVE : Z := 1.
Definition FLB_TASK_ROUTE_DROPPED : Z := 2.

(** * Structures

    The list nodes inside the structures live in the list heap, at the
    offsets of the 64-bit layout. *)

Record flb_task_route := TaskRoute {
  tr_status : Z;
  tr_out : ptr
}.
Definition tr_head_off : Z := 16.

Record flb_task_retry := TaskRetry {
  ty_attempts : Z;
  ty_o_ins : ptr;
  ty_parent : ptr
}.
Definition ty_head_off : Z := 24.

Record flb_task := Task {
  tk_id : Z;
  tk_ref_id : Z;
  tk_status : Z;
  tk_users : Z;
  tk_event_chunk : ptr;
  tk_ic : ptr;
  tk_records : Z;
  tk_i_ins : ptr;
  tk_config : ptr;
  tk_locked : bool          (** the mutex *)
}.
Definition tk_routes_off : Z := 48.
Definition tk_retries_off : Z := 64.
Definition tk_head_off : Z := 80.

(** [struct flb_task_queue]: two list heads. *)
Definition tq_pending_off : Z := 0.
Definition tq_in_progress_off : Z := 16.

Record flb_task_enqueued := TaskEnqueued {
  te_task : ptr;
  te_retry : ptr;
  te_out_instance : ptr;
  te_config : ptr
}.
Definition te_head_off : Z := 32.

(** The part of the heap tasks use. *)
Record task_store := TaskStore {
  ts_list : lheap;
  ts_tasks : gmap Z flb_task;
  ts_routes : gmap Z flb_task_route
}.

Definition set_task (p : ptr) (t : flb_task) (s : task_store) : task_store :=
  TaskStore (ts_list s) (<[p := t]> (ts_tasks s)) (ts_routes s).

Definition set_route (p : ptr) (r : flb_task_route) (s : task_store) : task_store :=
  TaskStore (ts_list s) (ts_tasks s) (<[p := r]> (ts_routes s)).

Definition set_users (n : Z) (t : flb_task) : flb_task :=
  Task (tk_id t) (tk_ref_id t) (tk_status t) n (tk_event_chunk t) (tk_ic t)
    (tk_records t) (tk_i_ins t) (tk_config t) (tk_locked t).

Definition set_locked (b : bool) (t : flb_task) : flb_task :=
  Task (tk_id t) (tk_ref_id t) (tk_status t) (tk_users t) (tk_event_chunk t) (tk_ic t)
    (tk_records t) (tk_i_ins t) (tk_config t) b.

(** * Users *)

Section users.
(** [flb_task_destroy(task, del)], defined in the library. *)
Context (flb_task_destroy : ptr → Z → task_store → option task_store).

Definition flb_task_users_release (task : ptr) (s : task_store) : option task_store :=
  t ← ts_tasks s !! task;
  if decide (tk_users t = 0) then
    n ← mk_list_size (task + tk_retries_off) (ts_list s);
    if decide (n = 0) then flb_task_destroy task FLB_TRUE s else Some s
  else Some s.

Definition flb_task_users_inc (task : ptr) (s : task_store) : option task_store :=
  t ← ts_tasks s !! task;
  n ← int_add (tk_users t) 1;
  Some (set_task task (set_users n t) s).

Definition flb_task_users_dec (task : ptr) (release_check : Z) (s : task_store)
  : option task_store :=
  t ← ts_tasks s !! task;
  n ← int_add (tk_users t) (-1);
  let s := set_task task (set_users n t) s in
  if decide (release_check = FLB_TRUE) then flb_task_users_release task s else Some s.
End users.

(** * Lock

    Taking a mutex that is held blocks: the operation has no result. *)

Definition flb_task_acquire_lock (task : ptr) (s : task_store) : option task_store :=
  t ← ts_tasks s !! task;
  if tk_locked t then None else Some (set_task task (set_locked true t) s).

Definition flb_task_release_lock (task : ptr) (s : task_store) : option task_store :=
  t ← ts_tasks s !! task;
  if tk_locked t then Some (set_task task (set_locked false t) s) else None.

(** * Routes *)

Definition flb_task_get_active_route_count (task : ptr) (s : task_store) : option Z :=
  '(result, _) ←
    mk_list_foreach (λ st : Z * task_store, ts_list st.2) (task + tk_routes_off)
      (λ iterator st,
         let '(result, s) := st in
         route ← ts_routes s !! mk_list_entry iterator tr_head_off;
         if decide (tr_status route = FLB_TASK_ROUTE_ACTIVE) then
           result ← int_add result 1; Some (false, (result, s))
         else Some (false, (result, s))) (0, s);
  Some result.

(** The status is an [int], the result a [size_t]. *)
Definition flb_task_get_route_status (task o_ins : ptr) (s : task_store) : option Z :=
  '(result, _) ←
    mk_list_foreach (λ st : Z * task_store, ts_list st.2) (task + tk_routes_off)
      (λ iterator st,
         let '(result, s) := st in
         route ← ts_routes s !! mk_list_entry iterator tr_head_off;
         if decide (tr_out route = o_ins) then
           Some (true, (size_t (tr_status route), s))
         else Some (false, (result, s))) (FLB_TASK_ROUTE_INACTIVE, s);
  Some result.

Definition flb_task_set_route_status (task o_ins : ptr) (new_status : Z) (s : task_store)
  : option task_store :=
  mk_list_foreach ts_list (task + tk_routes_off)
    (λ iterator s,
       let p := mk_list_entry iterator tr_head_off in
       route ← ts_routes s !! p;
       if decide (tr_out route = o_ins) then
         Some (true, set_route p (TaskRoute new_status (tr_out route)) s)
       else Some (false, s)) s.

Definition flb_task_activate_route (task o_ins : ptr) : task_store → option task_store :=
  flb_task_set_route_status task o_ins FLB_TASK_ROUTE_ACTIVE.

Definition flb_task_deactivate_route (task o_ins : ptr) : task_store → option task_store :=
  flb_task_set_route_status task o_ins FLB_TASK_ROUTE_INACTIVE.

Definition flb_task_drop_route (task o_ins : ptr) : task_store → option task_store :=
  flb_task_set_route_status task o_ins FLB_TASK_ROUTE_DROPPED.

(** * Invariant *)

(** The routes of a task, in order: their addresses and their contents. *)
Record routes_ok (s : task_store) (task : ptr) (rs : list (ptr * flb_task_route)) : Prop := {
  ro_list : dll (ts_list s) (task + tk_routes_off) ((λ r, r.1 + tr_head_off) <$> rs);
  ro_map : ∀ p r, (p, r) ∈ rs → ts_routes s !! p = Some r
}.

(** What the route functions compute, on the list of routes. *)
Fixpoint route_status (o_ins : ptr) (rs : list (ptr * flb_task_route)) : Z :=
  match rs with
  | [] => FLB_TASK_ROUTE_INACTIVE
  | (_, r) :: rs => if decide (tr_out r = o_ins) then tr_status r else route_status o_ins rs
  end.

Fixpoint update_route (o_ins : ptr) (st : Z) (rs : list (ptr * flb_task_route))
  : list (ptr * flb_task_route) :=
  match rs with
  | [] => []
  | (p, r) :: rs =>
      if decide (tr_out r = o_ins) then (p, TaskRoute st (tr_out r)) :: rs
      else (p, r) :: update_route o_ins st rs
  end.

Definition active_count (rs : list (ptr * flb_task_route)) : Z :=
  Z.of_nat (length (filter (λ r, tr_status r.2 = FLB_TASK_ROUTE_ACTIVE) rs)).

Lemma update_route_fst o st rs : fst <$> update_route o st rs = fst <$> rs.
Proof. induction rs as [|[p r] rs IH]; simpl; [done|]. case_decide; simpl; by f_equal. Qed.

Lemma update_route_app o st rs1 rs2 :
  Forall (λ r, tr_out r.2 ≠ o) rs1 →
  update_route o st (rs1 ++ rs2) = rs1 ++ update_route o st rs2.
Proof.
  induction rs1 as [|[p r] rs1 IH]; simpl; [done|]. intros [Hr Hrs]%Forall_cons.
  rewrite decide_False by done. by rewrite IH.
Qed.

Lemma route_status_app o rs1 rs2 :
  Forall (λ r, tr_out r.2 ≠ o) rs1 → route_status o (rs1 ++ rs2) = route_status o rs2.
Proof.
  induction rs1 as [|[p r] rs1 IH]; simpl; [done|]. intros [Hr Hrs]%Forall_cons.
  by rewrite decide_False, IH.
Qed.

Lemma routes_nodup s task rs : routes_ok s task rs → NoDup (fst <$> rs).
Proof.
  intros [[_ Hnd] _]. apply NoDup_cons in Hnd as [_ Hnd].
  apply (NoDup_fmap_1 (λ p, p + tr_head_off)). by rewrite <- list_fmap_compose.
Qed.

Lemma entry_off x : mk_list_entry (x + tr_head_off) tr_head_off = x.
Proof. unfold mk_list_entry, container_of. lia. Qed.

(** Splitting the node list splits the routes. *)
Lemma routes_split rs dn x rest :
  (λ r : ptr * flb_task_route, r.1 + tr_head_off) <$> rs = dn ++ x :: rest →
  ∃ rs1 p r rs2, rs = rs1 ++ (p, r) :: rs2 ∧ x = p + tr_head_off ∧
    dn = (λ r, r.1 + tr_head_off) <$> rs1 ∧ rest = (λ r, r.1 + tr_head_off) <$> rs2.
Proof.
  intros E. apply fmap_app_inv in E as (rs1 & rs' & -> & E & ->).
  destruct rs' as [|[p r] rs2]; [done|]. simpl in E. injection E as -> ->.
  by exists rs1, p, r, rs2.
Qed.

(** ** The route loops *)

Abbreviation nodes_of rs := ((λ r : ptr * flb_task_route, r.1 + tr_head_off) <$> rs) (only parsing).

Lemma take_split {A} (rs1 : list A) x rs2 (dn : list ptr) :
  length dn = length rs1 →
  take (length dn) (rs1 ++ x :: rs2) = rs1 ∧
  take (length (dn ++ [0])) (rs1 ++ x :: rs2) = rs1 ++ [x].
Proof.
  intros E. rewrite length_app, E. simpl. split; [apply take_app_length|].
  rewrite take_app_add. done.
Qed.

Lemma active_count_snoc rs p r :
  active_count (rs ++ [(p, r)]) = active_count rs +
    if decide (tr_status r = FLB_TASK_ROUTE_ACTIVE) then 1 else 0.
Proof.
  unfold active_count. rewrite filter_app, length_app. simpl.
  case_decide; [rewrite filter_cons_True by done|rewrite filter_cons_False by done]; simpl; lia.
Qed.

Lemma active_count_le rs : 0 ≤ active_count rs ≤ Z.of_nat (length rs).
Proof. unfold active_count. pose proof (length_filter (λ r : ptr * flb_task_route, tr_status r.2 = FLB_TASK_ROUTE_ACTIVE) rs). lia. Qed.

Lemma get_active_route_count_ok s task rs :
  routes_ok s task rs → Z.of_nat (length rs) < 2 ^ 31 →
  flb_task_get_active_route_count task s = Some (active_count rs).
Proof.
  intros [Hd Hm] Hlen. unfold flb_task_get_active_route_count.
  match goal with |- (mk_list_foreach ?lh ?hd ?body ?s0 ≫= _) = _ =>
    destruct (mk_list_foreach_rule lh hd (nodes_of rs)
      (λ dn st, st = (active_count (take (length dn) rs), s)) (λ _, False) body s0)
      as (st & -> & [->|[]]) end.
  - intros dn st ->. done.
  - intros dn x rest st E ->. apply routes_split in E as (rs1 & p & r & rs2 & -> & -> & -> & _).
    destruct (take_split rs1 (p, r) rs2 (nodes_of rs1)) as [T1 T2]; [by rewrite length_fmap|].
    rewrite length_app in *. simpl in *. rewrite T1, T2.
    rewrite entry_off, (Hm p r) by set_solver. simpl. rewrite active_count_snoc.
    pose proof (active_count_le rs1).
    case_decide; simpl; [rewrite int_add_Some by lia; simpl|]; eexists _, _; (split; [done|]);
      by rewrite ?Z.add_0_r.
  - done.
  - simpl. rewrite length_fmap, take_ge; done.
Qed.

Lemma get_route_status_ok s task o rs :
  routes_ok s task rs →
  flb_task_get_route_status task o s = Some
    (if decide (Exists (λ r, tr_out r.2 = o) rs) then size_t (route_status o rs)
     else FLB_TASK_ROUTE_INACTIVE).
Proof.
  intros [Hd Hm]. unfold flb_task_get_route_status.
  match goal with |- (mk_list_foreach ?lh ?hd ?body ?s0 ≫= _) = _ =>
    destruct (mk_list_foreach_rule lh hd (nodes_of rs)
      (λ dn st, st = (FLB_TASK_ROUTE_INACTIVE, s) ∧
                Forall (λ r, tr_out r.2 ≠ o) (take (length dn) rs))
      (λ st, st = (size_t (route_status o rs), s) ∧ Exists (λ r, tr_out r.2 = o) rs) body s0)
      as (st & -> & [[-> Hf]|[-> Hex]]) end.
  - intros dn st [-> _]. done.
  - intros dn x rest st E [-> Hf].
    apply routes_split in E as (rs1 & p & r & rs2 & -> & -> & -> & _).
    destruct (take_split rs1 (p, r) rs2 (nodes_of rs1)) as [T1 T2]; [by rewrite length_fmap|].
    rewrite length_app in *. simpl in *. rewrite T1 in Hf. rewrite T2.
    rewrite entry_off, (Hm p r) by set_solver. simpl. case_decide as Ho.
    + eexists _, _. split; [done|]. simpl. rewrite route_status_app by done. simpl.
      rewrite decide_True by done. split; [done|]. apply Exists_app. right. by left.
    + eexists _, _. split; [done|]. simpl. split; [done|]. apply Forall_app.
      split; [done|]. by apply Forall_singleton.
  - split; [done|]. simpl. by rewrite take_0.
  - simpl. rewrite length_fmap, take_ge in Hf by done.
    rewrite decide_False; [done|]. intros Hex. by apply Forall_not_Exists in Hf.
  - simpl. by rewrite decide_True.
Qed.

(** A task without a route to an output reads as an inactive one. *)
Lemma route_status_none o rs : ¬ Exists (λ r, tr_out r.2 = o) rs → route_status o rs = FLB_TASK_ROUTE_INACTIVE.
Proof.
  induction rs as [|[p r] rs IH]; simpl; [done|]. intros Hn.
  rewrite decide_False by (intros ?; apply Hn; by left). apply IH. intros ?. apply Hn. by right.
Qed.

Lemma status_or_inactive o rs :
  (if decide (Exists (λ r, tr_out r.2 = o) rs) then size_t (route_status o rs) else FLB_TASK_ROUTE_INACTIVE) =
  size_t (route_status o rs).
Proof. case_decide as H; [done|]. by rewrite route_status_none. Qed.

Lemma set_route_status_ok s task o st rs :
  routes_ok s task rs →
  ∃ s', flb_task_set_route_status task o st s = Some s' ∧
    routes_ok s' task (update_route o st rs) ∧
    ts_list s' = ts_list s ∧ ts_tasks s' = ts_tasks s ∧
    ∀ p, p ∉ fst <$> rs → ts_routes s' !! p = ts_routes s !! p.
Proof.
  intros Hok. pose proof (routes_nodup _ _ _ Hok) as Hnd. destruct Hok as [Hd Hm].
  unfold flb_task_set_route_status.
  match goal with |- ∃ _, mk_list_foreach ?lh ?hd ?body ?s0 = _ ∧ _ =>
    destruct (mk_list_foreach_rule lh hd (nodes_of rs)
      (λ dn s', s' = s ∧ Forall (λ r, tr_out r.2 ≠ o) (take (length dn) rs))
      (λ s', routes_ok s' task (update_route o st rs) ∧
        ts_list s' = ts_list s ∧ ts_tasks s' = ts_tasks s ∧
        ∀ p, p ∉ fst <$> rs → ts_routes s' !! p = ts_routes s !! p) body s0)
      as (s' & -> & [[-> Hf]|HQ]) end.
  - intros dn s' [-> _]. done.
  - intros dn x rest s' E [-> Hf].
    apply routes_split in E as (rs1 & p & r & rs2 & -> & -> & -> & _).
    destruct (take_split rs1 (p, r) rs2 (nodes_of rs1)) as [T1 T2]; [by rewrite length_fmap|].
    rewrite length_app in *. simpl in *. rewrite T1 in Hf. rewrite T2.
    rewrite entry_off, (Hm p r) by set_solver. simpl. case_decide as Ho.
    + eexists _, _. split; [done|]. rewrite update_route_app by done. simpl.
      rewrite decide_True by done.
      rewrite fmap_app in *. simpl in *. apply NoDup_app in Hnd as (_ & Hx & Hnd).
      apply NoDup_cons in Hnd as [Hp _].
      split_and!; [split|done|done|]; simpl.
      * rewrite fmap_app in *. simpl in *. done.
      * intros q r' [Hin|[[= -> ->]|Hin]%elem_of_cons]%elem_of_app.
        -- rewrite lookup_insert_ne; [apply Hm; set_solver|]. intros ->.
           apply (Hx q); [|set_solver]. apply list_elem_of_fmap. by exists (q, r').
        -- apply lookup_insert_eq.
        -- rewrite lookup_insert_ne; [apply Hm; set_solver|]. intros ->. apply Hp.
           apply list_elem_of_fmap. by exists (q, r').
      * intros q Hq. rewrite lookup_insert_ne; [done|set_solver].
    + eexists _, _. split; [done|]. simpl. split; [done|]. apply Forall_app.
      split; [done|]. by apply Forall_singleton.
  - split; [done|]. simpl. by rewrite take_0.
  - rewrite length_fmap, take_ge in Hf by done. exists s. split; [done|].
    assert (update_route o st rs = rs) as ->.
    { rewrite <- (app_nil_r rs) at 1. rewrite update_route_app by done. apply app_nil_r. }
    by split_and!.
  - by exists s'.
Qed.

(** ** Users *)

Lemma set_task_same p t s : ts_tasks s !! p = Some t → set_task p t s = s.
Proof. intros Hp. destruct s as [l m r]. unfold set_task. simpl in *. by rewrite insert_id. Qed.

Lemma set_task_set p t t' s : set_task p t (set_task p t' s) = set_task p t s.
Proof. unfold set_task. simpl. by rewrite insert_insert_eq. Qed.

Lemma routes_ok_tasks s s' task rs :
  ts_list s' = ts_list s → ts_routes s' = ts_routes s → routes_ok s task rs → routes_ok s' task rs.
Proof. intros El Er [Hl Hm]. split; [by rewrite El|]. by rewrite Er. Qed.

(** Changing the status of a route under the lock: the task is as before. *)
Lemma locked_set_route_status s task t o st rs :
  ts_tasks s !! task = Some t → tk_locked t = false → routes_ok s task rs →
  ∃ s1 s2 s3, flb_task_acquire_lock task s = Some s1 ∧
    flb_task_set_route_status task o st s1 = Some s2 ∧ flb_task_release_lock task s2 = Some s3 ∧
    flb_task_get_route_status task o s1 =
      Some (if decide (Exists (λ r, tr_out r.2 = o) rs) then size_t (route_status o rs)
            else FLB_TASK_ROUTE_INACTIVE) ∧
    routes_ok s3 task (update_route o st rs) ∧
    ts_tasks s3 = ts_tasks s ∧ ts_list s3 = ts_list s ∧
    ∀ p, p ∉ fst <$> rs → ts_routes s3 !! p = ts_routes s !! p.
Proof.
  intros Ht Hl Hok. unfold flb_task_acquire_lock. rewrite Ht. simpl. rewrite Hl.
  set (s1 := set_task _ _ s).
  assert (Hok1 : routes_ok s1 task rs) by (by apply (routes_ok_tasks s)).
  destruct (set_route_status_ok s1 task o st rs Hok1) as (s2 & E2 & Hok2 & El & Et & Hr).
  assert (Hb : set_locked false (set_locked true t) = t) by (unfold set_locked; destruct t; simpl in *; by subst).
  exists s1, s2, (set_task task t s2). split; [done|]. split; [done|].
  unfold flb_task_release_lock. rewrite Et. simpl. rewrite lookup_insert_eq. simpl. rewrite Hb.
  split; [done|]. split; [by apply get_route_status_ok|].
  split; [by apply (routes_ok_tasks s2)|]. split_and!; simpl; [|by rewrite El|done].
  rewrite Et. simpl. rewrite insert_insert_eq. by apply insert_id.
Qed.

(** Looking at a status under the lock. *)
Lemma locked_get_route_status s task t o rs :
  ts_tasks s !! task = Some t → tk_locked t = false → routes_ok s task rs →
  ∃ s1, flb_task_acquire_lock task s = Some s1 ∧
    flb_task_get_route_status task o s1 =
      Some (if decide (Exists (λ r, tr_out r.2 = o) rs) then size_t (route_status o rs)
            else FLB_TASK_ROUTE_INACTIVE) ∧
    flb_task_release_lock task s1 = Some s.
Proof.
  intros Ht Hl Hok. unfold flb_task_acquire_lock. rewrite Ht. simpl. rewrite Hl.
  eexists. split; [done|]. split; [apply get_route_status_ok; by apply (routes_ok_tasks s)|].
  unfold flb_task_release_lock. simpl. rewrite lookup_insert_eq. simpl.
  assert (Hb : set_locked false (set_locked true t) = t) by (unfold set_locked; destruct t; simpl in *; by subst).
  rewrite Hb, set_task_set, set_task_same; done.
Qed.

(** * Theorems *)

Lemma route_status_update o o' st rs :
  route_status o' (update_route o st rs) =
  if decide (o = o' ∧ Exists (λ r, tr_out r.2 = o) rs) then st else route_status o' rs.
Proof.
  induction rs as [|[p r] rs IH]; simpl.
  { rewrite decide_False; [done|]. intros [_ H]. by apply Exists_nil in H. }
  destruct (decide (tr_out r = o)) as [Ho|Ho]; simpl.
  - clear IH. destruct (decide (tr_out r = o')).
    + rewrite decide_True; [done|]. split; [congruence|by left].
    + rewrite decide_False; [done|]. intros [? _]. congruence.
  - rewrite IH. clear IH. destruct (decide (tr_out r = o')) as [Ho'|Ho'].
    + rewrite decide_False; [done|]. intros [-> _]. done.
    + apply decide_ext. rewrite Exists_cons. simpl. tauto.
Qed.

Lemma update_route_outs o st rs :
  (λ r, tr_out r.2) <$> update_route o st rs = (λ r, tr_out r.2) <$> rs.
Proof.
  induction rs as [|[p r] rs IH]; simpl; [done|]. case_decide; simpl; by f_equal.
Qed.

Lemma update_route_Exists o o' st rs :
  Exists (λ r, tr_out r.2 = o') (update_route o st rs) ↔ Exists (λ r, tr_out r.2 = o') rs.
Proof.
  assert (H : ∀ l, Exists (λ r : ptr * flb_task_route, tr_out r.2 = o') l ↔
    o' ∈ (λ r, tr_out r.2) <$> l).
  { intros l. rewrite Exists_exists, list_elem_of_fmap. naive_solver. }
  by rewrite !H, update_route_outs.
Qed.

(** Route status is a small store keyed by output instance: what is set
    for an instance is what is then read for it (as an unsigned word; and
    INACTIVE when the task has no route to it), and no other instance's
    status, nor any other part of the heap, changes.  Both loops terminate. *)
Theorem flb_task_route_status_set_get s task o st rs :
  routes_ok s task rs →
  ∃ s', flb_task_set_route_status task o st s = Some s' ∧
    routes_ok s' task (update_route o st rs) ∧ ts_list s' = ts_list s ∧
    (∀ p, p ∉ fst <$> rs → ts_routes s' !! p = ts_routes s !! p) ∧
    flb_task_get_route_status task o s' =
      Some (if decide (Exists (λ r, tr_out r.2 = o) rs) then size_t st
            else FLB_TASK_ROUTE_INACTIVE) ∧
    ∀ o', o' ≠ o → flb_task_get_route_status task o' s' = flb_task_get_route_status task o' s.
Proof.
  intros Hok. destruct (set_route_status_ok s task o st rs Hok) as (s' & E & Hok' & Hl & _ & Hr).
  exists s'. split_and!; [done..| |].
  - rewrite (get_route_status_ok _ _ _ _ Hok'), route_status_update. f_equal.
    rewrite (decide_ext _ _ _ _ (update_route_Exists o o st rs)).
    case_decide; [|done]. by rewrite decide_True.
  - intros o' Ho. rewrite (get_route_status_ok _ _ _ _ Hok'), (get_route_status_ok _ _ _ _ Hok).
    rewrite route_status_update, (decide_False (P := o = o' ∧ _)) by (intros [? _]; congruence).
    f_equal.
    apply decide_ext, update_route_Exists.
Qed.

(** The number of active routes follows the operations: activating the
    route of an instance that is not active adds one, deactivating or
    dropping an active one removes one. *)
Theorem flb_task_active_route_count_step s task o rs r :
  routes_ok s task rs → Z.of_nat (length rs) < 2 ^ 31 → route_status o rs = r →
  Exists (λ r, tr_out r.2 = o) rs →
  ∃ n s1 s2 s3, flb_task_get_active_route_count task s = Some n ∧
    flb_task_activate_route task o s = Some s1 ∧
    flb_task_get_active_route_count task s1 =
      Some (if decide (r = FLB_TASK_ROUTE_ACTIVE) then n else n + 1) ∧
    flb_task_deactivate_route task o s = Some s2 ∧
    flb_task_get_active_route_count task s2 =
      Some (if decide (r = FLB_TASK_ROUTE_ACTIVE) then n - 1 else n) ∧
    flb_task_drop_route task o s = Some s3 ∧
    flb_task_get_active_route_count task s3 =
      Some (if decide (r = FLB_TASK_ROUTE_ACTIVE) then n - 1 else n).
Proof.
  intros Hok Hlen <- Hex.
  assert (Hcount : ∀ st, active_count (update_route o st rs) =
    active_count rs - (if decide (route_status o rs = FLB_TASK_ROUTE_ACTIVE) then 1 else 0)
      + if decide (st = FLB_TASK_ROUTE_ACTIVE) then 1 else 0).
  { intros st. clear -Hex. induction rs as [|[p r] rs IH]; [by apply Exists_nil in Hex|].
    assert (Hc : ∀ p r l, active_count ((p, r) :: l) =
      (if decide (tr_status r = FLB_TASK_ROUTE_ACTIVE) then 1 else 0) + active_count l).
    { intros q r' l. unfold active_count. destruct (decide (tr_status r' = FLB_TASK_ROUTE_ACTIVE)).
      - rewrite filter_cons_True by done. simpl. lia.
      - by rewrite filter_cons_False. }
    simpl. destruct (decide (tr_out r = o)) as [Ho|Ho]; rewrite !Hc; simpl.
    - clear IH Hc Hex. repeat case_decide; lia.
    - apply Exists_cons in Hex as [?|Hex]; [done|]. rewrite (IH Hex). lia. }
  exists (active_count rs).
  destruct (set_route_status_ok s task o FLB_TASK_ROUTE_ACTIVE rs Hok) as (s1 & E1 & Hok1 & _).
  destruct (set_route_status_ok s task o FLB_TASK_ROUTE_INACTIVE rs Hok) as (s2 & E2 & Hok2 & _).
  destruct (set_route_status_ok s task o FLB_TASK_ROUTE_DROPPED rs Hok) as (s3 & E3 & Hok3 & _).
  assert (Hl : ∀ st, Z.of_nat (length (update_route o st rs)) < 2 ^ 31).
  { intros st. by rewrite <- (length_fmap fst), update_route_fst, length_fmap. }
  exists s1, s2, s3. rewrite (get_active_route_count_ok _ _ _ Hok Hlen).
  rewrite (get_active_route_count_ok _ _ _ Hok1 (Hl _)), (get_active_route_count_ok _ _ _ Hok2 (Hl _)),
    (get_active_route_count_ok _ _ _ Hok3 (Hl _)), !Hcount.
  split_and!; [done|exact E1| |exact E2| |exact E3|]; f_equal; simpl; case_decide; lia.
Qed.

(** The user count decides the life of a task: a release-checking
    decrement destroys the task exactly when it brings the count to zero and
    no retry is pending; otherwise it only changes the count, and undoes an
    increment. *)
Theorem flb_task_users_lifecycle destroy task t retries s :
  ts_tasks s !! task = Some t → 0 ≤ tk_users t < 2 ^ 31 - 1 →
  dll (ts_list s) (task + tk_retries_off) retries → Z.of_nat (length retries) < 2 ^ 31 →
  ∃ s', flb_task_users_inc task s = Some s' ∧
    flb_task_users_dec destroy task FLB_FALSE s' = Some s ∧
    flb_task_users_dec destroy task FLB_TRUE s' =
      if decide (tk_users t = 0 ∧ retries = []) then destroy task FLB_TRUE s else Some s.
Proof.
  intros Ht Hu Hd Hlen. unfold flb_task_users_inc, flb_task_users_dec.
  rewrite Ht. simpl. rewrite int_add_Some by lia. simpl. eexists. split; [done|].
  simpl. rewrite !lookup_insert_eq. simpl. rewrite int_add_Some by lia. simpl.
  assert (E : set_users (tk_users t + 1 + -1) (set_users (tk_users t + 1) t) = t).
  { unfold set_users. destruct t; simpl. f_equal. lia. }
  rewrite E, set_task_set, (set_task_same _ _ _ Ht). split; [done|].
  unfold flb_task_users_release. rewrite Ht. simpl.
  rewrite (mk_list_size_dll _ _ _ Hd Hlen). simpl.
  destruct (decide (tk_users t = 0)) as [Hz|Hz].
  - destruct retries; simpl; [by rewrite decide_True|].
    rewrite decide_False; [done|]. by intros [_ ?].
  - by rewrite decide_False by tauto.
Qed.

(** ** The theorems at work: a task at 1024 with two routes. *)

Definition demo_task : flb_task := Task 3 0 FLB_TASK_RUNNING 0 NULL NULL 10 NULL NULL false.

Definition demo_task_list : lheap :=
  default lempty (h ← mk_list_init (1024 + tk_routes_off) lempty;
                  h ← mk_list_init (1024 + tk_retries_off) h;
                  h ← mk_list_add (2048 + tr_head_off) (1024 + tk_routes_off) h;
                  mk_list_add (2080 + tr_head_off) (1024 + tk_routes_off) h).

Definition demo_routes : list (ptr * flb_task_route) :=
  [(2048, TaskRoute FLB_TASK_ROUTE_INACTIVE 4096); (2080, TaskRoute FLB_TASK_ROUTE_ACTIVE 8192)].

Definition demo_task_store : task_store :=
  TaskStore demo_task_list {[ 1024 := demo_task ]} (list_to_map demo_routes).

Lemma demo_routes_ok : routes_ok demo_task_store 1024 demo_routes.
Proof.
  split; [evaluate|]. intros p r. unfold demo_routes. rewrite !elem_of_cons.
  intros [[= -> ->]|[[= -> ->]|[]%not_elem_of_nil]]; reflexivity.
Qed.

Lemma flb_task_route_status_set_get_witness :
  ∃ s', flb_task_set_route_status 1024 4096 FLB_TASK_ROUTE_DROPPED demo_task_store = Some s' ∧
    flb_task_get_route_status 1024 4096 s' = Some FLB_TASK_ROUTE_DROPPED ∧
    flb_task_get_route_status 1024 8192 s' = Some FLB_TASK_ROUTE_ACTIVE.
Proof.
  destruct (flb_task_route_status_set_get demo_task_store 1024 4096 FLB_TASK_ROUTE_DROPPED
    demo_routes demo_routes_ok) as (s' & E & _ & _ & _ & Hg & Ho).
  exists s'. split; [exact E|]. split; [rewrite Hg; reflexivity|].
  rewrite Ho by discriminate. vm_compute. reflexivity.
Defined.

Lemma flb_task_active_route_count_step_witness :
  ∃ n s1 s2 s3, flb_task_get_active_route_count 1024 demo_task_store = Some n ∧
    flb_task_activate_route 1024 4096 demo_task_store = Some s1 ∧
    flb_task_get_active_route_count 1024 s1 = Some (n + 1) ∧
    flb_task_deactivate_route 1024 4096 demo_task_store = Some s2 ∧
    flb_task_get_active_route_count 1024 s2 = Some n ∧
    flb_task_drop_route 1024 4096 demo_task_store = Some s3 ∧
    flb_task_get_active_route_count 1024 s3 = Some n.
Proof.
  apply (flb_task_active_route_count_step _ _ 4096 demo_routes FLB_TASK_ROUTE_INACTIVE
    demo_routes_ok ltac:(simpl; lia) ltac:(reflexivity)).
  left. reflexivity.
Defined.

Lemma flb_task_users_lifecycle_witness :
  ∃ s', flb_task_users_inc 1024 demo_task_store = Some s' ∧
    flb_task_users_dec (λ _ _ _, None) 1024 FLB_FALSE s' = Some demo_task_store ∧
    flb_task_users_dec (λ _ _ _, None) 1024 FLB_TRUE s' = None.
Proof.
  apply (flb_task_users_lifecycle (λ _ _ _, None) 1024 demo_task [] demo_task_store).
  - reflexivity.
  - simpl. lia.
  - evaluate.
  - simpl. lia.
Defined.
