(* ===== verification/Utf8.v ===== *)
(** [flb_utf8.h]: length of a UTF-8 sequence from its first byte, and the
    table-driven decoder, against the definition of well-formed UTF-8. *)
From S2P Require Import Prelude.

(** * Tables and operations *)

(** [flb_utf8_check(c)] on a character promoted to [int]. *)
Definition flb_utf8_check (c : Z) : bool := bool_decide (Z.land c 192 ≠ 128).

Definition trailingBytesForUTF8 : list Z :=
  [0; 0; 0; 0; 0; 0; 0; 0; 0; 0; 0; 0; 0; 0; 0; 0; 0; 0; 0; 0; 0; 0; 0; 0; 0; 0; 0; 0; 0; 0; 0; 0;
   0; 0; 0; 0; 0; 0; 0; 0; 0; 0; 0; 0; 0; 0; 0; 0; 0; 0; 0; 0; 0; 0; 0; 0; 0; 0; 0; 0; 0; 0; 0; 0;
   0; 0; 0; 0; 0; 0; 0; 0; 0; 0; 0; 0; 0; 0; 0; 0; 0; 0; 0; 0; 0; 0; 0; 0; 0; 0; 0; 0; 0; 0; 0; 0;
   0; 0; 0; 0; 0; 0; 0; 0; 0; 0; 0; 0; 0; 0; 0; 0; 0; 0; 0; 0; 0; 0; 0; 0; 0; 0; 0; 0; 0; 0; 0; 0;
   0; 0; 0; 0; 0; 0; 0; 0; 0; 0; 0; 0; 0; 0; 0; 0; 0; 0; 0; 0; 0; 0; 0; 0; 0; 0; 0; 0; 0; 0; 0; 0;
   0; 0; 0; 0; 0; 0; 0; 0; 0; 0; 0; 0; 0; 0; 0; 0; 0; 0; 0; 0; 0; 0; 0; 0; 0; 0; 0; 0; 0; 0; 0; 0;
   1; 1; 1; 1; 1; 1; 1; 1; 1; 1; 1; 1; 1; 1; 1; 1; 1; 1; 1; 1; 1; 1; 1; 1; 1; 1; 1; 1; 1; 1; 1; 1;
   2; 2; 2; 2; 2; 2; 2; 2; 2; 2; 2; 2; 2; 2; 2; 2; 3; 3; 3; 3; 3; 3; 3; 3; 4; 4; 4; 4; 5; 5; 5; 5].

Definition FLB_UTF8_ACCEPT : Z := 0.
Definition FLB_UTF8_REJECT : Z := 1.

(** Byte classes for the first 256 entries, then a row of 16 next states per
    state. *)
Definition utf8d : list Z :=
  [0; 0; 0; 0; 0; 0; 0; 0; 0; 0; 0; 0; 0; 0; 0; 0; 0; 0; 0; 0; 0; 0; 0; 0; 0; 0; 0; 0; 0; 0; 0; 0;
   0; 0; 0; 0; 0; 0; 0; 0; 0; 0; 0; 0; 0; 0; 0; 0; 0; 0; 0; 0; 0; 0; 0; 0; 0; 0; 0; 0; 0; 0; 0; 0;
   0; 0; 0; 0; 0; 0; 0; 0; 0; 0; 0; 0; 0; 0; 0; 0; 0; 0; 0; 0; 0; 0; 0; 0; 0; 0; 0; 0; 0; 0; 0; 0;
   0; 0; 0; 0; 0; 0; 0; 0; 0; 0; 0; 0; 0; 0; 0; 0; 0; 0; 0; 0; 0; 0; 0; 0; 0; 0; 0; 0; 0; 0; 0; 0;
   1; 1; 1; 1; 1; 1; 1; 1; 1; 1; 1; 1; 1; 1; 1; 1; 9; 9; 9; 9; 9; 9; 9; 9; 9; 9; 9; 9; 9; 9; 9; 9;
   7; 7; 7; 7; 7; 7; 7; 7; 7; 7; 7; 7; 7; 7; 7; 7; 7; 7; 7; 7; 7; 7; 7; 7; 7; 7; 7; 7; 7; 7; 7; 7;
   8; 8; 2; 2; 2; 2; 2; 2; 2; 2; 2; 2; 2; 2; 2; 2; 2; 2; 2; 2; 2; 2; 2; 2; 2; 2; 2; 2; 2; 2; 2; 2;
   10; 3; 3; 3; 3; 3; 3; 3; 3; 3; 3; 3; 3; 4; 3; 3; 11; 6; 6; 6; 5; 8; 8; 8; 8; 8; 8; 8; 8; 8; 8; 8;
   0; 1; 2; 3; 5; 8; 7; 1; 1; 1; 4; 6; 1; 1; 1; 1; 1; 1; 1; 1; 1; 1; 1; 1; 1; 1; 1; 1; 1; 1; 1; 1;
   1; 0; 1; 1; 1; 1; 1; 0; 1; 0; 1; 1; 1; 1; 1; 1; 1; 2; 1; 1; 1; 1; 1; 2; 1; 2; 1; 1; 1; 1; 1; 1;
   1; 1; 1; 1; 1; 1; 1; 2; 1; 1; 1; 1; 1; 1; 1; 1; 1; 2; 1; 1; 1; 1; 1; 1; 1; 2; 1; 1; 1; 1; 1; 1;
   1; 1; 1; 1; 1; 1; 1; 3; 1; 3; 1; 1; 1; 1; 1; 1; 1; 3; 1; 1; 1; 1; 1; 3; 1; 3; 1; 1; 1; 1; 1; 1;
   1; 3; 1; 1; 1; 1; 1; 1; 1; 1; 1; 1; 1; 1; 1; 1].

(** Reading a table; out of bounds is undefined. *)
Definition tbl (t : list Z) (i : Z) : option Z := if decide (0 ≤ i) then t !! Z.to_nat i else None.

(** [s0] is the first character of the string. *)
Definition flb_utf8_len (s0 : Z) : option Z :=
  n ← tbl trailingBytesForUTF8 (u8 s0);
  Some (n + 1).

(** Returns the new state and code point. *)
Definition flb_utf8_decode (state codep byte : Z) : option (Z * Z) :=
  type ← tbl utf8d byte;
  let codep :=
    if decide (state ≠ FLB_UTF8_ACCEPT) then
      Z.lor (Z.land byte 63) (u32 (Z.shiftl codep 6))
    else Z.land (Z.shiftr 255 type) byte in
  state ← tbl utf8d (u32 (256 + state * 16 + type));
  Some (state, codep).

(** The loop of [flb_utf8_print]: the code points printed so far and the
    final state; the string ends at the first zero byte. *)
Fixpoint utf8_print_loop (s : list Z) (state codep : Z) (out : list Z)
  : option (list Z * Z) :=
  match s with
  | [] => None
  | c :: s =>
      if decide (c = 0) then Some (out, state)
      else
        '(state, codep) ← flb_utf8_decode state codep c;
        utf8_print_loop s state codep (if decide (state = 0) then out ++ [codep] else out)
  end.

(** The code points printed, and whether the "not well-formed" line follows.
    [codepoint] starts uninitialised. *)
Definition flb_utf8_print (s : list Z) (codepoint : Z) : option (list Z * bool) :=
  '(out, state) ← utf8_print_loop s 0 codepoint [];
  Some (out, bool_decide (state ≠ FLB_UTF8_ACCEPT)).

(** * Reference: Unicode scalar values and their encoding *)

Definition scalar (c : Z) : Prop := 0 ≤ c < 55296 ∨ 57344 ≤ c < 1114112.

Definition utf8_encode (c : Z) : list Z :=
  if decide (c < 128) then [c]
  else if decide (c < 2048) then [192 + c / 64; 128 + c mod 64]
  else if decide (c < 65536) then [224 + c / 4096; 128 + c / 64 mod 64; 128 + c mod 64]
  else [240 + c / 262144; 128 + c / 4096 mod 64; 128 + c / 64 mod 64; 128 + c mod 64].

(** Decode bytes up to the first accepting state, which must be reached at
    the last byte. *)
Fixpoint utf8_run (state codep : Z) (bs : list Z) : option Z :=
  match bs with
  | [] => None
  | b :: bs =>
      '(state, codep) ← flb_utf8_decode state codep b;
      if decide (state = FLB_UTF8_ACCEPT) then
        match bs with [] => Some codep | _ => None end
      else utf8_run state codep bs
  end.

(** * One step of the automaton *)

(** State and bits after the first byte. *)
Definition first_byte (b : Z) : Z * Z :=
  if decide (b < 128) then (0, b)
  else if decide (b < 194) then (1, 0)
  else if decide (b < 224) then (2, b - 192)
  else if decide (b = 224) then (4, 0)
  else if decide (b = 237) then (5, 13)
  else if decide (b < 240) then (3, b - 224)
  else if decide (b = 240) then (6, 0)
  else if decide (b < 244) then (7, b - 240)
  else if decide (b = 244) then (8, 4)
  else (1, 0).

(** The continuation bytes each state accepts, and the next state. *)
Definition cont_range (st : Z) : Z * Z * Z :=
  if decide (st = 2) then (128, 191, 0)
  else if decide (st = 3) then (128, 191, 2)
  else if decide (st = 4) then (160, 191, 2)
  else if decide (st = 5) then (128, 159, 2)
  else if decide (st = 6) then (144, 191, 3)
  else if decide (st = 7) then (128, 191, 3)
  else (128, 143, 3).

Definition next_state (st b : Z) : Z :=
  let '(lo, hi, n) := cont_range st in if decide (lo ≤ b ≤ hi) then n else 1.

Definition bytes256 : list Z := seqZ 0 256.

Lemma is_byte_in b : is_byte b → b ∈ bytes256.
Proof. intros. apply elem_of_seqZ. unfold is_byte in *. lia. Qed.

Lemma for_bytes (p : Z → bool) :
  forallb p bytes256 = true → ∀ b, is_byte b → p b = true.
Proof.
  rewrite forallb_forall. intros Hall b Hb. apply Hall, list_elem_of_In, is_byte_in, Hb.
Qed.

Definition first_ok (b : Z) : bool :=
  match flb_utf8_decode 0 0 b with
  | Some (st, c) => bool_decide (st = (first_byte b).1 ∧
                                 ((first_byte b).1 = 1 ∨ c = (first_byte b).2))
  | None => false
  end.

Definition state_ok (b : Z) : bool :=
  forallb (λ st, bool_decide (fst <$> flb_utf8_decode st 0 b =
    Some (if decide (st = 1) then 1 else next_state st b))) (seqZ 1 8).

Lemma decode_first b codep :
  is_byte b → ∃ c, flb_utf8_decode 0 codep b = Some ((first_byte b).1, c) ∧
    ((first_byte b).1 ≠ 1 → c = (first_byte b).2).
Proof.
  intros Hb.
  assert (H := for_bytes first_ok ltac:(vm_compute; reflexivity)).
  specialize (H b Hb).
  assert (E : flb_utf8_decode 0 codep b = flb_utf8_decode 0 0 b).
  { reflexivity. }
  rewrite E. unfold first_ok in H.
  destruct (flb_utf8_decode 0 0 b) as [[st c]|]; [|done].
  apply bool_decide_eq_true in H as [-> Hc]. exists c. split; [done|]. tauto.
Qed.

Lemma decode_state st b codep :
  1 ≤ st ≤ 8 → is_byte b →
  ∃ c, flb_utf8_decode st codep b = Some (if decide (st = 1) then 1 else next_state st b, c) ∧
       c = Z.lor (Z.land b 63) (u32 (Z.shiftl codep 6)).
Proof.
  intros Hst Hb.
  assert (H := for_bytes state_ok ltac:(vm_compute; reflexivity) b Hb).
  unfold state_ok in H.
  rewrite forallb_forall in H. specialize (H st).
  rewrite <- list_elem_of_In, elem_of_seqZ in H. specialize (H ltac:(lia)).
  apply bool_decide_eq_true in H. revert H.
  unfold flb_utf8_decode. destruct (tbl utf8d b) as [t|]; simpl; [|done].
  destruct (tbl utf8d _) as [st'|]; simpl; [|done]. intros [= ->].
  eexists. split; [done|]. unfold FLB_UTF8_ACCEPT. rewrite decide_True; [done|lia].
Qed.

(** A continuation byte appends six bits. *)
Lemma append_bits cp b :
  0 ≤ cp < 2 ^ 24 → 128 ≤ b < 192 →
  Z.lor (Z.land b 63) (u32 (Z.shiftl cp 6)) = cp * 64 + (b - 128).
Proof.
  intros Hc Hb. rewrite Z.lor_comm. unfold wrap. rewrite Z.mod_small
    by (rewrite Z.shiftl_mul_pow2; lia).
  change 63 with (Z.ones 6). rewrite Z.land_ones by lia.
  rewrite lor_shiftl_add by (Z.div_mod_to_equations; lia). Z.div_mod_to_equations. lia.
Qed.

Lemma next_state_range st b : 2 ≤ st ≤ 8 → next_state st b ≠ 1 → 128 ≤ b < 192.
Proof.
  unfold next_state, cont_range. intros ?. repeat case_decide; simplify_eq; lia.
Qed.

Lemma run_reject cp bs : Forall is_byte bs → utf8_run 1 cp bs = None.
Proof.
  revert cp. induction bs as [|b bs IH]; intros cp; [done|]. intros [Hb Hbs]%Forall_cons.
  simpl. destruct (decode_state 1 b cp) as (c & -> & _); [lia|done|]. simpl.
  by apply IH.
Qed.

(** Running one continuation byte. *)
Lemma run_cons st cp b bs :
  2 ≤ st ≤ 8 → is_byte b → Forall is_byte bs → 0 ≤ cp < 2 ^ 24 →
  utf8_run st cp (b :: bs) =
  if decide (next_state st b = 1) then None
  else if decide (next_state st b = 0) then
    match bs with [] => Some (cp * 64 + (b - 128)) | _ => None end
  else utf8_run (next_state st b) (cp * 64 + (b - 128)) bs.
Proof.
  intros Hst Hb Hbs Hcp. simpl. destruct (decode_state st b cp) as (c & -> & Hc); [lia|done|].
  simpl. rewrite (decide_False (P := st = 1)) by lia.
  destruct (decide (next_state st b = 1)) as [E|E].
  - rewrite E. simpl. by apply run_reject.
  - rewrite append_bits in Hc; [|done|by eapply next_state_range]. subst c. done.
Qed.

Lemma run_nil st cp : utf8_run st cp [] = None.
Proof. done. Qed.

(** The bytes accepted from a state, and their value. *)
Lemma run2 cp bs c :
  0 ≤ cp < 2 ^ 24 → Forall is_byte bs →
  utf8_run 2 cp bs = Some c ↔ ∃ b, bs = [b] ∧ 128 ≤ b ≤ 191 ∧ c = cp * 64 + (b - 128).
Proof.
  intros Hcp Hbs. destruct bs as [|b bs]; [split; [done|naive_solver]|].
  apply Forall_cons in Hbs as [Hb Hbs]. rewrite run_cons by (try done; lia).
  unfold next_state, cont_range. simpl. split.
  - repeat case_decide; try done. destruct bs; [|done]. intros [= <-]. by exists b.
  - intros (b' & [= -> ->] & Hr & ->). by rewrite (decide_True (P := 128 ≤ b' ≤ 191)).
Qed.

Lemma run_cont st cp bs c lo hi n :
  2 ≤ st ≤ 8 → cont_range st = (lo, hi, n) → 2 ≤ n → 0 ≤ cp < 2 ^ 24 → Forall is_byte bs →
  utf8_run st cp bs = Some c ↔
  ∃ b bs', bs = b :: bs' ∧ lo ≤ b ≤ hi ∧ utf8_run n (cp * 64 + (b - 128)) bs' = Some c.
Proof.
  intros Hst Hr Hn Hcp Hbs. destruct bs as [|b bs]; [split; [done|naive_solver]|].
  apply Forall_cons in Hbs as [Hb Hbs]. rewrite run_cons by done.
  unfold next_state. rewrite Hr. split.
  - destruct (decide (lo ≤ b ≤ hi)); [|by rewrite decide_True].
    rewrite !decide_False by lia. intros. by exists b, bs.
  - intros (b' & bs' & [= -> ->] & ? & ?).
    rewrite (decide_True (P := lo ≤ b' ≤ hi)) by done. by rewrite !decide_False by lia.
Qed.

Lemma run3 st cp bs c lo hi :
  2 ≤ st ≤ 8 → cont_range st = (lo, hi, 2) → 128 ≤ lo → hi < 192 →
  0 ≤ cp < 2 ^ 17 → Forall is_byte bs →
  utf8_run st cp bs = Some c ↔ ∃ b1 b2, bs = [b1; b2] ∧ lo ≤ b1 ≤ hi ∧ 128 ≤ b2 ≤ 191 ∧
    c = (cp * 64 + (b1 - 128)) * 64 + (b2 - 128).
Proof.
  intros Hst Hr Hlo Hhi Hcp Hbs. rewrite (run_cont _ _ _ _ _ _ _ Hst Hr) by (try done; lia).
  split.
  - intros (b1 & bs' & -> & H1 & H2). apply Forall_cons in Hbs as [_ Hbs].
    rewrite run2 in H2 by (try done; lia). destruct H2 as (b2 & -> & ? & ->).
    by exists b1, b2.
  - intros (b1 & b2 & -> & H1 & H2 & ->). exists b1, [b2]. split_and!; [done|lia|lia|].
    apply Forall_cons in Hbs as [_ Hbs]. rewrite run2 by (try done; lia). by exists b2.
Qed.

Lemma run4 st cp bs c lo hi :
  2 ≤ st ≤ 8 → cont_range st = (lo, hi, 3) → 128 ≤ lo → hi < 192 →
  0 ≤ cp < 2 ^ 10 → Forall is_byte bs →
  utf8_run st cp bs = Some c ↔ ∃ b1 b2 b3, bs = [b1; b2; b3] ∧ lo ≤ b1 ≤ hi ∧
    128 ≤ b2 ≤ 191 ∧ 128 ≤ b3 ≤ 191 ∧
    c = ((cp * 64 + (b1 - 128)) * 64 + (b2 - 128)) * 64 + (b3 - 128).
Proof.
  intros Hst Hr Hlo Hhi Hcp Hbs. rewrite (run_cont _ _ _ _ _ _ _ Hst Hr) by (try done; lia).
  split.
  - intros (b1 & bs' & -> & H1 & H2). apply Forall_cons in Hbs as [_ Hbs].
    rewrite (run3 3 _ _ _ 128 191) in H2 by (try done; lia).
    destruct H2 as (b2 & b3 & -> & ? & ? & ->).
    by exists b1, b2, b3.
  - intros (b1 & b2 & b3 & -> & H1 & H2 & H3 & ->). exists b1, [b2; b3]. split_and!; [done|lia|lia|].
    apply Forall_cons in Hbs as [_ Hbs].
    rewrite (run3 3 _ _ _ 128 191) by (try done; lia). by exists b2, b3.
Qed.

Lemma run_first cp b bs :
  is_byte b → Forall is_byte bs →
  utf8_run 0 cp (b :: bs) =
  let '(st, c) := first_byte b in
  if decide (st = 1) then None
  else if decide (st = 0) then match bs with [] => Some c | _ => None end
  else utf8_run st c bs.
Proof.
  intros Hb Hbs. simpl. destruct (decode_first b cp Hb) as (c & -> & Hc).
  destruct (first_byte b) as [st c'] eqn:E. simpl in *.
  destruct (decide (st = 1)) as [->|Hn]; [simpl; by apply run_reject|].
  by rewrite Hc.
Qed.

(** The well-formed byte sequences, as the Unicode standard tabulates them. *)
Definition wf_utf8 (bs : list Z) (c : Z) : Prop :=
  match bs with
  | [b0] => 0 ≤ b0 < 128 ∧ c = b0
  | [b0; b1] => 194 ≤ b0 < 224 ∧ 128 ≤ b1 ≤ 191 ∧ c = (b0 - 192) * 64 + (b1 - 128)
  | [b0; b1; b2] =>
      224 ≤ b0 < 240 ∧ 128 ≤ b1 ≤ 191 ∧ (b0 = 224 → 160 ≤ b1) ∧ (b0 = 237 → b1 ≤ 159) ∧
      128 ≤ b2 ≤ 191 ∧ c = ((b0 - 224) * 64 + (b1 - 128)) * 64 + (b2 - 128)
  | [b0; b1; b2; b3] =>
      240 ≤ b0 ≤ 244 ∧ 128 ≤ b1 ≤ 191 ∧ (b0 = 240 → 144 ≤ b1) ∧ (b0 = 244 → b1 ≤ 143) ∧
      128 ≤ b2 ≤ 191 ∧ 128 ≤ b3 ≤ 191 ∧
      c = (((b0 - 240) * 64 + (b1 - 128)) * 64 + (b2 - 128)) * 64 + (b3 - 128)
  | _ => False
  end.

Ltac two := rewrite run2 by (try done; lia).
Ltac three lo hi := rewrite (run3 _ _ _ _ lo hi) by (try done; lia).
Ltac four lo hi := rewrite (run4 _ _ _ _ lo hi) by (try done; lia).

(** Both sides fix the number of bytes: compare byte by byte. *)
Ltac seq_iff bs :=
  destruct bs as [|? [|? [|? [|? ?]]]]; split; intros Hseq;
  repeat match goal with
  | H : ∃ _, _ |- _ => destruct H
  | H : _ ∧ _ |- _ => destruct H
  | H : _ :: _ = _ :: _ |- _ => injection H as
  end; try discriminate; try contradiction; subst;
  repeat match goal with
  | |- ∃ _, _ => eexists
  | |- _ ∧ _ => split
  end; try reflexivity; try lia; try (f_equal; lia); try (injection Hseq; lia).

Lemma run_wf cp b bs c :
  is_byte b → Forall is_byte bs → utf8_run 0 cp (b :: bs) = Some c ↔ wf_utf8 (b :: bs) c.
Proof.
  intros Hb Hbs. rewrite run_first by done. unfold first_byte. unfold is_byte in Hb.
  case_decide; [|case_decide; [|case_decide; [|case_decide; [|case_decide; [|case_decide;
    [|case_decide; [|case_decide; [|case_decide]]]]]]]];
    simpl; [..|two|three 160 191|three 128 159|three 128 191|four 144 191|four 128 191|four 128 143|].
  all: seq_iff bs.
Qed.

Lemma wf_encode bs c :
  wf_utf8 bs c ↔ scalar c ∧ bs = utf8_encode c.
Proof.
  unfold scalar, utf8_encode. split.
  - destruct bs as [|b0 [|b1 [|b2 [|b3 [|]]]]]; simpl; try done; intros Hwf; (split; [lia|]);
      repeat case_decide; try lia; repeat f_equal; Z.div_mod_to_equations; lia.
  - intros [Hs ->].
    assert (c / 4096 = c / 64 / 64 ∧ c / 262144 = c / 64 / 64 / 64) as [E1 E2]
      by (rewrite !Z.div_div by lia; done).
    repeat case_decide; simpl; rewrite ?E1, ?E2; Z.div_mod_to_equations; lia.
Qed.

(** * Theorems *)

(** C35. The decoder accepts exactly the well-formed UTF-8 sequences: from the
    accepting state, a byte sequence brings it back there at its last byte and
    not before with code point [c] if and only if [c] is a Unicode scalar
    value (no surrogate, at most 10FFFF) and the bytes are its encoding; so
    overlong forms, surrogates and truncated sequences are all rejected. *)
Theorem flb_utf8_decode_correct cp b bs c :
  is_byte b → Forall is_byte bs →
  utf8_run FLB_UTF8_ACCEPT cp (b :: bs) = Some c ↔ scalar c ∧ b :: bs = utf8_encode c.
Proof. intros. rewrite run_wf by done. apply wf_encode. Qed.

Lemma flb_utf8_decode_correct_witness :
  utf8_run FLB_UTF8_ACCEPT 77 [226; 130; 172] = Some 8364 ↔
  scalar 8364 ∧ [226; 130; 172] = utf8_encode 8364.
Proof.
  apply (flb_utf8_decode_correct 77 226 [130; 172] 8364);
    repeat constructor; unfold is_byte; lia.
Defined.

Lemma print_run bs st cp c rest out :
  Forall (λ b, b ≠ 0) bs → utf8_run st cp bs = Some c →
  utf8_print_loop (bs ++ rest) st cp out = utf8_print_loop rest 0 c (out ++ [c]).
Proof.
  revert st cp out. induction bs as [|b bs IH]; intros st cp out; [done|].
  intros [Hb Hbs]%Forall_cons. simpl. rewrite decide_False by done.
  destruct (flb_utf8_decode st cp b) as [[st' cp']|]; simpl; [|done].
  unfold FLB_UTF8_ACCEPT. destruct (decide (st' = 0)) as [->|Hst].
  - destruct bs; [|done]. by intros [= ->].
  - by apply IH.
Qed.

Lemma encode_bytes c : scalar c → Forall is_byte (utf8_encode c).
Proof.
  unfold scalar, utf8_encode, is_byte. intros Hs.
  repeat case_decide; repeat constructor; Z.div_mod_to_equations; lia.
Qed.

Lemma encode_nonzero c : scalar c → c ≠ 0 → Forall (λ b, b ≠ 0) (utf8_encode c).
Proof.
  unfold scalar, utf8_encode. intros Hs Hz.
  repeat case_decide; repeat constructor; Z.div_mod_to_equations; lia.
Qed.

Lemma encode_cons c : ∃ b bs, utf8_encode c = b :: bs.
Proof. unfold utf8_encode. repeat case_decide; eauto. Qed.

Lemma run_encode cp c : scalar c → utf8_run 0 cp (utf8_encode c) = Some c.
Proof.
  intros Hs. pose proof (encode_bytes c Hs) as Hb. destruct (encode_cons c) as (b & bs & E).
  rewrite E in *. apply Forall_cons in Hb as [Hb Hbs]. apply run_wf; [done..|].
  by apply wf_encode.
Qed.

(** C36. [flb_utf8_print] of the encodings of any scalar values (none of them
    zero) prints exactly these values, in order, and no complaint. *)
Theorem flb_utf8_print_encode cs codepoint :
  Forall (λ c, scalar c ∧ c ≠ 0) cs →
  flb_utf8_print (mjoin (utf8_encode <$> cs) ++ [0]) codepoint = Some (cs, false).
Proof.
  intros Hcs. unfold flb_utf8_print.
  cut (∀ out cp, utf8_print_loop (mjoin (utf8_encode <$> cs) ++ [0]) 0 cp out = Some (out ++ cs, 0)).
  { intros Hl. by rewrite Hl. }
  induction cs as [|c cs IH]; intros out cp; simpl.
  { by rewrite app_nil_r. }
  apply Forall_cons in Hcs as [[Hs Hz] Hcs]. rewrite <- app_assoc.
  rewrite (print_run _ _ _ c) by (by apply encode_nonzero || by apply run_encode).
  rewrite IH by done. by rewrite <- app_assoc.
Qed.

Definition len_ok (b : Z) : bool :=
  bool_decide (flb_utf8_len b = Some (if decide (b < 192) then 1 else if decide (b < 224) then 2
    else if decide (b < 240) then 3 else if decide (b < 248) then 4
    else if decide (b < 252) then 5 else 6)).

(** [flb_utf8_len] tells the length of an encoded scalar value from its
    first byte. *)
Theorem flb_utf8_len_encode c b bs :
  scalar c → utf8_encode c = b :: bs →
  flb_utf8_len b = Some (Z.of_nat (length (utf8_encode c))).
Proof.
  intros Hs E. assert (Hb := encode_bytes c Hs). rewrite E in Hb.
  apply Forall_cons in Hb as [Hb _].
  assert (H := for_bytes len_ok ltac:(vm_compute; reflexivity) b Hb).
  apply bool_decide_eq_true in H. rewrite H. clear H. f_equal.
  unfold scalar, is_byte in *. revert E. unfold utf8_encode.
  repeat (case_decide; [intros [= <- <-]; simpl;
    repeat case_decide; Z.div_mod_to_equations; lia|]).
  intros [= <- <-]; simpl. repeat case_decide; Z.div_mod_to_equations; lia.
Qed.

Lemma flb_utf8_print_encode_witness :
  flb_utf8_print [226; 130; 172; 65; 0] 5 = Some ([8364; 65], false).
Proof.
  apply (flb_utf8_print_encode [8364; 65] 5). unfold scalar. repeat constructor; lia.
Defined.

Lemma flb_utf8_len_encode_witness : flb_utf8_len 240 = Some 4.
Proof. apply (flb_utf8_len_encode 128512 240 [159; 152; 128]); [unfold scalar; lia|reflexivity]. Defined.
