(* ===== verification/Bytes.v ===== *)
(** [flb_byteswap.h], [flb_sds.h] and [flb_str.h]: byte order, length-prefixed
    strings and string copies, over the byte memory of [Mem]. *)
From S2P Require Import Prelude MkList Mem.

(** * Little-endian bytes *)

Fixpoint le_bytes (n : nat) (v : Z) : list Z :=
  match n with
  | O => []
  | S n => v mod 256 :: le_bytes n (v / 256)
  end.

Fixpoint le_value (bs : list Z) : Z :=
  match bs with
  | [] => 0
  | b :: bs => b + 256 * le_value bs
  end.

(** * [flb_byteswap.h]

    The portable branch: a value is written to a union, read back as raw
    bytes and reassembled; the machine is little endian. *)

(** [output.raw[i] = input.raw[j]] *)
Definition copy_raw (i j : nat) (input output : list Z) : list Z :=
  <[i := default 0 (input !! j)]> output.

Definition FLB_BSWAP_16 (value : Z) : Z :=
  let output := le_bytes 2 value in
  let input := le_bytes 2 value in
  let output := copy_raw 0 1 input output in
  let output := copy_raw 1 0 input output in
  le_value output.

Definition FLB_BSWAP_32 (value : Z) : Z :=
  let output := le_bytes 4 value in
  let input := le_bytes 4 value in
  let output := copy_raw 0 3 input output in
  let output := copy_raw 1 2 input output in
  let output := copy_raw 2 1 input output in
  let output := copy_raw 3 0 input output in
  le_value output.

Definition FLB_BSWAP_64 (value : Z) : Z :=
  let output := le_bytes 8 value in
  let input := le_bytes 8 value in
  let output := copy_raw 0 7 input output in
  let output := copy_raw 1 6 input output in
  let output := copy_raw 2 5 input output in
  let output := copy_raw 3 4 input output in
  let output := copy_raw 4 3 input output in
  let output := copy_raw 5 2 input output in
  let output := copy_raw 6 1 input output in
  let output := copy_raw 7 0 input output in
  le_value output.

(** * C strings

    A character pointer is a block and an offset into it. *)
Abbreviation cptr := (ptr * Z)%type.

(** [*(s + i)] *)
Definition char_at (s : cptr) (i : Z) (m : mem) : option Z :=
  bs ← mem_load s.1 (s.2 + i) 1 m;
  head bs.

Fixpoint strlen_loop (fuel : nat) (s : cptr) (i : Z) (m : mem) : option Z :=
  match fuel with
  | O => None
  | S fuel =>
      c ← char_at s i m;
      if decide (c = 0) then Some i else strlen_loop fuel s (i + 1) m
  end.

(** A terminated string is shorter than its block. *)
Definition strlen (s : cptr) (m : mem) : option Z :=
  strlen_loop (S (Z.to_nat (block_size s.1 m))) s 0 m.

(** [strncmp]: the sign of the first difference in the first [n] characters,
    stopping at a terminator. [f] is applied to each character. *)
Fixpoint strncmp_loop (n : nat) (f : Z → Z) (a b : cptr) (i : Z) (m : mem) : option Z :=
  match n with
  | O => Some 0
  | S n =>
      ca ← char_at a i m;
      cb ← char_at b i m;
      if decide (f ca ≠ f cb) then Some (if decide (f ca < f cb) then -1 else 1)
      else if decide (ca = 0) then Some 0
      else strncmp_loop n f a b (i + 1) m
  end.

(** [tolower] in the C locale. *)
Definition tolower (c : Z) : Z := if decide (65 ≤ c ≤ 90) then c + 32 else c.

Definition strncmp (a b : cptr) (n : Z) (m : mem) : option Z :=
  strncmp_loop (Z.to_nat n) id a b 0 m.

Definition strncasecmp (a b : cptr) (n : Z) (m : mem) : option Z :=
  strncmp_loop (Z.to_nat n) tolower a b 0 m.

(** * [flb_sds.h]

    An sds string is a pointer just past a packed header of two 64-bit
    lengths; both live in one block. *)

Definition FLB_SDS_HEADER_SIZE : Z := 16.

(** [FLB_SDS_HEADER(s)] *)
Definition FLB_SDS_HEADER (s : cptr) : cptr := (s.1, s.2 - FLB_SDS_HEADER_SIZE).

(** Reading and writing a [uint64_t] field at an offset from a pointer. *)
Definition ld_u64 (p : cptr) (off : Z) (m : mem) : option Z :=
  bs ← mem_load p.1 (p.2 + off) 8 m;
  Some (le_value bs).

Definition st_u64 (p : cptr) (off v : Z) (m : mem) : option mem :=
  mem_store p.1 (p.2 + off) (le_bytes 8 v) m.

(** Offsets in [struct flb_sds]. *)
Definition sds_len_off : Z := 0.
Definition sds_alloc_off : Z := 8.

Definition flb_sds_len (s : cptr) (m : mem) : option Z :=
  ld_u64 (FLB_SDS_HEADER s) sds_len_off m.

Definition flb_sds_is_empty (s : cptr) (m : mem) : option Z :=
  n ← flb_sds_len s m;
  Some (if decide (n = 0) then FLB_TRUE else FLB_FALSE).

Definition flb_sds_len_set (s : cptr) (len : Z) (m : mem) : option mem :=
  st_u64 (FLB_SDS_HEADER s) sds_len_off len m.

Definition flb_sds_alloc (s : cptr) (m : mem) : option Z :=
  ld_u64 (FLB_SDS_HEADER s) sds_alloc_off m.

Definition flb_sds_avail (s : cptr) (m : mem) : option Z :=
  a ← ld_u64 (FLB_SDS_HEADER s) sds_alloc_off m;
  n ← ld_u64 (FLB_SDS_HEADER s) sds_len_off m;
  Some (size_t (a - n)).

(** [len] is an [int], converted to [size_t] for the comparison and again
    for the call. *)
Definition flb_sds_cmp (s str : cptr) (len : Z) (m : mem) : option Z :=
  n ← flb_sds_len s m;
  if decide (n ≠ size_t len) then Some (-1)
  else strncmp s str (size_t len) m.

Definition flb_sds_casecmp (s str : cptr) (len : Z) (m : mem) : option Z :=
  n ← flb_sds_len s m;
  if decide (n ≠ size_t len) then Some (-1)
  else strncasecmp s str (size_t len) m.

(** * [flb_str.h] *)

Definition flb_strndup (s : cptr) (n : Z) (m : mem) : option (ptr * mem) :=
  let '(str, m) := flb_malloc (size_t (n + 1)) m in
  if decide (str = NULL) then Some (NULL, m)
  else
    m ← memcpy str 0 s.1 s.2 n m;
    m ← mem_store str n [0] m;
    Some (str, m).

Definition flb_strdup (s : cptr) (m : mem) : option (ptr * mem) :=
  n ← strlen s m;
  flb_strndup s n m.

(** [strcmp(s, "") == 0]: the first character is the terminator. *)
Definition flb_str_emptyval (s : cptr) (m : mem) : option Z :=
  if decide (s.1 = NULL) then Some FLB_FALSE
  else
    c ← char_at s 0 m;
    Some (if decide (c = 0) then FLB_TRUE else FLB_FALSE).

(** [while (c == str[--pos]);] returns the final [pos]. Every character it
    looks at is in the block, before the terminator: there are [strlen] of them
    from the start of the string, and [s.2] before it. *)
Fixpoint rtrim_loop (fuel : nat) (str : cptr) (c pos : Z) (m : mem) : option Z :=
  match fuel with
  | O => None
  | S fuel =>
      let pos := pos - 1 in
      d ← char_at str pos m;
      if decide (c = d) then rtrim_loop fuel str c pos m else Some pos
  end.

Definition flb_rtrim (str : cptr) (c : Z) (m : mem) : option (ptr * mem) :=
  pos ← strlen str m;
  pos ← rtrim_loop (S (S (Z.to_nat pos + Z.to_nat str.2))) str c pos m;
  if decide (pos < 0) then Some (NULL, m)
  else flb_strndup str (pos + 1) m.

(** * Lemmas *)

Lemma le_bytes_length n v : length (le_bytes n v) = n.
Proof. revert v. induction n; intros v; simpl; [done|]. by rewrite IHn. Qed.

Lemma le_bytes_range n v : Forall is_byte (le_bytes n v).
Proof.
  revert v. induction n; intros v; simpl; constructor; [|done].
  unfold is_byte. apply Z.mod_pos_bound. lia.
Qed.

Lemma le_value_bytes n v : le_value (le_bytes n v) = v mod 256 ^ Z.of_nat n.
Proof.
  revert v. induction n as [|n IH]; intros v.
  { simpl. by rewrite Z.mod_1_r. }
  cbn [le_bytes le_value]. rewrite IH, Nat2Z.inj_succ, Z.pow_succ_r by lia.
  rewrite Z.rem_mul_r by lia. lia.
Qed.

Lemma le_bytes_value bs : Forall is_byte bs → le_bytes (length bs) (le_value bs) = bs.
Proof.
  induction bs as [|b bs IH]; [done|]. intros [Hb Hbs]%Forall_cons. simpl.
  unfold is_byte in Hb.
  replace ((b + 256 * le_value bs) mod 256) with b by (Z.div_mod_to_equations; lia).
  replace ((b + 256 * le_value bs) / 256) with (le_value bs) by (Z.div_mod_to_equations; lia).
  by rewrite IH.
Qed.

(** Each swap reverses the bytes. *)
Lemma bswap_rev v :
  FLB_BSWAP_16 v = le_value (rev (le_bytes 2 v)) ∧
  FLB_BSWAP_32 v = le_value (rev (le_bytes 4 v)) ∧
  FLB_BSWAP_64 v = le_value (rev (le_bytes 8 v)).
Proof. done. Qed.

Lemma rev_bytes_value n v : le_bytes n (le_value (rev (le_bytes n v))) = rev (le_bytes n v).
Proof.
  rewrite <- (le_bytes_value (rev (le_bytes n v))) at 2.
  - by rewrite length_rev, le_bytes_length.
  - apply Forall_rev, le_bytes_range.
Qed.

(** ** C strings in memory *)

(** [cs] is the terminated string at [s]. *)
Definition c_string (m : mem) (s : cptr) (cs : list Z) : Prop :=
  ∃ b tl, mm_blocks m !! s.1 = Some b ∧ 0 ≤ s.2 ∧
    drop (Z.to_nat s.2) b = (Some <$> cs) ++ Some 0 :: tl ∧ Forall (λ c, c ≠ 0) cs.

Lemma char_at_ok m s b i c :
  mm_blocks m !! s.1 = Some b → 0 ≤ s.2 → 0 ≤ i →
  drop (Z.to_nat s.2) b !! Z.to_nat i = Some (Some c) → char_at s i m = Some c.
Proof.
  intros Hb Hs Hi Hc. unfold char_at. rewrite lookup_drop in Hc.
  pose proof (lookup_lt_Some _ _ _ Hc).
  rewrite (mem_load_values _ _ _ _ b [c] Hb); [done|lia..|].
  rewrite Z2Nat.inj_add by lia.
  rewrite (drop_S _ _ _ Hc). done.
Qed.

Lemma c_string_char m s cs i :
  c_string m s cs → (i ≤ length cs)%nat →
  char_at s (Z.of_nat i) m = Some (default 0 (cs !! i)).
Proof.
  intros (b & tl & Hb & Hs & E & _) Hi. eapply char_at_ok; [done|done|lia|].
  rewrite E, Nat2Z.id. destruct (cs !! i) as [c|] eqn:Hc; simpl.
  - rewrite lookup_app_l by (rewrite length_fmap; by eapply lookup_lt_Some).
    by rewrite list_lookup_fmap, Hc.
  - apply lookup_ge_None in Hc. rewrite lookup_app_r by (rewrite length_fmap; lia).
    rewrite length_fmap. by replace (i - length cs)%nat with 0%nat by lia.
Qed.

Lemma c_string_length m s cs : c_string m s cs → Z.of_nat (length cs) < block_size s.1 m.
Proof.
  intros (b & tl & Hb & Hs & E & _). unfold block_size. rewrite Hb. simpl.
  apply (f_equal length) in E. rewrite length_drop, length_app, length_fmap in E. simpl in E. lia.
Qed.

Lemma strlen_ok m s cs : c_string m s cs → strlen s m = Some (Z.of_nat (length cs)).
Proof.
  intros Hs. pose proof (c_string_length _ _ _ Hs) as Hlt.
  assert (Hnz : Forall (λ c, c ≠ 0) cs) by (by destruct Hs as (? & ? & _ & _ & _ & ?)).
  unfold strlen. cut (∀ k i, (i + k = length cs)%nat → ∀ fuel, (k < fuel)%nat →
    strlen_loop fuel s (Z.of_nat i) m = Some (Z.of_nat (length cs))).
  { intros H. apply (H (length cs) 0%nat); lia. }
  induction k as [|k IH]; intros i Hi [|fuel] Hf; try lia; simpl;
    rewrite (c_string_char _ _ _ _ Hs) by lia; simpl.
  - rewrite lookup_ge_None_2 by lia. simpl. do 2 f_equal. lia.
  - destruct (lookup_lt_is_Some_2 cs i ltac:(lia)) as [c Hc]. rewrite Hc. simpl.
    rewrite decide_False by (by apply (Forall_lookup_1 _ _ _ _ Hnz Hc)).
    replace (Z.of_nat i + 1) with (Z.of_nat (S i)) by lia. apply IH; lia.
Qed.

(** What a string copy yields: nothing but an out-of-memory NULL, or a fresh
    block with the characters and a terminator. *)
Definition copied (m : mem) (cs : list Z) (p : ptr) (m' : mem) : Prop :=
  mem_wf m' ∧
  ((p = NULL ∧ mm_blocks m' = mm_blocks m) ∨
   (p ≠ NULL ∧ mm_blocks m !! p = None ∧
    mm_blocks m' = <[p := Some <$> (cs ++ [0])]> (mm_blocks m))).

Lemma strndup_ok m s b cs :
  mem_wf m → mm_blocks m !! s.1 = Some b → 0 ≤ s.2 →
  s.2 + Z.of_nat (length cs) ≤ Z.of_nat (length b) →
  take (length cs) (drop (Z.to_nat s.2) b) = Some <$> cs →
  Z.of_nat (length cs) + 1 < 2 ^ 64 →
  ∃ p m', flb_strndup s (Z.of_nat (length cs)) m = Some (p, m') ∧ copied m cs p m'.
Proof.
  intros Hwf Hb Hs Hlb E Hlen. unfold flb_strndup.
  assert (size_t (Z.of_nat (length cs) + 1) = Z.of_nat (S (length cs))) as ->
    by (unfold wrap; rewrite Z.mod_small; lia).
  destruct (flb_malloc _ m) as [p m1] eqn:Em.
  destruct (flb_malloc_cases _ _ _ _ Hwf Em) as (Hwf1 & _ & [[-> Hm1]|(_ & Hp & _ & Hn & Hm1)]).
  { simpl. eexists _, _. split; [done|]. split; [done|]. by left. }
  rewrite decide_False by done. rewrite Nat2Z.id in Hm1.
  assert (Hps : s.1 ≠ p) by congruence.
  unfold memcpy. erewrite mem_slice_ok; [|by rewrite Hm1, lookup_insert_ne|lia|lia|lia].
  simpl. rewrite Nat2Z.id, E.
  erewrite mem_write_ok; [|by rewrite Hm1, lookup_insert_eq|lia|
    rewrite length_fmap, length_replicate; lia].
  cbn [mbind option_bind]. unfold mem_store.
  assert (Hsp : splice (Z.to_nat 0) (Some <$> cs) (replicate (S (length cs)) None) = (Some <$> cs) ++ [None]).
  { unfold splice. rewrite length_fmap, drop_replicate.
    by replace (S (length cs) - (Z.to_nat 0 + length cs))%nat with 1%nat by lia. }
  rewrite Hsp. erewrite mem_write_ok; [|simpl; by rewrite lookup_insert_eq|lia|
    rewrite length_app, !length_fmap; simpl; lia].
  cbn [mbind option_bind mm_blocks mm_brk mm_oracle]. eexists _, _. split; [reflexivity|].
  assert (Hsp2 : splice (Z.to_nat (Z.of_nat (length cs))) [Some 0] ((Some <$> cs) ++ [None])
    = Some <$> (cs ++ [0])).
  { unfold splice. rewrite Nat2Z.id, fmap_app. rewrite take_app_length' by by rewrite length_fmap.
    rewrite drop_ge; [done|]. rewrite length_app, length_fmap. simpl. lia. }
  change (Some <$> [0]) with [Some 0].
  rewrite Hsp2, insert_insert_eq, Hm1, insert_insert_eq. split; [|right; done].
  eapply (mem_write_wf p (Z.of_nat (length cs)) [Some 0]
    (Mem (<[p := (Some <$> cs) ++ [None]]> (mm_blocks m)) (mm_brk m1) (mm_oracle m1))).
  2:{ erewrite mem_write_ok; [|apply lookup_insert_eq|lia|].
      - cbn [mm_blocks mm_brk mm_oracle]. rewrite Hsp2, insert_insert_eq. reflexivity.
      - rewrite length_app, length_fmap. simpl. lia. }
  eapply (mem_write_wf p 0 (Some <$> cs)); [exact Hwf1|].
  erewrite mem_write_ok; [|by rewrite Hm1, lookup_insert_eq|lia|
    rewrite length_fmap, length_replicate; lia].
  by rewrite Hsp, Hm1, insert_insert_eq.
Qed.

Lemma c_string_block m s cs :
  c_string m s cs → ∃ b, mm_blocks m !! s.1 = Some b ∧ 0 ≤ s.2 ∧
    s.2 + Z.of_nat (length cs) < Z.of_nat (length b) ∧
    ∀ n, (n ≤ length cs)%nat → take n (drop (Z.to_nat s.2) b) = Some <$> take n cs.
Proof.
  intros Hs. pose proof Hs as (b & tl & Hb & Ho & E & _). exists b. split_and!; [done..| |].
  - pose proof (f_equal length E) as El. rewrite length_drop, length_app, length_fmap in El.
    simpl in El. lia.
  - intros n Hn. rewrite E, take_app_le by (rewrite length_fmap; lia). by rewrite fmap_take.
Qed.

(** The right trim scans past the trailing run of [c]. *)
Lemma rtrim_loop_ok m s c ds k fuel :
  c_string m s (ds ++ replicate k c) → last ds ≠ Some c → (k < fuel)%nat →
  rtrim_loop fuel s c (Z.of_nat (length ds + k)) m =
  if decide (ds = []) then rtrim_loop (fuel - k) s c 0 m
  else Some (Z.of_nat (length ds) - 1).
Proof.
  intros Hs Hl. revert fuel.
  cut (∀ j, (j ≤ k)%nat → ∀ fuel, (j < fuel)%nat →
    rtrim_loop fuel s c (Z.of_nat (length ds + j)) m =
    if decide (ds = []) then rtrim_loop (fuel - j) s c 0 m
    else Some (Z.of_nat (length ds) - 1)).
  { intros H. by apply H. }
  induction j as [|j IH]; intros Hj [|fuel] Hf; try lia.
  - destruct (decide (ds = [])) as [->|Hds]; [done|]. cbn [rtrim_loop].
    replace (Z.of_nat (length ds + 0) - 1) with (Z.of_nat (length ds - 1))
      by (destruct ds; simpl in *; [done|lia]).
    rewrite (c_string_char _ _ _ _ Hs) by (rewrite length_app; lia). simpl.
    rewrite lookup_app_l by (destruct ds; simpl in *; [done|lia]).
    rewrite last_lookup in Hl. replace (Init.Nat.pred (length ds)) with (length ds - 1)%nat in Hl by lia.
    destruct (ds !! (length ds - 1)%nat) as [d|] eqn:E.
    + simpl. rewrite decide_False by congruence. f_equal. destruct ds; simpl in *; [done|lia].
    + apply lookup_ge_None in E. destruct ds; simpl in *; [done|lia].
  - cbn [rtrim_loop]. replace (Z.of_nat (length ds + S j) - 1) with (Z.of_nat (length ds + j)) by lia.
    rewrite (c_string_char _ _ _ _ Hs) by (rewrite length_app, length_replicate; lia). simpl.
    rewrite lookup_app_r by lia. rewrite lookup_replicate_2 by lia. simpl.
    rewrite decide_True by done. rewrite IH by lia. done.
Qed.

(** Before the string the scan goes on, down to a character other than [c] or
    out of the block. *)
Lemma rtrim_loop_before m s b c j pre rest fuel :
  mm_blocks m !! s.1 = Some b → b = pre ++ replicate j (Some c) ++ rest → (j < fuel)%nat →
  rtrim_loop fuel s c (Z.of_nat (length pre + j) - s.2) m =
  match last pre with
  | Some (Some d) => if decide (c = d) then rtrim_loop (fuel - S j) s c (Z.of_nat (length pre) - 1 - s.2) m
                     else Some (Z.of_nat (length pre) - 1 - s.2)
  | _ => None
  end.
Proof.
  intros Hb. revert rest fuel. induction j as [|j IH]; intros rest [|fuel] E Hf; try lia;
    cbn [rtrim_loop].
  - replace (Z.of_nat (length pre + 0) - s.2 - 1) with (Z.of_nat (length pre) - 1 - s.2) by lia.
    unfold char_at. replace (s.2 + (Z.of_nat (length pre) - 1 - s.2))
      with (Z.of_nat (length pre) - 1) by lia.
    destruct pre as [|x pre _] using rev_ind.
    { unfold mem_load, mem_slice. rewrite Hb. cbn [mbind option_bind length]. by rewrite decide_False by lia. }
    rewrite last_snoc, length_app. simpl.
    replace (Z.of_nat (length pre + 1) - 1) with (Z.of_nat (length pre)) by lia.
    assert (mem_slice s.1 (Z.of_nat (length pre)) 1 m = Some [x]) as Hx.
    { rewrite (mem_slice_ok _ _ _ _ _ Hb); [|lia|lia|subst b; rewrite !length_app; simpl; lia].
      subst b. rewrite Nat2Z.id, <- app_assoc, drop_app_length. done. }
    unfold mem_load. rewrite Hx. simpl. destruct x as [d|]; [|done]. simpl.
    by rewrite Nat.sub_0_r.
  - replace (Z.of_nat (length pre + S j) - s.2 - 1) with (Z.of_nat (length pre + j) - s.2) by lia.
    unfold char_at at 1. replace (s.2 + (Z.of_nat (length pre + j) - s.2))
      with (Z.of_nat (length pre + j)) by lia.
    rewrite replicate_S_end, <- app_assoc in E.
    assert (mem_load s.1 (Z.of_nat (length pre + j)) 1 m = Some [c]) as ->.
    { apply (mem_load_values _ _ _ _ b [c] Hb); [lia|lia| |].
      - subst b. rewrite !length_app, length_replicate. simpl. lia.
      - subst b. rewrite Nat2Z.id, app_assoc, drop_app_length'
          by (by rewrite length_app, length_replicate). done. }
    simpl. rewrite decide_True by done. rewrite (IH _ _ E) by lia. done.
Qed.

(** * Theorems *)

(** Byte swapping reverses the bytes in memory and is its own inverse,
    on 16, 32 and 64-bit values. *)
Theorem flb_bswap_reverses v16 v32 v64 :
  0 ≤ v16 < 2 ^ 16 → 0 ≤ v32 < 2 ^ 32 → 0 ≤ v64 < 2 ^ 64 →
  (le_bytes 2 (FLB_BSWAP_16 v16) = rev (le_bytes 2 v16) ∧ FLB_BSWAP_16 (FLB_BSWAP_16 v16) = v16) ∧
  (le_bytes 4 (FLB_BSWAP_32 v32) = rev (le_bytes 4 v32) ∧ FLB_BSWAP_32 (FLB_BSWAP_32 v32) = v32) ∧
  (le_bytes 8 (FLB_BSWAP_64 v64) = rev (le_bytes 8 v64) ∧ FLB_BSWAP_64 (FLB_BSWAP_64 v64) = v64).
Proof.
  intros H1 H2 H3. rewrite (proj1 (bswap_rev (FLB_BSWAP_16 v16))).
  rewrite (proj1 (proj2 (bswap_rev (FLB_BSWAP_32 v32)))), (proj2 (proj2 (bswap_rev (FLB_BSWAP_64 v64)))).
  rewrite (proj1 (bswap_rev v16)), (proj1 (proj2 (bswap_rev v32))), (proj2 (proj2 (bswap_rev v64))).
  rewrite !rev_bytes_value, !rev_involutive, !le_value_bytes.
  split_and!; try done; apply Z.mod_small; simpl; lia.
Qed.

(** [flb_strdup] returns NULL for want of memory, or a fresh terminated
    copy of the string; nothing else in memory changes. *)
Theorem flb_strdup_spec m s cs :
  mem_wf m → c_string m s cs → Z.of_nat (length cs) + 1 < 2 ^ 64 →
  ∃ p m', flb_strdup s m = Some (p, m') ∧ copied m cs p m'.
Proof.
  intros Hwf Hs Hlen. unfold flb_strdup. rewrite (strlen_ok _ _ _ Hs). simpl.
  destruct (c_string_block _ _ _ Hs) as (b & Hb & Ho & Hl & Ht).
  eapply strndup_ok; [done..|lia| |done]. rewrite Ht by done. by rewrite take_ge.
Qed.

(** C39. [flb_rtrim] of a string with some character other than the trimmed one
    is a copy of the string without its trailing run.  When there is no such
    character (in particular for the empty string) the scan goes on before the
    string: the test for a negative position comes too late.  It finds another
    character there and NULL is returned, or it leaves the block, which is
    undefined, as it is at once for a string at the start of its block. *)
Theorem flb_rtrim_spec m s c ds k :
  mem_wf m → c_string m s (ds ++ replicate k c) → last ds ≠ Some c →
  Z.of_nat (length ds) + 1 < 2 ^ 64 →
  (ds ≠ [] → ∃ p m', flb_rtrim s c m = Some (p, m') ∧ copied m ds p m') ∧
  (ds = [] → ∀ b j pre, mm_blocks m !! s.1 = Some b →
     take (Z.to_nat s.2) b = pre ++ replicate j (Some c) →
     match last pre with
     | None => flb_rtrim s c m = None
     | Some (Some d) => d ≠ c → flb_rtrim s c m = Some (NULL, m)
     | Some None => flb_rtrim s c m = None
     end).
Proof.
  intros Hwf Hs Hl Hlen. destruct (c_string_block _ _ _ Hs) as (b & Hb & Ho & Hb' & Ht).
  rewrite length_app in Hb'. unfold flb_rtrim. rewrite (strlen_ok _ _ _ Hs).
  cbn [mbind option_bind]. rewrite Nat2Z.id, length_app, length_replicate.
  rewrite (rtrim_loop_ok m s c ds k) by (try done; lia). split.
  - intros Hds. rewrite decide_False by done.
    cbn [mbind option_bind]. rewrite decide_False by (destruct ds; simpl in *; [done|lia]).
    replace (Z.of_nat (length ds) - 1 + 1) with (Z.of_nat (length ds)) by lia.
    eapply strndup_ok; [done..|lia| |done].
    rewrite Ht by (rewrite length_app; lia). by rewrite take_app_length.
  - intros -> b0 j pre Hb0 Hpre. simplify_eq. rewrite decide_True by done.
    assert (Z.of_nat (length pre + j) = s.2) as El.
    { apply (f_equal length) in Hpre. rewrite length_take, length_app, length_replicate in Hpre. lia. }
    epose proof (rtrim_loop_before m s b c j pre (drop (Z.to_nat s.2) b) _ Hb) as Hloop.
    rewrite El, Z.sub_diag in Hloop.
    rewrite Hloop; [|by rewrite app_assoc, <- Hpre, take_drop|simpl; lia].
    destruct (last pre) as [[d|]|] eqn:E; [|done|done]. intros Hd.
    rewrite decide_False by done. simpl. rewrite decide_True; [done|].
    destruct pre; [done|]. simpl in *. lia.
Qed.

(** ** Length-prefixed strings *)

(** The block of an sds string: header, then the buffer. *)
Definition sds_block (len alloc : Z) (data : list (option Z)) : list (option Z) :=
  (Some <$> (le_bytes 8 len ++ le_bytes 8 alloc)) ++ data.

Lemma ld_u64_ok m p off b v :
  mm_blocks m !! p.1 = Some b → 0 ≤ p.2 + off → p.2 + off + 8 ≤ Z.of_nat (length b) →
  take 8 (drop (Z.to_nat (p.2 + off)) b) = Some <$> le_bytes 8 v → 0 ≤ v < 2 ^ 64 →
  ld_u64 p off m = Some v.
Proof.
  intros Hb Ho Hl E Hv. unfold ld_u64.
  rewrite (mem_load_values _ _ _ _ b (le_bytes 8 v) Hb) by (try exact E; lia).
  cbn [mbind option_bind]. f_equal. rewrite le_value_bytes. apply Z.mod_small. simpl. lia.
Qed.

Lemma sds_block_len len alloc data :
  length (sds_block len alloc data) = (16 + length data)%nat.
Proof. unfold sds_block. by rewrite length_app, length_fmap, length_app, !le_bytes_length. Qed.

Lemma sds_fields m s len alloc data :
  mm_blocks m !! s.1 = Some (sds_block len alloc data) → s.2 = FLB_SDS_HEADER_SIZE →
  0 ≤ len < 2 ^ 64 → 0 ≤ alloc < 2 ^ 64 →
  flb_sds_len s m = Some len ∧ flb_sds_alloc s m = Some alloc.
Proof.
  intros Hb Hs Hl Ha. unfold flb_sds_len, flb_sds_alloc, FLB_SDS_HEADER. rewrite Hs.
  unfold FLB_SDS_HEADER_SIZE, sds_len_off, sds_alloc_off. split.
  - eapply ld_u64_ok; [exact Hb|simpl; lia|rewrite sds_block_len; simpl; lia| |done]. reflexivity.
  - eapply ld_u64_ok; [exact Hb|simpl; lia|rewrite sds_block_len; simpl; lia| |done]. reflexivity.
Qed.

(** The header of an sds string: a length that is set is the length that
    is read, the capacity and the bytes of the string stay as they were, and
    the room left is the difference of the two. *)
Theorem flb_sds_len_set_spec m s len alloc data n :
  mm_blocks m !! s.1 = Some (sds_block len alloc data) → s.2 = FLB_SDS_HEADER_SIZE →
  0 ≤ len < 2 ^ 64 → 0 ≤ alloc < 2 ^ 64 → 0 ≤ n < 2 ^ 64 →
  flb_sds_len s m = Some len ∧
  flb_sds_avail s m = Some (size_t (alloc - len)) ∧
  ∃ m', flb_sds_len_set s n m = Some m' ∧
    mm_blocks m' = <[s.1 := sds_block n alloc data]> (mm_blocks m) ∧
    flb_sds_len s m' = Some n ∧ flb_sds_alloc s m' = Some alloc ∧
    flb_sds_is_empty s m' = Some (if decide (n = 0) then FLB_TRUE else FLB_FALSE).
Proof.
  intros Hb Hs Hl Ha Hn. destruct (sds_fields _ _ _ _ _ Hb Hs Hl Ha) as [E1 E2].
  split; [done|]. split.
  { unfold flb_sds_avail. unfold flb_sds_alloc, flb_sds_len in *. rewrite E2. simpl. by rewrite E1. }
  unfold flb_sds_len_set, st_u64, mem_store, FLB_SDS_HEADER. rewrite Hs.
  unfold FLB_SDS_HEADER_SIZE, sds_len_off. cbn [fst snd].
  erewrite mem_write_ok; [|exact Hb|lia|].
  2:{ rewrite sds_block_len, length_fmap, le_bytes_length. lia. }
  eexists. split; [done|]. cbn [mm_blocks].
  assert (E : splice (Z.to_nat (16 - 16 + 0)) (Some <$> le_bytes 8 n) (sds_block len alloc data)
    = sds_block n alloc data) by reflexivity.
  rewrite E. split; [done|].
  destruct (sds_fields (Mem (<[s.1 := sds_block n alloc data]> (mm_blocks m)) (mm_brk m) (mm_oracle m))
    s n alloc data) as [F1 F2]; [apply lookup_insert_eq|done..|].
  split_and!; [done..|]. unfold flb_sds_is_empty. by rewrite F1.
Qed.

Lemma strncmp_loop_ok m f a b cs ds :
  c_string m a cs → c_string m b ds → length cs = length ds → (∀ c, f c = f 0 → c = 0) →
  ∀ k i, (i + k = length cs)%nat →
  strncmp_loop k f a b (Z.of_nat i) m = Some 0 ↔ f <$> drop i cs = f <$> drop i ds.
Proof.
  intros Ha Hb Hlen Hf.
  assert (Hnz : Forall (λ c, c ≠ 0) cs) by (by destruct Ha as (? & ? & _ & _ & _ & ?)).
  induction k as [|k IH]; intros i Hi; simpl.
  { rewrite !drop_ge by lia. done. }
  rewrite (c_string_char _ _ _ _ Ha), (c_string_char _ _ _ _ Hb) by lia. simpl.
  destruct (lookup_lt_is_Some_2 cs i ltac:(lia)) as [c Hc].
  destruct (lookup_lt_is_Some_2 ds i ltac:(lia)) as [d Hd].
  rewrite Hc, Hd, (drop_S _ _ _ Hc), (drop_S _ _ _ Hd). simpl.
  assert (c ≠ 0) by (by apply (Forall_lookup_1 _ _ _ _ Hnz Hc)).
  destruct (decide (f c = f d)) as [E|E].
  - rewrite (decide_False (P := f c ≠ f d)) by tauto. rewrite decide_False by done.
    replace (Z.of_nat i + 1) with (Z.of_nat (S i)) by lia. rewrite IH by lia. rewrite E.
    split; [intros Heq; f_equal; exact Heq|intros [= Heq]; exact Heq].
  - rewrite decide_True by done. split; [case_decide; congruence|congruence].
Qed.

(** [flb_sds_cmp] returns 0 exactly when the sds string and the C string,
    given with its length, are equal; [flb_sds_casecmp] when they are equal
    up to ASCII case. *)
Theorem flb_sds_cmp_spec m s str alloc data cs ds :
  mm_blocks m !! s.1 = Some (sds_block (Z.of_nat (length cs)) alloc data) →
  s.2 = FLB_SDS_HEADER_SIZE → 0 ≤ alloc < 2 ^ 64 →
  c_string m s cs → c_string m str ds →
  Z.of_nat (length cs) < 2 ^ 31 → Z.of_nat (length ds) < 2 ^ 31 →
  (flb_sds_cmp s str (Z.of_nat (length ds)) m = Some 0 ↔ cs = ds) ∧
  (flb_sds_casecmp s str (Z.of_nat (length ds)) m = Some 0 ↔ tolower <$> cs = tolower <$> ds).
Proof.
  intros Hb Hs Ha Hcs Hds Hl1 Hl2.
  destruct (sds_fields _ _ _ _ _ Hb Hs ltac:(lia) Ha) as [E _].
  unfold flb_sds_cmp, flb_sds_casecmp. rewrite E. cbn [mbind option_bind].
  assert (size_t (Z.of_nat (length ds)) = Z.of_nat (length ds)) as ->
    by (unfold wrap; rewrite Z.mod_small; lia).
  destruct (decide (length cs = length ds)) as [Hlen|Hlen].
  - rewrite !(decide_False (P := Z.of_nat (length cs) ≠ _)) by lia.
    unfold strncmp, strncasecmp. rewrite !Nat2Z.id.
    rewrite (strncmp_loop_ok m id s str cs ds Hcs Hds Hlen (λ c H, H) (length ds) 0) by lia.
    assert (Ht : ∀ c, tolower c = tolower 0 → c = 0)
      by (intros c; unfold tolower; repeat case_decide; lia).
    rewrite (strncmp_loop_ok m tolower s str cs ds Hcs Hds Hlen Ht (length ds) 0) by lia.
    rewrite !drop_0, !list_fmap_id. done.
  - rewrite !decide_True by lia. split; (split; [done|]).
    + by intros ->.
    + intros Hf. apply (f_equal length) in Hf. rewrite !length_fmap in Hf. done.
Qed.

(** ** The theorems at work: the string "abxx" at 256, and as sds at 512. *)

Definition demo_strings : mem :=
  Mem {[ 256 := Some <$> [97; 98; 120; 120; 0];
         512 := sds_block 4 4 (Some <$> [97; 98; 120; 120; 0]) ]} 1024 [].

Lemma demo_strings_wf : mem_wf demo_strings.
Proof.
  assert (H : ∀ p b, mm_blocks demo_strings !! p = Some b →
    (p = 256 ∧ length b = 5%nat) ∨ (p = 512 ∧ length b = 21%nat)).
  { intros p b. simpl. intros [[<- <-]|[_ [<- <-]%lookup_singleton_Some]]%lookup_insert_Some; auto. }
  split; [split; [simpl; lia|]|].
  - intros p b Hb%H. simpl. lia.
  - intros p q b c Hpq Hp%H Hq%H. lia.
Qed.

Lemma demo_c_string : c_string demo_strings (256, 0) [97; 98; 120; 120].
Proof.
  exists (Some <$> [97; 98; 120; 120; 0]), []. split_and!; [reflexivity|simpl; lia|reflexivity|].
  repeat constructor; lia.
Qed.

Lemma demo_c_tail : c_string demo_strings (256, 2) [120; 120].
Proof.
  exists (Some <$> [97; 98; 120; 120; 0]), []. split_and!; [reflexivity|simpl; lia|reflexivity|].
  repeat constructor; lia.
Qed.

Lemma demo_sds_string : c_string demo_strings (512, 16) [97; 98; 120; 120].
Proof.
  exists (sds_block 4 4 (Some <$> [97; 98; 120; 120; 0])), [].
  split_and!; [reflexivity|simpl; lia|reflexivity|]. repeat constructor; lia.
Qed.

Lemma flb_bswap_reverses_witness :
  (le_bytes 2 (FLB_BSWAP_16 258) = rev (le_bytes 2 258) ∧ FLB_BSWAP_16 (FLB_BSWAP_16 258) = 258) ∧
  (le_bytes 4 (FLB_BSWAP_32 258) = rev (le_bytes 4 258) ∧ FLB_BSWAP_32 (FLB_BSWAP_32 258) = 258) ∧
  (le_bytes 8 (FLB_BSWAP_64 258) = rev (le_bytes 8 258) ∧ FLB_BSWAP_64 (FLB_BSWAP_64 258) = 258).
Proof. apply (flb_bswap_reverses 258 258 258); lia. Defined.

Lemma flb_strdup_spec_witness :
  ∃ p m', flb_strdup (256, 0) demo_strings = Some (p, m') ∧
    copied demo_strings [97; 98; 120; 120] p m'.
Proof. apply (flb_strdup_spec _ _ _ demo_strings_wf demo_c_string). simpl. lia. Defined.

(** A copy without its trailing run; and, of the string at 258, which is that
    run and nothing else, what stands before it. *)
Lemma flb_rtrim_spec_witness :
  (∃ p m', flb_rtrim (256, 0) 120 demo_strings = Some (p, m') ∧
    copied demo_strings [97; 98] p m') ∧
  flb_rtrim (256, 2) 120 demo_strings = Some (NULL, demo_strings).
Proof.
  split.
  - destruct (flb_rtrim_spec demo_strings (256, 0) 120 [97; 98] 2 demo_strings_wf demo_c_string)
      as [H _]; [discriminate|reflexivity|]. by apply H.
  - destruct (flb_rtrim_spec demo_strings (256, 2) 120 [] 2 demo_strings_wf demo_c_tail)
      as [_ H]; [discriminate|reflexivity|].
    exact (H eq_refl (Some <$> [97; 98; 120; 120; 0]) 0%nat (Some <$> [97; 98]) eq_refl eq_refl
             ltac:(discriminate)).
Defined.

Lemma flb_sds_len_set_spec_witness :
  flb_sds_len (512, 16) demo_strings = Some 4 ∧
  flb_sds_avail (512, 16) demo_strings = Some (size_t (4 - 4)) ∧
  ∃ m', flb_sds_len_set (512, 16) 2 demo_strings = Some m' ∧
    mm_blocks m' = <[512 := sds_block 2 4 (Some <$> [97; 98; 120; 120; 0])]> (mm_blocks demo_strings) ∧
    flb_sds_len (512, 16) m' = Some 2 ∧ flb_sds_alloc (512, 16) m' = Some 4 ∧
    flb_sds_is_empty (512, 16) m' = Some (if decide (2 = 0) then FLB_TRUE else FLB_FALSE).
Proof.
  apply (flb_sds_len_set_spec demo_strings (512, 16) 4 4 (Some <$> [97; 98; 120; 120; 0]) 2);
    [reflexivity|reflexivity|lia..].
Defined.

Lemma flb_sds_cmp_spec_witness :
  (flb_sds_cmp (512, 16) (256, 0) 4 demo_strings = Some 0 ↔
     [97; 98; 120; 120] = [97; 98; 120; 120]) ∧
  (flb_sds_casecmp (512, 16) (256, 0) 4 demo_strings = Some 0 ↔
     tolower <$> [97; 98; 120; 120] = tolower <$> [97; 98; 120; 120]).
Proof.
  apply (flb_sds_cmp_spec demo_strings (512, 16) (256, 0) 4 (Some <$> [97; 98; 120; 120; 0])
    [97; 98; 120; 120] [97; 98; 120; 120]); try reflexivity; try (simpl; lia).
  - exact demo_sds_string.
  - exact demo_c_string.
Defined.
