(* ===== verification/Encoder.v ===== *)
(** The log event encoder: [flb_log_event_encoder.h], its dynamic fields,
    its primitives and the three families of field macros.

    The functions that produce msgpack bytes are in the library; they are a
    parameter of the model, a record of operations over an abstract encoder
    state.  What the headers define is which of them are called, with which
    arguments, in which order, and what is returned. *)
From S2P Require Import Prelude.

(** * Constants *)

Definition FLB_EVENT_ENCODER_SUCCESS : Z := 0.
Definition FLB_EVENT_ENCODER_ERROR_UNSPECIFIED : Z := -1.
Definition FLB_EVENT_ENCODER_ERROR_ALLOCATION_ERROR : Z := -2.
Definition FLB_EVENT_ENCODER_ERROR_INVALID_CONTEXT : Z := -3.
Definition FLB_EVENT_ENCODER_ERROR_INVALID_ARGUMENT : Z := -4.
Definition FLB_EVENT_ENCODER_ERROR_SERIALIZATION_FAILURE : Z := -5.
Definition FLB_EVENT_ENCODER_ERROR_INVALID_VALUE_TYPE : Z := -6.
Definition FLB_LOG_EVENT_APPEND_TERMINATOR_VALUE_TYPE : Z := 0.
Definition FLB_LOG_EVENT_STRING_LENGTH_VALUE_TYPE : Z := 1.
Definition FLB_LOG_EVENT_STRING_BODY_VALUE_TYPE : Z := 2.
Definition FLB_LOG_EVENT_BINARY_LENGTH_VALUE_TYPE : Z := 3.
Definition FLB_LOG_EVENT_BINARY_BODY_VALUE_TYPE : Z := 4.
Definition FLB_LOG_EVENT_EXT_LENGTH_VALUE_TYPE : Z := 5.
Definition FLB_LOG_EVENT_EXT_BODY_VALUE_TYPE : Z := 6.
Definition FLB_LOG_EVENT_NULL_VALUE_TYPE : Z := 7.
Definition FLB_LOG_EVENT_CHAR_VALUE_TYPE : Z := 8.
Definition FLB_LOG_EVENT_INT8_VALUE_TYPE : Z := 9.
Definition FLB_LOG_EVENT_INT16_VALUE_TYPE : Z := 10.
Definition FLB_LOG_EVENT_INT32_VALUE_TYPE : Z := 11.
Definition FLB_LOG_EVENT_INT64_VALUE_TYPE : Z := 12.
Definition FLB_LOG_EVENT_UINT8_VALUE_TYPE : Z := 13.
Definition FLB_LOG_EVENT_UINT16_VALUE_TYPE : Z := 14.
Definition FLB_LOG_EVENT_UINT32_VALUE_TYPE : Z := 15.
Definition FLB_LOG_EVENT_UINT64_VALUE_TYPE : Z := 16.
Definition FLB_LOG_EVENT_DOUBLE_VALUE_TYPE : Z := 17.
Definition FLB_LOG_EVENT_BOOLEAN_VALUE_TYPE : Z := 18.
Definition FLB_LOG_EVENT_MSGPACK_OBJECT_VALUE_TYPE : Z := 19.
Definition FLB_LOG_EVENT_MSGPACK_RAW_VALUE_TYPE : Z := 20.
Definition FLB_LOG_EVENT_TIMESTAMP_VALUE_TYPE : Z := 21.
Definition FLB_LOG_EVENT_LEGACY_TIMESTAMP_VALUE_TYPE : Z := 22.
Definition FLB_LOG_EVENT_FORWARD_V1_TIMESTAMP_VALUE_TYPE : Z := 23.
Definition FLB_LOG_EVENT_FLUENT_BIT_V1_TIMESTAMP_VALUE_TYPE : Z := 24.
Definition FLB_LOG_EVENT_FLUENT_BIT_V2_TIMESTAMP_VALUE_TYPE : Z := 25.
Definition FLB_LOG_EVENT_STRING_MIN_VALUE_TYPE : Z := FLB_LOG_EVENT_STRING_LENGTH_VALUE_TYPE.
Definition FLB_LOG_EVENT_STRING_MAX_VALUE_TYPE : Z := FLB_LOG_EVENT_FLUENT_BIT_V2_TIMESTAMP_VALUE_TYPE.
Definition FLB_LOG_EVENT_ROOT : Z := 1.
Definition FLB_LOG_EVENT_METADATA : Z := 2.
Definition FLB_LOG_EVENT_BODY : Z := 3.
Definition FLB_EVENT_ENCODER_VALUE_LIMIT : Z := 64.
Definition FLB_LOG_EVENT_APPEND_UNTIL_TERMINATOR : Z := -1.

(** [flb_log_event.h] *)
Definition FLB_LOG_EVENT_FORMAT_UNKNOWN : Z := 0.
Definition FLB_LOG_EVENT_FORMAT_FORWARD_LEGACY : Z := 1.
Definition FLB_LOG_EVENT_FORMAT_FORWARD : Z := 2.
Definition FLB_LOG_EVENT_FORMAT_FLUENT_BIT_V1 : Z := FLB_LOG_EVENT_FORMAT_FORWARD.
Definition FLB_LOG_EVENT_FORMAT_FLUENT_BIT_V2 : Z := 4.
Definition FLB_LOG_EVENT_FORMAT_DEFAULT : Z := FLB_LOG_EVENT_FORMAT_FLUENT_BIT_V2.

(** * Variadic values

    An argument as it is pushed, with the C type it is cast to. *)
Inductive vararg :=
| VInt (z : Z)           (** [int], [int32_t] *)
| VUInt (z : Z)          (** [unsigned int], [uint32_t] *)
| VInt64 (z : Z)
| VUInt64 (z : Z)
| VSize (z : Z)          (** [size_t] *)
| VPtr (p : ptr)         (** [char *] *)
| VDouble (d : Z).       (** a [double], by its bit pattern *)

Definition v_int (z : Z) : vararg := VInt (s32 z).
Definition v_uint (z : Z) : vararg := VUInt (u32 z).
Definition v_int64 (z : Z) : vararg := VInt64 (s64 z).
Definition v_uint64 (z : Z) : vararg := VUInt64 (u64 z).
Definition v_size (z : Z) : vararg := VSize (size_t z).

Definition FLB_LOG_EVENT_VALUE_LIST_TERMINATOR : list vararg :=
  [v_int FLB_LOG_EVENT_APPEND_TERMINATOR_VALUE_TYPE].
Definition FLB_LOG_EVENT_STRING_LENGTH_VALUE (length : Z) : list vararg :=
  [v_int FLB_LOG_EVENT_STRING_LENGTH_VALUE_TYPE; v_size length].
Definition FLB_LOG_EVENT_STRING_BODY_VALUE (buffer length : Z) : list vararg :=
  [v_int FLB_LOG_EVENT_STRING_BODY_VALUE_TYPE; VPtr buffer; v_size length].
Definition FLB_LOG_EVENT_BINARY_LENGTH_VALUE (length : Z) : list vararg :=
  [v_int FLB_LOG_EVENT_BINARY_LENGTH_VALUE_TYPE; v_size length].
Definition FLB_LOG_EVENT_BINARY_BODY_VALUE (buffer length : Z) : list vararg :=
  [v_int FLB_LOG_EVENT_BINARY_BODY_VALUE_TYPE; VPtr buffer; v_size length].
Definition FLB_LOG_EVENT_EXT_LENGTH_VALUE (type_ length : Z) : list vararg :=
  [v_int FLB_LOG_EVENT_EXT_LENGTH_VALUE_TYPE; v_int type_; v_size length].
Definition FLB_LOG_EVENT_EXT_BODY_VALUE (buffer length : Z) : list vararg :=
  [v_int FLB_LOG_EVENT_EXT_BODY_VALUE_TYPE; VPtr buffer; v_size length].
Definition FLB_LOG_EVENT_TIMESTAMP_VALUE (value : Z) : list vararg :=
  [v_int FLB_LOG_EVENT_TIMESTAMP_VALUE_TYPE; VPtr value].
Definition FLB_LOG_EVENT_LEGACY_TIMESTAMP_VALUE (value : Z) : list vararg :=
  [v_int FLB_LOG_EVENT_LEGACY_TIMESTAMP_VALUE_TYPE; VPtr value].
Definition FLB_LOG_EVENT_FORWARD_V1_TIMESTAMP_VALUE (value : Z) : list vararg :=
  [v_int FLB_LOG_EVENT_FORWARD_V1_TIMESTAMP_VALUE_TYPE; VPtr value].
Definition FLB_LOG_EVENT_FLUENT_BIT_V1_TIMESTAMP_VALUE (value : Z) : list vararg :=
  [v_int FLB_LOG_EVENT_FLUENT_BIT_V1_TIMESTAMP_VALUE_TYPE; VPtr value].
Definition FLB_LOG_EVENT_NULL_VALUE : list vararg :=
  [v_int FLB_LOG_EVENT_NULL_VALUE_TYPE].
Definition FLB_LOG_EVENT_CHAR_VALUE (value : Z) : list vararg :=
  [v_int FLB_LOG_EVENT_CHAR_VALUE_TYPE; v_int value].
Definition FLB_LOG_EVENT_INT8_VALUE (value : Z) : list vararg :=
  [v_int FLB_LOG_EVENT_INT8_VALUE_TYPE; v_int value].
Definition FLB_LOG_EVENT_INT16_VALUE (value : Z) : list vararg :=
  [v_int FLB_LOG_EVENT_INT16_VALUE_TYPE; v_int value].
Definition FLB_LOG_EVENT_INT32_VALUE (value : Z) : list vararg :=
  [v_int FLB_LOG_EVENT_INT32_VALUE_TYPE; v_int value].
Definition FLB_LOG_EVENT_INT64_VALUE (value : Z) : list vararg :=
  [v_int FLB_LOG_EVENT_INT64_VALUE_TYPE; v_int64 value].
Definition FLB_LOG_EVENT_UINT8_VALUE (value : Z) : list vararg :=
  [v_int FLB_LOG_EVENT_UINT8_VALUE_TYPE; v_uint value].
Definition FLB_LOG_EVENT_UINT16_VALUE (value : Z) : list vararg :=
  [v_int FLB_LOG_EVENT_UINT16_VALUE_TYPE; v_uint value].
Definition FLB_LOG_EVENT_UINT32_VALUE (value : Z) : list vararg :=
  [v_int FLB_LOG_EVENT_UINT32_VALUE_TYPE; v_uint value].
Definition FLB_LOG_EVENT_UINT64_VALUE (value : Z) : list vararg :=
  [v_int FLB_LOG_EVENT_UINT64_VALUE_TYPE; v_uint64 value].
Definition FLB_LOG_EVENT_DOUBLE_VALUE (value : Z) : list vararg :=
  [v_int FLB_LOG_EVENT_DOUBLE_VALUE_TYPE; VDouble value].
Definition FLB_LOG_EVENT_BOOLEAN_VALUE (value : Z) : list vararg :=
  [v_int FLB_LOG_EVENT_BOOLEAN_VALUE_TYPE; v_int value].
Definition FLB_LOG_EVENT_MSGPACK_OBJECT_VALUE (value : Z) : list vararg :=
  [v_int FLB_LOG_EVENT_MSGPACK_OBJECT_VALUE_TYPE; VPtr value].
Definition FLB_LOG_EVENT_MSGPACK_RAW_VALUE (buffer length : Z) : list vararg :=
  [v_int FLB_LOG_EVENT_MSGPACK_RAW_VALUE_TYPE; VPtr buffer; v_size length].

Definition FLB_LOG_EVENT_STRING_VALUE (buffer length : Z) : list vararg :=
  FLB_LOG_EVENT_STRING_LENGTH_VALUE length ++ FLB_LOG_EVENT_STRING_BODY_VALUE buffer length.

Definition FLB_LOG_EVENT_BINARY_VALUE (buffer length : Z) : list vararg :=
  FLB_LOG_EVENT_BINARY_LENGTH_VALUE length ++ FLB_LOG_EVENT_BINARY_BODY_VALUE buffer length.

(** The macro's parameter is [type_], but its body names [type]: whatever the
    identifier [type] means where the macro is used, given here as the first
    argument. *)
Definition FLB_LOG_EVENT_EXT_VALUE (type : Z) (type_ buffer length : Z) : list vararg :=
  FLB_LOG_EVENT_EXT_LENGTH_VALUE type length ++ FLB_LOG_EVENT_EXT_BODY_VALUE buffer length.

(** [strlen] of the buffer is given. *)
Definition FLB_LOG_EVENT_CSTRING_VALUE (strlen : Z → Z) (buffer : Z) : list vararg :=
  FLB_LOG_EVENT_STRING_VALUE buffer (strlen buffer).

(** * Structures

    [packer] and [sbuffer] are the msgpack library's types, [time] the
    timestamp. *)
Section structures.
Context (packer sbuffer map_header time : Type).

Record flb_log_event_encoder_dynamic_field_scope := DynamicFieldScope {
  sc_offset : Z;
  sc_header : map_header;
  sc_type : Z
}.

Record flb_log_event_encoder_dynamic_field := DynamicField {
  df_initialized : Z;
  df_entry_count : Z;
  df_data_offset : Z;
  df_packer : packer;
  df_buffer : sbuffer;
  df_scopes : list flb_log_event_encoder_dynamic_field_scope;
  df_data : ptr;
  df_size : Z;
  df_type : Z
}.

Record flb_log_event_encoder := LogEventEncoder {
  le_dynamically_allocated : Z;
  le_output_buffer : ptr;
  le_output_length : Z;
  le_initialized : Z;
  le_timestamp : time;
  le_metadata : flb_log_event_encoder_dynamic_field;
  le_body : flb_log_event_encoder_dynamic_field;
  le_root : flb_log_event_encoder_dynamic_field;
  le_packer : packer;
  le_buffer : sbuffer;
  le_format : Z
}.
End structures.

(** * The library *)

(** The three dynamic fields of an encoder. *)
Inductive enc_field := F_metadata | F_body | F_root.

(** [&context->field] *)
Record field_ptr := FieldPtr { fp_context : ptr; fp_field : enc_field }.

(** One constructor per library append function, with its arguments after the
    conversion to the parameter types. *)
Inductive append_call :=
| A_binary_length (length : Z)
| A_binary_body (value length : Z)
| A_ext_length (type length : Z)
| A_ext_body (value length : Z)
| A_string_length (length : Z)
| A_string_body (value length : Z)
| A_int8 (value : Z)
| A_int16 (value : Z)
| A_int32 (value : Z)
| A_int64 (value : Z)
| A_uint8 (value : Z)
| A_uint16 (value : Z)
| A_uint32 (value : Z)
| A_uint64 (value : Z)
| A_double (value : Z)
| A_boolean (value : Z)
| A_character (value : Z)
| A_binary (value length : Z)
| A_string (value length : Z)
| A_ext (type value length : Z)
| A_cstring (value : Z)
| A_null
| A_msgpack_object (value : Z)
| A_raw_msgpack (value_buffer value_size : Z)
| A_timestamp (value : Z)
| A_legacy_timestamp (value : Z)
| A_forward_v1_timestamp (timestamp : Z)
| A_fluent_bit_v1_timestamp (value : Z)
| A_fluent_bit_v2_timestamp (value : Z).

(** One constructor per dynamic field function that takes only the field. *)
Inductive dyn_call :=
| D_begin_map | D_begin_array | D_commit_map | D_commit_array
| D_rollback_map | D_rollback_array | D_append | D_flush | D_reset.

Record encoder_lib (S : Type) := EncoderLib {
  el_append : ptr → Z → append_call → S → Z * S;
  el_append_values : ptr → Z → list vararg → S → Z * S;
  el_dynamic_field : dyn_call → field_ptr → S → Z * S
}.
Arguments el_append {S}.
Arguments el_append_values {S}.
Arguments el_dynamic_field {S}.

Section encoder.
Context {S : Type} (lib : encoder_lib S).

(** ** Library entry points, by name *)

Definition flb_log_event_encoder_append_binary_length (context : ptr) (target_field : Z) (length : Z) : S → Z * S :=
  el_append lib context target_field (A_binary_length (size_t length)).
Definition flb_log_event_encoder_append_binary_body (context : ptr) (target_field : Z) (value length : Z) : S → Z * S :=
  el_append lib context target_field (A_binary_body value (size_t length)).
Definition flb_log_event_encoder_append_ext_length (context : ptr) (target_field : Z) (type length : Z) : S → Z * S :=
  el_append lib context target_field (A_ext_length (s8 type) (size_t length)).
Definition flb_log_event_encoder_append_ext_body (context : ptr) (target_field : Z) (value length : Z) : S → Z * S :=
  el_append lib context target_field (A_ext_body value (size_t length)).
Definition flb_log_event_encoder_append_string_length (context : ptr) (target_field : Z) (length : Z) : S → Z * S :=
  el_append lib context target_field (A_string_length (size_t length)).
Definition flb_log_event_encoder_append_string_body (context : ptr) (target_field : Z) (value length : Z) : S → Z * S :=
  el_append lib context target_field (A_string_body value (size_t length)).
Definition flb_log_event_encoder_append_int8 (context : ptr) (target_field : Z) (value : Z) : S → Z * S :=
  el_append lib context target_field (A_int8 (s8 value)).
Definition flb_log_event_encoder_append_int16 (context : ptr) (target_field : Z) (value : Z) : S → Z * S :=
  el_append lib context target_field (A_int16 (swrap 16 value)).
Definition flb_log_event_encoder_append_int32 (context : ptr) (target_field : Z) (value : Z) : S → Z * S :=
  el_append lib context target_field (A_int32 (s32 value)).
Definition flb_log_event_encoder_append_int64 (context : ptr) (target_field : Z) (value : Z) : S → Z * S :=
  el_append lib context target_field (A_int64 (s64 value)).
Definition flb_log_event_encoder_append_uint8 (context : ptr) (target_field : Z) (value : Z) : S → Z * S :=
  el_append lib context target_field (A_uint8 (u8 value)).
Definition flb_log_event_encoder_append_uint16 (context : ptr) (target_field : Z) (value : Z) : S → Z * S :=
  el_append lib context target_field (A_uint16 (u16 value)).
Definition flb_log_event_encoder_append_uint32 (context : ptr) (target_field : Z) (value : Z) : S → Z * S :=
  el_append lib context target_field (A_uint32 (u32 value)).
Definition flb_log_event_encoder_append_uint64 (context : ptr) (target_field : Z) (value : Z) : S → Z * S :=
  el_append lib context target_field (A_uint64 (u64 value)).
Definition flb_log_event_encoder_append_double (context : ptr) (target_field : Z) (value : Z) : S → Z * S :=
  el_append lib context target_field (A_double value).
Definition flb_log_event_encoder_append_boolean (context : ptr) (target_field : Z) (value : Z) : S → Z * S :=
  el_append lib context target_field (A_boolean (s32 value)).
Definition flb_log_event_encoder_append_character (context : ptr) (target_field : Z) (value : Z) : S → Z * S :=
  el_append lib context target_field (A_character (s8 value)).
Definition flb_log_event_encoder_append_binary (context : ptr) (target_field : Z) (value length : Z) : S → Z * S :=
  el_append lib context target_field (A_binary value (size_t length)).
Definition flb_log_event_encoder_append_string (context : ptr) (target_field : Z) (value length : Z) : S → Z * S :=
  el_append lib context target_field (A_string value (size_t length)).
Definition flb_log_event_encoder_append_ext (context : ptr) (target_field : Z) (type value length : Z) : S → Z * S :=
  el_append lib context target_field (A_ext (s8 type) value (size_t length)).
Definition flb_log_event_encoder_append_cstring (context : ptr) (target_field : Z) (value : Z) : S → Z * S :=
  el_append lib context target_field (A_cstring value).
Definition flb_log_event_encoder_append_null (context : ptr) (target_field : Z) : S → Z * S :=
  el_append lib context target_field A_null.
Definition flb_log_event_encoder_append_msgpack_object (context : ptr) (target_field : Z) (value : Z) : S → Z * S :=
  el_append lib context target_field (A_msgpack_object value).
Definition flb_log_event_encoder_append_raw_msgpack (context : ptr) (target_field : Z) (value_buffer value_size : Z) : S → Z * S :=
  el_append lib context target_field (A_raw_msgpack value_buffer (size_t value_size)).
Definition flb_log_event_encoder_append_timestamp (context : ptr) (target_field : Z) (value : Z) : S → Z * S :=
  el_append lib context target_field (A_timestamp value).
Definition flb_log_event_encoder_append_legacy_timestamp (context : ptr) (target_field : Z) (value : Z) : S → Z * S :=
  el_append lib context target_field (A_legacy_timestamp value).
Definition flb_log_event_encoder_append_forward_v1_timestamp (context : ptr) (target_field : Z) (timestamp : Z) : S → Z * S :=
  el_append lib context target_field (A_forward_v1_timestamp timestamp).
Definition flb_log_event_encoder_append_fluent_bit_v1_timestamp (context : ptr) (target_field : Z) (value : Z) : S → Z * S :=
  el_append lib context target_field (A_fluent_bit_v1_timestamp value).
Definition flb_log_event_encoder_append_fluent_bit_v2_timestamp (context : ptr) (target_field : Z) (value : Z) : S → Z * S :=
  el_append lib context target_field (A_fluent_bit_v2_timestamp value).

Definition flb_log_event_encoder_dynamic_field_begin_map (field : field_ptr) : S → Z * S :=
  el_dynamic_field lib D_begin_map field.
Definition flb_log_event_encoder_dynamic_field_begin_array (field : field_ptr) : S → Z * S :=
  el_dynamic_field lib D_begin_array field.
Definition flb_log_event_encoder_dynamic_field_commit_map (field : field_ptr) : S → Z * S :=
  el_dynamic_field lib D_commit_map field.
Definition flb_log_event_encoder_dynamic_field_commit_array (field : field_ptr) : S → Z * S :=
  el_dynamic_field lib D_commit_array field.
Definition flb_log_event_encoder_dynamic_field_rollback_map (field : field_ptr) : S → Z * S :=
  el_dynamic_field lib D_rollback_map field.
Definition flb_log_event_encoder_dynamic_field_rollback_array (field : field_ptr) : S → Z * S :=
  el_dynamic_field lib D_rollback_array field.
Definition flb_log_event_encoder_dynamic_field_flush (field : field_ptr) : S → Z * S :=
  el_dynamic_field lib D_flush field.
Definition flb_log_event_encoder_dynamic_field_reset (field : field_ptr) : S → Z * S :=
  el_dynamic_field lib D_reset field.

(** ** Value lists end with the terminator *)

Definition flb_log_event_encoder_append_values (context : ptr) (field : Z) (args : list vararg)
  : S → Z * S :=
  el_append_values lib context field (args ++ FLB_LOG_EVENT_VALUE_LIST_TERMINATOR).

Definition flb_log_event_encoder_append_metadata_values (context : ptr) (args : list vararg)
  : S → Z * S :=
  el_append_values lib context FLB_LOG_EVENT_METADATA (args ++ FLB_LOG_EVENT_VALUE_LIST_TERMINATOR).

Definition flb_log_event_encoder_append_body_values (context : ptr) (args : list vararg)
  : S → Z * S :=
  el_append_values lib context FLB_LOG_EVENT_BODY (args ++ FLB_LOG_EVENT_VALUE_LIST_TERMINATOR).

Definition flb_log_event_encoder_append_root_values (context : ptr) (args : list vararg)
  : S → Z * S :=
  el_append_values lib context FLB_LOG_EVENT_ROOT (args ++ FLB_LOG_EVENT_VALUE_LIST_TERMINATOR).

(** ** Primitives on a target field *)

(** Returns the code and, on success, the field. *)
Definition flb_log_event_encoder_get_field (context : ptr) (target_field : Z)
  : Z * option field_ptr :=
  if decide (target_field = FLB_LOG_EVENT_METADATA) then
    (FLB_EVENT_ENCODER_SUCCESS, Some (FieldPtr context F_metadata))
  else if decide (target_field = FLB_LOG_EVENT_BODY) then
    (FLB_EVENT_ENCODER_SUCCESS, Some (FieldPtr context F_body))
  else if decide (target_field = FLB_LOG_EVENT_ROOT) then
    (FLB_EVENT_ENCODER_SUCCESS, Some (FieldPtr context F_root))
  else (FLB_EVENT_ENCODER_ERROR_INVALID_ARGUMENT, None).

Definition flb_log_event_encoder_begin_map (context : ptr) (target_field : Z) (s : S)
  : option (Z * S) :=
  let '(result, field) := flb_log_event_encoder_get_field context target_field in
  if decide (result = FLB_EVENT_ENCODER_SUCCESS) then
    field ← field;
    Some (flb_log_event_encoder_dynamic_field_begin_map field s)
  else Some (result, s).

Definition flb_log_event_encoder_commit_map (context : ptr) (target_field : Z) (s : S)
  : option (Z * S) :=
  let '(result, field) := flb_log_event_encoder_get_field context target_field in
  if decide (result = FLB_EVENT_ENCODER_SUCCESS) then
    field ← field;
    Some (flb_log_event_encoder_dynamic_field_commit_map field s)
  else Some (result, s).

Definition flb_log_event_encoder_rollback_map (context : ptr) (target_field : Z) (s : S)
  : option (Z * S) :=
  let '(result, field) := flb_log_event_encoder_get_field context target_field in
  if decide (result = FLB_EVENT_ENCODER_SUCCESS) then
    field ← field;
    Some (flb_log_event_encoder_dynamic_field_rollback_map field s)
  else Some (result, s).

Definition flb_log_event_encoder_begin_array (context : ptr) (target_field : Z) (s : S)
  : option (Z * S) :=
  let '(result, field) := flb_log_event_encoder_get_field context target_field in
  if decide (result = FLB_EVENT_ENCODER_SUCCESS) then
    field ← field;
    Some (flb_log_event_encoder_dynamic_field_begin_array field s)
  else Some (result, s).

Definition flb_log_event_encoder_commit_array (context : ptr) (target_field : Z) (s : S)
  : option (Z * S) :=
  let '(result, field) := flb_log_event_encoder_get_field context target_field in
  if decide (result = FLB_EVENT_ENCODER_SUCCESS) then
    field ← field;
    Some (flb_log_event_encoder_dynamic_field_commit_array field s)
  else Some (result, s).

Definition flb_log_event_encoder_rollback_array (context : ptr) (target_field : Z) (s : S)
  : option (Z * S) :=
  let '(result, field) := flb_log_event_encoder_get_field context target_field in
  if decide (result = FLB_EVENT_ENCODER_SUCCESS) then
    field ← field;
    Some (flb_log_event_encoder_dynamic_field_rollback_array field s)
  else Some (result, s).

(** ** The root macros *)

Definition flb_log_event_encoder_append_root_binary_length (context : ptr) (length : Z) : S → Z * S :=
  flb_log_event_encoder_append_binary_length context FLB_LOG_EVENT_ROOT length.
Definition flb_log_event_encoder_append_root_binary_body (context : ptr) (value length : Z) : S → Z * S :=
  flb_log_event_encoder_append_binary_body context FLB_LOG_EVENT_ROOT value length.
Definition flb_log_event_encoder_append_root_ext_length (context : ptr) (type length : Z) : S → Z * S :=
  flb_log_event_encoder_append_ext_length context FLB_LOG_EVENT_ROOT type length.
Definition flb_log_event_encoder_append_root_ext_body (context : ptr) (value length : Z) : S → Z * S :=
  flb_log_event_encoder_append_ext_body context FLB_LOG_EVENT_ROOT value length.
Definition flb_log_event_encoder_append_root_string_length (context : ptr) (length : Z) : S → Z * S :=
  flb_log_event_encoder_append_string_length context FLB_LOG_EVENT_ROOT length.
Definition flb_log_event_encoder_append_root_string_body (context : ptr) (value length : Z) : S → Z * S :=
  flb_log_event_encoder_append_string_body context FLB_LOG_EVENT_ROOT value length.
Definition flb_log_event_encoder_append_root_int8 (context : ptr) (value : Z) : S → Z * S :=
  flb_log_event_encoder_append_int8 context FLB_LOG_EVENT_ROOT value.
Definition flb_log_event_encoder_append_root_int16 (context : ptr) (value : Z) : S → Z * S :=
  flb_log_event_encoder_append_int16 context FLB_LOG_EVENT_ROOT value.
Definition flb_log_event_encoder_append_root_int32 (context : ptr) (value : Z) : S → Z * S :=
  flb_log_event_encoder_append_int32 context FLB_LOG_EVENT_ROOT value.
Definition flb_log_event_encoder_append_root_int64 (context : ptr) (value : Z) : S → Z * S :=
  flb_log_event_encoder_append_int64 context FLB_LOG_EVENT_ROOT value.
Definition flb_log_event_encoder_append_root_uint8 (context : ptr) (value : Z) : S → Z * S :=
  flb_log_event_encoder_append_uint8 context FLB_LOG_EVENT_ROOT value.
Definition flb_log_event_encoder_append_root_uint16 (context : ptr) (value : Z) : S → Z * S :=
  flb_log_event_encoder_append_uint16 context FLB_LOG_EVENT_ROOT value.
Definition flb_log_event_encoder_append_root_uint32 (context : ptr) (value : Z) : S → Z * S :=
  flb_log_event_encoder_append_uint32 context FLB_LOG_EVENT_ROOT value.
Definition flb_log_event_encoder_append_root_uint64 (context : ptr) (value : Z) : S → Z * S :=
  flb_log_event_encoder_append_uint64 context FLB_LOG_EVENT_ROOT value.
Definition flb_log_event_encoder_append_root_double (context : ptr) (value : Z) : S → Z * S :=
  flb_log_event_encoder_append_double context FLB_LOG_EVENT_ROOT value.
Definition flb_log_event_encoder_append_root_boolean (context : ptr) (value : Z) : S → Z * S :=
  flb_log_event_encoder_append_boolean context FLB_LOG_EVENT_ROOT value.
Definition flb_log_event_encoder_append_root_character (context : ptr) (value : Z) : S → Z * S :=
  flb_log_event_encoder_append_character context FLB_LOG_EVENT_ROOT value.
Definition flb_log_event_encoder_append_root_binary (context : ptr) (value length : Z) : S → Z * S :=
  flb_log_event_encoder_append_binary context FLB_LOG_EVENT_ROOT value length.
Definition flb_log_event_encoder_append_root_string (context : ptr) (value length : Z) : S → Z * S :=
  flb_log_event_encoder_append_string context FLB_LOG_EVENT_ROOT value length.
Definition flb_log_event_encoder_append_root_ext (context : ptr) (type value length : Z) : S → Z * S :=
  flb_log_event_encoder_append_ext context FLB_LOG_EVENT_ROOT type value length.
Definition flb_log_event_encoder_append_root_cstring (context : ptr) (value : Z) : S → Z * S :=
  flb_log_event_encoder_append_cstring context FLB_LOG_EVENT_ROOT value.
Definition flb_log_event_encoder_append_root_null (context : ptr) : S → Z * S :=
  flb_log_event_encoder_append_null context FLB_LOG_EVENT_ROOT.
Definition flb_log_event_encoder_append_root_msgpack_object (context : ptr) (value : Z) : S → Z * S :=
  flb_log_event_encoder_append_msgpack_object context FLB_LOG_EVENT_ROOT value.
Definition flb_log_event_encoder_append_root_raw_msgpack (context : ptr) (value_buffer value_size : Z) : S → Z * S :=
  flb_log_event_encoder_append_raw_msgpack context FLB_LOG_EVENT_ROOT value_buffer value_size.
Definition flb_log_event_encoder_append_root_timestamp (context : ptr) (value : Z) : S → Z * S :=
  flb_log_event_encoder_append_timestamp context FLB_LOG_EVENT_ROOT value.
Definition flb_log_event_encoder_append_root_legacy_timestamp (context : ptr) (value : Z) : S → Z * S :=
  flb_log_event_encoder_append_legacy_timestamp context FLB_LOG_EVENT_ROOT value.
Definition flb_log_event_encoder_append_root_forward_v1_timestamp (context : ptr) (value : Z) : S → Z * S :=
  flb_log_event_encoder_append_forward_v1_timestamp context FLB_LOG_EVENT_ROOT value.
Definition flb_log_event_encoder_append_root_fluent_bit_v1_timestamp (context : ptr) (value : Z) : S → Z * S :=
  flb_log_event_encoder_append_fluent_bit_v1_timestamp context FLB_LOG_EVENT_ROOT value.
Definition flb_log_event_encoder_append_root_fluent_bit_v2_timestamp (context : ptr) (value : Z) : S → Z * S :=
  flb_log_event_encoder_append_fluent_bit_v2_timestamp context FLB_LOG_EVENT_ROOT value.
Definition flb_log_event_encoder_root_begin_map (context : ptr) : S → Z * S :=
  flb_log_event_encoder_dynamic_field_begin_map (FieldPtr context F_root).
Definition flb_log_event_encoder_root_commit_map (context : ptr) : S → Z * S :=
  flb_log_event_encoder_dynamic_field_commit_map (FieldPtr context F_root).
Definition flb_log_event_encoder_root_rollback_map (context : ptr) : S → Z * S :=
  flb_log_event_encoder_dynamic_field_rollback_map (FieldPtr context F_root).
Definition flb_log_event_encoder_root_begin_array (context : ptr) : S → Z * S :=
  flb_log_event_encoder_dynamic_field_begin_array (FieldPtr context F_root).
Definition flb_log_event_encoder_root_commit_array (context : ptr) : S → Z * S :=
  flb_log_event_encoder_dynamic_field_commit_array (FieldPtr context F_root).
Definition flb_log_event_encoder_root_rollback_array (context : ptr) : S → Z * S :=
  flb_log_event_encoder_dynamic_field_rollback_array (FieldPtr context F_root).

(** ** The metadata macros *)

Definition flb_log_event_encoder_append_metadata_binary_length (context : ptr) (length : Z) : S → Z * S :=
  flb_log_event_encoder_append_binary_length context FLB_LOG_EVENT_METADATA length.
Definition flb_log_event_encoder_append_metadata_binary_body (context : ptr) (value length : Z) : S → Z * S :=
  flb_log_event_encoder_append_binary_body context FLB_LOG_EVENT_METADATA value length.
Definition flb_log_event_encoder_append_metadata_ext_length (context : ptr) (type length : Z) : S → Z * S :=
  flb_log_event_encoder_append_ext_length context FLB_LOG_EVENT_METADATA type length.
Definition flb_log_event_encoder_append_metadata_ext_body (context : ptr) (value length : Z) : S → Z * S :=
  flb_log_event_encoder_append_ext_body context FLB_LOG_EVENT_METADATA value length.
Definition flb_log_event_encoder_append_metadata_string_length (context : ptr) (length : Z) : S → Z * S :=
  flb_log_event_encoder_append_string_length context FLB_LOG_EVENT_METADATA length.
Definition flb_log_event_encoder_append_metadata_string_body (context : ptr) (value length : Z) : S → Z * S :=
  flb_log_event_encoder_append_string_body context FLB_LOG_EVENT_METADATA value length.
Definition flb_log_event_encoder_append_metadata_int8 (context : ptr) (value : Z) : S → Z * S :=
  flb_log_event_encoder_append_int8 context FLB_LOG_EVENT_METADATA value.
Definition flb_log_event_encoder_append_metadata_int16 (context : ptr) (value : Z) : S → Z * S :=
  flb_log_event_encoder_append_int16 context FLB_LOG_EVENT_METADATA value.
Definition flb_log_event_encoder_append_metadata_int32 (context : ptr) (value : Z) : S → Z * S :=
  flb_log_event_encoder_append_int32 context FLB_LOG_EVENT_METADATA value.
Definition flb_log_event_encoder_append_metadata_int64 (context : ptr) (value : Z) : S → Z * S :=
  flb_log_event_encoder_append_int64 context FLB_LOG_EVENT_METADATA value.
Definition flb_log_event_encoder_append_metadata_uint8 (context : ptr) (value : Z) : S → Z * S :=
  flb_log_event_encoder_append_uint8 context FLB_LOG_EVENT_METADATA value.
Definition flb_log_event_encoder_append_metadata_uint16 (context : ptr) (value : Z) : S → Z * S :=
  flb_log_event_encoder_append_uint16 context FLB_LOG_EVENT_METADATA value.
Definition flb_log_event_encoder_append_metadata_uint32 (context : ptr) (value : Z) : S → Z * S :=
  flb_log_event_encoder_append_uint32 context FLB_LOG_EVENT_METADATA value.
Definition flb_log_event_encoder_append_metadata_uint64 (context : ptr) (value : Z) : S → Z * S :=
  flb_log_event_encoder_append_uint64 context FLB_LOG_EVENT_METADATA value.
Definition flb_log_event_encoder_append_metadata_double (context : ptr) (value : Z) : S → Z * S :=
  flb_log_event_encoder_append_double context FLB_LOG_EVENT_METADATA value.
Definition flb_log_event_encoder_append_metadata_boolean (context : ptr) (value : Z) : S → Z * S :=
  flb_log_event_encoder_append_boolean context FLB_LOG_EVENT_METADATA value.
Definition flb_log_event_encoder_append_metadata_character (context : ptr) (value : Z) : S → Z * S :=
  flb_log_event_encoder_append_character context FLB_LOG_EVENT_METADATA value.
Definition flb_log_event_encoder_append_metadata_binary (context : ptr) (value length : Z) : S → Z * S :=
  flb_log_event_encoder_append_binary context FLB_LOG_EVENT_METADATA value length.
Definition flb_log_event_encoder_append_metadata_string (context : ptr) (value length : Z) : S → Z * S :=
  flb_log_event_encoder_append_string context FLB_LOG_EVENT_METADATA value length.
Definition flb_log_event_encoder_append_metadata_ext (context : ptr) (type value length : Z) : S → Z * S :=
  flb_log_event_encoder_append_ext context FLB_LOG_EVENT_METADATA type value length.
Definition flb_log_event_encoder_append_metadata_cstring (context : ptr) (value : Z) : S → Z * S :=
  flb_log_event_encoder_append_cstring context FLB_LOG_EVENT_METADATA value.
Definition flb_log_event_encoder_append_metadata_null (context : ptr) : S → Z * S :=
  flb_log_event_encoder_append_null context FLB_LOG_EVENT_METADATA.
Definition flb_log_event_encoder_append_metadata_msgpack_object (context : ptr) (value : Z) : S → Z * S :=
  flb_log_event_encoder_append_msgpack_object context FLB_LOG_EVENT_METADATA value.
Definition flb_log_event_encoder_append_metadata_raw_msgpack (context : ptr) (value_buffer value_size : Z) : S → Z * S :=
  flb_log_event_encoder_append_raw_msgpack context FLB_LOG_EVENT_METADATA value_buffer value_size.
Definition flb_log_event_encoder_append_metadata_timestamp (context : ptr) (value : Z) : S → Z * S :=
  flb_log_event_encoder_append_timestamp context FLB_LOG_EVENT_METADATA value.
Definition flb_log_event_encoder_append_metadata_legacy_timestamp (context : ptr) (value : Z) : S → Z * S :=
  flb_log_event_encoder_append_legacy_timestamp context FLB_LOG_EVENT_METADATA value.
Definition flb_log_event_encoder_append_metadata_forward_v1_timestamp (context : ptr) (value : Z) : S → Z * S :=
  flb_log_event_encoder_append_forward_v1_timestamp context FLB_LOG_EVENT_METADATA value.
Definition flb_log_event_encoder_append_metadata_fluent_bit_v1_timestamp (context : ptr) (value : Z) : S → Z * S :=
  flb_log_event_encoder_append_fluent_bit_v1_timestamp context FLB_LOG_EVENT_METADATA value.
Definition flb_log_event_encoder_append_metadata_fluent_bit_v2_timestamp (context : ptr) (value : Z) : S → Z * S :=
  flb_log_event_encoder_append_fluent_bit_v2_timestamp context FLB_LOG_EVENT_METADATA value.
Definition flb_log_event_encoder_metadata_begin_map (context : ptr) : S → Z * S :=
  flb_log_event_encoder_dynamic_field_begin_map (FieldPtr context F_metadata).
Definition flb_log_event_encoder_metadata_commit_map (context : ptr) : S → Z * S :=
  flb_log_event_encoder_dynamic_field_commit_map (FieldPtr context F_metadata).
Definition flb_log_event_encoder_metadata_rollback_map (context : ptr) : S → Z * S :=
  flb_log_event_encoder_dynamic_field_rollback_map (FieldPtr context F_metadata).
Definition flb_log_event_encoder_metadata_begin_array (context : ptr) : S → Z * S :=
  flb_log_event_encoder_dynamic_field_begin_array (FieldPtr context F_metadata).
Definition flb_log_event_encoder_metadata_commit_array (context : ptr) : S → Z * S :=
  flb_log_event_encoder_dynamic_field_commit_array (FieldPtr context F_metadata).
Definition flb_log_event_encoder_metadata_rollback_array (context : ptr) : S → Z * S :=
  flb_log_event_encoder_dynamic_field_rollback_array (FieldPtr context F_metadata).

(** ** The body macros *)

Definition flb_log_event_encoder_append_body_binary_length (context : ptr) (length : Z) : S → Z * S :=
  flb_log_event_encoder_append_binary_length context FLB_LOG_EVENT_BODY length.
Definition flb_log_event_encoder_append_body_binary_body (context : ptr) (value length : Z) : S → Z * S :=
  flb_log_event_encoder_append_binary_body context FLB_LOG_EVENT_BODY value length.
Definition flb_log_event_encoder_append_body_ext_length (context : ptr) (type length : Z) : S → Z * S :=
  flb_log_event_encoder_append_ext_length context FLB_LOG_EVENT_BODY type length.
Definition flb_log_event_encoder_append_body_ext_body (context : ptr) (value length : Z) : S → Z * S :=
  flb_log_event_encoder_append_ext_body context FLB_LOG_EVENT_BODY value length.
Definition flb_log_event_encoder_append_body_string_length (context : ptr) (length : Z) : S → Z * S :=
  flb_log_event_encoder_append_string_length context FLB_LOG_EVENT_BODY length.
Definition flb_log_event_encoder_append_body_string_body (context : ptr) (value length : Z) : S → Z * S :=
  flb_log_event_encoder_append_string_body context FLB_LOG_EVENT_BODY value length.
Definition flb_log_event_encoder_append_body_int8 (context : ptr) (value : Z) : S → Z * S :=
  flb_log_event_encoder_append_int8 context FLB_LOG_EVENT_BODY value.
Definition flb_log_event_encoder_append_body_int16 (context : ptr) (value : Z) : S → Z * S :=
  flb_log_event_encoder_append_int16 context FLB_LOG_EVENT_BODY value.
Definition flb_log_event_encoder_append_body_int32 (context : ptr) (value : Z) : S → Z * S :=
  flb_log_event_encoder_append_int32 context FLB_LOG_EVENT_BODY value.
Definition flb_log_event_encoder_append_body_int64 (context : ptr) (value : Z) : S → Z * S :=
  flb_log_event_encoder_append_int64 context FLB_LOG_EVENT_BODY value.
Definition flb_log_event_encoder_append_body_uint8 (context : ptr) (value : Z) : S → Z * S :=
  flb_log_event_encoder_append_uint8 context FLB_LOG_EVENT_BODY value.
Definition flb_log_event_encoder_append_body_uint16 (context : ptr) (value : Z) : S → Z * S :=
  flb_log_event_encoder_append_uint16 context FLB_LOG_EVENT_BODY value.
Definition flb_log_event_encoder_append_body_uint32 (context : ptr) (value : Z) : S → Z * S :=
  flb_log_event_encoder_append_uint32 context FLB_LOG_EVENT_BODY value.
Definition flb_log_event_encoder_append_body_uint64 (context : ptr) (value : Z) : S → Z * S :=
  flb_log_event_encoder_append_uint64 context FLB_LOG_EVENT_BODY value.
Definition flb_log_event_encoder_append_body_double (context : ptr) (value : Z) : S → Z * S :=
  flb_log_event_encoder_append_double context FLB_LOG_EVENT_BODY value.
Definition flb_log_event_encoder_append_body_boolean (context : ptr) (value : Z) : S → Z * S :=
  flb_log_event_encoder_append_boolean context FLB_LOG_EVENT_BODY value.
Definition flb_log_event_encoder_append_body_character (context : ptr) (value : Z) : S → Z * S :=
  flb_log_event_encoder_append_character context FLB_LOG_EVENT_BODY value.
Definition flb_log_event_encoder_append_body_binary (context : ptr) (value length : Z) : S → Z * S :=
  flb_log_event_encoder_append_binary context FLB_LOG_EVENT_BODY value length.
Definition flb_log_event_encoder_append_body_string (context : ptr) (value length : Z) : S → Z * S :=
  flb_log_event_encoder_append_string context FLB_LOG_EVENT_BODY value length.
Definition flb_log_event_encoder_append_body_ext (context : ptr) (type value length : Z) : S → Z * S :=
  flb_log_event_encoder_append_ext context FLB_LOG_EVENT_BODY type value length.
Definition flb_log_event_encoder_append_body_cstring (context : ptr) (value : Z) : S → Z * S :=
  flb_log_event_encoder_append_cstring context FLB_LOG_EVENT_BODY value.
Definition flb_log_event_encoder_append_body_null (context : ptr) : S → Z * S :=
  flb_log_event_encoder_append_null context FLB_LOG_EVENT_BODY.
Definition flb_log_event_encoder_append_body_msgpack_object (context : ptr) (value : Z) : S → Z * S :=
  flb_log_event_encoder_append_msgpack_object context FLB_LOG_EVENT_BODY value.
Definition flb_log_event_encoder_append_body_raw_msgpack (context : ptr) (value_buffer value_size : Z) : S → Z * S :=
  flb_log_event_encoder_append_raw_msgpack context FLB_LOG_EVENT_BODY value_buffer value_size.
Definition flb_log_event_encoder_append_body_timestamp (context : ptr) (value : Z) : S → Z * S :=
  flb_log_event_encoder_append_timestamp context FLB_LOG_EVENT_BODY value.
Definition flb_log_event_encoder_append_body_legacy_timestamp (context : ptr) (value : Z) : S → Z * S :=
  flb_log_event_encoder_append_legacy_timestamp context FLB_LOG_EVENT_BODY value.
Definition flb_log_event_encoder_append_body_forward_v1_timestamp (context : ptr) (value : Z) : S → Z * S :=
  flb_log_event_encoder_append_forward_v1_timestamp context FLB_LOG_EVENT_BODY value.
Definition flb_log_event_encoder_append_body_fluent_bit_v1_timestamp (context : ptr) (value : Z) : S → Z * S :=
  flb_log_event_encoder_append_fluent_bit_v1_timestamp context FLB_LOG_EVENT_BODY value.
Definition flb_log_event_encoder_append_body_fluent_bit_v2_timestamp (context : ptr) (value : Z) : S → Z * S :=
  flb_log_event_encoder_append_fluent_bit_v2_timestamp context FLB_LOG_EVENT_BODY value.
Definition flb_log_event_encoder_body_begin_map (context : ptr) : S → Z * S :=
  flb_log_event_encoder_dynamic_field_begin_map (FieldPtr context F_body).
Definition flb_log_event_encoder_body_commit_map (context : ptr) : S → Z * S :=
  flb_log_event_encoder_dynamic_field_commit_map (FieldPtr context F_body).
Definition flb_log_event_encoder_body_rollback_map (context : ptr) : S → Z * S :=
  flb_log_event_encoder_dynamic_field_rollback_map (FieldPtr context F_body).
Definition flb_log_event_encoder_body_begin_array (context : ptr) : S → Z * S :=
  flb_log_event_encoder_dynamic_field_begin_array (FieldPtr context F_body).
Definition flb_log_event_encoder_body_commit_array (context : ptr) : S → Z * S :=
  flb_log_event_encoder_dynamic_field_commit_array (FieldPtr context F_body).
Definition flb_log_event_encoder_body_rollback_array (context : ptr) : S → Z * S :=
  flb_log_event_encoder_dynamic_field_rollback_array (FieldPtr context F_body).

(** ** Replacing a field

    [if (result == FLB_EVENT_ENCODER_SUCCESS) { result = f(...); }] *)
Definition on_success (f : S → Z * S) (rs : Z * S) : Z * S :=
  let '(result, s) := rs in
  if decide (result = FLB_EVENT_ENCODER_SUCCESS) then f s else (result, s).

Definition flb_log_event_encoder_set_body_from_msgpack_object (context : ptr) (value : Z) (s : S) : Z * S :=
  let rs := flb_log_event_encoder_dynamic_field_reset (FieldPtr context F_body) s in
  let rs := on_success (flb_log_event_encoder_append_body_msgpack_object context value) rs in
  on_success (flb_log_event_encoder_dynamic_field_flush (FieldPtr context F_body)) rs.

Definition flb_log_event_encoder_set_body_from_raw_msgpack (context : ptr) (value_buffer value_size : Z) (s : S) : Z * S :=
  let rs := flb_log_event_encoder_dynamic_field_reset (FieldPtr context F_body) s in
  let rs := on_success (flb_log_event_encoder_append_body_raw_msgpack context value_buffer value_size) rs in
  on_success (flb_log_event_encoder_dynamic_field_flush (FieldPtr context F_body)) rs.

Definition flb_log_event_encoder_set_metadata_from_msgpack_object (context : ptr) (value : Z) (s : S) : Z * S :=
  let rs := flb_log_event_encoder_dynamic_field_reset (FieldPtr context F_metadata) s in
  let rs := on_success (flb_log_event_encoder_append_metadata_msgpack_object context value) rs in
  on_success (flb_log_event_encoder_dynamic_field_flush (FieldPtr context F_metadata)) rs.

Definition flb_log_event_encoder_set_metadata_from_raw_msgpack (context : ptr) (value_buffer value_size : Z) (s : S) : Z * S :=
  let rs := flb_log_event_encoder_dynamic_field_reset (FieldPtr context F_metadata) s in
  let rs := on_success (flb_log_event_encoder_append_metadata_raw_msgpack context value_buffer value_size) rs in
  on_success (flb_log_event_encoder_dynamic_field_flush (FieldPtr context F_metadata)) rs.

Definition flb_log_event_encoder_set_root_from_msgpack_object (context : ptr) (value : Z) (s : S) : Z * S :=
  let rs := flb_log_event_encoder_dynamic_field_reset (FieldPtr context F_metadata) s in
  let rs := on_success (flb_log_event_encoder_dynamic_field_reset (FieldPtr context F_body)) rs in
  let rs := on_success (flb_log_event_encoder_dynamic_field_reset (FieldPtr context F_root)) rs in
  on_success (λ s,
    let rs := flb_log_event_encoder_append_root_msgpack_object context value s in
    on_success (flb_log_event_encoder_dynamic_field_flush (FieldPtr context F_root)) rs) rs.

Definition flb_log_event_encoder_set_root_from_raw_msgpack (context : ptr) (value_buffer value_size : Z) (s : S) : Z * S :=
  let rs := flb_log_event_encoder_dynamic_field_reset (FieldPtr context F_metadata) s in
  let rs := on_success (flb_log_event_encoder_dynamic_field_reset (FieldPtr context F_body)) rs in
  let rs := on_success (flb_log_event_encoder_dynamic_field_reset (FieldPtr context F_root)) rs in
  let rs := on_success (flb_log_event_encoder_append_root_raw_msgpack context value_buffer value_size) rs in
  on_success (flb_log_event_encoder_dynamic_field_flush (FieldPtr context F_root)) rs.

(** * Specification *)

(** Steps run in order until one fails; the code of the last one run. *)
Fixpoint first_error (steps : list (S → Z * S)) (s : S) : Z * S :=
  match steps with
  | [] => (FLB_EVENT_ENCODER_SUCCESS, s)
  | f :: steps =>
      let '(r, s) := f s in
      if decide (r = FLB_EVENT_ENCODER_SUCCESS) then first_error steps s else (r, s)
  end.

Lemma first_error_one f s : first_error [f] s = f s.
Proof. simpl. destruct (f s) as [r s']. case_decide; by subst. Qed.

Lemma first_error_snoc steps f s :
  first_error (steps ++ [f]) s = on_success f (first_error steps s).
Proof.
  revert s. induction steps as [|g steps IH]; intros s; [apply first_error_one|].
  cbn [first_error app]. destruct (g s) as [r s']. case_decide; [done|].
  simpl. by rewrite decide_False.
Qed.

Lemma on_success_assoc f g rs :
  on_success (λ s, on_success g (f s)) rs = on_success g (on_success f rs).
Proof.
  destruct rs as [r s]. simpl. case_decide; [done|]. simpl. by rewrite decide_False.
Qed.

Lemma first_error_3 f g h s : first_error [f; g; h] s = on_success h (on_success g (f s)).
Proof.
  change [f; g; h] with (([f] ++ [g]) ++ [h]). by rewrite !first_error_snoc, first_error_one.
Qed.

Lemma first_error_5 f1 f2 f3 f4 f5 s :
  first_error [f1; f2; f3; f4; f5] s =
  on_success f5 (on_success f4 (on_success f3 (on_success f2 (f1 s)))).
Proof.
  change [f1; f2; f3; f4; f5] with ((([f1; f2] ++ [f3]) ++ [f4]) ++ [f5]).
  rewrite !first_error_snoc. change [f1; f2] with ([f1] ++ [f2]).
  by rewrite first_error_snoc, first_error_one.
Qed.

(** * Theorems *)

(** Replacing a field, as the list of the steps it makes. *)
Definition replacement (context : ptr) (emptied : list enc_field) (f : enc_field) (t : Z)
    (a : append_call) : list (S → Z * S) :=
  map (λ g, el_dynamic_field lib D_reset (FieldPtr context g)) (emptied ++ [f]) ++
  [el_append lib context t a; el_dynamic_field lib D_flush (FieldPtr context f)].

Lemma set_body_object context value s :
  flb_log_event_encoder_set_body_from_msgpack_object context value s =
  first_error (replacement context [] F_body FLB_LOG_EVENT_BODY (A_msgpack_object value)) s.
Proof. symmetry. apply first_error_3. Qed.

Lemma set_body_raw context buf size s :
  flb_log_event_encoder_set_body_from_raw_msgpack context buf size s =
  first_error (replacement context [] F_body FLB_LOG_EVENT_BODY
    (A_raw_msgpack buf (size_t size))) s.
Proof. symmetry. apply first_error_3. Qed.

Lemma set_metadata_object context value s :
  flb_log_event_encoder_set_metadata_from_msgpack_object context value s =
  first_error (replacement context [] F_metadata FLB_LOG_EVENT_METADATA
    (A_msgpack_object value)) s.
Proof. symmetry. apply first_error_3. Qed.

Lemma set_metadata_raw context buf size s :
  flb_log_event_encoder_set_metadata_from_raw_msgpack context buf size s =
  first_error (replacement context [] F_metadata FLB_LOG_EVENT_METADATA
    (A_raw_msgpack buf (size_t size))) s.
Proof. symmetry. apply first_error_3. Qed.

Lemma set_root_object context value s :
  flb_log_event_encoder_set_root_from_msgpack_object context value s =
  first_error (replacement context [F_metadata; F_body] F_root FLB_LOG_EVENT_ROOT
    (A_msgpack_object value)) s.
Proof.
  unfold replacement. cbn [map app]. rewrite first_error_5. apply on_success_assoc.
Qed.

Lemma set_root_raw context buf size s :
  flb_log_event_encoder_set_root_from_raw_msgpack context buf size s =
  first_error (replacement context [F_metadata; F_body] F_root FLB_LOG_EVENT_ROOT
    (A_raw_msgpack buf (size_t size))) s.
Proof. unfold replacement. cbn [map app]. by rewrite first_error_5. Qed.

(** Dispatch on the target field: the three known targets reach their own
    field of the context, whatever the operation; any other target returns
    INVALID_ARGUMENT and touches nothing. *)
Theorem flb_log_event_encoder_dispatch context t s :
  let field := if decide (t = FLB_LOG_EVENT_METADATA) then Some F_metadata
               else if decide (t = FLB_LOG_EVENT_BODY) then Some F_body
               else if decide (t = FLB_LOG_EVENT_ROOT) then Some F_root else None in
  let expected d := match field with
                    | Some f => el_dynamic_field lib d (FieldPtr context f) s
                    | None => (FLB_EVENT_ENCODER_ERROR_INVALID_ARGUMENT, s)
                    end in
  flb_log_event_encoder_begin_map context t s = Some (expected D_begin_map) ∧
  flb_log_event_encoder_commit_map context t s = Some (expected D_commit_map) ∧
  flb_log_event_encoder_rollback_map context t s = Some (expected D_rollback_map) ∧
  flb_log_event_encoder_begin_array context t s = Some (expected D_begin_array) ∧
  flb_log_event_encoder_commit_array context t s = Some (expected D_commit_array) ∧
  flb_log_event_encoder_rollback_array context t s = Some (expected D_rollback_array).
Proof.
  cbv zeta. unfold flb_log_event_encoder_begin_map, flb_log_event_encoder_commit_map,
    flb_log_event_encoder_rollback_map, flb_log_event_encoder_begin_array,
    flb_log_event_encoder_commit_array, flb_log_event_encoder_rollback_array,
    flb_log_event_encoder_get_field.
  destruct (decide (t = FLB_LOG_EVENT_METADATA)); [done|].
  destruct (decide (t = FLB_LOG_EVENT_BODY)); [done|].
  by destruct (decide (t = FLB_LOG_EVENT_ROOT)).
Qed.

End encoder.

(** * What is in the fields

    A dynamic field has a buffer, where values are appended, and the data it
    exposes ([data] and [size] of the structure), which the encoder reads when
    the record is committed. *)
Record field_value := FieldValue { fv_buffer : list append_call; fv_data : list append_call }.

#[export] Instance enc_field_eq_dec : EqDecision enc_field.
Proof. solve_decision. Defined.
#[export] Instance field_ptr_eq_dec : EqDecision field_ptr.
Proof. solve_decision. Defined.

(** What the operations of the library that replacing a field uses do to the
    fields of the encoders: a reset empties its field, an append adds a value
    to the buffer of the target, a flush exposes the buffer; each leaves the
    other fields alone and, when it fails, what its field exposes. *)
Class EncoderFields {S} (lib : encoder_lib S) := {
  ef_field : S → field_ptr → field_value;
  ef_reset p s r s' :
    el_dynamic_field lib D_reset p s = (r, s') →
    (r = FLB_EVENT_ENCODER_SUCCESS → ef_field s' p = FieldValue [] []) ∧
    (r ≠ FLB_EVENT_ENCODER_SUCCESS → fv_data (ef_field s' p) = fv_data (ef_field s p)) ∧
    (∀ q, q ≠ p → ef_field s' q = ef_field s q);
  ef_append context t p a s r s' :
    flb_log_event_encoder_get_field context t = (FLB_EVENT_ENCODER_SUCCESS, Some p) →
    el_append lib context t a s = (r, s') →
    (r = FLB_EVENT_ENCODER_SUCCESS →
       fv_buffer (ef_field s' p) = fv_buffer (ef_field s p) ++ [a]) ∧
    fv_data (ef_field s' p) = fv_data (ef_field s p) ∧
    (∀ q, q ≠ p → ef_field s' q = ef_field s q);
  ef_flush p s r s' :
    el_dynamic_field lib D_flush p s = (r, s') →
    (r = FLB_EVENT_ENCODER_SUCCESS →
       fv_buffer (ef_field s' p) = fv_buffer (ef_field s p) ∧
       fv_data (ef_field s' p) = fv_buffer (ef_field s p)) ∧
    (r ≠ FLB_EVENT_ENCODER_SUCCESS → fv_data (ef_field s' p) = fv_data (ef_field s p)) ∧
    (∀ q, q ≠ p → ef_field s' q = ef_field s q)
}.

Section fields.
Context {S : Type} (lib : encoder_lib S) `{!EncoderFields lib}.

(** The library takes every value and every reset and flush. *)
Definition all_succeed : Prop :=
  (∀ d p s, d = D_reset ∨ d = D_flush → (el_dynamic_field lib d p s).1 = FLB_EVENT_ENCODER_SUCCESS) ∧
  (∀ context t a s, (el_append lib context t a s).1 = FLB_EVENT_ENCODER_SUCCESS).

(** The code of a reset, of an append or of a flush of the library. *)
Definition library_code (r : Z) : Prop :=
  (∃ d p s, (d = D_reset ∨ d = D_flush) ∧ (el_dynamic_field lib d p s).1 = r) ∨
  (∃ context t a s, (el_append lib context t a s).1 = r).

(** [op] replaces what the field [f] of [context] holds by [a] and empties
    the fields [emptied] of the same encoder. *)
Definition replaces (context : ptr) (emptied : list enc_field) (f : enc_field)
    (a : append_call) (op : S → Z * S) : Prop :=
  ∀ s r s', op s = (r, s') →
    (r = FLB_EVENT_ENCODER_SUCCESS →
       ef_field s' (FieldPtr context f) = FieldValue [a] [a] ∧
       ∀ g, g ∈ emptied → ef_field s' (FieldPtr context g) = FieldValue [] []) ∧
    (r ≠ FLB_EVENT_ENCODER_SUCCESS →
       library_code r ∧
       (fv_data (ef_field s' (FieldPtr context f)) = [] ∨
        fv_data (ef_field s' (FieldPtr context f)) = fv_data (ef_field s (FieldPtr context f)))) ∧
    (all_succeed → r = FLB_EVENT_ENCODER_SUCCESS) ∧
    (∀ q, (fp_context q ≠ context ∨ fp_field q ∉ f :: emptied) → ef_field s' q = ef_field s q).

(** Appending and flushing, on a field that has been reset. *)
Lemma append_flush_replaces context t f a s r s' :
  flb_log_event_encoder_get_field context t =
    (FLB_EVENT_ENCODER_SUCCESS, Some (FieldPtr context f)) →
  ef_field s (FieldPtr context f) = FieldValue [] [] →
  first_error [el_append lib context t a; el_dynamic_field lib D_flush (FieldPtr context f)] s =
    (r, s') →
  (r = FLB_EVENT_ENCODER_SUCCESS → ef_field s' (FieldPtr context f) = FieldValue [a] [a]) ∧
  (r ≠ FLB_EVENT_ENCODER_SUCCESS →
     library_code r ∧ fv_data (ef_field s' (FieldPtr context f)) = []) ∧
  (all_succeed → r = FLB_EVENT_ENCODER_SUCCESS) ∧
  (∀ q, q ≠ FieldPtr context f → ef_field s' q = ef_field s q).
Proof.
  intros Ht Hs. set (p := FieldPtr context f) in *. simpl.
  destruct (el_append lib context t a s) as [r1 s1] eqn:E1.
  pose proof (ef_append context t p a s r1 s1 Ht E1) as (Ha & Ha' & Hao).
  rewrite Hs in Ha, Ha'. case_decide as D.
  - destruct (el_dynamic_field lib D_flush p s1) as [r2 s2] eqn:E2.
    pose proof (ef_flush p s1 r2 s2 E2) as (Hf & Hf' & Hfo).
    intros H. assert (r = r2 ∧ s' = s2) as [-> ->] by (case_decide; simplify_eq; done).
    split_and!.
    + intros Hr. destruct (Hf Hr) as [H1 H2]. specialize (Ha D). simpl in Ha.
      destruct (ef_field s2 p). simpl in *. congruence.
    + intros Hr. split; [left; exists D_flush, p, s1; rewrite E2; auto|].
      rewrite Hf' by done. done.
    + intros [Hall _]. specialize (Hall D_flush p s1 (or_intror eq_refl)). by rewrite E2 in Hall.
    + intros q Hq. by rewrite Hfo, Hao.
  - intros [= <- <-]. split_and!; [done| |  |done].
    + intros _. split; [right; exists context, t, a, s; by rewrite E1|done].
    + intros [_ Hall]. specialize (Hall context t a s). by rewrite E1 in Hall.
Qed.

(** The resets come first; each empties a field of its own. *)
Lemma replacement_replaces context emptied f t a :
  f ∉ emptied →
  flb_log_event_encoder_get_field context t =
    (FLB_EVENT_ENCODER_SUCCESS, Some (FieldPtr context f)) →
  NoDup emptied →
  replaces context emptied f a (first_error (replacement lib context emptied f t a)).
Proof.
  intros Hf Ht. unfold replacement. induction emptied as [|g emptied IH]; intros Hnd s r s'.
  - cbn [map app]. intros H. cbn [first_error] in H.
    set (p := FieldPtr context f) in *.
    destruct (el_dynamic_field lib D_reset p s) as [r1 s1] eqn:E1.
    pose proof (ef_reset p s r1 s1 E1) as (Hr & Hr' & Hro). case_decide as D.
    + change (first_error [el_append lib context t a; el_dynamic_field lib D_flush p] s1 = (r, s')) in H.
      apply append_flush_replaces in H as (H1 & H2 & H3 & H4); [|done|auto].
      split_and!; [|naive_solver|done|].
      * intros Hs. split; [auto|]. intros g Hg. by apply elem_of_nil in Hg.
      * intros q Hq. assert (q ≠ p) by (intros ->; set_solver). by rewrite H4, Hro.
    + injection H as <- <-. split_and!; [done| | |].
      * intros _. split; [left; exists D_reset, p, s; rewrite E1; auto|auto].
      * intros [Hall _]. specialize (Hall D_reset p s (or_introl eq_refl)). by rewrite E1 in Hall.
      * intros q Hq. apply Hro. intros ->. set_solver.
  - apply NoDup_cons in Hnd as [Hg Hnd]. cbn [map app first_error]. intros H.
    set (pg := FieldPtr context g) in *. set (p := FieldPtr context f) in *.
    assert (p ≠ pg) by (intros [= ->]; set_solver).
    destruct (el_dynamic_field lib D_reset pg s) as [r1 s1] eqn:E1.
    pose proof (ef_reset pg s r1 s1 E1) as (Hr & Hr' & Hro). case_decide as D.
    + apply (IH ltac:(set_solver) Hnd) in H as (H1 & H2 & H3 & H4).
      split_and!; [| |done|].
      * intros Hs. destruct (H1 Hs) as [H5 H6]. split; [done|].
        intros g' [->|]%elem_of_cons; [|auto].
        rewrite H4; [by apply Hr|right; set_solver].
      * intros Hs. destruct (H2 Hs) as [H5 H6]. split; [done|].
        fold p in H6. rewrite (Hro p) in H6 by done. done.
      * intros q Hq. assert (q ≠ pg) by (intros ->; set_solver).
        rewrite H4 by set_solver. by apply Hro.
    + injection H as <- <-. split_and!; [done| | |].
      * intros _. split; [left; exists D_reset, pg, s; rewrite E1; auto|right; by rewrite Hro].
      * intros [Hall _]. specialize (Hall D_reset pg s (or_introl eq_refl)). by rewrite E1 in Hall.
      * intros q Hq. apply Hro. intros ->. set_solver.
Qed.

(** C34. Replacing the body, the metadata or the root of a record: on success
    the field holds and exposes the given value alone, whatever it held before,
    and when it is the root the metadata and the body are empty; on failure the
    code is one the library has returned and the field exposes what it did or
    nothing, never the new value in part; it succeeds when the library takes
    what it is given; and no other field of any encoder changes. *)
Theorem flb_log_event_encoder_set_replaces context value buf size :
  replaces context [] F_body (A_msgpack_object value)
    (flb_log_event_encoder_set_body_from_msgpack_object lib context value) ∧
  replaces context [] F_body (A_raw_msgpack buf (size_t size))
    (flb_log_event_encoder_set_body_from_raw_msgpack lib context buf size) ∧
  replaces context [] F_metadata (A_msgpack_object value)
    (flb_log_event_encoder_set_metadata_from_msgpack_object lib context value) ∧
  replaces context [] F_metadata (A_raw_msgpack buf (size_t size))
    (flb_log_event_encoder_set_metadata_from_raw_msgpack lib context buf size) ∧
  replaces context [F_metadata; F_body] F_root (A_msgpack_object value)
    (flb_log_event_encoder_set_root_from_msgpack_object lib context value) ∧
  replaces context [F_metadata; F_body] F_root (A_raw_msgpack buf (size_t size))
    (flb_log_event_encoder_set_root_from_raw_msgpack lib context buf size).
Proof.
  split_and!; intros s r s' H;
    rewrite ?set_body_object, ?set_body_raw, ?set_metadata_object, ?set_metadata_raw,
      ?set_root_object, ?set_root_raw in H; revert s r s' H;
    apply replacement_replaces;
    first [reflexivity | apply (bool_decide_unpack _); vm_compute; exact I].
Qed.
End fields.

(** ** A library

    An encoder whose buffers hold at most [limit] values. *)
Definition small_state : Type := field_ptr → field_value.

Definition small_set (p : field_ptr) (v : field_value) (s : small_state) : small_state :=
  λ q, if decide (q = p) then v else s q.

Definition small_lib (limit : nat) : encoder_lib small_state :=
  EncoderLib _
    (λ context t a s,
       match flb_log_event_encoder_get_field context t with
       | (_, Some p) =>
           if decide (length (fv_buffer (s p)) < limit)%nat then
             (FLB_EVENT_ENCODER_SUCCESS,
              small_set p (FieldValue (fv_buffer (s p) ++ [a]) (fv_data (s p))) s)
           else (FLB_EVENT_ENCODER_ERROR_ALLOCATION_ERROR, s)
       | (r, None) => (r, s)
       end)
    (λ context t args s, (FLB_EVENT_ENCODER_ERROR_UNSPECIFIED, s))
    (λ d p s,
       match d with
       | D_reset => (FLB_EVENT_ENCODER_SUCCESS, small_set p (FieldValue [] []) s)
       | D_flush =>
           (FLB_EVENT_ENCODER_SUCCESS,
            small_set p (FieldValue (fv_buffer (s p)) (fv_buffer (s p))) s)
       | _ => (FLB_EVENT_ENCODER_ERROR_UNSPECIFIED, s)
       end).

Lemma small_set_eq p v s : small_set p v s p = v.
Proof. unfold small_set. by rewrite decide_True. Qed.

Lemma small_set_ne p v s q : q ≠ p → small_set p v s q = s q.
Proof. intros. unfold small_set. by rewrite decide_False. Qed.

#[export] Program Instance small_fields limit : EncoderFields (small_lib limit) :=
  {| ef_field := λ s p, s p |}.
Next Obligation.
  intros limit p s r s' [= <- <-]. rewrite small_set_eq.
  split_and!; [done|done|]. intros. by apply small_set_ne.
Qed.
Next Obligation.
  intros limit context t p a s r s' Ht. simpl. rewrite Ht.
  case_decide; intros [= <- <-]; [|done].
  rewrite small_set_eq. split_and!; [done|done|]. intros. by apply small_set_ne.
Qed.
Next Obligation.
  intros limit p s r s' [= <- <-]. rewrite small_set_eq.
  split_and!; [done|done|]. intros. by apply small_set_ne.
Qed.

(** Every field of every encoder holds an old value. *)
Definition full_state : small_state := λ _, FieldValue [A_null] [A_null].

Lemma flb_log_event_encoder_set_replaces_witness :
  let lib := small_lib 1 in
  let '(r, s) := flb_log_event_encoder_set_root_from_msgpack_object lib 16 400 full_state in
  r = FLB_EVENT_ENCODER_SUCCESS ∧
  s (FieldPtr 16 F_root) = FieldValue [A_msgpack_object 400] [A_msgpack_object 400] ∧
  s (FieldPtr 16 F_body) = FieldValue [] [] ∧
  s (FieldPtr 32 F_root) = FieldValue [A_null] [A_null].
Proof.
  destruct (flb_log_event_encoder_set_replaces (small_lib 1) 16 400 500 3)
    as (_ & _ & _ & _ & H & _).
  destruct (H full_state _ _ eq_refl) as (H1 & _ & _ & H4). destruct H1 as [H1 H2]; [reflexivity|].
  split_and!; [reflexivity|exact H1|apply H2|apply H4; by left].
  by apply list_elem_of_further, list_elem_of_here.
Defined.

(** [FLB_LOG_EVENT_EXT_VALUE] pushes the extension type it was given only
    if the identifier [type] of the calling code happens to hold the same
    [int]; otherwise some other type is encoded. *)
Theorem flb_log_event_ext_value_type type type_ buffer length :
  FLB_LOG_EVENT_EXT_VALUE type type_ buffer length =
    FLB_LOG_EVENT_EXT_LENGTH_VALUE type_ length ++ FLB_LOG_EVENT_EXT_BODY_VALUE buffer length ↔
  s32 type = s32 type_.
Proof.
  unfold FLB_LOG_EVENT_EXT_VALUE, FLB_LOG_EVENT_EXT_LENGTH_VALUE, v_int. split.
  - simpl. by intros [=].
  - by intros ->.
Qed.

