(* ===== verification/Time.v ===== *)
(** [flb_time.h] and [flb_parser_tm2time] of [flb_parser.h]: timestamps as
    seconds and nanoseconds.

    [time_t] has 64 bits; the width [lw] of [long] is a parameter, 32 on
    64-bit Windows (the target of these headers) and 64 on 64-bit Unix. *)
From Stdlib Require Import SpecFloat.
From S2P Require Import Prelude.

Record flb_time := FlbTime { tv_sec : Z; tv_nsec : Z }.

(** [struct flb_tm]: the broken-down time, kept abstract, and the offset. *)
Record flb_tm (tm : Type) := FlbTm { ft_tm : tm; ft_gmtoff : Z }.
Arguments FlbTm {tm}.
Arguments ft_tm {tm}.
Arguments ft_gmtoff {tm}.

Definition flb_tm_gmtoff {tm} (x : flb_tm tm) : Z := ft_gmtoff x.

(** [enum flb_time_eventtime_fmt] *)
Inductive flb_time_eventtime_fmt :=
| FLB_TIME_ETFMT_INT | FLB_TIME_ETFMT_V0 | FLB_TIME_ETFMT_V1_EXT
| FLB_TIME_ETFMT_V1_FIXEXT | FLB_TIME_ETFMT_OTHER.

Definition eventtime_fmt_value (f : flb_time_eventtime_fmt) : Z :=
  match f with
  | FLB_TIME_ETFMT_INT => 1
  | FLB_TIME_ETFMT_V0 => 2
  | FLB_TIME_ETFMT_V1_EXT => 3
  | FLB_TIME_ETFMT_V1_FIXEXT => 4
  | FLB_TIME_ETFMT_OTHER => 5
  end.

(** * Operations *)

Definition flb_time_zero : flb_time := FlbTime 0 0.

Definition flb_time_set (sec nsec : Z) : flb_time := FlbTime sec nsec.

Definition flb_time_copy (src : flb_time) : flb_time := FlbTime (tv_sec src) (tv_nsec src).

Section long_width.
Context (lw : Z).

(** [value / 1000000000L] is unsigned 64-bit arithmetic; so is the
    subtraction, the 64-bit [tv_sec] being converted. *)
Definition flb_time_from_uint64 (value : Z) : flb_time :=
  let sec := swrap lw (value / 1000000000) in
  let nsec := swrap lw (u64 (value - sec)) in
  FlbTime sec nsec.
End long_width.

Definition flb_time_equal (t0 t1 : flb_time) : Z :=
  c_bool (bool_decide (tv_sec t0 = tv_sec t1) && bool_decide (tv_nsec t0 = tv_nsec t1)).

(** ** Doubles

    IEEE binary64, by the Standard Library's executable specification. *)
Definition f64_sub : spec_float → spec_float → spec_float := SFsub 53 1024.
Definition f64_mul : spec_float → spec_float → spec_float := SFmul 53 1024.
Definition f64_of_Z (z : Z) : spec_float := binary_normalize 53 1024 z 0 false.

(** Truncation towards zero; none for infinities and NaN. *)
Definition f64_trunc (d : spec_float) : option Z :=
  match d with
  | S754_zero _ => Some 0
  | S754_finite s m e =>
      let v := if decide (0 ≤ e) then Z.pos m * 2 ^ e else Z.pos m / 2 ^ (- e) in
      Some (if s then - v else v)
  | _ => None
  end.

(** Conversion to a [w]-bit signed integer; a value out of range is undefined. *)
Definition f64_to_int (w : Z) (d : spec_float) : option Z :=
  v ← f64_trunc d;
  if decide (- 2 ^ (w - 1) ≤ v < 2 ^ (w - 1)) then Some v else None.

Definition flb_time_from_double (lw : Z) (d : spec_float) : option flb_time :=
  sec ← f64_to_int 32 d;
  nsec ← f64_to_int lw (f64_mul (f64_sub d (f64_of_Z sec)) (f64_of_Z 1000000000));
  Some (FlbTime sec nsec).

(** [flb_parser_tm2time]; [timegm] is the C library's. *)
Definition flb_parser_tm2time {tm} (timegm : tm → Z) (src : flb_tm tm) : Z :=
  s64 (timegm (ft_tm src) - flb_tm_gmtoff src).

(** * Theorems *)

(** A normalised time: the nanoseconds are a fraction of a second. *)
Definition normalised (t : flb_time) : Prop := 0 ≤ tv_nsec t < 1000000000.

(** The time a number of nanoseconds stands for. *)
Definition time_of_ns (ns : Z) : flb_time := FlbTime (ns / 1000000000) (ns mod 1000000000).

Lemma swrap_small w z : 0 < w → - 2 ^ (w - 1) ≤ z < 2 ^ (w - 1) → swrap w z = z.
Proof.
  intros Hw Hz. unfold swrap. assert (2 ^ w = 2 * 2 ^ (w - 1)) as E.
  { rewrite <- Z.pow_succ_r by lia. f_equal. lia. }
  rewrite Z.mod_small; lia.
Qed.

(** Two integers of the same [w]-bit image differ by a multiple of [2^w]. *)
Lemma swrap_eq_divides w a b : 0 < w → swrap w a = b → (2 ^ w | a - b).
Proof.
  intros Hw <-. exists ((a + 2 ^ (w - 1)) / 2 ^ w). unfold swrap.
  pose proof (Z.div_mod (a + 2 ^ (w - 1)) (2 ^ w)).
  assert (0 < 2 ^ w) by (apply Z.pow_pos_nonneg; lia). lia.
Qed.

Lemma swrap_range w a : 0 < w → - 2 ^ (w - 1) ≤ swrap w a < 2 ^ (w - 1).
Proof.
  intros Hw. unfold swrap. assert (2 ^ w = 2 * 2 ^ (w - 1)) as E.
  { rewrite <- Z.pow_succ_r by lia. f_equal. lia. }
  assert (0 < 2 ^ (w - 1)) by (apply Z.pow_pos_nonneg; lia).
  pose proof (Z.mod_pos_bound (a + 2 ^ (w - 1)) (2 ^ w)). lia.
Qed.

(** The number of seconds is kept by a [long] exactly when it fits. *)
Lemma from_uint64_sec lw value :
  0 < lw → 0 ≤ value →
  tv_sec (flb_time_from_uint64 lw value) = value / 1000000000 ↔
  value / 1000000000 < 2 ^ (lw - 1).
Proof.
  intros Hw Hv. simpl. assert (0 ≤ value / 1000000000) by (Z.div_mod_to_equations; lia).
  split.
  - intros <-. by apply swrap_range.
  - intros. apply swrap_small; lia.
Qed.

(** Seconds subtracted in place of nanoseconds are noticed: [1000000000 - 1]
    is odd, so no multiple of it below [2^lw * 1000000000] is lost by the
    conversions. *)
Lemma from_uint64_exact lw value :
  lw = 32 ∨ lw = 64 → 0 ≤ value < 2 ^ 64 →
  flb_time_from_uint64 lw value = time_of_ns value → value < 1000000000.
Proof.
  intros Hw Hv E. unfold flb_time_from_uint64, time_of_ns in E. injection E as E1 E2.
  rewrite E1 in E2. set (q := value / 1000000000) in *.
  assert (0 ≤ q < 2 ^ (lw - 1)) as Hq.
  { split; [subst q; Z.div_mod_to_equations; lia|].
    rewrite <- E1. apply swrap_range. lia. }
  assert (value = 1000000000 * q + value mod 1000000000) as Ev by (apply Z.div_mod; lia).
  pose proof (Z.mod_pos_bound value 1000000000).
  assert (u64 (value - q) = value - q) as Eu by (unfold wrap; apply Z.mod_small; lia).
  rewrite Eu in E2. apply swrap_eq_divides in E2; [|lia].
  replace (value - q - value mod 1000000000) with (999999999 * q) in E2 by lia.
  apply Z.gauss in E2; [|by destruct Hw as [-> | ->]]. destruct E2 as [k Ek].
  assert (2 ^ lw = 2 * 2 ^ (lw - 1)) as E2.
  { rewrite <- Z.pow_succ_r by lia. f_equal. lia. }
  assert (k = 0) as -> by nia. lia.
Qed.

(** C40. [flb_time_from_uint64], for every 64-bit count of nanoseconds and a
    [long] of 32 bits (64-bit Windows) or of 64 bits (64-bit Unix), yields the
    time the count stands for exactly when the count is below one second.
    The seconds alone are right exactly when they fit in a [long]; the
    nanoseconds are then the count minus the number of seconds, as a [long],
    and with 64 bits they are a fraction of a second up to one second only. *)
Theorem flb_time_from_uint64_correct_iff lw value :
  lw = 32 ∨ lw = 64 →
  0 ≤ value < 2 ^ 64 →
  (flb_time_from_uint64 lw value = time_of_ns value ↔ value < 1000000000) ∧
  (tv_sec (flb_time_from_uint64 lw value) = value / 1000000000 ↔
     value / 1000000000 < 2 ^ (lw - 1)) ∧
  (value / 1000000000 < 2 ^ (lw - 1) →
     tv_nsec (flb_time_from_uint64 lw value) = swrap lw (value - value / 1000000000)) ∧
  (lw = 64 → normalised (flb_time_from_uint64 lw value) ↔ value ≤ 1000000000).
Proof.
  intros Hw Hv. pose proof (from_uint64_sec lw value ltac:(lia) ltac:(lia)) as Hs.
  assert (0 ≤ value / 1000000000 ≤ value) by (Z.div_mod_to_equations; lia).
  assert (value / 1000000000 < 2 ^ (lw - 1) →
    tv_nsec (flb_time_from_uint64 lw value) = swrap lw (value - value / 1000000000)) as Hn.
  { intros Hq. apply Hs in Hq. simpl in *. rewrite Hq. f_equal.
    unfold wrap. apply Z.mod_small. lia. }
  split_and!; [split|done|done|].
  - by apply from_uint64_exact.
  - intros Hl. assert (value / 1000000000 = 0) as E by (Z.div_mod_to_equations; lia).
    assert (2 ^ 31 ≤ 2 ^ (lw - 1)) by (apply Z.pow_le_mono_r; lia).
    unfold time_of_ns. destruct (flb_time_from_uint64 lw value) as [sec nsec]. simpl in *.
    f_equal; [apply Hs; lia|]. rewrite Hn by lia. rewrite E, Z.sub_0_r.
    rewrite swrap_small by lia. rewrite Z.mod_small; lia.
  - intros ->. unfold normalised. rewrite Hn by (Z.div_mod_to_equations; lia).
    destruct (decide (value - value / 1000000000 < 2 ^ 63)).
    + rewrite swrap_small by (simpl; lia). Z.div_mod_to_equations. lia.
    + unfold swrap. split; [|Z.div_mod_to_equations; lia].
      replace (value - value / 1000000000 + 2 ^ (64 - 1))
        with (value - value / 1000000000 - 2 ^ 63 + 1 * 2 ^ 64) by lia.
      rewrite Z.mod_add by lia. rewrite Z.mod_small by lia. lia.
Qed.

(** [flb_time_equal] decides equality, so a copy equals its source. *)
Theorem flb_time_equal_iff t0 t1 :
  (flb_time_equal t0 t1 = 1 ↔ t0 = t1) ∧ flb_time_equal (flb_time_copy t0) t0 = 1 ∧
  flb_time_equal (flb_time_set (tv_sec t0) (tv_nsec t0)) t0 = 1.
Proof.
  assert (H : ∀ a b, flb_time_equal a b = 1 ↔ a = b).
  { intros [s0 n0] [s1 n1]. unfold flb_time_equal. simpl.
    repeat case_bool_decide; simpl; naive_solver. }
  split_and!; [apply H|apply H; by destruct t0..].
Qed.

Lemma flb_time_from_uint64_correct_iff_witness :
  (flb_time_from_uint64 32 2500000000 = time_of_ns 2500000000 ↔ 2500000000 < 1000000000) ∧
  flb_time_from_uint64 32 2500000000 = FlbTime 2 (-1794967298) ∧
  flb_time_from_uint64 64 2500000000 = FlbTime 2 2499999998 ∧
  (normalised (flb_time_from_uint64 64 2500000000) ↔ 2500000000 ≤ 1000000000).
Proof.
  split_and!; [|reflexivity..|].
  - apply (flb_time_from_uint64_correct_iff 32 2500000000); lia.
  - apply (flb_time_from_uint64_correct_iff 64 2500000000); lia.
Defined.

(** 2.5 seconds as a double. *)
Example flb_time_from_double_2_5 :
  flb_time_from_double 32 (S754_finite false 5629499534213120 (-51)) =
  Some (FlbTime 2 500000000).
Proof. vm_compute. reflexivity. Qed.
