(* ===== verification/Structs.v ===== *)
(** The values of the structures the runtime reads: event chunks, the
    configuration, input and output instances, output threads.

    Pointers and scalars are integers; an embedded [struct mk_list] is the
    address of the list node, which lives in the list heap; a mutex is whether
    it is held; a function pointer is an address; an array is a list; a
    [double] is its bit pattern.  The conditional fields are those of the
    build described by [flb_info.h].  [X_zero] is the structure [calloc]
    returns. *)
From S2P Require Import Prelude MkEvent.

Definition mk_event_zero : mk_event := MkEvent 0 0 0 0 NULL NULL 0.

(** [flb_event.h], [struct flb_event_chunk]. *)
Record flb_event_chunk := EventChunk {
  ec_type : Z;
  ec_tag : ptr;
  ec_data : ptr;
  ec_size : Z;
  ec_total_events : Z
}.

(** All bytes zero, as [calloc] leaves it. *)
Definition flb_event_chunk_zero : flb_event_chunk := {|
  ec_type := 0;
  ec_tag := NULL;
  ec_data := NULL;
  ec_size := 0;
  ec_total_events := 0
|}.

(** [flb_network.h], [struct flb_net_setup]. *)
Record flb_net_setup := NetSetup {
  ns_keepalive : Z;
  ns_keepalive_idle_timeout : Z;
  ns_connect_timeout : Z;
  ns_accept_timeout : Z;
  ns_accept_timeout_log_error : Z;
  ns_io_timeout : Z;
  ns_connect_timeout_log_error : Z;
  ns_source_address : ptr;
  ns_keepalive_max_recycle : Z;
  ns_dns_mode : ptr;
  ns_dns_resolver : ptr;
  ns_dns_prefer_ipv4 : Z;
  ns_max_worker_connections : Z
}.

(** All bytes zero, as [calloc] leaves it. *)
Definition flb_net_setup_zero : flb_net_setup := {|
  ns_keepalive := 0;
  ns_keepalive_idle_timeout := 0;
  ns_connect_timeout := 0;
  ns_accept_timeout := 0;
  ns_accept_timeout_log_error := 0;
  ns_io_timeout := 0;
  ns_connect_timeout_log_error := 0;
  ns_source_address := NULL;
  ns_keepalive_max_recycle := 0;
  ns_dns_mode := NULL;
  ns_dns_resolver := NULL;
  ns_dns_prefer_ipv4 := 0;
  ns_max_worker_connections := 0
|}.

(** [flb_network.h], [struct flb_net_host]. *)
Record flb_net_host := NetHost {
  nh_ipv6 : Z;
  nh_address : ptr;
  nh_port : Z;
  nh_name : ptr;
  nh_listen : ptr;
  nh_uri : ptr
}.

(** All bytes zero, as [calloc] leaves it. *)
Definition flb_net_host_zero : flb_net_host := {|
  nh_ipv6 := 0;
  nh_address := NULL;
  nh_port := 0;
  nh_name := NULL;
  nh_listen := NULL;
  nh_uri := NULL
|}.

(** [flb_config.h], [struct flb_config]. *)
Record flb_config := FlbConfig {
  cf_ch_event : mk_event;
  cf_support_mode : Z;
  cf_is_ingestion_active : Z;
  cf_is_shutting_down : Z;
  cf_is_running : Z;
  cf_flush : Z;
  cf_grace : Z;
  cf_grace_count : Z;
  cf_flush_fd : Z;
  cf_convert_nan_to_null : Z;
  cf_daemon : Z;
  cf_shutdown_fd : Z;
  cf_verbose : Z;
  cf_init_time : Z;
  cf_worker : Z;
  cf_ch_data : list Z;
  cf_ch_manager : list Z;
  cf_ch_notif : list Z;
  cf_ch_self_events : list Z;
  cf_ch_evl : ptr;
  cf_file : ptr;
  cf_cf_main : ptr;
  cf_cf_opts : ptr;
  cf_cf_parsers_list : ptr;
  cf_program_name : ptr;
  cf_conf_path : ptr;
  cf_conf_path_file : ptr;
  cf_external_plugins : ptr;
  cf_event_flush : mk_event;
  cf_event_shutdown : mk_event;
  cf_event_thread_init : mk_event;
  cf_collectors_mutex : bool;
  cf_dso_plugins : ptr;
  cf_processor_plugins : ptr;
  cf_custom_plugins : ptr;
  cf_in_plugins : ptr;
  cf_parser_plugins : ptr;
  cf_filter_plugins : ptr;
  cf_out_plugins : ptr;
  cf_customs : ptr;
  cf_inputs : ptr;
  cf_parsers : ptr;
  cf_multiline_parsers : ptr;
  cf_outputs : ptr;
  cf_filters : ptr;
  cf_evl : ptr;
  cf_evl_bktq : ptr;
  cf_proxies : ptr;
  cf_kernel : ptr;
  cf_log_file : ptr;
  cf_log : ptr;
  cf_parsers_file : ptr;
  cf_plugins_file : ptr;
  cf_env : ptr;
  cf_workdir : ptr;
  cf_exit_status_code : Z;
  cf_workers : ptr;
  cf_metrics : ptr;
  cf_cmetrics : ptr;
  cf_http_server : Z;
  cf_http_port : ptr;
  cf_http_listen : ptr;
  cf_http_ctx : ptr;
  cf_health_check : Z;
  cf_hc_errors_count : Z;
  cf_hc_retry_failure_count : Z;
  cf_health_check_period : Z;
  cf_http_proxy : ptr;
  cf_no_proxy : ptr;
  cf_dns_mode : ptr;
  cf_dns_resolver : ptr;
  cf_dns_prefer_ipv4 : Z;
  cf_cio : ptr;
  cf_storage_path : ptr;
  cf_storage_input_plugin : ptr;
  cf_storage_sync : ptr;
  cf_storage_metrics : Z;
  cf_storage_checksum : Z;
  cf_storage_max_chunks_up : Z;
  cf_storage_del_bad_chunks : Z;
  cf_storage_bl_mem_limit : ptr;
  cf_storage_metrics_ctx : ptr;
  cf_sqldb_list : ptr;
  cf_luajit_list : ptr;
  cf_stream_processor_file : ptr;
  cf_stream_processor_ctx : ptr;
  cf_stream_processor_tasks : ptr;
  cf_enable_chunk_trace : Z;
  cf_enable_hot_reload : Z;
  cf_ensure_thread_safety_on_hot_reloading : Z;
  cf_coro_stack_size : Z;
  cf_upstreams : ptr;
  cf_downstreams : ptr;
  cf_in_table_id : list Z;
  cf_sched : ptr;
  cf_sched_cap : Z;
  cf_sched_base : Z;
  cf_tasks_map : list Z;
  cf_dry_run : Z
}.

(** All bytes zero, as [calloc] leaves it. *)
Definition flb_config_zero : flb_config := {|
  cf_ch_event := mk_event_zero;
  cf_support_mode := 0;
  cf_is_ingestion_active := 0;
  cf_is_shutting_down := 0;
  cf_is_running := 0;
  cf_flush := 0;
  cf_grace := 0;
  cf_grace_count := 0;
  cf_flush_fd := 0;
  cf_convert_nan_to_null := 0;
  cf_daemon := 0;
  cf_shutdown_fd := 0;
  cf_verbose := 0;
  cf_init_time := 0;
  cf_worker := 0;
  cf_ch_data := replicate 2 0;
  cf_ch_manager := replicate 2 0;
  cf_ch_notif := replicate 2 0;
  cf_ch_self_events := replicate 2 0;
  cf_ch_evl := NULL;
  cf_file := NULL;
  cf_cf_main := NULL;
  cf_cf_opts := NULL;
  cf_cf_parsers_list := NULL;
  cf_program_name := NULL;
  cf_conf_path := NULL;
  cf_conf_path_file := NULL;
  cf_external_plugins := NULL;
  cf_event_flush := mk_event_zero;
  cf_event_shutdown := mk_event_zero;
  cf_event_thread_init := mk_event_zero;
  cf_collectors_mutex := false;
  cf_dso_plugins := NULL;
  cf_processor_plugins := NULL;
  cf_custom_plugins := NULL;
  cf_in_plugins := NULL;
  cf_parser_plugins := NULL;
  cf_filter_plugins := NULL;
  cf_out_plugins := NULL;
  cf_customs := NULL;
  cf_inputs := NULL;
  cf_parsers := NULL;
  cf_multiline_parsers := NULL;
  cf_outputs := NULL;
  cf_filters := NULL;
  cf_evl := NULL;
  cf_evl_bktq := NULL;
  cf_proxies := NULL;
  cf_kernel := NULL;
  cf_log_file := NULL;
  cf_log := NULL;
  cf_parsers_file := NULL;
  cf_plugins_file := NULL;
  cf_env := NULL;
  cf_workdir := NULL;
  cf_exit_status_code := 0;
  cf_workers := NULL;
  cf_metrics := NULL;
  cf_cmetrics := NULL;
  cf_http_server := 0;
  cf_http_port := NULL;
  cf_http_listen := NULL;
  cf_http_ctx := NULL;
  cf_health_check := 0;
  cf_hc_errors_count := 0;
  cf_hc_retry_failure_count := 0;
  cf_health_check_period := 0;
  cf_http_proxy := NULL;
  cf_no_proxy := NULL;
  cf_dns_mode := NULL;
  cf_dns_resolver := NULL;
  cf_dns_prefer_ipv4 := 0;
  cf_cio := NULL;
  cf_storage_path := NULL;
  cf_storage_input_plugin := NULL;
  cf_storage_sync := NULL;
  cf_storage_metrics := 0;
  cf_storage_checksum := 0;
  cf_storage_max_chunks_up := 0;
  cf_storage_del_bad_chunks := 0;
  cf_storage_bl_mem_limit := NULL;
  cf_storage_metrics_ctx := NULL;
  cf_sqldb_list := NULL;
  cf_luajit_list := NULL;
  cf_stream_processor_file := NULL;
  cf_stream_processor_ctx := NULL;
  cf_stream_processor_tasks := NULL;
  cf_enable_chunk_trace := 0;
  cf_enable_hot_reload := 0;
  cf_ensure_thread_safety_on_hot_reloading := 0;
  cf_coro_stack_size := 0;
  cf_upstreams := NULL;
  cf_downstreams := NULL;
  cf_in_table_id := replicate 512 0;
  cf_sched := NULL;
  cf_sched_cap := 0;
  cf_sched_base := 0;
  cf_tasks_map := replicate 2048 0;
  cf_dry_run := 0
|}.

(** [flb_input.h], [struct flb_input_instance]. *)
Record flb_input_instance := InputInstance {
  ii_event : mk_event;
  ii_processor : ptr;
  ii_flags : Z;
  ii_id : Z;
  ii_chunk_trace_ctxt : ptr;
  ii_chunk_trace_lock : bool;
  ii_log_level : Z;
  ii_log_suppress_interval : Z;
  ii_channel : list Z;
  ii_runs_in_coroutine : Z;
  ii_name : list Z;
  ii_alias : ptr;
  ii_context : ptr;
  ii_ch_events : list Z;
  ii_p : ptr;
  ii_tag : ptr;
  ii_tag_len : Z;
  ii_tag_default : Z;
  ii_routable : Z;
  ii_storage_pause_on_chunks_overlimit : Z;
  ii_host : flb_net_host;
  ii_storage : ptr;
  ii_storage_type : Z;
  ii_mem_chunks_size : Z;
  ii_mp_total_buf_size : Z;
  ii_mem_buf_limit : Z;
  ii_mem_buf_status : Z;
  ii_storage_buf_status : Z;
  ii_data : ptr;
  ii_config_map : ptr;
  ii__head : ptr;
  ii_routes_direct : ptr;
  ii_routes : ptr;
  ii_properties : ptr;
  ii_collectors : ptr;
  ii_chunks : ptr;
  ii_chunks_up : ptr;
  ii_chunks_down : ptr;
  ii_tasks : ptr;
  ii_input_coro_id : Z;
  ii_input_coro_list : ptr;
  ii_input_coro_list_destroy : ptr;
  ii_metrics : ptr;
  ii_is_threaded : Z;
  ii_thi : ptr;
  ii_rb : ptr;
  ii_upstreams : ptr;
  ii_downstreams : ptr;
  ii_cmt : ptr;
  ii_cmt_bytes : ptr;
  ii_cmt_records : ptr;
  ii_cmt_storage_overlimit : ptr;
  ii_cmt_storage_memory_bytes : ptr;
  ii_cmt_storage_chunks : ptr;
  ii_cmt_storage_chunks_up : ptr;
  ii_cmt_storage_chunks_down : ptr;
  ii_cmt_storage_chunks_busy : ptr;
  ii_cmt_storage_chunks_busy_bytes : ptr;
  ii_cmt_memrb_dropped_chunks : ptr;
  ii_cmt_memrb_dropped_bytes : ptr;
  ii_ht_log_chunks : ptr;
  ii_ht_metric_chunks : ptr;
  ii_ht_trace_chunks : ptr;
  ii_use_tls : Z;
  ii_tls_verify : Z;
  ii_tls_debug : Z;
  ii_tls_vhost : ptr;
  ii_tls_ca_path : ptr;
  ii_tls_ca_file : ptr;
  ii_tls_crt_file : ptr;
  ii_tls_key_file : ptr;
  ii_tls_key_passwd : ptr;
  ii_tls_config_map : ptr;
  ii_tls : ptr;
  ii_net_setup : flb_net_setup;
  ii_net_config_map : ptr;
  ii_net_properties : ptr;
  ii_config : ptr
}.

(** All bytes zero, as [calloc] leaves it. *)
Definition flb_input_instance_zero : flb_input_instance := {|
  ii_event := mk_event_zero;
  ii_processor := NULL;
  ii_flags := 0;
  ii_id := 0;
  ii_chunk_trace_ctxt := NULL;
  ii_chunk_trace_lock := false;
  ii_log_level := 0;
  ii_log_suppress_interval := 0;
  ii_channel := replicate 2 0;
  ii_runs_in_coroutine := 0;
  ii_name := replicate 32 0;
  ii_alias := NULL;
  ii_context := NULL;
  ii_ch_events := replicate 2 0;
  ii_p := NULL;
  ii_tag := NULL;
  ii_tag_len := 0;
  ii_tag_default := 0;
  ii_routable := 0;
  ii_storage_pause_on_chunks_overlimit := 0;
  ii_host := flb_net_host_zero;
  ii_storage := NULL;
  ii_storage_type := 0;
  ii_mem_chunks_size := 0;
  ii_mp_total_buf_size := 0;
  ii_mem_buf_limit := 0;
  ii_mem_buf_status := 0;
  ii_storage_buf_status := 0;
  ii_data := NULL;
  ii_config_map := NULL;
  ii__head := NULL;
  ii_routes_direct := NULL;
  ii_routes := NULL;
  ii_properties := NULL;
  ii_collectors := NULL;
  ii_chunks := NULL;
  ii_chunks_up := NULL;
  ii_chunks_down := NULL;
  ii_tasks := NULL;
  ii_input_coro_id := 0;
  ii_input_coro_list := NULL;
  ii_input_coro_list_destroy := NULL;
  ii_metrics := NULL;
  ii_is_threaded := 0;
  ii_thi := NULL;
  ii_rb := NULL;
  ii_upstreams := NULL;
  ii_downstreams := NULL;
  ii_cmt := NULL;
  ii_cmt_bytes := NULL;
  ii_cmt_records := NULL;
  ii_cmt_storage_overlimit := NULL;
  ii_cmt_storage_memory_bytes := NULL;
  ii_cmt_storage_chunks := NULL;
  ii_cmt_storage_chunks_up := NULL;
  ii_cmt_storage_chunks_down := NULL;
  ii_cmt_storage_chunks_busy := NULL;
  ii_cmt_storage_chunks_busy_bytes := NULL;
  ii_cmt_memrb_dropped_chunks := NULL;
  ii_cmt_memrb_dropped_bytes := NULL;
  ii_ht_log_chunks := NULL;
  ii_ht_metric_chunks := NULL;
  ii_ht_trace_chunks := NULL;
  ii_use_tls := 0;
  ii_tls_verify := 0;
  ii_tls_debug := 0;
  ii_tls_vhost := NULL;
  ii_tls_ca_path := NULL;
  ii_tls_ca_file := NULL;
  ii_tls_crt_file := NULL;
  ii_tls_key_file := NULL;
  ii_tls_key_passwd := NULL;
  ii_tls_config_map := NULL;
  ii_tls := NULL;
  ii_net_setup := flb_net_setup_zero;
  ii_net_config_map := NULL;
  ii_net_properties := NULL;
  ii_config := NULL
|}.

(** [flb_input.h], [struct flb_input_collector]. *)
Record flb_input_collector := InputCollector {
  ic_event : mk_event;
  ic_evl : ptr;
  ic_id : Z;
  ic_type : Z;
  ic_running : Z;
  ic_fd_event : Z;
  ic_fd_timer : Z;
  ic_seconds : Z;
  ic_nanoseconds : Z;
  ic_cb_collect : ptr;
  ic_instance : ptr;
  ic__head : ptr
}.

(** All bytes zero, as [calloc] leaves it. *)
Definition flb_input_collector_zero : flb_input_collector := {|
  ic_event := mk_event_zero;
  ic_evl := NULL;
  ic_id := 0;
  ic_type := 0;
  ic_running := 0;
  ic_fd_event := 0;
  ic_fd_timer := 0;
  ic_seconds := 0;
  ic_nanoseconds := 0;
  ic_cb_collect := NULL;
  ic_instance := NULL;
  ic__head := NULL
|}.

(** [flb_output.h], [struct flb_test_out_formatter]. *)
Record flb_test_out_formatter := TestOutFormatter {
  tf_rt_ctx : ptr;
  tf_rt_ffd : Z;
  tf_rt_out_callback : ptr;
  tf_rt_data : ptr;
  tf_flush_ctx : ptr;
  tf_callback : ptr
}.

(** All bytes zero, as [calloc] leaves it. *)
Definition flb_test_out_formatter_zero : flb_test_out_formatter := {|
  tf_rt_ctx := NULL;
  tf_rt_ffd := 0;
  tf_rt_out_callback := NULL;
  tf_rt_data := NULL;
  tf_flush_ctx := NULL;
  tf_callback := NULL
|}.

(** [flb_output.h], [struct flb_output_instance]. *)
Record flb_output_instance := OutputInstance {
  oi_event : mk_event;
  oi_processor : ptr;
  oi_event_type : Z;
  oi_id : Z;
  oi_log_level : Z;
  oi_log_suppress_interval : Z;
  oi_name : list Z;
  oi_alias : ptr;
  oi_flags : Z;
  oi_test_mode : Z;
  oi_ch_events : list Z;
  oi_p : ptr;
  oi_context : ptr;
  oi_retry_limit : Z;
  oi_use_tls : Z;
  oi_match : ptr;
  oi_match_regex : ptr;
  oi_tls_verify : Z;
  oi_tls_debug : Z;
  oi_tls_vhost : ptr;
  oi_tls_ca_path : ptr;
  oi_tls_ca_file : ptr;
  oi_tls_crt_file : ptr;
  oi_tls_key_file : ptr;
  oi_tls_key_passwd : ptr;
  oi_host : flb_net_host;
  oi_data : ptr;
  oi_out_context : ptr;
  oi_tls : ptr;
  oi_properties : ptr;
  oi_config_map : ptr;
  oi_net_setup : flb_net_setup;
  oi_net_config_map : ptr;
  oi_net_properties : ptr;
  oi_tls_config_map : ptr;
  oi__head : ptr;
  oi_cmt : ptr;
  oi_cmt_proc_records : ptr;
  oi_cmt_proc_bytes : ptr;
  oi_cmt_errors : ptr;
  oi_cmt_retries : ptr;
  oi_cmt_retries_failed : ptr;
  oi_cmt_dropped_records : ptr;
  oi_cmt_retried_records : ptr;
  oi_cmt_upstream_total_connections : ptr;
  oi_cmt_upstream_busy_connections : ptr;
  oi_metrics : ptr;
  oi_callback : ptr;
  oi_test_formatter : flb_test_out_formatter;
  oi_fs_chunks_size : Z;
  oi_fs_backlog_chunks_size : Z;
  oi_total_limit_size : Z;
  oi_singleplex_queue : ptr;
  oi_tp_workers : Z;
  oi_tp : ptr;
  oi_is_threaded : Z;
  oi_upstreams : ptr;
  oi_flush_id : Z;
  oi_flush_list : ptr;
  oi_flush_list_destroy : ptr;
  oi_config : ptr
}.

(** All bytes zero, as [calloc] leaves it. *)
Definition flb_output_instance_zero : flb_output_instance := {|
  oi_event := mk_event_zero;
  oi_processor := NULL;
  oi_event_type := 0;
  oi_id := 0;
  oi_log_level := 0;
  oi_log_suppress_interval := 0;
  oi_name := replicate 32 0;
  oi_alias := NULL;
  oi_flags := 0;
  oi_test_mode := 0;
  oi_ch_events := replicate 2 0;
  oi_p := NULL;
  oi_context := NULL;
  oi_retry_limit := 0;
  oi_use_tls := 0;
  oi_match := NULL;
  oi_match_regex := NULL;
  oi_tls_verify := 0;
  oi_tls_debug := 0;
  oi_tls_vhost := NULL;
  oi_tls_ca_path := NULL;
  oi_tls_ca_file := NULL;
  oi_tls_crt_file := NULL;
  oi_tls_key_file := NULL;
  oi_tls_key_passwd := NULL;
  oi_host := flb_net_host_zero;
  oi_data := NULL;
  oi_out_context := NULL;
  oi_tls := NULL;
  oi_properties := NULL;
  oi_config_map := NULL;
  oi_net_setup := flb_net_setup_zero;
  oi_net_config_map := NULL;
  oi_net_properties := NULL;
  oi_tls_config_map := NULL;
  oi__head := NULL;
  oi_cmt := NULL;
  oi_cmt_proc_records := NULL;
  oi_cmt_proc_bytes := NULL;
  oi_cmt_errors := NULL;
  oi_cmt_retries := NULL;
  oi_cmt_retries_failed := NULL;
  oi_cmt_dropped_records := NULL;
  oi_cmt_retried_records := NULL;
  oi_cmt_upstream_total_connections := NULL;
  oi_cmt_upstream_busy_connections := NULL;
  oi_metrics := NULL;
  oi_callback := NULL;
  oi_test_formatter := flb_test_out_formatter_zero;
  oi_fs_chunks_size := 0;
  oi_fs_backlog_chunks_size := 0;
  oi_total_limit_size := 0;
  oi_singleplex_queue := NULL;
  oi_tp_workers := 0;
  oi_tp := NULL;
  oi_is_threaded := 0;
  oi_upstreams := NULL;
  oi_flush_id := 0;
  oi_flush_list := NULL;
  oi_flush_list_destroy := NULL;
  oi_config := NULL
|}.

(** [flb_output_thread.h], [struct flb_out_thread_instance]. *)
Record flb_out_thread_instance := OutThreadInstance {
  ti_event : mk_event;
  ti_evl : ptr;
  ti_evl_bktq : ptr;
  ti_ch_parent_events : list Z;
  ti_ch_thread_events : list Z;
  ti_ins : ptr;
  ti_config : ptr;
  ti_th : ptr;
  ti__head : ptr;
  ti_flush_id : Z;
  ti_flush_list : ptr;
  ti_flush_list_destroy : ptr;
  ti_flush_mutex : bool;
  ti_upstreams : ptr
}.

(** All bytes zero, as [calloc] leaves it. *)
Definition flb_out_thread_instance_zero : flb_out_thread_instance := {|
  ti_event := mk_event_zero;
  ti_evl := NULL;
  ti_evl_bktq := NULL;
  ti_ch_parent_events := replicate 2 0;
  ti_ch_thread_events := replicate 2 0;
  ti_ins := NULL;
  ti_config := NULL;
  ti_th := NULL;
  ti__head := NULL;
  ti_flush_id := 0;
  ti_flush_list := NULL;
  ti_flush_list_destroy := NULL;
  ti_flush_mutex := false;
  ti_upstreams := NULL
|}.

Definition set_ti_flush_mutex (v : bool) (r : flb_out_thread_instance) : flb_out_thread_instance :=
  OutThreadInstance (ti_event r) (ti_evl r) (ti_evl_bktq r) (ti_ch_parent_events r) (ti_ch_thread_events r) (ti_ins r) (ti_config r) (ti_th r) (ti__head r) (ti_flush_id r) (ti_flush_list r) (ti_flush_list_destroy r) v (ti_upstreams r).
