(* ===== verification/Layout.v ===== *)
(** Layout of C structures: sizes, alignments and field offsets, computed
    from the declarations the way the 64-bit Windows ABI of the build lays
    them out, and typed access to the fields of an object in memory. *)
From stdpp Require Import strings.
From S2P Require Import Prelude MkList Mem.
Local Open Scope Z_scope.

(** * Types *)

Inductive ctype :=
| CScalar (n : Z)                          (** integers, enumerations, doubles, pointers *)
| CExt (name : string)                     (** a type of a library *)
| CArray (t : ctype) (n : Z)
| CStruct (fs : list (string * ctype))
| CPacked (fs : list (string * ctype))     (** under [#pragma pack(push, 1)] *)
| CUnion (fs : list (string * ctype)).

(** The scalar types of the build: a 64-bit Windows program ([long] has four
    bytes, [size_t] and pointers eight). *)
Definition c_char := CScalar 1.
Definition c_short := CScalar 2.
Definition c_int := CScalar 4.
Definition c_enum := CScalar 4.
Definition c_long := CScalar 4.
Definition c_int64 := CScalar 8.
Definition c_size_t := CScalar 8.
Definition c_time_t := CScalar 8.
Definition c_double := CScalar 8.
Definition c_ptr := CScalar 8.
Definition c_fn := CScalar 8.

(** The types of third-party libraries embedded in the structures: their size
    and alignment are not known here. *)
Class Externs := {
  ext_size : string → Z;
  ext_align : string → Z
}.

Class ExternsOk (E : Externs) := {
  ext_size_pos x : 0 ≤ ext_size x;
  ext_align_pow x : ∃ k, 0 ≤ k ∧ ext_align x = 2 ^ k;
  ext_size_aligned x : (ext_align x | ext_size x)
}.

(** * Layout *)

Definition align_to (a off : Z) : Z := (off + a - 1) / a * a.

(** The offsets of fields of given sizes and alignments, and the first offset
    after them. *)
Fixpoint offsets (off : Z) (sa : list (Z * Z)) : list Z :=
  match sa with
  | [] => []
  | (s, a) :: sa => align_to a off :: offsets (align_to a off + s) sa
  end.

Fixpoint end_off (off : Z) (sa : list (Z * Z)) : Z :=
  match sa with
  | [] => off
  | (s, a) :: sa => end_off (align_to a off + s) sa
  end.

Definition max_align (sa : list (Z * Z)) : Z := foldr (λ x m, Z.max x.2 m) 1 sa.
Definition max_size (sa : list (Z * Z)) : Z := foldr (λ x m, Z.max x.1 m) 0 sa.

Definition packed (sa : list (Z * Z)) : list (Z * Z) := (λ x, (x.1, 1)) <$> sa.

Definition struct_layout (sa : list (Z * Z)) : Z * Z :=
  (align_to (max_align sa) (end_off 0 sa), max_align sa).

Section layout.
Context `{Externs}.

Fixpoint layout (t : ctype) : Z * Z :=
  match t with
  | CScalar n => (n, n)
  | CExt x => (ext_size x, ext_align x)
  | CArray t n => ((layout t).1 * n, (layout t).2)
  | CStruct fs => struct_layout (map (λ f, layout f.2) fs)
  | CPacked fs => struct_layout (packed (map (λ f, layout f.2) fs))
  | CUnion fs =>
      let sa := map (λ f, layout f.2) fs in
      (align_to (max_align sa) (max_size sa), max_align sa)
  end.

Definition sizeof (t : ctype) : Z := (layout t).1.
Definition alignof (t : ctype) : Z := (layout t).2.

(** The fields of a structure, with their offsets. *)
Definition fields_of (t : ctype) : list (string * (Z * ctype)) :=
  match t with
  | CStruct fs =>
      zip_with (λ o f, (f.1, (o, f.2))) (offsets 0 (map (λ f, layout f.2) fs)) fs
  | CPacked fs =>
      zip_with (λ o f, (f.1, (o, f.2))) (offsets 0 (packed (map (λ f, layout f.2) fs))) fs
  | CUnion fs => (λ f, (f.1, (0, f.2))) <$> fs
  | _ => []
  end.

Fixpoint assoc {A} (x : string) (l : list (string * A)) : option A :=
  match l with
  | [] => None
  | (y, a) :: l => if decide (x = y) then Some a else assoc x l
  end.

Definition field (t : ctype) (f : string) : option (Z * ctype) := assoc f (fields_of t).

Definition offsetof (t : ctype) (f : string) : option Z := fst <$> field t f.

(** ** Access to a field of the object at [p] *)

Definition field_load (t : ctype) (p : ptr) (f : string) (m : mem) : option (list Z) :=
  '(o, ft) ← field t f;
  mem_load p o (sizeof ft) m.

Definition field_store (t : ctype) (p : ptr) (f : string) (bs : list Z) (m : mem) : option mem :=
  '(o, ft) ← field t f;
  if decide (Z.of_nat (length bs) = sizeof ft) then mem_store p o bs m else None.
End layout.

(** * Well-formed declarations *)

(** Scalars have the sizes the machine has; field names are distinct. *)
Fixpoint ctype_ok (t : ctype) : bool :=
  match t with
  | CScalar n => bool_decide (n ∈ [1; 2; 4; 8])
  | CExt _ => true
  | CArray t n => bool_decide (0 ≤ n) && ctype_ok t
  | CStruct fs | CPacked fs | CUnion fs =>
      bool_decide (NoDup (map fst fs)) && forallb (λ f, ctype_ok f.2) fs
  end.

(** Structures, not unions: their fields do not share memory. *)
Definition is_struct (t : ctype) : bool :=
  match t with CStruct _ | CPacked _ => true | _ => false end.

(** * The layout algorithm *)

Definition pow2 (a : Z) : Prop := ∃ k, 0 ≤ k ∧ a = 2 ^ k.

Lemma pow2_pos a : pow2 a → 0 < a.
Proof. intros (k & ? & ->). by apply Z.pow_pos_nonneg. Qed.

Lemma pow2_1 : pow2 1.
Proof. by exists 0. Qed.

Lemma pow2_divide a b : pow2 a → pow2 b → a ≤ b → (a | b).
Proof.
  intros (j & Hj & ->) (k & Hk & ->) Hle. exists (2 ^ (k - j)).
  assert (j ≤ k) by (apply (Z.pow_le_mono_r_iff 2); [lia..|done]).
  rewrite <- Z.pow_add_r by lia. f_equal. lia.
Qed.

Lemma pow2_max a b : pow2 a → pow2 b → pow2 (Z.max a b).
Proof. intros. destruct (Z.max_spec a b) as [[_ ->]|[_ ->]]; done. Qed.

Lemma align_to_spec a off :
  0 < a → (a | align_to a off) ∧ off ≤ align_to a off < off + a.
Proof.
  intros Ha. unfold align_to. split; [by eexists|].
  pose proof (Z.div_mod (off + a - 1) a). pose proof (Z.mod_pos_bound (off + a - 1) a). nia.
Qed.

(** What the algorithm needs of the sizes and alignments of the fields. *)
Definition sa_ok (x : Z * Z) : Prop := 0 ≤ x.1 ∧ pow2 x.2 ∧ (x.2 | x.1).

Lemma max_align_pow2 sa : Forall sa_ok sa → pow2 (max_align sa).
Proof.
  induction 1 as [|[s a] sa (_ & Ha & _) _ IH]; [apply pow2_1|]. by apply pow2_max.
Qed.

Lemma max_align_ge sa s a : (s, a) ∈ sa → a ≤ max_align sa.
Proof.
  induction sa as [|x sa IH]; [by intros ?%elem_of_nil|].
  intros [<-|?%IH]%elem_of_cons; simpl; lia.
Qed.

Lemma max_size_ge sa s a : (s, a) ∈ sa → s ≤ max_size sa.
Proof.
  induction sa as [|x sa IH]; [by intros ?%elem_of_nil|].
  intros [<-|?%IH]%elem_of_cons; simpl; lia.
Qed.

Lemma end_off_ge sa off : Forall sa_ok sa → off ≤ end_off off sa.
Proof.
  intros H. revert off. induction H as [|[s a] sa (? & Ha%pow2_pos & _) _ IH]; intros off; simpl; [lia|].
  destruct (align_to_spec a off Ha). specialize (IH (align_to a off + s)). simpl in *. lia.
Qed.

Lemma offsets_length sa off : length (offsets off sa) = length sa.
Proof. revert off. induction sa as [|[s a] sa IH]; intros off; simpl; [done|]. by rewrite IH. Qed.

Lemma offsets_spec sa off i o s a :
  Forall sa_ok sa → offsets off sa !! i = Some o → sa !! i = Some (s, a) →
  off ≤ o ∧ (a | o) ∧ o + s ≤ end_off off sa.
Proof.
  intros H. revert off i. induction H as [|[s' a'] sa (? & Ha%pow2_pos & _) H IH]; intros off i; [done|].
  destruct (align_to_spec a' off Ha). destruct i as [|i]; simpl.
  - intros [= <-] [= -> ->]. split_and!; [lia|done|by apply end_off_ge].
  - intros Ho Hi. destruct (IH _ _ Ho Hi) as (? & ? & ?). simpl in *. split_and!; [lia|done|lia].
Qed.

Lemma offsets_order sa off i j oi oj si ai sj aj :
  Forall sa_ok sa → (i < j)%nat →
  offsets off sa !! i = Some oi → sa !! i = Some (si, ai) →
  offsets off sa !! j = Some oj → sa !! j = Some (sj, aj) → oi + si ≤ oj.
Proof.
  intros H. revert off i j. induction H as [|[s' a'] sa (? & Ha%pow2_pos & _) H IH]; intros off i j; [done|].
  intros Hij. destruct j as [|j]; [lia|]. destruct i as [|i]; simpl.
  - intros [= <-] [= -> ->] Hoj Hj. by destruct (offsets_spec _ _ _ _ _ _ H Hoj Hj).
  - intros. eapply IH; [|done..]. lia.
Qed.

Lemma packed_ok sa : Forall sa_ok sa → Forall sa_ok (packed sa).
Proof.
  induction 1 as [|[s a] sa (? & _ & _) _ IH]; simpl; constructor; [|done].
  split_and!; [done|apply pow2_1|apply Z.divide_1_l].
Qed.

Lemma struct_layout_ok sa : Forall sa_ok sa → sa_ok (struct_layout sa).
Proof.
  intros H. pose proof (max_align_pow2 _ H) as Hp. pose proof (pow2_pos _ Hp) as Hpos.
  destruct (align_to_spec (max_align sa) (end_off 0 sa) Hpos). pose proof (end_off_ge sa 0 H).
  split_and!; simpl; [lia|done|done].
Qed.

Section layout_facts.
Context `{EO : ExternsOk}.

(** The induction principle that reaches the types of the fields. *)
Lemma ctype_ind' (P : ctype → Prop) :
  (∀ n, P (CScalar n)) → (∀ x, P (CExt x)) → (∀ t n, P t → P (CArray t n)) →
  (∀ fs, Forall (λ f, P f.2) fs → P (CStruct fs)) →
  (∀ fs, Forall (λ f, P f.2) fs → P (CPacked fs)) →
  (∀ fs, Forall (λ f, P f.2) fs → P (CUnion fs)) → ∀ t, P t.
Proof.
  intros Hs He Ha Hst Hp Hu. fix IH 1.
  intros [n|x|t n|fs|fs|fs]; [apply Hs|apply He|apply Ha, IH|apply Hst|apply Hp|apply Hu];
    (induction fs as [|[x t] fs IHfs]; constructor; [apply IH|exact IHfs]).
Qed.

Lemma layouts_ok (fs : list (string * ctype)) :
  forallb (λ f, ctype_ok f.2) fs = true →
  Forall (λ f, ctype_ok f.2 = true → sa_ok (layout f.2)) fs →
  Forall sa_ok (map (λ f, layout f.2) fs).
Proof.
  intros Hok. induction 1 as [|f fs Hf _ IH]; simpl in *; [constructor|].
  apply andb_true_iff in Hok as [? ?]. constructor; auto.
Qed.

Lemma layout_ok t : ctype_ok t = true → sa_ok (layout t).
Proof.
  induction t as [n|x|t n IH|fs IH|fs IH|fs IH] using ctype_ind'; simpl.
  - rewrite bool_decide_eq_true, !elem_of_cons. intros Hn.
    split_and!; simpl; [|..|done]; destruct Hn as [->|[->|[->|[->|Hn]]]]; try (by apply elem_of_nil in Hn); try lia;
      [by exists 0|by exists 1|by exists 2|by exists 3].
  - intros _. split_and!; simpl; [apply ext_size_pos|apply ext_align_pow|apply ext_size_aligned].
  - intros [?%bool_decide_eq_true Ht]%andb_true_iff. destruct (IH Ht) as (? & ? & ?). split_and!; simpl; [lia|done|by apply Z.divide_mul_l].
  - intros [_ Hf]%andb_true_iff. apply struct_layout_ok. by apply layouts_ok.
  - intros [_ Hf]%andb_true_iff. apply struct_layout_ok, packed_ok. by apply layouts_ok.
  - intros [_ Hf]%andb_true_iff. pose proof (layouts_ok _ Hf IH) as Hsa.
    pose proof (max_align_pow2 _ Hsa) as Hp. pose proof (pow2_pos _ Hp) as Hpos.
    set (sa := map _ _) in *. destruct (align_to_spec (max_align sa) (max_size sa) Hpos) as [? Hr].
    assert (0 ≤ max_size sa) by (clearbody sa; clear; induction sa; simpl; lia).
    split_and!; simpl; [lia|done|done].
Qed.

(** The layout of a structure, packed or not, seen as one list. *)
Lemma struct_view t :
  is_struct t = true → ctype_ok t = true →
  ∃ fs sa, fields_of t = zip_with (λ o f, (f.1, (o, f.2))) (offsets 0 sa) fs ∧
    Forall sa_ok sa ∧ layout t = struct_layout sa ∧
    ∀ i f, fs !! i = Some f → ctype_ok f.2 = true ∧
      ∃ a, sa !! i = Some (sizeof f.2, a) ∧ ∀ fs', t = CStruct fs' → a = alignof f.2.
Proof.
  intros Hst Hok.
  assert (Hfs : ∀ fs, forallb (λ f : string * ctype, ctype_ok f.2) fs = true →
    Forall sa_ok (map (λ f, layout f.2) fs) ∧
    ∀ i f, fs !! i = Some f → ctype_ok f.2 = true ∧
      map (λ f, layout f.2) fs !! i = Some (sizeof f.2, alignof f.2)).
  { intros fs Hf. split.
    - apply layouts_ok; [done|]. apply Forall_forall. intros ? _. apply layout_ok.
    - intros i f Hi. rewrite forallb_forall in Hf. split.
      + apply Hf, list_elem_of_In. by eapply list_elem_of_lookup_2.
      + change (map ?g fs) with (g <$> fs). rewrite list_lookup_fmap, Hi. simpl.
        unfold sizeof, alignof. by destruct (layout f.2). }
  destruct t as [| | |fs|fs|]; try done; apply andb_true_iff in Hok as [_ Hok];
    destruct (Hfs fs Hok) as [Hsa Hl].
  - exists fs, (map (λ f, layout f.2) fs). split_and!; try done.
    intros i f Hi. destruct (Hl i f Hi) as [? ->]. eauto.
  - exists fs, (packed (map (λ f, layout f.2) fs)). split_and!; try done; [by apply packed_ok|].
    intros i f Hi. destruct (Hl i f Hi) as [? Hx]. split; [done|]. exists 1.
    unfold packed. by rewrite list_lookup_fmap, Hx.
Qed.

Lemma assoc_lookup {A} x (l : list (string * A)) a :
  assoc x l = Some a → ∃ i, l !! i = Some (x, a).
Proof.
  induction l as [|[y b] l IH]; simpl; [done|]. case_decide; [intros [= ->]; subst; by exists 0%nat|].
  intros [i Hi]%IH. by exists (S i).
Qed.

(** A field starts and ends inside its structure, aligned, and two fields do
    not overlap. *)
Lemma field_bounds t f o ft :
  is_struct t = true → ctype_ok t = true → field t f = Some (o, ft) →
  0 ≤ o ∧ 0 ≤ sizeof ft ∧ o + sizeof ft ≤ sizeof t ∧ (alignof t | sizeof t) ∧
  ∀ fs, t = CStruct fs → (alignof ft | o) ∧ (alignof ft | alignof t).
Proof.
  intros Hst Hok Hf. destruct (struct_view t Hst Hok) as (fs & sa & Hfs & Hsa & Hl & Hi).
  unfold field in Hf. rewrite Hfs in Hf. apply assoc_lookup in Hf as [i Hf].
  apply lookup_zip_with_Some in Hf as (o' & [x t'] & [= <- <- <-] & Ho & Hfi).
  destruct (Hi i _ Hfi) as (Hokf & a & Hai & Ha); simpl in *.
  destruct (offsets_spec _ _ _ _ _ _ Hsa Ho Hai) as (? & Hao & ?).
  destruct (layout_ok ft Hokf) as (? & ? & ?).
  destruct (struct_layout_ok sa Hsa) as (? & Hmp & ?). rewrite <- Hl in *.
  pose proof (pow2_pos _ (max_align_pow2 sa Hsa)) as Hpos.
  destruct (align_to_spec (max_align sa) (end_off 0 sa) Hpos).
  assert (sizeof t = align_to (max_align sa) (end_off 0 sa)) by (unfold sizeof; by rewrite Hl).
  split_and!; [lia|done|lia|done|]. intros fs' ->. simpl in Hfs.
  rewrite <- (Ha fs' eq_refl).
  split; [done|]. destruct (Forall_lookup_1 _ _ _ _ Hsa Hai) as (_ & Hpa & _).
  apply pow2_divide; [exact Hpa|exact Hmp|].
  unfold alignof. rewrite Hl. apply (max_align_ge _ (sizeof ft)). by eapply list_elem_of_lookup_2.
Qed.

Lemma field_disjoint t f g o ft o' gt :
  is_struct t = true → ctype_ok t = true →
  field t f = Some (o, ft) → field t g = Some (o', gt) → f ≠ g →
  o + sizeof ft ≤ o' ∨ o' + sizeof gt ≤ o.
Proof.
  intros Hst Hok Hf Hg Hne. destruct (struct_view t Hst Hok) as (fs & sa & Hfs & Hsa & _ & Hi).
  unfold field in Hf, Hg. rewrite Hfs in Hf, Hg.
  apply assoc_lookup in Hf as [i Hf], Hg as [j Hg].
  apply lookup_zip_with_Some in Hf as (? & [x t1] & [= <- <- <-] & Ho & Hfi).
  apply lookup_zip_with_Some in Hg as (? & [y t2] & [= <- <- <-] & Ho' & Hgj).
  destruct (Hi i _ Hfi) as (_ & a & Hai & _), (Hi j _ Hgj) as (_ & b & Hbj & _); simpl in *.
  destruct (decide (i < j)%nat); [left; by eapply offsets_order|].
  destruct (decide (i = j)) as [->|]; [congruence|].
  right. eapply offsets_order; [done| |done..]. lia.
Qed.

(** A declared field has an offset. *)
Lemma field_assoc fs f ft :
  assoc f fs = Some ft → ∃ o, field (CStruct fs) f = Some (o, ft).
Proof.
  unfold field. simpl. generalize 0 at 1.
  induction fs as [|[g t] fs IH]; intros off; simpl; [done|].
  destruct (layout t) as [s a]. simpl. case_decide; [intros [= ->]; eauto|]. apply IH.
Qed.
End layout_facts.
