(* ===== verification/Layouts.v ===== *)
(** The structures of the headers, as the preprocessor leaves them in the
    build described by [flb_info.h].  Types of third-party libraries are
    opaque ([CExt]); [cothread_t] is a pointer, as libco documents. *)
From stdpp Require Import strings.
From S2P Require Import Prelude Layout.

(** ** The C library *)

Definition struct_timespec := CStruct [("tv_sec", c_time_t); ("tv_nsec", c_long)].
Definition struct_tm := CStruct
  [("tm_sec", c_int); ("tm_min", c_int); ("tm_hour", c_int); ("tm_mday", c_int);
   ("tm_mon", c_int); ("tm_year", c_int); ("tm_wday", c_int); ("tm_yday", c_int);
   ("tm_isdst", c_int)].

(** ** [mk_list.h] *)

Definition struct_mk_list := CStruct
  [("prev", c_ptr);
   ("next", c_ptr)].

(** ** [flb_cf.h] *)

Definition struct_flb_cf_group := CStruct
  [("name", c_ptr);
   ("properties", c_ptr);
   ("_head", struct_mk_list)].

Definition struct_flb_cf_section := CStruct
  [("type", c_int);
   ("name", c_ptr);
   ("properties", c_ptr);
   ("groups", struct_mk_list);
   ("_head", struct_mk_list);
   ("_head_section", struct_mk_list)].

Definition struct_flb_cf := CStruct
  [("format", c_int);
   ("service", c_ptr);
   ("env", struct_mk_list);
   ("metas", struct_mk_list);
   ("parsers", struct_mk_list);
   ("multiline_parsers", struct_mk_list);
   ("customs", struct_mk_list);
   ("inputs", struct_mk_list);
   ("filters", struct_mk_list);
   ("outputs", struct_mk_list);
   ("others", struct_mk_list);
   ("sections", struct_mk_list);
   ("error_str", c_ptr);
   ("_head", struct_mk_list)].

(** ** [flb_api.h] *)

Definition struct_flb_api := CStruct
  [("output_get_property", c_fn);
   ("input_get_property", c_fn);
   ("output_get_cmt_instance", c_fn);
   ("input_get_cmt_instance", c_fn);
   ("log_print", c_fn);
   ("input_log_check", c_fn);
   ("output_log_check", c_fn)].

(** ** [flb_avro.h] *)

Definition struct_flb_avro_fields := CStruct
  [("schema_id", c_ptr);
   ("schema_str", c_ptr)].

(** ** [flb_aws_credentials.h] *)

Definition struct_flb_aws_credentials := CStruct
  [("access_key_id", c_ptr);
   ("secret_access_key", c_ptr);
   ("session_token", c_ptr)].

Definition struct_flb_aws_provider_vtable := CStruct
  [("get_credentials", c_ptr);
   ("init", c_ptr);
   ("refresh", c_ptr);
   ("destroy", c_ptr);
   ("sync", c_ptr);
   ("async", c_ptr);
   ("upstream_set", c_ptr)].

Definition struct_flb_aws_provider := CStruct
  [("lock", (CExt "pthread_mutex_t"));
   ("provider_vtable", c_ptr);
   ("implementation", c_ptr);
   ("_head", struct_mk_list);
   ("base_aws_provider", c_ptr);
   ("cred_tls", c_ptr);
   ("sts_tls", c_ptr)].

(** ** [flb_aws_util.h] *)

Definition struct_flb_aws_header := CStruct
  [("key", c_ptr);
   ("key_len", c_size_t);
   ("val", c_ptr);
   ("val_len", c_size_t)].

Definition struct_flb_aws_client_vtable := CStruct
  [("request", c_ptr)].

Definition struct_flb_aws_client := CStruct
  [("client_vtable", c_ptr);
   ("name", c_ptr);
   ("has_auth", c_int);
   ("s3_mode", c_int);
   ("provider", c_ptr);
   ("region", c_ptr);
   ("service", c_ptr);
   ("upstream", c_ptr);
   ("host", c_ptr);
   ("port", c_int);
   ("proxy", c_ptr);
   ("flags", c_int);
   ("extra_user_agent", c_ptr);
   ("static_headers", c_ptr);
   ("static_headers_len", c_size_t);
   ("retry_requests", c_int);
   ("refresh_limit", c_time_t);
   ("debug_only", c_int)].

Definition struct_flb_aws_client_generator := CStruct
  [("create", c_ptr)].

(** ** [flb_bucket_queue.h] *)

Definition struct_flb_bucket_queue := CStruct
  [("buckets", c_ptr);
   ("n_buckets", c_size_t);
   ("top", c_ptr);
   ("n_items", c_size_t)].

(** ** [flb_byteswap.h] *)

Definition struct_flb_bswap_value_internal := CUnion
  [("raw", (CArray c_char 8));
   ("word", c_short);
   ("dword", c_int);
   ("qword", c_int64)].

(** ** [flb_callback.h] *)

Definition struct_flb_callback_entry := CStruct
  [("name", c_ptr);
   ("cb", c_fn);
   ("_head", struct_mk_list)].

Definition struct_flb_callback := CStruct
  [("name", c_ptr);
   ("ht", c_ptr);
   ("entries", struct_mk_list);
   ("config", c_ptr)].

(** ** [flb_time.h] *)

Definition struct_flb_time := CStruct
  [("tm", struct_timespec)].

(** ** [flb_chunk_trace.h] *)

Definition struct_flb_chunk_trace_input_record := CStruct
  [("t", struct_flb_time);
   ("input", c_ptr);
   ("buf", c_ptr);
   ("buf_size", c_size_t)].

Definition struct_flb_chunk_trace_filter_record := CStruct
  [("t", struct_flb_time);
   ("trace_version", c_int);
   ("filter", c_ptr);
   ("buf", c_ptr);
   ("buf_size", c_size_t)].

Definition struct_flb_chunk_trace_limit := CStruct
  [("type", c_int);
   ("seconds", c_int);
   ("seconds_started", c_int);
   ("count", c_int)].

Definition struct_flb_chunk_trace_context := CStruct
  [("input", c_ptr);
   ("output", c_ptr);
   ("trace_count", c_int);
   ("limit", struct_flb_chunk_trace_limit);
   ("trace_prefix", c_ptr);
   ("to_destroy", c_int);
   ("chunks", c_int);
   ("flb", c_ptr);
   ("cio", c_ptr)].

Definition struct_flb_chunk_trace := CStruct
  [("ic", c_ptr);
   ("ctxt", c_ptr);
   ("trace_id", c_ptr);
   ("tracer_versions", c_int)].

(** ** [flb_compression.h] *)

Definition struct_flb_decompression_context := CStruct
  [("input_buffer_length", c_size_t);
   ("input_buffer_size", c_size_t);
   ("input_buffer", c_ptr);
   ("read_buffer", c_ptr);
   ("algorithm", c_int);
   ("state", c_int);
   ("inner_context", c_ptr)].

(** ** [mk_event.h] *)

Definition struct_mk_event := CStruct
  [("fd", c_int);
   ("type", c_int);
   ("mask", c_int);
   ("status", c_char);
   ("data", c_ptr);
   ("handler", c_fn);
   ("_head", struct_mk_list);
   ("_priority_head", struct_mk_list);
   ("priority", c_char)].

(** ** [flb_task_map.h] *)

Definition struct_flb_task_map := CStruct
  [("task", c_ptr)].

(** ** [flb_config.h] *)

Definition struct_flb_config := CStruct
  [("ch_event", struct_mk_event);
   ("support_mode", c_int);
   ("is_ingestion_active", c_int);
   ("is_shutting_down", c_int);
   ("is_running", c_int);
   ("flush", c_double);
   ("grace", c_int);
   ("grace_count", c_int);
   ("flush_fd", (CExt "evutil_socket_t"));
   ("convert_nan_to_null", c_int);
   ("daemon", c_int);
   ("shutdown_fd", (CExt "evutil_socket_t"));
   ("verbose", c_int);
   ("init_time", c_time_t);
   ("worker", (CExt "pthread_t"));
   ("ch_data", (CArray (CExt "evutil_socket_t") 2));
   ("ch_manager", (CArray (CExt "evutil_socket_t") 2));
   ("ch_notif", (CArray (CExt "evutil_socket_t") 2));
   ("ch_self_events", (CArray (CExt "evutil_socket_t") 2));
   ("ch_evl", c_ptr);
   ("file", c_ptr);
   ("cf_main", c_ptr);
   ("cf_opts", c_ptr);
   ("cf_parsers_list", struct_mk_list);
   ("program_name", c_ptr);
   ("conf_path", c_ptr);
   ("conf_path_file", c_ptr);
   ("external_plugins", struct_mk_list);
   ("event_flush", struct_mk_event);
   ("event_shutdown", struct_mk_event);
   ("event_thread_init", struct_mk_event);
   ("collectors_mutex", (CExt "pthread_mutex_t"));
   ("dso_plugins", c_ptr);
   ("processor_plugins", struct_mk_list);
   ("custom_plugins", struct_mk_list);
   ("in_plugins", struct_mk_list);
   ("parser_plugins", struct_mk_list);
   ("filter_plugins", struct_mk_list);
   ("out_plugins", struct_mk_list);
   ("customs", struct_mk_list);
   ("inputs", struct_mk_list);
   ("parsers", struct_mk_list);
   ("multiline_parsers", struct_mk_list);
   ("outputs", struct_mk_list);
   ("filters", struct_mk_list);
   ("evl", c_ptr);
   ("evl_bktq", c_ptr);
   ("proxies", struct_mk_list);
   ("kernel", c_ptr);
   ("log_file", c_ptr);
   ("log", c_ptr);
   ("parsers_file", c_ptr);
   ("plugins_file", c_ptr);
   ("env", c_ptr);
   ("workdir", c_ptr);
   ("exit_status_code", c_int);
   ("workers", struct_mk_list);
   ("metrics", c_ptr);
   ("cmetrics", struct_mk_list);
   ("http_server", c_int);
   ("http_port", c_ptr);
   ("http_listen", c_ptr);
   ("http_ctx", c_ptr);
   ("health_check", c_int);
   ("hc_errors_count", c_int);
   ("hc_retry_failure_count", c_int);
   ("health_check_period", c_int);
   ("http_proxy", c_ptr);
   ("no_proxy", c_ptr);
   ("dns_mode", c_ptr);
   ("dns_resolver", c_ptr);
   ("dns_prefer_ipv4", c_int);
   ("cio", c_ptr);
   ("storage_path", c_ptr);
   ("storage_input_plugin", c_ptr);
   ("storage_sync", c_ptr);
   ("storage_metrics", c_int);
   ("storage_checksum", c_int);
   ("storage_max_chunks_up", c_int);
   ("storage_del_bad_chunks", c_int);
   ("storage_bl_mem_limit", c_ptr);
   ("storage_metrics_ctx", c_ptr);
   ("sqldb_list", struct_mk_list);
   ("luajit_list", struct_mk_list);
   ("stream_processor_file", c_ptr);
   ("stream_processor_ctx", c_ptr);
   ("stream_processor_tasks", struct_mk_list);
   ("enable_chunk_trace", c_int);
   ("enable_hot_reload", c_int);
   ("ensure_thread_safety_on_hot_reloading", c_int);
   ("coro_stack_size", c_int);
   ("upstreams", struct_mk_list);
   ("downstreams", struct_mk_list);
   ("in_table_id", (CArray c_short 512));
   ("sched", c_ptr);
   ("sched_cap", c_int);
   ("sched_base", c_int);
   ("tasks_map", (CArray struct_flb_task_map 2048));
   ("dry_run", c_int)].

Definition struct_flb_service_config := CStruct
  [("key", c_ptr);
   ("type", c_int);
   ("offset", c_size_t)].

(** ** [flb_config_map.h] *)

Definition struct_flb_config_map_val := CStruct
  [("val", (CUnion [("i_num", c_int); ("boolean", c_char); ("d_num", c_double); ("s_num", c_size_t); ("str", c_ptr); ("list", c_ptr)]));
   ("mult", c_ptr);
   ("_head", struct_mk_list)].

Definition struct_flb_config_map := CStruct
  [("type", c_int);
   ("name", c_ptr);
   ("def_value", c_ptr);
   ("flags", c_int);
   ("set_property", c_int);
   ("offset", c_int64);
   ("desc", c_ptr);
   ("value", struct_flb_config_map_val);
   ("_head", struct_mk_list)].

(** ** [flb_connection.h] *)

Definition struct_flb_connection := CStruct
  [("event", struct_mk_event);
   ("user_data", c_ptr);
   ("fd", (CExt "evutil_socket_t"));
   ("raw_remote_host", (CExt "sockaddr_storage"));
   ("remote_host", (CArray c_char 40));
   ("remote_port", c_short);
   ("user_friendly_remote_host", (CArray c_char 52));
   ("net", c_ptr);
   ("net_error", c_int);
   ("busy_flag", c_int);
   ("shutdown_flag", c_int);
   ("recycle", c_int);
   ("ka_count", c_int);
   ("ts_assigned", c_time_t);
   ("ts_created", c_time_t);
   ("ts_available", c_time_t);
   ("ts_io_timeout", c_time_t);
   ("ts_connect_start", c_time_t);
   ("ts_connect_timeout", c_time_t);
   ("evl", c_ptr);
   ("anonymous", (CUnion [("stream", c_ptr); ("upstream", c_ptr); ("downstream", c_ptr)]));
   ("coroutine", c_ptr);
   ("type", c_int);
   ("dynamically_allocated", c_int);
   ("_head", struct_mk_list);
   ("tls_session", c_ptr)].

(** ** [flb_coro.h] *)

Definition struct_flb_coro := CStruct
  [("caller", c_ptr);
   ("callee", c_ptr);
   ("data", c_ptr)].

(** ** [flb_crypto.h] *)

Definition struct_flb_crypto := CStruct
  [("digest_algorithm", c_ptr);
   ("backend_context", c_ptr);
   ("last_operation", c_int);
   ("padding_type", c_int);
   ("block_size", c_size_t);
   ("last_error", c_long);
   ("key", c_ptr)].

(** ** [flb_csv.h] *)

Definition struct_flb_csv_state := CStruct
  [("field_callback", c_fn);
   ("buffered_data", c_ptr);
   ("escape_buffer", c_ptr);
   ("offset", c_size_t);
   ("start", c_size_t);
   ("length", c_size_t);
   ("field_count", c_size_t);
   ("state", c_int);
   ("field_parsed", c_char);
   ("has_dquote", c_char);
   ("data", c_ptr)].

(** ** [flb_custom.h] *)

Definition struct_flb_custom_plugin := CStruct
  [("flags", c_int);
   ("name", c_ptr);
   ("description", c_ptr);
   ("config_map", c_ptr);
   ("cb_init", c_fn);
   ("cb_run", c_fn);
   ("cb_exit", c_fn);
   ("_head", struct_mk_list)].

Definition struct_flb_custom_instance := CStruct
  [("id", c_int);
   ("log_level", c_int);
   ("name", (CArray c_char 32));
   ("alias", c_ptr);
   ("context", c_ptr);
   ("data", c_ptr);
   ("p", c_ptr);
   ("properties", struct_mk_list);
   ("config_map", c_ptr);
   ("_head", struct_mk_list);
   ("cmt", c_ptr);
   ("config", c_ptr)].

(** ** [flb_network.h] *)

Definition struct_flb_net_setup := CStruct
  [("keepalive", c_char);
   ("keepalive_idle_timeout", c_int);
   ("connect_timeout", c_int);
   ("accept_timeout", c_int);
   ("accept_timeout_log_error", c_int);
   ("io_timeout", c_int);
   ("connect_timeout_log_error", c_int);
   ("source_address", c_ptr);
   ("keepalive_max_recycle", c_int);
   ("dns_mode", c_ptr);
   ("dns_resolver", c_ptr);
   ("dns_prefer_ipv4", c_int);
   ("max_worker_connections", c_int)].

(** ** [flb_stream.h] *)

Definition struct_flb_stream := CStruct
  [("dynamically_allocated", c_int);
   ("thread_safety_flag", c_int);
   ("transport", c_int);
   ("flags", c_int);
   ("type", c_int);
   ("list_mutex", (CExt "pthread_mutex_t"));
   ("tls_context", c_ptr);
   ("config", c_ptr);
   ("net", struct_flb_net_setup);
   ("_head", struct_mk_list)].

(** ** [flb_downstream.h] *)

Definition struct_flb_downstream := CStruct
  [("base", struct_flb_stream);
   ("host", c_ptr);
   ("port", c_short);
   ("server_fd", (CExt "evutil_socket_t"));
   ("dgram_connection", c_ptr);
   ("busy_queue", struct_mk_list);
   ("destroy_queue", struct_mk_list)].

(** ** [flb_env.h] *)

Definition struct_flb_env := CStruct
  [("warn_unused", c_int);
   ("ht", c_ptr)].

(** ** [flb_event.h] *)

Definition struct_flb_event_chunk := CStruct
  [("type", c_int);
   ("tag", c_ptr);
   ("data", c_ptr);
   ("size", c_size_t);
   ("total_events", c_size_t)].

(** ** [flb_filter.h] *)

Definition struct_flb_filter_plugin := CStruct
  [("event_type", c_int);
   ("flags", c_int);
   ("name", c_ptr);
   ("description", c_ptr);
   ("config_map", c_ptr);
   ("cb_init", c_fn);
   ("cb_filter", c_fn);
   ("cb_exit", c_fn);
   ("_head", struct_mk_list)].

Definition struct_flb_filter_instance := CStruct
  [("event_type", c_int);
   ("id", c_int);
   ("log_level", c_int);
   ("log_suppress_interval", c_int);
   ("name", (CArray c_char 32));
   ("alias", c_ptr);
   ("match", c_ptr);
   ("match_regex", c_ptr);
   ("parent_processor", c_ptr);
   ("context", c_ptr);
   ("data", c_ptr);
   ("p", c_ptr);
   ("properties", struct_mk_list);
   ("config_map", c_ptr);
   ("_head", struct_mk_list);
   ("cmt", c_ptr);
   ("cmt_records", c_ptr);
   ("cmt_bytes", c_ptr);
   ("cmt_add_records", c_ptr);
   ("cmt_drop_records", c_ptr);
   ("metrics", c_ptr);
   ("config", c_ptr)].

(** ** [flb_fstore.h] *)

Definition struct_flb_fstore_file := CStruct
  [("name", c_ptr);
   ("meta_buf", c_ptr);
   ("meta_size", c_size_t);
   ("data", c_ptr);
   ("chunk", c_ptr);
   ("stream", c_ptr);
   ("_head", struct_mk_list)].

Definition struct_flb_fstore_stream := CStruct
  [("name", c_ptr);
   ("path", c_ptr);
   ("stream", c_ptr);
   ("files", struct_mk_list);
   ("_head", struct_mk_list)].

Definition struct_flb_fstore := CStruct
  [("store_type", c_int);
   ("root_path", c_ptr);
   ("cio", c_ptr);
   ("streams", struct_mk_list)].

(** ** [flb_hash.h] *)

Definition struct_flb_hash := CStruct
  [("backend_context", c_ptr);
   ("digest_size", c_size_t);
   ("last_error", c_long)].

(** ** [flb_hash_table.h] *)

Definition struct_flb_hash_table_entry := CStruct
  [("created", c_time_t);
   ("hits", c_int64);
   ("hash", c_int64);
   ("key", c_ptr);
   ("key_len", c_size_t);
   ("val", c_ptr);
   ("val_size", c_int64);
   ("table", c_ptr);
   ("_head", struct_mk_list);
   ("_head_parent", struct_mk_list)].

Definition struct_flb_hash_table_chain := CStruct
  [("count", c_int);
   ("chains", struct_mk_list)].

Definition struct_flb_hash_table := CStruct
  [("evict_mode", c_int);
   ("max_entries", c_int);
   ("total_count", c_int);
   ("cache_ttl", c_int);
   ("size", c_size_t);
   ("entries", struct_mk_list);
   ("table", c_ptr)].

(** ** [flb_http_client.h] *)

Definition struct_flb_http_response := CStruct
  [("status", c_int);
   ("content_length", c_int);
   ("chunked_encoding", c_int);
   ("connection_close", c_int);
   ("chunked_cur_size", c_long);
   ("chunked_exp_size", c_long);
   ("chunk_processed_end", c_ptr);
   ("headers_end", c_ptr);
   ("payload", c_ptr);
   ("payload_size", c_size_t);
   ("data", c_ptr);
   ("data_len", c_size_t);
   ("data_size", c_size_t);
   ("data_size_max", c_size_t)].

Definition struct_flb_http_proxy := CStruct
  [("type", c_int);
   ("port", c_int);
   ("host", c_ptr)].

Definition struct_flb_http_debug := CStruct
  [("debug_request_headers", c_int);
   ("cb_debug_request_headers", c_ptr);
   ("debug_request_payload", c_int);
   ("cb_debug_request_payload", c_ptr)].

Definition struct_flb_http_client := CStruct
  [("u_conn", c_ptr);
   ("method", c_int);
   ("flags", c_int);
   ("header_len", c_int);
   ("header_size", c_int);
   ("header_buf", c_ptr);
   ("allow_dup_headers", c_int);
   ("uri", c_ptr);
   ("query_string", c_ptr);
   ("host", c_ptr);
   ("port", c_int);
   ("body_len", c_int);
   ("body_buf", c_ptr);
   ("headers", struct_mk_list);
   ("proxy", struct_flb_http_proxy);
   ("resp", struct_flb_http_response);
   ("cb_ctx", c_ptr)].

(** ** [flb_input.h] *)

Definition struct_flb_input_plugin := CStruct
  [("type", c_int);
   ("proxy", c_ptr);
   ("flags", c_int);
   ("name", c_ptr);
   ("description", c_ptr);
   ("config_map", c_ptr);
   ("cb_init", c_fn);
   ("cb_pre_run", c_fn);
   ("cb_collect", c_fn);
   ("cb_flush_buf", c_fn);
   ("cb_flush_end", c_fn);
   ("cb_pause", c_fn);
   ("cb_resume", c_fn);
   ("cb_ingest", c_fn);
   ("cb_exit", c_fn);
   ("cb_destroy", c_fn);
   ("instance", c_ptr);
   ("_head", struct_mk_list)].

(** ** [flb_network.h] *)

Definition struct_flb_net_host := CStruct
  [("ipv6", c_int);
   ("address", c_ptr);
   ("port", c_int);
   ("name", c_ptr);
   ("listen", c_ptr);
   ("uri", c_ptr)].

(** ** [flb_input.h] *)

Definition struct_flb_input_instance := CStruct
  [("event", struct_mk_event);
   ("processor", c_ptr);
   ("flags", c_int);
   ("id", c_int);
   ("chunk_trace_ctxt", c_ptr);
   ("chunk_trace_lock", (CExt "pthread_mutex_t"));
   ("log_level", c_int);
   ("log_suppress_interval", c_int);
   ("channel", (CArray (CExt "evutil_socket_t") 2));
   ("runs_in_coroutine", c_int);
   ("name", (CArray c_char 32));
   ("alias", c_ptr);
   ("context", c_ptr);
   ("ch_events", (CArray (CExt "evutil_socket_t") 2));
   ("p", c_ptr);
   ("tag", c_ptr);
   ("tag_len", c_int);
   ("tag_default", c_int);
   ("routable", c_int);
   ("storage_pause_on_chunks_overlimit", c_int);
   ("host", struct_flb_net_host);
   ("storage", c_ptr);
   ("storage_type", c_int);
   ("mem_chunks_size", c_size_t);
   ("mp_total_buf_size", c_size_t);
   ("mem_buf_limit", c_size_t);
   ("mem_buf_status", c_int);
   ("storage_buf_status", c_int);
   ("data", c_ptr);
   ("config_map", c_ptr);
   ("_head", struct_mk_list);
   ("routes_direct", struct_mk_list);
   ("routes", struct_mk_list);
   ("properties", struct_mk_list);
   ("collectors", struct_mk_list);
   ("chunks", struct_mk_list);
   ("chunks_up", struct_mk_list);
   ("chunks_down", struct_mk_list);
   ("tasks", struct_mk_list);
   ("input_coro_id", c_int);
   ("input_coro_list", struct_mk_list);
   ("input_coro_list_destroy", struct_mk_list);
   ("metrics", c_ptr);
   ("is_threaded", c_int);
   ("thi", c_ptr);
   ("rb", c_ptr);
   ("upstreams", struct_mk_list);
   ("downstreams", struct_mk_list);
   ("cmt", c_ptr);
   ("cmt_bytes", c_ptr);
   ("cmt_records", c_ptr);
   ("cmt_storage_overlimit", c_ptr);
   ("cmt_storage_memory_bytes", c_ptr);
   ("cmt_storage_chunks", c_ptr);
   ("cmt_storage_chunks_up", c_ptr);
   ("cmt_storage_chunks_down", c_ptr);
   ("cmt_storage_chunks_busy", c_ptr);
   ("cmt_storage_chunks_busy_bytes", c_ptr);
   ("cmt_memrb_dropped_chunks", c_ptr);
   ("cmt_memrb_dropped_bytes", c_ptr);
   ("ht_log_chunks", c_ptr);
   ("ht_metric_chunks", c_ptr);
   ("ht_trace_chunks", c_ptr);
   ("use_tls", c_int);
   ("tls_verify", c_int);
   ("tls_debug", c_int);
   ("tls_vhost", c_ptr);
   ("tls_ca_path", c_ptr);
   ("tls_ca_file", c_ptr);
   ("tls_crt_file", c_ptr);
   ("tls_key_file", c_ptr);
   ("tls_key_passwd", c_ptr);
   ("tls_config_map", c_ptr);
   ("tls", c_ptr);
   ("net_setup", struct_flb_net_setup);
   ("net_config_map", c_ptr);
   ("net_properties", struct_mk_list);
   ("config", c_ptr)].

Definition struct_flb_input_collector := CStruct
  [("event", struct_mk_event);
   ("evl", c_ptr);
   ("id", c_int);
   ("type", c_int);
   ("running", c_int);
   ("fd_event", (CExt "evutil_socket_t"));
   ("fd_timer", (CExt "evutil_socket_t"));
   ("seconds", c_time_t);
   ("nanoseconds", c_long);
   ("cb_collect", c_fn);
   ("instance", c_ptr);
   ("_head", struct_mk_list)].

Definition struct_flb_input_coro := CStruct
  [("id", c_int);
   ("start_time", c_time_t);
   ("end_time", c_time_t);
   ("ins", c_ptr);
   ("coro", c_ptr);
   ("config", c_ptr);
   ("_head", struct_mk_list)].

Definition struct_flb_libco_in_params := CStruct
  [("config", c_ptr);
   ("coll", c_ptr);
   ("coro", c_ptr)].

(** ** [flb_input_chunk.h] *)

Definition struct_flb_input_chunk := CStruct
  [("event_type", c_int);
   ("fs_counted", c_char);
   ("busy", c_int);
   ("fs_backlog", c_int);
   ("sp_done", c_int);
   ("total_records", c_int);
   ("added_records", c_int);
   ("chunk", c_ptr);
   ("stream_off", c_long);
   ("mp_pck", (CExt "msgpack_packer"));
   ("in", c_ptr);
   ("task", c_ptr);
   ("trace", c_ptr);
   ("routes_mask", (CArray c_int64 4));
   ("_head", struct_mk_list)].

(** ** [flb_input_thread.h] *)

Definition struct_flb_input_thread := CStruct
  [("mutex", (CExt "pthread_mutex_t"));
   ("exit", c_char);
   ("write_file", c_ptr);
   ("writer", (CExt "mpack_writer_t"));
   ("thread", (CExt "pthread_t"));
   ("read", (CExt "evutil_socket_t"));
   ("write", (CExt "evutil_socket_t"));
   ("coll_fd", c_int);
   ("callback", c_fn);
   ("data", c_ptr);
   ("buf", (CArray c_char 65535));
   ("bufpos", c_size_t)].

Definition struct_flb_input_thread_instance := CStruct
  [("event", struct_mk_event);
   ("event_local", struct_mk_event);
   ("evl", c_ptr);
   ("ch_parent_events", (CArray (CExt "evutil_socket_t") 2));
   ("ch_thread_events", (CArray (CExt "evutil_socket_t") 2));
   ("ins", c_ptr);
   ("tp", c_ptr);
   ("th", c_ptr);
   ("config", c_ptr);
   ("init_status", c_int);
   ("init_mutex", (CExt "pthread_mutex_t"));
   ("init_condition", (CExt "pthread_cond_t"));
   ("input_coro_id", c_int);
   ("input_coro_list", struct_mk_list);
   ("input_coro_list_destroy", struct_mk_list)].

(** ** [flb_intermediate_metric.h] *)

Definition struct_flb_intermediate_metric := CStruct
  [("key", (CExt "msgpack_object"));
   ("value", (CExt "msgpack_object"));
   ("metric_type", c_int);
   ("metric_unit", c_ptr);
   ("timestamp", struct_flb_time);
   ("_head", struct_mk_list)].

(** ** [flb_kafka.h] *)

Definition struct_flb_kafka := CStruct
  [("rk", c_ptr);
   ("brokers", c_ptr)].

(** ** [mk_memory.h] *)

Definition struct_mk_ptr_t := CStruct
  [("data", c_ptr);
   ("len", c_long)].

(** ** [flb_kernel.h] *)

Definition struct_flb_kernel := CStruct
  [("minor", c_char);
   ("major", c_char);
   ("patch", c_char);
   ("n_version", c_int);
   ("s_version", struct_mk_ptr_t)].

(** ** [flb_kv.h] *)

Definition struct_flb_kv := CStruct
  [("key", c_ptr);
   ("val", c_ptr);
   ("_head", struct_mk_list)].

(** ** [flb_lib.h] *)

Definition struct_flb_lib_ctx := CStruct
  [("status", c_int);
   ("event_loop", c_ptr);
   ("event_channel", c_ptr);
   ("config", c_ptr)].

Definition struct_flb_lib_out_cb := CStruct
  [("cb", c_fn);
   ("data", c_ptr)].

(** ** [flb_log.h] *)

Definition struct_flb_log := CStruct
  [("event", struct_mk_event);
   ("ch_mng", (CArray (CExt "evutil_socket_t") 2));
   ("type", c_short);
   ("level", c_short);
   ("out", c_ptr);
   ("tid", (CExt "pthread_t"));
   ("worker", c_ptr);
   ("evl", c_ptr);
   ("pth_init", c_int);
   ("pth_cond", (CExt "pthread_cond_t"));
   ("pth_mutex", (CExt "pthread_mutex_t"))].

Definition struct_flb_log_cache_entry := CStruct
  [("buf", c_ptr);
   ("timestamp", c_int64);
   ("_head", struct_mk_list)].

Definition struct_flb_log_cache := CStruct
  [("size", c_int);
   ("timeout", c_int);
   ("entries", struct_mk_list)].

(** ** [flb_log_event.h] *)

Definition struct_flb_log_event := CStruct
  [("raw_timestamp", c_ptr);
   ("timestamp", struct_flb_time);
   ("metadata", c_ptr);
   ("format", c_int);
   ("body", c_ptr);
   ("root", c_ptr)].

(** ** [flb_log_event_decoder.h] *)

Definition struct_flb_log_event_decoder := CStruct
  [("dynamically_allocated", c_int);
   ("unpacked_empty_map", (CExt "msgpack_unpacked"));
   ("previous_offset", c_size_t);
   ("unpacked_event", (CExt "msgpack_unpacked"));
   ("record_length", c_size_t);
   ("record_base", c_ptr);
   ("initialized", c_int);
   ("empty_map", c_ptr);
   ("buffer", c_ptr);
   ("offset", c_size_t);
   ("length", c_size_t);
   ("last_result", c_int)].

(** ** [flb_log_event_encoder_dynamic_field.h] *)

Definition struct_flb_log_event_encoder_dynamic_field := CStruct
  [("initialized", c_int);
   ("entry_count", c_size_t);
   ("data_offset", c_size_t);
   ("packer", (CExt "msgpack_packer"));
   ("buffer", (CExt "msgpack_sbuffer"));
   ("scopes", (CExt "cfl_list"));
   ("data", c_ptr);
   ("size", c_size_t);
   ("type", c_int)].

(** ** [flb_log_event_encoder.h] *)

Definition struct_flb_log_event_encoder := CStruct
  [("dynamically_allocated", c_int);
   ("output_buffer", c_ptr);
   ("output_length", c_size_t);
   ("initialized", c_int);
   ("timestamp", struct_flb_time);
   ("metadata", struct_flb_log_event_encoder_dynamic_field);
   ("body", struct_flb_log_event_encoder_dynamic_field);
   ("root", struct_flb_log_event_encoder_dynamic_field);
   ("packer", (CExt "msgpack_packer"));
   ("buffer", (CExt "msgpack_sbuffer"));
   ("format", c_int)].

(** ** [flb_mp.h] *)

Definition struct_flb_mp_map_header := CStruct
  [("offset", c_long);
   ("entries", c_size_t);
   ("data", c_ptr)].

(** ** [flb_log_event_encoder_dynamic_field.h] *)

Definition struct_flb_log_event_encoder_dynamic_field_scope := CStruct
  [("offset", c_size_t);
   ("header", struct_flb_mp_map_header);
   ("type", c_int);
   ("_head", (CExt "cfl_list"))].

(** ** [flb_lua.h] *)

Definition struct_flb_lua_l2c_type := CStruct
  [("key", c_ptr);
   ("type", c_int);
   ("_head", struct_mk_list)].

Definition struct_flb_lua_l2c_config := CStruct
  [("l2c_types_num", c_int);
   ("l2c_types", struct_mk_list)].

(** ** [flb_luajit.h] *)

Definition struct_flb_luajit := CStruct
  [("state", c_ptr);
   ("config", c_ptr);
   ("_head", struct_mk_list)].

(** ** [flb_metrics.h] *)

Definition struct_flb_metric := CStruct
  [("id", c_int);
   ("title_len", c_int);
   ("title", (CArray c_char 64));
   ("val", c_size_t);
   ("_head", struct_mk_list)].

Definition struct_flb_metrics := CStruct
  [("title_len", c_int);
   ("title", (CArray c_char 64));
   ("count", c_int);
   ("list", struct_mk_list)].

(** ** [flb_metrics_exporter.h] *)

Definition struct_flb_me := CStruct
  [("fd", c_int);
   ("config", c_ptr);
   ("event", struct_mk_event)].

(** ** [flb_mp.h] *)

Definition struct_flb_mp_accessor_match := CStruct
  [("matched", c_int);
   ("start_key", c_ptr);
   ("key", c_ptr);
   ("val", c_ptr);
   ("ra", c_ptr)].

Definition struct_flb_mp_accessor := CStruct
  [("matches_size", c_int);
   ("matches", c_ptr);
   ("ra_list", struct_mk_list)].

(** ** [flb_net_dns.h] *)

Definition struct_flb_net_dns := CStruct
  [("lookups", struct_mk_list);
   ("lookups_drop", struct_mk_list)].

(** ** [flb_network.h] *)

Definition struct_flb_dns_lookup_context := CStruct
  [("response_event", struct_mk_event);
   ("ares_socket_registered", c_int);
   ("ares_socket_functions", (CExt "ares_socket_functions"));
   ("udp_timeout_detected", c_ptr);
   ("ares_socket_created", c_int);
   ("ares_socket_type", c_int);
   ("ares_channel", c_ptr);
   ("result_code", c_ptr);
   ("event_loop", c_ptr);
   ("coroutine", c_ptr);
   ("udp_timer", c_ptr);
   ("finished", c_int);
   ("dropped", c_int);
   ("dns_ctx", c_ptr);
   ("result", c_ptr);
   ("_head", struct_mk_list)].

(** ** [flb_oauth2.h] *)

Definition struct_flb_oauth2 := CStruct
  [("auth_url", c_ptr);
   ("payload", c_ptr);
   ("host", c_ptr);
   ("port", c_ptr);
   ("uri", c_ptr);
   ("issued", c_time_t);
   ("expires", c_time_t);
   ("access_token", c_ptr);
   ("token_type", c_ptr);
   ("expires_in", c_int64);
   ("tls", c_ptr);
   ("u", c_ptr)].

(** ** [flb_output.h] *)

Definition struct_flb_test_out_formatter := CStruct
  [("rt_ctx", c_ptr);
   ("rt_ffd", c_int);
   ("rt_out_callback", c_fn);
   ("rt_data", c_ptr);
   ("flush_ctx", c_ptr);
   ("callback", c_fn)].

Definition struct_flb_output_plugin := CStruct
  [("event_type", c_int);
   ("type", c_int);
   ("proxy", c_ptr);
   ("flags", c_int);
   ("name", c_ptr);
   ("description", c_ptr);
   ("config_map", c_ptr);
   ("host", struct_flb_net_host);
   ("cb_init", c_fn);
   ("cb_pre_run", c_fn);
   ("cb_flush", c_fn);
   ("cb_exit", c_fn);
   ("cb_destroy", c_fn);
   ("workers", c_int);
   ("test_formatter", struct_flb_test_out_formatter);
   ("_head", struct_mk_list)].

Definition struct_flb_output_instance := CStruct
  [("event", struct_mk_event);
   ("processor", c_ptr);
   ("event_type", c_int);
   ("id", c_int);
   ("log_level", c_int);
   ("log_suppress_interval", c_int);
   ("name", (CArray c_char 32));
   ("alias", c_ptr);
   ("flags", c_int);
   ("test_mode", c_int);
   ("ch_events", (CArray (CExt "evutil_socket_t") 2));
   ("p", c_ptr);
   ("context", c_ptr);
   ("retry_limit", c_int);
   ("use_tls", c_int);
   ("match", c_ptr);
   ("match_regex", c_ptr);
   ("tls_verify", c_int);
   ("tls_debug", c_int);
   ("tls_vhost", c_ptr);
   ("tls_ca_path", c_ptr);
   ("tls_ca_file", c_ptr);
   ("tls_crt_file", c_ptr);
   ("tls_key_file", c_ptr);
   ("tls_key_passwd", c_ptr);
   ("host", struct_flb_net_host);
   ("data", c_ptr);
   ("out_context", c_ptr);
   ("tls", c_ptr);
   ("properties", struct_mk_list);
   ("config_map", c_ptr);
   ("net_setup", struct_flb_net_setup);
   ("net_config_map", c_ptr);
   ("net_properties", struct_mk_list);
   ("tls_config_map", c_ptr);
   ("_head", struct_mk_list);
   ("cmt", c_ptr);
   ("cmt_proc_records", c_ptr);
   ("cmt_proc_bytes", c_ptr);
   ("cmt_errors", c_ptr);
   ("cmt_retries", c_ptr);
   ("cmt_retries_failed", c_ptr);
   ("cmt_dropped_records", c_ptr);
   ("cmt_retried_records", c_ptr);
   ("cmt_upstream_total_connections", c_ptr);
   ("cmt_upstream_busy_connections", c_ptr);
   ("metrics", c_ptr);
   ("callback", c_ptr);
   ("test_formatter", struct_flb_test_out_formatter);
   ("fs_chunks_size", c_size_t);
   ("fs_backlog_chunks_size", c_size_t);
   ("total_limit_size", c_size_t);
   ("singleplex_queue", c_ptr);
   ("tp_workers", c_int);
   ("tp", c_ptr);
   ("is_threaded", c_int);
   ("upstreams", struct_mk_list);
   ("flush_id", c_int);
   ("flush_list", struct_mk_list);
   ("flush_list_destroy", struct_mk_list);
   ("config", c_ptr)].

Definition struct_flb_output_flush := CStruct
  [("id", c_int);
   ("buffer", c_ptr);
   ("task", c_ptr);
   ("config", c_ptr);
   ("o_ins", c_ptr);
   ("coro", c_ptr);
   ("processed_event_chunk", c_ptr);
   ("_head", struct_mk_list)].

Definition struct_flb_out_flush_params := CStruct
  [("event_chunk", c_ptr);
   ("out_flush", c_ptr);
   ("i_ins", c_ptr);
   ("out_plugin", c_ptr);
   ("out_context", c_ptr);
   ("config", c_ptr);
   ("coro", c_ptr)].

(** ** [flb_upstream_queue.h] *)

Definition struct_flb_upstream_queue := CStruct
  [("av_queue", struct_mk_list);
   ("busy_queue", struct_mk_list);
   ("destroy_queue", struct_mk_list)].

(** ** [flb_output_thread.h] *)

Definition struct_flb_out_thread_upstream := CStruct
  [("u", c_ptr);
   ("queue", struct_flb_upstream_queue);
   ("_head", struct_mk_list)].

Definition struct_flb_out_thread_instance := CStruct
  [("event", struct_mk_event);
   ("evl", c_ptr);
   ("evl_bktq", c_ptr);
   ("ch_parent_events", (CArray (CExt "evutil_socket_t") 2));
   ("ch_thread_events", (CArray (CExt "evutil_socket_t") 2));
   ("ins", c_ptr);
   ("config", c_ptr);
   ("th", c_ptr);
   ("_head", struct_mk_list);
   ("flush_id", c_int);
   ("flush_list", struct_mk_list);
   ("flush_list_destroy", struct_mk_list);
   ("flush_mutex", (CExt "pthread_mutex_t"));
   ("upstreams", struct_mk_list)].

(** ** [flb_pack.h] *)

Definition struct_flb_pack_state := CStruct
  [("multiple", c_int);
   ("tokens_count", c_int);
   ("tokens_size", c_int);
   ("last_byte", c_int);
   ("tokens", c_ptr);
   ("parser", (CExt "jsmn_parser"));
   ("buf_data", c_ptr);
   ("buf_size", c_size_t);
   ("buf_len", c_size_t)].

Definition struct_flb_gelf_fields := CStruct
  [("timestamp_key", c_ptr);
   ("host_key", c_ptr);
   ("short_message_key", c_ptr);
   ("full_message_key", c_ptr);
   ("level_key", c_ptr)].

(** ** [flb_parser.h] *)

Definition struct_flb_parser_types := CStruct
  [("key", c_ptr);
   ("key_len", c_int);
   ("type", c_int)].

Definition struct_flb_parser := CStruct
  [("type", c_int);
   ("name", c_ptr);
   ("p_regex", c_ptr);
   ("skip_empty", c_int);
   ("time_fmt", c_ptr);
   ("time_fmt_full", c_ptr);
   ("time_key", c_ptr);
   ("time_offset", c_int);
   ("time_keep", c_int);
   ("time_strict", c_int);
   ("logfmt_no_bare_keys", c_int);
   ("time_frac_secs", c_ptr);
   ("types", c_ptr);
   ("types_len", c_int);
   ("decoders", c_ptr);
   ("time_with_year", c_int);
   ("time_fmt_year", c_ptr);
   ("time_with_tz", c_int);
   ("regex", c_ptr);
   ("_head", struct_mk_list)].

(** ** [flb_parser_decoder.h] *)

Definition struct_flb_parser_dec_rule := CStruct
  [("type", c_int);
   ("backend", c_int);
   ("action", c_int);
   ("_head", struct_mk_list)].

Definition struct_flb_parser_dec := CStruct
  [("key", c_ptr);
   ("buffer", c_ptr);
   ("add_extra_keys", c_int);
   ("rules", struct_mk_list);
   ("_head", struct_mk_list)].

(** ** [flb_plugin.h] *)

Definition struct_flb_plugin := CStruct
  [("type", c_int);
   ("path", c_ptr);
   ("dso_handle", c_ptr);
   ("_head", struct_mk_list)].

Definition struct_flb_plugins := CStruct
  [("input", struct_mk_list);
   ("processor", struct_mk_list);
   ("filter", struct_mk_list);
   ("output", struct_mk_list)].

(** ** [flb_plugin_proxy.h] *)

Definition struct_flb_plugin_proxy_def := CStruct
  [("type", c_int);
   ("proxy", c_int);
   ("flags", c_int);
   ("name", c_ptr);
   ("description", c_ptr)].

Definition struct_flb_plugin_proxy := CStruct
  [("def", c_ptr);
   ("api", c_ptr);
   ("instance", c_ptr);
   ("dso_handler", c_ptr);
   ("data", c_ptr);
   ("_head", struct_mk_list)].

Definition struct_flb_plugin_proxy_context := CStruct
  [("remote_context", c_ptr);
   ("proxy", c_ptr)].

Definition struct_flb_plugin_input_proxy_context := CStruct
  [("coll_fd", c_int);
   ("proxy", c_ptr)].

(** ** [flb_processor.h] *)

Definition struct_flb_processor_unit := CStruct
  [("event_type", c_int);
   ("unit_type", c_int);
   ("name", c_ptr);
   ("stage", c_size_t);
   ("ctx", c_ptr);
   ("lock", (CExt "pthread_mutex_t"));
   ("unused_list", struct_mk_list);
   ("_head", struct_mk_list);
   ("parent", c_ptr)].

Definition struct_flb_processor := CStruct
  [("is_active", c_int);
   ("name", c_ptr);
   ("logs", struct_mk_list);
   ("metrics", struct_mk_list);
   ("traces", struct_mk_list);
   ("stage_count", c_size_t);
   ("data", c_ptr);
   ("source_plugin_type", c_int);
   ("config", c_ptr)].

Definition struct_flb_processor_plugin := CStruct
  [("flags", c_int);
   ("name", c_ptr);
   ("description", c_ptr);
   ("config_map", c_ptr);
   ("cb_init", c_fn);
   ("cb_process_logs", c_fn);
   ("cb_process_metrics", c_fn);
   ("cb_process_traces", c_fn);
   ("cb_exit", c_fn);
   ("_head", struct_mk_list)].

Definition struct_flb_processor_instance := CStruct
  [("id", c_int);
   ("log_level", c_int);
   ("name", (CArray c_char 32));
   ("alias", c_ptr);
   ("context", c_ptr);
   ("data", c_ptr);
   ("p", c_ptr);
   ("properties", struct_mk_list);
   ("config_map", c_ptr);
   ("log_decoder", c_ptr);
   ("log_encoder", c_ptr);
   ("cmt", c_ptr);
   ("config", c_ptr)].

(** ** [flb_ra_key.h] *)

Definition struct_ra_val := CUnion
  [("boolean", c_char);
   ("i64", c_int64);
   ("f64", c_double);
   ("string", c_ptr)].

Definition struct_flb_ra_value := CStruct
  [("type", c_int);
   ("o", (CExt "msgpack_object"));
   ("val", struct_ra_val)].

(** ** [flb_record_accessor.h] *)

Definition struct_flb_record_accessor := CStruct
  [("size_hint", c_size_t);
   ("pattern", c_ptr);
   ("list", struct_mk_list);
   ("_head", struct_mk_list)].

(** ** [flb_regex.h] *)

Definition struct_flb_regex := CStruct
  [("regex", c_ptr)].

Definition struct_flb_regex_search := CStruct
  [("last_pos", c_int);
   ("region", c_ptr);
   ("str", c_ptr);
   ("cb_match", c_fn);
   ("data", c_ptr)].

(** ** [flb_ring_buffer.h] *)

Definition struct_flb_ring_buffer := CStruct
  [("ctx", c_ptr);
   ("event_loop", c_ptr);
   ("flush_pending", c_int);
   ("signal_event", c_ptr);
   ("signal_channels", (CArray (CExt "evutil_socket_t") 2));
   ("data_window", c_int64);
   ("data_size", c_int64);
   ("data_buf", c_ptr)].

(** ** [flb_router.h] *)

Definition struct_flb_router_path := CStruct
  [("ins", c_ptr);
   ("_head", struct_mk_list)].

(** ** [flb_s3_local_buffer.h] *)

Definition struct_flb_local_chunk := CStruct
  [("key", c_ptr);
   ("tag", c_ptr);
   ("file_path", c_ptr);
   ("size", c_size_t);
   ("ts", struct_timespec);
   ("create_time", c_time_t);
   ("failures", c_int);
   ("_head", struct_mk_list)].

Definition struct_flb_local_buffer := CStruct
  [("dir", c_ptr);
   ("ins", c_ptr);
   ("chunks", struct_mk_list)].

(** ** [flb_scheduler.h] *)

Definition struct_flb_sched_timer := CStruct
  [("event", struct_mk_event);
   ("active", c_int);
   ("type", c_int);
   ("data", c_ptr);
   ("sched", c_ptr);
   ("timer_fd", c_int);
   ("cb", c_fn);
   ("config", c_ptr);
   ("_head", struct_mk_list)].

Definition struct_flb_sched_request := CStruct
  [("fd", (CExt "evutil_socket_t"));
   ("created", c_time_t);
   ("timeout", c_time_t);
   ("data", c_ptr);
   ("timer", c_ptr);
   ("_head", struct_mk_list)].

Definition struct_flb_sched := CStruct
  [("requests", struct_mk_list);
   ("requests_wait", struct_mk_list);
   ("timers", struct_mk_list);
   ("timers_drop", struct_mk_list);
   ("frame_fd", (CExt "evutil_socket_t"));
   ("evl", c_ptr);
   ("config", c_ptr)].

(** ** [flb_sds.h] *)

Definition struct_flb_sds := CPacked
  [("len", c_int64);
   ("alloc", c_int64);
   ("buf", (CArray c_char 0))].

(** ** [flb_sds_list.h] *)

Definition struct_flb_sds_list_entry := CStruct
  [("str", c_ptr);
   ("_head", struct_mk_list)].

Definition struct_flb_sds_list := CStruct
  [("strs", struct_mk_list)].

(** ** [flb_slist.h] *)

Definition struct_flb_slist_entry := CStruct
  [("str", c_ptr);
   ("_head", struct_mk_list)].

(** ** [flb_snappy.h] *)

Definition struct_flb_snappy_data_chunk := CStruct
  [("dynamically_allocated_buffer", c_int);
   ("buffer", c_ptr);
   ("length", c_size_t);
   ("_head", (CExt "cfl_list"))].

(** ** [flb_sqldb.h] *)

Definition struct_flb_sqldb := CStruct
  [("path", c_ptr);
   ("desc", c_ptr);
   ("shared", c_int);
   ("users", c_int);
   ("parent", c_ptr);
   ("handler", c_ptr);
   ("_head", struct_mk_list)].

(** ** [flb_stacktrace.h] *)

Definition struct_flb_stacktrace := CStruct
  [("state", c_ptr);
   ("error", c_int);
   ("line", c_int)].

(** ** [flb_storage.h] *)

Definition struct_flb_storage_metrics := CStruct
  [("fd", c_int);
   ("cmt", c_ptr);
   ("cmt_chunks", c_ptr);
   ("cmt_mem_chunks", c_ptr);
   ("cmt_fs_chunks", c_ptr);
   ("cmt_fs_chunks_up", c_ptr);
   ("cmt_fs_chunks_down", c_ptr)].

Definition struct_flb_storage_input := CStruct
  [("type", c_int);
   ("stream", c_ptr);
   ("cio", c_ptr)].

(** ** [flb_task.h] *)

Definition struct_flb_task_route := CStruct
  [("status", c_int);
   ("out", c_ptr);
   ("_head", struct_mk_list)].

Definition struct_flb_task_retry := CStruct
  [("attempts", c_int);
   ("o_ins", c_ptr);
   ("parent", c_ptr);
   ("_head", struct_mk_list)].

Definition struct_flb_task := CStruct
  [("id", c_int);
   ("ref_id", c_int64);
   ("status", c_char);
   ("users", c_int);
   ("event_chunk", c_ptr);
   ("ic", c_ptr);
   ("records", c_int);
   ("routes", struct_mk_list);
   ("retries", struct_mk_list);
   ("_head", struct_mk_list);
   ("i_ins", c_ptr);
   ("config", c_ptr);
   ("lock", (CExt "pthread_mutex_t"))].

Definition struct_flb_task_queue := CStruct
  [("pending", struct_mk_list);
   ("in_progress", struct_mk_list)].

Definition struct_flb_task_enqueued := CStruct
  [("task", c_ptr);
   ("retry", c_ptr);
   ("out_instance", c_ptr);
   ("config", c_ptr);
   ("_head", struct_mk_list)].

(** ** [flb_thread_pool.h] *)

Definition struct_worker_params := CStruct
  [("func", c_fn);
   ("data", c_ptr)].

Definition struct_flb_tp_thread := CStruct
  [("id", c_int);
   ("status", c_int);
   ("tid", (CExt "pthread_t"));
   ("params", struct_worker_params);
   ("worker", c_ptr);
   ("_head", struct_mk_list);
   ("config", c_ptr)].

Definition struct_flb_tp := CStruct
  [("list_threads", struct_mk_list);
   ("thread_cur", c_ptr);
   ("config", c_ptr)].

(** ** [flb_time.h] *)

Definition struct_flb_tm := CStruct
  [("tm", struct_tm);
   ("tm_gmtoff", c_long)].

(** ** [flb_typecast.h] *)

Definition struct_flb_typecast_rule := CStruct
  [("from_type", c_enum);
   ("to_type", c_enum)].

Definition struct_flb_typecast_value := CStruct
  [("type", c_enum);
   ("val", (CUnion [("boolean", c_char); ("i_num", c_int64); ("ui_num", c_int64); ("d_num", c_double); ("str", c_ptr)]))].

(** ** [flb_upstream.h] *)

Definition struct_flb_upstream := CStruct
  [("base", struct_flb_stream);
   ("tcp_host", c_ptr);
   ("tcp_port", c_int);
   ("proxied_host", c_ptr);
   ("proxied_port", c_int);
   ("proxy_username", c_ptr);
   ("proxy_password", c_ptr);
   ("ha_mode", c_int);
   ("ha_ctx", c_ptr);
   ("cmt_total_connections", c_ptr);
   ("cmt_busy_connections", c_ptr);
   ("cmt_total_connections_label", c_ptr);
   ("cmt_busy_connections_label", c_ptr);
   ("parent_upstream", c_ptr);
   ("queue", struct_flb_upstream_queue)].

(** ** [flb_upstream_ha.h] *)

Definition struct_flb_upstream_ha := CStruct
  [("name", c_ptr);
   ("last_used_node", c_ptr);
   ("nodes", struct_mk_list)].

(** ** [flb_upstream_node.h] *)

Definition struct_flb_upstream_node := CStruct
  [("name", c_ptr);
   ("host", c_ptr);
   ("port", c_ptr);
   ("tls_enabled", c_int);
   ("tls_verify", c_int);
   ("tls_debug", c_int);
   ("tls_ca_path", c_ptr);
   ("tls_ca_file", c_ptr);
   ("tls_crt_file", c_ptr);
   ("tls_key_file", c_ptr);
   ("tls_key_passwd", c_ptr);
   ("tls", c_ptr);
   ("ht", c_ptr);
   ("u", c_ptr);
   ("data", c_ptr);
   ("_head", struct_mk_list)].

(** ** [flb_uri.h] *)

Definition struct_flb_uri_field := CStruct
  [("length", c_size_t);
   ("value", c_ptr);
   ("_head", struct_mk_list)].

Definition struct_flb_uri := CStruct
  [("full", c_ptr);
   ("count", c_char);
   ("list", struct_mk_list);
   ("map", c_ptr)].

(** ** [flb_utils.h] *)

Definition struct_flb_split_entry := CStruct
  [("value", c_ptr);
   ("len", c_int);
   ("last_pos", c_long);
   ("_head", struct_mk_list)].

(** ** [flb_worker.h] *)

Definition struct_flb_worker := CStruct
  [("event", struct_mk_event);
   ("func", c_fn);
   ("data", c_ptr);
   ("tid", (CExt "pthread_t"));
   ("log_cache", c_ptr);
   ("log", (CArray c_int64 2));
   ("config", c_ptr);
   ("log_ctx", c_ptr);
   ("mutex", (CExt "pthread_mutex_t"));
   ("_head", struct_mk_list)].

(** ** [flb_tls.h] *)

Definition struct_flb_tls_session := CStruct
  [("ptr", c_ptr);
   ("tls", c_ptr);
   ("connection", c_ptr)].

Definition struct_flb_tls_backend := CStruct
  [("name", c_ptr);
   ("context_create", c_fn);
   ("context_destroy", c_fn);
   ("session_create", c_fn);
   ("session_destroy", c_fn);
   ("net_read", c_fn);
   ("net_write", c_fn);
   ("net_handshake", c_fn)].

Definition struct_flb_tls := CStruct
  [("verify", c_int);
   ("debug", c_int);
   ("vhost", c_ptr);
   ("mode", c_int);
   ("ctx", c_ptr);
   ("api", c_ptr)].

(** ** [flb_wasm.h] *)

Definition struct_flb_wasm := CStruct
  [("module", (CExt "wasm_module_t"));
   ("module_inst", (CExt "wasm_module_inst_t"));
   ("func", (CExt "wasm_function_inst_t"));
   ("exec_env", (CExt "wasm_exec_env_t"));
   ("tag_buffer", c_int);
   ("record_buffer", c_int);
   ("buffer", c_ptr);
   ("config", c_ptr);
   ("_head", struct_mk_list)].

(** ** [lauxlib.h] *)

Definition struct_luaL_Reg := CStruct
  [("name", c_ptr);
   ("func", c_fn)].

(** ** [lua.h] *)

Definition struct_lua_Debug := CStruct
  [("event", c_int);
   ("name", c_ptr);
   ("namewhat", c_ptr);
   ("what", c_ptr);
   ("source", c_ptr);
   ("currentline", c_int);
   ("nups", c_int);
   ("linedefined", c_int);
   ("lastlinedefined", c_int);
   ("short_src", (CArray c_char 60));
   ("i_ci", c_int)].

(** ** [mk_event.h] *)

Definition struct_mk_event_loop := CStruct
  [("size", c_int);
   ("n_events", c_int);
   ("events", c_ptr);
   ("data", c_ptr)].

(** ** [mk_event_libevent.h] *)

Definition struct_mk_event_ctx := CStruct
  [("queue_size", c_size_t);
   ("fired_count", c_int);
   ("base", c_ptr);
   ("fired", c_ptr)].

(** ** [mk_file.h] *)

Definition struct_file_info := CStruct
  [("size", c_size_t);
   ("last_modification", c_time_t);
   ("flags_read_only", c_int);
   ("exists", c_char);
   ("is_file", c_char);
   ("is_link", c_char);
   ("is_directory", c_char);
   ("exec_access", c_char);
   ("read_access", c_char)].

(** ** [mk_iov.h] *)

Definition struct_mk_iov := CStruct
  [("iov_idx", c_int);
   ("buf_idx", c_int);
   ("size", c_int);
   ("total_len", c_long);
   ("io", c_ptr);
   ("buf_to_free", c_ptr)].

(** ** [mk_rconf.h] *)

Definition struct_mk_rconf_section := CStruct
  [("name", c_ptr);
   ("entries", struct_mk_list);
   ("_head", struct_mk_list)].

Definition struct_mk_rconf_entry := CStruct
  [("key", c_ptr);
   ("val", c_ptr);
   ("_head", struct_mk_list)].

Definition struct_mk_rconf_file := CStruct
  [("path", c_ptr);
   ("_head", struct_mk_list)].

Definition struct_mk_rconf := CStruct
  [("level", c_int);
   ("created", c_int);
   ("file", c_ptr);
   ("root_path", c_ptr);
   ("includes", struct_mk_list);
   ("metas", struct_mk_list);
   ("sections", struct_mk_list)].

(** ** [mk_string.h] *)

Definition struct_mk_string_line := CStruct
  [("val", c_ptr);
   ("len", c_int);
   ("_head", struct_mk_list)].

(** ** [mk_thread_channel.h] *)

Definition struct_mk_thread_channel := CStruct
  [("size", c_int);
   ("used", c_int);
   ("bufs", struct_mk_list);
   ("sender", c_int);
   ("receiver", c_int);
   ("ended", c_int);
   ("done", c_int);
   ("_head", struct_mk_list)].

(** All of them. *)
Definition declared : list (string * ctype) :=
  [("mk_list", struct_mk_list);
   ("flb_cf_group", struct_flb_cf_group);
   ("flb_cf_section", struct_flb_cf_section);
   ("flb_cf", struct_flb_cf);
   ("flb_api", struct_flb_api);
   ("flb_avro_fields", struct_flb_avro_fields);
   ("flb_aws_credentials", struct_flb_aws_credentials);
   ("flb_aws_provider_vtable", struct_flb_aws_provider_vtable);
   ("flb_aws_provider", struct_flb_aws_provider);
   ("flb_aws_header", struct_flb_aws_header);
   ("flb_aws_client_vtable", struct_flb_aws_client_vtable);
   ("flb_aws_client", struct_flb_aws_client);
   ("flb_aws_client_generator", struct_flb_aws_client_generator);
   ("flb_bucket_queue", struct_flb_bucket_queue);
   ("flb_bswap_value_internal", struct_flb_bswap_value_internal);
   ("flb_callback_entry", struct_flb_callback_entry);
   ("flb_callback", struct_flb_callback);
   ("flb_time", struct_flb_time);
   ("flb_chunk_trace_input_record", struct_flb_chunk_trace_input_record);
   ("flb_chunk_trace_filter_record", struct_flb_chunk_trace_filter_record);
   ("flb_chunk_trace_limit", struct_flb_chunk_trace_limit);
   ("flb_chunk_trace_context", struct_flb_chunk_trace_context);
   ("flb_chunk_trace", struct_flb_chunk_trace);
   ("flb_decompression_context", struct_flb_decompression_context);
   ("mk_event", struct_mk_event);
   ("flb_task_map", struct_flb_task_map);
   ("flb_config", struct_flb_config);
   ("flb_service_config", struct_flb_service_config);
   ("flb_config_map_val", struct_flb_config_map_val);
   ("flb_config_map", struct_flb_config_map);
   ("flb_connection", struct_flb_connection);
   ("flb_coro", struct_flb_coro);
   ("flb_crypto", struct_flb_crypto);
   ("flb_csv_state", struct_flb_csv_state);
   ("flb_custom_plugin", struct_flb_custom_plugin);
   ("flb_custom_instance", struct_flb_custom_instance);
   ("flb_net_setup", struct_flb_net_setup);
   ("flb_stream", struct_flb_stream);
   ("flb_downstream", struct_flb_downstream);
   ("flb_env", struct_flb_env);
   ("flb_event_chunk", struct_flb_event_chunk);
   ("flb_filter_plugin", struct_flb_filter_plugin);
   ("flb_filter_instance", struct_flb_filter_instance);
   ("flb_fstore_file", struct_flb_fstore_file);
   ("flb_fstore_stream", struct_flb_fstore_stream);
   ("flb_fstore", struct_flb_fstore);
   ("flb_hash", struct_flb_hash);
   ("flb_hash_table_entry", struct_flb_hash_table_entry);
   ("flb_hash_table_chain", struct_flb_hash_table_chain);
   ("flb_hash_table", struct_flb_hash_table);
   ("flb_http_response", struct_flb_http_response);
   ("flb_http_proxy", struct_flb_http_proxy);
   ("flb_http_debug", struct_flb_http_debug);
   ("flb_http_client", struct_flb_http_client);
   ("flb_input_plugin", struct_flb_input_plugin);
   ("flb_net_host", struct_flb_net_host);
   ("flb_input_instance", struct_flb_input_instance);
   ("flb_input_collector", struct_flb_input_collector);
   ("flb_input_coro", struct_flb_input_coro);
   ("flb_libco_in_params", struct_flb_libco_in_params);
   ("flb_input_chunk", struct_flb_input_chunk);
   ("flb_input_thread", struct_flb_input_thread);
   ("flb_input_thread_instance", struct_flb_input_thread_instance);
   ("flb_intermediate_metric", struct_flb_intermediate_metric);
   ("flb_kafka", struct_flb_kafka);
   ("mk_ptr_t", struct_mk_ptr_t);
   ("flb_kernel", struct_flb_kernel);
   ("flb_kv", struct_flb_kv);
   ("flb_lib_ctx", struct_flb_lib_ctx);
   ("flb_lib_out_cb", struct_flb_lib_out_cb);
   ("flb_log", struct_flb_log);
   ("flb_log_cache_entry", struct_flb_log_cache_entry);
   ("flb_log_cache", struct_flb_log_cache);
   ("flb_log_event", struct_flb_log_event);
   ("flb_log_event_decoder", struct_flb_log_event_decoder);
   ("flb_log_event_encoder_dynamic_field", struct_flb_log_event_encoder_dynamic_field);
   ("flb_log_event_encoder", struct_flb_log_event_encoder);
   ("flb_mp_map_header", struct_flb_mp_map_header);
   ("flb_log_event_encoder_dynamic_field_scope", struct_flb_log_event_encoder_dynamic_field_scope);
   ("flb_lua_l2c_type", struct_flb_lua_l2c_type);
   ("flb_lua_l2c_config", struct_flb_lua_l2c_config);
   ("flb_luajit", struct_flb_luajit);
   ("flb_metric", struct_flb_metric);
   ("flb_metrics", struct_flb_metrics);
   ("flb_me", struct_flb_me);
   ("flb_mp_accessor_match", struct_flb_mp_accessor_match);
   ("flb_mp_accessor", struct_flb_mp_accessor);
   ("flb_net_dns", struct_flb_net_dns);
   ("flb_dns_lookup_context", struct_flb_dns_lookup_context);
   ("flb_oauth2", struct_flb_oauth2);
   ("flb_test_out_formatter", struct_flb_test_out_formatter);
   ("flb_output_plugin", struct_flb_output_plugin);
   ("flb_output_instance", struct_flb_output_instance);
   ("flb_output_flush", struct_flb_output_flush);
   ("flb_out_flush_params", struct_flb_out_flush_params);
   ("flb_upstream_queue", struct_flb_upstream_queue);
   ("flb_out_thread_upstream", struct_flb_out_thread_upstream);
   ("flb_out_thread_instance", struct_flb_out_thread_instance);
   ("flb_pack_state", struct_flb_pack_state);
   ("flb_gelf_fields", struct_flb_gelf_fields);
   ("flb_parser_types", struct_flb_parser_types);
   ("flb_parser", struct_flb_parser);
   ("flb_parser_dec_rule", struct_flb_parser_dec_rule);
   ("flb_parser_dec", struct_flb_parser_dec);
   ("flb_plugin", struct_flb_plugin);
   ("flb_plugins", struct_flb_plugins);
   ("flb_plugin_proxy_def", struct_flb_plugin_proxy_def);
   ("flb_plugin_proxy", struct_flb_plugin_proxy);
   ("flb_plugin_proxy_context", struct_flb_plugin_proxy_context);
   ("flb_plugin_input_proxy_context", struct_flb_plugin_input_proxy_context);
   ("flb_processor_unit", struct_flb_processor_unit);
   ("flb_processor", struct_flb_processor);
   ("flb_processor_plugin", struct_flb_processor_plugin);
   ("flb_processor_instance", struct_flb_processor_instance);
   ("ra_val", struct_ra_val);
   ("flb_ra_value", struct_flb_ra_value);
   ("flb_record_accessor", struct_flb_record_accessor);
   ("flb_regex", struct_flb_regex);
   ("flb_regex_search", struct_flb_regex_search);
   ("flb_ring_buffer", struct_flb_ring_buffer);
   ("flb_router_path", struct_flb_router_path);
   ("flb_local_chunk", struct_flb_local_chunk);
   ("flb_local_buffer", struct_flb_local_buffer);
   ("flb_sched_timer", struct_flb_sched_timer);
   ("flb_sched_request", struct_flb_sched_request);
   ("flb_sched", struct_flb_sched);
   ("flb_sds", struct_flb_sds);
   ("flb_sds_list_entry", struct_flb_sds_list_entry);
   ("flb_sds_list", struct_flb_sds_list);
   ("flb_slist_entry", struct_flb_slist_entry);
   ("flb_snappy_data_chunk", struct_flb_snappy_data_chunk);
   ("flb_sqldb", struct_flb_sqldb);
   ("flb_stacktrace", struct_flb_stacktrace);
   ("flb_storage_metrics", struct_flb_storage_metrics);
   ("flb_storage_input", struct_flb_storage_input);
   ("flb_task_route", struct_flb_task_route);
   ("flb_task_retry", struct_flb_task_retry);
   ("flb_task", struct_flb_task);
   ("flb_task_queue", struct_flb_task_queue);
   ("flb_task_enqueued", struct_flb_task_enqueued);
   ("worker_params", struct_worker_params);
   ("flb_tp_thread", struct_flb_tp_thread);
   ("flb_tp", struct_flb_tp);
   ("flb_tm", struct_flb_tm);
   ("flb_typecast_rule", struct_flb_typecast_rule);
   ("flb_typecast_value", struct_flb_typecast_value);
   ("flb_upstream", struct_flb_upstream);
   ("flb_upstream_ha", struct_flb_upstream_ha);
   ("flb_upstream_node", struct_flb_upstream_node);
   ("flb_uri_field", struct_flb_uri_field);
   ("flb_uri", struct_flb_uri);
   ("flb_split_entry", struct_flb_split_entry);
   ("flb_worker", struct_flb_worker);
   ("flb_tls_session", struct_flb_tls_session);
   ("flb_tls_backend", struct_flb_tls_backend);
   ("flb_tls", struct_flb_tls);
   ("flb_wasm", struct_flb_wasm);
   ("luaL_Reg", struct_luaL_Reg);
   ("lua_Debug", struct_lua_Debug);
   ("mk_event_loop", struct_mk_event_loop);
   ("mk_event_ctx", struct_mk_event_ctx);
   ("file_info", struct_file_info);
   ("mk_iov", struct_mk_iov);
   ("mk_rconf_section", struct_mk_rconf_section);
   ("mk_rconf_entry", struct_mk_rconf_entry);
   ("mk_rconf_file", struct_mk_rconf_file);
   ("mk_rconf", struct_mk_rconf);
   ("mk_string_line", struct_mk_string_line);
   ("mk_thread_channel", struct_mk_thread_channel)].
