(* ===== verification/LayoutSpec.v ===== *)
(** The declared structures are sound: their fields are aligned, disjoint and
    inside the object; writing a field changes only that field; the list nodes
    embedded in live objects never coincide. *)
From stdpp Require Import strings.
From S2P Require Import Prelude MkList Mem MkEvent BucketQueue Task Bytes Layout Layouts.

(** Sizes that satisfy [ExternsOk]: every library type is taken to hold two
    machine words. *)
Definition two_words : Externs := {| ext_size _ := 16; ext_align _ := 8 |}.

Lemma two_words_ok : ExternsOk two_words.
Proof. split; intros; simpl; [lia|by exists 3|by exists 2]. Qed.

Lemma declared_elem n t : assoc n declared = Some t → (n, t) ∈ declared.
Proof. intros [i Hi]%assoc_lookup. by eapply list_elem_of_lookup_2. Qed.

Lemma declared_ok n t : (n, t) ∈ declared → ctype_ok t = true.
Proof.
  assert (H : forallb (λ d, ctype_ok d.2) declared = true) by (vm_compute; reflexivity).
  rewrite forallb_forall in H. intros Hin%list_elem_of_In. by apply (H (n, t)).
Qed.

(** * Bytes of a block *)

Lemma splice_same {A} off (bs b : list A) :
  (off + length bs ≤ length b)%nat → take (length bs) (drop off (splice off bs b)) = bs.
Proof.
  intros. unfold splice. rewrite drop_app_length' by (rewrite length_take; lia).
  by rewrite take_app_length.
Qed.

Lemma splice_other {A} off (bs b : list A) o n :
  (off + length bs ≤ length b)%nat → (o + n ≤ off ∨ off + length bs ≤ o)%nat →
  take n (drop o (splice off bs b)) = take n (drop o b).
Proof.
  intros Hl [Ho|Ho].
  - unfold splice. rewrite <- (take_drop off b) at 3.
    rewrite !drop_app, !take_app, !length_drop, !length_take.
    replace (n - (off `min` length b - o))%nat with 0%nat by lia. by rewrite !take_0.
  - unfold splice. rewrite app_assoc, drop_app_ge by (rewrite length_app, length_take; lia).
    rewrite length_app, length_take, drop_drop. do 2 f_equal. lia.
Qed.

Lemma mem_store_load p off bs m m' b :
  mm_blocks m !! p = Some b → 0 ≤ off → off + Z.of_nat (length bs) ≤ Z.of_nat (length b) →
  mem_store p off bs m = Some m' →
  mem_load p off (Z.of_nat (length bs)) m' = Some bs ∧
  ∀ q o n, (p ≠ q ∨ (0 ≤ o ∧ 0 ≤ n ∧ (o + n ≤ off ∨ off + Z.of_nat (length bs) ≤ o))) →
    mem_load q o n m' = mem_load q o n m.
Proof.
  intros Hp Ho Hl. unfold mem_store.
  rewrite (mem_write_ok _ _ _ _ _ Hp) by (rewrite ?length_fmap; lia). intros [= <-]. split.
  - eapply mem_load_values; simpl; [apply lookup_insert_eq|lia|lia| |].
    + rewrite splice_length by (rewrite length_fmap; lia). lia.
    + rewrite Nat2Z.id. pose proof (splice_same (Z.to_nat off) (Some <$> bs) b) as H.
      rewrite length_fmap in H. apply H. lia.
  - intros q o n H. unfold mem_load, mem_slice. simpl.
    destruct (decide (p = q)) as [<-|]; [|by rewrite lookup_insert_ne].
    destruct H as [|(? & ? & H)]; [done|]. rewrite lookup_insert_eq, Hp. simpl.
    rewrite splice_length by (rewrite length_fmap; lia). case_decide; [|done].
    simpl. rewrite splice_other; [done|rewrite length_fmap; lia..].
Qed.

(** * Theorems *)

(** Every declared structure is laid out soundly, whatever the sizes of
    the third-party types: a field lies inside the object, starts at a multiple
    of its alignment (in a structure that is not packed), and shares no byte
    with another field; an array of the structure keeps its alignment. *)
Theorem declared_layout_sound `{EO : ExternsOk} n t f o ft :
  (n, t) ∈ declared → is_struct t = true → field t f = Some (o, ft) →
  (0 ≤ o ∧ o + sizeof ft ≤ sizeof t) ∧ (alignof t | sizeof t) ∧
  (∀ fs, t = CStruct fs → (alignof ft | o) ∧ (alignof ft | alignof t)) ∧
  ∀ g o' gt, field t g = Some (o', gt) → f ≠ g →
    o + sizeof ft ≤ o' ∨ o' + sizeof gt ≤ o.
Proof.
  intros Hin%declared_ok Hst Hf.
  destruct (field_bounds t f o ft Hst Hin Hf) as (? & ? & ? & ? & ?).
  split_and!; try done. intros g o' gt. by apply field_disjoint.
Qed.

(** Storing the bytes of a field of a declared structure into an object
    of its size succeeds; loading the field then gives those bytes, and every
    other field reads as before. *)
Theorem declared_field_store_load `{EO : ExternsOk} n t f o ft p b bs m :
  (n, t) ∈ declared → is_struct t = true → field t f = Some (o, ft) →
  mm_blocks m !! p = Some b → Z.of_nat (length b) = sizeof t →
  Z.of_nat (length bs) = sizeof ft →
  ∃ m', field_store t p f bs m = Some m' ∧ field_load t p f m' = Some bs ∧
    ∀ g, g ≠ f → field_load t p g m' = field_load t p g m.
Proof.
  intros Hin%declared_ok Hst Hf Hp Hb Hbs.
  destruct (field_bounds t f o ft Hst Hin Hf) as (? & ? & ? & _).
  assert (∃ m', mem_store p o bs m = Some m') as [m' Hm'].
  { eexists. unfold mem_store. apply (mem_write_ok _ _ _ _ _ Hp); rewrite ?length_fmap; lia. }
  destruct (mem_store_load p o bs m m' b) as [Hld Hot]; [done|lia..|done|].
  exists m'. unfold field_store, field_load. rewrite Hf. simpl.
  rewrite decide_True, <- Hbs by done. split_and!; [done..|].
  intros g Hg. destruct (field t g) as [[o' gt]|] eqn:Eg; [|done]. simpl. apply Hot. right.
  destruct (field_bounds t g o' gt Hst Hin Eg) as (? & ? & _).
  destruct (field_disjoint t f g o ft o' gt Hst Hin Hf Eg); [done|..]; lia.
Qed.

(** The list nodes embedded in declared structures are sixteen bytes
    that belong to one field of one live object: nodes of two objects, or two
    nodes of one object, never overlap.  Lists through different nodes are
    therefore independent, as the list theorems assume. *)
Theorem embedded_nodes_disjoint `{EO : ExternsOk} m n t f o p b n' t' f' o' p' b' :
  mem_wf m → (n, t) ∈ declared → (n', t') ∈ declared →
  is_struct t = true → is_struct t' = true →
  field t f = Some (o, struct_mk_list) → field t' f' = Some (o', struct_mk_list) →
  mm_blocks m !! p = Some b → Z.of_nat (length b) = sizeof t →
  mm_blocks m !! p' = Some b' → Z.of_nat (length b') = sizeof t' →
  p ≠ p' ∨ t = t' ∧ f ≠ f' →
  p + o + 16 ≤ p' + o' ∨ p' + o' + 16 ≤ p + o.
Proof.
  intros [_ Hd] Hin%declared_ok Hin'%declared_ok Hst Hst' Hf Hf' Hp Hb Hp' Hb' Hne.
  assert (Hsz : sizeof struct_mk_list = 16) by done.
  destruct (field_bounds t f _ _ Hst Hin Hf) as (? & _ & ? & _).
  destruct (field_bounds t' f' _ _ Hst' Hin' Hf') as (? & _ & ? & _).
  destruct (decide (p = p')) as [->|Hpp].
  - destruct Hne as [|[-> Hff]]; [done|].
    destruct (field_disjoint t' f f' o _ o' _ Hst Hin Hf Hf' Hff); lia.
  - destruct (Hd p p' b b' Hpp Hp Hp'); lia.
Qed.

(** * Witnesses *)

Lemma declared_layout_sound_witness :
  (("mk_event", struct_mk_event) ∈ declared ∧
   is_struct struct_mk_event = true ∧
   @field two_words struct_mk_event "_priority_head" = Some (48, struct_mk_list)) ∧
  (0 ≤ 48 ∧ 48 + @sizeof two_words struct_mk_list ≤ @sizeof two_words struct_mk_event).
Proof.
  assert (Hin : ("mk_event", struct_mk_event) ∈ declared).
  { apply declared_elem. reflexivity. }
  split; [split_and!; [exact Hin|reflexivity..]|].
  exact (proj1 (@declared_layout_sound _ two_words_ok "mk_event" struct_mk_event "_priority_head"
    48 struct_mk_list Hin eq_refl eq_refl)).
Defined.

(** Two events, in the blocks at 16 and 112. *)
Definition two_events : mem :=
  Mem {[ 16 := replicate 72 (Some 0); 112 := replicate 72 (Some 0) ]} 200 [].

Lemma two_events_lookup p b :
  mm_blocks two_events !! p = Some b → (p = 16 ∨ p = 112) ∧ length b = 72%nat.
Proof.
  unfold two_events, mm_blocks. rewrite lookup_insert_Some, lookup_singleton_Some.
  intros [[<- <-]|[_ [<- <-]]]; auto.
Qed.

Lemma two_events_wf : mem_wf two_events.
Proof.
  split; [split; [simpl; lia|]|].
  - intros p b [? ->]%two_events_lookup. simpl. lia.
  - intros p q b c Hpq [? ->]%two_events_lookup [? ->]%two_events_lookup. lia.
Qed.

Lemma declared_field_store_load_witness :
  ∃ m', @field_store two_words struct_mk_event 16 "fd" [1; 2; 3; 4] two_events = Some m' ∧
    @field_load two_words struct_mk_event 16 "fd" m' = Some [1; 2; 3; 4] ∧
    ∀ g, g ≠ "fd" → @field_load two_words struct_mk_event 16 g m' =
                    @field_load two_words struct_mk_event 16 g two_events.
Proof.
  apply (@declared_field_store_load _ two_words_ok "mk_event" struct_mk_event "fd" 0 c_int 16
    (replicate 72 (Some 0)) [1; 2; 3; 4] two_events); [|reflexivity..].
  apply declared_elem. reflexivity.
Defined.

Lemma embedded_nodes_disjoint_witness : 16 + 48 + 16 ≤ 112 + 32 ∨ 112 + 32 + 16 ≤ 16 + 48.
Proof.
  assert (Hin : ("mk_event", struct_mk_event) ∈ declared) by (apply declared_elem; reflexivity).
  apply (@embedded_nodes_disjoint _ two_words_ok two_events
    "mk_event" struct_mk_event "_priority_head" 48 16 (replicate 72 (Some 0))
    "mk_event" struct_mk_event "_head" 32 112 (replicate 72 (Some 0)));
    [exact two_events_wf|exact Hin|exact Hin|reflexivity..|left; discriminate].
Defined.
