(* ===== verification/Fields.v ===== *)
(** Accessors of the headers that read or write one field of a structure, over
    the declared layouts of [Layouts]: [flb_env.h], [flb_upstream_node.h],
    [flb_http_client_debug.h], [flb_cf.h], [flb_config.h], [flb_network.h],
    [flb_coro.h], and the option setters of [flb_custom.h], [flb_filter.h] and
    [flb_processor.h]. *)
From stdpp Require Import strings.
From S2P Require Import Prelude MkList Mem Bytes Layout Layouts LayoutSpec.
Local Open Scope Z_scope.

Section fields.
Context `{Externs}.

(** * Fields *)

(** [p->f = v] for a scalar field, and [p->f] as an unsigned number. *)
Definition put_field (t : ctype) (f : string) (p : ptr) (v : Z) (m : mem) : option mem :=
  '(_, ft) ← field t f;
  field_store t p f (le_bytes (Z.to_nat (sizeof ft)) v) m.

Definition get_field (t : ctype) (f : string) (p : ptr) (m : mem) : option Z :=
  le_value <$> field_load t p f m.

(** [&p->f] *)
Definition addr_of (t : ctype) (f : string) (p : ptr) : option ptr :=
  (λ o, p + o) <$> offsetof t f.

(** * Accessors *)

Definition flb_env_warn_unused (env : ptr) (warn : Z) : mem → option mem :=
  put_field struct_flb_env "warn_unused" env warn.

Definition flb_upstream_node_set_data (data node : ptr) : mem → option mem :=
  put_field struct_flb_upstream_node "data" node data.

Definition flb_upstream_node_get_data (node : ptr) : mem → option ptr :=
  get_field struct_flb_upstream_node "data" node.

Definition flb_http_client_debug_enable (c cb_ctx : ptr) : mem → option mem :=
  put_field struct_flb_http_client "cb_ctx" c cb_ctx.

Definition flb_cf_error_set (cf err : ptr) : mem → option mem :=
  put_field struct_flb_cf "error_str" cf err.

Definition flb_cf_error_get (cf : ptr) : mem → option ptr :=
  get_field struct_flb_cf "error_str" cf.

(** [empty] is the address of the literal. *)
Definition flb_cr_error_reset (empty cf : ptr) : mem → option mem :=
  put_field struct_flb_cf "error_str" cf empty.

Definition FLB_CONFIG_LOG_LEVEL (c : ptr) (m : mem) : option Z :=
  log ← get_field struct_flb_config "log" c m;
  get_field struct_flb_log "level" log m.

(** The offset is a [size_t]: its opposite wraps around. *)
Definition FLB_DNS_LOOKUP_CONTEXT_FOR_EVENT (event : ptr) : option ptr :=
  off ← offsetof struct_flb_dns_lookup_context "response_event";
  Some (size_t (event + size_t (- off))).

Definition FLB_CORO_DATA (coro : ptr) : ptr := coro + sizeof struct_flb_coro.

(** What plugins written for version 1.8 expect: data, bytes, tag_len, tag. *)
Definition FLB_OUTPUT_FLUSH_COMPAT_OLD_18 (event_chunk : ptr) (m : mem) : option (ptr * Z * Z * ptr) :=
  data ← get_field struct_flb_event_chunk "data" event_chunk m;
  bytes ← get_field struct_flb_event_chunk "size" event_chunk m;
  tag ← get_field struct_flb_event_chunk "tag" event_chunk m;
  len ← flb_sds_len (tag - FLB_SDS_HEADER_SIZE, FLB_SDS_HEADER_SIZE) m;
  Some (data, bytes, s32 len, tag).

(** * Setting the options of an instance; [flb_config_map_set] is in the library. *)

Section config_map.
Context (flb_config_map_set : ptr → ptr → ptr → mem → option (Z * mem)).

Definition flb_custom_config_map_set (ins context : ptr) (m : mem) : option (Z * mem) :=
  properties ← addr_of struct_flb_custom_instance "properties" ins;
  config_map ← get_field struct_flb_custom_instance "config_map" ins m;
  flb_config_map_set properties config_map context m.

Definition flb_filter_config_map_set (ins context : ptr) (m : mem) : option (Z * mem) :=
  properties ← addr_of struct_flb_filter_instance "properties" ins;
  config_map ← get_field struct_flb_filter_instance "config_map" ins m;
  flb_config_map_set properties config_map context m.

Definition flb_processor_instance_config_map_set (ins context : ptr) (m : mem) : option (Z * mem) :=
  properties ← addr_of struct_flb_processor_instance "properties" ins;
  config_map ← get_field struct_flb_processor_instance "config_map" ins m;
  flb_config_map_set properties config_map context m.
End config_map.

(** * Theorems *)

(** A declared object is at [p]. *)
Definition object_at (n : string) (t : ctype) (p : ptr) (m : mem) : Prop :=
  (n, t) ∈ declared ∧ is_struct t = true ∧ ∃ b, mm_blocks m !! p = Some b ∧ Z.of_nat (length b) = sizeof t.

(** Writing to a field moves and resizes no object. *)
Lemma put_field_objects t f p v m m' : put_field t f p v m = Some m' →
  ∀ n' t' q, object_at n' t' q m → object_at n' t' q m'.
Proof.
  unfold put_field, field_store. destruct (field t f) as [[o ft]|]; simpl; [|done]. case_decide; [|done].
  unfold mem_store, mem_write. destruct (mm_blocks m !! p) as [b|] eqn:Hb; simpl; [|done]. case_decide as Hin; [|done].
  intros [= <-] n' t' q (? & ? & c & Hc & Hl). split; [done|]. split; [done|]. simpl.
  destruct (decide (p = q)) as [<-|Hne]; [|exists c; by rewrite lookup_insert_ne].
  eexists. rewrite lookup_insert_eq. split; [done|]. rewrite splice_length by lia. congruence.
Qed.

(** What is written to a field is what is read, and the other fields keep
    their bytes. *)
Lemma put_get_field {EO : ExternsOk _} n t f o ft p v m :
  object_at n t p m → field t f = Some (o, ft) → 0 ≤ v < 256 ^ sizeof ft → 0 ≤ sizeof ft →
  ∃ m', put_field t f p v m = Some m' ∧ get_field t f p m' = Some v ∧ object_at n t p m' ∧
    ∀ g, g ≠ f → field_load t p g m' = field_load t p g m.
Proof.
  intros Ho Hf Hv Hs. pose proof Ho as (Hin & Hst & b & Hb & Hl).
  destruct (declared_field_store_load n t f o ft p b (le_bytes (Z.to_nat (sizeof ft)) v) m Hin Hst Hf Hb Hl) as (m' & E & El & Hot);
    [rewrite le_bytes_length; lia|].
  assert (Ep : put_field t f p v m = Some m') by (unfold put_field; by rewrite Hf).
  exists m'. split; [exact Ep|]. split; [|split; [by apply (put_field_objects _ _ _ _ _ _ Ep)|exact Hot]].
  unfold get_field. rewrite El. simpl. f_equal. rewrite le_value_bytes, Z2Nat.id by lia. by apply Z.mod_small.
Qed.

(** The data of a node of an upstream is what was set last; nothing else of the
    node changes. *)
Theorem flb_upstream_node_data_roundtrip {EO : ExternsOk _} node data m :
  object_at "flb_upstream_node" struct_flb_upstream_node node m → 0 ≤ data < 2 ^ 64 →
  ∃ m', flb_upstream_node_set_data data node m = Some m' ∧ flb_upstream_node_get_data node m' = Some data ∧
    ∀ g, g ≠ "data"%string → field_load struct_flb_upstream_node node g m' = field_load struct_flb_upstream_node node g m.
Proof.
  intros Ho Hd. destruct (put_get_field "flb_upstream_node" struct_flb_upstream_node "data" _ c_ptr node data m Ho eq_refl Hd ltac:(done))
    as (m' & ? & ? & _ & ?). by exists m'.
Qed.

(** The error of a configuration is the one set last, and the empty string
    once it has been reset. *)
Theorem flb_cf_error_roundtrip {EO : ExternsOk _} cf err empty m :
  object_at "flb_cf" struct_flb_cf cf m → 0 ≤ err < 2 ^ 64 → 0 ≤ empty < 2 ^ 64 →
  ∃ m1 m2, flb_cf_error_set cf err m = Some m1 ∧ flb_cf_error_get cf m1 = Some err ∧
    flb_cr_error_reset empty cf m1 = Some m2 ∧ flb_cf_error_get cf m2 = Some empty.
Proof.
  intros Ho He He'.
  destruct (put_get_field "flb_cf" struct_flb_cf "error_str" _ c_ptr cf err m Ho eq_refl He ltac:(done)) as (m1 & E1 & G1 & Ho1 & _).
  destruct (put_get_field "flb_cf" struct_flb_cf "error_str" _ c_ptr cf empty m1 Ho1 eq_refl He' ltac:(done)) as (m2 & E2 & G2 & _).
  by exists m1, m2.
Qed.

(** The context of a look-up is found from the event embedded in it. *)
Theorem FLB_DNS_LOOKUP_CONTEXT_FOR_EVENT_spec p event :
  addr_of struct_flb_dns_lookup_context "response_event" p = Some event → 0 ≤ p < 2 ^ 64 →
  FLB_DNS_LOOKUP_CONTEXT_FOR_EVENT event = Some p.
Proof.
  unfold addr_of, FLB_DNS_LOOKUP_CONTEXT_FOR_EVENT. destruct (offsetof _ _) as [off|]; simpl; [|done].
  intros [= <-] Hp. unfold wrap. rewrite Z.add_mod_idemp_r by done. f_equal.
  replace (p + off + - off) with p by lia. by apply Z.mod_small.
Qed.

(** The setters hand over the options of the instance, the map that was put
    there and the context. *)
Theorem config_map_set_spec {EO : ExternsOk _} set ins map context m :
  0 ≤ map < 2 ^ 64 →
  (object_at "flb_custom_instance" struct_flb_custom_instance ins m → ∃ m' p,
     put_field struct_flb_custom_instance "config_map" ins map m = Some m' ∧
     addr_of struct_flb_custom_instance "properties" ins = Some p ∧
     flb_custom_config_map_set set ins context m' = set p map context m') ∧
  (object_at "flb_filter_instance" struct_flb_filter_instance ins m → ∃ m' p,
     put_field struct_flb_filter_instance "config_map" ins map m = Some m' ∧
     addr_of struct_flb_filter_instance "properties" ins = Some p ∧
     flb_filter_config_map_set set ins context m' = set p map context m') ∧
  (object_at "flb_processor_instance" struct_flb_processor_instance ins m → ∃ m' p,
     put_field struct_flb_processor_instance "config_map" ins map m = Some m' ∧
     addr_of struct_flb_processor_instance "properties" ins = Some p ∧
     flb_processor_instance_config_map_set set ins context m' = set p map context m').
Proof.
  intros Hm. split_and!; intros Ho.
  - destruct (put_get_field _ struct_flb_custom_instance "config_map" _ c_ptr ins map m Ho eq_refl Hm ltac:(done)) as (m' & E & G & _).
    exists m'. eexists. split; [exact E|]. split; [reflexivity|]. unfold flb_custom_config_map_set. rewrite G. reflexivity.
  - destruct (put_get_field _ struct_flb_filter_instance "config_map" _ c_ptr ins map m Ho eq_refl Hm ltac:(done)) as (m' & E & G & _).
    exists m'. eexists. split; [exact E|]. split; [reflexivity|]. unfold flb_filter_config_map_set. rewrite G. reflexivity.
  - destruct (put_get_field _ struct_flb_processor_instance "config_map" _ c_ptr ins map m Ho eq_refl Hm ltac:(done)) as (m' & E & G & _).
    exists m'. eexists. split; [exact E|]. split; [reflexivity|]. unfold flb_processor_instance_config_map_set. rewrite G. reflexivity.
Qed.
End fields.

(** ** The round trip at work on a node of an upstream *)

Definition demo_node : mem := Mem {[ 64 := replicate 128 (Some 0) ]} 256 [].

Lemma flb_upstream_node_data_roundtrip_witness :
  ∃ m', @flb_upstream_node_set_data two_words 5000 64 demo_node = Some m' ∧
    @flb_upstream_node_get_data two_words 64 m' = Some 5000.
Proof.
  destruct (@flb_upstream_node_data_roundtrip two_words two_words_ok 64 5000 demo_node) as (m' & E & G & _).
  - split; [apply declared_elem; reflexivity|]. split; [reflexivity|]. eexists. split; [apply lookup_insert_eq|reflexivity].
  - lia.
  - by exists m'.
Defined.
