(* ===== verification/Plugins.v ===== *)
(** [flb_plugins.h]: the registration of the static plugins and its undoing.

    Registration copies each plugin structure, an object of another
    compilation unit, into a block of its own and links the copy into the list
    of its kind in the configuration; it gives up at the first allocation that
    fails.  Unregistration walks the five lists, calls the destroy callback of
    input and output plugins, unlinks and releases every entry. *)
From stdpp Require Import strings.
From S2P Require Import Prelude MkList Mem Bytes Layout Layouts LayoutSpec.

(** * Kinds of plugins *)

Inductive pgroup := G_custom | G_input | G_output | G_filter | G_processor.

#[export] Instance pgroup_eq_dec : EqDecision pgroup.
Proof. solve_decision. Defined.

Definition all_groups : list pgroup := [G_custom; G_input; G_output; G_filter; G_processor].

Lemma elem_of_all_groups g : g ∈ all_groups.
Proof. unfold all_groups. destruct g; rewrite !elem_of_cons; tauto. Qed.

Definition plugin_type (g : pgroup) : ctype :=
  match g with
  | G_custom => struct_flb_custom_plugin
  | G_input => struct_flb_input_plugin
  | G_output => struct_flb_output_plugin
  | G_filter => struct_flb_filter_plugin
  | G_processor => struct_flb_processor_plugin
  end.

(** The list of the configuration that receives the plugins of a kind. *)
Definition plugin_list (g : pgroup) : string :=
  match g with
  | G_custom => "custom_plugins"
  | G_input => "in_plugins"
  | G_output => "out_plugins"
  | G_filter => "filter_plugins"
  | G_processor => "processor_plugins"
  end.

(** The plugins, in the order the code registers them. *)

Definition custom_plugins : list string :=
  ["custom_calyptia_plugin"].

Definition input_plugins_1 : list string :=
  ["in_kubernetes_events_plugin";
   "in_fluentbit_metrics_plugin";
   "in_prometheus_scrape_plugin";
   "in_emitter_plugin";
   "in_tail_plugin";
   "in_dummy_plugin";
   "in_http_plugin";
   "in_statsd_plugin";
   "in_opentelemetry_plugin";
   "in_elasticsearch_plugin";
   "in_splunk_plugin";
   "in_event_test_plugin";
   "in_event_type_plugin"].

Definition input_plugins_2 : list string :=
  ["in_storage_backlog_plugin";
   "in_nginx_exporter_metrics_plugin";
   "in_stream_processor_plugin";
   "in_winlog_plugin";
   "in_winstat_plugin";
   "in_winevtlog_plugin";
   "in_windows_exporter_metrics_plugin";
   "in_syslog_plugin";
   "in_udp_plugin";
   "in_tcp_plugin";
   "in_lib_plugin";
   "in_forward_plugin";
   "in_random_plugin"].

Definition output_plugins_1 : list string :=
  ["out_azure_plugin";
   "out_azure_blob_plugin";
   "out_azure_logs_ingestion_plugin";
   "out_azure_kusto_plugin";
   "out_calyptia_plugin";
   "out_counter_plugin";
   "out_datadog_plugin";
   "out_es_plugin";
   "out_file_plugin";
   "out_forward_plugin";
   "out_http_plugin";
   "out_influxdb_plugin";
   "out_logdna_plugin"].

Definition output_plugins_2 : list string :=
  ["out_loki_plugin";
   "out_nrlogs_plugin";
   "out_null_plugin";
   "out_opensearch_plugin";
   "out_skywalking_plugin";
   "out_slack_plugin";
   "out_splunk_plugin";
   "out_stackdriver_plugin";
   "out_stdout_plugin";
   "out_syslog_plugin";
   "out_tcp_plugin";
   "out_udp_plugin";
   "out_lib_plugin"].

Definition output_plugins_3 : list string :=
  ["out_flowcounter_plugin";
   "out_gelf_plugin";
   "out_websocket_plugin";
   "out_cloudwatch_logs_plugin";
   "out_kinesis_firehose_plugin";
   "out_kinesis_streams_plugin";
   "out_opentelemetry_plugin";
   "out_prometheus_exporter_plugin";
   "out_prometheus_remote_write_plugin";
   "out_s3_plugin";
   "out_vivo_exporter_plugin";
   "out_chronicle_plugin"].

Definition filter_plugins_1 : list string :=
  ["filter_alter_size_plugin";
   "filter_aws_plugin";
   "filter_checklist_plugin";
   "filter_ecs_plugin";
   "filter_record_modifier_plugin";
   "filter_throttle_plugin";
   "filter_throttle_size_plugin";
   "filter_type_converter_plugin";
   "filter_kubernetes_plugin";
   "filter_modify_plugin";
   "filter_multiline_plugin"].

Definition filter_plugins_2 : list string :=
  ["filter_nest_plugin";
   "filter_parser_plugin";
   "filter_expect_plugin";
   "filter_grep_plugin";
   "filter_rewrite_tag_plugin";
   "filter_log_to_metrics_plugin";
   "filter_lua_plugin";
   "filter_stdout_plugin";
   "filter_geoip2_plugin";
   "filter_nightfall_plugin"].

Definition processor_plugins : list string :=
  ["processor_labels_plugin";
   "processor_attributes_plugin"].

Section plugins.
Context `{Externs}.
(** Where the objects of the plugins are. *)
Context (plugin_object : string → ptr).
(** Call of a [cb_destroy] callback, by its address, on a plugin. *)
Context (call_cb_destroy : ptr → ptr → machine → option machine).
Context (config : ptr).

Definition list_head (g : pgroup) : ptr :=
  config + default 0 (offsetof struct_flb_config (plugin_list g)).
Definition head_off (g : pgroup) : Z := default 0 (offsetof (plugin_type g) "_head").

(** * Registration *)

(** One block of [flb_plugins_register]: allocate, copy, link.  Zero to go on,
    -1 to return. *)
Definition register_plugin (g : pgroup) (name : string) (s : machine)
  : option (Z * machine) :=
  let '(p, m) := flb_malloc (sizeof (plugin_type g)) (mc_mem s) in
  if decide (p = NULL) then Some (-1, Machine (mc_list s) m)
  else
    m ← memcpy p 0 (plugin_object name) 0 (sizeof (plugin_type g)) m;
    h ← mk_list_add (p + head_off g) (list_head g) (mc_list s);
    Some (0, Machine h m).

Fixpoint register_plugins (g : pgroup) (names : list string) (s : machine)
  : option (Z * machine) :=
  match names with
  | [] => Some (0, s)
  | name :: names =>
      '(ret, s) ← register_plugin g name s;
      if decide (ret = 0) then register_plugins g names s else Some (ret, s)
  end.

(** All the blocks of [flb_plugins_register], in order. *)
Definition register_sequence : list (pgroup * list string) :=
  [(G_custom, custom_plugins);
   (G_input, input_plugins_1);
   (G_input, input_plugins_2);
   (G_output, output_plugins_1);
   (G_output, output_plugins_2);
   (G_output, output_plugins_3);
   (G_filter, filter_plugins_1);
   (G_filter, filter_plugins_2);
   (G_processor, processor_plugins)].

Fixpoint register_groups (l : list (pgroup * list string)) (s : machine)
  : option (Z * machine) :=
  match l with
  | [] => Some (0, s)
  | (g, names) :: l =>
      '(ret, s) ← register_plugins g names s;
      if decide (ret = 0) then register_groups l s else Some (ret, s)
  end.

Definition flb_plugins_register : machine → option (Z * machine) :=
  register_groups register_sequence.

(** * Unregistration *)

(** [if (plugin->cb_destroy) plugin->cb_destroy(plugin);] *)
Definition destroy_callback (g : pgroup) (p : ptr) (s : machine) : option machine :=
  cb ← field_load (plugin_type g) p "cb_destroy" (mc_mem s);
  if decide (le_value cb = NULL) then Some s else call_cb_destroy (le_value cb) p s.

Definition unlink_and_free (head p : ptr) (s : machine) : option machine :=
  h ← mk_list_del head (mc_list s);
  mc_free p (Machine h (mc_mem s)).

(** The loop over one list. *)
Definition unregister_group (g : pgroup) (s : machine) : option machine :=
  mk_list_foreach_safe mc_list (list_head g)
    (λ head s,
       let p := mk_list_entry head (head_off g) in
       s ← (match g with
            | G_input | G_output => destroy_callback g p s
            | _ => Some s
            end);
       unlink_and_free head p s) s.

Definition flb_plugins_unregister (s : machine) : option machine :=
  s ← unregister_group G_custom s;
  s ← unregister_group G_input s;
  s ← unregister_group G_output s;
  s ← unregister_group G_filter s;
  unregister_group G_processor s.
End plugins.

(** * The registry *)

(** Allocating a block and copying an initialised object of its size into it. *)
Lemma clone_ok m src bs n p m1 :
  mem_wf m → mm_blocks m !! src = Some (Some <$> bs) → Z.of_nat (length bs) = n → n ≠ 0 →
  flb_malloc n m = (p, m1) →
  mm_brk m ≤ mm_brk m1 ∧
  (mm_oracle m = [] → p ≠ NULL ∧ mm_oracle m1 = []) ∧
  ((p = NULL ∧ mem_wf m1 ∧ mm_blocks m1 = mm_blocks m) ∨
   (p ≠ NULL ∧ p = mm_brk m ∧ mm_blocks m !! p = None ∧
    ∃ m2, memcpy p 0 src 0 n m1 = Some m2 ∧ mem_wf m2 ∧
      mm_blocks m2 = <[p := Some <$> bs]> (mm_blocks m) ∧
      mm_brk m2 = mm_brk m1 ∧ mm_oracle m2 = mm_oracle m1)).
Proof.
  intros Hwf Hsrc Hlen Hn Ea.
  destruct (flb_malloc_cases _ _ _ _ Hwf Ea) as (Hwf1 & Hb1 & Hcase). split; [done|]. split.
  { intros Ho. unfold flb_malloc, malloc, alloc, oracle_next in Ea. rewrite decide_False, Ho in Ea by done.
    injection Ea as <- <-. split; [|done]. pose proof (proj1 (proj1 Hwf)). unfold NULL. lia. }
  destruct Hcase as [[-> Em]|(_ & Hpn & Hp & Hfresh & Em)]; [by left|right].
  assert (Hsrc1 : mm_blocks m1 !! src = Some (Some <$> bs)).
  { rewrite Em, lookup_insert_ne; [done|]. congruence. }
  assert (Hblk : mm_blocks m1 !! p = Some (replicate (Z.to_nat n) None)) by (rewrite Em; apply lookup_insert_eq).
  split_and!; try done. unfold memcpy.
  rewrite (mem_slice_ok _ _ _ _ _ Hsrc1) by (rewrite ?length_fmap; lia). cbn [mbind option_bind].
  rewrite drop_0, take_ge by (rewrite length_fmap; lia).
  rewrite (mem_write_ok _ _ _ _ _ Hblk) by (rewrite ?length_replicate, ?length_fmap; lia).
  eexists. split; [done|]. split.
  { eapply mem_write_wf; [exact Hwf1|]. eapply mem_write_ok; [exact Hblk|lia|].
    rewrite length_replicate, length_fmap. lia. }
  simpl. split_and!; [|done..]. rewrite Em, insert_insert_eq. f_equal. unfold splice. simpl.
  rewrite drop_ge; [by rewrite app_nil_r|]. rewrite length_replicate, length_fmap. lia.
Qed.

Section registry.
Context `{EO : ExternsOk}.
Context (plugin_object : string → ptr).
Context (config : ptr).

Abbreviation list_head := (list_head config).
Abbreviation nodes_of g l := ((λ p, p + head_off g) <$> l).

Lemma head_field g : field (plugin_type g) "_head" = Some (head_off g, struct_mk_list).
Proof. by destruct g. Qed.

Lemma head_bounds g :
  0 ≤ head_off g ∧ head_off g + 16 ≤ sizeof (plugin_type g) ∧ sizeof (plugin_type g) ≠ 0.
Proof. destruct g; (split_and!; [intros H; discriminate H|intros H; discriminate H|discriminate]). Qed.

Lemma config_list_field g :
  field struct_flb_config (plugin_list g) =
  Some (default 0 (offsetof struct_flb_config (plugin_list g)), struct_mk_list).
Proof.
  assert (∃ o, field struct_flb_config (plugin_list g) = Some (o, struct_mk_list)) as [o Ho].
  { apply field_assoc. destruct g; reflexivity. }
  unfold offsetof. by rewrite Ho.
Qed.

Lemma plugin_list_inj g g' : plugin_list g = plugin_list g' → g = g'.
Proof. by destruct g, g'. Qed.

Lemma list_head_bounds g :
  config ≤ list_head g ∧ list_head g + 16 ≤ config + sizeof struct_flb_config.
Proof.
  destruct (field_bounds struct_flb_config (plugin_list g) _ _ eq_refl eq_refl (config_list_field g))
    as (? & _ & Hb & _). change (sizeof struct_mk_list) with 16 in Hb.
  unfold Plugins.list_head. lia.
Qed.

Lemma list_head_ne g g' : g ≠ g' → list_head g ≠ list_head g'.
Proof.
  intros Hne. unfold Plugins.list_head.
  destruct (field_disjoint struct_flb_config (plugin_list g) (plugin_list g') _ _ _ _ eq_refl eq_refl
    (config_list_field g) (config_list_field g')) as [Hd|Hd];
    [by intros ?%plugin_list_inj|..]; change (sizeof struct_mk_list) with 16 in Hd; lia.
Qed.

(** What registration needs: the configuration is a live block whose five
    lists are empty, and the plugin objects are initialised. *)
Record ready (s0 : machine) (l : list (pgroup * string)) : Prop := {
  rd_wf : mem_wf (mc_mem s0);
  rd_config : ∃ b, mm_blocks (mc_mem s0) !! config = Some b ∧
                   Z.of_nat (length b) = sizeof struct_flb_config;
  rd_lists : ∀ g, dll (mc_list s0) (list_head g) [];
  rd_objects : ∀ g name, (g, name) ∈ l →
    ∃ bs, mm_blocks (mc_mem s0) !! plugin_object name = Some (Some <$> bs) ∧
          Z.of_nat (length bs) = sizeof (plugin_type g)
}.

(** The state [s] is [s0] with the plugins [P g] registered, for each kind:
    each is a block of its own, linked in the list of its kind; nothing else
    has changed in memory. *)
Record registry (s0 s : machine) (P : pgroup → list ptr) : Prop := {
  rg_wf : mem_wf (mc_mem s);
  rg_lists : ∀ g, dll (mc_list s) (list_head g) (nodes_of g (P g));
  rg_blocks : ∀ g p, p ∈ P g →
    ∃ bs, mm_blocks (mc_mem s) !! p = Some (Some <$> bs) ∧
          Z.of_nat (length bs) = sizeof (plugin_type g);
  rg_rest : ∀ q, (∀ g, q ∉ P g) → mm_blocks (mc_mem s) !! q = mm_blocks (mc_mem s0) !! q;
  rg_new : ∀ g p, p ∈ P g → mm_blocks (mc_mem s0) !! p = None;
  rg_apart : ∀ g g' p, p ∈ P g → p ∈ P g' → g = g'
}.

(** The registered blocks are copies of the named objects. *)
Definition copies (s0 s : machine) (P : pgroup → list ptr) (D : pgroup → list string) : Prop :=
  ∀ g, Forall2 (λ p name, mm_blocks (mc_mem s) !! p = mm_blocks (mc_mem s0) !! plugin_object name)
         (P g) (D g).

Definition update (g : pgroup) (l : list ptr) (P : pgroup → list ptr) (g' : pgroup) : list ptr :=
  if decide (g' = g) then l else P g'.

Section facts.
Context (s0 : machine) (rd : ∃ l, ready s0 l).

Lemma config_block s P :
  registry s0 s P → ∃ b, mm_blocks (mc_mem s) !! config = Some b ∧
                         Z.of_nat (length b) = sizeof struct_flb_config.
Proof.
  intros Hr. destruct rd as [l Hl]. destruct (rd_config _ _ Hl) as (b & Hb & Hlen).
  exists b. split; [|done]. rewrite (rg_rest _ _ _ Hr); [done|].
  intros g Hg. by rewrite (rg_new _ _ _ Hr g config Hg) in Hb.
Qed.

Lemma nodes_apart s P g g' p q :
  registry s0 s P → p ∈ P g → q ∈ P g' → p ≠ q →
  p + sizeof (plugin_type g) ≤ q + head_off g' ∨ q + head_off g' + 16 ≤ p.
Proof.
  intros Hr Hp Hq Hne. destruct (rg_blocks _ _ _ Hr g p Hp) as (b & Hb & Hlb).
  destruct (rg_blocks _ _ _ Hr g' q Hq) as (c & Hc & Hlc).
  destruct (proj2 (rg_wf _ _ _ Hr) p q _ _ Hne Hb Hc) as [Hd|Hd]; rewrite length_fmap in Hd;
    pose proof (head_bounds g'); lia.
Qed.

Lemma head_apart s P g g' p :
  registry s0 s P → p ∈ P g →
  p + sizeof (plugin_type g) ≤ list_head g' ∨ list_head g' + 16 ≤ p.
Proof.
  intros Hr Hp. destruct (rg_blocks _ _ _ Hr g p Hp) as (b & Hb & Hlb).
  destruct (config_block _ _ Hr) as (c & Hc & Hlc).
  assert (Hne : p ≠ config).
  { intros ->. destruct rd as [l Hl]. destruct (rd_config _ _ Hl) as (b' & Hb' & _).
    by rewrite (rg_new _ _ _ Hr g config Hp) in Hb'. }
  pose proof (list_head_bounds g').
  destruct (proj2 (rg_wf _ _ _ Hr) p config _ _ Hne Hb Hc) as [Hd|Hd]; rewrite ?length_fmap in Hd; lia.
Qed.

(** A node or head of one list is in no other. *)
Lemma lists_apart s P g g' x :
  registry s0 s P → g ≠ g' →
  x ∈ list_head g :: nodes_of g (P g) → x ∉ list_head g' :: nodes_of g' (P g').
Proof.
  intros Hr Hne Hx Hx'. pose proof (head_bounds g). pose proof (head_bounds g').
  apply elem_of_cons in Hx as [->|(p & -> & Hp)%list_elem_of_fmap];
    apply elem_of_cons in Hx' as [Hx'|(q & Hx' & Hq)%list_elem_of_fmap].
  - by apply (list_head_ne g g').
  - destruct (head_apart _ _ _ g _ Hr Hq); lia.
  - destruct (head_apart _ _ _ g' _ Hr Hp); lia.
  - destruct (decide (p = q)) as [->|Hpq]; [by apply Hne, (rg_apart _ _ _ Hr g g' q)|].
    destruct (nodes_apart _ _ g g' p q Hr Hp Hq Hpq); lia.
Qed.

(** Lists survive changes to the memory of other things. *)
Lemma lists_agree s P h' g X :
  registry s0 s P → agree_outside X (mc_list s) h' →
  (∀ x, x ∈ list_head g :: nodes_of g (P g) → x ∉ X) →
  dll h' (list_head g) (nodes_of g (P g)).
Proof. intros Hr HX Hd. eapply dll_agree; [exact HX|exact Hd|]. apply (rg_lists _ _ _ Hr). Qed.

(** ** Registering one plugin *)

Lemma registry_oom s P m' :
  registry s0 s P → mem_wf m' → mm_blocks m' = mm_blocks (mc_mem s) →
  registry s0 (Machine (mc_list s) m') P.
Proof. intros [] Hwf Em. split; simpl; rewrite ?Em; auto. Qed.

Lemma registry_grow s P g p bs m' h' :
  registry s0 s P → mem_wf m' →
  mm_blocks (mc_mem s) !! p = None → mm_blocks (mc_mem s0) !! p = None →
  mm_blocks m' = <[p := Some <$> bs]> (mm_blocks (mc_mem s)) →
  Z.of_nat (length bs) = sizeof (plugin_type g) →
  mk_list_add (p + head_off g) (list_head g) (mc_list s) = Some h' →
  p + head_off g ≠ NULL →
  (∀ g', p + head_off g ∉ list_head g' :: nodes_of g' (P g')) →
  registry s0 (Machine h' m') (update g (P g ++ [p]) P).
Proof.
  intros Hr Hwf Hp Hp0 Em Hlen Hadd Hnn Hfresh. pose proof Hr as [_ Hls Hbl Hre Hnew Hap].
  assert (Hnot : ∀ g', p ∉ P g').
  { intros g' Hin. destruct (Hbl _ _ Hin) as (? & Hx & _). by rewrite Hp in Hx. }
  destruct (mk_list_add_dll _ _ _ _ (Hls g) Hnn (Hfresh g)) as (h & Hh & Hd & HX).
  rewrite Hadd in Hh. injection Hh as <-.
  split; simpl; [done|..]; unfold update.
  - intros g'. case_decide as Hg; [subst; by rewrite fmap_app|].
    eapply lists_agree; [done|exact HX|]. intros x Hx [->|Hin]%elem_of_cons; [by apply (Hfresh g')|].
    exact (lists_apart s P g' g x Hr Hg Hx Hin).
  - intros g' q. rewrite Em. case_decide as Hg; subst; intros Hq.
    + apply elem_of_app in Hq as [Hq|Hq].
      * rewrite lookup_insert_ne by (intros ->; by apply (Hnot g)). by apply Hbl.
      * apply list_elem_of_singleton in Hq as ->. exists bs. by rewrite lookup_insert_eq.
    + rewrite lookup_insert_ne by (intros ->; by apply (Hnot g')). by apply Hbl.
  - intros q Hq. rewrite Em. pose proof (Hq g) as Hqg. rewrite decide_True in Hqg by done.
    rewrite lookup_insert_ne by set_solver. apply Hre. intros g'. specialize (Hq g').
    case_decide; [subst; set_solver|done].
  - intros g' q. case_decide; subst; [|apply Hnew].
    intros [Hq|Hq]%elem_of_app; [by eapply Hnew|]. by apply list_elem_of_singleton in Hq as ->.
  - intros g1 g2 q. do 2 case_decide; subst; try done; rewrite ?elem_of_app, ?list_elem_of_singleton.
    + intros [?| ->] Hq; [by eapply Hap|]. by destruct (Hnot g2).
    + intros Hq [?| ->]; [by eapply Hap|]. by destruct (Hnot g1).
    + apply Hap.
Qed.

(** The address of a new block is above everything in use. *)
Lemma brk_fresh s P g :
  registry s0 s P →
  mm_brk (mc_mem s) + head_off g ≠ NULL ∧
  ∀ g', mm_brk (mc_mem s) + head_off g ∉ list_head g' :: nodes_of g' (P g').
Proof.
  intros Hr. pose proof (head_bounds g). destruct (rg_wf _ _ _ Hr) as [[Hb Hbk] _].
  split; [unfold NULL; lia|]. intros g' [Hx|(q & Hx & Hq)%list_elem_of_fmap]%elem_of_cons.
  - destruct (config_block _ _ Hr) as (b & Hc & Hl). apply Hbk in Hc.
    pose proof (list_head_bounds g'). lia.
  - destruct (rg_blocks _ _ _ Hr g' q Hq) as (b & Hc & Hl). apply Hbk in Hc.
    rewrite length_fmap in Hc. pose proof (head_bounds g'). lia.
Qed.

Lemma copies_grow s P D g name p m' h' bs :
  registry s0 s P → copies s0 s P D → mm_blocks (mc_mem s) !! p = None →
  mm_blocks m' = <[p := Some <$> bs]> (mm_blocks (mc_mem s)) →
  mm_blocks (mc_mem s0) !! plugin_object name = Some (Some <$> bs) →
  copies s0 (Machine h' m') (update g (P g ++ [p]) P)
    (λ g', if decide (g' = g) then D g ++ [name] else D g').
Proof.
  intros Hr Hc Hp Em Hobj.
  assert (Hk : ∀ g', Forall2 (λ q nm, mm_blocks m' !! q = mm_blocks (mc_mem s0) !! plugin_object nm)
    (P g') (D g')).
  { intros g'. apply Forall2_same_length_lookup. specialize (Hc g').
    split; [by eapply Forall2_length|]. intros i q nm Hq Hnm.
    rewrite Em, lookup_insert_ne; [by eapply (Forall2_lookup_lr _ _ _ i q nm Hc)|].
    intros <-. apply list_elem_of_lookup_2 in Hq. destruct (rg_blocks _ _ _ Hr _ _ Hq) as (? & Hx & _).
    by rewrite Hp in Hx. }
  intros g'. unfold update; simpl. case_decide; [subst|apply Hk].
  apply Forall2_app; [apply Hk|]. constructor; [|constructor]. rewrite Em, lookup_insert_eq. congruence.
Qed.

Lemma register_plugin_ok s P D g name bs :
  registry s0 s P → copies s0 s P D →
  mm_brk (mc_mem s0) ≤ mm_brk (mc_mem s) → mem_wf (mc_mem s0) →
  mm_blocks (mc_mem s0) !! plugin_object name = Some (Some <$> bs) →
  Z.of_nat (length bs) = sizeof (plugin_type g) →
  ∃ ret s', register_plugin plugin_object config g name s = Some (ret, s') ∧
    mm_brk (mc_mem s0) ≤ mm_brk (mc_mem s') ∧
    (mm_oracle (mc_mem s) = [] → ret = 0 ∧ mm_oracle (mc_mem s') = []) ∧
    ((ret = -1 ∧ registry s0 s' P ∧ copies s0 s' P D) ∨
     (ret = 0 ∧ ∃ p, registry s0 s' (update g (P g ++ [p]) P) ∧
        copies s0 s' (update g (P g ++ [p]) P)
          (λ g', if decide (g' = g) then D g ++ [name] else D g'))).
Proof.
  intros Hr Hc Hbrk Hwf0 Hobj Hlen. pose proof (head_bounds g) as (? & ? & Hsz).
  assert (Hobjs : mm_blocks (mc_mem s) !! plugin_object name = Some (Some <$> bs)).
  { rewrite (rg_rest _ _ _ Hr); [done|]. intros g' Hin.
    by rewrite (rg_new _ _ _ Hr g' _ Hin) in Hobj. }
  unfold register_plugin. destruct (flb_malloc _ _) as [p m1] eqn:Ea.
  destruct (clone_ok _ _ _ _ _ _ (rg_wf _ _ _ Hr) Hobjs Hlen Hsz Ea)
    as (Hb1 & Hor & [(-> & Hwf1 & Em)|(Hpn & -> & Hp & m2 & -> & Hwf2 & Em & Hbrk2 & Hor2)]).
  - rewrite decide_True by done. eexists _, _. split; [done|]. simpl. split; [lia|].
    split; [intros Ho; by destruct (Hor Ho)|]. left. split; [done|].
    split; [by apply registry_oom|]. intros g'. simpl. rewrite Em. apply Hc.
  - rewrite decide_False by done. cbn [mbind option_bind].
    destruct (brk_fresh s P g Hr) as [Hnn Hfresh].
    destruct (mk_list_add_dll _ _ _ _ (rg_lists _ _ _ Hr g) Hnn (Hfresh g)) as (h' & Hadd & _ & _).
    rewrite Hadd. cbn [mbind option_bind]. eexists _, _. split; [done|]. simpl.
    split; [lia|]. split; [intros Ho; rewrite Hor2; by split; [|apply Hor]|].
    right. split; [done|]. exists (mm_brk (mc_mem s)). split; [|by eapply copies_grow].
    eapply registry_grow; try done.
    destruct (mm_blocks (mc_mem s0) !! mm_brk (mc_mem s)) eqn:Eb; [|done].
    apply (proj2 (proj1 Hwf0)) in Eb. lia.
Qed.

(** ** Registering a sequence *)

Definition flatten (l : list (pgroup * list string)) : list (pgroup * string) :=
  l ≫= λ x, pair x.1 <$> x.2.

Definition names_of (g : pgroup) (l : list (pgroup * string)) : list string :=
  snd <$> filter (λ x, x.1 = g) l.

Fixpoint register_flat (l : list (pgroup * string)) (s : machine) : option (Z * machine) :=
  match l with
  | [] => Some (0, s)
  | (g, name) :: l =>
      '(ret, s) ← register_plugin plugin_object config g name s;
      if decide (ret = 0) then register_flat l s else Some (ret, s)
  end.

Lemma register_flat_app l1 l2 s :
  register_flat (l1 ++ l2) s =
  '(ret, s) ← register_flat l1 s; if decide (ret = 0) then register_flat l2 s else Some (ret, s).
Proof.
  revert s. induction l1 as [|[g name] l1 IH]; intros s; simpl; [done|].
  destruct (register_plugin _ _ _ _ s) as [[ret s1]|]; simpl; [|done].
  case_decide; [apply IH|]. simpl. by rewrite decide_False.
Qed.

Lemma register_groups_flat l s :
  register_groups plugin_object config l s = register_flat (flatten l) s.
Proof.
  revert s. induction l as [|[g names] l IH]; intros s; simpl; [done|].
  rewrite register_flat_app.
  assert (register_plugins plugin_object config g names s = register_flat (pair g <$> names) s) as ->.
  { clear. revert s. induction names as [|name names IHn]; intros s; simpl; [done|].
    destruct (register_plugin _ _ _ _ s) as [[ret s1]|]; simpl; [|done]. case_decide; auto. }
  destruct (register_flat _ s) as [[ret s1]|]; simpl; [|done]. case_decide; auto.
Qed.

Lemma register_flat_ok l s P D :
  registry s0 s P → copies s0 s P D →
  mm_brk (mc_mem s0) ≤ mm_brk (mc_mem s) → ready s0 l →
  ∃ ret s' P' k, register_flat l s = Some (ret, s') ∧ registry s0 s' P' ∧
    copies s0 s' P' (λ g, D g ++ names_of g (take k l)) ∧
    (mm_oracle (mc_mem s) = [] → ret = 0) ∧
    (ret = 0 ∧ k = length l ∨ ret = -1 ∧ (k < length l)%nat).
Proof.
  revert s P D. induction l as [|[g name] l IH]; intros s P D Hr Hc Hb Hrd; simpl.
  { exists 0, s, P, 0%nat. split_and!; auto. intros g. rewrite app_nil_r. apply Hc. }
  destruct (rd_objects _ _ Hrd g name) as (bs & Hobj & Hlen); [by left|].
  assert (Hrd' : ready s0 l).
  { destruct Hrd as [? ? ? Ho]. split; try done. intros g' n' Hin. apply Ho. by right. }
  destruct (register_plugin_ok s P D g name bs Hr Hc Hb (rd_wf _ _ Hrd) Hobj Hlen)
    as (ret & s1 & -> & Hb1 & Hor & [(-> & Hr1 & Hc1)|(-> & p & Hr1 & Hc1)]); simpl.
  - exists (-1), s1, P, 0%nat. split_and!; try done; [|by intros [? _]%Hor|right; split; [done|lia]].
    intros g'. simpl. rewrite app_nil_r. apply Hc1.
  - destruct (IH _ _ _ Hr1 Hc1 Hb1 Hrd') as (ret & s' & P' & k & -> & Hr' & Hc' & Hor' & Hk).
    exists ret, s', P', (S k). split_and!; try done.
    + intros g'. specialize (Hc' g'). simpl in *. unfold names_of in *. simpl.
      case_decide as Hg; [subst g'; rewrite filter_cons_True by done; simpl; by rewrite <- app_assoc in Hc'|].
      by rewrite filter_cons_False by (simpl; congruence).
    + intros Ho. apply Hor', Hor, Ho.
    + destruct Hk as [[? ?]|[? ?]]; [left|right]; (split; [done|lia]).
Qed.

(** ** Unregistering *)

Lemma registry_free_ok p b s :
  p ≠ NULL → mm_blocks (mc_mem s) !! p = Some b →
  ∃ s', mc_free p s = Some s' ∧
    mc_mem s' = Mem (delete p (mm_blocks (mc_mem s))) (mm_brk (mc_mem s)) (mm_oracle (mc_mem s)) ∧
    agree_outside (seqZ p (Z.of_nat (length b))) (mc_list s) (mc_list s').
Proof.
  intros Hpn Hb. unfold mc_free, flb_free. rewrite (free_live _ _ _ Hpn Hb). simpl.
  eexists. split; [done|]. split; [done|]. intros x Hx. rewrite elem_of_seqZ in Hx. simpl.
  unfold block_size. rewrite Hb. simpl. rewrite !map_lookup_filter. split.
  - destruct (lh_next (mc_list s) !! x); simpl; [|done]. rewrite option_guard_True; [done|]. simpl. lia.
  - destruct (lh_prev (mc_list s) !! x); simpl; [|done]. rewrite option_guard_True; [done|]. simpl. lia.
Qed.

(** Unlinking and releasing the first plugin of a kind. *)
Lemma unlink_and_free_ok s P g p l :
  registry s0 s P → P g = p :: l →
  ∃ s', unlink_and_free (p + head_off g) p s = Some s' ∧ registry s0 s' (update g l P).
Proof.
  intros Hr HP. pose proof (rg_lists _ _ _ Hr g) as Hd. rewrite HP in Hd. simpl in Hd.
  assert (Hin : p ∈ P g) by (rewrite HP; by left).
  destruct (rg_blocks _ _ _ Hr g p Hin) as (bs & Hbs & Hlen).
  destruct (mk_list_del_dll _ _ [] _ _ Hd) as (h' & Hdel & Hd' & _ & _ & HX). simpl in *.
  unfold unlink_and_free. rewrite Hdel. cbn [mbind option_bind].
  pose proof (mem_wf_not_null _ _ _ (rg_wf _ _ _ Hr) Hbs) as Hpn.
  destruct (registry_free_ok p _ (Machine h' (mc_mem s)) Hpn Hbs) as (s' & Hf & Em & Hout). simpl in *.
  rewrite length_fmap, Hlen in Hout. exists s'. split; [done|].
  assert (Hnl : p ∉ l).
  { intros Hpl. destruct Hd as [_ Hnd]. apply NoDup_cons in Hnd as [_ Hnd].
    apply NoDup_cons in Hnd as [Hnd _]. apply Hnd. apply list_elem_of_fmap. by exists p. }
  assert (Hsub : ∀ g' q, q ∈ update g l P g' → q ∈ P g' ∧ q ≠ p).
  { intros g' q. unfold update. case_decide as Hg; [subst|].
    - intros Hq. rewrite HP. split; [by right|]. congruence.
    - intros Hq. split; [done|]. intros ->. by apply Hg, (rg_apart _ _ _ Hr g' g p). }
  assert (Hfar : ∀ g' x, x ∈ list_head g' :: nodes_of g' (update g l P g') →
    x < p ∨ p + sizeof (plugin_type g) ≤ x).
  { intros g' x [->|(q & -> & [Hq Hqp]%Hsub)%list_elem_of_fmap]%elem_of_cons.
    - destruct (head_apart s P g g' p Hr Hin); lia.
    - destruct (nodes_apart s P g g' p q Hr Hin Hq); [done|lia..]. }
  assert (Hdl : ∀ g', dll h' (list_head g') (nodes_of g' (update g l P g'))).
  { intros g'. unfold update. case_decide as Hg; [by subst|].
    eapply lists_agree; [done|exact HX|]. intros x Hx.
    pose proof (lists_apart s P g' g x Hr Hg Hx) as Hno. by rewrite HP in Hno. }
  split; rewrite ?Em; simpl.
  - eapply free_wf; [apply (rg_wf _ _ _ Hr)|]. by apply (free_live _ _ _ Hpn Hbs).
  - intros g'. eapply dll_agree; [exact Hout| |apply Hdl].
    intros x Hx%Hfar. rewrite elem_of_seqZ. lia.
  - intros g' q [Hq Hqp]%Hsub. rewrite lookup_delete_ne by done. by apply (rg_blocks _ _ _ Hr).
  - intros q Hq. destruct (decide (p = q)) as [<-|Hpq].
    + rewrite lookup_delete_eq. symmetry. by apply (rg_new _ _ _ Hr g).
    + rewrite lookup_delete_ne by done. apply (rg_rest _ _ _ Hr). intros g' Hin'.
      apply (Hq g'). unfold update. case_decide as Hg; [subst|done].
      rewrite HP in Hin'. apply elem_of_cons in Hin' as [->|]; done.
  - intros g' q [Hq _]%Hsub. by eapply (rg_new _ _ _ Hr).
  - intros g1 g2 q [H1 _]%Hsub [H2 _]%Hsub. by eapply (rg_apart _ _ _ Hr).
Qed.

Context (call_cb_destroy : ptr → ptr → machine → option machine).

(** What is assumed of a [cb_destroy] callback: it returns, and leaves the
    lists and the blocks modelled here as they are. *)
Definition cb_destroy_ok : Prop := ∀ f p s,
  ∃ s', call_cb_destroy f p s = Some s' ∧ mc_list s' = mc_list s ∧
    mm_blocks (mc_mem s') = mm_blocks (mc_mem s) ∧
    (mem_wf (mc_mem s) → mem_wf (mc_mem s')).

Lemma registry_same s s' P :
  registry s0 s P → mc_list s' = mc_list s →
  mm_blocks (mc_mem s') = mm_blocks (mc_mem s) → mem_wf (mc_mem s') → registry s0 s' P.
Proof. intros [] El Em ?. split; rewrite ?El, ?Em; auto. Qed.

Lemma destroy_callback_ok s P g p :
  cb_destroy_ok → registry s0 s P → p ∈ P g → g = G_input ∨ g = G_output →
  ∃ s', destroy_callback call_cb_destroy g p s = Some s' ∧ registry s0 s' P.
Proof.
  intros Hcb Hr Hp Hg. destruct (rg_blocks _ _ _ Hr g p Hp) as (bs & Hbs & Hlen).
  unfold destroy_callback.
  assert (∃ cb, field_load (plugin_type g) p "cb_destroy" (mc_mem s) = Some cb) as [cb ->].
  { assert (∃ o, field (plugin_type g) "cb_destroy" = Some (o, c_fn)) as [o Ho].
    { destruct Hg as [-> | ->]; eexists; reflexivity. }
    unfold field_load. rewrite Ho. simpl.
    destruct (field_bounds (plugin_type g) "cb_destroy" o c_fn) as (? & _ & Hb & _);
      [by destruct Hg as [-> | ->]..|done|].
    change (sizeof c_fn) with 8 in *. unfold mem_load.
    rewrite (mem_slice_ok _ _ _ _ _ Hbs) by (rewrite ?length_fmap; lia). simpl.
    rewrite <- fmap_drop, <- fmap_take. eexists. by apply mapM_fmap_Some. }
  cbn [mbind option_bind]. case_decide; [by eexists|].
  destruct (Hcb (le_value cb) p s) as (s' & ? & ? & ? & Hwf). exists s'. split; [done|].
  eapply registry_same; try done. apply Hwf, (rg_wf _ _ _ Hr).
Qed.

Lemma update_update g l l' P g' : update g l' (update g l P) g' = update g l' P g'.
Proof. unfold update. by case_decide. Qed.

Lemma registry_ext s P P' : (∀ g, P g = P' g) → registry s0 s P → registry s0 s P'.
Proof.
  intros HP [? Hl Hb Hr Hn Ha]. split; [done|..]; intros *; rewrite <- ?HP; [done|apply Hb| |apply Hn|apply Ha].
  intros Hq. apply Hr. intros g. rewrite HP. apply Hq.
Qed.

(** A loop over one list of the registry empties it. *)
Lemma unregister_group_ok s P g :
  cb_destroy_ok → registry s0 s P →
  ∃ s', unregister_group call_cb_destroy config g s = Some s' ∧ registry s0 s' (update g [] P).
Proof.
  intros Hcb Hr. unfold unregister_group.
  match goal with |- context [mk_list_foreach_safe _ _ ?body _] =>
    destruct (mk_list_foreach_safe_rule mc_list (list_head g) (nodes_of g (P g))
      (λ dn s', registry s0 s' (update g (drop (length dn) (P g)) P)) body s)
      as (s' & E' & Hr') end.
  - apply (rg_lists _ _ _ Hr).
  - intros dn rest s1 El Hr1. pose proof (rg_lists _ _ _ Hr1 g) as Hd.
    unfold update in Hd. rewrite decide_True in Hd by done.
    rewrite fmap_drop, El, drop_app_length in Hd.
    split; [by apply dll_tail_path|]. destruct (dll_ends _ _ _ Hd) as [_ ->]. by eexists.
  - intros dn x rest s1 El Hr1. apply fmap_app_inv in El as (l1 & l2 & -> & El & EP).
    destruct l2 as [|p l2]; [done|]. simpl in El. injection El as -> ->.
    rewrite EP, length_fmap, drop_app_length in Hr1.
    assert (Hhd : update g (p :: l2) P g = p :: l2) by (unfold update; by rewrite decide_True).
    replace (mk_list_entry (p + head_off g) (head_off g)) with p by (unfold mk_list_entry, container_of; lia).
    assert (∃ s2, (match g with
      | G_input | G_output => destroy_callback call_cb_destroy g p s1
      | _ => Some s1 end) = Some s2 ∧ registry s0 s2 (update g (p :: l2) P)) as (s2 & -> & Hr2).
    { destruct g; try (by eexists); (eapply destroy_callback_ok; [done..| |auto]); rewrite Hhd; by left. }
    cbn [mbind option_bind]. destruct (unlink_and_free_ok s2 _ g p l2 Hr2 Hhd) as (s3 & -> & Hr3).
    exists s3. split; [done|]. eapply registry_ext; [|exact Hr3]. intros g'.
    rewrite update_update. f_equal. rewrite EP, length_app, length_fmap. simpl.
    by rewrite drop_app_add.
  - eapply registry_ext; [|exact Hr]. intros g'. unfold update. simpl. by case_decide; subst.
  - exists s'. split; [done|]. eapply registry_ext; [|exact Hr']. intros g'. 
    unfold update. by rewrite length_fmap, drop_all.
Qed.

Lemma unregister_ok s P :
  cb_destroy_ok → registry s0 s P →
  ∃ s', flb_plugins_unregister call_cb_destroy config s = Some s' ∧ registry s0 s' (λ _, []).
Proof.
  intros Hcb H0. unfold flb_plugins_unregister.
  destruct (unregister_group_ok _ _ G_custom Hcb H0) as (s1 & -> & H1).
  destruct (unregister_group_ok _ _ G_input Hcb H1) as (s2 & E2 & H2).
  destruct (unregister_group_ok _ _ G_output Hcb H2) as (s3 & E3 & H3).
  destruct (unregister_group_ok _ _ G_filter Hcb H3) as (s4 & E4 & H4).
  destruct (unregister_group_ok _ _ G_processor Hcb H4) as (s5 & E5 & H5).
  simpl. rewrite E2. simpl. rewrite E3. simpl. rewrite E4. simpl.
  exists s5. split; [done|]. eapply registry_ext; [|exact H5]. by intros [].
Qed.
End facts.

Lemma registry_start s0 l : ready s0 l → registry s0 s0 (λ _, []).
Proof.
  intros [? ? Hl _]. split; try done; intros; by set_solver.
Qed.

(** * Theorems *)

(** C30. [flb_plugins_register] always returns.  On 0 every static plugin has
    been copied into a live block of its own and linked, in the order of the
    code, into the list of its kind; on -1 an allocation failed and exactly
    the plugins before it are registered.  Nothing else in memory changes. *)
Theorem flb_plugins_register_spec s0 :
  ready s0 (flatten register_sequence) →
  ∃ ret s P k, flb_plugins_register plugin_object config s0 = Some (ret, s) ∧
    registry s0 s P ∧
    copies s0 s P (λ g, names_of g (take k (flatten register_sequence))) ∧
    (mm_oracle (mc_mem s0) = [] → ret = 0) ∧
    (ret = 0 ∧ k = 88%nat ∨ ret = -1 ∧ (k < 88)%nat).
Proof.
  intros Hrd. assert (Hex : ∃ l, ready s0 l) by eauto. unfold flb_plugins_register.
  rewrite register_groups_flat.
  apply (register_flat_ok s0 Hex (flatten register_sequence) s0 (λ _, []) (λ _, []));
    [by eapply registry_start|intros g; constructor|lia|done].
Qed.

(** C31. Registration and unregistration leave no trace: whether or not
    registration got to its end, unregistering releases every copy, and no
    other block, and leaves the five lists empty. *)
Theorem flb_plugins_register_unregister call_cb_destroy s0 :
  ready s0 (flatten register_sequence) → cb_destroy_ok call_cb_destroy →
  ∃ ret s s', flb_plugins_register plugin_object config s0 = Some (ret, s) ∧
    flb_plugins_unregister call_cb_destroy config s = Some s' ∧
    mm_blocks (mc_mem s') = mm_blocks (mc_mem s0) ∧
    ∀ g, dll (mc_list s') (list_head g) [].
Proof.
  intros Hrd Hcb. assert (Hex : ∃ l, ready s0 l) by eauto. unfold flb_plugins_register.
  rewrite register_groups_flat.
  destruct (register_flat_ok s0 Hex (flatten register_sequence) s0 (λ _, []) (λ _, []))
    as (ret & s & P & k & -> & Hr & _); [by eapply registry_start|intros g; constructor|lia|done|].
  destruct (unregister_ok s0 Hex call_cb_destroy s P Hcb Hr) as (s' & Hu & Hr').
  exists ret, s, s'. split_and!; [done|done| |].
  - apply map_eq. intros q. apply (rg_rest _ _ _ Hr'). intros g. apply not_elem_of_nil.
  - intros g. apply (rg_lists _ _ _ Hr' g).
Qed.
End registry.

(** * Witnesses *)

(** One object per kind; the configuration at 2048. *)
Definition demo_object (g : pgroup) : ptr :=
  match g with G_custom => 16 | G_input => 128 | G_output => 320 | G_filter => 560 | G_processor => 656 end.

Definition demo_plugin_object (name : string) : ptr :=
  match list_find (λ x, x.2 = name) (flatten register_sequence) with
  | Some (_, (g, _)) => demo_object g
  | None => NULL
  end.

Definition demo_bytes (g : pgroup) : list Z := replicate (Z.to_nat (@sizeof two_words (plugin_type g))) 0.

Definition demo_blocks : list (Z * list (option Z)) :=
  ((λ g, (demo_object g, Some <$> demo_bytes g)) <$> all_groups) ++
  [(2048, replicate (Z.to_nat (@sizeof two_words struct_flb_config)) (Some 0))].

Definition demo_heads : list Z := @list_head two_words 2048 <$> all_groups.

Definition demo_registry : machine :=
  Machine (LHeap (list_to_map ((λ h, (h, h)) <$> demo_heads)) (list_to_map ((λ h, (h, h)) <$> demo_heads)))
          (Mem (list_to_map demo_blocks) 32768 []).

Lemma demo_lookup p b : (p, b) ∈ demo_blocks → mm_blocks (mc_mem demo_registry) !! p = Some b.
Proof. apply elem_of_list_to_map_1. assert (NoDup demo_blocks.*1) by evaluate. done. Qed.

Lemma demo_ready :
  @ready two_words demo_plugin_object 2048 demo_registry (flatten register_sequence).
Proof.
  split.
  - apply laid_out_wf. vm_compute. reflexivity.
  - exists (replicate (Z.to_nat (@sizeof two_words struct_flb_config)) (Some 0)). split.
    + apply demo_lookup. apply elem_of_app. right. by left.
    + rewrite length_replicate. vm_compute. reflexivity.
  - intros g. assert (Forall (λ g, dll (mc_list demo_registry) (@list_head two_words 2048 g) []) all_groups) as H
      by evaluate. rewrite Forall_forall in H. exact (H g (elem_of_all_groups g)).
  - intros g name Hin. exists (demo_bytes g). split.
    2:{ unfold demo_bytes. rewrite length_replicate. by destruct g; vm_compute. }
    assert (Forall (λ x, demo_plugin_object x.2 = demo_object x.1) (flatten register_sequence)) as H
      by evaluate. rewrite Forall_forall in H. rewrite (H _ Hin : demo_plugin_object name = demo_object g).
    apply demo_lookup. apply elem_of_app. left. apply list_elem_of_fmap. exists g.
    split; [done|]. apply elem_of_all_groups.
Qed.

Lemma flb_plugins_register_spec_witness :
  ∃ ret s P k, @flb_plugins_register two_words demo_plugin_object 2048 demo_registry = Some (ret, s) ∧
    @registry two_words 2048 demo_registry s P ∧
    copies demo_plugin_object demo_registry s P (λ g, names_of g (take k (flatten register_sequence))) ∧
    (mm_oracle (mc_mem demo_registry) = [] → ret = 0) ∧
    (ret = 0 ∧ k = 88%nat ∨ ret = -1 ∧ (k < 88)%nat).
Proof. exact (@flb_plugins_register_spec _ two_words_ok demo_plugin_object 2048 demo_registry demo_ready). Defined.

Lemma flb_plugins_register_unregister_witness :
  ∃ ret s s', @flb_plugins_register two_words demo_plugin_object 2048 demo_registry = Some (ret, s) ∧
    @flb_plugins_unregister two_words (λ _ _ s, Some s) 2048 s = Some s' ∧
    mm_blocks (mc_mem s') = mm_blocks (mc_mem demo_registry) ∧
    ∀ g, dll (mc_list s') (@list_head two_words 2048 g) [].
Proof.
  apply (@flb_plugins_register_unregister _ two_words_ok demo_plugin_object 2048
    (λ _ _ s, Some s) demo_registry demo_ready).
  intros f p s. exists s. auto.
Defined.
