(* ===== verification/Runtime.v ===== *)
(** The runtime the plugins run on: coroutines ([flb_coro.h], over libco),
    the objects a flush or a collection is made of, and the monad the
    operations are written in.

    The state is a [world]: the memory, the lists and tasks, and for each
    structure the objects of that type by address.  Releasing a block ends the
    life of the object in it, so that any later use of it is an error.  A
    computation that dereferences a dead object, blocks on a held mutex or
    runs into undefined behaviour has no result. *)
From S2P Require Import Prelude MkList Mem MkEvent Task Structs.

(** * Structures *)

(** [struct flb_coro]. *)
Record flb_coro := Coro {
  co_caller : ptr;
  co_callee : ptr;
  co_data : ptr
}.
Definition sizeof_flb_coro : Z := 24.

(** [struct flb_output_flush]; its [_head] is in the list heap. *)
Record flb_output_flush := OutputFlush {
  of_id : Z;
  of_buffer : ptr;
  of_task : ptr;
  of_config : ptr;
  of_o_ins : ptr;
  of_coro : ptr;
  of_processed_event_chunk : ptr
}.
Definition sizeof_flb_output_flush : Z := 72.
Definition of_head_off : Z := 56.

(** [struct flb_out_flush_params]. *)
Record flb_out_flush_params := OutFlushParams {
  fp_event_chunk : ptr;
  fp_out_flush : ptr;
  fp_i_ins : ptr;
  fp_out_plugin : ptr;
  fp_out_context : ptr;
  fp_config : ptr;
  fp_coro : ptr
}.
Definition sizeof_flb_out_flush_params : Z := 56.

(** [struct flb_input_coro]. *)
Record flb_input_coro := InputCoro {
  ico_id : Z;
  ico_start_time : Z;
  ico_end_time : Z;
  ico_ins : ptr;
  ico_coro : ptr;
  ico_config : ptr
}.
Definition sizeof_flb_input_coro : Z := 64.
Definition ico_head_off : Z := 48.

(** [struct flb_libco_in_params]. *)
Record flb_libco_in_params := LibcoInParams {
  lp_config : ptr;
  lp_coll : ptr;
  lp_coro : ptr
}.
Definition sizeof_flb_libco_in_params : Z := 24.

(** Where a cothread is: the engine's own stack, a coroutine whose entry point
    has not run, one suspended at the [co_switch] of its entry point with the
    locals it keeps there, one suspended inside a callback, one whose callback
    has returned through [FLB_OUTPUT_RETURN] or [FLB_INPUT_RETURN]. *)
Inductive cothread :=
| CT_native
| CT_output_start
| CT_output_ready (persisted_params : flb_out_flush_params)
| CT_input_start
| CT_input_ready (coll config : ptr)
| CT_callback (state : Z)
| CT_returned.

(** What a callback of a plugin does when it gives control back. *)
Inductive cb_result :=
| CB_return (x : Z)        (** [FLB_OUTPUT_RETURN(x)] or [FLB_INPUT_RETURN(x)] *)
| CB_suspend (state : Z).  (** yields, waiting for some event *)

(** What leaves the model. *)
Inductive event :=
| Ev_pipe (fd : Z) (val : Z) (n : Z)             (** [flb_pipe_w] of eight bytes, and its result *)
| Ev_flush_prepare_destroy (out_flush : ptr)
| Ev_coro_prepare_destroy (input_coro : ptr)
| Ev_context_created (context : ptr)             (** decoded metrics or traces *)
| Ev_context_destroyed (context : ptr)
| Ev_callback (params : flb_out_flush_params)    (** [cb_flush] starts *)
| Ev_collect (coll config : ptr)                 (** [cb_collect] starts *)
| Ev_timer (sched : ptr) (type ms : Z) (data : ptr)  (** a timer of the scheduler *)
| Ev_error.                                      (** [flb_errno] or [flb_error] *)

Record world := World {
  w_store : task_store;  (** tasks, routes and every list node *)
  w_mem : mem;
  w_coros : gmap Z flb_coro;
  w_flushes : gmap Z flb_output_flush;
  w_chunks : gmap Z flb_event_chunk;
  w_flush_params : gmap Z flb_out_flush_params;
  w_input_coros : gmap Z flb_input_coro;
  w_in_params : gmap Z flb_libco_in_params;
  w_outs : gmap Z flb_output_instance;
  w_out_threads : gmap Z flb_out_thread_instance;
  w_configs : gmap Z flb_config;
  w_ins : gmap Z flb_input_instance;
  w_colls : gmap Z flb_input_collector;
  w_threads : gmap Z cothread;  (** the cothreads of libco *)
  w_active : ptr;  (** the one that runs *)
  w_current : ptr;  (** [flb_coro_get()] *)
  w_out_key : ptr;  (** the thread-local [out_flush_params] *)
  w_in_key : Z;  (** [libco_in_param_key] *)
  w_in_values : gmap Z ptr;  (** the values of the input keys in this thread *)
  w_ids : gmap Z Z;  (** the id counters of the instances, kept by the library *)
  w_trace : list event (** what went to pipes or to the library, or was reported *)
}.

Definition set_store (x : task_store) (w : world) : world :=
  World x (w_mem w) (w_coros w) (w_flushes w) (w_chunks w) (w_flush_params w) (w_input_coros w) (w_in_params w) (w_outs w) (w_out_threads w) (w_configs w) (w_ins w) (w_colls w) (w_threads w) (w_active w) (w_current w) (w_out_key w) (w_in_key w) (w_in_values w) (w_ids w) (w_trace w).
Definition set_mem (x : mem) (w : world) : world :=
  World (w_store w) x (w_coros w) (w_flushes w) (w_chunks w) (w_flush_params w) (w_input_coros w) (w_in_params w) (w_outs w) (w_out_threads w) (w_configs w) (w_ins w) (w_colls w) (w_threads w) (w_active w) (w_current w) (w_out_key w) (w_in_key w) (w_in_values w) (w_ids w) (w_trace w).
Definition set_coros (x : gmap Z flb_coro) (w : world) : world :=
  World (w_store w) (w_mem w) x (w_flushes w) (w_chunks w) (w_flush_params w) (w_input_coros w) (w_in_params w) (w_outs w) (w_out_threads w) (w_configs w) (w_ins w) (w_colls w) (w_threads w) (w_active w) (w_current w) (w_out_key w) (w_in_key w) (w_in_values w) (w_ids w) (w_trace w).
Definition set_flushes (x : gmap Z flb_output_flush) (w : world) : world :=
  World (w_store w) (w_mem w) (w_coros w) x (w_chunks w) (w_flush_params w) (w_input_coros w) (w_in_params w) (w_outs w) (w_out_threads w) (w_configs w) (w_ins w) (w_colls w) (w_threads w) (w_active w) (w_current w) (w_out_key w) (w_in_key w) (w_in_values w) (w_ids w) (w_trace w).
Definition set_chunks (x : gmap Z flb_event_chunk) (w : world) : world :=
  World (w_store w) (w_mem w) (w_coros w) (w_flushes w) x (w_flush_params w) (w_input_coros w) (w_in_params w) (w_outs w) (w_out_threads w) (w_configs w) (w_ins w) (w_colls w) (w_threads w) (w_active w) (w_current w) (w_out_key w) (w_in_key w) (w_in_values w) (w_ids w) (w_trace w).
Definition set_flush_params (x : gmap Z flb_out_flush_params) (w : world) : world :=
  World (w_store w) (w_mem w) (w_coros w) (w_flushes w) (w_chunks w) x (w_input_coros w) (w_in_params w) (w_outs w) (w_out_threads w) (w_configs w) (w_ins w) (w_colls w) (w_threads w) (w_active w) (w_current w) (w_out_key w) (w_in_key w) (w_in_values w) (w_ids w) (w_trace w).
Definition set_input_coros (x : gmap Z flb_input_coro) (w : world) : world :=
  World (w_store w) (w_mem w) (w_coros w) (w_flushes w) (w_chunks w) (w_flush_params w) x (w_in_params w) (w_outs w) (w_out_threads w) (w_configs w) (w_ins w) (w_colls w) (w_threads w) (w_active w) (w_current w) (w_out_key w) (w_in_key w) (w_in_values w) (w_ids w) (w_trace w).
Definition set_in_params (x : gmap Z flb_libco_in_params) (w : world) : world :=
  World (w_store w) (w_mem w) (w_coros w) (w_flushes w) (w_chunks w) (w_flush_params w) (w_input_coros w) x (w_outs w) (w_out_threads w) (w_configs w) (w_ins w) (w_colls w) (w_threads w) (w_active w) (w_current w) (w_out_key w) (w_in_key w) (w_in_values w) (w_ids w) (w_trace w).
Definition set_outs (x : gmap Z flb_output_instance) (w : world) : world :=
  World (w_store w) (w_mem w) (w_coros w) (w_flushes w) (w_chunks w) (w_flush_params w) (w_input_coros w) (w_in_params w) x (w_out_threads w) (w_configs w) (w_ins w) (w_colls w) (w_threads w) (w_active w) (w_current w) (w_out_key w) (w_in_key w) (w_in_values w) (w_ids w) (w_trace w).
Definition set_out_threads (x : gmap Z flb_out_thread_instance) (w : world) : world :=
  World (w_store w) (w_mem w) (w_coros w) (w_flushes w) (w_chunks w) (w_flush_params w) (w_input_coros w) (w_in_params w) (w_outs w) x (w_configs w) (w_ins w) (w_colls w) (w_threads w) (w_active w) (w_current w) (w_out_key w) (w_in_key w) (w_in_values w) (w_ids w) (w_trace w).
Definition set_configs (x : gmap Z flb_config) (w : world) : world :=
  World (w_store w) (w_mem w) (w_coros w) (w_flushes w) (w_chunks w) (w_flush_params w) (w_input_coros w) (w_in_params w) (w_outs w) (w_out_threads w) x (w_ins w) (w_colls w) (w_threads w) (w_active w) (w_current w) (w_out_key w) (w_in_key w) (w_in_values w) (w_ids w) (w_trace w).
Definition set_ins (x : gmap Z flb_input_instance) (w : world) : world :=
  World (w_store w) (w_mem w) (w_coros w) (w_flushes w) (w_chunks w) (w_flush_params w) (w_input_coros w) (w_in_params w) (w_outs w) (w_out_threads w) (w_configs w) x (w_colls w) (w_threads w) (w_active w) (w_current w) (w_out_key w) (w_in_key w) (w_in_values w) (w_ids w) (w_trace w).
Definition set_colls (x : gmap Z flb_input_collector) (w : world) : world :=
  World (w_store w) (w_mem w) (w_coros w) (w_flushes w) (w_chunks w) (w_flush_params w) (w_input_coros w) (w_in_params w) (w_outs w) (w_out_threads w) (w_configs w) (w_ins w) x (w_threads w) (w_active w) (w_current w) (w_out_key w) (w_in_key w) (w_in_values w) (w_ids w) (w_trace w).
Definition set_threads (x : gmap Z cothread) (w : world) : world :=
  World (w_store w) (w_mem w) (w_coros w) (w_flushes w) (w_chunks w) (w_flush_params w) (w_input_coros w) (w_in_params w) (w_outs w) (w_out_threads w) (w_configs w) (w_ins w) (w_colls w) x (w_active w) (w_current w) (w_out_key w) (w_in_key w) (w_in_values w) (w_ids w) (w_trace w).
Definition set_active (x : ptr) (w : world) : world :=
  World (w_store w) (w_mem w) (w_coros w) (w_flushes w) (w_chunks w) (w_flush_params w) (w_input_coros w) (w_in_params w) (w_outs w) (w_out_threads w) (w_configs w) (w_ins w) (w_colls w) (w_threads w) x (w_current w) (w_out_key w) (w_in_key w) (w_in_values w) (w_ids w) (w_trace w).
Definition set_current (x : ptr) (w : world) : world :=
  World (w_store w) (w_mem w) (w_coros w) (w_flushes w) (w_chunks w) (w_flush_params w) (w_input_coros w) (w_in_params w) (w_outs w) (w_out_threads w) (w_configs w) (w_ins w) (w_colls w) (w_threads w) (w_active w) x (w_out_key w) (w_in_key w) (w_in_values w) (w_ids w) (w_trace w).
Definition set_out_key (x : ptr) (w : world) : world :=
  World (w_store w) (w_mem w) (w_coros w) (w_flushes w) (w_chunks w) (w_flush_params w) (w_input_coros w) (w_in_params w) (w_outs w) (w_out_threads w) (w_configs w) (w_ins w) (w_colls w) (w_threads w) (w_active w) (w_current w) x (w_in_key w) (w_in_values w) (w_ids w) (w_trace w).
Definition set_in_key (x : Z) (w : world) : world :=
  World (w_store w) (w_mem w) (w_coros w) (w_flushes w) (w_chunks w) (w_flush_params w) (w_input_coros w) (w_in_params w) (w_outs w) (w_out_threads w) (w_configs w) (w_ins w) (w_colls w) (w_threads w) (w_active w) (w_current w) (w_out_key w) x (w_in_values w) (w_ids w) (w_trace w).
Definition set_in_values (x : gmap Z ptr) (w : world) : world :=
  World (w_store w) (w_mem w) (w_coros w) (w_flushes w) (w_chunks w) (w_flush_params w) (w_input_coros w) (w_in_params w) (w_outs w) (w_out_threads w) (w_configs w) (w_ins w) (w_colls w) (w_threads w) (w_active w) (w_current w) (w_out_key w) (w_in_key w) x (w_ids w) (w_trace w).
Definition set_ids (x : gmap Z Z) (w : world) : world :=
  World (w_store w) (w_mem w) (w_coros w) (w_flushes w) (w_chunks w) (w_flush_params w) (w_input_coros w) (w_in_params w) (w_outs w) (w_out_threads w) (w_configs w) (w_ins w) (w_colls w) (w_threads w) (w_active w) (w_current w) (w_out_key w) (w_in_key w) (w_in_values w) x (w_trace w).
Definition set_trace (x : list event) (w : world) : world :=
  World (w_store w) (w_mem w) (w_coros w) (w_flushes w) (w_chunks w) (w_flush_params w) (w_input_coros w) (w_in_params w) (w_outs w) (w_out_threads w) (w_configs w) (w_ins w) (w_colls w) (w_threads w) (w_active w) (w_current w) (w_out_key w) (w_in_key w) (w_in_values w) (w_ids w) x.

(** Reduces field accesses and updates of worlds, innermost first. *)
Ltac wsimpl :=
  cbv [w_store w_mem w_coros w_flushes w_chunks w_flush_params w_input_coros w_in_params w_outs w_out_threads w_configs w_ins w_colls w_threads w_active w_current w_out_key w_in_key w_in_values w_ids w_trace
       set_store set_mem set_coros set_flushes set_chunks set_flush_params set_input_coros set_in_params set_outs set_out_threads set_configs set_ins set_colls set_threads set_active set_current set_out_key set_in_key set_in_values set_ids set_trace];
  simpl ts_list; simpl ts_tasks; simpl ts_routes.

(** * The monad *)

Definition M (A : Type) : Type := world → option (A * world).

#[export] Instance M_ret : MRet M := λ A a w, Some (a, w).
#[export] Instance M_bind : MBind M := λ A B f m w,
  match m w with Some (a, w) => f a w | None => None end.

Definition fail {A} : M A := λ _, None.
Definition gets {A} (f : world → A) : M A := λ w, Some (f w, w).
Definition modify (f : world → world) : M unit := λ w, Some (tt, f w).

Definition peek {A} (f : world → option A) : M A :=
  λ w, match f w with Some a => Some (a, w) | None => None end.

(** The object of a type at an address. *)
Definition get {A} (f : world → gmap Z A) (p : ptr) : M A :=
  peek (λ w, f w !! p).

(** A change of the tasks and lists. *)
Definition on_store (f : task_store → option task_store) : M unit :=
  λ w, match f (w_store w) with Some s => Some (tt, set_store s w) | None => None end.

Definition on_list (f : lheap → option lheap) : M unit :=
  on_store (λ s, h ← f (ts_list s); Some (TaskStore h (ts_tasks s) (ts_routes s))).

Definition on_mem {A} (f : mem → A * mem) : M A :=
  λ w, let '(a, m) := f (w_mem w) in Some (a, set_mem m w).

Definition on_mem_opt {A} (f : mem → option (A * mem)) : M A :=
  λ w, match f (w_mem w) with Some (a, m) => Some (a, set_mem m w) | None => None end.

Definition emit (e : event) : M unit := modify (λ w, set_trace (w_trace w ++ [e]) w).

Definition get_task (p : ptr) : M flb_task :=
  peek (λ w, ts_tasks (w_store w) !! p).

(** [flb_errno()] only reports. *)
Definition flb_errno : M unit := emit Ev_error.

(** ** Allocation *)

Definition w_calloc (n size : Z) : M ptr := on_mem (flb_calloc n size).
Definition w_malloc (size : Z) : M ptr := on_mem (flb_malloc size).

(** The life of the objects in the block at [p] ends. *)
Definition drop_objects (p : ptr) (w : world) : world :=
  set_coros (delete p (w_coros w))
  (set_flushes (delete p (w_flushes w))
  (set_chunks (delete p (w_chunks w))
  (set_flush_params (delete p (w_flush_params w))
  (set_input_coros (delete p (w_input_coros w))
  (set_in_params (delete p (w_in_params w))
  (set_store (TaskStore
    (lh_clear p (p + block_size p (w_mem w)) (ts_list (w_store w)))
    (ts_tasks (w_store w)) (ts_routes (w_store w))) w)))))).

Definition w_free (p : ptr) : M unit := λ w,
  match flb_free p (w_mem w) with
  | Some m => Some (tt, set_mem m (drop_objects p w))
  | None => None
  end.

(** * libco *)

Record libco := Libco {
  co_create_mem : Z → mem → ptr * mem;      (** allocate a stack *)
  co_delete_mem : ptr → mem → option mem    (** release it *)
}.

Section coro.
Context (co : libco).

Definition co_active : M ptr := gets w_active.

Definition co_create (size : Z) (entry : cothread) : M ptr :=
  h ← on_mem (co_create_mem co size);
  if decide (h = NULL) then mret NULL
  else modify (λ w, set_threads (<[h := entry]> (w_threads w)) w);; mret h.

(** Deleting the cothread that runs is undefined. *)
Definition co_delete (h : ptr) : M unit :=
  me ← co_active;
  if decide (h = me) then fail
  else
    on_mem_opt (λ m, m ← co_delete_mem co h m; Some (tt, m));;
    modify (λ w, set_threads (delete h (w_threads w)) w).

(** [co_switch(h)]: the thread [h] runs until it switches again; the model
    covers the switches that come back to the thread that made the first one. *)
Definition co_switch (run : cothread → M (cothread * ptr)) (h : ptr) : M unit :=
  me ← co_active;
  t ← get w_threads h;
  modify (set_active h);;
  r ← run t;
  modify (λ w, set_threads (<[h := r.1]> (w_threads w)) w);;
  if decide (r.2 = me) then modify (set_active me) else fail.

(** * [flb_coro.h] *)

Definition flb_coro_get : M ptr := gets w_current.
Definition flb_coro_set (coro : ptr) : M unit := modify (set_current coro).

(** The switch that ends a turn of a coroutine: where control goes. *)
Definition flb_coro_yield (coro : ptr) (ended : Z) : M ptr :=
  c ← get w_coros coro;
  mret (co_caller c).

Definition flb_coro_destroy (coro : ptr) : M unit :=
  c ← get w_coros coro;
  (if decide (co_callee c ≠ NULL) then co_delete (co_callee c) else mret tt);;
  w_free coro.

Definition set_coro (p : ptr) (c : flb_coro) : M unit :=
  modify (λ w, set_coros (<[p := c]> (w_coros w)) w).

Definition flb_coro_resume (run : cothread → M (cothread * ptr)) (coro : ptr) : M unit :=
  flb_coro_set coro;;
  me ← co_active;
  c ← get w_coros coro;
  set_coro coro (Coro me (co_callee c) (co_data c));;
  co_switch run (co_callee c).

Definition flb_coro_create (data : ptr) : M ptr :=
  coro ← w_calloc 1 sizeof_flb_coro;
  if decide (coro = NULL) then flb_errno;; mret NULL
  else set_coro coro (Coro NULL NULL data);; mret coro.
End coro.
