(* ===== verification/RuntimeSpec.v ===== *)
(** Facts about the runtime: the monad, addresses never handed out, releasing
    objects, what is assumed of libco, creating and resuming a coroutine. *)
From S2P Require Import Prelude MkList Mem MkEvent Task Structs Runtime.

(** Unfolding of the monad. *)
Lemma run_bind {A B} (m : M A) (f : A → M B) w a w' :
  m w = Some (a, w') → (a ← m; f a) w = f a w'.
Proof. intros E. unfold mbind, M_bind. by rewrite E. Qed.

Lemma run_bind_none {A B} (m : M A) (f : A → M B) w : m w = None → (a ← m; f a) w = None.
Proof. intros E. unfold mbind, M_bind. by rewrite E. Qed.

Lemma bind_gets {A B} (g : world → A) (f : A → M B) w : (a ← gets g; f a) w = f (g w) w.
Proof. done. Qed.

Lemma bind_modify {B} g (k : M B) w : (modify g;; k) w = k (g w).
Proof. done. Qed.

Lemma bind_ret {A B} (a : A) (f : A → M B) w : (x ← mret a; f x) w = f a w.
Proof. done. Qed.

Lemma bind_emit {B} e (k : M B) w : (emit e;; k) w = k (set_trace (w_trace w ++ [e]) w).
Proof. done. Qed.

Lemma bind_assoc {A B C} (m : M A) (f : A → M B) (g : B → M C) w :
  (y ← (x ← m; f x); g y) w = (x ← m; y ← f x; g y) w.
Proof. unfold mbind, M_bind. by destruct (m w) as [[]|]. Qed.

Lemma set_mem_id w : set_mem (w_mem w) w = w.
Proof. by destruct w. Qed.

Lemma run_bind_inv {A B} (m : M A) (f : A → M B) w b w'' :
  (a ← m; f a) w = Some (b, w'') → ∃ a w', m w = Some (a, w') ∧ f a w' = Some (b, w'').
Proof. unfold mbind, M_bind. destruct (m w) as [[a w']|]; [eauto|done]. Qed.

Lemma run_get {A} (f : world → gmap Z A) p w a : f w !! p = Some a → get f p w = Some (a, w).
Proof. intros E. unfold get, peek. by rewrite E. Qed.

Lemma run_task p w t : ts_tasks (w_store w) !! p = Some t → get_task p w = Some (t, w).
Proof. intros E. unfold get_task, peek. by rewrite E. Qed.

Lemma run_store f w s : f (w_store w) = Some s → on_store f w = Some (tt, set_store s w).
Proof. intros E. unfold on_store. by rewrite E. Qed.

(** Addresses never handed out hold no object and no list node. *)
Record fresh_above (w : world) : Prop := {
  fa_wf : mem_wf (w_mem w);
  fa_coros p : mm_brk (w_mem w) ≤ p → w_coros w !! p = None;
  fa_flushes p : mm_brk (w_mem w) ≤ p → w_flushes w !! p = None;
  fa_chunks p : mm_brk (w_mem w) ≤ p → w_chunks w !! p = None;
  fa_flush_params p : mm_brk (w_mem w) ≤ p → w_flush_params w !! p = None;
  fa_input_coros p : mm_brk (w_mem w) ≤ p → w_input_coros w !! p = None;
  fa_in_params p : mm_brk (w_mem w) ≤ p → w_in_params w !! p = None;
  fa_threads p : mm_brk (w_mem w) ≤ p → w_threads w !! p = None;
  fa_next p : mm_brk (w_mem w) ≤ p → lh_next (ts_list (w_store w)) !! p = None;
  fa_prev p : mm_brk (w_mem w) ≤ p → lh_prev (ts_list (w_store w)) !! p = None
}.

(** What is documented of libco: [co_create] fails or gives a new handle, and
    [co_delete] releases it. *)
Record libco_ok (co : libco) : Prop := {
  co_create_ok size m h m' :
    mem_wf m → co_create_mem co size m = (h, m') →
    mem_wf m' ∧ mm_brk m ≤ mm_brk m' ∧
    (h = NULL ∧ mm_blocks m' = mm_blocks m ∨
     h ≠ NULL ∧ mm_brk m ≤ h < mm_brk m' ∧ ∃ b, mm_blocks m' = <[h := b]> (mm_blocks m));
  co_delete_ok h b m :
    mem_wf m → h ≠ NULL → mm_blocks m !! h = Some b →
    ∃ m', co_delete_mem co h m = Some m' ∧ mem_wf m' ∧ mm_brk m' = mm_brk m ∧
          mm_blocks m' = delete h (mm_blocks m)
}.

(** Stacks taken from the allocator satisfy it. *)
Definition malloc_libco : libco :=
  Libco (λ size, flb_malloc (Z.max 1 size)) flb_free.

Lemma flb_malloc_brk n m p m' :
  flb_malloc n m = (p, m') → mm_brk m ≤ mm_brk m' ∧ (p ≠ NULL → p = mm_brk m ∧ p < mm_brk m').
Proof.
  unfold flb_malloc, malloc, alloc. case_decide; [intros [= <- <-]; by split|].
  destruct (oracle_next m) as [[] o]; intros [= <- <-]; simpl; (split; [|intros ?]); try done;
    rewrite length_replicate; pose proof (align_up_ge (Z.of_nat (Z.to_nat n))); lia.
Qed.

Lemma malloc_libco_ok : libco_ok malloc_libco.
Proof.
  split.
  - intros size m h m' Hwf Ha. simpl in Ha. destruct (flb_malloc_brk _ _ _ _ Ha) as [Hb Hh].
    destruct (flb_malloc_cases _ _ _ _ Hwf Ha) as (? & _ & [[-> ?]|(_ & Hn & -> & _ & ?)]).
    + split_and!; auto.
    + destruct (Hh Hn). split_and!; try done. right. split_and!; [done|lia..|]. by eexists.
  - intros h b m Hwf Hn Hb. simpl. unfold flb_free. rewrite (free_live _ _ _ Hn Hb).
    eexists. split; [done|]. split; [|done]. eapply free_wf; [exact Hwf|]. by apply (free_live _ _ _ Hn Hb).
Qed.

Lemma flb_calloc_cases n size m p m' :
  mem_wf m → size ≠ 0 → flb_calloc n size m = (p, m') →
  mem_wf m' ∧ mm_brk m ≤ mm_brk m' ∧
  (p = NULL ∧ mm_blocks m' = mm_blocks m ∨
   p ≠ NULL ∧ p = mm_brk m ∧ p + n * size < mm_brk m' ∧ mm_blocks m !! p = None ∧
   mm_blocks m' = <[p := replicate (Z.to_nat (n * size)) (Some 0)]> (mm_blocks m)).
Proof.
  intros Hwf Hs. unfold flb_calloc, calloc. rewrite decide_False by done.
  case_decide; [intros [= <- <-]; split_and!; auto; lia|]. intros Ha.
  destruct (alloc_brk _ _ _ _ Ha) as [Hb Hp].
  destruct (alloc_cases _ _ _ _ Hwf Ha) as [? [[??]|(Hn & ? & ?)]]; [split_and!; auto|].
  split_and!; try done. right. split_and!; auto. specialize (Hp Hn).
  unfold alloc in Ha. destruct (oracle_next m) as [[] o]; injection Ha as <- <-; [|done]. simpl.
  rewrite length_replicate. pose proof (align_up_ge (Z.of_nat (Z.to_nat (n * size)))). lia.
Qed.

(** When memory is not short, allocation succeeds. *)
Lemma flb_calloc_plenty n size m p m' :
  mem_wf m → size ≠ 0 → n * size < 2 ^ 64 → mm_oracle m = [] → flb_calloc n size m = (p, m') →
  p ≠ NULL ∧ mm_oracle m' = [].
Proof.
  intros Hwf Hs Hn Ho. unfold flb_calloc, calloc. rewrite decide_False by done. rewrite decide_False by lia.
  unfold alloc, oracle_next. rewrite Ho. intros [= <- <-]. split; [|done]. pose proof (proj1 (proj1 Hwf)). unfold NULL. lia.
Qed.

(** ** Releasing *)

Lemma w_free_run p b w :
  p ≠ NULL → mm_blocks (w_mem w) !! p = Some b →
  w_free p w = Some (tt, set_mem (Mem (delete p (mm_blocks (w_mem w))) (mm_brk (w_mem w))
                                      (mm_oracle (w_mem w))) (drop_objects p w)).
Proof. intros Hn Hb. unfold w_free, flb_free. by rewrite (free_live _ _ _ Hn Hb). Qed.

Lemma lh_clear_low lo hi h :
  (∀ p, lo ≤ p → lh_next h !! p = None) → (∀ p, lo ≤ p → lh_prev h !! p = None) →
  lh_clear lo hi h = h.
Proof.
  intros Hn Hp. destruct h as [nx pv]. unfold lh_clear. simpl in *. f_equal; apply map_filter_id;
    intros i x Hi; simpl; intros [Hlo _]; [by rewrite Hn in Hi|by rewrite Hp in Hi].
Qed.

Lemma lh_clear_dll lo hi h head l :
  dll h head l → (∀ x, x ∈ head :: l → x < lo ∨ hi ≤ x) → dll (lh_clear lo hi h) head l.
Proof.
  intros Hd Hx. eapply (dll_agree (seqZ lo (hi - lo)) h); [|intros x Hin%Hx; rewrite elem_of_seqZ; lia|done].
  intros x Hin. rewrite elem_of_seqZ in Hin. unfold lh_clear. simpl. rewrite !map_lookup_filter. split.
  - destruct (lh_next h !! x); simpl; [|done]. rewrite option_guard_True; [done|]. simpl. lia.
  - destruct (lh_prev h !! x); simpl; [|done]. rewrite option_guard_True; [done|]. simpl. lia.
Qed.

(** ** Creating and failing *)

(** What an attempt that fails may change: the allocator and the id counters;
    it may report errors. *)
Definition as_before (w w' : world) : Prop :=
  ∃ m ids errs, w' = set_trace (w_trace w ++ errs) (set_ids ids (set_mem m w)) ∧
    mem_wf m ∧ mm_brk (w_mem w) ≤ mm_brk m ∧ mm_blocks m = mm_blocks (w_mem w) ∧
    Forall (eq Ev_error) errs.

(** Releasing objects at fresh addresses undoes their creation. *)
Lemma drop_objects_fresh p b w :
  fresh_above w → mm_brk (w_mem w) ≤ p → 
  drop_objects p (set_mem b w) = set_mem b w.
Proof.
  intros Hf Hp. destruct w as [[lh tks rts] mm co fl ch fp ic ip ou ot cf ii cs th ac cu ky ik iv ids tr].
  destruct Hf as [? ? ? ? ? ? ? ? Hnext Hprev]; simpl in *. cbv [drop_objects]; wsimpl.
  rewrite !delete_id by auto. rewrite lh_clear_low; [done|intros; apply Hnext; lia|intros; apply Hprev; lia].
Qed.

(** Insertions at fresh keys followed by deletions leave a map as it was. *)
Ltac map_undo :=
  try done; apply map_eq; intros ?;
  rewrite ?lookup_delete, ?lookup_insert, ?lookup_delete; repeat case_decide; subst;
  first [done | symmetry; auto].

(** The nodes of a list lie below the break. *)
Lemma dll_below w head l x :
  fresh_above w → dll (ts_list (w_store w)) head l → x ∈ head :: l → x < mm_brk (w_mem w).
Proof.
  intros Hf Hd Hx. destruct (decide (x < mm_brk (w_mem w))) as [|Hge]; [done|].
  destruct (dll_next _ _ _ _ Hd Hx) as [y Hy].
  rewrite (fa_next _ Hf) in Hy by lia. done.
Qed.

Lemma fresh_block w p : fresh_above w → mm_brk (w_mem w) ≤ p → mm_blocks (w_mem w) !! p = None.
Proof.
  intros Hf Hp. destruct (mm_blocks (w_mem w) !! p) eqn:E; [|done].
  apply (proj2 (proj1 (fa_wf _ Hf))) in E. lia.
Qed.

Lemma below_fresh {A} (m : gmap Z A) b :
  map_Forall (λ k _, k < b) m → ∀ p, b ≤ p → m !! p = None.
Proof.
  intros H p Hp. destruct (m !! p) as [x|] eqn:E; [|done]. specialize (H p x E). simpl in H. lia.
Qed.

Lemma insert_fresh {A} (m : gmap Z A) k x lo b :
  (∀ p, lo ≤ p → m !! p = None) → lo ≤ b → k < b → ∀ p, b ≤ p → <[k := x]> m !! p = None.
Proof. intros Hm Hb Hk p Hp. rewrite lookup_insert_ne by lia. apply Hm. lia. Qed.

(** More memory is used, identifiers and the trace move on. *)
Lemma mem_fresh w m :
  fresh_above w → mem_wf m → mm_brk (w_mem w) ≤ mm_brk m → fresh_above (set_mem m w).
Proof. intros [] Hw Hb. split; simpl; try done; intros p Hp; eauto with lia. Qed.

Lemma as_before_fresh w w' : fresh_above w → as_before w w' → fresh_above w'.
Proof. intros Hf (m & ids & errs & -> & Hw & Hb & _). destruct (mem_fresh w m Hf Hw Hb). by split. Qed.

Lemma drop_free_fresh w p b :
  fresh_above w → p ≠ NULL → mm_blocks (w_mem w) !! p = Some b →
  fresh_above (set_mem (Mem (delete p (mm_blocks (w_mem w))) (mm_brk (w_mem w)) (mm_oracle (w_mem w)))
    (drop_objects p w)).
Proof.
  intros Hf Hp Hb. pose proof Hf as [Fw Fc Ff Fch Ffp Fic Fip Ft Fn Fp].
  split; simpl; [eapply free_wf; [exact Fw|by apply (free_live _ _ _ Hp Hb)]|..]; try done;
    intros q Hq; rewrite ?lookup_delete_None, ?map_lookup_filter; auto.
  - by rewrite Fn.
  - by rewrite Fp.
Qed.

(** Changing nodes of a list that exists. *)
Lemma store_fresh w h head l :
  fresh_above w → dll (ts_list (w_store w)) head l → agree_outside (head :: l) (ts_list (w_store w)) h →
  fresh_above (set_store (TaskStore h (ts_tasks (w_store w)) (ts_routes (w_store w))) w).
Proof.
  intros Hf Hd Hag. assert (Hout : ∀ p, mm_brk (w_mem w) ≤ p → p ∉ head :: l).
  { intros p Hp Hin. pose proof (dll_below w _ _ _ Hf Hd Hin). lia. }
  destruct Hf as [Fw Fc Ff Fch Ffp Fic Fip Ft Fn Fp]. split; simpl; try done; intros p Hp.
  - destruct (Hag p (Hout p Hp)) as [-> _]. by apply Fn.
  - destruct (Hag p (Hout p Hp)) as [_ ->]. by apply Fp.
Qed.

Lemma run_list f w h :
  f (ts_list (w_store w)) = Some h →
  on_list f w = Some (tt, set_store (TaskStore h (ts_tasks (w_store w)) (ts_routes (w_store w))) w).
Proof. intros E. unfold on_list. apply run_store. by rewrite E. Qed.

Lemma run_calloc n size w p m :
  flb_calloc n size (w_mem w) = (p, m) → w_calloc n size w = Some (p, set_mem m w).
Proof. intros E. unfold w_calloc, on_mem. by rewrite E. Qed.

Lemma run_malloc size w p m :
  flb_malloc size (w_mem w) = (p, m) → w_malloc size w = Some (p, set_mem m w).
Proof. intros E. unfold w_malloc, on_mem. by rewrite E. Qed.

(** [flb_coro_create]. *)
Lemma flb_coro_create_run data w p m :
  flb_calloc 1 sizeof_flb_coro (w_mem w) = (p, m) →
  flb_coro_create data w = Some (p,
    if decide (p = NULL) then set_trace (w_trace w ++ [Ev_error]) (set_mem m w)
    else set_coros (<[p := Coro NULL NULL data]> (w_coros w)) (set_mem m w)).
Proof.
  intros E. unfold flb_coro_create. rewrite (run_bind _ _ _ _ _ (run_calloc _ _ _ _ _ E)).
  by case_decide; subst.
Qed.

Lemma run_co_create co size entry w h m :
  co_create_mem (co) size (w_mem w) = (h, m) →
  co_create (co) size entry w = Some (h,
    if decide (h = NULL) then set_mem m w
    else set_threads (<[h := entry]> (w_threads w)) (set_mem m w)).
Proof.
  intros E. unfold co_create.
  assert (Em : on_mem (co_create_mem (co) size) w = Some (h, set_mem m w)) by (unfold on_mem; by rewrite E).
  rewrite (run_bind _ _ _ _ _ Em). destruct (decide (h = NULL)) as [->|]; done.
Qed.

(** [drop_objects] does not look at the tasks, the routes or the locks. *)
Lemma drop_objects_store p w s :
  drop_objects p w = w → ts_list s = ts_list (w_store w) →
  drop_objects p (set_store s w) = set_store s w.
Proof.
  destruct w as [[lh tks rts] mm co fl ch fp ic ip ou ot cf ii cs th ac cu ky ik iv ids0 tr0].
  destruct s as [lh' tks' rts']. cbv [drop_objects]. wsimpl. intros [= E1 E2 E3 E4 E5 E6 E7] ->. by f_equal; [f_equal|..].
Qed.

(** The objects that a flush only reads. *)
Definition same_objects (w w' : world) : Prop :=
  w_outs w' = w_outs w ∧ w_configs w' = w_configs w ∧
  w_flush_params w' = w_flush_params w ∧ w_input_coros w' = w_input_coros w ∧
  w_in_params w' = w_in_params w ∧ w_out_key w' = w_out_key w ∧ w_out_threads w' = w_out_threads w.

(** The world in which the coroutine runs. *)
Definition inside (w : world) (coro : ptr) (c : flb_coro) : world :=
  set_active (co_callee c) (set_coros (<[coro := Coro (w_active w) (co_callee c) (co_data c)]> (w_coros w))
    (set_current coro w)).

(** A resumption is one turn of the coroutine, after which control must be
    back in the engine. *)
Lemma flb_coro_resume_run w coro c st run st' w' :
  w_coros w !! coro = Some c → w_threads w !! co_callee c = Some st →
  run st (inside w coro c) = Some ((st', w_active w), w') →
  flb_coro_resume run coro w =
  Some (tt, set_active (w_active w) (set_threads (<[co_callee c := st']> (w_threads w')) w')).
Proof.
  intros Hc Hst Hrun. unfold flb_coro_resume, flb_coro_set, co_active, set_coro.
  rewrite bind_modify, bind_gets.
  rewrite (run_bind _ _ _ _ _ (run_get w_coros coro (set_current coro w) c Hc)).
  rewrite bind_modify. unfold co_switch, co_active. rewrite bind_gets. set (W := set_coros _ _).
  rewrite (run_bind _ _ _ _ _ (run_get w_threads (co_callee c) W st Hst)), bind_modify.
  assert (Hr : run st (set_active (co_callee c) W) = Some ((st', w_active w), w')) by exact Hrun.
  rewrite (run_bind _ _ _ _ _ Hr), bind_modify. simpl. by rewrite decide_True.
Qed.

(** The two blocks of a context of [n] bytes and its coroutine, on top of the
    memory before it. *)
Record two_blocks (n : Z) (w : world) (m : mem) (r coro : ptr) : Prop := {
  tb_wf : mem_wf m;
  tb_brk : mm_brk (w_mem w) ≤ mm_brk m;
  tb_r : r ≠ NULL ∧ mm_brk (w_mem w) ≤ r ∧ r + n < mm_brk m;
  tb_coro : coro ≠ NULL ∧ mm_brk (w_mem w) ≤ coro ∧ coro < mm_brk m;
  tb_ne : r ≠ coro;
  tb_blocks : ∃ br bc, mm_blocks m = <[coro := bc]> (<[r := br]> (mm_blocks (w_mem w))) ∧
    length br = Z.to_nat n
}.

(** Two successful allocations. *)
Lemma two_blocks_alloc n w r m1 coro m2 :
  mem_wf (w_mem w) → 0 < n →
  r ≠ NULL → r = mm_brk (w_mem w) → r + 1 * n < mm_brk m1 →
  mm_blocks m1 = <[r := replicate (Z.to_nat (1 * n)) (Some 0)]> (mm_blocks (w_mem w)) →
  mem_wf m2 → coro ≠ NULL → coro = mm_brk m1 → coro + 1 * sizeof_flb_coro < mm_brk m2 →
  mm_blocks m2 = <[coro := replicate (Z.to_nat (1 * sizeof_flb_coro)) (Some 0)]> (mm_blocks m1) →
  two_blocks n w m2 r coro.
Proof.
  intros Hwf Hn Hr0 Hr Hrn Hm1 Hwf2 Hc0 Hc Hcn Hm2. unfold sizeof_flb_coro in *.
  split; try done; [lia|split_and!; [done|lia|lia]|split_and!; [done|lia|lia]|lia|].
  eexists _, _. rewrite Hm2, Hm1. split; [reflexivity|]. rewrite length_replicate. f_equal. lia.
Qed.

(** ** Blocks that hold no object *)

(** No object of the program lies in the block at [p]: it holds plain bytes. *)
Record vacant (p : ptr) (w : world) : Prop := {
  va_coros : w_coros w !! p = None;
  va_flushes : w_flushes w !! p = None;
  va_chunks : w_chunks w !! p = None;
  va_flush_params : w_flush_params w !! p = None;
  va_input_coros : w_input_coros w !! p = None;
  va_in_params : w_in_params w !! p = None;
  va_list q : p ≤ q < p + block_size p (w_mem w) →
    lh_next (ts_list (w_store w)) !! q = None ∧ lh_prev (ts_list (w_store w)) !! q = None
}.

(** Releasing it ends the life of no object. *)
Lemma vacant_drop p w : vacant p w → drop_objects p w = w.
Proof.
  destruct w as [[[nx pv] tks rts] mm co fl ch fp ic ip ou ot cf ii cs th ac cu ky ik iv ids tr].
  intros []; simpl in *. cbv [drop_objects]; wsimpl. rewrite !delete_id by done. do 3 f_equal.
  unfold lh_clear. simpl. f_equal; apply map_filter_id; intros q x Hq; simpl; intros Hin;
    [by rewrite (proj1 (va_list0 q Hin)) in Hq|by rewrite (proj2 (va_list0 q Hin)) in Hq].
Qed.

(** Blocks that were never handed out are vacant. *)
Lemma fresh_vacant w p : fresh_above w → mm_brk (w_mem w) ≤ p → vacant p w.
Proof. intros [] Hp. split; auto. intros q Hq. split; [apply fa_next0|apply fa_prev0]; lia. Qed.

(** A block stays vacant as long as no object is put there. *)
Lemma vacant_same p w w' :
  vacant p w → w_coros w' !! p = w_coros w !! p → w_flushes w' !! p = w_flushes w !! p →
  w_chunks w' !! p = w_chunks w !! p → w_flush_params w' !! p = w_flush_params w !! p →
  w_input_coros w' !! p = w_input_coros w !! p → w_in_params w' !! p = w_in_params w !! p →
  mm_blocks (w_mem w') !! p = mm_blocks (w_mem w) !! p →
  (∀ q, p ≤ q < p + block_size p (w_mem w) →
     lh_next (ts_list (w_store w')) !! q = lh_next (ts_list (w_store w)) !! q ∧
     lh_prev (ts_list (w_store w')) !! q = lh_prev (ts_list (w_store w)) !! q) →
  vacant p w'.
Proof.
  intros [] E1 E2 E3 E4 E5 E6 Em El. split; rewrite ?E1, ?E2, ?E3, ?E4, ?E5, ?E6; try done.
  unfold block_size. rewrite Em. fold (block_size p (w_mem w)). intros q Hq. destruct (El q Hq) as [-> ->]. by apply va_list0.
Qed.

Lemma vacant_free p q b o w :
  vacant p w → p ≠ q → vacant p (set_mem (Mem (delete q (mm_blocks (w_mem w))) b o) (drop_objects q w)).
Proof.
  intros [] Hne. split; simpl; rewrite ?lookup_delete_ne by done; try done.
  unfold block_size at 1. simpl. rewrite lookup_delete_ne by done. intros x Hx.
  rewrite !map_lookup_filter. destruct (va_list0 x Hx) as [-> ->]. done.
Qed.

(** * Counting events *)

Definition tally (p : event → bool) (evs : list event) : nat := length (filter (λ e, p e = true) evs).

Lemma tally_app p l1 l2 : tally p (l1 ++ l2) = (tally p l1 + tally p l2)%nat.
Proof. unfold tally. by rewrite filter_app, length_app. Qed.

Lemma tally_none p evs : Forall (λ e, p e = false) evs → tally p evs = O.
Proof.
  unfold tally. induction 1 as [|e evs He _ IH]; [done|]. rewrite filter_cons_False; [done|]. by rewrite He.
Qed.
