(* ===== verification/Offsets.v ===== *)
(** The numbers the components use for offsets and sizes are those of the
    declared structures. *)
From stdpp Require Import strings.
From S2P Require Import Prelude MkList Mem BucketQueue MkEvent Task Bytes Layout Layouts Runtime.
Local Open Scope string_scope.

(** Every offset and every size that a component writes as a number is
    the one the compiler gives to the structure, computed from its
    declaration, whatever the sizes of the third-party types. *)
Theorem offsets_agree `{Externs} :
  Forall (λ x : ctype * string * Z, offsetof x.1.1 x.1.2 = Some x.2)
    [(struct_flb_task_route, "_head", tr_head_off); (struct_flb_task_retry, "_head", ty_head_off);
     (struct_flb_task, "routes", tk_routes_off); (struct_flb_task, "retries", tk_retries_off);
     (struct_flb_task, "_head", tk_head_off); (struct_flb_task_queue, "pending", tq_pending_off);
     (struct_flb_task_queue, "in_progress", tq_in_progress_off);
     (struct_flb_task_enqueued, "_head", te_head_off);
     (struct_mk_event, "_head", ev_head_off); (struct_mk_event, "_priority_head", ev_priority_head_off);
     (struct_flb_sds, "len", sds_len_off); (struct_flb_sds, "alloc", sds_alloc_off);
     (struct_flb_sds, "buf", FLB_SDS_HEADER_SIZE);
     (struct_flb_output_flush, "_head", of_head_off); (struct_flb_input_coro, "_head", ico_head_off)] ∧
  Forall (λ x : ctype * Z, sizeof x.1 = x.2)
    [(struct_mk_event, sizeof_mk_event); (struct_flb_bucket_queue, sizeof_bucket_queue);
     (struct_flb_coro, sizeof_flb_coro); (struct_flb_output_flush, sizeof_flb_output_flush);
     (struct_flb_out_flush_params, sizeof_flb_out_flush_params);
     (struct_flb_input_coro, sizeof_flb_input_coro);
     (struct_flb_libco_in_params, sizeof_flb_libco_in_params)].
Proof. split; repeat constructor. Qed.
