(* ===== verification/Output.v ===== *)
(** [flb_output.h]: the life of a flush.

    [flb_output_flush_create] prepares the context of one delivery of a task
    to an output, runs the processors of the output, creates the coroutine and
    starts it up to its first switch; [flb_coro_resume] later runs the flush
    callback of the plugin; [flb_output_return] reports the result to the
    engine.  The library functions the header calls are parameters. *)
From S2P Require Import Prelude MkList Mem MkEvent Codes Task Bytes Structs Runtime.

(** [flb_event.h], [flb_input_chunk.h], [flb_processor.h]. *)
Definition FLB_EVENT_TYPE_LOGS : Z := 0.
Definition FLB_EVENT_TYPE_METRICS : Z := 1.
Definition FLB_EVENT_TYPE_TRACES : Z := 2.

(** * The library *)

(** Decoding, processing and encoding of a kind of telemetry: cmetrics or
    ctraces.  Contexts are opaque. *)
Record telemetry := Telemetry {
  (** [X_decode_msgpack_create] on some bytes from an offset: a context and
      the offset after it, or any status that is not success *)
  tl_decode : list Z → Z → option (ptr * Z);
  (** [flb_processor_run] on a context: processor, tag, tag length, context *)
  tl_run : ptr → ptr → Z → ptr → Z;
  (** [X_encode_msgpack_create]: status, buffer and size *)
  tl_encode : ptr → mem → (Z * cptr * Z) * mem;
  tl_encode_destroy : cptr → mem → option mem
}.

Record output_lib := OutputLib {
  ol_co : libco;
  ol_flush_id_get : ptr → gmap Z Z → Z * gmap Z Z;
  ol_processor_is_active : ptr → Z;
  ol_processor_run_logs : ptr → ptr → Z → ptr → Z → mem → option ((Z * ptr * Z) * mem);
  ol_mp_count : ptr → Z → mem → Z;
  ol_metrics : telemetry;
  ol_traces : telemetry;
  ol_event_chunk_create :
    Z → Z → ptr → Z → ptr → Z → mem → option (ptr * flb_event_chunk) * mem;
  ol_event_chunk_destroy : ptr → mem → option mem;
  ol_thread_instance_get : ptr;
  (** [flb_pipe_w] of a value to a pipe, after what has happened: the number
      of bytes written, or -1 *)
  ol_pipe_w : list event → Z → Z → Z;
  ol_flush_prepare_destroy : ptr → lheap → option lheap;
  ol_cb_flush : flb_out_flush_params → M cb_result;
  ol_cb_resume : Z → M cb_result;
  ol_config_map_set : ptr → ptr → ptr → M Z;
  ol_thread_pool_coros_size : ptr → Z
}.

Section output.
Context (lib : output_lib).

(** ** Library calls on the world *)

Definition flb_output_flush_id_get (o_ins : ptr) : M Z :=
  λ w, let '(id, ids) := ol_flush_id_get lib o_ins (w_ids w) in Some (id, set_ids ids w).

Definition flb_event_chunk_create (type total : Z) (tag : ptr) (tag_len : Z) (data : ptr)
    (size : Z) : M ptr :=
  r ← on_mem (ol_event_chunk_create lib type total tag tag_len data size);
  match r with
  | Some (p, c) => modify (λ w, set_chunks (<[p := c]> (w_chunks w)) w);; mret p
  | None => mret NULL
  end.

Definition flb_event_chunk_destroy (p : ptr) : M unit :=
  _ ← get w_chunks p;
  on_mem_opt (λ m, m ← ol_event_chunk_destroy lib p m; Some (tt, m));;
  modify (λ w, set_chunks (delete p (w_chunks w)) w).

(** [flb_sds_len] of the string whose characters are at [s]. *)
Definition sds_len (s : ptr) : M Z :=
  peek (λ w, flb_sds_len (s - FLB_SDS_HEADER_SIZE, FLB_SDS_HEADER_SIZE) (w_mem w)).

Definition set_flush (p : ptr) (f : flb_output_flush) : M unit :=
  modify (λ w, set_flushes (<[p := f]> (w_flushes w)) w).

Definition set_processed (chunk : ptr) (f : flb_output_flush) : flb_output_flush :=
  OutputFlush (of_id f) (of_buffer f) (of_task f) (of_config f) (of_o_ins f) (of_coro f) chunk.

(** ** Small functions *)

Definition flb_output_is_threaded (ins : ptr) : M Z :=
  o ← get w_outs ins;
  mret (oi_is_threaded o).

Definition flb_output_flush_destroy (out_flush : ptr) : M unit :=
  f ← get w_flushes out_flush;
  on_list (mk_list_del (out_flush + of_head_off));;
  flb_coro_destroy (ol_co lib) (of_coro f);;
  w_free out_flush.

Definition flb_output_coros_size (ins : ptr) : M Z :=
  t ← flb_output_is_threaded ins;
  if decide (t = FLB_TRUE) then mret (ol_thread_pool_coros_size lib ins)
  else
    o ← get w_outs ins;
    peek (λ w, mk_list_size (oi_flush_list o) (ts_list (w_store w))).

(** [net_setup] is the address of the field of that name of the instance. *)
Definition flb_output_config_map_set (ins context net_setup : ptr) : M Z :=
  o ← get w_outs ins;
  ret ← (if decide (oi_config_map o ≠ NULL) then
           ol_config_map_set lib (oi_properties o) (oi_config_map o) context
         else mret 0);
  if decide (ret = -1) then mret (-1)
  else
    ret ← (if decide (oi_net_config_map o ≠ NULL) then
             ol_config_map_set lib (oi_net_properties o) (oi_net_config_map o) net_setup
           else mret 0);
    if decide (ret = -1) then mret (-1) else mret 0.

(** ** Returning *)

Definition flb_output_return (ret : Z) (co : ptr) : M unit :=
  c ← get w_coros co;
  let out_flush := co_data c in
  f ← get w_flushes out_flush;
  let o_ins := of_o_ins f in
  let task := of_task f in
  on_store (flb_task_acquire_lock task);;
  on_store (flb_task_deactivate_route task o_ins);;
  on_store (flb_task_release_lock task);;
  (if decide (of_processed_event_chunk f ≠ NULL) then
     t ← get_task task;
     evc ← get w_chunks (tk_event_chunk t);
     pc ← get w_chunks (of_processed_event_chunk f);
     (if decide (ec_data evc ≠ ec_data pc) then w_free (ec_data pc) else mret tt);;
     flb_event_chunk_destroy (of_processed_event_chunk f);;
     set_flush out_flush (set_processed NULL f)
   else mret tt);;
  t ← get_task task;
  o ← get w_outs o_ins;
  let val := FLB_BITS_U64_SET 2 (FLB_TASK_SET ret (tk_id t) (oi_id o)) in
  threaded ← flb_output_is_threaded o_ins;
  pipe_fd ←
    (if decide (threaded = FLB_TRUE) then
       th_ins ← get w_out_threads (ol_thread_instance_get lib);
       mret (ti_ch_thread_events th_ins !!! 1%nat)
     else mret (oi_ch_events o !!! 1%nat));
  n ← gets (λ w, ol_pipe_w lib (w_trace w) pipe_fd val);
  emit (Ev_pipe pipe_fd val n);;
  (if decide (n = -1) then flb_errno else mret tt);;
  emit (Ev_flush_prepare_destroy out_flush);;
  on_list (ol_flush_prepare_destroy lib out_flush).

(** The turn of the coroutine ends where the yield goes. *)
Definition flb_output_return_do (x : Z) : M ptr :=
  coro ← flb_coro_get;
  flb_output_return x coro;;
  flb_coro_yield coro FLB_TRUE.

(** ** The body of the coroutine *)

(** The callback gives control back. *)
Definition callback_turn (r : cb_result) : M (cothread * ptr) :=
  match r with
  | CB_return x => target ← flb_output_return_do x; mret (CT_returned, target)
  | CB_suspend k =>
      coro ← flb_coro_get;
      target ← flb_coro_yield coro FLB_FALSE;
      mret (CT_callback k, target)
  end.

(** [output_pre_cb_flush] up to its [co_switch].  Without parameters it would
    return from the entry point of a coroutine, which libco does not allow. *)
Definition output_pre_cb_flush_start : M (cothread * ptr) :=
  key ← gets w_out_key;
  if decide (key = NULL) then fail
  else
    params ← get w_flush_params key;
    coro ← get w_coros (fp_coro params);
    mret (CT_output_ready params, co_caller coro).

(** The rest of [output_pre_cb_flush]. *)
Definition output_pre_cb_flush_resume (persisted_params : flb_out_flush_params)
  : M (cothread * ptr) :=
  f ← get w_flushes (fp_out_flush persisted_params);
  on_store (flb_task_acquire_lock (of_task f));;
  route_status ← peek (λ w, flb_task_get_route_status (of_task f) (of_o_ins f) (w_store w));
  if decide (route_status = FLB_TASK_ROUTE_DROPPED) then
    on_store (flb_task_release_lock (of_task f));;
    target ← flb_output_return_do FLB_ERROR;
    mret (CT_returned, target)
  else
    on_store (flb_task_activate_route (of_task f) (of_o_ins f));;
    on_store (flb_task_release_lock (of_task f));;
    emit (Ev_callback persisted_params);;
    r ← ol_cb_flush lib persisted_params;
    callback_turn r.

(** A turn of the coroutine of a flush. *)
Definition output_run (t : cothread) : M (cothread * ptr) :=
  match t with
  | CT_output_start => output_pre_cb_flush_start
  | CT_output_ready params => output_pre_cb_flush_resume params
  | CT_callback k => r ← ol_cb_resume lib k; callback_turn r
  | _ => fail
  end.

Definition output_params_set (out_flush coro task out_plugin out_context config : ptr) : M unit :=
  key ← gets w_out_key;
  params ← (if decide (key = NULL) then w_malloc sizeof_flb_out_flush_params else mret key);
  if decide (params = NULL) then flb_errno
  else
    f ← get w_flushes out_flush;
    t ← get_task task;
    let chunk :=
      if decide (of_processed_event_chunk f ≠ NULL) then of_processed_event_chunk f
      else tk_event_chunk t in
    let p := OutFlushParams chunk out_flush (tk_i_ins t) out_plugin out_context config coro in
    modify (λ w, set_flush_params (<[params := p]> (w_flush_params w)) w);;
    modify (set_out_key params);;
    c ← get w_coros coro;
    co_switch output_run (co_callee c).

(** ** Processors *)

Definition discard (coro out_flush : ptr) : M unit :=
  flb_coro_destroy (ol_co lib) coro;; w_free out_flush.

Definition update_flush (out_flush chunk : ptr) : M unit :=
  f ← get w_flushes out_flush;
  set_flush out_flush (set_processed chunk f).

(** The branch for logs; false when the flush has been abandoned. *)
Definition process_logs (evc : flb_event_chunk) (processor coro out_flush : ptr) : M bool :=
  tag_len ← sds_len (ec_tag evc);
  r ← on_mem_opt (ol_processor_run_logs lib processor (ec_tag evc) tag_len (ec_data evc) (ec_size evc));
  let '(ret, p_buf, p_size) := r in
  if decide (ret = -1 ∨ p_size = 0) then discard coro out_flush;; mret false
  else
    records ← gets (λ w, ol_mp_count lib p_buf p_size (w_mem w));
    if decide (records = 0) then discard coro out_flush;; w_free p_buf;; mret false
    else
      tag_len ← sds_len (ec_tag evc);
      tmp ← flb_event_chunk_create (ec_type evc) records (ec_tag evc) tag_len p_buf p_size;
      if decide (tmp = NULL) then discard coro out_flush;; w_free p_buf;; mret false
      else update_flush out_flush tmp;; mret true.

Section telemetry.
Context (tl : telemetry) (evc : flb_event_chunk) (processor coro out_flush : ptr).

Definition encode_destroy (buf : cptr) : M unit :=
  on_mem_opt (λ m, m ← tl_encode_destroy tl buf m; Some (tt, m)).

(** Serialise a context the processors accepted at the end of the buffer,
    which grows when it is too small; [None] when the flush has been
    abandoned. *)
Definition append_context (context p_buf p_size serialization_buffer_offset : Z)
  : M (option (ptr * Z * Z)) :=
  r ← on_mem (tl_encode tl context);
  let '(ret, buffer, size) := r in
  emit (Ev_context_destroyed context);;
  if decide (ret ≠ 0) then discard coro out_flush;; w_free p_buf;; mret None
  else
    grown ← (if decide (p_size < size_t (serialization_buffer_offset + size)) then
               resized ← on_mem_opt (flb_realloc p_buf (size_t (p_size + size)));
               if decide (resized = NULL) then
                 encode_destroy buffer;; discard coro out_flush;; w_free p_buf;; mret None
               else mret (Some (resized, size_t (p_size + size)))
             else mret (Some (p_buf, p_size)));
    match grown with
    | None => mret None
    | Some (p_buf, p_size) =>
        on_mem_opt (λ m,
          m ← memcpy p_buf serialization_buffer_offset buffer.1 buffer.2 size m; Some (tt, m));;
        encode_destroy buffer;;
        mret (Some (p_buf, p_size, size_t (serialization_buffer_offset + size)))
    end.

(** The [while] loop; [None] when the flush has been abandoned. *)
Fixpoint telemetry_loop (fuel : nat) (p_buf p_size serialization_buffer_offset chunk_offset : Z)
  : M (option (ptr * Z * Z)) :=
  match fuel with
  | O => fail
  | S fuel =>
      data ← peek (λ w, mem_load (ec_data evc) 0 (ec_size evc) (w_mem w));
      match tl_decode tl data chunk_offset with
      | None => mret (Some (p_buf, p_size, serialization_buffer_offset))
      | Some (context, chunk_offset) =>
          emit (Ev_context_created context);;
          tag_len ← sds_len (ec_tag evc);
          if decide (tl_run tl processor (ec_tag evc) tag_len context = 0) then
            r ← append_context context p_buf p_size serialization_buffer_offset;
            match r with
            | None => mret None
            | Some (p_buf, p_size, serialization_buffer_offset) =>
                telemetry_loop fuel p_buf p_size serialization_buffer_offset chunk_offset
            end
          else telemetry_loop fuel p_buf p_size serialization_buffer_offset chunk_offset
      end
  end.

(** Every context consumes at least one byte of the chunk. *)
Definition process_telemetry : M bool :=
  p_buf ← w_calloc (size_t (ec_size evc * 2)) 1;
  if decide (p_buf = NULL) then discard coro out_flush;; mret false
  else
    r ← telemetry_loop (S (Z.to_nat (ec_size evc))) p_buf (ec_size evc) 0 0;
    match r with
    | None => mret false
    | Some (p_buf, p_size, serialization_buffer_offset) =>
        if decide (serialization_buffer_offset = 0) then
          discard coro out_flush;; w_free p_buf;; mret false
        else
          tag_len ← sds_len (ec_tag evc);
          chunk ← flb_event_chunk_create (ec_type evc) 0 (ec_tag evc) tag_len p_buf p_size;
          update_flush out_flush chunk;;
          if decide (chunk = NULL) then discard coro out_flush;; w_free p_buf;; mret false
          else mret true
    end.
End telemetry.

Definition process_metrics := process_telemetry (ol_metrics lib).
Definition process_traces := process_telemetry (ol_traces lib).

(** ** Creation *)

(** From [coro->caller = co_active()] to the end. *)
Definition flush_start (task o_ins config coro out_flush : ptr) : M ptr :=
  caller ← co_active;
  c ← get w_coros coro;
  cfg ← get w_configs config;
  callee ← co_create (ol_co lib) (cf_coro_stack_size cfg) CT_output_start;
  set_coro coro (Coro caller callee (co_data c));;
  if decide (callee = NULL) then
    flb_coro_destroy (ol_co lib) coro;;
    f ← get w_flushes out_flush;
    (if decide (of_processed_event_chunk f ≠ NULL) then
       pc ← get w_chunks (of_processed_event_chunk f);
       w_free (ec_data pc);;
       flb_event_chunk_destroy (of_processed_event_chunk f)
     else mret tt);;
    w_free out_flush;;
    mret NULL
  else
    o ← get w_outs o_ins;
    (if decide (oi_is_threaded o = FLB_TRUE) then
       let th := ol_thread_instance_get lib in
       th_ins ← get w_out_threads th;
       (if ti_flush_mutex th_ins then fail
        else modify (λ w, set_out_threads (<[th := set_ti_flush_mutex true th_ins]> (w_out_threads w)) w));;
       on_list (mk_list_add (out_flush + of_head_off) (ti_flush_list th_ins));;
       modify (λ w, set_out_threads (<[th := set_ti_flush_mutex false th_ins]> (w_out_threads w)) w)
     else on_list (mk_list_add (out_flush + of_head_off) (oi_flush_list o)));;
    output_params_set out_flush coro task (oi_p o) (oi_context o) config;;
    mret out_flush.

(** The processors of the output, by the kind of the chunk; false when the
    flush has been abandoned. *)
Definition run_processors (evc : flb_event_chunk) (o : flb_output_instance) (coro out_flush : ptr) : M bool :=
  if decide (ol_processor_is_active lib (oi_processor o) ≠ 0) then
    if decide (ec_type evc = FLB_EVENT_TYPE_LOGS) then
      process_logs evc (oi_processor o) coro out_flush
    else if decide (ec_type evc = FLB_EVENT_TYPE_METRICS) then
      process_metrics evc (oi_processor o) coro out_flush
    else if decide (ec_type evc = FLB_EVENT_TYPE_TRACES) then
      process_traces evc (oi_processor o) coro out_flush
    else mret true
  else mret true.

Definition flb_output_flush_create (task i_ins o_ins config : ptr) : M ptr :=
  out_flush ← w_calloc 1 sizeof_flb_output_flush;
  if decide (out_flush = NULL) then flb_errno;; mret NULL
  else
    set_flush out_flush (OutputFlush 0 NULL NULL NULL NULL NULL NULL);;
    coro ← flb_coro_create out_flush;
    if decide (coro = NULL) then w_free out_flush;; mret NULL
    else
      id ← flb_output_flush_id_get o_ins;
      t ← get_task task;
      evc ← get w_chunks (tk_event_chunk t);
      set_flush out_flush (OutputFlush id (ec_data evc) task config o_ins coro NULL);;
      o ← get w_outs o_ins;
      continue ← run_processors evc o coro out_flush;
      if (continue : bool) then flush_start task o_ins config coro out_flush else mret NULL.
End output.
