(* ===== verification/OutputSpec.v ===== *)
(** What [flb_output.h] promises: creating, resuming, returning from and
    destroying a flush. *)
From S2P Require Import Prelude MkList Mem MkEvent Codes Task Bytes Structs Runtime RuntimeSpec Output.

(** The lists that hold the flushes of an output, under way and done: those of
    the worker thread [th] for a threaded output, else its own. *)
Definition live_list (th : flb_out_thread_instance) (o : flb_output_instance) : ptr :=
  if decide (oi_is_threaded o = FLB_TRUE) then ti_flush_list th else oi_flush_list o.
Definition done_list (th : flb_out_thread_instance) (o : flb_output_instance) : ptr :=
  if decide (oi_is_threaded o = FLB_TRUE) then ti_flush_list_destroy th else oi_flush_list_destroy o.

Section create.
Context (lib : output_lib) (Hco : libco_ok (ol_co lib)).
Context (task i_ins o_ins config : ptr).

(** The worker thread that runs, for an output that is threaded. *)
Context (worker : flb_out_thread_instance).

(** No processor is run: there is none, or not for a chunk of this kind. *)
Definition unprocessed (evc : flb_event_chunk) (o : flb_output_instance) : Prop :=
  ol_processor_is_active lib (oi_processor o) = 0 ∨
  ec_type evc ∉ [FLB_EVENT_TYPE_LOGS; FLB_EVENT_TYPE_METRICS; FLB_EVENT_TYPE_TRACES].

#[export] Instance unprocessed_dec evc o : Decision (unprocessed evc o).
Proof. unfold unprocessed. apply _. Defined.

Lemma unprocessed_run evc o coro r : unprocessed evc o → run_processors lib evc o coro r = mret true.
Proof.
  unfold run_processors. intros [->|Hty]; [by rewrite decide_False by (intros H; by apply H)|].
  rewrite !not_elem_of_cons in Hty. destruct Hty as (? & ? & ? & _). rewrite !(decide_False (P := ec_type _ = _)) by done.
  by case_decide.
Qed.

(** The task, its chunk and the output exist; the mutex of the worker thread
    is free and no processor is run. *)
Record create_pre (w : world) (t : flb_task) (evc : flb_event_chunk) (o : flb_output_instance)
    (cfg : flb_config) (l : list ptr) : Prop := {
  cp_fresh : fresh_above w;
  cp_task : ts_tasks (w_store w) !! task = Some t;
  cp_chunk : w_chunks w !! tk_event_chunk t = Some evc;
  cp_out : w_outs w !! o_ins = Some o;
  cp_config : w_configs w !! config = Some cfg;
  cp_list : dll (ts_list (w_store w)) (live_list worker o) l;
  cp_thread : oi_is_threaded o = FLB_TRUE →
    w_out_threads w !! ol_thread_instance_get lib = Some worker ∧ ti_flush_mutex worker = false;
  cp_noproc : unprocessed evc o
}.

(** The context of a flush has been created: recorded, linked last in the list
    of the output or of the worker thread, its coroutine suspended at its first switch with the
    parameters of this flush.  If the thread-local parameters cannot be
    allocated the coroutine has not started. *)
Record created_as (w w' : world) (t : flb_task) (evc : flb_event_chunk) (o : flb_output_instance)
    (l : list ptr) (r id coro callee : ptr) (st : cothread) : Prop := {
  cr_new : (r ≠ NULL ∧ coro ≠ NULL ∧ callee ≠ NULL) ∧
    (mm_brk (w_mem w) ≤ r ∧ mm_brk (w_mem w) ≤ coro ∧ mm_brk (w_mem w) ≤ callee) ∧
    r ≠ coro ∧ r ≠ callee ∧ coro ≠ callee;
  cr_flush : w_flushes w' = <[r := OutputFlush id (ec_data evc) task config o_ins coro NULL]> (w_flushes w);
  cr_coro : w_coros w' = <[coro := Coro (w_active w) callee r]> (w_coros w);
  cr_thread : w_threads w' = <[callee := st]> (w_threads w);
  cr_list : dll (ts_list (w_store w')) (live_list worker o) (l ++ [r + of_head_off]);
  cr_frame : agree_outside (r + of_head_off :: live_list worker o :: l) (ts_list (w_store w)) (ts_list (w_store w'));
  cr_static : ts_tasks (w_store w') = ts_tasks (w_store w) ∧ ts_routes (w_store w') = ts_routes (w_store w) ∧
     w_active w' = w_active w ∧ w_current w' = w_current w ∧ w_chunks w' = w_chunks w ∧
     w_outs w' = w_outs w ∧ w_out_threads w' = w_out_threads w;
  (** three blocks, and one more when it is the first flush of the thread *)
  cr_wf : mem_wf (w_mem w');
  cr_mem : ∃ br bc bh kept, mm_blocks (w_mem w') = kept ∪ <[callee := bh]> (<[coro := bc]> (<[r := br]> (mm_blocks (w_mem w)))) ∧
     length br = Z.to_nat sizeof_flb_output_flush ∧
     (kept = ∅ ∧ w_out_key w' = w_out_key w ∨ w_out_key w = NULL ∧ ∃ b, kept = {[ w_out_key w' := b ]} ∧
        mm_brk (w_mem w) ≤ w_out_key w' ∧ w_out_key w' ∉ [r; coro; callee]);
  cr_fresh : w_configs w' = w_configs w ∧ mm_brk (w_mem w) ≤ mm_brk (w_mem w') ∧
     (w_out_key w < mm_brk (w_mem w) → fresh_above w');
  cr_start :
    st = CT_output_ready (OutFlushParams (tk_event_chunk t) r (tk_i_ins t) (oi_p o)
            (oi_context o) config coro) ∧ w_trace w' = w_trace w ∨
    st = CT_output_start ∧ w_out_key w = NULL ∧ w_trace w' = w_trace w ++ [Ev_error];
  cr_others : w_input_coros w' = w_input_coros w ∧ w_in_params w' = w_in_params w ∧
    ∀ p, p ≠ w_out_key w' → w_flush_params w' !! p = w_flush_params w !! p
}.

Definition created (w w' : world) (t : flb_task) (evc : flb_event_chunk)
    (o : flb_output_instance) (l : list ptr) (r : ptr) : Prop :=
  ∃ id coro callee st, created_as w w' t evc o l r id coro callee st.

(** The chunk that a flush delivers: the processed one if there is one. *)
Definition flush_chunk (f : flb_output_flush) (t : flb_task) : ptr :=
  if decide (of_processed_event_chunk f ≠ NULL) then of_processed_event_chunk f else tk_event_chunk t.

(** The coroutine is at its first switch with these parameters, in the object
    of the thread, or in a new one if there was none; or memory is short for it
    and the coroutine has not started. *)
Definition switched (w w' : world) (callee : ptr) (params : flb_out_flush_params) : Prop :=
  (∃ m key, mem_wf m ∧ mm_brk (w_mem w) ≤ mm_brk m ∧ key ≠ NULL ∧
     (mm_blocks m = mm_blocks (w_mem w) ∧ key = w_out_key w ∨
      w_out_key w = NULL ∧ mm_brk (w_mem w) ≤ key ∧ ∃ b, mm_blocks m = <[key := b]> (mm_blocks (w_mem w))) ∧
     w' = set_threads (<[callee := CT_output_ready params]> (w_threads w))
          (set_out_key key (set_flush_params (<[key := params]> (w_flush_params w)) (set_mem m w)))) ∨
  (∃ m, mem_wf m ∧ mm_brk (w_mem w) ≤ mm_brk m ∧ w_out_key w = NULL ∧
     mm_blocks m = mm_blocks (w_mem w) ∧ w' = set_trace (w_trace w ++ [Ev_error]) (set_mem m w)).

(** Starting the coroutine up to its first switch. *)
Lemma params_set_run w out_flush coro out_plugin out_context f t c :
  mem_wf (w_mem w) → w_flushes w !! out_flush = Some f →
  ts_tasks (w_store w) !! task = Some t → w_coros w !! coro = Some c →
  w_threads w !! co_callee c = Some CT_output_start → co_caller c = w_active w →
  let params := OutFlushParams (flush_chunk f t) out_flush (tk_i_ins t) out_plugin out_context config coro in
  ∃ w', output_params_set lib out_flush coro task out_plugin out_context config w = Some (tt, w') ∧
    switched w w' (co_callee c) params.
Proof.
  intros Hf Hfl Ht Hc Hth Hcaller params. unfold output_params_set.
  assert (∃ key m, (if decide (w_out_key w = NULL) then w_malloc sizeof_flb_out_flush_params
                    else mret (w_out_key w)) w = Some (key, set_mem m w) ∧
            mem_wf m ∧ mm_brk (w_mem w) ≤ mm_brk m ∧
            (key = NULL → w_out_key w = NULL ∧ mm_blocks m = mm_blocks (w_mem w)) ∧
            (mm_blocks m = mm_blocks (w_mem w) ∧ key = w_out_key w ∨
             w_out_key w = NULL ∧ mm_brk (w_mem w) ≤ key ∧ ∃ b, mm_blocks m = <[key := b]> (mm_blocks (w_mem w))))
    as (key & m & Ek & Hwf & Hb & Hkey & Hbl).
  { case_decide as Hk.
    - destruct (flb_malloc sizeof_flb_out_flush_params (w_mem w)) as [key m] eqn:Ea.
      destruct (flb_malloc_cases _ _ _ _ Hf Ea) as (? & ? & Hcs).
      exists key, m. split; [by apply run_malloc|]. split_and!; auto.
      + intros Hn. destruct Hcs as [[_ ?]|(_ & ? & _)]; done.
      + destruct Hcs as [[-> ?]|(_ & _ & Hkb & _ & ?)]; [by left|right]. split_and!; [done|lia|by eexists].
    - exists (w_out_key w), (w_mem w). split; [|split_and!; [done|lia|done|by left]].
      by rewrite set_mem_id. }
  rewrite bind_gets, (run_bind _ _ _ _ _ Ek).
  destruct (decide (key = NULL)) as [Hn|Hn].
  { eexists. split; [reflexivity|]. right. exists m. destruct (Hkey Hn). split_and!; auto. }
  rewrite (run_bind _ _ _ _ _ (run_get w_flushes out_flush (set_mem m w) f Hfl)).
  rewrite (run_bind _ _ _ _ _ (run_task task (set_mem m w) t Ht)). fold (flush_chunk f t) params.
  rewrite !bind_modify.
  set (w2 := set_out_key key _).
  rewrite (run_bind _ _ _ _ _ (run_get w_coros coro w2 c Hc)). unfold co_switch, co_active.
  rewrite bind_gets, (run_bind _ _ _ _ _ (run_get w_threads (co_callee c) w2 CT_output_start Hth)).
  rewrite bind_modify. simpl output_run. set (w3 := set_active (co_callee c) w2).
  assert (Hs : output_pre_cb_flush_start w3 = Some ((CT_output_ready params, co_caller c), w3)).
  { unfold output_pre_cb_flush_start. rewrite bind_gets, decide_False by done.
    assert (Hp3 : w_flush_params w3 !! w_out_key w3 = Some params) by apply lookup_insert_eq.
    rewrite (run_bind _ _ _ _ _ (run_get w_flush_params (w_out_key w3) w3 params Hp3)). simpl fp_coro.
    by rewrite (run_bind _ _ _ _ _ (run_get w_coros coro w3 c Hc)). }
  rewrite (run_bind _ _ _ _ _ Hs), bind_modify. simpl snd. simpl fst.
  rewrite decide_True by (rewrite Hcaller; done).
  eexists. split; [done|]. left. exists m, key. split_and!; try done.
Qed.

Lemma output_params_set_run w out_flush coro out_plugin out_context f t c :
  mem_wf (w_mem w) → w_flushes w !! out_flush = Some f → of_processed_event_chunk f = NULL →
  ts_tasks (w_store w) !! task = Some t → w_coros w !! coro = Some c →
  w_threads w !! co_callee c = Some CT_output_start → co_caller c = w_active w →
  let params := OutFlushParams (tk_event_chunk t) out_flush (tk_i_ins t) out_plugin out_context config coro in
  ∃ w', output_params_set lib out_flush coro task out_plugin out_context config w = Some (tt, w') ∧
    switched w w' (co_callee c) params.
Proof.
  intros Hf Hfl Hpr Ht Hc Hth Hcaller. pose proof (params_set_run w out_flush coro out_plugin out_context f t c Hf Hfl Ht Hc Hth Hcaller) as H.
  unfold flush_chunk in H. by rewrite Hpr, decide_False in H by (intros E; by apply E).
Qed.

(** The world in which the context exists and nothing has been started. *)
Definition prepared (w : world) (m : mem) (ids : gmap Z Z) (r coro : ptr) (f : flb_output_flush) : world :=
  set_ids ids (set_coros (<[coro := Coro NULL NULL r]> (w_coros w))
    (set_flushes (<[r := f]> (w_flushes w)) (set_mem m w))).

Lemma drop_prepared w m m' ids r coro c f :
  fresh_above w → mm_brk (w_mem w) ≤ r → mm_brk (w_mem w) ≤ coro →
  drop_objects r (set_mem m' (drop_objects coro (set_coros (<[coro := c]> (w_coros w))
    (prepared w m ids r coro f)))) = set_ids ids (set_mem m' w).
Proof.
  intros Hf Hr Hc. destruct w as [[lh tks rts] mm co fl ch fp ic ip ou ot cf ii cs th ac cu ky ik iv ids0 tr].
  destruct Hf; simpl in *. cbv [prepared drop_objects]; wsimpl.
  rewrite (lh_clear_low coro _ lh), (lh_clear_low r _ lh)
    by (intros; first [apply fa_next|apply fa_prev]; lia).
  f_equal; map_undo.
Qed.

Lemma bind_set_flush {B} p f (k : M B) w :
  (set_flush p f;; k) w = k (set_flushes (<[p := f]> (w_flushes w)) w).
Proof. done. Qed.

Abbreviation two_blocks := (two_blocks sizeof_flb_output_flush).

(** Giving the two blocks back. *)
Lemma discard_run w m ids r coro c f :
  fresh_above w → two_blocks w m r coro → co_callee c = NULL →
  ∃ w', as_before w w' ∧
    (flb_coro_destroy (ol_co lib) coro;; g ← get w_flushes r;
     (if decide (of_processed_event_chunk g ≠ NULL) then
        pc ← get w_chunks (of_processed_event_chunk g);
        w_free (ec_data pc);; flb_event_chunk_destroy lib (of_processed_event_chunk g)
      else mret tt);; w_free r;; mret NULL)
      (set_coros (<[coro := c]> (w_coros w)) (prepared w m ids r coro
         (set_processed NULL f))) = Some (NULL, w').
Proof.
  intros Hf [Hwf Hbrk (Hr0 & Hr & _) (Hc0 & Hc & _) Hne (br & bc & Hb & _)] Hcal.
  set (W := set_coros _ _).
  assert (Hd : flb_coro_destroy (ol_co lib) coro W = Some (tt, set_mem (Mem (delete coro (mm_blocks m)) (mm_brk m) (mm_oracle m)) (drop_objects coro W))).
  { unfold flb_coro_destroy.
    assert (Hg : w_coros W !! coro = Some c) by apply lookup_insert_eq.
    rewrite (run_bind _ _ _ _ _ (run_get w_coros coro W c Hg)).
    rewrite decide_False by (rewrite Hcal; intros H; by apply H). rewrite bind_ret.
    apply (w_free_run coro bc W Hc0). subst W. cbv [prepared]. wsimpl. rewrite Hb. apply lookup_insert_eq. }
  rewrite (run_bind _ _ _ _ _ Hd). clear Hd.
  set (W1 := set_mem _ (drop_objects coro W)).
  assert (Hg : w_flushes W1 !! r = Some (set_processed NULL f)).
  { subst W1 W. cbv [prepared drop_objects]. wsimpl. rewrite lookup_delete_ne by done. apply lookup_insert_eq. }
  rewrite (run_bind _ _ _ _ _ (run_get w_flushes r W1 _ Hg)). simpl of_processed_event_chunk.
  rewrite decide_False by (intros H; by apply H). rewrite bind_ret.
  assert (Hbr : mm_blocks (w_mem W1) !! r = Some br).
  { subst W1. wsimpl. simpl. rewrite lookup_delete_ne, Hb, lookup_insert_ne, lookup_insert_eq by done. done. }
  rewrite (run_bind _ _ _ _ _ (w_free_run r br W1 Hr0 Hbr)).
  eexists. split; [|reflexivity]. subst W1 W. rewrite (drop_prepared w _ _ _ _ _ _ _ Hf Hr Hc).
  set (m1 := Mem (delete coro _) _ _).
  assert (Hbc : mm_blocks m !! coro = Some bc) by (rewrite Hb; apply lookup_insert_eq).
  assert (Hw1 : mem_wf m1) by (eapply free_wf; [exact Hwf|by apply (free_live _ _ _ Hc0 Hbc)]).
  eexists _, ids, []. split; [destruct w; wsimpl; by rewrite app_nil_r|].
  assert (Hbr1 : mm_blocks m1 !! r = Some br).
  { simpl. rewrite lookup_delete_ne, Hb, lookup_insert_ne, lookup_insert_eq by done. done. }
  split_and!; [eapply free_wf; [exact Hw1|by apply (free_live _ _ _ Hr0 Hbr1)]|done| |by constructor].
  simpl. rewrite Hb. pose proof (fresh_block w r Hf Hr). pose proof (fresh_block w coro Hf Hc).
  cbv [prepared drop_objects]; wsimpl; simpl.
  map_undo.
Qed.

(** The context linked and its coroutine created, on top of [w]. *)
Definition linked_flush (w : world) (m : mem) (ids : gmap Z Z) (r coro callee : ptr) (h : lheap)
    (f : flb_output_flush) : world :=
  set_store (TaskStore h (ts_tasks (w_store w)) (ts_routes (w_store w)))
    (set_threads (<[callee := CT_output_start]> (w_threads w))
      (set_coros (<[coro := Coro (w_active w) callee r]> (w_coros w)) (prepared w m ids r coro f))).

Lemma prepared_set w m m' ids r coro f c :
  set_coros (<[coro := c]> (w_coros (set_mem m' (prepared w m ids r coro f))))
    (set_mem m' (prepared w m ids r coro f)) =
  set_coros (<[coro := c]> (w_coros w)) (prepared w m' ids r coro f).
Proof. destruct w. cbv [prepared]. wsimpl. by rewrite insert_insert_eq. Qed.

(** Linking the context takes the mutex of the worker thread and gives it back. *)
Lemma link_flush_run w o x h :
  (oi_is_threaded o = FLB_TRUE →
     w_out_threads w !! ol_thread_instance_get lib = Some worker ∧ ti_flush_mutex worker = false) →
  mk_list_add x (live_list worker o) (ts_list (w_store w)) = Some h →
  (if decide (oi_is_threaded o = FLB_TRUE) then
     let th := ol_thread_instance_get lib in
     th_ins ← get w_out_threads th;
     (if ti_flush_mutex th_ins then fail
      else modify (λ w, set_out_threads (<[th := set_ti_flush_mutex true th_ins]> (w_out_threads w)) w));;
     on_list (mk_list_add x (ti_flush_list th_ins));;
     modify (λ w, set_out_threads (<[th := set_ti_flush_mutex false th_ins]> (w_out_threads w)) w)
   else on_list (mk_list_add x (oi_flush_list o))) w =
  Some (tt, set_store (TaskStore h (ts_tasks (w_store w)) (ts_routes (w_store w))) w).
Proof.
  unfold live_list. intros Ht Hadd. case_decide as Hd; [|by apply run_list].
  destruct (Ht Hd) as [Hth Hm]. cbv zeta. rewrite (run_bind _ _ _ _ _ (run_get w_out_threads _ w worker Hth)), Hm.
  rewrite bind_modify. set (W := set_out_threads _ w).
  assert (Hrl : on_list (mk_list_add x (ti_flush_list worker)) W = _) by (apply run_list; exact Hadd).
  rewrite (run_bind _ _ _ _ _ Hrl). unfold modify. do 2 f_equal. subst W. destruct w. wsimpl.
  f_equal. rewrite insert_insert_eq. apply insert_id. simpl in Hth. rewrite Hth. f_equal.
  destruct worker. simpl in *. by rewrite Hm.
Qed.

(** [flush_start] up to [output_params_set]. *)
Lemma flush_start_run w m ids r coro f t evc o cfg l :
  create_pre w t evc o cfg l → two_blocks w m r coro → of_processed_event_chunk f = NULL →
  ∃ m' callee, mem_wf m' ∧ mm_brk m ≤ mm_brk m' ∧
    ((callee = NULL ∧ mm_blocks m' = mm_blocks m ∧
      ∃ w', flush_start lib task o_ins config coro r (prepared w m ids r coro f) = Some (NULL, w') ∧
            as_before w w') ∨
     (callee ≠ NULL ∧ mm_brk m ≤ callee ∧ (∃ b, mm_blocks m' = <[callee := b]> (mm_blocks m)) ∧
      ∃ h, dll h (live_list worker o) (l ++ [r + of_head_off]) ∧
        agree_outside (r + of_head_off :: live_list worker o :: l) (ts_list (w_store w)) h ∧
        flush_start lib task o_ins config coro r (prepared w m ids r coro f) =
        (output_params_set lib r coro task (oi_p o) (oi_context o) config;; mret r)
          (linked_flush w m' ids r coro callee h f))).
Proof.
  intros [Hf Ht Hev Ho Hcfg Hl Hs _] Htb Hpr. pose proof Htb as [Hwf Hbrk (Hr0 & Hr & Hr72) (Hc0 & Hc & _) Hne Hb].
  unfold flush_start, co_active. rewrite bind_gets.
  set (P := prepared w m ids r coro f).
  assert (HcP : w_coros P !! coro = Some (Coro NULL NULL r)) by apply lookup_insert_eq.
  rewrite (run_bind _ _ _ _ _ (run_get w_coros coro P _ HcP)).
  rewrite (run_bind _ _ _ _ _ (run_get w_configs config P cfg Hcfg)).
  destruct (co_create_mem (ol_co lib) (cf_coro_stack_size cfg) m) as [callee m'] eqn:Eh.
  destruct (co_create_ok _ Hco _ _ _ _ Hwf Eh) as (Hwf' & Hbrk' & Hcase).
  rewrite (run_bind _ _ _ _ _ (run_co_create _ _ CT_output_start P callee m' Eh)).
  exists m', callee. split; [done|]. split; [done|].
  destruct Hcase as [[-> Hbl]|(Hcn & Hcr & Hbl)].
  - left. split_and!; [done..|]. rewrite decide_True by done. unfold set_coro at 1. rewrite bind_modify.
    rewrite decide_True by done. unfold P. rewrite prepared_set. simpl co_data.
    assert (Htb' : two_blocks w m' r coro).
    { destruct Htb. split; try done; rewrite ?Hbl; try lia; auto. }
    destruct (discard_run w m' ids r coro (Coro (w_active P) NULL r) f Hf Htb' eq_refl) as (w' & Hab & E).
    exists w'. split; [|done].
    assert (Hfp : set_processed NULL f = f) by (unfold set_processed; destruct f; simpl in *; congruence).
    rewrite Hfp in E. exact E.
  - right. split; [done|]. split; [lia|]. split; [done|]. rewrite decide_False by done. unfold set_coro at 1.
    rewrite bind_modify, decide_False by done.
    set (P2 := set_coros _ _).
    rewrite (run_bind _ _ _ _ _ (run_get w_outs o_ins P2 o Ho)).
    assert (Hx : r + of_head_off ∉ live_list worker o :: l).
    { intros Hin. apply (dll_below w _ _ _ Hf Hl) in Hin. unfold of_head_off in Hin. lia. }
    destruct (mk_list_add_dll (ts_list (w_store w)) _ _ (r + of_head_off) Hl) as (h & Hadd & Hd & Hag);
      [pose proof (proj1 (proj1 (fa_wf _ Hf))); unfold NULL, of_head_off; lia|done|].
    exists h. split; [done|]. split; [done|].
    rewrite (run_bind _ _ _ _ _ (link_flush_run P2 o (r + of_head_off) h Hs Hadd)). f_equal. subst P2 P.
    unfold linked_flush, prepared. destruct w. wsimpl. by rewrite !insert_insert_eq.
Qed.

Lemma drop_flush w m m' tr r f :
  fresh_above w → mm_brk (w_mem w) ≤ r →
  set_mem m' (drop_objects r (set_trace tr (set_mem m (set_flushes (<[r := f]> (w_flushes w)) w)))) =
  set_trace tr (set_mem m' w).
Proof.
  intros Hf Hr. destruct w as [[lh tks rts] mm co fl ch fp ic ip ou ot cf ii cs th ac cu ky ik iv ids0 tr0].
  destruct Hf; simpl in *. cbv [drop_objects]; wsimpl.
  rewrite (lh_clear_low r _ lh) by (intros; first [apply fa_next|apply fa_prev]; lia).
  f_equal; map_undo.
Qed.

(** [flb_output_flush_create] up to the processors. *)
Lemma create_enters w t evc o :
  fresh_above w → ts_tasks (w_store w) !! task = Some t → w_chunks w !! tk_event_chunk t = Some evc →
  w_outs w !! o_ins = Some o →
  (∃ w', flb_output_flush_create lib task i_ins o_ins config w = Some (NULL, w') ∧ as_before w w' ∧
     mm_oracle (w_mem w) ≠ []) ∨
  ∃ m id ids coro, let r := mm_brk (w_mem w) in
    two_blocks w m r coro ∧
    flb_output_flush_create lib task i_ins o_ins config w =
    (continue ← run_processors lib evc o coro r;
     if (continue : bool) then flush_start lib task o_ins config coro r else mret NULL)
      (prepared w m ids r coro (OutputFlush id (ec_data evc) task config o_ins coro NULL)).
Proof.
  intros Hf Ht Hev Ho. unfold flb_output_flush_create.
  destruct (flb_calloc 1 sizeof_flb_output_flush (w_mem w)) as [r m1] eqn:E1.
  destruct (flb_calloc_cases 1 sizeof_flb_output_flush _ _ _ (fa_wf _ Hf) ltac:(discriminate) E1)
    as (Hwf1 & Hb1 & [[-> Hm1]|(Hrn & -> & Hr72 & Hrf & Hm1)]).
  { left. rewrite (run_bind _ _ _ _ _ (run_calloc _ _ _ _ _ E1)), decide_True by done.
    eexists. split; [reflexivity|]. split.
    - exists m1, (w_ids w), [Ev_error]. split_and!; [by destruct w|done..|by repeat constructor].
    - intros Hor. by apply (flb_calloc_plenty 1 sizeof_flb_output_flush _ _ _ (fa_wf _ Hf) ltac:(discriminate) ltac:(reflexivity) Hor E1). }
  rewrite (run_bind _ _ _ _ _ (run_calloc _ _ _ _ _ E1)), decide_False by done.
  rewrite bind_set_flush. set (r := mm_brk (w_mem w)) in *.
  set (W1 := set_flushes _ _).
  destruct (flb_calloc 1 sizeof_flb_coro m1) as [coro m2] eqn:E2.
  destruct (flb_calloc_cases 1 sizeof_flb_coro _ _ _ Hwf1 ltac:(discriminate) E2)
    as (Hwf2 & Hb2 & Hcase).
  rewrite (run_bind _ _ _ _ _ (flb_coro_create_run r W1 coro m2 E2)).
  destruct Hcase as [[-> Hm2]|(Hcn & -> & Hc24 & Hcf & Hm2)].
  - left. rewrite !decide_True by done.
    assert (Hbr : mm_blocks m2 !! r = Some (replicate (Z.to_nat (1 * sizeof_flb_output_flush)) (Some 0)))
      by (rewrite Hm2, Hm1; apply lookup_insert_eq).
    set (W2 := set_trace _ _).
    rewrite (run_bind _ _ _ _ _ (w_free_run r _ W2 Hrn Hbr)).
    eexists. split; [reflexivity|]. split.
    2:{ intros Hor. destruct (flb_calloc_plenty 1 sizeof_flb_output_flush _ _ _ (fa_wf _ Hf) ltac:(discriminate) ltac:(reflexivity) Hor E1) as [_ Ho1].
        by apply (flb_calloc_plenty 1 sizeof_flb_coro _ _ _ Hwf1 ltac:(discriminate) ltac:(reflexivity) Ho1 E2). }
    assert (set_mem (Mem (delete r (mm_blocks (w_mem W2))) (mm_brk (w_mem W2)) (mm_oracle (w_mem W2)))
              (drop_objects r W2) =
            set_trace (w_trace w ++ [Ev_error])
              (set_mem (Mem (delete r (mm_blocks m2)) (mm_brk m2) (mm_oracle m2)) w)) as ->.
    { erewrite <- (drop_flush w m2 _ _ r _ Hf); [|subst r; lia]. subst W2 W1. cbv [drop_objects]. wsimpl. reflexivity. }
    eexists (Mem (delete r (mm_blocks m2)) (mm_brk m2) (mm_oracle m2)), (w_ids w), [Ev_error].
    split_and!; [by destruct w| |simpl; lia| |by repeat constructor].
    + eapply free_wf; [exact Hwf2|by apply (free_live _ _ _ Hrn Hbr)].
    + simpl. rewrite Hm2, Hm1. map_undo.
  - right. rewrite !decide_False by done.
    destruct (ol_flush_id_get lib o_ins (w_ids w)) as [id ids] eqn:Ei.
    exists m2, id, ids, (mm_brk m1). split.
    { apply (two_blocks_alloc _ w _ m1); try done. apply (fa_wf _ Hf). }
    set (W2 := set_coros _ _).
    assert (Hid : flb_output_flush_id_get lib o_ins W2 = Some (id, set_ids ids W2)).
    { unfold flb_output_flush_id_get. change (w_ids W2) with (w_ids w). by rewrite Ei. }
    rewrite (run_bind _ _ _ _ _ Hid). set (W3 := set_ids ids W2).
    rewrite (run_bind _ _ _ _ _ (run_task task W3 t Ht)).
    rewrite (run_bind _ _ _ _ _ (run_get w_chunks (tk_event_chunk t) W3 evc Hev)).
    rewrite bind_set_flush. set (W4 := set_flushes _ W3).
    rewrite (run_bind _ _ _ _ _ (run_get w_outs o_ins W4 o Ho)).
    subst W4 W3 W2 W1. f_equal. destruct w. cbv [prepared]; wsimpl. by rewrite insert_insert_eq.
Qed.

(** Without a processor, up to [coro->caller = co_active()]. *)
Lemma create_prologue w t evc o cfg l :
  create_pre w t evc o cfg l →
  (∃ w', flb_output_flush_create lib task i_ins o_ins config w = Some (NULL, w') ∧ as_before w w') ∨
  ∃ m id ids coro, let r := mm_brk (w_mem w) in
    two_blocks w m r coro ∧
    flb_output_flush_create lib task i_ins o_ins config w =
    flush_start lib task o_ins config coro r
      (prepared w m ids r coro (OutputFlush id (ec_data evc) task config o_ins coro NULL)).
Proof.
  intros [Hf Ht Hev Ho _ _ _ Hnp].
  destruct (create_enters w t evc o Hf Ht Hev Ho) as [(w' & ? & ? & _)|(m & id & ids & coro & Htb & E)]; [left; by exists w'|right].
  exists m, id, ids, coro. split; [exact Htb|]. rewrite E.
  by rewrite unprocessed_run, bind_ret.
Qed.

Lemma linked_fresh w m m' ids r coro callee h f head l :
  fresh_above w → two_blocks w m r coro → mem_wf m' → mm_brk m ≤ mm_brk m' → callee < mm_brk m' →
  dll (ts_list (w_store w)) head l → agree_outside (r + of_head_off :: head :: l) (ts_list (w_store w)) h →
  fresh_above (linked_flush w m' ids r coro callee h f).
Proof.
  intros Hf [_ Hb (_ & Hr & Hr72) (_ & Hc & Hcb) _ _] Hw Hb' Hcal Hl Hag.
  assert (Hnode : ∀ p, mm_brk m' ≤ p → p ∉ r + of_head_off :: head :: l).
  { intros p Hp [->|Hin]%elem_of_cons; [unfold of_head_off, sizeof_flb_output_flush in *; lia|].
    apply (dll_below w _ _ _ Hf Hl) in Hin. lia. }
  pose proof Hf as [_ Fc Ff Fch Ffp Fic Fip Ft Fn Fp].
  split; simpl; try done; try (intros p Hp; eauto with lia).
  - apply (insert_fresh _ _ _ _ (mm_brk m') Fc); unfold sizeof_flb_output_flush in *; lia.
  - apply (insert_fresh _ _ _ _ (mm_brk m') Ff); unfold sizeof_flb_output_flush in *; lia.
  - apply (insert_fresh _ _ _ _ (mm_brk m') Ft); unfold sizeof_flb_output_flush in *; lia.
  - destruct (Hag p (Hnode p Hp)) as [-> _]. apply Fn. lia.
  - destruct (Hag p (Hnode p Hp)) as [_ ->]. apply Fp. lia.
Qed.

Lemma ready_fresh L m key callee st params :
  fresh_above L → mem_wf m → mm_brk (w_mem L) ≤ mm_brk m → key < mm_brk m → callee < mm_brk m →
  fresh_above (set_threads (<[callee := st]> (w_threads L))
    (set_out_key key (set_flush_params (<[key := params]> (w_flush_params L)) (set_mem m L)))).
Proof.
  intros Hf Hw Hb Hk Hc. destruct (mem_fresh L m Hf Hw Hb) as [_ Fc Ff Fch Ffp Fic Fip Ft Fn Fp].
  split; simpl in *; try done; try (intros p Hp).
  - apply (insert_fresh _ _ _ _ (mm_brk m) Ffp); lia.
  - apply (insert_fresh _ _ _ _ (mm_brk m) Ft); lia.
Qed.

Lemma create_cases w t evc o cfg l :
  create_pre w t evc o cfg l →
  ∃ r w', flb_output_flush_create lib task i_ins o_ins config w = Some (r, w') ∧
    (r = NULL ∧ as_before w w' ∨ created w w' t evc o l r).
Proof.
  intros Hpre. destruct (create_prologue w t evc o cfg l Hpre) as [(w' & -> & ?)|(m & id & ids & coro & Htb & ->)];
    [by eexists _, _; split; [|left]|].
  set (r := mm_brk (w_mem w)) in *. set (f := OutputFlush _ _ _ _ _ _ _).
  destruct (flush_start_run w m ids r coro f t evc o cfg l Hpre Htb eq_refl)
    as (m' & callee & Hwf' & Hb' & [(-> & _ & w' & -> & ?)|(Hcn & Hcb & [bh Hbh] & h & Hd & Hag & ->)]);
    [by eexists _, _; split; [|left]|].
  destruct Htb as [Hwf Hb (Hr0 & Hr & Hr72) (Hc0 & Hc & Hc24) Hne (br & bc & Hbl & Hlen)].
  set (L := linked_flush w m' ids r coro callee h f).
  destruct (output_params_set_run L r coro (oi_p o) (oi_context o) f t (Coro (w_active w) callee r))
    as (w' & Hps & Hcase); [done|apply lookup_insert_eq|done|apply Hpre|apply lookup_insert_eq
    |apply lookup_insert_eq|done|].
  rewrite (run_bind _ _ _ _ _ Hps). exists r, w'. split; [done|]. right. subst f. simpl in Hcase.
  assert (Hnew : (r ≠ NULL ∧ coro ≠ NULL ∧ callee ≠ NULL) ∧
    (mm_brk (w_mem w) ≤ r ∧ mm_brk (w_mem w) ≤ coro ∧ mm_brk (w_mem w) ≤ callee) ∧
    r ≠ coro ∧ r ≠ callee ∧ coro ≠ callee) by (unfold sizeof_flb_output_flush in *; lia).
  assert (HL : mm_blocks (w_mem L) = ∅ ∪ <[callee := bh]> (<[coro := bc]> (<[r := br]> (mm_blocks (w_mem w))))).
  { rewrite (left_id_L ∅ (∪)). change (mm_blocks m' = <[callee := bh]> (<[coro := bc]> (<[r := br]> (mm_blocks (w_mem w))))).
    by rewrite Hbh, Hbl. }
  assert (Hcal : callee < mm_brk m').
  { assert (mm_blocks m' !! callee = Some bh) as [_ ?]%(proj2 (proj1 Hwf'))
      by (rewrite Hbh; apply lookup_insert_eq). lia. }
  assert (HLf : fresh_above L).
  { pose proof Hpre as [Hf _ _ _ _ Hl _ _].
    apply (linked_fresh w m m' ids r coro callee h _ (live_list worker o) l Hf); try done. split; by eauto. }
  destruct Hcase as [(m2 & key & Hw2 & Hb2 & _ & Hm2 & ->)|(m2 & Hw2 & Hb2 & Hk & Hm2 & ->)].
  - exists id, coro, callee, (CT_output_ready
      (OutFlushParams (tk_event_chunk t) r (tk_i_ins t) (oi_p o) (oi_context o) config coro)).
    change (mm_brk (w_mem L)) with (mm_brk m') in Hb2.
    split; try done; [apply insert_insert_eq| | |by left|].
    + exists br, bc, bh.
      destruct Hm2 as [[Hm2 ->]|(Hk & Hkb & b & Hm2)]; [exists ∅; split; [exact (eq_trans Hm2 HL)|split; [done|by left]]|].
      exists {[ key := b ]}. split.
      { refine (eq_trans Hm2 (eq_trans (f_equal (insert key b) HL) _)).
        by rewrite (left_id_L ∅ (∪)), insert_union_singleton_l. }
      split; [done|]. right. split; [done|]. exists b. change (w_out_key _) with key. split; [done|].
      change (mm_brk (w_mem L)) with (mm_brk m') in Hkb. split; [lia|].
      rewrite !not_elem_of_cons. split_and!; [lia..|apply not_elem_of_nil].
    + split; [done|]. change (mm_brk (w_mem (set_threads _ _))) with (mm_brk m2). split; [lia|]. intros Hkey.
      apply (ready_fresh L m2 key callee); [done..| |lia].
      destruct Hm2 as [[_ ->]|(_ & _ & b & Hm2)]; [change (w_out_key L) with (w_out_key w); lia|].
      assert (mm_blocks m2 !! key = Some b) as [_ ?]%(proj2 (proj1 Hw2)) by (rewrite Hm2; apply lookup_insert_eq). lia.
    + do 2 (split; [done|]). intros p Hp. by apply lookup_insert_ne.
  - exists id, coro, callee, CT_output_start.
    change (mm_brk (w_mem L)) with (mm_brk m') in Hb2.
    split; try done; [| |by right].
    + exists br, bc, bh, ∅. split; [exact (eq_trans Hm2 HL)|split; [done|by left]].
    + split; [done|]. change (mm_brk (w_mem (set_trace _ _))) with (mm_brk m2). split; [lia|]. intros _.
      destruct (mem_fresh L m2 HLf Hw2 Hb2). by split.
Qed.

(** C12. [flb_output_flush_create] for an output without processors, threaded
    or not, for every pattern of allocation failures.  Either it returns NULL
    and everything it had allocated has been released; or it returns a context
    that is recorded, linked last in the list of the output, or of the worker
    thread under its mutex, and whose coroutine waits at its first switch with
    the parameters of this flush, control being back in the engine; or it
    returns such a context whose coroutine has not started, because the
    parameters of the thread did not exist yet and could not be allocated,
    which is reported. *)
Theorem flb_output_flush_create_spec w t evc o cfg l :
  create_pre w t evc o cfg l →
  ∃ r w', flb_output_flush_create lib task i_ins o_ins config w = Some (r, w') ∧
    (r = NULL ∧ as_before w w' ∨
     ∃ id coro callee,
       let params := OutFlushParams (tk_event_chunk t) r (tk_i_ins t) (oi_p o) (oi_context o) config coro in
       created_as w w' t evc o l r id coro callee (CT_output_ready params) ∧ w_trace w' = w_trace w ∨
       created_as w w' t evc o l r id coro callee CT_output_start ∧ w_out_key w = NULL ∧
         w_trace w' = w_trace w ++ [Ev_error]).
Proof.
  intros Hpre. destruct (create_cases w t evc o cfg l Hpre) as (r & w' & E & [H|(id & coro & callee & st & H)]);
    exists r, w'; (split; [exact E|]); [by left|right]. exists id, coro, callee.
  destruct (cr_start _ _ _ _ _ _ _ _ _ _ _ H) as [[-> Htr]|[-> [Hk Htr]]]; [by left|by right].
Qed.

(** Creating a flush leaves every other coroutine as it is: those that
    wait keep the parameters they took when they were created, although all
    of them read them from the same thread-local object. *)
Theorem flb_output_flush_create_preserves w t evc o cfg l r w' :
  create_pre w t evc o cfg l →
  flb_output_flush_create lib task i_ins o_ins config w = Some (r, w') →
  (∀ callee st, w_threads w !! callee = Some st → w_threads w' !! callee = Some st) ∧
  (∀ p f, w_flushes w !! p = Some f → w_flushes w' !! p = Some f) ∧
  (∀ p c, w_coros w !! p = Some c → w_coros w' !! p = Some c).
Proof.
  intros Hpre E. destruct (create_prologue w t evc o cfg l Hpre) as [(w1 & E1 & m & ids & tr & -> & _)|Hp].
  { rewrite E in E1. injection E1 as -> ->. by destruct w. }
  clear Hp. pose proof Hpre as [Hf _ _ _ _ _ _ _].
  destruct (create_cases w t evc o cfg l Hpre) as (r' & w1 & E1 & Hcase).
  rewrite E in E1. injection E1 as <- <-.
  destruct Hcase as [[_ (m & ids & tr & -> & _)]|(id & coro & callee & st & [(_ & (Hr & Hc & Hh) & _) Ef Ec Et])];
    [by destruct w|]. rewrite Ef, Ec, Et.
  split_and!; intros p x Hx; (rewrite lookup_insert_ne; [done|]); intros <-.
  - by rewrite (fa_threads _ Hf _ Hh) in Hx.
  - by rewrite (fa_flushes _ Hf _ Hr) in Hx.
  - by rewrite (fa_coros _ Hf _ Hc) in Hx.
Qed.

(** [flb_output_flush_destroy], with all it leaves. *)
Lemma flush_destroy_run w r f c head l1 l2 :
  mem_wf (w_mem w) → w_flushes w !! r = Some f → w_coros w !! of_coro f = Some c →
  dll (ts_list (w_store w)) head (l1 ++ (r + of_head_off) :: l2) →
  co_callee c ≠ w_active w → NoDup [r; of_coro f; co_callee c; NULL] →
  (∀ p, p ∈ [r; of_coro f; co_callee c] → is_Some (mm_blocks (w_mem w) !! p)) →
  (∀ x p, x ∈ head :: l1 ++ l2 → p ∈ [r; of_coro f] →
     x < p ∨ p + block_size p (w_mem w) ≤ x) →
  ∃ w', flb_output_flush_destroy lib r w = Some (tt, w') ∧
    dll (ts_list (w_store w')) head (l1 ++ l2) ∧
    w_flushes w' = delete r (delete (of_coro f) (w_flushes w)) ∧
    w_coros w' = delete r (delete (of_coro f) (w_coros w)) ∧
    w_threads w' = delete (co_callee c) (w_threads w) ∧
    mm_blocks (w_mem w') = delete r (delete (of_coro f) (delete (co_callee c) (mm_blocks (w_mem w)))) ∧
    w_trace w' = w_trace w ∧ w_active w' = w_active w ∧
    ts_routes (w_store w') = ts_routes (w_store w) ∧ ts_tasks (w_store w') = ts_tasks (w_store w) ∧
    w_outs w' = w_outs w ∧ w_configs w' = w_configs w ∧ w_out_key w' = w_out_key w ∧
    w_chunks w' = delete r (delete (of_coro f) (w_chunks w)) ∧ mm_brk (w_mem w') = mm_brk (w_mem w) ∧
    w_out_threads w' = w_out_threads w ∧
    (fresh_above w → fresh_above w') ∧
    (∀ p, vacant p w → p ∉ [r; of_coro f; co_callee c] →
       (∀ x, x ∈ head :: l1 ++ (r + of_head_off) :: l2 → x < p ∨ p + block_size p (w_mem w) ≤ x) → vacant p w') ∧
    ∀ head' l', dll (ts_list (w_store w)) head' l' →
      (∀ x, x ∈ head' :: l' → x ∉ head :: l1 ++ (r + of_head_off) :: l2 ∧
         ∀ p, p ∈ [r; of_coro f] → x < p ∨ p + block_size p (w_mem w) ≤ x) →
      dll (ts_list (w_store w')) head' l'.
Proof.
  intros Hfa Hf Hc Hd Hact Hnd Hlive Hout.
  destruct (Hlive r) as [br Hbr]; [set_solver|]. destruct (Hlive (of_coro f)) as [bc Hbc]; [set_solver|].
  destruct (Hlive (co_callee c)) as [bh Hbh]; [set_solver|].
  assert (Hne : r ≠ of_coro f ∧ r ≠ co_callee c ∧ r ≠ NULL ∧ of_coro f ≠ co_callee c ∧
    of_coro f ≠ NULL ∧ co_callee c ≠ NULL).
  { rewrite !NoDup_cons in Hnd. set_solver. }
  destruct Hne as (N1 & N2 & N3 & N4 & N5 & N6). clear Hnd Hlive.
  unfold flb_output_flush_destroy. rewrite (run_bind _ _ _ _ _ (run_get w_flushes r w f Hf)).
  destruct (mk_list_del_dll _ _ _ _ _ Hd) as (h' & Hdel & Hd' & _ & _ & Hag).
  rewrite (run_bind _ _ _ _ _ (run_list _ w h' Hdel)). set (W1 := set_store _ w).
  destruct (co_delete_ok _ Hco _ _ _ Hfa N6 Hbh) as (m1 & Em & Hwm1 & Hbrk & Hm1).
  set (W2 := set_threads (delete (co_callee c) (w_threads w)) (set_mem m1 W1)).
  assert (Hbc2 : mm_blocks (w_mem W2) !! of_coro f = Some bc).
  { change (w_mem W2) with m1. by rewrite Hm1, lookup_delete_ne. }
  assert (Hcd : flb_coro_destroy (ol_co lib) (of_coro f) W1 = Some (tt,
    set_mem (Mem (delete (of_coro f) (mm_blocks m1)) (mm_brk m1) (mm_oracle m1)) (drop_objects (of_coro f) W2))).
  { unfold flb_coro_destroy. rewrite (run_bind _ _ _ _ _ (run_get w_coros (of_coro f) W1 c Hc)).
    rewrite decide_True by done. unfold co_delete, co_active, on_mem_opt.
    rewrite bind_assoc, bind_gets, decide_False by done. rewrite bind_assoc.
    erewrite run_bind; [|change (w_mem W1) with (w_mem w); rewrite Em; reflexivity].
    rewrite bind_modify. apply (w_free_run (of_coro f) bc W2 N5 Hbc2). }
  rewrite (run_bind _ _ _ _ _ Hcd). set (W3 := set_mem _ (drop_objects (of_coro f) W2)).
  assert (Hbr3 : mm_blocks (w_mem W3) !! r = Some br).
  { change (w_mem W3) with (Mem (delete (of_coro f) (mm_blocks m1)) (mm_brk m1) (mm_oracle m1)).
    simpl. by rewrite lookup_delete_ne, Hm1, lookup_delete_ne by done. }
  eexists. split; [apply (w_free_run r br W3 N3 Hbr3)|].
  assert (Hsz : block_size r (w_mem W3) = block_size r (w_mem w) ∧
                block_size (of_coro f) (w_mem W2) = block_size (of_coro f) (w_mem w)).
  { unfold block_size. by rewrite Hbr3, Hbc2, Hbr, Hbc. }
  assert (Hl : ts_list (w_store (drop_objects r W3)) =
      lh_clear r (r + block_size r (w_mem W3))
        (lh_clear (of_coro f) (of_coro f + block_size (of_coro f) (w_mem W2)) h')) by done.
  assert (Hclear : ∀ head' l', dll h' head' l' →
    (∀ x p, x ∈ head' :: l' → p ∈ [r; of_coro f] → x < p ∨ p + block_size p (w_mem w) ≤ x) →
    dll (ts_list (w_store (drop_objects r W3))) head' l').
  { intros head' l' Hd0 Hx0. rewrite Hl. destruct Hsz as [-> ->].
    apply lh_clear_dll; [|intros x Hx; apply (Hx0 x r Hx); set_solver].
    apply lh_clear_dll; [done|]. intros x Hx. apply (Hx0 x (of_coro f) Hx). set_solver. }
  split; [by apply Hclear|]. split; [done|]. split; [done|]. split; [done|]. split.
  { change (delete r (delete (of_coro f) (mm_blocks m1)) =
        delete r (delete (of_coro f) (delete (co_callee c) (mm_blocks (w_mem w))))). by rewrite Hm1. }
  do 8 (split; [done|]). split; [exact Hbrk|]. split; [done|]. split.
  { intros Hf0. apply (drop_free_fresh W3 r br); [|done|exact Hbr3].
    apply (drop_free_fresh W2 (of_coro f) bc); [|done|exact Hbc2].
    destruct (store_fresh w h' _ _ Hf0 Hd Hag). split; simpl; try done; rewrite ?Hbrk; try done.
    intros p Hp. rewrite lookup_delete_None. auto. }
  split.
  { intros p Hv Hp Hx0. rewrite !not_elem_of_cons in Hp. destruct Hp as (Np1 & Np2 & Np3 & _). apply (vacant_free p r); [|done].
    apply (vacant_free p (of_coro f) _ _ W2); [|done]. apply (vacant_same p w); try done.
    - change (w_mem W2) with m1. by rewrite Hm1, lookup_delete_ne.
    - intros q Hq. apply Hag. intros Hin. destruct (Hx0 q); [by rewrite app_comm_cons in *|lia..]. }
  intros head' l' Hd0 Hx0. apply Hclear; [|intros x p Hx; by apply Hx0].
  eapply (dll_agree _ _ _ _ _ Hag); [|exact Hd0]. intros x Hx. by apply Hx0.
Qed.

(** [flb_output_flush_destroy] unlinks the context and releases the
    coroutine, its stack and the context, and nothing else. *)
Theorem flb_output_flush_destroy_spec w r f c head l1 l2 :
  mem_wf (w_mem w) → w_flushes w !! r = Some f → w_coros w !! of_coro f = Some c →
  dll (ts_list (w_store w)) head (l1 ++ (r + of_head_off) :: l2) →
  co_callee c ≠ w_active w → NoDup [r; of_coro f; co_callee c; NULL] →
  (∀ p, p ∈ [r; of_coro f; co_callee c] → is_Some (mm_blocks (w_mem w) !! p)) →
  (∀ x p, x ∈ head :: l1 ++ l2 → p ∈ [r; of_coro f] →
     x < p ∨ p + block_size p (w_mem w) ≤ x) →
  ∃ w', flb_output_flush_destroy lib r w = Some (tt, w') ∧
    dll (ts_list (w_store w')) head (l1 ++ l2) ∧
    w_flushes w' !! r = None ∧ w_coros w' !! of_coro f = None ∧ w_threads w' !! co_callee c = None ∧
    mm_blocks (w_mem w') = delete r (delete (of_coro f) (delete (co_callee c) (mm_blocks (w_mem w)))).
Proof.
  intros Hwf Hf Hc Hd Hact Hnd Hlive Hout.
  destruct (flush_destroy_run w r f c head l1 l2 Hwf Hf Hc Hd Hact Hnd Hlive Hout)
    as (w' & E & Hd' & Ef & Ec & Et & Em & _).
  exists w'. split; [exact E|]. split; [exact Hd'|]. rewrite Ef, Ec, Et. split; [apply lookup_delete_eq|].
  split; [|split; [apply lookup_delete_eq|exact Em]].
  rewrite lookup_delete_ne by (intros H; rewrite !NoDup_cons in Hnd; set_solver). apply lookup_delete_eq.
Qed.
End create.

Arguments cr_new {_ _ _ _ _ _ _ _ _ _ _ _ _ _ _}.
Arguments cr_flush {_ _ _ _ _ _ _ _ _ _ _ _ _ _ _}.
Arguments cr_coro {_ _ _ _ _ _ _ _ _ _ _ _ _ _ _}.
Arguments cr_thread {_ _ _ _ _ _ _ _ _ _ _ _ _ _ _}.
Arguments cr_list {_ _ _ _ _ _ _ _ _ _ _ _ _ _ _}.
Arguments cr_frame {_ _ _ _ _ _ _ _ _ _ _ _ _ _ _}.
Arguments cr_static {_ _ _ _ _ _ _ _ _ _ _ _ _ _ _}.
Arguments cr_wf {_ _ _ _ _ _ _ _ _ _ _ _ _ _ _}.
Arguments cr_mem {_ _ _ _ _ _ _ _ _ _ _ _ _ _ _}.
Arguments cr_fresh {_ _ _ _ _ _ _ _ _ _ _ _ _ _ _}.
Arguments cr_start {_ _ _ _ _ _ _ _ _ _ _ _ _ _ _}.

Section resume.
Context (lib : output_lib).

(** What is needed to return from a flush: the coroutine carries its context,
    the task is not locked, the output and, for a threaded one, the thread
    instance exist; a processed chunk, if any, can be released. *)
Record return_pre (w : world) (co : ptr) (c : flb_coro) (f : flb_output_flush) (t : flb_task)
    (rs : list (ptr * flb_task_route)) (o : flb_output_instance) (th : flb_out_thread_instance)
    (h : lheap) : Prop := {
  rp_coro : w_coros w !! co = Some c;
  rp_flush : w_flushes w !! co_data c = Some f;
  rp_task : ts_tasks (w_store w) !! of_task f = Some t;
  rp_unlocked : tk_locked t = false;
  rp_routes : routes_ok (w_store w) (of_task f) rs;
  rp_out : w_outs w !! of_o_ins f = Some o;
  rp_thread : oi_is_threaded o = FLB_TRUE → w_out_threads w !! ol_thread_instance_get lib = Some th;
  rp_prepare : ol_flush_prepare_destroy lib (co_data c) (ts_list (w_store w)) = Some h
}.

(** The pipe that tells the engine, and the message. *)
Definition return_fd (o : flb_output_instance) (th : flb_out_thread_instance) : Z :=
  if decide (oi_is_threaded o = FLB_TRUE) then ti_ch_thread_events th !!! 1%nat
  else oi_ch_events o !!! 1%nat.

Definition return_val (ret : Z) (t : flb_task) (o : flb_output_instance) : Z :=
  FLB_BITS_U64_SET 2 (FLB_TASK_SET ret (tk_id t) (oi_id o)).

(** The write of the message, after the events [tr], and what follows. *)
Definition return_events (tr : list event) (ret : Z) (t : flb_task) (o : flb_output_instance)
    (th : flb_out_thread_instance) (out_flush : ptr) : list event :=
  let n := ol_pipe_w lib tr (return_fd o th) (return_val ret t o) in
  Ev_pipe (return_fd o th) (return_val ret t o) n ::
  (if decide (n = -1) then [Ev_error] else []) ++
  [Ev_flush_prepare_destroy out_flush].

(** The end of [flb_output_return]: the message and the hand-over. *)
Lemma return_tail w ret out_flush o_ins task t o th h :
  ts_tasks (w_store w) !! task = Some t → w_outs w !! o_ins = Some o →
  (oi_is_threaded o = FLB_TRUE → w_out_threads w !! ol_thread_instance_get lib = Some th) →
  ol_flush_prepare_destroy lib out_flush (ts_list (w_store w)) = Some h →
  (t ← get_task task; o ← get w_outs o_ins;
   let val := FLB_BITS_U64_SET 2 (FLB_TASK_SET ret (tk_id t) (oi_id o)) in
   threaded ← flb_output_is_threaded o_ins;
   pipe_fd ←
     (if decide (threaded = FLB_TRUE) then
        th_ins ← get w_out_threads (ol_thread_instance_get lib);
        mret (ti_ch_thread_events th_ins !!! 1%nat)
      else mret (oi_ch_events o !!! 1%nat));
   n ← gets (λ w, ol_pipe_w lib (w_trace w) pipe_fd val);
   emit (Ev_pipe pipe_fd val n);;
   (if decide (n = -1) then flb_errno else mret tt);;
   emit (Ev_flush_prepare_destroy out_flush);;
   on_list (ol_flush_prepare_destroy lib out_flush)) w =
  Some (tt, set_store (TaskStore h (ts_tasks (w_store w)) (ts_routes (w_store w)))
             (set_trace (w_trace w ++ return_events (w_trace w) ret t o th out_flush) w)).
Proof.
  intros Ht Ho Hth Hh.
  rewrite (run_bind _ _ _ _ _ (run_task task w t Ht)).
  rewrite (run_bind _ _ _ _ _ (run_get w_outs o_ins w o Ho)). fold (return_val ret t o).
  assert (Hthr : flb_output_is_threaded o_ins w = Some (oi_is_threaded o, w)).
  { unfold flb_output_is_threaded. by rewrite (run_bind _ _ _ _ _ (run_get w_outs o_ins w o Ho)). }
  rewrite (run_bind _ _ _ _ _ Hthr).
  assert (Hfd : (if decide (oi_is_threaded o = FLB_TRUE) then
        th_ins ← get w_out_threads (ol_thread_instance_get lib);
        mret (ti_ch_thread_events th_ins !!! 1%nat)
      else mret (oi_ch_events o !!! 1%nat)) w = Some (return_fd o th, w)).
  { unfold return_fd. case_decide as Hd; [|done].
    by rewrite (run_bind _ _ _ _ _ (run_get w_out_threads _ w th (Hth Hd))). }
  rewrite (run_bind _ _ _ _ _ Hfd), bind_gets, bind_emit. unfold return_events.
  destruct (decide (ol_pipe_w lib (w_trace w) (return_fd o th) (return_val ret t o) = -1)) as [Hp|Hp].
  - unfold flb_errno. rewrite !bind_emit. rewrite (run_list _ _ h) by exact Hh.
    destruct w. wsimpl. by rewrite <- !app_assoc.
  - rewrite bind_ret, bind_emit. rewrite (run_list _ _ h) by exact Hh.
    destruct w. wsimpl. by rewrite <- !app_assoc.
Qed.

(** How the processed chunk leaves: nothing to do without one; its data is
    released only when it is not the data of the original chunk. *)
Definition processed_released (w : world) (t : flb_task) (f : flb_output_flush) (m' : mem) : Prop :=
  let p := of_processed_event_chunk f in
  (p = NULL ∧ m' = w_mem w) ∨
  (p ≠ NULL ∧ ∃ evc pc, w_chunks w !! tk_event_chunk t = Some evc ∧ w_chunks w !! p = Some pc ∧
    ((ec_data evc = ec_data pc ∧ ol_event_chunk_destroy lib p (w_mem w) = Some m') ∨
     (ec_data evc ≠ ec_data pc ∧ ec_data pc ≠ NULL ∧ drop_objects (ec_data pc) w = w ∧
      is_Some (mm_blocks (w_mem w) !! ec_data pc) ∧
      ol_event_chunk_destroy lib p (Mem (delete (ec_data pc) (mm_blocks (w_mem w)))
        (mm_brk (w_mem w)) (mm_oracle (w_mem w))) = Some m'))).

(** What [flb_output_return] leaves. *)
Record returned (w w' : world) (co : ptr) (c : flb_coro) (f : flb_output_flush)
    (rs : list (ptr * flb_task_route)) (h : lheap) (m' : mem) (evs : list event) : Prop := {
  rt_trace : w_trace w' = w_trace w ++ evs;
  rt_routes p r : (p, r) ∈ update_route (of_o_ins f) FLB_TASK_ROUTE_INACTIVE rs →
    ts_routes (w_store w') !! p = Some r;
  rt_tasks : ts_tasks (w_store w') = ts_tasks (w_store w);
  rt_flushes : w_flushes w' = <[co_data c := set_processed NULL f]> (w_flushes w);
  rt_list : ts_list (w_store w') = h;
  rt_mem : w_mem w' = m';
  rt_coros : w_coros w' = w_coros w;
  rt_threads : w_threads w' = w_threads w;
  rt_active : w_active w' = w_active w;
  rt_current : w_current w' = w_current w;
  rt_other p : p ∉ fst <$> rs → ts_routes (w_store w') !! p = ts_routes (w_store w) !! p;
  rt_objects : same_objects w w';
  rt_chunks : w_chunks w' =
    if decide (of_processed_event_chunk f ≠ NULL) then delete (of_processed_event_chunk f) (w_chunks w) else w_chunks w
}.

Lemma flb_output_return_ok w co c f t rs o th h ret m' :
  return_pre w co c f t rs o th h → processed_released w t f m' →
  ∃ w', flb_output_return lib ret co w = Some (tt, w') ∧
    returned w w' co c f rs h m' (return_events (w_trace w) ret t o th (co_data c)).
Proof.
  intros [Hc Hf Ht Hu Hrs Ho Hth Hh] Hm. unfold flb_output_return.
  rewrite (run_bind _ _ _ _ _ (run_get w_coros co w c Hc)).
  rewrite (run_bind _ _ _ _ _ (run_get w_flushes (co_data c) w f Hf)). cbv zeta beta.
  destruct (locked_set_route_status _ _ _ (of_o_ins f) FLB_TASK_ROUTE_INACTIVE _ Ht Hu Hrs)
    as (s1 & s2 & s3 & E1 & E2 & E3 & _ & Hrs3 & Hts & Hls & Hother).
  rewrite (run_bind _ _ _ _ _ (run_store _ w _ E1)).
  rewrite (run_bind _ _ _ _ _ (run_store (flb_task_deactivate_route _ _) (set_store s1 w) s2 E2)).
  rewrite (run_bind _ _ _ _ _ (run_store (flb_task_release_lock _) (set_store s2 (set_store s1 w)) s3 E3)).
  assert (set_store s3 (set_store s2 (set_store s1 w)) = set_store s3 w) as -> by (by destruct w).
  set (W := set_store s3 w).
  assert (HtW : ts_tasks (w_store W) !! of_task f = Some t) by (subst W; wsimpl; by rewrite Hts).
  assert (HfW : w_flushes W !! co_data c = Some f) by done.
  assert (HhW : ol_flush_prepare_destroy lib (co_data c) (ts_list (w_store W)) = Some h)
    by (subst W; wsimpl; by rewrite Hls).
  assert (∃ V, (if decide (of_processed_event_chunk f ≠ NULL) then
     t ← get_task (of_task f);
     evc ← get w_chunks (tk_event_chunk t);
     pc ← get w_chunks (of_processed_event_chunk f);
     (if decide (ec_data evc ≠ ec_data pc) then w_free (ec_data pc) else mret tt);;
     flb_event_chunk_destroy lib (of_processed_event_chunk f);;
     set_flush (co_data c) (set_processed NULL f)
   else mret tt) W = Some (tt, V) ∧
   w_store V = s3 ∧ w_outs V = w_outs w ∧ w_out_threads V = w_out_threads w ∧ w_trace V = w_trace w ∧
   w_flushes V = <[co_data c := set_processed NULL f]> (w_flushes w) ∧ w_mem V = m' ∧ w_coros V = w_coros w ∧
   w_threads V = w_threads w ∧ w_active V = w_active w ∧ w_current V = w_current w ∧
   same_objects w V ∧ w_chunks V =
     if decide (of_processed_event_chunk f ≠ NULL) then delete (of_processed_event_chunk f) (w_chunks w) else w_chunks w)
    as (V & EV & HsV & HoV & HtV & HtrV & HfV & HmV & HcV & HthV & HaV & HcuV & HobV & HchV).
  { destruct Hm as [[Hp ->]|(Hp & evc & pc & Hev & Hpc & Hcase)].
    { rewrite !decide_False by (rewrite Hp; intros H; by apply H). exists W. unfold same_objects. split_and!; try done.
      symmetry. apply insert_id. change (w_flushes W) with (w_flushes w). rewrite Hf. f_equal.
      unfold set_processed. destruct f; simpl in *; congruence. }
    rewrite !decide_True by done.
    rewrite (run_bind _ _ _ _ _ (run_task _ W t HtW)).
    rewrite (run_bind _ _ _ _ _ (run_get w_chunks (tk_event_chunk t) W evc Hev)).
    rewrite (run_bind _ _ _ _ _ (run_get w_chunks (of_processed_event_chunk f) W pc Hpc)).
    unfold flb_event_chunk_destroy, on_mem_opt.
    destruct Hcase as [(Ha & Hd)|(Ha & Hn & Hdrop & [b Hb] & Hd)].
    - rewrite decide_False by (intros H; by apply H). rewrite bind_ret, bind_assoc.
      rewrite (run_bind _ _ _ _ _ (run_get w_chunks (of_processed_event_chunk f) W pc Hpc)), bind_assoc.
      erewrite run_bind; [|change (w_mem W) with (w_mem w); rewrite Hd; reflexivity].
      rewrite bind_modify. eexists. split; [reflexivity|]. subst W. unfold same_objects. wsimpl. split_and!; done.
    - rewrite decide_True by done.
      rewrite (run_bind _ _ _ _ _ (w_free_run (ec_data pc) b W Hn Hb)).
      assert (drop_objects (ec_data pc) W = W) as -> by (by apply drop_objects_store).
      rewrite bind_assoc. set (W1 := set_mem _ W).
      rewrite (run_bind _ _ _ _ _ (run_get w_chunks (of_processed_event_chunk f) W1 pc Hpc)), bind_assoc.
      erewrite run_bind; [|change (w_mem W1) with (Mem (delete (ec_data pc) (mm_blocks (w_mem w)))
        (mm_brk (w_mem w)) (mm_oracle (w_mem w))); rewrite Hd; reflexivity].
      rewrite bind_modify. eexists. split; [reflexivity|]. subst W1 W. unfold same_objects. wsimpl. split_and!; done. }
  rewrite (run_bind _ _ _ _ _ EV).
  eexists. split.
  { apply (return_tail V ret (co_data c) (of_o_ins f) (of_task f) t o th h);
      [by rewrite HsV|by rewrite HoV|by rewrite HtV|by rewrite HsV]. }
  destruct V. unfold same_objects in *. simpl in *. subst.
  split; try done; wsimpl; simpl. apply (ro_map _ _ _ Hrs3).
Qed.

(** ** Resuming *)

(** A coroutine that waits at the first switch, with its parameters. *)
Record ready_flush (w : world) (coro : ptr) (c : flb_coro) (params : flb_out_flush_params)
    (f : flb_output_flush) (t : flb_task) (rs : list (ptr * flb_task_route)) : Prop := {
  rf_coro : w_coros w !! coro = Some c;
  rf_thread : w_threads w !! co_callee c = Some (CT_output_ready params);
  rf_flush : w_flushes w !! fp_out_flush params = Some f;
  rf_task : ts_tasks (w_store w) !! of_task f = Some t;
  rf_unlocked : tk_locked t = false;
  rf_routes : routes_ok (w_store w) (of_task f) rs
}.

(** The message of a return carries its result. *)
Lemma return_val_fields ret t o :
  0 ≤ ret < 2 ^ 4 → 0 ≤ tk_id t < 2 ^ 14 → 0 ≤ oi_id o < 2 ^ 14 →
  FLB_BITS_U64_HIGH (return_val ret t o) = FLB_ENGINE_TASK ∧
  FLB_TASK_RET (FLB_BITS_U64_LOW (return_val ret t o)) = ret ∧
  FLB_TASK_ID (FLB_BITS_U64_LOW (return_val ret t o)) = tk_id t ∧
  FLB_TASK_OUT (FLB_BITS_U64_LOW (return_val ret t o)) = oi_id o.
Proof.
  intros. unfold return_val. rewrite FLB_TASK_SET_add by done.
  set (x := ret * 2 ^ 28 + tk_id t * 2 ^ 14 + oi_id o).
  assert (0 ≤ x < 2 ^ 32) by (subst x; lia).
  rewrite FLB_BITS_U64_SET_add by lia.
  rewrite FLB_BITS_U64_HIGH_div, FLB_BITS_U64_LOW_mod by lia.
  rewrite Z.div_add_l, (Z.div_small x) by lia.
  rewrite (Z.add_comm (2 * 2 ^ 32)), Z.mod_add, (Z.mod_small x) by lia.
  rewrite FLB_TASK_RET_div, FLB_TASK_ID_mod, FLB_TASK_OUT_mod. subst x.
  split; [done|]. split_and!; Z.to_euclidean_division_equations; lia.
Qed.

Lemma return_pre_inside w coro c f t rs o th h :
  return_pre w coro c f t rs o th h →
  return_pre (inside w coro c) coro (Coro (w_active w) (co_callee c) (co_data c)) f t rs o th h.
Proof. intros []. split; try done. apply lookup_insert_eq. Qed.

Lemma task_lock_held task t s : ts_tasks s !! task = Some t → tk_locked t = true → flb_task_acquire_lock task s = None.
Proof. intros Ht Hl. unfold flb_task_acquire_lock. rewrite Ht. simpl. by rewrite Hl. Qed.

(** C14. [flb_output_return]: it waits while the lock of the task is held;
    otherwise the route of the output is deactivated and the lock is free
    again; the processed chunk is released, and its data only when they are not
    those of the original chunk; one write of eight bytes is made, to the pipe
    of the engine, or of the worker for a threaded output, and an error is
    reported when it fails; the value carries the kind of event, the result,
    the task and the output; the context is handed over for destruction. *)
Theorem flb_output_return_spec w co c f t rs o th h ret m' :
  return_pre w co c f t rs o th h → processed_released w t f m' →
  0 ≤ ret < 2 ^ 4 → 0 ≤ tk_id t < 2 ^ 14 → 0 ≤ oi_id o < 2 ^ 14 →
  let fd := if decide (oi_is_threaded o = FLB_TRUE) then ti_ch_thread_events th !!! 1%nat
            else oi_ch_events o !!! 1%nat in
  flb_output_return lib ret co
    (set_store (set_task (of_task f) (set_locked true t) (w_store w)) w) = None ∧
  ∃ w' val n, flb_output_return lib ret co w = Some (tt, w') ∧ n = ol_pipe_w lib (w_trace w) fd val ∧
    returned w w' co c f rs h m'
      (Ev_pipe fd val n :: (if decide (n = -1) then [Ev_error] else []) ++ [Ev_flush_prepare_destroy (co_data c)]) ∧
    FLB_BITS_U64_HIGH val = FLB_ENGINE_TASK ∧ FLB_TASK_RET (FLB_BITS_U64_LOW val) = ret ∧
    FLB_TASK_ID (FLB_BITS_U64_LOW val) = tk_id t ∧ FLB_TASK_OUT (FLB_BITS_U64_LOW val) = oi_id o.
Proof.
  intros Hpre Hm Hr Ht Ho fd. split.
  { set (s := set_task _ _ _). unfold flb_output_return.
    rewrite (run_bind _ _ _ _ _ (run_get w_coros co (set_store s w) c (rp_coro _ _ _ _ _ _ _ _ _ Hpre))).
    rewrite (run_bind _ _ _ _ _ (run_get w_flushes (co_data c) (set_store s w) f (rp_flush _ _ _ _ _ _ _ _ _ Hpre))).
    apply run_bind_none. unfold on_store. change (w_store (set_store s w)) with s.
    by rewrite (task_lock_held _ (set_locked true t)) by (first [done|apply lookup_insert_eq]). }
  destruct (flb_output_return_ok w co c f t rs o th h ret m' Hpre Hm) as (w' & E & Hret).
  pose proof (return_val_fields ret t o Hr Ht Ho) as Hv.
  eexists w', (return_val ret t o), _. split; [exact E|]. split; [reflexivity|]. split; [exact Hret|exact Hv].
Qed.

(** The turn that ends a flush. *)
Lemma return_turn w coro c f t rs o th h x m' :
  return_pre w coro c f t rs o th h → processed_released w t f m' → w_current w = coro →
  ∃ w', callback_turn lib (CB_return x) w = Some ((CT_returned, co_caller c), w') ∧
    returned w w' coro c f rs h m' (return_events (w_trace w) x t o th (co_data c)).
Proof.
  intros Hpre Hm Hcu. destruct (flb_output_return_ok w coro c f t rs o th h x m' Hpre Hm) as (w' & E & Hret).
  exists w'. split; [|exact Hret]. unfold callback_turn, flb_output_return_do, flb_coro_get.
  rewrite bind_assoc, bind_gets, Hcu, bind_assoc, (run_bind _ _ _ _ _ E).
  assert (Hc' : w_coros w' !! coro = Some c) by (rewrite (rt_coros _ _ _ _ _ _ _ _ _ Hret); apply Hpre).
  unfold flb_coro_yield. rewrite bind_assoc. by rewrite (run_bind _ _ _ _ _ (run_get w_coros coro w' c Hc')).
Qed.

(** The turn that suspends the callback. *)
Lemma suspend_turn w coro c k :
  w_coros w !! coro = Some c → w_current w = coro →
  callback_turn lib (CB_suspend k) w = Some ((CT_callback k, co_caller c), w).
Proof.
  intros Hc Hcu. unfold callback_turn, flb_coro_get, flb_coro_yield.
  rewrite bind_gets, Hcu, bind_assoc. by rewrite (run_bind _ _ _ _ _ (run_get w_coros coro w c Hc)).
Qed.

(** The turn of a flush whose route was dropped is that of a callback that has
    returned an error. *)
Lemma resume_refuses w coro c params f t rs :
  ready_flush w coro c params f t rs → route_status (of_o_ins f) rs = FLB_TASK_ROUTE_DROPPED →
  output_run lib (CT_output_ready params) (inside w coro c) = callback_turn lib (CB_return FLB_ERROR) (inside w coro c).
Proof.
  intros [Hc Hth Hf Ht Hu Hrs] Hst. set (W := inside w coro c).
  destruct (locked_get_route_status _ _ _ (of_o_ins f) _ Ht Hu Hrs) as (s1 & E1 & E2 & E3).
  rewrite status_or_inactive, Hst in E2.
  simpl. unfold output_pre_cb_flush_resume.
  rewrite (run_bind _ _ _ _ _ (run_get w_flushes _ W f Hf)).
  rewrite (run_bind _ _ _ _ _ (run_store (flb_task_acquire_lock _) W s1 E1)).
  assert (Hpk : peek (λ w, flb_task_get_route_status (of_task f) (of_o_ins f) (w_store w)) (set_store s1 W)
    = Some (size_t FLB_TASK_ROUTE_DROPPED, set_store s1 W)).
  { unfold peek. change (w_store (set_store s1 W)) with s1. by rewrite E2. }
  rewrite (run_bind _ _ _ _ _ Hpk), decide_True by done.
  rewrite (run_bind _ _ _ _ _ (run_store (flb_task_release_lock _) (set_store s1 W) _ E3)).
  assert (set_store (w_store w) (set_store s1 W) = W) as -> by (subst W; by destruct w). done.
Qed.

(** The turn of a flush whose route was dropped. *)
Lemma dropped_turn w coro c params f t rs o th h m' :
  ready_flush w coro c params f t rs → co_data c = fp_out_flush params →
  return_pre w coro c f t rs o th h →
  processed_released (inside w coro c) t f m' → route_status (of_o_ins f) rs = FLB_TASK_ROUTE_DROPPED →
  ∃ w', output_run lib (CT_output_ready params) (inside w coro c) = Some ((CT_returned, w_active w), w') ∧
    returned (inside w coro c) w' coro (Coro (w_active w) (co_callee c) (co_data c)) f rs h m'
      (return_events (w_trace w) FLB_ERROR t o th (co_data c)).
Proof.
  intros [Hc Hth Hf Ht Hu Hrs] Hdata Hpre Hm Hst.
  set (W := inside w coro c). set (c' := Coro (w_active w) (co_callee c) (co_data c)).
  destruct (return_turn W coro c' f t rs o th h FLB_ERROR m' (return_pre_inside _ _ _ _ _ _ _ _ _ Hpre) Hm eq_refl)
    as (w' & E & Hret).
  exists w'. split; [|exact Hret].
  etrans; [apply (resume_refuses w coro c params f t rs); [by split|exact Hst]|exact E].
Qed.

(** A flush whose route was dropped while it waited never reaches the
    plugin: resuming it reports [FLB_ERROR] for its task and gives control
    back. *)
Theorem flb_output_flush_dropped w coro c params f t rs o th h m' :
  ready_flush w coro c params f t rs → co_data c = fp_out_flush params →
  return_pre w coro c f t rs o th h →
  processed_released (inside w coro c) t f m' →
  route_status (of_o_ins f) rs = FLB_TASK_ROUTE_DROPPED →
  ∃ w', flb_coro_resume (output_run lib) coro w = Some (tt, w') ∧
    w_trace w' = w_trace w ++ return_events (w_trace w) FLB_ERROR t o th (co_data c) ∧
    w_threads w' !! co_callee c = Some CT_returned ∧ w_active w' = w_active w ∧
    ts_tasks (w_store w') = ts_tasks (w_store w).
Proof.
  intros Hready Hdata Hpre Hm Hst.
  destruct (dropped_turn w coro c params f t rs o th h m' Hready Hdata Hpre Hm Hst) as (w' & E & Hret).
  destruct Hready as [Hc Hth _ _ _ _]. destruct Hret as [Htr _ Hts _ _ _ _ _ _ _ _ _ _].
  eexists. split; [exact (flb_coro_resume_run w coro c _ _ CT_returned w' Hc Hth E)|].
  split_and!; [exact Htr|apply lookup_insert_eq|done|exact Hts].
Qed.

(** The route is active, the lock free and the callback about to start. *)
Definition entered (w : world) (coro : ptr) (c : flb_coro) (params : flb_out_flush_params) (s : task_store) : world :=
  set_trace (w_trace w ++ [Ev_callback params]) (set_store s (inside w coro c)).

(** Entering the callback changes nothing to what its return will release. *)
Lemma entered_released w coro c params s t f m' :
  ts_list s = ts_list (w_store w) → processed_released (inside w coro c) t f m' →
  processed_released (entered w coro c params s) t f m'.
Proof.
  intros Hs [[? ->]|(Hp & evc & pc & He & Hc & Hcase)]; [by left|right]. split; [done|]. exists evc, pc. do 2 (split; [done|]).
  destruct Hcase as [?|(? & ? & Hd & ?)]; [by left|right]. do 2 (split; [done|]). split; [|done].
  apply (drop_objects_store _ _ s) in Hd; [|done]. revert Hd. unfold entered. generalize (set_store s (inside w coro c)).
  intros v. destruct v. cbv [drop_objects]. wsimpl. intros [= E1 E2 E3 E4 E5 E6 E7]. by f_equal.
Qed.

Lemma resume_enters w coro c params f t rs :
  ready_flush w coro c params f t rs → 0 ≤ route_status (of_o_ins f) rs < 2 →
  ∃ s, output_run lib (CT_output_ready params) (inside w coro c) =
      (r ← ol_cb_flush lib params; callback_turn lib r) (entered w coro c params s) ∧
    routes_ok s (of_task f) (update_route (of_o_ins f) FLB_TASK_ROUTE_ACTIVE rs) ∧
    ts_tasks s = ts_tasks (w_store w) ∧ ts_list s = ts_list (w_store w) ∧
    ∀ p, p ∉ fst <$> rs → ts_routes s !! p = ts_routes (w_store w) !! p.
Proof.
  intros [Hc Hth Hf Ht Hu Hrs] Hst.
  set (W := inside w coro c).
  destruct (locked_set_route_status _ _ _ (of_o_ins f) FLB_TASK_ROUTE_ACTIVE _ Ht Hu Hrs)
    as (s1 & s2 & s3 & E1 & E2 & E3 & Eg & Hrs3 & Hts & Hls & Hot).
  rewrite status_or_inactive in Eg.
  exists s3. split; [|done]. simpl. unfold output_pre_cb_flush_resume.
  rewrite (run_bind _ _ _ _ _ (run_get w_flushes _ W f Hf)).
  rewrite (run_bind _ _ _ _ _ (run_store (flb_task_acquire_lock _) W s1 E1)).
  assert (Hpk : peek (λ w, flb_task_get_route_status (of_task f) (of_o_ins f) (w_store w)) (set_store s1 W)
    = Some (size_t (route_status (of_o_ins f) rs), set_store s1 W)).
  { unfold peek. change (w_store (set_store s1 W)) with s1. by rewrite Eg. }
  rewrite (run_bind _ _ _ _ _ Hpk), decide_False.
  2:{ unfold wrap. rewrite Z.mod_small by lia. unfold FLB_TASK_ROUTE_DROPPED. lia. }
  rewrite (run_bind _ _ _ _ _ (run_store (flb_task_activate_route _ _) (set_store s1 W) s2 E2)).
  rewrite (run_bind _ _ _ _ _ (run_store (flb_task_release_lock _) (set_store s2 (set_store s1 W)) s3 E3)).
  rewrite bind_emit. done.
Qed.

(** C13. The first turn of a coroutine that waits at its first switch, for a
    task that has a route to the output.  If the route has been dropped the
    callback of the plugin is not called and the turn is that of a callback that
    has returned [FLB_ERROR], in the same world.  Otherwise it is exactly one
    call of the callback, with the parameters kept since the creation of the
    flush, made when the route is active and the lock free. *)
Theorem flb_output_flush_runs_callback w coro c params f t rs :
  ready_flush w coro c params f t rs →
  Exists (λ r, tr_out r.2 = of_o_ins f) rs → 0 ≤ route_status (of_o_ins f) rs ≤ 2 →
  if decide (route_status (of_o_ins f) rs = FLB_TASK_ROUTE_DROPPED) then
    output_run lib (CT_output_ready params) (inside w coro c) = callback_turn lib (CB_return FLB_ERROR) (inside w coro c)
  else ∃ w1, output_run lib (CT_output_ready params) (inside w coro c) =
      (r ← ol_cb_flush lib params; callback_turn lib r) w1 ∧
    w_trace w1 = w_trace w ++ [Ev_callback params] ∧
    ts_tasks (w_store w1) = ts_tasks (w_store w) ∧
    flb_task_get_route_status (of_task f) (of_o_ins f) (w_store w1) = Some FLB_TASK_ROUTE_ACTIVE ∧
    w_current w1 = coro ∧ w_active w1 = co_callee c ∧
    w_flushes w1 = w_flushes w ∧ w_mem w1 = w_mem w.
Proof.
  intros Hready Hex Hst. case_decide as Hdrop; [by apply (resume_refuses w coro c params f t rs)|].
  assert (0 ≤ route_status (of_o_ins f) rs < 2) as Hst' by (unfold FLB_TASK_ROUTE_DROPPED in Hdrop; lia).
  destruct (resume_enters _ _ _ _ _ _ _ Hready Hst') as (s & E & Hrs & Hts & _).
  exists (entered w coro c params s). split; [exact E|]. split_and!; try done.
  change (w_store _) with s. rewrite (get_route_status_ok _ _ _ _ Hrs).
  rewrite decide_True by (by apply update_route_Exists). rewrite route_status_update.
  by rewrite decide_True.
Qed.

(** A callback that returns at once: the whole life of the coroutine. *)
Lemma flush_resume_returns w coro c params f t rs o th h x m' :
  ready_flush w coro c params f t rs → co_data c = fp_out_flush params →
  Exists (λ r, tr_out r.2 = of_o_ins f) rs → 0 ≤ route_status (of_o_ins f) rs < 2 →
  (∀ v, ol_cb_flush lib params v = Some (CB_return x, v)) →
  return_pre w coro c f t rs o th h → processed_released (inside w coro c) t f m' →
  let c' := Coro (w_active w) (co_callee c) (co_data c) in
  ∃ w', flb_coro_resume (output_run lib) coro w = Some (tt, w') ∧
    w_threads w' = <[co_callee c := CT_returned]> (w_threads w) ∧ w_active w' = w_active w ∧
    returned (set_coros (<[coro := c']> (w_coros w)) w) (set_threads (w_threads w) (set_current (w_current w) w'))
      coro c' f (update_route (of_o_ins f) FLB_TASK_ROUTE_ACTIVE rs) h m'
      (Ev_callback params :: return_events (w_trace w ++ [Ev_callback params]) x t o th (co_data c)).
Proof.
  intros Hready Hdata Hex Hst Hcb Hpre Hpr c'. pose proof Hready as [Hc Hth Hf Ht Hu Hrs].
  destruct (resume_enters _ _ _ _ _ _ _ Hready Hst) as (s & E & Hrs' & Hts & Hls & Hso).
  set (w1 := entered w coro c params s) in *.
  assert (Hpre1 : return_pre w1 coro c' f t (update_route (of_o_ins f) FLB_TASK_ROUTE_ACTIVE rs) o th h).
  { destruct Hpre as [_ Hf' _ _ _ Ho Hthr Hprep]. split; try done; [apply lookup_insert_eq| |].
    - change (ts_tasks s !! of_task f = Some t). by rewrite Hts.
    - change (ol_flush_prepare_destroy lib (co_data c) (ts_list s) = Some h). by rewrite Hls. }
  destruct (return_turn w1 coro c' f t _ o th h x m' Hpre1) as (w2 & E2 & Hret); [by apply entered_released|done|].
  destruct Hret as [Htr Hro Hta Hfl Hli Hme Hco Hthr Hac Hcu Hot Hob Hch].
  assert (Hrun : output_run lib (CT_output_ready params) (inside w coro c) = Some ((CT_returned, w_active w), w2))
    by (rewrite E, (run_bind _ _ _ _ _ (Hcb w1)); exact E2).
  eexists. split; [by apply (flb_coro_resume_run w coro c _ _ CT_returned w2 Hc Hth)|].
  split; [by rewrite Hthr|]. split; [done|].
  split; wsimpl; try done.
  - etrans; [exact Htr|]. change (w_trace w1) with (w_trace w ++ [Ev_callback params]). by rewrite <- app_assoc.
  - etrans; [exact Hta|]. exact Hts.
  - intros p Hp. etrans; [by apply Hot|]. rewrite update_route_fst in Hp. by apply Hso.
Qed.
End resume.

(** ** The theorems at work: one output, a task at 1024 with a route to it.
    A context is one byte; a processor accepts the bytes below its address. *)

Definition demo_telemetry : telemetry :=
  Telemetry
    (λ data off, if decide (0 ≤ off < Z.of_nat (length data)) then Some (data !!! Z.to_nat off, off + 1) else None)
    (λ processor _ _ context, if decide (context < processor) then 0 else -1)
    (λ context m, let '(p, m) := alloc [Some context; Some context] m in ((if decide (p = NULL) then -1 else 0, (p, 0), 2), m))
    (λ buf m, flb_free buf.1 m).

(** Chunks are kept in blocks of the allocator; contexts handed over for
    destruction move to the list at 6400. *)
Definition demo_lib : output_lib := {|
  ol_co := malloc_libco;
  ol_flush_id_get := λ o ids, let id := default 0 (ids !! o) in (id, <[o := id + 1]> ids);
  ol_processor_is_active := λ p, c_bool (bool_decide (p ≠ NULL));
  ol_processor_run_logs := λ _ _ _ _ _ _, None;
  ol_mp_count := λ _ _ _, 1;
  ol_metrics := demo_telemetry;
  ol_traces := demo_telemetry;
  ol_event_chunk_create := λ type total tag _ data size m,
    let '(p, m) := flb_malloc 40 m in
    (if decide (p = NULL) then None else Some (p, EventChunk type tag data size total), m);
  ol_event_chunk_destroy := flb_free;
  ol_thread_instance_get := 6656;
  ol_pipe_w := λ _ _ _, 8;
  ol_flush_prepare_destroy := λ out_flush h,
    h ← mk_list_del (out_flush + of_head_off) h; mk_list_add (out_flush + of_head_off) 6400 h;
  ol_cb_flush := λ _, mret (CB_return FLB_OK);
  ol_cb_resume := λ _, mret (CB_return FLB_OK);
  ol_config_map_set := λ _ _ _, mret 0;
  ol_thread_pool_coros_size := λ _, 0
|}.

Definition demo_output : flb_output_instance.
Proof.
  refine {| oi_id := 5; oi_ch_events := [10; 11]; oi_p := 300; oi_context := 400;
            oi_is_threaded := FLB_FALSE; oi_flush_list := 6144; oi_flush_list_destroy := 6400;
            oi_processor := NULL |};
    first [exact 0 | exact [] | exact mk_event_zero | exact flb_net_host_zero
          | exact flb_net_setup_zero | exact flb_test_out_formatter_zero].
Defined.

Definition demo_lists : lheap :=
  default lempty (h ← mk_list_init 6144 demo_task_list; mk_list_init 6400 h).

Definition demo_chunk : flb_event_chunk := EventChunk FLB_EVENT_TYPE_METRICS 616 560 3 1.

Definition demo_mem : mem :=
  Mem (list_to_map [(512, replicate 40 (Some 0)); (560, [Some 65; Some 66; Some 67]);
                    (600, sds_block 1 1 [Some 120])]) 16384 [].

Definition demo_world : world := {|
  w_store := TaskStore demo_lists {[ 1024 := Task 3 0 FLB_TASK_RUNNING 1 512 NULL 10 200 7168 false ]}
               (list_to_map demo_routes);
  w_mem := demo_mem; w_coros := ∅; w_flushes := ∅; w_chunks := {[ 512 := demo_chunk ]};
  w_flush_params := ∅; w_input_coros := ∅; w_in_params := ∅; w_outs := {[ 4096 := demo_output ]};
  w_out_threads := ∅; w_configs := {[ 7168 := flb_config_zero ]}; w_ins := ∅; w_colls := ∅;
  w_threads := {[ 64 := CT_native ]}; w_active := 64; w_current := NULL; w_out_key := NULL;
  w_in_key := 0; w_in_values := ∅; w_ids := ∅; w_trace := []
|}.

Lemma demo_fresh : fresh_above demo_world.
Proof.
  split.
  - apply laid_out_wf. vm_compute. reflexivity.
  - apply below_fresh. evaluate.
  - apply below_fresh. evaluate.
  - apply below_fresh. evaluate.
  - apply below_fresh. evaluate.
  - apply below_fresh. evaluate.
  - apply below_fresh. evaluate.
  - apply below_fresh. evaluate.
  - apply below_fresh. evaluate.
  - apply below_fresh. evaluate.
Qed.

Definition demo_task_of_flush : flb_task := Task 3 0 FLB_TASK_RUNNING 1 512 NULL 10 200 7168 false.

Lemma demo_create_pre :
  create_pre demo_lib 1024 4096 7168 flb_out_thread_instance_zero demo_world demo_task_of_flush demo_chunk demo_output flb_config_zero [].
Proof.
  split; try reflexivity; [exact demo_fresh|evaluate|discriminate|by left].
Qed.

(** The same output served by a worker thread, whose lists are those at 6144
    and 6400. *)
Definition demo_worker : flb_out_thread_instance :=
  OutThreadInstance mk_event_zero NULL NULL [12; 13] [14; 15] 4096 7168 NULL NULL 0 6144 6400 false NULL.

Definition demo_threaded_output : flb_output_instance.
Proof.
  refine {| oi_id := 5; oi_ch_events := [10; 11]; oi_p := 300; oi_context := 400;
            oi_is_threaded := FLB_TRUE; oi_flush_list := 6208; oi_flush_list_destroy := 6272;
            oi_processor := NULL |};
    first [exact 0 | exact [] | exact mk_event_zero | exact flb_net_host_zero
          | exact flb_net_setup_zero | exact flb_test_out_formatter_zero].
Defined.

Definition demo_threaded_world : world :=
  set_outs {[ 4096 := demo_threaded_output ]} (set_out_threads {[ 6656 := demo_worker ]} demo_world).

Lemma flb_output_flush_create_spec_witness :
  ∃ r w', flb_output_flush_create demo_lib 1024 200 4096 7168 demo_threaded_world = Some (r, w') ∧
    (r = NULL ∧ as_before demo_threaded_world w' ∨
     created 1024 4096 7168 demo_worker demo_threaded_world w' demo_task_of_flush demo_chunk
       demo_threaded_output [] r).
Proof.
  destruct (flb_output_flush_create_spec demo_lib malloc_libco_ok 1024 200 4096 7168 demo_worker demo_threaded_world
    demo_task_of_flush demo_chunk demo_threaded_output flb_config_zero [])
    as (r & w' & E & [H|(id & coro & callee & [[H _]|[H _]])]).
  - split; try reflexivity; [|evaluate|split; reflexivity|by left]. destruct demo_fresh. split; done.
  - exists r, w'. split; [exact E|]. left. exact H.
  - exists r, w'. split; [exact E|]. right. eexists id, coro, callee, _. exact H.
  - exists r, w'. split; [exact E|]. right. eexists id, coro, callee, _. exact H.
Defined.

(** The world after the creation of a flush, at 16384, with its coroutine. *)
Definition demo_started : world :=
  from_option snd demo_world (flb_output_flush_create demo_lib 1024 200 4096 7168 demo_world).

Lemma flb_output_flush_create_preserves_witness :
  flb_output_flush_create demo_lib 1024 200 4096 7168 demo_world = Some (16384, demo_started) ∧
  w_threads demo_started !! 64 = Some CT_native.
Proof.
  assert (E : flb_output_flush_create demo_lib 1024 200 4096 7168 demo_world = Some (16384, demo_started))
    by (vm_compute; reflexivity).
  split; [exact E|].
  apply (flb_output_flush_create_preserves demo_lib malloc_libco_ok 1024 200 4096 7168 _ _ _ _ _ _ _ _ _
    demo_create_pre E). reflexivity.
Defined.

Definition demo_flush : flb_output_flush := OutputFlush 0 560 1024 7168 4096 16480 NULL.
Definition demo_coro : flb_coro := Coro 64 16528 16384.

Lemma demo_started_fresh : fresh_above demo_started.
Proof.
  split; [|apply below_fresh; evaluate..].
  assert (E : mm_blocks (w_mem demo_started) = list_to_map
    [(512, replicate 40 (Some 0)); (560, [Some 65; Some 66; Some 67]); (600, sds_block 1 1 [Some 120]);
     (16384, replicate 72 (Some 0)); (16480, replicate 24 (Some 0));
     (16528, replicate 1 None); (16560, replicate 56 None)]) by (vm_compute; reflexivity).
  assert (w_mem demo_started = Mem (mm_blocks (w_mem demo_started)) 16640 []) as ->
    by (vm_compute; reflexivity).
  rewrite E. apply laid_out_wf. vm_compute. reflexivity.
Qed.

Lemma flb_output_flush_destroy_spec_witness :
  ∃ w', flb_output_flush_destroy demo_lib 16384 demo_started = Some (tt, w') ∧
    dll (ts_list (w_store w')) 6144 [] ∧ w_flushes w' !! 16384 = None ∧
    w_coros w' !! 16480 = None ∧ w_threads w' !! 16528 = None ∧
    mm_blocks (w_mem w') = delete 16384 (delete 16480 (delete 16528 (mm_blocks (w_mem demo_started)))).
Proof.
  apply (flb_output_flush_destroy_spec demo_lib malloc_libco_ok demo_started 16384 demo_flush demo_coro 6144 [] []).
  - exact (fa_wf _ demo_started_fresh).
  - vm_compute. reflexivity.
  - vm_compute. reflexivity.
  - evaluate.
  - discriminate.
  - evaluate.
  - apply Forall_forall. evaluate.
  - intros x p Hx Hp.
    assert (block_size 16384 (w_mem demo_started) = 72 ∧ block_size 16480 (w_mem demo_started) = 24)
      as [E1 E2] by (split; vm_compute; reflexivity).
    revert Hx Hp. simpl. rewrite !elem_of_cons. unfold NULL. rewrite !elem_of_nil.
    intros [->|[]] [->|[->|[]]]; [rewrite E1|rewrite E2]; lia.
Defined.

(** The flush with a processed chunk, at 700, whose data are at 760. *)
Definition demo_returning : world :=
  set_mem (Mem (<[700 := replicate 40 (Some 0)]> (<[760 := [Some 7]]> (mm_blocks (w_mem demo_started))))
             (mm_brk (w_mem demo_started)) [])
    (set_chunks (<[700 := EventChunk FLB_EVENT_TYPE_METRICS 616 760 1 0]> (w_chunks demo_started))
      (set_flushes {[ 16384 := set_processed 700 demo_flush ]} (set_current 16480 demo_started))).

Definition demo_thread : flb_out_thread_instance := flb_out_thread_instance_zero.

Definition demo_handed_over (w : world) : lheap :=
  default lempty (ol_flush_prepare_destroy demo_lib 16384 (ts_list (w_store w))).

Lemma demo_route_list w :
  dll (ts_list (w_store w)) (1024 + tk_routes_off) ((λ r, r.1 + tr_head_off) <$> demo_routes) →
  ts_routes (w_store w) = list_to_map demo_routes → routes_ok (w_store w) 1024 demo_routes.
Proof.
  intros Hd Hr. split; [exact Hd|]. intros p r. rewrite Hr. unfold demo_routes. rewrite !elem_of_cons.
  intros [[= -> ->]|[[= -> ->]|[]%not_elem_of_nil]]; reflexivity.
Qed.

Lemma demo_return_pre :
  return_pre demo_lib demo_returning 16480 demo_coro (set_processed 700 demo_flush) demo_task_of_flush
    demo_routes demo_output demo_thread (demo_handed_over demo_returning).
Proof.
  split; try (vm_compute; reflexivity); [|discriminate].
  apply demo_route_list; [evaluate|vm_compute; reflexivity].
Qed.

Lemma demo_processed_released :
  ∃ m', processed_released demo_lib demo_returning demo_task_of_flush (set_processed 700 demo_flush) m'.
Proof.
  eexists. right. split; [discriminate|].
  exists demo_chunk, (EventChunk FLB_EVENT_TYPE_METRICS 616 760 1 0).
  split; [vm_compute; reflexivity|]. split; [vm_compute; reflexivity|]. right.
  split; [discriminate|]. split; [discriminate|]. split; [vm_compute; reflexivity|].
  split; [evaluate|reflexivity].
Qed.

Lemma flb_output_return_spec_witness :
  ∃ m' w' val, flb_output_return demo_lib FLB_OK 16480 demo_returning = Some (tt, w') ∧
    returned demo_returning w' 16480 demo_coro (set_processed 700 demo_flush) demo_routes
      (demo_handed_over demo_returning) m'
      [Ev_pipe 11 val 8; Ev_flush_prepare_destroy 16384] ∧
    FLB_TASK_RET (FLB_BITS_U64_LOW val) = FLB_OK ∧ FLB_TASK_ID (FLB_BITS_U64_LOW val) = 3.
Proof.
  destruct demo_processed_released as [m' Hm]. exists m'.
  destruct (flb_output_return_spec demo_lib _ _ _ _ _ _ _ _ _ FLB_OK m' demo_return_pre Hm
    ltac:(unfold FLB_OK; lia) ltac:(simpl; lia) ltac:(simpl; lia)) as (_ & w' & val & n & E & Hn & Hr & _ & Hret & Hid & _).
  exists w', val. subst n. split; [exact E|]. split; [exact Hr|]. split; [exact Hret|exact Hid].
Defined.

(** The engine drops the route of the output while the flush waits. *)
Definition demo_dropped : world :=
  set_store (default (w_store demo_started) (flb_task_drop_route 1024 4096 (w_store demo_started)))
    demo_started.

Definition demo_dropped_routes := update_route 4096 FLB_TASK_ROUTE_DROPPED demo_routes.

Definition demo_params : flb_out_flush_params := OutFlushParams 512 16384 200 300 400 7168 16480.

Lemma demo_dropped_routes_ok : routes_ok (w_store demo_dropped) 1024 demo_dropped_routes.
Proof.
  split; [evaluate|]. intros p r. assert (ts_routes (w_store demo_dropped) = list_to_map demo_dropped_routes) as ->
    by (vm_compute; reflexivity).
  apply elem_of_list_to_map_1. assert (NoDup demo_dropped_routes.*1) by evaluate. done.
Qed.

Lemma flb_output_flush_dropped_witness :
  ∃ w' val, flb_coro_resume (output_run demo_lib) 16480 demo_dropped = Some (tt, w') ∧
    w_trace w' = [Ev_pipe 11 val 8; Ev_flush_prepare_destroy 16384] ∧
    w_threads w' !! 16528 = Some CT_returned ∧ w_active w' = 64.
Proof.
  destruct (flb_output_flush_dropped demo_lib demo_dropped 16480 demo_coro demo_params demo_flush
    demo_task_of_flush demo_dropped_routes demo_output demo_thread (demo_handed_over demo_dropped)
    (w_mem demo_dropped)) as (w' & E & Ht & Hth & Ha & _).
  - split; [vm_compute; reflexivity..|exact demo_dropped_routes_ok].
  - reflexivity.
  - split; try (vm_compute; reflexivity); [exact demo_dropped_routes_ok|discriminate].
  - left. split; [reflexivity|vm_compute; reflexivity].
  - reflexivity.
  - exists w'. eexists. split; [exact E|]. split; [exact Ht|]. split; [exact Hth|exact Ha].
Defined.

Lemma flb_output_flush_runs_callback_witness :
  ∃ w1, output_run demo_lib (CT_output_ready demo_params) (inside demo_started 16480 demo_coro) =
      (r ← ol_cb_flush demo_lib demo_params; callback_turn demo_lib r) w1 ∧
    w_trace w1 = [Ev_callback demo_params] ∧
    flb_task_get_route_status 1024 4096 (w_store w1) = Some FLB_TASK_ROUTE_ACTIVE.
Proof.
  assert (Hready : ready_flush demo_started 16480 demo_coro demo_params demo_flush demo_task_of_flush demo_routes)
    by (split; [vm_compute; reflexivity..|]; apply demo_route_list; [evaluate|vm_compute; reflexivity]).
  destruct (flb_output_flush_runs_callback demo_lib demo_started 16480 demo_coro demo_params demo_flush
    demo_task_of_flush demo_routes Hready ltac:(left; reflexivity) ltac:(vm_compute; split; intros H; discriminate H))
    as (w1 & E & Ht & _ & Hs & _).
  exists w1. split; [exact E|]. split; [exact Ht|exact Hs].
Defined.
