(* ===== verification/Logs.v ===== *)
(** The logs branch of [flb_output_flush_create] and what follows it: running
    the processors of an output on the records of a chunk, giving the flush
    the chunk they leave, starting it, and giving everything back when one of
    these fails. *)
From S2P Require Import Prelude MkList Mem MkEvent Codes Task Bytes Structs Runtime RuntimeSpec Output OutputSpec.

(** * What is assumed of the library *)

(** The processors leave the records where they are, or write new ones in a
    block of their own; a chunk object takes some new blocks, [own], and its
    destruction gives them back. *)
Record logs_ok (lib : output_lib) (own : ptr → gset Z) : Prop := {
  lo_run processor tag tag_len data size m b :
    mem_wf m → mm_blocks m !! data = Some b →
    ∃ ret p_buf p_size m', ol_processor_run_logs lib processor tag tag_len data size m = Some ((ret, p_buf, p_size), m') ∧
      mem_wf m' ∧ mm_brk m ≤ mm_brk m' ∧
      (mm_blocks m' = mm_blocks m ∧ (ret = -1 ∨ p_size = 0 ∨ p_buf = data) ∨
       ret ≠ -1 ∧ p_size ≠ 0 ∧ mm_brk m ≤ p_buf ∧ ∃ b', mm_blocks m' = <[p_buf := b']> (mm_blocks m));
  lo_create type total tag tag_len data size m :
    mem_wf m → ∃ r m', ol_event_chunk_create lib type total tag tag_len data size m = (r, m') ∧
      mem_wf m' ∧ mm_brk m ≤ mm_brk m' ∧
      match r with
      | None => mm_blocks m' = mm_blocks m
      | Some (p, c) =>
          p ≠ NULL ∧ p ∈ own p ∧ (∃ c_tag, c = EventChunk type c_tag data size total) ∧
          ∃ X, dom X = own p ∧ (∀ q, q ∈ own p → mm_brk m ≤ q) ∧ mm_blocks m' = X ∪ mm_blocks m
      end;
  lo_destroy p m :
    mem_wf m → own p ⊆ dom (mm_blocks m) →
    ∃ m', ol_event_chunk_destroy lib p m = Some m' ∧ mem_wf m' ∧ mm_brk m' = mm_brk m ∧
      mm_blocks m' = filter (λ kb, kb.1 ∉ own p) (mm_blocks m)
}.

(** What the parameters of the thread leave of the memory. *)
Lemma switched_mem v v' callee params :
  switched v v' callee params →
  mem_wf (w_mem v') ∧ ∃ kept, mm_blocks (w_mem v') = kept ∪ mm_blocks (w_mem v) ∧
    (∀ p, p ∈ dom kept → mm_brk (w_mem v) ≤ p) ∧
    (kept = ∅ ∧ w_out_key v' = w_out_key v ∨ w_out_key v = NULL ∧ ∃ b, kept = {[ w_out_key v' := b ]}).
Proof.
  intros [(m' & key & Hwf & _ & _ & [[E ->]|(Hn & Hk & b & E)] & ->)|(m' & Hwf & _ & _ & E & ->)]; (split; [exact Hwf|]); simpl; rewrite E.
  - exists ∅. rewrite (left_id_L ∅ (∪)). split_and!; [done|set_solver|by left].
  - exists {[ key := b ]}. rewrite <- insert_union_singleton_l, dom_singleton_L.
    split_and!; [done|by intros p ->%elem_of_singleton|right; eauto].
  - exists ∅. rewrite (left_id_L ∅ (∪)). split_and!; [done|set_solver|by left].
Qed.

Section logs.
Context (lib : output_lib) (own : ptr → gset Z) (Hco : libco_ok (ol_co lib)) (Hlogs : logs_ok lib own).
Context (task i_ins o_ins config : ptr) (worker : flb_out_thread_instance).

(** The output has a processor; the tag of the chunk can be read. *)
Record processed_pre (w : world) (t : flb_task) (evc : flb_event_chunk) (o : flb_output_instance)
    (cfg : flb_config) (l : list ptr) (tag_len : Z) : Prop := {
  pp_fresh : fresh_above w;
  pp_task : ts_tasks (w_store w) !! task = Some t;
  pp_chunk : w_chunks w !! tk_event_chunk t = Some evc;
  pp_out : w_outs w !! o_ins = Some o;
  pp_config : w_configs w !! config = Some cfg;
  pp_list : dll (ts_list (w_store w)) (live_list worker o) l;
  pp_thread : oi_is_threaded o = FLB_TRUE →
    w_out_threads w !! ol_thread_instance_get lib = Some worker ∧ ti_flush_mutex worker = false;
  pp_processor : ol_processor_is_active lib (oi_processor o) ≠ 0;
  pp_tag : flb_sds_len (ec_tag evc - FLB_SDS_HEADER_SIZE, FLB_SDS_HEADER_SIZE) (w_mem w) = Some tag_len;
  pp_data : is_Some (mm_blocks (w_mem w) !! ec_data evc)
}.

(** * The worlds of a creation *)

(** The context [f] at [r] and the coroutine [c] at [coro] exist, and the
    chunks are [chunks]. *)
Definition staged (w : world) (m : mem) (ids : gmap Z Z) (r coro : ptr) (c : flb_coro) (f : flb_output_flush)
    (chunks : gmap Z flb_event_chunk) : world :=
  set_chunks chunks (set_ids ids (set_coros (<[coro := c]> (w_coros w))
    (set_flushes (<[r := f]> (w_flushes w)) (set_mem m w)))).

Lemma prepared_staged w m ids r coro f : prepared w m ids r coro f = staged w m ids r coro (Coro NULL NULL r) f (w_chunks w).
Proof. by destruct w. Qed.

(** Its blocks, and what the processors and the new chunk have added, [X]. *)
Record more_blocks (w : world) (m : mem) (r coro : ptr) (X : gmap Z (list (option Z))) : Prop := {
  mb_wf : mem_wf m;
  mb_brk : mm_brk (w_mem w) ≤ mm_brk m;
  mb_new : r ≠ NULL ∧ coro ≠ NULL ∧ mm_brk (w_mem w) ≤ r ∧ mm_brk (w_mem w) ≤ coro ∧ r ≠ coro;
  mb_below : r + of_head_off < mm_brk m ∧ coro < mm_brk m;
  mb_apart p : p ∈ dom X → mm_brk (w_mem w) ≤ p ∧ r + of_head_off < p ∧ p ≠ coro;
  mb_blocks : ∃ br bc, mm_blocks m = X ∪ <[coro := bc]> (<[r := br]> (mm_blocks (w_mem w))) ∧
    length br = Z.to_nat sizeof_flb_output_flush
}.

Lemma two_more w m r coro : two_blocks sizeof_flb_output_flush w m r coro → more_blocks w m r coro ∅.
Proof.
  intros [Hwf Hb (Hr0 & Hr & Hr72) (Hc0 & Hc & Hcb) Hne (br & bc & Hbl & Hlen)].
  split; [done..|unfold of_head_off, sizeof_flb_output_flush in *; lia| |].
  - rewrite dom_empty_L. intros p []%elem_of_empty.
  - exists br, bc. by rewrite (left_id_L ∅ (∪)).
Qed.

Lemma more_blocks_frame w m m' r coro X :
  more_blocks w m r coro X → mem_wf m' → mm_brk m ≤ mm_brk m' → mm_blocks m' = mm_blocks m → more_blocks w m' r coro X.
Proof. intros [? ? ? ? ? (br & bc & E & ?)] Hw Hb Hbl. split; try done; [lia|lia|]. exists br, bc. by rewrite Hbl. Qed.

(** More blocks at new addresses. *)
Lemma more_blocks_add w m m' r coro X Y :
  more_blocks w m r coro X → mem_wf m' → mm_brk m ≤ mm_brk m' →
  (∀ p, p ∈ dom Y → mm_brk m ≤ p) → mm_blocks m' = Y ∪ mm_blocks m → more_blocks w m' r coro (Y ∪ X).
Proof.
  intros [? ? ? Hlow Hap (br & bc & E & ?)] Hw Hb HY Hbl. split; try done; [lia|lia| |].
  - intros p. rewrite dom_union_L, elem_of_union. unfold of_head_off in *. intros [Hp%HY|Hp%Hap]; [lia|done].
  - exists br, bc. by rewrite Hbl, E, (assoc_L (∪)).
Qed.

(** What was there before the creation is still there. *)
Lemma more_blocks_old w m r coro X p :
  more_blocks w m r coro X → p < mm_brk (w_mem w) → mm_blocks m !! p = mm_blocks (w_mem w) !! p.
Proof.
  intros [? ? (_ & _ & ? & ? & _) _ Hap (br & bc & -> & _)] Hp. rewrite lookup_union_r.
  - by rewrite !lookup_insert_ne by lia.
  - apply not_elem_of_dom. intros [? _]%Hap. lia.
Qed.

(** ** Giving everything back, step by step *)

(** The context alone, when its coroutine is gone. *)
Definition staged1 (w : world) (m : mem) (ids : gmap Z Z) (r : ptr) (f : flb_output_flush)
    (chunks : gmap Z flb_event_chunk) : world :=
  set_chunks chunks (set_ids ids (set_flushes (<[r := f]> (w_flushes w)) (set_mem m w))).

Lemma free_mem_wf m p b : mem_wf m → mm_blocks m !! p = Some b →
  p ≠ NULL ∧ mem_wf (Mem (delete p (mm_blocks m)) (mm_brk m) (mm_oracle m)).
Proof.
  intros Hwf Hb. pose proof (mem_wf_not_null _ _ _ Hwf Hb). split; [done|].
  eapply free_wf; [exact Hwf|by apply (free_live _ b)].
Qed.

(** A block that holds no object but a context. *)
Lemma drop_staged w m ids r coro c f chunks :
  fresh_above w → mm_brk (w_mem w) ≤ coro → r ≠ coro → chunks !! coro = None →
  drop_objects coro (staged w m ids r coro c f chunks) = staged1 w m ids r f chunks.
Proof.
  intros Hf Hc Hne Hkc. destruct w as [[lh tks rts] mm co fl ch fp ic ip ou ot cf ii cs th ac cu ky ik iv ids0 tr].
  destruct Hf; simpl in *. cbv [staged staged1 drop_objects]; wsimpl.
  rewrite (lh_clear_low coro _ lh) by (intros; first [apply fa_next|apply fa_prev]; lia). f_equal; map_undo.
Qed.

Lemma drop_staged1 w m ids r f chunks :
  fresh_above w → mm_brk (w_mem w) ≤ r → chunks !! r = None →
  drop_objects r (staged1 w m ids r f chunks) = set_chunks chunks (set_ids ids (set_mem m w)).
Proof.
  intros Hf Hr Hkr. destruct w as [[lh tks rts] mm co fl ch fp ic ip ou ot cf ii cs th ac cu ky ik iv ids0 tr].
  destruct Hf; simpl in *. cbv [staged1 drop_objects]; wsimpl.
  rewrite (lh_clear_low r _ lh) by (intros; first [apply fa_next|apply fa_prev]; lia). f_equal; map_undo.
Qed.

Lemma coro_gone w m ids r coro c f chunks bc :
  fresh_above w → mem_wf m → mm_brk (w_mem w) ≤ coro → r ≠ coro → chunks !! coro = None → co_callee c = NULL →
  mm_blocks m !! coro = Some bc →
  let m' := Mem (delete coro (mm_blocks m)) (mm_brk m) (mm_oracle m) in
  mem_wf m' ∧ flb_coro_destroy (ol_co lib) coro (staged w m ids r coro c f chunks) = Some (tt, staged1 w m' ids r f chunks).
Proof.
  intros Hf Hwf Hc Hne Hkc Hcal Hbc m'. destruct (free_mem_wf m coro bc Hwf Hbc) as [Hn Hwf']. split; [done|].
  unfold flb_coro_destroy. set (W := staged _ _ _ _ _ _ _ _).
  assert (Hg : w_coros W !! coro = Some c) by apply lookup_insert_eq.
  rewrite (run_bind _ _ _ _ _ (run_get w_coros coro W c Hg)).
  rewrite decide_False by (rewrite Hcal; intros H; by apply H). rewrite bind_ret, (w_free_run coro bc W Hn Hbc). cbv zeta.
  subst W. rewrite drop_staged by done. by destruct w.
Qed.

Lemma flush_gone w m ids r f chunks br :
  fresh_above w → mem_wf m → mm_brk (w_mem w) ≤ r → chunks !! r = None → mm_blocks m !! r = Some br →
  let m' := Mem (delete r (mm_blocks m)) (mm_brk m) (mm_oracle m) in
  mem_wf m' ∧ w_free r (staged1 w m ids r f chunks) = Some (tt, set_chunks chunks (set_ids ids (set_mem m' w))).
Proof.
  intros Hf Hwf Hr Hkr Hbr m'. destruct (free_mem_wf m r br Hwf Hbr) as [Hn Hwf']. split; [done|].
  rewrite (w_free_run r br (staged1 w m ids r f chunks) Hn Hbr), drop_staged1 by done. by destruct w.
Qed.

(** The blocks of the context and of its coroutine. *)
Lemma own_blocks w m r coro X :
  fresh_above w → more_blocks w m r coro X → ∃ br bc, mm_blocks m !! r = Some br ∧ mm_blocks m !! coro = Some bc ∧
    delete r (delete coro (mm_blocks m)) = X ∪ mm_blocks (w_mem w).
Proof.
  intros Hf [Hwf Hbrk (Hr0 & Hc0 & Hr & Hc & Hne) _ Hap (br & bc & Hb & _)]. exists br, bc.
  assert (HXr : X !! r = None) by (apply not_elem_of_dom; intros (_ & H & _)%Hap; unfold of_head_off in H; lia).
  assert (HXc : X !! coro = None) by (apply not_elem_of_dom; intros (_ & _ & H)%Hap; by apply H).
  rewrite Hb, !lookup_union_r by done. rewrite lookup_insert_eq, lookup_insert_ne, lookup_insert_eq by done.
  split_and!; [done..|]. rewrite !delete_union, (delete_id X coro), (delete_id X r) by done.
  f_equal. pose proof (fresh_block w r Hf Hr). pose proof (fresh_block w coro Hf Hc). map_undo.
Qed.

Lemma discard_staged w m ids r coro c f chunks X :
  fresh_above w → more_blocks w m r coro X → co_callee c = NULL → chunks !! r = None → chunks !! coro = None →
  ∃ m', discard lib coro r (staged w m ids r coro c f chunks) = Some (tt, set_chunks chunks (set_ids ids (set_mem m' w))) ∧
    mem_wf m' ∧ mm_brk m' = mm_brk m ∧ mm_blocks m' = X ∪ mm_blocks (w_mem w).
Proof.
  intros Hf Hmb Hcal Hkr Hkc. destruct (own_blocks w m r coro X Hf Hmb) as (br & bc & Hbr & Hbc & Hdel).
  destruct Hmb as [Hwf _ (Hr0 & Hc0 & Hr & Hc & Hne) _ _ _].
  destruct (coro_gone w m ids r coro c f chunks bc Hf Hwf Hc Hne Hkc Hcal Hbc) as [Hwf1 E1].
  unfold discard. rewrite (run_bind _ _ _ _ _ E1). set (m1 := Mem _ _ _) in *.
  destruct (flush_gone w m1 ids r f chunks br Hf Hwf1 Hr Hkr) as [Hwf2 E2]; [simpl; by rewrite lookup_delete_ne|].
  rewrite E2. by eexists.
Qed.

(** ** Giving the buffer back *)

(** Where the records are that the processors have left: where they were, or
    in a new block. *)
Definition buffer_at (w : world) (evc : flb_event_chunk) (p_buf : ptr) (X : gmap Z (list (option Z))) : Prop :=
  p_buf = ec_data evc ∧ X = ∅ ∨ mm_brk (w_mem w) ≤ p_buf ∧ ∃ b, X = {[ p_buf := b ]}.

(** What releasing them takes away: the records of the task if they are these. *)
Definition kept_world (w : world) (evc : flb_event_chunk) (p_buf : ptr) : world :=
  if decide (p_buf = ec_data evc) then drop_objects (ec_data evc) w else w.
Definition kept_blocks (w : world) (evc : flb_event_chunk) (p_buf : ptr) : gmap Z (list (option Z)) :=
  if decide (p_buf = ec_data evc) then delete (ec_data evc) (mm_blocks (w_mem w)) else mm_blocks (w_mem w).

(** The flush has been given up.  Everything the attempt has allocated is
    released; when the processors had left the records where they were, so
    are the records of the task. *)
Definition given_up (w : world) (evc : flb_event_chunk) (p_buf : ptr) (w' : world) : Prop :=
  ∃ m ids, mem_wf m ∧ mm_brk (w_mem w) ≤ mm_brk m ∧
    w' = set_ids ids (set_mem m (kept_world w evc p_buf)) ∧ mm_blocks m = kept_blocks w evc p_buf.

Lemma given_up_before w evc p_buf w' : given_up w evc p_buf w' → p_buf ≠ ec_data evc → as_before w w'.
Proof.
  intros (m & ids & Hwf & Hb & -> & E) Hne. unfold kept_world, kept_blocks in *. rewrite decide_False in E by done.
  rewrite decide_False by done.
  exists m, ids, []. rewrite app_nil_r. split; [by destruct w|]. split; [done|]. split; [done|]. split; [done|constructor].
Qed.

Lemma drop_objects_mem p m w :
  mm_blocks m !! p = mm_blocks (w_mem w) !! p → drop_objects p (set_mem m w) = set_mem m (drop_objects p w).
Proof. intros E. unfold drop_objects. destruct w. wsimpl. unfold block_size. simpl in E. by rewrite E. Qed.

Lemma kept_fresh w evc p_buf : fresh_above w → fresh_above (kept_world w evc p_buf) ∧ w_mem (kept_world w evc p_buf) = w_mem w.
Proof.
  intros Hf. unfold kept_world. case_decide; [|done]. split; [|by destruct w].
  destruct Hf as [Fw Fc Ff Fch Ffp Fic Fip Ft Fn Fp].
  split; simpl; try done; intros q Hq; rewrite ?lookup_delete_None, ?map_lookup_filter; auto.
  - by rewrite Fn.
  - by rewrite Fp.
Qed.

Section buffer.
Context (w : world) (m : mem) (evc : flb_event_chunk) (p_buf : ptr) (X : gmap Z (list (option Z))).
Context (Hf : fresh_above w) (Hd : is_Some (mm_blocks (w_mem w) !! ec_data evc)).
Context (Hbuf : buffer_at w evc p_buf X) (Hwf : mem_wf m).

Lemma buffer_is_new : p_buf ≠ ec_data evc → mm_brk (w_mem w) ≤ p_buf.
Proof using Hbuf. by destruct Hbuf as [[? _]|[? _]]. Qed.

Lemma data_is_old : ec_data evc < mm_brk (w_mem w).
Proof using Hf Hd. destruct Hd as [b Hb]. pose proof (proj2 (proj1 (fa_wf _ Hf)) _ _ Hb). lia. Qed.

(** Releasing the buffer takes it from the new blocks, or the records from
    the old ones. *)
Lemma buffer_gone_blocks B :
  mm_blocks m = X ∪ B → (p_buf ≠ ec_data evc → B !! p_buf = None) → B !! ec_data evc = mm_blocks (w_mem w) !! ec_data evc →
  (∃ b, mm_blocks m !! p_buf = Some b) ∧
  delete p_buf (mm_blocks m) = (if decide (p_buf = ec_data evc) then delete (ec_data evc) B else B) ∧
  (p_buf = ec_data evc → mm_blocks m !! p_buf = mm_blocks (w_mem w) !! p_buf).
Proof using All.
  intros E HB Hold. destruct Hd as [bd Hbd]. pose proof data_is_old as Hlow. destruct Hbuf as [[-> ->]|[Hp [b ->]]]; rewrite E.
  - rewrite (left_id_L ∅ (∪)), decide_True, Hold by done. split_and!; [by exists bd|done..].
  - assert (Hne : p_buf ≠ ec_data evc) by lia.
    rewrite <- insert_union_singleton_l, lookup_insert_eq, decide_False, delete_insert_eq by done.
    split_and!; [by exists b|by apply delete_id, HB|done].
Qed.

Lemma kept_drop : (p_buf = ec_data evc → mm_blocks m !! p_buf = mm_blocks (w_mem w) !! p_buf) →
  drop_objects p_buf (set_mem m w) = set_mem m (kept_world w evc p_buf).
Proof using All.
  intros Hold. unfold kept_world. case_decide as Hp; [subst p_buf; by apply drop_objects_mem, Hold|].
  by apply drop_objects_fresh, buffer_is_new.
Qed.

Lemma free_buffer ids :
  mm_brk (w_mem w) ≤ mm_brk m → mm_blocks m = X ∪ mm_blocks (w_mem w) →
  ∃ w', w_free p_buf (set_ids ids (set_mem m w)) = Some (tt, w') ∧ given_up w evc p_buf w'.
Proof using All.
  intros Hb E. destruct (buffer_gone_blocks _ E) as ([b Hl] & Hdel & Hold); [intros Hp; by apply fresh_block, buffer_is_new|done|].
  destruct (free_mem_wf m p_buf b Hwf Hl) as [Hn Hwf'].
  rewrite (w_free_run p_buf b (set_ids ids (set_mem m w)) Hn Hl). eexists. split; [reflexivity|]. set (m' := Mem _ _ _).
  exists m', ids. split; [done|]. split; [done|]. split; [|exact Hdel].
  etrans; [|exact (f_equal (λ v, set_ids ids (set_mem m' v)) (kept_drop Hold))]. destruct w. by cbv [drop_objects]; wsimpl.
Qed.

(** The same while the context and a chunk of the flush exist. *)
Lemma free_staged_buffer ids r f tmp pc B :
  mm_brk (w_mem w) ≤ r → mm_brk (w_mem w) ≤ tmp → p_buf ≠ r → p_buf ≠ tmp →
  mm_blocks m = X ∪ B → (p_buf ≠ ec_data evc → B !! p_buf = None) → B !! ec_data evc = mm_blocks (w_mem w) !! ec_data evc →
  let w0 := kept_world w evc p_buf in
  ∃ m', w_free p_buf (staged1 w m ids r f (<[tmp := pc]> (w_chunks w))) =
      Some (tt, staged1 w0 m' ids r f (<[tmp := pc]> (w_chunks w0))) ∧
    mem_wf m' ∧ mm_brk m' = mm_brk m ∧
    mm_blocks m' = if decide (p_buf = ec_data evc) then delete (ec_data evc) B else B.
Proof using All.
  intros Hr Htmp Hpr Hpt E HB Hold w0. destruct (buffer_gone_blocks B E HB Hold) as ([b Hl] & Hdel & Hsame).
  destruct (free_mem_wf m p_buf b Hwf Hl) as [Hn Hwf'].
  rewrite (w_free_run p_buf b (staged1 w m ids r f (<[tmp := pc]> (w_chunks w))) Hn Hl). set (m' := Mem _ _ _) in *.
  exists m'. split; [|done]. pose proof (kept_drop Hsame) as Hk. fold w0 in Hk.
  assert (Efl : w_flushes w0 = delete p_buf (w_flushes w)) by (symmetry; exact (f_equal w_flushes Hk)).
  assert (Ech : w_chunks w0 = delete p_buf (w_chunks w)) by (symmetry; exact (f_equal w_chunks Hk)).
  unfold staged1 at 2. rewrite Efl, Ech, <- !delete_insert_ne by done. do 2 f_equal.
  etrans; [|exact (f_equal (λ v, set_chunks (delete p_buf (<[tmp := pc]> (w_chunks w))) (set_ids ids
    (set_flushes (delete p_buf (<[r := f]> (w_flushes w))) (set_mem m' v)))) Hk)].
  destruct w. by cbv [staged1 drop_objects]; wsimpl.
Qed.
End buffer.

(** * The logs branch *)

(** The flush goes on with a chunk of its own, at [tmp], which holds what the
    processors have left. *)
Record processed (w w1 : world) (ids : gmap Z Z) (r coro : ptr) (f : flb_output_flush) (evc : flb_event_chunk)
    (m : mem) (tmp : ptr) (pc : flb_event_chunk) (X Y : gmap Z (list (option Z))) : Prop := {
  pr_world : w1 = staged w m ids r coro (Coro NULL NULL r) (set_processed tmp f) (<[tmp := pc]> (w_chunks w));
  pr_blocks : more_blocks w m r coro (Y ∪ X);
  pr_buffer : buffer_at w evc (ec_data pc) X;
  pr_chunk : tmp ≠ NULL ∧ tmp ∈ own tmp ∧ dom Y = own tmp ∧ dom X ## own tmp;
  pr_type : ec_type pc = ec_type evc
}.

Lemma staged_chunks_id w m ids : set_chunks (w_chunks w) (set_ids ids (set_mem m w)) = set_ids ids (set_mem m w).
Proof. by destruct w. Qed.

(** The flush is given up without a buffer. *)
Lemma discard_clean w m ids r coro c f :
  fresh_above w → more_blocks w m r coro ∅ → co_callee c = NULL →
  ∃ w', discard lib coro r (staged w m ids r coro c f (w_chunks w)) = Some (tt, w') ∧ as_before w w'.
Proof.
  intros Hf Hmb Hcal. destruct (mb_new _ _ _ _ _ Hmb) as (_ & _ & Hr & Hc & _).
  destruct (discard_staged w m ids r coro c f (w_chunks w) ∅ Hf Hmb Hcal (fa_chunks _ Hf _ Hr) (fa_chunks _ Hf _ Hc))
    as (m' & E & Hwf & Hb & Hbl).
  eexists. split; [exact E|]. exists m', ids, []. rewrite (left_id_L ∅ (∪)) in Hbl. rewrite staged_chunks_id, app_nil_r, Hb.
  split_and!; [by destruct w|done|apply (mb_brk _ _ _ _ _ Hmb)|done|constructor].
Qed.

(** Or with one, which is released. *)
Lemma discard_buffer {A} (x : A) w m ids r coro c f evc p_buf X :
  fresh_above w → is_Some (mm_blocks (w_mem w) !! ec_data evc) → buffer_at w evc p_buf X →
  more_blocks w m r coro X → co_callee c = NULL →
  ∃ w', (discard lib coro r;; w_free p_buf;; mret x) (staged w m ids r coro c f (w_chunks w)) = Some (x, w') ∧
    given_up w evc p_buf w'.
Proof.
  intros Hf Hd Hbuf Hmb Hcal. destruct (mb_new _ _ _ _ _ Hmb) as (_ & _ & Hr & Hc & _).
  destruct (discard_staged w m ids r coro c f (w_chunks w) X Hf Hmb Hcal (fa_chunks _ Hf _ Hr) (fa_chunks _ Hf _ Hc))
    as (m' & E & Hwf & Hb & Hbl).
  rewrite staged_chunks_id in E. rewrite (run_bind _ _ _ _ _ E).
  destruct (free_buffer w m' evc p_buf X Hf Hd Hbuf Hwf ids) as (w' & Ef & Hg);
    [rewrite Hb; apply (mb_brk _ _ _ _ _ Hmb)|done|].
  exists w'. by rewrite (run_bind _ _ _ _ _ Ef).
Qed.

Lemma sds_len_same s m m' : mm_blocks m' !! s.1 = mm_blocks m !! s.1 → flb_sds_len s m' = flb_sds_len s m.
Proof. intros E. unfold flb_sds_len, FLB_SDS_HEADER, ld_u64, mem_load, mem_slice. simpl. by rewrite E. Qed.

Lemma tag_read w v r coro X s n :
  fresh_above w → more_blocks w (w_mem v) r coro X →
  flb_sds_len (s - FLB_SDS_HEADER_SIZE, FLB_SDS_HEADER_SIZE) (w_mem w) = Some n → sds_len s v = Some (n, v).
Proof.
  intros Hf Hmb E. unfold sds_len, peek. rewrite (sds_len_same _ (w_mem w)); [by rewrite E|].
  apply (more_blocks_old _ _ _ _ _ _ Hmb). simpl.
  destruct (mm_blocks (w_mem w) !! (s - FLB_SDS_HEADER_SIZE)) as [b|] eqn:Hb.
  - pose proof (proj2 (proj1 (fa_wf _ Hf)) _ _ Hb). lia.
  - unfold flb_sds_len, FLB_SDS_HEADER, ld_u64, mem_load, mem_slice in E. simpl in E. by rewrite Hb in E.
Qed.

Lemma staged_mem w m m' ids r coro c f chunks : set_mem m' (staged w m ids r coro c f chunks) = staged w m' ids r coro c f chunks.
Proof. by destruct w. Qed.

Context (w : world) (t : flb_task) (evc : flb_event_chunk) (o : flb_output_instance) (cfg : flb_config) (l : list ptr) (tag_len : Z).
Context (Hpre : processed_pre w t evc o cfg l tag_len).

Section branch.
Context (m : mem) (ids : gmap Z Z) (r coro : ptr) (f : flb_output_flush).
Context (Hmb : more_blocks w m r coro ∅) (processor : ptr).

Abbreviation at_ m := (staged w m ids r coro (Coro NULL NULL r) f (w_chunks w)).

(** A chunk object for the records at [p_buf], if there is memory for it. *)
Lemma new_chunk m1 X records p_buf p_size :
  more_blocks w m1 r coro X → buffer_at w evc p_buf X → 
  ∃ tmp m2, mem_wf m2 ∧ mm_brk m1 ≤ mm_brk m2 ∧
    ((tmp = NULL ∧ mm_blocks m2 = mm_blocks m1 ∧
      flb_event_chunk_create lib (ec_type evc) records (ec_tag evc) tag_len p_buf p_size (at_ m1) = Some (NULL, at_ m2)) ∨
     (∃ pc Y, flb_event_chunk_create lib (ec_type evc) records (ec_tag evc) tag_len p_buf p_size (at_ m1) =
        Some (tmp, staged w m2 ids r coro (Coro NULL NULL r) f (<[tmp := pc]> (w_chunks w))) ∧
      processed w (staged w m2 ids r coro (Coro NULL NULL r) (set_processed tmp f) (<[tmp := pc]> (w_chunks w)))
        ids r coro f evc m2 tmp pc X Y ∧
      ec_data pc = p_buf ∧ ec_size pc = p_size ∧ ec_total_events pc = records)).
Proof using Hlogs.
  intros Hm1 Hbuf.
  destruct (lo_create _ _ Hlogs (ec_type evc) records (ec_tag evc) tag_len p_buf p_size m1 (mb_wf _ _ _ _ _ Hm1))
    as ([[tmp pc]|] & m2 & E & Hwf2 & Hb2 & Hcase); unfold flb_event_chunk_create.
  - destruct Hcase as (Hn & Hown & (c_tag & ->) & Y & HY & Hnew & Hbl). exists tmp, m2. do 2 (split; [done|]). right.
    set (pc := EventChunk (ec_type evc) c_tag p_buf p_size records). exists pc, Y.
    assert (Er : on_mem (ol_event_chunk_create lib (ec_type evc) records (ec_tag evc) tag_len p_buf p_size) (at_ m1) =
      Some (Some (tmp, pc), at_ m2)).
    { unfold on_mem. change (w_mem (at_ m1)) with m1. by rewrite E, staged_mem. }
    rewrite (run_bind _ _ _ _ _ Er). split; [reflexivity|]. split; [|done]. split; try done.
    + apply (more_blocks_add _ m1); try done. rewrite HY. done.
    + split_and!; [done..|]. intros p Hp Hpo%Hnew.
      destruct (mb_blocks _ _ _ _ _ Hm1) as (br & bc & Ebl & _).
      apply elem_of_dom in Hp as [b Hp]. assert (mm_blocks m1 !! p = Some b) as Hl by (rewrite Ebl; by apply lookup_union_Some_l).
      pose proof (proj2 (proj1 (mb_wf _ _ _ _ _ Hm1)) _ _ Hl). lia.
  - exists NULL, m2. do 2 (split; [done|]). left. split; [done|]. split; [done|].
    assert (Er : on_mem (ol_event_chunk_create lib (ec_type evc) records (ec_tag evc) tag_len p_buf p_size) (at_ m1) =
      Some (None, at_ m2)).
    { unfold on_mem. change (w_mem (at_ m1)) with m1. by rewrite E, staged_mem. }
    by rewrite (run_bind _ _ _ _ _ Er).
Qed.

(** [process_logs], for every result of the processors and every outcome of
    the allocations. *)
Lemma process_logs_run :
  ∃ w1, (process_logs lib evc processor coro r (at_ m) = Some (false, w1) ∧ ∃ ret p_buf p_size m0,
       ol_processor_run_logs lib processor (ec_tag evc) tag_len (ec_data evc) (ec_size evc) m = Some ((ret, p_buf, p_size), m0) ∧
       ((ret = -1 ∨ p_size = 0) ∧ as_before w w1 ∨ ¬ (ret = -1 ∨ p_size = 0) ∧ given_up w evc p_buf w1)) ∨
    process_logs lib evc processor coro r (at_ m) = Some (true, w1) ∧
    ∃ m1 tmp pc X Y ret, processed w w1 ids r coro f evc m1 tmp pc X Y ∧
      (∃ m0, ol_processor_run_logs lib processor (ec_tag evc) tag_len (ec_data evc) (ec_size evc) m =
         Some ((ret, ec_data pc, ec_size pc), m0) ∧ ec_total_events pc = ol_mp_count lib (ec_data pc) (ec_size pc) m0) ∧
      ret ≠ -1 ∧ ec_size pc ≠ 0 ∧ ec_total_events pc ≠ 0.
Proof using All.
  pose proof (pp_fresh _ _ _ _ _ _ _ Hpre) as Hf. destruct (pp_data _ _ _ _ _ _ _ Hpre) as [bd Hd].
  assert (Hbd : mm_blocks m !! ec_data evc = Some bd).
  { rewrite (more_blocks_old _ _ _ _ _ _ Hmb); [done|]. pose proof (proj2 (proj1 (fa_wf _ Hf)) _ _ Hd). lia. }
  unfold process_logs.
  rewrite (run_bind _ _ _ _ _ (tag_read w (at_ m) r coro ∅ _ _ Hf Hmb (pp_tag _ _ _ _ _ _ _ Hpre))).
  destruct (lo_run _ _ Hlogs processor (ec_tag evc) tag_len (ec_data evc) (ec_size evc) m bd (mb_wf _ _ _ _ _ Hmb) Hbd)
    as (ret & p_buf & p_size & m1 & Er & Hwf1 & Hb1 & Hcase).
  assert (Ero : on_mem_opt (ol_processor_run_logs lib processor (ec_tag evc) tag_len (ec_data evc) (ec_size evc)) (at_ m) =
    Some ((ret, p_buf, p_size), at_ m1)).
  { unfold on_mem_opt. change (w_mem (at_ m)) with m. by rewrite Er, staged_mem. }
  rewrite (run_bind _ _ _ _ _ Ero). cbv beta iota.
  destruct (decide (ret = -1 ∨ p_size = 0)) as [Hrej|Hacc].
  { assert (Hbl1 : mm_blocks m1 = mm_blocks m) by (destruct Hcase as [[? _]|(? & ? & _)]; [done|by destruct Hrej]).
    destruct (discard_clean w m1 ids r coro (Coro NULL NULL r) f Hf) as (w1 & E & Hab); [by apply (more_blocks_frame _ m)|done|].
    exists w1. left. rewrite (run_bind _ _ _ _ _ E). split; [done|]. exists ret, p_buf, p_size, m1. auto. }
  assert (∃ X, more_blocks w m1 r coro X ∧ buffer_at w evc p_buf X) as (X & Hmb1 & Hbuf).
  { destruct Hcase as [(Hbl & Hor)|(_ & _ & Hpb & b & Hbl)].
    - exists ∅. split; [by apply (more_blocks_frame _ m)|]. left. split; [|done]. tauto.
    - exists ({[ p_buf := b ]} ∪ ∅). split.
      + apply (more_blocks_add _ m); try done; [intros p; rewrite dom_singleton_L; by intros ->%elem_of_singleton|].
        by rewrite Hbl, insert_union_singleton_l.
      + rewrite (right_id_L ∅ (∪)). right. split; [pose proof (mb_brk _ _ _ _ _ Hmb); lia|by exists b]. }
  rewrite bind_gets. change (w_mem (at_ m1)) with m1. set (records := ol_mp_count lib p_buf p_size m1).
  assert (Hd' : is_Some (mm_blocks (w_mem w) !! ec_data evc)) by (by exists bd).
  destruct (decide (records = 0)) as [H0|H0].
  { destruct (discard_buffer false w m1 ids r coro (Coro NULL NULL r) f evc p_buf X Hf Hd' Hbuf Hmb1 eq_refl) as (w1 & E & Hg).
    exists w1. left. split; [exact E|]. exists ret, p_buf, p_size, m1. auto. }
  rewrite (run_bind _ _ _ _ _ (tag_read w (at_ m1) r coro X _ _ Hf Hmb1 (pp_tag _ _ _ _ _ _ _ Hpre))).
  destruct (new_chunk m1 X records p_buf p_size Hmb1 Hbuf)
    as (tmp & m2 & Hwf2 & Hb2 & [(-> & Hbl2 & E)|(pc & Y & E & Hpr & Hpd & Hps & Hpt)]); rewrite (run_bind _ _ _ _ _ E).
  { rewrite decide_True by done.
    destruct (discard_buffer false w m2 ids r coro (Coro NULL NULL r) f evc p_buf X Hf Hd' Hbuf) as (w1 & E' & Hg);
      [by apply (more_blocks_frame _ m1)|done|].
    exists w1. left. split; [exact E'|]. exists ret, p_buf, p_size, m1. auto. }
  rewrite decide_False by apply Hpr. eexists. right. split.
  - unfold update_flush. set (V := staged _ _ _ _ _ _ _ _).
    assert (Hg : w_flushes V !! r = Some f) by apply lookup_insert_eq.
    rewrite bind_assoc, (run_bind _ _ _ _ _ (run_get w_flushes r V f Hg)), bind_set_flush. reflexivity.
  - exists m2, tmp, pc, X, Y, ret. split.
    + destruct Hpr. split; try done. destruct w. cbv [staged]. wsimpl. by rewrite insert_insert_eq.
    + rewrite Hpt, Hpd, Hps. split; [by exists m1|]. tauto.
Qed.
End branch.

(** * Starting the flush *)

(** The object of the chunk is released with the chunk. *)
Lemma chunk_gone w0 m ids r f tmp pc Y B :
  mem_wf m → w_chunks w0 !! tmp = None → dom Y = own tmp → mm_blocks m = Y ∪ B → dom B ## own tmp →
  ∃ m', flb_event_chunk_destroy lib tmp (staged1 w0 m ids r f (<[tmp := pc]> (w_chunks w0))) =
      Some (tt, staged1 w0 m' ids r f (w_chunks w0)) ∧ mem_wf m' ∧ mm_brk m' = mm_brk m ∧ mm_blocks m' = B.
Proof using All.
  intros Hwf Hk HY E HB. destruct (lo_destroy _ _ Hlogs tmp m Hwf) as (m' & Ed & Hwf' & Hb' & Hbl).
  { rewrite E, dom_union_L, HY. apply union_subseteq_l. }
  exists m'. split; [|split_and!; try done].
  - unfold flb_event_chunk_destroy. set (V := staged1 _ _ _ _ _ _).
    assert (Hg : w_chunks V !! tmp = Some pc) by apply lookup_insert_eq.
    rewrite (run_bind _ _ _ _ _ (run_get w_chunks tmp V pc Hg)).
    assert (Ho : on_mem_opt (λ m, m ← ol_event_chunk_destroy lib tmp m; Some (tt, m)) V = Some (tt, set_mem m' V))
      by (unfold on_mem_opt; change (w_mem V) with m; by rewrite Ed).
    rewrite (run_bind _ _ _ _ _ Ho). subst V. unfold modify. do 2 f_equal. destruct w0. cbv [staged1]. wsimpl. simpl in Hk.
    by rewrite delete_insert_id.
  - rewrite Hbl, E. apply map_eq. intros p. rewrite map_lookup_filter, lookup_union.
    destruct (decide (p ∈ own tmp)) as [Hp|Hp].
    + assert (B !! p = None) as -> by (apply not_elem_of_dom; set_solver). rewrite (right_id_L None _).
      destruct (Y !! p); simpl; [|done]. by rewrite option_guard_False by (simpl; tauto).
    + assert (Y !! p = None) as -> by (apply not_elem_of_dom; by rewrite HY). rewrite (left_id_L None _).
      destruct (B !! p); simpl; [|done]. by rewrite option_guard_True.
Qed.

Section start.
Context (w1 : world) (ids : gmap Z Z) (r coro : ptr) (f : flb_output_flush) (m : mem) (tmp : ptr) (pc : flb_event_chunk).
Context (X Y : gmap Z (list (option Z))).
Context (Hpr : processed w w1 ids r coro f evc m tmp pc X Y).

Lemma chunk_new : mm_brk (w_mem w) ≤ tmp ∧ tmp ≠ r ∧ tmp ≠ coro.
Proof using All.
  destruct Hpr as [_ Hmb _ (_ & Hown & HY & _) _]. destruct (mb_apart _ _ _ _ _ Hmb tmp) as (? & ? & ?); [set_solver|].
  unfold of_head_off in *. split_and!; [done|lia|done].
Qed.

Lemma added_apart p : p ∈ dom Y ∨ p ∈ dom X → mm_brk (w_mem w) ≤ p ∧ p ≠ r ∧ p ≠ coro.
Proof using All.
  intros Hp. destruct (mb_apart _ _ _ _ _ (pr_blocks _ _ _ _ _ _ _ _ _ _ _ _ Hpr) p) as (? & ? & ?);
    [rewrite dom_union_L, elem_of_union; exact Hp|]. unfold of_head_off in *. split_and!; [done|lia|done].
Qed.

Lemma added_none p : p = r ∨ p = coro ∨ p < mm_brk (w_mem w) → Y !! p = None ∧ X !! p = None.
Proof using All.
  intros Hp. split; apply not_elem_of_dom; intros Hin;
    [destruct (added_apart p (or_introl Hin)) as (? & ? & ?)|destruct (added_apart p (or_intror Hin)) as (? & ? & ?)]; naive_solver lia.
Qed.

(** The buffer is apart from the context and from the chunk. *)
Lemma buffer_apart : ec_data pc ≠ r ∧ ec_data pc ≠ tmp ∧ (ec_data pc ≠ ec_data evc → ec_data pc ∈ dom X).
Proof using All.
  pose proof (data_is_old w evc (pp_fresh _ _ _ _ _ _ _ Hpre) (pp_data _ _ _ _ _ _ _ Hpre)) as Hlow.
  destruct chunk_new as (Htb & _). destruct Hpr as [_ Hmb Hbuf (_ & Hown & HY & HXY) _].
  destruct (mb_new _ _ _ _ _ Hmb) as (_ & _ & Hr & _).
  destruct Hbuf as [[-> ->]|[_ [b E]]]; [split_and!; [lia|lia|done]|].
  assert (Hin : ec_data pc ∈ dom X) by (rewrite E, dom_singleton_L; by apply elem_of_singleton).
  split_and!; [by apply added_apart; right| |done]. intros Ht. rewrite Ht in Hin. by apply (HXY tmp).
Qed.

(** What remains when the coroutine is gone, beside what the processors have
    added: the chunk, the context and what there was. *)
Lemma blocks_without_coro br bc :
  mm_blocks m = Y ∪ X ∪ <[coro := bc]> (<[r := br]> (mm_blocks (w_mem w))) →
  let B := Y ∪ <[r := br]> (mm_blocks (w_mem w)) in
  mm_blocks m !! coro = Some bc ∧ delete coro (mm_blocks m) = X ∪ B ∧
  (ec_data pc ≠ ec_data evc → B !! ec_data pc = None) ∧ B !! ec_data evc = mm_blocks (w_mem w) !! ec_data evc.
Proof using All.
  intros Ebl B. pose proof (pp_fresh _ _ _ _ _ _ _ Hpre) as Hf.
  pose proof (data_is_old w evc Hf (pp_data _ _ _ _ _ _ _ Hpre)) as Hlow. destruct buffer_apart as (Hbr & _ & HpX).
  destruct Hpr as [_ Hmb Hbuf (_ & Hown & HY & HXY) _]. destruct (mb_new _ _ _ _ _ Hmb) as (_ & _ & Hr & Hc & Hne).
  destruct (added_none coro) as [HYc HXc]; [by right; left|]. rewrite Ebl, <- (assoc_L (∪)). split_and!.
  - by rewrite !lookup_union_r, lookup_insert_eq by done.
  - rewrite !delete_union, (delete_id Y coro), (delete_id X coro) by done.
    rewrite delete_insert_eq, delete_id by (rewrite lookup_insert_ne by done; by apply fresh_block).
    rewrite (assoc_L (∪)), (map_union_comm Y X), <- (assoc_L (∪)); [done|]. apply map_disjoint_dom. by rewrite HY.
  - intros Hp%HpX. unfold B. rewrite lookup_union_None. split; [apply not_elem_of_dom; rewrite HY; intros Hin; by apply (HXY (ec_data pc))|].
    rewrite lookup_insert_ne by done. apply fresh_block; [done|]. by apply added_apart; right.
  - unfold B. destruct (added_none (ec_data evc)) as [HYd _]; [by right; right|].
    rewrite lookup_union_r, lookup_insert_ne by (done || lia). done.
Qed.

(** Without a stack everything is given back: the coroutine and the records, *)
Lemma start_fails_records m2 caller :
  mem_wf m2 → mm_brk m ≤ mm_brk m2 → mm_blocks m2 = mm_blocks m →
  let w0 := kept_world w evc (ec_data pc) in
  ∃ m3 m4 br, let V := staged1 w m3 ids r (set_processed tmp f) (<[tmp := pc]> (w_chunks w)) in
    flb_coro_destroy (ol_co lib) coro (staged w m2 ids r coro (Coro caller NULL r) (set_processed tmp f) (<[tmp := pc]> (w_chunks w))) =
      Some (tt, V) ∧
    w_free (ec_data pc) V = Some (tt, staged1 w0 m4 ids r (set_processed tmp f) (<[tmp := pc]> (w_chunks w0))) ∧
    mem_wf m4 ∧ mm_brk m ≤ mm_brk m4 ∧ mm_blocks m4 = Y ∪ <[r := br]> (kept_blocks w evc (ec_data pc)).
Proof using All.
  intros Hwf2 Hb2 Hbl2. pose proof (pp_fresh _ _ _ _ _ _ _ Hpre) as Hf. pose proof (pp_data _ _ _ _ _ _ _ Hpre) as Hd.
  pose proof (data_is_old w evc Hf Hd) as Hlow. destruct chunk_new as (Htb & Htr & Htc), buffer_apart as (Hpr' & Hpt & _).
  destruct (mb_blocks _ _ _ _ _ (pr_blocks _ _ _ _ _ _ _ _ _ _ _ _ Hpr)) as (br & bc & Ebl & _).
  destruct (blocks_without_coro br bc Ebl) as (Hbc & Hdel & HBp & HBd). set (B := Y ∪ <[r := br]> (mm_blocks (w_mem w))) in *.
  pose proof Hpr as [_ Hmb Hbuf _ _]. destruct (mb_new _ _ _ _ _ Hmb) as (_ & _ & Hr & Hc & Hne).
  destruct (coro_gone w m2 ids r coro (Coro caller NULL r) (set_processed tmp f) (<[tmp := pc]> (w_chunks w)) bc Hf Hwf2 Hc Hne)
    as [Hwf3 E3]; [rewrite lookup_insert_ne by done; by apply (fa_chunks _ Hf)|done|rewrite Hbl2; exact Hbc|].
  set (m3 := Mem _ _ _) in *. assert (Hm3 : mm_blocks m3 = X ∪ B) by (simpl; by rewrite Hbl2).
  destruct (free_staged_buffer w m3 evc (ec_data pc) X Hf Hd Hbuf Hwf3 ids r (set_processed tmp f) tmp pc B Hr Htb Hpr' Hpt Hm3 HBp HBd)
    as (m4 & E4 & Hwf4 & Hb4 & Hm4).
  exists m3, m4, br. split; [exact E3|]. split; [exact E4|]. split; [done|]. split; [rewrite Hb4; exact Hb2|].
  rewrite Hm4. unfold B, kept_blocks. case_decide; [|done]. rewrite delete_union, delete_insert_ne by lia.
  destruct (added_none (ec_data evc)) as [HYd _]; [by right; right|]. by rewrite (delete_id Y).
Qed.

(** then the chunk and the context. *)
Lemma start_fails m2 caller :
  mem_wf m2 → mm_brk m ≤ mm_brk m2 → mm_blocks m2 = mm_blocks m →
  ∃ w', (flb_coro_destroy (ol_co lib) coro;; g ← get w_flushes r;
     (if decide (of_processed_event_chunk g ≠ NULL) then
        c ← get w_chunks (of_processed_event_chunk g);
        w_free (ec_data c);; flb_event_chunk_destroy lib (of_processed_event_chunk g)
      else mret tt);; w_free r;; mret NULL)
      (staged w m2 ids r coro (Coro caller NULL r) (set_processed tmp f) (<[tmp := pc]> (w_chunks w))) = Some (NULL, w') ∧
    given_up w evc (ec_data pc) w'.
Proof using All.
  intros Hwf2 Hb2 Hbl2. pose proof (pp_fresh _ _ _ _ _ _ _ Hpre) as Hf.
  destruct (start_fails_records m2 caller Hwf2 Hb2 Hbl2) as (m3 & m4 & br & E3 & E4 & Hwf4 & Hb4 & Hm4).
  destruct (kept_fresh w evc (ec_data pc) Hf) as [Hf0 Hm0]. set (w0 := kept_world _ _ _) in *.
  destruct chunk_new as (Htb & _). pose proof Hpr as [_ Hmb _ (Htn & _ & HY & _) _].
  destruct (mb_new _ _ _ _ _ Hmb) as (_ & _ & Hr & _). rewrite (run_bind _ _ _ _ _ E3). set (V := staged1 _ _ _ _ _ _) in *.
  assert (Hg : w_flushes V !! r = Some (set_processed tmp f)) by apply lookup_insert_eq.
  rewrite (run_bind _ _ _ _ _ (run_get w_flushes r V _ Hg)). simpl of_processed_event_chunk. rewrite decide_True by done.
  assert (Hgc : w_chunks V !! tmp = Some pc) by apply lookup_insert_eq.
  rewrite bind_assoc, (run_bind _ _ _ _ _ (run_get w_chunks tmp V pc Hgc)), bind_assoc, (run_bind _ _ _ _ _ E4).
  assert (Hkb : ∀ p, p ∈ dom (kept_blocks w evc (ec_data pc)) → p < mm_brk (w_mem w)).
  { intros p Hp. assert (p ∈ dom (mm_blocks (w_mem w))) as [b Hb]%elem_of_dom
      by (unfold kept_blocks in Hp; case_decide; [rewrite dom_delete_L in Hp; set_solver|done]).
    pose proof (proj2 (proj1 (fa_wf _ Hf)) _ _ Hb). lia. }
  destruct (chunk_gone w0 m4 ids r (set_processed tmp f) tmp pc Y (<[r := br]> (kept_blocks w evc (ec_data pc))) Hwf4) as (m5 & E5 & Hwf5 & Hb5 & Hm5);
    [apply (fa_chunks _ Hf0); by rewrite Hm0|done|exact Hm4| |].
  { intros p Hp Hpo. rewrite dom_insert_L, elem_of_union, elem_of_singleton in Hp.
    rewrite <- HY in Hpo. destruct (added_apart p (or_introl Hpo)) as (? & ? & _). destruct Hp as [?|?%Hkb]; [done|lia]. }
  rewrite (run_bind _ _ _ _ _ E5).
  destruct (flush_gone w0 m5 ids r (set_processed tmp f) (w_chunks w0) br Hf0 Hwf5) as [Hwf6 E6];
    [by rewrite Hm0|apply (fa_chunks _ Hf0); by rewrite Hm0|rewrite Hm5; apply lookup_insert_eq|].
  rewrite (run_bind _ _ _ _ _ E6). eexists. split; [reflexivity|]. rewrite staged_chunks_id. eexists _, ids.
  split; [exact Hwf6|]. split; [|split; [reflexivity|]].
  - change (mm_brk (w_mem w) ≤ mm_brk m5). rewrite Hb5. pose proof (mb_brk _ _ _ _ _ Hmb). lia.
  - simpl. rewrite Hm5, delete_insert_eq, delete_id; [done|]. apply not_elem_of_dom. intros Hin%Hkb. lia.
Qed.

(** ** A flush of processed records *)

(** The flush has been created and is linked; its coroutine waits at its first
    switch, and will deliver the chunk of its own, unless memory was short for
    the parameters of the thread.  What was there is as it was. *)
Record delivers (w' : world) (callee : ptr) (st : cothread) : Prop := {
  dl_new : r ≠ NULL ∧ coro ≠ NULL ∧ callee ≠ NULL ∧ tmp ≠ NULL;
  dl_flush : w_flushes w' = <[r := set_processed tmp f]> (w_flushes w);
  dl_chunk : w_chunks w' = <[tmp := pc]> (w_chunks w) ∧ ec_type pc = ec_type evc;
  dl_coro : w_coros w' = <[coro := Coro (w_active w) callee r]> (w_coros w);
  dl_thread : w_threads w' = <[callee := st]> (w_threads w);
  dl_start :
    st = CT_output_ready (OutFlushParams tmp r (tk_i_ins t) (oi_p o) (oi_context o) config coro) ∧ w_trace w' = w_trace w ∨
    st = CT_output_start ∧ w_out_key w = NULL ∧ w_trace w' = w_trace w ++ [Ev_error];
  dl_list : dll (ts_list (w_store w')) (live_list worker o) (l ++ [r + of_head_off]);
  dl_frame : agree_outside (r + of_head_off :: live_list worker o :: l) (ts_list (w_store w)) (ts_list (w_store w'));
  dl_static : ts_tasks (w_store w') = ts_tasks (w_store w) ∧ ts_routes (w_store w') = ts_routes (w_store w) ∧
    w_active w' = w_active w ∧ w_outs w' = w_outs w ∧ w_out_threads w' = w_out_threads w ∧ w_configs w' = w_configs w ∧
    w_input_coros w' = w_input_coros w ∧ w_in_params w' = w_in_params w;
  dl_params p : p ≠ w_out_key w' → w_flush_params w' !! p = w_flush_params w !! p;
  dl_fresh : mm_brk (w_mem w) ≤ r ∧ mm_brk (w_mem w) ≤ coro ∧ mm_brk (w_mem w) ≤ callee ∧ mm_brk (w_mem w) ≤ tmp;
  dl_apart : r ≠ coro ∧ r ≠ callee ∧ coro ≠ callee;
  dl_wf : mem_wf (w_mem w');
  (** the context, the coroutine, its stack, the chunk, the records unless the
      processors left them where they were, and what the thread keeps *)
  dl_mem : ∃ br bc bh X Y kept,
    mm_blocks (w_mem w') = kept ∪ <[callee := bh]> (Y ∪ X ∪ <[coro := bc]> (<[r := br]> (mm_blocks (w_mem w)))) ∧
    length br = Z.to_nat sizeof_flb_output_flush ∧ buffer_at w evc (ec_data pc) X ∧ tmp ∈ own tmp ∧ dom Y = own tmp ∧ dom X ## own tmp ∧
    (∀ p, p ∈ dom (Y ∪ X) → mm_brk (w_mem w) ≤ p ∧ r + of_head_off < p ∧ p ∉ [coro; callee]) ∧
    (∀ p, p ∈ dom kept → mm_brk (w_mem w) ≤ p ∧ p ∉ [r; coro; callee] ∧ p ∉ dom (Y ∪ X)) ∧
    (kept = ∅ ∧ w_out_key w' = w_out_key w ∨ w_out_key w = NULL ∧ ∃ b, kept = {[ w_out_key w' := b ]});
  dl_above : mm_brk (w_mem w) ≤ mm_brk (w_mem w') ∧ (w_out_key w < mm_brk (w_mem w) → fresh_above w')
}.

(** The world with the stack, before the context is linked. *)
Abbreviation with_callee m' callee :=
  (set_threads (<[callee := CT_output_start]> (w_threads w))
    (staged w m' ids r coro (Coro (w_active w) callee r) (set_processed tmp f) (<[tmp := pc]> (w_chunks w)))).

Lemma start_fresh m' callee h :
  mem_wf m' → mm_brk m ≤ mm_brk m' → callee < mm_brk m' →
  agree_outside (r + of_head_off :: live_list worker o :: l) (ts_list (w_store w)) h →
  fresh_above (set_store (TaskStore h (ts_tasks (w_store w)) (ts_routes (w_store w))) (with_callee m' callee)).
Proof using All.
  intros Hwf' Hb' Hcal Hag. pose proof (pp_fresh _ _ _ _ _ _ _ Hpre) as Hf. pose proof (pp_list _ _ _ _ _ _ _ Hpre) as Hl.
  destruct Hpr as [_ Hmb _ (_ & Hown & HY & _) _]. pose proof (mb_brk _ _ _ _ _ Hmb) as Hb.
  destruct (mb_below _ _ _ _ _ Hmb) as [Hbr Hbc]. unfold of_head_off in Hbr.
  assert (Htm : tmp < mm_brk m).
  { destruct (mb_blocks _ _ _ _ _ Hmb) as (br & bc & Ebl & _).
    assert (is_Some (mm_blocks m !! tmp)) as [b Hbt].
    { rewrite Ebl, !lookup_union_is_Some. left. left. apply elem_of_dom. by rewrite HY. }
    pose proof (proj2 (proj1 (mb_wf _ _ _ _ _ Hmb)) _ _ Hbt). lia. }
  assert (Hnode : ∀ p, mm_brk m' ≤ p → p ∉ r + of_head_off :: live_list worker o :: l).
  { intros p Hp [->|Hin]%elem_of_cons; [unfold of_head_off in *; lia|]. apply (dll_below w _ _ _ Hf Hl) in Hin. lia. }
  pose proof Hf as [_ Fc Ff Fch Ffp Fic Fip Ft Fn Fp].
  split; simpl; try done; try (intros p Hp; eauto with lia).
  - apply (insert_fresh _ _ _ _ (mm_brk m') Fc); lia.
  - apply (insert_fresh _ _ _ _ (mm_brk m') Ff); lia.
  - apply (insert_fresh _ _ _ _ (mm_brk m') Fch); lia.
  - apply (insert_fresh _ _ _ _ (mm_brk m') Ft); lia.
  - destruct (Hag p (Hnode p Hp)) as [-> _]. apply Fn. lia.
  - destruct (Hag p (Hnode p Hp)) as [_ ->]. apply Fp. lia.
Qed.

(** The switch leaves fresh addresses fresh. *)
Lemma switched_fresh L w' callee params :
  fresh_above L → callee < mm_brk (w_mem L) → w_out_key L < mm_brk (w_mem L) → switched L w' callee params →
  fresh_above w'.
Proof using.
  intros Hf Hc Hk [(m2 & key & Hw2 & Hb2 & _ & Hm2 & ->)|(m2 & Hw2 & Hb2 & _ & _ & ->)];
    [|by destruct (mem_fresh L m2 Hf Hw2 Hb2)].
  apply (ready_fresh L m2 key callee); [done..| |lia].
  destruct Hm2 as [[_ ->]|(_ & _ & b & Hm2)]; [lia|].
  assert (mm_blocks m2 !! key = Some b) as [_ ?]%(proj2 (proj1 Hw2)) by (rewrite Hm2; apply lookup_insert_eq). lia.
Qed.

Lemma switched_brk L w' callee params : switched L w' callee params → mm_brk (w_mem L) ≤ mm_brk (w_mem w').
Proof using. by intros [(? & ? & _ & ? & _ & _ & ->)|(? & _ & ? & _ & _ & ->)]. Qed.

Lemma start_links m' callee bh :
  mem_wf m' → mm_brk m ≤ mm_brk m' → callee ≠ NULL → mm_brk m ≤ callee →
  mm_blocks m' = <[callee := bh]> (mm_blocks m) →
  ∃ w' st, (o ← get w_outs o_ins;
    (if decide (oi_is_threaded o = FLB_TRUE) then
       let th := ol_thread_instance_get lib in
       th_ins ← get w_out_threads th;
       (if ti_flush_mutex th_ins then fail
        else modify (λ w, set_out_threads (<[th := set_ti_flush_mutex true th_ins]> (w_out_threads w)) w));;
       on_list (mk_list_add (r + of_head_off) (ti_flush_list th_ins));;
       modify (λ w, set_out_threads (<[th := set_ti_flush_mutex false th_ins]> (w_out_threads w)) w)
     else on_list (mk_list_add (r + of_head_off) (oi_flush_list o)));;
    output_params_set lib r coro task (oi_p o) (oi_context o) config;;
    mret r) (with_callee m' callee) = Some (r, w') ∧ delivers w' callee st ∧ mm_blocks m ⊆ mm_blocks (w_mem w').
Proof using All.
  intros Hwf' Hb' Hcn Hcb Hbl. pose proof (pp_fresh _ _ _ _ _ _ _ Hpre) as Hf. pose proof (pp_list _ _ _ _ _ _ _ Hpre) as Hl.
  destruct Hpr as [_ Hmb Hbuf (Htn & Hown & HY & HXY) Hty]. destruct (mb_new _ _ _ _ _ Hmb) as (Hr0 & Hc0 & Hr & Hc & Hne).
  set (V := with_callee _ _). assert (Ho : w_outs V !! o_ins = Some o) by apply (pp_out _ _ _ _ _ _ _ Hpre).
  rewrite (run_bind _ _ _ _ _ (run_get w_outs o_ins V o Ho)).
  assert (Hx : r + of_head_off ∉ live_list worker o :: l).
  { intros Hin. apply (dll_below w _ _ _ Hf Hl) in Hin. unfold of_head_off in Hin. lia. }
  destruct (mk_list_add_dll (ts_list (w_store w)) _ _ (r + of_head_off) Hl) as (h & Hadd & Hdl & Hag);
    [pose proof (proj1 (proj1 (fa_wf _ Hf))); unfold NULL, of_head_off; lia|done|].
  rewrite (run_bind _ _ _ _ _ (link_flush_run lib worker V o (r + of_head_off) h (pp_thread _ _ _ _ _ _ _ Hpre) Hadd)).
  set (L := set_store _ V).
  destruct (params_set_run lib task config L r coro (oi_p o) (oi_context o) (set_processed tmp f) t (Coro (w_active w) callee r))
    as (w' & Eps & Hsw); [done|apply lookup_insert_eq|apply (pp_task _ _ _ _ _ _ _ Hpre)|apply lookup_insert_eq
    |apply lookup_insert_eq|done|].
  rewrite (run_bind _ _ _ _ _ Eps). simpl in Hsw.
  assert (Hch : flush_chunk (set_processed tmp f) t = tmp) by (unfold flush_chunk; simpl; by rewrite decide_True).
  rewrite Hch in Hsw. set (params := OutFlushParams _ _ _ _ _ _ _) in Hsw.
  destruct (switched_mem L w' callee params Hsw) as (Hwfw & kept & Ek & Hkn & Hkk).
  assert (Hsub : mm_blocks m ⊆ mm_blocks (w_mem w')).
  { rewrite Ek. change (w_mem L) with m'. rewrite Hbl. apply map_subseteq_spec. intros p b Hp.
    pose proof (proj2 (proj1 (mb_wf _ _ _ _ _ Hmb)) _ _ Hp). rewrite lookup_union_r, lookup_insert_ne by (lia || (apply not_elem_of_dom;
      intros Hk%Hkn; change (w_mem L) with m' in Hk; lia)). done. }
  assert (Hmem : ∃ br bc bh X Y kept,
    mm_blocks (w_mem w') = kept ∪ <[callee := bh]> (Y ∪ X ∪ <[coro := bc]> (<[r := br]> (mm_blocks (w_mem w)))) ∧
    length br = Z.to_nat sizeof_flb_output_flush ∧ buffer_at w evc (ec_data pc) X ∧ tmp ∈ own tmp ∧ dom Y = own tmp ∧ dom X ## own tmp ∧
    (∀ p, p ∈ dom (Y ∪ X) → mm_brk (w_mem w) ≤ p ∧ r + of_head_off < p ∧ p ∉ [coro; callee]) ∧
    (∀ p, p ∈ dom kept → mm_brk (w_mem w) ≤ p ∧ p ∉ [r; coro; callee] ∧ p ∉ dom (Y ∪ X)) ∧
    (kept = ∅ ∧ w_out_key w' = w_out_key w ∨ w_out_key w = NULL ∧ ∃ b, kept = {[ w_out_key w' := b ]})).
  { destruct (mb_blocks _ _ _ _ _ Hmb) as (br & bc & Ebl & Hlen). pose proof (mb_brk _ _ _ _ _ Hmb) as Hbm.
    destruct (mb_below _ _ _ _ _ Hmb) as [Hbr Hbc]. unfold of_head_off in Hbr.
    assert (HXm : ∀ p, p ∈ dom (Y ∪ X) → p < mm_brk m).
    { intros p [b Hp]%elem_of_dom. assert (mm_blocks m !! p = Some b) as Hp' by (rewrite Ebl; by apply lookup_union_Some_l).
      pose proof (proj2 (proj1 (mb_wf _ _ _ _ _ Hmb)) _ _ Hp'). lia. }
    assert (Hkm : ∀ p, p ∈ dom kept → mm_brk m ≤ p ∧ p ≠ callee).
    { intros p Hp%Hkn. change (w_mem L) with m' in Hp. split; [lia|]. intros ->.
      assert (mm_blocks m' !! callee = Some bh) as Hl' by (rewrite Hbl; apply lookup_insert_eq).
      pose proof (proj2 (proj1 Hwf') _ _ Hl'). lia. }
    exists br, bc, bh, X, Y, kept. change (w_mem L) with m' in Ek. rewrite Ek, Hbl, Ebl. split_and!; try done.
    - intros p Hp. destruct (mb_apart _ _ _ _ _ Hmb p Hp) as (? & ? & ?). apply HXm in Hp. split_and!; [done..|].
      rewrite !not_elem_of_cons. split_and!; [done|lia|apply not_elem_of_nil].
    - intros p [Hp Hpc]%Hkm. split_and!; [lia| |by intros ?%HXm; lia].
      rewrite !not_elem_of_cons. split_and!; [lia|lia|done|apply not_elem_of_nil]. }
  assert (Hst : ∃ st, w_threads w' = <[callee := st]> (w_threads w) ∧
    (st = CT_output_ready params ∧ w_trace w' = w_trace w ∨
     st = CT_output_start ∧ w_out_key w = NULL ∧ w_trace w' = w_trace w ++ [Ev_error])).
  { destruct Hsw as [(? & ? & _ & _ & _ & _ & ->)|(? & _ & _ & Hk & _ & ->)]; [|by exists CT_output_start; auto].
    exists (CT_output_ready params). split; [apply insert_insert_eq|by left]. }
  destruct Hst as (st & Hth & Hst). exists w', st. split; [done|]. split; [|exact Hsub].
  destruct (mb_below _ _ _ _ _ Hmb) as [Hbr Hbc]. pose proof (mb_brk _ _ _ _ _ Hmb) as Hbm.
  assert (Hfresh : mm_brk (w_mem w) ≤ r ∧ mm_brk (w_mem w) ≤ coro ∧ mm_brk (w_mem w) ≤ callee ∧ mm_brk (w_mem w) ≤ tmp)
    by (split_and!; [done|done|lia|by apply chunk_new]).
  assert (Hapart : r ≠ coro ∧ r ≠ callee ∧ coro ≠ callee) by (unfold of_head_off in Hbr; split_and!; [done|lia|lia]).
  assert (Hpar : ∀ p, p ≠ w_out_key w' → w_flush_params w' !! p = w_flush_params w !! p).
  { destruct Hsw as [(? & ? & _ & _ & _ & _ & ->)|(? & _ & _ & _ & _ & ->)]; intros p Hp; [|done]. simpl. by apply lookup_insert_ne. }
  assert (Hab : mm_brk (w_mem w) ≤ mm_brk (w_mem w') ∧ (w_out_key w < mm_brk (w_mem w) → fresh_above w')).
  { pose proof (switched_brk _ _ _ _ Hsw) as Hbw. change (w_mem L) with m' in Hbw. split; [lia|]. intros Hkey.
    assert (mm_blocks m' !! callee = Some bh) as [_ Hcal]%(proj2 (proj1 Hwf')) by (rewrite Hbl; apply lookup_insert_eq).
    apply (switched_fresh L w' callee params); [apply start_fresh; (done || lia)|change (w_mem L) with m'; lia|change (w_out_key w < mm_brk m'); lia|done]. }
  destruct Hsw as [(? & ? & _ & _ & _ & _ & Ew)|(? & _ & _ & _ & _ & Ew)]; split; try done; by rewrite Ew.
Qed.

(** [flush_start] after the processors. *)
Lemma flush_start_processed :
  (∃ w', flush_start lib task o_ins config coro r w1 = Some (NULL, w') ∧ given_up w evc (ec_data pc) w' ∧
     ∃ m', co_create_mem (ol_co lib) (cf_coro_stack_size cfg) m = (NULL, m')) ∨
  ∃ w' callee st, flush_start lib task o_ins config coro r w1 = Some (r, w') ∧ delivers w' callee st ∧
     mm_blocks m ⊆ mm_blocks (w_mem w') ∧ ∃ m', co_create_mem (ol_co lib) (cf_coro_stack_size cfg) m = (callee, m').
Proof using All.
  pose proof Hpr as [E1 Hmb _ _ _]. rewrite E1. set (W := staged _ _ _ _ _ _ _ _).
  unfold flush_start, co_active. rewrite bind_gets.
  assert (HcW : w_coros W !! coro = Some (Coro NULL NULL r)) by apply lookup_insert_eq.
  rewrite (run_bind _ _ _ _ _ (run_get w_coros coro W _ HcW)).
  rewrite (run_bind _ _ _ _ _ (run_get w_configs config W cfg (pp_config _ _ _ _ _ _ _ Hpre))).
  destruct (co_create_mem (ol_co lib) (cf_coro_stack_size cfg) m) as [callee m'] eqn:Eh.
  destruct (co_create_ok _ Hco _ _ _ _ (mb_wf _ _ _ _ _ Hmb) Eh) as (Hwf' & Hb' & Hcase).
  rewrite (run_bind _ _ _ _ _ (run_co_create _ _ CT_output_start W callee m' Eh)). unfold set_coro. rewrite bind_modify.
  destruct Hcase as [[-> Hbl]|(Hcn & Hcr & bh & Hbl)].
  - left. rewrite !decide_True by done. destruct (start_fails m' (w_active w) Hwf' Hb' Hbl) as (w' & E & Hg).
    exists w'. split; [|split; [exact Hg|by exists m']]. rewrite <- E. f_equal. subst W. destruct w. cbv [staged]. wsimpl.
    by rewrite insert_insert_eq.
  - right. rewrite !decide_False by done. destruct (start_links m' callee bh Hwf' Hb' Hcn (proj1 Hcr) Hbl) as (w' & st & E & Hdl & Hsub).
    exists w', callee, st. split; [|split; [exact Hdl|split; [exact Hsub|by exists m']]]. rewrite <- E. f_equal. subst W. destruct w. cbv [staged]. wsimpl.
    by rewrite insert_insert_eq.
Qed.
End start.

(** * Creation *)

(** Creation up to the processors. *)
Lemma create_processed_enters :
  (∃ w', flb_output_flush_create lib task i_ins o_ins config w = Some (NULL, w') ∧ as_before w w' ∧ mm_oracle (w_mem w) ≠ []) ∨
  ∃ m id ids coro, let r := mm_brk (w_mem w) in more_blocks w m r coro ∅ ∧
    flb_output_flush_create lib task i_ins o_ins config w =
    (continue ← run_processors lib evc o coro r;
     if (continue : bool) then flush_start lib task o_ins config coro r else mret NULL)
      (staged w m ids r coro (Coro NULL NULL r) (OutputFlush id (ec_data evc) task config o_ins coro NULL) (w_chunks w)).
Proof using Hpre.
  destruct Hpre as [Hf Ht Hev Ho _ _ _ _ _ _].
  destruct (create_enters lib task i_ins o_ins config w t evc o Hf Ht Hev Ho) as [?|(m & id & ids & coro & Htb & E)]; [by left|right].
  exists m, id, ids, coro. split; [by apply two_more|]. by rewrite E, prepared_staged.
Qed.

Context (Hkind : ec_type evc = FLB_EVENT_TYPE_LOGS).

Lemma logs_branch coro r : run_processors lib evc o coro r = process_logs lib evc (oi_processor o) coro r.
Proof using Hpre Hkind. unfold run_processors. by rewrite !decide_True by (done || apply Hpre). Qed.

(** The processors may leave records at [p_buf]. *)
Definition leaves_records (p_buf p_size : Z) : Prop :=
  ∃ m m' ret, mem_wf m ∧ is_Some (mm_blocks m !! ec_data evc) ∧
    ol_processor_run_logs lib (oi_processor o) (ec_tag evc) tag_len (ec_data evc) (ec_size evc) m =
      Some ((ret, p_buf, p_size), m') ∧ ret ≠ -1 ∧ p_size ≠ 0.

(** Creation, for every result of the processors. *)
Lemma create_logs :
  ∃ r w', flb_output_flush_create lib task i_ins o_ins config w = Some (r, w') ∧
    (r = NULL ∧ (as_before w w' ∨ ∃ p_buf p_size, leaves_records p_buf p_size ∧ given_up w evc p_buf w') ∨
     ∃ id coro tmp pc callee st, delivers r coro (OutputFlush id (ec_data evc) task config o_ins coro NULL) tmp pc w' callee st ∧
       ec_total_events pc ≠ 0 ∧ leaves_records (ec_data pc) (ec_size pc)).
Proof using All.
  destruct create_processed_enters as [(w' & E & Hab & _)|(m & id & ids & coro & Hmb & E)]; rewrite E, ?logs_branch.
  { exists NULL, w'. split; [done|]. left. split; [done|by left]. }
  set (r := mm_brk (w_mem w)) in *. set (f := OutputFlush _ _ _ _ _ _ _).
  assert (Hd : mem_wf m ∧ is_Some (mm_blocks m !! ec_data evc)).
  { split; [apply (mb_wf _ _ _ _ _ Hmb)|]. rewrite (more_blocks_old _ _ _ _ _ _ Hmb); [apply (pp_data _ _ _ _ _ _ _ Hpre)|].
    apply (data_is_old w evc (pp_fresh _ _ _ _ _ _ _ Hpre) (pp_data _ _ _ _ _ _ _ Hpre)). }
  destruct Hd as [Hwfm Hdm].
  destruct (process_logs_run m ids r coro f Hmb (oi_processor o))
    as (w1 & [[E1 Hc]|(E1 & m1 & tmp & pc & X & Y & ret & Hpr & (m0 & Er & _) & Hret & Hsz & Hrec)]);
    rewrite (run_bind _ _ _ _ _ E1).
  { exists NULL, w1. split; [done|]. left. split; [done|]. destruct Hc as (ret & p_buf & p_size & m0 & Er & [[_ ?]|[Hacc ?]]); [by left|right].
    exists p_buf, p_size. split; [|done]. exists m, m0, ret. tauto. }
  destruct (flush_start_processed w1 ids r coro f m1 tmp pc X Y Hpr) as [(w' & E2 & Hg & _)|(w' & callee & st & E2 & Hdl & _)]; rewrite E2.
  { exists NULL, w'. split; [done|]. left. split; [done|]. right. exists (ec_data pc), (ec_size pc). split; [|done]. by exists m, m0, ret. }
  exists r, w'. split; [done|]. right. exists id, coro, tmp, pc, callee, st. split; [exact Hdl|]. split; [done|]. by exists m, m0, ret.
Qed.

(** C21. [flb_output_flush_create] for an output with a processor, threaded or
    not, and a chunk of logs: for every result of the processors and every
    outcome of the allocations.  Either it returns NULL with all it had
    allocated released, or it returns NULL and the records the processors left
    are released, even when these are the records of the task; or it returns a
    context that is recorded and linked last, with a chunk of its own that has
    what the processors left, neither empty nor rejected, while everything that
    was there is as it was.  The coroutine of that context waits at its first
    switch to deliver that chunk; or, when the parameters of the thread did not
    exist yet and could not be allocated, it has not started and an error is
    reported. *)
Theorem flb_output_flush_create_logs_spec :
  ∃ r w', flb_output_flush_create lib task i_ins o_ins config w = Some (r, w') ∧
    (r = NULL ∧ (as_before w w' ∨ ∃ p_buf p_size, leaves_records p_buf p_size ∧ given_up w evc p_buf w') ∨
     ∃ id coro tmp pc callee,
       let f := OutputFlush id (ec_data evc) task config o_ins coro NULL in
       let params := OutFlushParams tmp r (tk_i_ins t) (oi_p o) (oi_context o) config coro in
       ec_total_events pc ≠ 0 ∧ leaves_records (ec_data pc) (ec_size pc) ∧
       (delivers r coro f tmp pc w' callee (CT_output_ready params) ∧ w_trace w' = w_trace w ∨
        delivers r coro f tmp pc w' callee CT_output_start ∧ w_out_key w = NULL ∧ w_trace w' = w_trace w ++ [Ev_error])).
Proof using All.
  destruct create_logs as (r & w' & E & [H|(id & coro & tmp & pc & callee & st & H & Hn & Hl)]);
    exists r, w'; (split; [exact E|]); [by left|right]. exists id, coro, tmp, pc, callee. split; [exact Hn|]. split; [exact Hl|].
  destruct (dl_start _ _ _ _ _ _ _ _ H) as [[-> Htr]|[-> [Hk Htr]]]; [by left|by right].
Qed.

(** C22. When the processors leave the records where they are and the flush
    cannot be created after that, because they hold no record or there is no
    stack for its coroutine, the records of the task are released: its chunk
    still points to them, and other flushes of the task will deliver it. *)
Theorem flb_output_flush_create_logs_lost :
  (∀ m, ∃ m', ol_processor_run_logs lib (oi_processor o) (ec_tag evc) tag_len (ec_data evc) (ec_size evc) m =
     Some ((0, ec_data evc, ec_size evc), m')) → 
  ec_size evc ≠ 0 → mm_oracle (w_mem w) = [] → tk_event_chunk t ≠ ec_data evc →
  (∀ m, ol_mp_count lib (ec_data evc) (ec_size evc) m = 0) ∨ (∀ size m, ∃ m', co_create_mem (ol_co lib) size m = (NULL, m')) →
  ∃ w', flb_output_flush_create lib task i_ins o_ins config w = Some (NULL, w') ∧
    w_chunks w' !! tk_event_chunk t = Some evc ∧ mm_blocks (w_mem w') !! ec_data evc = None.
Proof using All.
  intros Hrun Hsz Ho Htk Hwhy.
  assert (Hlost : ∀ w', given_up w evc (ec_data evc) w' →
    w_chunks w' !! tk_event_chunk t = Some evc ∧ mm_blocks (w_mem w') !! ec_data evc = None).
  { intros w' (m & ids & _ & _ & -> & E). unfold kept_world, kept_blocks in *. rewrite !decide_True in * by done. simpl.
    rewrite E, lookup_delete_eq, lookup_delete_ne by done. split; [apply (pp_chunk _ _ _ _ _ _ _ Hpre)|done]. }
  destruct create_processed_enters as [(_ & _ & _ & Hn)|(m & id & ids & coro & Hmb & E)]; [done|]. rewrite E, logs_branch.
  set (r := mm_brk (w_mem w)) in *. set (f := OutputFlush _ _ _ _ _ _ _).
  destruct (process_logs_run m ids r coro f Hmb (oi_processor o))
    as (w1 & [[E1 Hc]|(E1 & m1 & tmp & pc & X & Y & ret & Hpr & (m0 & Er & Hcount) & _ & _ & Hrec)]);
    rewrite (run_bind _ _ _ _ _ E1).
  - exists w1. split; [done|]. destruct Hc as (ret & p_buf & p_size & m0 & Er & Hcase). destruct (Hrun m) as [m' Er'].
    rewrite Er in Er'. injection Er' as -> -> -> _. destruct Hcase as [[[?|?] _]|[_ Hg]]; [done|done|by apply Hlost].
  - destruct (Hrun m) as [m' Er']. rewrite Er in Er'. injection Er' as _ Ed Es _.
    destruct Hwhy as [H0|Hst]; [by rewrite Hcount, Ed, Es, H0 in Hrec|].
    destruct (flush_start_processed w1 ids r coro f m1 tmp pc X Y Hpr) as [(w' & E2 & Hg & _)|(w' & callee & st & _ & Hdl & _ & m2 & Ec)].
    + exists w'. split; [exact E2|]. apply Hlost. by rewrite <- Ed.
    + destruct (Hst (cf_coro_stack_size cfg) m1) as [m3 Ec']. rewrite Ec in Ec'. injection Ec' as -> _. by destruct (dl_new _ _ _ _ _ _ _ _ Hdl) as (_ & _ & ? & _).
Qed.
End logs.

(** ** The theorems at work on the world of [OutputSpec], with a chunk of
    logs: the processor 1 leaves the records where they are, any other writes
    one of its own. *)

Definition demo_logs_lib (co : libco) : output_lib := {|
  ol_co := co;
  ol_flush_id_get := ol_flush_id_get demo_lib;
  ol_processor_is_active := ol_processor_is_active demo_lib;
  ol_processor_run_logs := λ processor _ _ data size m,
    if decide (processor = 1) then Some ((0, data, size), m)
    else let '(p, m) := alloc [Some 90] m in
      Some (if decide (p = NULL) then (-1, NULL, 0) else (0, p, 1), m);
  ol_mp_count := λ _ _ _, 1;
  ol_metrics := demo_telemetry;
  ol_traces := demo_telemetry;
  ol_event_chunk_create := ol_event_chunk_create demo_lib;
  ol_event_chunk_destroy := ol_event_chunk_destroy demo_lib;
  ol_thread_instance_get := ol_thread_instance_get demo_lib;
  ol_pipe_w := ol_pipe_w demo_lib;
  ol_flush_prepare_destroy := ol_flush_prepare_destroy demo_lib;
  ol_cb_flush := ol_cb_flush demo_lib;
  ol_cb_resume := ol_cb_resume demo_lib;
  ol_config_map_set := ol_config_map_set demo_lib;
  ol_thread_pool_coros_size := ol_thread_pool_coros_size demo_lib
|}.

Lemma demo_logs_ok co : logs_ok (demo_logs_lib co) (λ p, {[ p ]}).
Proof.
  split.
  - intros processor tag tag_len data size m b Hwf Hb. simpl. case_decide.
    + exists 0, data, size, m. split_and!; try done. left. auto.
    + destruct (alloc [Some 90] m) as [p m'] eqn:Ea. destruct (alloc_brk _ _ _ _ Ea) as [Hbrk Hp].
      destruct (alloc_cases _ _ _ _ Hwf Ea) as [Hwf' [[-> Hbl]|(Hn & Hnew & Hbl)]].
      * rewrite decide_True by done. exists (-1), NULL, 0, m'. split_and!; try done. left. auto.
      * rewrite decide_False by done. exists 0, p, 1, m'. split_and!; try done. right. specialize (Hp Hn).
        split_and!; [done|done|lia|by exists [Some 90]].
  - intros type total tag tag_len data size m Hwf. simpl. destruct (flb_malloc 40 m) as [p m'] eqn:Ea.
    destruct (flb_malloc_brk _ _ _ _ Ea) as [Hbrk Hp].
    destruct (flb_malloc_cases _ _ _ _ Hwf Ea) as (Hwf' & _ & [[-> Hbl]|(_ & Hn & _ & _ & Hbl)]).
    + rewrite decide_True by done. exists None, m'. by split_and!.
    + rewrite decide_False by done. eexists (Some (p, _)), m'. split; [done|]. split; [done|]. split; [done|].
      destruct (Hp Hn) as [-> _]. split; [done|]. split; [by apply elem_of_singleton|]. split; [by exists tag|].
      eexists {[ mm_brk m := _ ]}. rewrite dom_singleton_L. split; [done|]. split; [by intros q ->%elem_of_singleton|].
      rewrite Hbl. by rewrite insert_union_singleton_l.
  - intros p m Hwf Hown. assert (p ∈ dom (mm_blocks m)) as [b Hb]%elem_of_dom by set_solver. simpl.
    destruct (free_mem_wf m p b Hwf Hb) as [Hn Hwf']. unfold flb_free. rewrite (free_live _ _ _ Hn Hb).
    eexists. split; [done|]. split; [done|]. split; [done|]. simpl. apply map_eq. intros i. rewrite map_lookup_filter.
    destruct (decide (i = p)) as [->|Hne].
    + rewrite lookup_delete_eq, Hb. simpl. rewrite option_guard_False; [done|]. simpl. set_solver.
    + rewrite lookup_delete_ne by done. destruct (mm_blocks m !! i); simpl; [|done]. rewrite option_guard_True; [done|]. simpl. set_solver.
Qed.

Definition demo_logs : flb_event_chunk := EventChunk FLB_EVENT_TYPE_LOGS 616 560 3 1.

Definition demo_processed_output (processor : ptr) : flb_output_instance.
Proof.
  refine {| oi_id := 5; oi_ch_events := [10; 11]; oi_p := 300; oi_context := 400;
            oi_is_threaded := FLB_FALSE; oi_flush_list := 6144; oi_flush_list_destroy := 6400;
            oi_processor := processor |};
    first [exact 0 | exact [] | exact mk_event_zero | exact flb_net_host_zero
          | exact flb_net_setup_zero | exact flb_test_out_formatter_zero].
Defined.

Definition demo_logs_world (processor : ptr) : world :=
  set_outs {[ 4096 := demo_processed_output processor ]} (set_chunks {[ 512 := demo_logs ]} demo_world).

Lemma demo_logs_fresh processor : fresh_above (demo_logs_world processor).
Proof. destruct demo_fresh. split; try done. apply below_fresh. evaluate. Qed.

Lemma demo_logs_pre co processor :
  processor ≠ NULL →
  processed_pre (demo_logs_lib co) 1024 4096 7168 flb_out_thread_instance_zero (demo_logs_world processor) demo_task_of_flush demo_logs
    (demo_processed_output processor) flb_config_zero [] 1.
Proof.
  intros Hp. split; try reflexivity.
  - apply demo_logs_fresh.
  - evaluate.
  - discriminate.
  - simpl. unfold c_bool. rewrite bool_decide_true by done. discriminate.
  - by eexists.
Qed.

(** A library without memory for stacks. *)
Definition demo_no_stack : libco := Libco (λ _ m, (NULL, m)) flb_free.

Lemma demo_no_stack_ok : libco_ok demo_no_stack.
Proof.
  split; [intros size m h m' Hwf [= <- <-]; split; [done|split; [done|by left]]|]. apply (co_delete_ok _ malloc_libco_ok).
Qed.

Lemma flb_output_flush_create_logs_spec_witness :
  ∃ w' id coro tmp pc callee st, flb_output_flush_create (demo_logs_lib malloc_libco) 1024 200 4096 7168 (demo_logs_world 2) = Some (16384, w') ∧
    delivers (λ p, {[ p ]}) 7168 flb_out_thread_instance_zero (demo_logs_world 2) demo_task_of_flush
      demo_logs (demo_processed_output 2) [] 16384 coro (OutputFlush id 560 1024 7168 4096 coro NULL) tmp pc w' callee st.
Proof.
  destruct (flb_output_flush_create_logs_spec (demo_logs_lib malloc_libco) (λ p, {[ p ]}) malloc_libco_ok (demo_logs_ok _)
    1024 200 4096 7168 _ _ _ _ _ _ _ _ (demo_logs_pre malloc_libco 2 ltac:(discriminate)) eq_refl) as (r & w' & E & Hcase).
  assert (Hr : fst <$> flb_output_flush_create (demo_logs_lib malloc_libco) 1024 200 4096 7168 (demo_logs_world 2) = Some 16384)
    by (vm_compute; reflexivity).
  pose proof Hr as Hr'. rewrite E in Hr'. injection Hr' as ->.
  destruct Hcase as [[H _]|(id & coro & tmp & pc & callee & _ & _ & [[Hdl _]|[Hdl _]])]; [discriminate H|..];
    eexists w', id, coro, tmp, pc, callee, _; (split; [exact E|exact Hdl]).
Defined.

(** Without a stack the records of the task are lost: they were at 560. *)
Lemma flb_output_flush_create_logs_lost_witness :
  ∃ w', flb_output_flush_create (demo_logs_lib demo_no_stack) 1024 200 4096 7168 (demo_logs_world 1) = Some (NULL, w') ∧
    is_Some (mm_blocks (w_mem (demo_logs_world 1)) !! 560) ∧
    w_chunks w' !! 512 = Some demo_logs ∧ mm_blocks (w_mem w') !! 560 = None.
Proof.
  destruct (flb_output_flush_create_logs_lost (demo_logs_lib demo_no_stack) (λ p, {[ p ]}) demo_no_stack_ok (demo_logs_ok _)
    1024 200 4096 7168 _ _ _ _ _ _ _ _ (demo_logs_pre demo_no_stack 1 ltac:(discriminate)) eq_refl) as (w' & E & Hch & Hbl).
  - intros m. by exists m.
  - discriminate.
  - reflexivity.
  - discriminate.
  - right. intros size m. by exists m.
  - exists w'. split; [exact E|]. split; [by eexists|]. split; [exact Hch|exact Hbl].
Defined.
