(* ===== verification/Lifecycle.v ===== *)
(** The life of a flush, from its creation to its destruction: the steps of
    [Output] composed the way the engine composes them. *)
From S2P Require Import Prelude MkList Queues Mem MkEvent Codes Task Bytes Structs Runtime RuntimeSpec Output OutputSpec.

Lemma update_route_twice o st st' rs : update_route o st (update_route o st' rs) = update_route o st rs.
Proof.
  induction rs as [|[p r] rs IH]; simpl; [done|].
  case_decide as Hr; simpl; [by rewrite decide_True|by rewrite decide_False, IH].
Qed.

(** What is documented of [flb_output_flush_prepare_destroy]: the context
    moves from the list that holds it to the list of those to destroy. *)
Definition prepares (lib : output_lib) (worker : flb_out_thread_instance) (o : flb_output_instance) : Prop :=
  ∀ out_flush h l1 l2 dl,
    dll h (live_list worker o) (l1 ++ (out_flush + of_head_off) :: l2) →
    dll h (done_list worker o) dl →
    (∀ y, y ∈ done_list worker o :: dl → y ∉ live_list worker o :: l1 ++ (out_flush + of_head_off) :: l2) →
    ∃ h', ol_flush_prepare_destroy lib out_flush h = Some h' ∧
      dll h' (live_list worker o) (l1 ++ l2) ∧
      dll h' (done_list worker o) (dl ++ [out_flush + of_head_off]).

Section lifecycle.
Context (lib : output_lib) (Hco : libco_ok (ol_co lib)).
Context (task o_ins config : ptr) (x : Z) (worker : flb_out_thread_instance) (t : flb_task) (o : flb_output_instance).

(** The task and the output of the flush; the lists it goes through and the
    routes of its task share no node. *)
Record life_ok (w : world) (l dl : list ptr) (rs : list (ptr * flb_task_route)) : Prop := {
  li_fresh : fresh_above w;
  li_task : ts_tasks (w_store w) !! task = Some t;
  li_out : w_outs w !! o_ins = Some o;
  li_list : dll (ts_list (w_store w)) (live_list worker o) l;
  li_thread : oi_is_threaded o = FLB_TRUE → w_out_threads w !! ol_thread_instance_get lib = Some worker;
  li_active : is_Some (w_threads w !! w_active w);
  li_unlocked : tk_locked t = false;
  li_routes : routes_ok (w_store w) task rs;
  li_route : Exists (λ r, tr_out r.2 = o_ins) rs;
  li_status : 0 ≤ route_status o_ins rs < 2;
  li_destroy : dll (ts_list (w_store w)) (done_list worker o) dl;
  li_apart : ∀ y, y ∈ live_list worker o :: l →
    y ∉ done_list worker o :: dl ∧ y ∉ (task + tk_routes_off) :: ((λ r, r.1 + tr_head_off) <$> rs)
}.

(** Everything is as before the flush, but for the parameters that the thread
    keeps, the status of the route and what was said to the engine. *)
Record restored (w w1 w3 : world) (l dl : list ptr) (rs : list (ptr * flb_task_route)) (r : ptr)
    (params : flb_out_flush_params) : Prop := {
  re_list : dll (ts_list (w_store w3)) (live_list worker o) l;
  re_destroy : dll (ts_list (w_store w3)) (done_list worker o) dl;
  re_flushes : w_flushes w3 = w_flushes w;
  re_coros : w_coros w3 = w_coros w;
  re_chunks : w_chunks w3 = w_chunks w;
  re_threads : w_threads w3 = w_threads w;
  re_active : w_active w3 = w_active w;
  re_tasks : ts_tasks (w_store w3) = ts_tasks (w_store w);
  re_routes p rt : (p, rt) ∈ update_route o_ins FLB_TASK_ROUTE_INACTIVE rs →
     ts_routes (w_store w3) !! p = Some rt;
  re_trace : w_trace w3 = w_trace w ++ Ev_callback params :: return_events lib (w_trace w1 ++ [Ev_callback params]) x t o worker r;
  re_mem : ∃ kept, mm_blocks (w_mem w3) = kept ∪ mm_blocks (w_mem w) ∧
     (kept = ∅ ∨ w_out_key w = NULL ∧ ∃ b, kept = {[ w_out_key w1 := b ]})
}.

(** The flush [f] has been created at [r], its coroutine waits with [params]. *)
Record waits (w w1 : world) (l : list ptr) (f : flb_output_flush) (r callee : ptr) (params : flb_out_flush_params) : Prop := {
  wa_flush_of : of_task f = task ∧ of_o_ins f = o_ins ∧ fp_out_flush params = r;
  wa_new : (r ≠ NULL ∧ of_coro f ≠ NULL ∧ callee ≠ NULL) ∧
    (mm_brk (w_mem w) ≤ r ∧ mm_brk (w_mem w) ≤ of_coro f ∧ mm_brk (w_mem w) ≤ callee) ∧
    r ≠ of_coro f ∧ r ≠ callee ∧ of_coro f ≠ callee;
  wa_flush : w_flushes w1 = <[r := f]> (w_flushes w);
  wa_coro : w_coros w1 = <[of_coro f := Coro (w_active w) callee r]> (w_coros w);
  wa_thread : w_threads w1 = <[callee := CT_output_ready params]> (w_threads w);
  wa_list : dll (ts_list (w_store w1)) (live_list worker o) (l ++ [r + of_head_off]);
  wa_frame : agree_outside (r + of_head_off :: live_list worker o :: l) (ts_list (w_store w)) (ts_list (w_store w1));
  wa_static : ts_tasks (w_store w1) = ts_tasks (w_store w) ∧ ts_routes (w_store w1) = ts_routes (w_store w) ∧
    w_active w1 = w_active w ∧ w_outs w1 = w_outs w ∧ w_out_threads w1 = w_out_threads w;
  wa_trace : w_trace w1 = w_trace w
}.

(** The blocks of a flush and what the thread keeps are all there is new in [m]. *)
Definition added (w w1 : world) (r coro callee : ptr) (m : mem) : Prop :=
  ∃ br bc bh kept, mm_blocks m = kept ∪ <[callee := bh]> (<[coro := bc]> (<[r := br]> (mm_blocks (w_mem w)))) ∧
    (∀ k, k ∈ [r; coro; callee] → kept !! k = None) ∧
    (kept = ∅ ∨ w_out_key w = NULL ∧ ∃ b, kept = {[ w_out_key w1 := b ]}).

(** The nodes that exist before the flush are not among those it touches. *)
Lemma old_list w w1 l f r callee params head l' :
  fresh_above w → dll (ts_list (w_store w)) head l' → waits w w1 l f r callee params →
  (∀ y, y ∈ live_list worker o :: l → y ∉ head :: l') →
  dll (ts_list (w_store w1)) head l'.
Proof.
  intros Hf Hd Hw Hap. destruct (wa_new _ _ _ _ _ _ _ Hw) as (_ & (Hr & _) & _).
  eapply (dll_agree _ _ _ _ _ (wa_frame _ _ _ _ _ _ _ Hw)); [|exact Hd]. intros y Hy Hin.
  apply elem_of_cons in Hin as [->|Hin]; [|by apply (Hap y Hin)].
  apply (dll_below w _ _ _ Hf Hd) in Hy. unfold of_head_off in Hy. lia.
Qed.

(** The coroutine of a flush that has been created is ready. *)
Lemma waits_ready w w1 l dl rs f r callee params :
  life_ok w l dl rs → waits w w1 l f r callee params →
  ready_flush w1 (of_coro f) (Coro (w_active w) callee r) params f t rs.
Proof.
  intros Hl Hw. pose proof Hw as [(Eft & _ & Efr) _ Efl Eco Eth _ _ (Ets & Ert & _) _].
  destruct (li_routes _ _ _ _ Hl) as [Hd Hm].
  assert (Hd1 : dll (ts_list (w_store w1)) (task + tk_routes_off) ((λ r, r.1 + tr_head_off) <$> rs)).
  { apply (old_list _ _ _ _ _ _ _ _ _ (li_fresh _ _ _ _ Hl) Hd Hw). intros y Hy. by apply (li_apart _ _ _ _ Hl). }
  split; simpl; rewrite ?Efl, ?Eco, ?Eth, ?Ets, ?Eft, ?Efr; try apply lookup_insert_eq;
    [apply Hl|apply Hl|split; [exact Hd1|]]. intros p rt Hin. rewrite Ert. by apply Hm.
Qed.

(** What a flush takes away on destruction is what its creation had added. *)
Lemma blocks_undone w kept r coro callee br bc bh :
  fresh_above w → mm_brk (w_mem w) ≤ r → mm_brk (w_mem w) ≤ coro → mm_brk (w_mem w) ≤ callee →
  (∀ k, k ∈ [r; coro; callee] → kept !! k = None) →
  delete r (delete coro (delete callee
    (kept ∪ <[callee := bh]> (<[coro := bc]> (<[r := br]> (mm_blocks (w_mem w))))))) =
  kept ∪ mm_blocks (w_mem w).
Proof.
  intros Hf Hr Hc Hh Hk. rewrite !delete_union.
  rewrite !(delete_id kept) by (apply Hk; set_solver).
  f_equal. pose proof (fresh_block w r Hf Hr). pose proof (fresh_block w coro Hf Hc).
  pose proof (fresh_block w callee Hf Hh). map_undo.
Qed.

(** The callback of the plugin returns [x] at once. *)
Context (Hcb : ∀ params v, ol_cb_flush lib params v = Some (CB_return x, v)).

Context (Hprepare : prepares lib worker o).

(** The flush is handed over: its node is the last of its list. *)
Lemma handed_over w w1 l dl rs f r callee params :
  life_ok w l dl rs → waits w w1 l f r callee params →
  ∃ h, ol_flush_prepare_destroy lib r (ts_list (w_store w1)) = Some h ∧
    dll h (live_list worker o) l ∧ dll h (done_list worker o) (dl ++ [r + of_head_off]).
Proof using All.
  intros Hl Hw. destruct (wa_new _ _ _ _ _ _ _ Hw) as (_ & (Hr & _) & _). pose proof (li_fresh _ _ _ _ Hl) as Hf.
  pose proof (li_destroy _ _ _ _ Hl) as Hdl. pose proof (li_apart _ _ _ _ Hl) as Hap.
  assert (Hdl1 : dll (ts_list (w_store w1)) (done_list worker o) dl)
    by (apply (old_list _ _ _ _ _ _ _ _ _ Hf Hdl Hw); intros y Hy; by apply Hap).
  destruct (Hprepare r (ts_list (w_store w1)) l [] dl (wa_list _ _ _ _ _ _ _ Hw) Hdl1) as (h & Eh & Hlh & Hdh);
    [|rewrite app_nil_r in Hlh; by exists h].
  intros y Hy Hin. pose proof (dll_below _ _ _ _ Hf Hdl Hy). unfold of_head_off in Hin.
  rewrite elem_of_cons, elem_of_app, list_elem_of_singleton in Hin.
  destruct (Hap y) as [Hno _]; [|by apply Hno]. rewrite elem_of_cons.
  destruct Hin as [->|[Hin|Hin]]; [by left|by right|lia].
Qed.

(** Resuming a flush that waits, then destroying it; [m'] is what the return
    leaves of the memory. *)
Lemma flush_returns w w1 l dl rs f r callee params m' :
  life_ok w l dl rs → waits w w1 l f r callee params →
  processed_released lib (inside w1 (of_coro f) (Coro (w_active w) callee r)) t f m' →
  mem_wf m' → added w w1 r (of_coro f) callee m' →
  (if decide (of_processed_event_chunk f ≠ NULL) then delete (of_processed_event_chunk f) (w_chunks w1) else w_chunks w1) = w_chunks w →
  ∃ w2 w3, flb_coro_resume (output_run lib) (of_coro f) w1 = Some (tt, w2) ∧
    flb_output_flush_destroy lib r w2 = Some (tt, w3) ∧ restored w w1 w3 l dl rs r params.
Proof using All.
  intros Hl Hw Hm' Hwf' (br & bc & bh & kept & Ekept & Hkept & Hkey) Hchunks.
  pose proof (waits_ready _ _ _ _ _ _ _ _ _ Hl Hw) as Hready.
  destruct (handed_over _ _ _ _ _ _ _ _ _ Hl Hw) as (h & Eh & Hlh & Hdh).
  destruct Hl as [Hf Ht Ho Hl Hs Hact Hu Hrs Hroute Hst Hdl Hap].
  pose proof Hw as [(Eft & Efo & Efr) (Hn & (Hr & Hc & Hh) & Hne) Efl Eco Eth _ _ (Ets & Ert & Eac & Eou & Eot) Etr].
  assert (Hbelow : ∀ y, y ∈ done_list worker o :: dl → y < mm_brk (w_mem w)) by (intros y; apply (dll_below _ _ _ _ Hf Hdl)).
  destruct (flush_resume_returns lib w1 (of_coro f) (Coro (w_active w) callee r) params f t rs o worker h x m' Hready)
    as (w2 & E2 & Ht2 & Ha2 & Hret); [done|by rewrite Efo|by rewrite Efo|done| |exact Hm'|].
  { destruct Hready. split; try done; simpl; [by rewrite <- Efr|by rewrite Eou, Efo|]. by rewrite Eot. }
  destruct Hret as [Rtr Rro Rta Rfl Rli Rme Rco _ _ _ _ _ Rch]. simpl in *. rewrite Efo in Rro.
  assert (Hcn : w_threads w !! callee = None) by (by apply (fa_threads _ Hf)).
  assert (Hlive : ∀ p, p ∈ [r; of_coro f; callee] → is_Some (mm_blocks (w_mem w2) !! p)).
  { intros p Hp. rewrite Rme, Ekept, lookup_union, (Hkept p Hp), (left_id_L None (∪)).
    rewrite !lookup_insert. repeat case_decide; eauto. all: set_solver. }
  assert (Hnew : ∀ p, p ∈ [r; of_coro f] → mm_brk (w_mem w) ≤ p)
    by (intros p; rewrite elem_of_cons, list_elem_of_singleton; by intros [->| ->]).
  rewrite <- Rli in Hlh, Hdh.
  destruct (flush_destroy_run lib Hco w2 r (set_processed NULL f) (Coro (w_active w) callee r)
    (done_list worker o) dl []) as (w3 & E3 & Hd3 & Fl3 & Co3 & Th3 & Me3 & Tr3 & Ac3 & Ro3 & Ta3 & _ & _ & _ & Ch3 & _ & _ & _ & _ & Fr3).
  - by rewrite Rme.
  - rewrite Rfl. apply lookup_insert_eq.
  - rewrite Rco, Eac. apply lookup_insert_eq.
  - exact Hdh.
  - simpl. rewrite Ha2, Eac. destruct Hact as [? Hact]. intros ->. by rewrite Hcn in Hact.
  - simpl. destruct Hn as (? & ? & ?), Hne as (? & ? & ?).
    rewrite !NoDup_cons, !not_elem_of_cons. repeat split; auto using NoDup_nil_2, not_elem_of_nil.
  - exact Hlive.
  - simpl. rewrite app_nil_r. intros y p Hy%Hbelow Hp. left. by apply (Z.lt_le_trans _ _ _ Hy), Hnew.
  - exists w2, w3. split; [exact E2|]. split; [exact E3|]. rewrite app_nil_r in Hd3. simpl in *.
    split.
    + apply Fr3; [exact Hlh|]. intros y Hy. pose proof (dll_below _ _ _ _ Hf Hl Hy) as Hyb. split.
      * destruct (Hap y Hy) as [Hno _]. rewrite elem_of_cons, elem_of_app, list_elem_of_singleton.
        rewrite elem_of_cons in Hno. unfold of_head_off. intros [?|[?|?]]; [auto..|lia].
      * intros p Hp. left. by apply (Z.lt_le_trans _ _ _ Hyb), Hnew.
    + exact Hd3.
    + rewrite Fl3, Rfl, Efl. pose proof (fa_flushes _ Hf _ Hr). pose proof (fa_flushes _ Hf _ Hc). map_undo.
    + rewrite Co3, Rco, Eco. pose proof (fa_coros _ Hf _ Hr). pose proof (fa_coros _ Hf _ Hc). map_undo.
    + rewrite Ch3, Rch, Hchunks, !delete_id; [done|by apply (fa_chunks _ Hf)|].
      rewrite delete_id; by apply (fa_chunks _ Hf).
    + rewrite Th3, Ht2, Eth. map_undo.
    + congruence.
    + congruence.
    + intros p rt Hin. rewrite Ro3. apply Rro. by rewrite update_route_twice.
    + rewrite Tr3, Rtr, Etr. done.
    + exists kept. split; [|exact Hkey]. rewrite Me3, Rme, Ekept. by apply blocks_undone.
Qed.

(** ** Without a processor *)

Context (i_ins : ptr) (evc : flb_event_chunk) (cfg : flb_config).

Definition flush_of (id coro : ptr) : flb_output_flush := OutputFlush id (ec_data evc) task config o_ins coro NULL.
Definition params_of (r coro : ptr) : flb_out_flush_params :=
  OutFlushParams (tk_event_chunk t) r (tk_i_ins t) (oi_p o) (oi_context o) config coro.

Lemma created_waits w w1 l id r coro callee :
  created_as task o_ins config worker w w1 t evc o l r id coro callee (CT_output_ready (params_of r coro)) →
  waits w w1 l (flush_of id coro) r callee (params_of r coro) ∧ added w w1 r coro callee (w_mem w1) ∧ w_chunks w1 = w_chunks w.
Proof.
  intros [Hnew Efl Eco Eth Hl Hag (Ets & Ert & Eac & _ & Ech & Eou & Eot) _ (br & bc & bh & kept & E & _ & Hk) _ Hst].
  split; [split; try done; by destruct Hst as [[_ ?]|[[=] _]]|split; [|done]]. exists br, bc, bh, kept. split; [done|].
  destruct Hk as [[-> _]|(Hn & b & -> & _ & Hout)]; [split; [set_solver|by left]|].
  split; [|right; by eauto]. intros k Hkin. apply lookup_singleton_ne. by intros <-.
Qed.

(** C15. The life of a flush whose plugin returns at once.  Creating it either
    fails and leaves nothing, or gives a context whose coroutine was not
    started (only on the first flush of a thread, when its parameters cannot
    be allocated), or gives a context that can be resumed: the resumption
    comes back to the engine, destroying the context succeeds, and then every
    list, object, thread and block is what it was before the flush, save the
    parameters the thread keeps, the route being inactive and the callback
    and the report to the engine having happened, in that order. *)
Theorem flb_output_flush_lifecycle w l dl rs :
  create_pre lib task o_ins config worker w t evc o cfg l → life_ok w l dl rs →
  ∃ r w1, flb_output_flush_create lib task i_ins o_ins config w = Some (r, w1) ∧
    (r = NULL ∧ as_before w w1 ∨
     (∃ id coro callee, created_as task o_ins config worker w w1 t evc o l r id coro callee CT_output_start) ∨
     ∃ id coro w2 w3, w_flushes w1 !! r = Some (flush_of id coro) ∧
       flb_coro_resume (output_run lib) coro w1 = Some (tt, w2) ∧
       flb_output_flush_destroy lib r w2 = Some (tt, w3) ∧
       restored w w1 w3 l dl rs r (params_of r coro)).
Proof using All.
  intros Hpre Hlife. destruct (create_cases lib Hco task i_ins o_ins config worker w t evc o cfg l Hpre)
    as (r & w1 & E & Hcase).
  exists r, w1. split; [exact E|]. destruct Hcase as [Hn|(id & coro & callee & st & Hcr)]; [by left|right].
  destruct (cr_start Hcr) as [[-> _]|[-> _]]; [right|left; by exists id, coro, callee].
  destruct (created_waits _ _ _ _ _ _ _ Hcr) as (Hw & Had & Hch).
  destruct (flush_returns _ _ _ _ _ _ _ _ _ (w_mem w1) Hlife Hw) as (w2 & w3 & E2 & E3 & Hre); [by left|apply (cr_wf Hcr)|done|done|].
  exists id, coro, w2, w3. split; [|done]. rewrite (cr_flush Hcr). apply lookup_insert_eq.
Qed.
End lifecycle.

(** ** The theorem at work on the world of [OutputSpec] *)

(** Contexts that move to the list at 6400, as [demo_lib] does. *)
Lemma demo_prepare_agree out_flush h l1 l2 dl :
  dll h (oi_flush_list demo_output) (l1 ++ (out_flush + of_head_off) :: l2) →
  dll h (oi_flush_list_destroy demo_output) dl →
  (∀ y, y ∈ oi_flush_list_destroy demo_output :: dl →
     y ∉ oi_flush_list demo_output :: l1 ++ (out_flush + of_head_off) :: l2) →
  ∃ h', ol_flush_prepare_destroy demo_lib out_flush h = Some h' ∧
    dll h' (oi_flush_list demo_output) (l1 ++ l2) ∧
    dll h' (oi_flush_list_destroy demo_output) (dl ++ [out_flush + of_head_off]) ∧
    agree_outside ((oi_flush_list demo_output :: l1 ++ (out_flush + of_head_off) :: l2) ++
      oi_flush_list_destroy demo_output :: dl) h h'.
Proof. apply moved_dll. Qed.

Lemma demo_prepare : prepares demo_lib flb_out_thread_instance_zero demo_output.
Proof.
  intros out_flush h l1 l2 dl Hd Hdl Hap. destruct (demo_prepare_agree _ _ _ _ _ Hd Hdl Hap) as (h' & E & H1 & H2 & _). by exists h'.
Qed.

Lemma demo_life_ok : life_ok demo_lib 1024 4096 flb_out_thread_instance_zero demo_task_of_flush demo_output demo_world [] [] demo_routes.
Proof.
  destruct demo_create_pre. split; try done.
  - apply demo_route_list; [evaluate|reflexivity].
  - left. reflexivity.
  - evaluate.
  - apply Forall_forall. evaluate.
Qed.

Lemma flb_output_flush_lifecycle_witness :
  ∃ r w1, flb_output_flush_create demo_lib 1024 200 4096 7168 demo_world = Some (r, w1) ∧
    (r = NULL ∧ as_before demo_world w1 ∨
     (∃ id coro callee, created_as 1024 4096 7168 flb_out_thread_instance_zero demo_world w1 demo_task_of_flush demo_chunk demo_output []
        r id coro callee CT_output_start) ∨
     ∃ id coro w2 w3, w_flushes w1 !! r = Some (flush_of 1024 4096 7168 demo_chunk id coro) ∧
       flb_coro_resume (output_run demo_lib) coro w1 = Some (tt, w2) ∧
       flb_output_flush_destroy demo_lib r w2 = Some (tt, w3) ∧
       restored demo_lib 4096 FLB_OK flb_out_thread_instance_zero demo_task_of_flush demo_output demo_world w1 w3 [] [] demo_routes r
         (params_of 7168 demo_task_of_flush demo_output r coro)).
Proof.
  exact (flb_output_flush_lifecycle demo_lib malloc_libco_ok 1024 4096 7168 FLB_OK flb_out_thread_instance_zero demo_task_of_flush demo_output
    (λ _ _, eq_refl) demo_prepare 200 demo_chunk flb_config_zero demo_world [] [] demo_routes demo_create_pre demo_life_ok).
Defined.
