(* ===== verification/LogsLife.v ===== *)
(** The life of a flush that delivers processed logs: [Logs] and [Lifecycle]
    together.  Whatever the processors left, what the flush had of its own is
    given back when it returns and is destroyed, and the records of the task
    are where they were. *)
From S2P Require Import Prelude MkList Queues Mem MkEvent Codes Task Bytes Structs Runtime RuntimeSpec Output OutputSpec Logs Lifecycle.

(** Taking away a part of the memory that lies under an entry. *)
Lemma filter_under (O : gset Z) (K Y R : gmap Z (list (option Z))) k b :
  dom Y = O → (∀ p, p ∈ O → p ≠ k ∧ K !! p = None ∧ R !! p = None) →
  filter (λ kb, kb.1 ∉ O) (K ∪ <[k := b]> (Y ∪ R)) = K ∪ <[k := b]> R.
Proof.
  intros HY HO. apply map_eq. intros p. rewrite map_lookup_filter, !lookup_union, !lookup_insert, lookup_union.
  destruct (decide (p ∈ O)) as [Hp|Hp].
  - destruct (HO p Hp) as (Hk & -> & ->). rewrite !decide_False by congruence.
    destruct (Y !! p); simpl; try (rewrite option_guard_False by (simpl; tauto)); reflexivity.
  - assert (Y !! p = None) as -> by (apply not_elem_of_dom; by rewrite HY).
    destruct (K !! p), (decide (k = p)), (R !! p); simpl; try (rewrite option_guard_True by done); reflexivity.
Qed.

Section logs_life.
Context (lib : output_lib) (own : ptr → gset Z) (Hco : libco_ok (ol_co lib)) (Hlogs : logs_ok lib own).
Context (task i_ins o_ins config : ptr) (x : Z) (worker : flb_out_thread_instance) (t : flb_task) (o : flb_output_instance).
Context (evc : flb_event_chunk) (cfg : flb_config).
Context (w : world) (l : list ptr) (tag_len : Z) (Hpre : processed_pre lib task o_ins config worker w t evc o cfg l tag_len).

(** No object of the program lies in a block that came after the context. *)
Lemma delivers_vacant r coro f tmp pc w1 callee st p :
  delivers own config worker w t evc o l r coro f tmp pc w1 callee st →
  mm_brk (w_mem w) ≤ p → r + of_head_off < p → p ≠ coro → p ≠ tmp → p ≠ w_out_key w1 → vacant p w1.
Proof using Hpre.
  intros Hdl Hp Hr Hc Ht Hk. pose proof (pp_fresh _ _ _ _ _ _ _ _ _ _ _ _ Hpre) as Hf. unfold of_head_off in Hr.
  destruct Hdl as [_ Hfl [Hch _] Hco1 _ _ _ Hag (_ & _ & _ & _ & _ & _ & Hic & Hip) Hpa _ _ _ _].
  split.
  - rewrite Hco1, lookup_insert_ne by done. by apply (fa_coros _ Hf).
  - rewrite Hfl, lookup_insert_ne by lia. by apply (fa_flushes _ Hf).
  - rewrite Hch, lookup_insert_ne by done. by apply (fa_chunks _ Hf).
  - rewrite Hpa by done. by apply (fa_flush_params _ Hf).
  - rewrite Hic. by apply (fa_input_coros _ Hf).
  - rewrite Hip. by apply (fa_in_params _ Hf).
  - intros q [Hq _]. destruct (Hag q) as [-> ->]; [|split; [apply (fa_next _ Hf)|apply (fa_prev _ Hf)]; lia].
    rewrite elem_of_cons. intros [->|Hin]; [unfold of_head_off in Hq; lia|].
    apply (dll_below _ _ _ _ Hf (pp_list _ _ _ _ _ _ _ _ _ _ _ _ Hpre)) in Hin. lia.
Qed.

Section delivered.
Context (w1 : world) (r id coro tmp callee : ptr) (pc : flb_event_chunk).
Abbreviation f := (OutputFlush id (ec_data evc) task config o_ins coro NULL).
Abbreviation params := (OutFlushParams tmp r (tk_i_ins t) (oi_p o) (oi_context o) config coro).
Context (Hdl : delivers own config worker w t evc o l r coro f tmp pc w1 callee (CT_output_ready params)).

Lemma delivers_waits : waits task o_ins worker o w w1 l (set_processed tmp f) r callee params.
Proof using All.
  destruct Hdl as [Hn Hfl _ Hc Hth Hst Hl Hag (? & ? & ? & ? & ? & _) _ (? & ? & ? & _) (? & ? & ?) _ _].
  split; try done; [split_and!; naive_solver|]. by destruct Hst as [[_ ?]|[[=] _]].
Qed.

(** What returning leaves of the memory: the chunk and the records of its own
    are gone. *)
Lemma delivered_released :
  w_out_key w < mm_brk (w_mem w) →
  ∃ m', processed_released lib (inside w1 coro (Coro (w_active w) callee r)) t (set_processed tmp f) m' ∧
    mem_wf m' ∧ added w w1 r coro callee m'.
Proof using All.
  intros Hkey. pose proof (pp_fresh _ _ _ _ _ _ _ _ _ _ _ _ Hpre) as Hf.
  pose proof (data_is_old w evc Hf (pp_data _ _ _ _ _ _ _ _ _ _ _ _ Hpre)) as Hlow.
  pose proof Hdl as [(Hr0 & Hc0 & Hh0 & Ht0) _ [Hch _] _ _ _ _ _ _ _ (Hr & Hc & Hh & Htb) Hap Hwf Hmem].
  destruct Hmem as (br & bc & bh & X & Y & kept & Eb & _ & Hbuf & Hown & HY & HXY & Hnew & Hkept & Hkey').
  assert (Hev : w_chunks w1 !! tk_event_chunk t = Some evc).
  { rewrite Hch, lookup_insert_ne; [apply (pp_chunk _ _ _ _ _ _ _ _ _ _ _ _ Hpre)|]. intros ->.
    pose proof (fa_chunks _ Hf _ Htb). by rewrite (pp_chunk _ _ _ _ _ _ _ _ _ _ _ _ Hpre) in *. }
  assert (Hpc : w_chunks w1 !! tmp = Some pc) by (rewrite Hch; apply lookup_insert_eq).
  set (R := <[coro := bc]> (<[r := br]> (mm_blocks (w_mem w)))) in *. unfold of_head_off in *.
  assert (Hout : ∀ p, p ∈ dom (Y ∪ X) → p ≠ callee ∧ kept !! p = None ∧ R !! p = None).
  { intros p Hp. destruct (Hnew p Hp) as (Hpb & Hpr & Hpn). rewrite !not_elem_of_cons in Hpn. destruct Hpn as (Hpc1 & Hpc2 & _).
    split_and!; [done|apply not_elem_of_dom; by intros (_ & _ & ?)%Hkept|].
    unfold R. rewrite !lookup_insert_ne by (done || lia). by apply fresh_block. }
  assert (Hdestroy : ∀ m, mem_wf m → mm_blocks m = kept ∪ <[callee := bh]> (Y ∪ R) →
    ∃ m', ol_event_chunk_destroy lib tmp m = Some m' ∧ mem_wf m' ∧ added w w1 r coro callee m').
  { intros m Hm E. destruct (lo_destroy _ _ Hlogs tmp m Hm) as (m' & Ed & Hwf' & _ & Ef).
    { rewrite E, !dom_union_L, dom_insert_L, dom_union_L, HY. set_solver. }
    exists m'. do 2 (split; [done|]). exists br, bc, bh, kept. rewrite Ef, E.
    split; [|split]; [|intros k Hk; apply not_elem_of_dom; by intros (_ & ? & _)%Hkept|destruct Hkey' as [[? _]|?]; auto].
    apply filter_under; [done|]. intros p Hp. apply Hout. rewrite dom_union_L, HY. set_solver. }
  destruct Hbuf as [[Ed ->]|[Hpb [b ->]]].
  - rewrite (right_id_L ∅ (∪)) in Eb. destruct (Hdestroy _ Hwf Eb) as (m' & E & Hwf' & Had). exists m'. split; [|done].
    right. split; [done|]. exists evc, pc. do 2 (split; [done|]). left. by split.
  - assert (Hin : ec_data pc ∈ dom (Y ∪ {[ec_data pc := b]})) by (rewrite dom_union_L, dom_singleton_L; set_solver).
    destruct (Hout _ Hin) as (Hpc1 & Hpk & HpR), (Hnew _ Hin) as (_ & Hpr & Hpn). rewrite !not_elem_of_cons in Hpn.
    assert (HYp : Y !! ec_data pc = None) by (apply not_elem_of_dom; rewrite HY, dom_singleton_L in *; set_solver).
    assert (Hl : mm_blocks (w_mem w1) !! ec_data pc = Some b).
    { rewrite Eb, lookup_union_r, lookup_insert_ne by done. rewrite <- (assoc_L (∪)), lookup_union_r by done.
      by rewrite <- insert_union_singleton_l, lookup_insert_eq. }
    destruct (free_mem_wf _ _ _ Hwf Hl) as [Hn Hwfd].
    destruct (Hdestroy _ Hwfd) as (m' & E & Hwf' & Had).
    { simpl. rewrite Eb, delete_union, (delete_id kept), delete_insert_ne by done. f_equal. f_equal.
      rewrite <- (assoc_L (∪)), delete_union, (delete_id Y) by done. f_equal.
      rewrite <- insert_union_singleton_l. by apply delete_insert_id. }
    exists m'. split; [|done]. right. split; [done|]. exists evc, pc. do 2 (split; [done|]). right.
    split; [lia|]. split; [done|]. split; [|split; [by eexists|done]].
    apply vacant_drop. apply (vacant_same _ w1); try done; [|apply lookup_insert_ne; destruct Hpn; congruence].
    apply (delivers_vacant _ _ _ _ _ _ _ _ _ Hdl); [done|done|tauto| |].
    + intros Et. apply (HXY tmp); [rewrite dom_singleton_L, Et; by apply elem_of_singleton|done].
    + destruct Hkey' as [[_ Ek]|[_ [b' Ek]]]; [intros Ek'; lia|]. intros Ek'.
      apply (Hkept (ec_data pc)); [rewrite Ek, Ek', dom_singleton_L; by apply elem_of_singleton|done].
Qed.

(** The flush is resumed, returns and is destroyed. *)
Lemma delivered_returns dl rs
    (Hcb : ∀ params v, ol_cb_flush lib params v = Some (CB_return x, v))
    (Hprepare : prepares lib worker o) :
  w_out_key w < mm_brk (w_mem w) → life_ok lib task o_ins worker t o w l dl rs →
  ∃ w2 w3, flb_coro_resume (output_run lib) coro w1 = Some (tt, w2) ∧
    flb_output_flush_destroy lib r w2 = Some (tt, w3) ∧ restored lib o_ins x worker t o w w1 w3 l dl rs r params.
Proof using All.
  intros Hkey Hlife. destruct (delivered_released Hkey) as (m' & Hm' & Hwf' & Had).
  apply (flush_returns lib Hco task o_ins config x worker t o Hcb Hprepare w w1 l dl rs (set_processed tmp f) r callee params m' Hlife delivers_waits Hm' Hwf' Had).
  destruct Hdl as [(_ & _ & _ & Ht0) _ [Hch _] _ _ _ _ _ _ _ (_ & _ & _ & Htb) _ _ _]. simpl. rewrite decide_True, Hch by done.
  apply delete_insert_id. by apply (fa_chunks _ (pp_fresh _ _ _ _ _ _ _ _ _ _ _ _ Hpre)).
Qed.
End delivered.

(** The callback of the plugin returns [x] at once, and contexts are handed
    over as documented. *)
Context (Hcb : ∀ params v, ol_cb_flush lib params v = Some (CB_return x, v)).
Context (Hprepare : prepares lib worker o).

(** What becomes of a flush that has been created. *)
Lemma delivers_lives dl rs r id coro tmp pc w1 callee st :
  delivers own config worker w t evc o l r coro (OutputFlush id (ec_data evc) task config o_ins coro NULL) tmp pc w1 callee st →
  w_out_key w < mm_brk (w_mem w) → life_ok lib task o_ins worker t o w l dl rs →
  st = CT_output_start ∧ w_out_key w = NULL ∨
  ∃ w2 w3, flb_coro_resume (output_run lib) coro w1 = Some (tt, w2) ∧
    flb_output_flush_destroy lib r w2 = Some (tt, w3) ∧
    restored lib o_ins x worker t o w w1 w3 l dl rs r
      (OutFlushParams tmp r (tk_i_ins t) (oi_p o) (oi_context o) config coro).
Proof using All.
  intros Hdl Hkey Hlife. destruct (dl_start _ _ _ _ _ _ _ _ _ _ _ _ _ _ _ _ Hdl) as [[-> _]|(-> & ? & _)]; [right|by left].
  by apply (delivered_returns w1 r id coro tmp callee pc Hdl).
Qed.

(** C16. The life of a flush of logs for an output with a processor, threaded
    or not, whose plugin returns at once.  Creation either gives the flush up,
    or gives a context whose coroutine was not started (only when memory is
    short for the parameters of the thread), or one that can be resumed: the
    plugin is then called once with the chunk the processors left, the
    resumption comes back, destroying the context succeeds, and every list,
    object, chunk, thread and block is what it was before, the records of the
    task among them, save the parameters the thread keeps, the inactive route
    and what was said to the engine. *)
Theorem flb_output_flush_logs_lifecycle dl rs :
  ec_type evc = FLB_EVENT_TYPE_LOGS → w_out_key w < mm_brk (w_mem w) → life_ok lib task o_ins worker t o w l dl rs →
  ∃ r w1, flb_output_flush_create lib task i_ins o_ins config w = Some (r, w1) ∧
    (r = NULL ∧ (as_before w w1 ∨ ∃ p_buf p_size, leaves_records lib evc o tag_len p_buf p_size ∧ given_up w evc p_buf w1) ∨
     ∃ id coro tmp pc callee st,
       delivers own config worker w t evc o l r coro (OutputFlush id (ec_data evc) task config o_ins coro NULL) tmp pc w1 callee st ∧
       (st = CT_output_start ∧ w_out_key w = NULL ∨
        ∃ w2 w3, flb_coro_resume (output_run lib) coro w1 = Some (tt, w2) ∧
          flb_output_flush_destroy lib r w2 = Some (tt, w3) ∧
          restored lib o_ins x worker t o w w1 w3 l dl rs r
            (OutFlushParams tmp r (tk_i_ins t) (oi_p o) (oi_context o) config coro))).
Proof using All.
  intros Hkind Hkey Hlife.
  destruct (create_logs lib own Hco Hlogs task i_ins o_ins config worker w t evc o cfg l tag_len Hpre Hkind)
    as (r & w1 & E & [Hn|(id & coro & tmp & pc & callee & st & Hdl & _)]); exists r, w1; (split; [exact E|]); [by left|right].
  exists id, coro, tmp, pc, callee, st. split; [exact Hdl|by eapply delivers_lives].
Qed.
End logs_life.

(** ** The theorem at work on the world of [Logs] *)

Lemma demo_logs_life_ok : life_ok (demo_logs_lib malloc_libco) 1024 4096 flb_out_thread_instance_zero demo_task_of_flush
  (demo_processed_output 2) (demo_logs_world 2) [] [] demo_routes.
Proof.
  destruct (demo_logs_pre malloc_libco 2 ltac:(discriminate)). split; try done.
  - apply demo_route_list; [evaluate|reflexivity].
  - left. reflexivity.
  - evaluate.
  - apply Forall_forall. evaluate.
Qed.

Lemma flb_output_flush_logs_lifecycle_witness :
  ∃ w1 id coro tmp pc w2 w3, flb_output_flush_create (demo_logs_lib malloc_libco) 1024 200 4096 7168 (demo_logs_world 2) = Some (16384, w1) ∧
    w_chunks w1 !! tmp = Some pc ∧ w_flushes w1 !! 16384 = Some (OutputFlush id 560 1024 7168 4096 coro tmp) ∧
    flb_coro_resume (output_run (demo_logs_lib malloc_libco)) coro w1 = Some (tt, w2) ∧
    flb_output_flush_destroy (demo_logs_lib malloc_libco) 16384 w2 = Some (tt, w3) ∧
    w_chunks w3 = w_chunks (demo_logs_world 2) ∧ is_Some (mm_blocks (w_mem w3) !! 560).
Proof.
  destruct (flb_output_flush_logs_lifecycle (demo_logs_lib malloc_libco) (λ p, {[ p ]}) malloc_libco_ok (demo_logs_ok _)
    1024 200 4096 7168 FLB_OK flb_out_thread_instance_zero demo_task_of_flush (demo_processed_output 2) demo_logs flb_config_zero
    (demo_logs_world 2) [] 1 (demo_logs_pre malloc_libco 2 ltac:(discriminate)) (λ _ _, eq_refl) demo_prepare [] demo_routes
    eq_refl ltac:(reflexivity) demo_logs_life_ok) as (r & w1 & E & Hcase).
  assert (Hr : fst <$> flb_output_flush_create (demo_logs_lib malloc_libco) 1024 200 4096 7168 (demo_logs_world 2) = Some 16384)
    by (vm_compute; reflexivity).
  assert (Ht : w_trace ∘ snd <$> flb_output_flush_create (demo_logs_lib malloc_libco) 1024 200 4096 7168 (demo_logs_world 2) = Some [])
    by (vm_compute; reflexivity).
  rewrite E in Hr, Ht. injection Hr as ->. injection Ht as Ht.
  destruct Hcase as [[H _]|(id & coro & tmp & pc & callee & st & Hdl & Hst)]; [discriminate H|].
  destruct Hst as [[-> _]|(w2 & w3 & E2 & E3 & Hre)].
  { destruct (dl_start _ _ _ _ _ _ _ _ _ _ _ _ _ _ _ _ Hdl) as [[H _]|(_ & _ & H)]; [discriminate H|].
    change (w_trace (w1) = []) in Ht. rewrite H in Ht. discriminate Ht. }
  destruct Hre as [_ _ _ _ Hch _ _ _ _ _ (kept & Hmem & _)].
  exists w1, id, coro, tmp, pc, w2, w3. split; [exact E|].
  rewrite (proj1 (dl_chunk _ _ _ _ _ _ _ _ _ _ _ _ _ _ _ _ Hdl)), (dl_flush _ _ _ _ _ _ _ _ _ _ _ _ _ _ _ _ Hdl).
  split; [apply lookup_insert_eq|]. split; [apply lookup_insert_eq|]. do 3 (split; [done|]).
  rewrite Hmem, lookup_union_is_Some. right. by eexists.
Defined.
