(* ===== verification/Telemetry.v ===== *)
(** The metrics and traces branches of [flb_output_flush_create]: decoding
    the contexts of a chunk, running the processors on each, and serialising
    what they accept into one buffer that grows on demand. *)
From S2P Require Import Prelude MkList Mem MkEvent Task Bytes Structs Runtime RuntimeSpec Output OutputSpec.

Lemma mem_load_sub p off n m m' l :
  mem_load p off n m = Some l → mm_blocks m ⊆ mm_blocks m' → mem_load p off n m' = Some l.
Proof.
  unfold mem_load, mem_slice. intros E Hs. destruct (mm_blocks m !! p) as [b|] eqn:Hb; [|done].
  by rewrite (lookup_weaken _ _ _ _ Hb Hs).
Qed.

(** * What is assumed of the telemetry library *)

Record telemetry_ok (tl : telemetry) (enc : ptr → list Z) : Prop := {
  (** a context that is decoded consumes some bytes *)
  tk_progress data off ctx off' :
    0 ≤ off → tl_decode tl data off = Some (ctx, off') →
    off < off' ∧ off' ≤ Z.of_nat (length data);
  (** encoding allocates a buffer that holds the serialised context, or fails,
      which it does not when memory is not short *)
  tk_encode ctx m :
    mem_wf m → ∃ ret buf size m', tl_encode tl ctx m = ((ret, buf, size), m') ∧
      mem_wf m' ∧ mm_brk m ≤ mm_brk m' ∧ (mm_oracle m = [] → ret = 0 ∧ mm_oracle m' = []) ∧
      (ret ≠ 0 ∧ mm_blocks m' = mm_blocks m ∨
       ret = 0 ∧ size = Z.of_nat (length (enc ctx)) ∧ mm_brk m ≤ buf.1 ∧
       ∃ b, mm_blocks m' = <[buf.1 := b]> (mm_blocks m) ∧
         0 ≤ buf.2 ∧ buf.2 + Z.of_nat (length (enc ctx)) ≤ Z.of_nat (length b) ∧
         take (length (enc ctx)) (drop (Z.to_nat buf.2) b) = Some <$> enc ctx);
  (** and that buffer can be released *)
  tk_destroy buf b m :
    mem_wf m → mm_blocks m !! buf.1 = Some b →
    ∃ m', tl_encode_destroy tl buf m = Some m' ∧ mem_wf m' ∧ mm_oracle m' = mm_oracle m ∧
      mm_brk m' = mm_brk m ∧ mm_blocks m' = delete buf.1 (mm_blocks m)
}.

(** * Specification *)

(** The contexts of a chunk from an offset. *)
Fixpoint contexts (tl : telemetry) (fuel : nat) (data : list Z) (off : Z) : list ptr :=
  match fuel with
  | O => []
  | S fuel =>
      match tl_decode tl data off with
      | None => []
      | Some (ctx, off') => ctx :: contexts tl fuel data off'
      end
  end.

Section loop.
Context (lib : output_lib) (tl : telemetry) (enc : ptr → list Z) (Htl : telemetry_ok tl enc).
Context (evc : flb_event_chunk) (processor coro out_flush : ptr).
Context (w : world) (data : list Z) (tag_len : Z).
Context (Hdata : mem_load (ec_data evc) 0 (ec_size evc) (w_mem w) = Some data).
Context (Htag : flb_sds_len (ec_tag evc - FLB_SDS_HEADER_SIZE, FLB_SDS_HEADER_SIZE) (w_mem w) = Some tag_len).

Definition accepted (ctx : ptr) : Prop := tl_run tl processor (ec_tag evc) tag_len ctx = 0.

#[local] Instance accepted_dec ctx : Decision (accepted ctx).
Proof. unfold accepted. apply _. Defined.

(** What ends up in the buffer. *)
Definition serialized (ctxs : list ptr) : list Z := mjoin (enc <$> filter accepted ctxs).

(** What happens to the contexts: those the processors reject are never
    destroyed. *)
Definition context_events (ctxs : list ptr) : list event :=
  mjoin ((λ ctx, Ev_context_created ctx ::
            (if decide (accepted ctx) then [Ev_context_destroyed ctx] else [])) <$> ctxs).

Lemma serialized_cons ctx ctxs :
  serialized (ctx :: ctxs) = (if decide (accepted ctx) then enc ctx else []) ++ serialized ctxs.
Proof. unfold serialized. rewrite filter_cons. by case_decide. Qed.

Lemma context_events_cons ctx ctxs :
  context_events (ctx :: ctxs) =
  Ev_context_created ctx :: (if decide (accepted ctx) then [Ev_context_destroyed ctx] else []) ++
  context_events ctxs.
Proof. done. Qed.

(** ** The buffer *)

(** The buffer at [p] is the only block added to those of [w]; it begins with
    [ser] and holds at least [p_size] bytes. *)
Record buffer (m : mem) (p : ptr) (p_size : Z) (ser : list Z) : Prop := {
  bf_wf : mem_wf m;
  bf_brk : mm_brk (w_mem w) ≤ mm_brk m;
  bf_new : mm_brk (w_mem w) ≤ p ∧ mm_blocks (w_mem w) !! p = None;
  bf_size : Z.of_nat (length ser) ≤ p_size;
  bf_block : ∃ b, mm_blocks m = <[p := b]> (mm_blocks (w_mem w)) ∧
    p_size ≤ Z.of_nat (length b) ∧ take (length ser) b = Some <$> ser
}.

Lemma buffer_same m m' p p_size ser :
  buffer m p p_size ser → mem_wf m' → mm_brk m ≤ mm_brk m' → mm_blocks m' = mm_blocks m → buffer m' p p_size ser.
Proof. intros [] ? ? E. split; try done; [lia|by rewrite E]. Qed.

Lemma buffer_data m p p_size ser :
  buffer m p p_size ser →
  mem_load (ec_data evc) 0 (ec_size evc) m = Some data ∧
  flb_sds_len (ec_tag evc - FLB_SDS_HEADER_SIZE, FLB_SDS_HEADER_SIZE) m = Some tag_len.
Proof.
  intros [_ _ [_ Hp] _ (b & Hb & _)].
  assert (Hsame : ∀ q, mm_blocks (w_mem w) !! q ≠ None → mm_blocks m !! q = mm_blocks (w_mem w) !! q).
  { intros q Hq. rewrite Hb, lookup_insert_ne; [done|]. congruence. }
  split.
  - rewrite <- Hdata. unfold mem_load, mem_slice. rewrite Hsame; [done|].
    intros E. unfold mem_load, mem_slice in Hdata. by rewrite E in Hdata.
  - rewrite <- Htag. unfold flb_sds_len, FLB_SDS_HEADER, ld_u64, mem_load, mem_slice. simpl.
    rewrite Hsame; [done|]. intros E.
    unfold flb_sds_len, FLB_SDS_HEADER, ld_u64, mem_load, mem_slice in Htag. simpl in Htag.
    by rewrite E in Htag.
Qed.

Lemma realloc_cases m p b n :
  mem_wf m → mm_blocks m !! p = Some b → 0 < n →
  ∃ q m', flb_realloc p n m = Some (q, m') ∧ mem_wf m' ∧ mm_brk m ≤ mm_brk m' ∧
    (mm_oracle m = [] → q ≠ NULL ∧ mm_oracle m' = []) ∧
    (q = NULL ∧ mm_blocks m' = mm_blocks m ∨
     q ≠ NULL ∧ mm_brk m ≤ q ∧ mm_blocks m !! q = None ∧
     mm_blocks m' = delete p (<[q := take (Z.to_nat n) b ++ replicate (Z.to_nat n - length b) None]> (mm_blocks m))).
Proof.
  intros Hwf Hp Hn. pose proof (mem_wf_not_null _ _ _ Hwf Hp) as Hnn.
  unfold flb_realloc, realloc. rewrite decide_False by done. rewrite Hp. simpl.
  rewrite decide_False by lia. destruct (alloc _ m) as [q m1] eqn:Ea.
  destruct (alloc_cases _ _ _ _ Hwf Ea) as [Hwf1 Hcase]. destruct (alloc_brk _ _ _ _ Ea) as [Hbrk Hqb].
  assert (Hor : mm_oracle m = [] → q ≠ NULL ∧ mm_oracle m1 = []).
  { unfold alloc, oracle_next in Ea. intros Ho. rewrite Ho in Ea. injection Ea as <- <-. split; [|done].
    pose proof (proj1 (proj1 Hwf)). unfold NULL. lia. }
  destruct Hcase as [[-> Hm1]|(Hq & Hqn & Hm1)].
  - rewrite decide_True by done. exists NULL, m1. split_and!; try done. by left.
  - rewrite decide_False by done.
    assert (Hp1 : mm_blocks m1 !! p = Some b) by (rewrite Hm1, lookup_insert_ne; [done|congruence]).
    rewrite (free_live _ _ _ Hnn Hp1). simpl. eexists _, _. split; [done|].
    split; [eapply free_wf; [exact Hwf1|by apply (free_live _ _ _ Hnn Hp1)]|].
    split; [done|]. split; [done|]. right. specialize (Hqb Hq). split_and!; [done|lia|done|]. simpl. by rewrite Hm1.
Qed.

(** A block large enough takes the encoded context after what it holds. *)
Lemma append_fits m u bb q b2 p_size ser ctx buf :
  mem_wf m → mm_brk (w_mem w) ≤ mm_brk m → mm_brk (w_mem w) ≤ q ∧ mm_blocks (w_mem w) !! q = None → mm_blocks (w_mem w) !! u = None →
  q ≠ u → buf.1 = u →
  mm_blocks m = <[u := bb]> (<[q := b2]> (mm_blocks (w_mem w))) →
  0 ≤ buf.2 → buf.2 + Z.of_nat (length (enc ctx)) ≤ Z.of_nat (length bb) →
  take (length (enc ctx)) (drop (Z.to_nat buf.2) bb) = Some <$> enc ctx →
  take (length ser) b2 = Some <$> ser → p_size ≤ Z.of_nat (length b2) →
  Z.of_nat (length ser) + Z.of_nat (length (enc ctx)) ≤ p_size →
  ∃ m3 m4, memcpy q (Z.of_nat (length ser)) buf.1 buf.2 (Z.of_nat (length (enc ctx))) m = Some m3 ∧
    tl_encode_destroy tl buf m3 = Some m4 ∧ mm_oracle m4 = mm_oracle m ∧ buffer m4 q p_size (ser ++ enc ctx).
Proof.
  intros Hwf Hbw Hq Hu Hqu Hbu Hm Hb2 Hbl Hbytes Hser Hps Hfit.
  assert (Hmu : mm_blocks m !! buf.1 = Some bb) by (rewrite Hbu, Hm; apply lookup_insert_eq).
  assert (Hmq : mm_blocks m !! q = Some b2) by (rewrite Hm, lookup_insert_ne, lookup_insert_eq by done; done).
  unfold memcpy. rewrite (mem_slice_ok _ _ _ _ _ Hmu) by lia. cbn [mbind option_bind].
  rewrite Nat2Z.id, Hbytes.
  assert (Hw := mem_write_ok q (Z.of_nat (length ser)) (Some <$> enc ctx) m b2 Hmq).
  rewrite length_fmap in Hw. specialize (Hw ltac:(lia) ltac:(lia)). rewrite Hw.
  set (b3 := splice _ _ b2) in *. set (m3 := Mem _ _ _) in *.
  assert (Hwf3 : mem_wf m3) by (eapply mem_write_wf; [exact Hwf|exact Hw]).
  assert (Hu3 : mm_blocks m3 !! buf.1 = Some bb) by (simpl; rewrite lookup_insert_ne; [done|congruence]).
  destruct (tk_destroy _ _ Htl buf bb m3 Hwf3 Hu3) as (m4 & E4 & Hwf4 & Ho4 & Hbk4 & Hm4).
  exists m3, m4. split; [done|]. split; [done|]. split; [done|]. split; [done|by rewrite Hbk4|done|..].
  { rewrite length_app. lia. }
  exists b3. split; [|split].
  - rewrite Hm4, Hbu. simpl. rewrite Hm. apply map_eq. intros i.
    rewrite ?lookup_delete, ?lookup_insert. repeat case_decide; subst; congruence.
  - subst b3. rewrite splice_length; [done|]. rewrite length_fmap. lia.
  - subst b3. unfold splice. rewrite Nat2Z.id, length_fmap, length_app, fmap_app, <- Hser.
    rewrite app_assoc, take_app_le by (rewrite length_app, length_take, length_fmap; lia).
    rewrite take_ge; [done|]. rewrite length_app, length_take, length_fmap. lia.
Qed.

(** The world of the loop: [w] but for the memory and the trace. *)
Abbreviation at_ m tr := (set_trace tr (set_mem m w)).

Lemma on_mem_at {A} (f : mem → A * mem) m tr a m' :
  f m = (a, m') → on_mem f (at_ m tr) = Some (a, at_ m' tr).
Proof. intros Ef. unfold on_mem. change (w_mem (at_ m tr)) with m. rewrite Ef. by destruct w. Qed.

Lemma on_mem_opt_at {A} (f : mem → option (A * mem)) m tr a m' :
  f m = Some (a, m') → on_mem_opt f (at_ m tr) = Some (a, at_ m' tr).
Proof. intros Ef. unfold on_mem_opt. change (w_mem (at_ m tr)) with m. rewrite Ef. by destruct w. Qed.

Lemma emit_at e m tr : emit e (at_ m tr) = Some (tt, at_ m (tr ++ [e])).
Proof. by destruct w. Qed.

(** The buffer grown for [n] more bytes, beside the block [u] of the encoding,
    or left as it was. *)
Lemma grow m p p_size ser u bb n :
  buffer m p p_size ser → 0 ≤ p_size → 0 ≤ n → mm_blocks m !! u = None →
  ∀ m1, mem_wf m1 → mm_brk m ≤ mm_brk m1 → mm_blocks m1 = <[u := bb]> (mm_blocks m) →
  p_size < Z.of_nat (length ser) + n →
  ∃ q m2, flb_realloc p (p_size + n) m1 = Some (q, m2) ∧ mem_wf m2 ∧ mm_brk m1 ≤ mm_brk m2 ∧
    (mm_oracle m1 = [] → q ≠ NULL ∧ mm_oracle m2 = []) ∧
    (q = NULL ∧ mm_blocks m2 = mm_blocks m1 ∨
     q ≠ NULL ∧ mm_brk (w_mem w) ≤ q ∧ mm_blocks (w_mem w) !! q = None ∧ q ≠ u ∧
     ∃ b2, mm_blocks m2 = <[u := bb]> (<[q := b2]> (mm_blocks (w_mem w))) ∧
       Z.of_nat (length b2) = p_size + n ∧ take (length ser) b2 = Some <$> ser).
Proof.
  intros [Hwf Hbw [Hpb Hp] Hsz (b & Hb & Hlen & Hser)] H0 Hn Hu m1 Hwf1 Hb1 Hm1 Hg.
  assert (Hpu : p ≠ u) by (intros Epu; rewrite Hb, <- Epu, lookup_insert_eq in Hu; done).
  rewrite Hb in Hm1. assert (Hp1 : mm_blocks m1 !! p = Some b) by (rewrite Hm1, lookup_insert_ne, lookup_insert_eq by done; done).
  destruct (realloc_cases m1 p b (p_size + n) Hwf1 Hp1 ltac:(lia)) as (q & m2 & E2 & Hwf2 & Hb2 & Ho2 & Hcase).
  exists q, m2. do 4 (split; [done|]). destruct Hcase as [?|(Hq & Hqb & Hqn & Hm2)]; [by left|right].
  rewrite Hm1 in Hqn. apply lookup_insert_None in Hqn as [Hqn Hqu]. apply lookup_insert_None in Hqn as [Hqn Hqp].
  split; [done|]. split; [lia|]. split; [done|]. split; [done|]. set (b2 := take _ b ++ _) in Hm2. exists b2. split_and!.
  - rewrite Hm2, Hm1. apply map_eq. intros i. rewrite ?lookup_delete, ?lookup_insert. repeat case_decide; subst; congruence.
  - subst b2. rewrite length_app, length_take, length_replicate. lia.
  - subst b2. rewrite take_app_le, take_take by (rewrite length_take; lia). by rewrite Nat.min_l by lia.
Qed.

(** The flush is abandoned while its buffer is at [p]. *)
Abbreviation abandoned p := (discard lib coro out_flush;; w_free p;; mret None).

Lemma abandoned_bind {A B} (a : A) (f : A → M B) (b : B) p v :
  f a = mret b → (x ← (discard lib coro out_flush;; w_free p;; mret a); f x) v = (discard lib coro out_flush;; w_free p;; mret b) v.
Proof using.
  intros E. unfold mbind, M_bind. destruct (discard lib coro out_flush v) as [[_ v']|]; [|done].
  destruct (w_free p v') as [[_ v'']|]; [|done]. by rewrite <- E.
Qed.

(** [append_context] puts the encoding of the context at the end of the
    buffer, without leaving it, or abandons the flush for want of memory. *)
Lemma append_context_run m tr p p_size ser ctx :
  buffer m p p_size ser → 0 ≤ p_size → p_size + Z.of_nat (length (enc ctx)) < 2 ^ 64 →
  let run := append_context lib tl coro out_flush ctx p p_size (Z.of_nat (length ser)) (at_ m tr) in
  (∃ m' q p_size', buffer m' q p_size' (ser ++ enc ctx) ∧ (mm_oracle m = [] → mm_oracle m' = []) ∧
    p_size ≤ p_size' ≤ p_size + Z.of_nat (length (enc ctx)) ∧
    run = Some (Some (q, p_size', Z.of_nat (length (ser ++ enc ctx))), at_ m' (tr ++ [Ev_context_destroyed ctx]))) ∨
  mm_oracle m ≠ [] ∧ ∃ m', buffer m' p p_size ser ∧ run = abandoned p (at_ m' (tr ++ [Ev_context_destroyed ctx])).
Proof.
  intros Hb H0 Hov run. pose proof (bf_size _ _ _ _ Hb) as Hsz. pose proof (bf_wf _ _ _ _ Hb) as Hwf.
  destruct (tk_encode _ _ Htl ctx m Hwf) as (ret & buf & size & m1 & E1 & Hwf1 & Hb1 & Ho1 & Hcase).
  unfold run, append_context. rewrite (run_bind _ _ _ _ _ (on_mem_at _ m tr _ m1 E1)). cbv beta iota.
  rewrite (run_bind _ _ _ _ _ (emit_at _ m1 tr)). set (tr2 := tr ++ _).
  destruct Hcase as [[Hret Hm1]|(-> & -> & Hub & bb & Hm1 & H2 & Hl & Hbytes)].
  { rewrite decide_True by done. right. split; [intros Ho; by apply Ho1 in Ho as [? _]|].
    exists m1. split; [by apply (buffer_same m)|done]. }
  rewrite decide_False by (intros H; by apply H). rewrite length_app, Nat2Z.inj_add. set (n := Z.of_nat (length (enc ctx))) in *.
  assert (Hsz1 : size_t (Z.of_nat (length ser) + n) = Z.of_nat (length ser) + n) by (unfold wrap; apply Z.mod_small; lia).
  assert (Hsz2 : size_t (p_size + n) = p_size + n) by (unfold wrap; apply Z.mod_small; lia). rewrite Hsz1, Hsz2.
  pose proof Hb as [_ Hbw [Hpb Hp] _ (b & Hbm & Hlen & Hser)].
  assert (Hu : mm_blocks m !! buf.1 = None).
  { destruct (mm_blocks m !! buf.1) as [c|] eqn:Hc; [|done]. pose proof (proj2 (proj1 Hwf) _ _ Hc). lia. }
  assert (Hpu : p ≠ buf.1) by (intros Epu; rewrite Hbm, <- Epu, lookup_insert_eq in Hu; done).
  assert (Huw : mm_blocks (w_mem w) !! buf.1 = None) by (rewrite Hbm, lookup_insert_ne in Hu; done).
  assert (Hend : ∀ q b2 p_size' m2, mem_wf m2 → mm_brk m1 ≤ mm_brk m2 → mm_brk (w_mem w) ≤ q ∧ mm_blocks (w_mem w) !! q = None →
    q ≠ buf.1 → mm_blocks m2 = <[buf.1 := bb]> (<[q := b2]> (mm_blocks (w_mem w))) →
    take (length ser) b2 = Some <$> ser → p_size' ≤ Z.of_nat (length b2) → Z.of_nat (length ser) + n ≤ p_size' →
    ∃ m4, mm_oracle m4 = mm_oracle m2 ∧ buffer m4 q p_size' (ser ++ enc ctx) ∧
      (on_mem_opt (λ m, m ← memcpy q (Z.of_nat (length ser)) buf.1 buf.2 n m; Some (tt, m));;
       encode_destroy tl buf;; mret (Some (q, p_size', Z.of_nat (length ser) + n))) (at_ m2 tr2) =
      Some (Some (q, p_size', Z.of_nat (length ser) + n), at_ m4 tr2)).
  { intros q b2 p_size' m2 Hwf2 Hb2 Hq Hqu Hm2 Ht Hl2 Hfit.
    destruct (append_fits m2 buf.1 bb q b2 p_size' ser ctx buf) as (m3 & m4 & E3 & E4 & Ho4 & Hbuf); try done; [lia|].
    fold n in E3. exists m4. split; [done|]. split; [done|].
    assert (Hmc : (λ m, m ← memcpy q (Z.of_nat (length ser)) buf.1 buf.2 n m; Some (tt, m)) m2 = Some (tt, m3))
      by (cbn beta; by rewrite E3).
    rewrite (run_bind _ _ _ _ _ (on_mem_opt_at _ m2 tr2 tt m3 Hmc)). unfold encode_destroy.
    assert (Hde : (λ m, m ← tl_encode_destroy tl buf m; Some (tt, m)) m3 = Some (tt, m4)) by (cbn beta; by rewrite E4).
    by rewrite (run_bind _ _ _ _ _ (on_mem_opt_at _ m3 tr2 tt m4 Hde)). }
  destruct (decide (p_size < Z.of_nat (length ser) + n)) as [Hg|Hg].
  2:{ left. rewrite bind_ret. rewrite Hbm in Hm1. destruct (Hend p b p_size m1) as (m4 & Ho4 & Hbuf & ->); try done; try lia.
      exists m4, p, p_size. split; [done|]. split; [intros Ho; rewrite Ho4; by apply Ho1|]. split; [lia|done]. }
  destruct (grow m p p_size ser buf.1 bb n Hb H0 ltac:(lia) Hu m1 Hwf1 Hb1 Hm1 Hg) as (q & m2 & E2 & Hwf2 & Hb2 & Ho2 & Hcase).
  rewrite bind_assoc, (run_bind _ _ _ _ _ (on_mem_opt_at _ m1 tr2 _ m2 E2)).
  destruct Hcase as [[-> Hm2]|(Hq & Hqb & Hqn & Hqu & b2 & Hm2 & Hl2 & Ht2)].
  - right. split; [intros Ho; apply Ho1 in Ho as [_ Ho]; by apply Ho2 in Ho as [? _]|]. rewrite decide_True by done.
    destruct (tk_destroy _ _ Htl buf bb m2 Hwf2) as (m3 & E3 & Hwf3 & _ & Hb3 & Hm3);
      [rewrite Hm2, Hm1; apply lookup_insert_eq|].
    exists m3. split.
    + apply (buffer_same m); try done; [lia|]. by rewrite Hm3, Hm2, Hm1, delete_insert_id.
    + unfold encode_destroy. assert (Hde : (λ m, m ← tl_encode_destroy tl buf m; Some (tt, m)) m2 = Some (tt, m3)) by (cbn beta; by rewrite E3).
      rewrite bind_assoc, (run_bind _ _ _ _ _ (on_mem_opt_at _ m2 tr2 tt m3 Hde)). by apply abandoned_bind.
  - left. rewrite decide_False, bind_ret by done.
    destruct (Hend q b2 (p_size + n) m2) as (m4 & Ho4 & Hbuf & ->); try done; try lia.
    exists m4, q, (p_size + n). split; [done|]. split; [|split; [lia|done]].
    intros Ho. rewrite Ho4. apply Ho1 in Ho as [_ Ho]. by apply Ho2 in Ho as [_ ?].
Qed.

(** One iteration: load, decode, run the processors. *)
Lemma loop_step fuel m tr p p_size ser coff :
  buffer m p p_size ser →
  telemetry_loop lib tl evc processor coro out_flush (S fuel) p p_size (Z.of_nat (length ser)) coff (at_ m tr) =
  match tl_decode tl data coff with
  | None => Some (Some (p, p_size, Z.of_nat (length ser)), at_ m tr)
  | Some (ctx, coff') =>
      if decide (accepted ctx) then
        (r ← append_context lib tl coro out_flush ctx p p_size (Z.of_nat (length ser));
         match r with
         | None => mret None
         | Some (p, p_size, off) => telemetry_loop lib tl evc processor coro out_flush fuel p p_size off coff'
         end) (at_ m (tr ++ [Ev_context_created ctx]))
      else telemetry_loop lib tl evc processor coro out_flush fuel p p_size (Z.of_nat (length ser)) coff'
             (at_ m (tr ++ [Ev_context_created ctx]))
  end.
Proof.
  intros Hb. destruct (buffer_data _ _ _ _ Hb) as [Hd Ht]. cbn [telemetry_loop].
  assert (Hpk : peek (λ w, mem_load (ec_data evc) 0 (ec_size evc) (w_mem w)) (at_ m tr) = Some (data, at_ m tr)).
  { unfold peek. change (w_mem (at_ m tr)) with m. by rewrite Hd. }
  rewrite (run_bind _ _ _ _ _ Hpk). destruct (tl_decode tl data coff) as [[ctx coff']|]; [|done].
  rewrite (run_bind _ _ _ _ _ (emit_at _ m tr)). set (tr1 := tr ++ _).
  assert (Hsl : sds_len (ec_tag evc) (at_ m tr1) = Some (tag_len, at_ m tr1)).
  { unfold sds_len, peek. change (w_mem (at_ m tr1)) with m. by rewrite Ht. }
  rewrite (run_bind _ _ _ _ _ Hsl).
  destruct (decide (accepted ctx)) as [Ha|Ha]; unfold accepted in Ha; [by rewrite decide_True|by rewrite decide_False].
Qed.

(** What the loop adds to the trace. *)
Definition context_event (e : event) : Prop :=
  match e with Ev_context_created _ | Ev_context_destroyed _ => True | _ => False end.

Lemma context_events_all ctxs : Forall context_event (context_events ctxs).
Proof using.
  induction ctxs as [|ctx ctxs IH]; [constructor|]. rewrite context_events_cons. constructor; [done|].
  apply Forall_app. split; [|done]. case_decide; by repeat constructor.
Qed.

Lemma bind_from {A B} (k k' : M A) (f : A → M B) v v' : k v = k' v' → (x ← k; f x) v = (x ← k'; f x) v'.
Proof using. intros E. unfold mbind, M_bind. by rewrite E. Qed.

(** The whole loop: it ends, and the buffer holds the serialisation of the
    accepted contexts, in order, or the flush is abandoned for want of memory. *)
Lemma telemetry_loop_run fuel m tr p p_size ser coff :
  buffer m p p_size ser → 0 ≤ coff ≤ Z.of_nat (length data) → 0 ≤ p_size →
  Z.of_nat (length data) - coff < Z.of_nat fuel →
  let ctxs := contexts tl fuel data coff in
  p_size + Z.of_nat (length (serialized ctxs)) < 2 ^ 64 →
  let run := telemetry_loop lib tl evc processor coro out_flush fuel p p_size (Z.of_nat (length ser)) coff (at_ m tr) in
  (∃ m' q p_size', buffer m' q p_size' (ser ++ serialized ctxs) ∧ (mm_oracle m = [] → mm_oracle m' = []) ∧
    p_size ≤ p_size' ≤ p_size + Z.of_nat (length (serialized ctxs)) ∧
    run = Some (Some (q, p_size', Z.of_nat (length (ser ++ serialized ctxs))), at_ m' (tr ++ context_events ctxs))) ∨
  mm_oracle m ≠ [] ∧ ∃ m' q p_size' ser' evs, buffer m' q p_size' ser' ∧ Forall context_event evs ∧
    run = abandoned q (at_ m' (tr ++ evs)).
Proof.
  revert m tr p p_size ser coff. induction fuel as [|fuel IH];
    intros m tr p p_size ser coff Hb Hc H0 Hf; [lia|]. cbv zeta.
  rewrite (loop_step fuel m tr p p_size ser coff Hb). cbn [contexts].
  destruct (tl_decode tl data coff) as [[ctx coff']|] eqn:Ed; intros Hov.
  2: { left. exists m, p, p_size. unfold serialized, context_events in *. cbn in *.
       rewrite !app_nil_r. split; [done|]. split; [done|]. split; [lia|done]. }
  apply (tk_progress _ _ Htl) in Ed; [|lia].
  rewrite serialized_cons, context_events_cons in *. set (tr1 := tr ++ [Ev_context_created ctx]).
  case_decide as Ha.
  - rewrite length_app in Hov.
    destruct (append_context_run m tr1 p p_size ser ctx Hb H0)
      as [(m1 & q1 & s1 & Hb1 & Ho1 & Hs1 & E1)|(Ho & m1 & Hb1 & E1)]; [lia|..].
    2:{ right. split; [done|]. exists m1, p, p_size, ser, [Ev_context_created ctx; Ev_context_destroyed ctx].
        split; [done|]. split; [by repeat constructor|]. rewrite (bind_from _ _ _ _ _ E1), abandoned_bind with (b := None) by done.
        subst tr1. by rewrite <- app_assoc. }
    rewrite (run_bind _ _ _ _ _ E1). cbv beta iota.
    destruct (IH m1 (tr1 ++ [Ev_context_destroyed ctx]) q1 s1 (ser ++ enc ctx) coff' Hb1)
      as [(m2 & q2 & s2 & Hb2 & Ho2 & Hs2 & E2)|(Ho & m2 & q2 & s2 & ser2 & evs & Hb2 & He & E2)]; [lia..| |].
    + left. exists m2, q2, s2. subst tr1. rewrite length_app. rewrite <- !app_assoc in *.
      split; [done|]. split; [auto|]. split; [lia|done].
    + right. split; [auto|]. exists m2, q2, s2, ser2, (Ev_context_created ctx :: Ev_context_destroyed ctx :: evs).
      split; [done|]. split; [by repeat constructor|]. subst tr1. rewrite E2. by rewrite <- !app_assoc.
  - cbn [app] in *.
    destruct (IH m tr1 p p_size ser coff' Hb)
      as [(m2 & q2 & s2 & Hb2 & Ho2 & Hs2 & E2)|(Ho & m2 & q2 & s2 & ser2 & evs & Hb2 & He & E2)]; [lia..| |].
    + left. exists m2, q2, s2. subst tr1. rewrite <- !app_assoc in *. split; [done|]. split; [done|]. split; [lia|done].
    + right. split; [done|]. exists m2, q2, s2, ser2, (Ev_context_created ctx :: evs).
      split; [done|]. split; [by constructor|]. subst tr1. rewrite E2. by rewrite <- app_assoc.
Qed.

(** What [process_telemetry] does after its loop. *)
Definition telemetry_end (q p_size total : Z) : M bool :=
  if decide (total = 0) then discard lib coro out_flush;; w_free q;; mret false
  else
    tag_len ← sds_len (ec_tag evc);
    chunk ← flb_event_chunk_create lib (ec_type evc) 0 (ec_tag evc) tag_len q p_size;
    update_flush out_flush chunk;;
    if decide (chunk = NULL) then discard lib coro out_flush;; w_free q;; mret false
    else mret true.

(** All the contexts of the chunk. *)
Definition all_contexts : list ptr := contexts tl (S (Z.to_nat (ec_size evc))) data 0.

Context (Hwf : mem_wf (w_mem w)).
Context (Hsize : 0 ≤ ec_size evc).
Context (Hroom : ec_size evc * 2 + Z.of_nat (length (serialized all_contexts)) < 2 ^ 63).

Lemma data_length : Z.of_nat (length data) = ec_size evc.
Proof using Hdata Hsize. clear -Hdata Hsize. rewrite (mem_load_length _ _ _ _ _ Hdata). lia. Qed.

(** Every outcome of the allocations: the buffer cannot be had, or the loop
    abandons the flush, or it goes to its end. *)
Lemma process_telemetry_cases :
  let run := process_telemetry lib tl evc processor coro out_flush w in
  (∃ m q p_size, buffer m q p_size (serialized all_contexts) ∧ (mm_oracle (w_mem w) = [] → mm_oracle m = []) ∧
    ec_size evc ≤ p_size < 2 ^ 64 ∧
    run = telemetry_end q p_size (Z.of_nat (length (serialized all_contexts)))
      (at_ m (w_trace w ++ context_events all_contexts))) ∨
  mm_oracle (w_mem w) ≠ [] ∧
  ((∃ m, mem_wf m ∧ mm_brk (w_mem w) ≤ mm_brk m ∧ mm_blocks m = mm_blocks (w_mem w) ∧
     run = (discard lib coro out_flush;; mret false) (set_mem m w)) ∨
   ∃ m q p_size ser evs, buffer m q p_size ser ∧ Forall context_event evs ∧
     run = (discard lib coro out_flush;; w_free q;; mret false) (at_ m (w_trace w ++ evs))).
Proof using All.
  cbv zeta. unfold process_telemetry. assert (Hw2 : size_t (ec_size evc * 2) = ec_size evc * 2) by (unfold wrap; apply Z.mod_small; lia).
  rewrite Hw2.
  destruct (flb_calloc (ec_size evc * 2) 1 (w_mem w)) as [p m1] eqn:Ea.
  destruct (flb_calloc_cases _ 1 _ _ _ Hwf ltac:(discriminate) Ea) as (Hwf1 & Hb1 & Hcase).
  rewrite (run_bind _ _ _ _ _ (run_calloc _ _ _ _ _ Ea)).
  assert (Hor : mm_oracle (w_mem w) = [] → p ≠ NULL ∧ mm_oracle m1 = [])
    by (intros Ho; by apply (flb_calloc_plenty (ec_size evc * 2) 1 _ _ _ Hwf ltac:(discriminate) ltac:(lia) Ho Ea)).
  destruct Hcase as [[-> Hm1]|(Hp & Hpb & _ & Hpf & Hm1)].
  { right. split; [intros Ho; by apply Hor in Ho as [? _]|]. left. rewrite decide_True by done. by exists m1. }
  rewrite decide_False by done.
  assert (Hb : buffer m1 p (ec_size evc) []).
  { split; [done|done|split; [lia|done]|simpl; lia|]. eexists. split; [exact Hm1|]. split; [|done]. rewrite length_replicate. lia. }
  pose proof data_length as Hdl. unfold all_contexts in *. set (fuel := S (Z.to_nat (ec_size evc))) in *.
  assert (at_ m1 (w_trace w) = set_mem m1 w) as Hat by (by destruct w).
  destruct (telemetry_loop_run fuel m1 (w_trace w) p (ec_size evc) [] 0 Hb)
    as [(m2 & q & s2 & Hb2 & Ho2 & Hs2 & E2)|(Ho & m2 & q & s2 & ser2 & evs & Hb2 & He & E2)]; [lia..| |]; rewrite Hat in E2.
  - left. exists m2, q, s2. split; [done|]. split; [intros Ho; apply Ho2; by apply Hor|]. split; [lia|].
    by rewrite (run_bind _ _ _ _ _ E2).
  - right. split; [intros Ho'; by apply Ho, Hor|]. right. exists m2, q, s2, ser2, evs. split; [done|]. split; [done|].
    rewrite (bind_from _ _ _ _ _ E2). by apply abandoned_bind.
Qed.

Lemma process_telemetry_run :
  mm_oracle (w_mem w) = [] →
  ∃ m q p_size, buffer m q p_size (serialized all_contexts) ∧ mm_oracle m = [] ∧ ec_size evc ≤ p_size < 2 ^ 64 ∧
    process_telemetry lib tl evc processor coro out_flush w =
    telemetry_end q p_size (Z.of_nat (length (serialized all_contexts)))
      (at_ m (w_trace w ++ context_events all_contexts)).
Proof using All.
  intros Ho. destruct process_telemetry_cases as [(m & q & ps & ? & Hom & ? & ?)|[? _]]; [|done].
  exists m, q, ps. split; [done|]. split; [by apply Hom|done].
Qed.

Context (Horacle : mm_oracle (w_mem w) = []).

(** The library stores the buffer it is given in a new chunk. *)
Definition chunk_create_ok : Prop := ∀ type total tag tag_len p size m,
  mem_wf m → mm_oracle m = [] →
  ∃ c c_tag m', ol_event_chunk_create lib type total tag tag_len p size m =
      (Some (c, EventChunk type c_tag p size total), m') ∧
    c ≠ NULL ∧ mem_wf m' ∧ mm_blocks m ⊆ mm_blocks m'.

(** Processing the metrics or the traces of a flush, when the processors
    accept at least one context and memory does not run out: the flush gets a
    chunk of its own, of the type of the original one, whose buffer begins
    with the serialisation of the accepted contexts, in order; nothing is ever
    written outside the buffer, the rest of the memory is as it was, and each
    accepted context is destroyed once.  The size recorded in the chunk is the
    capacity of the buffer as the code counts it: at least the size of the
    original chunk, however little the processors left. *)
Theorem process_telemetry_chunk f :
  chunk_create_ok → w_flushes w !! out_flush = Some f → serialized all_contexts ≠ [] →
  ∃ w' c pc, process_telemetry lib tl evc processor coro out_flush w = Some (true, w') ∧
    c ≠ NULL ∧ w_flushes w' = <[out_flush := set_processed c f]> (w_flushes w) ∧
    w_chunks w' = <[c := pc]> (w_chunks w) ∧ ec_type pc = ec_type evc ∧
    mm_blocks (w_mem w) !! ec_data pc = None ∧
    mem_load (ec_data pc) 0 (Z.of_nat (length (serialized all_contexts))) (w_mem w') =
      Some (serialized all_contexts) ∧
    mm_blocks (w_mem w) ⊆ mm_blocks (w_mem w') ∧
    (ec_size evc ≤ ec_size pc ∧ Z.of_nat (length (serialized all_contexts)) ≤ ec_size pc ≤
       block_size (ec_data pc) (w_mem w')) ∧
    w_trace w' = w_trace w ++ context_events all_contexts ∧
    w_coros w' = w_coros w ∧ w_store w' = w_store w ∧ w_threads w' = w_threads w.
Proof using All.
  intros Hcc Hf Hne. destruct (process_telemetry_run Horacle) as (m & q & ps & Hb & Hom & Hps & ->).
  pose proof Hb as [Hwfm _ [_ Hqf] Hlen (b & Hm & Hbl & Htk)].
  unfold telemetry_end. rewrite decide_False by (destruct (serialized all_contexts); [done|simpl; lia]).
  set (tr := w_trace w ++ _). destruct (buffer_data _ _ _ _ Hb) as [_ Ht].
  assert (Hsl : sds_len (ec_tag evc) (at_ m tr) = Some (tag_len, at_ m tr)).
  { unfold sds_len, peek. change (w_mem (at_ m tr)) with m. by rewrite Ht. }
  rewrite (run_bind _ _ _ _ _ Hsl).
  destruct (Hcc (ec_type evc) 0 (ec_tag evc) tag_len q ps m Hwfm Hom) as (c & ct & m' & Ec & Hc & Hwf' & Hsub).
  set (pc := EventChunk _ _ _ _ _) in Ec.
  assert (Hcr : flb_event_chunk_create lib (ec_type evc) 0 (ec_tag evc) tag_len q ps (at_ m tr) =
    Some (c, set_chunks (<[c := pc]> (w_chunks w)) (at_ m' tr))).
  { unfold flb_event_chunk_create. rewrite (run_bind _ _ _ _ _ (on_mem_at _ m tr _ m' Ec)). by destruct w. }
  rewrite (run_bind _ _ _ _ _ Hcr). set (W := set_chunks _ _).
  assert (HfW : w_flushes W !! out_flush = Some f) by exact Hf.
  unfold update_flush. rewrite bind_assoc, (run_bind _ _ _ _ _ (run_get w_flushes out_flush W f HfW)).
  rewrite bind_set_flush, decide_False by done.
  assert (Hbq : mm_blocks m' !! q = Some b).
  { eapply lookup_weaken; [|exact Hsub]. rewrite Hm. apply lookup_insert_eq. }
  eexists _, c, pc. split; [reflexivity|]. split; [done|]. split; [done|]. split; [done|].
  split; [done|]. split; [done|]. split; [|split; [|split; [|done]]].
  - change (mem_load q 0 (Z.of_nat (length (serialized all_contexts))) m' = Some (serialized all_contexts)).
    apply (mem_load_values _ _ _ _ b); [done|lia..|]. rewrite Nat2Z.id. by rewrite drop_0.
  - etrans; [|exact Hsub]. rewrite Hm. by apply insert_subseteq.
  - change (ec_size evc ≤ ps ∧ Z.of_nat (length (serialized all_contexts)) ≤ ps ≤ block_size q m').
    unfold block_size. rewrite Hbq. simpl. lia.
Qed.

(** C23. When the processors reject every context, or the chunk has none, the
    flush is abandoned: its coroutine, its context and the buffer are
    released and the rest of the memory is as it was; but the contexts that
    were decoded are never destroyed. *)
Theorem process_telemetry_rejected c br bc :
  w_coros w !! coro = Some c → co_callee c = NULL → out_flush ≠ coro →
  mm_blocks (w_mem w) !! coro = Some bc → mm_blocks (w_mem w) !! out_flush = Some br →
  Forall (λ ctx, ¬ accepted ctx) all_contexts →
  ∃ w', process_telemetry lib tl evc processor coro out_flush w = Some (false, w') ∧
    mm_blocks (w_mem w') = delete out_flush (delete coro (mm_blocks (w_mem w))) ∧
    w_coros w' !! coro = None ∧ w_flushes w' !! out_flush = None ∧
    w_trace w' = w_trace w ++ (Ev_context_created <$> all_contexts).
Proof using All.
  intros Hc Hcal Hne Hbc Hbr Hall. destruct (process_telemetry_run Horacle) as (m & q & ps & Hb & Hom & Hps & ->).
  destruct Hb as [Hwfm _ [_ Hqf] Hlen (b & Hm & Hbl & Htk)].
  assert (Hser : serialized all_contexts = []).
  { unfold serialized. clear -Hall. induction Hall; [done|]. by rewrite filter_cons_False. }
  assert (Hev : context_events all_contexts = Ev_context_created <$> all_contexts).
  { revert Hall. generalize all_contexts. induction l as [|x l IH]; [done|].
    intros [Hx Hl]%Forall_cons. rewrite context_events_cons, IH by done. by rewrite decide_False. }
  rewrite Hser, Hev. unfold telemetry_end, discard. rewrite decide_True by done.
  set (W := at_ m _). rewrite bind_assoc.
  assert (Hnc : coro ≠ NULL) by (eapply mem_wf_not_null; [exact Hwf|exact Hbc]).
  assert (Hnr : out_flush ≠ NULL) by (eapply mem_wf_not_null; [exact Hwf|exact Hbr]).
  assert (Hnq : q ≠ NULL) by (eapply mem_wf_not_null; [exact Hwfm|rewrite Hm; apply lookup_insert_eq]).
  assert (Hqc : q ≠ coro ∧ q ≠ out_flush) by (split; intros ->; congruence).
  assert (Hd : flb_coro_destroy (ol_co lib) coro W = Some (tt,
    set_mem (Mem (delete coro (mm_blocks m)) (mm_brk m) (mm_oracle m)) (drop_objects coro W))).
  { unfold flb_coro_destroy. rewrite (run_bind _ _ _ _ _ (run_get w_coros coro W c Hc)).
    rewrite decide_False by (rewrite Hcal; intros H; by apply H). rewrite bind_ret.
    apply (w_free_run coro bc W Hnc). change (mm_blocks m !! coro = Some bc).
    rewrite Hm, lookup_insert_ne by tauto. done. }
  rewrite (run_bind _ _ _ _ _ Hd). set (W1 := set_mem _ _).
  assert (Hbr1 : mm_blocks (w_mem W1) !! out_flush = Some br).
  { change (delete coro (mm_blocks m) !! out_flush = Some br).
    rewrite lookup_delete_ne, Hm, lookup_insert_ne by (done || tauto). done. }
  rewrite (run_bind _ _ _ _ _ (w_free_run out_flush br W1 Hnr Hbr1)). set (W2 := set_mem _ _).
  assert (Hbq2 : mm_blocks (w_mem W2) !! q = Some b).
  { change (delete out_flush (delete coro (mm_blocks m)) !! q = Some b).
    rewrite !lookup_delete_ne by (destruct Hqc; congruence). rewrite Hm. apply lookup_insert_eq. }
  rewrite (run_bind _ _ _ _ _ (w_free_run q b W2 Hnq Hbq2)).
  eexists. split; [reflexivity|]. split; [|split; [|split; [|done]]].
  - change (delete q (delete out_flush (delete coro (mm_blocks m))) =
      delete out_flush (delete coro (mm_blocks (w_mem w)))). rewrite Hm.
    apply map_eq. intros i. rewrite ?lookup_delete, ?lookup_insert. by repeat case_decide; subst.
  - change (delete q (delete out_flush (delete coro (w_coros w))) !! coro = None).
    rewrite !lookup_delete_None. tauto.
  - change (delete q (delete out_flush (delete coro (w_flushes w))) !! out_flush = None).
    rewrite !lookup_delete_None. tauto.
Qed.
End loop.

(** ** The theorems at work *)

Definition demo_enc (context : ptr) : list Z := [context; context].

Lemma demo_telemetry_ok : telemetry_ok demo_telemetry demo_enc.
Proof.
  split.
  - intros data off ctx off' Ho. simpl. case_decide; [|done]. intros [= _ <-]. lia.
  - intros ctx m Hwf. simpl. destruct (alloc _ m) as [p m'] eqn:E.
    destruct (alloc_cases _ _ _ _ Hwf E) as [Hwf' Hc]. destruct (alloc_brk _ _ _ _ E) as [Hb Hp].
    assert (Ho : mm_oracle m = [] → p ≠ NULL ∧ mm_oracle m' = []).
    { intros Ho. unfold alloc, oracle_next in E. rewrite Ho in E. injection E as <- <-. split; [|done].
      pose proof (proj1 (proj1 Hwf)). unfold NULL. lia. }
    exists (if decide (p = NULL) then -1 else 0), (p, 0), 2, m'. do 3 (split; [done|]).
    destruct Hc as [[-> Hm]|(Hn & Hf & Hm)].
    + rewrite decide_True by done. split; [intros [? _]%Ho; done|by left].
    + rewrite decide_False by done. split; [intros [_ ?]%Ho; done|]. right. simpl. do 2 (split; [done|]). split; [pose proof (Hp Hn); lia|].
      eexists. by split_and!.
  - intros buf b m Hwf Hb. simpl. pose proof (mem_wf_not_null _ _ _ Hwf Hb) as Hn.
    unfold flb_free. rewrite (free_live _ _ _ Hn Hb). eexists. split; [done|].
    split_and!; [|done..]. eapply free_wf; [exact Hwf|]. by apply (free_live _ _ _ Hn Hb).
Qed.

Lemma demo_chunk_create_ok : chunk_create_ok demo_lib.
Proof.
  intros type total tag tag_len p size m Hwf Ho. simpl.
  destruct (flb_malloc 40 m) as [c m'] eqn:E.
  destruct (flb_malloc_cases _ _ _ _ Hwf E) as (Hwf' & _ & Hc).
  assert (c ≠ NULL) as Hn.
  { unfold flb_malloc, malloc, alloc, oracle_next in E. rewrite decide_False, Ho in E by done.
    injection E as <- _. pose proof (proj1 (proj1 Hwf)). unfold NULL. lia. }
  rewrite decide_False by done. eexists c, _, m'. split; [reflexivity|]. split_and!; try done.
  destruct Hc as [[? _]|(_ & _ & _ & Hf & Hm)]; [done|]. rewrite Hm. by apply insert_subseteq.
Qed.

Lemma demo_room : ec_size demo_chunk * 2 +
  Z.of_nat (length (serialized demo_telemetry demo_enc demo_chunk 67 1
    (all_contexts demo_telemetry demo_chunk [65; 66; 67]))) < 2 ^ 63.
Proof. vm_compute. reflexivity. Qed.

(** The processor at 67 accepts two of the three contexts: four bytes in a
    buffer that had to grow. *)
Lemma process_telemetry_chunk_witness :
  ∃ w' c pc, process_telemetry demo_lib demo_telemetry demo_chunk 67 16480 16384 demo_started = Some (true, w') ∧
    w_flushes w' = <[16384 := set_processed c demo_flush]> (w_flushes demo_started) ∧
    w_chunks w' = <[c := pc]> (w_chunks demo_started) ∧
    mem_load (ec_data pc) 0 4 (w_mem w') = Some [65; 65; 66; 66] ∧ 4 ≤ ec_size pc ∧
    w_trace w' = [Ev_context_created 65; Ev_context_destroyed 65; Ev_context_created 66;
                  Ev_context_destroyed 66; Ev_context_created 67].
Proof.
  destruct (process_telemetry_chunk demo_lib demo_telemetry demo_enc demo_telemetry_ok demo_chunk 67 16480 16384
    demo_started [65; 66; 67] 1 ltac:(vm_compute; reflexivity) ltac:(vm_compute; reflexivity)
    (fa_wf _ demo_started_fresh) ltac:(simpl; lia) demo_room ltac:(vm_compute; reflexivity) demo_flush)
    as (w' & c & pc & E & _ & Hf & Hc & _ & _ & Hl & _ & (_ & Hs & _) & Ht & _).
  - exact demo_chunk_create_ok.
  - vm_compute. reflexivity.
  - vm_compute. discriminate.
  - exists w', c, pc. split; [exact E|]. split; [exact Hf|]. split; [exact Hc|]. split; [exact Hl|].
    split; [exact Hs|exact Ht].
Defined.

(** The world of a flush whose coroutine has no stack yet. *)
Definition demo_unstarted : world :=
  set_coros {[ 16480 := Coro NULL NULL 16384 ]} demo_started.

Lemma demo_unstarted_wf : mem_wf (w_mem demo_unstarted).
Proof.
  assert (Hs : ∀ x w, w_mem (set_coros x w) = w_mem w) by reflexivity.
  unfold demo_unstarted. rewrite Hs. exact (fa_wf _ demo_started_fresh).
Qed.

Lemma process_telemetry_rejected_witness :
  ∃ w', process_telemetry demo_lib demo_telemetry demo_chunk 1 16480 16384 demo_unstarted = Some (false, w') ∧
    mm_blocks (w_mem w') = delete 16384 (delete 16480 (mm_blocks (w_mem demo_unstarted))) ∧
    w_coros w' !! 16480 = None ∧ w_flushes w' !! 16384 = None ∧
    w_trace w' = [Ev_context_created 65; Ev_context_created 66; Ev_context_created 67].
Proof.
  destruct (process_telemetry_rejected demo_lib demo_telemetry demo_enc demo_telemetry_ok demo_chunk 1 16480 16384
    demo_unstarted [65; 66; 67] 1 ltac:(vm_compute; reflexivity) ltac:(vm_compute; reflexivity)
    demo_unstarted_wf ltac:(simpl; lia)
    ltac:(vm_compute; reflexivity) ltac:(vm_compute; reflexivity) (Coro NULL NULL 16384) (replicate 72 (Some 0)) (replicate 24 (Some 0)))
    as (w' & E & Hm & Hc & Hf & Ht).
  - vm_compute. reflexivity.
  - reflexivity.
  - discriminate.
  - vm_compute. reflexivity.
  - vm_compute. reflexivity.
  - repeat constructor; discriminate.
  - exists w'. split; [exact E|]. split; [exact Hm|]. split; [exact Hc|]. split; [exact Hf|exact Ht].
Defined.
