(* ===== verification/TelemetryLife.v ===== *)
(** Flushes of metrics and traces for an output with a processor: creation for
    every outcome of the allocations, and the life of such a flush.  The
    branch itself is in [Telemetry], what follows it in [Logs]. *)
From S2P Require Import Prelude MkList Mem MkEvent Codes Task Bytes Structs Runtime RuntimeSpec Output OutputSpec Logs Lifecycle LogsLife Telemetry.

(** * What has been said changes nothing else *)

(** The same world, after some more events. *)
Abbreviation after_events w evs := (set_trace (w_trace w ++ evs) w).

Lemma fresh_events w evs : fresh_above w → fresh_above (after_events w evs).
Proof. intros []. by split. Qed.

Lemma processed_pre_events lib task o_ins config worker w t evc o cfg l tag_len evs :
  processed_pre lib task o_ins config worker w t evc o cfg l tag_len →
  processed_pre lib task o_ins config worker (after_events w evs) t evc o cfg l tag_len.
Proof. intros []. split; try done. by apply fresh_events. Qed.

Lemma more_blocks_events w m r coro X evs : more_blocks w m r coro X → more_blocks (after_events w evs) m r coro X.
Proof. intros []. by split. Qed.

Lemma life_ok_events lib task o_ins worker t o w l dl rs evs :
  life_ok lib task o_ins worker t o w l dl rs → life_ok lib task o_ins worker t o (after_events w evs) l dl rs.
Proof. intros []. split; try done. by apply fresh_events. Qed.

(** * Creation *)

Section telemetry_flush.
Context (lib : output_lib) (own : ptr → gset Z) (Hco : libco_ok (ol_co lib)) (Hlogs : logs_ok lib own).
Context (task i_ins o_ins config : ptr) (worker : flb_out_thread_instance).
Context (w : world) (t : flb_task) (evc : flb_event_chunk) (o : flb_output_instance) (cfg : flb_config) (l : list ptr) (tag_len : Z).
Context (Hpre : processed_pre lib task o_ins config worker w t evc o cfg l tag_len).

(** The chunk holds metrics or traces, which the library [tl] decodes. *)
Definition telemetry_kind (tl : telemetry) : Prop :=
  ec_type evc = FLB_EVENT_TYPE_METRICS ∧ tl = ol_metrics lib ∨
  ec_type evc = FLB_EVENT_TYPE_TRACES ∧ tl = ol_traces lib.

Context (tl : telemetry) (Hkind : telemetry_kind tl) (enc : ptr → list Z) (Htl : telemetry_ok tl enc).
Context (data : list Z) (Hdata : mem_load (ec_data evc) 0 (ec_size evc) (w_mem w) = Some data) (Hsize : 0 ≤ ec_size evc).

Lemma telemetry_branch coro r :
  run_processors lib evc o coro r = process_telemetry lib tl evc (oi_processor o) coro r.
Proof using Hpre Hkind.
  unfold run_processors. rewrite decide_True by apply Hpre.
  destruct Hkind as [[E1 E2]|[E1 E2]]; rewrite E1, E2; reflexivity.
Qed.

(** The contexts of the chunk, and the bytes of those that are accepted. *)
Abbreviation ctxs := (all_contexts tl evc data).
Abbreviation bytes := (serialized tl enc evc (oi_processor o) tag_len ctxs).

(** The sizes stay in the range of [size_t]. *)
Context (Hroom : ec_size evc * 2 + Z.of_nat (length bytes) < 2 ^ 63).

Section branch.
Context (m : mem) (ids : gmap Z Z) (r coro : ptr) (f : flb_output_flush).
Context (Hmb : more_blocks w m r coro ∅).

Abbreviation at_ m := (staged w m ids r coro (Coro NULL NULL r) f (w_chunks w)).

Lemma at_events m' evs :
  set_trace (w_trace (at_ m) ++ evs) (set_mem m' (at_ m)) =
  staged (after_events w evs) m' ids r coro (Coro NULL NULL r) f (w_chunks (after_events w evs)).
Proof using. reflexivity. Qed.

(** A block of a buffer is one more block. *)
Lemma buffer_staged evs m' p p_size ser :
  buffer (at_ m) m' p p_size ser → let v := after_events w evs in
  p ≠ ec_data evc ∧ ∃ b, more_blocks v m' r coro {[ p := b ]} ∧ buffer_at v evc p {[ p := b ]} ∧
    p_size ≤ Z.of_nat (length b) ∧ take (length ser) b = Some <$> ser.
Proof using All.
  intros [Hwf Hb [Hp Hpn] _ (b & Hbl & Hlen & Ht)] v. change (w_mem (at_ m)) with m in *.
  pose proof (data_is_old w evc (pp_fresh _ _ _ _ _ _ _ _ _ _ _ _ Hpre) (pp_data _ _ _ _ _ _ _ _ _ _ _ _ Hpre)) as Hlow.
  pose proof (mb_brk _ _ _ _ _ Hmb) as Hbm. split; [lia|]. exists b. split_and!; try done.
  - rewrite <- (right_id_L ∅ (∪) {[ p := b ]}). apply more_blocks_events, (more_blocks_add w m); try done.
    + intros q. rewrite dom_singleton_L. by intros ->%elem_of_singleton.
    + by rewrite Hbl, insert_union_singleton_l.
  - right. split; [simpl; lia|by exists b].
Qed.

(** A flush abandoned with its buffer. *)
Lemma abandon {A} (x : A) evs m' p p_size ser g :
  buffer (at_ m) m' p p_size ser →
  ∃ w', (discard lib coro r;; w_free p;; mret x)
    (staged (after_events w evs) m' ids r coro (Coro NULL NULL r) g (w_chunks (after_events w evs))) = Some (x, w') ∧
    as_before (after_events w evs) w'.
Proof using All.
  intros Hb. destruct (buffer_staged evs m' p p_size ser Hb) as (Hne & b & Hm' & Hbuf & _).
  destruct (discard_buffer lib own Hco Hlogs task i_ins o_ins config worker x (after_events w evs) m' ids r coro (Coro NULL NULL r) g evc p {[ p := b ]})
    as (w' & E & Hg); [apply fresh_events, Hpre|apply Hpre|done|done|done|].
  exists w'. split; [exact E|by eapply given_up_before].
Qed.

(** The branch, for every outcome of the allocations: the flush is given up
    with nothing left of it, or it has a chunk of its own, whose buffer begins
    with the bytes of the accepted contexts. *)
Lemma process_telemetry_staged :
  ∃ evs w1, let v := after_events w evs in Forall context_event evs ∧
    (process_telemetry lib tl evc (oi_processor o) coro r (at_ m) = Some (false, w1) ∧ as_before v w1 ∨
     process_telemetry lib tl evc (oi_processor o) coro r (at_ m) = Some (true, w1) ∧
     bytes ≠ [] ∧ evs = context_events tl evc (oi_processor o) tag_len ctxs ∧
     ∃ m1 tmp pc b X Y, processed own v w1 ids r coro f evc m1 tmp pc X Y ∧ ec_data pc ≠ ec_data evc ∧
       mm_blocks m1 !! ec_data pc = Some b ∧ take (length bytes) b = Some <$> bytes ∧
       Z.of_nat (length bytes) ≤ ec_size pc ≤ Z.of_nat (length b) ∧ ec_size evc ≤ ec_size pc).
Proof using All.
  pose proof (pp_fresh _ _ _ _ _ _ _ _ _ _ _ _ Hpre) as Hf.
  assert (Hdm : mem_load (ec_data evc) 0 (ec_size evc) (w_mem (at_ m)) = Some data).
  { rewrite <- Hdata. unfold mem_load, mem_slice. change (w_mem (at_ m)) with m. rewrite (more_blocks_old _ _ _ _ _ _ Hmb); [done|].
    apply (data_is_old w evc Hf), Hpre. }
  assert (Htm : flb_sds_len (ec_tag evc - FLB_SDS_HEADER_SIZE, FLB_SDS_HEADER_SIZE) (w_mem (at_ m)) = Some tag_len).
  { pose proof (tag_read w (at_ m) r coro ∅ _ _ Hf Hmb (pp_tag _ _ _ _ _ _ _ _ _ _ _ _ Hpre)) as E.
    unfold sds_len, peek in E. destruct (flb_sds_len _ _); by simplify_eq. }
  destruct (process_telemetry_cases lib tl enc Htl evc (oi_processor o) coro r (at_ m) data tag_len Hdm Htm
    (mb_wf _ _ _ _ _ Hmb) Hsize Hroom)
    as [(m1 & q & ps & Hb & _ & Hps & E)|[_ [(m1 & Hwf1 & Hb1 & Hbl & E)|(m1 & q & ps & ser & evs & Hb & He & E)]]].
  - pose proof (context_events_all tl evc (oi_processor o) tag_len ctxs) as He.
    set (evs := context_events _ _ _ _ _) in *. exists evs. rewrite E, at_events. unfold telemetry_end.
    set (v := after_events w evs). change (w_chunks (after_events w evs)) with (w_chunks v).
    destruct (decide (Z.of_nat (length bytes) = 0)) as [H0|H0].
    { destruct (abandon false evs m1 q ps _ f Hb) as (w1 & E1 & Hab). exists w1. split; [done|]. left. by split. }
    destruct (buffer_staged evs m1 q ps _ Hb) as (Hne & b & Hm1 & Hbuf & Hlen & Htk).
    assert (Hfv : fresh_above v) by (by apply fresh_events).
    assert (Hpv : processed_pre lib task o_ins config worker v t evc o cfg l tag_len) by (by apply processed_pre_events).
    rewrite (run_bind _ _ _ _ _ (tag_read v (staged v m1 ids r coro (Coro NULL NULL r) f (w_chunks v)) r coro _ _ _ Hfv Hm1 (pp_tag _ _ _ _ _ _ _ _ _ _ _ _ Hpv))).
    destruct (new_chunk lib own Hlogs v evc tag_len ids r coro f m1 {[ q := b ]} 0 q ps Hm1 Hbuf)
      as (tmp & m2 & Hwf2 & Hb2 & [(-> & Hbl2 & Ec)|(pc & Y & Ec & Hpr & Hpd & Hpsz & _)]); rewrite (run_bind _ _ _ _ _ Ec); unfold update_flush.
    + set (V := staged _ _ _ _ _ _ _ _). assert (Hg : w_flushes V !! r = Some f) by apply lookup_insert_eq.
      rewrite bind_assoc, (run_bind _ _ _ _ _ (run_get w_flushes r V f Hg)), bind_set_flush, decide_True by done.
      destruct (abandon false evs m2 q ps _ (set_processed NULL f) (buffer_same _ _ _ _ _ _ Hb Hwf2 Hb2 Hbl2)) as (w1 & E1 & Hab).
      exists w1. split; [done|]. left. split; [|done]. rewrite <- E1. subst V. f_equal. destruct w. cbv [staged]. wsimpl.
      by rewrite insert_insert_eq.
    + set (V := staged _ _ _ _ _ _ _ _). assert (Hg : w_flushes V !! r = Some f) by apply lookup_insert_eq.
      rewrite bind_assoc, (run_bind _ _ _ _ _ (run_get w_flushes r V f Hg)), bind_set_flush, decide_False by apply Hpr.
      eexists. split; [done|]. right. split; [reflexivity|]. split; [by intros E0; rewrite E0 in H0|]. split; [done|].
      assert (Hl2 : mm_blocks m2 !! q = Some b).
      { destruct Hpr as [_ Hmb2 _ (_ & _ & HY & HXY) _]. destruct (mb_blocks _ _ _ _ _ Hmb2) as (br & bc & -> & _).
        rewrite <- (assoc_L (∪)), lookup_union_r; [apply lookup_union_Some_l, lookup_singleton_eq|].
        apply not_elem_of_dom. rewrite HY. rewrite dom_singleton_L in HXY. set_solver. }
      exists m2, tmp, pc, b, {[ q := b ]}, Y. rewrite Hpd, Hpsz. split; [|split_and!; try done; [apply (bf_size _ _ _ _ _ Hb)|lia]].
      destruct Hpr. split; try done. subst V. destruct w. cbv [staged]. wsimpl. by rewrite insert_insert_eq.
  - exists []. rewrite E. assert (after_events w [] = w) as -> by (rewrite app_nil_r; by destruct w).
    destruct (discard_clean lib w m1 ids r coro (Coro NULL NULL r) f Hf (more_blocks_frame _ _ _ _ _ _ Hmb Hwf1 Hb1 Hbl) eq_refl)
      as (w1 & E1 & Hab). exists w1. split; [constructor|]. left. rewrite staged_mem, (run_bind _ _ _ _ _ E1). done.
  - exists evs. rewrite E, at_events. destruct (abandon false evs m1 q ps ser f Hb) as (w1 & E1 & Hab).
    exists w1. split; [done|]. left. by split.
Qed.
End branch.

(** The flush delivers the bytes of the accepted contexts. *)
Record delivers_bytes (w' : world) (pc : flb_event_chunk) : Prop := {
  db_some : bytes ≠ [];
  db_bytes : mem_load (ec_data pc) 0 (Z.of_nat (length bytes)) (w_mem w') = Some bytes;
  db_size : Z.of_nat (length bytes) ≤ ec_size pc ≤ block_size (ec_data pc) (w_mem w');
  db_capacity : ec_size evc ≤ ec_size pc;
  db_own : ec_data pc ≠ ec_data evc
}.

(** Creation, for every outcome of the allocations. *)
Lemma create_telemetry :
  ∃ r w' evs, flb_output_flush_create lib task i_ins o_ins config w = Some (r, w') ∧ Forall context_event evs ∧
    let v := after_events w evs in
    (r = NULL ∧ as_before v w' ∨
     ∃ id coro tmp pc callee st,
       delivers own config worker v t evc o l r coro (OutputFlush id (ec_data evc) task config o_ins coro NULL) tmp pc w' callee st ∧
       delivers_bytes w' pc ∧ evs = context_events tl evc (oi_processor o) tag_len ctxs).
Proof using All.
  assert (Hpv : ∀ evs, processed_pre lib task o_ins config worker (after_events w evs) t evc o cfg l tag_len)
    by (intros evs; by apply processed_pre_events).
  destruct (create_processed_enters lib task i_ins o_ins config worker w t evc o cfg l tag_len Hpre)
    as [(w' & E & Hab & _)|(m & id & ids & coro & Hmb & E)]; rewrite E, ?telemetry_branch.
  { exists NULL, w', []. assert (after_events w [] = w) as -> by (rewrite app_nil_r; by destruct w).
    split; [done|]. split; [constructor|]. left. by split. }
  set (r := mm_brk (w_mem w)) in *. set (f := OutputFlush _ _ _ _ _ _ _).
  destruct (process_telemetry_staged m ids r coro f Hmb)
    as (evs & w1 & He & [[E1 Hab]|(E1 & Hne & Eevs & m1 & tmp & pc & b & X & Y & Hpr & Hpd & Hb & Htk & Hsz & Hcap)]);
    rewrite (run_bind _ _ _ _ _ E1).
  { exists NULL, w1, evs. split; [done|]. split; [done|]. left. by split. }
  destruct (flush_start_processed lib own Hco Hlogs task i_ins o_ins config worker (after_events w evs) t evc o cfg l tag_len (Hpv evs)
    w1 ids r coro f m1 tmp pc X Y Hpr) as [(w' & E2 & Hg & _)|(w' & callee & st & E2 & Hdl & Hsub & _)]; rewrite E2.
  - exists NULL, w', evs. split; [done|]. split; [done|]. left. split; [done|by eapply given_up_before].
  - exists r, w', evs. split; [done|]. split; [done|]. right. exists id, coro, tmp, pc, callee, st. split; [exact Hdl|]. split; [|done].
    pose proof (lookup_weaken _ _ _ _ Hb Hsub) as Hb'. split; try done.
    + apply (mem_load_values _ _ _ _ b); [done|lia..|]. by rewrite Nat2Z.id, drop_0.
    + unfold block_size. by rewrite Hb'.
Qed.

(** * Its life *)

(** The callback of the plugin returns [x] at once, and contexts are handed
    over as documented. *)
Context (x : Z) (Hcb : ∀ params v, ol_cb_flush lib params v = Some (CB_return x, v)) (Hprepare : prepares lib worker o).

(** C17. The life of a flush of metrics or traces for an output with a
    processor, threaded or not, whose plugin returns at once, when the task has
    a route to the output that is not dropped, for every outcome of the
    allocations.  Creation either undoes all it has done, beside the
    contexts it has decoded, or gives a flush with a chunk of its own, whose
    buffer begins with the serialisation of the contexts the processors
    accepted, in order, at least one, and whose recorded size is the capacity
    of the buffer as the code counts it: at least the size of the original
    chunk, however little was left.  In the second case either the coroutine has
    not started, because the parameters of the thread did not exist yet and
    could not be allocated, which is reported; or the flush can be resumed: the
    plugin is called once with that chunk, the resumption comes back, destroying
    the context succeeds, and every list, object, chunk, thread and block is
    what it was before, save the parameters the thread keeps, the inactive route
    and what was said. *)
Theorem flb_output_flush_telemetry_lifecycle dl rs :
  w_out_key w < mm_brk (w_mem w) → life_ok lib task o_ins worker t o w l dl rs →
  ∃ r w1 evs, flb_output_flush_create lib task i_ins o_ins config w = Some (r, w1) ∧ Forall context_event evs ∧
    let v := after_events w evs in
    (r = NULL ∧ as_before v w1 ∨
     ∃ id coro tmp pc callee,
       let f := OutputFlush id (ec_data evc) task config o_ins coro NULL in
       let params := OutFlushParams tmp r (tk_i_ins t) (oi_p o) (oi_context o) config coro in
       delivers_bytes w1 pc ∧ evs = context_events tl evc (oi_processor o) tag_len ctxs ∧
       (delivers own config worker v t evc o l r coro f tmp pc w1 callee CT_output_start ∧ w_out_key w = NULL ∧
          w_trace w1 = w_trace v ++ [Ev_error] ∨
        delivers own config worker v t evc o l r coro f tmp pc w1 callee (CT_output_ready params) ∧ w_trace w1 = w_trace v ∧
        ∃ w2 w3, flb_coro_resume (output_run lib) coro w1 = Some (tt, w2) ∧
          flb_output_flush_destroy lib r w2 = Some (tt, w3) ∧
          restored lib o_ins x worker t o v w1 w3 l dl rs r params)).
Proof using All.
  intros Hkey Hlife. destruct create_telemetry as (r & w1 & evs & E & He & Hcase).
  exists r, w1, evs. split; [exact E|]. split; [exact He|].
  destruct Hcase as [?|(id & coro & tmp & pc & callee & st & Hdl & Hdb & Hev)]; [by left|right].
  exists id, coro, tmp, pc, callee. split; [exact Hdb|]. split; [exact Hev|].
  destruct (dl_start _ _ _ _ _ _ _ _ _ _ _ _ _ _ _ _ Hdl) as [[-> Htr]|[-> [Hk Htr]]]; [right|by left].
  split; [exact Hdl|]. split; [exact Htr|].
  destruct (delivers_lives lib own Hco Hlogs task i_ins o_ins config x worker t o evc cfg (after_events w evs) l tag_len
    (processed_pre_events _ _ _ _ _ _ _ _ _ _ _ _ _ Hpre) Hcb Hprepare dl rs r id coro tmp pc w1 callee _ Hdl)
    as [[[=] _]|?]; [done|by apply life_ok_events|done].
Qed.
End telemetry_flush.

(** ** The theorem at work: the processor 67 accepts two contexts of three *)

Definition demo_metrics_world : world := set_outs {[ 4096 := demo_processed_output 67 ]} demo_world.

Lemma demo_metrics_pre :
  processed_pre (demo_logs_lib malloc_libco) 1024 4096 7168 flb_out_thread_instance_zero demo_metrics_world demo_task_of_flush
    demo_chunk (demo_processed_output 67) flb_config_zero [] 1.
Proof.
  split; try reflexivity; [destruct demo_fresh; by split|evaluate|discriminate|vm_compute; discriminate|by eexists].
Qed.

Lemma demo_metrics_life_ok : life_ok (demo_logs_lib malloc_libco) 1024 4096 flb_out_thread_instance_zero demo_task_of_flush
  (demo_processed_output 67) demo_metrics_world [] [] demo_routes.
Proof.
  destruct demo_metrics_pre. split; try done.
  - apply demo_route_list; [evaluate|reflexivity].
  - left. reflexivity.
  - evaluate.
  - apply Forall_forall. evaluate.
Qed.

(** The four bytes of two contexts, in a buffer of five. *)
Lemma flb_output_flush_telemetry_lifecycle_witness :
  ∃ w1 id coro tmp pc, flb_output_flush_create (demo_logs_lib malloc_libco) 1024 200 4096 7168 demo_metrics_world = Some (16384, w1) ∧
    w_flushes w1 !! 16384 = Some (OutputFlush id 560 1024 7168 4096 coro tmp) ∧ w_chunks w1 !! tmp = Some pc ∧
    mem_load (ec_data pc) 0 4 (w_mem w1) = Some [65; 65; 66; 66] ∧ 4 ≤ ec_size pc ∧
    ∃ w2 w3, flb_coro_resume (output_run (demo_logs_lib malloc_libco)) coro w1 = Some (tt, w2) ∧
      flb_output_flush_destroy (demo_logs_lib malloc_libco) 16384 w2 = Some (tt, w3) ∧
      w_chunks w3 = w_chunks demo_metrics_world.
Proof.
  destruct (flb_output_flush_telemetry_lifecycle (demo_logs_lib malloc_libco) (λ p, {[ p ]}) malloc_libco_ok (demo_logs_ok _)
    1024 200 4096 7168 flb_out_thread_instance_zero demo_metrics_world demo_task_of_flush demo_chunk (demo_processed_output 67)
    flb_config_zero [] 1 demo_metrics_pre demo_telemetry ltac:(by left) demo_enc demo_telemetry_ok [65; 66; 67]
    ltac:(vm_compute; reflexivity) ltac:(simpl; lia) demo_room FLB_OK (λ _ _, eq_refl) demo_prepare [] demo_routes
    ltac:(reflexivity) demo_metrics_life_ok) as (r & w1 & evs & E & _ & Hcase).
  assert (Hr : (λ x, (x.1, w_threads x.2 !! 16720)) <$>
      flb_output_flush_create (demo_logs_lib malloc_libco) 1024 200 4096 7168 demo_metrics_world =
    Some (16384, Some (CT_output_ready (OutFlushParams 16656 16384 200 300 400 7168 16480)))) by (vm_compute; reflexivity).
  pose proof (eq_trans (eq_sym (f_equal (fmap (λ x, (x.1, w_threads x.2 !! 16720))) E)) Hr) as Hr'.
  simpl in Hr'. injection Hr' as -> Hth.
  destruct Hcase as [[H _]|(id & coro & tmp & pc & callee & [_ Hb Hs _ _] & _ & Hst)]; [discriminate H|].
  destruct Hst as [[Hdl _]|(Hdl & _ & w2 & w3 & E2 & E3 & Hre)].
  - exfalso. rewrite (dl_thread _ _ _ _ _ _ _ _ _ _ _ _ _ _ _ _ Hdl) in Hth.
    apply lookup_insert_Some in Hth as [[_ [=]]|[_ Hth]]. vm_compute in Hth. discriminate Hth.
  - exists w1, id, coro, tmp, pc. split; [exact E|].
    rewrite (proj1 (dl_chunk _ _ _ _ _ _ _ _ _ _ _ _ _ _ _ _ Hdl)), (dl_flush _ _ _ _ _ _ _ _ _ _ _ _ _ _ _ _ Hdl).
    split; [apply lookup_insert_eq|]. split; [apply lookup_insert_eq|]. split; [exact Hb|]. split; [exact (proj1 Hs)|].
    exists w2, w3. split; [exact E2|]. split; [exact E3|]. by destruct Hre as [_ _ _ _ Hch _ _ _ _ _ _].
Defined.
