(* ===== verification/Sleep.v ===== *)
(** [flb_time_utils.h]: a coroutine goes to sleep, a timer of the scheduler
    wakes it up. *)
From S2P Require Import Prelude MkList Mem MkEvent Codes Task Bytes Structs Runtime RuntimeSpec Output OutputSpec.

Definition FLB_SCHED_TIMER_CB_ONESHOT : Z := 3.
Definition FLB_SCHED_TIMER_CB_PERM : Z := 4.

Section sleep.
Context (lib : output_lib).

(** The scheduler of the thread, in the library. *)
Context (flb_sched_ctx_get : M ptr).
Context (flb_sched_timer_cb_create : ptr → Z → Z → ptr → M Z).

(** The callback of the timer; [config] is not used. *)
Definition flb_time_thread_wakeup (config data : ptr) : M unit :=
  flb_coro_resume (output_run lib) data.

(** A callback that sleeps; what follows the call is what the callback does in
    its state [k], whether the call yields in that state or comes back at
    once. *)
Definition flb_time_sleep (ms k : Z) : M cb_result :=
  coro ← flb_coro_get;
  if decide (coro = NULL) then emit Ev_error;; ol_cb_resume lib k
  else
    sched ← flb_sched_ctx_get;
    if decide (sched = NULL) then fail
    else
      ret ← flb_sched_timer_cb_create sched FLB_SCHED_TIMER_CB_ONESHOT ms coro;
      if decide (ret = -1) then ol_cb_resume lib k
      else mret (CB_suspend k).

(** What is documented: the thread has a scheduler; a timer is registered and
    nothing else, or -1 is returned and nothing is registered. *)
Record sched_ok (sched : ptr) : Prop := {
  so_ctx w : flb_sched_ctx_get w = Some (sched, w);
  so_sched : sched ≠ NULL;
  so_create type ms data w :
    flb_sched_timer_cb_create sched type ms data w = Some (-1, w) ∨
    ∃ ret, ret ≠ -1 ∧ flb_sched_timer_cb_create sched type ms data w =
      Some (ret, set_trace (w_trace w ++ [Ev_timer sched type ms data]) w)
}.

(** A turn of a coroutine that goes to sleep, when no timer can be had and
    when one can. *)
Lemma sleep_turn sched ms k w coro c ret v :
  sched_ok sched → coro ≠ NULL → w_coros w !! coro = Some c →
  flb_sched_timer_cb_create sched FLB_SCHED_TIMER_CB_ONESHOT ms coro (inside w coro c) = Some (ret, v) →
  (r ← flb_time_sleep ms k; callback_turn lib r) (inside w coro c) =
  if decide (ret = -1) then output_run lib (CT_callback k) (inside w coro c)
  else Some ((CT_callback k, w_active w),
         set_trace (w_trace w ++ [Ev_timer sched FLB_SCHED_TIMER_CB_ONESHOT ms coro]) (inside w coro c)).
Proof.
  intros [Hctx Hs Hcr] Hn Hc Ecr. unfold flb_time_sleep, flb_coro_get.
  rewrite bind_assoc, bind_gets. change (w_current (inside w coro c)) with coro.
  rewrite decide_False by done. rewrite bind_assoc, (run_bind _ _ _ _ _ (Hctx _)).
  rewrite decide_False by done. rewrite bind_assoc, (run_bind _ _ _ _ _ Ecr).
  destruct (Hcr FLB_SCHED_TIMER_CB_ONESHOT ms coro (inside w coro c)) as [E|(ret' & Hr & E)];
    rewrite E in Ecr; injection Ecr as <- <-; [done|].
  rewrite !(decide_False (P := ret' = -1)), bind_ret by done. unfold callback_turn, flb_coro_get, flb_coro_yield.
  rewrite bind_gets. set (W := set_trace _ _). change (w_current W) with coro.
  rewrite bind_assoc. erewrite run_bind; [|apply (run_get w_coros coro W); apply lookup_insert_eq]. done.
Qed.

(** C18. A coroutine whose callback sleeps, then goes on in the state [k].  The
    scheduler is asked for a one-shot timer for this coroutine.  When it
    answers -1 the turn is the one the coroutine would make in the state [k],
    in the same world: the callback goes on at once, without having slept.
    When it answers anything else the coroutine is suspended in the state [k],
    control is back in the engine, and the only other trace is that timer;
    whenever the timer fires, from whatever thread and after whatever
    happened to the rest of the world, the coroutine makes its turn in the
    state [k], once, and gives control back to the one that woke it up.  Outside
    a coroutine the call reports an error and comes back at once. *)
Theorem flb_time_sleep_wakes sched ms j k w coro c ret v :
  sched_ok sched → coro ≠ NULL →
  w_coros w !! coro = Some c → w_threads w !! co_callee c = Some (CT_callback j) →
  ol_cb_resume lib j = flb_time_sleep ms k →
  flb_sched_timer_cb_create sched FLB_SCHED_TIMER_CB_ONESHOT ms coro (inside w coro c) = Some (ret, v) →
  (if decide (ret = -1) then
     output_run lib (CT_callback j) (inside w coro c) = output_run lib (CT_callback k) (inside w coro c)
   else
     ∃ w1, flb_coro_resume (output_run lib) coro w = Some (tt, w1) ∧
       w_trace w1 = w_trace w ++ [Ev_timer sched FLB_SCHED_TIMER_CB_ONESHOT ms coro] ∧
       w_threads w1 = <[co_callee c := CT_callback k]> (w_threads w) ∧ w_active w1 = w_active w ∧
       w_flushes w1 = w_flushes w ∧ w_store w1 = w_store w ∧ w_mem w1 = w_mem w ∧
       ∀ config w2 c2 st w3, w_coros w2 !! coro = Some c2 → co_callee c2 = co_callee c →
         w_threads w2 !! co_callee c = w_threads w1 !! co_callee c →
         output_run lib (CT_callback k) (inside w2 coro c2) = Some ((st, w_active w2), w3) →
         flb_time_thread_wakeup config coro w2 =
           Some (tt, set_active (w_active w2) (set_threads (<[co_callee c := st]> (w_threads w3)) w3))) ∧
  ∀ u, w_current u = NULL → flb_time_sleep ms k u = ol_cb_resume lib k (set_trace (w_trace u ++ [Ev_error]) u).
Proof.
  intros Hs Hn Hc Hth Hj Ecr. split.
  2:{ intros u Hu. unfold flb_time_sleep, flb_coro_get. rewrite bind_gets, Hu, decide_True by done. by rewrite bind_emit. }
  pose proof (sleep_turn sched ms k w coro c ret v Hs Hn Hc Ecr) as E. rewrite <- Hj in E.
  change (r ← ol_cb_resume lib j; callback_turn lib r) with (output_run lib (CT_callback j)) in E.
  case_decide as Hr; [exact E|].
  eexists. split; [exact (flb_coro_resume_run w coro c _ _ _ _ Hc Hth E)|].
  do 6 (split; [done|]). simpl. intros config w2 c2 st w3 Hc2 Ecal Hth2 Hrun.
  rewrite lookup_insert_eq in Hth2. unfold flb_time_thread_wakeup. rewrite <- Ecal in Hth2 |- *.
  by apply (flb_coro_resume_run w2 coro c2 (CT_callback k)).
Qed.
End sleep.

(** ** The theorem at work: a flush that sleeps for a second, then is done. *)

Definition demo_sched_create (sched : ptr) (type ms : Z) (data : ptr) : M Z :=
  emit (Ev_timer sched type ms data);; mret 0.

(** The library of [OutputSpec] with another plugin. *)
Definition with_plugin (cb_resume : Z → M cb_result) : output_lib := {|
  ol_co := malloc_libco; ol_flush_id_get := ol_flush_id_get demo_lib;
  ol_processor_is_active := ol_processor_is_active demo_lib; ol_processor_run_logs := ol_processor_run_logs demo_lib;
  ol_mp_count := ol_mp_count demo_lib; ol_metrics := demo_telemetry; ol_traces := demo_telemetry;
  ol_event_chunk_create := ol_event_chunk_create demo_lib; ol_event_chunk_destroy := ol_event_chunk_destroy demo_lib;
  ol_thread_instance_get := 6656; ol_pipe_w := ol_pipe_w demo_lib;
  ol_flush_prepare_destroy := ol_flush_prepare_destroy demo_lib;
  ol_cb_flush := λ _, mret (CB_suspend 1);
  ol_cb_resume := cb_resume;
  ol_config_map_set := ol_config_map_set demo_lib;
  ol_thread_pool_coros_size := ol_thread_pool_coros_size demo_lib
|}.

(** In state 1 it sleeps, in any other it is done. *)
Definition demo_plugin (j : Z) : M cb_result :=
  if decide (j = 1) then
    flb_time_sleep (with_plugin (λ _, mret (CB_return FLB_OK))) (mret 900) demo_sched_create 1000 2
  else mret (CB_return FLB_OK).

Definition demo_sleeper : output_lib := with_plugin demo_plugin.

(** The callback of the flush at 16384 has run up to state 1. *)
Definition demo_awake : world :=
  set_threads (<[16528 := CT_callback 1]> (w_threads demo_started)) demo_started.

Lemma demo_sched_ok : sched_ok (mret 900) demo_sched_create 900.
Proof. split; [done|done|]. intros. right. by exists 0. Qed.

Lemma flb_time_sleep_wakes_witness :
  ∃ w1, flb_coro_resume (output_run demo_sleeper) 16480 demo_awake = Some (tt, w1) ∧
    w_trace w1 = w_trace demo_awake ++ [Ev_timer 900 FLB_SCHED_TIMER_CB_ONESHOT 1000 16480] ∧
    w_threads w1 !! 16528 = Some (CT_callback 2).
Proof.
  destruct (flb_time_sleep_wakes demo_sleeper (mret 900) demo_sched_create 900 1000 1 2 demo_awake 16480 demo_coro 0
    (set_trace (w_trace demo_awake ++ [Ev_timer 900 FLB_SCHED_TIMER_CB_ONESHOT 1000 16480]) (inside demo_awake 16480 demo_coro))
    demo_sched_ok ltac:(discriminate) ltac:(vm_compute; reflexivity) ltac:(vm_compute; reflexivity)
    ltac:(reflexivity) ltac:(reflexivity)) as [(w1 & E & Ht & Hth & _) _].
  exists w1. split; [exact E|]. split; [exact Ht|]. rewrite Hth. apply lookup_insert_eq.
Defined.
