(* ===== verification/Engine.v ===== *)
(** The engine: any number of flushes, over any interleaving of creations,
    resumptions, dropped routes and destructions.

    The concrete machine is the world of [Runtime] with the operations of
    [Output]; the abstract one knows of each flush only in which phase it is,
    of each list of flushes which are under way and which are done, and what
    has been reported to the engine, in order. *)
From S2P Require Import Prelude MkList MkListSpec Mem MkEvent Codes Task Bytes Structs Runtime RuntimeSpec Output OutputSpec Logs Telemetry TelemetryLife Queues.

(** * The abstract machine *)

Inductive phase :=
| Unstarted                                (** its parameters could not be allocated *)
| Ready (params : flb_out_flush_params)    (** at its first switch *)
| Waiting (k : Z)                          (** inside its callback *)
| Finished.                                (** it has reported *)

#[export] Instance phase_finished_dec ph : Decision (ph = Finished).
Proof. destruct ph; first [by left|by right]. Defined.

(** A flush, with the blocks of the chunk its processors have left, if any. *)
Record aflush := AFlush {
  af_rec : flb_output_flush;
  af_callee : ptr;
  af_phase : phase;
  af_blocks : gset Z
}.

(** A report: which flush, of which task to which output, with which result,
    and what the write of its message has returned. *)
Record completion := Completion {
  cm_flush : ptr;
  cm_task : ptr;
  cm_out : ptr;
  cm_ret : Z;
  cm_sent : Z
}.

(** The flushes of an output are kept by the output, or by the worker thread
    that runs. *)
Definition keeper := option ptr.

Record astate := AState {
  as_flushes : gmap Z aflush;
  as_queue : gmap keeper (list ptr);       (** under way, in order of creation *)
  as_done : gmap keeper (list ptr);        (** in order of completion *)
  as_routes : gmap Z (list (ptr * flb_task_route));
  as_log : list completion                 (** what was reported *)
}.

Definition finished (a : aflush) : Prop := af_phase a = Finished.

Definition set_phase (ph : phase) (a : aflush) : aflush := AFlush (af_rec a) (af_callee a) ph (af_blocks a).

(** A flush that reports gives back the chunk of its own. *)
Definition close (a : aflush) : aflush := AFlush (set_processed NULL (af_rec a)) (af_callee a) Finished ∅.

Section abstract.
(** Who keeps the flushes of an output, and what the plugins may do: when their
    callback starts with some parameters and when it goes on from some state. *)
Context (own : ptr → keeper).
Context (starts : flb_out_flush_params → cb_result → Prop) (goes_on : Z → cb_result → Prop).

Definition af_own (a : aflush) : keeper := own (of_o_ins (af_rec a)).

Definition a_create (r : ptr) (a : aflush) (A : astate) : astate :=
  AState (<[r := a]> (as_flushes A)) (enqueue (af_own a) r (as_queue A)) (as_done A) (as_routes A) (as_log A).

Definition a_routes (task : ptr) (rs : list (ptr * flb_task_route)) (A : astate) : astate :=
  AState (as_flushes A) (as_queue A) (as_done A) (<[task := rs]> (as_routes A)) (as_log A).

Definition a_status (task o_ins : ptr) (st : Z) (A : astate) : astate :=
  a_routes task (update_route o_ins st (as_routes A !!! task)) A.

Definition a_wait (r : ptr) (a : aflush) (k : Z) (A : astate) : astate :=
  AState (<[r := set_phase (Waiting k) a]> (as_flushes A)) (as_queue A) (as_done A) (as_routes A) (as_log A).

(** A flush that reports goes from one list to the other. *)
Definition a_finish (r : ptr) (a : aflush) (x n : Z) (A : astate) : astate :=
  AState (<[r := close a]> (as_flushes A))
    (dequeue (af_own a) r (as_queue A)) (enqueue (af_own a) r (as_done A)) (as_routes A)
    (as_log A ++ [Completion r (of_task (af_rec a)) (of_o_ins (af_rec a)) x n]).

Definition a_destroy (r : ptr) (a : aflush) (A : astate) : astate :=
  AState (delete r (as_flushes A)) (as_queue A) (dequeue (af_own a) r (as_done A)) (as_routes A) (as_log A).

Definition a_dropped (a : aflush) (A : astate) : Prop :=
  route_status (of_o_ins (af_rec a)) (as_routes A !!! of_task (af_rec a)) = FLB_TASK_ROUTE_DROPPED.

(** The status of the route of a flush. *)
Definition a_route (a : aflush) (st : Z) (A : astate) : astate :=
  a_status (of_task (af_rec a)) (of_o_ins (af_rec a)) st A.

(** Its steps.  A flush that was dropped before it started goes from [Ready] to
    [Finished] without its callback and reports an error; a callback starts
    once, then waits any number of times, and what it returns is reported.  The
    write of the message of a report may return anything. *)
Inductive astep (A : astate) : astate → Prop :=
| astep_fail : astep A A
| astep_create r a : as_flushes A !! r = None → r ∉ cm_flush <$> as_log A →
    (af_phase a = Unstarted ∨ ∃ params, af_phase a = Ready params) → astep A (a_create r a A)
| astep_dropped r a params n : as_flushes A !! r = Some a → af_phase a = Ready params → a_dropped a A →
    astep A (a_finish r a FLB_ERROR n (a_route a FLB_TASK_ROUTE_INACTIVE A))
| astep_start_wait r a params k : as_flushes A !! r = Some a → af_phase a = Ready params → ¬ a_dropped a A →
    starts params (CB_suspend k) → astep A (a_wait r a k (a_route a FLB_TASK_ROUTE_ACTIVE A))
| astep_start_finish r a params x n : as_flushes A !! r = Some a → af_phase a = Ready params → ¬ a_dropped a A →
    starts params (CB_return x) → astep A (a_finish r a x n (a_route a FLB_TASK_ROUTE_INACTIVE A))
| astep_wait r a k k' : as_flushes A !! r = Some a → af_phase a = Waiting k →
    goes_on k (CB_suspend k') → astep A (a_wait r a k' A)
| astep_finish r a k x n : as_flushes A !! r = Some a → af_phase a = Waiting k →
    goes_on k (CB_return x) → astep A (a_finish r a x n (a_route a FLB_TASK_ROUTE_INACTIVE A))
| astep_drop task o_ins : astep A (a_status task o_ins FLB_TASK_ROUTE_DROPPED A)
| astep_destroy r a : as_flushes A !! r = Some a → af_phase a = Finished → astep A (a_destroy r a A).

(** ** Its invariant *)

(** Flushes report once; those that are known have reported, for their task and
    output, exactly when they are finished. *)
Record log_ok (A : astate) : Prop := {
  lo_once : NoDup (cm_flush <$> as_log A);
  lo_done r a : as_flushes A !! r = Some a → af_phase a = Finished →
    ∃ x n, Completion r (of_task (af_rec a)) (of_o_ins (af_rec a)) x n ∈ as_log A;
  lo_open r a : as_flushes A !! r = Some a → af_phase a ≠ Finished → r ∉ cm_flush <$> as_log A
}.

(** What a flush may report: what its plugin returns, or the error of a route
    that was dropped. *)
Definition genuine (c : completion) : Prop :=
  cm_ret c = FLB_ERROR ∨ (∃ params, starts params (CB_return (cm_ret c))) ∨
  ∃ k, goes_on k (CB_return (cm_ret c)).
End abstract.

(** * The objects of the engine *)

(** The thread of the engine; the blocks and the objects that exist before any
    flush, and the address below which they lie; the blocks of a chunk made
    for processed records. *)
Class plant := Plant {
  engine : Z;
  base : Z;
  owned : gmap Z (list (option Z));
  outs : gmap Z flb_output_instance;
  workers : gmap Z flb_out_thread_instance;
  configs : gmap Z flb_config;
  chunks : gmap Z flb_event_chunk;
  tasks : gmap Z flb_task;
  chunk_blocks : ptr → gset Z
}.

Section engine.
Context `{plant} (lib : output_lib).

(** * The concrete machine *)

(** Where the coroutine of a flush is. *)
Definition coroutine_at (w : world) (r : ptr) (f : flb_output_flush) (c : flb_coro) (st : cothread) : Prop :=
  w_flushes w !! r = Some f ∧ w_coros w !! of_coro f = Some c ∧ w_threads w !! co_callee c = Some st.

(** The coroutine can be resumed: it waits at its first switch or in its
    callback. *)
Definition resumable (st : cothread) : Prop :=
  match st with CT_output_ready _ | CT_callback _ => True | _ => False end.

Inductive engine_step (w : world) : world → Prop :=
| engine_create task i_ins o_ins config r w' :
    is_Some (tasks !! task) → is_Some (outs !! o_ins) → is_Some (configs !! config) →
    flb_output_flush_create lib task i_ins o_ins config w = Some (r, w') → engine_step w w'
| engine_resume r f c st w' :
    coroutine_at w r f c st → resumable st →
    flb_coro_resume (output_run lib) (of_coro f) w = Some (tt, w') → engine_step w w'
| engine_drop task o_ins s :
    is_Some (tasks !! task) → flb_task_drop_route task o_ins (w_store w) = Some s →
    engine_step w (set_store s w)
| engine_destroy r f c w' :
    coroutine_at w r f c CT_returned →
    flb_output_flush_destroy lib r w = Some (tt, w') → engine_step w w'.

(** The coroutine resumed a number of times. *)
Fixpoint resume_times (n : nat) (coro : ptr) (w : world) : option world :=
  match n with
  | O => Some w
  | S n => '(_, w) ← flb_coro_resume (output_run lib) coro w; resume_times n coro w
  end.

(** * What is assumed *)

(** The lists: of an output or of the worker thread, the flushes under way and
    those that are done; of a task, its routes. *)
Inductive lkind := KQueue (q : keeper) | KDone (q : keeper) | KRoutes (task : ptr).

#[export] Instance lkind_eq_dec : EqDecision lkind.
Proof. solve_decision. Defined.

(** The worker thread that runs. *)
Definition worker : flb_out_thread_instance :=
  default flb_out_thread_instance_zero (workers !! ol_thread_instance_get lib).

Definition threaded (o_ins : ptr) : Prop := oi_is_threaded <$> outs !! o_ins = Some FLB_TRUE.

#[local] Instance threaded_dec o_ins : Decision (threaded o_ins).
Proof. unfold threaded. apply _. Defined.

Definition own (o_ins : ptr) : keeper := if decide (threaded o_ins) then None else Some o_ins.

(** The list that [of_worker] or [of_out] tells of a keeper. *)
Definition keeper_list (of_worker : flb_out_thread_instance → ptr) (of_out : flb_output_instance → ptr)
    (q : keeper) : option ptr :=
  match q with
  | None => of_worker <$> workers !! ol_thread_instance_get lib
  | Some o_ins => if decide (threaded o_ins) then None else of_out <$> outs !! o_ins
  end.

Definition head_of (k : lkind) : option ptr :=
  match k with
  | KQueue q => keeper_list ti_flush_list oi_flush_list q
  | KDone q => keeper_list ti_flush_list_destroy oi_flush_list_destroy q
  | KRoutes task => _ ← tasks !! task; Some (task + tk_routes_off)
  end.

Definition node (r : ptr) : ptr := r + of_head_off.

Definition content (A : astate) (k : lkind) : list ptr :=
  match k with
  | KQueue q => node <$> (as_queue A !!! q)
  | KDone q => node <$> (as_done A !!! q)
  | KRoutes task => (λ r, r.1 + tr_head_off) <$> (as_routes A !!! task)
  end.

(** An event about the start of a callback, or about a report. *)
Definition is_call (r : ptr) (e : event) : bool :=
  match e with Ev_callback params => bool_decide (fp_out_flush params = r) | _ => false end.
Definition is_report (r : ptr) (e : event) : bool :=
  match e with Ev_flush_prepare_destroy x => bool_decide (x = r) | _ => false end.

Definition calls (w : world) (r : ptr) : nat := tally (is_call r) (w_trace w).
Definition reports (w : world) (r : ptr) : nat := tally (is_report r) (w_trace w).

(** The pipes on which flushes report, and the writes to them. *)
Definition engine_fds : list Z := (λ x, return_fd x.2 worker) <$> map_to_list outs.

Definition is_message (e : event) : bool :=
  match e with Ev_pipe fd _ _ => bool_decide (fd ∈ engine_fds) | _ => false end.

Definition messages_of (evs : list event) : list event := filter (λ e, is_message e = true) evs.
Definition messages (w : world) : list event := messages_of (w_trace w).

(** The write of the message of a report. *)
Definition message (e : event) (c : completion) : Prop :=
  ∃ t o, tasks !! cm_task c = Some t ∧ outs !! cm_out c = Some o ∧
    e = Ev_pipe (return_fd o worker) (return_val (cm_ret c) t o) (cm_sent c) ∧
    ∃ tr, cm_sent c = ol_pipe_w lib tr (return_fd o worker) (return_val (cm_ret c) t o).

(** It has reached the pipe whole. *)
Definition arrived (e : event) : Prop :=
  match e with Ev_pipe _ _ n => n = 8 | _ => False end.

#[export] Instance arrived_dec e : Decision (arrived e).
Proof. destruct e; apply _. Defined.

(** What the engine can read. *)
Definition received (w : world) : list event := filter arrived (messages w).

(** Events that a plugin may cause by itself: it does not write to these
    pipes. *)
Definition quiet (evs : list event) : Prop :=
  Forall (λ e, (∀ r, is_call r e = false ∧ is_report r e = false) ∧ is_message e = false) evs.

(** What the plugins may do. *)
Definition starts (params : flb_out_flush_params) (res : cb_result) : Prop :=
  ∃ v v', ol_cb_flush lib params v = Some (res, v').
Definition goes_on (k : Z) (res : cb_result) : Prop :=
  ∃ v v', ol_cb_resume lib k v = Some (res, v').

(** A plugin does what it likes with its own data and leaves the objects of
    the engine alone. *)
Definition well_behaved (cb : M cb_result) : Prop :=
  ∀ v, ∃ res evs, cb v = Some (res, set_trace (w_trace v ++ evs) v) ∧ quiet evs.

(** A processor that does not leave the records it accepts where they are. *)
Definition copies (processor : ptr) : Prop :=
  ∀ tag tag_len data size m ret p_buf p_size m', mem_wf m → is_Some (mm_blocks m !! data) →
    ol_processor_run_logs lib processor tag tag_len data size m = Some ((ret, p_buf, p_size), m') →
    ret ≠ -1 → p_size ≠ 0 → p_buf ≠ data.

(** The metrics or traces of a chunk can be read from memory, and what the
    processor accepts of them stays in the range of [size_t]. *)
Definition telemetry_fits (tl : telemetry) (processor : ptr) (evc : flb_event_chunk) (tag_len : Z) (m : mem) : Prop :=
  ∃ enc data, telemetry_ok tl enc ∧ mem_load (ec_data evc) 0 (ec_size evc) m = Some data ∧ 0 ≤ ec_size evc ∧
    ec_size evc * 2 + Z.of_nat (length (serialized tl enc evc processor tag_len (all_contexts tl evc data))) < 2 ^ 63.

Record setting : Prop := {
  st_out o_ins o : outs !! o_ins = Some o →
    ol_processor_is_active lib (oi_processor o) = 0 ∨ logs_ok lib chunk_blocks ∧ copies (oi_processor o);
  st_telemetry o_ins o task t evc tag_len tl : outs !! o_ins = Some o → ol_processor_is_active lib (oi_processor o) ≠ 0 →
    tasks !! task = Some t → chunks !! tk_event_chunk t = Some evc → telemetry_kind lib evc tl →
    flb_sds_len (ec_tag evc - FLB_SDS_HEADER_SIZE, FLB_SDS_HEADER_SIZE) (Mem owned base []) = Some tag_len →
    telemetry_fits tl (oi_processor o) evc tag_len (Mem owned base []);
  st_worker o_ins : threaded o_ins →
    is_Some (workers !! ol_thread_instance_get lib) ∧ ti_flush_mutex worker = false;
  st_task task t : tasks !! task = Some t → tk_locked t = false ∧
    ∃ evc tag_len, chunks !! tk_event_chunk t = Some evc ∧ is_Some (owned !! ec_data evc) ∧
      flb_sds_len (ec_tag evc - FLB_SDS_HEADER_SIZE, FLB_SDS_HEADER_SIZE) (Mem owned base []) = Some tag_len;
  st_heads k k' a : head_of k = Some a → head_of k' = Some a → k = k';
  st_below : engine < base ∧ (∀ k a, head_of k = Some a → a < base) ∧
    (∀ p, base ≤ p → chunks !! p = None) ∧ (∀ p, is_Some (owned !! p) → p < base);
  st_flush params : well_behaved (ol_cb_flush lib params);
  st_resume k : well_behaved (ol_cb_resume lib k);
  (** what is documented of [flb_output_flush_prepare_destroy] *)
  st_prepare r o_ins o h l1 l2 dl : outs !! o_ins = Some o →
    dll h (live_list worker o) (l1 ++ node r :: l2) → dll h (done_list worker o) dl →
    (∀ y, y ∈ done_list worker o :: dl → y ∉ live_list worker o :: l1 ++ node r :: l2) →
    ∃ h', ol_flush_prepare_destroy lib r h = Some h' ∧
      dll h' (live_list worker o) (l1 ++ l2) ∧ dll h' (done_list worker o) (dl ++ [node r]) ∧
      agree_outside ((live_list worker o :: l1 ++ node r :: l2) ++ done_list worker o :: dl) h h'
}.

(** * The relation between the two *)

Definition thread_of (ph : phase) : cothread :=
  match ph with
  | Unstarted => CT_output_start
  | Ready params => CT_output_ready params
  | Waiting k => CT_callback k
  | Finished => CT_returned
  end.

(** The blocks of a flush: its context, its coroutine, its stack, its chunk. *)
Definition parts (r : ptr) (a : aflush) : list ptr :=
  r :: of_coro (af_rec a) :: af_callee a :: elements (af_blocks a).

(** The chunk of its own, if it has one: the object, which takes some blocks,
    and the records, in a block where nothing else lies. *)
Definition processed (a : aflush) : ptr := of_processed_event_chunk (af_rec a).

Record carries (w : world) (a : aflush) (pc : flb_event_chunk) : Prop := {
  ca_chunk : w_chunks w !! processed a = Some pc;
  ca_own : processed a ∈ chunk_blocks (processed a) ∧ ec_data pc ∉ chunk_blocks (processed a);
  ca_blocks : af_blocks a = {[ ec_data pc ]} ∪ chunk_blocks (processed a);
  ca_vacant : vacant (ec_data pc) w;
  ca_logs : logs_ok lib chunk_blocks
}.

Definition chunk_ok (w : world) (a : aflush) : Prop :=
  processed a = NULL ∧ af_blocks a = ∅ ∨
  processed a ≠ NULL ∧ af_phase a ≠ Finished ∧ ∃ pc, carries w a pc.

(** How often the callback of a flush has started and the flush has reported. *)
Definition counts (ph : phase) (c d : nat) : Prop :=
  match ph with
  | Unstarted | Ready _ => c = O ∧ d = O
  | Waiting _ => c = 1%nat ∧ d = O
  | Finished => (c ≤ 1)%nat ∧ d = 1%nat
  end.

Record flush_ok (w : world) (r : ptr) (a : aflush) : Prop := {
  fo_rec : w_flushes w !! r = Some (af_rec a);
  fo_chunk : chunk_ok w a;
  fo_coro : ∃ caller, w_coros w !! of_coro (af_rec a) = Some (Coro caller (af_callee a) r);
  fo_thread : w_threads w !! af_callee a = Some (thread_of (af_phase a));
  fo_params params : af_phase a = Ready params → fp_out_flush params = r ∧
    ∃ t, tasks !! of_task (af_rec a) = Some t ∧ fp_event_chunk params = flush_chunk (af_rec a) t;
  fo_out : is_Some (outs !! of_o_ins (af_rec a));
  fo_task : is_Some (tasks !! of_task (af_rec a));
  fo_block : ∃ b, mm_blocks (w_mem w) !! r = Some b ∧ length b = Z.to_nat sizeof_flb_output_flush;
  fo_nodup : NoDup [r; of_coro (af_rec a); af_callee a; NULL];
  fo_apart p : p ∈ af_blocks a → p ∉ [r; of_coro (af_rec a); af_callee a; NULL];
  fo_parts p : p ∈ parts r a → base ≤ p ∧ p ≠ w_out_key w;
  fo_counts : counts (af_phase a) (calls w r) (reports w r)
}.

(** The two lists of a keeper and the flushes. *)
Definition flush_queues_ok (A : astate) : Prop :=
  queues_ok (af_own own) finished (as_flushes A) (as_queue A) (as_done A).

(** The nodes of the routes are below the flushes and in no other list. *)
Definition routes_apart (A : astate) : Prop :=
  ∀ task x, x ∈ content A (KRoutes task) →
    x < base ∧ ∀ k a, head_of k = Some a → k ≠ KRoutes task →
      x ≠ a ∧ ∀ task', k = KRoutes task' → x ∉ content A k.

Record implements (w : world) (A : astate) : Prop := {
  im_fresh : fresh_above w ∧ base ≤ mm_brk (w_mem w) ∧ w_out_key w < mm_brk (w_mem w);
  im_active : w_active w = engine ∧ w_threads w !! engine = Some CT_native;
  im_static : w_outs w = outs ∧ w_configs w = configs ∧ ts_tasks (w_store w) = tasks ∧ w_out_threads w = workers;
  im_lists : lists_hold head_of (ts_list (w_store w)) (content A);
  im_routes task p x : (p, x) ∈ as_routes A !!! task →
    is_Some (tasks !! task) ∧ ts_routes (w_store w) !! p = Some x ∧ 0 ≤ tr_status x ≤ 2;
  im_routes_apart : routes_apart A;
  im_tasks task : is_Some (tasks !! task) → is_Some (as_routes A !! task);
  im_queues : flush_queues_ok A;
  im_flush r a : as_flushes A !! r = Some a → flush_ok w r a;
  im_none r : as_flushes A !! r = None → w_flushes w !! r = None;
  im_apart r r' a a' p : as_flushes A !! r = Some a → as_flushes A !! r' = Some a' →
    p ∈ parts r a → p ∈ parts r' a' → r = r';
  im_blocks p : is_Some (mm_blocks (w_mem w) !! p) ↔
    is_Some (owned !! p) ∨ p = w_out_key w ∧ p ≠ NULL ∨ ∃ r a, as_flushes A !! r = Some a ∧ p ∈ parts r a;
  im_owned : owned ⊆ mm_blocks (w_mem w);
  im_chunks : chunks ⊆ w_chunks w;
  im_own_chunks p : is_Some (w_chunks w !! p) →
    is_Some (chunks !! p) ∨ ∃ r a, as_flushes A !! r = Some a ∧ processed a = p ∧ p ≠ NULL;
  im_past r : as_flushes A !! r = None → (calls w r ≤ 1)%nat ∧ (reports w r ≤ 1)%nat;
  im_future r : mm_brk (w_mem w) ≤ r → calls w r = O ∧ reports w r = O;
  im_log : Forall2 message (messages w) (as_log A);
  im_logged c : c ∈ as_log A → cm_flush c < mm_brk (w_mem w)
}.
End engine.

Arguments im_fresh {_ _ _ _}.
Arguments im_active {_ _ _ _}.
Arguments im_static {_ _ _ _}.
Arguments im_lists {_ _ _ _}.
Arguments im_routes {_ _ _ _}.
Arguments im_routes_apart {_ _ _ _}.
Arguments im_tasks {_ _ _ _}.
Arguments im_queues {_ _ _ _}.
Arguments im_flush {_ _ _ _}.
Arguments im_none {_ _ _ _}.
Arguments im_apart {_ _ _ _}.
Arguments im_blocks {_ _ _ _}.
Arguments im_owned {_ _ _ _}.
Arguments im_chunks {_ _ _ _}.
Arguments im_own_chunks {_ _ _ _}.
Arguments im_past {_ _ _ _}.
Arguments im_future {_ _ _ _}.
Arguments im_log {_ _ _ _}.
Arguments im_logged {_ _ _ _}.
Arguments fo_rec {_ _ _ _ _}.
Arguments fo_chunk {_ _ _ _ _}.
Arguments fo_coro {_ _ _ _ _}.
Arguments fo_thread {_ _ _ _ _}.
Arguments fo_params {_ _ _ _ _}.
Arguments fo_out {_ _ _ _ _}.
Arguments fo_task {_ _ _ _ _}.
Arguments fo_block {_ _ _ _ _}.
Arguments fo_nodup {_ _ _ _ _}.
Arguments fo_apart {_ _ _ _ _}.
Arguments fo_parts {_ _ _ _ _}.
Arguments fo_counts {_ _ _ _ _}.
Arguments st_out {_ _}.
Arguments st_worker {_ _}.
Arguments st_task {_ _}.
Arguments st_heads {_ _}.
Arguments st_below {_ _}.
Arguments st_flush {_ _}.
Arguments st_resume {_ _}.
Arguments st_prepare {_ _}. Arguments st_telemetry {_ _}.
Arguments lo_once {_}.
Arguments lo_done {_}.
Arguments lo_open {_}.
Arguments ca_chunk {_ _ _ _ _}.
Arguments ca_own {_ _ _ _ _}.
Arguments ca_blocks {_ _ _ _ _}.
Arguments ca_vacant {_ _ _ _ _}.
Arguments ca_logs {_ _ _ _ _}.
