(* ===== verification/EngineSim.v ===== *)
(** The relation between the engine and its abstract machine, and the steps of
    a flush that exists: from related states, a turn of its coroutine and the
    dropping of its route have a result and follow a step of the abstract
    machine, and the states are related again. *)
From S2P Require Import Prelude MkList MkListSpec Mem MkEvent Codes Task Bytes Structs Runtime RuntimeSpec Output OutputSpec Logs Telemetry TelemetryLife Lifecycle Queues Engine.

(** * Lists of events *)

(** The events of a return report once, for the flush that returns. *)
Lemma return_tally lib tr x t o th r r' :
  tally (is_call r') (return_events lib tr x t o th r) = O ∧
  tally (is_report r') (return_events lib tr x t o th r) = (if decide (r = r') then 1 else 0)%nat.
Proof.
  unfold return_events, tally. case_decide as Hr; repeat case_decide; simpl;
    rewrite ?filter_cons, ?filter_nil; simpl; repeat (rewrite ?filter_cons, ?filter_nil; simpl);
    repeat case_decide; simpl; try done; rewrite ?bool_decide_eq_true in *; done.
Qed.

Lemma callback_tally params r :
  tally (is_call r) [Ev_callback params] = (if decide (fp_out_flush params = r) then 1 else 0)%nat ∧
  tally (is_report r) [Ev_callback params] = O.
Proof.
  unfold tally. rewrite !filter_cons, !filter_nil. simpl. repeat case_decide; try done;
    rewrite ?bool_decide_eq_true in *; done.
Qed.

Lemma node_inj r r' : node r = node r' → r = r'.
Proof. unfold node. lia. Qed.

Section spec.
Context `{P : plant} (lib : output_lib) (Hset : setting lib).

Abbreviation implements := (implements lib).
Abbreviation head_of := (head_of lib).
Abbreviation flush_ok := (flush_ok lib).
Abbreviation chunk_ok := (chunk_ok lib).
Abbreviation messages := (messages lib).
Abbreviation messages_of := (messages_of lib).
Abbreviation message := (message lib).
Abbreviation worker := (worker lib).
Abbreviation astep := (astep own (starts lib) (goes_on lib)).
Abbreviation a_create := (a_create own).
Abbreviation a_finish := (a_finish own).
Abbreviation a_destroy := (a_destroy own).

(** * Messages *)

Lemma messages_app evs evs' : messages_of (evs ++ evs') = messages_of evs ++ messages_of evs'.
Proof. unfold Engine.messages_of. by rewrite filter_app. Qed.

Lemma quiet_messages evs : quiet lib evs → messages_of evs = [].
Proof.
  unfold Engine.messages_of. induction 1 as [|e evs [_ He] _ IH]; [done|]. by rewrite filter_cons_False, IH by (by rewrite He).
Qed.

Lemma quiet_tally evs r : quiet lib evs → tally (is_call r) evs = O ∧ tally (is_report r) evs = O.
Proof. intros H. split; apply tally_none; eapply Forall_impl; try exact H; intros e [He _]; apply (He r). Qed.

Lemma errors_quiet evs : Forall (eq Ev_error) evs → quiet lib evs.
Proof. intros H. eapply Forall_impl; [exact H|]. by intros ? <-. Qed.

Lemma contexts_quiet evs : Forall context_event evs → quiet lib evs.
Proof. intros He. unfold quiet. eapply Forall_impl; [exact He|]. by intros []. Qed.

Lemma engine_fd o_ins o : outs !! o_ins = Some o → return_fd o worker ∈ engine_fds lib.
Proof.
  intros Ho. apply list_elem_of_fmap. exists (o_ins, o). split; [done|]. by apply elem_of_map_to_list.
Qed.

(** A return writes once to the engine. *)
Lemma return_message o_ins o tr x t r : outs !! o_ins = Some o →
  messages_of (return_events lib tr x t o worker r) =
  [Ev_pipe (return_fd o worker) (return_val x t o) (ol_pipe_w lib tr (return_fd o worker) (return_val x t o))].
Proof.
  intros Ho. unfold return_events, Engine.messages_of. rewrite filter_cons_True.
  - f_equal. rewrite filter_app. by case_decide.
  - simpl. rewrite bool_decide_true; [done|]. by eapply engine_fd.
Qed.

(** * What the relation gives *)

(** The list a flush is in. *)
Definition kind_of (a : aflush) : lkind :=
  match af_phase a with
  | Finished => KDone (af_own own a)
  | _ => KQueue (af_own own a)
  end.

Lemma flush_base w A r a : implements w A → as_flushes A !! r = Some a → base ≤ r.
Proof. intros HI Ha. apply (fo_parts (im_flush HI r a Ha) r). by left. Qed.

Lemma elem_of_parts r a p :
  p ∈ parts r a ↔ p = r ∨ p = of_coro (af_rec a) ∨ p = af_callee a ∨ p ∈ af_blocks a.
Proof. unfold parts. by rewrite !elem_of_cons, elem_of_elements. Qed.

Lemma parts_live w A r a p :
  implements w A → as_flushes A !! r = Some a → p ∈ parts r a →
  is_Some (mm_blocks (w_mem w) !! p) ∧ base ≤ p < mm_brk (w_mem w) ∧ p ≠ NULL.
Proof.
  intros HI Ha Hp. assert (is_Some (mm_blocks (w_mem w) !! p)) as Hs
    by (apply (im_blocks HI); right; right; by exists r, a).
  split; [exact Hs|]. destruct Hs as [b Hb].
  pose proof (fa_wf _ (proj1 (im_fresh HI))) as Hwf.
  pose proof (proj2 (proj1 Hwf) p b Hb). pose proof (mem_wf_not_null _ _ _ Hwf Hb).
  pose proof (proj1 (fo_parts (im_flush HI r a Ha) p Hp)). split; [lia|done].
Qed.

(** A node is one of a route, below the flushes, or the one of a flush. *)
Lemma in_content w A k x :
  implements w A → x ∈ content A k →
  (∃ task, k = KRoutes task ∧ x < base) ∨
  ∃ r a, x = node r ∧ as_flushes A !! r = Some a ∧ base ≤ r ∧ k = kind_of a.
Proof.
  intros HI Hx. destruct (im_queues HI) as [Hq Hd]. unfold finished in *.
  destruct k as [o|o|task]; [right|right|left]; simpl in Hx.
  - apply list_elem_of_fmap in Hx as (r & -> & (a & Ha & <- & Hph)%Hq). exists r, a.
    split; [done|]. split; [done|]. split; [by eapply flush_base|]. unfold kind_of. by destruct (af_phase a).
  - apply list_elem_of_fmap in Hx as (r & -> & (a & Ha & <- & Hph)%Hd). exists r, a.
    split; [done|]. split; [done|]. split; [by eapply flush_base|]. unfold kind_of. by rewrite Hph.
  - exists task. split; [done|]. by apply (im_routes_apart HI task).
Qed.

Lemma head_below k a : head_of k = Some a → a < base.
Proof. apply (st_below Hset). Qed.

Lemma head_not_node w A k k' a x :
  implements w A → head_of k = Some a → k ≠ k' → x ∈ content A k' → x ≠ a.
Proof.
  intros HI Hk Hne Hx. pose proof (head_below _ _ Hk).
  destruct (in_content _ _ _ _ HI Hx) as [(task & -> & _)|(r & f & -> & _ & Hr & _)].
  - by apply (proj2 (im_routes_apart HI task x Hx) k a Hk).
  - unfold node, of_head_off. lia.
Qed.

(** No two lists share a node. *)
Lemma lists_disjoint w A : implements w A → lists_apart head_of (content A).
Proof.
  intros HI k k' a a' x Hk Hk' Hne Hx Hx'. apply elem_of_cons in Hx as [->|Hx]; apply elem_of_cons in Hx' as [E|Hx'].
  - subst. by apply Hne, (st_heads Hset _ _ a').
  - by apply (head_not_node w A k k' a a HI).
  - by apply (head_not_node w A k' k a' x HI Hk' (not_eq_sym Hne) Hx).
  - destruct (in_content _ _ _ _ HI Hx) as [(t1 & -> & H1)|(r1 & f1 & -> & E1 & B1 & ->)].
    + destruct (proj2 (im_routes_apart HI t1 x Hx) k' a' Hk' (not_eq_sym Hne)) as [_ Hno].
      destruct (in_content _ _ _ _ HI Hx') as [(t2 & -> & _)|(r2 & f2 & -> & _ & B2 & _)];
        [by eapply Hno|unfold node, of_head_off in H1; lia].
    + destruct (in_content _ _ _ _ HI Hx') as [(t2 & -> & H2)|(r2 & f2 & E%node_inj & E2 & _ & ->)];
        [unfold node, of_head_off in H2; lia|]. subst. congruence.
Qed.

Lemma list_below w A k a x : implements w A → head_of k = Some a → x ∈ a :: content A k → x < mm_brk (w_mem w).
Proof.
  intros HI Hk Hx. exact (dll_below w _ _ _ (proj1 (im_fresh HI)) (im_lists HI k a Hk) Hx).
Qed.

Lemma task_head task : is_Some (tasks !! task) → head_of (KRoutes task) = Some (task + tk_routes_off).
Proof. intros [t Ht]. simpl. by rewrite Ht. Qed.

Lemma threaded_out o_ins o : outs !! o_ins = Some o → threaded o_ins ↔ oi_is_threaded o = FLB_TRUE.
Proof. intros Ho. unfold threaded. rewrite Ho. simpl. split; [by intros [= ?]|by intros ->]. Qed.

Lemma worker_thread o_ins o : outs !! o_ins = Some o → oi_is_threaded o = FLB_TRUE →
  workers !! ol_thread_instance_get lib = Some worker ∧ ti_flush_mutex worker = false.
Proof.
  intros Ho Ht. destruct (st_worker Hset o_ins) as [[th Hth] Hm]; [by apply (threaded_out _ o)|].
  split; [|exact Hm]. unfold Engine.worker. by rewrite Hth.
Qed.

Lemma queue_head o_ins o : outs !! o_ins = Some o →
  head_of (KQueue (own o_ins)) = Some (live_list worker o) ∧ head_of (KDone (own o_ins)) = Some (done_list worker o).
Proof.
  intros Ho. pose proof (threaded_out o_ins o Ho) as Ht. unfold live_list, done_list, own, Engine.head_of, keeper_list.
  destruct (decide (threaded o_ins)) as [H|H].
  - destruct (worker_thread o_ins o Ho (proj1 Ht H)) as [-> _]. by rewrite !decide_True by (by apply Ht).
  - rewrite !decide_False, Ho by (try done; intros E; by apply H, Ht). done.
Qed.

Lemma route_list w A task :
  implements w A → is_Some (tasks !! task) → routes_ok (w_store w) task (as_routes A !!! task).
Proof.
  intros HI Ht. split; [by apply (im_lists HI (KRoutes task)), task_head|].
  intros p x Hin. by apply (im_routes HI task p x Hin).
Qed.

Lemma status_range w A task o_ins :
  implements w A → 0 ≤ route_status o_ins (as_routes A !!! task) ≤ 2.
Proof.
  intros HI. assert (H : ∀ p x, (p, x) ∈ as_routes A !!! task → 0 ≤ tr_status x ≤ 2)
    by (intros p x Hin; by apply (im_routes HI task p x Hin)).
  induction (as_routes A !!! task) as [|[p x] rs IH]; simpl; [unfold FLB_TASK_ROUTE_INACTIVE; lia|].
  case_decide; [apply (H p x); by left|]. apply IH. intros p' x' Hin. apply (H p' x'). by right.
Qed.

(** The nodes of the lists lie outside the blocks of another flush. *)
Lemma node_apart w A r a k b x p :
  implements w A → as_flushes A !! r = Some a → head_of k = Some b → x ∈ b :: content A k → (p = r → x ≠ node r) →
  p ∈ parts r a → x < p ∨ p + block_size p (w_mem w) ≤ x.
Proof.
  intros HI Ha Hk Hx Hne Hp. destruct (parts_live w A r a p HI Ha Hp) as ([bp Hbp] & [Hb _] & _).
  apply elem_of_cons in Hx as [->|Hx]; [left; pose proof (head_below _ _ Hk); lia|].
  destruct (in_content _ _ _ _ HI Hx) as [(task & -> & Hb')|(r' & a' & -> & Ha' & _ & _)]; [left; lia|].
  destruct (fo_block (im_flush HI r' a' Ha')) as (br & Hbr & Hlen).
  assert (r' ≠ p) as Hrp.
  { intros ->. assert (p = r) as -> by (apply (im_apart HI p r a' a p Ha' Ha); [by left|done]). by apply Hne. }
  pose proof (proj2 (fa_wf _ (proj1 (im_fresh HI))) r' p br bp Hrp Hbr Hbp) as Hd.
  unfold block_size, node, of_head_off. rewrite Hbp. rewrite Hlen in Hd.
  unfold sizeof_flb_output_flush in Hd. simpl. lia.
Qed.

(** The blocks of a chunk are not the other parts of any flush. *)
Lemma blocks_apart w A r a r' a' p :
  implements w A → as_flushes A !! r = Some a → as_flushes A !! r' = Some a' → p ∈ af_blocks a' →
  p ≠ r ∧ p ≠ of_coro (af_rec a) ∧ p ≠ af_callee a.
Proof using.
  clear Hset. intros HI Ha Ha' Hin. assert (Hp : p ∈ parts r' a') by (apply elem_of_parts; tauto).
  assert (H : ∀ q, q ∈ [r; of_coro (af_rec a); af_callee a] → p ≠ q).
  { intros q Hq ->. assert (Hqr : q ∈ parts r a) by (apply elem_of_parts; set_solver).
    pose proof (im_apart HI r' r a' a q Ha' Ha Hp Hqr). simplify_eq. apply (fo_apart (im_flush HI r a Ha) q Hin). set_solver. }
  split_and!; apply H; set_solver.
Qed.

(** Two states of the lists that differ only where there are nodes. *)
Definition untouched (A : astate) (h h' : lheap) : Prop :=
  ∀ p, (∀ k b, head_of k = Some b → p ∉ b :: content A k) →
    lh_next h' !! p = lh_next h !! p ∧ lh_prev h' !! p = lh_prev h !! p.

Lemma untouched_above w A h p :
  implements w A → untouched A (ts_list (w_store w)) h → mm_brk (w_mem w) ≤ p →
  lh_next h !! p = None ∧ lh_prev h !! p = None.
Proof.
  intros HI Hun Hp. destruct (Hun p) as [-> ->].
  - intros k b Hk Hin. pose proof (list_below w A k b p HI Hk Hin). lia.
  - split; by apply (im_fresh HI).
Qed.

(** * What survives a step *)

Lemma chunk_in w a : chunk_ok w a → processed a ≠ NULL → processed a ∈ af_blocks a.
Proof. intros [[? _]|(_ & _ & pc & Hc)] Hn; [done|]. rewrite (ca_blocks Hc), elem_of_union. right. apply (ca_own Hc). Qed.

Lemma chunk_ok_frame w w' a :
  chunk_ok w a → (processed a ≠ NULL → w_chunks w' !! processed a = w_chunks w !! processed a) →
  (∀ p, p ∈ af_blocks a → vacant p w → vacant p w') → chunk_ok w' a.
Proof using.
  clear Hset. intros [?|(Hn & Hph & pc & [Hc Ho Hb Hv Hl])] Hch Hva; [by left|right]. do 2 (split; [done|]). exists pc.
  split; try done; [by rewrite Hch|]. apply Hva; [|done]. rewrite Hb. set_solver.
Qed.

Lemma flush_ok_frame w w' r a :
  flush_ok w r a → w_flushes w' !! r = w_flushes w !! r →
  w_coros w' !! of_coro (af_rec a) = w_coros w !! of_coro (af_rec a) →
  w_threads w' !! af_callee a = w_threads w !! af_callee a →
  mm_blocks (w_mem w') !! r = mm_blocks (w_mem w) !! r →
  (∀ p, p ∈ parts r a → p ≠ w_out_key w') →
  calls w' r = calls w r → reports w' r = reports w r → chunk_ok w' a → flush_ok w' r a.
Proof.
  intros [] Ef Ec Et Em Hk Eca Ere Hck. split; rewrite ?Ef, ?Ec, ?Et, ?Em, ?Eca, ?Ere; try done.
  intros p Hp. split; [by apply fo_parts|by apply Hk].
Qed.

Lemma content_routes A A' task : fst <$> as_routes A' !!! task = fst <$> as_routes A !!! task →
  content A' (KRoutes task) = content A (KRoutes task).
Proof.
  intros E. assert (H : ∀ rs : list (ptr * flb_task_route),
    (λ r, r.1 + tr_head_off) <$> rs = (λ p, p + tr_head_off) <$> (fst <$> rs)) by (intros; by rewrite <- list_fmap_compose).
  simpl. by rewrite !H, E.
Qed.

Lemma routes_apart_same A A' :
  (∀ task, content A' (KRoutes task) = content A (KRoutes task)) →
  routes_apart lib A → routes_apart lib A'.
Proof.
  intros E H task x Hx. rewrite E in Hx. destruct (H task x Hx) as [Hb Hap]. split; [done|].
  intros k a Hk Hne. destruct (Hap k a Hk Hne) as [? Hno]. split; [done|].
  intros task' ->. rewrite E. by apply (Hno task').
Qed.

(** The routes of two tasks have different addresses. *)
Lemma other_route w A task task' p x :
  implements w A → is_Some (tasks !! task) → task' ≠ task → (p, x) ∈ as_routes A !!! task' →
  p ∉ fst <$> as_routes A !!! task.
Proof.
  intros HI Ht Hne Hin Hp. pose proof (proj1 (im_routes HI task' p x Hin)) as Ht'.
  assert (Hx : p + tr_head_off ∈ content A (KRoutes task')) by (simpl; apply list_elem_of_fmap; by exists (p, x)).
  destruct (proj2 (im_routes_apart HI task' _ Hx) _ _ (task_head task Ht)) as [_ Hno]; [congruence|].
  apply (Hno task eq_refl). simpl. apply list_elem_of_fmap in Hp as ([p' x'] & -> & Hin'). simpl.
  apply list_elem_of_fmap. by exists (p', x').
Qed.

Lemma update_route_in o st rs p x :
  (p, x) ∈ update_route o st rs → 0 ≤ st ≤ 2 → (∀ p x, (p, x) ∈ rs → 0 ≤ tr_status x ≤ 2) → 0 ≤ tr_status x ≤ 2.
Proof.
  intros Hin Hst Hrs. induction rs as [|[p' x'] rs IH]; simpl in *; [by apply not_elem_of_nil in Hin|].
  case_decide; apply elem_of_cons in Hin as [[= -> ->]|Hin]; simpl; try done.
  - apply (Hrs p x). by right.
  - apply (Hrs p' x'). by left.
  - apply IH; [done|]. intros p1 x1 H1. apply (Hrs p1 x1). by right.
Qed.

(** * A turn of a coroutine *)

(** The world inside the turn of a flush, compared to the one before it. *)
Record running (w v : world) (r : ptr) (a : aflush) (rs : list (ptr * flb_task_route)) (evs : list event) : Prop := {
  ru_threads : w_threads v = w_threads w;
  ru_coros : w_coros v = <[of_coro (af_rec a) := Coro (w_active w) (af_callee a) r]> (w_coros w);
  ru_flushes : w_flushes v = w_flushes w;
  ru_mem : w_mem v = w_mem w;
  ru_objects : same_objects w v;
  ru_chunks : w_chunks v = w_chunks w;
  ru_tasks : ts_tasks (w_store v) = ts_tasks (w_store w);
  ru_routes p x : (p, x) ∈ rs → ts_routes (w_store v) !! p = Some x;
  ru_other p : p ∉ fst <$> rs → ts_routes (w_store v) !! p = ts_routes (w_store w) !! p;
  ru_list : ts_list (w_store v) = ts_list (w_store w);
  ru_trace : w_trace v = w_trace w ++ evs;
  ru_current : w_current v = of_coro (af_rec a)
}.

(** What a flush is after a turn: it waits again, or it has reported. *)
Inductive after (a : aflush) : aflush → Prop :=
| after_waits k : after a (set_phase (Waiting k) a)
| after_reports : after a (close a).

(** The blocks that a turn gives back. *)
Definition gone (a b : aflush) : gset Z := af_blocks a ∖ af_blocks b.

Lemma after_same a b : after a b →
  af_callee b = af_callee a ∧ of_coro (af_rec b) = of_coro (af_rec a) ∧ of_task (af_rec b) = of_task (af_rec a) ∧
  of_o_ins (af_rec b) = of_o_ins (af_rec a) ∧ af_blocks b ⊆ af_blocks a ∧ ∀ params, af_phase b ≠ Ready params.
Proof. intros [k|]; simpl; split_and!; set_solver. Qed.

(** It keeps its chunk while it waits and has none when it has reported. *)
Lemma after_chunk a b : after a b →
  processed b = NULL ∧ af_blocks b = ∅ ∨ processed b = processed a ∧ af_blocks b = af_blocks a ∧ af_phase b ≠ Finished.
Proof. intros [k|]; [by right|by left]. Qed.

Lemma after_parts a b r p : after a b → p ∈ parts r b ↔ p ∈ parts r a ∧ p ∉ gone a b ∨ p = r ∨ p = of_coro (af_rec a) ∨ p = af_callee a.
Proof.
  intros Hab. destruct (after_same a b Hab) as (E1 & E2 & _ & _ & Hsub & _).
  rewrite !elem_of_parts, E1, E2. unfold gone. set_unfold. destruct (decide (p ∈ af_blocks b)); naive_solver.
Qed.

(** The world at the end of the turn of a flush, inside its coroutine. *)
Record turned (w v : world) (r : ptr) (a b : aflush) (rs : list (ptr * flb_task_route)) (h : lheap)
    (evs : list event) : Prop := {
  tu_threads : w_threads v = w_threads w;
  tu_coros : w_coros v = <[of_coro (af_rec a) := Coro (w_active w) (af_callee a) r]> (w_coros w);
  tu_flushes : w_flushes v = <[r := af_rec b]> (w_flushes w);
  tu_wf : mem_wf (w_mem v) ∧ mm_brk (w_mem v) = mm_brk (w_mem w);
  tu_mem p : mm_blocks (w_mem v) !! p = if decide (p ∈ gone a b) then None else mm_blocks (w_mem w) !! p;
  tu_objects : same_objects w v;
  tu_chunks p : w_chunks v !! p = if decide (p = processed a ∧ p ≠ processed b) then None else w_chunks w !! p;
  tu_tasks : ts_tasks (w_store v) = ts_tasks (w_store w);
  tu_routes p x : (p, x) ∈ rs → ts_routes (w_store v) !! p = Some x;
  tu_other p : p ∉ fst <$> rs → ts_routes (w_store v) !! p = ts_routes (w_store w) !! p;
  tu_list : ts_list (w_store v) = h;
  tu_trace : w_trace v = w_trace w ++ evs
}.

Definition came_back (w v : world) (callee : ptr) (st : cothread) : world :=
  set_active (w_active w) (set_threads (<[callee := st]> (w_threads v)) v).

(** The abstract state after a turn. *)
Definition a_turn (r : ptr) (b : aflush) (rs : list (ptr * flb_task_route))
    (Q D : gmap keeper (list ptr)) (L : list completion) (A : astate) : astate :=
  AState (<[r := b]> (as_flushes A)) Q D (<[of_task (af_rec b) := rs]> (as_routes A)) L.

(** What a turn adds to the log is what it writes to the engine. *)
Definition reports_as (r : ptr) (evs : list event) (L L' : list completion) : Prop :=
  ∃ new, L' = L ++ new ∧ Forall2 message (messages_of evs) new ∧ ∀ c, c ∈ new → cm_flush c = r.

Lemma reports_nothing r evs L : messages_of evs = [] → reports_as r evs L L.
Proof. intros E. exists []. rewrite E, app_nil_r. split_and!; [done|constructor|by intros c []%not_elem_of_nil]. Qed.

(** After a turn the routes of the task are those the turn left. *)
Lemma turn_routes A r a b rs Q D L task :
  after a b → fst <$> rs = fst <$> as_routes A !!! of_task (af_rec a) →
  content (a_turn r b rs Q D L A) (KRoutes task) = content A (KRoutes task).
Proof.
  intros Hab E. destruct (after_same a b Hab) as (_ & _ & Et & _). apply content_routes. simpl. rewrite Et.
  destruct (decide (task = of_task (af_rec a))) as [->|Hne].
  - by rewrite lookup_total_insert_eq.
  - by rewrite lookup_total_insert_ne.
Qed.

Section turn.
Context (w v : world) (A : astate) (r : ptr) (a b : aflush) (rs : list (ptr * flb_task_route)) (h : lheap) (evs : list event).
Context (HI : implements w A) (Ha : as_flushes A !! r = Some a) (Hab : after a b) (Htu : turned w v r a b rs h evs).
Context (Hun : untouched A (ts_list (w_store w)) h).

Abbreviation w' := (came_back w v (af_callee a) (thread_of (af_phase b))).

Lemma turn_fresh : fresh_above w'.
Proof using All.
  pose proof Htu as [Eth Eco Efl [Hwf Hbrk] _ (Eou & Ecf & Efp & Eic & Eip & Eok & _) Ech _ _ _ Eli _].
  destruct (im_fresh HI) as [[Fw Fc Ff Fch Ffp Fic Fip Ft Fn Fp] _].
  destruct (parts_live w A r a r HI Ha) as (_ & [_ Hr] & _); [by left|].
  destruct (parts_live w A r a (of_coro (af_rec a)) HI Ha) as (_ & [_ Hc] & _); [by right; left|].
  destruct (parts_live w A r a (af_callee a) HI Ha) as (_ & [_ Hcal] & _); [by right; right; left|].
  split; simpl; rewrite ?Eth, ?Eco, ?Efl, ?Hbrk, ?Efp, ?Eic, ?Eip, ?Eli; try done.
  - apply (insert_fresh _ _ _ _ _ Fc); lia.
  - apply (insert_fresh _ _ _ _ _ Ff); lia.
  - intros p Hp. rewrite Ech. case_decide; [done|by apply Fch].
  - apply (insert_fresh _ _ _ _ _ Ft); lia.
  - intros p Hp. by apply (untouched_above w A h p HI Hun).
  - intros p Hp. by apply (untouched_above w A h p HI Hun).
Qed.

(** What a turn gives back was a part of its flush. *)
Lemma gone_part p : p ∈ gone a b → p ∈ parts r a.
Proof using. unfold gone. rewrite elem_of_parts, elem_of_difference. tauto. Qed.

(** The other flushes, and what the turn leaves of this one. *)
Lemma turn_keeps r' a' p :
  as_flushes A !! r' = Some a' → p ∈ parts r' a' → (r' = r → p ∉ gone a b) →
  p ∉ gone a b ∧ mm_blocks (w_mem w') !! p = mm_blocks (w_mem w) !! p.
Proof using All.
  intros Ha' Hp Hno. assert (Hg : p ∉ gone a b).
  { intros Hin. assert (r' = r) as -> by (apply (im_apart HI r' r a' a p Ha' Ha Hp), gone_part, Hin). by apply Hno. }
  split; [done|]. simpl. by rewrite (tu_mem _ _ _ _ _ _ _ _ Htu), decide_False.
Qed.

Lemma turn_vacant r' a' p :
  as_flushes A !! r' = Some a' → p ∈ af_blocks a' → (r' = r → p ∉ gone a b) → vacant p w → vacant p w'.
Proof using All.
  intros Ha' Hin Hno Hv. assert (Hp : p ∈ parts r' a') by (apply elem_of_parts; tauto).
  destruct (turn_keeps r' a' p Ha' Hp Hno) as [Hg Hb]. destruct (blocks_apart w A r' a' r' a' p HI Ha' Ha' Hin) as (Hr' & _).
  pose proof Htu as [_ Eco Efl _ _ (_ & _ & Efp & Eic & Eip & _) Ech _ _ _ Eli _].
  destruct (blocks_apart w A r a r' a' p HI Ha Ha' Hin) as (Hr & Hc & _). apply (vacant_same p w); simpl; rewrite ?Eco, ?Efl, ?Efp, ?Eic, ?Eip, ?Eli; try done.
  - by apply lookup_insert_ne.
  - by apply lookup_insert_ne.
  - rewrite Ech. case_decide; [|done]. symmetry. apply Hv.
  - intros q Hq. apply Hun. intros k x Hk Hx.
    destruct (node_apart w A r' a' k x q p HI Ha' Hk Hx) as [?|?]; [|done|lia..].
    intros E _. done.
Qed.

Lemma turn_chunk_ok : chunk_ok w' b.
Proof using All.
  unfold Engine.chunk_ok. destruct (after_chunk a b Hab) as [?|(Ep & Eb & Hph)]; [by left|].
  rewrite Ep, Eb. destruct (fo_chunk (im_flush HI r a Ha)) as [?|(Hn & _ & pc & [Hc Ho Hb Hv Hl])]; [by left|right].
  split; [done|]. split; [done|]. exists pc. split; rewrite ?Ep, ?Eb; try done.
  - simpl. rewrite (tu_chunks _ _ _ _ _ _ _ _ Htu), decide_False by (intros [_ H]; by rewrite Ep in H). exact Hc.
  - apply (turn_vacant r a); try done; [rewrite Hb; set_solver|]. intros _. unfold gone. rewrite Eb. set_solver.
Qed.

(** The chunk of another flush stays. *)
Lemma turn_other_chunk r' a' : r' ≠ r → as_flushes A !! r' = Some a' → processed a' ≠ NULL → processed a' ≠ processed a.
Proof using HI Ha.
  intros Hne Ha' Hn E. apply Hne, (im_apart HI r' r a' a (processed a') Ha' Ha); apply elem_of_parts; right; right; right.
  - by apply (chunk_in w _ (fo_chunk (im_flush HI r' a' Ha'))).
  - rewrite E. apply (chunk_in w _ (fo_chunk (im_flush HI r a Ha))). congruence.
Qed.

Context (Hq : ∀ r', r' ≠ r → tally (is_call r') evs = O ∧ tally (is_report r') evs = O).
Context (Hcnt : counts (af_phase b) (calls w r + tally (is_call r) evs) (reports w r + tally (is_report r) evs)).

Lemma turn_tally x : calls w' x = (calls w x + tally (is_call x) evs)%nat ∧ reports w' x = (reports w x + tally (is_report x) evs)%nat.
Proof using Htu. unfold calls, reports. simpl. by rewrite (tu_trace _ _ _ _ _ _ _ _ Htu), !tally_app. Qed.

Lemma turn_flush r' a' : <[r := b]> (as_flushes A) !! r' = Some a' → flush_ok w' r' a'.
Proof using All.
  pose proof Htu as [Eth Eco Efl _ Eme (_ & _ & _ & _ & _ & Eok & _) Ech _ _ _ _ _]. destruct (turn_tally r') as [Hc Hr].
  intros [[<- <-]|[Hne Ha']]%lookup_insert_Some.
  - destruct (after_same a b Hab) as (S1 & S2 & S3 & S4 & S5 & S6). pose proof turn_chunk_ok as Hck.
    destruct (im_flush HI r a Ha) as [? ? ? ? ? ? ? [br [? ?]] ? Hap Hpt ?].
    destruct (turn_keeps r a r Ha) as [_ Hbr]; [by left|intros _; unfold gone; intros [Hg _]%elem_of_difference; apply (Hap r Hg); by left|].
    split; rewrite ?S1, ?S2, ?S3, ?S4, ?Hc, ?Hr; simpl; rewrite ?Efl, ?Eco, ?Eok; try done; try apply lookup_insert_eq.
    + eexists. apply lookup_insert_eq.
    + intros params E. by destruct (S6 params).
    + exists br. split; [|done]. simpl in Hbr. by rewrite Hbr.
    + intros p Hp. apply Hap. by apply S5.
    + intros p Hp. apply Hpt. apply elem_of_parts in Hp. rewrite S1, S2 in Hp. apply elem_of_parts. set_solver.
  - destruct (Hq r' (not_eq_sym Hne)) as [H1 H2]. rewrite H1, H2, !Nat.add_0_r in *.
    assert (Hap : ∀ p, p ∈ parts r a → p ∉ parts r' a')
      by (intros p Hp Hp'; apply Hne; symmetry; by apply (im_apart HI r' r a' a p)).
    destruct (turn_keeps r' a' r' Ha') as [_ Hbr]; [by left|congruence|].
    apply (flush_ok_frame w); [by apply (im_flush HI)|simpl; rewrite ?Efl, ?Eco, ?Eth, ?Eok..|exact Hc|exact Hr|]; try done.
    + by apply lookup_insert_ne.
    + apply lookup_insert_ne. intros E. apply (Hap (of_coro (af_rec a))); [by right; left|]. rewrite E. by right; left.
    + apply lookup_insert_ne. intros E. apply (Hap (af_callee a)); [by right; right; left|]. rewrite E. by right; right; left.
    + intros p Hp. by apply (fo_parts (im_flush HI r' a' Ha')).
    + apply (chunk_ok_frame w); [by apply (fo_chunk (im_flush HI r' a' Ha'))|..].
      * intros Hn. simpl. rewrite Ech, decide_False; [done|]. intros [E _]. by apply (turn_other_chunk r' a').
      * intros p Hp. apply (turn_vacant r' a'); congruence.
Qed.

Lemma turn_blocks p :
  is_Some (mm_blocks (w_mem w') !! p) ↔ is_Some (owned !! p) ∨ p = w_out_key w ∧ p ≠ NULL ∨
    ∃ r' a', <[r := b]> (as_flushes A) !! r' = Some a' ∧ p ∈ parts r' a'.
Proof using All.
  simpl. rewrite (tu_mem _ _ _ _ _ _ _ _ Htu). case_decide as Hg.
  - pose proof (gone_part p Hg) as Hp. split; [by intros [? [=]]|]. destruct (fo_parts (im_flush HI r a Ha) p Hp) as [Hb Hk].
    intros [Ho|[[-> _]|(r' & a' & [[<- <-]|[Hne Ha']]%lookup_insert_Some & Hp')]]; [|done|..].
    + pose proof (proj2 (proj2 (proj2 (st_below Hset))) p Ho). lia.
    + apply (after_parts a b r p Hab) in Hp' as [[_ ?]|Hp']; [done|].
      unfold gone in Hg. apply elem_of_difference in Hg as [Hg _]. pose proof (fo_apart (im_flush HI r a Ha) p Hg) as Hno.
      rewrite !not_elem_of_cons in Hno. tauto.
    + destruct Hne. symmetry. by apply (im_apart HI r' r a' a p).
  - rewrite (im_blocks HI p). do 2 f_equiv. split.
    + intros (r' & a' & Ha' & Hp). destruct (decide (r' = r)) as [->|Hne].
      * exists r, b. split; [apply lookup_insert_eq|]. apply (after_parts a b r p Hab). assert (a' = a) as -> by congruence. by left.
      * exists r', a'. by rewrite lookup_insert_ne.
    + intros (r' & a' & [[<- <-]|[Hne Ha']]%lookup_insert_Some & Hp); [|by eauto]. exists r, a. split; [done|].
      apply elem_of_parts. apply (after_parts a b r p Hab) in Hp as [[Hp _]|Hp]; [by apply elem_of_parts|tauto].
Qed.

Lemma turn_own_chunks p :
  is_Some (w_chunks w' !! p) → is_Some (chunks !! p) ∨
    ∃ r' a', <[r := b]> (as_flushes A) !! r' = Some a' ∧ processed a' = p ∧ p ≠ NULL.
Proof using All.
  simpl. rewrite (tu_chunks _ _ _ _ _ _ _ _ Htu). case_decide as Hd; [by intros [? [=]]|].
  intros [?|(r' & a' & Ha' & E & Hn)]%(im_own_chunks HI); [by left|right].
  destruct (decide (r' = r)) as [->|Hne]; [|exists r', a'; by rewrite lookup_insert_ne].
  exists r, b. rewrite lookup_insert_eq. split; [done|]. split; [|done]. assert (a' = a) as -> by congruence.
  destruct (decide (p = processed b)); [done|]. by destruct Hd.
Qed.

(** What there was is as it was. *)
Lemma turn_static : owned ⊆ mm_blocks (w_mem w') ∧ chunks ⊆ w_chunks w'.
Proof using All.
  pose proof (proj2 (proj2 (proj2 (st_below Hset)))) as Hob. pose proof (proj1 (proj2 (proj2 (st_below Hset)))) as Hcb.
  split; apply map_subseteq_spec; intros p x Hx; simpl.
  - rewrite (tu_mem _ _ _ _ _ _ _ _ Htu), decide_False; [by eapply lookup_weaken, (im_owned HI)|].
    intros Hg%gone_part. pose proof (proj1 (fo_parts (im_flush HI r a Ha) p Hg)). specialize (Hob p ltac:(by eexists)). lia.
  - rewrite (tu_chunks _ _ _ _ _ _ _ _ Htu), decide_False; [by eapply lookup_weaken, (im_chunks HI)|].
    intros [E Hn]. assert (p ∈ parts r a) as Hp.
    { apply elem_of_parts. right. right. right. rewrite E. apply (chunk_in w _ (fo_chunk (im_flush HI r a Ha))).
      intros E'. apply Hn. destruct (after_chunk a b Hab) as [[? _]|[? _]]; congruence. }
    pose proof (proj1 (fo_parts (im_flush HI r a Ha) p Hp)). by rewrite Hcb in Hx.
Qed.

Context (Hfst : fst <$> rs = fst <$> as_routes A !!! of_task (af_rec a)).
Context (Hst : ∀ p x, (p, x) ∈ rs → 0 ≤ tr_status x ≤ 2).

Lemma turn_implements Q D L :
  let A' := a_turn r b rs Q D L A in
  (∀ k x, head_of k = Some x → dll h x (content A' k)) → flush_queues_ok A' → reports_as r evs (as_log A) L →
  implements w' A'.
Proof using All.
  intros A' Hl HQ (new & -> & Hnew & Hcm). destruct (after_same a b Hab) as (_ & _ & Etk & _).
  pose proof turn_tally as Htl. pose proof turn_static as [Ho1 Ho2].
  pose proof Htu as [Eth Eco Efl [_ Hbrk] Eme (Eou & Ecf & _ & _ & _ & Eok & Eot') Ech Eta Ero Eot Eli Etr].
  assert (Hnone : ∀ p, <[r := b]> (as_flushes A) !! p = None → as_flushes A !! p = None ∧ p ≠ r)
    by (intros p [? ?]%lookup_insert_None; done).
  split; simpl; rewrite ?Hbrk, ?Eok; try done.
  - split; [apply turn_fresh|]. apply (im_fresh HI).
  - destruct (im_active HI) as [-> Hn]. split; [done|]. rewrite Eth, lookup_insert_ne; [done|]. intros E.
    pose proof (fo_parts (im_flush HI r a Ha) (af_callee a) ltac:(by right; right; left)) as [Hb _].
    pose proof (proj1 (st_below Hset)). lia.
  - destruct (im_static HI) as (? & ? & ? & ?). rewrite Eou, Ecf, Eta, Eot'. done.
  - intros k x Hk. rewrite Eli. by apply Hl.
  - intros task p x Hin. pose proof (fo_task (im_flush HI r a Ha)) as Ht. simpl in Hin. rewrite Etk in Hin.
    destruct (decide (task = of_task (af_rec a))) as [->|Hne].
    + rewrite lookup_total_insert_eq in Hin. split; [done|]. split; [by apply Ero|by eapply Hst].
    + rewrite lookup_total_insert_ne in Hin by done.
      destruct (im_routes HI task p x Hin) as (? & Hx & ?). split; [done|]. split; [|done].
      rewrite Eot; [done|]. rewrite Hfst. by eapply other_route.
  - apply (routes_apart_same A); [|by apply (im_routes_apart HI)]. intros task. by apply (turn_routes A r a).
  - intros task Ht. rewrite lookup_insert_is_Some'. right. by apply (im_tasks HI).
  - apply turn_flush.
  - intros r' [Hn Hne]%Hnone. rewrite Efl, lookup_insert_ne by done. by apply (im_none HI).
  - intros r1 r2 a1 a2 p H1 H2 Hp1 Hp2.
    assert (Hold : ∀ r' a', <[r := b]> (as_flushes A) !! r' = Some a' → p ∈ parts r' a' →
      ∃ b', as_flushes A !! r' = Some b' ∧ p ∈ parts r' b').
    { intros r' a' [[<- <-]|[Hne Hb]]%lookup_insert_Some Hp; [|by exists a']. exists a. split; [done|]. apply elem_of_parts.
      apply (after_parts a b r p Hab) in Hp as [[Hp _]|Hp]; [by apply elem_of_parts|tauto]. }
    destruct (Hold _ _ H1 Hp1) as (b1 & Hb1 & Hq1), (Hold _ _ H2 Hp2) as (b2 & Hb2 & Hq2). by apply (im_apart HI r1 r2 b1 b2 p).
  - apply turn_blocks.
  - apply turn_own_chunks.
  - intros r' [Hn Hne]%Hnone. destruct (Hq r' Hne) as [H1 H2]. destruct (Htl r') as [-> ->].
    rewrite H1, H2, !Nat.add_0_r. by apply (im_past HI).
  - intros r' Hr'. assert (r' ≠ r) as [H1 H2]%Hq.
    { intros ->. destruct (parts_live w A r a r HI Ha) as (_ & [_ Hb] & _); [by left|]. lia. }
    destruct (Htl r') as [-> ->]. rewrite H1, H2, !Nat.add_0_r. by apply (im_future HI).
  - unfold Engine.messages. simpl. rewrite Etr, messages_app. by apply Forall2_app; [apply (im_log HI)|].
  - intros c [Hc|Hc]%elem_of_app; [by apply (im_logged HI)|]. rewrite (Hcm c Hc).
    by apply (parts_live w A r a r HI Ha); left.
Qed.
End turn.

(** ** The flush waits again *)

Lemma turn_waits w v A r a k rs evs :
  implements w A → as_flushes A !! r = Some a → af_phase a ≠ Finished →
  running w v r a rs evs →
  fst <$> rs = fst <$> as_routes A !!! of_task (af_rec a) → (∀ p x, (p, x) ∈ rs → 0 ≤ tr_status x ≤ 2) →
  (∀ r', r' ≠ r → tally (is_call r') evs = O) → (∀ r', tally (is_report r') evs = O) →
  (calls w r + tally (is_call r) evs)%nat = 1%nat → messages_of evs = [] →
  implements (came_back w v (af_callee a) (CT_callback k))
    (a_turn r (set_phase (Waiting k) a) rs (as_queue A) (as_done A) (as_log A) A).
Proof.
  intros HI Ha Hpa [Eth Eco Efl Eme Eob Ech Eta Ero Eot Eli Etr _] Hfst Hst Hc Hr H1 Hms.
  apply (turn_implements w v A r a (set_phase (Waiting k) a) rs (ts_list (w_store w)) evs HI Ha); try done.
  - constructor.
  - split; try done.
    + rewrite insert_id; [done|]. apply (fo_rec (im_flush HI r a Ha)).
    + rewrite Eme. split; [apply (fa_wf _ (proj1 (im_fresh HI)))|done].
    + intros p. rewrite decide_False by (unfold gone; set_solver). by rewrite Eme.
    + intros p. rewrite decide_False by (intros [? H]; by apply H). by rewrite Ech.
  - intros r' Hne. split; [by apply Hc|by apply Hr].
  - split; [done|]. rewrite Hr, Nat.add_0_r. pose proof (fo_counts (im_flush HI r a Ha)) as Hcn.
    destruct (af_phase a); try done; by destruct Hcn.
  - intros kd b Hk. replace (content _ kd) with (content A kd); [by apply (im_lists HI)|].
    destruct kd as [| |task]; [done..|]. symmetry. apply (turn_routes A r a); [constructor|done].
  - apply (queues_update _ _ _ _ _ (im_queues HI) r a); done.
  - by apply reports_nothing.
Qed.

(** ** The flush reports *)

(** The abstract state after a report. *)
Definition a_reported (r : ptr) (a : aflush) (rs : list (ptr * flb_task_route)) (x n : Z) (A : astate) : astate :=
  a_finish r a x n (a_routes (of_task (af_rec a)) rs A).

(** What the library does on a report, and where the lists are then. *)
Lemma finish_lists w A r a rs x n :
  implements w A → as_flushes A !! r = Some a → af_phase a ≠ Finished →
  fst <$> rs = fst <$> as_routes A !!! of_task (af_rec a) →
  let A' := a_reported r a rs x n A in
  ∃ h, ol_flush_prepare_destroy lib r (ts_list (w_store w)) = Some h ∧
    (∀ k b, head_of k = Some b → dll h b (content A' k)) ∧ untouched A (ts_list (w_store w)) h.
Proof.
  intros HI Ha Hpa Hfst A'. destruct (fo_out (im_flush HI r a Ha)) as [oi Ho].
  destruct (queue_head _ oi Ho) as [Hkq Hkd]. set (o := own (of_o_ins (af_rec a))) in *.
  assert (r ∈ as_queue A !!! o) as (q1 & q2 & Eq)%list_elem_of_split
    by (apply (qo_queue (im_queues HI)); by exists a).
  pose proof (im_lists HI _ _ Hkq) as Hdq. pose proof (im_lists HI _ _ Hkd) as Hdd.
  assert (Ecq : content A (KQueue o) = (node <$> q1) ++ node r :: (node <$> q2))
    by (simpl; by rewrite Eq, fmap_app).
  assert (Hnd : NoDup (q1 ++ r :: q2)).
  { rewrite <- Eq. destruct Hdq as [_ [_ Hnd]%NoDup_cons]. by apply (NoDup_fmap_1 node). }
  rewrite Ecq in Hdq.
  destruct (st_prepare Hset r _ oi _ _ _ _ Ho Hdq Hdd) as (h & Eh & Hq' & Hd' & Hag).
  { intros y Hy Hin. rewrite <- Ecq in Hin. by apply (lists_disjoint w A HI (KDone o) (KQueue o) _ _ y Hkd Hkq). }
  rewrite <- Ecq in Hag. exists h. split; [done|]. split.
  - apply (lists_moved _ _ _ _ _ _ _ _ _ (lists_disjoint w A HI) (im_lists HI) Hkq Hkd); [| |exact Hag|].
    + simpl. unfold dequeue, af_own. fold o. rewrite lookup_total_insert_eq, Eq, filter_mid, fmap_app; done.
    + simpl. unfold enqueue, af_own. fold o. by rewrite lookup_total_insert_eq, fmap_app.
    + intros [o'|o'|task] Hnq Hnd'; simpl; unfold enqueue, dequeue, af_own; fold o;
        [rewrite lookup_total_insert_ne by congruence; done..|].
      change (content A' (KRoutes task) = content A (KRoutes task)).
      apply (turn_routes A r a (close a) rs (as_queue A') (as_done A') (as_log A')); [constructor|done].
  - intros p Hp. apply Hag. intros [Hin|Hin]%elem_of_app; [by apply (Hp _ _ Hkq)|by apply (Hp _ _ Hkd)].
Qed.

Lemma turn_finishes w v A r a rs h evs x n :
  implements w A → as_flushes A !! r = Some a → af_phase a ≠ Finished →
  ol_flush_prepare_destroy lib r (ts_list (w_store w)) = Some h →
  turned w v r a (close a) rs h evs →
  fst <$> rs = fst <$> as_routes A !!! of_task (af_rec a) → (∀ p x, (p, x) ∈ rs → 0 ≤ tr_status x ≤ 2) →
  (∀ r', r' ≠ r → tally (is_call r') evs = O ∧ tally (is_report r') evs = O) →
  (calls w r + tally (is_call r) evs ≤ 1)%nat → tally (is_report r) evs = 1%nat →
  (∃ e, messages_of evs = [e] ∧ message e (Completion r (of_task (af_rec a)) (of_o_ins (af_rec a)) x n)) →
  implements (came_back w v (af_callee a) CT_returned) (a_reported r a rs x n A).
Proof.
  intros HI Ha Hpa Eh Htu Hfst Hst Hq Hc Hr (e & Eme & Hme).
  destruct (finish_lists w A r a rs x n HI Ha Hpa Hfst) as (h' & Eh' & Hl & Hun).
  rewrite Eh in Eh'. injection Eh' as <-.
  refine (turn_implements w v A r a (close a) rs h evs HI Ha (after_reports a) Htu Hun Hq _ Hfst Hst _ _ _ Hl _ _); [simpl| |].
  - split; [done|]. rewrite Hr. pose proof (fo_counts (im_flush HI r a Ha)) as Hcn.
    destruct (af_phase a); try done; destruct Hcn as [_ ->]; done.
  - by apply (queues_finish _ _ _ _ _ (im_queues HI) r a).
  - eexists. split; [reflexivity|]. rewrite Eme. split; [by constructor|]. by intros c ->%list_elem_of_singleton.
Qed.

(** ** Giving back the chunk of the flush *)

Lemma running_vacant w v A r a rs evs p :
  implements w A → as_flushes A !! r = Some a → running w v r a rs evs → p ∈ af_blocks a → vacant p w → vacant p v.
Proof.
  intros HI Ha [_ Eco Efl Eme (_ & _ & Efp & Eic & Eip & _) Ech _ _ _ Eli _ _] Hp Hv.
  destruct (blocks_apart w A r a r a p HI Ha Ha Hp) as (_ & Hc & _).
  apply (vacant_same p w); rewrite ?Eco, ?Efl, ?Efp, ?Eic, ?Eip, ?Eli, ?Ech, ?Eme; try done. by apply lookup_insert_ne.
Qed.

(** When a flush returns, its chunk and the records of it are released. *)
Lemma release w v A r a t rs evs :
  implements w A → as_flushes A !! r = Some a → running w v r a rs evs → tasks !! of_task (af_rec a) = Some t →
  ∃ m', processed_released lib v t (af_rec a) m' ∧ mem_wf m' ∧ mm_brk m' = mm_brk (w_mem w) ∧
    ∀ p, mm_blocks m' !! p = if decide (p ∈ af_blocks a) then None else mm_blocks (w_mem w) !! p.
Proof.
  intros HI Ha Hrun Ht. pose proof (fa_wf _ (proj1 (im_fresh HI))) as Hwf.
  pose proof Hrun as [_ _ _ Eme _ Ech _ _ _ _ _ _].
  destruct (fo_chunk (im_flush HI r a Ha)) as [[Hn Hb]|(Hn & _ & pc & [Hc [Ho Hd] Hb Hv Hl])].
  { exists (w_mem w). split; [left; by rewrite Eme|]. split; [done|]. split; [done|].
    intros p. by rewrite decide_False by (rewrite Hb; apply not_elem_of_empty). }
  assert (Hlive : ∀ p, p ∈ af_blocks a → is_Some (mm_blocks (w_mem w) !! p) ∧ base ≤ p ∧ p ≠ NULL).
  { intros p Hp. destruct (parts_live w A r a p HI Ha) as (? & [? _] & ?); [apply elem_of_parts; tauto|done]. }
  destruct (st_task Hset _ t Ht) as (_ & evc & _ & Hev & Hdo & _).
  assert (Hin : ec_data pc ∈ af_blocks a) by (rewrite Hb; set_solver).
  destruct (Hlive _ Hin) as ([b Hpd] & Hbase & Hpn).
  destruct (free_mem_wf _ _ _ Hwf Hpd) as [_ Hwf1]. set (m1 := Mem _ _ _) in *.
  destruct (lo_destroy _ _ Hl (processed a) m1 Hwf1) as (m' & Ed & Hwf' & Hbrk & Hbl).
  { intros p Hp. apply elem_of_dom. simpl. rewrite lookup_delete_ne by (intros E; by rewrite E in Hd). apply Hlive. rewrite Hb. set_solver. }
  exists m'. split; [|split; [done|split; [done|]]].
  - right. split; [done|]. exists evc, pc. rewrite Ech, Eme. split; [by eapply lookup_weaken, (im_chunks HI)|]. split; [done|].
    right. split; [pose proof (proj2 (proj2 (proj2 (st_below Hset))) _ Hdo); intros E; rewrite E in *; lia|].
    split; [done|]. split; [|by split; [eexists|]]. apply vacant_drop. by apply (running_vacant w v A r a rs evs).
  - intros p. rewrite Hbl, map_lookup_filter, Hb. simpl.
    destruct (decide (p ∈ chunk_blocks (processed a))) as [Hp|Hp].
    + rewrite decide_True by set_solver. destruct (delete _ _ !! p); simpl; [|done]. by rewrite option_guard_False by (simpl; tauto).
    + destruct (decide (p = ec_data pc)) as [->|Hne].
      * rewrite decide_True by set_solver. by rewrite lookup_delete_eq.
      * rewrite decide_False by set_solver. rewrite lookup_delete_ne by done.
        destruct (mm_blocks (w_mem w) !! p); simpl; [|done]. by rewrite option_guard_True.
Qed.

(** ** Running the coroutine *)

Lemma running_return w v A r a rs h evs evs' v' m' :
  implements w A → as_flushes A !! r = Some a → running w v r a rs evs →
  returned v v' (of_coro (af_rec a)) (Coro (w_active w) (af_callee a) r) (af_rec a) rs h m' evs' →
  mem_wf m' → mm_brk m' = mm_brk (w_mem w) →
  (∀ p, mm_blocks m' !! p = if decide (p ∈ af_blocks a) then None else mm_blocks (w_mem w) !! p) →
  turned w v' r a (close a) (update_route (of_o_ins (af_rec a)) FLB_TASK_ROUTE_INACTIVE rs) h (evs ++ evs').
Proof.
  intros HI Ha [Eth Eco Efl Eme Eob Ech Eta Ero Eot Eli Etr Ecu] [Rtr Rro Rta Rfl Rli Rme Rco Rth Rac Rcu Rot Rob Rch] Hwf Hbrk Hbl.
  split; try congruence; simpl.
  - by rewrite Rfl, Efl.
  - by rewrite Rme.
  - intros p. rewrite Rme, Hbl. unfold gone. simpl. by rewrite difference_empty_L.
  - destruct Eob as (? & ? & ? & ? & ? & ? & ?), Rob as (? & ? & ? & ? & ? & ? & ?). unfold same_objects. split_and!; congruence.
  - intros p. rewrite Rch, Ech. unfold processed. simpl. case_decide as Hn.
    + destruct (decide (p = of_processed_event_chunk (af_rec a))) as [->|Hne].
      * rewrite lookup_delete_eq, decide_True; done.
      * rewrite lookup_delete_ne, decide_False by naive_solver. done.
    + rewrite decide_False; [done|]. by intros [-> Hp].
  - done.
  - intros p Hp'. rewrite update_route_fst in Hp'. rewrite Rot, Eot; done.
  - by rewrite Rtr, Etr, app_assoc.
Qed.

(** What a flush needs to report. *)
Lemma can_return w v A r a c rs :
  implements w A → as_flushes A !! r = Some a → af_phase a ≠ Finished →
  w_coros v !! of_coro (af_rec a) = Some c → co_data c = r → w_flushes v = w_flushes w →
  ts_tasks (w_store v) = ts_tasks (w_store w) → ts_list (w_store v) = ts_list (w_store w) → w_outs v = w_outs w →
  w_out_threads v = w_out_threads w → routes_ok (w_store v) (of_task (af_rec a)) rs →
  ∃ t o h, tasks !! of_task (af_rec a) = Some t ∧ outs !! of_o_ins (af_rec a) = Some o ∧
    ol_flush_prepare_destroy lib r (ts_list (w_store w)) = Some h ∧
    return_pre lib v (of_coro (af_rec a)) c (af_rec a) t rs o worker h.
Proof.
  intros HI Ha Hpa Hc Hd Efl Eta Eli Eou Eot Hrs.
  destruct (finish_lists w A r a _ 0 0 HI Ha Hpa eq_refl) as (h & Eh & _ & _).
  destruct (im_static HI) as (Ho & _ & Ht & Hw). destruct (im_flush HI r a Ha) as [Hf _ _ _ _ [o Hoo] [t Htt] _ _ _ _ _].
  exists t, o, h. do 3 (split; [done|]).
  split; try done; rewrite ?Hd, ?Efl, ?Eta, ?Eli, ?Eou, ?Eot, ?Ht, ?Ho, ?Hw; try done.
  - by apply (st_task Hset _ t Htt).
  - intros E. by apply (worker_thread _ o Hoo).
Qed.

(** The message of a return. *)
Lemma returns_message a r t o tr x evs :
  tasks !! of_task (af_rec a) = Some t → outs !! of_o_ins (af_rec a) = Some o → messages_of evs = [] →
  ∃ e, messages_of (evs ++ return_events lib tr x t o worker r) = [e] ∧
    message e (Completion r (of_task (af_rec a)) (of_o_ins (af_rec a)) x
      (ol_pipe_w lib tr (return_fd o worker) (return_val x t o))).
Proof.
  intros Ht Ho Hev. eexists. rewrite messages_app, Hev, (return_message _ o) by done. split; [done|]. exists t, o. do 3 (split; [done|]). by exists tr.
Qed.

Lemma running_routes w v A r a rs evs :
  implements w A → as_flushes A !! r = Some a → running w v r a rs evs →
  fst <$> rs = fst <$> as_routes A !!! of_task (af_rec a) → routes_ok (w_store v) (of_task (af_rec a)) rs.
Proof.
  intros HI Ha Hrun Hfst. split; [|apply (ru_routes _ _ _ _ _ _ Hrun)]. rewrite (ru_list _ _ _ _ _ _ Hrun).
  pose proof (ro_list _ _ _ (route_list w A _ HI (fo_task (im_flush HI r a Ha)))) as Hd.
  pose proof (turn_routes A r a (close a) rs (as_queue A) (as_done A) (as_log A) (of_task (af_rec a)) (after_reports a) Hfst) as E.
  simpl in E. rewrite lookup_total_insert_eq in E. by rewrite E.
Qed.

(** A turn that gives control back, in either way. *)
Lemma callback_sim w v A r a rs evs res :
  implements w A → as_flushes A !! r = Some a → af_phase a ≠ Finished →
  running w v r a rs evs →
  fst <$> rs = fst <$> as_routes A !!! of_task (af_rec a) → (∀ p x, (p, x) ∈ rs → 0 ≤ tr_status x ≤ 2) →
  (∀ r', r' ≠ r → tally (is_call r') evs = O) → (∀ r', tally (is_report r') evs = O) →
  (calls w r + tally (is_call r) evs)%nat = 1%nat → messages_of evs = [] →
  ∃ st v', callback_turn lib res v = Some ((st, w_active w), v') ∧
    ((∃ k, res = CB_suspend k ∧ st = CT_callback k ∧
        implements (came_back w v' (af_callee a) st) (a_wait r a k (a_routes (of_task (af_rec a)) rs A))) ∨
     ∃ x n, res = CB_return x ∧ st = CT_returned ∧ implements (came_back w v' (af_callee a) st)
       (a_reported r a (update_route (of_o_ins (af_rec a)) FLB_TASK_ROUTE_INACTIVE rs) x n A)).
Proof.
  intros HI Ha Hpa Hrun Hfst Hst Hc Hr H1 Hms. pose proof Hrun as [_ Eco Efl _ (Eou & _ & _ & _ & _ & _ & Eot) _ Eta _ _ Eli _ Ecu].
  assert (Hcv : w_coros v !! of_coro (af_rec a) = Some (Coro (w_active w) (af_callee a) r))
    by (rewrite Eco; apply lookup_insert_eq).
  destruct res as [x|k].
  - destruct (can_return w v A r a _ rs HI Ha Hpa Hcv eq_refl Efl Eta Eli Eou Eot (running_routes _ _ _ _ _ _ _ HI Ha Hrun Hfst))
      as (t & o & h & Ht & Ho & Eh & Hpre).
    destruct (release w v A r a t rs evs HI Ha Hrun Ht) as (m' & Hm' & Hwf' & Hbrk & Hbl).
    destruct (return_turn lib v _ _ _ t rs o _ h x m' Hpre Hm' Ecu) as (v' & E & Hret).
    exists CT_returned, v'. split; [exact E|]. right. eexists x, _. do 2 (split; [done|]).
    pose proof (running_return _ _ _ _ _ _ _ _ _ _ _ HI Ha Hrun Hret Hwf' Hbrk Hbl) as Hrun'. simpl co_data in Hrun'.
    destruct (return_tally lib (w_trace v) x t o worker r r) as [Hc0 Hr1]. rewrite decide_True in Hr1 by done.
    eapply (turn_finishes w v' A r a _ h _ x _ HI Ha Hpa Eh Hrun'); rewrite ?tally_app, ?update_route_fst, ?Hc0, ?Hr1, ?Hr; try done.
    + intros p y Hin. by apply (update_route_in _ _ _ _ _ Hin).
    + intros r' Hne. destruct (return_tally lib (w_trace v) x t o worker r r') as [Hc' Hr'].
      rewrite !tally_app, Hc', Hr', Hr, Hc, decide_False by done. done.
    + lia.
    + by apply returns_message.
  - exists (CT_callback k), v. split; [by apply (suspend_turn lib v _ _ k Hcv)|]. left. exists k. do 2 (split; [done|]).
    by apply (turn_waits w v A r a k rs evs).
Qed.

(** The turn begins inside the coroutine. *)
Lemma running_inside w A r a caller :
  implements w A → as_flushes A !! r = Some a →
  running w (inside w (of_coro (af_rec a)) (Coro caller (af_callee a) r)) r a (as_routes A !!! of_task (af_rec a)) [].
Proof.
  intros HI Ha. split; try done; [|by rewrite app_nil_r].
  intros p x Hin. by apply (im_routes HI _ p x Hin).
Qed.

Lemma running_emit w v r a rs evs evs' :
  running w v r a rs evs → running w (set_trace (w_trace v ++ evs') v) r a rs (evs ++ evs').
Proof. intros []. split; try done. simpl. by rewrite ru_trace0, app_assoc. Qed.

Lemma quiet_app evs evs' r :
  quiet lib evs' → tally (is_call r) (evs ++ evs') = tally (is_call r) evs ∧
  tally (is_report r) (evs ++ evs') = tally (is_report r) evs.
Proof. intros H. destruct (quiet_tally evs' r H) as [H1 H2]. by rewrite !tally_app, H1, H2, !Nat.add_0_r. Qed.

(** ** Resuming *)

(** A recorded flush is known to the abstract machine. *)
Lemma known w A r f c st :
  implements w A → coroutine_at w r f c st →
  ∃ a caller, as_flushes A !! r = Some a ∧ f = af_rec a ∧ c = Coro caller (af_callee a) r ∧ st = thread_of (af_phase a).
Proof.
  intros HI (Hf & Hc & Ht). destruct (as_flushes A !! r) as [a|] eqn:Ha; [|by rewrite (im_none HI) in Hf].
  destruct (im_flush HI r a Ha) as [Hr _ [caller Hco'] Hth _ _ _ _ _ _ _ _].
  rewrite Hr in Hf. injection Hf as <-. rewrite Hco' in Hc. injection Hc as <-. simpl in Ht.
  rewrite Hth in Ht. injection Ht as <-. by exists a, caller.
Qed.

(** The same, of the messages. *)
Lemma quiet_messages_app evs evs' : quiet lib evs' → messages_of (evs ++ evs') = messages_of evs.
Proof. intros H. by rewrite messages_app, (quiet_messages _ H), app_nil_r. Qed.

Lemma routes_id w A task : implements w A → is_Some (tasks !! task) → a_routes task (as_routes A !!! task) A = A.
Proof.
  intros HI Ht. destruct (im_tasks HI task Ht) as [rs Hrs]. unfold a_routes. destruct A as [F Q D R]; simpl in *. f_equal.
  apply insert_id. by rewrite lookup_total_alt, Hrs.
Qed.

(** A resumption has a result; the flush has returned or it waits in a state in
    which its callback, resumed in the state [k] or just started, gave control
    back. *)
Definition went_on (k : option Z) (k' : Z) : Prop :=
  match k with
  | Some k => goes_on lib k (CB_suspend k')
  | None => True
  end.

Definition resumed (w : world) (A : astate) (r : ptr) (a : aflush) (k : option Z) : Prop :=
  ∃ w' A', flb_coro_resume (output_run lib) (of_coro (af_rec a)) w = Some (tt, w') ∧ astep A A' ∧ implements w' A' ∧
    ∃ b, as_flushes A' !! r = Some b ∧
      (b = close a ∨ ∃ k', b = set_phase (Waiting k') a ∧ went_on k k').

Lemma resume_waiting w A r a k :
  implements w A → as_flushes A !! r = Some a → af_phase a = Waiting k →
  resumed w A r a (Some k).
Proof.
  intros HI Ha Hph. destruct (im_flush HI r a Ha) as [_ _ [caller Hc] Hth _ _ Htask _ _ _ _ Hcn]. rewrite Hph in Hth, Hcn.
  set (c := Coro caller (af_callee a) r) in *. set (v := inside w (of_coro (af_rec a)) c).
  destruct (st_resume Hset k v) as (res & evs & Ecb & Hq).
  pose proof (running_emit _ _ _ _ _ _ evs (running_inside w A r a caller HI Ha)) as Hrun. fold c v in Hrun.
  destruct (callback_sim _ _ _ _ _ _ _ res HI Ha ltac:(congruence) Hrun eq_refl) as (st & v' & E & Hcase).
  { intros p x Hin. by apply (im_routes HI _ p x Hin). }
  { intros r' _. by apply quiet_tally. }
  { intros r'. by apply quiet_tally. }
  { destruct Hcn as [Hc1 _]. destruct (quiet_tally evs r Hq) as [H0 _]. simpl. rewrite H0. lia. }
  { by apply quiet_messages. }
  assert (Erun : output_run lib (CT_callback k) v = Some ((st, w_active w), v'))
    by (simpl; by rewrite (run_bind _ _ _ _ _ Ecb)).
  exists (came_back w v' (af_callee a) st).
  rewrite (flb_coro_resume_run w _ c (CT_callback k) _ st v' Hc Hth Erun).
  destruct Hcase as [(k' & -> & -> & HI')|(x & n & -> & -> & HI')]; rewrite ?(routes_id w A _ HI Htask) in HI'.
  - assert (Hg : goes_on lib k (CB_suspend k')) by (eexists v, _; exact Ecb).
    eexists. split; [done|]. split; [by eapply astep_wait|]. split; [exact HI'|]. eexists. split; [apply lookup_insert_eq|].
    right. by exists k'.
  - assert (Hg : goes_on lib k (CB_return x)) by (eexists v, _; exact Ecb).
    eexists. split; [done|]. split; [by eapply astep_finish|]. split; [exact HI'|]. eexists. split; [apply lookup_insert_eq|by left].
Qed.

(** The first resumption, when the route was dropped. *)
Lemma resume_dropped w A r a params :
  implements w A → as_flushes A !! r = Some a → af_phase a = Ready params →
  route_status (of_o_ins (af_rec a)) (as_routes A !!! of_task (af_rec a)) = FLB_TASK_ROUTE_DROPPED →
  resumed w A r a None.
Proof.
  intros HI Ha Hph Hst. destruct (im_flush HI r a Ha) as [Hf _ [caller Hc] Hth Hpa _ Htask _ _ _ _ Hcn].
  rewrite Hph in Hth, Hcn. destruct (Hpa params Hph) as [Hpf _]. set (c := Coro caller (af_callee a) r) in *.
  destruct (can_return w w A r a c _ HI Ha ltac:(congruence) Hc eq_refl eq_refl eq_refl eq_refl eq_refl
    eq_refl (route_list w A _ HI Htask)) as (t & o & h & Ht & Ho & Eh & Hpre).
  assert (Hready : ready_flush w (of_coro (af_rec a)) c params (af_rec a) t (as_routes A !!! of_task (af_rec a)))
    by (destruct Hpre; split; try done; by rewrite Hpf).
  pose proof (running_inside w A r a caller HI Ha) as Hrun. fold c in Hrun.
  destruct (release _ _ _ _ _ t _ _ HI Ha Hrun Ht) as (m' & Hm' & Hwf' & Hbrk & Hbl).
  destruct (dropped_turn lib w _ c params _ t _ o _ h m' Hready (eq_sym Hpf) Hpre Hm' Hst) as (v' & E & Hret).
  exists (came_back w v' (af_callee a) CT_returned).
  rewrite (flb_coro_resume_run w _ c (CT_output_ready params) _ CT_returned v' Hc Hth E).
  eexists. split; [done|]. split; [by eapply astep_dropped|].
  split; [|eexists; split; [apply lookup_insert_eq|by left]].
  apply (running_return _ _ _ _ _ _ _ _ _ _ _ HI Ha Hrun) in Hret as Htu; [|done..]. simpl in Htu.
  destruct Hcn as [Hc0 Hr0].
  eapply (turn_finishes w v' A r a _ h _ FLB_ERROR _ HI Ha ltac:(congruence) Eh Htu).
  - apply update_route_fst.
  - intros p y Hin. apply (update_route_in _ _ _ _ _ Hin); [done|]. intros p' y' Hin'. by apply (im_routes HI _ p' y' Hin').
  - intros r' Hne. destruct (return_tally lib (w_trace w) FLB_ERROR t o worker r r') as [H1 H2].
    by rewrite H1, H2, decide_False.
  - rewrite (proj1 (return_tally _ _ _ _ _ _ _ _)). lia.
  - by rewrite (proj2 (return_tally _ _ _ _ _ _ _ _)), decide_True.
  - by apply (returns_message a r t o (w_trace w) FLB_ERROR []).
Qed.

(** The first resumption otherwise. *)
Lemma resume_starts w A r a params :
  implements w A → as_flushes A !! r = Some a → af_phase a = Ready params →
  route_status (of_o_ins (af_rec a)) (as_routes A !!! of_task (af_rec a)) ≠ FLB_TASK_ROUTE_DROPPED →
  resumed w A r a None.
Proof.
  intros HI Ha Hph Hst. destruct (im_flush HI r a Ha) as [Hf _ [caller Hc] Hth Hpa _ Htask _ _ _ _ Hcn].
  rewrite Hph in Hth, Hcn. destruct (Hpa params Hph) as [Hpf _]. set (c := Coro caller (af_callee a) r) in *.
  set (rs := as_routes A !!! of_task (af_rec a)) in *. set (rs1 := update_route (of_o_ins (af_rec a)) FLB_TASK_ROUTE_ACTIVE rs).
  pose proof Htask as [t Ht]. destruct (im_static HI) as (_ & _ & Ets & _).
  assert (Hready : ready_flush w (of_coro (af_rec a)) c params (af_rec a) t rs).
  { split; try done; [by rewrite Hpf|by rewrite Ets|by apply (st_task Hset _ t Ht)|by apply (route_list w A)]. }
  destruct (resume_enters lib w _ c params _ t rs Hready) as (s & E & Hrs & Hts & Hls & Hot).
  { pose proof (status_range w A (of_task (af_rec a)) (of_o_ins (af_rec a)) HI). fold rs in H.
    unfold FLB_TASK_ROUTE_DROPPED in Hst. lia. }
  set (v := entered w (of_coro (af_rec a)) c params s) in *.
  destruct (st_flush Hset params v) as (res & evs & Ecb & Hq).
  assert (Hrun : running w v r a rs1 [Ev_callback params]).
  { split; try done; [by apply (ro_map _ _ _ Hrs)|]. intros p Hp. apply Hot. unfold rs1 in Hp. by rewrite update_route_fst in Hp. }
  apply (running_emit _ _ _ _ _ _ evs) in Hrun.
  destruct (callback_sim _ _ _ _ _ _ _ res HI Ha ltac:(congruence) Hrun (update_route_fst _ _ _)) as (st & v' & E' & Hcase).
  { intros p y Hin. apply (update_route_in _ _ _ _ _ Hin); [done|]. intros p' y' Hin'. by apply (im_routes HI _ p' y' Hin'). }
  { intros r' Hne. rewrite (proj1 (quiet_app _ _ _ Hq)), (proj1 (callback_tally _ _)), decide_False; congruence. }
  { intros r'. by rewrite (proj2 (quiet_app _ _ _ Hq)), (proj2 (callback_tally _ r')). }
  { rewrite (proj1 (quiet_app _ _ _ Hq)), (proj1 (callback_tally _ _)), decide_True by done.
    destruct Hcn as [Hc0 _]. rewrite Hc0. done. }
  { by apply quiet_messages_app. }
  assert (Erun : output_run lib (CT_output_ready params) (inside w (of_coro (af_rec a)) c) = Some ((st, w_active w), v'))
    by (rewrite E, (run_bind _ _ _ _ _ Ecb); exact E').
  exists (came_back w v' (af_callee a) st).
  rewrite (flb_coro_resume_run w _ c (CT_output_ready params) _ st v' Hc Hth Erun).
  assert (Hg : starts lib params res) by (eexists v, _; exact Ecb).
  destruct Hcase as [(k' & -> & -> & HI')|(x & n & -> & -> & HI')].
  - eexists. split; [done|]. split; [by eapply astep_start_wait|]. split; [exact HI'|].
    eexists. split; [apply lookup_insert_eq|]. right. by exists k'.
  - unfold rs1 in HI'. rewrite update_route_twice in HI'.
    eexists. split; [done|]. split; [by eapply astep_start_finish|]. split; [exact HI'|].
    eexists. split; [apply lookup_insert_eq|by left].
Qed.

Lemma resume_sim w A r f c st :
  implements w A → coroutine_at w r f c st → resumable st →
  ∃ a, as_flushes A !! r = Some a ∧ f = af_rec a ∧
    resumed w A r a (match st with CT_callback k => Some k | _ => None end).
Proof.
  intros HI Hat Hst. destruct (known _ _ _ _ _ _ HI Hat) as (a & caller & Ha & -> & -> & ->).
  exists a. do 2 (split; [done|]). destruct (af_phase a) as [|params|k|] eqn:Hph; try done.
  - destruct (decide (route_status (of_o_ins (af_rec a)) (as_routes A !!! of_task (af_rec a)) = FLB_TASK_ROUTE_DROPPED)).
    + by apply (resume_dropped w A r a params).
    + by apply (resume_starts w A r a params).
  - by apply (resume_waiting w A r a k).
Qed.

(** ** Dropping a route *)

Lemma drop_sim w A task o_ins :
  implements w A → is_Some (tasks !! task) →
  ∃ s, flb_task_drop_route task o_ins (w_store w) = Some s ∧
    implements (set_store s w) (a_status task o_ins FLB_TASK_ROUTE_DROPPED A).
Proof.
  intros HI Ht. destruct (set_route_status_ok _ task o_ins FLB_TASK_ROUTE_DROPPED _ (route_list w A task HI Ht))
    as (s & E & Hrs & Hls & Hts & Hot).
  exists s. split; [exact E|]. set (A' := a_status _ _ _ A).
  assert (Hk : ∀ k, content A' k = content A k).
  { intros [o|o|task']; [done..|]. apply content_routes. simpl. destruct (decide (task' = task)) as [->|Hne].
    - by rewrite lookup_total_insert_eq, update_route_fst.
    - by rewrite lookup_total_insert_ne. }
  pose proof HI as [[Hf Hb] Hac Hst Hl Hr Hra Htk Hq Hfl Hno Hap Hbl Hpa Hfu].
  split; simpl; rewrite ?Hts, ?Hls; try done.
  - split; [|done]. destruct Hf. split; simpl; rewrite ?Hls; done.
  - intros k a Ha. rewrite Hk. by apply Hl.
  - intros task' p x Hin. simpl in Hin. destruct (decide (task' = task)) as [->|Hne].
    + rewrite lookup_total_insert_eq in Hin. split; [done|]. split; [by apply (ro_map _ _ _ Hrs)|].
      apply (update_route_in _ _ _ _ _ Hin); [done|]. intros p' x' Hin'. by apply (Hr task p' x').
    + rewrite lookup_total_insert_ne in Hin by done. destruct (Hr task' p x Hin) as (? & ? & ?).
      split; [done|]. split; [|done]. rewrite Hot; [done|]. by eapply other_route.
  - by apply (routes_apart_same A).
  - intros task' Ht'. rewrite lookup_insert_is_Some'. right. by apply Htk.
  - intros r a Ha. apply (flush_ok_frame w); [by apply Hfl|done..| |done|done|].
    + intros p Hp. by apply (fo_parts (Hfl r a Ha)).
    + apply (chunk_ok_frame w); [apply (fo_chunk (Hfl r a Ha))|done|]. intros p _ Hv.
      apply (vacant_same p w); try done. intros q _. simpl. by rewrite Hls.
Qed.

End spec.
