(* ===== verification/EngineStep.v ===== *)
(** The steps of the engine that begin and end a flush, creation and
    destruction, and the simulation of every step. *)
From S2P Require Import Prelude MkList MkListSpec Mem MkEvent Codes Task Bytes Structs Runtime RuntimeSpec Output OutputSpec Logs LogsLife Telemetry TelemetryLife Lifecycle Queues Engine EngineSim.

Section spec.
Context `{P : plant} (lib : output_lib) (Hco : libco_ok (ol_co lib)) (Hset : setting lib).

Abbreviation implements := (implements lib).
Abbreviation head_of := (head_of lib).
Abbreviation flush_ok := (flush_ok lib).
Abbreviation chunk_ok := (chunk_ok lib).
Abbreviation messages := (messages lib).
Abbreviation worker := (worker lib).
Abbreviation astep := (astep own (starts lib) (goes_on lib)).
Abbreviation a_create := (a_create own).
Abbreviation a_destroy := (a_destroy own).
Abbreviation lists_disjoint := (lists_disjoint lib Hset).
Abbreviation queue_head := (queue_head lib Hset).
Abbreviation parts_live := (parts_live lib).
Abbreviation node_apart := (node_apart lib Hset).
Abbreviation list_below := (list_below lib).
Abbreviation flush_ok_frame := (flush_ok_frame lib).
Abbreviation chunk_ok_frame := (chunk_ok_frame lib).
Abbreviation routes_apart_same := (routes_apart_same lib).
Abbreviation blocks_apart := (blocks_apart lib).
Abbreviation chunk_in := (chunk_in lib).
Abbreviation known := (known lib).

(** Only a processed chunk lies in the blocks of a flush. *)
Lemma no_chunk w A r a p :
  implements w A → as_flushes A !! r = Some a → p ∈ parts r a → p ≠ processed a → w_chunks w !! p = None.
Proof.
  intros HI Ha Hp Hne. apply eq_None_not_Some. intros [Hs|(r' & a' & Ha' & E & Hn)]%(im_own_chunks HI).
  - destruct Hs as [c Hc]. pose proof (proj1 (fo_parts (im_flush HI r a Ha) p Hp)) as Hb.
    by rewrite (proj1 (proj2 (proj2 (st_below Hset))) p Hb) in Hc.
  - assert (Hp' : p ∈ parts r' a').
    { apply elem_of_parts. right. right. right. rewrite <- E in Hn |- *. by apply (chunk_in w), Hn; apply (fo_chunk (im_flush HI r' a' Ha')). }
    pose proof (im_apart HI r r' a a' p Ha Ha' Hp Hp'). by simplify_eq.
Qed.

(** ** Destroying *)

(** What destroying a flush leaves, with its lists. *)
Record destroyed (w w' : world) (A : astate) (r : ptr) (a : aflush) : Prop := {
  de_lists k b : head_of k = Some b → dll (ts_list (w_store w')) b (content (a_destroy r a A) k);
  de_flushes : w_flushes w' = delete r (delete (of_coro (af_rec a)) (w_flushes w));
  de_coros : w_coros w' = delete r (delete (of_coro (af_rec a)) (w_coros w));
  de_threads : w_threads w' = delete (af_callee a) (w_threads w);
  de_blocks : mm_blocks (w_mem w') = delete r (delete (of_coro (af_rec a)) (delete (af_callee a) (mm_blocks (w_mem w))));
  de_same : w_trace w' = w_trace w ∧ w_active w' = w_active w ∧ ts_routes (w_store w') = ts_routes (w_store w) ∧
     ts_tasks (w_store w') = ts_tasks (w_store w) ∧ w_outs w' = w_outs w ∧ w_configs w' = w_configs w ∧
     w_out_key w' = w_out_key w ∧ w_chunks w' = w_chunks w ∧ mm_brk (w_mem w') = mm_brk (w_mem w) ∧
     w_out_threads w' = w_out_threads w;
  de_vacant r' a' p : as_flushes A !! r' = Some a' → r' ≠ r → p ∈ af_blocks a' → vacant p w → vacant p w';
  de_fresh : fresh_above w'
}.

(** The list of the flushes to destroy, around one of them. *)
Lemma done_split w A r a o :
  implements w A → as_flushes A !! r = Some a → af_phase a = Finished → outs !! of_o_ins (af_rec a) = Some o →
  ∃ d1 d2, as_done A !!! af_own own a = d1 ++ r :: d2 ∧ NoDup (d1 ++ r :: d2) ∧
    content A (KDone (af_own own a)) = (node <$> d1) ++ node r :: (node <$> d2).
Proof.
  intros HI Ha Hph Ho. destruct (queue_head _ o Ho) as [_ Hkd].
  assert (r ∈ as_done A !!! af_own own a) as (d1 & d2 & Ed)%list_elem_of_split
    by (apply (qo_done (im_queues HI)); by exists a).
  exists d1, d2. split; [done|]. split; [|simpl; by rewrite Ed, fmap_app]. rewrite <- Ed.
  destruct (im_lists HI _ _ Hkd) as [_ [_ Hndl]%NoDup_cons]. by apply (NoDup_fmap_1 node).
Qed.

Lemma destroy_run w A r a caller :
  implements w A → as_flushes A !! r = Some a → af_phase a = Finished →
  w_coros w !! of_coro (af_rec a) = Some (Coro caller (af_callee a) r) →
  ∃ w', flb_output_flush_destroy lib r w = Some (tt, w') ∧ destroyed w w' A r a.
Proof.
  intros HI Ha Hph Hc. set (coro := of_coro (af_rec a)). pose proof (im_flush HI r a Ha) as [Hf _ _ _ _ [o Ho] _ _ Hnd _ Hpt _].
  destruct (queue_head _ o Ho) as [Hkq Hkd].
  destruct (done_split w A r a o HI Ha Hph Ho) as (d1 & d2 & Ed & Hndl & Ecd). set (oi := own (of_o_ins (af_rec a))) in *.
  change (af_own own a) with oi in *.
  pose proof (im_lists HI _ _ Hkd) as Hd.
  assert (Hout : ∀ k b x p, head_of k = Some b → x ∈ b :: content A k → x ≠ node r → p ∈ [r; coro] →
      x < p ∨ p + block_size p (w_mem w) ≤ x).
  { intros k b x p Hk Hx Hne Hp. apply (node_apart w A r a k b x p HI Ha Hk Hx); [done|].
    apply elem_of_cons in Hp as [->|Hp]; [by left|]. apply list_elem_of_singleton in Hp as ->. by right; left. }
  pose proof Hd as Hd0. rewrite Ecd in Hd.
  destruct (flush_destroy_run lib Hco w r (af_rec a) (Coro caller (af_callee a) r) _ _ _ (fa_wf _ (proj1 (im_fresh HI))) Hf Hc Hd)
    as (w' & E & Hd' & Efl & Eco & Eth & Eme & Etr & Eac & Ero & Eta & Eou & Ecf & Eok & Ech & Ebk & Eot & Hfr & Hva & Hoth).
  - rewrite (proj1 (im_active HI)). intros E. destruct (Hpt (af_callee a)) as [Hb _]; [by right; right; left|].
    pose proof (proj1 (st_below Hset)). simpl in E. lia.
  - exact Hnd.
  - intros p Hp. apply (parts_live w A r a p HI Ha). apply elem_of_parts. set_solver.
  - intros x p Hx Hp. apply (Hout (KDone oi) _ x p Hkd); [|intros ->|done].
    + rewrite Ecd. set_solver.
    + destruct Hd as [_ Hn]. rewrite app_comm_cons in Hn, Hx.
      apply NoDup_app in Hn as (_ & H1 & [H2 _]%NoDup_cons).
      apply elem_of_app in Hx as [Hx|Hx]; [apply (H1 _ Hx); by left|done].
  - exists w'. split; [exact E|]. split; try done; [| | |by apply Hfr, (im_fresh HI)].
    + intros k b Hk. destruct (decide (k = KDone oi)) as [->|Hne].
      { rewrite Hkd in Hk. injection Hk as <-. simpl. unfold dequeue. change (af_own own a) with oi. by rewrite lookup_total_insert_eq, Ed, filter_mid, fmap_app. }
      assert (content (a_destroy r a A) k = content A k) as ->
        by (destruct k; simpl; unfold dequeue, af_own; fold oi; [done|rewrite lookup_total_insert_ne by congruence; done|done]).
      apply Hoth; [by apply (im_lists HI)|]. intros x Hx. change (r + of_head_off) with (node r). rewrite <- Ecd.
      assert (x ∉ done_list worker o :: content A (KDone oi)) as Hno
        by (by apply (lists_disjoint w A HI k (KDone oi) _ _ x Hk Hkd Hne)).
      split; [done|]. intros p Hp. apply (Hout k b x p Hk Hx); [|done]. intros ->. apply Hno. rewrite Ecd. set_solver.
    + split_and!; try done. rewrite Ech. assert (Hnp : processed a = NULL) by (by destruct (fo_chunk (im_flush HI r a Ha)) as [[? _]|(_ & ? & _)]).
      assert (Hno : ∀ p, p ∈ [r; coro; af_callee a] → w_chunks w !! p = None).
      { intros p Hp. assert (Hp' : p ∈ parts r a) by (apply elem_of_parts; set_solver).
        apply (no_chunk w A r a p HI Ha Hp'). rewrite Hnp. by apply (parts_live w A r a p HI Ha). }
      rewrite (delete_id (w_chunks w)), delete_id; [done|apply Hno; by left|apply Hno; by right; left].
    + intros r' a' p Ha' Hne Hp Hv. apply Hva; [done|..].
      * destruct (blocks_apart w A r a r' a' p HI Ha Ha' Hp) as (? & ? & ?). set_solver.
      * intros x Hx. change (r + of_head_off) with (node r) in Hx. rewrite <- Ecd in Hx. apply (node_apart w A r' a' _ _ x p HI Ha' Hkd Hx); [|apply elem_of_parts; tauto].
        intros ->. by destruct (blocks_apart w A r' a' r' a' r' HI Ha' Ha' Hp).
Qed.

Section destroyed.
Context (w w' : world) (A : astate) (r : ptr) (a : aflush).
Context (HI : implements w A) (Ha : as_flushes A !! r = Some a) (Hph : af_phase a = Finished).
Context (Hde : destroyed w w' A r a).

Lemma others_apart r' a' p : r' ≠ r → as_flushes A !! r' = Some a' → p ∈ parts r' a' → p ∉ parts r a.
Proof. intros Hne Ha' Hp Hp'. apply Hne. by apply (im_apart HI r' r a' a p). Qed.

(** A flush that has reported has no chunk. *)
Lemma closed_blocks : af_blocks a = ∅.
Proof using HI Ha Hph. by destruct (fo_chunk (im_flush HI r a Ha)) as [[_ ?]|(_ & ? & _)]. Qed.

Lemma closed_chunk : processed a = NULL.
Proof using HI Ha Hph. by destruct (fo_chunk (im_flush HI r a Ha)) as [[? _]|(_ & ? & _)]. Qed.

Lemma destroyed_blocks p : is_Some (mm_blocks (w_mem w') !! p) ↔ p ∉ parts r a ∧ is_Some (mm_blocks (w_mem w) !! p).
Proof.
  rewrite (de_blocks _ _ _ _ _ Hde), !lookup_delete_is_Some, elem_of_parts, closed_blocks.
  pose proof (not_elem_of_empty (C := gset Z) p). naive_solver.
Qed.

Lemma destroyed_others r' a' : r' ≠ r → as_flushes A !! r' = Some a' → flush_ok w' r' a'.
Proof.
  intros Hne Ha'. assert (Hno : ∀ p, p ∈ parts r' a' → p ∉ parts r a) by (intros p; by apply others_apart).
  destruct Hde as [_ Efl Eco Eth Eme (Etr & _ & _ & _ & _ & _ & Eok & Ech & _) Hva _].
  assert (Hin : ∀ p, p ∈ parts r' a' → p ≠ r ∧ p ≠ of_coro (af_rec a) ∧ p ≠ af_callee a).
  { intros p Hp. pose proof (Hno p Hp) as Hn. rewrite elem_of_parts in Hn. tauto. }
  destruct (Hin r') as (N1 & N2 & N3); [by left|].
  destruct (Hin (of_coro (af_rec a'))) as (N4 & N5 & _); [by right; left|].
  destruct (Hin (af_callee a')) as (_ & _ & N6); [by right; right; left|].
  apply (flush_ok_frame w); [by apply (im_flush HI)|..]; rewrite ?Efl, ?Eco, ?Eth, ?Eme, ?Eok; unfold calls, reports;
    rewrite ?Etr, ?lookup_delete_ne by done; try done.
  - intros p Hp. by apply (fo_parts (im_flush HI r' a' Ha')).
  - apply (chunk_ok_frame w); [apply (fo_chunk (im_flush HI r' a' Ha'))|by rewrite Ech|]. intros p. by apply (Hva r').
Qed.

Lemma destroyed_owners p :
  is_Some (mm_blocks (w_mem w') !! p) ↔ is_Some (owned !! p) ∨ p = w_out_key w ∧ p ≠ NULL ∨
    ∃ r' a', delete r (as_flushes A) !! r' = Some a' ∧ p ∈ parts r' a'.
Proof.
  rewrite destroyed_blocks, (im_blocks HI p). split.
  - intros [Hp [?|[?|(r' & a' & Ha' & Hp')]]]; [by left|by right; left|]. right. right. exists r', a'. split; [|done].
    rewrite lookup_delete_ne; [done|]. intros ->. congruence.
  - intros [Ho|[[-> Ho]|(r' & a' & [Hne Ha']%lookup_delete_Some & Hp')]].
    + split; [|by left]. intros Hp. pose proof (proj1 (fo_parts (im_flush HI r a Ha) p Hp)).
      pose proof (proj2 (proj2 (proj2 (st_below Hset))) p Ho). lia.
    + split; [|by right; left]. intros Hp. by destruct (fo_parts (im_flush HI r a Ha) _ Hp).
    + split; [by eapply others_apart|]. right. right. eauto.
Qed.

Lemma destroyed_implements : implements w' (a_destroy r a A).
Proof.
  pose proof Hde as [Hl Efl Eco Eth _ (Etr & Eac & Ero & Eta & Eou & Ecf & Eok & Ech & Ebk & Eot) _ Hfr].
  pose proof destroyed_blocks as Hblk.
  split; simpl; rewrite ?Eok, ?Eac, ?Ebk, ?Eou, ?Ecf, ?Ech, ?Eta; try done.
  - split; [done|]. apply (im_fresh HI).
  - destruct (im_active HI) as [-> Hn]. split; [done|]. rewrite Eth, lookup_delete_ne; [done|]. intros E'.
    pose proof (fo_parts (im_flush HI r a Ha) (af_callee a) ltac:(by right; right; left)) as [Hb _].
    pose proof (proj1 (st_below Hset)). lia.
  - rewrite Eot. apply (im_static HI).
  - intros task p x Hx. rewrite Ero. by apply (im_routes HI).
  - apply (routes_apart_same A); [done|apply (im_routes_apart HI)].
  - apply (im_tasks HI).
  - by apply (queues_destroy _ _ _ _ _ (im_queues HI)).
  - intros r' a' [Hne Ha']%lookup_delete_Some. by apply destroyed_others.
  - intros r' Hn. rewrite Efl, !lookup_delete_None. apply lookup_delete_None in Hn as [?|?]; [by left|].
    right. right. by apply (im_none HI).
  - intros r1 r2 a1 a2 p [_ H1]%lookup_delete_Some [_ H2]%lookup_delete_Some. by apply (im_apart HI).
  - apply destroyed_owners.
  - apply map_subseteq_spec. intros p b Hb. rewrite (de_blocks _ _ _ _ _ Hde).
    assert (p < base) as Hlow by (apply (st_below Hset); by eexists).
    assert (∀ q, q ∈ parts r a → p ≠ q) as Hne by (intros q Hq; pose proof (proj1 (fo_parts (im_flush HI r a Ha) q Hq)); lia).
    rewrite !lookup_delete_ne by (apply not_eq_sym, Hne; apply elem_of_parts; tauto). by eapply lookup_weaken, (im_owned HI).
  - apply (im_chunks HI).
  - intros p [?|(r' & a' & Ha' & E & Hn)]%(im_own_chunks HI); [by left|right]. exists r', a'. split; [|done].
    rewrite lookup_delete_ne; [done|]. intros <-. simplify_eq. by rewrite closed_chunk in Hn.
  - intros r' Hn. unfold calls, reports. rewrite Etr. apply lookup_delete_None in Hn as [<-|Hn]; [|by apply (im_past HI)].
    pose proof (fo_counts (im_flush HI r a Ha)) as Hcn. rewrite Hph in Hcn. destruct Hcn as [? H1].
    split; [done|]. unfold reports in H1. rewrite H1. done.
  - intros r' Hr'. unfold calls, reports. rewrite Etr. by apply (im_future HI).
  - unfold Engine.messages. rewrite Etr. apply (im_log HI).
  - apply (im_logged HI).
Qed.
End destroyed.

Lemma destroy_sim w A r f c :
  implements w A → coroutine_at w r f c CT_returned →
  ∃ w' a, flb_output_flush_destroy lib r w = Some (tt, w') ∧ as_flushes A !! r = Some a ∧ af_phase a = Finished ∧
    implements w' (a_destroy r a A).
Proof.
  intros HI Hat. destruct (known _ _ _ _ _ _ HI Hat) as (a & caller & Ha & -> & -> & Hst). destruct Hat as (_ & Hc & _).
  assert (Hph : af_phase a = Finished) by (by destruct (af_phase a)).
  destruct (destroy_run w A r a caller HI Ha Hph Hc) as (w' & E & Hde).
  exists w', a. do 3 (split; [done|]). by apply (destroyed_implements w).
Qed.

(** ** Creating *)

(** Memory that was taken and given back, identifiers and events do not show. *)
Lemma quiet_implements w A m ids evs :
  implements w A → mem_wf m → mm_brk (w_mem w) ≤ mm_brk m → mm_blocks m = mm_blocks (w_mem w) → quiet lib evs →
  implements (set_trace (w_trace w ++ evs) (set_ids ids (set_mem m w))) A.
Proof.
  intros HI Hwf Hb Hbl Herr.
  assert (Hfr : fresh_above (set_trace (w_trace w ++ evs) (set_ids ids (set_mem m w))))
    by (destruct (mem_fresh w m (proj1 (im_fresh HI)) Hwf Hb); by split).
  assert (Htl : ∀ r, tally (is_call r) (w_trace w ++ evs) = calls w r ∧ tally (is_report r) (w_trace w ++ evs) = reports w r)
    by (intros r; by apply (quiet_app lib)).
  pose proof (im_flush HI) as Hfl. destruct (im_fresh HI) as [_ [_ Hk]].
  split; simpl; rewrite ?Hbl; try apply HI; try done.
  - split; [done|]. split; [|lia]. pose proof (proj1 (proj2 (im_fresh HI))). lia.
  - intros r a Ha. destruct (Htl r). apply (flush_ok_frame w); try done; [by apply Hfl|simpl; by rewrite Hbl|..].
    + intros p Hp. by apply (fo_parts (Hfl r a Ha)).
    + apply (chunk_ok_frame w); [apply (fo_chunk (Hfl r a Ha))|done|]. intros p _ Hv.
      apply (vacant_same p w); try done. simpl. by rewrite Hbl.
  - intros r Hn. unfold calls, reports. simpl. destruct (Htl r) as [-> ->]. by apply (im_past HI).
  - intros r Hb'. unfold calls, reports. simpl. destruct (Htl r) as [-> ->]. apply (im_future HI). lia.
  - unfold Engine.messages. simpl. rewrite (quiet_messages_app lib); [apply (im_log HI)|done].
  - intros c Hc. pose proof (im_logged HI c Hc). lia.
Qed.

Lemma failed_create w w' A : implements w A → as_before w w' → implements w' A.
Proof. intros HI (m & ids & errs & -> & Hwf & Hb & Hbl & Herr). by apply quiet_implements; try apply errors_quiet. Qed.

Lemma events_implements w A evs : implements w A → Forall context_event evs → implements (after_events w evs) A.
Proof.
  intros HI He. pose proof (quiet_implements w A (w_mem w) (w_ids w) evs HI (fa_wf _ (proj1 (im_fresh HI)))
    ltac:(lia) eq_refl (contexts_quiet lib _ He)) as H. by destruct w.
Qed.

(** A flush has been created, with or without a chunk of its own: it is
    recorded, linked last and its coroutine is at its first switch, or not
    started.  [X] holds the blocks of the chunk. *)
Record joined (w w' : world) (t : flb_task) (o : flb_output_instance) (l : list ptr) (r callee : ptr)
    (f : flb_output_flush) (ph : phase) (X : gmap Z (list (option Z))) : Prop := {
  jn_distinct : NoDup [r; of_coro f; callee; NULL];
  jn_apart p : p ∈ dom X → p ∉ [r; of_coro f; callee; NULL];
  jn_new p : p ∈ [r; of_coro f; callee] ∨ p ∈ dom X → mm_brk (w_mem w) ≤ p;
  jn_flush : w_flushes w' = <[r := f]> (w_flushes w);
  jn_coro : w_coros w' = <[of_coro f := Coro (w_active w) callee r]> (w_coros w);
  jn_thread : w_threads w' = <[callee := thread_of ph]> (w_threads w);
  jn_phase : ph = Unstarted ∨ ∃ params, ph = Ready params ∧ fp_out_flush params = r ∧ fp_event_chunk params = flush_chunk f t;
  jn_list : dll (ts_list (w_store w')) (live_list worker o) (l ++ [r + of_head_off]);
  jn_frame : agree_outside (r + of_head_off :: live_list worker o :: l) (ts_list (w_store w)) (ts_list (w_store w'));
  jn_chunks p : p ∉ dom X → w_chunks w' !! p = w_chunks w !! p;
  jn_own_chunks p : p ∈ dom X → is_Some (w_chunks w' !! p) → p = of_processed_event_chunk f;
  jn_static : ts_tasks (w_store w') = ts_tasks (w_store w) ∧ ts_routes (w_store w') = ts_routes (w_store w) ∧
    w_active w' = w_active w ∧ w_outs w' = w_outs w ∧ w_out_threads w' = w_out_threads w ∧ w_configs w' = w_configs w ∧
    w_input_coros w' = w_input_coros w ∧ w_in_params w' = w_in_params w;
  jn_params p : p ≠ w_out_key w' → w_flush_params w' !! p = w_flush_params w !! p;
  jn_wf : mem_wf (w_mem w');
  jn_mem : ∃ br bc bh kept, mm_blocks (w_mem w') =
       kept ∪ <[callee := bh]> (X ∪ <[of_coro f := bc]> (<[r := br]> (mm_blocks (w_mem w)))) ∧
     length br = Z.to_nat sizeof_flb_output_flush ∧
     (kept = ∅ ∧ w_out_key w' = w_out_key w ∨ w_out_key w = NULL ∧ ∃ b, kept = {[ w_out_key w' := b ]} ∧
        mm_brk (w_mem w) ≤ w_out_key w' ∧ w_out_key w' ∉ [r; of_coro f; callee] ∧ w_out_key w' ∉ dom X);
  jn_above : mm_brk (w_mem w) ≤ mm_brk (w_mem w') ∧ (w_out_key w < mm_brk (w_mem w) → fresh_above w');
  jn_trace : w_trace w' = w_trace w ∨ w_trace w' = w_trace w ++ [Ev_error];
  jn_chunk : chunk_ok w' (AFlush f callee ph (dom X))
}.

Section created.
Context (w w' : world) (A : astate) (t : flb_task) (o : flb_output_instance) (r callee : ptr) (f : flb_output_flush) (ph : phase).
Context (X : gmap Z (list (option Z))).
Context (HI : implements w A) (Ht : tasks !! of_task f = Some t) (Ho : outs !! of_o_ins f = Some o).
Context (Hjn : joined w w' t o (content A (KQueue (own (of_o_ins f)))) r callee f ph X).

Definition new_flush : aflush := AFlush f callee ph (dom X).

Lemma new_parts p : p ∈ parts r new_flush ↔ p ∈ [r; of_coro f; callee] ∨ p ∈ dom X.
Proof using. rewrite elem_of_parts, !elem_of_cons. pose proof (not_elem_of_nil p). simpl. tauto. Qed.

Lemma new_above p : p ∈ parts r new_flush → mm_brk (w_mem w) ≤ p.
Proof using Hjn. rewrite new_parts. apply Hjn. Qed.

Lemma old_below r' a' p : as_flushes A !! r' = Some a' → p ∈ parts r' a' → p ∉ parts r new_flush.
Proof using HI Hjn.
  intros Ha Hp Hn. destruct (parts_live w A r' a' p HI Ha Hp) as (_ & [_ Hb] & _). pose proof (new_above p Hn). lia.
Qed.

Lemma new_unknown : as_flushes A !! r = None.
Proof using HI Hjn.
  destruct (as_flushes A !! r) as [a|] eqn:Ha; [|done]. exfalso.
  apply (old_below r a r Ha); by left.
Qed.

(** What was allocated is as it was. *)
Lemma created_old_block p : p < mm_brk (w_mem w) → mm_blocks (w_mem w') !! p = mm_blocks (w_mem w) !! p.
Proof using Hjn.
  intros Hp. destruct (jn_mem _ _ _ _ _ _ _ _ _ _ Hjn) as (br & bc & bh & kept & E & _ & Hkept).
  assert (Hne : ∀ q, q ∈ [r; of_coro f; callee] → q ≠ p) by (intros q Hq ->; pose proof (jn_new _ _ _ _ _ _ _ _ _ _ Hjn p (or_introl Hq)); lia).
  assert (HX : X !! p = None) by (apply not_elem_of_dom; intros Hd; pose proof (jn_new _ _ _ _ _ _ _ _ _ _ Hjn p (or_intror Hd)); lia).
  rewrite E, lookup_union_r.
  - rewrite lookup_insert_ne, lookup_union_r, !lookup_insert_ne; try done; apply Hne; rewrite !elem_of_cons; tauto.
  - destruct Hkept as [[-> _]|(_ & b & -> & Hb & _)]; [done|]. apply lookup_singleton_ne. lia.
Qed.

(** The parameters of the thread are those there were, or new. *)
Lemma created_key :
  (w_out_key w' = w_out_key w ∨ w_out_key w = NULL ∧ mm_brk (w_mem w) ≤ w_out_key w') ∧
  (∀ p, p ∈ parts r new_flush → p ≠ w_out_key w') ∧
  ∀ p, is_Some (mm_blocks (w_mem w') !! p) ↔
    p ∈ parts r new_flush ∨ p = w_out_key w' ∧ w_out_key w' ≠ w_out_key w ∨ is_Some (mm_blocks (w_mem w) !! p).
Proof using HI Hjn.
  destruct (jn_mem _ _ _ _ _ _ _ _ _ _ Hjn) as (br & bc & bh & kept & E & _ & Hk).
  assert (Hp : ∀ p, is_Some (mm_blocks (w_mem w') !! p) ↔
    is_Some (kept !! p) ∨ p ∈ parts r new_flush ∨ is_Some (mm_blocks (w_mem w) !! p)).
  { intros p. rewrite E, lookup_union_is_Some, lookup_insert_is_Some', lookup_union_is_Some, !lookup_insert_is_Some', new_parts, <- (elem_of_dom X p), !elem_of_cons.
    clear. pose proof (not_elem_of_nil p). split; intuition congruence. }
  destruct (im_fresh HI) as ([[[Hb16 _] _] _ _ _ _ _ _ _ _ _] & _ & Hkey).
  destruct Hk as [[-> Hk]|(Hk & b & -> & Hkb & Hkn & HkX)].
  - split; [by left|]. split.
    + intros p Hin. rewrite Hk. pose proof (new_above p Hin). lia.
    + intros p. rewrite Hp, lookup_empty, Hk. split; [intros [[? [=]]|[?|?]]; auto|intros [?|[[_ []]|?]]; auto].
  - split; [by right|]. split.
    + intros p Hin ->. by apply new_parts in Hin as [?|?].
    + intros p. rewrite Hp. split.
      * intros [[? [<- _]%lookup_singleton_Some]|[?|?]]; auto. right. left. split; [done|]. rewrite Hk. unfold NULL. lia.
      * intros [?|[[-> _]|?]]; auto. left. rewrite lookup_singleton_eq. by eexists.
Qed.

Lemma created_trace : ∃ errs, w_trace w' = w_trace w ++ errs ∧ quiet lib errs.
Proof using Hjn.
  destruct (jn_trace _ _ _ _ _ _ _ _ _ _ Hjn) as [E|E].
  - exists []. rewrite app_nil_r. split; [done|constructor].
  - exists [Ev_error]. split; [done|]. apply errors_quiet. by repeat constructor.
Qed.

Lemma created_tally r' : calls w' r' = calls w r' ∧ reports w' r' = reports w r'.
Proof using Hjn. destruct created_trace as (errs & E & Hq). unfold calls, reports. rewrite E. by apply (quiet_app lib). Qed.

Lemma created_messages : messages w' = messages w.
Proof using Hjn. destruct created_trace as (errs & E & Hq). unfold Engine.messages. rewrite E. by apply quiet_messages_app. Qed.

Lemma created_new : flush_ok w' r new_flush.
Proof using All.
  destruct created_key as (_ & Hk & _). destruct (created_tally r) as [Hc Hr].
  destruct (im_future HI r) as [Hc0 Hr0]; [apply new_above; by left|].
  pose proof Hjn as [Hnd Hap Hnew Efl Eco Eth Hph _ _ _ _ _ _ _ (br & bc & bh & kept & E & Hlen & Hkept) _ _ Hck].
  split; simpl; rewrite ?Efl, ?Eco, ?Eth, ?Hc, ?Hr, ?Hc0, ?Hr0; try done; try apply lookup_insert_eq.
  - eexists. apply lookup_insert_eq.
  - intros params ->. destruct Hph as [?|(? & [= <-] & Hpf & Hpc)]; [done|]. split; [done|]. by exists t.
  - exists br. split; [|done]. rewrite !NoDup_cons, !not_elem_of_cons in Hnd.
    destruct Hnd as ((N1 & N2 & _) & (N3 & _) & _). rewrite E, lookup_union_r.
    + assert (X !! r = None) by (apply not_elem_of_dom; intros Hd%Hap; apply Hd; by left).
      by rewrite lookup_insert_ne, lookup_union_r, lookup_insert_ne, lookup_insert_eq by congruence.
    + destruct Hkept as [[-> _]|(_ & b & -> & _ & Hkn & _)]; [done|]. apply lookup_singleton_ne. intros <-. apply Hkn. by left.
  - intros p Hp. split; [|by apply Hk]. pose proof (new_above p Hp). pose proof (proj1 (proj2 (im_fresh HI))). lia.
  - by destruct Hph as [->|(params & -> & _)].
Qed.

(** The block of the chunk of another flush stays vacant. *)
Lemma created_vacant r' a' p : as_flushes A !! r' = Some a' → p ∈ af_blocks a' → vacant p w → vacant p w'.
Proof using All.
  intros Ha Hin Hv. assert (Hp : p ∈ parts r' a') by (apply elem_of_parts; tauto).
  destruct (parts_live w A r' a' p HI Ha Hp) as ([b Hb] & [_ Hlow] & _).
  pose proof (proj2 (proj1 (fa_wf _ (proj1 (im_fresh HI)))) p b Hb) as Hend.
  assert (Hno : ∀ q, q ∈ [r; of_coro f; callee] ∨ q ∈ dom X → p ≠ q)
    by (intros q Hq; pose proof (jn_new _ _ _ _ _ _ _ _ _ _ Hjn q Hq); lia).
  destruct created_key as (Hk & _). destruct (queue_head _ o Ho) as [Hkq _].
  pose proof Hjn as [_ _ Hnew Efl Eco _ _ _ Hag Ech _ (_ & _ & _ & _ & _ & _ & Eic & Eip) Hpa _ _ _ _ _].
  apply (vacant_same p w); rewrite ?Efl, ?Eco, ?Eic, ?Eip; try done.
  - apply lookup_insert_ne, not_eq_sym, Hno. left. by right; left.
  - apply lookup_insert_ne, not_eq_sym, Hno. left. by left.
  - apply Ech. intros Hd. by apply (Hno p (or_intror Hd)).
  - apply Hpa. destruct Hk as [->|[_ Hk]]; [by apply (fo_parts (im_flush HI r' a' Ha))|lia].
  - by apply created_old_block.
  - intros q Hq. unfold block_size in Hq. rewrite Hb in Hq. destruct (Hag q) as [-> ->]; [|done].
    assert (mm_brk (w_mem w) ≤ r) as Hr by (apply Hnew; left; by left).
    rewrite elem_of_cons. intros [->|Hin']; [unfold of_head_off in Hq; simpl in Hq; lia|].
    assert (Hout : q < p ∨ p + block_size p (w_mem w) ≤ q).
    { apply (node_apart w A r' a' _ _ q p HI Ha Hkq Hin'); [|done]. intros ->.
      by destruct (blocks_apart w A r' a' r' a' r' HI Ha Ha Hin). }
    unfold block_size in Hout. rewrite Hb in Hout. lia.
Qed.

Lemma created_old r' a' : as_flushes A !! r' = Some a' → flush_ok w' r' a'.
Proof using All.
  intros Ha. destruct created_key as (Hk & _ & _). destruct (created_tally r') as [Hc Hr].
  assert (Hlow : ∀ p, p ∈ parts r' a' → p < mm_brk (w_mem w)) by (intros p Hp; by apply (parts_live w A r' a' p HI Ha Hp)).
  assert (Hne : ∀ p q, p ∈ parts r' a' → q ∈ [r; of_coro f; callee] ∨ q ∈ dom X → q ≠ p)
    by (intros p q Hp%Hlow Hq; pose proof (jn_new _ _ _ _ _ _ _ _ _ _ Hjn q Hq); lia).
  pose proof Hjn as [_ _ _ Efl Eco Eth _ _ _ Ech _ _ _ _ _ _ _ _].
  apply (flush_ok_frame w); [by apply (im_flush HI)|..]; rewrite ?Efl, ?Eco, ?Eth; try done.
  - apply lookup_insert_ne, Hne; [by left|left; by left].
  - apply lookup_insert_ne, Hne; [by right; left|left; by right; left].
  - apply lookup_insert_ne, Hne; [by right; right; left|left; by right; right; left].
  - apply created_old_block, Hlow. by left.
  - intros p Hp. pose proof (Hlow p Hp). destruct Hk as [->|[_ Hk]]; [|lia]. by apply (fo_parts (im_flush HI r' a' Ha)).
  - apply (chunk_ok_frame w); [apply (fo_chunk (im_flush HI r' a' Ha))|..].
    + intros Hn. apply Ech. intros Hd. apply (Hne (processed a') (processed a')); [|by right|done].
      apply elem_of_parts. right. right. right. by apply (chunk_in w), Hn; apply (fo_chunk (im_flush HI r' a' Ha)).
    + intros p Hp. by apply (created_vacant r' a').
Qed.

Lemma created_lists : lists_hold head_of (ts_list (w_store w')) (content (a_create r new_flush A)).
Proof using All.
  destruct (queue_head _ o Ho) as [Hkq _].
  assert (Hr : mm_brk (w_mem w) ≤ r) by (apply (jn_new _ _ _ _ _ _ _ _ _ _ Hjn); left; by left).
  pose proof (jn_list _ _ _ _ _ _ _ _ _ _ Hjn) as Hl. pose proof (jn_frame _ _ _ _ _ _ _ _ _ _ Hjn) as Hag.
  apply (lists_changed _ _ _ _ _ _ _ (r + of_head_off) (lists_disjoint w A HI) (im_lists HI) Hkq); [|exact Hag| |].
  - simpl. unfold enqueue, af_own. simpl. rewrite lookup_total_insert_eq, fmap_app. exact Hl.
  - intros k b Hk Hin. pose proof (list_below w A k b _ HI Hk Hin). unfold of_head_off in *. lia.
  - intros [q|q|tk] Hne; simpl; unfold enqueue, af_own; simpl; [rewrite lookup_total_insert_ne by congruence; done|done..].
Qed.

Lemma created_blocks p :
  is_Some (mm_blocks (w_mem w') !! p) ↔ is_Some (owned !! p) ∨ p = w_out_key w' ∧ p ≠ NULL ∨
    ∃ r' a', <[r := new_flush]> (as_flushes A) !! r' = Some a' ∧ p ∈ parts r' a'.
Proof using All.
  destruct created_key as (Hk & Hkn & Hbl). pose proof new_unknown as Hun. destruct (im_fresh HI) as (Hf & _ & _).
  rewrite Hbl, (im_blocks HI p). split.
  - intros [Hp|[[-> Hp]|[Hp|[[-> Hp]|(r' & a' & Ha' & Hp)]]]].
    + right. right. exists r, new_flush. split; [apply lookup_insert_eq|done].
    + right. left. split; [done|]. destruct Hk as [?|[_ ?]]; [done|]. pose proof (proj1 (proj1 (fa_wf _ Hf))). unfold NULL. lia.
    + by left.
    + right. left. split; [|done]. by destruct Hk as [->|[? _]].
    + right. right. exists r', a'. split; [|done]. rewrite lookup_insert_ne; [done|]. intros <-. congruence.
  - intros [Hp|[[-> Hp]|(r' & a' & [[<- <-]|[_ Ha']]%lookup_insert_Some & Hp)]]; [by auto| |by auto|].
    + right. destruct (decide (w_out_key w' = w_out_key w)) as [E|E]; [|by left]. right. right. left. by rewrite <- E.
    + right. right. right. right. eauto.
Qed.

(** The blocks, the chunks of before are still there; a new chunk is the one
    of the new flush. *)
Lemma created_static : owned ⊆ mm_blocks (w_mem w') ∧ chunks ⊆ w_chunks w' ∧
  ∀ p, is_Some (w_chunks w' !! p) → is_Some (chunks !! p) ∨
    ∃ r' a', <[r := new_flush]> (as_flushes A) !! r' = Some a' ∧ processed a' = p ∧ p ≠ NULL.
Proof using All.
  pose proof (proj2 (proj2 (proj2 (st_below Hset)))) as Hob. pose proof (proj1 (proj2 (proj2 (st_below Hset)))) as Hcb.
  pose proof (proj1 (proj2 (im_fresh HI))) as Hb. pose proof new_unknown as Hun.
  pose proof (jn_new _ _ _ _ _ _ _ _ _ _ Hjn) as Hnew. pose proof (jn_chunks _ _ _ _ _ _ _ _ _ _ Hjn) as Hch.
  split; [|split].
  - apply map_subseteq_spec. intros p x Hx. rewrite created_old_block; [by eapply lookup_weaken, (im_owned HI)|].
    specialize (Hob p ltac:(by eexists)). lia.
  - apply map_subseteq_spec. intros p x Hx. rewrite Hch; [by eapply lookup_weaken, (im_chunks HI)|].
    intros Hd. pose proof (Hnew p (or_intror Hd)). rewrite Hcb in Hx; [done|lia].
  - intros p Hs. destruct (decide (p ∈ dom X)) as [Hd|Hd].
    + right. exists r, new_flush. split; [apply lookup_insert_eq|]. split; [symmetry; by apply (jn_own_chunks _ _ _ _ _ _ _ _ _ _ Hjn)|].
      intros ->. apply (jn_apart _ _ _ _ _ _ _ _ _ _ Hjn NULL Hd). set_solver.
    + rewrite Hch in Hs by done. destruct (im_own_chunks HI p Hs) as [?|(r' & a' & Ha' & ?)]; [by left|right].
      exists r', a'. split; [|done]. rewrite lookup_insert_ne; [done|]. intros <-. congruence.
Qed.

Lemma created_implements : implements w' (a_create r new_flush A).
Proof using All.
  destruct created_key as (Hk & _ & Hbl). pose proof new_unknown as Hun. pose proof created_static as (Hs1 & Hs2 & Hs3).
  destruct (im_fresh HI) as (Hf & Hb & Hkey). destruct (im_active HI) as [Hac Hen]. destruct (im_static HI) as (St1 & St2 & St3 & St4).
  pose proof Hjn as [_ _ Hnew Efl Eco Eth Hph _ _ _ _ (Ets & Ert & Eac & Eou & Eot & Ecf & _) _ Hwf _ [Hbrk Hfr] _ _].
  split; simpl; rewrite ?Eou, ?Ecf, ?Ets, ?Eot; try done.
  - split; [by apply Hfr|]. split; [lia|]. destruct Hk as [->|[Hk0 Hk]]; [lia|].
    assert (is_Some (mm_blocks (w_mem w') !! w_out_key w')) as [bk Hbk].
    { apply Hbl. right. left. split; [done|]. rewrite Hk0. pose proof (proj1 (proj1 (fa_wf _ Hf))). unfold NULL. lia. }
    pose proof (proj2 (proj1 Hwf) _ _ Hbk). lia.
  - rewrite Eac, Eth, lookup_insert_ne; [done|]. intros E. assert (mm_brk (w_mem w) ≤ callee) by (apply Hnew; left; by right; right; left).
    pose proof (proj1 (st_below Hset)). lia.
  - apply created_lists.
  - rewrite Ert. apply (im_routes HI).
  - apply (routes_apart_same A); [done|apply (im_routes_apart HI)].
  - apply (im_tasks HI).
  - apply (queues_create _ _ _ _ _ (im_queues HI)); [apply new_unknown|]. unfold finished. simpl.
    by destruct Hph as [->|(? & -> & _)].
  - intros r' a' [[<- <-]|[_ Ha']]%lookup_insert_Some; [apply created_new|by apply created_old].
  - intros r' [Hn Hne]%lookup_insert_None. rewrite Efl, lookup_insert_ne by done. by apply (im_none HI).
  - intros r1 r2 a1 a2 p [[<- <-]|[_ H1]]%lookup_insert_Some [[<- <-]|[_ H2]]%lookup_insert_Some Hp1 Hp2; [done|..].
    + by destruct (old_below r2 a2 p H2 Hp2).
    + by destruct (old_below r1 a1 p H1 Hp1).
    + by apply (im_apart HI r1 r2 a1 a2 p).
  - apply created_blocks.
  - intros r' [Hn _]%lookup_insert_None. destruct (created_tally r') as [-> ->]. by apply (im_past HI).
  - intros r' Hr'. destruct (created_tally r') as [-> ->]. apply (im_future HI). lia.
  - rewrite created_messages. apply (im_log HI).
  - intros c Hc. pose proof (im_logged HI c Hc). lia.
Qed.

(** The new flush has not reported. *)
Lemma new_unlogged : r ∉ cm_flush <$> as_log A.
Proof using HI Hjn.
  intros (c & E & Hc)%list_elem_of_fmap. pose proof (im_logged HI c Hc).
  pose proof (new_above r ltac:(by left)). lia.
Qed.

Lemma created_step : astep A (a_create r new_flush A).
Proof using All.
  apply astep_create; [exact new_unknown|exact new_unlogged|].
  destruct (jn_phase _ _ _ _ _ _ _ _ _ _ Hjn) as [->|(params & -> & _)]; [by left|right; by exists params].
Qed.
End created.

(** The two ways in which a flush joins: without a processor, *)
Lemma joined_plain task o_ins config w w' t evc o l r id coro callee st :
  created_as task o_ins config worker w w' t evc o l r id coro callee st →
  ∃ ph, joined w w' t o l r callee (OutputFlush id (ec_data evc) task config o_ins coro NULL) ph ∅.
Proof.
  intros [Hnew Efl Eco Eth Hl Hag (Ets & Ert & Eac & _ & Ech & Eou & Eot) Hwf Hmem (Ecf & Hbrk & Hfr) Hst (Eic & Eip & Hpar)].
  assert (∃ ph, st = thread_of ph ∧ (w_trace w' = w_trace w ∨ w_trace w' = w_trace w ++ [Ev_error]) ∧
    (ph = Unstarted ∨ ∃ params, ph = Ready params ∧ fp_out_flush params = r ∧ fp_event_chunk params = tk_event_chunk t))
    as (ph & -> & Htr & Hph).
  { destruct Hst as [[-> ?]|(-> & _ & ?)]; [|by exists Unstarted; auto].
    eexists (Ready _). split; [done|]. split; [by left|]. right. by eexists. }
  exists ph. split; simpl; try done; rewrite ?dom_empty_L.
  - destruct Hnew as ((? & ? & ?) & _ & ? & ? & ?). rewrite !NoDup_cons, !not_elem_of_cons.
    pose proof (not_elem_of_nil (A := Z)). repeat split; auto using NoDup_nil_2.
  - intros p [Hp|[]%elem_of_empty]. destruct Hnew as (_ & (? & ? & ?) & _).
    rewrite !elem_of_cons in Hp. by destruct Hp as [->|[->|[->|[]%not_elem_of_nil]]].
  - intros p _. by rewrite Ech.
  - destruct Hmem as (br & bc & bh & kept & E & Hlen & Hk). exists br, bc, bh, kept. rewrite (left_id_L ∅ (∪)). split; [done|]. split; [done|].
    destruct Hk as [?|(? & b & ? & ? & ?)]; [by left|right]. split; [done|]. exists b. split_and!; try done.
  - by left.
Qed.

(** and with one, which has left new records. *)
Lemma joined_processed task o_ins config w w' t evc o cfg l tag_len r id coro tmp pc callee st :
  logs_ok lib chunk_blocks → processed_pre lib task o_ins config worker w t evc o cfg l tag_len →
  delivers chunk_blocks config worker w t evc o l r coro (OutputFlush id (ec_data evc) task config o_ins coro NULL) tmp pc w' callee st →
  ec_data pc ≠ ec_data evc → w_out_key w < mm_brk (w_mem w) →
  ∃ ph X, joined w w' t o l r callee (OutputFlush id (ec_data evc) task config o_ins coro tmp) ph X.
Proof.
  intros Hlogs Hpre Hdl Hne Hkey.
  pose proof Hdl as [(Hr0 & Hc0 & Hh0 & Ht0) Efl [Ech _] Eco Eth Hst Hl Hag (Ets & Ert & Eac & Eou & Eot & Ecf & Eic & Eip) Hpar
    (Hr & Hc & Hh & Htb) (N1 & N2 & N3) Hwf (br & bc & bh & X & Y & kept & E & Hlen & Hbuf & Hown & HY & HXY & Hnew & Hkept & Hk) Hab].
  assert (∃ b, X = {[ ec_data pc := b ]}) as [b HX] by (by destruct Hbuf as [[? _]|[_ ?]]).
  assert (HdX : dom X = {[ ec_data pc ]}) by (rewrite HX; apply dom_singleton_L).
  assert (Hkd : ∀ p, p ∈ dom (Y ∪ X) → p ≠ w_out_key w').
  { intros p Hp ->. destruct (Hnew _ Hp) as [Hlow _]. destruct Hk as [[_ Ek]|[_ [b' Ek]]]; [lia|].
    destruct (Hkept (w_out_key w')) as (_ & _ & Hno); [rewrite Ek, dom_singleton_L; by apply elem_of_singleton|done]. }
  assert (Hin : ec_data pc ∈ dom (Y ∪ X)) by (rewrite dom_union_L, HdX; set_solver).
  assert (Htd : tmp ∈ dom (Y ∪ X)) by (rewrite dom_union_L, HY; set_solver).
  assert (Hnt : ec_data pc ∉ chunk_blocks tmp) by (rewrite HdX in HXY; set_solver).
  assert (∃ ph, st = thread_of ph ∧ (w_trace w' = w_trace w ∨ w_trace w' = w_trace w ++ [Ev_error]) ∧
    (ph = Unstarted ∨ ∃ params, ph = Ready params ∧ fp_out_flush params = r ∧ fp_event_chunk params = tmp))
    as (ph & -> & Htr & Hph).
  { destruct Hst as [[-> ?]|(-> & _ & ?)]; [|by exists Unstarted; auto].
    eexists (Ready _). split; [done|]. split; [by left|]. right. by eexists. }
  exists ph, (Y ∪ X). split; simpl; try done.
  - rewrite !NoDup_cons, !not_elem_of_cons. pose proof (not_elem_of_nil (A := Z)). repeat split; auto using NoDup_nil_2.
  - intros p Hp. destruct (Hnew p Hp) as (? & ? & Hno). rewrite !not_elem_of_cons in Hno. destruct Hno as (? & ? & _).
    unfold of_head_off in *. rewrite !not_elem_of_cons.
    pose proof (proj1 (proj1 (fa_wf _ (pp_fresh _ _ _ _ _ _ _ _ _ _ _ _ Hpre)))). unfold NULL. split_and!; [lia|done|done|lia|apply not_elem_of_nil].
  - intros p [Hp|Hp]; [|by apply Hnew]. rewrite !elem_of_cons in Hp. by destruct Hp as [->|[->|[->|[]%not_elem_of_nil]]].
  - destruct Hph as [->|(params & -> & ? & Hpc)]; [by left|right]. exists params. split_and!; try done.
    unfold flush_chunk. simpl. by rewrite decide_True.
  - intros p Hp. rewrite Ech, lookup_insert_ne; [done|]. by intros <-.
  - intros p Hp Hs. destruct (decide (p = tmp)) as [->|Hn]; [done|]. rewrite Ech, lookup_insert_ne in Hs by done.
    destruct (Hnew p Hp) as [Hlow _]. rewrite (fa_chunks _ (pp_fresh _ _ _ _ _ _ _ _ _ _ _ _ Hpre) p Hlow) in Hs. by destruct Hs.
  - exists br, bc, bh, kept. split; [done|]. split; [done|]. destruct Hk as [?|[? [b' Ek]]]; [by left|right]. split; [done|].
    exists b'. split; [done|]. apply Hkept. rewrite Ek, dom_singleton_L. by apply elem_of_singleton.
  - right. split; [done|]. split; [by destruct Hph as [->|(? & -> & _)]|]. exists pc. split; try done.
    + unfold processed. simpl. rewrite Ech. apply lookup_insert_eq.
    + simpl. rewrite dom_union_L, HdX, HY. apply (comm_L (∪)).
    + destruct (Hnew _ Hin) as (? & ? & Hno). rewrite !not_elem_of_cons in Hno.
      apply (delivers_vacant lib chunk_blocks task o_ins config worker t o evc cfg w l tag_len Hpre _ _ _ _ _ _ _ _ _ Hdl);
        [done|done|apply Hno| |by apply Hkd]. intros Et. by rewrite Et in Hnt.
Qed.

(** The world the processors find. *)
Lemma processed_pre_ok w A task o_ins config t o evc cfg tag_len :
  implements w A → tasks !! task = Some t → outs !! o_ins = Some o → configs !! config = Some cfg →
  chunks !! tk_event_chunk t = Some evc → is_Some (owned !! ec_data evc) →
  flb_sds_len (ec_tag evc - FLB_SDS_HEADER_SIZE, FLB_SDS_HEADER_SIZE) (Mem owned base []) = Some tag_len →
  ol_processor_is_active lib (oi_processor o) ≠ 0 →
  processed_pre lib task o_ins config worker w t evc o cfg (content A (KQueue (own o_ins))) tag_len.
Proof.
  intros HI Ht Ho Hcfg Hev Hdo Htag Hp. destruct (im_static HI) as (Eo & Ec & Et & Ew).
  split; rewrite ?Eo, ?Ec, ?Et, ?Ew; try done.
  - apply (im_fresh HI).
  - by eapply lookup_weaken, (im_chunks HI).
  - by apply (im_lists HI), queue_head.
  - by apply (worker_thread lib Hset o_ins).
  - rewrite <- Htag. apply sds_len_same. simpl.
    destruct (owned !! (ec_tag evc - FLB_SDS_HEADER_SIZE)) as [b|] eqn:Hb; [by eapply lookup_weaken, (im_owned HI)|].
    unfold flb_sds_len, FLB_SDS_HEADER, ld_u64, mem_load, mem_slice in Htag. simpl in Htag. by rewrite Hb in Htag.
  - destruct Hdo as [b Hb]. exists b. by eapply lookup_weaken, (im_owned HI).
Qed.

(** What has come of a creation: nothing but events, or a flush has joined. *)
Definition settled (w w' : world) (A : astate) (task o_ins : ptr) (t : flb_task) (o : flb_output_instance) (r : ptr) : Prop :=
  ∃ evs, Forall context_event evs ∧ let v := after_events w evs in
    (as_before v w' ∨ ∃ f callee ph X, of_task f = task ∧ of_o_ins f = o_ins ∧
       joined v w' t o (content A (KQueue (own (of_o_ins f)))) r callee f ph X).

Lemma settled_now w w' A task o_ins t o r :
  (as_before w w' ∨ ∃ f callee ph X, of_task f = task ∧ of_o_ins f = o_ins ∧
     joined w w' t o (content A (KQueue (own (of_o_ins f)))) r callee f ph X) → settled w w' A task o_ins t o r.
Proof.
  intros H. exists []. split; [constructor|]. assert (after_events w [] = w) as -> by (rewrite app_nil_r; by destruct w). exact H.
Qed.

(** Creation on logs, *)
Lemma create_runs_logs w A task i_ins o_ins config t o evc cfg tag_len :
  processed_pre lib task o_ins config worker w t evc o cfg (content A (KQueue (own o_ins))) tag_len →
  ec_type evc = FLB_EVENT_TYPE_LOGS → logs_ok lib chunk_blocks → copies lib (oi_processor o) → w_out_key w < mm_brk (w_mem w) →
  ∃ r w', flb_output_flush_create lib task i_ins o_ins config w = Some (r, w') ∧ settled w w' A task o_ins t o r.
Proof.
  intros Hpre Hty Hlogs Hcopies Hkey.
  destruct (create_logs lib chunk_blocks Hco Hlogs task i_ins o_ins config worker w t evc o cfg _ tag_len Hpre Hty) as (r & w' & E & Hcase).
  exists r, w'. split; [done|]. apply settled_now.
  assert (Hnew : ∀ p n, leaves_records lib evc o tag_len p n → p ≠ ec_data evc).
  { intros p n (m & m' & ret & Hwf & Hdm & Er & ? & ?). by apply (Hcopies _ _ _ _ _ _ _ _ _ Hwf Hdm Er). }
  destruct Hcase as [[_ [?|(p & n & Hp' & Hg)]]|(id & coro & tmp & pc & callee & st & Hdl & _ & Hp')]; [by left|left|right].
  - apply (given_up_before _ _ _ _ Hg). by eapply Hnew.
  - destruct (joined_processed _ _ _ _ _ _ _ _ _ _ _ _ _ _ _ _ _ _ Hlogs Hpre Hdl) as (ph & X & Hjn); [by eapply Hnew|done|].
    by exists (OutputFlush id (ec_data evc) task config o_ins coro tmp), callee, ph, X.
Qed.

(** on metrics and traces. *)
Lemma create_runs_telemetry w A task i_ins o_ins config t o evc cfg tag_len tl :
  processed_pre lib task o_ins config worker w t evc o cfg (content A (KQueue (own o_ins))) tag_len →
  telemetry_kind lib evc tl → telemetry_fits tl (oi_processor o) evc tag_len (w_mem w) → logs_ok lib chunk_blocks →
  w_out_key w < mm_brk (w_mem w) →
  ∃ r w', flb_output_flush_create lib task i_ins o_ins config w = Some (r, w') ∧ settled w w' A task o_ins t o r.
Proof.
  intros Hpre Hk (enc & data & Htl & Hd & Hs & Hr) Hlogs Hkey.
  destruct (create_telemetry lib chunk_blocks Hco Hlogs task i_ins o_ins config worker w t evc o cfg _ tag_len Hpre tl Hk enc Htl data Hd Hs Hr)
    as (r & w' & evs & E & He & Hcase).
  exists r, w'. split; [done|]. exists evs. split; [done|].
  destruct Hcase as [[_ ?]|(id & coro & tmp & pc & callee & st & Hdl & Hdb & _)]; [by left|right].
  destruct (joined_processed _ _ _ _ _ _ _ _ _ _ _ _ _ _ _ _ _ _ Hlogs (processed_pre_events _ _ _ _ _ _ _ _ _ _ _ _ _ Hpre) Hdl)
    as (ph & X & Hjn); [apply Hdb|done|].
  by exists (OutputFlush id (ec_data evc) task config o_ins coro tmp), callee, ph, X.
Qed.

(** Every creation has a result. *)
Lemma create_runs w A task i_ins o_ins config t o :
  implements w A → tasks !! task = Some t → outs !! o_ins = Some o → is_Some (configs !! config) →
  ∃ r w', flb_output_flush_create lib task i_ins o_ins config w = Some (r, w') ∧ settled w w' A task o_ins t o r.
Proof.
  intros HI Ht Ho [cfg Hcfg]. destruct (im_static HI) as (Eo & Ec & Et & Ew).
  destruct (st_task Hset task t Ht) as [_ (evc & tag_len & Hev & Hdo & Htag)].
  pose proof (proj2 (proj2 (im_fresh HI))) as Hkey.
  destruct (decide (unprocessed lib evc o)) as [Hu|Hu].
  { destruct (create_cases lib Hco task i_ins o_ins config worker w t evc o cfg (content A (KQueue (own o_ins)))) as (r & w' & E & Hcase).
    { split; rewrite ?Eo, ?Ec, ?Et, ?Ew; try done; [apply (im_fresh HI)|by eapply lookup_weaken, (im_chunks HI)|by apply (im_lists HI), queue_head|].
      by apply (worker_thread lib Hset o_ins). }
    exists r, w'. split; [done|]. apply settled_now. destruct Hcase as [[_ ?]|(id & coro & callee & st & Hcr)]; [by left|right].
    destruct (joined_plain _ _ _ _ _ _ _ _ _ _ _ _ _ _ Hcr) as [ph Hjn].
    by exists (OutputFlush id (ec_data evc) task config o_ins coro NULL), callee, ph, ∅. }
  assert (Hp : ol_processor_is_active lib (oi_processor o) ≠ 0) by (intros E; apply Hu; by left).
  destruct (st_out Hset o_ins o Ho) as [?|[Hlogs Hcopies]]; [done|].
  pose proof (processed_pre_ok w A task o_ins config t o evc cfg tag_len HI Ht Ho Hcfg Hev Hdo Htag Hp) as Hpre.
  destruct (decide (ec_type evc = FLB_EVENT_TYPE_LOGS)) as [Hty|Hty]; [by eapply create_runs_logs|].
  assert (∃ tl, telemetry_kind lib evc tl) as [tl Hk].
  { destruct (decide (ec_type evc = FLB_EVENT_TYPE_METRICS)) as [Hm|Hm]; [exists (ol_metrics lib); by left|].
    destruct (decide (ec_type evc = FLB_EVENT_TYPE_TRACES)) as [Htr|Htr]; [exists (ol_traces lib); by right|].
    exfalso. apply Hu. right. rewrite !not_elem_of_cons. pose proof (not_elem_of_nil (ec_type evc)). tauto. }
  eapply (create_runs_telemetry w A); try done.
  destruct (st_telemetry Hset o_ins o task t evc tag_len tl Ho Hp Ht Hev Hk Htag) as (enc & data & Htl & Hd & Hrest).
  exists enc, data. split; [done|]. split; [|done]. apply (mem_load_sub _ _ _ _ _ _ Hd), (im_owned HI).
Qed.

Lemma create_sim w A task i_ins o_ins config :
  implements w A → is_Some (tasks !! task) → is_Some (outs !! o_ins) → is_Some (configs !! config) →
  ∃ r w' A', flb_output_flush_create lib task i_ins o_ins config w = Some (r, w') ∧ astep A A' ∧ implements w' A'.
Proof.
  intros HI0 [t Ht] [o Ho] Hc.
  destruct (create_runs w A task i_ins o_ins config t o HI0 Ht Ho Hc) as (r & w' & E & evs & He & Hcase).
  pose proof (events_implements w A evs HI0 He) as HI.
  destruct Hcase as [Hab|(f & callee & ph & X & <- & <- & Hjn)].
  - exists r, w', A. split; [done|]. split; [constructor|by eapply failed_create].
  - exists r, w', (a_create r (new_flush callee f ph X) A). split; [done|]. split; [by eapply created_step|by eapply created_implements].
Qed.

(** * Every step *)

Lemma step_sim w A w' :
  implements w A → engine_step lib w w' → ∃ A', astep A A' ∧ implements w' A'.
Proof.
  intros HI [task i_ins o_ins config r w1 Ht Ho Hc E|r f c st w1 Hat Hst E|task o_ins s Ht E|r f c w1 Hat E].
  - destruct (create_sim w A task i_ins o_ins config HI Ht Ho Hc) as (r' & w2 & A' & E' & Hst & HI').
    rewrite E in E'. injection E' as <- <-. by exists A'.
  - destruct (resume_sim lib Hset w A r f c st HI Hat Hst) as (a & _ & -> & w2 & A' & E' & Hs & HI' & _).
    rewrite E in E'. injection E' as <-. by exists A'.
  - destruct (drop_sim lib w A task o_ins HI Ht) as (s' & E' & HI'). rewrite E in E'. injection E' as <-.
    eexists. split; [apply astep_drop|exact HI'].
  - destruct (destroy_sim w A r f c HI Hat) as (w2 & a & E' & Ha & Hph & HI').
    rewrite E in E'. injection E' as <-. eexists. split; [by apply (astep_destroy _ _ _ _ r a)|exact HI'].
Qed.
End spec.
