(* ===== verification/EngineSpec.v ===== *)
(** The engine refines its abstract machine, and what follows: safety,
    ownership, progress, completion and the messages it receives. *)
From S2P Require Import Prelude MkList MkListSpec Mem MkEvent Codes Task Bytes Structs Runtime RuntimeSpec Output OutputSpec Logs Telemetry TelemetryLife Lifecycle Queues Engine EngineSim EngineStep.

(** * The log of the abstract machine *)

Section log.
Context (own : ptr → keeper) (starts : flb_out_flush_params → cb_result → Prop) (goes_on : Z → cb_result → Prop).

Abbreviation astep := (astep own starts goes_on).

Lemma log_ok_finish A r a x n st :
  as_flushes A !! r = Some a → af_phase a ≠ Finished → log_ok A →
  log_ok (a_finish own r a x n (a_route a st A)).
Proof.
  intros Ha Hph [Ho Hd Hp]. split; simpl.
  - rewrite fmap_app. apply NoDup_app. split_and!; [done| |apply NoDup_singleton].
    intros r' Hr' E. simpl in E. apply list_elem_of_singleton in E as ->. by apply (Hp r a).
  - intros r' a' [[<- <-]|[_ Ha']]%lookup_insert_Some Hf.
    + exists x, n. apply elem_of_app. right. by left.
    + destruct (Hd r' a' Ha' Hf) as (y & m & Hy). exists y, m. apply elem_of_app. by left.
  - intros r' a' [[<- <-]|[Hne Ha']]%lookup_insert_Some Hf; [done|].
    rewrite fmap_app, not_elem_of_app. simpl. rewrite list_elem_of_singleton. split; [by apply (Hp r' a')|done].
Qed.

Lemma log_ok_wait A r a k A' :
  as_flushes A !! r = Some a → af_phase a ≠ Finished → as_flushes A' = as_flushes A → as_log A' = as_log A →
  log_ok A → log_ok (a_wait r a k A').
Proof.
  intros Ha Hph Ef El [Ho Hd Hp]. split; simpl; rewrite ?Ef, ?El; try done;
    intros r' a' [[<- <-]|[_ Ha']]%lookup_insert_Some Hf; try done; [by apply Hd|by apply (Hp r a)|by apply (Hp r' a')].
Qed.

(** Every step keeps the invariant of the log. *)
Lemma astep_log_ok A A' : astep A A' → log_ok A → log_ok A'.
Proof.
  intros [ |r a Hr Hl Hph|r a params n Ha Hph|r a params k Ha Hph|r a params x n Ha Hph|r a k k' Ha Hph|r a k x n Ha Hph
         |task o_ins|r a Ha Hph] Hok; try done.
  - destruct Hok as [Ho Hd Hp]. split; simpl; [done|..]; intros r' a' [[<- <-]|[_ Ha']]%lookup_insert_Some Hf; try done.
    + destruct Hph as [E|[? E]]; congruence.
    + by apply Hd.
    + by apply (Hp r' a').
  - apply log_ok_finish; congruence.
  - eapply log_ok_wait; try done. congruence.
  - apply log_ok_finish; congruence.
  - eapply log_ok_wait; try done. congruence.
  - apply log_ok_finish; congruence.
  - by destruct Hok.
  - destruct Hok as [Ho Hd Hp]. split; simpl; [done|..]; intros r' a' [_ Ha']%lookup_delete_Some; [by apply Hd|by apply Hp].
Qed.

(** A step adds to the log what a plugin has returned, or an error. *)
Lemma astep_log A A' :
  astep A A' → ∃ l, as_log A' = as_log A ++ l ∧ Forall (genuine starts goes_on) l.
Proof.
  intros Hs. destruct Hs; try (exists []; by rewrite app_nil_r);
    (eexists; split; [reflexivity|]; apply Forall_singleton; unfold genuine; simpl; eauto).
Qed.

Lemma run_log A A' :
  rtc astep A A' → log_ok A →
  log_ok A' ∧ ∃ l, as_log A' = as_log A ++ l ∧ Forall (genuine starts goes_on) l.
Proof.
  induction 1 as [A|A A1 A2 Hs _ IH]; intros Hok; [split; [done|exists []; by rewrite app_nil_r]|].
  destruct (IH (astep_log_ok _ _ Hs Hok)) as (Hok' & l & -> & Hl). split; [done|].
  destruct (astep_log _ _ Hs) as (l' & -> & Hl'). exists (l' ++ l). rewrite app_assoc. split; [done|by apply Forall_app].
Qed.
End log.

(** * Theorems *)

Section spec.
Context `{P : plant} (lib : output_lib) (Hco : libco_ok (ol_co lib)) (Hset : setting lib).

Abbreviation implements := (implements lib).
Abbreviation head_of := (head_of lib).
Abbreviation messages := (messages lib).
Abbreviation messages_of := (messages_of lib).
Abbreviation message := (message lib).
Abbreviation worker := (worker lib).
Abbreviation astep := (astep own (starts lib) (goes_on lib)).
Abbreviation a_create := (a_create own).
Abbreviation a_finish := (a_finish own).
Abbreviation a_destroy := (a_destroy own).

Lemma run_sim w A w' : implements w A → rtc (engine_step lib) w w' → ∃ A', rtc astep A A' ∧ implements w' A'.
Proof. apply (simulation (engine_step lib) astep implements), (step_sim lib Hco Hset). Qed.

(** C1. Refinement.  Whatever sequence of creations, resumptions, dropped
    routes and destructions the engine makes, with any number of flushes under
    way, for outputs with or without processors and chunks of every kind, any
    outcome of the allocations and any plugins that keep to their own data, the
    world it reaches implements a state that the abstract machine reaches: a
    flush is ready, waits, finishes and is destroyed, moving from
    one list of its output to the other. *)
Theorem engine_refinement w A w' :
  implements w A → rtc (engine_step lib) w w' → ∃ A', rtc astep A A' ∧ implements w' A'.
Proof. exact (run_sim w A w'). Qed.

(** C2. Safety, of every world the engine reaches: the callback of a flush
    starts at most once and a flush reports at most once; one that has
    returned has reported, and is in the list of those to destroy; one that
    has not has not reported, and is in the list of those under way. *)
Theorem engine_safety w A w' :
  implements w A → rtc (engine_step lib) w w' →
  (∀ r, (calls w' r ≤ 1)%nat ∧ (reports w' r ≤ 1)%nat) ∧
  ∀ r f c st, coroutine_at w' r f c st → ∃ o l, outs !! of_o_ins f = Some o ∧ r + of_head_off ∈ l ∧
    (st = CT_returned ∧ reports w' r = 1%nat ∧ dll (ts_list (w_store w')) (done_list worker o) l ∨
     st ≠ CT_returned ∧ reports w' r = O ∧ dll (ts_list (w_store w')) (live_list worker o) l).
Proof.
  intros HI0 Hrun. destruct (run_sim w A w' HI0 Hrun) as (A' & _ & HI). split.
  - intros r. destruct (as_flushes A' !! r) as [a|] eqn:Ha; [|by apply (im_past HI)].
    pose proof (fo_counts (im_flush HI r a Ha)) as Hcn. destruct (af_phase a), Hcn as [Hc Hr]; rewrite ?Hc, ?Hr; lia.
  - intros r f c st Hat. destruct (known lib _ _ _ _ _ _ HI Hat) as (a & caller & Ha & -> & -> & ->).
    pose proof (im_flush HI r a Ha) as Hok. destruct (fo_out Hok) as [o Ho]. destruct (queue_head lib Hset _ o Ho) as [Hkq Hkd].
    pose proof (fo_counts Hok) as Hcn. destruct (im_queues HI) as [Hq Hd]. unfold finished in *.
    destruct (decide (af_phase a = Finished)) as [Hph|Hph].
    + exists o, (content A' (KDone (af_own own a))). split; [done|]. rewrite Hph in Hcn |- *. destruct Hcn as [_ Hr].
      split; [apply list_elem_of_fmap; exists r; split; [done|]; apply Hd; by exists a|]. left.
      split; [done|]. split; [done|]. by apply (im_lists HI).
    + exists o, (content A' (KQueue (af_own own a))). split; [done|].
      split; [apply list_elem_of_fmap; exists r; split; [done|]; apply Hq; by exists a|]. right.
      split; [by destruct (af_phase a)|]. split; [|by apply (im_lists HI)]. by destruct (af_phase a), Hcn.
Qed.

(** The flush at [r], if it has not returned, has the chunk [tmp] of its own
    with the records at [data]. *)
Definition owns_chunk (w : world) (r tmp data : ptr) : Prop :=
  ∃ f c st pc, coroutine_at w r f c st ∧ st ≠ CT_returned ∧ of_processed_event_chunk f = tmp ∧ tmp ≠ NULL ∧
    w_chunks w !! tmp = Some pc ∧ ec_data pc = data.

Lemma carries_owns w A r a pc :
  implements w A → as_flushes A !! r = Some a → processed a ≠ NULL → carries lib w a pc →
  owns_chunk w r (processed a) (ec_data pc).
Proof.
  intros HI Ha Hn Hc. destruct (im_flush HI r a Ha) as [Hf Hck [caller Hco'] Hth _ _ _ _ _ _ _ _].
  exists (af_rec a), (Coro caller (af_callee a) r), (thread_of (af_phase a)), pc.
  destruct Hck as [[? _]|(_ & Hph & _)]; [done|]. split; [by split_and!|]. split; [by destruct (af_phase a)|].
  do 2 (split; [done|]). split; [apply (ca_chunk Hc)|done].
Qed.

(** C3. Ownership, of every world the engine reaches.  The chunk a flush will
    deliver is there until the flush has returned, with its records, and
    it is the one its parameters name: that of the task, or the one its
    processors have left.  And nothing leaks: every block and every chunk that
    exists was there before, holds the parameters of the thread, is a part of
    a recorded flush, or belongs to the chunk of one that has not returned. *)
Theorem engine_ownership w A w' :
  implements w A → rtc (engine_step lib) w w' →
  (∀ r f c st, coroutine_at w' r f c st → st ≠ CT_returned →
     ∃ t pc, tasks !! of_task f = Some t ∧ w_chunks w' !! flush_chunk f t = Some pc ∧
       is_Some (mm_blocks (w_mem w') !! ec_data pc) ∧
       ∀ params, st = CT_output_ready params → fp_out_flush params = r ∧ fp_event_chunk params = flush_chunk f t) ∧
  (∀ p, is_Some (mm_blocks (w_mem w') !! p) → is_Some (owned !! p) ∨ p = w_out_key w' ∨
     (∃ r f c st, coroutine_at w' r f c st ∧ p ∈ [r; of_coro f; co_callee c]) ∨
     ∃ r tmp data, owns_chunk w' r tmp data ∧ (p ∈ chunk_blocks tmp ∨ p = data)) ∧
  ∀ p, is_Some (w_chunks w' !! p) → is_Some (chunks !! p) ∨ ∃ r data, owns_chunk w' r p data.
Proof.
  intros HI0 Hrun. destruct (run_sim w A w' HI0 Hrun) as (A' & _ & HI). split; [|split].
  - intros r f c st Hat Hst. destruct (known lib _ _ _ _ _ _ HI Hat) as (a & caller & Ha & -> & -> & ->).
    pose proof (im_flush HI r a Ha) as Hok. destruct (fo_task Hok) as [t Ht]. exists t.
    assert (Hpar : ∀ params, thread_of (af_phase a) = CT_output_ready params →
      fp_out_flush params = r ∧ fp_event_chunk params = flush_chunk (af_rec a) t).
    { intros params E. destruct (fo_params Hok params) as (? & t' & Ht' & ?); [by destruct (af_phase a); simplify_eq/=|].
      split; [done|]. congruence. }
    destruct (fo_chunk Hok) as [[Hn _]|(Hn & _ & pc & Hc)]; unfold processed in *.
    + destruct (st_task Hset _ t Ht) as (_ & evc & _ & Hev & [b Hb] & _). exists evc.
      unfold flush_chunk in *. rewrite decide_False in * by (intros E; by apply E).
      split; [done|]. split; [by eapply lookup_weaken, (im_chunks HI)|]. split; [|done].
      exists b. by eapply lookup_weaken, (im_owned HI).
    + exists pc. unfold flush_chunk in *. rewrite decide_True in * by done. split; [done|]. split; [apply (ca_chunk Hc)|].
      split; [|done]. apply (parts_live lib w' A' r a _ HI Ha). apply elem_of_parts. rewrite (ca_blocks Hc). set_solver.
  - intros p [Hp|[[Hp _]|(r & a & Ha & Hp)]]%(im_blocks HI); [by left|by right; left|]. right. right.
    apply elem_of_parts in Hp. pose proof (im_flush HI r a Ha) as [Hf Hck [caller Hc] Hth _ _ _ _ _ _ _ _].
    destruct (decide (p ∈ af_blocks a)) as [Hb|Hb].
    + right. destruct Hck as [[_ E]|(Hn & _ & pc & Hca)]; [rewrite E in Hb; by apply elem_of_empty in Hb|].
      exists r, (processed a), (ec_data pc). split; [by eapply carries_owns|]. rewrite (ca_blocks Hca) in Hb. set_solver.
    + left. exists r, (af_rec a), (Coro caller (af_callee a) r), (thread_of (af_phase a)). split; [done|].
      rewrite !elem_of_cons. simpl. tauto.
  - intros p [?|(r & a & Ha & <- & Hn)]%(im_own_chunks HI); [by left|right].
    destruct (fo_chunk (im_flush HI r a Ha)) as [[? _]|(_ & _ & pc & Hca)]; [done|].
    exists r, (ec_data pc). by eapply carries_owns.
Qed.

(** Without parameters of the thread a coroutine that has not started cannot
    be resumed: it would return from its entry point. *)
Lemma unstarted_stuck w coro c :
  w_coros w !! coro = Some c → w_threads w !! co_callee c = Some CT_output_start → w_out_key w = NULL →
  flb_coro_resume (output_run lib) coro w = None.
Proof using.
  intros Hc Hth Hk. unfold flb_coro_resume, flb_coro_set, co_active, set_coro. rewrite bind_modify, bind_gets.
  rewrite (run_bind _ _ _ _ _ (run_get w_coros coro (set_current coro w) c Hc)), bind_modify.
  unfold co_switch, co_active. rewrite bind_gets. set (W := set_coros _ _).
  rewrite (run_bind _ _ _ _ _ (run_get w_threads (co_callee c) W _ Hth)), bind_modify.
  apply run_bind_none. simpl. unfold output_pre_cb_flush_start. rewrite bind_gets.
  change (w_out_key (set_active _ W)) with (w_out_key w). by rewrite decide_True.
Qed.

(** C4. Progress.  In every world the engine reaches, the coroutine of every
    recorded flush is in one of three places, and what the engine may do with it
    has a result.  One that waits, at its first switch or in its callback, can be
    resumed; one that has returned can be destroyed; one that has not started,
    because the parameters of the thread could not be allocated when it was
    created, has neither started its callback nor reported, and it cannot be
    resumed as long as the thread has no parameters.  A flush can be created for
    every task, output and configuration, and every route dropped. *)
Theorem engine_progress w A w' :
  implements w A → rtc (engine_step lib) w w' →
  (∀ task i_ins o_ins config, is_Some (tasks !! task) → is_Some (outs !! o_ins) → is_Some (configs !! config) →
     is_Some (flb_output_flush_create lib task i_ins o_ins config w')) ∧
  (∀ r f, w_flushes w' !! r = Some f → ∃ c st, coroutine_at w' r f c st ∧
     (resumable st ∧ is_Some (flb_coro_resume (output_run lib) (of_coro f) w') ∨
      st = CT_returned ∧ is_Some (flb_output_flush_destroy lib r w') ∨
      st = CT_output_start ∧ calls w' r = O ∧ reports w' r = O ∧
        (w_out_key w' = NULL → flb_coro_resume (output_run lib) (of_coro f) w' = None))) ∧
  (∀ task o_ins, is_Some (tasks !! task) → is_Some (flb_task_drop_route task o_ins (w_store w'))).
Proof.
  intros HI0 Hrun. destruct (run_sim w A w' HI0 Hrun) as (A' & _ & HI). split; [|split].
  - intros task i_ins o_ins config Ht Ho Hc.
    destruct (create_sim lib Hco Hset w' A' task i_ins o_ins config HI Ht Ho Hc) as (? & ? & ? & -> & _). by eexists.
  - intros r f Hf. destruct (as_flushes A' !! r) as [a|] eqn:Ha; [|by rewrite (im_none HI) in Hf].
    destruct (im_flush HI r a Ha) as [Hr _ [caller Hc] Hth _ _ _ _ _ _ _ Hcn]. rewrite Hr in Hf. injection Hf as <-.
    assert (Hat : coroutine_at w' r (af_rec a) (Coro caller (af_callee a) r) (thread_of (af_phase a))) by (split_and!; done).
    assert (Hgo : resumable (thread_of (af_phase a)) → is_Some (flb_coro_resume (output_run lib) (of_coro (af_rec a)) w')).
    { intros Hres. destruct (resume_sim lib Hset w' A' r _ _ _ HI Hat Hres) as (a' & _ & -> & ? & ? & -> & _). by eexists. }
    eexists _, _. split; [exact Hat|]. destruct (af_phase a); simpl in *.
    + right. right. destruct Hcn as [? ?]. split_and!; try done. intros Hk. by eapply unstarted_stuck.
    + left. split; [done|]. by apply Hgo.
    + left. split; [done|]. by apply Hgo.
    + right. left. split; [done|]. destruct (destroy_sim lib Hco Hset w' A' r _ _ HI Hat) as (? & ? & -> & _). by eexists.
  - intros task o_ins Ht. destruct (drop_sim lib w' A' task o_ins HI Ht) as (? & -> & _). by eexists.
Qed.
(** ** Completion *)

Section completion.
(** Each time a callback gives control back it is closer to its end. *)
Context (rank : Z → nat).
Context (Hrank : ∀ k v k' v', ol_cb_resume lib k v = Some (CB_suspend k', v') → (rank k' < rank k)%nat).

Lemma waiting_completes n w A r a k :
  (rank k < n)%nat → implements w A → as_flushes A !! r = Some a → af_phase a = Waiting k →
  ∃ m w' A', resume_times lib m (of_coro (af_rec a)) w = Some w' ∧ implements w' A' ∧
    as_flushes A' !! r = Some (close a).
Proof.
  revert w A a k. induction n as [|n IH]; intros w A a k Hn HI Ha Hph; [lia|].
  destruct (resume_waiting lib Hset w A r a k HI Ha Hph) as (w1 & A1 & E & _ & HI1 & b & Ha1 & [->|(k' & -> & v & v' & Hcb)]).
  - exists 1%nat, w1, A1. split; [|done]. simpl. by rewrite E.
  - apply Hrank in Hcb. destruct (IH w1 A1 (set_phase (Waiting k') a) k' ltac:(lia) HI1 Ha1 eq_refl) as (m & w2 & A2 & E2 & HI2 & Ha2).
    exists (S m), w2, A2. split; [|done]. simpl. rewrite E. exact E2.
Qed.

(** C5. Completion.  If every suspension of the plugin brings it closer to its
    end then, in every world the engine reaches, a flush whose coroutine is
    suspended returns after some number of resumptions, and it has then
    reported, once, has no chunk of its own any more, and can be destroyed. *)
Theorem engine_completes w A w1 r f c st :
  implements w A → rtc (engine_step lib) w w1 → coroutine_at w1 r f c st → resumable st →
  ∃ n w' c', resume_times lib n (of_coro f) w1 = Some w' ∧ coroutine_at w' r (set_processed NULL f) c' CT_returned ∧
    reports w' r = 1%nat ∧ is_Some (flb_output_flush_destroy lib r w').
Proof.
  intros HI0 Hrun Hat Hst. destruct (run_sim w A w1 HI0 Hrun) as (A1 & _ & HI).
  destruct (resume_sim lib Hset w1 A1 r f c st HI Hat Hst) as (a & Ha & -> & w2 & A2 & E & _ & HI2 & b & Ha2 & Hph).
  assert (∃ n w' A', resume_times lib n (of_coro (af_rec a)) w1 = Some w' ∧ implements w' A' ∧
    as_flushes A' !! r = Some (close a)) as (n & w' & A' & En & HI' & Ha').
  { destruct Hph as [->|(k & -> & _)]; [exists 1%nat, w2, A2; split; [|done]; simpl; by rewrite E|].
    destruct (waiting_completes (S (rank k)) w2 A2 r (set_phase (Waiting k) a) k ltac:(lia) HI2 Ha2 eq_refl)
      as (m & w' & A' & Em & HI' & Ha').
    exists (S m), w', A'. split; [|done]. simpl. rewrite E. exact Em. }
  destruct (im_flush HI' r _ Ha') as [Hf _ [caller Hc] Hth _ _ _ _ _ _ _ [_ Hr]].
  assert (Hat' : coroutine_at w' r (set_processed NULL (af_rec a)) (Coro caller (af_callee a) r) CT_returned) by (split_and!; done).
  exists n, w', (Coro caller (af_callee a) r). do 3 (split; [done|]).
  destruct (destroy_sim lib Hco Hset w' A' r _ _ HI' Hat') as (? & ? & -> & _). by eexists.
Qed.
End completion.

(** ** Messages *)

(** What the engine reads in a message, with the macros of the header, is what
    the flush reported. *)
Definition announces (e : event) (c : completion) : Prop :=
  ∃ t o val, tasks !! cm_task c = Some t ∧ outs !! cm_out c = Some o ∧ e = Ev_pipe (return_fd o worker) val (cm_sent c) ∧
    FLB_BITS_U64_HIGH val = FLB_ENGINE_TASK ∧ FLB_TASK_RET (FLB_BITS_U64_LOW val) = cm_ret c ∧
    FLB_TASK_ID (FLB_BITS_U64_LOW val) = tk_id t ∧ FLB_TASK_OUT (FLB_BITS_U64_LOW val) = oi_id o.

Section decoding.
(** Results and identifiers fit the fields of a message. *)
Context (Htask : ∀ task t, tasks !! task = Some t → 0 ≤ tk_id t < 2 ^ 14).
Context (Hout : ∀ o_ins o, outs !! o_ins = Some o → 0 ≤ oi_id o < 2 ^ 14).
Context (Hstart : ∀ params x, starts lib params (CB_return x) → 0 ≤ x < 2 ^ 4).
Context (Hgo : ∀ k x, goes_on lib k (CB_return x) → 0 ≤ x < 2 ^ 4).

Lemma message_announces e c : message e c → genuine (starts lib) (goes_on lib) c → announces e c.
Proof.
  intros (t & o & Ht & Ho & -> & _) Hg. exists t, o, (return_val (cm_ret c) t o). do 3 (split; [done|]).
  apply return_val_fields; [|by eapply Htask|by eapply Hout].
  destruct Hg as [->|[[params Hp]|[k Hk]]]; [done|by eapply Hstart|by eapply Hgo].
Qed.

Lemma message_fun L ms ms' : Forall2 message ms L → Forall2 message ms' L → ms = ms'.
Proof.
  intros H. revert ms'. induction H as [|e c ms L (t & o & Ht & Ho & -> & _) _ IH]; intros ms' H'.
  - by apply Forall2_nil_inv_r in H' as ->.
  - apply Forall2_cons_inv_r in H' as (e' & ms1 & (t' & o' & Ht' & Ho' & -> & _) & H' & ->).
    f_equal; [congruence|by apply IH].
Qed.

(** The writes that reached the pipe are those of the reports whose write
    returned eight. *)
Lemma announces_arrived ms L :
  Forall2 announces ms L → Forall2 announces (filter arrived ms) (filter (λ c, cm_sent c = 8) L).
Proof.
  induction 1 as [|e c ms L Hc _ IH]; [constructor|]. pose proof Hc as (t & o & val & _ & _ & -> & _). rewrite !filter_cons.
  change (arrived (Ev_pipe (return_fd o worker) val (cm_sent c))) with (cm_sent c = 8).
  destruct (decide (cm_sent c = 8)); rewrite ?decide_True, ?decide_False by done; [by constructor|done].
Qed.

Lemma message_sent ms L : Forall2 message ms L → (∀ tr fd val, ol_pipe_w lib tr fd val = 8) → filter arrived ms = ms.
Proof.
  intros H Hw. induction H as [|e c ms L (t & o & _ & _ & -> & tr & E) _ IH]; [done|].
  rewrite filter_cons_True, IH; [done|]. simpl. by rewrite E, Hw.
Qed.

(** C6. Messages, for tasks and outputs whose identifiers have 14 bits and
    plugins whose results have 4.  In every world the engine reaches, the
    writes attempted on the pipes of the engine since the start are one for each
    flush that has reported since, in the order of the reports: each of them,
    on the pipe of its output or of the worker thread, carries the kind of
    event, the result, the task and the output.  The result is one that a plugin
    returned, or the error of a route that was dropped.  What the engine has
    received since is the messages of those flushes whose write has written
    its eight bytes, in the same order: all of them when no write fails.  No
    flush reports twice; one that is known has reported, for its own task and
    output, exactly when its coroutine has returned. *)
Theorem engine_messages w A w' :
  implements w A → log_ok A → rtc (engine_step lib) w w' →
  ∃ new log, messages w' = messages w ++ new ∧ Forall2 announces new log ∧
    Forall (genuine (starts lib) (goes_on lib)) log ∧ NoDup (cm_flush <$> as_log A ++ log) ∧
    (∀ r f c, coroutine_at w' r f c CT_returned → ∃ x n, Completion r (of_task f) (of_o_ins f) x n ∈ as_log A ++ log) ∧
    (∀ r f c st, coroutine_at w' r f c st → st ≠ CT_returned → r ∉ cm_flush <$> as_log A ++ log) ∧
    ∃ got, received lib w' = received lib w ++ got ∧ Forall2 announces got (filter (λ c, cm_sent c = 8) log) ∧
      ((∀ tr fd val, ol_pipe_w lib tr fd val = 8) → got = new).
Proof.
  intros HI0 Hok0 Hrun. destruct (run_sim w A w' HI0 Hrun) as (A' & Hsteps & HI).
  destruct (run_log _ _ _ _ _ Hsteps Hok0) as ([Ho Hd Hp] & log & El & Hg). rewrite El in *.
  pose proof (im_log HI) as Hm. rewrite El in Hm.
  apply Forall2_app_inv_r in Hm as (ms & new & Hms & Hnew & Em).
  rewrite (message_fun _ _ _ Hms (im_log HI0)) in Em.
  assert (Han : Forall2 announces new log).
  { clear -Hnew Hg Htask Hout Hstart Hgo. induction Hnew as [|e c new log Hc _ IH]; [constructor|].
    apply Forall_cons in Hg as [Hc' Hg]. constructor; [by apply message_announces|by apply IH]. }
  exists new, log. split; [exact Em|]. do 3 (split; [done|]). split; [|split].
  - intros r f c Hat. destruct (known lib _ _ _ _ _ _ HI Hat) as (a & caller & Ha & -> & -> & Hst).
    apply (Hd r a Ha). by destruct (af_phase a).
  - intros r f c st Hat Hst. destruct (known lib _ _ _ _ _ _ HI Hat) as (a & caller & Ha & -> & -> & ->).
    apply (Hp r a Ha). intros Hf. by rewrite Hf in Hst.
  - exists (filter arrived new). split; [unfold received; by rewrite Em, filter_app|].
    split; [by apply announces_arrived|by apply (message_sent new log)].
Qed.
End decoding.
End spec.

(** ** The theorems at work: a flush of metrics is created on the world of
    [OutputSpec] for an output with the processor 67, which accepts two of the
    three contexts, its route is dropped, it is resumed and destroyed. *)

#[local] Instance demo_plant : plant := {|
  engine := 64;
  base := 16384;
  owned := mm_blocks (w_mem demo_world);
  outs := {[ 4096 := demo_processed_output 67 ]};
  workers := ∅;
  configs := {[ 7168 := flb_config_zero ]};
  chunks := {[ 512 := demo_chunk ]};
  tasks := {[ 1024 := demo_task_of_flush ]};
  chunk_blocks := λ p, {[ p ]}
|}.

Definition run_lib : output_lib := demo_logs_lib malloc_libco.
Definition run_world : world := set_outs {[ 4096 := demo_processed_output 67 ]} demo_world.

Definition demo_abstract : astate := AState ∅ ∅ ∅ {[ 1024 := demo_routes ]} [].

Lemma demo_out o_ins o : outs !! o_ins = Some o → o_ins = 4096 ∧ o = demo_processed_output 67.
Proof. simpl. by intros [<- <-]%lookup_singleton_Some. Qed.

Lemma demo_the_task task t : tasks !! task = Some t → task = 1024 ∧ t = demo_task_of_flush.
Proof. simpl. by intros [<- <-]%lookup_singleton_Some. Qed.

Lemma demo_single o_ins : ¬ threaded o_ins.
Proof.
  unfold threaded. destruct (outs !! o_ins) as [o|] eqn:E; [|done].
  apply demo_out in E as [_ ->]. discriminate.
Qed.

Lemma demo_heads k a : head_of run_lib k = Some a →
  k = KQueue (Some 4096) ∧ a = 6144 ∨ k = KDone (Some 4096) ∧ a = 6400 ∨ k = KRoutes 1024 ∧ a = 1072.
Proof.
  destruct k as [[o|]|[o|]|t]; simpl; try done.
  - rewrite decide_False by apply demo_single. intros (o' & [-> ->]%demo_out & [= <-])%fmap_Some. by left.
  - rewrite decide_False by apply demo_single. intros (o' & [-> ->]%demo_out & [= <-])%fmap_Some. by right; left.
  - intros (t' & [-> ->]%demo_the_task & [= <-])%bind_Some. by right; right.
Qed.

Lemma demo_setting : setting run_lib.
Proof.
  split.
  - intros o_ins o [_ ->]%demo_out. right. split; [apply demo_logs_ok|].
    intros tag tag_len data size m ret p_buf p_size m' Hwf [b Hb]. simpl.
    destruct (alloc [Some 90] m) as [p m1] eqn:Ea. case_decide; [by intros [= <- <- <- <-]|].
    intros [= <- <- <- <-] _ _ ->. destruct (alloc_brk _ _ _ _ Ea) as [_ Hnew].
    pose proof (Hnew ltac:(done)). pose proof (proj2 (proj1 Hwf) _ _ Hb). lia.
  - intros o_ins o task t evc tag_len tl [_ ->]%demo_out _ [_ ->]%demo_the_task Hc Hk Htag. simpl in Hc.
    apply lookup_singleton_Some in Hc as [_ <-]. destruct Hk as [[_ ->]|[[=] _]].
    assert (tag_len = 1) as -> by (vm_compute in Htag; congruence).
    exists demo_enc, [65; 66; 67]. split; [apply demo_telemetry_ok|]. split; [vm_compute; reflexivity|].
    split; [simpl; lia|]. exact demo_room.
  - by intros o_ins []%demo_single.
  - intros task t [_ ->]%demo_the_task. split; [reflexivity|]. exists demo_chunk, 1. split_and!; [done|by eexists|reflexivity].
  - intros k k' a Hk Hk'. apply demo_heads in Hk, Hk'. naive_solver.
  - split; [simpl; lia|]. split; [|split]; simpl.
    + intros k a Hk. apply demo_heads in Hk. naive_solver lia.
    + intros p Hp. apply lookup_singleton_ne. lia.
    + intros p [b Hb]. apply (map_Forall_lookup_1 (λ k _, k < 16384) (mm_blocks (w_mem demo_world)) p b); [evaluate|exact Hb].
  - intros params v. exists (CB_return FLB_OK), []. rewrite app_nil_r. split; [by destruct v|constructor].
  - intros k v. exists (CB_return FLB_OK), []. rewrite app_nil_r. split; [by destruct v|constructor].
  - intros r o_ins o h l1 l2 dl [_ ->]%demo_out. apply demo_prepare_agree.
Qed.

Lemma demo_route_in task p x : (p, x) ∈ as_routes demo_abstract !!! task → task = 1024 ∧ (p, x) ∈ demo_routes.
Proof.
  simpl. destruct (decide (task = 1024)) as [->|Hne].
  - by rewrite lookup_total_singleton_eq.
  - rewrite lookup_total_singleton_ne by done. by intros []%not_elem_of_nil.
Qed.

Lemma demo_routes_apart : routes_apart run_lib demo_abstract.
Proof.
  intros task x. simpl. intros ([p rt] & -> & Hin)%list_elem_of_fmap. apply demo_route_in in Hin as [-> Hin].
  unfold demo_routes in Hin. rewrite !elem_of_cons in Hin. unfold tr_head_off. simpl. split.
  - destruct Hin as [[= -> _]|[[= -> _]|[]%not_elem_of_nil]]; lia.
  - intros k a Hk Hne. apply demo_heads in Hk. split.
    + destruct Hin as [[= -> _]|[[= -> _]|[]%not_elem_of_nil]]; naive_solver lia.
    + intros task' ->. naive_solver.
Qed.

Lemma demo_run_fresh : fresh_above run_world.
Proof. destruct demo_fresh. by split. Qed.

Lemma demo_implements : implements run_lib run_world demo_abstract.
Proof.
  split; try done.
  - split; [exact demo_run_fresh|]. split; [done|reflexivity].
  - intros k a Hk. apply demo_heads in Hk as [[-> ->]|[[-> ->]|[-> ->]]]; evaluate.
  - intros task p x Hin. apply demo_route_in in Hin as [-> Hin]. unfold demo_routes in Hin. rewrite !elem_of_cons in Hin.
    split; [by exists demo_task_of_flush|].
    destruct Hin as [[= -> ->]|[[= -> ->]|[]%not_elem_of_nil]]; (split; [reflexivity|evaluate]).
  - exact demo_routes_apart.
  - intros task [t [-> _]%demo_the_task]. by exists demo_routes.
  - split; intros o r; simpl; rewrite lookup_total_empty; (split; [by intros []%not_elem_of_nil|intros (a & [=] & _)]).
  - intros p. split; [by left|]. intros [Hp|[[-> []]|(r & a & [=] & _)]]; [exact Hp|reflexivity].
  - intros p Hp. left. exact Hp.
  - intros r _. change (calls run_world r) with O. change (reports run_world r) with O. lia.
  - intros c Hc. by apply not_elem_of_nil in Hc.
Qed.

Lemma demo_log_ok : log_ok demo_abstract.
Proof. split; [constructor|by intros r a [=]..]. Qed.

(** The worlds of the run. *)
Definition run_created : world :=
  from_option snd run_world (flb_output_flush_create run_lib 1024 200 4096 7168 run_world).
Definition run_dropped : world :=
  from_option (λ s, set_store s run_created) run_created (flb_task_drop_route 1024 4096 (w_store run_created)).
Definition run_flush : flb_output_flush := OutputFlush 0 560 1024 7168 4096 16480 16656.
Definition run_coro : flb_coro := Coro 64 16720 16384.
Definition run_params : flb_out_flush_params := OutFlushParams 16656 16384 200 300 400 7168 16480.
Definition run_resumed : world :=
  from_option snd run_dropped (flb_coro_resume (output_run run_lib) 16480 run_dropped).
Definition run_destroyed : world :=
  from_option snd run_resumed (flb_output_flush_destroy run_lib 16384 run_resumed).

Lemma demo_run_dropped : rtc (engine_step run_lib) run_world run_dropped.
Proof.
  apply (rtc_l _ _ run_created); [|apply rtc_once].
  - apply (engine_create _ _ 1024 200 4096 7168 16384); [by eexists..|vm_compute; reflexivity].
  - apply (engine_drop _ _ 1024 4096); [by eexists|vm_compute; reflexivity].
Qed.

Lemma demo_run_resumed : rtc (engine_step run_lib) run_world run_resumed.
Proof.
  eapply rtc_r; [exact demo_run_dropped|].
  apply (engine_resume _ _ 16384 run_flush run_coro (CT_output_ready run_params));
    [split_and!; vm_compute; reflexivity|exact I|vm_compute; reflexivity].
Qed.

Lemma demo_run : rtc (engine_step run_lib) run_world run_destroyed.
Proof.
  eapply rtc_r; [exact demo_run_resumed|].
  apply (engine_destroy _ _ 16384 (set_processed NULL run_flush) run_coro);
    [split_and!; vm_compute; reflexivity|vm_compute; reflexivity].
Qed.

Lemma engine_refinement_witness :
  ∃ A', rtc (astep own (starts run_lib) (goes_on run_lib)) demo_abstract A' ∧ implements run_lib run_destroyed A'.
Proof.
  exact (engine_refinement run_lib malloc_libco_ok demo_setting _ _ _ demo_implements demo_run).
Defined.

Lemma engine_safety_witness :
  (∀ r, (calls run_destroyed r ≤ 1)%nat ∧ (reports run_destroyed r ≤ 1)%nat) ∧ reports run_destroyed 16384 = 1%nat ∧
  ∃ o l, outs !! 4096 = Some o ∧ 16440 ∈ l ∧ dll (ts_list (w_store run_resumed)) (done_list (worker run_lib) o) l.
Proof.
  destruct (engine_safety run_lib malloc_libco_ok demo_setting _ _ _ demo_implements demo_run) as (H1 & _).
  destruct (engine_safety run_lib malloc_libco_ok demo_setting _ _ _ demo_implements demo_run_resumed) as (_ & H2).
  split; [exact H1|]. split; [vm_compute; reflexivity|].
  destruct (H2 16384 (set_processed NULL run_flush) run_coro CT_returned) as (o & l & Ho & Hin & [(_ & _ & Hd)|(Hn & _)]);
    [split_and!; vm_compute; reflexivity|by exists o, l|by destruct Hn].
Defined.

(** The flush that waits has the chunk at 16656, with the records at 16624;
    after the run nothing is left but the parameters of the thread, at 16752. *)
Lemma engine_ownership_witness :
  (∃ pc, w_chunks run_dropped !! 16656 = Some pc ∧ is_Some (mm_blocks (w_mem run_dropped) !! ec_data pc)) ∧
  w_out_key run_destroyed = 16752 ∧ w_flushes run_destroyed = ∅ ∧
  ∀ p, is_Some (w_chunks run_destroyed !! p) → is_Some (chunks !! p) ∨ ∃ r data, owns_chunk run_destroyed r p data.
Proof.
  destruct (engine_ownership run_lib malloc_libco_ok demo_setting _ _ _ demo_implements demo_run_dropped) as (H1 & _).
  destruct (engine_ownership run_lib malloc_libco_ok demo_setting _ _ _ demo_implements demo_run) as (_ & _ & H3).
  split; [|split; [vm_compute; reflexivity|split; [vm_compute; reflexivity|exact H3]]].
  destruct (H1 16384 run_flush run_coro (CT_output_ready run_params)) as (t & pc & _ & Hc & Hb & _);
    [split_and!; vm_compute; reflexivity|discriminate|exists pc; split; [exact Hc|exact Hb]].
Defined.

Lemma engine_progress_witness :
  is_Some (flb_output_flush_create run_lib 1024 200 4096 7168 run_destroyed).
Proof.
  apply (engine_progress run_lib malloc_libco_ok demo_setting _ _ _ demo_implements demo_run); by eexists.
Defined.

Lemma engine_completes_witness :
  ∃ n w' c', resume_times run_lib n 16480 run_dropped = Some w' ∧
    coroutine_at w' 16384 (set_processed NULL run_flush) c' CT_returned ∧ reports w' 16384 = 1%nat ∧
    is_Some (flb_output_flush_destroy run_lib 16384 w').
Proof.
  apply (engine_completes run_lib malloc_libco_ok demo_setting (λ _, O) ltac:(discriminate) _ _ _ 16384
    run_flush run_coro (CT_output_ready run_params) demo_implements demo_run_dropped).
  - split_and!; vm_compute; reflexivity.
  - exact I.
Defined.

(** The dropped flush told the engine that it failed. *)
Lemma engine_messages_witness :
  received run_lib run_destroyed = [Ev_pipe 11 (FLB_BITS_U64_SET 2 (FLB_TASK_SET FLB_ERROR 3 5)) 8] ∧
  ∃ new log, messages run_lib run_destroyed = messages run_lib run_world ++ new ∧
    Forall2 (announces run_lib) new log ∧ NoDup (cm_flush <$> as_log demo_abstract ++ log).
Proof.
  split; [vm_compute; reflexivity|].
  destruct (engine_messages run_lib malloc_libco_ok demo_setting) with (w := run_world) (A := demo_abstract)
    (w' := run_destroyed) as (new & log & H1 & H2 & _ & H3 & _).
  - intros task t [_ ->]%demo_the_task. evaluate.
  - intros o_ins o [_ ->]%demo_out. evaluate.
  - intros params x (v & v' & [= <- _]). evaluate.
  - intros k x (v & v' & [= <- _]). evaluate.
  - exact demo_implements.
  - exact demo_log_ok.
  - exact demo_run.
  - exists new, log. split; [exact H1|]. split; [exact H2|exact H3].
Defined.
