(* ===== verification/Input.v ===== *)
(** [flb_input.h]: collections that run in coroutines.

    [flb_input_coro_collect] creates the context of a collection and starts
    its coroutine up to its first switch; [flb_input_coro_resume] runs the
    collection callback of the plugin, which ends through [FLB_INPUT_RETURN].
    The library functions the header calls are parameters. *)
From S2P Require Import Prelude MkList Mem MkEvent Codes Task Structs Runtime.

Definition FLB_INPUT_RUNNING : Z := 1.
Definition FLB_INPUT_PAUSED : Z := 0.

(** * The library *)

Record input_lib := InputLib {
  il_co : libco;
  il_coro_id_get : ptr → gmap Z Z → Z * gmap Z Z;
  il_time : world → Z;
  (** [pthread_key_create]: from the keys in use, a new key or a failure *)
  il_key_create : gset Z → option Z;
  (** [flb_pipe_w] of a value to a pipe, after what has happened: the number
      of bytes written, or -1 *)
  il_pipe_w : list event → Z → Z → Z;
  il_coro_prepare_destroy : ptr → lheap → option lheap;
  (** the function of a collector: instance, configuration, context *)
  il_cb_collect : ptr → ptr → ptr → ptr → M cb_result;
  il_cb_resume : Z → M cb_result;
  il_config_map_set : ptr → ptr → ptr → M Z
}.

Section input.
Context (lib : input_lib).

(** ** Library calls on the world *)

Definition flb_input_coro_id_get (ins : ptr) : M Z :=
  λ w, let '(id, ids) := il_coro_id_get lib ins (w_ids w) in Some (id, set_ids ids w).

(** A new key has no value in any thread; the code ignores a failure. *)
Definition pthread_key_create : M unit :=
  λ w, match il_key_create lib (dom (w_in_values w)) with
       | Some k => Some (tt, set_in_key k (set_in_values (<[k := NULL]> (w_in_values w)) w))
       | None => Some (tt, w)
       end.

Definition pthread_getspecific : M ptr :=
  gets (λ w, default NULL (w_in_values w !! w_in_key w)).

Definition pthread_setspecific (p : ptr) : M unit :=
  modify (λ w, set_in_values (<[w_in_key w := p]> (w_in_values w)) w).

Definition set_input_coro (p : ptr) (c : flb_input_coro) : M unit :=
  modify (λ w, set_input_coros (<[p := c]> (w_input_coros w)) w).

Definition set_params (p : ptr) (c : flb_libco_in_params) : M unit :=
  modify (λ w, set_in_params (<[p := c]> (w_in_params w)) w).

(** ** Creation *)

Definition flb_input_coro_create (ins config : ptr) : M ptr :=
  input_coro ← w_calloc 1 sizeof_flb_input_coro;
  if decide (input_coro = NULL) then flb_errno;; mret NULL
  else
    set_input_coro input_coro (InputCoro 0 0 0 NULL NULL NULL);;
    coro ← flb_coro_create input_coro;
    if decide (coro = NULL) then w_free input_coro;; mret NULL
    else
      id ← flb_input_coro_id_get ins;
      start_time ← gets (il_time lib);
      set_input_coro input_coro (InputCoro id start_time 0 ins coro config);;
      i ← get w_ins ins;
      on_list (mk_list_add (input_coro + ico_head_off) (ii_input_coro_list i));;
      mret input_coro.

(** The parameters of this thread for the current key, created on demand. *)
Definition in_params : M ptr :=
  params ← pthread_getspecific;
  if decide (params = NULL) then
    params ← w_calloc 1 sizeof_flb_libco_in_params;
    if decide (params = NULL) then flb_errno;; mret NULL
    else
      set_params params (LibcoInParams NULL NULL NULL);;
      pthread_setspecific params;;
      mret params
  else mret params.

(** ** Returning *)

Definition flb_input_return (coro : ptr) : M unit :=
  c ← get w_coros coro;
  let input_coro := co_data c in
  ic ← get w_input_coros input_coro;
  i ← get w_ins (ico_ins ic);
  let val := FLB_BITS_U64_SET FLB_ENGINE_IN_CORO (ii_id i) in
  let fd := ii_ch_events i !!! 1%nat in
  n ← gets (λ w, il_pipe_w lib (w_trace w) fd val);
  emit (Ev_pipe fd val n);;
  (if decide (n = -1) then flb_errno else mret tt);;
  emit (Ev_coro_prepare_destroy input_coro);;
  on_list (il_coro_prepare_destroy lib input_coro).

Definition flb_input_return_do (ret : Z) : M ptr :=
  coro ← flb_coro_get;
  flb_input_return coro;;
  flb_coro_yield coro FLB_TRUE.

(** ** The body of the coroutine *)

Definition collect_turn (r : cb_result) : M (cothread * ptr) :=
  match r with
  | CB_return x => target ← flb_input_return_do x; mret (CT_returned, target)
  | CB_suspend k =>
      coro ← flb_coro_get;
      target ← flb_coro_yield coro FLB_FALSE;
      mret (CT_callback k, target)
  end.

(** [input_pre_cb_collect] up to its [co_switch].  Without parameters it would
    return from the entry point of a coroutine, which libco does not allow. *)
Definition input_pre_cb_collect_start : M (cothread * ptr) :=
  params ← in_params;
  if decide (params = NULL) then fail
  else
    p ← get w_in_params params;
    c ← get w_coros (lp_coro p);
    mret (CT_input_ready (lp_coll p) (lp_config p), co_caller c).

(** The rest of [input_pre_cb_collect]. *)
Definition input_pre_cb_collect_resume (coll config : ptr) : M (cothread * ptr) :=
  c ← get w_colls coll;
  i ← get w_ins (ic_instance c);
  emit (Ev_collect coll config);;
  r ← il_cb_collect lib (ic_cb_collect c) (ic_instance c) config (ii_context i);
  collect_turn r.

(** A turn of the coroutine of a collection. *)
Definition input_run (t : cothread) : M (cothread * ptr) :=
  match t with
  | CT_input_start => input_pre_cb_collect_start
  | CT_input_ready coll config => input_pre_cb_collect_resume coll config
  | CT_callback k => r ← il_cb_resume lib k; collect_turn r
  | _ => fail
  end.

Definition input_params_set (coro coll config context : ptr) : M unit :=
  params ← in_params;
  if decide (params = NULL) then mret tt
  else
    set_params params (LibcoInParams config coll coro);;
    c ← get w_coros coro;
    co_switch input_run (co_callee c).

Definition flb_input_coro_resume (input_coro : ptr) : M unit :=
  ic ← get w_input_coros input_coro;
  flb_coro_resume input_run (ico_coro ic).

Definition libco_in_param_key_destroy (data : ptr) : M unit := w_free data.

(** The result of [co_create] is not checked. *)
Definition flb_input_coro_collect (coll config : ptr) : M ptr :=
  c ← get w_colls coll;
  input_coro ← flb_input_coro_create (ic_instance c) config;
  if decide (input_coro = NULL) then mret NULL
  else
    pthread_key_create;;
    ic ← get w_input_coros input_coro;
    let coro := ico_coro ic in
    if decide (coro = NULL) then mret NULL
    else
      caller ← co_active;
      k ← get w_coros coro;
      cfg ← get w_configs config;
      callee ← co_create (il_co lib) (cf_coro_stack_size cfg) CT_input_start;
      set_coro coro (Coro caller callee (co_data k));;
      i ← get w_ins (ic_instance c);
      input_params_set coro coll config (ii_context i);;
      mret input_coro.

(** ** Small functions *)

Definition flb_input_is_threaded (ins : ptr) : M Z :=
  i ← get w_ins ins;
  mret (ii_is_threaded i).

Definition flb_input_buf_paused (ins : ptr) : M Z :=
  i ← get w_ins ins;
  if decide (ii_mem_buf_status i = FLB_INPUT_PAUSED) then mret FLB_TRUE
  else if decide (ii_storage_buf_status i = FLB_INPUT_PAUSED) then mret FLB_TRUE
  else mret FLB_FALSE.

(** [ret] is not initialised: without a map there is nothing to return.
    [net_setup] is the address of the field of that name of the instance. *)
Definition flb_input_config_map_set (ins context net_setup : ptr) : M Z :=
  i ← get w_ins ins;
  ret ← (if decide (ii_config_map i ≠ NULL) then
           r ← il_config_map_set lib (ii_properties i) (ii_config_map i) context; mret (Some r)
         else mret None);
  if decide (ret = Some (-1)) then mret (-1)
  else
    ret ← (if decide (ii_net_config_map i ≠ NULL) then
             r ← il_config_map_set lib (ii_net_properties i) (ii_net_config_map i) net_setup; mret (Some r)
           else mret ret);
    if decide (ret = Some (-1)) then mret (-1)
    else match ret with Some r => mret r | None => fail end.
End input.
