(* ===== verification/InputSpec.v ===== *)
(** What [flb_input.h] promises: creating, collecting in and returning from a
    collection that runs in a coroutine. *)
From S2P Require Import Prelude MkList Mem MkEvent Codes Task Structs Runtime RuntimeSpec Input.

Section collect.
Context (lib : input_lib) (Hco : libco_ok (il_co lib)).
Context (coll config : ptr).

Abbreviation two_blocks := (two_blocks sizeof_flb_input_coro).

(** The collector, its instance and the configuration exist; the parameters
    of the thread lie below the break. *)
Record collect_pre (w : world) (c : flb_input_collector) (i : flb_input_instance)
    (cfg : flb_config) (l : list ptr) : Prop := {
  lp_fresh : fresh_above w;
  lp_collector : w_colls w !! coll = Some c;
  lp_instance : w_ins w !! ic_instance c = Some i;
  lp_configuration : w_configs w !! config = Some cfg;
  lp_list : dll (ts_list (w_store w)) (ii_input_coro_list i) l;
  lp_no_null : w_threads w !! NULL = None;
  lp_values k p : w_in_values w !! k = Some p → p < mm_brk (w_mem w)
}.

(** The world in which the context of a collection exists and is linked. *)
Definition prepared_in (w : world) (m : mem) (ids : gmap Z Z) (h : lheap) (r coro : ptr)
    (ic : flb_input_coro) : world :=
  set_store (TaskStore h (ts_tasks (w_store w)) (ts_routes (w_store w)))
    (set_ids ids (set_coros (<[coro := Coro NULL NULL r]> (w_coros w))
      (set_input_coros (<[r := ic]> (w_input_coros w)) (set_mem m w)))).

Lemma bind_set_input_coro {B} p f (k : M B) w :
  (set_input_coro p f;; k) w = k (set_input_coros (<[p := f]> (w_input_coros w)) w).
Proof. done. Qed.

Lemma drop_input_coro w m m' tr r f :
  fresh_above w → mm_brk (w_mem w) ≤ r →
  set_mem m' (drop_objects r (set_trace tr (set_mem m (set_input_coros (<[r := f]> (w_input_coros w)) w)))) =
  set_trace tr (set_mem m' w).
Proof.
  intros Hf Hr. destruct w as [[lh tks rts] mm co fl ch fp ic ip ou ot cf ii cs th ac cu ky ik iv ids0 tr0].
  destruct Hf; simpl in *. cbv [drop_objects]; wsimpl.
  rewrite (lh_clear_low r _ lh) by (intros; first [apply fa_next|apply fa_prev]; lia).
  f_equal; map_undo.
Qed.

(** [flb_input_coro_create], for every outcome of the allocations. *)
Lemma input_coro_create_cases w c i cfg l :
  collect_pre w c i cfg l →
  (∃ w', flb_input_coro_create lib (ic_instance c) config w = Some (NULL, w') ∧ as_before w w') ∨
  ∃ m ids h id coro now, let r := mm_brk (w_mem w) in
    two_blocks w m r coro ∧
    dll h (ii_input_coro_list i) (l ++ [r + ico_head_off]) ∧
    agree_outside (r + ico_head_off :: ii_input_coro_list i :: l) (ts_list (w_store w)) h ∧
    flb_input_coro_create lib (ic_instance c) config w =
      Some (r, prepared_in w m ids h r coro (InputCoro id now 0 (ic_instance c) coro config)).
Proof.
  intros [Hf Hc Hi Hcfg Hl _ _]. unfold flb_input_coro_create.
  destruct (flb_calloc 1 sizeof_flb_input_coro (w_mem w)) as [r m1] eqn:E1.
  destruct (flb_calloc_cases 1 sizeof_flb_input_coro _ _ _ (fa_wf _ Hf) ltac:(discriminate) E1)
    as (Hwf1 & Hb1 & [[-> Hm1]|(Hrn & -> & Hr64 & Hrf & Hm1)]);
    rewrite (run_bind _ _ _ _ _ (run_calloc _ _ _ _ _ E1)).
  { left. rewrite decide_True by done. eexists. split; [reflexivity|].
    exists m1, (w_ids w), [Ev_error]. split_and!; [by destruct w|done..|by repeat constructor]. }
  rewrite decide_False by done. rewrite bind_set_input_coro. set (r := mm_brk (w_mem w)) in *.
  set (W1 := set_input_coros _ _).
  destruct (flb_calloc 1 sizeof_flb_coro m1) as [coro m2] eqn:E2.
  destruct (flb_calloc_cases 1 sizeof_flb_coro _ _ _ Hwf1 ltac:(discriminate) E2)
    as (Hwf2 & Hb2 & Hcase).
  rewrite (run_bind _ _ _ _ _ (flb_coro_create_run r W1 coro m2 E2)).
  destruct Hcase as [[-> Hm2]|(Hcn & -> & Hc24 & Hcf & Hm2)].
  - left. rewrite !decide_True by done.
    assert (Hbr : mm_blocks m2 !! r = Some (replicate (Z.to_nat (1 * sizeof_flb_input_coro)) (Some 0)))
      by (rewrite Hm2, Hm1; apply lookup_insert_eq).
    set (W2 := set_trace _ _).
    rewrite (run_bind _ _ _ _ _ (w_free_run r _ W2 Hrn Hbr)). eexists. split; [reflexivity|].
    assert (set_mem (Mem (delete r (mm_blocks (w_mem W2))) (mm_brk (w_mem W2)) (mm_oracle (w_mem W2)))
              (drop_objects r W2) =
            set_trace (w_trace w ++ [Ev_error])
              (set_mem (Mem (delete r (mm_blocks m2)) (mm_brk m2) (mm_oracle m2)) w)) as ->.
    { erewrite <- (drop_input_coro w m2 _ _ r _ Hf); [|subst r; lia]. subst W2 W1. cbv [drop_objects]. wsimpl. reflexivity. }
    eexists (Mem (delete r (mm_blocks m2)) (mm_brk m2) (mm_oracle m2)), (w_ids w), [Ev_error].
    split_and!; [by destruct w| |simpl; lia| |by repeat constructor].
    + eapply free_wf; [exact Hwf2|by apply (free_live _ _ _ Hrn Hbr)].
    + simpl. rewrite Hm2, Hm1. pose proof (fresh_block w r Hf ltac:(subst r; lia)). map_undo.
  - right. rewrite !decide_False by done.
    destruct (il_coro_id_get lib (ic_instance c) (w_ids w)) as [id ids] eqn:Ei.
    assert (Hx : r + ico_head_off ∉ ii_input_coro_list i :: l).
    { intros Hin. apply (dll_below w _ _ _ Hf Hl) in Hin. unfold ico_head_off in Hin. lia. }
    destruct (mk_list_add_dll (ts_list (w_store w)) _ _ (r + ico_head_off) Hl) as (h & Hadd & Hd & Hag);
      [pose proof (proj1 (proj1 (fa_wf _ Hf))); unfold NULL, ico_head_off; lia|done|].
    set (W2 := set_coros _ _).
    exists m2, ids, h, id, (mm_brk m1), (il_time lib (set_ids ids W2)).
    split; [apply (two_blocks_alloc _ w _ m1); try done; apply (fa_wf _ Hf)|]. split; [done|]. split; [done|].
    assert (Hid : flb_input_coro_id_get lib (ic_instance c) W2 = Some (id, set_ids ids W2)).
    { unfold flb_input_coro_id_get. change (w_ids W2) with (w_ids w). by rewrite Ei. }
    rewrite (run_bind _ _ _ _ _ Hid), bind_gets, bind_set_input_coro. set (W3 := set_input_coros _ _).
    rewrite (run_bind _ _ _ _ _ (run_get w_ins (ic_instance c) W3 i Hi)).
    assert (Hrl : on_list (mk_list_add (r + ico_head_off) (ii_input_coro_list i)) W3 = _) by (apply run_list; exact Hadd).
    rewrite (run_bind _ _ _ _ _ Hrl). subst W3 W2 W1.
    unfold prepared_in. destruct w. wsimpl. by rewrite insert_insert_eq.
Qed.

(** ** The parameters of the thread *)

(** The parameters that a thread finds, or allocates: their address, the memory
    and the values of the keys then, and what was allocated. *)
Inductive params_at (w : world) : ptr → mem → gmap Z ptr → gmap Z (list (option Z)) → Prop :=
| params_found p : w_in_values w !! w_in_key w = Some p → p ≠ NULL →
    params_at w p (w_mem w) (w_in_values w) ∅
| params_new p m b : default NULL (w_in_values w !! w_in_key w) = NULL →
    mem_wf m → mm_brk (w_mem w) ≤ p < mm_brk m → p ≠ NULL →
    mm_blocks m = <[p := b]> (mm_blocks (w_mem w)) →
    params_at w p m (<[w_in_key w := p]> (w_in_values w)) {[ p := b ]}.

Lemma params_at_value w p m vs kept : params_at w p m vs kept → vs !! w_in_key w = Some p ∧ p ≠ NULL.
Proof. intros []; split; try done. apply lookup_insert_eq. Qed.

Lemma params_at_mem w p m vs kept :
  mem_wf (w_mem w) → params_at w p m vs kept →
  mem_wf m ∧ mm_brk (w_mem w) ≤ mm_brk m ∧ mm_blocks m = kept ∪ mm_blocks (w_mem w).
Proof.
  intros Hwf []; split_and!; try done; try lia; [by rewrite (left_id_L ∅ (∪))|].
  rewrite <- insert_union_singleton_l. done.
Qed.

Lemma in_params_run w :
  mem_wf (w_mem w) →
  (∃ m, default NULL (w_in_values w !! w_in_key w) = NULL ∧ mem_wf m ∧ mm_brk (w_mem w) ≤ mm_brk m ∧
     mm_blocks m = mm_blocks (w_mem w) ∧
     in_params w = Some (NULL, set_trace (w_trace w ++ [Ev_error]) (set_mem m w))) ∨
  ∃ p m vs kept ps, params_at w p m vs kept ∧ (∀ q, p ≠ q → ps !! q = w_in_params w !! q) ∧
    in_params w = Some (p, set_in_values vs (set_in_params ps (set_mem m w))).
Proof.
  intros Hwf. unfold in_params, pthread_getspecific. rewrite bind_gets.
  destruct (decide (default NULL (w_in_values w !! w_in_key w) = NULL)) as [Hv|Hv].
  2:{ right. destruct (w_in_values w !! w_in_key w) as [v|] eqn:Ev; [|done].
      exists v, (w_mem w), (w_in_values w), ∅, (w_in_params w). split; [by constructor|]. split; [done|]. by destruct w. }
  destruct (flb_calloc 1 sizeof_flb_libco_in_params (w_mem w)) as [p m] eqn:E.
  destruct (flb_calloc_cases 1 sizeof_flb_libco_in_params _ _ _ Hwf ltac:(discriminate) E) as (Hwf' & Hb & Hcase).
  rewrite (run_bind _ _ _ _ _ (run_calloc _ _ _ _ _ E)).
  destruct Hcase as [[-> Hm]|(Hp & Hpb & Hlt & _ & Hm)].
  - left. exists m. rewrite decide_True by done. by split_and!.
  - right. rewrite decide_False by done. unfold set_params, pthread_setspecific. rewrite !bind_modify.
    eexists p, m, _, _, (<[p := LibcoInParams NULL NULL NULL]> (w_in_params w)).
    split; [eapply params_new; try done; unfold sizeof_flb_libco_in_params in *; lia|].
    split; [|reflexivity]. intros q Hq. by apply lookup_insert_ne.
Qed.

(** In the thread that has its parameters, they are found again. *)
Lemma in_params_found w p : w_in_values w !! w_in_key w = Some p → p ≠ NULL → in_params w = Some (p, w).
Proof. intros E Hp. unfold in_params, pthread_getspecific. rewrite bind_gets, E. simpl. by rewrite decide_False. Qed.

(** The parameters this thread finds, or allocates. *)
Definition thread_params (w : world) : ptr :=
  let v := default NULL (w_in_values w !! w_in_key w) in
  if decide (v = NULL) then (flb_calloc 1 sizeof_flb_libco_in_params (w_mem w)).1 else v.

Lemma in_params_result w : ∃ w', in_params w = Some (thread_params w, w') ∧ w_threads w' = w_threads w ∧ w_coros w' = w_coros w.
Proof.
  unfold in_params, pthread_getspecific, thread_params. rewrite bind_gets. cbv zeta. case_decide as Hv; [|by exists w].
  destruct (flb_calloc 1 sizeof_flb_libco_in_params (w_mem w)) as [p m] eqn:E.
  rewrite (run_bind _ _ _ _ _ (run_calloc _ _ _ _ _ E)). simpl. case_decide as Hp; [subst p|]; by eexists.
Qed.

(** Without a stack, setting the parameters fails unless there are none. *)
Lemma input_params_set_no_stack w coro c context :
  w_coros w !! coro = Some c → w_threads w !! co_callee c = None →
  input_params_set lib coro coll config context w = None ↔ thread_params w ≠ NULL.
Proof.
  intros Hc Hth. unfold input_params_set. destruct (in_params_result w) as (w' & E & Et & Ec).
  rewrite (run_bind _ _ _ _ _ E). case_decide as Hp; [by split|]. split; [done|intros _].
  unfold set_params. rewrite bind_modify. set (W := set_in_params _ _).
  assert (Hc' : w_coros W !! coro = Some c) by (subst W; simpl; by rewrite Ec).
  rewrite (run_bind _ _ _ _ _ (run_get w_coros coro W c Hc')).
  unfold co_switch, co_active. rewrite bind_gets. apply run_bind_none. unfold get, peek.
  change (w_threads W) with (w_threads w'). by rewrite Et, Hth.
Qed.

(** The world after the parameters are set and the coroutine is at its first
    switch. *)
Definition at_switch (w : world) (m : mem) (vs : gmap Z ptr) (ps : gmap Z flb_libco_in_params) (callee : ptr) : world :=
  set_threads (<[callee := CT_input_ready coll config]> (w_threads w)) (set_in_values vs (set_in_params ps (set_mem m w))).

(** Starting the coroutine up to its first switch. *)
Lemma input_params_set_run w coro c context :
  mem_wf (w_mem w) → w_coros w !! coro = Some c → co_caller c = w_active w →
  (∃ m, mem_wf m ∧ mm_brk (w_mem w) ≤ mm_brk m ∧ mm_blocks m = mm_blocks (w_mem w) ∧
     default NULL (w_in_values w !! w_in_key w) = NULL ∧
     input_params_set lib coro coll config context w =
     Some (tt, set_trace (w_trace w ++ [Ev_error]) (set_mem m w))) ∨
  (w_threads w !! co_callee c = None ∧ input_params_set lib coro coll config context w = None) ∨
  (is_Some (w_threads w !! co_callee c) ∧ (w_threads w !! co_callee c = Some CT_input_start →
   ∃ p m vs kept ps, params_at w p m vs kept ∧ (∀ q, p ≠ q → ps !! q = w_in_params w !! q) ∧
     input_params_set lib coro coll config context w = Some (tt, at_switch w m vs ps (co_callee c)))).
Proof.
  intros Hwf Hc Hcal. unfold input_params_set.
  destruct (in_params_run w Hwf) as [(m & Hn & Hm & Hb & Hbl & E)|(p & m & vs & kept & ps & Hpa & Hps & E)];
    rewrite (run_bind _ _ _ _ _ E).
  { left. exists m. split_and!; try done. }
  right. destruct (params_at_value _ _ _ _ _ Hpa) as [Hv Hp].
  rewrite decide_False by done. unfold set_params. rewrite bind_modify.
  set (W := set_in_params _ _).
  rewrite (run_bind _ _ _ _ _ (run_get w_coros coro W c Hc)).
  unfold co_switch, co_active. rewrite bind_gets.
  destruct (w_threads w !! co_callee c) as [st|] eqn:Eth.
  2:{ left. split; [done|]. unfold get, peek, mbind, M_bind.
      change (w_threads W) with (w_threads w). by rewrite Eth. }
  right. split; [done|]. intros [= ->].
  rewrite (run_bind _ _ _ _ _ (run_get w_threads (co_callee c) W CT_input_start Eth)), bind_modify.
  set (W3 := set_active (co_callee c) W).
  assert (Hs : input_run lib CT_input_start W3 = Some ((CT_input_ready coll config, co_caller c), W3)).
  { simpl. unfold input_pre_cb_collect_start.
    rewrite (run_bind _ _ _ _ _ (in_params_found W3 p Hv Hp)), decide_False by done.
    assert (Hl : w_in_params W3 !! p = Some (LibcoInParams config coll coro)) by apply lookup_insert_eq.
    rewrite (run_bind _ _ _ _ _ (run_get w_in_params p W3 _ Hl)). simpl lp_coro.
    by rewrite (run_bind _ _ _ _ _ (run_get w_coros coro W3 c Hc)). }
  rewrite (run_bind _ _ _ _ _ Hs), bind_modify. simpl snd. simpl fst.
  rewrite decide_True by (rewrite Hcal; done).
  exists p, m, vs, kept, (<[p := LibcoInParams config coll coro]> ps). split; [done|]. split.
  - intros q Hq. by rewrite lookup_insert_ne, Hps.
  - subst W3 W. destruct w. wsimpl. simpl in *. reflexivity.
Qed.

(** ** Collecting *)

(** What becomes of the key: a new one, without a value yet, or the last one
    when there is none left. *)
Inductive keys_after (w : world) : Z → gmap Z ptr → Prop :=
| key_created k : il_key_create lib (dom (w_in_values w)) = Some k →
    keys_after w k (<[k := NULL]> (w_in_values w))
| key_kept : il_key_create lib (dom (w_in_values w)) = None → keys_after w (w_in_key w) (w_in_values w).

Lemma pthread_key_create_run w :
  ∃ k vs, keys_after w k vs ∧ pthread_key_create lib w = Some (tt, set_in_key k (set_in_values vs w)).
Proof.
  unfold pthread_key_create. destruct (il_key_create lib _) as [k|] eqn:E.
  - eexists k, _. split; [by constructor|done].
  - exists (w_in_key w), (w_in_values w). split; [by constructor|]. by destruct w.
Qed.

Lemma keys_after_run w v k vs :
  keys_after w k vs → w_in_values v = w_in_values w → w_in_key v = w_in_key w →
  pthread_key_create lib v = Some (tt, set_in_key k (set_in_values vs v)).
Proof.
  intros [k' E|E] Ev Ek; unfold pthread_key_create; rewrite Ev, E; [done|].
  rewrite <- Ev, <- Ek. by destruct v.
Qed.

(** The call finds no stack for the coroutine it creates: in the memory the
    context of the collection leaves, [co_create] fails, and the thread has
    parameters then, for the key the call creates. *)
Definition no_stack (w : world) (c : flb_input_collector) (cfg : flb_config) : Prop :=
  ∃ r w1 m1 p w2, flb_input_coro_create lib (ic_instance c) config w = Some (r, w1) ∧ r ≠ NULL ∧
    co_create_mem (il_co lib) (cf_coro_stack_size cfg) (w_mem w1) = (NULL, m1) ∧
    (pthread_key_create lib;; in_params) (set_mem m1 w1) = Some (p, w2) ∧ p ≠ NULL.

(** The stack of a coroutine, if there is one. *)
Definition with_stack {A} (callee : ptr) (x : A) (m : gmap Z A) : gmap Z A :=
  if decide (callee = NULL) then m else <[callee := x]> m.

(** The context of a collection, as creation leaves it: recorded and linked
    last in the list of the instance, with a coroutine that waits at its first
    switch with the collector and the configuration; without memory for the
    parameters of the thread the coroutine has not run and may not exist.  The
    parameters that were allocated are [kept]. *)
Record collected (w w' : world) (c : flb_input_collector) (i : flb_input_instance) (l : list ptr)
    (r coro callee : ptr) (st : cothread) (kept : gmap Z (list (option Z))) : Prop := {
  cg_new : r ≠ NULL ∧ coro ≠ NULL ∧ mm_brk (w_mem w) ≤ r ∧ mm_brk (w_mem w) ≤ coro ∧ r ≠ coro ∧
    (callee = NULL ∨ mm_brk (w_mem w) ≤ callee ∧ callee ≠ r ∧ callee ≠ coro);
  cg_context : ∃ id now, w_input_coros w' =
    <[r := InputCoro id now 0 (ic_instance c) coro config]> (w_input_coros w);
  cg_coro : w_coros w' = <[coro := Coro (w_active w) callee r]> (w_coros w);
  cg_thread : w_threads w' = with_stack callee st (w_threads w);
  cg_list : dll (ts_list (w_store w')) (ii_input_coro_list i) (l ++ [r + ico_head_off]);
  cg_frame : agree_outside (r + ico_head_off :: ii_input_coro_list i :: l) (ts_list (w_store w)) (ts_list (w_store w'));
  cg_static : ts_tasks (w_store w') = ts_tasks (w_store w) ∧ ts_routes (w_store w') = ts_routes (w_store w) ∧
    w_active w' = w_active w ∧ w_current w' = w_current w ∧
    w_ins w' = w_ins w ∧ w_colls w' = w_colls w ∧ w_configs w' = w_configs w;
  cg_mem : ∃ br bc bh, length br = Z.to_nat sizeof_flb_input_coro ∧
    mm_blocks (w_mem w') = kept ∪ with_stack callee bh (<[coro := bc]> (<[r := br]> (mm_blocks (w_mem w))));
  cg_keys : ∃ vs, keys_after w (w_in_key w') vs ∧
    (kept = ∅ ∧ w_in_values w' = vs ∨
     ∃ p b, kept = {[ p := b ]} ∧ default NULL (vs !! w_in_key w') = NULL ∧ w_in_values w' = <[w_in_key w' := p]> vs ∧
       p ≠ NULL ∧ mm_brk (w_mem w) ≤ p < mm_brk (w_mem w') ∧ p ∉ [r; coro; callee]);
  cg_fresh : fresh_above w' ∧ mm_brk (w_mem w) ≤ mm_brk (w_mem w');
  cg_start : st = CT_input_ready coll config ∧ callee ≠ NULL ∧ w_trace w' = w_trace w ∨
    st = CT_input_start ∧ w_trace w' = w_trace w ++ [Ev_error]
}.

(** The world before the parameters are set. *)
Definition launched_in (w : world) (m m' : mem) (ids : gmap Z Z) (h : lheap) (k : Z) (vs : gmap Z ptr)
    (r coro callee : ptr) (ic : flb_input_coro) : world :=
  set_coros (<[coro := Coro (w_active w) callee r]> (w_coros w))
    (set_threads (with_stack callee CT_input_start (w_threads w))
      (set_mem m' (set_in_key k (set_in_values vs (prepared_in w m ids h r coro ic))))).

(** [flb_input_coro_collect] up to [input_params_set]. *)
Lemma collect_launch w c i cfg l :
  collect_pre w c i cfg l →
  (∃ w', flb_input_coro_collect lib coll config w = Some (NULL, w') ∧ as_before w w' ∧
     flb_input_coro_create lib (ic_instance c) config w = Some (NULL, w')) ∨
  ∃ m m' ids h id now k vs coro callee, let r := mm_brk (w_mem w) in
    let ic := InputCoro id now 0 (ic_instance c) coro config in
    two_blocks w m r coro ∧ keys_after w k vs ∧
    dll h (ii_input_coro_list i) (l ++ [r + ico_head_off]) ∧
    agree_outside (r + ico_head_off :: ii_input_coro_list i :: l) (ts_list (w_store w)) h ∧
    co_create_mem (il_co lib) (cf_coro_stack_size cfg) m = (callee, m') ∧
    flb_input_coro_create lib (ic_instance c) config w = Some (r, prepared_in w m ids h r coro ic) ∧
    flb_input_coro_collect lib coll config w =
    (input_params_set lib coro coll config (ii_context i);; mret r) (launched_in w m m' ids h k vs r coro callee ic).
Proof.
  intros Hpre. pose proof Hpre as [Hf Hc Hi Hcfg Hl _ _]. unfold flb_input_coro_collect.
  rewrite (run_bind _ _ _ _ _ (run_get w_colls coll w c Hc)).
  destruct (input_coro_create_cases w c i cfg l Hpre)
    as [(w' & E & Hab)|(m & ids & h & id & coro & now & Htb & Hd & Hag & E)];
    rewrite (run_bind _ _ _ _ _ E).
  { left. exists w'. by rewrite decide_True. }
  right. set (r := mm_brk (w_mem w)) in *. set (ic := InputCoro _ _ _ _ _ _) in E |- *.
  pose proof (proj1 (tb_r _ _ _ _ _ Htb)) as Hr0. pose proof (proj1 (tb_coro _ _ _ _ _ Htb)) as Hc0.
  rewrite decide_False by done. set (W := prepared_in _ _ _ _ _ _ _).
  destruct (pthread_key_create_run W) as (k & vs & Hk & Ek).
  rewrite (run_bind _ _ _ _ _ Ek). set (W1 := set_in_key k _).
  assert (Hg : w_input_coros W1 !! r = Some ic) by apply lookup_insert_eq.
  rewrite (run_bind _ _ _ _ _ (run_get w_input_coros r W1 ic Hg)). simpl ico_coro.
  rewrite decide_False by done. unfold co_active. rewrite bind_gets.
  assert (Hgc : w_coros W1 !! coro = Some (Coro NULL NULL r)) by apply lookup_insert_eq.
  rewrite (run_bind _ _ _ _ _ (run_get w_coros coro W1 _ Hgc)).
  rewrite (run_bind _ _ _ _ _ (run_get w_configs config W1 cfg Hcfg)).
  destruct (co_create_mem (il_co lib) (cf_coro_stack_size cfg) m) as [callee m'] eqn:Eh.
  rewrite (run_bind _ _ _ _ _ (run_co_create _ _ CT_input_start W1 callee m' Eh)).
  unfold set_coro. rewrite bind_modify.
  exists m, m', ids, h, id, now, k, vs, coro, callee. fold r ic.
  split; [done|]. split; [clear -Hk; destruct Hk as [k Ek|Ek]; [exact (key_created w k Ek)|exact (key_kept w Ek)]|]. do 3 (split; [done|]). split; [exact E|].
  set (L := launched_in _ _ _ _ _ _ _ _ _ _ _). assert (Hi' : w_ins L !! ic_instance c = Some i) by done.
  match goal with |- _ ?X = _ => replace X with L end; [by rewrite (run_bind _ _ _ _ _ (run_get w_ins _ _ i Hi'))|].
  subst L W1 W. unfold launched_in, prepared_in, with_stack. destruct w. case_decide; wsimpl; simpl co_data; by rewrite insert_insert_eq.
Qed.

Section launched.
Context (w : world) (c : flb_input_collector) (i : flb_input_instance) (cfg : flb_config) (l : list ptr).
Context (Hpre : collect_pre w c i cfg l).
Context (m m' : mem) (ids : gmap Z Z) (h : lheap) (id now k : Z) (vs : gmap Z ptr) (r coro callee : ptr).
Context (Htb : two_blocks w m r coro) (Hk : keys_after w k vs).
Context (Hd : dll h (ii_input_coro_list i) (l ++ [r + ico_head_off])).
Context (Hag : agree_outside (r + ico_head_off :: ii_input_coro_list i :: l) (ts_list (w_store w)) h).
Context (Eh : co_create_mem (il_co lib) (cf_coro_stack_size cfg) m = (callee, m')).

Let W : world := launched_in w m m' ids h k vs r coro callee (InputCoro id now 0 (ic_instance c) coro config).

(** Where the stack is, and the memory then. *)
Lemma launched_mem :
  mem_wf m' ∧ mm_brk m ≤ mm_brk m' ∧ (callee = NULL ∨ mm_brk m ≤ callee < mm_brk m' ∧ callee ≠ NULL) ∧
  ∃ br bc bh, length br = Z.to_nat sizeof_flb_input_coro ∧
    mm_blocks m' = with_stack callee bh (<[coro := bc]> (<[r := br]> (mm_blocks (w_mem w)))).
Proof.
  destruct Htb as [Hwf _ _ _ _ (br & bc & Hbl & Hlen)].
  destruct (co_create_ok _ Hco _ _ _ _ Hwf Eh) as (Hwf' & Hb & [[-> Hm]|(Hn & Hr & b & Hm)]).
  - split_and!; try done; [by left|]. exists br, bc, []. by rewrite Hm, Hbl.
  - split_and!; try done; [right; split; [lia|done]|]. exists br, bc, b. unfold with_stack.
    rewrite decide_False by done. by rewrite Hm, Hbl.
Qed.

Lemma launched_fresh : fresh_above W.
Proof.
  destruct launched_mem as (Hwf & Hb & Hcal & _). destruct Htb as [_ Hb0 (_ & Hr & Hr64) (_ & Hc & Hcb) _ _].
  pose proof Hpre as [Hf _ _ _ Hl _ _]. pose proof Hf as [_ Fc Ff Fch Ffp Fic Fip Ft Fn Fp].
  assert (Hnode : ∀ p, mm_brk m' ≤ p → p ∉ r + ico_head_off :: ii_input_coro_list i :: l).
  { intros p Hp [->|Hin]%elem_of_cons; [unfold ico_head_off, sizeof_flb_input_coro in *; lia|].
    apply (dll_below w _ _ _ Hf Hl) in Hin. lia. }
  split; simpl; try done; try (intros p Hp; eauto with lia).
  - apply (insert_fresh _ _ _ _ (mm_brk m') Fc); lia.
  - apply (insert_fresh _ _ _ _ (mm_brk m') Fic); unfold sizeof_flb_input_coro in *; lia.
  - unfold with_stack. case_decide; [apply Ft; lia|]. apply (insert_fresh _ _ _ _ (mm_brk m') Ft); lia.
  - destruct (Hag p (Hnode p Hp)) as [-> _]. apply Fn. lia.
  - destruct (Hag p (Hnode p Hp)) as [_ ->]. apply Fp. lia.
Qed.

(** The world when the coroutine has not been started, or has. *)
Lemma launched_collected V p st kept :
  V = set_trace (w_trace V) (set_threads (with_stack callee st (w_threads w)) (set_in_values (w_in_values V)
        (set_in_params (w_in_params V) (set_mem (w_mem V) W)))) →
  mm_brk m' ≤ mm_brk (w_mem V) → mem_wf (w_mem V) → mm_blocks (w_mem V) = kept ∪ mm_blocks m' →
  (∀ q, mm_brk (w_mem V) ≤ q → w_in_params V !! q = None) →
  (kept = ∅ ∧ w_in_values V = vs ∨
   ∃ b, kept = {[ p := b ]} ∧ default NULL (vs !! k) = NULL ∧ w_in_values V = <[k := p]> vs ∧ p ≠ NULL ∧
     mm_brk m' ≤ p < mm_brk (w_mem V)) →
  (st = CT_input_ready coll config ∧ callee ≠ NULL ∧ w_trace V = w_trace w ∨
   st = CT_input_start ∧ w_trace V = w_trace w ++ [Ev_error]) →
  collected w V c i l r coro callee st kept.
Proof.
  intros EV Hb Hwf Hbl Hip Hkept Hst. destruct launched_mem as (_ & Hb' & Hcal & br & bc & bh & Hlen & Hbm).
  pose proof launched_fresh as HF.
  destruct Htb as [_ Hb0 (Hr0 & Hr & Hr64) (Hc0 & Hc & Hcb) Hne _]. pose proof (proj1 (proj1 (fa_wf _ (lp_fresh _ _ _ _ _ Hpre)))) as H16.
  assert (Eco : w_coros V = w_coros W) by exact (f_equal w_coros EV).
  assert (Eth : w_threads V = with_stack callee st (w_threads w)) by exact (f_equal w_threads EV).
  assert (Est : w_store V = w_store W) by exact (f_equal w_store EV).
  assert (Eic : w_input_coros V = w_input_coros W) by exact (f_equal w_input_coros EV).
  assert (Eke : w_in_key V = k) by exact (f_equal w_in_key EV). clear -Hpre Hk Hd Hag Eco Eth Est Eic Eke EV HF Hb Hwf Hbl Hip Hkept Hst Hb' Hcal
    Hlen Hbm Hb0 Hr0 Hr Hr64 Hc0 Hc Hcb Hne H16.
  split; try (by rewrite ?Eco, ?Eth, ?Est).
  - split_and!; try done; try lia. destruct Hcal as [->|[? ?]]; [by left|right]. unfold sizeof_flb_input_coro in *. lia.
  - by exists id, now.
  - rewrite Est. split; [done|]. split; [done|].
    split_and!; [exact (f_equal w_active EV)|exact (f_equal w_current EV)|exact (f_equal w_ins EV)
                |exact (f_equal w_colls EV)|exact (f_equal w_configs EV)].
  - exists br, bc, bh. split; [done|]. by rewrite Hbl, Hbm.
  - exists vs. rewrite Eke. split; [done|].
    destruct Hkept as [?|(b & -> & Hv & -> & Hp & Hpb)]; [by left|right].
    exists p, b. split_and!; try done; [lia|lia|]. rewrite !not_elem_of_cons. unfold sizeof_flb_input_coro, NULL in *.
    split_and!; [lia|lia|destruct Hcal as [->|?]; unfold NULL; lia|apply not_elem_of_nil].
  - split; [|lia]. pose proof (lp_fresh _ _ _ _ _ Hpre) as Hf.
    assert (Efl : w_flushes V = w_flushes W) by exact (f_equal w_flushes EV).
    assert (Ech : w_chunks V = w_chunks W) by exact (f_equal w_chunks EV).
    assert (Efp : w_flush_params V = w_flush_params W) by exact (f_equal w_flush_params EV). clear EV. destruct HF as [_ Fc Ff Fch Ffp Fic _ _ Fn Fp].
    split; rewrite ?Eco, ?Eic, ?Est, ?Efl, ?Ech, ?Efp, ?Eth; [done|intros q Hq..].
    + apply Fc. simpl. lia.
    + apply Ff. simpl. lia.
    + apply Fch. simpl. lia.
    + apply Ffp. simpl. lia.
    + apply Fic. simpl. lia.
    + by apply Hip.
    + unfold with_stack. case_decide as Hn; [apply (fa_threads _ Hf); lia|].
      destruct Hcal as [?|?]; [done|]. rewrite lookup_insert_ne by lia. apply (fa_threads _ Hf). lia.
    + apply Fn. simpl. lia.
    + apply Fp. simpl. lia.
Qed.
End launched.

Lemma collect_cases w c i cfg l :
  collect_pre w c i cfg l →
  (∃ w', flb_input_coro_collect lib coll config w = Some (NULL, w') ∧ as_before w w') ∨
  (∃ r coro callee st kept w', flb_input_coro_collect lib coll config w = Some (r, w') ∧
     collected w w' c i l r coro callee st kept) ∨
  flb_input_coro_collect lib coll config w = None.
Proof.
  intros Hpre. destruct (collect_launch w c i cfg l Hpre)
    as [(w' & ? & ? & _)|(m & m' & ids & h & id & now & k & vs & coro & callee & Htb & Hk & Hd & Hag & Eh & _ & ->)];
    [by left; exists w'|]. right.
  set (r := mm_brk (w_mem w)) in *. set (ic := InputCoro _ _ _ _ _ _) in *. set (W := launched_in _ _ _ _ _ _ _ _ _ _ _).
  pose proof (launched_fresh w c i cfg l Hpre m m' ids h id now k vs r coro callee Htb Hag Eh) as HF. fold ic W in HF.
  pose proof (launched_collected w c i cfg l Hpre m m' ids h id now k vs r coro callee Htb Hk Hd Hag Eh) as Hcol.
  assert (Hc : w_coros W !! coro = Some (Coro (w_active w) callee r)) by apply lookup_insert_eq.
  destruct (input_params_set_run W coro _ (ii_context i) (fa_wf _ HF) Hc eq_refl)
    as [(m2 & Hm2 & Hb2 & Hbl2 & _ & E2)|[[Hn E2]|[Hsome Hrun]]]; simpl co_callee in *.
  - rewrite (run_bind _ _ _ _ _ E2). left. eexists r, coro, callee, CT_input_start, ∅, _. split; [reflexivity|].
    apply (Hcol _ NULL); try done; [by rewrite (left_id_L ∅ (∪))| |by left|by right].
    intros q Hq. apply (fa_in_params _ HF). simpl in *. lia.
  - right. exact (run_bind_none _ _ _ E2).
  - change (w_threads W) with (with_stack callee CT_input_start (w_threads w)) in Hsome, Hrun. unfold with_stack in Hsome, Hrun.
    case_decide as Hcn; [rewrite Hcn, (lp_no_null _ _ _ _ _ Hpre) in Hsome; by destruct Hsome|]. left.
    destruct Hrun as (p & m2 & vs2 & kept & ps & Hpa & Hps & E2); [apply lookup_insert_eq|].
    destruct (params_at_mem _ _ _ _ _ (fa_wf _ HF) Hpa) as (Hm2 & Hb2 & Hbl2).
    rewrite (run_bind _ _ _ _ _ E2). eexists r, coro, callee, (CT_input_ready coll config), kept, _. split; [reflexivity|].
    assert (Hp : p < mm_brk m2).
    { destruct Hpa as [p Hv Hp|]; [|lia]. simpl in Hv, Hb2 |- *. pose proof (tb_brk _ _ _ _ _ Htb).
      destruct (co_create_ok _ Hco _ _ _ _ (tb_wf _ _ _ _ _ Htb) Eh) as (_ & ? & _).
      assert (p < mm_brk (w_mem w)); [|lia]. destruct Hk as [k _|_]; [|by apply (lp_values _ _ _ _ _ Hpre _ _ Hv)].
      rewrite lookup_insert_eq in Hv. by injection Hv as <-. }
    apply (Hcol _ p); simpl; try done; [| | |by left].
    + unfold at_switch. change (w_threads W) with (with_stack callee CT_input_start (w_threads w)). unfold with_stack.
      rewrite !decide_False, insert_insert_eq by done. reflexivity.
    + intros q Hq. rewrite Hps by lia. apply (fa_in_params _ HF). simpl in *. lia.
    + destruct Hpa as [p Hv _|p m2 b Hv _ ? ? _]; [by left|right]. by exists b.
Qed.

(** When there is no result. *)
Lemma collect_none w c i cfg l :
  collect_pre w c i cfg l → flb_input_coro_collect lib coll config w = None ↔ no_stack w c cfg.
Proof.
  intros Hpre. destruct (collect_launch w c i cfg l Hpre)
    as [(w' & -> & _ & Ec)|(m & m' & ids & h & id & now & k & vs & coro & callee & Htb & Hk & Hd & Hag & Eh & Ec & ->)].
  { split; [done|]. intros (r & w1 & m1 & p & w2 & E & Hr & _). congruence. }
  set (r := mm_brk (w_mem w)) in *. set (ic := InputCoro _ _ _ _ _ _) in *. set (L := launched_in _ _ _ _ _ _ _ _ _ _ _).
  set (V := prepared_in _ _ _ _ _ _ _) in *.
  assert (HcL : w_coros L !! coro = Some (Coro (w_active w) callee r)) by apply lookup_insert_eq.
  destruct (in_params_result (set_in_key k (set_in_values vs (set_mem m' V)))) as (w2 & E2 & _).
  assert (Ek : (pthread_key_create lib;; in_params) (set_mem m' V) = Some (thread_params L, w2)).
  { rewrite (run_bind _ _ _ _ _ (keys_after_run w (set_mem m' V) k vs Hk eq_refl eq_refl)). exact E2. }
  pose proof (input_params_set_no_stack L coro _ (ii_context i) HcL) as Hset.
  assert (Hns : no_stack w c cfg ↔ callee = NULL ∧ thread_params L ≠ NULL).
  { split.
    - intros (r' & w1 & m1 & p & w3 & E & _ & Es & Ep & Hp). rewrite Ec in E. injection E as <- <-.
      change (w_mem V) with m in Es. rewrite Eh in Es. injection Es as -> <-.
      split; [done|]. rewrite Ek in Ep. by injection Ep as <- _.
    - intros [-> Hp]. exists r, V, m', (thread_params L), w2. split; [exact Ec|]. split; [apply Htb|]. done. }
  rewrite Hns. clear Hns.
  assert (Hth : callee = NULL → w_threads L !! callee = None).
  { intros ->. change (w_threads L) with (with_stack NULL CT_input_start (w_threads w)). unfold with_stack.
    rewrite decide_True by done. apply (lp_no_null _ _ _ _ _ Hpre). }
  split.
  - intros E. assert (callee = NULL) as Hn.
    { pose proof (launched_fresh w c i cfg l Hpre m m' ids h id now k vs r coro callee Htb Hag Eh) as HF. fold ic L in HF.
      destruct (decide (callee = NULL)) as [|Hn]; [done|exfalso].
      assert (Hl : w_threads L !! callee = Some CT_input_start).
      { change (w_threads L) with (with_stack callee CT_input_start (w_threads w)). unfold with_stack.
        rewrite decide_False by done. apply lookup_insert_eq. }
      destruct (input_params_set_run L coro _ (ii_context i) (fa_wf _ HF) HcL eq_refl)
        as [(m2 & _ & _ & _ & _ & E')|[[Hn' _]|[_ Hrun]]]; simpl co_callee in *; [|congruence|].
      - by rewrite (run_bind _ _ _ _ _ E') in E.
      - destruct (Hrun Hl) as (? & ? & ? & ? & ? & _ & _ & E'). by rewrite (run_bind _ _ _ _ _ E') in E. }
    split; [done|]. apply (Hset (Hth Hn)). destruct (input_params_set _ _ _ _ _ _) as [[[] w']|] eqn:E'; [|done].
    by rewrite (run_bind _ _ _ _ _ E') in E.
  - intros [Hn Hp]. apply run_bind_none. by apply (Hset (Hth Hn)).
Qed.

(** C19. [flb_input_coro_collect], for every pattern of allocation failures.
    It returns NULL with everything it allocated released; or it returns a
    context recorded and linked last in the list of the instance, whose
    coroutine waits at its first switch with this collector; or, memory being
    short for the parameters of the thread, one whose coroutine never starts.
    Each time a key can be created it is a new one, and new parameters are
    allocated under it.  The call has no defined behaviour exactly when, in the
    memory its context and its coroutine leave, the stack cannot be allocated
    and the parameters of the thread can then be had, since the result of
    [co_create] is not checked before the switch. *)
Theorem flb_input_coro_collect_spec w c i cfg l :
  collect_pre w c i cfg l →
  ((∃ w', flb_input_coro_collect lib coll config w = Some (NULL, w') ∧ as_before w w') ∨
   (∃ r coro callee st kept w', flb_input_coro_collect lib coll config w = Some (r, w') ∧
     collected w w' c i l r coro callee st kept) ∨
   flb_input_coro_collect lib coll config w = None) ∧
  (flb_input_coro_collect lib coll config w = None ↔ no_stack w c cfg).
Proof. intros Hpre. split; [by eapply collect_cases|by eapply collect_none]. Qed.
End collect.

Arguments cg_new {_ _ _ _ _ _ _ _ _ _ _ _ _}.
Arguments cg_context {_ _ _ _ _ _ _ _ _ _ _ _ _}.
Arguments cg_coro {_ _ _ _ _ _ _ _ _ _ _ _ _}.
Arguments cg_thread {_ _ _ _ _ _ _ _ _ _ _ _ _}.
Arguments cg_list {_ _ _ _ _ _ _ _ _ _ _ _ _}.
Arguments cg_frame {_ _ _ _ _ _ _ _ _ _ _ _ _}.
Arguments cg_static {_ _ _ _ _ _ _ _ _ _ _ _ _}.
Arguments cg_mem {_ _ _ _ _ _ _ _ _ _ _ _ _}.
Arguments cg_keys {_ _ _ _ _ _ _ _ _ _ _ _ _}.
Arguments cg_fresh {_ _ _ _ _ _ _ _ _ _ _ _ _}.
Arguments cg_start {_ _ _ _ _ _ _ _ _ _ _ _ _}.

Section resume.
Context (lib : input_lib).

(** What is needed to return from a collection. *)
Record return_pre (w : world) (coro : ptr) (c : flb_coro) (ic : flb_input_coro)
    (i : flb_input_instance) (h : lheap) : Prop := {
  rp_coro : w_coros w !! coro = Some c;
  rp_context : w_input_coros w !! co_data c = Some ic;
  rp_instance : w_ins w !! ico_ins ic = Some i;
  rp_prepare : il_coro_prepare_destroy lib (co_data c) (ts_list (w_store w)) = Some h
}.

Definition return_val (i : flb_input_instance) : Z := FLB_BITS_U64_SET FLB_ENGINE_IN_CORO (ii_id i).

Lemma in_return_val_fields i : 0 ≤ ii_id i < 2 ^ 31 →
  FLB_BITS_U64_HIGH (return_val i) = FLB_ENGINE_IN_CORO ∧ FLB_BITS_U64_LOW (return_val i) = ii_id i.
Proof.
  intros Hid. unfold return_val. rewrite FLB_BITS_U64_SET_add by (unfold FLB_ENGINE_IN_CORO; lia).
  rewrite FLB_BITS_U64_HIGH_div, FLB_BITS_U64_LOW_mod by (unfold FLB_ENGINE_IN_CORO; lia).
  unfold FLB_ENGINE_IN_CORO. rewrite Z.div_add_l, (Z.div_small (ii_id i)) by lia.
  by rewrite (Z.add_comm (3 * 2 ^ 32)), Z.mod_add, (Z.mod_small (ii_id i)) by lia.
Qed.

(** The write of the message, after the events [tr], and what follows. *)
Definition return_events (tr : list event) (i : flb_input_instance) (input_coro : ptr) : list event :=
  let n := il_pipe_w lib tr (ii_ch_events i !!! 1%nat) (return_val i) in
  Ev_pipe (ii_ch_events i !!! 1%nat) (return_val i) n ::
  (if decide (n = -1) then [Ev_error] else []) ++
  [Ev_coro_prepare_destroy input_coro].

Lemma flb_input_return_run w coro c ic i h :
  return_pre w coro c ic i h →
  flb_input_return lib coro w =
  Some (tt, set_store (TaskStore h (ts_tasks (w_store w)) (ts_routes (w_store w)))
             (set_trace (w_trace w ++ return_events (w_trace w) i (co_data c)) w)).
Proof.
  intros [Hc Hic Hi Hh]. unfold flb_input_return.
  rewrite (run_bind _ _ _ _ _ (run_get w_coros coro w c Hc)).
  rewrite (run_bind _ _ _ _ _ (run_get w_input_coros (co_data c) w ic Hic)).
  rewrite (run_bind _ _ _ _ _ (run_get w_ins (ico_ins ic) w i Hi)), bind_gets, bind_emit.
  fold (return_val i). unfold return_events.
  destruct (decide (il_pipe_w lib (w_trace w) (ii_ch_events i !!! 1%nat) (return_val i) = -1)) as [Hp|Hp].
  - unfold flb_errno. rewrite !bind_emit. rewrite (run_list _ _ h) by exact Hh.
    destruct w. wsimpl. by rewrite <- !app_assoc.
  - rewrite bind_ret, bind_emit. rewrite (run_list _ _ h) by exact Hh.
    destruct w. wsimpl. by rewrite <- !app_assoc.
Qed.

(** The turn that ends a collection, and the one that suspends it. *)
Lemma return_turn_run w coro c ic i h x :
  w_current w = coro → return_pre w coro c ic i h →
  collect_turn lib (CB_return x) w = Some ((CT_returned, co_caller c),
    set_store (TaskStore h (ts_tasks (w_store w)) (ts_routes (w_store w)))
      (set_trace (w_trace w ++ return_events (w_trace w) i (co_data c)) w)).
Proof.
  intros Hcur Hpre. pose proof Hpre as [Hc _ _ _]. simpl.
  unfold flb_input_return_do, flb_coro_get, flb_coro_yield.
  rewrite bind_assoc, bind_gets, Hcur, bind_assoc.
  rewrite (run_bind _ _ _ _ _ (flb_input_return_run w coro c ic i h Hpre)), bind_assoc.
  set (W := set_store _ _). by rewrite (run_bind _ _ _ _ _ (run_get w_coros coro W c Hc)).
Qed.

Lemma suspend_turn_run w coro c k :
  w_current w = coro → w_coros w !! coro = Some c →
  collect_turn lib (CB_suspend k) w = Some ((CT_callback k, co_caller c), w).
Proof.
  intros Hcur Hc. simpl. unfold flb_coro_get, flb_coro_yield. rewrite bind_gets, Hcur, bind_assoc.
  by rewrite (run_bind _ _ _ _ _ (run_get w_coros coro w c Hc)).
Qed.

(** The end of a turn, by what the callback did. *)
Lemma collect_turn_run w coro c ic i h r :
  w_current w = coro → return_pre w coro c ic i h →
  ∃ w', collect_turn lib r w =
    Some ((match r with CB_return _ => CT_returned | CB_suspend k => CT_callback k end, co_caller c), w') ∧
    w_trace w' = w_trace w ++
      match r with CB_return _ => return_events (w_trace w) i (co_data c) | CB_suspend _ => [] end ∧
    w_mem w' = w_mem w.
Proof.
  intros Hcur Hpre. destruct r as [x|k].
  - eexists. split; [by apply (return_turn_run w coro c ic i h)|]. done.
  - eexists. split; [by apply (suspend_turn_run w coro); [|apply Hpre]|]. by rewrite app_nil_r.
Qed.

(** What a callback may not change for its coroutine to go on. *)
Record keeps (w w1 : world) (input_coro : ptr) (ic : flb_input_coro) : Prop := {
  ke_coros : w_coros w1 !! ico_coro ic = w_coros w !! ico_coro ic;
  ke_context : w_input_coros w1 !! input_coro = Some ic;
  ke_ins : w_ins w1 !! ico_ins ic = w_ins w !! ico_ins ic;
  ke_current : w_current w1 = w_current w
}.

(** Resuming a collection that waits at its first switch runs the
    callback of its collector once, with the instance, the configuration it
    was created with and the context of the instance; then control is back in
    the engine.  A callback that has returned leaves on the pipe of the
    instance a message that carries the kind of event and the identifier of
    the instance, and the context is handed over for destruction; one that
    waits will be resumed where it is. *)
Theorem flb_input_coro_resume_spec w input_coro ic c k coll config i r w1 h :
  w_input_coros w !! input_coro = Some ic → w_coros w !! ico_coro ic = Some c →
  co_data c = input_coro → w_threads w !! co_callee c = Some (CT_input_ready coll config) →
  w_colls w !! coll = Some k → w_ins w !! ic_instance k = Some i → ico_ins ic = ic_instance k →
  0 ≤ ii_id i < 2 ^ 31 →
  let entry := set_trace (w_trace w ++ [Ev_collect coll config]) (inside w (ico_coro ic) c) in
  il_cb_collect lib (ic_cb_collect k) (ic_instance k) config (ii_context i) entry = Some (r, w1) →
  keeps entry w1 input_coro ic →
  il_coro_prepare_destroy lib input_coro (ts_list (w_store w1)) = Some h →
  ∃ w' val, flb_input_coro_resume lib input_coro w = Some (tt, w') ∧
    w_active w' = w_active w ∧
    w_threads w' !! co_callee c =
      Some match r with CB_return _ => CT_returned | CB_suspend k => CT_callback k end ∧
    w_trace w' = w_trace w1 ++
      match r with
      | CB_return _ =>
          let n := il_pipe_w lib (w_trace w1) (ii_ch_events i !!! 1%nat) val in
          Ev_pipe (ii_ch_events i !!! 1%nat) val n :: (if decide (n = -1) then [Ev_error] else []) ++
          [Ev_coro_prepare_destroy input_coro]
      | CB_suspend _ => []
      end ∧
    w_mem w' = w_mem w1 ∧
    FLB_BITS_U64_HIGH val = FLB_ENGINE_IN_CORO ∧ FLB_BITS_U64_LOW val = ii_id i.
Proof.
  intros Hic Hc Hd Hth Hk Hi Hins Hid entry Hcb [Kc Kx Ki Ku] Hh.
  assert (Hce : w_coros entry !! ico_coro ic = Some (Coro (w_active w) (co_callee c) (co_data c)))
    by apply lookup_insert_eq.
  rewrite Hce in Kc.
  assert (Hpre : return_pre w1 (ico_coro ic) (Coro (w_active w) (co_callee c) (co_data c)) ic i h).
  { split; [done|by rewrite Hd|by rewrite Ki, Hins|by rewrite Hd]. }
  destruct (collect_turn_run w1 (ico_coro ic) _ ic i h r Ku Hpre) as (w2 & Et & Htr & Hm).
  assert (Hrun : input_run lib (CT_input_ready coll config) (inside w (ico_coro ic) c) =
    Some ((match r with CB_return _ => CT_returned | CB_suspend k => CT_callback k end, w_active w), w2)).
  { simpl. unfold input_pre_cb_collect_resume.
    rewrite (run_bind _ _ _ _ _ (run_get w_colls coll (inside w (ico_coro ic) c) k Hk)).
    rewrite (run_bind _ _ _ _ _ (run_get w_ins (ic_instance k) (inside w (ico_coro ic) c) i Hi)), bind_emit.
    by rewrite (run_bind _ _ _ _ _ Hcb). }
  unfold flb_input_coro_resume. rewrite (run_bind _ _ _ _ _ (run_get w_input_coros input_coro w ic Hic)).
  rewrite (flb_coro_resume_run w (ico_coro ic) c _ _ _ w2 Hc Hth Hrun).
  eexists _, (return_val i). split; [reflexivity|]. split; [done|]. split; [apply lookup_insert_eq|].
  split; [simpl in Htr; rewrite Hd in Htr; exact Htr|]. split; [exact Hm|].
  by apply in_return_val_fields.
Qed.

(** [flb_input_config_map_set] applies the map of the plugin and then
    the network map, stops at the first error, and has no defined result
    exactly when the instance has neither: [ret] is returned without having
    been set. *)
Theorem flb_input_config_map_set_spec w ins i context net_setup r1 w1 r2 w2 :
  w_ins w !! ins = Some i →
  il_config_map_set lib (ii_properties i) (ii_config_map i) context w = Some (r1, w1) →
  il_config_map_set lib (ii_net_properties i) (ii_net_config_map i) net_setup
    (if decide (ii_config_map i = NULL) then w else w1) = Some (r2, w2) →
  flb_input_config_map_set lib ins context net_setup w =
  if decide (ii_config_map i = NULL) then
    if decide (ii_net_config_map i = NULL) then None else Some (r2, w2)
  else if decide (r1 = -1) then Some (-1, w1)
  else if decide (ii_net_config_map i = NULL) then Some (r1, w1) else Some (r2, w2).
Proof.
  intros Hi E1 E2. unfold flb_input_config_map_set.
  rewrite (run_bind _ _ _ _ _ (run_get w_ins ins w i Hi)). unfold mbind, M_bind, mret, M_ret, fail.
  destruct (decide (ii_config_map i = NULL)) as [H1|H1], (decide (ii_net_config_map i = NULL)) as [H2|H2];
    rewrite ?H1, ?H2 in *; repeat first [done | rewrite E1 | rewrite E2 | case_decide]; try congruence.
Qed.
End resume.

(** ** The theorems at work: one instance at 200 with a collector at 320. *)

Definition demo_input_lib : input_lib := {|
  il_co := malloc_libco;
  il_coro_id_get := λ o ids, let id := default 0 (ids !! o) in (id, <[o := id + 1]> ids);
  il_time := λ _, 1700000000;
  il_key_create := λ keys, head (filter (λ k, k ∉ keys) (seqZ 1 128));
  il_pipe_w := λ _ _ _, 8;
  il_coro_prepare_destroy := λ input_coro h,
    h ← mk_list_del (input_coro + ico_head_off) h; mk_list_add (input_coro + ico_head_off) 6400 h;
  il_cb_collect := λ _ _ _ _, mret (CB_return 0);
  il_cb_resume := λ _, mret (CB_return 0);
  il_config_map_set := λ _ _ _, mret 0
|}.

Definition demo_input : flb_input_instance.
Proof.
  refine {| ii_id := 9; ii_ch_events := [20; 21]; ii_context := 400; ii_config_map := 480;
            ii_properties := 500; ii_input_coro_list := 6144; ii_input_coro_list_destroy := 6400;
            ii_net_config_map := NULL; ii_chunk_trace_lock := false |};
    first [exact 0 | exact [] | exact mk_event_zero | exact flb_net_host_zero
          | exact flb_net_setup_zero].
Defined.

Definition demo_collector : flb_input_collector :=
  InputCollector mk_event_zero NULL 1 0 1 (-1) (-1) 0 0 880 200 NULL.

Definition demo_in_world : world := {|
  w_store := TaskStore (default lempty (h ← mk_list_init 6144 lempty; mk_list_init 6400 h)) ∅ ∅;
  w_mem := Mem ∅ 16384 []; w_coros := ∅; w_flushes := ∅; w_chunks := ∅;
  w_flush_params := ∅; w_input_coros := ∅; w_in_params := ∅; w_outs := ∅;
  w_out_threads := ∅; w_configs := {[ 7168 := flb_config_zero ]}; w_ins := {[ 200 := demo_input ]};
  w_colls := {[ 320 := demo_collector ]};
  w_threads := {[ 64 := CT_native ]}; w_active := 64; w_current := NULL; w_out_key := NULL;
  w_in_key := 0; w_in_values := ∅; w_ids := ∅; w_trace := []
|}.

Lemma demo_in_fresh : fresh_above demo_in_world.
Proof. split; [apply (laid_out_wf [] 16384 []); vm_compute; reflexivity|apply below_fresh; evaluate..]. Qed.

Lemma demo_collect_pre :
  collect_pre 320 7168 demo_in_world demo_collector demo_input flb_config_zero [].
Proof. split; try reflexivity; [exact demo_in_fresh|evaluate|by intros k p [=]]. Qed.

(** The world after the collection has been created. *)
Definition demo_collecting : world :=
  from_option snd demo_in_world (flb_input_coro_collect demo_input_lib 320 7168 demo_in_world).

Lemma demo_collects :
  flb_input_coro_collect demo_input_lib 320 7168 demo_in_world = Some (16384, demo_collecting).
Proof. vm_compute. reflexivity. Qed.

Lemma flb_input_coro_collect_spec_witness :
  ∃ r w', flb_input_coro_collect demo_input_lib 320 7168 demo_in_world = Some (r, w') ∧
    (r = NULL ∧ as_before demo_in_world w' ∨
     ∃ coro callee st kept,
       collected demo_input_lib 320 7168 demo_in_world w' demo_collector demo_input [] r coro callee st kept).
Proof.
  destruct (flb_input_coro_collect_spec demo_input_lib malloc_libco_ok 320 7168 _ _ _ _ _ demo_collect_pre)
    as [[(w' & E & H)|[(r & coro & callee & st & kept & w' & E & H)|E]] _].
  - exists NULL, w'. split; [exact E|]. left. split; [reflexivity|exact H].
  - exists r, w'. split; [exact E|]. right. exists coro, callee, st, kept. exact H.
  - rewrite demo_collects in E. discriminate E.
Defined.

Definition demo_input_coro : flb_input_coro := InputCoro 0 1700000000 0 200 16464 7168.

Lemma flb_input_coro_resume_spec_witness :
  ∃ w' val, flb_input_coro_resume demo_input_lib 16384 demo_collecting = Some (tt, w') ∧
    w_active w' = 64 ∧ w_threads w' !! 16512 = Some CT_returned ∧
    w_trace w' = [Ev_collect 320 7168; Ev_pipe 21 val 8; Ev_coro_prepare_destroy 16384] ∧
    FLB_BITS_U64_LOW val = 9.
Proof.
  destruct (flb_input_coro_resume_spec demo_input_lib demo_collecting 16384 demo_input_coro
    (Coro 64 16512 16384) demo_collector 320 7168 demo_input (CB_return 0)
    (set_trace (w_trace demo_collecting ++ [Ev_collect 320 7168]) (inside demo_collecting 16464 (Coro 64 16512 16384)))
    (default lempty (il_coro_prepare_destroy demo_input_lib 16384 (ts_list (w_store demo_collecting)))))
    as (w' & val & E & Ha & Hth & Htr & _ & _ & Hl).
  - vm_compute. reflexivity.
  - vm_compute. reflexivity.
  - reflexivity.
  - vm_compute. reflexivity.
  - vm_compute. reflexivity.
  - vm_compute. reflexivity.
  - reflexivity.
  - simpl. lia.
  - reflexivity.
  - split; vm_compute; reflexivity.
  - vm_compute. reflexivity.
  - exists w', val. split; [exact E|]. split; [exact Ha|]. split; [exact Hth|]. split; [exact Htr|exact Hl].
Defined.

Lemma flb_input_config_map_set_spec_witness :
  flb_input_config_map_set demo_input_lib 200 400 600 demo_in_world = Some (0, demo_in_world).
Proof.
  exact (flb_input_config_map_set_spec demo_input_lib demo_in_world 200 demo_input 400 600 0 demo_in_world
    0 demo_in_world ltac:(reflexivity) ltac:(reflexivity) ltac:(reflexivity)).
Defined.
