(* ===== verification/Collect.v ===== *)
(** The collections of the inputs: any number of them, over any interleaving
    of creations and resumptions.

    The concrete machine is the world of [Runtime] with the operations of
    [Input]; the abstract one knows of each collection only in which phase it
    is, of each instance which collections are under way and which are done,
    and what was reported to the engine, in order. *)
From S2P Require Import Prelude MkList MkListSpec Mem MkEvent Codes Task Structs Runtime RuntimeSpec Input InputSpec Queues.

(** * The abstract machine *)

Inductive cphase :=
| CUnstarted                     (** its coroutine never reached its first switch *)
| CReady (coll config : ptr)     (** at its first switch *)
| CWaiting (k : Z)               (** inside its callback *)
| CFinished.                     (** it has reported *)

Record acoll := ACollection {
  ac_rec : flb_input_coro;
  ac_callee : ptr;
  ac_phase : cphase
}.

Definition cfinished (a : acoll) : Prop := ac_phase a = CFinished.

#[export] Instance cfinished_dec a : Decision (cfinished a).
Proof. unfold cfinished. destruct (ac_phase a); first [by left|by right]. Defined.

(** A report: which collection, of which instance, and what the write of its
    message has returned. *)
Record ccompletion := CCompletion {
  cc_coll : ptr;
  cc_ins : ptr;
  cc_sent : Z
}.

Record cstate := CState {
  cs_colls : gmap Z acoll;
  cs_queue : gmap Z (list ptr);    (** by instance, in order of creation *)
  cs_done : gmap Z (list ptr);     (** by instance, in order of completion *)
  cs_log : list ccompletion        (** what was reported *)
}.

Definition set_cphase (ph : cphase) (a : acoll) : acoll := ACollection (ac_rec a) (ac_callee a) ph.
Definition ac_ins (a : acoll) : ptr := ico_ins (ac_rec a).

Section abstract.
(** What the plugins may do: when the callback of a collector starts, and when
    it goes on from some state. *)
Context (collects : ptr → ptr → cb_result → Prop) (goes_on : Z → cb_result → Prop).

Definition c_create (r : ptr) (a : acoll) (A : cstate) : cstate :=
  CState (<[r := a]> (cs_colls A)) (enqueue (ac_ins a) r (cs_queue A)) (cs_done A) (cs_log A).

Definition c_wait (r : ptr) (a : acoll) (k : Z) (A : cstate) : cstate :=
  CState (<[r := set_cphase (CWaiting k) a]> (cs_colls A)) (cs_queue A) (cs_done A) (cs_log A).

Definition c_finish (r : ptr) (a : acoll) (n : Z) (A : cstate) : cstate :=
  CState (<[r := set_cphase CFinished a]> (cs_colls A)) (dequeue (ac_ins a) r (cs_queue A))
    (enqueue (ac_ins a) r (cs_done A)) (cs_log A ++ [CCompletion r (ac_ins a) n]).

Inductive cstep (A : cstate) : cstate → Prop :=
| cstep_fail : cstep A A
| cstep_create r a : cs_colls A !! r = None → r ∉ cc_coll <$> cs_log A →
    (ac_phase a = CUnstarted ∨ ∃ coll config, ac_phase a = CReady coll config) → cstep A (c_create r a A)
| cstep_start_wait r a coll config k : cs_colls A !! r = Some a → ac_phase a = CReady coll config →
    collects coll config (CB_suspend k) → cstep A (c_wait r a k A)
| cstep_start_finish r a coll config x n : cs_colls A !! r = Some a → ac_phase a = CReady coll config →
    collects coll config (CB_return x) → cstep A (c_finish r a n A)
| cstep_wait r a k k' : cs_colls A !! r = Some a → ac_phase a = CWaiting k →
    goes_on k (CB_suspend k') → cstep A (c_wait r a k' A)
| cstep_finish r a k x n : cs_colls A !! r = Some a → ac_phase a = CWaiting k →
    goes_on k (CB_return x) → cstep A (c_finish r a n A).
End abstract.

(** * The objects of the inputs *)

(** The thread that collects; the objects that exist before any collection,
    and the addresses below which they lie. *)
Class site := Site {
  collector_thread : Z;
  site_base : Z;
  site_owned : gset Z;
  instances : gmap Z flb_input_instance;
  collectors : gmap Z flb_input_collector;
  site_configs : gmap Z flb_config
}.

Section collect.
Context `{site} (lib : input_lib).

(** * The concrete machine *)

(** Where the coroutine of a collection is. *)
Definition collecting_at (w : world) (r : ptr) (ic : flb_input_coro) (c : flb_coro) (st : cothread) : Prop :=
  w_input_coros w !! r = Some ic ∧ w_coros w !! ico_coro ic = Some c ∧ w_threads w !! co_callee c = Some st.

(** The coroutine waits at its first switch or in its callback. *)
Definition resumable_in (st : cothread) : Prop :=
  match st with CT_input_ready _ _ | CT_callback _ => True | _ => False end.

Inductive collect_step (w : world) : world → Prop :=
| collect_create coll config r w' :
    is_Some (collectors !! coll) → is_Some (site_configs !! config) →
    flb_input_coro_collect lib coll config w = Some (r, w') → collect_step w w'
| collect_resume r ic c st w' :
    collecting_at w r ic c st → resumable_in st →
    flb_input_coro_resume lib r w = Some (tt, w') → collect_step w w'.

(** A collection resumed a number of times. *)
Fixpoint resume_collection (n : nat) (r : ptr) (w : world) : option world :=
  match n with
  | O => Some w
  | S n => '(_, w) ← flb_input_coro_resume lib r w; resume_collection n r w
  end.

(** * What is assumed *)

(** The lists of an instance. *)
Inductive ckind := CQueue (ins : ptr) | CDone (ins : ptr).

#[export] Instance ckind_eq_dec : EqDecision ckind.
Proof. solve_decision. Defined.

Definition chead (k : ckind) : option ptr :=
  match k with
  | CQueue ins => ii_input_coro_list <$> instances !! ins
  | CDone ins => ii_input_coro_list_destroy <$> instances !! ins
  end.

Definition cnode (r : ptr) : ptr := r + ico_head_off.

Definition ccontent (A : cstate) (k : ckind) : list ptr :=
  match k with
  | CQueue ins => cnode <$> (cs_queue A !!! ins)
  | CDone ins => cnode <$> (cs_done A !!! ins)
  end.

(** Events: a report, and a write to the engine. *)
Definition is_creport (r : ptr) (e : event) : bool :=
  match e with Ev_coro_prepare_destroy x => bool_decide (x = r) | _ => false end.
Definition creports (w : world) (r : ptr) : nat := tally (is_creport r) (w_trace w).

Definition in_fd (i : flb_input_instance) : Z := ii_ch_events i !!! 1%nat.
Definition in_fds : list Z := (λ x, in_fd x.2) <$> map_to_list instances.

Definition is_cmessage (e : event) : bool :=
  match e with Ev_pipe fd _ _ => bool_decide (fd ∈ in_fds) | _ => false end.
Definition cmessages_of (evs : list event) : list event := filter (λ e, is_cmessage e = true) evs.
Definition cmessages (w : world) : list event := cmessages_of (w_trace w).

(** The write of the message of a report. *)
Definition cmessage (e : event) (c : ccompletion) : Prop :=
  ∃ i, instances !! cc_ins c = Some i ∧ e = Ev_pipe (in_fd i) (return_val i) (cc_sent c) ∧
    ∃ tr, cc_sent c = il_pipe_w lib tr (in_fd i) (return_val i).

(** It has reached the pipe whole. *)
Definition carrived (e : event) : Prop :=
  match e with Ev_pipe _ _ n => n = 8 | _ => False end.

#[export] Instance carrived_dec e : Decision (carrived e).
Proof. destruct e; apply _. Defined.

(** What the engine can read. *)
Definition creceived (w : world) : list event := filter carrived (cmessages w).

Definition cquiet (evs : list event) : Prop :=
  Forall (λ e, (∀ r, is_creport r e = false) ∧ is_cmessage e = false) evs.

Definition cwell_behaved (cb : M cb_result) : Prop :=
  ∀ v, ∃ res evs, cb v = Some (res, set_trace (w_trace v ++ evs) v) ∧ cquiet evs.

(** What the plugins may do. *)
Definition collects (coll config : ptr) (res : cb_result) : Prop :=
  ∃ c i v v', collectors !! coll = Some c ∧ instances !! ic_instance c = Some i ∧
    il_cb_collect lib (ic_cb_collect c) (ic_instance c) config (ii_context i) v = Some (res, v').
Definition cgoes_on (k : Z) (res : cb_result) : Prop := ∃ v v', il_cb_resume lib k v = Some (res, v').

Record collect_setting : Prop := {
  ce_collector coll c : collectors !! coll = Some c → is_Some (instances !! ic_instance c);
  ce_heads k k' a : chead k = Some a → chead k' = Some a → k = k';
  ce_below : collector_thread < site_base ∧ (∀ k a, chead k = Some a → a < site_base) ∧
    (∀ p, p ∈ site_owned → p < site_base);
  ce_collect cb ins config context : cwell_behaved (il_cb_collect lib cb ins config context);
  ce_resume k : cwell_behaved (il_cb_resume lib k);
  (** what is documented of [pthread_key_create]: the key is a new one *)
  ce_key keys k : il_key_create lib keys = Some k → k ∉ keys;
  (** what is documented of [flb_input_coro_prepare_destroy] *)
  ce_prepare r ins i h l1 l2 dl : instances !! ins = Some i →
    dll h (ii_input_coro_list i) (l1 ++ cnode r :: l2) → dll h (ii_input_coro_list_destroy i) dl →
    (∀ y, y ∈ ii_input_coro_list_destroy i :: dl → y ∉ ii_input_coro_list i :: l1 ++ cnode r :: l2) →
    ∃ h', il_coro_prepare_destroy lib r h = Some h' ∧
      dll h' (ii_input_coro_list i) (l1 ++ l2) ∧ dll h' (ii_input_coro_list_destroy i) (dl ++ [cnode r]) ∧
      agree_outside ((ii_input_coro_list i :: l1 ++ cnode r :: l2) ++ ii_input_coro_list_destroy i :: dl) h h'
}.

(** * The relation between the two *)

Definition cthread_of (ph : cphase) : cothread :=
  match ph with
  | CUnstarted => CT_input_start
  | CReady coll config => CT_input_ready coll config
  | CWaiting k => CT_callback k
  | CFinished => CT_returned
  end.

(** The blocks of a collection; without a stack it never starts. *)
Definition cparts (r : ptr) (a : acoll) : list ptr :=
  r :: ico_coro (ac_rec a) :: if decide (ac_callee a = NULL) then [] else [ac_callee a].

Record coll_ok (w : world) (r : ptr) (a : acoll) : Prop := {
  ko_rec : w_input_coros w !! r = Some (ac_rec a);
  ko_coro : ∃ caller, w_coros w !! ico_coro (ac_rec a) = Some (Coro caller (ac_callee a) r);
  ko_thread : ac_callee a ≠ NULL → w_threads w !! ac_callee a = Some (cthread_of (ac_phase a));
  ko_stack : ac_callee a = NULL → ac_phase a = CUnstarted;
  ko_ins : is_Some (instances !! ac_ins a);
  ko_ready coll config : ac_phase a = CReady coll config →
    ∃ c, collectors !! coll = Some c ∧ ic_instance c = ac_ins a;
  ko_block : ∃ b, mm_blocks (w_mem w) !! r = Some b ∧ length b = Z.to_nat sizeof_flb_input_coro;
  ko_parts p : p ∈ cparts r a → site_base ≤ p;
  ko_distinct : r ≠ ico_coro (ac_rec a) ∧ ac_callee a ≠ r ∧ ac_callee a ≠ ico_coro (ac_rec a);
  ko_reports : creports w r = (if decide (cfinished a) then 1 else 0)%nat
}.

(** The parameters that the keys of this thread lead to: blocks of their own,
    one for each key that has some. *)
Definition key_block (w : world) (p : ptr) : Prop := p ≠ NULL ∧ ∃ k, w_in_values w !! k = Some p.

Record keys_ok (w : world) (A : cstate) : Prop := {
  ky_below k p : w_in_values w !! k = Some p → p < mm_brk (w_mem w);
  ky_apart p : key_block w p → site_base ≤ p ∧ ∀ r a, cs_colls A !! r = Some a → p ∉ cparts r a;
  ky_inj k k' p : w_in_values w !! k = Some p → w_in_values w !! k' = Some p → p ≠ NULL → k = k'
}.

Record cimplements (w : world) (A : cstate) : Prop := {
  ci_fresh : fresh_above w ∧ site_base ≤ mm_brk (w_mem w);
  ci_active : w_active w = collector_thread ∧ w_threads w !! collector_thread = Some CT_native ∧
    w_threads w !! NULL = None;
  ci_static : w_ins w = instances ∧ w_colls w = collectors ∧ w_configs w = site_configs;
  ci_lists : lists_hold chead (ts_list (w_store w)) (ccontent A);
  ci_queues : queues_ok ac_ins cfinished (cs_colls A) (cs_queue A) (cs_done A);
  ci_coll r a : cs_colls A !! r = Some a → coll_ok w r a;
  ci_none r : cs_colls A !! r = None → w_input_coros w !! r = None;
  ci_apart r r' a a' p : cs_colls A !! r = Some a → cs_colls A !! r' = Some a' →
    p ∈ cparts r a → p ∈ cparts r' a' → r = r';
  ci_keys : keys_ok w A;
  ci_blocks p : is_Some (mm_blocks (w_mem w) !! p) ↔
    p ∈ site_owned ∨ key_block w p ∨ ∃ r a, cs_colls A !! r = Some a ∧ p ∈ cparts r a;
  ci_past r : cs_colls A !! r = None → (creports w r ≤ 1)%nat;
  ci_future r : mm_brk (w_mem w) ≤ r → creports w r = O;
  ci_log : Forall2 cmessage (cmessages w) (cs_log A);
  ci_logged c : c ∈ cs_log A → cc_coll c < mm_brk (w_mem w)
}.
End collect.

Arguments ci_fresh {_ _ _ _}.
Arguments ci_active {_ _ _ _}.
Arguments ci_static {_ _ _ _}.
Arguments ci_lists {_ _ _ _}.
Arguments ci_queues {_ _ _ _}.
Arguments ci_coll {_ _ _ _}.
Arguments ci_none {_ _ _ _}.
Arguments ci_apart {_ _ _ _}.
Arguments ci_keys {_ _ _ _}.
Arguments ci_blocks {_ _ _ _}.
Arguments ci_past {_ _ _ _}.
Arguments ci_future {_ _ _ _}.
Arguments ci_log {_ _ _ _}.
Arguments ci_logged {_ _ _ _}.
Arguments ko_rec {_ _ _ _}.
Arguments ko_coro {_ _ _ _}.
Arguments ko_thread {_ _ _ _}.
Arguments ko_stack {_ _ _ _}.
Arguments ko_ins {_ _ _ _}.
Arguments ko_ready {_ _ _ _}.
Arguments ko_block {_ _ _ _}.
Arguments ko_parts {_ _ _ _}.
Arguments ko_distinct {_ _ _ _}.
Arguments ko_reports {_ _ _ _}.
Arguments ce_collector {_ _}.
Arguments ce_heads {_ _}.
Arguments ce_below {_ _}.
Arguments ce_collect {_ _}.
Arguments ce_resume {_ _}.
Arguments ce_key {_ _}.
Arguments ce_prepare {_ _}.
Arguments ky_below {_ _ _}.
Arguments ky_apart {_ _ _}.
Arguments ky_inj {_ _ _}.
