(* ===== verification/CollectSim.v ===== *)
(** The simulation of the collections by their abstract machine: from related
    states, each step has a result and follows a step of the abstract machine,
    and the states are related again; only creation may have no result, when
    the stack of a coroutine cannot be allocated. *)
From S2P Require Import Prelude MkList MkListSpec Mem MkEvent Codes Task Structs Runtime RuntimeSpec Input InputSpec Queues Collect.

(** Worlds that only differ in the way they are written. *)
Ltac exact_world w H :=
  match type of H with ?P ?V ?A => match goal with |- P ?W _ => replace W with V; [exact H|] end end;
  clear; destruct w as [[]]; wsimpl; by rewrite ?app_assoc.

Section spec.
Context `{S : site} (lib : input_lib) (Hco : libco_ok (il_co lib)) (Hset : collect_setting lib).

Abbreviation cimplements := (cimplements lib).

(** * Messages *)

Lemma cmessages_app evs evs' : cmessages_of (evs ++ evs') = cmessages_of evs ++ cmessages_of evs'.
Proof. unfold cmessages_of. by rewrite filter_app. Qed.

Lemma cquiet_messages evs : cquiet evs → cmessages_of evs = [].
Proof.
  unfold cmessages_of. induction 1 as [|e evs [_ He] _ IH]; [done|]. by rewrite filter_cons_False, IH by (by rewrite He).
Qed.

Lemma cquiet_tally evs r : cquiet evs → tally (is_creport r) evs = O.
Proof. intros H. apply tally_none; eapply Forall_impl; try exact H; intros e [He _]; apply (He r). Qed.

Lemma cquiet_errors evs : Forall (eq Ev_error) evs → cquiet evs.
Proof. intros H. eapply Forall_impl; [exact H|]. by intros ? <-. Qed.

Lemma return_cmessage ins i tr r : instances !! ins = Some i →
  cmessages_of (return_events lib tr i r) = [Ev_pipe (in_fd i) (return_val i) (il_pipe_w lib tr (in_fd i) (return_val i))].
Proof.
  intros Hi. unfold return_events, cmessages_of. rewrite filter_cons_True.
  - f_equal. rewrite filter_app. by case_decide.
  - simpl. rewrite bool_decide_true; [done|]. apply list_elem_of_fmap. exists (ins, i). split; [done|].
    by apply elem_of_map_to_list.
Qed.

Lemma return_ctally tr i r r' :
  tally (is_creport r') (return_events lib tr i r) = (if decide (r = r') then 1 else 0)%nat.
Proof.
  unfold return_events, tally. case_decide as Hr; case_decide; simpl;
    rewrite ?filter_cons, ?filter_nil; simpl; repeat (rewrite ?filter_cons, ?filter_nil; simpl);
    repeat case_decide; simpl; try done; rewrite ?bool_decide_eq_true in *; done.
Qed.

(** * What the relation gives *)

Lemma cparts_self r a : r ∈ cparts r a.
Proof. by left. Qed.
Lemma cparts_coro r a : ico_coro (ac_rec a) ∈ cparts r a.
Proof. right. by left. Qed.
Lemma cparts_callee r a : ac_callee a ≠ NULL → ac_callee a ∈ cparts r a.
Proof. intros H. unfold cparts. rewrite decide_False by done. do 2 right. by left. Qed.

Lemma cparts_live w A r a p :
  cimplements w A → cs_colls A !! r = Some a → p ∈ cparts r a →
  is_Some (mm_blocks (w_mem w) !! p) ∧ site_base ≤ p < mm_brk (w_mem w) ∧ p ≠ NULL.
Proof.
  intros HI Ha Hp. assert (is_Some (mm_blocks (w_mem w) !! p)) as Hs
    by (apply (ci_blocks HI); right; right; by exists r, a).
  split; [exact Hs|]. destruct Hs as [b Hb].
  pose proof (fa_wf _ (proj1 (ci_fresh HI))) as Hwf.
  pose proof (proj2 (proj1 Hwf) p b Hb). pose proof (mem_wf_not_null _ _ _ Hwf Hb).
  pose proof (ko_parts (ci_coll HI r a Ha) p Hp). split; [lia|done].
Qed.

Definition ckind_of (a : acoll) : ckind := if decide (cfinished a) then CDone (ac_ins a) else CQueue (ac_ins a).

Lemma in_ccontent w A k x :
  cimplements w A → x ∈ ccontent A k → ∃ r a, x = cnode r ∧ cs_colls A !! r = Some a ∧ k = ckind_of a.
Proof.
  intros HI Hx. destruct (ci_queues HI) as [Hq Hd]. destruct k as [o|o]; simpl in Hx;
    apply list_elem_of_fmap in Hx as (r & -> & Hr).
  - apply Hq in Hr as (a & Ha & <- & Hph). exists r, a. split_and!; [done..|]. unfold ckind_of. by rewrite decide_False.
  - apply Hd in Hr as (a & Ha & <- & Hph). exists r, a. split_and!; [done..|]. unfold ckind_of. by rewrite decide_True.
Qed.

Lemma clists_apart w A : cimplements w A → lists_apart chead (ccontent A).
Proof.
  intros HI k k' a a' x Hk Hk' Hne Hx Hx'.
  pose proof (proj1 (proj2 (ce_below Hset)) k a Hk). pose proof (proj1 (proj2 (ce_below Hset)) k' a' Hk').
  assert (Hno : ∀ k b, b < site_base → b ∉ ccontent A k).
  { intros k0 b Hb Hin. destruct (in_ccontent _ _ _ _ HI Hin) as (r & f & -> & Hf & _).
    pose proof (ko_parts (ci_coll HI r f Hf) r (cparts_self r f)). unfold cnode, ico_head_off in *. lia. }
  apply elem_of_cons in Hx as [->|Hx]; apply elem_of_cons in Hx' as [E|Hx'].
  - subst. by apply Hne, (ce_heads Hset _ _ a').
  - by apply (Hno k' a).
  - subst. by apply (Hno k a').
  - destruct (in_ccontent _ _ _ _ HI Hx) as (r & f & -> & Hf & ->).
    destruct (in_ccontent _ _ _ _ HI Hx') as (r' & f' & E & Hf' & ->).
    assert (r = r') as <- by (unfold cnode in E; lia). congruence.
Qed.

Lemma clist_below w A k a x : cimplements w A → chead k = Some a → x ∈ a :: ccontent A k → x < mm_brk (w_mem w).
Proof. intros HI Hk Hx. exact (dll_below w _ _ _ (proj1 (ci_fresh HI)) (ci_lists HI k a Hk) Hx). Qed.

Lemma chead_ins ins i : instances !! ins = Some i →
  chead (CQueue ins) = Some (ii_input_coro_list i) ∧ chead (CDone ins) = Some (ii_input_coro_list_destroy i).
Proof. intros Hi. simpl. by rewrite Hi. Qed.

(** A recorded collection is known to the abstract machine. *)
Lemma cknown w A r ic c st :
  cimplements w A → collecting_at w r ic c st →
  ∃ a caller, cs_colls A !! r = Some a ∧ ic = ac_rec a ∧ c = Coro caller (ac_callee a) r ∧
    ac_callee a ≠ NULL ∧ st = cthread_of (ac_phase a).
Proof.
  intros HI (Hf & Hc & Ht). destruct (cs_colls A !! r) as [a|] eqn:Ha; [|by rewrite (ci_none HI) in Hf].
  destruct (ci_coll HI r a Ha) as [Hr [caller Hco'] Hth _ _ _ _ _ _ _].
  rewrite Hr in Hf. injection Hf as <-. rewrite Hco' in Hc. injection Hc as <-. simpl in Ht.
  assert (Hn : ac_callee a ≠ NULL).
  { intros E. rewrite E in Ht. by rewrite (proj2 (proj2 (ci_active HI))) in Ht. }
  rewrite (Hth Hn) in Ht. injection Ht as <-. by exists a, caller.
Qed.

(** * A turn of a coroutine *)

(** The world after a turn that changed the lists and caused some events. *)
Definition cturned (w : world) (coro : ptr) (c : flb_coro) (st : cothread) (h : lheap) (evs : list event) : world :=
  set_active (w_active w) (set_threads (<[co_callee c := st]> (w_threads w))
    (set_store (TaskStore h (ts_tasks (w_store w)) (ts_routes (w_store w)))
      (set_trace (w_trace w ++ evs) (inside w coro c)))).

Section turn.
Context (w : world) (A : cstate) (r : ptr) (a : acoll) (caller : ptr) (ph : cphase) (h : lheap) (evs : list event).
Context (Q D : gmap Z (list ptr)) (new : list ccompletion).
Context (HI : cimplements w A) (Ha : cs_colls A !! r = Some a) (Hn : ac_callee a ≠ NULL).
Context (Hph : ∀ coll config, ph ≠ CReady coll config).
Context (Hcount : creports w r = O → (creports w r + tally (is_creport r) evs)%nat =
  if decide (cfinished (set_cphase ph a)) then 1%nat else 0%nat).
Context (Hopen : ¬ cfinished a).
Context (Hother : ∀ r', r' ≠ r → tally (is_creport r') evs = O).
Context (Hnew : Forall2 (cmessage lib) (cmessages_of evs) new) (Hnewr : ∀ c, c ∈ new → cc_coll c = r).

Let A' : cstate := CState (<[r := set_cphase ph a]> (cs_colls A)) Q D (cs_log A ++ new).
Let coro : ptr := ico_coro (ac_rec a).
Let w' : world := cturned w coro (Coro caller (ac_callee a) r) (cthread_of ph) h evs.

Context (Hl : lists_hold chead h (ccontent A')).
Context (Hh : ∀ p, mm_brk (w_mem w) ≤ p → lh_next h !! p = None ∧ lh_prev h !! p = None).
Context (HQ : queues_ok ac_ins cfinished (cs_colls A') Q D).

Lemma turn_live p : p ∈ cparts r a → p < mm_brk (w_mem w) ∧ site_base ≤ p.
Proof. intros Hp. destruct (cparts_live _ _ _ _ _ HI Ha Hp) as (_ & ? & _). lia. Qed.

Lemma turned_fresh : fresh_above w'.
Proof.
  destruct (ci_fresh HI) as [[Fw Fc Ff Fch Ffp Fic Fip Ft Fn Fp] _].
  destruct (turn_live _ (cparts_coro r a)), (turn_live _ (cparts_callee r a Hn)).
  split; simpl; try done.
  - apply (insert_fresh _ _ _ _ _ Fc); unfold coro; lia.
  - apply (insert_fresh _ _ _ _ _ Ft); lia.
  - intros p Hp. by apply Hh.
  - intros p Hp. by apply Hh.
Qed.

Lemma turned_reports r' : creports w' r' = (creports w r' + tally (is_creport r') evs)%nat.
Proof. unfold creports. simpl. by rewrite tally_app. Qed.

Lemma turned_coll r' a' : cs_colls A' !! r' = Some a' → coll_ok w' r' a'.
Proof.
  intros Ha'. destruct (decide (r' = r)) as [->|Hne].
  - simpl in Ha'. rewrite lookup_insert_eq in Ha'. injection Ha' as <-.
    destruct (ci_coll HI r a Ha) as [? ? ? ? ? ? ? ? ? Hrep].
    split; try done; [by eexists; apply lookup_insert_eq|intros _; apply lookup_insert_eq|..].
    + intros coll config E. by destruct (Hph coll config).
    + rewrite turned_reports. apply Hcount. by rewrite Hrep, decide_False.
  - simpl in Ha'. rewrite lookup_insert_ne in Ha' by done.
    assert (Hap : ∀ p, p ∈ cparts r a → p ∉ cparts r' a')
      by (intros p Hp Hp'; apply Hne; by apply (ci_apart HI r' r a' a p)).
    destruct (ci_coll HI r' a' Ha') as [K1 [cl K2] K3 K4 K5 K6 K7 K8 K9 K10]. split; try done; simpl.
    + exists cl. rewrite lookup_insert_ne; [done|]. intros E. apply (Hap coro (cparts_coro r a)). rewrite E. apply cparts_coro.
    + intros Hn'. rewrite lookup_insert_ne; [by apply K3|]. intros E. apply (Hap _ (cparts_callee r a Hn)). rewrite E.
      by apply cparts_callee.
    + by rewrite turned_reports, (Hother r' Hne), Nat.add_0_r.
Qed.

Lemma turn_parts p b : cs_colls A' !! p = Some b → ∃ b', cs_colls A !! p = Some b' ∧ cparts p b' = cparts p b.
Proof. simpl. intros [[<- <-]|[Hne Hb]]%lookup_insert_Some; [by exists a|by exists b]. Qed.

Lemma turn_parts_inv p b' : cs_colls A !! p = Some b' → ∃ b, cs_colls A' !! p = Some b ∧ cparts p b = cparts p b'.
Proof.
  simpl. intros Hb. destruct (decide (p = r)) as [->|Hne].
  - rewrite lookup_insert_eq. eexists. split; [done|]. by replace b' with a by congruence.
  - rewrite lookup_insert_ne by done. by exists b'.
Qed.

Lemma turned_keys : keys_ok w' A'.
Proof.
  destruct (ci_keys HI) as [K1 K2 K3]. split; try done. intros p Hp. destruct (K2 p Hp) as [? Hno]. split; [done|].
  intros r' b (b' & Hb' & <-)%turn_parts. by apply Hno.
Qed.

Lemma turned_implements : cimplements w' A'.
Proof.
  split; try done.
  - split; [exact turned_fresh|apply (ci_fresh HI)].
  - destruct (ci_active HI) as (Hac & Hth & Hnu). destruct (turn_live _ (cparts_callee r a Hn)) as [_ Hb].
    split; [exact Hac|]. simpl. rewrite !lookup_insert_ne; [done|done|].
    pose proof (proj1 (ce_below Hset)). simpl. lia.
  - apply (ci_static HI).
  - apply turned_coll.
  - intros r' Hr'. apply (ci_none HI). simpl in Hr'. by apply lookup_insert_None in Hr' as [? _].
  - intros r1 r2 a1 a2 p (b1 & H1 & <-)%turn_parts (b2 & H2 & <-)%turn_parts. by apply (ci_apart HI).
  - exact turned_keys.
  - intros p. change (key_block w' p) with (key_block w p). change (mm_blocks (w_mem w')) with (mm_blocks (w_mem w)).
    rewrite (ci_blocks HI p). do 2 f_equiv. split.
    + intros (r' & b' & (b & Hb & <-)%turn_parts_inv & Hp). by exists r', b.
    + intros (r' & b & (b' & Hb' & <-)%turn_parts & Hp). by exists r', b'.
  - intros r' Hr'. simpl in Hr'. apply lookup_insert_None in Hr' as [Hr' Hne].
    rewrite turned_reports, Hother, Nat.add_0_r by done. by apply (ci_past HI).
  - intros r' Hr'. rewrite turned_reports. destruct (turn_live _ (cparts_self r a)).
    rewrite Hother, Nat.add_0_r by (simpl in Hr'; lia). by apply (ci_future HI).
  - unfold cmessages. simpl. rewrite cmessages_app. apply Forall2_app; [apply (ci_log HI)|exact Hnew].
  - intros c [Hc|Hc]%elem_of_app; [by apply (ci_logged HI)|]. rewrite (Hnewr c Hc). apply (turn_live _ (cparts_self r a)).
Qed.
End turn.

(** The library moves a collection from one list of its instance to the other. *)
Lemma cfinish_lists w A r a :
  cimplements w A → cs_colls A !! r = Some a → ¬ cfinished a →
  ∃ h, il_coro_prepare_destroy lib r (ts_list (w_store w)) = Some h ∧
    (∀ n, lists_hold chead h (ccontent (c_finish r a n A))) ∧
    (∀ p, mm_brk (w_mem w) ≤ p → lh_next h !! p = None ∧ lh_prev h !! p = None).
Proof.
  intros HI Ha Hf. destruct (ko_ins (ci_coll HI r a Ha)) as [i Hi]. destruct (chead_ins _ _ Hi) as [Hkq Hkd].
  set (o := ac_ins a) in *.
  assert (r ∈ cs_queue A !!! o) as (q1 & q2 & Eq)%list_elem_of_split by (apply (qo_queue (ci_queues HI)); by exists a).
  pose proof (ci_lists HI _ _ Hkq) as Hdq. pose proof (ci_lists HI _ _ Hkd) as Hdd.
  assert (Ecq : ccontent A (CQueue o) = (cnode <$> q1) ++ cnode r :: (cnode <$> q2)) by (simpl; by rewrite Eq, fmap_app).
  assert (Hnd : NoDup (q1 ++ r :: q2)).
  { rewrite <- Eq. destruct Hdq as [_ [_ Hnd]%NoDup_cons]. by apply (NoDup_fmap_1 cnode). }
  rewrite Ecq in Hdq.
  destruct (ce_prepare Hset r o i _ _ _ _ Hi Hdq Hdd) as (h & Eh & Hq' & Hd' & Hag).
  { intros y Hy Hin. rewrite <- Ecq in Hin. by apply (clists_apart w A HI (CDone o) (CQueue o) _ _ y Hkd Hkq). }
  rewrite <- Ecq in Hag. exists h. split; [done|]. split.
  - intros n. apply (lists_moved _ _ _ _ _ _ _ _ _ (clists_apart w A HI) (ci_lists HI) Hkq Hkd); [| |exact Hag|].
    + simpl. unfold dequeue. fold o. rewrite lookup_total_insert_eq, Eq, filter_mid, fmap_app; done.
    + simpl. unfold enqueue. fold o. by rewrite lookup_total_insert_eq, fmap_app.
    + intros [o'|o'] Hnq Hnd'; simpl; unfold enqueue, dequeue; fold o; by rewrite lookup_total_insert_ne by congruence.
  - intros p Hp. destruct (Hag p) as [-> ->]; [|split; by apply (ci_fresh HI)].
    rewrite elem_of_app. intros [Hin|Hin].
    + pose proof (clist_below w A _ _ p HI Hkq Hin). lia.
    + pose proof (clist_below w A _ _ p HI Hkd Hin). lia.
Qed.

Definition c_turn (r : ptr) (a : acoll) (res : cb_result) (n : Z) (A : cstate) : cstate :=
  match res with CB_suspend k => c_wait r a k A | CB_return _ => c_finish r a n A end.

(** ** The collection waits again *)

Lemma turn_cwaits w A r a caller evs k :
  cimplements w A → cs_colls A !! r = Some a → ac_callee a ≠ NULL → ¬ cfinished a → cquiet evs →
  cimplements (cturned w (ico_coro (ac_rec a)) (Coro caller (ac_callee a) r) (CT_callback k) (ts_list (w_store w)) evs)
    (c_wait r a k A).
Proof.
  intros HI Ha Hn Hf Hq. unfold c_wait. rewrite <- (app_nil_r (cs_log A)).
  apply (turned_implements w A r a caller (CWaiting k)); try done.
  - intros ->. by rewrite cquiet_tally, decide_False by done.
  - intros r' _. by apply cquiet_tally.
  - rewrite cquiet_messages by done. constructor.
  - by intros c []%not_elem_of_nil.
  - apply (ci_lists HI).
  - intros p Hp. split; by apply (ci_fresh HI).
  - by apply (queues_update _ _ _ _ _ (ci_queues HI) r a).
Qed.

(** ** The collection reports *)

Lemma turn_cfinishes w A r a caller i evs tr h :
  cimplements w A → cs_colls A !! r = Some a → ac_callee a ≠ NULL → ¬ cfinished a → cquiet evs →
  instances !! ac_ins a = Some i →
  il_coro_prepare_destroy lib r (ts_list (w_store w)) = Some h →
  cimplements (cturned w (ico_coro (ac_rec a)) (Coro caller (ac_callee a) r) CT_returned h (evs ++ return_events lib tr i r))
    (c_finish r a (il_pipe_w lib tr (in_fd i) (return_val i)) A).
Proof.
  intros HI Ha Hn Hf Hq Hi Eh. destruct (cfinish_lists w A r a HI Ha Hf) as (h' & Eh' & Hl & Hh).
  rewrite Eh in Eh'. injection Eh' as <-.
  apply (turned_implements w A r a caller CFinished); try done.
  - intros ->. by rewrite tally_app, cquiet_tally, return_ctally, !decide_True by done.
  - intros r' Hne. rewrite tally_app, cquiet_tally, return_ctally by done. by rewrite decide_False.
  - rewrite cmessages_app, cquiet_messages, (return_cmessage (ac_ins a)) by done.
    constructor; [|constructor]. exists i. do 2 (split; [done|]). by exists tr.
  - by intros c ->%list_elem_of_singleton.
  - exact (Hl _).
  - by apply (queues_finish _ _ _ _ _ (ci_queues HI) r a).
Qed.

Lemma callback_csim w A r a caller evs res :
  cimplements w A → cs_colls A !! r = Some a → ac_callee a ≠ NULL → ¬ cfinished a → cquiet evs →
  ∃ st w', collect_turn lib res
      (set_trace (w_trace w ++ evs) (inside w (ico_coro (ac_rec a)) (Coro caller (ac_callee a) r))) =
      Some ((st, w_active w), w') ∧ w_in_values w' = w_in_values w ∧ ∃ n,
    cimplements (set_active (w_active w) (set_threads (<[ac_callee a := st]> (w_threads w')) w')) (c_turn r a res n A).
Proof.
  intros HI Ha Hn Hf Hq. set (coro := ico_coro _). set (v := set_trace _ _).
  assert (Hc : w_coros v !! coro = Some (Coro (w_active w) (ac_callee a) r)) by apply lookup_insert_eq.
  destruct (ci_coll HI r a Ha) as [Hr _ _ _ [i Hi] _ _ _ _ _]. destruct res as [x|k].
  - destruct (cfinish_lists w A r a HI Ha Hf) as (h & Eh & _).
    pose proof (turn_cfinishes w A r a caller i evs (w_trace v) h HI Ha Hn Hf Hq Hi Eh) as HI'.
    eexists _, _. split; [apply (return_turn_run lib v coro (Coro (w_active w) (ac_callee a) r) (ac_rec a) i h x); [done|split; try done]|].
    { simpl. by rewrite (proj1 (ci_static HI)). }
    split; [done|]. eexists. unfold cturned in HI'; subst v coro; exact_world w HI'.
  - pose proof (turn_cwaits w A r a caller evs k HI Ha Hn Hf Hq) as HI'.
    eexists _, _. split; [by apply (suspend_turn_run lib v coro (Coro (w_active w) (ac_callee a) r) k)|]. split; [done|]. exists 0.
    unfold cturned in HI'; subst v coro; exact_world w HI'.
Qed.

(** * Resuming *)

(** What the callback of a collection may do next. *)
Definition may_do (ph : cphase) (res : cb_result) : Prop :=
  match ph with
  | CReady coll config => collects lib coll config res
  | CWaiting k => cgoes_on lib k res
  | _ => False
  end.

Lemma may_do_step A r a res n :
  cs_colls A !! r = Some a → may_do (ac_phase a) res → cstep (collects lib) (cgoes_on lib) A (c_turn r a res n A).
Proof.
  intros Ha Hd. destruct (ac_phase a) eqn:Hph, res; try done; simpl.
  - by eapply cstep_start_finish.
  - by eapply cstep_start_wait.
  - by eapply cstep_finish.
  - by eapply cstep_wait.
Qed.

(** The coroutine runs its callback, whose events are quiet. *)
Lemma enters_callback w A r a c :
  cimplements w A → cs_colls A !! r = Some a → resumable_in (cthread_of (ac_phase a)) →
  let v := inside w (ico_coro (ac_rec a)) c in
  ∃ res evs, cquiet evs ∧ may_do (ac_phase a) res ∧
    input_run lib (cthread_of (ac_phase a)) v = collect_turn lib res (set_trace (w_trace w ++ evs) v).
Proof.
  intros HI Ha Hst v. destruct (ci_static HI) as (Ei & Ec & _).
  destruct (ac_phase a) as [|coll config|k|] eqn:Hph; try done; simpl.
  - destruct (ko_ready (ci_coll HI r a Ha) coll config Hph) as (co & Hco' & _).
    destruct (ce_collector Hset coll co Hco') as [i Hi]. unfold input_pre_cb_collect_resume.
    assert (H1 : w_colls v !! coll = Some co) by (simpl; by rewrite Ec).
    assert (H2 : w_ins v !! ic_instance co = Some i) by (simpl; by rewrite Ei).
    rewrite (run_bind _ _ _ _ _ (run_get w_colls coll v co H1)).
    rewrite (run_bind _ _ _ _ _ (run_get w_ins (ic_instance co) v i H2)), bind_emit.
    set (v1 := set_trace _ v).
    destruct (ce_collect Hset (ic_cb_collect co) (ic_instance co) config (ii_context i) v1) as (res & evs & Ecb & Hq).
    exists res, (Ev_collect coll config :: evs). split; [by constructor|]. split; [by exists co, i, v1, (set_trace (w_trace v1 ++ evs) v1)|].
    rewrite (run_bind _ _ _ _ _ Ecb). f_equal. subst v1 v. by wsimpl; rewrite <- app_assoc.
  - destruct (ce_resume Hset k v) as (res & evs & Ecb & Hq). exists res, evs.
    split; [done|]. split; [by eexists v, _|]. by rewrite (run_bind _ _ _ _ _ Ecb).
Qed.

Definition cresumed (w : world) (A : cstate) (r : ptr) (a : acoll) : Prop :=
  ∃ w' res, flb_input_coro_resume lib r w = Some (tt, w') ∧ may_do (ac_phase a) res ∧
    w_in_values w' = w_in_values w ∧ ∃ n, cimplements w' (c_turn r a res n A).

Lemma resume_csim w A r ic c st :
  cimplements w A → collecting_at w r ic c st → resumable_in st →
  ∃ a, cs_colls A !! r = Some a ∧ ic = ac_rec a ∧ st = cthread_of (ac_phase a) ∧ cresumed w A r a.
Proof.
  intros HI Hat Hst. destruct (cknown _ _ _ _ _ _ HI Hat) as (a & caller & Ha & -> & -> & Hn & ->).
  exists a. do 3 (split; [done|]). destruct Hat as (Hr & Hc & Hth).
  destruct (enters_callback w A r a (Coro caller (ac_callee a) r) HI Ha Hst) as (res & evs & Hq & Hd & Erun).
  destruct (callback_csim w A r a caller evs res HI Ha Hn) as (st & w' & Et & Ev & HI'); [|done|].
  { unfold cfinished. intros E. by rewrite E in Hst. }
  rewrite Et in Erun. eexists (set_active (w_active w) (set_threads (<[ac_callee a := st]> (w_threads w')) w')), res.
  split; [|split; [done|split; [exact Ev|exact HI']]].
  unfold flb_input_coro_resume. rewrite (run_bind _ _ _ _ _ (run_get w_input_coros r w _ Hr)).
  exact (flb_coro_resume_run w _ _ _ _ st w' Hc Hth Erun).
Qed.

(** * Creating *)

(** A collection whose parts a step leaves as they were. *)
Lemma coll_ok_frame w w' r a :
  coll_ok w r a → w_input_coros w' !! r = w_input_coros w !! r →
  w_coros w' !! ico_coro (ac_rec a) = w_coros w !! ico_coro (ac_rec a) →
  (ac_callee a ≠ NULL → w_threads w' !! ac_callee a = w_threads w !! ac_callee a) →
  mm_blocks (w_mem w') !! r = mm_blocks (w_mem w) !! r → creports w' r = creports w r → coll_ok w' r a.
Proof.
  intros [K1 K2 K3 K4 K5 K6 K7 K8 K9 K10] E1 E2 E3 E4 E5. split; rewrite ?E1, ?E2, ?E4, ?E5; try done.
  intros Hn. rewrite (E3 Hn). by apply K3.
Qed.

Lemma failed_ccreate w w' A : cimplements w A → as_before w w' → cimplements w' A.
Proof.
  intros HI Hab. pose proof (as_before_fresh _ _ (proj1 (ci_fresh HI)) Hab) as Hfr.
  destruct Hab as (m & ids & errs & -> & Hwf & Hb & Hbl & Hq%cquiet_errors).
  assert (Htl : ∀ r, tally (is_creport r) (w_trace w ++ errs) = creports w r)
    by (intros r; by rewrite tally_app, (cquiet_tally errs), Nat.add_0_r).
  destruct HI as [[_ Hk] Hac Hst Hl Hqs Hfl Hno Hap [K1 K2 K3] Hblk Hpa Hfu Hlg Hld].
  split; simpl; try done.
  - split; [done|lia].
  - intros r a Ha. apply (coll_ok_frame w); try done; [by apply Hfl|simpl; by rewrite Hbl|apply Htl].
  - split; try done. intros k p Hp. specialize (K1 k p Hp). simpl. lia.
  - intros p. by rewrite Hbl.
  - intros r Hn. unfold creports. simpl. rewrite Htl. by apply Hpa.
  - intros r Hr. unfold creports. simpl. rewrite Htl. apply Hfu. lia.
  - unfold cmessages. simpl. rewrite cmessages_app, (cquiet_messages errs), app_nil_r by done. exact Hlg.
  - intros c Hc. specialize (Hld c Hc). lia.
Qed.

(** Preparing a collection of a known collector. *)
Lemma can_collect w A coll config c i cfg :
  cimplements w A → collectors !! coll = Some c → instances !! ic_instance c = Some i → site_configs !! config = Some cfg →
  collect_pre coll config w c i cfg (ccontent A (CQueue (ic_instance c))).
Proof.
  intros HI Hc Hi Hcfg. destruct (ci_static HI) as (Ei & Ec & Ecf). split; rewrite ?Ei, ?Ec, ?Ecf; try done.
  - apply (ci_fresh HI).
  - by apply (ci_lists HI), chead_ins.
  - apply (ci_active HI).
  - apply (ci_keys HI).
Qed.

Section ccreated.
Context (w w' : world) (A : cstate) (coll config : ptr) (c : flb_input_collector) (i : flb_input_instance).
Context (r coro callee : ptr) (id now : Z) (ph : cphase) (kept : gmap Z (list (option Z))).
Context (HI : cimplements w A) (Hc : collectors !! coll = Some c) (Hi : instances !! ic_instance c = Some i).
Context (Hcr : collected lib coll config w w' c i (ccontent A (CQueue (ic_instance c))) r coro callee (cthread_of ph) kept).
Context (Hrec : w_input_coros w' = <[r := InputCoro id now 0 (ic_instance c) coro config]> (w_input_coros w)).
Context (Hph : ph = CUnstarted ∨ ph = CReady coll config ∧ callee ≠ NULL).

Definition new_coll : acoll := ACollection (InputCoro id now 0 (ic_instance c) coro config) callee ph.

Lemma cnew_above p : p ∈ cparts r new_coll → mm_brk (w_mem w) ≤ p ∧ p ≠ NULL.
Proof.
  destruct (cg_new Hcr) as (? & ? & ? & ? & _ & Hcal). unfold cparts. simpl.
  rewrite !elem_of_cons. case_decide; [intros [->|[->|[]%not_elem_of_nil]]; done|].
  destruct Hcal as [?|(? & _)]; [done|]. rewrite list_elem_of_singleton. intros [->|[->| ->]]; done.
Qed.

Lemma cold_below r' a' p : cs_colls A !! r' = Some a' → p ∈ cparts r' a' → p < mm_brk (w_mem w) ∧ p ∉ cparts r new_coll.
Proof.
  intros Ha Hp. destruct (cparts_live w A r' a' p HI Ha Hp) as (_ & [_ Hb] & _). split; [done|].
  intros Hn. pose proof (cnew_above p Hn). lia.
Qed.

Lemma cnew_self : r ∈ cparts r new_coll.
Proof. apply cparts_self. Qed.

Lemma cnew_unknown : cs_colls A !! r = None.
Proof.
  destruct (cs_colls A !! r) as [a|] eqn:Ha; [|done]. exfalso.
  apply (cold_below r a r Ha); apply cparts_self.
Qed.

Lemma ccreated_is r' a' : cs_colls (c_create r new_coll A) !! r' = Some a' →
  r' = r ∧ a' = new_coll ∨ r' ≠ r ∧ cs_colls A !! r' = Some a'.
Proof. simpl. intros [[<- <-]|[Hne Ha']]%lookup_insert_Some; [by left|right; by split]. Qed.

(** The new collection has not reported. *)
Lemma cnew_unlogged : r ∉ cc_coll <$> cs_log A.
Proof.
  intros (c0 & E & Hc0)%list_elem_of_fmap. pose proof (ci_logged HI c0 Hc0).
  pose proof (cnew_above r cnew_self). lia.
Qed.

(** The keys that lead to parameters: those that did, and one more when new
    parameters were allocated. *)
Lemma ccreated_value k q : w_in_values w' !! k = Some q → q ≠ NULL →
  w_in_values w !! k = Some q ∨ k = w_in_key w' ∧ is_Some (kept !! q).
Proof.
  destruct (cg_keys Hcr) as (vs & Hk & Hcase). intros Hq Hn.
  assert (Hvs : vs !! k = Some q → w_in_values w !! k = Some q)
    by (destruct Hk; [intros [[_ <-]|[_ ?]]%lookup_insert_Some; done|done]).
  destruct Hcase as [(-> & E)|(p & b & -> & _ & E & _)]; rewrite E in Hq; [by left; apply Hvs|].
  apply lookup_insert_Some in Hq as [[<- <-]|[_ Hq]]; [|by left; apply Hvs].
  right. split; [done|]. by rewrite lookup_singleton_eq.
Qed.

Lemma ccreated_keeps k q : w_in_values w !! k = Some q → q ≠ NULL → w_in_values w' !! k = Some q.
Proof.
  destruct (cg_keys Hcr) as (vs & Hk & Hcase). intros Hq Hn.
  assert (vs !! k = Some q) as Hvs.
  { destruct Hk as [k' Ek|Ek]; [|done]. rewrite lookup_insert_ne; [done|]. intros <-.
    apply (ce_key Hset _ _ Ek). by apply elem_of_dom. }
  destruct Hcase as [(_ & ->)|(p & b & _ & E & -> & _)]; [done|].
  rewrite lookup_insert_ne; [done|]. intros E'. rewrite E', Hvs in E. by apply Hn.
Qed.

Lemma ckept_new q : is_Some (kept !! q) →
  w_in_values w' !! w_in_key w' = Some q ∧ q ≠ NULL ∧ mm_brk (w_mem w) ≤ q < mm_brk (w_mem w') ∧ q ∉ cparts r new_coll.
Proof.
  destruct (cg_keys Hcr) as (vs & _ & [(-> & _)|(p & b & -> & _ & -> & Hp & Hb & Hno)]);
    [by intros [? ?]|].
  intros [? [<- _]%lookup_singleton_Some]. split; [apply lookup_insert_eq|]. split_and!; [done|lia|lia|].
  intros Hin. apply Hno. unfold cparts in Hin. simpl in Hin. case_decide; set_solver.
Qed.

Lemma ccreated_key_block q : key_block w' q ↔ key_block w q ∨ is_Some (kept !! q).
Proof.
  unfold key_block. split.
  - intros (Hn & k & Hk). destruct (ccreated_value k q Hk Hn) as [?|[_ ?]]; [left; eauto|by right].
  - intros [(Hn & k & Hk)|Hk]; [split; [done|]; exists k; by apply ccreated_keeps|].
    destruct (ckept_new q Hk) as (E & Hn & _). split; [done|]. by exists (w_in_key w').
Qed.

Lemma ccreated_brk : mm_brk (w_mem w) ≤ mm_brk (w_mem w').
Proof. apply (cg_fresh Hcr). Qed.

Lemma ccreated_keys : keys_ok w' (c_create r new_coll A).
Proof.
  destruct (ci_keys HI) as [K1 K2 K3]. pose proof ccreated_brk as Hb. split.
  - intros k p Hp. destruct (decide (p = NULL)) as [->|Hn].
    + pose proof (proj1 (proj1 (fa_wf _ (proj1 (ci_fresh HI))))). unfold NULL. lia.
    + destruct (ccreated_value k p Hp Hn) as [H%K1|[_ H%ckept_new]]; [lia|tauto].
  - intros p [Hp|Hp]%ccreated_key_block.
    + destruct (K2 p Hp) as [? Hno]. split; [done|].
      intros r' a' [[-> ->]|[_ Ha']]%ccreated_is; [|by eapply Hno].
      intros Hin%cnew_above. destruct Hp as (_ & k & Hk%K1). lia.
    + destruct (ckept_new p Hp) as (_ & _ & Hb' & Hno). pose proof (proj2 (ci_fresh HI)). split; [lia|].
      intros r' a' [[-> ->]|[_ Ha']]%ccreated_is; [done|]. intros Hin. pose proof (cold_below r' a' p Ha' Hin). lia.
  - intros k k' p H1 H2 Hn.
    destruct (ccreated_value k p H1 Hn) as [H1'|[-> Hk]], (ccreated_value k' p H2 Hn) as [H2'|[-> Hk']]; [by eapply K3|..|done].
    + pose proof (K1 _ _ H1'). destruct (ckept_new p Hk') as (_ & _ & ? & _). lia.
    + pose proof (K1 _ _ H2'). destruct (ckept_new p Hk) as (_ & _ & ? & _). lia.
Qed.

(** What is in memory. *)
Lemma ccreated_blocks p : is_Some (mm_blocks (w_mem w') !! p) ↔
  is_Some (kept !! p) ∨ p ∈ cparts r new_coll ∨ is_Some (mm_blocks (w_mem w) !! p).
Proof.
  destruct (cg_mem Hcr) as (br & bc & bh & _ & ->).
  unfold cparts, with_stack. simpl. case_decide;
    rewrite lookup_union_is_Some, !elem_of_cons, !lookup_insert_is_Some'; pose proof (not_elem_of_nil p); naive_solver.
Qed.

Lemma ccreated_errors : ∃ errs, w_trace w' = w_trace w ++ errs ∧ cquiet errs.
Proof.
  destruct (cg_start Hcr) as [(_ & _ & E)|[_ E]].
  - exists []. rewrite app_nil_r. split; [done|constructor].
  - exists [Ev_error]. split; [done|]. apply cquiet_errors. by repeat constructor.
Qed.

Lemma ccreated_reports r' : creports w' r' = creports w r'.
Proof. destruct ccreated_errors as (errs & E & Hq). unfold creports. by rewrite E, tally_app, (cquiet_tally errs), Nat.add_0_r. Qed.

Lemma ccreated_new : coll_ok w' r new_coll.
Proof.
  pose proof (cnew_above r cnew_self) as [Hb _].
  pose proof (ccreated_reports r) as Hr. rewrite (ci_future HI r Hb) in Hr.
  destruct (cg_new Hcr) as (Hn & Hcn & _ & _ & Hne & Hcal). split; simpl.
  - rewrite Hrec. apply lookup_insert_eq.
  - rewrite (cg_coro Hcr). eexists. apply lookup_insert_eq.
  - intros Hs. rewrite (cg_thread Hcr). unfold with_stack. rewrite decide_False by done. apply lookup_insert_eq.
  - intros ->. by destruct Hph as [->|[_ ?]].
  - unfold ac_ins. simpl. by eexists.
  - intros co cf ->. destruct Hph as [?|[[= -> ->] _]]; [done|]. by exists c.
  - destruct (cg_mem Hcr) as (br & bc & bh & Hlen & ->). exists br. split; [|done].
    rewrite lookup_union_r.
    + assert (<[coro := bc]> (<[r := br]> (mm_blocks (w_mem w))) !! r = Some br) as Hbr
        by (rewrite lookup_insert_ne by done; apply lookup_insert_eq).
      unfold with_stack. case_decide; [done|]. rewrite lookup_insert_ne; [done|]. by destruct Hcal as [?|(_ & ? & _)].
    + destruct (kept !! r) as [b|] eqn:Hk; [|done]. exfalso.
      destruct (ckept_new r) as (_ & _ & _ & Hno); [by rewrite Hk|]. by apply Hno, cnew_self.
  - intros p Hp. pose proof (cnew_above p Hp). pose proof (proj2 (ci_fresh HI)). lia.
  - split; [done|]. by destruct Hcal as [->|(_ & ? & ?)].
  - rewrite Hr, decide_False; [done|]. unfold cfinished. simpl. by destruct Hph as [->|[-> _]].
Qed.

Lemma ccreated_old r' a' : cs_colls A !! r' = Some a' → coll_ok w' r' a'.
Proof.
  intros Ha. destruct (cg_new Hcr) as (_ & _ & Hrb & Hcb & _ & Hcal).
  assert (Hlow : ∀ p, p ∈ cparts r' a' → p < mm_brk (w_mem w)) by (intros p Hp; by apply (cold_below r' a')).
  pose proof (Hlow _ (cparts_self r' a')). pose proof (Hlow _ (cparts_coro r' a')).
  apply (coll_ok_frame w); [by apply (ci_coll HI)|..].
  - rewrite Hrec. apply lookup_insert_ne. lia.
  - rewrite (cg_coro Hcr). apply lookup_insert_ne. lia.
  - intros Hn. pose proof (Hlow _ (cparts_callee r' a' Hn)). rewrite (cg_thread Hcr). unfold with_stack.
    case_decide; [done|]. apply lookup_insert_ne. destruct Hcal as [?|[? _]]; [done|lia].
  - destruct (cg_mem Hcr) as (br & bc & bh & _ & ->). rewrite lookup_union_r.
    + unfold with_stack. case_decide; rewrite !lookup_insert_ne; (done || lia).
    + destruct (kept !! r') as [b|] eqn:Hk; [|done]. exfalso.
      destruct (ckept_new r') as (_ & _ & Hb & _); [by rewrite Hk|lia].
  - apply ccreated_reports.
Qed.

Lemma ccreated_lists : lists_hold chead (ts_list (w_store w')) (ccontent (c_create r new_coll A)).
Proof.
  destruct (chead_ins _ _ Hi) as [Hkq _]. pose proof (cnew_above r cnew_self) as [Hb _].
  apply (lists_changed _ _ _ _ _ _ _ (r + ico_head_off) (clists_apart w A HI) (ci_lists HI) Hkq); [|exact (cg_frame Hcr)| |].
  - simpl. unfold enqueue, ac_ins. simpl. rewrite lookup_total_insert_eq, fmap_app. exact (cg_list Hcr).
  - intros k b Hk Hin. pose proof (clist_below w A k b _ HI Hk Hin). unfold ico_head_off in *. lia.
  - intros [q|q] Hne; simpl; unfold enqueue, ac_ins; simpl; [by rewrite lookup_total_insert_ne by congruence|done].
Qed.

Lemma ccreated_implements : cimplements w' (c_create r new_coll A).
Proof.
  destruct (cg_static Hcr) as (_ & _ & Eac & _ & Ein & Eco & Ecf). pose proof ccreated_brk as Hbrk.
  pose proof (ci_fresh HI) as [_ Hsb]. destruct (ci_active HI) as (Hac & Hth & Hnu). destruct (ci_static HI) as (S1 & S2 & S3).
  destruct (cg_new Hcr) as (_ & _ & _ & _ & _ & Hcal). split; simpl; rewrite ?Eac, ?Ein, ?Eco, ?Ecf; try done.
  - split; [apply (cg_fresh Hcr)|lia].
  - rewrite (cg_thread Hcr). split; [done|]. unfold with_stack. case_decide; [done|].
    destruct Hcal as [?|[? _]]; [done|]. pose proof (proj1 (ce_below Hset)). rewrite !lookup_insert_ne by (done || lia). done.
  - apply ccreated_lists.
  - apply (queues_create _ _ _ _ _ (ci_queues HI)); [apply cnew_unknown|]. unfold cfinished. simpl. by destruct Hph as [->|[-> _]].
  - intros r' a' [[-> ->]|[_ Ha']]%ccreated_is; [apply ccreated_new|by apply ccreated_old].
  - intros r' [Hn Hne]%lookup_insert_None. rewrite Hrec, lookup_insert_ne by done. by apply (ci_none HI).
  - intros r1 r2 a1 a2 p [[-> ->]|[_ H1]]%ccreated_is [[-> ->]|[_ H2]]%ccreated_is Hp1 Hp2; [done|..].
    + by destruct (cold_below r2 a2 p H2 Hp2).
    + by destruct (cold_below r1 a1 p H1 Hp1).
    + by apply (ci_apart HI r1 r2 a1 a2 p).
  - exact ccreated_keys.
  - intros p. rewrite ccreated_blocks, (ci_blocks HI p), ccreated_key_block. split.
    + intros [?|[Hp|[?|[?|(r' & a' & Ha' & Hp)]]]]; auto.
      * do 2 right. exists r, new_coll. split; [apply lookup_insert_eq|done].
      * do 2 right. exists r', a'. split; [|done]. simpl. rewrite lookup_insert_ne; [done|]. intros <-. by rewrite cnew_unknown in Ha'.
    + intros [?|[[?|?]|(r' & a' & [[-> ->]|[_ Ha']]%ccreated_is & Hp)]]; eauto 8.
  - intros r' [Hn _]%lookup_insert_None. rewrite ccreated_reports. by apply (ci_past HI).
  - intros r' Hr'. rewrite ccreated_reports. apply (ci_future HI). lia.
  - destruct ccreated_errors as (errs & E & Hq). unfold cmessages.
    rewrite E, cmessages_app, (cquiet_messages errs), app_nil_r by done. apply (ci_log HI).
  - intros c0 Hc0. pose proof (ci_logged HI c0 Hc0). lia.
Qed.
End ccreated.

(** Creation leaves a state related to the one after a step, if it has a
    result. *)
Lemma create_csim w A coll config :
  cimplements w A → is_Some (collectors !! coll) → is_Some (site_configs !! config) →
  (∃ r w' A', flb_input_coro_collect lib coll config w = Some (r, w') ∧
     cstep (collects lib) (cgoes_on lib) A A' ∧ cimplements w' A' ∧ ∀ p, key_block w p → key_block w' p) ∨
  flb_input_coro_collect lib coll config w = None.
Proof.
  intros HI [c Hc] [cfg Hcfg]. destruct (ce_collector Hset coll c Hc) as [i Hi].
  destruct (collect_cases lib Hco coll config w c i cfg _ (can_collect w A coll config c i cfg HI Hc Hi Hcfg))
    as [(w' & E & Hab)|[(r & coro & callee & st & kept & w' & E & Hcr)|E]].
  - left. exists NULL, w', A. split; [done|]. split; [constructor|]. split; [by eapply failed_ccreate|].
    destruct Hab as (m & ids & errs & -> & _). done.
  - left. assert (∃ ph, st = cthread_of ph ∧ (ph = CUnstarted ∨ ph = CReady coll config ∧ callee ≠ NULL)) as (ph & -> & Hph).
    { destruct (cg_start Hcr) as [(-> & Hn & _)|[-> _]]; [exists (CReady coll config); auto|exists CUnstarted; auto]. }
    destruct (cg_context Hcr) as (id & now & Hrec).
    exists r, w', (c_create r (new_coll config c coro callee id now ph) A). split; [done|]. split.
    + apply cstep_create; [by eapply cnew_unknown|by eapply cnew_unlogged|]. simpl.
      destruct Hph as [->|[-> _]]; [by left|right; by exists coll, config].
    + split; [by eapply ccreated_implements|]. intros p Hp. eapply ccreated_key_block; try done. by left.
  - by right.
Qed.

(** * Every step *)

Lemma step_csim w A w' :
  cimplements w A → collect_step lib w w' →
  ∃ A', cstep (collects lib) (cgoes_on lib) A A' ∧ cimplements w' A' ∧ ∀ p, key_block w p → key_block w' p.
Proof.
  intros HI [coll config r w1 Hc Hcfg E|r ic c st w1 Hat Hst E].
  - destruct (create_csim w A coll config HI Hc Hcfg) as [(r' & w2 & A' & E' & Hs & HI')|E']; [|congruence].
    rewrite E in E'. injection E' as <- <-. by exists A'.
  - destruct (resume_csim w A r ic c st HI Hat Hst) as (a & Ha & _ & _ & w2 & res & E' & Hd & Ev & n & HI').
    rewrite E in E'. injection E' as <-. eexists. split; [by apply may_do_step|]. split; [exact HI'|].
    intros p. unfold key_block. by rewrite Ev.
Qed.
End spec.
