(* ===== verification/CollectSpec.v ===== *)
(** The collections refine their abstract machine, and what follows: safety,
    progress, completion and the messages to the engine; and what becomes of a
    collection when another thread collects at the wrong moment. *)
From S2P Require Import Prelude MkList MkListSpec Mem MkEvent Codes Task Structs Runtime RuntimeSpec Input InputSpec Queues Collect CollectSim.

(** * The log of the abstract machine *)

(** No collection reports twice; those that are known have reported exactly
    when they are finished. *)
Record clog_ok (A : cstate) : Prop := {
  cl_once : NoDup (cc_coll <$> cs_log A);
  cl_done r a : cs_colls A !! r = Some a → cfinished a → ∃ n, CCompletion r (ac_ins a) n ∈ cs_log A;
  cl_open r a : cs_colls A !! r = Some a → ¬ cfinished a → r ∉ cc_coll <$> cs_log A
}.

Section log.
Context (collects : ptr → ptr → cb_result → Prop) (goes_on : Z → cb_result → Prop).

Abbreviation cstep := (cstep collects goes_on).

Lemma clog_ok_finish A r a n : cs_colls A !! r = Some a → ¬ cfinished a → clog_ok A → clog_ok (c_finish r a n A).
Proof.
  intros Ha Hph [Ho Hd Hp]. split; simpl.
  - rewrite fmap_app. apply NoDup_app. split_and!; [done| |apply NoDup_singleton].
    intros r' Hr' E. simpl in E. apply list_elem_of_singleton in E as ->. by apply (Hp r a).
  - intros r' a' [[<- <-]|[_ Ha']]%lookup_insert_Some Hf.
    + exists n. apply elem_of_app. right. by left.
    + destruct (Hd r' a' Ha' Hf) as [m Hm]. exists m. apply elem_of_app. by left.
  - intros r' a' [[<- <-]|[Hne Ha']]%lookup_insert_Some Hf; [by destruct Hf|].
    rewrite fmap_app, not_elem_of_app. simpl. rewrite list_elem_of_singleton. split; [by apply (Hp r' a')|done].
Qed.

Lemma clog_ok_wait A r a k : cs_colls A !! r = Some a → ¬ cfinished a → clog_ok A → clog_ok (c_wait r a k A).
Proof.
  intros Ha Hph [Ho Hd Hp]. split; simpl; try done;
    intros r' a' [[<- <-]|[_ Ha']]%lookup_insert_Some Hf; try done; [by apply Hd|by apply (Hp r a)|by apply (Hp r' a')].
Qed.

(** Every step keeps the invariant of the log, and only adds to it. *)
Lemma cstep_log A A' : cstep A A' → clog_ok A → clog_ok A' ∧ ∃ l, cs_log A' = cs_log A ++ l.
Proof.
  assert (Hnil : cs_log A = cs_log A ++ []) by (by rewrite app_nil_r).
  intros [ |r a Hr Hl Hph|r a coll config k Ha Hph _|r a coll config x n Ha Hph _|r a k k' Ha Hph _|r a k x n Ha Hph _] Hok;
    (split; [|by eexists]); try (apply clog_ok_finish || apply clog_ok_wait); try done; try (unfold cfinished; congruence).
  assert (Hf : ¬ cfinished a) by (unfold cfinished; destruct Hph as [?|(? & ? & ?)]; congruence).
  destruct Hok as [Ho Hd Hp]. split; simpl; [done|..]; intros r' a' [[<- <-]|[_ Ha']]%lookup_insert_Some Hf'; try done;
    [by apply Hd|by apply (Hp r' a')].
Qed.

Lemma run_clog A A' : rtc cstep A A' → clog_ok A → clog_ok A' ∧ ∃ l, cs_log A' = cs_log A ++ l.
Proof.
  induction 1 as [A|A A1 A2 Hs _ IH]; intros Hok; [split; [done|exists []; by rewrite app_nil_r]|].
  destruct (cstep_log _ _ Hs Hok) as (Hok1 & l & E). destruct (IH Hok1) as (Hok' & l' & ->). split; [done|].
  exists (l ++ l'). by rewrite E, app_assoc.
Qed.
End log.

Section spec.
Context `{S : site} (lib : input_lib) (Hco : libco_ok (il_co lib)) (Hset : collect_setting lib).

Abbreviation cstep := (cstep (collects lib) (cgoes_on lib)).
Abbreviation cimplements := (cimplements lib).
Abbreviation cmessage := (cmessage lib).

Lemma run_csim w A w' :
  cimplements w A → rtc (collect_step lib) w w' →
  ∃ A', rtc cstep A A' ∧ cimplements w' A' ∧ ∀ p, key_block w p → key_block w' p.
Proof.
  intros HI Hrun. revert A HI. induction Hrun as [w|w w1 w2 Hs _ IH]; intros A HI; [by exists A|].
  destruct (step_csim lib Hco Hset w A w1 HI Hs) as (A1 & Hs1 & HI1 & Hk1).
  destruct (IH A1 HI1) as (A2 & Hs2 & HI2 & Hk2). exists A2. split; [by eapply rtc_l|]. auto.
Qed.

(** C7. Refinement.  Whatever sequence of creations and resumptions a thread
    makes, with any number of collections of any number of instances under way,
    any outcome of the allocations and any plugins that keep to their own data,
    the world it reaches implements a state that the abstract machine reaches:
    a collection is ready, waits and finishes, moving from one list of its
    instance to the other. *)
Theorem collect_refinement w A w' :
  cimplements w A → rtc (collect_step lib) w w' → ∃ A', rtc cstep A A' ∧ cimplements w' A'.
Proof. intros HI Hrun. destruct (run_csim w A w' HI Hrun) as (A' & ? & ? & _). by exists A'. Qed.

(** C8. Safety, of every world that is reached.  A collection reports at most
    once; one that has returned has reported, and is in the list of those to
    destroy; one that has not has not reported, and is in the list of those
    under way.  Every block still allocated was there before, is a part of a
    recorded collection, or holds the parameters of a key of the thread; and
    these stay: every key created keeps a block of its own for ever. *)
Theorem collect_safety w A w' :
  cimplements w A → rtc (collect_step lib) w w' →
  (∀ r, (creports w' r ≤ 1)%nat) ∧
  (∀ r ic c st, collecting_at w' r ic c st → ∃ i l, instances !! ico_ins ic = Some i ∧ r + ico_head_off ∈ l ∧
    (st = CT_returned ∧ creports w' r = 1%nat ∧ dll (ts_list (w_store w')) (ii_input_coro_list_destroy i) l ∨
     st ≠ CT_returned ∧ creports w' r = O ∧ dll (ts_list (w_store w')) (ii_input_coro_list i) l)) ∧
  (∀ p, is_Some (mm_blocks (w_mem w') !! p) → p ∈ site_owned ∨ key_block w' p ∨
    ∃ r ic c, w_input_coros w' !! r = Some ic ∧ w_coros w' !! ico_coro ic = Some c ∧ p ∈ [r; ico_coro ic; co_callee c]) ∧
  (∀ p, key_block w p → key_block w' p ∧ is_Some (mm_blocks (w_mem w') !! p)).
Proof.
  intros HI0 Hrun. destruct (run_csim w A w' HI0 Hrun) as (A' & _ & HI & Hkeys). split; [|split; [|split]].
  - intros r. destruct (cs_colls A' !! r) as [a|] eqn:Ha; [|by apply (ci_past HI)].
    rewrite (ko_reports (ci_coll HI r a Ha)). case_decide; lia.
  - intros r ic c st Hat. destruct (cknown lib _ _ _ _ _ _ HI Hat) as (a & caller & Ha & -> & -> & _ & ->).
    pose proof (ci_coll HI r a Ha) as Hok. destruct (ko_ins Hok) as [i Hi]. destruct (chead_ins _ _ Hi) as [Hkq Hkd].
    pose proof (ko_reports Hok) as Hr. destruct (ci_queues HI) as [Hq Hd]. exists i.
    case_decide as Hf.
    + exists (ccontent A' (CDone (ac_ins a))). split; [done|].
      split; [apply list_elem_of_fmap; exists r; split; [done|]; apply Hd; by exists a|]. left.
      unfold cfinished in Hf. rewrite Hf. split; [done|]. split; [done|]. by apply (ci_lists HI).
    + exists (ccontent A' (CQueue (ac_ins a))). split; [done|].
      split; [apply list_elem_of_fmap; exists r; split; [done|]; apply Hq; by exists a|]. right.
      split; [by unfold cfinished in Hf; destruct (ac_phase a)|]. split; [done|]. by apply (ci_lists HI).
  - intros p [Hp|[Hp|(r & a & Ha & Hp)]]%(ci_blocks HI); [by left|by right; left|]. right. right.
    destruct (ci_coll HI r a Ha) as [Hr [caller Hc] _ _ _ _ _ _ _ _].
    exists r, (ac_rec a), (Coro caller (ac_callee a) r). do 2 (split; [done|]).
    unfold cparts in Hp. case_decide; set_solver.
  - intros p Hp%Hkeys. split; [done|]. apply (ci_blocks HI). auto.
Qed.

(** C9. Progress.  In every world that is reached, a recorded collection is in
    one of three places: its coroutine waits, and resuming it has a result; or
    it has returned, and the collection has reported; or it has never reached
    its first switch, for want of a stack or of the parameters of the thread,
    and it has not reported.  Creating one has no result exactly when, in the
    memory its context and its coroutine leave, its stack cannot be allocated
    and the parameters of the thread can then be had: the result of [co_create]
    is not checked. *)
Theorem collect_progress w A w' :
  cimplements w A → rtc (collect_step lib) w w' →
  (∀ r ic, w_input_coros w' !! r = Some ic →
     (∃ c st, collecting_at w' r ic c st ∧ resumable_in st ∧ is_Some (flb_input_coro_resume lib r w')) ∨
     (∃ c, collecting_at w' r ic c CT_returned ∧ creports w' r = 1%nat) ∨
     (∃ c, w_coros w' !! ico_coro ic = Some c ∧ creports w' r = O ∧
        (co_callee c = NULL ∨ w_threads w' !! co_callee c = Some CT_input_start))) ∧
  (∀ coll config c cfg, collectors !! coll = Some c → site_configs !! config = Some cfg →
     flb_input_coro_collect lib coll config w' = None ↔ no_stack lib config w' c cfg).
Proof.
  intros HI0 Hrun. destruct (run_csim w A w' HI0 Hrun) as (A' & _ & HI & _). split.
  - intros r ic Hr. destruct (cs_colls A' !! r) as [a|] eqn:Ha; [|by rewrite (ci_none HI) in Hr].
    destruct (ci_coll HI r a Ha) as [Hic [caller Hc] Hth Hs _ _ _ _ _ Hrep]. rewrite Hic in Hr. injection Hr as <-.
    set (c := Coro caller (ac_callee a) r). destruct (decide (ac_callee a = NULL)) as [En|Hn].
    { right. right. exists c. split; [done|]. rewrite Hrep, decide_False; [by auto|]. unfold cfinished. by rewrite (Hs En). }
    assert (Hat : collecting_at w' r (ac_rec a) c (cthread_of (ac_phase a))) by (split_and!; [done|done|by apply Hth]).
    assert (Hgo : resumable_in (cthread_of (ac_phase a)) → is_Some (flb_input_coro_resume lib r w')).
    { intros Hst. destruct (resume_csim lib Hset w' A' r _ c _ HI Hat Hst) as (_ & _ & _ & _ & ? & ? & -> & _). by eexists. }
    assert (Hfin : (ac_phase a = CFinished → creports w' r = 1%nat) ∧ (ac_phase a ≠ CFinished → creports w' r = O)).
    { split; intros E; rewrite Hrep; [by rewrite decide_True|by rewrite decide_False]. }
    clear Hrep. destruct Hfin as [Hfin Hopen]. destruct (ac_phase a); simpl in *.
    + right. right. exists c. split; [done|]. split; [by apply Hopen|]. right. by apply Hat.
    + left. exists c. eexists. split; [exact Hat|]. split; [done|]. by apply Hgo.
    + left. exists c. eexists. split; [exact Hat|]. split; [done|]. by apply Hgo.
    + right. left. exists c. split; [exact Hat|by apply Hfin].
  - intros coll config c cfg Hc Hcfg. destruct (ce_collector Hset coll c Hc) as [i Hi].
    exact (collect_none lib Hco coll config w' c i cfg _ (can_collect lib w' A' coll config c i cfg HI Hc Hi Hcfg)).
Qed.

(** ** Completion *)

Section completion.
(** Each time a callback gives control back it is closer to its end. *)
Context (rank : Z → nat).
Context (Hrank : ∀ k v k' v', il_cb_resume lib k v = Some (CB_suspend k', v') → (rank k' < rank k)%nat).

Lemma known_at w A r a :
  cimplements w A → cs_colls A !! r = Some a → ac_phase a ≠ CUnstarted →
  ∃ c, collecting_at w r (ac_rec a) c (cthread_of (ac_phase a)).
Proof.
  intros HI Ha Hph. destruct (ci_coll HI r a Ha) as [Hr [caller Hc] Hth Hs _ _ _ _ _ _].
  eexists. split_and!; [exact Hr|exact Hc|]. apply Hth. intros Hn. by apply Hph, Hs.
Qed.

(** Resumed until it has returned. *)
Definition runs_to_end (w : world) (A : cstate) (r : ptr) (a : acoll) : Prop :=
  ∃ m w' A', resume_collection lib m r w = Some w' ∧ cimplements w' A' ∧ cs_colls A' !! r = Some (set_cphase CFinished a).

Lemma one_turn w A r a :
  cimplements w A → cs_colls A !! r = Some a → resumable_in (cthread_of (ac_phase a)) →
  ∃ w1 A1 ph, flb_input_coro_resume lib r w = Some (tt, w1) ∧ cimplements w1 A1 ∧
    cs_colls A1 !! r = Some (set_cphase ph a) ∧
    (ph = CFinished ∨ ∃ k', ph = CWaiting k' ∧ ∀ k, ac_phase a = CWaiting k → (rank k' < rank k)%nat).
Proof.
  intros HI Ha Hst. assert (Hu : ac_phase a ≠ CUnstarted) by (intros E; by rewrite E in Hst).
  destruct (known_at w A r a HI Ha Hu) as [c Hat].
  destruct (resume_csim lib Hset w A r _ c _ HI Hat Hst) as (a0 & Ha0 & _ & _ & w1 & res & E & Hd & _ & n & HI1).
  replace a0 with a in * by congruence. destruct res as [x|k'].
  - exists w1, (c_finish r a n A), CFinished. do 2 (split; [done|]). split; [apply lookup_insert_eq|by left].
  - exists w1, (c_wait r a k' A), (CWaiting k'). do 2 (split; [done|]). split; [apply lookup_insert_eq|]. right.
    exists k'. split; [done|]. intros k Hk. rewrite Hk in Hd. by destruct Hd as (v & v' & ?%Hrank).
Qed.

Lemma waiting_to_end n w A r a k :
  cimplements w A → cs_colls A !! r = Some a → ac_phase a = CWaiting k → (rank k < n)%nat → runs_to_end w A r a.
Proof.
  revert w A a k. induction n as [|n IH]; intros w A a k HI Ha Hph Hk; [lia|].
  destruct (one_turn w A r a HI Ha) as (w1 & A1 & ph & E & HI1 & Ha1 & [->|(k' & -> & Hk')]); [by rewrite Hph|..].
  - exists 1%nat, w1, A1. split; [simpl; by rewrite E|done].
  - destruct (IH w1 A1 _ k' HI1 Ha1 eq_refl) as (m & w2 & A2 & E2 & HI2 & Ha2); [specialize (Hk' k Hph); lia|].
    exists (Datatypes.S m), w2, A2. split; [simpl; by rewrite E|done].
Qed.

(** C10. Completion.  If every suspension of the plugin brings it closer to its
    end then, in every world that is reached, a collection whose coroutine is
    suspended returns after some number of resumptions; it has then reported,
    once, and is in the list of those to destroy. *)
Theorem collect_completes w A w1 r ic c st :
  cimplements w A → rtc (collect_step lib) w w1 → collecting_at w1 r ic c st → resumable_in st →
  ∃ n w' c' i l, resume_collection lib n r w1 = Some w' ∧ collecting_at w' r ic c' CT_returned ∧ creports w' r = 1%nat ∧
    instances !! ico_ins ic = Some i ∧ dll (ts_list (w_store w')) (ii_input_coro_list_destroy i) l ∧ r + ico_head_off ∈ l.
Proof.
  intros HI0 Hrun Hat Hst. destruct (run_csim w A w1 HI0 Hrun) as (A1 & _ & HI & _).
  destruct (cknown lib _ _ _ _ _ _ HI Hat) as (a & caller & Ha & -> & -> & _ & ->).
  assert (runs_to_end w1 A1 r a) as (n & w' & A' & En & HI' & Ha').
  { destruct (one_turn w1 A1 r a HI Ha Hst) as (w2 & A2 & ph & E & HI2 & Ha2 & [->|(k' & -> & _)]).
    - exists 1%nat, w2, A2. split; [simpl; by rewrite E|done].
    - destruct (waiting_to_end (Datatypes.S (rank k')) w2 A2 r _ k' HI2 Ha2 eq_refl) as (m & w' & A' & Em & HI' & Ha'); [lia|].
      exists (Datatypes.S m), w', A'. split; [simpl; by rewrite E|done]. }
  destruct (known_at w' A' r _ HI' Ha') as [c' Hat']; [done|]. pose proof (ci_coll HI' r _ Ha') as Hok.
  destruct (ko_ins Hok) as [i Hi]. exists n, w', c', i, (ccontent A' (CDone (ac_ins a))).
  do 2 (split; [done|]). split; [by rewrite (ko_reports Hok), decide_True|]. split; [done|]. destruct (chead_ins _ _ Hi) as [_ Hkd].
  split; [by apply (ci_lists HI')|]. apply list_elem_of_fmap. exists r. split; [done|].
  apply (qo_done (ci_queues HI')). by exists (set_cphase CFinished a).
Qed.
End completion.

(** ** Messages *)

(** What the engine reads in a message, with the macros of the header. *)
Definition cannounces (e : event) (c : ccompletion) : Prop :=
  ∃ i val, instances !! cc_ins c = Some i ∧ e = Ev_pipe (in_fd i) val (cc_sent c) ∧
    FLB_BITS_U64_HIGH val = FLB_ENGINE_IN_CORO ∧ FLB_BITS_U64_LOW val = ii_id i.

Section decoding.
Context (Hids : ∀ ins i, instances !! ins = Some i → 0 ≤ ii_id i < 2 ^ 31).

Lemma cmessage_announces e c : cmessage e c → cannounces e c.
Proof.
  intros (i & Hi & -> & _). exists i, (return_val i). do 2 (split; [done|]). by eapply in_return_val_fields, Hids.
Qed.

Lemma cmessage_fun L ms ms' : Forall2 cmessage ms L → Forall2 cmessage ms' L → ms = ms'.
Proof.
  intros H. revert ms'. induction H as [|e c ms L (i & Hi & -> & _) _ IH]; intros ms' H'.
  - by apply Forall2_nil_inv_r in H' as ->.
  - apply Forall2_cons_inv_r in H' as (e' & ms1 & (i' & Hi' & -> & _) & H' & ->). f_equal; [congruence|by apply IH].
Qed.

Lemma cannounces_arrived ms L :
  Forall2 cannounces ms L → Forall2 cannounces (filter carrived ms) (filter (λ c, cc_sent c = 8) L).
Proof.
  induction 1 as [|e c ms L Hc _ IH]; [constructor|]. pose proof Hc as (i & val & _ & -> & _). rewrite !filter_cons.
  change (carrived (Ev_pipe (in_fd i) val (cc_sent c))) with (cc_sent c = 8).
  destruct (decide (cc_sent c = 8)); rewrite ?decide_True, ?decide_False by done; [by constructor|done].
Qed.

Lemma cmessage_sent ms L : Forall2 cmessage ms L → (∀ tr fd val, il_pipe_w lib tr fd val = 8) → filter carrived ms = ms.
Proof.
  intros H Hw. induction H as [|e c ms L (i & _ & -> & tr & E) _ IH]; [done|].
  rewrite filter_cons_True, IH; [done|]. simpl. by rewrite E, Hw.
Qed.

(** C11. Messages, for instances whose identifiers are not negative.  In every
    world that is reached, the writes attempted on the pipes of the instances
    since the start are one for each collection that has reported since, in the
    order of the reports: each, on the pipe of its instance, carries the kind
    of event and the identifier of the instance.  What the engine has received
    since is the messages of those collections whose write has written its
    eight bytes, in the same order: all of them when no write fails.  No
    collection reports twice; one that is known has reported exactly when its
    coroutine has returned. *)
Theorem collect_messages w A w' :
  cimplements w A → clog_ok A → rtc (collect_step lib) w w' →
  ∃ new log, cmessages w' = cmessages w ++ new ∧ Forall2 cannounces new log ∧ NoDup (cc_coll <$> cs_log A ++ log) ∧
    (∀ r ic c st, collecting_at w' r ic c st →
      (st = CT_returned ∧ ∃ n, CCompletion r (ico_ins ic) n ∈ cs_log A ++ log) ∨
      (st ≠ CT_returned ∧ r ∉ cc_coll <$> cs_log A ++ log)) ∧
    ∃ got, creceived w' = creceived w ++ got ∧ Forall2 cannounces got (filter (λ c, cc_sent c = 8) log) ∧
      ((∀ tr fd val, il_pipe_w lib tr fd val = 8) → got = new).
Proof.
  intros HI0 Hok0 Hrun. destruct (run_csim w A w' HI0 Hrun) as (A' & Hsteps & HI & _).
  destruct (run_clog _ _ _ _ Hsteps Hok0) as ([Ho Hd Hp] & log & El). rewrite El in *.
  pose proof (ci_log HI) as Hm. rewrite El in Hm.
  apply Forall2_app_inv_r in Hm as (ms & new & Hms & Hnew & Em).
  rewrite (cmessage_fun _ _ _ Hms (ci_log HI0)) in Em.
  assert (Han : Forall2 cannounces new log) by (eapply Forall2_impl; [exact Hnew|]; exact cmessage_announces).
  exists new, log. split; [exact Em|]. split; [done|]. split; [done|]. split.
  - intros r ic c st Hat. destruct (cknown lib _ _ _ _ _ _ HI Hat) as (a & caller & Ha & -> & -> & _ & ->).
    destruct (decide (cfinished a)) as [Hf|Hf].
    + left. unfold cfinished in Hf. rewrite Hf. split; [done|]. by apply (Hd r a).
    + right. unfold cfinished in Hf. split; [by destruct (ac_phase a)|by apply (Hp r a)].
  - exists (filter carrived new). split; [unfold creceived; by rewrite Em, filter_app|].
    split; [by apply cannounces_arrived|by apply (cmessage_sent new log)].
Qed.
End decoding.
End spec.

(** * Another thread that collects *)

(** The key of the parameters is one for the whole process, and every
    collection creates it anew. *)
Section race.
Context (lib : input_lib).

(** The parameters of a thread for a coroutine that is about to start. *)
Definition params_ready (w : world) (params : ptr) (p : flb_libco_in_params) (c : flb_coro) : Prop :=
  params ≠ NULL ∧ w_in_values w !! w_in_key w = Some params ∧ w_in_params w !! params = Some p ∧
  w_coros w !! lp_coro p = Some c.

(** C20. A coroutine that starts finds the parameters that [input_params_set]
    has set for it, and waits at its first switch.  When another thread has
    created the key again in between, this thread has no value for the new one:
    the coroutine allocates empty parameters, and what it does with
    the coroutine they name, which is none, is not defined. *)
Theorem flb_input_coro_key_race w params p c k :
  params_ready w params p c → default NULL (w_in_values w !! k) = NULL → w_coros w !! NULL = None →
  input_run lib CT_input_start w = Some ((CT_input_ready (lp_coll p) (lp_config p), co_caller c), w) ∧
  input_run lib CT_input_start (set_in_key k w) = None.
Proof.
  intros (Hn & Hv & Hp & Hc) Hk Hnull. split; simpl; unfold input_pre_cb_collect_start.
  - rewrite (run_bind _ _ _ _ _ (in_params_found w params Hv Hn)), decide_False by done.
    rewrite (run_bind _ _ _ _ _ (run_get w_in_params params w p Hp)).
    by rewrite (run_bind _ _ _ _ _ (run_get w_coros (lp_coro p) w c Hc)).
  - set (v := set_in_key k w). unfold in_params, pthread_getspecific. rewrite bind_assoc, bind_gets.
    change (w_in_values v !! w_in_key v) with (w_in_values w !! k). rewrite decide_True by done.
    destruct (flb_calloc 1 sizeof_flb_libco_in_params (w_mem v)) as [q m] eqn:Ea. rewrite bind_assoc.
    rewrite (run_bind _ _ _ _ _ (run_calloc _ _ _ _ _ Ea)). cbv beta. destruct (decide (q = NULL)) as [->|Hq].
    + unfold flb_errno. by rewrite bind_assoc, bind_emit, bind_ret, decide_True.
    + unfold set_params, pthread_setspecific. rewrite !bind_assoc, bind_modify, bind_assoc, bind_modify, bind_ret, decide_False by done.
      set (v1 := set_in_values _ _).
      assert (Hl : w_in_params v1 !! q = Some (LibcoInParams NULL NULL NULL)) by apply lookup_insert_eq.
      rewrite (run_bind _ _ _ _ _ (run_get w_in_params q v1 _ Hl)). simpl lp_coro.
      unfold mbind, M_bind, get, peek. change (w_coros v1) with (w_coros w). by rewrite Hnull.
Qed.
End race.

(** ** The theorems at work: two collections of the instance of [InputSpec]
    interleave; the callback is resumed twice before it returns. *)

Definition demo_slow_lib : input_lib := {|
  il_co := malloc_libco;
  il_coro_id_get := il_coro_id_get demo_input_lib;
  il_time := il_time demo_input_lib;
  il_key_create := il_key_create demo_input_lib;
  il_pipe_w := il_pipe_w demo_input_lib;
  il_coro_prepare_destroy := il_coro_prepare_destroy demo_input_lib;
  il_cb_collect := λ _ _ _ _, mret (CB_suspend 1);
  il_cb_resume := λ k, if decide (k = 1) then mret (CB_suspend 0) else mret (CB_return 0);
  il_config_map_set := il_config_map_set demo_input_lib
|}.

#[local] Instance demo_site : site := {|
  collector_thread := 64;
  site_base := 16384;
  site_owned := ∅;
  instances := {[ 200 := demo_input ]};
  collectors := {[ 320 := demo_collector ]};
  site_configs := {[ 7168 := flb_config_zero ]}
|}.

Definition demo_no_collections : cstate := CState ∅ ∅ ∅ [].

Lemma demo_instance ins i : instances !! ins = Some i → ins = 200 ∧ i = demo_input.
Proof. simpl. by intros [<- <-]%lookup_singleton_Some. Qed.

Lemma demo_cheads k a : chead k = Some a → k = CQueue 200 ∧ a = 6144 ∨ k = CDone 200 ∧ a = 6400.
Proof.
  destruct k as [o|o]; simpl; intros (i & [-> ->]%demo_instance & [= <-])%fmap_Some; auto.
Qed.

Lemma demo_collect_setting : collect_setting demo_slow_lib.
Proof.
  split.
  - simpl. intros coll c [<- <-]%lookup_singleton_Some. by exists demo_input.
  - intros k k' a Hk Hk'. apply demo_cheads in Hk, Hk'. naive_solver.
  - split; [simpl; lia|]. split; simpl; [intros k a Hk; apply demo_cheads in Hk; naive_solver lia|by intros p []%elem_of_empty].
  - intros cb ins config context v. exists (CB_suspend 1), []. rewrite app_nil_r. split; [by destruct v|constructor].
  - intros k v. simpl. case_decide; eexists _, []; rewrite app_nil_r; (split; [by destruct v|constructor]).
  - simpl. intros keys k Hk. assert (k ∈ filter (λ k, k ∉ keys) (seqZ 1 128)) as [? _]%list_elem_of_filter; [|done].
    destruct (filter _ _); [done|]. injection Hk as ->. by left.
  - intros r ins i h l1 l2 dl [_ ->]%demo_instance. apply moved_dll.
Qed.

Lemma demo_cimplements : cimplements demo_slow_lib demo_in_world demo_no_collections.
Proof.
  split; try done.
  - split; [exact demo_in_fresh|done].
  - intros k a Hk. apply demo_cheads in Hk as [[-> ->]|[-> ->]]; evaluate.
  - split; intros o r; simpl; rewrite lookup_total_empty; (split; [by intros []%not_elem_of_nil|intros (a & [=] & _)]).
  - split; [by intros k p [=]|by intros p (_ & k & [=])|by intros k k' p [=]].
  - intros p. simpl. rewrite lookup_empty. split; [by intros [? [=]]|].
    intros [[]%elem_of_empty|[(_ & k & [=])|(? & ? & [=] & _)]].
  - intros r _. change (creports demo_in_world r) with O. lia.
  - intros c Hc. by apply not_elem_of_nil in Hc.
Qed.

Lemma demo_clog_ok : clog_ok demo_no_collections.
Proof. split; [constructor|by intros r a [=]..]. Qed.

(** Both collections are created before the first is resumed. *)
Definition demo_create (w : world) : world := from_option snd w (flb_input_coro_collect demo_slow_lib 320 7168 w).
Definition demo_resume (r : ptr) (w : world) : world := from_option snd w (flb_input_coro_resume demo_slow_lib r w).

Definition demo_two : world := demo_create (demo_create demo_in_world).
Definition demo_waits : world := demo_resume 16384 demo_two.
Definition demo_reported : world := demo_resume 16384 (demo_resume 16384 demo_waits).

Definition demo_coroutine : flb_input_coro := InputCoro 0 1700000000 0 200 16464 7168.
Definition demo_coro_of : flb_coro := Coro 64 16512 16384.

Lemma demo_create_step w r w' : flb_input_coro_collect demo_slow_lib 320 7168 w = Some (r, w') →
  collect_step demo_slow_lib w w'.
Proof. apply collect_create; by eexists. Qed.

Lemma demo_run_two : rtc (collect_step demo_slow_lib) demo_in_world demo_two.
Proof.
  apply (rtc_l _ _ (demo_create demo_in_world)); [|apply rtc_once].
  - apply (demo_create_step _ 16384). vm_compute. reflexivity.
  - apply (demo_create_step _ 16592). vm_compute. reflexivity.
Qed.

Lemma demo_run_waits : rtc (collect_step demo_slow_lib) demo_in_world demo_waits.
Proof.
  etrans; [exact demo_run_two|]. apply rtc_once.
  apply (collect_resume _ _ 16384 demo_coroutine demo_coro_of (CT_input_ready 320 7168));
    [split_and!; vm_compute; reflexivity|exact I|vm_compute; reflexivity].
Qed.

Lemma demo_run_reported : rtc (collect_step demo_slow_lib) demo_in_world demo_reported.
Proof.
  etrans; [exact demo_run_waits|]. apply (rtc_l _ _ (demo_resume 16384 demo_waits)); [|apply rtc_once].
  - apply (collect_resume _ _ 16384 demo_coroutine demo_coro_of (CT_callback 1));
      [split_and!; vm_compute; reflexivity|exact I|vm_compute; reflexivity].
  - apply (collect_resume _ _ 16384 demo_coroutine demo_coro_of (CT_callback 0));
      [split_and!; vm_compute; reflexivity|exact I|vm_compute; reflexivity].
Qed.

Lemma collect_refinement_witness :
  ∃ A', rtc (cstep (collects demo_slow_lib) (cgoes_on demo_slow_lib)) demo_no_collections A' ∧ cimplements demo_slow_lib demo_reported A'.
Proof. exact (collect_refinement demo_slow_lib malloc_libco_ok demo_collect_setting _ _ _ demo_cimplements demo_run_reported). Defined.

(** Each of the two collections has left a key with parameters of its own. *)
Lemma collect_safety_witness :
  (∀ r, (creports demo_reported r ≤ 1)%nat) ∧ creports demo_reported 16384 = 1%nat ∧
  w_in_values demo_reported = {[ 1 := 16544; 2 := 16752 ]} ∧
  (∀ p, is_Some (mm_blocks (w_mem demo_reported) !! p) → p ∈ site_owned ∨ key_block demo_reported p ∨
    ∃ r ic c, w_input_coros demo_reported !! r = Some ic ∧ w_coros demo_reported !! ico_coro ic = Some c ∧
      p ∈ [r; ico_coro ic; co_callee c]).
Proof.
  destruct (collect_safety demo_slow_lib malloc_libco_ok demo_collect_setting _ _ _ demo_cimplements demo_run_reported)
    as (H1 & _ & H3 & _).
  split; [exact H1|]. split; [vm_compute; reflexivity|]. split; [vm_compute; reflexivity|exact H3].
Defined.

Lemma collect_progress_witness : is_Some (flb_input_coro_resume demo_slow_lib 16592 demo_reported).
Proof.
  destruct (collect_progress demo_slow_lib malloc_libco_ok demo_collect_setting _ _ _ demo_cimplements demo_run_reported) as [H _].
  assert (Hr : w_input_coros demo_reported !! 16592 = Some (InputCoro 1 1700000000 0 200 16672 7168)) by (vm_compute; reflexivity).
  destruct (H _ _ Hr) as [(c & st & _ & _ & Hs)|[(c & _ & Hc)|(c & Hk & _ & Hc)]]; [exact Hs|exfalso..].
  - vm_compute in Hc. discriminate Hc.
  - assert (Hk' : w_coros demo_reported !! 16672 = Some (Coro 64 16720 16592)) by (vm_compute; reflexivity).
    pose proof (eq_trans (eq_sym Hk) Hk') as Ec. injection Ec as ->.
    destruct Hc as [Hc|Hc]; vm_compute in Hc; discriminate Hc.
Defined.

Lemma collect_completes_witness :
  ∃ n w' c' i l, resume_collection demo_slow_lib n 16384 demo_waits = Some w' ∧
    collecting_at w' 16384 demo_coroutine c' CT_returned ∧ creports w' 16384 = 1%nat ∧
    instances !! 200 = Some i ∧ dll (ts_list (w_store w')) (ii_input_coro_list_destroy i) l ∧ 16384 + ico_head_off ∈ l.
Proof.
  apply (collect_completes demo_slow_lib malloc_libco_ok demo_collect_setting Z.to_nat) with
    (w := demo_in_world) (A := demo_no_collections) (ic := demo_coroutine) (c := demo_coro_of) (st := CT_callback 1).
  - intros k v k' v'. simpl. case_decide as Hk; [|discriminate]. intros [= <- <-]. subst. simpl. lia.
  - exact demo_cimplements.
  - exact demo_run_waits.
  - split_and!; vm_compute; reflexivity.
  - exact I.
Defined.

Lemma collect_messages_witness :
  creceived demo_reported = [Ev_pipe 21 (FLB_BITS_U64_SET 3 9) 8] ∧
  ∃ new log, cmessages demo_reported = cmessages demo_in_world ++ new ∧ Forall2 cannounces new log ∧
    NoDup (cc_coll <$> cs_log demo_no_collections ++ log).
Proof.
  split; [vm_compute; reflexivity|].
  destruct (collect_messages demo_slow_lib malloc_libco_ok demo_collect_setting) with (w := demo_in_world)
    (A := demo_no_collections) (w' := demo_reported) as (new & log & H1 & H2 & H3 & _).
  - intros ins i [_ ->]%demo_instance. evaluate.
  - exact demo_cimplements.
  - exact demo_clog_ok.
  - exact demo_run_reported.
  - exists new, log. split; [exact H1|]. split; [exact H2|exact H3].
Defined.

(** With the key 3, which another thread has just created. *)
Lemma flb_input_coro_key_race_witness :
  input_run demo_slow_lib CT_input_start demo_two = Some ((CT_input_ready 320 7168, 64), demo_two) ∧
  input_run demo_slow_lib CT_input_start (set_in_key 3 demo_two) = None.
Proof.
  exact (flb_input_coro_key_race demo_slow_lib demo_two 16752 (LibcoInParams 7168 320 16672) (Coro 64 16720 16592) 3
    ltac:(vm_compute; repeat split; discriminate) ltac:(vm_compute; reflexivity) ltac:(vm_compute; reflexivity)).
Defined.
