(* ===== verification/Stream.v ===== *)
(** [flb_stream.h] and the flags of [flb_io.h]: the base of upstreams and
    downstreams.  The flags are bits of an [int]; the optional lock is a
    pthread mutex, and several threads may use one stream. *)
From S2P Require Import Prelude MkList Structs.

(** * [flb_io.h] *)

Definition FLB_IO_CONNECT : Z := 0.
Definition FLB_IO_WRITE : Z := 1.
Definition FLB_IO_TCP : Z := 1.
Definition FLB_IO_TLS : Z := 2.
Definition FLB_IO_OPT_TLS : Z := 4.
Definition FLB_IO_ASYNC : Z := 8.
Definition FLB_IO_TCP_KA : Z := 16.
Definition FLB_IO_IPV6 : Z := 32.

Definition FLB_DOWNSTREAM : Z := 1.
Definition FLB_UPSTREAM : Z := 2.
Definition FLB_TRANSPORT_UNSET : Z := 0.
Definition FLB_TRANSPORT_TCP : Z := 1.
Definition FLB_TRANSPORT_UDP : Z := 2.
Definition FLB_TRANSPORT_UNIX_STREAM : Z := 3.
Definition FLB_TRANSPORT_UNIX_DGRAM : Z := 4.

(** * Mutexes

    On Windows the pthread functions come from [winpthreads.h], which is not
    in the repository: they are an interface, with what is documented of them
    for a mutex that is free or held once. *)

(** A call returns, waits for another thread, or has undefined behaviour. *)
Inductive call (A : Type) := Ran (a : A) | Blocked | Undefined.
Arguments Ran {A} a.
Arguments Blocked {A}.
Arguments Undefined {A}.

Inductive mutex_status := M_none | M_free | M_held (thread : Z).

Class Pthread := {
  mutex : Type;
  mutex_state : mutex → mutex_status;
  pthread_mutex_init : mutex → mutex;
  pthread_mutex_lock : Z → mutex → call (Z * mutex);
  pthread_mutex_trylock : Z → mutex → call (Z * mutex);
  pthread_mutex_unlock : Z → mutex → call (Z * mutex);
  mutex_init_free m : mutex_state m = M_none → mutex_state (pthread_mutex_init m) = M_free;
  mutex_lock_free me m : mutex_state m = M_free →
    ∃ m', pthread_mutex_lock me m = Ran (0, m') ∧ mutex_state m' = M_held me;
  mutex_trylock_free me m : mutex_state m = M_free →
    ∃ m', pthread_mutex_trylock me m = Ran (0, m') ∧ mutex_state m' = M_held me;
  mutex_lock_held me t m : mutex_state m = M_held t → t ≠ me → pthread_mutex_lock me m = Blocked;
  mutex_trylock_held me t m : mutex_state m = M_held t → t ≠ me →
    ∃ r m', pthread_mutex_trylock me m = Ran (r, m') ∧ r ≠ 0 ∧ mutex_state m' = M_held t;
  mutex_unlock_held me m : mutex_state m = M_held me →
    ∃ m', pthread_mutex_unlock me m = Ran (0, m') ∧ mutex_state m' = M_free
}.

(** * The stream *)

Section stream.
Context {lib : Pthread}.

(** [struct flb_stream]; its [_head] is in the list heap. *)
Record flb_stream := Stream {
  fs_dynamically_allocated : Z;
  fs_thread_safety_flag : Z;
  fs_transport : Z;
  fs_flags : Z;
  fs_type : Z;
  fs_list_mutex : mutex;
  fs_tls_context : ptr;
  fs_config : ptr;
  fs_net : flb_net_setup
}.

Definition flb_stream_is_shutting_down (configs : gmap Z flb_config) (stream : flb_stream) : option Z :=
  c ← configs !! fs_config stream;
  Some (cf_is_shutting_down c).

(** [struct flb_upstream] and [struct flb_downstream] begin with a stream. *)
Definition flb_upstream_is_shutting_down := flb_stream_is_shutting_down.
Definition flb_downstream_is_shutting_down := flb_stream_is_shutting_down.

(** [flb_net_setup_init] is in the library; [net_setup] is the object the
    caller points to, if any. *)
Definition flb_stream_setup (flb_net_setup_init : flb_net_setup → flb_net_setup)
    (stream : flb_stream) (type transport flags : Z) (tls_context config : ptr)
    (net_setup : option flb_net_setup) : flb_stream :=
  Stream (fs_dynamically_allocated stream) FLB_FALSE transport flags type (fs_list_mutex stream)
    tls_context config
    match net_setup with
    | None => flb_net_setup_init (fs_net stream)
    | Some n => n
    end.

Definition flb_stream_get_flags (stream : flb_stream) : Z := fs_flags stream.

Definition flb_stream_set_flags (stream : flb_stream) (flags : Z) : flb_stream :=
  Stream (fs_dynamically_allocated stream) (fs_thread_safety_flag stream) (fs_transport stream) flags
    (fs_type stream) (fs_list_mutex stream) (fs_tls_context stream) (fs_config stream) (fs_net stream).

Definition flb_stream_get_flag_status (stream : flb_stream) (flag : Z) : Z :=
  c_bool (bool_decide (Z.land (flb_stream_get_flags stream) flag ≠ 0)).

Definition flb_stream_enable_flags (stream : flb_stream) (flag : Z) : flb_stream :=
  flb_stream_set_flags stream (Z.lor (flb_stream_get_flags stream) flag).

Definition flb_stream_disable_flags (stream : flb_stream) (flag : Z) : flb_stream :=
  flb_stream_set_flags stream (Z.land (flb_stream_get_flags stream) (Z.lnot flag)).

Definition flb_stream_enable_async_mode (stream : flb_stream) : flb_stream :=
  flb_stream_enable_flags stream FLB_IO_ASYNC.
Definition flb_stream_disable_async_mode (stream : flb_stream) : flb_stream :=
  flb_stream_disable_flags stream FLB_IO_ASYNC.
Definition flb_stream_is_async (stream : flb_stream) : Z :=
  flb_stream_get_flag_status stream FLB_IO_ASYNC.
Definition flb_stream_enable_keepalive (stream : flb_stream) : flb_stream :=
  flb_stream_enable_flags stream FLB_IO_TCP_KA.
Definition flb_stream_disable_keepalive (stream : flb_stream) : flb_stream :=
  flb_stream_disable_flags stream FLB_IO_TCP_KA.
Definition flb_stream_is_keepalive (stream : flb_stream) : Z :=
  flb_stream_get_flag_status stream FLB_IO_TCP_KA.
Definition flb_stream_is_secure (stream : flb_stream) : Z :=
  flb_stream_get_flag_status stream FLB_IO_TLS.

Definition flb_stream_is_thread_safe (stream : flb_stream) : Z := fs_thread_safety_flag stream.

Definition set_thread_safety (flag : Z) (m : mutex) (stream : flb_stream) : flb_stream :=
  Stream (fs_dynamically_allocated stream) flag (fs_transport stream) (fs_flags stream)
    (fs_type stream) m (fs_tls_context stream) (fs_config stream) (fs_net stream).

(** [head] is the address of the [_head] of the stream. *)
Definition flb_stream_enable_thread_safety (stream : flb_stream) (head : ptr) (h : lheap)
  : option (flb_stream * lheap) :=
  let stream := set_thread_safety FLB_TRUE (pthread_mutex_init (fs_list_mutex stream)) stream in
  orphan ← mk_list_entry_orphan head h;
  if decide (orphan = 0) then
    h ← mk_list_del head h;
    Some (stream, h)
  else Some (stream, h).

(** The result of a mutex operation, as the stream functions return it. *)
Definition lock_result (stream : flb_stream) (r : call (Z * mutex)) : call (Z * flb_stream) :=
  match r with
  | Ran (result, m) =>
      Ran (if decide (result = 0) then FLB_TRUE else FLB_FALSE,
           set_thread_safety (fs_thread_safety_flag stream) m stream)
  | Blocked => Blocked
  | Undefined => Undefined
  end.

Definition flb_stream_acquire_lock (me : Z) (stream : flb_stream) (wait_flag : Z)
  : call (Z * flb_stream) :=
  lock_result stream
    (if decide (fs_thread_safety_flag stream ≠ 0) then
       if decide (wait_flag ≠ 0) then pthread_mutex_lock me (fs_list_mutex stream)
       else pthread_mutex_trylock me (fs_list_mutex stream)
     else Ran (0, fs_list_mutex stream)).

Definition flb_stream_release_lock (me : Z) (stream : flb_stream) : call (Z * flb_stream) :=
  lock_result stream
    (if decide (fs_thread_safety_flag stream ≠ 0) then pthread_mutex_unlock me (fs_list_mutex stream)
     else Ran (0, fs_list_mutex stream)).

(** * Flags *)

(** The modes of a stream, as a user sees them. *)
Record modes := Modes { md_async : bool; md_keepalive : bool; md_secure : bool }.

Inductive mode_op := Async_on | Async_off | Keepalive_on | Keepalive_off.

Definition mode_step (o : mode_op) (m : modes) : modes :=
  match o with
  | Async_on => Modes true (md_keepalive m) (md_secure m)
  | Async_off => Modes false (md_keepalive m) (md_secure m)
  | Keepalive_on => Modes (md_async m) true (md_secure m)
  | Keepalive_off => Modes (md_async m) false (md_secure m)
  end.

Definition stream_step (o : mode_op) : flb_stream → flb_stream :=
  match o with
  | Async_on => flb_stream_enable_async_mode
  | Async_off => flb_stream_disable_async_mode
  | Keepalive_on => flb_stream_enable_keepalive
  | Keepalive_off => flb_stream_disable_keepalive
  end.

(** The bits that no operation on the modes touches. *)
Definition other_flags (flags : Z) : Z := Z.land flags (Z.lnot (Z.lor FLB_IO_ASYNC FLB_IO_TCP_KA)).

Record stream_modes (s : flb_stream) (m : modes) : Prop := {
  sm_async : flb_stream_is_async s = c_bool (md_async m);
  sm_keepalive : flb_stream_is_keepalive s = c_bool (md_keepalive m);
  sm_secure : flb_stream_is_secure s = c_bool (md_secure m)
}.

(** A flag of one bit is that bit. *)
Lemma flag_status_bit s k :
  0 ≤ k → flb_stream_get_flag_status s (2 ^ k) = c_bool (Z.testbit (fs_flags s) k).
Proof.
  intros Hk. unfold flb_stream_get_flag_status, flb_stream_get_flags. f_equal.
  destruct (Z.testbit (fs_flags s) k) eqn:E.
  - apply bool_decide_eq_true_2. intros H. assert (Z.testbit (Z.land (fs_flags s) (2 ^ k)) k = false) as F
      by (rewrite H; apply Z.bits_0).
    by rewrite Z.land_spec, E, Z.pow2_bits_true in F by done.
  - apply bool_decide_eq_false_2. intros H. apply H. apply Z.bits_inj'. intros n Hn.
    rewrite Z.land_spec, Z.bits_0. destruct (decide (n = k)) as [->|]; [by rewrite E|].
    by rewrite Z.pow2_bits_false, andb_false_r by congruence.
Qed.

Lemma enable_bit s k n :
  0 ≤ k → 0 ≤ n →
  Z.testbit (fs_flags (flb_stream_enable_flags s (2 ^ k))) n =
  (Z.testbit (fs_flags s) n || bool_decide (n = k)).
Proof.
  intros. simpl. unfold flb_stream_get_flags. rewrite Z.lor_spec. f_equal.
  case_bool_decide; [subst; by apply Z.pow2_bits_true|by apply Z.pow2_bits_false; congruence].
Qed.

Lemma disable_bit s k n :
  0 ≤ k → 0 ≤ n →
  Z.testbit (fs_flags (flb_stream_disable_flags s (2 ^ k))) n =
  (Z.testbit (fs_flags s) n && bool_decide (n ≠ k)).
Proof.
  intros. simpl. unfold flb_stream_get_flags. rewrite Z.land_spec, Z.lnot_spec by done. f_equal.
  case_bool_decide as Hn; [by rewrite Z.pow2_bits_false by congruence|].
  subst. by rewrite Z.pow2_bits_true.
Qed.

(** The mode operations refine three independent switches: after any
    sequence of them the queries answer what the last switch of each mode was,
    the secure mode and every other flag being as at the start. *)
Theorem flb_stream_modes_refine ops s m :
  stream_modes s m →
  let s' := fold_left (λ s o, stream_step o s) ops s in
  stream_modes s' (fold_left (λ m o, mode_step o m) ops m) ∧
  other_flags (fs_flags s') = other_flags (fs_flags s) ∧
  fs_list_mutex s' = fs_list_mutex s ∧ fs_thread_safety_flag s' = fs_thread_safety_flag s.
Proof.
  assert (Hbit : ∀ s m, stream_modes s m ↔ m = Modes (Z.testbit (fs_flags s) 3)
    (Z.testbit (fs_flags s) 4) (Z.testbit (fs_flags s) 1)).
  { intros s0 [a k t]. assert (Hc : ∀ x y, c_bool x = c_bool y ↔ y = x) by (intros [] []; done).
    pose proof (flag_status_bit s0 3 ltac:(done) : flb_stream_is_async s0 = _) as F1.
    pose proof (flag_status_bit s0 4 ltac:(done) : flb_stream_is_keepalive s0 = _) as F2.
    pose proof (flag_status_bit s0 1 ltac:(done) : flb_stream_is_secure s0 = _) as F3.
    split; [intros [E1 E2 E3]|intros [= -> -> ->]; split; done]. simpl in E1, E2, E3.
    f_equal; apply Hc; congruence. }
  assert (Hstep : ∀ o s m, stream_modes s m → stream_modes (stream_step o s) (mode_step o m) ∧
    other_flags (fs_flags (stream_step o s)) = other_flags (fs_flags s) ∧
    fs_list_mutex (stream_step o s) = fs_list_mutex s ∧
    fs_thread_safety_flag (stream_step o s) = fs_thread_safety_flag s).
  { intros o s0 m0 ->%Hbit. split_and!; [| |by destruct o..].
    - apply Hbit. destruct o; simpl mode_step; f_equal;
        (etrans; [|symmetry; first [apply (enable_bit s0 3)|apply (disable_bit s0 3)
          |apply (enable_bit s0 4)|apply (disable_bit s0 4)]; done]);
        by rewrite ?bool_decide_eq_true_2, ?bool_decide_eq_false_2, ?orb_false_r, ?andb_true_r,
          ?orb_true_r, ?andb_false_r by done.
    - apply Z.bits_inj'. intros n Hn. unfold other_flags. rewrite !Z.land_spec.
      assert (Hmask : n = 3 ∨ n = 4 → Z.testbit (Z.lnot (Z.lor FLB_IO_ASYNC FLB_IO_TCP_KA)) n = false)
        by (intros [->| ->]; done).
      destruct (decide (n = 3 ∨ n = 4)) as [H|H]; [by rewrite Hmask, !andb_false_r by done|]. f_equal.
      destruct o; simpl stream_step;
        (etrans; [first [apply (enable_bit s0 3)|apply (disable_bit s0 3)
          |apply (enable_bit s0 4)|apply (disable_bit s0 4)]; done|]);
        by rewrite ?bool_decide_eq_true_2, ?bool_decide_eq_false_2, ?orb_false_r, ?andb_true_r by tauto. }
  simpl. revert s m. induction ops as [|o ops IH]; intros s m Hm; [done|]. simpl.
  destruct (Hstep o s m Hm) as (H1 & H2 & H3 & H4).
  destruct (IH _ _ H1) as (? & -> & -> & ->). done.
Qed.

(** * The lock *)

(** Threads that use one stream: those that have acquired it and not released
    it yet are inside.  A thread that waits makes no step. *)
Record shared := Shared { sh_stream : flb_stream; sh_inside : list Z }.

Inductive lock_step : shared → shared → Prop :=
| step_acquire t wait s s' l :
    t ∉ l → flb_stream_acquire_lock t s wait = Ran (FLB_TRUE, s') →
    lock_step (Shared s l) (Shared s' (t :: l))
| step_busy t wait s s' l :
    t ∉ l → flb_stream_acquire_lock t s wait = Ran (FLB_FALSE, s') →
    lock_step (Shared s l) (Shared s' l)
| step_release t ret s s' l :
    t ∈ l → flb_stream_release_lock t s = Ran (ret, s') →
    lock_step (Shared s l) (Shared s' (filter (λ u, u ≠ t) l))
| step_mode o s l : lock_step (Shared s l) (Shared (stream_step o s) l).

(** The mutex tells who is inside. *)
Definition exclusive (σ : shared) : Prop :=
  fs_thread_safety_flag (sh_stream σ) ≠ 0 ∧
  (mutex_state (fs_list_mutex (sh_stream σ)) = M_free ∧ sh_inside σ = [] ∨
   ∃ t, mutex_state (fs_list_mutex (sh_stream σ)) = M_held t ∧ sh_inside σ = [t]).

(** A call that left the stream as it was, but for its mutex. *)
Definition locked_as (s s' : flb_stream) (st : mutex_status) : Prop :=
  ∃ m, s' = set_thread_safety (fs_thread_safety_flag s) m s ∧ mutex_state m = st.

(** What the two operations do, by the state of the mutex. *)
Lemma acquire_free t s wait :
  fs_thread_safety_flag s ≠ 0 → mutex_state (fs_list_mutex s) = M_free →
  ∃ s', flb_stream_acquire_lock t s wait = Ran (FLB_TRUE, s') ∧ locked_as s s' (M_held t).
Proof.
  intros Hf Hm. unfold flb_stream_acquire_lock. rewrite decide_True by done.
  destruct (mutex_lock_free t _ Hm) as (m1 & E1 & H1), (mutex_trylock_free t _ Hm) as (m2 & E2 & H2).
  case_decide; [rewrite E1|rewrite E2]; eexists; (split; [done|]); by eexists.
Qed.

Lemma acquire_held t u s wait :
  fs_thread_safety_flag s ≠ 0 → mutex_state (fs_list_mutex s) = M_held u → u ≠ t →
  if decide (wait ≠ 0) then flb_stream_acquire_lock t s wait = Blocked
  else ∃ s', flb_stream_acquire_lock t s wait = Ran (FLB_FALSE, s') ∧ locked_as s s' (M_held u).
Proof.
  intros Hf Hm Hne. unfold flb_stream_acquire_lock. rewrite (decide_True (P := fs_thread_safety_flag s ≠ 0)) by done.
  case_decide; [by rewrite (mutex_lock_held t u _ Hm Hne)|].
  destruct (mutex_trylock_held t u _ Hm Hne) as (r & m' & E & Hr & Hm'). rewrite E. simpl.
  rewrite decide_False by done. eexists. split; [done|]. by eexists.
Qed.

Lemma release_held t s :
  fs_thread_safety_flag s ≠ 0 → mutex_state (fs_list_mutex s) = M_held t →
  ∃ s', flb_stream_release_lock t s = Ran (FLB_TRUE, s') ∧ locked_as s s' M_free.
Proof.
  intros Hf Hm. unfold flb_stream_release_lock. rewrite decide_True by done.
  destruct (mutex_unlock_held t _ Hm) as (m' & E & Hm'). rewrite E.
  eexists. split; [done|]. by eexists.
Qed.

Lemma lock_step_exclusive σ σ' : lock_step σ σ' → exclusive σ → exclusive σ'.
Proof.
  intros [t wait s s' l Ht E|t wait s s' l Ht E|t ret s s' l Ht E|o s l] [Hf Hcase]; simpl in *.
  - destruct Hcase as [[Hm ->]|(u & Hm & ->)].
    + destruct (acquire_free t s wait Hf Hm) as (s1 & E1 & m & -> & Hm'). rewrite E1 in E. injection E as <-.
      split; [done|]. right. by exists t.
    + pose proof (acquire_held t u s wait Hf Hm ltac:(set_solver)) as Ha. case_decide; [by rewrite Ha in E|].
      destruct Ha as (s1 & E1 & _). by rewrite E1 in E.
  - destruct Hcase as [[Hm ->]|(u & Hm & ->)].
    + destruct (acquire_free t s wait Hf Hm) as (s1 & E1 & _). by rewrite E1 in E.
    + pose proof (acquire_held t u s wait Hf Hm ltac:(set_solver)) as Ha. case_decide; [by rewrite Ha in E|].
      destruct Ha as (s1 & E1 & m & -> & Hm'). rewrite E1 in E. injection E as <-.
      split; [done|]. right. by exists u.
  - destruct Hcase as [[_ ->]|(u & Hm & ->)]; [set_solver|].
    apply list_elem_of_singleton in Ht as ->.
    destruct (release_held u s Hf Hm) as (s1 & E1 & m & -> & Hm'). rewrite E1 in E. injection E as <- <-.
    split; [done|]. left. split; [done|]. simpl. by rewrite filter_cons_False, filter_nil by tauto.
  - assert (fs_thread_safety_flag (stream_step o s) = fs_thread_safety_flag s ∧
      fs_list_mutex (stream_step o s) = fs_list_mutex s) as [E1 E2] by (by destruct o).
    split; simpl; by rewrite ?E1, ?E2.
Qed.

Lemma reachable_exclusive s σ :
  fs_thread_safety_flag s ≠ 0 → mutex_state (fs_list_mutex s) = M_free →
  rtc lock_step (Shared s []) σ → exclusive σ.
Proof.
  intros Hf Hm Hr. revert σ Hr. apply rtc_ind_r; [by split; [|left]|].
  intros σ1 σ2 _ Hs. by apply lock_step_exclusive.
Qed.

(** C28. Mutual exclusion: however threads acquire, try, release and switch
    modes, at most one is inside a thread-safe stream.  The one inside can
    always release; any other gets in exactly when nobody is inside, and
    otherwise waits or, when it asked not to wait, is told so and nothing
    changes. *)
Theorem flb_stream_mutual_exclusion s σ :
  fs_thread_safety_flag s ≠ 0 → mutex_state (fs_list_mutex s) = M_free → rtc lock_step (Shared s []) σ →
  (length (sh_inside σ) ≤ 1)%nat ∧
  (∀ t, t ∈ sh_inside σ → ∃ s', flb_stream_release_lock t (sh_stream σ) = Ran (FLB_TRUE, s')) ∧
  ∀ t wait, t ∉ sh_inside σ →
    (sh_inside σ = [] → ∃ s', flb_stream_acquire_lock t (sh_stream σ) wait = Ran (FLB_TRUE, s')) ∧
    (∀ u, u ∈ sh_inside σ → if decide (wait ≠ 0) then flb_stream_acquire_lock t (sh_stream σ) wait = Blocked
     else ∃ s', flb_stream_acquire_lock t (sh_stream σ) wait = Ran (FLB_FALSE, s') ∧
       locked_as (sh_stream σ) s' (M_held u)).
Proof.
  intros Hf Hm Hr. destruct (reachable_exclusive s σ Hf Hm Hr) as [Hf' Hcase].
  destruct Hcase as [[Hm' ->]|(u & Hm' & ->)]; simpl.
  - split; [lia|]. split; [set_solver|]. intros t wait _. split; [|set_solver]. intros _.
    destruct (acquire_free t _ wait Hf' Hm') as (s' & E & _). by exists s'.
  - split; [lia|]. split.
    + intros t ->%list_elem_of_singleton. destruct (release_held u _ Hf' Hm') as (s' & E & _). by exists s'.
    + intros t wait Ht. split; [done|]. intros v ->%list_elem_of_singleton.
      apply (acquire_held t u _ wait Hf' Hm'). set_solver.
Qed.

(** A node of a list is no orphan, and is one once it has left. *)
Lemma orphan_of_listed h h' head l1 x l2 :
  dll h head (l1 ++ x :: l2) → lh_next h' !! x = Some NULL →
  mk_list_entry_orphan x h = Some 0 ∧ mk_list_entry_orphan x h' = Some (-1).
Proof.
  intros Hd Hn. assert (Hx : x ≠ NULL) by (apply (dll_nonnull _ _ _ x Hd); set_solver). split.
  - destruct (dll_around _ _ _ _ _ Hd) as (p' & n' & Hp' & Hn' & _ & _ & Hpn & Hnn & _).
    unfold mk_list_entry_orphan. rewrite Hn'. simpl. rewrite decide_False by done.
    rewrite Hp'. simpl. by rewrite decide_False.
  - unfold mk_list_entry_orphan, ld_next. rewrite decide_False by done. by rewrite Hn.
Qed.

(** Making a stream thread-safe takes it out of the list of its worker,
    the other streams keeping their order, and gives it a free mutex: from
    then on one thread at a time uses it.  A stream that is in no list is only
    given the mutex. *)
Theorem flb_stream_enable_thread_safety_spec s x h :
  mutex_state (fs_list_mutex s) = M_none →
  (∀ head l1 l2, dll h head (l1 ++ x :: l2) →
   ∃ s' h', flb_stream_enable_thread_safety s x h = Some (s', h') ∧
     dll h' head (l1 ++ l2) ∧ mk_list_entry_orphan x h' = Some (-1) ∧
     fs_flags s' = fs_flags s ∧
     ∀ σ, rtc lock_step (Shared s' []) σ → (length (sh_inside σ) ≤ 1)%nat) ∧
  (mk_list_entry_orphan x h = Some (-1) →
   ∃ s', flb_stream_enable_thread_safety s x h = Some (s', h) ∧ fs_flags s' = fs_flags s ∧
     ∀ σ, rtc lock_step (Shared s' []) σ → (length (sh_inside σ) ≤ 1)%nat).
Proof.
  intros Hnone. set (s' := set_thread_safety FLB_TRUE (pthread_mutex_init (fs_list_mutex s)) s).
  assert (Hex : ∀ σ, rtc lock_step (Shared s' []) σ → (length (sh_inside σ) ≤ 1)%nat).
  { intros σ Hr. destruct (reachable_exclusive s' σ ltac:(done) (mutex_init_free _ Hnone) Hr)
      as [_ [[_ ->]|(? & _ & ->)]]; simpl; lia. }
  split.
  - intros head l1 l2 Hd. destruct (mk_list_del_dll _ _ _ _ _ Hd) as (h' & Hdel & Hd' & Hn & Hp & _).
    destruct (orphan_of_listed _ _ _ _ _ _ Hd Hn) as [Ho0 Ho].
    exists s', h'. unfold flb_stream_enable_thread_safety. rewrite Ho0. simpl. rewrite Hdel. by split_and!.
  - intros Ho. exists s'. unfold flb_stream_enable_thread_safety. by rewrite Ho.
Qed.
End stream.

(** ** The theorems at work: a secure stream in the list at 100, with another. *)

(** A mutex that knows its owner. *)
#[local] Instance owner_mutex : Pthread.
Proof.
  refine {| mutex := mutex_status; mutex_state := id; pthread_mutex_init := λ _, M_free;
    pthread_mutex_lock := λ me m, match m with
      | M_none => Undefined | M_free => Ran (0, M_held me) | M_held t => if decide (t = me) then Undefined else Blocked end;
    pthread_mutex_trylock := λ me m, match m with
      | M_none => Undefined | M_free => Ran (0, M_held me) | M_held t => Ran (16, m) end;
    pthread_mutex_unlock := λ me m, match m with
      | M_held t => if decide (t = me) then Ran (0, M_free) else Undefined | _ => Undefined end |}.
  - done.
  - intros me m. cbv [id]. intros ->. by eexists.
  - intros me m. cbv [id]. intros ->. by eexists.
  - intros me t m. cbv [id]. intros -> Hne. by rewrite decide_False.
  - intros me t m. cbv [id]. intros -> Hne. by eexists 16, _.
  - intros me m. cbv [id]. intros ->. rewrite decide_True by done. by eexists.
Defined.

Definition demo_stream : flb_stream :=
  Stream 0 FLB_TRUE FLB_TRANSPORT_TCP FLB_IO_TLS FLB_UPSTREAM (M_free : mutex) NULL NULL flb_net_setup_zero.

Lemma flb_stream_modes_refine_witness :
  stream_modes (fold_left (λ s o, stream_step o s) [Async_on; Keepalive_on; Async_off] demo_stream)
    (Modes false true true).
Proof.
  apply (flb_stream_modes_refine [Async_on; Keepalive_on; Async_off] demo_stream (Modes false false true)).
  split; reflexivity.
Defined.

(** Thread 1 is inside. *)
Definition demo_shared : shared := Shared (set_thread_safety FLB_TRUE (M_held 1 : mutex) demo_stream) [1].

Lemma demo_shared_reachable : rtc lock_step (Shared demo_stream []) demo_shared.
Proof. eapply rtc_l; [|reflexivity]. apply (step_acquire 1 1); [set_solver|reflexivity]. Qed.

Lemma flb_stream_mutual_exclusion_witness :
  (∃ s', flb_stream_acquire_lock 2 (sh_stream demo_shared) 0 = Ran (FLB_FALSE, s') ∧
     locked_as (sh_stream demo_shared) s' (M_held 1)) ∧
  ∃ s', flb_stream_release_lock 1 (sh_stream demo_shared) = Ran (FLB_TRUE, s').
Proof.
  destruct (flb_stream_mutual_exclusion demo_stream demo_shared ltac:(discriminate) ltac:(reflexivity)
    demo_shared_reachable) as (_ & Hrel & Hacq).
  split; [|apply Hrel; left].
  apply (Hacq 2 0); [|left]. intros H%list_elem_of_singleton. discriminate H.
Defined.

Definition demo_stream_list : lheap :=
  default lempty (h ← mk_list_init 100 lempty; h ← mk_list_add 200 100 h; mk_list_add 300 100 h).

(** A stream that only its worker uses. *)
Definition demo_worker_stream : flb_stream :=
  Stream 0 FLB_FALSE FLB_TRANSPORT_TCP FLB_IO_TLS FLB_UPSTREAM (M_none : mutex) NULL NULL flb_net_setup_zero.

Lemma flb_stream_enable_thread_safety_spec_witness :
  ∃ s' h', flb_stream_enable_thread_safety demo_worker_stream 200
      demo_stream_list = Some (s', h') ∧ dll h' 100 [300].
Proof.
  destruct (flb_stream_enable_thread_safety_spec demo_worker_stream
    200 demo_stream_list eq_refl) as [Hl _].
  destruct (Hl 100 [] [300]) as (s' & h' & E & Hd & _).
  - evaluate.
  - exists s', h'. split; [exact E|exact Hd].
Defined.
