(* ===== verification/Iov.v ===== *)
(** [mk_iov.h]: arrays of buffers for vectored output.  The arrays behind
    [io] and [buf_to_free] are lists whose length is what was allocated for
    them; writing outside them has no result.  The type of [iov_len] is
    declared outside the repository and a parameter; [unsigned long] has 32
    bits on 64-bit Windows. *)
From S2P Require Import Prelude Mem.

Definition MK_FALSE : Z := 0.
Definition MK_TRUE : Z := c_bool (bool_decide (MK_FALSE = 0)).

(** * [mk_memory.h] *)

(** [perror] only reports. *)
Definition mk_mem_alloc (size : Z) (m : mem) : ptr * mem := malloc size m.
Definition mk_mem_alloc_z (size : Z) (m : mem) : ptr * mem := calloc 1 size m.
Definition mk_mem_realloc (p : ptr) (size : Z) (m : mem) : option (ptr * mem) := realloc p size m.
Definition mk_mem_free (p : ptr) (m : mem) : option mem := free p m.

(** [mk_ptr_t] *)
Record mk_ptr_t := MkPtr { mp_data : ptr; mp_len : Z }.
Definition mk_ptr_reset (p : mk_ptr_t) : mk_ptr_t := MkPtr NULL 0.

(** * [mk_iov.h] *)

Record mk_iovec := MkIovec { iov_base : ptr; iov_len : Z }.

Record mk_iov := MkIov {
  iv_iov_idx : Z;
  iv_buf_idx : Z;
  iv_size : Z;
  iv_total_len : Z;
  iv_io : list mk_iovec;
  iv_buf_to_free : list ptr
}.

(** [a[i] = x]; outside the array it is undefined. *)
Definition array_set {A} (i : Z) (x : A) (a : list A) : option (list A) :=
  if decide (0 ≤ i < Z.of_nat (length a)) then Some (<[Z.to_nat i := x]> a) else None.

Section iov.
Context (to_iov_len : Z → Z).

(** The loop that clears the entries before the offset. *)
Fixpoint iov_init_loop (fuel : nat) (i offset : Z) (io : list mk_iovec) : option (list mk_iovec) :=
  match fuel with
  | O => None
  | S fuel =>
      if decide (i < offset) then
        io ← array_set i (MkIovec NULL (to_iov_len 0)) io;
        i ← int_add i 1;
        iov_init_loop fuel i offset io
      else Some io
  end.

Definition mk_iov_init (iov : mk_iov) (n offset : Z) : option (Z * mk_iov) :=
  io ← (if decide (offset > 0) then iov_init_loop (S (Z.to_nat offset)) 0 offset (iv_io iov)
        else Some (iv_io iov));
  Some (0, MkIov offset 0 n 0 io (iv_buf_to_free iov)).

Definition _mk_iov_set_free (mk_io : mk_iov) (buf : ptr) : option mk_iov :=
  frees ← array_set (iv_buf_idx mk_io) buf (iv_buf_to_free mk_io);
  buf_idx ← int_add (iv_buf_idx mk_io) 1;
  Some (MkIov (iv_iov_idx mk_io) buf_idx (iv_size mk_io) (iv_total_len mk_io) (iv_io mk_io) frees).

Definition mk_iov_add (mk_io : mk_iov) (buf : ptr) (len free : Z) : option (Z * mk_iov) :=
  io ← array_set (iv_iov_idx mk_io) (MkIovec buf (to_iov_len len)) (iv_io mk_io);
  iov_idx ← int_add (iv_iov_idx mk_io) 1;
  let total_len := u32 (iv_total_len mk_io + len) in
  let mk_io := MkIov iov_idx (iv_buf_idx mk_io) (iv_size mk_io) total_len io (iv_buf_to_free mk_io) in
  mk_io ← (if decide (free = MK_TRUE) then _mk_iov_set_free mk_io buf else Some mk_io);
  if decide (iv_iov_idx mk_io > iv_size mk_io) then Some (-1, mk_io)
  else Some (iv_iov_idx mk_io, mk_io).

(** * What an array holds *)

(** A buffer as it was added: address, length, whether it is to be freed. *)
Notation added := (ptr * Z * Z)%type.

Definition entry_of (x : added) : mk_iovec := MkIovec x.1.1 (to_iov_len x.1.2).
Definition frees_of (l : list added) : list ptr :=
  (λ x : added, x.1.1) <$> filter (λ x : added, x.2 = MK_TRUE) l.
Definition total_of (l : list added) : Z := foldr (λ (x : added) n, x.1.2 + n) 0 l.

(** The entries in use are those before the offset, cleared, then [l]. *)
Record holds (v : mk_iov) (n offset : Z) (cap : nat) (l : list added) : Prop := {
  ho_idx : iv_iov_idx v = offset + Z.of_nat (length l);
  ho_buf_idx : iv_buf_idx v = Z.of_nat (length (frees_of l));
  ho_size : iv_size v = n;
  ho_total : iv_total_len v = u32 (total_of l);
  ho_cap : length (iv_io v) = cap;
  ho_io : take (Z.to_nat (iv_iov_idx v)) (iv_io v) =
    replicate (Z.to_nat offset) (MkIovec NULL (to_iov_len 0)) ++ (entry_of <$> l);
  ho_frees : take (length (frees_of l)) (iv_buf_to_free v) = frees_of l
}.

Lemma array_set_next {A} (a l : list A) i x :
  i = Z.of_nat (length l) → take (length l) a = l → (length l < length a)%nat →
  ∃ a', array_set i x a = Some a' ∧ length a' = length a ∧ take (S (length l)) a' = l ++ [x].
Proof.
  intros -> Ht Hl. unfold array_set. rewrite decide_True by lia. eexists. split; [done|].
  rewrite Nat2Z.id, length_insert. split; [done|].
  rewrite (take_S_r _ _ x) by (rewrite list_lookup_insert_eq; [done|lia]). f_equal.
  by rewrite take_insert_ge.
Qed.

Lemma total_of_app l x : total_of (l ++ [x]) = total_of l + x.1.2.
Proof. induction l as [|y l IH]; simpl; [lia|]. rewrite IH. lia. Qed.

Lemma frees_of_concat l1 l2 : frees_of (l1 ++ l2) = frees_of l1 ++ frees_of l2.
Proof. unfold frees_of. by rewrite filter_app, fmap_app. Qed.

Lemma frees_of_app l x :
  frees_of (l ++ [x]) = frees_of l ++ if decide (x.2 = MK_TRUE) then [x.1.1] else [].
Proof. rewrite frees_of_concat. f_equal. unfold frees_of. rewrite filter_cons, filter_nil. by case_decide. Qed.

(** The buffers added one after the other, with what each call returned. *)
Fixpoint add_all (xs : list added) (v : mk_iov) : option (list Z * mk_iov) :=
  match xs with
  | [] => Some ([], v)
  | x :: xs =>
      '(ret, v) ← mk_iov_add v x.1.1 x.1.2 x.2;
      '(rets, v) ← add_all xs v;
      Some (ret :: rets, v)
  end.

Lemma init_loop_ok fuel i offset io :
  0 ≤ i ≤ offset → offset ≤ Z.of_nat (length io) → offset < 2 ^ 31 → (Z.to_nat (offset - i) < fuel)%nat →
  take (Z.to_nat i) io = replicate (Z.to_nat i) (MkIovec NULL (to_iov_len 0)) →
  ∃ io', iov_init_loop fuel i offset io = Some io' ∧ length io' = length io ∧
    take (Z.to_nat offset) io' = replicate (Z.to_nat offset) (MkIovec NULL (to_iov_len 0)) ∧
    drop (Z.to_nat offset) io' = drop (Z.to_nat offset) io.
Proof.
  revert i io. induction fuel as [|fuel IH]; intros i io Hi Hl Ho Hf Ht; [lia|]. simpl.
  case_decide as Hlt.
  2:{ assert (i = offset) as -> by lia. by exists io. }
  destruct (array_set_next io (replicate (Z.to_nat i) (MkIovec NULL (to_iov_len 0))) i
    (MkIovec NULL (to_iov_len 0))) as (io1 & E & Hl1 & Ht1); rewrite ?length_replicate; [lia|done|lia|].
  rewrite E. simpl. rewrite int_add_Some by lia. simpl.
  destruct (IH (i + 1) io1) as (io2 & E2 & Hl2 & Ht2 & Hd2); [lia..| |].
  { replace (Z.to_nat (i + 1)) with (S (Z.to_nat i)) by lia. rewrite length_replicate in Ht1.
    by rewrite Ht1, <- replicate_S_end. }
  exists io2. split; [done|]. split; [lia|]. split; [done|]. rewrite Hd2.
  unfold array_set in E. case_decide; [|done]. injection E as <-. rewrite drop_insert_lt by lia. done.
Qed.

(** [mk_iov_init] clears the entries before the offset and leaves the
    others of the array alone; the structure then holds nothing. *)
Theorem mk_iov_init_spec v n offset :
  0 ≤ offset ≤ Z.of_nat (length (iv_io v)) → offset < 2 ^ 31 →
  ∃ v', mk_iov_init v n offset = Some (0, v') ∧ holds v' n offset (length (iv_io v)) [] ∧
    drop (Z.to_nat offset) (iv_io v') = drop (Z.to_nat offset) (iv_io v) ∧
    iv_buf_to_free v' = iv_buf_to_free v.
Proof.
  intros Hb Ho. unfold mk_iov_init. case_decide as Hz.
  - destruct (init_loop_ok (S (Z.to_nat offset)) 0 offset (iv_io v)) as (io & E & Hl & Ht & Hd);
      [lia..|done|]. rewrite E. eexists. split; [reflexivity|]. split; [|done].
    split; simpl; try done; [lia|]. by rewrite Ht, app_nil_r.
  - assert (offset = 0) as -> by lia. eexists. split; [reflexivity|]. split; [|done]. split; done.
Qed.

Lemma add_ok v n offset cap l buf len free :
  holds v n offset cap l → 0 ≤ offset → offset + Z.of_nat (length l) < Z.of_nat cap < 2 ^ 31 →
  (free = MK_TRUE → Z.of_nat (length (frees_of l)) < Z.of_nat (length (iv_buf_to_free v)) < 2 ^ 31) →
  ∃ v', mk_iov_add v buf len free =
      Some (let i := offset + Z.of_nat (length l) + 1 in if decide (n < i) then -1 else i, v') ∧
    holds v' n offset cap (l ++ [(buf, len, free)]) ∧
    length (iv_buf_to_free v') = length (iv_buf_to_free v).
Proof.
  intros [Hi Hbi Hs Htot Hc Hio Hfr] Ho Hidx Hfree. unfold mk_iov_add.
  set (pre := replicate _ _ ++ _) in Hio.
  assert (Hpre : length pre = Z.to_nat (iv_iov_idx v)).
  { subst pre. rewrite length_app, length_replicate, length_fmap. lia. }
  destruct (array_set_next (iv_io v) pre (iv_iov_idx v) (MkIovec buf (to_iov_len len)))
    as (io & E & Hl & Ht); [lia|by rewrite Hpre|lia|].
  rewrite E. simpl. rewrite int_add_Some by lia. simpl.
  assert (Hio' : take (Z.to_nat (iv_iov_idx v + 1)) io = replicate (Z.to_nat offset)
    (MkIovec NULL (to_iov_len 0)) ++ (entry_of <$> (l ++ [(buf, len, free)]))).
  { replace (Z.to_nat (iv_iov_idx v + 1)) with (S (length pre)) by lia.
    rewrite Ht, fmap_app. subst pre. by rewrite <- app_assoc. }
  assert (Htot' : u32 (iv_total_len v + len) = u32 (total_of (l ++ [(buf, len, free)]))).
  { rewrite total_of_app, Htot. unfold wrap. simpl. by rewrite Zplus_mod_idemp_l. }
  assert (Hlen : iv_iov_idx v + 1 = offset + Z.of_nat (length (l ++ [(buf, len, free)])))
    by (rewrite length_app; simpl; lia).
  assert (Hret : ∀ V : mk_iov, iv_iov_idx V = iv_iov_idx v + 1 → iv_size V = n →
    (if decide (iv_iov_idx V > iv_size V) then Some (-1, V) else Some (iv_iov_idx V, V)) =
    Some (if decide (n < offset + Z.of_nat (length l) + 1) then -1 else offset + Z.of_nat (length l) + 1, V)).
  { intros V -> ->. rewrite Hi. repeat case_decide; first [done|lia]. }
  destruct (decide (free = MK_TRUE)) as [Hfr1|Hfr1].
  - destruct (array_set_next (iv_buf_to_free v) (frees_of l) (iv_buf_idx v) buf)
      as (fr & Ef & Hlf & Htf); [done|done|specialize (Hfree Hfr1); lia|].
    unfold _mk_iov_set_free. cbn [iv_buf_idx iv_buf_to_free iv_io iv_iov_idx iv_size iv_total_len].
    rewrite Ef. cbn [mbind option_bind]. rewrite int_add_Some by lia. cbn [mbind option_bind].
    rewrite Hret by done. eexists. split; [reflexivity|]. split; [|done].
    split; simpl; try done; try lia; rewrite frees_of_app, decide_True by done;
      rewrite ?length_app; simpl; [lia|].
    by rewrite Nat.add_1_r.
  - cbn [mbind option_bind]. rewrite Hret by done. eexists. split; [reflexivity|]. split; [|done].
    split; simpl; try done; try lia; rewrite frees_of_app, decide_False, app_nil_r by done; done.
Qed.

(** Adding buffers to a structure made for [n] of them: as long as there
    is room, each call returns its position, and the structure holds exactly
    the buffers in order, their total length (as an [unsigned long]) and those
    to be freed.  The test for room comes after the write: the buffer that
    exceeds [n] is written outside an array of [n] entries; in a longer array
    it is kept although -1 is returned. *)
Theorem mk_iov_fill v n offset cap xs y :
  holds v n offset cap [] → 0 ≤ offset → offset + Z.of_nat (length xs) = n →
  n ≤ Z.of_nat cap < 2 ^ 31 →
  Z.of_nat (length (frees_of (xs ++ [y]))) ≤ Z.of_nat (length (iv_buf_to_free v)) < 2 ^ 31 →
  ∃ v', add_all xs v = Some (seqZ (offset + 1) (Z.of_nat (length xs)), v') ∧ holds v' n offset cap xs ∧
    if decide (n = Z.of_nat cap) then mk_iov_add v' y.1.1 y.1.2 y.2 = None
    else ∃ v'', mk_iov_add v' y.1.1 y.1.2 y.2 = Some (-1, v'') ∧ holds v'' n offset cap (xs ++ [y]).
Proof.
  intros Hv Ho Hn Hcap Hfr.
  assert (Hall : ∀ ys l V, holds V n offset cap l → length (iv_buf_to_free V) = length (iv_buf_to_free v) →
    xs = l ++ ys → ∃ V', add_all ys V = Some (seqZ (offset + Z.of_nat (length l) + 1) (Z.of_nat (length ys)), V') ∧
      holds V' n offset cap xs ∧ length (iv_buf_to_free V') = length (iv_buf_to_free v)).
  { induction ys as [|[[b ln] fr] ys IH]; intros l V HV Hl Exs.
    - rewrite app_nil_r in Exs. subst. by exists V.
    - rewrite Exs in Hn, Hfr. rewrite length_app in Hn. simpl in Hn.
      destruct (add_ok V n offset cap l b ln fr HV Ho) as (V1 & E1 & H1 & L1); [lia| |].
      { intros ->. rewrite Hl. split; [|lia].
        assert (Hone : frees_of [(b, ln, MK_TRUE)] = [b]) by done.
        change ((b, ln, MK_TRUE) :: ys) with ([(b, ln, MK_TRUE)] ++ ys) in Hfr.
        rewrite !frees_of_concat, Hone, !length_app in Hfr. simpl in Hfr. lia. }
      destruct (IH (l ++ [(b, ln, fr)]) V1 H1) as (V2 & E2 & H2 & L2); [lia|by rewrite <- app_assoc|].
      exists V2. simpl. rewrite E1. simpl. rewrite decide_False by lia. rewrite E2. simpl.
      split; [|done]. rewrite length_app. simpl.
      rewrite (seqZ_cons (offset + Z.of_nat (length l) + 1)) by lia.
      repeat f_equal; lia. }
  destruct (Hall xs [] v Hv eq_refl eq_refl) as (v' & E & H' & L'). simpl in E. rewrite Z.add_0_r in E.
  exists v'. split; [done|]. split; [done|]. pose proof H' as [Hi _ _ _ Hc _ _]. case_decide as Hfull.
  - unfold mk_iov_add, array_set. rewrite decide_False; [done|]. lia.
  - destruct y as [[b ln] fr].
    destruct (add_ok v' n offset cap xs b ln fr H' Ho) as (v2 & E2 & H2 & _); [lia| |].
    { intros ->. rewrite L'. rewrite frees_of_app, decide_True, length_app in Hfr by done. simpl in Hfr. lia. }
    exists v2. simpl. rewrite E2, decide_True by lia. done.
Qed.
End iov.

(** ** The theorems at work: an array of three entries, offset one. *)

Definition demo_iov : mk_iov :=
  MkIov 7 7 7 7 (replicate 3 (MkIovec 5 5)) (replicate 2 5).

Lemma mk_iov_init_spec_witness :
  ∃ v', mk_iov_init size_t demo_iov 3 1 = Some (0, v') ∧ holds size_t v' 3 1 3 [] ∧
    drop 1 (iv_io v') = replicate 2 (MkIovec 5 5).
Proof.
  destruct (mk_iov_init_spec size_t demo_iov 3 1 ltac:(simpl; lia) ltac:(lia)) as (v' & E & H & Hd & _).
  exists v'. split; [exact E|]. split; [exact H|exact Hd].
Defined.

Definition demo_iov_ready : mk_iov := from_option snd demo_iov (mk_iov_init size_t demo_iov 3 1).

Lemma mk_iov_fill_witness :
  ∃ v', add_all size_t [(100, 10, 0); (200, 20, MK_TRUE)] demo_iov_ready = Some ([2; 3], v') ∧
    holds size_t v' 3 1 3 [(100, 10, 0); (200, 20, MK_TRUE)] ∧
    mk_iov_add size_t v' 300 30 0 = None.
Proof.
  apply (mk_iov_fill size_t demo_iov_ready 3 1 3 [(100, 10, 0); (200, 20, MK_TRUE)] (300, 30, 0)).
  - split; vm_compute; reflexivity.
  - lia.
  - reflexivity.
  - lia.
  - vm_compute. split; [discriminate|reflexivity].
Defined.
