(* ===== verification/Log.v ===== *)
(** [flb_log.h]: levels, checks, suppression and the message macros; and the
    choice of an output by type of [flb_router.h]. *)
From stdpp Require Import strings.
From S2P Require Import Prelude Structs.

(** * [flb_log.h] *)

Definition FLB_LOG_OFF : Z := 0.
Definition FLB_LOG_ERROR : Z := 1.
Definition FLB_LOG_WARN : Z := 2.
Definition FLB_LOG_INFO : Z := 3.
Definition FLB_LOG_DEBUG : Z := 4.
Definition FLB_LOG_TRACE : Z := 5.
Definition FLB_LOG_HELP : Z := 6.
Definition FLB_LOG_IDEBUG : Z := 10.

Definition flb_log_check_level (level_set msg_level : Z) : Z :=
  if decide (msg_level ≤ level_set) then FLB_TRUE else FLB_FALSE.

(** [vsnprintf(buf, n, fmt, args)] of the C library: the formatted text, cut
    to [n - 1] characters and terminated, and the length of the whole text;
    -1 when it cannot be formatted. *)
Definition vsnprintf (n : Z) (text : option (list Z)) : Z * list Z :=
  match text with
  | Some t => (Z.of_nat (length t), take (Z.to_nat (n - 1)) t ++ [0])
  | None => (-1, [])
  end.

Section log.
(** The worker of this thread and its log level, in the library; the state of
    the output and of the caches. *)
Context {W S : Type}.
Context (flb_worker_log_level : W → Z).
Context (flb_log_print : Z → list Z → S → S).
Context (flb_log_is_truncated : Z → list Z → S → Z * S).
(** the cache looks for a message: a buffer and the size of the message *)
Context (flb_log_cache_check_suppress : W → list Z → Z → S → Z * S).

Definition flb_log_check (w : option W) (l : Z) : Z :=
  if decide (w = None ∧ l ≤ 3) then FLB_TRUE
  else match w with
       | None => FLB_FALSE
       | Some w => if decide (flb_worker_log_level w < l) then FLB_FALSE else FLB_TRUE
       end.

(** The buffer has 4096 bytes; [size] is a [size_t]. *)
Definition flb_log_suppress_check (log_suppress_interval : Z) (text : option (list Z)) (w : option W)
    (s : S) : Z * S :=
  if decide (log_suppress_interval ≤ 0) then (FLB_FALSE, s)
  else
    let '(ret, buf) := vsnprintf (4096 - 1) text in
    let size := size_t ret in
    if decide (size = size_t (-1)) then (FLB_FALSE, s)
    else match w with
         | None => (FLB_FALSE, s)
         | Some w => flb_log_cache_check_suppress w buf size s
         end.

(** The macros. *)
Definition log_if (l : Z) (w : option W) (text : list Z) (s : S) : S :=
  if decide (flb_log_check w l ≠ 0) then flb_log_print l text s else s.

Definition flb_helper (text : list Z) (s : S) : S := flb_log_print FLB_LOG_HELP text s.
Definition flb_error := log_if FLB_LOG_ERROR.
Definition flb_warn := log_if FLB_LOG_WARN.
Definition flb_info := log_if FLB_LOG_INFO.
Definition flb_debug := log_if FLB_LOG_DEBUG.
Definition flb_idebug (text : list Z) (s : S) : S := flb_log_print FLB_LOG_IDEBUG text s.
(** [FLB_HAVE_TRACE] is not defined. *)
Definition flb_trace (w : option W) (text : list Z) (s : S) : S := s.

Definition truncated_if (l : Z) (w : option W) (text : list Z) (s : S) : Z * S :=
  if decide (flb_log_check w l ≠ 0) then flb_log_is_truncated l text s else (0, s).

Definition flb_error_is_truncated := truncated_if FLB_LOG_ERROR.
Definition flb_warn_is_truncated := truncated_if FLB_LOG_WARN.
Definition flb_info_is_truncated := truncated_if FLB_LOG_INFO.
Definition flb_debug_is_truncated := truncated_if FLB_LOG_DEBUG.
Definition flb_idebug_is_truncated (text : list Z) (s : S) : Z * S :=
  flb_log_is_truncated FLB_LOG_IDEBUG text s.

(** The level in force: that of the worker, [FLB_LOG_INFO] outside workers. *)
Definition level_in_force (w : option W) : Z :=
  match w with Some w => flb_worker_log_level w | None => FLB_LOG_INFO end.

(** One level decides about every message: a message is printed, or
    found to be truncated, if and only if its level is not above the level in
    force, whatever the macro; help and internal messages always are. *)
Theorem flb_log_level_decides w text s :
  (∀ l, flb_log_check w l = flb_log_check_level (level_in_force w) l) ∧
  Forall (λ p : Z * (option W → list Z → S → S),
      p.2 w text s = if decide (p.1 ≤ level_in_force w) then flb_log_print p.1 text s else s)
    [(FLB_LOG_ERROR, flb_error); (FLB_LOG_WARN, flb_warn); (FLB_LOG_INFO, flb_info); (FLB_LOG_DEBUG, flb_debug)] ∧
  Forall (λ p : Z * (option W → list Z → S → Z * S),
      p.2 w text s = if decide (p.1 ≤ level_in_force w) then flb_log_is_truncated p.1 text s else (0, s))
    [(FLB_LOG_ERROR, flb_error_is_truncated); (FLB_LOG_WARN, flb_warn_is_truncated);
     (FLB_LOG_INFO, flb_info_is_truncated); (FLB_LOG_DEBUG, flb_debug_is_truncated)].
Proof.
  assert (Hc : ∀ l, flb_log_check w l = flb_log_check_level (level_in_force w) l).
  { intros l. unfold flb_log_check, flb_log_check_level, level_in_force, FLB_LOG_INFO.
    destruct w; [rewrite decide_False by (intros [? _]; done)|]; repeat case_decide; naive_solver lia. }
  split; [exact Hc|].
  assert (Hd : ∀ l, flb_log_check w l ≠ 0 ↔ l ≤ level_in_force w).
  { intros l. rewrite Hc. unfold flb_log_check_level, FLB_TRUE, FLB_FALSE. case_decide; naive_solver lia. }
  split; repeat constructor; simpl;
    unfold flb_error, flb_warn, flb_info, flb_debug, log_if, flb_error_is_truncated, flb_warn_is_truncated,
      flb_info_is_truncated, flb_debug_is_truncated, truncated_if; by apply decide_ext.
Qed.

(** What the cache is asked. *)
Lemma suppress_check_run interval text w s :
  match text with Some t => Z.of_nat (length t) < 2 ^ 31 | None => True end →
  flb_log_suppress_check interval text w s =
  match text, w with
  | Some t, Some w =>
      if decide (0 < interval) then
        flb_log_cache_check_suppress w (take 4094 t ++ [0]) (Z.of_nat (length t)) s
      else (FLB_FALSE, s)
  | _, _ => (FLB_FALSE, s)
  end.
Proof.
  intros Hlen. unfold flb_log_suppress_check, vsnprintf. destruct text as [t|]; cbv beta iota zeta.
  - assert (Hw : size_t (Z.of_nat (length t)) = Z.of_nat (length t)) by (unfold wrap; apply Z.mod_small; lia).
    rewrite Hw. case_decide; [destruct w; [by rewrite decide_False by lia|done]|].
    rewrite (decide_False (P := Z.of_nat (length t) = _)).
    2:{ unfold wrap. intros E. change ((-1) mod 2 ^ 64) with (2 ^ 64 - 1) in E. lia. }
    destruct w; [|done]. by rewrite decide_True by lia.
  - case_decide; [done|]. by rewrite decide_True.
Qed.

(** When suppression is on and the thread has a worker, the cache is
    asked about the text cut to 4094 characters, with the length of the text
    before the cut: from 4095 characters on the size is larger than what the
    buffer holds.  In every other case nothing is suppressed. *)
Theorem flb_log_suppress_check_spec interval text w s :
  match text with Some t => Z.of_nat (length t) < 2 ^ 31 | None => True end →
  flb_log_suppress_check interval text w s =
  match text, w with
  | Some t, Some w =>
      if decide (0 < interval) then
        flb_log_cache_check_suppress w (take 4094 t ++ [0]) (Z.of_nat (length t)) s
      else (FLB_FALSE, s)
  | _, _ => (FLB_FALSE, s)
  end ∧
  match text with
  | Some t => Z.of_nat (length t) ≤ Z.of_nat (length (take 4094 t)) ↔ Z.of_nat (length t) < 4095
  | None => True
  end.
Proof.
  intros Hlen. split; [by apply suppress_check_run|]. destruct text; [|done]. rewrite length_take. lia.
Qed.
End log.

(** * [flb_router.h] *)

Definition FLB_INPUT_LOGS : Z := 0.
Definition FLB_INPUT_METRICS : Z := 1.
Definition FLB_INPUT_TRACES : Z := 2.
Definition FLB_OUTPUT_LOGS : Z := 1.
Definition FLB_OUTPUT_METRICS : Z := 2.
Definition FLB_OUTPUT_TRACES : Z := 4.

Definition flb_router_match_type (in_event_type : Z) (o_ins : flb_output_instance) : Z :=
  if decide (in_event_type = FLB_INPUT_LOGS ∧ Z.land (oi_event_type o_ins) FLB_OUTPUT_LOGS = 0) then FLB_FALSE
  else if decide (in_event_type = FLB_INPUT_METRICS ∧ Z.land (oi_event_type o_ins) FLB_OUTPUT_METRICS = 0) then FLB_FALSE
  else if decide (in_event_type = FLB_INPUT_TRACES ∧ Z.land (oi_event_type o_ins) FLB_OUTPUT_TRACES = 0) then FLB_FALSE
  else FLB_TRUE.

(** Records of a type go to an output exactly when the output declares
    the bit of this type; the bits of the other types do not matter. *)
Theorem flb_router_match_type_bit t o :
  0 ≤ t < 3 → flb_router_match_type t o = c_bool (Z.testbit (oi_event_type o) t).
Proof.
  intros Ht. assert (Hbit : ∀ k, 0 ≤ k → (Z.land (oi_event_type o) (2 ^ k) = 0 ↔ Z.testbit (oi_event_type o) k = false)).
  { intros k Hk. split; intros H.
    - assert (Z.testbit (Z.land (oi_event_type o) (2 ^ k)) k = false) as E by (rewrite H; apply Z.bits_0).
      by rewrite Z.land_spec, Z.pow2_bits_true, andb_true_r in E by done.
    - apply Z.bits_inj'. intros n Hn. rewrite Z.land_spec, Z.bits_0.
      destruct (decide (n = k)) as [->|]; [by rewrite H|].
      by rewrite Z.pow2_bits_false, andb_false_r by congruence. }
  unfold flb_router_match_type, FLB_INPUT_LOGS, FLB_INPUT_METRICS, FLB_INPUT_TRACES.
  change FLB_OUTPUT_LOGS with (2 ^ 0). change FLB_OUTPUT_METRICS with (2 ^ 1). change FLB_OUTPUT_TRACES with (2 ^ 2).
  pose proof (Hbit 0 ltac:(done)). pose proof (Hbit 1 ltac:(done)). pose proof (Hbit 2 ltac:(done)). clear Hbit.
  assert (t = 0 ∨ t = 1 ∨ t = 2) as [->|[->| ->]] by lia;
    match goal with |- context [Z.testbit ?a ?b] => destruct (Z.testbit a b) end;
    repeat case_decide; naive_solver.
Qed.

Lemma flb_log_suppress_check_spec_witness :
  flb_log_suppress_check (W := Z) (S := unit) (λ w buf size s, (size, s)) 5 (Some (replicate 5000 65)) (Some 0) tt =
    (5000, tt) ∧ ¬ Z.of_nat (length (replicate 5000 65)) ≤ Z.of_nat (length (take 4094 (replicate 5000 65))).
Proof.
  destruct (flb_log_suppress_check_spec (W := Z) (S := unit) (λ w buf size s, (size, s)) 5 (Some (replicate 5000 65)) (Some 0) tt)
    as [E H].
  - rewrite length_replicate. lia.
  - split; [rewrite E; reflexivity|]. rewrite H, length_replicate. lia.
Defined.

Lemma flb_router_match_type_bit_witness :
  flb_router_match_type FLB_INPUT_METRICS flb_output_instance_zero = 0.
Proof. exact (flb_router_match_type_bit FLB_INPUT_METRICS flb_output_instance_zero ltac:(unfold FLB_INPUT_METRICS; lia)). Defined.
