(* ===== verification/PluginLog.v ===== *)
(** The message macros of the plugins ([flb_custom_plugin.h],
    [flb_filter_plugin.h], [flb_input_plugin.h], [flb_output_plugin.h],
    [flb_processor_plugin.h]).  The five headers give the same names to their
    macros; here each name carries the kind of plugin. *)
From stdpp Require Import strings.
From S2P Require Import Prelude Log.

(** What the macros read of an instance and of the call: the levels, the name
    of the plugin, the name the library gives to the instance, and the file
    and line of a trace. *)
Record plg_ctx := PlgCtx {
  pc_log_level : Z;
  pc_log_suppress_interval : Z;
  pc_p_name : list Z;
  pc_name : list Z;
  pc_place : list Z
}.

(** The characters of a literal. *)
Definition chars (s : string) : list Z :=
  (λ c, Z.of_N (Ascii.N_of_ascii c)) <$> String.list_ascii_of_string s.

Definition plg_prefix (kind : string) (ctx : plg_ctx) : list Z :=
  chars "[" ++ chars kind ++ chars ":" ++ pc_p_name ctx ++ chars ":" ++ pc_name ctx ++ chars "] ".

(** The prefix of a trace also tells where it comes from. *)
Definition plg_prefix_at (kind : string) (ctx : plg_ctx) : list Z :=
  chars "[" ++ chars kind ++ chars ":" ++ pc_p_name ctx ++ chars ":" ++ pc_name ctx ++
  chars " at " ++ pc_place ctx ++ chars "] ".

Section plugin_log.
Context {W S : Type}.
Context (flb_log_print : Z → list Z → S → S).
Context (flb_log_cache_check_suppress : W → list Z → Z → S → Z * S).

(** A message of an instance without suppression. *)
Definition plg_print (l : Z) (prefix : list Z) (ctx : plg_ctx) (text : list Z) (s : S) : S :=
  if decide (flb_log_check_level (pc_log_level ctx) l ≠ 0) then flb_log_print l (prefix ++ text) s else s.

(** A message that is first shown to the cache of the worker. *)
Definition plg_check (suppress : option (list Z) → S → Z * S) (l : Z) (prefix : list Z) (ctx : plg_ctx)
    (text : list Z) (s : S) : S :=
  if decide (flb_log_check_level (pc_log_level ctx) l ≠ 0) then
    let '(ret, s) := suppress (Some text) s in
    if decide (ret = FLB_FALSE) then flb_log_print l (prefix ++ text) s else s
  else s.

Definition flb_plg_error_custom (ctx : plg_ctx) : list Z → S → S :=
  plg_print FLB_LOG_ERROR (plg_prefix "custom" ctx) ctx.
Definition flb_plg_warn_custom (ctx : plg_ctx) : list Z → S → S :=
  plg_print FLB_LOG_WARN (plg_prefix "custom" ctx) ctx.
Definition flb_plg_info_custom (ctx : plg_ctx) : list Z → S → S :=
  plg_print FLB_LOG_INFO (plg_prefix "custom" ctx) ctx.
Definition flb_plg_debug_custom (ctx : plg_ctx) : list Z → S → S :=
  plg_print FLB_LOG_DEBUG (plg_prefix "custom" ctx) ctx.
Definition flb_plg_trace_custom (ctx : plg_ctx) : list Z → S → S :=
  plg_print FLB_LOG_TRACE (plg_prefix_at "custom" ctx) ctx.

Definition flb_filter_plugin_log_suppress_check (w : option W) (ins : plg_ctx) (text : option (list Z)) (s : S) : Z * S :=
  flb_log_suppress_check flb_log_cache_check_suppress (pc_log_suppress_interval ins) text w s.
Definition flb_plg_error_filter (w : option W) (ctx : plg_ctx) : list Z → S → S :=
  plg_check (flb_filter_plugin_log_suppress_check w ctx) FLB_LOG_ERROR (plg_prefix "filter" ctx) ctx.
Definition flb_plg_warn_filter (w : option W) (ctx : plg_ctx) : list Z → S → S :=
  plg_check (flb_filter_plugin_log_suppress_check w ctx) FLB_LOG_WARN (plg_prefix "filter" ctx) ctx.
Definition flb_plg_info_filter (w : option W) (ctx : plg_ctx) : list Z → S → S :=
  plg_check (flb_filter_plugin_log_suppress_check w ctx) FLB_LOG_INFO (plg_prefix "filter" ctx) ctx.
Definition flb_plg_debug_filter (w : option W) (ctx : plg_ctx) : list Z → S → S :=
  plg_check (flb_filter_plugin_log_suppress_check w ctx) FLB_LOG_DEBUG (plg_prefix "filter" ctx) ctx.
Definition flb_plg_trace_filter (w : option W) (ctx : plg_ctx) : list Z → S → S :=
  plg_check (flb_filter_plugin_log_suppress_check w ctx) FLB_LOG_TRACE (plg_prefix_at "filter" ctx) ctx.

Definition flb_input_plugin_log_suppress_check (w : option W) (ins : plg_ctx) (text : option (list Z)) (s : S) : Z * S :=
  flb_log_suppress_check flb_log_cache_check_suppress (pc_log_suppress_interval ins) text w s.
Definition flb_plg_error_input (w : option W) (ctx : plg_ctx) : list Z → S → S :=
  plg_check (flb_input_plugin_log_suppress_check w ctx) FLB_LOG_ERROR (plg_prefix "input" ctx) ctx.
Definition flb_plg_warn_input (w : option W) (ctx : plg_ctx) : list Z → S → S :=
  plg_check (flb_input_plugin_log_suppress_check w ctx) FLB_LOG_WARN (plg_prefix "input" ctx) ctx.
Definition flb_plg_info_input (w : option W) (ctx : plg_ctx) : list Z → S → S :=
  plg_check (flb_input_plugin_log_suppress_check w ctx) FLB_LOG_INFO (plg_prefix "input" ctx) ctx.
Definition flb_plg_debug_input (w : option W) (ctx : plg_ctx) : list Z → S → S :=
  plg_check (flb_input_plugin_log_suppress_check w ctx) FLB_LOG_DEBUG (plg_prefix "input" ctx) ctx.
Definition flb_plg_trace_input (w : option W) (ctx : plg_ctx) : list Z → S → S :=
  plg_check (flb_input_plugin_log_suppress_check w ctx) FLB_LOG_TRACE (plg_prefix_at "input" ctx) ctx.

Definition flb_output_plugin_log_suppress_check (w : option W) (ins : plg_ctx) (text : option (list Z)) (s : S) : Z * S :=
  flb_log_suppress_check flb_log_cache_check_suppress (pc_log_suppress_interval ins) text w s.
Definition flb_plg_error_output (w : option W) (ctx : plg_ctx) : list Z → S → S :=
  plg_check (flb_output_plugin_log_suppress_check w ctx) FLB_LOG_ERROR (plg_prefix "output" ctx) ctx.
Definition flb_plg_warn_output (w : option W) (ctx : plg_ctx) : list Z → S → S :=
  plg_check (flb_output_plugin_log_suppress_check w ctx) FLB_LOG_WARN (plg_prefix "output" ctx) ctx.
Definition flb_plg_info_output (w : option W) (ctx : plg_ctx) : list Z → S → S :=
  plg_check (flb_output_plugin_log_suppress_check w ctx) FLB_LOG_INFO (plg_prefix "output" ctx) ctx.
Definition flb_plg_debug_output (w : option W) (ctx : plg_ctx) : list Z → S → S :=
  plg_check (flb_output_plugin_log_suppress_check w ctx) FLB_LOG_DEBUG (plg_prefix "output" ctx) ctx.
Definition flb_plg_trace_output (w : option W) (ctx : plg_ctx) : list Z → S → S :=
  plg_check (flb_output_plugin_log_suppress_check w ctx) FLB_LOG_TRACE (plg_prefix_at "output" ctx) ctx.

Definition flb_plg_log_processor (ctx : plg_ctx) (level : Z) (text : list Z) (s : S) : S :=
  plg_print level (plg_prefix "processor" ctx) ctx text s.
Definition flb_plg_error_processor (ctx : plg_ctx) : list Z → S → S := flb_plg_log_processor ctx FLB_LOG_ERROR.
Definition flb_plg_warn_processor (ctx : plg_ctx) : list Z → S → S := flb_plg_log_processor ctx FLB_LOG_WARN.
Definition flb_plg_info_processor (ctx : plg_ctx) : list Z → S → S := flb_plg_log_processor ctx FLB_LOG_INFO.
Definition flb_plg_debug_processor (ctx : plg_ctx) : list Z → S → S := flb_plg_log_processor ctx FLB_LOG_DEBUG.
Definition flb_plg_trace_processor (ctx : plg_ctx) : list Z → S → S := flb_plg_log_processor ctx FLB_LOG_TRACE.

(** The macros that ask the cache, with their levels and prefixes. *)
Definition suppressed_macros (w : option W) (ctx : plg_ctx) : list (Z * list Z * (list Z → S → S)) :=
  [(FLB_LOG_ERROR, plg_prefix "filter" ctx, flb_plg_error_filter w ctx); (FLB_LOG_WARN, plg_prefix "filter" ctx, flb_plg_warn_filter w ctx); (FLB_LOG_INFO, plg_prefix "filter" ctx, flb_plg_info_filter w ctx); (FLB_LOG_DEBUG, plg_prefix "filter" ctx, flb_plg_debug_filter w ctx); (FLB_LOG_TRACE, plg_prefix_at "filter" ctx, flb_plg_trace_filter w ctx)] ++
  [(FLB_LOG_ERROR, plg_prefix "input" ctx, flb_plg_error_input w ctx); (FLB_LOG_WARN, plg_prefix "input" ctx, flb_plg_warn_input w ctx); (FLB_LOG_INFO, plg_prefix "input" ctx, flb_plg_info_input w ctx); (FLB_LOG_DEBUG, plg_prefix "input" ctx, flb_plg_debug_input w ctx); (FLB_LOG_TRACE, plg_prefix_at "input" ctx, flb_plg_trace_input w ctx)] ++
  [(FLB_LOG_ERROR, plg_prefix "output" ctx, flb_plg_error_output w ctx); (FLB_LOG_WARN, plg_prefix "output" ctx, flb_plg_warn_output w ctx); (FLB_LOG_INFO, plg_prefix "output" ctx, flb_plg_info_output w ctx); (FLB_LOG_DEBUG, plg_prefix "output" ctx, flb_plg_debug_output w ctx); (FLB_LOG_TRACE, plg_prefix_at "output" ctx, flb_plg_trace_output w ctx)].

(** A message above the level of the instance is never shown to the cache,
    which could only count it; any other is printed with its prefix unless the
    cache holds it back, and the cache is asked without the prefix, so that it
    takes equal texts of different instances for repetitions. *)
Lemma suppressed_macros_spec w ctx text s :
  Z.of_nat (length text) < 2 ^ 31 → 0 < pc_log_suppress_interval ctx →
  Forall (λ p : Z * list Z * (list Z → S → S), p.2 text s =
    if decide (pc_log_level ctx < p.1.1) then s else
      match w with
      | None => flb_log_print p.1.1 (p.1.2 ++ text) s
      | Some v =>
          let '(ret, s') := flb_log_cache_check_suppress v (take 4094 text ++ [0]) (Z.of_nat (length text)) s in
          if decide (ret = 0) then flb_log_print p.1.1 (p.1.2 ++ text) s' else s'
      end) (suppressed_macros w ctx).
Proof.
  intros Hl Hi. assert (Hs : flb_log_suppress_check flb_log_cache_check_suppress (pc_log_suppress_interval ctx) (Some text) w s =
    match w with Some v => flb_log_cache_check_suppress v (take 4094 text ++ [0]) (Z.of_nat (length text)) s
    | None => (FLB_FALSE, s) end).
  { rewrite suppress_check_run by done. destruct w; [by rewrite decide_True by done|done]. }
  assert (Hc : ∀ l prefix, plg_check (λ t s, flb_log_suppress_check flb_log_cache_check_suppress
      (pc_log_suppress_interval ctx) t w s) l prefix ctx text s =
    if decide (pc_log_level ctx < l) then s else
      match w with
      | None => flb_log_print l (prefix ++ text) s
      | Some v =>
          let '(ret, s') := flb_log_cache_check_suppress v (take 4094 text ++ [0]) (Z.of_nat (length text)) s in
          if decide (ret = 0) then flb_log_print l (prefix ++ text) s' else s'
      end).
  { intros l prefix. unfold plg_check. rewrite Hs. unfold flb_log_check_level.
    destruct (decide (pc_log_level ctx < l)).
    - rewrite (decide_False (P := l ≤ pc_log_level ctx)) by lia. by rewrite decide_False by (intros H; by apply H).
    - rewrite (decide_True (P := l ≤ pc_log_level ctx)) by lia. by rewrite decide_True by done; destruct w. }
  repeat constructor; apply Hc.
Qed.
End plugin_log.
