(* ===== verification/Subnet.v ===== *)
(** The network macros of [mk_macros.h]: an IPv4 address is the [s_addr] of a
    [struct in_addr], 32 bits in network byte order, on a little-endian
    machine. *)
From S2P Require Import Prelude.

(** [htonl] of the socket library. *)
Definition htonl (x : Z) : Z :=
  Z.lor (Z.shiftl (Z.land x 255) 24)
    (Z.lor (Z.shiftl (Z.land (Z.shiftr x 8) 255) 16)
      (Z.lor (Z.shiftl (Z.land (Z.shiftr x 16) 255) 8) (Z.land (Z.shiftr x 24) 255))).

(** [x << n] and [~x] on 32 bits; shifting by the width is undefined. *)
Definition shl32 (x n : Z) : option Z :=
  if decide (0 ≤ n < 32) then Some (u32 (Z.shiftl x n)) else None.
Definition not32 (x : Z) : Z := u32 (Z.lnot x).

Definition MK_NET_IP_OCTECT (addr pos : Z) : Z := Z.land (Z.shiftr addr (8 * pos)) 255.

Definition MK_NET_NETMASK (addr net : Z) : option Z :=
  m ← shl32 4294967295 (32 - net);
  Some (htonl m).

Definition MK_NET_BROADCAST (addr net : Z) : option Z :=
  m ← MK_NET_NETMASK addr net;
  Some (Z.lor addr (not32 m)).

Definition MK_NET_NETWORK (addr net : Z) : option Z :=
  m ← MK_NET_NETMASK addr net;
  Some (Z.land addr m).

Definition MK_NET_WILDCARD (addr net : Z) : option Z :=
  b ← MK_NET_BROADCAST addr net;
  n ← MK_NET_NETWORK addr net;
  Some (Z.lxor b n).

Definition MK_NET_HOSTMIN (addr net : Z) : option Z :=
  n ← MK_NET_NETWORK addr net;
  if decide (net = 31) then Some n else Some (u32 (n + 16777216)).

Definition MK_NET_HOSTMAX (addr net : Z) : option Z :=
  b ← MK_NET_BROADCAST addr net;
  if decide (net = 31) then Some b else Some (u32 (b - 16777216)).

(** * Byte order *)

Definition is_u32 (x : Z) : Prop := 0 ≤ x < 2 ^ 32.

(** Where [htonl] takes a bit from. *)
Definition swap_bit (i : Z) : Z := 8 * (3 - i / 8) + i mod 8.

Lemma field_bit x k i :
  0 ≤ k → 0 ≤ i →
  Z.testbit (Z.shiftl (Z.land x 255) k) i = bool_decide (k ≤ i < k + 8) && Z.testbit x (i - k).
Proof.
  intros. rewrite Z.shiftl_spec by done. destruct (decide (i < k)).
  { rewrite Z.testbit_neg_r by lia. by rewrite bool_decide_eq_false_2 by lia. }
  rewrite Z.land_spec, (Z.testbit_ones_nonneg 8) by lia.
  rewrite andb_comm. f_equal. case_bool_decide; [apply Z.ltb_lt|apply Z.ltb_ge]; lia.
Qed.

Lemma htonl_testbit x i : 0 ≤ i < 32 → Z.testbit (htonl x) i = Z.testbit x (swap_bit i).
Proof.
  intros Hi. unfold htonl. rewrite !Z.lor_spec, !field_bit by lia.
  rewrite <- (Z.shiftl_0_r (Z.land (Z.shiftr x 24) 255)), field_bit by lia.
  unfold swap_bit. assert (i / 8 = 0 ∨ i / 8 = 1 ∨ i / 8 = 2 ∨ i / 8 = 3) as Hq by (Z.to_euclidean_division_equations; lia).
  assert (i = 8 * (i / 8) + i mod 8) as Ei by (apply Z.div_mod; lia).
  pose proof (Z.mod_pos_bound i 8 ltac:(lia)) as Hr. revert Hq Ei Hr.
  generalize (i / 8) (i mod 8). intros q r Hq Ei Hr. subst i.
  destruct Hq as [->|[->|[->| ->]]]; repeat case_bool_decide; try lia; simpl;
    rewrite ?orb_false_r, ?Z.shiftr_spec by lia; f_equal; lia.
Qed.

Lemma land_255 x : Z.land x 255 = x mod 256.
Proof. change 255 with (Z.ones 8). by rewrite Z.land_ones. Qed.

(** The four octets, in the opposite order. *)
Lemma htonl_octets x :
  htonl x = x mod 256 * 2 ^ 24 + (x / 2 ^ 8 mod 256 * 2 ^ 16 + (x / 2 ^ 16 mod 256 * 2 ^ 8 + x / 2 ^ 24 mod 256)).
Proof.
  unfold htonl. rewrite !land_255, !Z.shiftr_div_pow2 by lia.
  assert (Hb : ∀ y, 0 ≤ y mod 256 < 256) by (intros; by apply Z.mod_pos_bound).
  pose proof (Hb (x / 2 ^ 24)). pose proof (Hb (x / 2 ^ 16)). pose proof (Hb (x / 2 ^ 8)).
  rewrite (lor_shiftl_add _ _ 8), (lor_shiftl_add _ _ 16), (lor_shiftl_add _ _ 24) by lia. done.
Qed.

Lemma htonl_u32 x : is_u32 (htonl x).
Proof.
  rewrite htonl_octets. unfold is_u32. pose proof (Z.mod_pos_bound x 256 ltac:(lia)).
  pose proof (Z.mod_pos_bound (x / 2 ^ 8) 256 ltac:(lia)). pose proof (Z.mod_pos_bound (x / 2 ^ 16) 256 ltac:(lia)).
  pose proof (Z.mod_pos_bound (x / 2 ^ 24) 256 ltac:(lia)). lia.
Qed.

Lemma swap_bit_range i : 0 ≤ i < 32 → 0 ≤ swap_bit i < 32.
Proof. intros. unfold swap_bit. Z.to_euclidean_division_equations; lia. Qed.

Lemma swap_bit_twice i : 0 ≤ i < 32 → swap_bit (swap_bit i) = i.
Proof. intros. unfold swap_bit. Z.to_euclidean_division_equations; lia. Qed.

(** Equal 32-bit words have equal bits. *)
Lemma u32_bits x y :
  is_u32 x → is_u32 y → (∀ i, 0 ≤ i < 32 → Z.testbit x i = Z.testbit y i) → x = y.
Proof.
  intros Hx Hy H. apply Z.bits_inj'. intros i Hi. destruct (decide (i < 32)); [by apply H|].
  by rewrite !(testbit_above _ 32) by (done || lia).
Qed.

Lemma htonl_twice x : is_u32 x → htonl (htonl x) = x.
Proof.
  intros. apply u32_bits; [apply htonl_u32|done|]. intros i Hi.
  rewrite !htonl_testbit, swap_bit_twice by (done || by apply swap_bit_range). done.
Qed.

Lemma u32_bound x : (∀ i, 32 ≤ i → Z.testbit x i = false) → 0 ≤ x → is_u32 x.
Proof.
  intros H Hx. split; [done|]. destruct (decide (x = 0)) as [->|]; [done|].
  apply Z.log2_lt_pow2; [lia|]. apply Z.nle_gt. intros Hl.
  pose proof (Z.bit_log2 x ltac:(lia)) as Hb. by rewrite H in Hb.
Qed.

(** Bitwise operations commute with the change of byte order. *)
Lemma htonl_bitwise (f : Z → Z → Z) (g : bool → bool → bool) a b :
  (∀ a b i, 0 ≤ i → Z.testbit (f a b) i = g (Z.testbit a i) (Z.testbit b i)) → g false false = false →
  (∀ a b, 0 ≤ a → 0 ≤ b → 0 ≤ f a b) →
  htonl (f a b) = f (htonl a) (htonl b).
Proof.
  intros Hf Hg Hpos. apply u32_bits; [apply htonl_u32| |].
  - apply u32_bound; [|apply Hpos; apply htonl_u32]. intros i Hi.
    rewrite Hf, !(testbit_above _ 32) by (apply htonl_u32 || lia). done.
  - intros i Hi. rewrite htonl_testbit, !Hf, !htonl_testbit by (lia || apply swap_bit_range; lia). done.
Qed.

Lemma htonl_land a b : htonl (Z.land a b) = Z.land (htonl a) (htonl b).
Proof. apply (htonl_bitwise Z.land andb); [intros; apply Z.land_spec|done|]. intros. apply Z.land_nonneg. by left. Qed.

Lemma htonl_lor a b : htonl (Z.lor a b) = Z.lor (htonl a) (htonl b).
Proof. apply (htonl_bitwise Z.lor orb); [intros; apply Z.lor_spec|done|]. intros. by apply Z.lor_nonneg. Qed.

Lemma htonl_lxor a b : htonl (Z.lxor a b) = Z.lxor (htonl a) (htonl b).
Proof. apply (htonl_bitwise Z.lxor xorb); [intros; apply Z.lxor_spec|done|]. intros. by apply Z.lxor_nonneg. Qed.

Lemma not32_testbit x i : 0 ≤ i < 32 → Z.testbit (not32 x) i = negb (Z.testbit x i).
Proof. intros. unfold not32, wrap. by rewrite Z.mod_pow2_bits_low, Z.lnot_spec by lia. Qed.

Lemma u32_is x : is_u32 (u32 x).
Proof. unfold is_u32, wrap. apply Z.mod_pos_bound. lia. Qed.

Lemma htonl_not x : htonl (not32 x) = not32 (htonl x).
Proof.
  apply u32_bits; [apply htonl_u32|apply u32_is|]. intros i Hi.
  by rewrite not32_testbit, !htonl_testbit, not32_testbit by (lia || apply swap_bit_range; lia).
Qed.

(** The mask of a prefix, in host order: the high bits. *)
Definition mask (k : Z) : Z := u32 (Z.shiftl 4294967295 k).

Lemma mask_testbit k i : 0 ≤ k → 0 ≤ i < 32 → Z.testbit (mask k) i = bool_decide (k ≤ i).
Proof.
  intros Hk Hi. unfold mask, wrap. rewrite Z.mod_pow2_bits_low, Z.shiftl_spec by lia.
  destruct (decide (k ≤ i)).
  - rewrite (Z.testbit_ones_nonneg 32), bool_decide_eq_true_2 by lia. apply Z.ltb_lt. lia.
  - by rewrite Z.testbit_neg_r, bool_decide_eq_false_2 by lia.
Qed.

Lemma netmask_run addr net : 1 ≤ net ≤ 32 → MK_NET_NETMASK addr net = Some (htonl (mask (32 - net))).
Proof. intros. unfold MK_NET_NETMASK, shl32. by rewrite decide_True by lia. Qed.

(** The three parts of an address, in host order. *)
Lemma masked h k : is_u32 h → 0 ≤ k → Z.land h (mask k) = h / 2 ^ k * 2 ^ k.
Proof.
  intros Hh Hk. rewrite <- Z.shiftr_div_pow2, <- Z.shiftl_mul_pow2 by done.
  apply Z.bits_inj'. intros i Hi. rewrite Z.land_spec, Z.shiftl_spec by done.
  destruct (decide (i < 32)) as [Hlt|Hge].
  - rewrite mask_testbit by lia. case_bool_decide.
    + by rewrite Z.shiftr_spec, Z.sub_add, andb_true_r by lia.
    + by rewrite (Z.testbit_neg_r _ (i - k)), andb_false_r by lia.
  - rewrite (testbit_above h 32) by (done || lia). destruct (decide (k ≤ i)).
    + by rewrite Z.shiftr_spec, Z.sub_add, (testbit_above h 32) by (done || lia).
    + by rewrite (Z.testbit_neg_r _ (i - k)) by lia.
Qed.

Lemma not_mask k : 0 ≤ k ≤ 32 → not32 (mask k) = 2 ^ k - 1.
Proof.
  intros Hk. rewrite Z.sub_1_r, <- Z.ones_equiv.
  apply u32_bits; [apply u32_is| |].
  - unfold is_u32. rewrite Z.ones_equiv. pose proof (Z.pow_le_mono_r 2 k 32). lia.
  - intros i Hi. rewrite not32_testbit, mask_testbit, Z.testbit_ones_nonneg by lia.
    case_bool_decide; symmetry; [apply Z.ltb_ge|apply Z.ltb_lt]; lia.
Qed.

Lemma unmasked h k : is_u32 h → 0 ≤ k ≤ 32 → Z.lor h (not32 (mask k)) = h / 2 ^ k * 2 ^ k + (2 ^ k - 1).
Proof.
  intros Hh Hk. rewrite <- lor_shiftl_add, not_mask by lia. rewrite <- Z.shiftr_div_pow2 by lia.
  rewrite Z.sub_1_r, <- Z.ones_equiv.
  apply Z.bits_inj'. intros i Hi. rewrite !Z.lor_spec, Z.shiftl_spec, Z.testbit_ones_nonneg by lia.
  destruct (Z.ltb_spec i k); [by rewrite !orb_true_r|].
  by rewrite Z.shiftr_spec, Z.sub_add by lia.
Qed.

(** One more, or one less, in the last octet, when it does not overflow. *)
Lemma htonl_step h d :
  is_u32 h → 0 ≤ h mod 256 + d < 256 → htonl (u32 (htonl h + d * 16777216)) = h + d.
Proof.
  intros Hh Hd. rewrite (htonl_octets h).
  set (o := h mod 256) in *. set (lo := h / 2 ^ 8 mod 256 * 2 ^ 16 + _).
  assert (Hlo : 0 ≤ lo < 2 ^ 24).
  { subst lo. pose proof (Z.mod_pos_bound (h / 2 ^ 8) 256 ltac:(lia)).
    pose proof (Z.mod_pos_bound (h / 2 ^ 16) 256 ltac:(lia)). pose proof (Z.mod_pos_bound (h / 2 ^ 24) 256 ltac:(lia)). lia. }
  assert (E : htonl (h + d) = (o + d) * 2 ^ 24 + lo).
  { rewrite htonl_octets. assert ((h + d) mod 256 = o + d ∧ (h + d) / 256 = h / 256) as [E1 E2].
    { subst o. pose proof (Z.div_mod h 256). split.
      - symmetry. apply (Z.mod_unique_pos _ _ (h / 256)); lia.
      - symmetry. apply (Z.div_unique_pos _ _ _ (h mod 256 + d)); lia. }
    assert (∀ n, 0 ≤ n → (h + d) / 2 ^ (8 + n) = h / 2 ^ (8 + n)) as En.
    { intros n Hn. rewrite Z.pow_add_r, <- !Z.div_div by lia. change (2 ^ 8) with 256. by rewrite E2. }
    rewrite E1. subst lo. do 2 f_equal; [|f_equal]; f_equal; [f_equal; apply (En 0)|f_equal; apply (En 8)|apply (En 16)]; done. }
  unfold wrap. rewrite Z.mod_small by lia.
  replace (o * 2 ^ 24 + lo + d * 16777216) with ((o + d) * 2 ^ 24 + lo) by lia.
  rewrite <- E. apply htonl_twice. subst o. unfold is_u32 in *. Z.to_euclidean_division_equations; lia.
Qed.

Lemma network_run addr net :
  1 ≤ net ≤ 32 →
  MK_NET_NETWORK addr net = Some (Z.land addr (htonl (mask (32 - net)))) ∧
  MK_NET_BROADCAST addr net = Some (Z.lor addr (not32 (htonl (mask (32 - net))))).
Proof. intros Hn. unfold MK_NET_NETWORK, MK_NET_BROADCAST. by rewrite !netmask_run. Qed.

Lemma mask_u32 k : is_u32 (mask k).
Proof. apply u32_is. Qed.

Lemma mask_value k : 0 ≤ k ≤ 32 → mask k = 2 ^ 32 - 2 ^ k.
Proof.
  intros Hk. pose proof (not_mask k Hk) as E. pose proof (mask_u32 k) as Hm. revert E.
  unfold not32, wrap, Z.lnot, is_u32 in *. intros E.
  replace (Z.pred (- mask k)) with (2 ^ 32 - 1 - mask k + (-1) * 2 ^ 32) in E by lia.
  rewrite Z.mod_add, Z.mod_small in E by lia. lia.
Qed.

(** The low bits of an address, apart from the others. *)
Lemma low_bits n b k : 0 ≤ k → b = 2 ^ k → n mod b = 0 → Z.lxor (n + (b - 1)) n = b - 1.
Proof.
  intros Hk -> Hn. rewrite Z.sub_1_r, <- Z.ones_equiv.
  rewrite Z.add_nocarry_lxor by (by rewrite Z.land_ones).
  by rewrite (Z.lxor_comm n), Z.lxor_assoc, Z.lxor_nilpotent, Z.lxor_0_r.
Qed.

(** Network and broadcast address, in host order. *)
Lemma network_host addr net :
  is_u32 addr → 1 ≤ net ≤ 32 →
  let b := 2 ^ (32 - net) in let n := htonl addr / b * b in
  ∃ w c, MK_NET_NETWORK addr net = Some w ∧ htonl w = n ∧ is_u32 w ∧
    MK_NET_BROADCAST addr net = Some c ∧ htonl c = n + (b - 1) ∧ is_u32 c.
Proof.
  intros Ha Hn b n. destruct (network_run addr net Hn) as [E1 E2].
  eexists _, _. split; [exact E1|]. subst n b.
  assert (H1 : htonl (Z.land addr (htonl (mask (32 - net)))) = htonl addr / 2 ^ (32 - net) * 2 ^ (32 - net)).
  { rewrite htonl_land, htonl_twice by apply mask_u32. apply masked; [apply htonl_u32|lia]. }
  assert (H2 : htonl (Z.lor addr (not32 (htonl (mask (32 - net))))) =
    htonl addr / 2 ^ (32 - net) * 2 ^ (32 - net) + (2 ^ (32 - net) - 1)).
  { rewrite htonl_lor, htonl_not, htonl_twice by apply mask_u32. apply unmasked; [apply htonl_u32|lia]. }
  split; [exact H1|]. split.
  { apply u32_bound; [|apply Z.land_nonneg; left; apply Ha].
    intros i Hi. by rewrite Z.land_spec, (testbit_above addr 32) by (done || lia). }
  split; [exact E2|]. split; [exact H2|].
  apply u32_bound; [|apply Z.lor_nonneg; split; [apply Ha|apply u32_is]].
  intros i Hi. rewrite Z.lor_spec, (testbit_above addr 32), (testbit_above _ 32) by (apply u32_is || done || lia). done.
Qed.

(** C33. The sub-net of an address, in host order, for a prefix of [net]
    bits: the network is the address with the low bits cleared, the broadcast
    has them set, the wildcard is the low bits.  The hosts run from the one
    after the network to the one before the broadcast, both included for a
    prefix of 31.  A prefix of 0 shifts by the width of the word and has no
    result. *)
Theorem mk_net_subnet addr net :
  is_u32 addr → 0 ≤ net ≤ 31 →
  let b := 2 ^ (32 - net) in let n := htonl addr / b * b in
  let host f v := match f addr net with Some x => htonl x = v | None => net = 0 end in
  (net = 0 ↔ MK_NET_NETMASK addr net = None) ∧
  n ≤ htonl addr < n + b ∧
  host MK_NET_NETMASK (2 ^ 32 - b) ∧
  host MK_NET_NETWORK n ∧ host MK_NET_BROADCAST (n + b - 1) ∧ host MK_NET_WILDCARD (b - 1) ∧
  host MK_NET_HOSTMIN (if decide (net = 31) then n else n + 1) ∧
  host MK_NET_HOSTMAX (if decide (net = 31) then n + b - 1 else n + b - 2).
Proof.
  intros Ha Hn b n host. destruct (decide (net = 0)) as [->|Hz].
  { split; [done|]. split; [|done]. pose proof (htonl_u32 addr) as Hh.
    subst n b. unfold is_u32 in Hh. rewrite (Z.div_small _ (2 ^ (32 - 0))); simpl; lia. }
  split; [split; [done|by rewrite netmask_run by lia]|].
  assert (Hb : 2 ≤ b) by (subst b; pose proof (Z.pow_le_mono_r 2 1 (32 - net)); lia).
  split; [subst n; pose proof (Z.mod_pos_bound (htonl addr) b); pose proof (Z.div_mod (htonl addr) b); lia|].
  split.
  { subst host. simpl. rewrite netmask_run, htonl_twice by (apply mask_u32 || lia). apply mask_value. lia. }
  destruct (network_host addr net Ha ltac:(lia)) as (w & c & E1 & H1 & Hw & E2 & H2 & Hc).
  fold b in H1, H2. fold n in H1, H2.
  assert (Hnb : n mod b = 0) by (apply Z.mod_mul; lia).
  assert (Hw' : w = htonl n) by (by rewrite <- H1, htonl_twice).
  assert (Hc' : c = htonl (n + (b - 1))) by (by rewrite <- H2, htonl_twice).
  assert (Hun : is_u32 n ∧ is_u32 (n + (b - 1))) by (rewrite <- H2, <- H1; split; apply htonl_u32).
  assert (H4 : net ≠ 31 → n mod 4 = 0 ∧ b mod 4 = 0).
  { intros. assert (Eb : b = 4 * 2 ^ (30 - net)) by (subst b; rewrite <- (Z.pow_add_r 2 2) by lia; f_equal; lia).
    rewrite Eb in Hnb |- *. revert Hnb. generalize (Z.pow_pos_nonneg 2 (30 - net)).
    generalize (2 ^ (30 - net)) n. intros p m ? Hm. split; [|by rewrite Z.mul_comm, Z.mod_mul].
    rewrite (Z.div_mod m (4 * p)) by lia. rewrite Hm, Z.add_0_r, <- Z.mul_assoc, Z.mul_comm. by apply Z.mod_mul. }
  unfold host, MK_NET_WILDCARD, MK_NET_HOSTMIN, MK_NET_HOSTMAX. rewrite E1, E2. simpl.
  split; [done|]. split; [lia|]. split; [rewrite htonl_lxor, H1, H2; by apply (low_bits n b (32 - net)); try lia|].
  case_decide; [split; [done|lia]|]. destruct H4 as [Hn4 Hb4]; [done|]. clear Hnb.
  split; [rewrite Hw'|rewrite Hc'].
  - apply (htonl_step n 1); [apply Hun|]. Z.to_euclidean_division_equations; lia.
  - etrans; [apply (htonl_step (n + (b - 1)) (-1)); [apply Hun|]|lia].
    Z.to_euclidean_division_equations; lia.
Qed.

(** For a prefix of 32 the first and the last host are not the address. *)
Lemma mk_net_hosts_32 addr :
  is_u32 addr → htonl addr mod 256 ∈ seqZ 1 254 →
  ∃ lo hi, MK_NET_HOSTMIN addr 32 = Some lo ∧ MK_NET_HOSTMAX addr 32 = Some hi ∧
    htonl lo = htonl addr + 1 ∧ htonl hi = htonl addr - 1.
Proof.
  intros Ha Ho%elem_of_seqZ. destruct (network_host addr 32 Ha ltac:(lia)) as (w & c & E1 & H1 & Hw & E2 & H2 & Hc).
  simpl in H1, H2. rewrite Z.div_1_r, Z.mul_1_r in H1, H2. rewrite Z.add_0_r in H2.
  unfold MK_NET_HOSTMIN, MK_NET_HOSTMAX. rewrite E1, E2. simpl. eexists _, _. split; [done|]. split; [done|].
  assert (w = addr ∧ c = addr) as [-> ->].
  { rewrite <- (htonl_twice w Hw), <- (htonl_twice c Hc), H1, H2. by rewrite htonl_twice. }
  pose proof (htonl_u32 addr) as Hh. rewrite <- (htonl_twice addr Ha). rewrite (htonl_twice (htonl addr)) by done.
  split; [apply (htonl_step (htonl addr) 1); [done|lia]|].
  etrans; [apply (htonl_step (htonl addr) (-1)); [done|lia]|lia].
Qed.

Lemma mk_net_subnet_witness :
  ∃ x, MK_NET_HOSTMAX (htonl 3232235777) 24 = Some x ∧ htonl x = 3232236030.
Proof.
  pose proof (mk_net_subnet (htonl 3232235777) 24 (htonl_u32 _) ltac:(lia)) as (_ & _ & _ & _ & _ & _ & _ & H).
  cbv zeta beta in H. destruct (MK_NET_HOSTMAX (htonl 3232235777) 24) as [x|]; [|discriminate H].
  exists x. split; [reflexivity|]. etrans; [exact H|vm_compute; reflexivity].
Defined.

(** The octets of an address, as they are written, are those of its host order. *)
Lemma mk_net_octets addr :
  htonl addr = MK_NET_IP_OCTECT addr 0 * 2 ^ 24 + (MK_NET_IP_OCTECT addr 1 * 2 ^ 16 +
    (MK_NET_IP_OCTECT addr 2 * 2 ^ 8 + MK_NET_IP_OCTECT addr 3)).
Proof.
  unfold MK_NET_IP_OCTECT. rewrite htonl_octets, !land_255, Z.shiftr_0_r, !Z.shiftr_div_pow2 by lia. done.
Qed.
