(* ===== verification/Locale.v ===== *)
(** [flb_langinfo.h]: the "C" locale of [nl_langinfo], for [strptime] on
    Windows. *)
From stdpp Require Import strings.
From S2P Require Import Prelude.

Definition D_T_FMT : Z := 0.
Definition D_FMT : Z := 1.
Definition T_FMT : Z := 2.
Definition DAY_1 : Z := 3.
Definition DAY_2 : Z := 4.
Definition DAY_3 : Z := 5.
Definition DAY_4 : Z := 6.
Definition DAY_5 : Z := 7.
Definition DAY_6 : Z := 8.
Definition DAY_7 : Z := 9.
Definition ABDAY_1 : Z := 10.
Definition ABDAY_2 : Z := 11.
Definition ABDAY_3 : Z := 12.
Definition ABDAY_4 : Z := 13.
Definition ABDAY_5 : Z := 14.
Definition ABDAY_6 : Z := 15.
Definition ABDAY_7 : Z := 16.
Definition MON_1 : Z := 17.
Definition MON_2 : Z := 18.
Definition MON_3 : Z := 19.
Definition MON_4 : Z := 20.
Definition MON_5 : Z := 21.
Definition MON_6 : Z := 22.
Definition MON_7 : Z := 23.
Definition MON_8 : Z := 24.
Definition MON_9 : Z := 25.
Definition MON_10 : Z := 26.
Definition MON_11 : Z := 27.
Definition MON_12 : Z := 28.
Definition ABMON_1 : Z := 29.
Definition ABMON_2 : Z := 30.
Definition ABMON_3 : Z := 31.
Definition ABMON_4 : Z := 32.
Definition ABMON_5 : Z := 33.
Definition ABMON_6 : Z := 34.
Definition ABMON_7 : Z := 35.
Definition ABMON_8 : Z := 36.
Definition ABMON_9 : Z := 37.
Definition ABMON_10 : Z := 38.
Definition ABMON_11 : Z := 39.
Definition ABMON_12 : Z := 40.
Definition AM_STR : Z := 41.
Definition PM_STR : Z := 42.
Definition T_FMT_AMPM : Z := 43.

Definition lc_time_c : list string := [
  "%a %b %e %H:%M:%S %Y"%string;
  "%m/%d/%y"%string;
  "%H:%M:%S"%string;
  "Sunday"%string;
  "Monday"%string;
  "Tuesday"%string;
  "Wednesday"%string;
  "Thursday"%string;
  "Friday"%string;
  "Saturday"%string;
  "Sun"%string;
  "Mon"%string;
  "Tue"%string;
  "Wed"%string;
  "Thu"%string;
  "Fri"%string;
  "Sat"%string;
  "January"%string;
  "February"%string;
  "March"%string;
  "April"%string;
  "May"%string;
  "June"%string;
  "July"%string;
  "August"%string;
  "September"%string;
  "October"%string;
  "November"%string;
  "December"%string;
  "Jan"%string;
  "Feb"%string;
  "Mar"%string;
  "Apr"%string;
  "May"%string;
  "Jun"%string;
  "Jul"%string;
  "Aug"%string;
  "Sep"%string;
  "Oct"%string;
  "Nov"%string;
  "Dec"%string;
  "AM"%string;
  "PM"%string;
  "%I:%M:%S %p"%string].

(** Reading outside the table is undefined. *)
Definition nl_langinfo (item : Z) : option string :=
  if decide (item < 0 ∨ 43 < item) then Some ""%string
  else lc_time_c !! Z.to_nat item.

(** The items of a range, in order. *)
Definition names (first last : Z) : list string :=
  omap nl_langinfo (seqZ first (last - first + 1)).

(** The position of the first of some names that an input begins with. *)
Fixpoint match_name (ns : list string) (input : string) (i : Z) : option Z :=
  match ns with
  | [] => None
  | n :: ns => if decide (String.prefix n input = true) then Some i else match_name ns input (i + 1)
  end.

Lemma nl_langinfo_total item : is_Some (nl_langinfo item).
Proof.
  unfold nl_langinfo. case_decide; [by eexists|].
  apply lookup_lt_is_Some. change (length lc_time_c) with (Z.to_nat 44). lia.
Qed.

(** [nl_langinfo] always has a result, the empty string outside the
    items; the abbreviation of every day and month is the first three letters
    of its name; and names determine days and months: whatever follows it, a
    full name or an abbreviation is recognised as its own position, and as
    that of no other. *)
Theorem nl_langinfo_names :
  (∀ item, is_Some (nl_langinfo item)) ∧
  (∀ item, nl_langinfo item = Some ""%string ↔ item < D_T_FMT ∨ T_FMT_AMPM < item) ∧
  (names ABDAY_1 ABDAY_7 = String.substring 0 3 <$> names DAY_1 DAY_7) ∧
  (names ABMON_1 ABMON_12 = String.substring 0 3 <$> names MON_1 MON_12) ∧
  (∀ i n rest, (names DAY_1 DAY_7 !! i = Some n ∨ names ABDAY_1 ABDAY_7 !! i = Some n) →
     match_name (names ABDAY_1 ABDAY_7) (n +:+ rest) 0 = Some (Z.of_nat i)) ∧
  (∀ i n rest, (names MON_1 MON_12 !! i = Some n ∨ names ABMON_1 ABMON_12 !! i = Some n) →
     match_name (names ABMON_1 ABMON_12) (n +:+ rest) 0 = Some (Z.of_nat i)).
Proof.
  split_and!; [exact nl_langinfo_total| |reflexivity..| |].
  - intros item. unfold nl_langinfo, D_T_FMT, T_FMT_AMPM. case_decide as Hd; [tauto|].
    split; [|tauto]. intros E. exfalso.
    assert (Hall : Forall (λ s, s ≠ ""%string) lc_time_c) by (apply (bool_decide_unpack _); vm_compute; exact I).
    by apply (Forall_lookup_1 _ _ _ _ Hall E).
  - intros i n rest Hn. do 7 (destruct i as [|i]; [destruct Hn as [[= <-]|[= <-]]; destruct rest; vm_compute; reflexivity|]).
    destruct Hn as [Hn|Hn]; exfalso; revert Hn; vm_compute; discriminate.
  - intros i n rest Hn. do 12 (destruct i as [|i]; [destruct Hn as [[= <-]|[= <-]]; destruct rest; vm_compute; reflexivity|]).
    destruct Hn as [Hn|Hn]; exfalso; revert Hn; vm_compute; discriminate.
Qed.
