(* ===== verification/Compat.v ===== *)
(** Small helpers of several headers: sleeping on Windows ([mk_sleep.h],
    [flb_compat.h]), the types of options ([flb_config_map.h]) and of storage
    ([flb_storage.h]), [flb_uri.h], [flb_lua.h], [flb_kernel.h] and the
    channels of [mk_thread_channel.h]. *)
From stdpp Require Import strings.
From S2P Require Import Prelude.

(** * Sleeping

    What the Windows functions do is in the operating system: whether a timer
    can be created, and set.  What is kept is the handles that are open and
    the due times that were waited for, in units of 100 ns. *)
Record timers := Timers { tm_open : list Z; tm_waited : list Z }.

Section sleep.
Context (CreateWaitableTimer : timers → option Z).
Context (SetWaitableTimer : Z → Z → timers → bool).

Definition CloseHandle (h : Z) (t : timers) : timers :=
  Timers (filter (λ x, x ≠ h) (tm_open t)) (tm_waited t).

(** Waits until the due time of the timer. *)
Definition WaitForSingleObject (due : Z) (t : timers) : timers :=
  Timers (tm_open t) (tm_waited t ++ [due]).

(** [-ns] of the least [LONGLONG] is undefined. *)
Definition nanosleep (ns : Z) (t : timers) : option (Z * timers) :=
  match CreateWaitableTimer t with
  | None => Some (0, t)
  | Some timer =>
      let t := Timers (timer :: tm_open t) (tm_waited t) in
      if decide (- 2 ^ 63 < ns) then
        let li := - ns in
        if SetWaitableTimer timer li t then
          let t := WaitForSingleObject li t in
          Some (1, CloseHandle timer t)
        else Some (0, CloseHandle timer t)
      else None
  end.

Definition usleep (usec : Z) (t : timers) : option (Z * timers) :=
  if decide (- 2 ^ 63 ≤ usec * 10 < 2 ^ 63) then nanosleep (usec * 10) t else None.

(** [usleep] waits once, for the given number of microseconds (the due
    time is relative when negative), or not at all; it says 1 exactly when it
    has waited, and never leaves a timer open. *)
Theorem usleep_spec usec t :
  0 ≤ usec → usec * 10 < 2 ^ 63 → (∀ h, CreateWaitableTimer t = Some h → h ∉ tm_open t) →
  ∃ ret t', usleep usec t = Some (ret, t') ∧ tm_open t' = tm_open t ∧
    (ret = 1 ∧ tm_waited t' = tm_waited t ++ [- (usec * 10)] ∨ ret = 0 ∧ tm_waited t' = tm_waited t).
Proof.
  intros Hu Hmax Hnew. unfold usleep. rewrite decide_True by lia. unfold nanosleep.
  destruct (CreateWaitableTimer t) as [h|] eqn:E; [|exists 0, t; by auto].
  rewrite decide_True by lia. cbv zeta.
  assert (Hclose : ∀ w, tm_open (CloseHandle h (Timers (h :: tm_open t) w)) = tm_open t).
  { intros w. simpl. rewrite filter_cons_False by tauto. specialize (Hnew h eq_refl). revert Hnew.
    generalize (tm_open t). intros l Hl. induction l as [|x l IH]; [done|].
    rewrite not_elem_of_cons in Hl. rewrite filter_cons_True by naive_solver. f_equal. apply IH. tauto. }
  destruct (SetWaitableTimer _ _ _); eexists _, _; (split; [done|]); (split; [apply Hclose|]); by auto.
Qed.
End sleep.

(** * Options *)

Definition FLB_CONFIG_MAP_STR : Z := 0.
Definition FLB_CONFIG_MAP_STR_PREFIX : Z := 1.
Definition FLB_CONFIG_MAP_INT : Z := 2.
Definition FLB_CONFIG_MAP_BOOL : Z := 3.
Definition FLB_CONFIG_MAP_DOUBLE : Z := 4.
Definition FLB_CONFIG_MAP_SIZE : Z := 5.
Definition FLB_CONFIG_MAP_TIME : Z := 6.
Definition FLB_CONFIG_MAP_DEPRECATED : Z := 7.
Definition FLB_CONFIG_MAP_CLIST : Z := 30.
Definition FLB_CONFIG_MAP_CLIST_1 : Z := 31.
Definition FLB_CONFIG_MAP_CLIST_2 : Z := 32.
Definition FLB_CONFIG_MAP_CLIST_3 : Z := 33.
Definition FLB_CONFIG_MAP_CLIST_4 : Z := 34.
Definition FLB_CONFIG_MAP_SLIST : Z := 40.
Definition FLB_CONFIG_MAP_SLIST_1 : Z := 41.
Definition FLB_CONFIG_MAP_SLIST_2 : Z := 42.
Definition FLB_CONFIG_MAP_SLIST_3 : Z := 43.
Definition FLB_CONFIG_MAP_SLIST_4 : Z := 44.
Definition FLB_CONFIG_MAP_MULT : Z := 1.

Definition flb_config_map_mult_type (type : Z) : Z :=
  if decide (FLB_CONFIG_MAP_CLIST ≤ type ≤ FLB_CONFIG_MAP_CLIST_4) then FLB_CONFIG_MAP_CLIST
  else if decide (FLB_CONFIG_MAP_SLIST ≤ type ≤ FLB_CONFIG_MAP_SLIST_4) then FLB_CONFIG_MAP_SLIST
  else -1.

(** A list type is its family plus the number of fields it is split into. *)
Lemma flb_config_map_mult_type_family type :
  flb_config_map_mult_type type = -1 ∨
  0 ≤ type - flb_config_map_mult_type type ≤ 4 ∧
  flb_config_map_mult_type (flb_config_map_mult_type type) = flb_config_map_mult_type type.
Proof.
  unfold flb_config_map_mult_type, FLB_CONFIG_MAP_CLIST, FLB_CONFIG_MAP_CLIST_4,
    FLB_CONFIG_MAP_SLIST, FLB_CONFIG_MAP_SLIST_4. repeat case_decide; lia.
Qed.

(** * Storage; two of the types come from chunkio *)

Section storage.
Context (CIO_STORE_FS CIO_STORE_MEM : Z).

Definition FLB_STORAGE_FS : Z := CIO_STORE_FS.
Definition FLB_STORAGE_MEM : Z := CIO_STORE_MEM.
Definition FLB_STORAGE_MEMRB : Z := 10.

Definition flb_storage_get_type (type : Z) : option string :=
  if decide (type = FLB_STORAGE_FS) then Some "'filesystem' (memory + filesystem)"%string
  else if decide (type = FLB_STORAGE_MEM) then Some "'memory' (memory only)"%string
  else if decide (type = FLB_STORAGE_MEMRB) then Some "'memrb' (memory ring buffer)"%string
  else None.
End storage.

(** * URIs: the characters that are sent as they are. *)

Definition flb_uri_to_encode (c : Z) : Z :=
  if decide (48 ≤ c ≤ 57 ∨ 65 ≤ c ≤ 90 ∨ 97 ≤ c ≤ 122 ∨
             c = 63 ∨ c = 38 ∨ c = 45 ∨ c = 95 ∨ c = 46 ∨ c = 126 ∨ c = 47 ∨ c = 61)
  then FLB_FALSE else FLB_TRUE.

(** A [char] is signed: no byte outside ASCII is sent as it is. *)
Lemma flb_uri_to_encode_ascii b : is_byte b → flb_uri_to_encode (s8 b) = FLB_FALSE → b < 128.
Proof.
  intros Hb. unfold flb_uri_to_encode, swrap. change (2 ^ (8 - 1)) with 128.
  intros H. unfold is_byte in Hb. case_decide as Hc; [|done]. clear H.
  destruct (decide (b < 128)); [done|]. rewrite <- (Z.mod_add _ (-1)) in Hc by done.
  rewrite Z.mod_small in Hc by lia. lia.
Qed.

(** * Lua 5.1: [lua_gettop] is in the library. *)

Definition flb_lua_absindex (lua_gettop : Z) (index : Z) : option Z :=
  if decide (index < 0) then i ← int_add lua_gettop index; int_add i 1 else Some index.

(** * Kernel versions *)

Definition FLB_KERNEL_VERSION (a b c : Z) : Z := Z.shiftl a 16 + Z.shiftl b 8 + c.

(** Numbers of versions are ordered as the versions are. *)
Lemma FLB_KERNEL_VERSION_le a b c a' b' c' :
  0 ≤ b < 256 → 0 ≤ c < 256 → 0 ≤ b' < 256 → 0 ≤ c' < 256 →
  FLB_KERNEL_VERSION a b c ≤ FLB_KERNEL_VERSION a' b' c' ↔
  a < a' ∨ a = a' ∧ (b < b' ∨ b = b' ∧ c ≤ c').
Proof. intros. unfold FLB_KERNEL_VERSION. rewrite !Z.shiftl_mul_pow2 by lia. lia. Qed.

(** * Channels between threads; their buffers are in the library. *)

Record mk_thread_channel := ThreadChannel {
  ch_size : Z;
  ch_used : Z;
  ch_sender : Z;
  ch_receiver : Z;
  ch_ended : Z;
  ch_done : Z
}.

Definition mk_thread_channel_get_sender (chan : mk_thread_channel) : Z := ch_sender chan.
Definition mk_thread_channel_set_sender (chan : mk_thread_channel) (sender : Z) : mk_thread_channel :=
  ThreadChannel (ch_size chan) (ch_used chan) sender (ch_receiver chan) (ch_ended chan) (ch_done chan).
Definition mk_thread_channel_get_receiver (chan : mk_thread_channel) : Z := ch_receiver chan.

(** The scheduler, which keeps the channels of a thread, is in the library. *)
Definition mk_thread_channel_set_receiver {S} (mk_thread_add_channel : Z → mk_thread_channel → S → S)
    (chan : mk_thread_channel) (receiver : Z) (s : S) : mk_thread_channel * S :=
  let chan := ThreadChannel (ch_size chan) (ch_used chan) (ch_sender chan) receiver (ch_ended chan) (ch_done chan) in
  (chan, mk_thread_add_channel receiver chan s).

Definition mk_thread_channel_done (chan : mk_thread_channel) : Z := ch_done chan.
Definition mk_thread_channel_end (chan : mk_thread_channel) : mk_thread_channel :=
  ThreadChannel (ch_size chan) (ch_used chan) (ch_sender chan) (ch_receiver chan) 1 (ch_done chan).

(** ** The theorem at work: a quarter of a second. *)
Lemma usleep_spec_witness :
  ∃ ret t', usleep (λ _, Some 7) (λ _ _ _, true) 250000 (Timers [] []) = Some (ret, t') ∧ tm_open t' = [] ∧
    (ret = 1 ∧ tm_waited t' = [-2500000] ∨ ret = 0 ∧ tm_waited t' = []).
Proof.
  apply (usleep_spec (λ _, Some 7) (λ _ _ _, true) 250000 (Timers [] [])); [lia|lia|].
  intros h _ H. by apply elem_of_nil in H.
Defined.
