(* ===== verification/Constants.v ===== *)
(** The constants of the headers that the other files do not need: sizes,
    codes, flags and the names of the options of the configuration, with what
    makes them usable: codes that are told apart, flags that do not share a
    bit, names that differ by more than their case. *)
From stdpp Require Import strings.
From S2P Require Import Prelude MkEvent Stream Log.

(** * The constants *)

(** ** [F/flb_avro.h] *)

Definition MEMORY_POOL_SUCCESS : Z := 1.
Definition MEMORY_POOL_ERROR : Z := 0.
Definition MEMORY_POOL_MINIMUM_SIZE : Z := 8.

(** ** [F/flb_aws_credentials.h] *)

Definition FLB_AWS_REFRESH_WINDOW : Z := 60.
Definition FLB_AWS_CREDENTIAL_NET_TIMEOUT : Z := 5.

(** ** [F/flb_aws_util.h] *)

Definition FLB_AWS_CREDENTIAL_REFRESH_LIMIT : Z := 60.

(** ** [F/flb_base64.h] *)

Definition FLB_BASE64_ERR_BUFFER_TOO_SMALL : Z := -42.
Definition FLB_BASE64_ERR_INVALID_CHARACTER : Z := -44.

(** ** [F/flb_chunk_trace.h] *)

Definition FLB_CHUNK_TRACE_TYPE_INPUT : Z := 1.
Definition FLB_CHUNK_TRACE_TYPE_FILTER : Z := 2.
Definition FLB_CHUNK_TRACE_TYPE_PRE_OUTPUT : Z := 3.
Definition FLB_CHUNK_TRACE_TYPE_OUTPUT : Z := 4.
Definition FLB_CHUNK_TRACE_LIMIT_TIME : Z := 1.
Definition FLB_CHUNK_TRACE_LIMIT_COUNT : Z := 2.

(** ** [F/flb_compression.h] *)

Definition FLB_COMPRESSION_ALGORITHM_NONE : Z := 0.
Definition FLB_COMPRESSION_ALGORITHM_GZIP : Z := 1.
Definition FLB_DECOMPRESSOR_STATE_FAILED : Z := -1.
Definition FLB_DECOMPRESSOR_STATE_EXPECTING_HEADER : Z := 0.
Definition FLB_DECOMPRESSOR_STATE_EXPECTING_OPTIONAL_HEADERS : Z := 1.
Definition FLB_DECOMPRESSOR_STATE_EXPECTING_BODY : Z := 2.
Definition FLB_DECOMPRESSOR_STATE_EXPECTING_FOOTER : Z := 3.
Definition FLB_DECOMPRESSOR_FAILURE : Z := -1.
Definition FLB_DECOMPRESSOR_CORRUPTED_HEADER : Z := -2.
Definition FLB_DECOMPRESSOR_INVALID_STATE : Z := -3.
Definition FLB_DECOMPRESSOR_SUCCESS : Z := 0.
Definition FLB_DECOMPRESSOR_INSUFFICIENT_DATA : Z := 0.
Definition FLB_DECOMPRESSION_BUFFER_SIZE : Z := 1024 * 1000.

(** ** [F/flb_config.h] *)

Definition FLB_CONFIG_FLUSH_SECS : Z := 1.
Definition FLB_CONFIG_HTTP_LISTEN : string := "0.0.0.0"%string.
Definition FLB_CONFIG_HTTP_PORT : string := "2020"%string.
Definition HC_ERRORS_COUNT_DEFAULT : Z := 5.
Definition HC_RETRY_FAILURE_COUNTS_DEFAULT : Z := 5.
Definition HEALTH_CHECK_PERIOD : Z := 60.
Definition FLB_CONFIG_DEFAULT_TAG : string := "fluent_bit"%string.
Definition FLB_CONF_STR_FLUSH : string := "Flush"%string.
Definition FLB_CONF_STR_GRACE : string := "Grace"%string.
Definition FLB_CONF_STR_DAEMON : string := "Daemon"%string.
Definition FLB_CONF_STR_LOGFILE : string := "Log_File"%string.
Definition FLB_CONF_STR_LOGLEVEL : string := "Log_Level"%string.
Definition FLB_CONF_STR_PARSERS_FILE : string := "Parsers_File"%string.
Definition FLB_CONF_STR_PLUGINS_FILE : string := "Plugins_File"%string.
Definition FLB_CONF_STR_STREAMS_FILE : string := "Streams_File"%string.
Definition FLB_CONF_STR_CONV_NAN : string := "json.convert_nan_to_null"%string.
Definition FLB_CONF_STR_HTTP_SERVER : string := "HTTP_Server"%string.
Definition FLB_CONF_STR_HTTP_LISTEN : string := "HTTP_Listen"%string.
Definition FLB_CONF_STR_HTTP_PORT : string := "HTTP_Port"%string.
Definition FLB_CONF_STR_HEALTH_CHECK : string := "Health_Check"%string.
Definition FLB_CONF_STR_HC_ERRORS_COUNT : string := "HC_Errors_Count"%string.
Definition FLB_CONF_STR_HC_RETRIES_FAILURE_COUNT : string := "HC_Retry_Failure_Count"%string.
Definition FLB_CONF_STR_HC_PERIOD : string := "HC_Period"%string.
Definition FLB_CONF_STR_ENABLE_CHUNK_TRACE : string := "Enable_Chunk_Trace"%string.
Definition FLB_CONF_STR_HOT_RELOAD : string := "Hot_Reload"%string.
Definition FLB_CONF_STR_HOT_RELOAD_ENSURE_THREAD_SAFETY : string := "Hot_Reload.Ensure_Thread_Safety"%string.
Definition FLB_CONF_DNS_MODE : string := "dns.mode"%string.
Definition FLB_CONF_DNS_RESOLVER : string := "dns.resolver"%string.
Definition FLB_CONF_DNS_PREFER_IPV4 : string := "dns.prefer_ipv4"%string.
Definition FLB_CONF_STORAGE_PATH : string := "storage.path"%string.
Definition FLB_CONF_STORAGE_SYNC : string := "storage.sync"%string.
Definition FLB_CONF_STORAGE_METRICS : string := "storage.metrics"%string.
Definition FLB_CONF_STORAGE_CHECKSUM : string := "storage.checksum"%string.
Definition FLB_CONF_STORAGE_BL_MEM_LIMIT : string := "storage.backlog.mem_limit"%string.
Definition FLB_CONF_STORAGE_MAX_CHUNKS_UP : string := "storage.max_chunks_up"%string.
Definition FLB_CONF_STR_CORO_STACK_SIZE : string := "Coro_Stack_Size"%string.
Definition FLB_CONF_STR_SCHED_CAP : string := "scheduler.cap"%string.
Definition FLB_CONF_STR_SCHED_BASE : string := "scheduler.base"%string.

(** ** [F/flb_config_format.h] *)

Definition FLB_DEFAULT_CF_BUF_SIZE : Z := 4096.

(** ** [F/flb_connection.h] *)

Definition FLB_UNKNOWN_CONNECTION : Z := 0.
Definition FLB_UPSTREAM_CONNECTION : Z := 1.
Definition FLB_DOWNSTREAM_CONNECTION : Z := 2.
Definition FLB_CONNECTION_MAX_PORT_LENGTH : Z := 5.
Definition FLB_CONNECTION_MAX_LABEL_LENGTH : Z := 7.
Definition FLB_CONNECTION_MAX_IPV4_ADDRESS_LENGTH : Z := 15.
Definition FLB_CONNECTION_MAX_IPV6_ADDRESS_LENGTH : Z := 39.
Definition FLB_CONNECTION_MAX_UNIX_ADDRESS_LENGTH : Z := 11 + 4 + 1.
Definition FLB_CONNECTION_MAX_ADDRESS_LENGTH : Z := FLB_CONNECTION_MAX_IPV6_ADDRESS_LENGTH.

(** ** [F/flb_crypto_constants.h] *)

Definition FLB_CRYPTO_SUCCESS : Z := 0.
Definition FLB_CRYPTO_BACKEND_ERROR : Z := 1.
Definition FLB_CRYPTO_INVALID_STATE : Z := 2.
Definition FLB_CRYPTO_INVALID_ARGUMENT : Z := 3.
Definition FLB_CRYPTO_ALLOCATION_ERROR : Z := 4.
Definition FLB_CRYPTO_PUBLIC_KEY : Z := 1.
Definition FLB_CRYPTO_PRIVATE_KEY : Z := 2.
Definition FLB_CRYPTO_PADDING_NONE : Z := 0.
Definition FLB_CRYPTO_PADDING_PKCS1 : Z := 1.
Definition FLB_CRYPTO_PADDING_PKCS1_OEAP : Z := 2.
Definition FLB_CRYPTO_PADDING_PKCS1_X931 : Z := 3.
Definition FLB_CRYPTO_PADDING_PKCS1_PSS : Z := 4.
Definition FLB_HASH_NONE : Z := 0.
Definition FLB_HASH_MD5 : Z := 1.
Definition FLB_HASH_SHA256 : Z := 2.
Definition FLB_HASH_SHA512 : Z := 3.
Definition FLB_CRYPTO_OPERATION_NONE : Z := 0.
Definition FLB_CRYPTO_OPERATION_SIGN : Z := 1.
Definition FLB_CRYPTO_OPERATION_ENCRYPT : Z := 2.
Definition FLB_CRYPTO_OPERATION_DECRYPT : Z := 3.

(** ** [F/flb_engine.h] *)

Definition FLB_ENGINE_OUTPUT_EVENT_BATCH_SIZE : Z := 1.

(** ** [F/flb_env.h] *)

Definition FLB_ENV_SIZE : Z := 64.

(** ** [F/flb_error.h] *)

Definition FLB_ERR_CFG_FILE : Z := 10.
Definition FLB_ERR_CFG_FILE_FORMAT : Z := 11.
Definition FLB_ERR_CFG_FILE_STOP : Z := 12.
Definition FLB_ERR_CFG_FLUSH : Z := 20.
Definition FLB_ERR_CFG_FLUSH_CREATE : Z := 21.
Definition FLB_ERR_CFG_FLUSH_REGISTER : Z := 22.
Definition FLB_ERR_CUSTOM_INVALID : Z := 49.
Definition FLB_ERR_INPUT_INVALID : Z := 50.
Definition FLB_ERR_INPUT_UNDEF : Z := 51.
Definition FLB_ERR_INPUT_UNSUP : Z := 52.
Definition FLB_ERR_OUTPUT_UNDEF : Z := 100.
Definition FLB_ERR_OUTPUT_INVALID : Z := 101.
Definition FLB_ERR_OUTPUT_UNIQ : Z := 102.
Definition FLB_ERR_FILTER_INVALID : Z := 201.
Definition FLB_ERR_CFG_PARSER_FILE : Z := 300.
Definition FLB_ERR_CFG_PLUGIN_FILE : Z := 400.
Definition FLB_ERR_JSON_INVAL : Z := -501.
Definition FLB_ERR_JSON_PART : Z := -502.
Definition FLB_ERR_CORO_STACK_SIZE : Z := -600.
Definition FLB_ERR_RELOADING_IN_PROGRESS : Z := 700.

(** ** [F/flb_filter.h] *)

Definition FLB_FILTER_MODIFIED : Z := 1.
Definition FLB_FILTER_NOTOUCH : Z := 2.
Definition FLB_FILTER_LOGS : Z := 1.
Definition FLB_FILTER_METRICS : Z := 2.
Definition FLB_FILTER_TRACES : Z := 4.

(** ** [F/flb_fstore.h] *)

Definition FLB_FSTORE_LOCK : Z := 222.
Definition FLB_FSTORE_UNLOCK : Z := 333.

(** ** [F/flb_hash_table.h] *)

Definition FLB_HASH_TABLE_EVICT_NONE : Z := 0.
Definition FLB_HASH_TABLE_EVICT_OLDER : Z := 1.
Definition FLB_HASH_TABLE_EVICT_LESS_USED : Z := 2.
Definition FLB_HASH_TABLE_EVICT_RANDOM : Z := 3.

(** ** [F/flb_help.h] *)

Definition FLB_HELP_SCHEMA_VERSION : string := "1"%string.
Definition FLB_HELP_PLUGIN_CUSTOM : Z := 0.
Definition FLB_HELP_PLUGIN_INPUT : Z := 1.
Definition FLB_HELP_PLUGIN_OUTPUT : Z := 2.
Definition FLB_HELP_PLUGIN_FILTER : Z := 3.

(** ** [F/flb_http_client.h] *)

Definition FLB_HTTP_BUF_SIZE : Z := 2048.
Definition FLB_HTTP_DATA_SIZE_MAX : Z := 4096.
Definition FLB_HTTP_DATA_CHUNK : Z := 32768.
Definition FLB_HTTP_GET : Z := 0.
Definition FLB_HTTP_POST : Z := 1.
Definition FLB_HTTP_PUT : Z := 2.
Definition FLB_HTTP_HEAD : Z := 3.
Definition FLB_HTTP_CONNECT : Z := 4.
Definition FLB_HTTP_PATCH : Z := 5.
Definition FLB_HTTP_10 : Z := 1.
Definition FLB_HTTP_11 : Z := 2.
Definition FLB_HTTP_KA : Z := 16.
Definition FLB_HTTP_PROXY_NONE : Z := 0.
Definition FLB_HTTP_PROXY_HTTP : Z := 1.
Definition FLB_HTTP_PROXY_HTTPS : Z := 2.
Definition FLB_HTTP_ERROR : Z := -1.
Definition FLB_HTTP_MORE : Z := 0.
Definition FLB_HTTP_OK : Z := 1.
Definition FLB_HTTP_NOT_FOUND : Z := 2.
Definition FLB_HTTP_HEADER_AUTH : string := "Authorization"%string.
Definition FLB_HTTP_HEADER_PROXY_AUTH : string := "Proxy-Authorization"%string.
Definition FLB_HTTP_HEADER_CONTENT_TYPE : string := "Content-Type"%string.
Definition FLB_HTTP_HEADER_CONTENT_ENCODING : string := "Content-Encoding"%string.
Definition FLB_HTTP_HEADER_CONNECTION : string := "Connection"%string.
Definition FLB_HTTP_HEADER_KA : string := "keep-alive"%string.

(** ** [F/flb_info.h] *)

Definition FLB_MSGPACK_TO_JSON_INIT_BUFFER_SIZE : string := "2.0"%string.
Definition FLB_MSGPACK_TO_JSON_REALLOC_BUFFER_SIZE : string := "0.10"%string.

(** ** [F/flb_input.h] *)

Definition FLB_COLLECT_TIME : Z := 1.
Definition FLB_COLLECT_FD_EVENT : Z := 2.
Definition FLB_COLLECT_FD_SERVER : Z := 4.
Definition FLB_INPUT_NET : Z := 4.
Definition FLB_INPUT_PLUGIN_CORE : Z := 0.
Definition FLB_INPUT_PLUGIN_PROXY : Z := 1.
Definition FLB_INPUT_CORO : Z := 128.
Definition FLB_INPUT_PRIVATE : Z := 256.
Definition FLB_INPUT_NOTAG : Z := 512.
Definition FLB_INPUT_THREADED : Z := 1024.
Definition FLB_INPUT_NET_SERVER : Z := 2048.

(** ** [F/flb_input_chunk.h] *)

Definition FLB_INPUT_CHUNK_SIZE : Z := 262144.
Definition FLB_INPUT_CHUNK_FS_MAX_SIZE : Z := 2048000.
Definition FLB_INPUT_CHUNK_META_HEADER : Z := 4.
Definition FLB_INPUT_CHUNK_MAGIC_BYTE_0 : Z := 241.
Definition FLB_INPUT_CHUNK_MAGIC_BYTE_1 : Z := 119.
Definition FLB_INPUT_CHUNK_TYPE_LOGS : Z := 0.
Definition FLB_INPUT_CHUNK_TYPE_METRICS : Z := 1.
Definition FLB_INPUT_CHUNK_TYPE_TRACES : Z := 2.
Definition FLB_INPUT_CHUNK_TAG_MAX : Z := 65535 - FLB_INPUT_CHUNK_META_HEADER.

(** ** [F/flb_input_thread.h] *)

Definition FLB_INPUT_THREAD_TO_PARENT : Z := 1.
Definition FLB_INPUT_THREAD_TO_THREAD : Z := 2.
Definition FLB_INPUT_THREAD_PAUSE : Z := 1.
Definition FLB_INPUT_THREAD_RESUME : Z := 2.
Definition FLB_INPUT_THREAD_EXIT : Z := 3.
Definition FLB_INPUT_THREAD_START_COLLECTORS : Z := 4.
Definition FLB_INPUT_THREAD_OK : Z := 5.
Definition FLB_INPUT_THREAD_ERROR : Z := 6.
Definition FLB_INPUT_THREAD_NOT_READY : Z := 7.

(** ** [F/flb_kafka.h] *)

Definition FLB_KAFKA_BROKERS : string := "127.0.0.1"%string.
Definition FLB_KAFKA_TOPIC : string := "fluent-bit"%string.

(** ** [F/flb_lib.h] *)

Definition FLB_LIB_ERROR : Z := -1.
Definition FLB_LIB_NONE : Z := 0.
Definition FLB_LIB_OK : Z := 1.
Definition FLB_LIB_NO_CONFIG_MAP : Z := 2.

(** ** [F/flb_log.h] *)

Definition FLB_LOG_STDERR : Z := 0.
Definition FLB_LOG_FILE : Z := 1.
Definition FLB_LOG_SOCKET : Z := 2.
Definition FLB_LOG_EVENT : Z := MK_EVENT_NOTIFICATION.
Definition FLB_LOG_MNG : Z := 1024.
Definition FLB_LOG_CACHE_ENTRIES : Z := 10.
Definition FLB_LOG_CACHE_TEXT_BUF_SIZE : Z := 1024.

(** ** [F/flb_log_event_decoder.h] *)

Definition FLB_EVENT_DECODER_SUCCESS : Z := 0.
Definition FLB_EVENT_DECODER_ERROR_INITIALIZATION_FAILURE : Z := -1.
Definition FLB_EVENT_DECODER_ERROR_INVALID_CONTEXT : Z := -2.
Definition FLB_EVENT_DECODER_ERROR_INVALID_ARGUMENT : Z := -3.
Definition FLB_EVENT_DECODER_ERROR_WRONG_ROOT_TYPE : Z := -4.
Definition FLB_EVENT_DECODER_ERROR_WRONG_ROOT_SIZE : Z := -5.
Definition FLB_EVENT_DECODER_ERROR_WRONG_HEADER_TYPE : Z := -6.
Definition FLB_EVENT_DECODER_ERROR_WRONG_HEADER_SIZE : Z := -7.
Definition FLB_EVENT_DECODER_ERROR_WRONG_TIMESTAMP_TYPE : Z := -8.
Definition FLB_EVENT_DECODER_ERROR_WRONG_METADATA_TYPE : Z := -9.
Definition FLB_EVENT_DECODER_ERROR_WRONG_BODY_TYPE : Z := -10.
Definition FLB_EVENT_DECODER_ERROR_DESERIALIZATION_FAILURE : Z := -11.
Definition FLB_EVENT_DECODER_ERROR_INSUFFICIENT_DATA : Z := -12.
Definition FLB_LOG_EVENT_EXPECTED_ROOT_ELEMENT_COUNT : Z := 2.
Definition FLB_LOG_EVENT_EXPECTED_HEADER_ELEMENT_COUNT : Z := 2.

(** ** [F/flb_lua.h] *)

Definition FLB_LUA_L2C_TYPES_NUM_MAX : Z := 16.

(** ** [F/flb_metrics.h] *)

Definition FLB_METRIC_N_RECORDS : Z := 0.
Definition FLB_METRIC_N_BYTES : Z := 1.
Definition FLB_METRIC_N_DROPPED : Z := 2.
Definition FLB_METRIC_N_ADDED : Z := 3.
Definition FLB_METRIC_OUT_OK_RECORDS : Z := 10.
Definition FLB_METRIC_OUT_OK_BYTES : Z := 11.
Definition FLB_METRIC_OUT_ERROR : Z := 12.
Definition FLB_METRIC_OUT_RETRY : Z := 13.
Definition FLB_METRIC_OUT_RETRY_FAILED : Z := 14.
Definition FLB_METRIC_OUT_DROPPED_RECORDS : Z := 15.
Definition FLB_METRIC_OUT_RETRIED_RECORDS : Z := 16.

(** ** [F/flb_network.h] *)

Definition FLB_NETWORK_DEFAULT_BACKLOG_SIZE : Z := 128.
Definition FLB_NETWORK_UNIX_SOCKET_PEER_ADDRESS_TEMPLATE : string := "pid_%s"%string.
Definition FLB_NETWORK_ADDRESS_UNAVAILABLE : string := "unavailable"%string.
Definition FLB_DNS_LEGACY : Z := 76.
Definition FLB_DNS_ASYNC : Z := 65.
Definition FLB_DNS_USE_TCP : Z := 84.
Definition FLB_DNS_USE_UDP : Z := 85.

(** ** [F/flb_oauth2.h] *)

Definition FLB_OAUTH2_PORT : string := "443"%string.
Definition FLB_OAUTH2_HTTP_ENCODING : string := "application/x-www-form-urlencoded"%string.

(** ** [F/flb_output.h] *)

Definition FLB_OUTPUT_NET : Z := 32.
Definition FLB_OUTPUT_PLUGIN_CORE : Z := 0.
Definition FLB_OUTPUT_PLUGIN_PROXY : Z := 1.
Definition FLB_OUTPUT_NO_MULTIPLEX : Z := 512.
Definition FLB_OUTPUT_PRIVATE : Z := 1024.
Definition FLB_OUTPUT_SYNCHRONOUS : Z := 2048.
Definition FLB_OUT_RETRY_UNLIMITED : Z := -1.
Definition FLB_OUT_RETRY_NONE : Z := 0.

(** ** [F/flb_pack.h] *)

Definition FLB_PACK_JSON_DATE_DOUBLE : Z := 0.
Definition FLB_PACK_JSON_DATE_ISO8601 : Z := 1.
Definition FLB_PACK_JSON_DATE_EPOCH : Z := 2.
Definition FLB_PACK_JSON_DATE_JAVA_SQL_TIMESTAMP : Z := 3.
Definition FLB_PACK_JSON_DATE_EPOCH_MS : Z := 4.
Definition FLB_PACK_JSON_DATE_ISO8601_FMT : string := "%Y-%m-%dT%H:%M:%S"%string.
Definition FLB_PACK_JSON_DATE_JAVA_SQL_TIMESTAMP_FMT : string := "%Y-%m-%d %H:%M:%S"%string.
Definition FLB_PACK_JSON_FORMAT_NONE : Z := 0.
Definition FLB_PACK_JSON_FORMAT_JSON : Z := 1.
Definition FLB_PACK_JSON_FORMAT_STREAM : Z := 2.
Definition FLB_PACK_JSON_FORMAT_LINES : Z := 3.

(** ** [F/flb_parser.h] *)

Definition FLB_PARSER_REGEX : Z := 1.
Definition FLB_PARSER_JSON : Z := 2.
Definition FLB_PARSER_LTSV : Z := 3.
Definition FLB_PARSER_LOGFMT : Z := 4.

(** ** [F/flb_parser_decoder.h] *)

Definition FLB_PARSER_DEC_DEFAULT : Z := 0.
Definition FLB_PARSER_DEC_AS : Z := 1.
Definition FLB_PARSER_DEC_JSON : Z := 0.
Definition FLB_PARSER_DEC_ESCAPED : Z := 1.
Definition FLB_PARSER_DEC_ESCAPED_UTF8 : Z := 2.
Definition FLB_PARSER_DEC_MYSQL_QUOTED : Z := 3.
Definition FLB_PARSER_ACT_NONE : Z := 0.
Definition FLB_PARSER_ACT_TRY_NEXT : Z := 1.
Definition FLB_PARSER_ACT_DO_NEXT : Z := 2.
Definition FLB_PARSER_DEC_BUF_SIZE : Z := 1024*8.

(** ** [F/flb_plugin.h] *)

Definition FLB_PLUGIN_INPUT : Z := 1.
Definition FLB_PLUGIN_FILTER : Z := 2.
Definition FLB_PLUGIN_OUTPUT : Z := 3.
Definition FLB_PLUGIN_PROCESSOR : Z := 4.

(** ** [F/flb_plugin_proxy.h] *)

Definition FLB_PROXY_INPUT_PLUGIN : Z := 1.
Definition FLB_PROXY_OUTPUT_PLUGIN : Z := 2.
Definition FLB_PROXY_GOLANG : Z := 11.

(** ** [F/flb_processor.h] *)

Definition FLB_PROCESSOR_SUCCESS : Z := 0.
Definition FLB_PROCESSOR_FAILURE : Z := -1.
Definition FLB_PROCESSOR_LOGS : Z := 1.
Definition FLB_PROCESSOR_METRICS : Z := 2.
Definition FLB_PROCESSOR_TRACES : Z := 4.
Definition FLB_PROCESSOR_UNIT_NATIVE : Z := 0.
Definition FLB_PROCESSOR_UNIT_FILTER : Z := 1.
Definition FLB_PROCESSOR_LOCK_RETRY_LIMIT : Z := 40.
Definition FLB_PROCESSOR_LOCK_RETRY_DELAY : Z := 50000.

(** ** [F/flb_reload.h] *)

Definition FLB_RELOAD_IDLE : Z := 0.
Definition FLB_RELOAD_IN_PROGRESS : Z := 1.

(** ** [F/flb_routes_mask.h] *)

Definition FLB_ROUTES_MASK_ELEMENTS : Z := 4.
Definition FLB_ROUTES_MASK_ELEMENT_BITS : Z := 8 * 8.
Definition FLB_ROUTES_MASK_MAX_VALUE : Z := FLB_ROUTES_MASK_ELEMENTS * FLB_ROUTES_MASK_ELEMENT_BITS.

(** ** [F/flb_scheduler.h] *)

Definition FLB_SCHED_CAP : Z := 2000.
Definition FLB_SCHED_BASE : Z := 5.
Definition FLB_SCHED_REQUEST_FRAME : Z := 10.
Definition FLB_SCHED_TIMER_REQUEST : Z := 1.
Definition FLB_SCHED_TIMER_FRAME : Z := 2.

(** ** [F/flb_signv4.h] *)

Definition S3_MODE_NONE : Z := 0.
Definition S3_MODE_SIGNED_PAYLOAD : Z := 1.
Definition S3_MODE_UNSIGNED_PAYLOAD : Z := 2.

(** ** [F/flb_snappy.h] *)

Definition FLB_SNAPPY_STREAM_IDENTIFIER_STRING : string := "sNaPpY"%string.
Definition FLB_SNAPPY_FRAME_SIZE_LIMIT : Z := 65540.
Definition FLB_SNAPPY_FRAME_TYPE_STREAM_IDENTIFIER : Z := 255.
Definition FLB_SNAPPY_FRAME_TYPE_COMPRESSED_DATA : Z := 0.
Definition FLB_SNAPPY_FRAME_TYPE_UNCOMPRESSED_DATA : Z := 1.
Definition FLB_SNAPPY_FRAME_TYPE_RESERVED_UNSKIPPABLE_BASE : Z := 2.
Definition FLB_SNAPPY_FRAME_TYPE_RESERVED_UNSKIPPABLE_TOP : Z := 127.
Definition FLB_SNAPPY_FRAME_TYPE_RESERVED_SKIPPABLE_BASE : Z := 128.
Definition FLB_SNAPPY_FRAME_TYPE_RESERVED_SKIPPABLE_TOP : Z := 253.
Definition FLB_SNAPPY_FRAME_TYPE_PADDING : Z := 254.

(** ** [F/flb_storage.h] *)

Definition FLB_STORAGE_BL_MEM_LIMIT : string := "100M"%string.
Definition FLB_STORAGE_MAX_CHUNKS_UP : Z := 128.

(** ** [F/flb_thread_pool.h] *)

Definition FLB_THREAD_POOL_ERROR : Z := -1.
Definition FLB_THREAD_POOL_NONE : Z := 0.
Definition FLB_THREAD_POOL_RUNNING : Z := 1.
Definition FLB_THREAD_POOL_STOPPED : Z := 2.

(** ** [F/flb_uri.h] *)

Definition FLB_URI_MAX : Z := 8.

(** ** [F/flb_version.h] *)

Definition FLB_VERSION_MAJOR : Z := 2.
Definition FLB_VERSION_MINOR : Z := 1.
Definition FLB_VERSION_PATCH : Z := 9.

(** ** [F/config_format/flb_cf.h] *)

Definition FLB_CF_ERROR_SERVICE_EXISTS : string := "SERVICE definition already exists"%string.
Definition FLB_CF_ERROR_META_CHAR : string := "invalid first meta character: '@' expected"%string.
Definition FLB_CF_ERROR_KV_INVALID_KEY : string := "invalid key content"%string.
Definition FLB_CF_ERROR_KV_INVALID_VAL : string := "invalid value content"%string.

(** ** [F/tls/flb_tls.h] *)

Definition FLB_TLS_CLIENT : string := "Fluent Bit"%string.
Definition FLB_TLS_WANT_READ : Z := -2020.
Definition FLB_TLS_WANT_WRITE : Z := -2022.
Definition FLB_TLS_CA_ROOT : Z := 1.
Definition FLB_TLS_CERT : Z := 2.
Definition FLB_TLS_PRIV_KEY : Z := 4.
Definition FLB_TLS_UNKNOWN_CONNECTION : Z := 0.
Definition FLB_TLS_UPSTREAM_CONNECTION : Z := 1.
Definition FLB_TLS_DOWNSTREAM_CONNECTION : Z := 2.
Definition FLB_TLS_CLIENT_MODE : Z := 0.
Definition FLB_TLS_SERVER_MODE : Z := 1.

(** ** [M/mk_dep_unistd.h] *)

Definition R_OK : Z := 4.
Definition W_OK : Z := 2.
Definition F_OK : Z := 0.
Definition STDIN_FILENO : Z := 0.
Definition STDOUT_FILENO : Z := 1.
Definition STDERR_FILENO : Z := 2.

(** ** [M/mk_event.h] *)

Definition MK_EP_SOCKET_CLOSED : Z := 0.
Definition MK_EP_SOCKET_ERROR : Z := 1.
Definition MK_EP_SOCKET_TIMEOUT : Z := 2.
Definition MK_EP_SOCKET_DONE : Z := 3.

(** ** [M/mk_file.h] *)

Definition MK_FILE_EXISTS : Z := 1.
Definition MK_FILE_READ : Z := 2.
Definition MK_FILE_EXEC : Z := 4.

(** ** [M/mk_iov.h] *)

Definition MK_IOV_SPACE : string := " "%string.
Definition MK_IOV_SLASH : string := "/"%string.
Definition MK_IOV_NONE : string := EmptyString.
Definition MK_IOV_EQUAL : string := "="%string.

(** ** [M/mk_limits.h] *)

Definition MK_HOSTNAME_LEN : Z := 64.
Definition MK_SOMAXCONN : Z := 128.
Definition MK_PATH_BASE : Z := 128.

(** ** [M/mk_macros.h] *)

Definition MK_INFO : Z := 4096.
Definition MK_ERR : Z := 4097.
Definition MK_WARN : Z := 4098.
Definition MK_BUG : Z := 4099.
Definition MK_TRANSPORT_HTTP : string := "http"%string.
Definition MK_TRANSPORT_HTTPS : string := "https"%string.

(** ** [M/mk_rconf.h] *)

Definition MK_RCONF_ON : string := "on"%string.
Definition MK_RCONF_OFF : string := "off"%string.
Definition MK_RCONF_STR : Z := 0.
Definition MK_RCONF_NUM : Z := 1.
Definition MK_RCONF_BOOL : Z := 2.
Definition MK_RCONF_LIST : Z := 3.
Definition MK_RCONF_KV_SIZE : Z := 4096.

(** ** [M/mk_string.h] *)

Definition MK_STR_SENSITIVE : Z := 0.
Definition MK_STR_INSENSITIVE : Z := 1.

(** ** [M/mk_thread.h] *)

Definition MK_THREAD_DEAD : Z := 0.
Definition MK_THREAD_READY : Z := 1.
Definition MK_THREAD_RUNNING : Z := 2.
Definition MK_THREAD_SUSPEND : Z := 3.

(** ** [M/mk_thread_channel.h] *)

Definition MK_THREAD_CHANNEL_OK : Z := 0.

(** ** [M/mk_utils.h] *)

Definition MK_TRACE_CORE : Z := 0.
Definition MK_TRACE_PLUGIN : Z := 1.
Definition MK_TRACE_COMP_CORE : string := "mk"%string.
Definition MK_UTILS_ERROR_SIZE : Z := 128.

(** ** [F/flb_input_chunk.h], [F/flb_event.h] *)

(** [1 << 31] on a signed integer of 32 bits: no value of the type. *)
Definition FLB_INPUT_CHUNK_HAS_TRACE : option Z :=
  let r := Z.shiftl 1 31 in if decide (- 2 ^ 31 ≤ r < 2 ^ 31) then Some r else None.
Definition FLB_EVENT_TYPE_HAS_TRACE : option Z := FLB_INPUT_CHUNK_HAS_TRACE.

(** ** [M/mk_iov.h] *)

Definition LF : string := String (Ascii.ascii_of_nat 10) EmptyString.
Definition CR : string := String (Ascii.ascii_of_nat 13) EmptyString.
Definition MK_IOV_CRLF : string := CR +:+ LF.
Definition MK_IOV_CRLFCRLF : string := CR +:+ LF +:+ CR +:+ LF.
Definition MK_IOV_LF : string := LF.
Definition MK_IOV_LFLF : string := LF +:+ LF.
Definition MK_IOV_LFLFLFLF : string := LF +:+ LF +:+ LF +:+ LF.

(** ** [F/flb_config.h], continued *)

Definition FLB_CONF_STORAGE_DELETE_IRRECOVERABLE_CHUNKS : string := "storage.delete_irrecoverable_chunks"%string.

(** ** [F/flb_connection.h], continued *)

(** A label, an address and a port, with the brackets and the colons between
    them. *)
Definition FLB_CONNECTION_MAX_USER_FRIENDLY_ADDRESS_LENGTH : Z :=
  FLB_CONNECTION_MAX_ADDRESS_LENGTH + FLB_CONNECTION_MAX_PORT_LENGTH + FLB_CONNECTION_MAX_LABEL_LENGTH.

(** ** [F/flb_pack.h], continued *)

Definition FBL_PACK_JSON_DATE_FORMAT_DESCRIPTION : string :=
  "Specify the format of the date, " +:+ "supported formats: double, " +:+
  "iso8601 (e.g: 2018-05-30T09:39:52.000681Z), " +:+
  "java_sql_timestamp (e.g: 2018-05-30 09:39:52.000681, useful for AWS Athena), " +:+
  "and epoch.".

(** * Enumerations *)

(** [flb_typecast_type_t] *)
Inductive flb_typecast_type_t :=
  FLB_TYPECAST_TYPE_NUMBER | FLB_TYPECAST_TYPE_INT | FLB_TYPECAST_TYPE_UINT | FLB_TYPECAST_TYPE_FLOAT
| FLB_TYPECAST_TYPE_BOOL | FLB_TYPECAST_TYPE_STR | FLB_TYPECAST_TYPE_HEX | FLB_TYPECAST_TYPE_ERROR.

(** [enum ra_types] *)
Inductive ra_types := FLB_RA_BOOL | FLB_RA_INT | FLB_RA_FLOAT | FLB_RA_STRING | FLB_RA_NULL.

(** The results of the CSV parser, in [F/flb_csv.h]. *)
Inductive flb_csv_result := FLB_CSV_SUCCESS | FLB_CSV_ALLOC_FAILED | FLB_CSV_INVALID_STATE | FLB_CSV_EOF.
Definition flb_csv_result_value (r : flb_csv_result) : Z :=
  match r with
  | FLB_CSV_SUCCESS => 0
  | FLB_CSV_ALLOC_FAILED => -1
  | FLB_CSV_INVALID_STATE => -2
  | FLB_CSV_EOF => -3
  end.

(** The types a parser gives to values, in [F/flb_parser.h]. *)
Inductive flb_parser_type :=
  FLB_PARSER_TYPE_INT | FLB_PARSER_TYPE_FLOAT | FLB_PARSER_TYPE_BOOL | FLB_PARSER_TYPE_STRING | FLB_PARSER_TYPE_HEX.
Definition flb_parser_type_value (t : flb_parser_type) : Z :=
  match t with
  | FLB_PARSER_TYPE_INT => 1
  | FLB_PARSER_TYPE_FLOAT => 2
  | FLB_PARSER_TYPE_BOOL => 3
  | FLB_PARSER_TYPE_STRING => 4
  | FLB_PARSER_TYPE_HEX => 5
  end.

(** [enum conf_type] *)
Inductive conf_type := FLB_CONF_TYPE_INT | FLB_CONF_TYPE_DOUBLE | FLB_CONF_TYPE_BOOL | FLB_CONF_TYPE_STR | FLB_CONF_TYPE_OTHER.

(** [enum cf_file_format]; YAML depends on the build. *)
Inductive cf_file_format := FLB_CF_FLUENTBIT | FLB_CF_YAML.
Definition FLB_CF_CLASSIC : cf_file_format := FLB_CF_FLUENTBIT.

(** [enum section_type] *)
Inductive section_type :=
  FLB_CF_SERVICE | FLB_CF_PARSER | FLB_CF_MULTILINE_PARSER | FLB_CF_CUSTOM | FLB_CF_INPUT | FLB_CF_FILTER | FLB_CF_OUTPUT | FLB_CF_OTHER.

(** [enum flb_lua_l2c_type_enum] *)
Inductive flb_lua_l2c_type_enum := FLB_LUA_L2C_TYPE_INT | FLB_LUA_L2C_TYPE_ARRAY.

(** [enum flb_time_eventtime_fmt] *)
Inductive flb_time_eventtime_fmt :=
  FLB_TIME_ETFMT_INT | FLB_TIME_ETFMT_V0 | FLB_TIME_ETFMT_V1_EXT | FLB_TIME_ETFMT_V1_FIXEXT | FLB_TIME_ETFMT_OTHER.

(** * Flags *)

(** The flags [fs] in one word. *)
Definition mask (fs : list Z) : Z := foldr Z.lor 0 fs.

(** No two of them share a bit, none is zero. *)
Fixpoint independent (fs : list Z) : bool :=
  match fs with
  | [] => true
  | f :: fs => bool_decide (f ≠ 0) && bool_decide (Z.land f (mask fs) = 0) && independent fs
  end.

Lemma land_mask f fs : Forall (λ g, Z.land f g = 0) fs → Z.land f (mask fs) = 0.
Proof.
  induction 1 as [|g fs Hg _ IH]; simpl; [apply Z.land_0_r|]. by rewrite Z.land_lor_distr_r, Hg, IH.
Qed.

Lemma independent_pair fs f g : independent fs = true → f ∈ fs → g ∈ fs → f ≠ g → Z.land f g = 0.
Proof.
  induction fs as [|x fs IH]; simpl; [by intros _ ?%elem_of_nil|].
  intros [[_ Hx%bool_decide_eq_true]%andb_true_iff Hfs]%andb_true_iff.
  assert (Hin : ∀ y, y ∈ fs → Z.land x y = 0).
  { intros y Hy. clear IH Hfs. induction fs as [|z fs IH]; [by apply elem_of_nil in Hy|]. simpl in Hx.
    rewrite Z.land_lor_distr_r, Z.lor_eq_0_iff in Hx. apply elem_of_cons in Hy as [->|Hy]; [tauto|]. apply IH; tauto. }
  intros [Ef|Hf]%elem_of_cons [Eg|Hg]%elem_of_cons Hne.
  - congruence.
  - subst f. by apply Hin.
  - subst g. rewrite Z.land_comm. by apply Hin.
  - by apply IH.
Qed.

(** The flags that go together in one word, header by header. *)
Definition flag_words : list (list Z) :=
  [[FLB_HTTP_10; FLB_HTTP_11; FLB_HTTP_KA];
   [FLB_COLLECT_TIME; FLB_COLLECT_FD_EVENT; FLB_COLLECT_FD_SERVER];
   [FLB_INPUT_NET; FLB_INPUT_CORO; FLB_INPUT_PRIVATE; FLB_INPUT_NOTAG; FLB_INPUT_THREADED; FLB_INPUT_NET_SERVER];
   [FLB_OUTPUT_NET; FLB_OUTPUT_NO_MULTIPLEX; FLB_OUTPUT_PRIVATE; FLB_OUTPUT_SYNCHRONOUS];
   [FLB_OUTPUT_LOGS; FLB_OUTPUT_METRICS; FLB_OUTPUT_TRACES];
   [FLB_FILTER_LOGS; FLB_FILTER_METRICS; FLB_FILTER_TRACES];
   [FLB_PROCESSOR_LOGS; FLB_PROCESSOR_METRICS; FLB_PROCESSOR_TRACES];
   [FLB_IO_TCP; FLB_IO_TLS; FLB_IO_OPT_TLS; FLB_IO_ASYNC; FLB_IO_TCP_KA; FLB_IO_IPV6];
   [FLB_TLS_CA_ROOT; FLB_TLS_CERT; FLB_TLS_PRIV_KEY];
   [MK_FILE_EXISTS; MK_FILE_READ; MK_FILE_EXEC];
   [R_OK; W_OK]].

(** In a word made of some flags of a header, testing a flag tells whether it
    is one of them. *)
Theorem flags_exact fs set f :
  fs ∈ flag_words → set ⊆ fs → f ∈ fs → Z.land (mask set) f ≠ 0 ↔ f ∈ set.
Proof.
  assert (Hall : forallb independent flag_words = true) by (vm_compute; reflexivity).
  rewrite forallb_forall in Hall. intros Hfs%list_elem_of_In%Hall Hsub Hf. split.
  - intros Hne. destruct (decide (f ∈ set)) as [|Hnin]; [done|]. contradict Hne. rewrite Z.land_comm. apply land_mask.
    apply Forall_forall. intros g Hg. apply (independent_pair fs); auto. by intros ->.
  - intros Hin. assert (Hpos : f ≠ 0).
    { clear -Hfs Hf. induction fs as [|x fs IH]; [by apply elem_of_nil in Hf|]. simpl in Hfs.
      rewrite !andb_true_iff, bool_decide_eq_true in Hfs. apply elem_of_cons in Hf as [->|Hf]; [tauto|]. apply IH; tauto. }
    clear -Hin Hpos. induction set as [|g set IH]; [by apply elem_of_nil in Hin|]. simpl.
    rewrite Z.land_lor_distr_l, Z.lor_eq_0_iff. apply elem_of_cons in Hin as [<-|Hin].
    + rewrite Z.land_diag. tauto.
    + specialize (IH Hin). tauto.
Qed.

(** The masks of the plugins are in the word that also has the network modes
    of the plugin: two of them are the same bits. *)
Lemma plugin_masks_shared : FLB_INPUT_NET = FLB_IO_OPT_TLS ∧ FLB_OUTPUT_NET = FLB_IO_IPV6.
Proof. done. Qed.

(** * Codes *)

(** Codes of which one is given. *)
Definition alternatives : list (list Z) :=
  [[FLB_CHUNK_TRACE_TYPE_INPUT; FLB_CHUNK_TRACE_TYPE_FILTER; FLB_CHUNK_TRACE_TYPE_PRE_OUTPUT; FLB_CHUNK_TRACE_TYPE_OUTPUT];
   [FLB_DECOMPRESSOR_STATE_FAILED; FLB_DECOMPRESSOR_STATE_EXPECTING_HEADER; FLB_DECOMPRESSOR_STATE_EXPECTING_OPTIONAL_HEADERS;
    FLB_DECOMPRESSOR_STATE_EXPECTING_BODY; FLB_DECOMPRESSOR_STATE_EXPECTING_FOOTER];
   [FLB_CRYPTO_SUCCESS; FLB_CRYPTO_BACKEND_ERROR; FLB_CRYPTO_INVALID_STATE; FLB_CRYPTO_INVALID_ARGUMENT; FLB_CRYPTO_ALLOCATION_ERROR];
   [FLB_CRYPTO_PADDING_NONE; FLB_CRYPTO_PADDING_PKCS1; FLB_CRYPTO_PADDING_PKCS1_OEAP; FLB_CRYPTO_PADDING_PKCS1_X931; FLB_CRYPTO_PADDING_PKCS1_PSS];
   [FLB_HASH_NONE; FLB_HASH_MD5; FLB_HASH_SHA256; FLB_HASH_SHA512];
   [FLB_CRYPTO_OPERATION_NONE; FLB_CRYPTO_OPERATION_SIGN; FLB_CRYPTO_OPERATION_ENCRYPT; FLB_CRYPTO_OPERATION_DECRYPT];
   [FLB_ERR_CFG_FILE; FLB_ERR_CFG_FILE_FORMAT; FLB_ERR_CFG_FILE_STOP; FLB_ERR_CFG_FLUSH; FLB_ERR_CFG_FLUSH_CREATE;
    FLB_ERR_CFG_FLUSH_REGISTER; FLB_ERR_CUSTOM_INVALID; FLB_ERR_INPUT_INVALID; FLB_ERR_INPUT_UNDEF; FLB_ERR_INPUT_UNSUP;
    FLB_ERR_OUTPUT_UNDEF; FLB_ERR_OUTPUT_INVALID; FLB_ERR_OUTPUT_UNIQ; FLB_ERR_FILTER_INVALID; FLB_ERR_CFG_PARSER_FILE;
    FLB_ERR_CFG_PLUGIN_FILE; FLB_ERR_JSON_INVAL; FLB_ERR_JSON_PART; FLB_ERR_CORO_STACK_SIZE; FLB_ERR_RELOADING_IN_PROGRESS];
   [FLB_HASH_TABLE_EVICT_NONE; FLB_HASH_TABLE_EVICT_OLDER; FLB_HASH_TABLE_EVICT_LESS_USED; FLB_HASH_TABLE_EVICT_RANDOM];
   [FLB_HELP_PLUGIN_CUSTOM; FLB_HELP_PLUGIN_INPUT; FLB_HELP_PLUGIN_OUTPUT; FLB_HELP_PLUGIN_FILTER];
   [FLB_HTTP_GET; FLB_HTTP_POST; FLB_HTTP_PUT; FLB_HTTP_HEAD; FLB_HTTP_CONNECT; FLB_HTTP_PATCH];
   [FLB_HTTP_PROXY_NONE; FLB_HTTP_PROXY_HTTP; FLB_HTTP_PROXY_HTTPS];
   [FLB_HTTP_ERROR; FLB_HTTP_MORE; FLB_HTTP_OK; FLB_HTTP_NOT_FOUND];
   [FLB_INPUT_CHUNK_TYPE_LOGS; FLB_INPUT_CHUNK_TYPE_METRICS; FLB_INPUT_CHUNK_TYPE_TRACES];
   [FLB_INPUT_THREAD_PAUSE; FLB_INPUT_THREAD_RESUME; FLB_INPUT_THREAD_EXIT; FLB_INPUT_THREAD_START_COLLECTORS;
    FLB_INPUT_THREAD_OK; FLB_INPUT_THREAD_ERROR; FLB_INPUT_THREAD_NOT_READY];
   [FLB_LIB_ERROR; FLB_LIB_NONE; FLB_LIB_OK; FLB_LIB_NO_CONFIG_MAP];
   [FLB_LOG_STDERR; FLB_LOG_FILE; FLB_LOG_SOCKET];
   [FLB_EVENT_DECODER_SUCCESS; FLB_EVENT_DECODER_ERROR_INITIALIZATION_FAILURE; FLB_EVENT_DECODER_ERROR_INVALID_CONTEXT;
    FLB_EVENT_DECODER_ERROR_INVALID_ARGUMENT; FLB_EVENT_DECODER_ERROR_WRONG_ROOT_TYPE; FLB_EVENT_DECODER_ERROR_WRONG_ROOT_SIZE;
    FLB_EVENT_DECODER_ERROR_WRONG_HEADER_TYPE; FLB_EVENT_DECODER_ERROR_WRONG_HEADER_SIZE;
    FLB_EVENT_DECODER_ERROR_WRONG_TIMESTAMP_TYPE; FLB_EVENT_DECODER_ERROR_WRONG_METADATA_TYPE;
    FLB_EVENT_DECODER_ERROR_WRONG_BODY_TYPE; FLB_EVENT_DECODER_ERROR_DESERIALIZATION_FAILURE; FLB_EVENT_DECODER_ERROR_INSUFFICIENT_DATA];
   [FLB_METRIC_N_RECORDS; FLB_METRIC_N_BYTES; FLB_METRIC_N_DROPPED; FLB_METRIC_N_ADDED; FLB_METRIC_OUT_OK_RECORDS;
    FLB_METRIC_OUT_OK_BYTES; FLB_METRIC_OUT_ERROR; FLB_METRIC_OUT_RETRY; FLB_METRIC_OUT_RETRY_FAILED;
    FLB_METRIC_OUT_DROPPED_RECORDS; FLB_METRIC_OUT_RETRIED_RECORDS];
   [FLB_PACK_JSON_DATE_DOUBLE; FLB_PACK_JSON_DATE_ISO8601; FLB_PACK_JSON_DATE_EPOCH; FLB_PACK_JSON_DATE_JAVA_SQL_TIMESTAMP;
    FLB_PACK_JSON_DATE_EPOCH_MS];
   [FLB_PACK_JSON_FORMAT_NONE; FLB_PACK_JSON_FORMAT_JSON; FLB_PACK_JSON_FORMAT_STREAM; FLB_PACK_JSON_FORMAT_LINES];
   [FLB_PARSER_REGEX; FLB_PARSER_JSON; FLB_PARSER_LTSV; FLB_PARSER_LOGFMT];
   [FLB_PARSER_DEC_JSON; FLB_PARSER_DEC_ESCAPED; FLB_PARSER_DEC_ESCAPED_UTF8; FLB_PARSER_DEC_MYSQL_QUOTED];
   [FLB_PARSER_ACT_NONE; FLB_PARSER_ACT_TRY_NEXT; FLB_PARSER_ACT_DO_NEXT];
   [FLB_PLUGIN_INPUT; FLB_PLUGIN_FILTER; FLB_PLUGIN_OUTPUT; FLB_PLUGIN_PROCESSOR];
   [S3_MODE_NONE; S3_MODE_SIGNED_PAYLOAD; S3_MODE_UNSIGNED_PAYLOAD];
   [FLB_THREAD_POOL_ERROR; FLB_THREAD_POOL_NONE; FLB_THREAD_POOL_RUNNING; FLB_THREAD_POOL_STOPPED];
   [FLB_TLS_UNKNOWN_CONNECTION; FLB_TLS_UPSTREAM_CONNECTION; FLB_TLS_DOWNSTREAM_CONNECTION];
   [FLB_UNKNOWN_CONNECTION; FLB_UPSTREAM_CONNECTION; FLB_DOWNSTREAM_CONNECTION];
   [FLB_DNS_LEGACY; FLB_DNS_ASYNC]; [FLB_DNS_USE_TCP; FLB_DNS_USE_UDP];
   [MK_EP_SOCKET_CLOSED; MK_EP_SOCKET_ERROR; MK_EP_SOCKET_TIMEOUT; MK_EP_SOCKET_DONE];
   [MK_INFO; MK_ERR; MK_WARN; MK_BUG];
   [MK_RCONF_STR; MK_RCONF_NUM; MK_RCONF_BOOL; MK_RCONF_LIST];
   [MK_THREAD_DEAD; MK_THREAD_READY; MK_THREAD_RUNNING; MK_THREAD_SUSPEND]].

(** Two codes of a list are told apart. *)
Theorem alternatives_distinct : Forall NoDup alternatives.
Proof. evaluate. Qed.

(** The decompressor is not so lucky. *)
Lemma decompressor_results_collide : FLB_DECOMPRESSOR_SUCCESS = FLB_DECOMPRESSOR_INSUFFICIENT_DATA.
Proof. done. Qed.

(** The types of frames of a snappy stream, by ranges. *)
Definition snappy_frame_types : list (Z * Z) :=
  [(FLB_SNAPPY_FRAME_TYPE_COMPRESSED_DATA, FLB_SNAPPY_FRAME_TYPE_COMPRESSED_DATA);
   (FLB_SNAPPY_FRAME_TYPE_UNCOMPRESSED_DATA, FLB_SNAPPY_FRAME_TYPE_UNCOMPRESSED_DATA);
   (FLB_SNAPPY_FRAME_TYPE_RESERVED_UNSKIPPABLE_BASE, FLB_SNAPPY_FRAME_TYPE_RESERVED_UNSKIPPABLE_TOP);
   (FLB_SNAPPY_FRAME_TYPE_RESERVED_SKIPPABLE_BASE, FLB_SNAPPY_FRAME_TYPE_RESERVED_SKIPPABLE_TOP);
   (FLB_SNAPPY_FRAME_TYPE_PADDING, FLB_SNAPPY_FRAME_TYPE_PADDING);
   (FLB_SNAPPY_FRAME_TYPE_STREAM_IDENTIFIER, FLB_SNAPPY_FRAME_TYPE_STREAM_IDENTIFIER)].

(** Every byte is the type of a frame in exactly one way. *)
Theorem snappy_frame_types_partition b :
  is_byte b → ∃ r, (r ∈ snappy_frame_types ∧ r.1 ≤ b ≤ r.2) ∧ ∀ r', r' ∈ snappy_frame_types ∧ r'.1 ≤ b ≤ r'.2 → r' = r.
Proof.
  unfold is_byte. intros Hb. change snappy_frame_types with [(0, 0); (1, 1); (2, 127); (128, 253); (254, 254); (255, 255)].
  assert (Hc : b = 0 ∨ b = 1 ∨ 2 ≤ b ≤ 127 ∨ 128 ≤ b ≤ 253 ∨ b = 254 ∨ b = 255) by lia.
  destruct Hc as [Hc|[Hc|[Hc|[Hc|[Hc|Hc]]]]];
    [exists (0, 0)|exists (1, 1)|exists (2, 127)|exists (128, 253)|exists (254, 254)|exists (255, 255)];
    (split; [split; [set_solver|simpl; lia]|]); intros r [Hr Hin]; rewrite !elem_of_cons in Hr;
    (destruct Hr as [->|[->|[->|[->|[->|[->|[]%elem_of_nil]]]]]]); simpl in Hin; (reflexivity || exfalso; lia).
Qed.

(** * Names of the configuration *)

Definition config_keys : list string :=
  [FLB_CONF_STR_FLUSH; FLB_CONF_STR_GRACE; FLB_CONF_STR_DAEMON; FLB_CONF_STR_LOGFILE; FLB_CONF_STR_LOGLEVEL;
   FLB_CONF_STR_PARSERS_FILE; FLB_CONF_STR_PLUGINS_FILE; FLB_CONF_STR_STREAMS_FILE; FLB_CONF_STR_CONV_NAN;
   FLB_CONF_STR_HTTP_SERVER; FLB_CONF_STR_HTTP_LISTEN; FLB_CONF_STR_HTTP_PORT; FLB_CONF_STR_HEALTH_CHECK;
   FLB_CONF_STR_HC_ERRORS_COUNT; FLB_CONF_STR_HC_RETRIES_FAILURE_COUNT; FLB_CONF_STR_HC_PERIOD;
   FLB_CONF_STR_ENABLE_CHUNK_TRACE; FLB_CONF_STR_HOT_RELOAD; FLB_CONF_STR_HOT_RELOAD_ENSURE_THREAD_SAFETY;
   FLB_CONF_DNS_MODE; FLB_CONF_DNS_RESOLVER; FLB_CONF_DNS_PREFER_IPV4; FLB_CONF_STORAGE_PATH; FLB_CONF_STORAGE_SYNC;
   FLB_CONF_STORAGE_METRICS; FLB_CONF_STORAGE_CHECKSUM; FLB_CONF_STORAGE_BL_MEM_LIMIT; FLB_CONF_STORAGE_MAX_CHUNKS_UP;
   FLB_CONF_STORAGE_DELETE_IRRECOVERABLE_CHUNKS; FLB_CONF_STR_CORO_STACK_SIZE; FLB_CONF_STR_SCHED_CAP; FLB_CONF_STR_SCHED_BASE].

Definition lower (c : Ascii.ascii) : Ascii.ascii :=
  let n := Ascii.nat_of_ascii c in if decide (65 ≤ n ≤ 90)%nat then Ascii.ascii_of_nat (n + 32) else c.

Fixpoint string_lower (s : string) : string :=
  match s with
  | EmptyString => EmptyString
  | String c s => String (lower c) (string_lower s)
  end.

(** Two names differ by more than their case. *)
Theorem config_keys_distinct : NoDup (string_lower <$> config_keys).
Proof. evaluate. Qed.

(** * Sizes *)

(** A name for a connection fits: a label, an address and, but for a socket of
    the file system, a colon and a port of 16 bits. *)
Lemma user_friendly_address_fits label addr port :
  label = 7 ∧ addr ≤ FLB_CONNECTION_MAX_ADDRESS_LENGTH ∧ port = 0 ∨
  label = 6 ∧ addr ≤ FLB_CONNECTION_MAX_ADDRESS_LENGTH ∧ 0 ≤ port - 1 ≤ FLB_CONNECTION_MAX_PORT_LENGTH →
  label + addr + port ≤ FLB_CONNECTION_MAX_USER_FRIENDLY_ADDRESS_LENGTH.
Proof.
  unfold FLB_CONNECTION_MAX_USER_FRIENDLY_ADDRESS_LENGTH, FLB_CONNECTION_MAX_ADDRESS_LENGTH,
    FLB_CONNECTION_MAX_IPV6_ADDRESS_LENGTH, FLB_CONNECTION_MAX_PORT_LENGTH, FLB_CONNECTION_MAX_LABEL_LENGTH. lia.
Qed.

(** A tag and the header of the metadata of a chunk have a size of 16 bits. *)
Lemma chunk_metadata_fits : FLB_INPUT_CHUNK_TAG_MAX + FLB_INPUT_CHUNK_META_HEADER < 2 ^ 16.
Proof. done. Qed.

(** The flag of a traced chunk is no value of its type. *)
Lemma has_trace_overflows : FLB_EVENT_TYPE_HAS_TRACE = None.
Proof. reflexivity. Qed.

(** ** A word at work: a connection that is kept alive. *)
Lemma flags_exact_witness : Z.land (mask [FLB_HTTP_11; FLB_HTTP_KA]) FLB_HTTP_KA ≠ 0 ↔ FLB_HTTP_KA ∈ [FLB_HTTP_11; FLB_HTTP_KA].
Proof.
  apply (flags_exact [FLB_HTTP_10; FLB_HTTP_11; FLB_HTTP_KA]).
  - unfold flag_words. left.
  - intros f. rewrite !elem_of_cons. tauto.
  - right. right. left.
Defined.

Lemma snappy_frame_types_partition_witness : ∃ r, (r ∈ snappy_frame_types ∧ r.1 ≤ 100 ≤ r.2) ∧ ∀ r', r' ∈ snappy_frame_types ∧ r'.1 ≤ 100 ≤ r'.2 → r' = r.
Proof. apply (snappy_frame_types_partition 100). unfold is_byte. lia. Defined.
