(* ===== verification/Lua.v ===== *)
(** The C interface of Lua 5.1 as LuaJIT has it ([luajit/*.h]): its constants,
    the macros, which are short programs over the functions of the library,
    and the buffers in which strings are built.

    The functions of the library are parameters.  What is assumed of some of
    them is what the reference manual of Lua 5.1 says of them, and a small
    machine at the end of the file does all of it. *)
From stdpp Require Import strings.
From S2P Require Import Prelude MkList Mem Constants Compat.

(** * Constants *)

(** ** [lua.h] *)

Definition ESC : string := String (Ascii.ascii_of_nat 27) EmptyString.

Definition LUA_VERSION : string := "Lua 5.1"%string.
Definition LUA_RELEASE : string := "Lua 5.1.4"%string.
Definition LUA_VERSION_NUM : Z := 501.
Definition LUA_COPYRIGHT : string := "Copyright (C) 1994-2008 Lua.org, PUC-Rio"%string.
Definition LUA_AUTHORS : string := "R. Ierusalimschy, L. H. de Figueiredo & W. Celes"%string.
Definition LUA_SIGNATURE : string := ESC +:+ "Lua".
Definition LUA_MULTRET : Z := -1.

Definition LUA_REGISTRYINDEX : Z := -10000.
Definition LUA_ENVIRONINDEX : Z := -10001.
Definition LUA_GLOBALSINDEX : Z := -10002.

Definition LUA_OK : Z := 0.
Definition LUA_YIELD : Z := 1.
Definition LUA_ERRRUN : Z := 2.
Definition LUA_ERRSYNTAX : Z := 3.
Definition LUA_ERRMEM : Z := 4.
Definition LUA_ERRERR : Z := 5.

Definition LUA_TNONE : Z := -1.
Definition LUA_TNIL : Z := 0.
Definition LUA_TBOOLEAN : Z := 1.
Definition LUA_TLIGHTUSERDATA : Z := 2.
Definition LUA_TNUMBER : Z := 3.
Definition LUA_TSTRING : Z := 4.
Definition LUA_TTABLE : Z := 5.
Definition LUA_TFUNCTION : Z := 6.
Definition LUA_TUSERDATA : Z := 7.
Definition LUA_TTHREAD : Z := 8.

Definition LUA_MINSTACK : Z := 20.

Definition LUA_GCSTOP : Z := 0.
Definition LUA_GCRESTART : Z := 1.
Definition LUA_GCCOLLECT : Z := 2.
Definition LUA_GCCOUNT : Z := 3.
Definition LUA_GCCOUNTB : Z := 4.
Definition LUA_GCSTEP : Z := 5.
Definition LUA_GCSETPAUSE : Z := 6.
Definition LUA_GCSETSTEPMUL : Z := 7.
Definition LUA_GCISRUNNING : Z := 9.

Definition LUA_HOOKCALL : Z := 0.
Definition LUA_HOOKRET : Z := 1.
Definition LUA_HOOKLINE : Z := 2.
Definition LUA_HOOKCOUNT : Z := 3.
Definition LUA_HOOKTAILRET : Z := 4.

Definition LUA_MASKCALL : Z := Z.shiftl 1 LUA_HOOKCALL.
Definition LUA_MASKRET : Z := Z.shiftl 1 LUA_HOOKRET.
Definition LUA_MASKLINE : Z := Z.shiftl 1 LUA_HOOKLINE.
Definition LUA_MASKCOUNT : Z := Z.shiftl 1 LUA_HOOKCOUNT.

(** ** [luaconf.h], on Windows *)

Definition WINVER : Z := 1281.

Definition LUA_LDIR : string := "!\lua\"%string.
Definition LUA_CDIR : string := "!\"%string.
Definition LUA_PATH_DEFAULT : string :=
  ".\?.lua;" +:+ LUA_LDIR +:+ "?.lua;" +:+ LUA_LDIR +:+ "?\init.lua".
Definition LUA_CPATH_DEFAULT : string :=
  ".\?.dll;" +:+ LUA_CDIR +:+ "?.dll;" +:+ LUA_CDIR +:+ "loadall.dll".

Definition LUA_PATH : string := "LUA_PATH"%string.
Definition LUA_CPATH : string := "LUA_CPATH"%string.
Definition LUA_INIT : string := "LUA_INIT"%string.

Definition LUA_DIRSEP : string := "\"%string.
Definition LUA_PATHSEP : string := ";"%string.
Definition LUA_PATH_MARK : string := "?"%string.
Definition LUA_EXECDIR : string := "!"%string.
Definition LUA_IGMARK : string := "-"%string.
Definition LUA_PATH_CONFIG : string :=
  LUA_DIRSEP +:+ LF +:+ LUA_PATHSEP +:+ LF +:+ LUA_PATH_MARK +:+ LF +:+
  LUA_EXECDIR +:+ LF +:+ LUA_IGMARK +:+ LF.

Definition LUA_QL (x : string) : string := "'" +:+ x +:+ "'".
Definition LUA_QS : string := LUA_QL "%s".

Definition LUAI_MAXSTACK : Z := 65500.
Definition LUAI_MAXCSTACK : Z := 8000.
Definition LUAI_GCPAUSE : Z := 200.
Definition LUAI_GCMUL : Z := 200.
Definition LUA_MAXCAPTURES : Z := 32.

Definition LUA_PROGNAME : string := "luajit"%string.
Definition LUA_PROMPT : string := "> "%string.
Definition LUA_PROMPT2 : string := ">> "%string.
Definition LUA_MAXINPUT : Z := 512.

Definition LUA_IDSIZE : Z := 60.

(** [BUFSIZ] is the one of the C library. *)
Definition LUAL_BUFFERSIZE (BUFSIZ : Z) : Z := if decide (BUFSIZ > 16384) then 8192 else BUFSIZ.

Definition LUA_NUMBER_SCAN : string := "%lf"%string.
Definition LUA_NUMBER_FMT : string := "%.14g"%string.
Definition LUAI_MAXNUMBER2STR : Z := 32.
Definition LUA_INTFRMLEN : string := "l"%string.

(** ** [lualib.h] *)

Definition LUA_FILEHANDLE : string := "FILE*"%string.
Definition LUA_COLIBNAME : string := "coroutine"%string.
Definition LUA_MATHLIBNAME : string := "math"%string.
Definition LUA_STRLIBNAME : string := "string"%string.
Definition LUA_TABLIBNAME : string := "table"%string.
Definition LUA_IOLIBNAME : string := "io"%string.
Definition LUA_OSLIBNAME : string := "os"%string.
Definition LUA_LOADLIBNAME : string := "package"%string.
Definition LUA_DBLIBNAME : string := "debug"%string.
Definition LUA_BITLIBNAME : string := "bit"%string.
Definition LUA_JITLIBNAME : string := "jit"%string.
Definition LUA_FFILIBNAME : string := "ffi"%string.

(** ** [lauxlib.h] *)

Definition LUA_ERRFILE : Z := LUA_ERRERR + 1.
Definition LUA_NOREF : Z := -2.
Definition LUA_REFNIL : Z := -1.

(** ** [luajit.h] *)

Definition LUAJIT_VERSION : string := "LuaJIT 2.1.0-beta3"%string.
Definition LUAJIT_VERSION_NUM : Z := 20100.
Definition LUAJIT_VERSION_SYM : string := "luaJIT_version_2_1_0_beta3"%string.
Definition LUAJIT_COPYRIGHT : string := "Copyright (C) 2005-2022 Mike Pall"%string.
Definition LUAJIT_URL : string := "https://luajit.org/"%string.
Definition LUAJIT_MODE_MASK : Z := 255.

Inductive luajit_mode :=
| LUAJIT_MODE_ENGINE | LUAJIT_MODE_DEBUG | LUAJIT_MODE_FUNC | LUAJIT_MODE_ALLFUNC
| LUAJIT_MODE_ALLSUBFUNC | LUAJIT_MODE_TRACE | LUAJIT_MODE_WRAPCFUNC | LUAJIT_MODE_MAX.

Definition luajit_mode_value (x : luajit_mode) : Z :=
  match x with
  | LUAJIT_MODE_ENGINE => 0 | LUAJIT_MODE_DEBUG => 1 | LUAJIT_MODE_FUNC => 2
  | LUAJIT_MODE_ALLFUNC => 3 | LUAJIT_MODE_ALLSUBFUNC => 4 | LUAJIT_MODE_TRACE => 5
  | LUAJIT_MODE_WRAPCFUNC => 16 | LUAJIT_MODE_MAX => 17
  end.

Definition LUAJIT_MODE_OFF : Z := 0.
Definition LUAJIT_MODE_ON : Z := 256.
Definition LUAJIT_MODE_FLUSH : Z := 512.

(** * The library

    A call of a function of the library returns, or leaves the C function by a
    long jump to the protected call that is outermost; in both cases the state
    of the library may have changed.  No result: undefined behaviour. *)

Inductive lua_exit (A : Type) :=
| Returns (a : A)
| Jumps.
Arguments Returns {A} a.
Arguments Jumps {A}.

Definition LM (S A : Type) : Type := S → option (lua_exit A * S).

#[export] Instance LM_ret S : MRet (LM S) := λ A a s, Some (Returns a, s).
#[export] Instance LM_bind S : MBind (LM S) := λ A B f m s,
  match m s with
  | Some (Returns a, s) => f a s
  | Some (Jumps, s) => Some (Jumps, s)
  | None => None
  end.

#[export] Instance LM_fmap S : FMap (LM S) := λ A B f m, a ← m; mret (f a).

(** What may be undefined: arithmetic of [int], uses of pointers. *)
Definition defined {S A} (x : option A) : LM S A :=
  λ s, match x with Some a => Some (Returns a, s) | None => None end.

Definition int_opp (n : Z) : option Z := int_add 0 (- n).

(** A buffer in which a string is built: the offset in [buffer] of the place
    where the next character goes, and the characters. *)
Record luaL_Buffer := LBuffer {
  lb_p : Z;
  lb_lvl : Z;
  lb_L : Z;
  lb_buffer : list (option Z)
}.

(** The functions the macros call; [L] is an address. *)
Record lua_api (S : Type) := LuaApi {
  lua_settop : ptr → Z → LM S unit;
  lua_createtable : ptr → Z → Z → LM S unit;
  lua_pushcclosure : ptr → ptr → Z → LM S unit;
  lua_objlen : ptr → Z → LM S Z;
  lua_type : ptr → Z → LM S Z;
  lua_typename : ptr → Z → LM S ptr;
  lua_pushlstring : ptr → string → Z → LM S unit;
  lua_setfield : ptr → Z → ptr → LM S unit;
  lua_getfield : ptr → Z → ptr → LM S unit;
  lua_tolstring : ptr → Z → ptr → LM S ptr;
  lua_pushvalue : ptr → Z → LM S unit;
  lua_gc : ptr → Z → Z → LM S Z;
  lua_pcall : ptr → Z → Z → Z → LM S Z;
  luaL_newstate : LM S ptr;
  luaL_argerror : ptr → Z → ptr → LM S Z;
  luaL_checklstring : ptr → Z → ptr → LM S ptr;
  luaL_optlstring : ptr → Z → ptr → ptr → LM S ptr;
  luaL_checkinteger : ptr → Z → LM S Z;
  luaL_optinteger : ptr → Z → Z → LM S Z;
  luaL_loadfile : ptr → ptr → LM S Z;
  luaL_loadstring : ptr → ptr → LM S Z;
  luaL_setfuncs : ptr → ptr → Z → LM S unit;
  luaL_prepbuffer : luaL_Buffer → LM S luaL_Buffer
}.
Arguments lua_settop {S}. Arguments lua_createtable {S}. Arguments lua_pushcclosure {S}.
Arguments lua_objlen {S}. Arguments lua_type {S}. Arguments lua_typename {S}.
Arguments lua_pushlstring {S}. Arguments lua_setfield {S}. Arguments lua_getfield {S}.
Arguments lua_tolstring {S}. Arguments lua_pushvalue {S}. Arguments lua_gc {S}.
Arguments lua_pcall {S}. Arguments luaL_newstate {S}. Arguments luaL_argerror {S}.
Arguments luaL_checklstring {S}. Arguments luaL_optlstring {S}. Arguments luaL_checkinteger {S}.
Arguments luaL_optinteger {S}. Arguments luaL_loadfile {S}. Arguments luaL_loadstring {S}.
Arguments luaL_setfuncs {S}. Arguments luaL_prepbuffer {S}.

Definition lua_upvalueindex (i : Z) : option Z := n ← int_opp i; int_add LUA_GLOBALSINDEX n.

(** * The macros *)

Section macros.
Context {S : Type} (lib : lua_api S).

Definition lua_pop (L : ptr) (n : Z) : LM S unit :=
  idx ← defined (n ← int_opp n; int_add n (-1));
  lua_settop lib L idx.

Definition lua_newtable (L : ptr) : LM S unit := lua_createtable lib L 0 0.
Definition lua_pushcfunction (L f : ptr) : LM S unit := lua_pushcclosure lib L f 0.
Definition lua_setglobal (L s : ptr) : LM S unit := lua_setfield lib L LUA_GLOBALSINDEX s.
Definition lua_getglobal (L s : ptr) : LM S unit := lua_getfield lib L LUA_GLOBALSINDEX s.
Definition lua_register (L n f : ptr) : LM S unit := lua_pushcfunction L f;; lua_setglobal L n.
Definition lua_strlen (L : ptr) (i : Z) : LM S Z := lua_objlen lib L i.
Definition lua_tostring (L : ptr) (i : Z) : LM S ptr := lua_tolstring lib L i NULL.
Definition lua_open : LM S ptr := luaL_newstate lib.
Definition lua_getregistry (L : ptr) : LM S unit := lua_pushvalue lib L LUA_REGISTRYINDEX.
Definition lua_getgccount (L : ptr) : LM S Z := lua_gc lib L LUA_GCCOUNT 0.

(** [sizeof] counts the NUL that ends a literal. *)
Definition lua_pushliteral (L : ptr) (s : string) : LM S unit :=
  lua_pushlstring lib L s (size_t (Z.of_nat (String.length s) + 1 - 1)).

Definition has_type (p : Z → bool) (L : ptr) (n : Z) : LM S Z :=
  t ← lua_type lib L n; mret (c_bool (p t)).

Definition lua_isfunction := has_type (λ t, bool_decide (t = LUA_TFUNCTION)).
Definition lua_istable := has_type (λ t, bool_decide (t = LUA_TTABLE)).
Definition lua_islightuserdata := has_type (λ t, bool_decide (t = LUA_TLIGHTUSERDATA)).
Definition lua_isnil := has_type (λ t, bool_decide (t = LUA_TNIL)).
Definition lua_isboolean := has_type (λ t, bool_decide (t = LUA_TBOOLEAN)).
Definition lua_isthread := has_type (λ t, bool_decide (t = LUA_TTHREAD)).
Definition lua_isnone := has_type (λ t, bool_decide (t = LUA_TNONE)).
Definition lua_isnoneornil := has_type (λ t, bool_decide (t ≤ 0)).

Definition luaL_argcheck (L : ptr) (cond numarg : Z) (extramsg : ptr) : LM S unit :=
  if decide (cond ≠ 0) then mret tt else (_ ← luaL_argerror lib L numarg extramsg; mret tt).
Definition luaL_checkstring (L : ptr) (n : Z) : LM S ptr := luaL_checklstring lib L n NULL.
Definition luaL_optstring (L : ptr) (n : Z) (d : ptr) : LM S ptr := luaL_optlstring lib L n d NULL.

(** [int] and [long] have 32 bits, a [lua_Integer] has 64. *)
Definition luaL_checkint (L : ptr) (n : Z) : LM S Z := s32 <$> luaL_checkinteger lib L n.
Definition luaL_optint (L : ptr) (n d : Z) : LM S Z := s32 <$> luaL_optinteger lib L n d.
Definition luaL_checklong (L : ptr) (n : Z) : LM S Z := s32 <$> luaL_checkinteger lib L n.
Definition luaL_optlong (L : ptr) (n d : Z) : LM S Z := s32 <$> luaL_optinteger lib L n d.

Definition luaL_typename (L : ptr) (i : Z) : LM S ptr := t ← lua_type lib L i; lua_typename lib L t.

(** Loads, then runs what was loaded. *)
Definition load_and_run (load : LM S Z) (L : ptr) : LM S Z :=
  e ← load;
  if decide (e ≠ 0) then mret 1
  else e ← lua_pcall lib L 0 LUA_MULTRET 0; mret (c_bool (bool_decide (e ≠ 0))).

Definition luaL_dofile (L fn : ptr) : LM S Z := load_and_run (luaL_loadfile lib L fn) L.
Definition luaL_dostring (L s : ptr) : LM S Z := load_and_run (luaL_loadstring lib L s) L.

Definition luaL_getmetatable (L n : ptr) : LM S unit := lua_getfield lib L LUA_REGISTRYINDEX n.

Definition luaL_opt {A} (L : ptr) (f : ptr → Z → LM S A) (n : Z) (d : A) : LM S A :=
  b ← lua_isnoneornil L n; if decide (b ≠ 0) then mret d else f L n.

(** [l] is an array of [len] entries, with the one that ends it. *)
Definition luaL_newlibtable (L : ptr) (len : Z) : LM S unit :=
  lua_createtable lib L 0 (s32 (size_t (len - 1))).
Definition luaL_newlib (L l : ptr) (len : Z) : LM S unit :=
  luaL_newlibtable L len;; luaL_setfuncs lib L l 0.

(** ** Buffers *)

Context (BUFSIZ : Z).

(** A write outside the array is undefined, and so is a pointer that leaves
    it by more than one. *)
Definition put (c : Z) (b : luaL_Buffer) : option luaL_Buffer :=
  if decide (0 ≤ lb_p b < Z.of_nat (length (lb_buffer b))) then
    Some (LBuffer (lb_p b + 1) (lb_lvl b) (lb_L b) (<[Z.to_nat (lb_p b) := Some c]> (lb_buffer b)))
  else None.

Definition luaL_addchar (b : luaL_Buffer) (c : Z) : LM S luaL_Buffer :=
  b ← (if decide (lb_p b < LUAL_BUFFERSIZE BUFSIZ) then mret b else luaL_prepbuffer lib b);
  defined (put (u8 c) b).

Definition luaL_putchar := luaL_addchar.

Definition luaL_addsize (b : luaL_Buffer) (n : Z) : option luaL_Buffer :=
  if decide (0 ≤ lb_p b + n ≤ Z.of_nat (length (lb_buffer b))) then
    Some (LBuffer (lb_p b + n) (lb_lvl b) (lb_L b) (lb_buffer b))
  else None.
End macros.

(** * What the constants promise *)

Lemma masks_independent :
  LUA_MASKCALL = 1 ∧ LUA_MASKRET = 2 ∧ LUA_MASKLINE = 4 ∧ LUA_MASKCOUNT = 8.
Proof. done. Qed.

(** The modes fit the mask and the flags do not touch it. *)
Lemma luajit_modes m : Z.land (luajit_mode_value m) LUAJIT_MODE_MASK = luajit_mode_value m.
Proof. by destruct m. Qed.

Lemma luajit_flags m f :
  f ∈ [LUAJIT_MODE_OFF; LUAJIT_MODE_ON; LUAJIT_MODE_FLUSH] →
  Z.land (Z.lor (luajit_mode_value m) f) LUAJIT_MODE_MASK = luajit_mode_value m.
Proof. rewrite !elem_of_cons. intros [->|[->|[->|[]%not_elem_of_nil]]]; by destruct m. Qed.

(** The templates of a path. *)
Fixpoint split_at (c : Ascii.ascii) (s : string) : list string :=
  match s with
  | EmptyString => [EmptyString]
  | String x s =>
      if decide (x = c) then EmptyString :: split_at c s
      else match split_at c s with t :: l => String x t :: l | [] => [String x EmptyString] end
  end.

(** [LUA_PATHSEP], character 59, separates the templates as intended; the mark is missing in
    the last one for C modules only, which is the loader of all of them. *)
Lemma default_paths :
  split_at (Ascii.ascii_of_nat 59) LUA_PATH_DEFAULT = [".\?.lua"; "!\lua\?.lua"; "!\lua\?\init.lua"]%string ∧
  split_at (Ascii.ascii_of_nat 59) LUA_CPATH_DEFAULT = [".\?.dll"; "!\?.dll"; "!\loadall.dll"]%string.
Proof. split; reflexivity. Qed.

(** Indices into the stack of a C function, the pseudo-indices and those of
    upvalues, of which a function has at most 255, are told apart. *)
Lemma pseudo_indices i j u :
  - LUAI_MAXCSTACK ≤ i ≤ LUAI_MAXCSTACK → j ∈ [LUA_REGISTRYINDEX; LUA_ENVIRONINDEX; LUA_GLOBALSINDEX] →
  1 ≤ u ≤ 255 → ∃ k, lua_upvalueindex u = Some k ∧ i ≠ j ∧ i ≠ k ∧ j ≠ k.
Proof.
  intros Hi Hj Hu. exists (LUA_GLOBALSINDEX - u).
  unfold lua_upvalueindex, int_opp, LUAI_MAXCSTACK, LUA_REGISTRYINDEX, LUA_ENVIRONINDEX, LUA_GLOBALSINDEX in *.
  rewrite !elem_of_cons in Hj. rewrite int_add_Some by lia. simpl. rewrite int_add_Some by lia.
  split; [f_equal; lia|]. destruct Hj as [->|[->|[->|[]%not_elem_of_nil]]]; lia.
Qed.

(** But [flb_lua_absindex], with this version of Lua, turns a pseudo-index
    into an index that is neither positive nor the same. *)
Lemma flb_lua_absindex_pseudo top :
  0 ≤ top ≤ LUAI_MAXCSTACK → ∃ k, flb_lua_absindex top LUA_REGISTRYINDEX = Some k ∧ k < 0 ∧ k ≠ LUA_REGISTRYINDEX.
Proof.
  unfold flb_lua_absindex, LUA_REGISTRYINDEX, LUAI_MAXCSTACK. intros Ht. exists (top + -10000 + 1).
  rewrite decide_True, int_add_Some by lia. simpl. rewrite int_add_Some by lia. split; [done|lia].
Qed.

Section facts.
Context {S : Type} (lib : lua_api S).

(** * The types of values *)

(** The type of a value is one of those of [lua.h]: then of the tests and the
    three types without a test exactly one holds, and the test for none or nil
    is the disjunction of its parts. *)
Lemma lua_type_tests L n t s s' :
  lua_type lib L n s = Some (Returns t, s') → LUA_TNONE ≤ t ≤ LUA_TTHREAD →
  ∃ none nil boolean light table function thread,
    lua_isnone lib L n s = Some (Returns none, s') ∧ lua_isnil lib L n s = Some (Returns nil, s') ∧
    lua_isboolean lib L n s = Some (Returns boolean, s') ∧ lua_islightuserdata lib L n s = Some (Returns light, s') ∧
    lua_istable lib L n s = Some (Returns table, s') ∧ lua_isfunction lib L n s = Some (Returns function, s') ∧
    lua_isthread lib L n s = Some (Returns thread, s') ∧
    lua_isnoneornil lib L n s = Some (Returns (none + nil), s') ∧
    none + nil + boolean + light + table + function + thread =
      c_bool (bool_decide (t ∉ [LUA_TNUMBER; LUA_TSTRING; LUA_TUSERDATA])).
Proof.
  intros Ht Hr. unfold lua_isnone, lua_isnil, lua_isboolean, lua_islightuserdata, lua_istable,
    lua_isfunction, lua_isthread, lua_isnoneornil, has_type, mbind, LM_bind. rewrite Ht.
  unfold LUA_TNONE, LUA_TTHREAD in Hr.
  assert (t = -1 ∨ t = 0 ∨ t = 1 ∨ t = 2 ∨ t = 3 ∨ t = 4 ∨ t = 5 ∨ t = 6 ∨ t = 7 ∨ t = 8) as Hin by lia.
  destruct_or! Hin; subst; do 7 eexists; split_and!; reflexivity.
Qed.

(** An optional argument is looked at only if it is there. *)
Lemma luaL_opt_spec {A} L (f : ptr → Z → LM S A) n d t s s' :
  lua_type lib L n s = Some (Returns t, s') →
  luaL_opt lib L f n d s = if decide (t ≤ 0) then Some (Returns d, s') else f L n s'.
Proof.
  intros Ht. unfold luaL_opt, lua_isnoneornil, has_type, mbind, LM_bind. rewrite Ht. simpl.
  destruct (decide (t ≤ 0)); [rewrite bool_decide_true by done|rewrite bool_decide_false by done]; reflexivity.
Qed.

(** * Numbers *)

(** [luaL_checkint] is the number exactly when that fits an [int]. *)
Lemma luaL_checkint_spec L n z s s' :
  luaL_checkinteger lib L n s = Some (Returns z, s') →
  luaL_checkint lib L n s = Some (Returns (s32 z), s') ∧ (s32 z = z ↔ - 2 ^ 31 ≤ z < 2 ^ 31).
Proof.
  intros H. unfold luaL_checkint, fmap, LM_fmap, mbind, LM_bind. rewrite H. split; [reflexivity|].
  unfold swrap. split; [intros <-|intros; rewrite Z.mod_small by lia; lia].
  pose proof (Z.mod_pos_bound (z + 2 ^ (32 - 1)) (2 ^ 32)). lia.
Qed.

(** * Errors *)

(** A condition that holds costs nothing; one that does not leaves the
    function, since [luaL_argerror] never returns. *)
Lemma luaL_argcheck_spec L cond numarg extramsg s :
  (∀ L n m s, ∃ s', luaL_argerror lib L n m s = Some (Jumps, s')) →
  luaL_argcheck lib L cond numarg extramsg s =
    if decide (cond ≠ 0) then Some (Returns tt, s) else
    from_option (λ x, Some (Jumps, x.2)) None (luaL_argerror lib L numarg extramsg s).
Proof.
  intros Herr. unfold luaL_argcheck. destruct (decide _); [done|].
  destruct (Herr L numarg extramsg s) as [s' E]. unfold mbind, LM_bind. by rewrite E.
Qed.

(** What fails to load is not run, and the result is 0 exactly when both
    steps succeed. *)
Lemma load_and_run_spec load L s s' e :
  load s = Some (Returns e, s') →
  (e ≠ LUA_OK → load_and_run lib load L s = Some (Returns 1, s')) ∧
  (e = LUA_OK → ∀ r s'', lua_pcall lib L 0 LUA_MULTRET 0 s' = Some (Returns r, s'') →
     load_and_run lib load L s = Some (Returns (c_bool (bool_decide (r ≠ LUA_OK))), s'')).
Proof.
  intros Hl. unfold load_and_run, mbind, LM_bind. rewrite Hl. split; [intros He; by rewrite decide_True|].
  intros -> r s'' Hc. rewrite decide_False by (intros []; done). by rewrite Hc.
Qed.
End facts.

(** * The stack *)

Section stack.
Context {S : Type} (lib : lua_api S) (stack : ptr → S → list Z).

(** What the manual says of [lua_settop] with a negative index: the element
    there becomes the top one.  [stack L s] is the stack, from its bottom. *)
Definition settop_documented : Prop :=
  ∀ L idx s, - Z.of_nat (length (stack L s)) - 1 ≤ idx < 0 →
    ∃ s', lua_settop lib L idx s = Some (Returns tt, s') ∧
      stack L s' = take (Z.to_nat (Z.of_nat (length (stack L s)) + idx + 1)) (stack L s).

(** [lua_pop] removes the last [n] elements; the least [int] has no opposite. *)
Lemma lua_pop_spec L n s l l' :
  settop_documented → stack L s = l ++ l' → Z.of_nat (length l') = n → n < 2 ^ 31 →
  ∃ s', lua_pop lib L n s = Some (Returns tt, s') ∧ stack L s' = l.
Proof.
  intros Hdoc Hs Hn Hmax. unfold lua_pop, int_opp. rewrite int_add_Some by lia. cbn [mbind option_bind].
  rewrite int_add_Some by lia. unfold mbind, LM_bind, defined.
  destruct (Hdoc L (0 + - n + -1) s) as (s' & E & Hs'); [rewrite Hs, length_app; lia|].
  exists s'. split; [exact E|]. rewrite Hs', Hs, length_app.
  replace (Z.to_nat _) with (length l) by lia. apply take_app_length.
Qed.

Lemma lua_pop_least L s : lua_pop lib L (- 2 ^ 31) s = None.
Proof. reflexivity. Qed.
End stack.

(** * Buffers *)

Section buffer.
Context {S : Type} (lib : lua_api S) (BUFSIZ : Z) (HBUF : 256 ≤ BUFSIZ).

(** The strings that the buffers of a state have put away, by level. *)
Context (collected : ptr → Z → S → list Z).

Abbreviation size := (LUAL_BUFFERSIZE BUFSIZ).

(** The array of the buffer [b] holds the characters [cs]. *)
Definition holds (b : luaL_Buffer) (cs : list Z) : Prop :=
  Z.of_nat (length (lb_buffer b)) = size ∧ lb_p b = Z.of_nat (length cs) ∧
  take (length cs) (lb_buffer b) = Some <$> cs.

(** All that was added to it. *)
Definition text (b : luaL_Buffer) (s : S) (cs : list Z) : list Z := collected (lb_L b) (lb_lvl b) s ++ cs.

(** What the manual says of [luaL_prepbuffer]: it makes the whole array free
    again, keeping the text, unless there is no memory. *)
Definition prepbuffer_documented : Prop :=
  ∀ b cs s, holds b cs →
    (∃ s', luaL_prepbuffer lib b s = Some (Jumps, s')) ∨
    ∃ b' s', luaL_prepbuffer lib b s = Some (Returns b', s') ∧ holds b' [] ∧ text b' s' [] = text b s cs.

Context (Hprep : prepbuffer_documented).

Lemma size_pos : 0 < size.
Proof. unfold LUAL_BUFFERSIZE. destruct (decide _); lia. Qed.

Lemma holds_size b cs : holds b cs → Z.of_nat (length cs) ≤ size.
Proof.
  intros (Hl & _ & Ht). apply (f_equal length) in Ht. rewrite length_take, length_fmap in Ht. lia.
Qed.

(** Bytes written from the current position on, then counted. *)
Lemma luaL_addsize_spec b cs ds :
  holds b cs → Z.of_nat (length cs) + Z.of_nat (length ds) ≤ size →
  let b1 := LBuffer (lb_p b) (lb_lvl b) (lb_L b) (splice (length cs) (Some <$> ds) (lb_buffer b)) in
  ∃ b', luaL_addsize b1 (Z.of_nat (length ds)) = Some b' ∧ holds b' (cs ++ ds) ∧
    ∀ s, text b' s (cs ++ ds) = text b s cs ++ ds.
Proof.
  intros (Hl & Hp & Ht) Hfit b1.
  assert (Hl1 : length (lb_buffer b1) = length (lb_buffer b))
    by (apply splice_length; rewrite length_fmap; lia).
  unfold luaL_addsize. rewrite decide_True by (rewrite Hl1; simpl; lia).
  eexists. split; [reflexivity|]. split; [|intros s; apply app_assoc].
  split_and!; simpl; [by rewrite <- Hl, <- Hl1|rewrite length_app; lia|].
  unfold splice. rewrite Ht, fmap_app, app_assoc.
  replace (length (cs ++ ds)) with (length ((Some <$> cs) ++ (Some <$> ds) : list (option Z)))
    by (by rewrite !length_app, !length_fmap).
  apply take_app_length.
Qed.

Lemma put_spec b cs c :
  holds b cs → Z.of_nat (length cs) < size →
  ∃ b', put c b = Some b' ∧ holds b' (cs ++ [c]) ∧ ∀ s, text b' s (cs ++ [c]) = text b s cs ++ [c].
Proof.
  intros (Hl & Hp & Ht) Hlt. unfold put. rewrite decide_True by lia. eexists. split; [reflexivity|].
  split; [|intros s; apply app_assoc]. rewrite Hp, Nat2Z.id. split_and!; simpl.
  - by rewrite length_insert.
  - rewrite length_app. simpl. lia.
  - rewrite length_app, Nat.add_1_r, fmap_app, <- Ht. simpl.
    erewrite take_S_r; [|apply list_lookup_insert_eq; lia]. by rewrite take_insert_ge by lia.
Qed.

(** One character: it is added, or there is no memory.  Nothing is ever
    written outside the array. *)
Lemma luaL_addchar_spec b cs c s :
  holds b cs →
  (∃ s', luaL_addchar lib BUFSIZ b c s = Some (Jumps, s')) ∨
  ∃ b' s' cs', luaL_addchar lib BUFSIZ b c s = Some (Returns b', s') ∧ holds b' cs' ∧
    text b' s' cs' = text b s cs ++ [u8 c].
Proof.
  intros Hb. unfold luaL_addchar. pose proof (holds_size _ _ Hb). pose proof size_pos. destruct Hb as (Hl & Hp & Ht) eqn:E.
  destruct (decide (lb_p b < size)) as [Hlt|Hge]; unfold mbind, LM_bind, mret, LM_ret, defined.
  - right. destruct (put_spec b cs (u8 c) Hb) as (b' & -> & ? & Htx); [lia|]. by exists b', s, (cs ++ [u8 c]).
  - destruct (Hprep b cs s Hb) as [[s' ->]|(b1 & s' & -> & Hb1 & Htx)]; [left; by exists s'|right].
    destruct (put_spec b1 [] (u8 c) Hb1) as (b' & -> & ? & Htx'); [simpl; lia|].
    exists b', s', [u8 c]. split_and!; [done|done|]. by rewrite <- Htx, <- Htx'.
Qed.

(** A string, character by character. *)
Fixpoint add_all (b : luaL_Buffer) (cs : list Z) : LM S luaL_Buffer :=
  match cs with
  | [] => mret b
  | c :: cs => b ← luaL_addchar lib BUFSIZ b c; add_all b cs
  end.

(** However often the array has to be emptied, the text is what was there
    followed by the string. *)
Theorem luaL_addchar_string b cs str s :
  holds b cs →
  (∃ s', add_all b str s = Some (Jumps, s')) ∨
  ∃ b' s' cs', add_all b str s = Some (Returns b', s') ∧ holds b' cs' ∧
    text b' s' cs' = text b s cs ++ (u8 <$> str).
Proof.
  revert b cs s. induction str as [|c str IH]; intros b cs s Hb; simpl.
  - right. exists b, s, cs. by rewrite app_nil_r.
  - unfold mbind, LM_bind.
    destruct (luaL_addchar_spec b cs c s Hb) as [[s' ->]|(b1 & s1 & cs1 & -> & Hb1 & Ht1)]; [left; by exists s'|].
    destruct (IH b1 cs1 s1 Hb1) as [[s' ->]|(b' & s' & cs' & -> & Hb' & Ht')]; [left; by exists s'|right].
    exists b', s', cs'. split_and!; [done|done|]. by rewrite Ht', Ht1, <- app_assoc.
Qed.
End buffer.

(** * A small machine

    One stack of types and the text that was put away; it has no functions to
    load and no memory for anything else. *)

Record demo_state := DemoState { ds_stack : list Z; ds_text : list Z }.

Definition demo_jump {A} : LM demo_state A := λ s, Some (Jumps, s).

Definition demo_settop (idx : Z) : LM demo_state unit := λ s,
  let n := Z.of_nat (length (ds_stack s)) in
  let top := if decide (idx < 0) then n + idx + 1 else idx in
  if decide (0 ≤ top) then
    Some (Returns tt, DemoState (take (Z.to_nat top) (ds_stack s) ++
      replicate (Z.to_nat (top - n)) LUA_TNIL) (ds_text s))
  else None.

Definition demo_type (idx : Z) : LM demo_state Z := λ s,
  Some (Returns (default LUA_TNONE (ds_stack s !! Z.to_nat (idx - 1))), s).

Definition demo_prep (b : luaL_Buffer) : LM demo_state luaL_Buffer := λ s,
  Some (Returns (LBuffer 0 (lb_lvl b) (lb_L b) (lb_buffer b)),
    DemoState (ds_stack s) (ds_text s ++ omap id (take (Z.to_nat (lb_p b)) (lb_buffer b)))).

Definition demo_lua : lua_api demo_state := {|
  lua_settop _ := demo_settop;
  lua_createtable _ _ _ := demo_jump; lua_pushcclosure _ _ _ := demo_jump;
  lua_objlen _ _ := demo_jump;
  lua_type _ := demo_type;
  lua_typename _ _ := demo_jump; lua_pushlstring _ _ _ := demo_jump;
  lua_setfield _ _ _ := demo_jump; lua_getfield _ _ _ := demo_jump;
  lua_tolstring _ _ _ := demo_jump; lua_pushvalue _ _ := demo_jump; lua_gc _ _ _ := demo_jump;
  lua_pcall _ _ _ _ := mret LUA_ERRRUN;
  luaL_newstate := demo_jump; luaL_argerror _ _ _ := demo_jump;
  luaL_checklstring _ _ _ := demo_jump; luaL_optlstring _ _ _ _ := demo_jump;
  luaL_checkinteger _ _ := mret (2 ^ 32 + 5); luaL_optinteger _ _ d := mret d;
  luaL_loadfile _ _ := mret LUA_ERRFILE; luaL_loadstring _ _ := mret LUA_OK;
  luaL_setfuncs _ _ _ := demo_jump;
  luaL_prepbuffer := demo_prep
|}.

Lemma demo_settop_documented : settop_documented demo_lua (λ _, ds_stack).
Proof.
  intros L idx s Hr. simpl. unfold demo_settop. rewrite (decide_True (P := idx < 0)), decide_True by lia.
  eexists. split; [reflexivity|]. simpl.
  replace (Z.to_nat (_ - _)) with O by lia. apply app_nil_r.
Qed.

Lemma demo_prepbuffer_documented BUFSIZ : prepbuffer_documented demo_lua BUFSIZ (λ _ _, ds_text).
Proof.
  intros b cs s (Hl & Hp & Ht). right. do 2 eexists. split; [reflexivity|]. split; [by split_and!|].
  unfold text. simpl. rewrite Hp, Nat2Z.id, Ht, app_nil_r. f_equal. clear. by induction cs; simpl; f_equal.
Qed.

Definition demo_buffer : luaL_Buffer := LBuffer 0 0 0 (replicate 256 None).

(** Three hundred characters need the array twice. *)
Lemma luaL_addchar_string_witness :
  ∃ b' s' cs', add_all demo_lua 256 demo_buffer (replicate 300 97) (DemoState [] []) = Some (Returns b', s') ∧
    holds 256 b' cs' ∧ length cs' = 44%nat ∧ ds_text s' ++ cs' = replicate 300 97.
Proof.
  assert (Hb : holds 256 demo_buffer []) by (split_and!; reflexivity).
  destruct (luaL_addchar_string demo_lua 256 ltac:(lia) (λ _ _, ds_text) (demo_prepbuffer_documented 256)
    demo_buffer [] (replicate 300 97) (DemoState [] []) Hb) as [[s' E]|(b' & s' & cs' & E & Hh & Ht)].
  - exfalso. assert (Hr : fst <$> add_all demo_lua 256 demo_buffer (replicate 300 97) (DemoState [] []) ≠ Some Jumps)
      by (vm_compute; discriminate).
    exact (Hr (f_equal (fmap fst) E)).
  - exists b', s', cs'. split; [exact E|]. split; [exact Hh|]. split; [|etrans; [exact Ht|vm_compute; reflexivity]].
    assert (Hr : (λ r : lua_exit luaL_Buffer * demo_state, match r.1 with Returns b => lb_p b | Jumps => 0 end) <$>
      add_all demo_lua 256 demo_buffer (replicate 300 97) (DemoState [] []) = Some 44) by (vm_compute; reflexivity).
    apply (f_equal (fmap (λ r : lua_exit luaL_Buffer * demo_state, match r.1 with Returns b => lb_p b | Jumps => 0 end))) in E.
    destruct Hh as (_ & Hp & _). pose proof (eq_trans (eq_sym E) Hr) as [= Hn]. lia.
Defined.

Lemma lua_pop_spec_witness :
  ∃ s', lua_pop demo_lua 0 2 (DemoState [LUA_TTABLE; LUA_TSTRING; LUA_TNIL] []) = Some (Returns tt, s') ∧
    ds_stack s' = [LUA_TTABLE].
Proof.
  apply (lua_pop_spec demo_lua (λ _, ds_stack) 0 2 _ [LUA_TTABLE] [LUA_TSTRING; LUA_TNIL] demo_settop_documented);
    [reflexivity|reflexivity|lia].
Defined.

(** A number that does not fit; a file that cannot be read. *)
Example lua_macros_run :
  luaL_checkint demo_lua 0 1 (DemoState [] []) = Some (Returns 5, DemoState [] []) ∧
  luaL_dofile demo_lua 0 0 (DemoState [] []) = Some (Returns 1, DemoState [] []).
Proof. split; reflexivity. Qed.
