(* ===== verification/Platform.v ===== *)
(** What the headers put between the program and its platform: wrappers of
    the Windows C library ([flb_compat.h], [mk_sleep.h]), sockets and pipes
    ([flb_socket.h], [flb_pipe.h]), thread-local storage
    ([flb_thread_storage.h]), the iteration over fired events of the back ends
    of the event loop ([mk_event_*.h]), failures asked for by a fuzzer
    ([flb_mem.h]) and the macros that stop the program ([flb_macros.h],
    [mk_macros.h]).  The functions of the platform are parameters. *)
From stdpp Require Import strings gmap.
From S2P Require Import Prelude Mem MkEvent.

(** * Wrappers of the C library *)

Section libc.
Context (gmtime_s localtime_s : ptr → ptr → mem → Z * mem).
Context (ctime : ptr → mem → ptr * mem) (strcpy : ptr → ptr → mem → option mem).
Context (dwPageSize : Z).

Definition getpagesize : Z := s32 dwPageSize.

Definition gmtime_r (timep result : ptr) (m : mem) : ptr * mem :=
  let '(err, m) := gmtime_s result timep m in
  (if decide (err ≠ 0) then NULL else result, m).

Definition flb_localtime_r (timep result : ptr) (m : mem) : ptr * mem :=
  let '(err, m) := localtime_s result timep m in
  (if decide (err ≠ 0) then NULL else result, m).

Definition ctime_r (timep result : ptr) (m : mem) : option (ptr * mem) :=
  let '(tmp, m) := ctime timep m in
  if decide (tmp = NULL) then Some (NULL, m)
  else m ← strcpy result tmp m; Some (result, m).

(** NULL says that the time could not be converted, anything else is the
    buffer of the caller. *)
Lemma gmtime_r_spec timep result m :
  result ≠ NULL → (gmtime_r timep result m).1 = NULL ↔ (gmtime_s result timep m).1 ≠ 0.
Proof. intros Hr. unfold gmtime_r. destruct (gmtime_s result timep m) as [err m']. simpl. case_decide; naive_solver. Qed.
End libc.

(** Paths: [_splitpath_s] gives a drive, a directory, a name and an extension,
    [_makepath_s] puts such parts together, [_fullpath] allocates. *)
Section paths.
Context (_splitpath_s : string → string * string * string * string).
Context (_makepath_s : string → string → string → string → string).
Context (_fullpath : ptr → ptr → Z → mem → ptr * mem).

(** What is in the buffer that is returned. *)
Definition basename (path : string) : string :=
  let '(drive, dir, fname, ext) := _splitpath_s path in
  _makepath_s EmptyString EmptyString fname ext.

Definition realpath (path buf : ptr) (m : mem) : ptr * mem :=
  if decide (buf ≠ NULL) then (NULL, m) else _fullpath NULL path 0 m.

(** When parts are put together in order, and a path is made of its parts,
    the base name is what remains of the path after its directory. *)
Lemma basename_suffix path drive dir fname ext :
  (∀ d r f e, _makepath_s d r f e = d +:+ r +:+ f +:+ e) →
  _splitpath_s path = (drive, dir, fname, ext) → path = drive +:+ dir +:+ fname +:+ ext →
  path = drive +:+ dir +:+ basename path.
Proof. intros Hm Hs Hp. unfold basename. rewrite Hs, Hm. exact Hp. Qed.
End paths.

(** [sleep(x)] for an [int]: the product is an [int], what [_sleep] takes an
    unsigned number of milliseconds. *)
Definition sleep (x : Z) : option Z :=
  if decide (- 2 ^ 31 ≤ x * 1000 < 2 ^ 31) then Some (u32 (x * 1000)) else None.

(** It lasts [x] seconds up to almost 25 days, and is undefined from there. *)
Theorem sleep_bounds x : 0 ≤ x → sleep x = Some (x * 1000) ↔ x ≤ 2147483.
Proof.
  intros Hx. unfold sleep. case_decide as Hd.
  - split; [lia|]. intros _. f_equal. unfold wrap. apply Z.mod_small. lia.
  - split; [done|lia].
Qed.

(** * Sockets and pipes *)

Section sockets.
Context (EINTR EINPROGRESS EAGAIN EWOULDBLOCK WSAEWOULDBLOCK S_IFMT S_IFREG : Z).

(** On Windows, and elsewhere. *)
Definition FLB_EINPROGRESS (windows : bool) (e : Z) : Z :=
  if windows then c_bool (bool_decide (e = WSAEWOULDBLOCK))
  else c_bool (bool_decide (e = EINTR ∨ e = EINPROGRESS)).

(** [last] is the last error, of [WSAGetLastError] or [errno]. *)
Definition FLB_WOULDBLOCK (windows : bool) (last : Z) : Z :=
  if windows then c_bool (bool_decide (last = WSAEWOULDBLOCK))
  else c_bool (bool_decide (last = EAGAIN ∨ last = EWOULDBLOCK)).

Definition FLB_PIPE_WOULDBLOCK (windows : bool) (last : Z) : Z := FLB_WOULDBLOCK windows last.

Definition FLB_INVALID_SOCKET : Z := -1.

Definition flb_pipe_w {A} (windows : bool) (send : Z → ptr → Z → Z → A) (write : Z → ptr → Z → A) (fd : Z) (buf : ptr) (len : Z) : A :=
  if windows then send fd buf len 0 else write fd buf len.
Definition flb_pipe_r {A} (windows : bool) (recv : Z → ptr → Z → Z → A) (read : Z → ptr → Z → A) (fd : Z) (buf : ptr) (len : Z) : A :=
  if windows then recv fd buf len 0 else read fd buf len.

Definition S_ISREG (m : Z) : Z := c_bool (bool_decide (Z.land m S_IFMT = S_IFREG)).
Definition S_ISLNK (m : Z) : Z := 0.
End sockets.

(** * Thread-local storage

    A variable of the compiler, with a value for each thread, or a key of
    pthread, which [FLB_TLS_INIT] creates and which has a value for each
    thread that has set one. *)
Inductive tls :=
| TlsVariable (values : gmap Z ptr)
| TlsKey (key : option Z) (next : Z) (values : gmap (Z * Z) ptr).

Definition FLB_TLS_DEFINE (c_tls : bool) : tls := if c_tls then TlsVariable ∅ else TlsKey None 0 ∅.

Definition FLB_TLS_INIT (s : tls) : tls :=
  match s with
  | TlsVariable _ => s
  | TlsKey _ next values => TlsKey (Some next) (next + 1) values
  end.

(** A key that was not created cannot be used. *)
Definition FLB_TLS_SET (thread : Z) (val : ptr) (s : tls) : option tls :=
  match s with
  | TlsVariable values => Some (TlsVariable (<[thread := val]> values))
  | TlsKey key next values => k ← key; Some (TlsKey key next (<[(k, thread) := val]> values))
  end.

Definition FLB_TLS_GET (thread : Z) (s : tls) : option ptr :=
  match s with
  | TlsVariable values => Some (default NULL (values !! thread))
  | TlsKey key _ values => k ← key; Some (default NULL (values !! (k, thread)))
  end.

(** What threads do with it, and what they read. *)
Inductive tls_op := TlsSet (thread : Z) (val : ptr) | TlsGet (thread : Z).

Fixpoint tls_run (ops : list tls_op) (s : tls) : option (list ptr) :=
  match ops with
  | [] => Some []
  | TlsSet t v :: ops => s ← FLB_TLS_SET t v s; tls_run ops s
  | TlsGet t :: ops => v ← FLB_TLS_GET t s; vs ← tls_run ops s; Some (v :: vs)
  end.

(** Each thread has a variable of its own, NULL at first. *)
Fixpoint tls_spec (ops : list tls_op) (vals : Z → ptr) : list ptr :=
  match ops with
  | [] => []
  | TlsSet t v :: ops => tls_spec ops (λ u, if decide (u = t) then v else vals u)
  | TlsGet t :: ops => vals t :: tls_spec ops vals
  end.

Lemma tls_spec_ext ops vals vals' : (∀ t, vals t = vals' t) → tls_spec ops vals = tls_spec ops vals'.
Proof.
  revert vals vals'. induction ops as [|[t v|t] ops IH]; intros vals vals' H; simpl; [done|..].
  - apply IH. intros u. by case_decide.
  - f_equal; [done|]. by apply IH.
Qed.

(** A state stands for variables. *)
Definition tls_rel (s : tls) (vals : Z → ptr) : Prop := ∀ t, FLB_TLS_GET t s = Some (vals t).

Lemma tls_rel_set s vals t v : tls_rel s vals →
  ∃ s', FLB_TLS_SET t v s = Some s' ∧ tls_rel s' (λ u, if decide (u = t) then v else vals u).
Proof.
  intros Hs. destruct s as [values|[k|] next values]; simpl.
  - eexists. split; [done|]. intros u. specialize (Hs u). simpl in *. case_decide as Hu.
    + subst. by rewrite lookup_insert_eq.
    + by rewrite lookup_insert_ne by congruence.
  - eexists. split; [done|]. intros u. specialize (Hs u). simpl in *. case_decide as Hu.
    + subst. by rewrite lookup_insert_eq.
    + by rewrite lookup_insert_ne by congruence.
  - by specialize (Hs 0).
Qed.

Lemma tls_run_spec ops s vals : tls_rel s vals → tls_run ops s = Some (tls_spec ops vals).
Proof.
  revert s vals. induction ops as [|[t v|t] ops IH]; intros s vals Hs; simpl; [done|..].
  - destruct (tls_rel_set s vals t v Hs) as (s' & -> & Hs'). simpl. by apply IH.
  - rewrite (Hs t). simpl. by rewrite (IH s vals Hs).
Qed.

(** With either kind of storage, once it is initialised, each thread has a
    variable of its own: it reads what it has last written, and NULL before. *)
Theorem flb_tls_modes_agree c_tls ops : tls_run ops (FLB_TLS_INIT (FLB_TLS_DEFINE c_tls)) = Some (tls_spec ops (λ _, NULL)).
Proof. apply tls_run_spec. intros t. by destruct c_tls. Qed.

(** Initialising a key again makes every thread lose its value; this is how
    the parameters of input coroutines are lost ([Collect]). *)
Lemma flb_tls_init_again s vals k next values :
  s = TlsKey (Some k) next values → tls_rel s vals → (∀ t, values !! (next, t) = None) → tls_rel (FLB_TLS_INIT s) (λ _, NULL).
Proof. intros -> _ Hn t. simpl. by rewrite Hn. Qed.

(** * Fired events

    The macro [mk_event_foreach] as every back end writes it: the first entry
    is read before the loop, each other one by the increment. *)
Section foreach.
Context {S : Type} (body : Z → ptr → S → option S) (slot : Z → option ptr) (n_events : Z).

Fixpoint foreach_macro_loop (k : nat) (i : Z) (event : ptr) (s : S) : option S :=
  match k with
  | O => Some s
  | Datatypes.S k =>
      s ← body i event s;
      event ← (if decide (i + 1 < n_events) then slot (i + 1) else Some NULL);
      foreach_macro_loop k (i + 1) event s
  end.

Definition foreach_macro (event : ptr) (s : S) : option S :=
  event ← (if decide (0 < n_events) then slot 0 else Some event);
  foreach_macro_loop (Z.to_nat n_events) 0 event s.
End foreach.

(** The contexts of the other back ends, as far as the macro reads them. *)
Record mk_event_ctx_epoll := EpollCtx { ep_efd : Z; ep_queue_size : Z; ep_events : list ptr  (** [events[i].data.ptr] *) }.
Definition mk_event_foreach_epoll {S} (body : Z → ptr → S → option S) (n_events : Z) (ctx : mk_event_ctx_epoll) : ptr → S → option S :=
  foreach_macro body (λ i, ep_events ctx !! Z.to_nat i) n_events.

Record mk_event_ctx_kqueue := KqueueCtx { kq_kfd : Z; kq_queue_size : Z; kq_events : list ptr  (** [events[i].udata] *) }.
Definition mk_event_foreach_kqueue {S} (body : Z → ptr → S → option S) (n_events : Z) (ctx : mk_event_ctx_kqueue) : ptr → S → option S :=
  foreach_macro body (λ i, kq_events ctx !! Z.to_nat i) n_events.

Definition filter_mask (EVFILT_READ EVFILT_WRITE f : Z) : Z :=
  if decide (f = EVFILT_READ) then MK_EVENT_READ else if decide (f = EVFILT_WRITE) then MK_EVENT_WRITE else 0.

Record mk_event_ctx_select := SelectCtx {
  se_max_fd : Z;
  se_rfds : list Z; se_wfds : list Z;      (** original sets *)
  se__rfds : list Z; se__wfds : list Z;    (** populated before every select *)
  se_queue_size : Z;
  se_events : list ptr;
  se_fired : list ptr                      (** [fired[i].data] *)
}.
Definition mk_event_foreach_select {S} (body : Z → ptr → S → option S) (n_events : Z) (ctx : mk_event_ctx_select) : ptr → S → option S :=
  foreach_macro body (λ i, se_fired ctx !! Z.to_nat i) n_events.

Lemma foreach_macro_loop_eq {S} (body : Z → ptr → S → option S) fired n k i event s :
  Z.of_nat k + i = n → 0 ≤ i → n ≤ Z.of_nat (length fired) → (0 < Z.of_nat k → fired !! Z.to_nat i = Some event) →
  foreach_macro_loop body (λ i, fired !! Z.to_nat i) n k i event s = mk_event_foreach_loop body k i fired s.
Proof.
  revert i event s. induction k as [|k IH]; intros i event s Hk Hi Hn He; simpl; [done|].
  rewrite He by lia. simpl. destruct (body i event s) as [s'|]; simpl; [|done]. case_decide as Hlt.
  - destruct (lookup_lt_is_Some_2 fired (Z.to_nat (i + 1)) ltac:(lia)) as [ev Hev]. rewrite Hev. simpl.
    apply IH; [lia|lia|done|by intros].
  - simpl. apply IH; [lia|lia|done|lia].
Qed.

(** The traversal that the macro spells out is the one of [MkEvent], slot
    after slot, whatever the back end: it reads no slot past the events. *)
Theorem mk_event_foreach_backends {S} (body : Z → ptr → S → option S) n fired event s :
  0 ≤ n ≤ Z.of_nat (length fired) →
  let r := mk_event_foreach_loop body (Z.to_nat n) 0 fired s in
  (∀ efd size, mk_event_foreach_epoll body n (EpollCtx efd size fired) event s = r) ∧
  (∀ kfd size, mk_event_foreach_kqueue body n (KqueueCtx kfd size fired) event s = r) ∧
  ∀ max rf wf rf' wf' size evs,
    mk_event_foreach_select body n (SelectCtx max rf wf rf' wf' size evs fired) event s = r.
Proof.
  intros Hn r.
  assert (H : foreach_macro body (λ i, fired !! Z.to_nat i) n event s = r); [|by split_and!].
  unfold foreach_macro. case_decide as Hp; simpl.
  - destruct (lookup_lt_is_Some_2 fired (Z.to_nat 0) ltac:(lia)) as [ev Hev]. rewrite Hev. simpl.
    apply foreach_macro_loop_eq; [lia|lia|lia|by intros].
  - apply foreach_macro_loop_eq; lia.
Qed.

(** * Failures asked for by a fuzzer *)

(** [flb_malloc_p] counts calls up to [flb_malloc_mod], which the fuzzer sets;
    an [int] that overflows and a division by zero are undefined. *)
Record fuzz := Fuzz { flb_malloc_p : Z; flb_malloc_mod : Z }.

Definition flb_fuzz_get_probability (val : Z) (s : fuzz) : option (Z * fuzz) :=
  p ← int_add (flb_malloc_p s) 1;
  if decide (flb_malloc_mod s = 0) then None
  else
    let p := Z.rem p (flb_malloc_mod s) in
    Some (c_bool (bool_decide (p < val)), Fuzz p (flb_malloc_mod s)).

(** The answers to [n] calls. *)
Fixpoint fuzz_answers (val : Z) (n : nat) (s : fuzz) : option (list Z * fuzz) :=
  match n with
  | O => Some ([], s)
  | S n =>
      '(r, s) ← flb_fuzz_get_probability val s;
      '(rs, s) ← fuzz_answers val n s;
      Some (r :: rs, s)
  end.

Lemma fuzz_answers_run val n s :
  0 < flb_malloc_mod s < 2 ^ 31 → 0 ≤ flb_malloc_p s < flb_malloc_mod s →
  fuzz_answers val n s = Some
    ((λ i, c_bool (bool_decide ((flb_malloc_p s + Z.of_nat i) mod flb_malloc_mod s < val))) <$> seq 1 n,
     Fuzz ((flb_malloc_p s + Z.of_nat n) mod flb_malloc_mod s) (flb_malloc_mod s)).
Proof.
  revert s. induction n as [|n IH]; intros [p m] Hm Hp; simpl in *.
  - rewrite Z.add_0_r, Z.mod_small by lia. done.
  - unfold flb_fuzz_get_probability. simpl. rewrite int_add_Some by lia. simpl. rewrite decide_False by lia. simpl.
    rewrite Z.rem_mod_nonneg by lia. pose proof (Z.mod_pos_bound (p + 1) m ltac:(lia)).
    rewrite IH by (simpl; lia). simpl. do 2 f_equal.
    + f_equal. rewrite <- (seq_shift n 1). change (map S (seq 1 n)) with (S <$> seq 1 n). rewrite <- list_fmap_compose. apply list_fmap_ext. intros _ i _. unfold compose.
      rewrite Zplus_mod_idemp_l. by replace (p + 1 + Z.of_nat i) with (p + Z.of_nat (S i)) by lia.
    + rewrite Zplus_mod_idemp_l. by replace (p + 1 + Z.of_nat n) with (p + Z.of_nat (S n)) by lia.
Qed.

Definition sum (l : list Z) : Z := foldr Z.add 0 l.

Lemma sum_app l l' : sum (l ++ l') = sum l + sum l'.
Proof. induction l as [|x l IH]; simpl; [done|]. rewrite IH. lia. Qed.

Lemma sum_permutation l l' : l ≡ₚ l' → sum l = sum l'.
Proof. unfold sum. induction 1; simpl; lia. Qed.

(** A count that wraps around goes through every value once in a period. *)
Lemma period_permutation p m : 0 < m →
  (λ i, (p + Z.of_nat i) mod m) <$> seq 1 (Z.to_nat m) ≡ₚ Z.of_nat <$> seq 0 (Z.to_nat m).
Proof.
  intros Hm. apply NoDup_Permutation_bis.
  - apply NoDup_ListNoDup, NoDup_fmap_2_strong; [|apply NoDup_seq]. intros i j Hi%elem_of_seq Hj%elem_of_seq E.
    simpl in E. pose proof (Z.div_mod (p + Z.of_nat i) m ltac:(lia)) as Ei. pose proof (Z.div_mod (p + Z.of_nat j) m ltac:(lia)) as Ej.
    rewrite E in Ei. set (q := (p + Z.of_nat i) / m) in *. set (q' := (p + Z.of_nat j) / m) in *. clearbody q q'.
    assert (- m < m * (q - q') < m) by (rewrite Z.mul_sub_distr_l; lia).
    assert (q - q' = 0) by (destruct (Z.lt_trichotomy (q - q') 0) as [?|[?|?]]; nia). lia.
  - by rewrite !length_fmap, !length_seq.
  - intros x Hx%list_elem_of_In. apply list_elem_of_In. apply list_elem_of_fmap in Hx as (i & -> & _).
    pose proof (Z.mod_pos_bound (p + Z.of_nat i) m Hm). apply list_elem_of_fmap. exists (Z.to_nat ((p + Z.of_nat i) mod m)).
    split; [lia|]. apply elem_of_seq. lia.
Qed.

Lemma sum_below val n : 0 ≤ val → sum ((λ x, c_bool (bool_decide (x < val))) <$> (Z.of_nat <$> seq 0 n)) = Z.min (Z.of_nat n) val.
Proof.
  intros Hv. induction n as [|n IH]; [simpl; lia|]. rewrite seq_S, !fmap_app, sum_app, IH. simpl.
  case_bool_decide; simpl; lia.
Qed.

(** Out of any [flb_malloc_mod] calls in a row, exactly [val] are made to fail. *)
Theorem flb_fuzz_get_probability_exact val s :
  0 < flb_malloc_mod s < 2 ^ 31 → 0 ≤ flb_malloc_p s < flb_malloc_mod s → 0 ≤ val ≤ flb_malloc_mod s →
  ∃ rs, fuzz_answers val (Z.to_nat (flb_malloc_mod s)) s = Some (rs, s) ∧ sum rs = val.
Proof.
  intros Hm Hp Hv. eexists. split.
  - rewrite (fuzz_answers_run val _ s Hm Hp). do 2 f_equal. destruct s as [p m]. simpl in *. f_equal.
    rewrite Z2Nat.id by lia. rewrite <- (Z.mul_1_l m) at 1. rewrite Z_mod_plus_full. by apply Z.mod_small.
  - etransitivity.
    { exact (f_equal sum (list_fmap_compose (λ i, (flb_malloc_p s + Z.of_nat i) mod flb_malloc_mod s)
        (λ x, c_bool (bool_decide (x < val))) (seq 1 (Z.to_nat (flb_malloc_mod s))))). }
    rewrite (sum_permutation _ _ (fmap_Permutation _ _ _ (period_permutation (flb_malloc_p s) (flb_malloc_mod s) ltac:(lia)))).
    rewrite sum_below by lia. lia.
Qed.

(** * Stopping the program *)

(** [flb_bug], [mk_bug]: nothing, or the end of the program. *)
Definition flb_bug (condition : Z) : option unit := if decide (condition ≠ 0) then None else Some tt.
Definition mk_bug (condition : Z) : option unit := if decide (condition ≠ 0) then None else Some tt.
Definition mk_is_bool (x : Z) : Z := c_bool (bool_decide (x = FLB_TRUE ∨ x = FLB_FALSE)).

(** ** The theorems at work *)

Lemma sleep_bounds_witness : sleep 60 = Some (60 * 1000) ↔ 60 ≤ 2147483.
Proof. apply (sleep_bounds 60). lia. Defined.

Lemma mk_event_foreach_backends_witness :
  mk_event_foreach_epoll (λ i ev s, Some (s ++ [(i, ev)])) 2 (EpollCtx 3 256 [800; 900; 0]) NULL [] = Some [(0, 800); (1, 900)].
Proof.
  etransitivity; [apply (mk_event_foreach_backends (λ i ev s, Some (s ++ [(i, ev)])) 2 [800; 900; 0] NULL []); simpl; lia|reflexivity].
Defined.

Lemma flb_fuzz_get_probability_exact_witness : ∃ rs, fuzz_answers 1 4 (Fuzz 2 4) = Some (rs, Fuzz 2 4) ∧ sum rs = 1.
Proof. apply (flb_fuzz_get_probability_exact 1 (Fuzz 2 4)); simpl; lia. Defined.
