(* ===== verification/Version.v ===== *)
(** What the program says about itself: the control sequences of terminals
    ([mk_macros.h]), the version and the banner ([flb_version.h]), and the
    options that outputs for AWS share ([flb_aws_credentials.h]). *)
From stdpp Require Import strings.
From S2P Require Import Prelude Compat Constants.
Local Open Scope string_scope.

(** * Control sequences, empty for the compiler of Microsoft *)

Section ansi.
Context (msc : bool).

Definition ESC : Ascii.ascii := Ascii.ascii_of_nat 27.
Definition sequence (s : string) : string := if msc then EmptyString else String ESC s.

Definition ANSI_RESET : string := sequence "[0m".
Definition ANSI_BOLD : string := sequence "[1m".
Definition ANSI_CYAN : string := sequence "[96m".
Definition ANSI_MAGENTA : string := sequence "[95m".
Definition ANSI_RED : string := sequence "[91m".
Definition ANSI_YELLOW : string := sequence "[93m".
Definition ANSI_BLUE : string := sequence "[94m".
Definition ANSI_GREEN : string := sequence "[92m".
Definition ANSI_WHITE : string := sequence "[97m".
Definition ANSI_BOLD_CYAN : string := ANSI_BOLD +:+ ANSI_CYAN.
Definition ANSI_BOLD_MAGENTA : string := ANSI_BOLD +:+ ANSI_MAGENTA.
Definition ANSI_BOLD_RED : string := ANSI_BOLD +:+ ANSI_RED.
Definition ANSI_BOLD_YELLOW : string := ANSI_BOLD +:+ ANSI_YELLOW.
Definition ANSI_BOLD_BLUE : string := ANSI_BOLD +:+ ANSI_BLUE.
Definition ANSI_BOLD_GREEN : string := ANSI_BOLD +:+ ANSI_GREEN.
Definition ANSI_BOLD_WHITE : string := ANSI_BOLD +:+ ANSI_WHITE.
Definition MK_BANNER_ENTRY : string :=
  ANSI_BOLD +:+ "[" +:+ ANSI_GREEN +:+ "+" +:+ ANSI_RESET +:+ ANSI_BOLD +:+ "] " +:+ ANSI_RESET.

(** * Version *)

Definition FLB_VERSION_STR : string := "2.1.9".
Definition FLB_GIT_HASH : string := "c625ad7ea41123ad14f433fb569c5106645b6e82".

(** What is printed before the program exits; [nightly] is the name of the
    nightly build, if it is one. *)
Definition flb_version (nightly : option string) : string :=
  match nightly with
  | Some n => "Fluent Bit v" +:+ FLB_VERSION_STR +:+ " | NIGHTLY_BUILD=" +:+ n +:+ " - DO NOT USE IN PRODUCTION!" +:+ LF
  | None => "Fluent Bit v" +:+ FLB_VERSION_STR +:+ LF
  end +:+ "Git commit: " +:+ FLB_GIT_HASH +:+ LF.

(** What is written to [stderr]; [isatty] is asked about [stdout]. *)
Definition flb_version_banner (no_control_chars : bool) (isatty : Z → bool) (nightly : option string) : string :=
  let plain := no_control_chars || negb (isatty STDOUT_FILENO) in
  let copyright_color := if plain then EmptyString else ANSI_BOLD +:+ ANSI_YELLOW in
  let bold_color := if plain then EmptyString else ANSI_BOLD in
  let reset_color := if plain then EmptyString else ANSI_RESET in
  match nightly with
  | Some n => bold_color +:+ "Fluent Bit v" +:+ FLB_VERSION_STR +:+ " | NIGHTLY_BUILD=" +:+ n +:+
                " - DO NOT USE IN PRODUCTION!" +:+ reset_color +:+ LF
  | None => bold_color +:+ "Fluent Bit v" +:+ FLB_VERSION_STR +:+ reset_color +:+ LF
  end +:+
  "* " +:+ copyright_color +:+ "Copyright (C) 2015-2022 The Fluent Bit Authors" +:+ reset_color +:+ LF +:+
  "* Fluent Bit is a CNCF sub-project under the " +:+ "umbrella of Fluentd" +:+ LF +:+
  "* https://fluentbit.io" +:+ LF +:+ LF.

(** ** Where there are control sequences *)

Fixpoint has_char (c : Ascii.ascii) (s : string) : bool :=
  match s with
  | EmptyString => false
  | String d s => bool_decide (c = d) || has_char c s
  end.

Lemma has_char_app c s s' : has_char c (s +:+ s') = has_char c s || has_char c s'.
Proof. induction s as [|d s IH]; simpl; [done|]. by rewrite IH, orb_assoc. Qed.

(** The banner of a build of its own has control sequences exactly when
    [stdout] is a terminal, the build allows them and the compiler is not
    Microsoft's; where they are written is [stderr], which is not asked. *)
Theorem flb_version_banner_control no_control_chars isatty :
  has_char ESC (flb_version_banner no_control_chars isatty None) = negb msc && negb no_control_chars && isatty STDOUT_FILENO.
Proof.
  unfold flb_version_banner, ANSI_BOLD, ANSI_YELLOW, ANSI_RESET, sequence.
  destruct msc, no_control_chars, (isatty STDOUT_FILENO); vm_compute; reflexivity.
Qed.
End ansi.

(** Redirecting [stderr] alone puts them in the file. *)
Lemma banner_in_a_file :
  has_char ESC (flb_version_banner false false (λ fd, bool_decide (fd = STDOUT_FILENO)) None) = true.
Proof. reflexivity. Qed.

(** * Options of AWS *)

Record config_map_entry := {
  cm_type : Z; cm_name : string; cm_def_value : option string; cm_flags : Z; cm_set_property : Z; cm_offset : Z; cm_desc : string
}.

Definition FLB_AWS_CREDENTIAL_BASE_CONFIG_MAP (prefix : string) : list config_map_entry :=
  [{| cm_type := FLB_CONFIG_MAP_STR; cm_name := prefix +:+ "region"; cm_def_value := None; cm_flags := 0;
      cm_set_property := FLB_FALSE; cm_offset := 0; cm_desc := "AWS region of your service" |};
   {| cm_type := FLB_CONFIG_MAP_STR; cm_name := prefix +:+ "sts_endpoint"; cm_def_value := None; cm_flags := 0;
      cm_set_property := FLB_FALSE; cm_offset := 0;
      cm_desc := "Custom endpoint for the AWS STS API, used with the `" +:+ prefix +:+ "role_arn` option" |};
   {| cm_type := FLB_CONFIG_MAP_STR; cm_name := prefix +:+ "role_arn"; cm_def_value := None; cm_flags := 0;
      cm_set_property := FLB_FALSE; cm_offset := 0; cm_desc := "ARN of an IAM role to assume (ex. for cross account access)" |};
   {| cm_type := FLB_CONFIG_MAP_STR; cm_name := prefix +:+ "external_id"; cm_def_value := None; cm_flags := 0;
      cm_set_property := FLB_FALSE; cm_offset := 0;
      cm_desc := "Specify an external ID for the STS API, can be used with the `" +:+ prefix +:+
                 "role_arn` parameter if your role requires an external ID." |};
   {| cm_type := FLB_CONFIG_MAP_STR; cm_name := prefix +:+ "profile"; cm_def_value := None; cm_flags := 0;
      cm_set_property := FLB_FALSE; cm_offset := 0;
      cm_desc := "AWS Profile name. AWS Profiles can be configured with AWS CLI and are usually" +:+ "stored in $HOME/.aws/ directory." |}].

(** The options of a prefix are distinct. *)
Theorem aws_options_distinct prefix : NoDup (cm_name <$> FLB_AWS_CREDENTIAL_BASE_CONFIG_MAP prefix).
Proof.
  change (cm_name <$> _) with (String.append prefix <$> ["region"; "sts_endpoint"; "role_arn"; "external_id"; "profile"]).
  apply NoDup_fmap_2; [intros s s'; by apply (inj (String.append prefix))|evaluate].
Qed.
